(* ===== verification/_CoqProject ===== *)
-Q . S2P
Prelude.v
PyText.v
PyJson.v
Sha256.v
Base.v
Authoring.v
Runtime.v
Events.v
Triage.v
Trust.v
Samples.v
Artifacts.v
Evaluation.v
Registry.v
Compiler.v
Sealing.v
ContractStore.v
ContractInv.v
ContractLoad.v
Admission.v
Store.v
Catalog.v
CatalogInv.v
Provenance.v
Lease.v
Handlers.v
Ledger.v
LedgerInv.v
Lifecycle.v
Queue.v
Composer.v
Subject.v
Graders.v
AdapterCatalog.v
EvalStore.v
Verify.v
ReadModel.v
Preparation.v
EvalInv.v
System.v
Scenario.v
Guarantees.v
Replay.v
Idempotence.v
Evidence.v
Records.v
Coordinator.v
Histories.v
Offline.v
Attempts.v
Worker.v
LabStore.v
LabChat.v
LabTurn.v
LabLoop.v
LabLoopSpec.v
LabSession.v
