(* ===== verification/Prelude.v ===== *)
(** * Evidrun: a verification of its contracts, of its run store and of its execution

    Evidrun (src/src/evidrun/) runs reproducible studies of agents. A Study and the
    contracts it references are authored as immutable, digest-identified revisions; the
    compiler turns a Study into a matrix of RunSpecs; admission decides whether a runtime
    may execute a RunSpec; the queue hands admitted Runs to workers under fenced leases;
    a coordinator drives each attempt through the Subject and the evaluator; the ledger
    records what happened to a Run as a hash-chained list of events; evaluation records
    and gates judge the result; an exported Run is verified by replaying its chain.

    ** How the parts interact

    Contracts are pure: registry -> compiler -> admission produce documents. The database
    stores keep them and are the only state the processes share: preparation registers
    contracts and publishes the matrix with its trust records; [enqueue_run] reads an
    admission and writes a Run, its first event and its job; [claim_next_job] gives a
    worker a fence; every later write of that worker ([prepare_run_execution],
    [append_event], [save_subject_response], evaluations, [complete_lease]) re-reads the
    fence in its own transaction. An attempt is a process that calls the stores, the
    Subject and the evaluator; the worker wraps it with a heartbeat and settles its lease.
    The verifier reads only documents exported from the ledger.

    ** Files

    - Prelude.v: exceptions, the [result] monad, Python's stable [sorted], lists, tactics
      [inv_ok] and [bools], the hint database [evidrun].
    - PyText.v, PyJson.v, Sha256.v: Python text and time, canonical JSON
      (shared/types.py) and the SHA-256 digest. The classes [PyRuntime] and
      [PyRuntimeLaws] hold what belongs to the interpreter: the digest function, the text
      of a float and of a datetime. Nothing is assumed of the digest: a theorem that needs
      two documents to differ exhibits a collision otherwise.
    - Base.v, Authoring.v, Runtime.v, Events.v, Triage.v, Trust.v, Evaluation.v: the
      documents of contracts/ (base.py, authoring/, runtime/, triage.py,
      execution_trust.py, evaluation.py), one record per model, [validate_*] per model
      validator, [to_*] for its JSON document. Samples.v: concrete instances.
    - Registry.v (contracts/registry.py, authority.py): the in-memory registry as a state
      machine, and the interface [ContractResolver] with its law [ResolverLaws].
      Compiler.v (contracts/compiler.py): the compiler over any lawful resolver.
      Sealing.v (contracts/execution_trust.py): sealed revision sets, the second resolver,
      and the lineage checks. Admission.v (contracts/admission/): every check and the
      declarative policy [Admissible] it decides.
    - ContractStore.v, ContractInv.v, ContractLoad.v (infrastructure/database/registry.py,
      contracts/authoring/parse.py): the persistent registry, its invariants, and its
      refinement of Registry.v.
    - Store.v (infrastructure/database/models.py, unit_of_work.py, clock.py): tables,
      rows, the transaction monad [Tx]; a transaction that raises leaves the database.
      Catalog.v (catalog.py, trust.py): Projects, RunSpecs, admissions, trust
      records; CatalogInv.v and Provenance.v: its invariants and what a stored admission
      rests on. Lease.v and Queue.v (queue/), Handlers.v and Ledger.v (ledger/),
      EvalStore.v (evaluation/, evidence_boundary.py): one definition per store
      operation, each the whole transaction. ReadModel.v (read_model/): the queries.
    - LedgerInv.v, Lifecycle.v, EvalInv.v: the invariants and the rule-based
      specification of the event language. System.v: every store operation as a
      [command], [reachable] states, and the invariants on them. Scenario.v: a complete
      Run, executed, on which the theorems are instantiated.
    - Artifacts.v (infrastructure/artifacts/): the encrypted content-addressed store over
      the file system and the key directory. Composer.v (contexts/): context composition.
      Subject.v (subject_runners/, runs/adapters/, infrastructure/providers/): the scripted
      Subject and the read agent with its tool and budgets. Graders.v (evaluations/,
      runs/adapters/): both graders. AdapterCatalog.v (runs/adapters/catalog.py,
      runs/admission/): which adapter executes a RunSpec.
    - Verify.v (evidence/verify/dispatch.py): the replay of an exported chain.
    - Preparation.v (runs/preparation.py): registration, compilation, trust and admission
      of a whole Study. Coordinator.v (runs/coordinator/): an
      attempt as a process, a tree of calls and answers. Histories.v: executions of
      several such processes over the stores, with crashes and with sessions the database
      fails to serve. Offline.v: one offline Run from the documents to the terminal
      event, executed. Attempts.v: the theorems about attempts. Worker.v
      (runs/worker.py): a round of the worker and its heartbeat.
    - LabStore.v (infrastructure/database/lab.py, lab_records.py, lab_errors.py): the
      sessions, messages, instructions and traces of the laboratory chat; LabChat.v: its
      histories. LabTurn.v (contracts/lab_agent/, lab/budgets.py, protocol.py, turn.py,
      tools/_base.py): refusals, envelope, budgets and argument checks. LabLoop.v
      (lab/loop.py, serving.py, trace.py): a turn of the laboratory agent as a tree of its
      conversations; LabLoopSpec.v: the weakest precondition over it and its theorems.
      LabSession.v (lab/session.py): a turn over the store.
    - Guarantees.v, Replay.v, Idempotence.v, Evidence.v, Records.v: the theorems about all
      reachable states and all continuations.

    ** What the theorems show

    - Ledger and queue (Guarantees, Evidence, Idempotence): the stored events of a Run
      refine the lifecycle automaton, are numbered and hash-chained; leases are exclusive
      and a superseded fence can write nothing; a terminal Run is closed; history only
      grows; a Run is completed only on evidence; keyed operations take effect once.
    - Attempts and the worker (Attempts, Worker): on every history of interleaved
      attempts, crashes, retries and storage failures a Subject starts at most once, an
      attempt that returns leaves a terminal Run, a superseded attempt changes nothing,
      and a round that claimed a job settles its lease.
    - Evaluation (Evaluation, Records): records are checked against the plan, bounded by
      the ledger and unique; gates and visible stages; the built-in evaluation is atomic.
    - Contracts (Registry, Compiler, Sealing, Admission, Trust): registry invariants and
      authority; the matrix is exact and controlled comparisons isolate their variable;
      sealing is decidable and reproduces the matrix; trust and review lineage; admission
      decides the declarative policy and grants no more than was requested.
    - Contract tables and catalog (ContractInv, ContractLoad, Provenance, Preparation):
      the persistent registry refines the in-memory one; a stored admission rests on the
      RunSpec, trust record and revisions it cites; preparation publishes exactly the
      matrix and repeating it writes nothing.
    - Adapters (AdapterCatalog, Subject, Graders, Artifacts): what the runtime admits it
      can execute; the read agent terminates within its budgets whatever the provider
      answers; the strict grader passes only what was read; artifacts are durable.
    - Evidence bundles (Replay): what the stores write, the verifier accepts, and what it
      accepts is a lifecycle.
    - Laboratory (LabChat, LabLoopSpec, LabSession): a session reads back exactly what was
      said in it, and a Workspace neither sees nor changes another; a turn of the agent
      ends within its budgets whatever it is answered, runs only offered tools on valid
      arguments and records every run and refusal; a turn leaves exactly its messages,
      its instruction and its traces.
    - Ten defects of the code are recorded, each as a theorem: a response accepted while a
      tool call is open wedges the Run; the worker whose attempt was interrupted in a tool call raises out of its round each time; the offer
      of a capability without permissions raises; an empty override shares its digest
      with an inherited one; a heartbeat with a non-positive duration commits and then
      raises; a backdated superseding decision, and a revision whose predecessor another
      Project registered, make the persistent registry unloadable; content stored again
      after a purge is written and then refused; a blank chat message makes every later
      turn of its session fail; a blank tool name leaves the loop as an exception.

    ** Choices

    Integers are Python's and stay unbounded ([Z]); floats enter comparisons by their
    value and text. Loops of the modelled code are recursions on a list or a document,
    with two exceptions. The loop of the read agent takes fuel, and [agent_fuel] rounds
    suffice, since every round but the last executes a tool call and calls are bounded
    ([read_agent_disciplined]); the loop of the laboratory agent takes [turn_fuel], one
    round more than its envelope allows ([turn_within_budget]). Attempts and worker rounds are finite trees of calls. A
    TEXT column written with [canonical_json] and read back holds the document. Sessions
    of one store operation are composed in order without interleaving; different
    operations interleave arbitrarily ([reachable], and [Histories] for the calls of
    several attempts). An instant is a number of microseconds and the clock is an
    argument of each command. A fixed identifier source is part of the command's
    environment.

    Code outside the repository, and the schema of pydantic models, are parameters:
    [HumanVerifier] (the attestation verifier), [PayloadDump] and [RevisionModels]
    (pydantic's validation of payloads and of stored revisions), [UnicodeTables] and
    [Utf8Decoder] (the interpreter's text), [VaultCrypto] with [VaultLaws] and
    [HexDigests] (encryption and key files), [JsonObjects] and [ResponseModels] (parsing
    of provider responses), [JsonLoads] (parsing of tool arguments), [EnvelopeModel] (stored
    envelopes), [LegacyExperiments] and [ComparisonTable] (legacy tables); the catalog of
    tools and the composition of the instruction are arguments of a laboratory turn.
    Their laws state what is documented, and each is instantiated in the examples.

    ** Not modelled

    The SQL engine beyond its uniqueness constraints, rollback and failures to serve;
    pydantic's field parsing; HTTP, CLI, the endless loop of the worker and its logging;
    the provider's HTTP client and its credentials; WebAuthn; the service facades and the
    review projections of runs/; the dashboard and list projections of the read model;
    the record layers of bundle verification, the exporters and archives; the laboratory tools behind the loop,
    the composition of its instruction and its presentation events; migrations and
    repository scripts. They are input/output, third-party code or presentation around
    the modelled core. [create_run] and [save_subject_envelope] of the catalog are used
    by tests only. RunSpecs and admissions do not change while Runs execute, preparation
    runs without concurrent writers, and a wall-clock budget is counted in microseconds. *)

From stdpp Require Export base tactics option list strings gmap sorting pretty.
From Stdlib Require Export ZArith Lia.

#[global] Open Scope stdpp_scope.

(** ** Exceptions and results *)

(** The exceptions the modelled code raises, one constructor per Python class.
    [ValidationError] is pydantic's (raised by a model's own validators),
    [IntegrityError] the database's (a violated table constraint), [OSError] the file
    system's, [TriageRejected] the repository's structured refusal, named by its code;
    [SubjectBudgetExceeded] and [ProviderRequestError] end a Subject turn;
    [OperationalError] is the database engine's failure to serve a session;
    [LabStoreRejected] is the structured refusal of the laboratory store. *)
Inductive exn :=
  | ValueError (msg : string)
  | ValidationError (msg : string)
  | KeyError (key : string)
  | TypeError (msg : string)
  | PermissionError (msg : string)
  | LeaseLost (msg : string)
  | IntegrityError (constraint : string)
  | TriageRejected (code : string)
  | OSError (msg : string)
  | RuntimeError (msg : string)
  | TimeoutError
  | SubjectBudgetExceeded (msg : string)
  | ProviderRequestError (code : string)
  | OperationalError
  | LabStoreRejected (code : string) (field : option string).

#[export] Instance exn_eq_dec : EqDecision exn.
Proof. solve_decision. Defined.

Inductive result (A : Type) :=
  | Ok (a : A)
  | Raise (e : exn).
Arguments Ok {A} a.
Arguments Raise {A} e.

#[export] Instance result_eq_dec `{EqDecision A} : EqDecision (result A).
Proof. solve_decision. Defined.

#[export] Instance result_ret : MRet result := λ A a, Ok a.
#[export] Instance result_bind : MBind result := λ A B f m,
  match m with Ok a => f a | Raise e => Raise e end.
#[export] Instance result_fmap : FMap result := λ A B f m,
  match m with Ok a => Ok (f a) | Raise e => Raise e end.

(** [if guard: raise e]. *)
Definition raise_when (guard : bool) (e : exn) : result unit :=
  if guard then Raise e else Ok tt.

(** [x = row; if x is None: raise e]. *)
Definition require {A} (o : option A) (e : exn) : result A :=
  match o with Some a => Ok a | None => Raise e end.

Definition is_ok {A} (r : result A) : bool :=
  match r with Ok _ => true | Raise _ => false end.

(** [for x in l: acc = f acc x] with a body that may raise. *)
Fixpoint fold_res {A B} (f : B → A → result B) (acc : B) (l : list A) : result B :=
  match l with
  | [] => Ok acc
  | x :: l' => acc' ← f acc x; fold_res f acc' l'
  end.

(** Boolean equality tests, as the code writes them. *)
Notation "x ==b y" := (bool_decide (x = y)) (at level 35, no associativity) : stdpp_scope.
Notation "x !=b y" := (negb (bool_decide (x = y))) (at level 35, no associativity) : stdpp_scope.
Notation "x ∈b l" := (bool_decide (x ∈ l)) (at level 35, no associativity) : stdpp_scope.

Section results.
Context {A B : Type}.

Lemma bind_ok (m : result A) (f : A → result B) b :
  (m ≫= f) = Ok b ↔ ∃ a, m = Ok a ∧ f a = Ok b.
Proof. destruct m; cbn; naive_solver. Qed.

Lemma fmap_ok (m : result A) (f : A → B) b :
  (f <$> m) = Ok b ↔ ∃ a, m = Ok a ∧ b = f a.
Proof. destruct m; cbn; naive_solver. Qed.

Lemma require_ok (o : option A) e a : require o e = Ok a ↔ o = Some a.
Proof. destruct o; cbn; naive_solver. Qed.
End results.

Lemma raise_when_ok b e u : raise_when b e = Ok u ↔ b = false.
Proof. destruct b, u; cbn; naive_solver. Qed.

Lemma raise_when_false e : raise_when false e = Ok tt.
Proof. done. Qed.

(** Turn every hypothesis [c = Ok x] about a monadic computation into the facts
    that made it succeed. *)
Ltac inv_ok_step :=
  match goal with
  | H : Raise _ = Ok _ |- _ => discriminate H
  | H : Ok _ = Raise _ |- _ => discriminate H
  | H : Ok _ = Ok _ |- _ => injection H as H; try subst
  | H : mret _ = Ok _ |- _ => injection H as H; try subst
  | H : mbind _ _ = Ok _ |- _ => apply bind_ok in H as (? & ? & H)
  | H : fmap _ _ = Ok _ |- _ => apply fmap_ok in H as (? & ? & H); try subst
  | H : raise_when _ _ = Ok _ |- _ => apply raise_when_ok in H
  | H : require _ _ = Ok _ |- _ => apply require_ok in H
  | H : (_, _) = (_, _) |- _ => injection H as ? ?; try subst
  end.
Ltac inv_ok := repeat inv_ok_step.

(** Boolean facts to propositions. *)
Ltac bools_step :=
  match goal with
  | H : (_ || _) = false |- _ => apply orb_false_iff in H as [? ?]
  | H : (_ && _) = true |- _ => apply andb_true_iff in H as [? ?]
  | H : negb _ = true |- _ => apply negb_true_iff in H
  | H : negb _ = false |- _ => apply negb_false_iff in H
  | H : bool_decide _ = true |- _ => apply bool_decide_eq_true in H
  | H : bool_decide _ = false |- _ => apply bool_decide_eq_false in H
  end.
Ltac bools := repeat bools_step.

(** ** Stable insertion sort, the result of Python's [sorted] *)

Section sorting.
Context {A : Type} (leb : A → A → bool).

Fixpoint insert_sorted (x : A) (l : list A) : list A :=
  match l with
  | [] => [x]
  | y :: l' => if leb y x then y :: insert_sorted x l' else x :: l
  end.

Definition sort_by (l : list A) : list A :=
  foldl (λ acc x, insert_sorted x acc) [] l.

Lemma sort_by_snoc l x : sort_by (l ++ [x]) = insert_sorted x (sort_by l).
Proof. unfold sort_by. by rewrite foldl_app. Qed.

Lemma insert_sorted_Permutation x l : insert_sorted x l ≡ₚ x :: l.
Proof.
  induction l as [|y l IH]; cbn; [done|].
  destruct (leb y x); [|done]. rewrite IH. apply Permutation_swap.
Qed.

Lemma sort_by_Permutation l : sort_by l ≡ₚ l.
Proof.
  induction l as [|x l IH] using rev_ind; [done|].
  rewrite sort_by_snoc, insert_sorted_Permutation, IH.
  by rewrite Permutation_app_comm.
Qed.

Lemma elem_of_sort_by x l : x ∈ sort_by l ↔ x ∈ l.
Proof. by rewrite sort_by_Permutation. Qed.

Lemma length_sort_by l : length (sort_by l) = length l.
Proof. by rewrite sort_by_Permutation. Qed.

(** Inserting above everything appends. *)
Lemma insert_sorted_snoc x l :
  (∀ y, y ∈ l → leb y x = true) → insert_sorted x l = l ++ [x].
Proof.
  induction l as [|y l IH]; cbn; intros Hall; [done|].
  rewrite Hall by left. f_equal. apply IH. intros z Hz. apply Hall. by right.
Qed.

Hypothesis leb_total : ∀ x y, leb x y = false → leb y x = true.
Hypothesis leb_trans : ∀ x y z, leb x y = true → leb y z = true → leb x z = true.

Let R x y := leb x y = true.

Lemma insert_sorted_Sorted x l :
  StronglySorted R l → StronglySorted R (insert_sorted x l).
Proof.
  induction 1 as [|y l Hl IH Hy]; cbn; [repeat constructor|].
  destruct (leb y x) eqn:E.
  - constructor; [done|]. rewrite insert_sorted_Permutation. by constructor.
  - apply leb_total in E. constructor; [by constructor|].
    constructor; [done|]. eapply Forall_impl; [exact Hy|].
    intros z Hz. by eapply leb_trans.
Qed.

Lemma sort_by_Sorted l : StronglySorted R (sort_by l).
Proof.
  induction l as [|x l IH] using rev_ind; [constructor|].
  rewrite sort_by_snoc. by apply insert_sorted_Sorted.
Qed.

Lemma sort_by_id l : StronglySorted R l → sort_by l = l.
Proof.
  induction l as [|x l IH] using rev_ind; [done|]. intros Hs.
  rewrite sort_by_snoc, IH by by eapply StronglySorted_app_1_l.
  apply insert_sorted_snoc. intros y Hy.
  by eapply StronglySorted_app_1_elem_of in Hs; [exact Hs|exact Hy|left].
Qed.
End sorting.

(** The head of a sorted list is a least element. *)
Lemma head_sort_by {A} (leb : A → A → bool) l x :
  (∀ x y, leb x y = false → leb y x = true) →
  (∀ x y z, leb x y = true → leb y z = true → leb x z = true) →
  head (sort_by leb l) = Some x → x ∈ l ∧ ∀ y, y ∈ l → y = x ∨ leb x y = true.
Proof.
  intros Ht Htr H. pose proof (sort_by_Sorted leb Ht Htr l) as Hs.
  destruct (sort_by leb l) as [|z l'] eqn:E; [done|]. injection H as ->. split.
  - apply (elem_of_sort_by leb). rewrite E. left.
  - intros y Hy. apply (elem_of_sort_by leb) in Hy. rewrite E in Hy.
    apply elem_of_cons in Hy as [->|Hy]; [by left|right].
    inversion Hs as [|? ? ? Hf]; subst. rewrite Forall_forall in Hf. by apply Hf.
Qed.

Lemma insert_sorted_first {A} (leb : A → A → bool) x l :
  (∀ z, z ∈ l → leb z x = false) → insert_sorted leb x l = x :: l.
Proof. destruct l as [|y l]; cbn; intros Hl; [done|]. by rewrite Hl by left. Qed.

(** Stability: sorting commutes with selecting rows. *)
Lemma filter_sort_by {A} (leb : A → A → bool) (p : A → bool) l :
  (∀ x y, leb x y = false → leb y x = true) →
  (∀ x y z, leb x y = true → leb y z = true → leb x z = true) →
  List.filter p (sort_by leb l) = sort_by leb (List.filter p l).
Proof.
  intros Ht Htr.
  assert (Hins : ∀ x k, StronglySorted (λ a b, leb a b = true) k →
    List.filter p (insert_sorted leb x k)
    = if p x then insert_sorted leb x (List.filter p k) else List.filter p k).
  { intros x k Hk. induction Hk as [|y k Hk IH Hy]; cbn; [by destruct (p x)|].
    destruct (leb y x) eqn:E; cbn.
    - rewrite IH. destruct (p y), (p x); cbn; by rewrite ?E.
    - destruct (p x); [|done]. rewrite insert_sorted_first; [done|].
      intros z Hz. destruct (leb z x) eqn:Ez; [|done].
      assert (Hyz : leb y z = true ∨ z = y).
      { destruct (p y); [apply elem_of_cons in Hz as [->|Hz]; [by right|]|]; left;
          rewrite Forall_forall in Hy; apply Hy;
          by rewrite list_elem_of_In, filter_In, <- list_elem_of_In in Hz; destruct Hz. }
      destruct Hyz as [Hyz| ->]; [|congruence]. by rewrite (Htr _ _ _ Hyz Ez) in E. }
  induction l as [|x l IH] using rev_ind; [done|].
  rewrite sort_by_snoc, Hins by by apply sort_by_Sorted. rewrite List.filter_app, IH. cbn.
  destruct (p x); [by rewrite sort_by_snoc|by rewrite app_nil_r].
Qed.

(** [sorted(names)] on strings: Python compares code points, which is the byte
    order of the UTF-8 encoding the model's strings hold. *)
Definition sorted_strings : list string → list string := sort_by String.leb.

Lemma string_leb_total s1 s2 : String.leb s1 s2 = false → String.leb s2 s1 = true.
Proof. destruct (String.leb_total s1 s2); congruence. Qed.

Lemma string_leb_trans s1 s2 s3 :
  String.leb s1 s2 = true → String.leb s2 s3 = true → String.leb s1 s3 = true.
Proof.
  rewrite <- !Is_true_true. intros H1 H2. exact (transitivity (R:=String.le) H1 H2).
Qed.

(** ** Duplicate tests: [len(keys) != len(set(keys))] *)

Definition has_duplicates `{EqDecision A} (l : list A) : bool :=
  negb (bool_decide (NoDup l)).

Lemma has_duplicates_false `{EqDecision A} (l : list A) :
  has_duplicates l = false ↔ NoDup l.
Proof. unfold has_duplicates. rewrite negb_false_iff. apply bool_decide_eq_true. Qed.

(** [next((x for x in l if p(x)), None)]. *)
Fixpoint find_first {A} (p : A → bool) (l : list A) : option A :=
  match l with
  | [] => None
  | x :: l' => if p x then Some x else find_first p l'
  end.

Lemma find_first_Some {A} (p : A → bool) l x :
  find_first p l = Some x → x ∈ l ∧ p x = true.
Proof.
  induction l as [|y l IH]; cbn; [done|]. destruct (p y) eqn:E; intros H; simplify_eq.
  - split; [left|done].
  - destruct (IH H). split; [by right|done].
Qed.

Lemma find_first_None {A} (p : A → bool) l :
  find_first p l = None ↔ ∀ x, x ∈ l → p x = false.
Proof.
  induction l as [|y l IH]; cbn; [set_solver|]. destruct (p y) eqn:E; split; intros H.
  - done.
  - rewrite H in E by left. done.
  - intros x [->|Hx]%elem_of_cons; [done|]. by apply IH.
  - apply IH. intros x Hx. apply H. by right.
Qed.

(** [any(...)] and [all(...)]. *)
Lemma existsb_true {A} (p : A → bool) l : existsb p l = true ↔ ∃ x, x ∈ l ∧ p x = true.
Proof.
  rewrite existsb_exists. setoid_rewrite <- list_elem_of_In. done.
Qed.

Lemma existsb_false {A} (p : A → bool) l : existsb p l = false ↔ ∀ x, x ∈ l → p x = false.
Proof.
  induction l as [|y l IH]; cbn; [set_solver|]. rewrite orb_false_iff, IH. set_solver.
Qed.

Lemma forallb_true {A} (p : A → bool) l : forallb p l = true ↔ ∀ x, x ∈ l → p x = true.
Proof.
  rewrite forallb_forall. setoid_rewrite <- list_elem_of_In. done.
Qed.

Lemma forallb_map {A B} (f : A → B) (p : B → bool) l :
  forallb p (map f l) = forallb (λ x, p (f x)) l.
Proof. induction l as [|x l IH]; cbn; [done|]. by rewrite IH. Qed.

(** [l[-1]] and its absence. *)
Lemma last_Some_elem {A} (l : list A) x : last l = Some x → x ∈ l.
Proof. intros [l' ->]%last_Some. set_solver. Qed.

Create HintDb evidrun.
Lemma find_first_app {A} (p : A → bool) l k :
  find_first p (l ++ k) = match find_first p l with Some x => Some x | None => find_first p k end.
Proof. induction l as [|x l IH]; cbn; [done|]. by destruct (p x). Qed.

#[export] Hint Resolve last_Some_elem find_first_Some : evidrun.
