(* ===== verification/PyText.v ===== *)
(** * Python text and time: what the code uses of [str], [re] and [datetime].

    A Python [str] is the byte string of its UTF-8 encoding. [str.strip] removes
    the Unicode white space Python knows, a pattern of [re.fullmatch] is a boolean
    test, and an instant is the number of microseconds since 1970-01-01T00:00 UTC,
    the resolution of [datetime]; [isoformat] is [datetime.isoformat] of the naive
    UTC value. *)

From S2P Require Import Prelude.
From Stdlib Require Import Ascii.

(** ** White space *)

Definition byte_of (c : ascii) : N := N_of_ascii c.

(** One-byte white space: HT, LF, VT, FF, CR, FS, GS, RS, US and the space. *)
Definition space1 (a : N) : bool :=
  ((9 <=? a) && (a <=? 13) || (28 <=? a) && (a <=? 32))%N.

(** U+0085 and U+00A0. *)
Definition space2 (a b : N) : bool := ((a =? 194) && ((b =? 133) || (b =? 160)))%N.

(** U+1680, U+2000-200A, U+2028, U+2029, U+202F, U+205F and U+3000. *)
Definition space3 (a b c : N) : bool :=
  ((a =? 225) && (b =? 154) && (c =? 128)
   || (a =? 226) && (b =? 128)
      && ((128 <=? c) && (c <=? 138) || (c =? 168) || (c =? 169) || (c =? 175))
   || (a =? 226) && (b =? 129) && (c =? 159)
   || (a =? 227) && (b =? 128) && (c =? 128))%N.

(** Cut leading white space; [sp] says which one-byte characters count. *)
Fixpoint lstrip_with (sp : N → bool) (s : string) : string :=
  match s with
  | EmptyString => ""
  | String a s1 =>
      if sp (byte_of a) then lstrip_with sp s1
      else match s1 with
      | String b s2 =>
          if space2 (byte_of a) (byte_of b) then lstrip_with sp s2
          else match s2 with
          | String c s3 =>
              if space3 (byte_of a) (byte_of b) (byte_of c) then lstrip_with sp s3 else s
          | EmptyString => s
          end
      | EmptyString => s
      end
  end.

(** Cut trailing white space: stop where only white space is left. *)
Fixpoint rstrip_with (sp : N → bool) (s : string) : string :=
  if lstrip_with sp s ==b "" then ""
  else match s with String a s' => String a (rstrip_with sp s') | EmptyString => "" end.

(** [s.strip()]. *)
Definition strip (s : string) : string := rstrip_with space1 (lstrip_with space1 s).

(** [not s.strip()]. *)
Definition is_blank (s : string) : bool := strip s ==b "".

(** The [strip_whitespace=True] of a string field: the Unicode property White_Space,
    which leaves out the separators FS, GS, RS and US. *)
Definition field_space (a : N) : bool := ((9 <=? a) && (a <=? 13) || (a =? 32))%N.
Definition trim (s : string) : string := rstrip_with field_space (lstrip_with field_space s).

(** ** Patterns *)

Definition is_lower (c : ascii) : bool := ((97 <=? byte_of c) && (byte_of c <=? 122))%N.
Definition is_digit (c : ascii) : bool := ((48 <=? byte_of c) && (byte_of c <=? 57))%N.

Fixpoint all_chars (p : ascii → bool) (s : string) : bool :=
  match s with EmptyString => true | String c s' => p c && all_chars p s' end.

(** [^[0-9a-f]{64}$], the pattern of [Digest]. *)
Definition is_digest (s : string) : bool :=
  all_chars (λ c, is_digit c || ((97 <=? byte_of c) && (byte_of c <=? 102))%N) s
  && (String.length s =? 64)%nat.

(** [[a-z][a-z0-9_]{0,63}], the pattern of an execution reason code. *)
Definition is_reason_code (s : string) : bool :=
  match s with
  | String c s' =>
      is_lower c
      && all_chars (λ c, is_lower c || is_digit c || (byte_of c =? 95)%N) s'
      && (String.length s' <=? 63)%nat
  | EmptyString => false
  end.

(** [s.startswith(p)]. *)
Definition startswith (p s : string) : bool := String.prefix p s.

(** [sep.join(parts)]. *)
Fixpoint join (sep : string) (parts : list string) : string :=
  match parts with
  | [] => ""
  | [p] => p
  | p :: rest => p +:+ sep +:+ join sep rest
  end.

(** ** Instants *)

Abbreviation instant := Z.

(** Decimal with leading zeros to a width. *)
Definition pad (width : nat) (z : Z) : string :=
  let digits := pretty z in
  String.concat "" (repeat "0" (width - String.length digits)) +:+ digits.

(** Proleptic Gregorian date of a day number (day 0 is 1970-01-01). *)
Definition civil_of_days (days : Z) : Z * Z * Z :=
  let z := (days + 719468)%Z in
  let era := (z / 146097)%Z in
  let doe := (z mod 146097)%Z in
  let yoe := ((doe - doe / 1460 + doe / 36524 - doe / 146096) / 365)%Z in
  let doy := (doe - (365 * yoe + yoe / 4 - yoe / 100))%Z in
  let mp := ((5 * doy + 2) / 153)%Z in
  let d := (doy - (153 * mp + 2) / 5 + 1)%Z in
  let m := (if mp <? 10 then mp + 3 else mp - 9)%Z in
  let y := (yoe + era * 400 + (if m <=? 2 then 1 else 0))%Z in
  (y, m, d).

(** [value.replace(tzinfo=None).isoformat()] of a UTC instant. *)
Definition isoformat (t : instant) : string :=
  let secs := (t / 1000000)%Z in
  let micro := (t mod 1000000)%Z in
  let '(y, m, d) := civil_of_days (secs / 86400) in
  let sod := (secs mod 86400)%Z in
  pad 4 y +:+ "-" +:+ pad 2 m +:+ "-" +:+ pad 2 d +:+ "T"
  +:+ pad 2 (sod / 3600) +:+ ":" +:+ pad 2 (sod / 60 mod 60) +:+ ":" +:+ pad 2 (sod mod 60)
  +:+ (if (micro =? 0)%Z then "" else "." +:+ pad 6 micro).

Example isoformat_whole : isoformat 1785801600000000 = "2026-08-04T00:00:00".
Proof. vm_compute. reflexivity. Qed.

Example isoformat_fraction : isoformat 951868799000042 = "2000-02-29T23:59:59.000042".
Proof. vm_compute. reflexivity. Qed.

Example strip_unicode : strip (String "194" (String "160" "run ")) = "run".
Proof. vm_compute. reflexivity. Qed.

(** ** Facts *)

Lemma string_app_cons c s1 s2 : String c s1 +:+ s2 = String c (s1 +:+ s2).
Proof. done. Qed.

Lemma string_app_nil_l (s : string) : "" +:+ s = s.
Proof. done. Qed.

Lemma all_chars_app p s1 s2 : all_chars p (s1 +:+ s2) = all_chars p s1 && all_chars p s2.
Proof.
  induction s1 as [|c s1 IH]; [done|].
  rewrite string_app_cons. cbn. rewrite IH.
  by rewrite andb_assoc.
Qed.

Lemma all_chars_impl (p q : ascii → bool) s :
  (∀ c, p c = true → q c = true) → all_chars p s = true → all_chars q s = true.
Proof.
  intros Hpq. induction s as [|c s IH]; cbn; [done|].
  rewrite !andb_true_iff. intros [??]. auto.
Qed.

Lemma string_app_assoc (s1 s2 s3 : string) : (s1 +:+ s2) +:+ s3 = s1 +:+ s2 +:+ s3.
Proof.
  induction s1 as [|c s1 IH]; [done|].
  by rewrite !string_app_cons, IH.
Qed.

Lemma string_app_nil_r (s : string) : s +:+ "" = s.
Proof. induction s as [|c s IH]; [done|]. by rewrite string_app_cons, IH. Qed.

(** ** Slices of a byte string: [s[:n]] and [s[n:]] *)

Fixpoint take_str (n : nat) (s : string) : string :=
  match n, s with
  | S n', String c s' => String c (take_str n' s')
  | _, _ => ""
  end.

Fixpoint drop_str (n : nat) (s : string) : string :=
  match n, s with
  | S n', String _ s' => drop_str n' s'
  | _, _ => s
  end.

Lemma take_str_app s t : take_str (String.length s) (s +:+ t) = s.
Proof.
  induction s as [|c s IH]; cbn [String.length]; [by destruct t|].
  rewrite string_app_cons. cbn. by rewrite IH.
Qed.

Lemma drop_str_app s t : drop_str (String.length s) (s +:+ t) = t.
Proof.
  induction s as [|c s IH]; cbn [String.length]; [by destruct t|].
  rewrite string_app_cons. cbn. exact IH.
Qed.

Lemma take_drop_str n s : take_str n s +:+ drop_str n s = s.
Proof.
  revert s. induction n as [|n IH]; intros [|c s]; cbn; [done..|].
  by rewrite string_app_cons, IH.
Qed.
