(* ===== verification/PyJson.v ===== *)
(** * JSON documents and their canonical text.

    [json] is what [json.dumps]/[json.loads] exchange; an object is the list of a
    dict's items in insertion order. [canonical_json] is
    [json.dumps(value, ensure_ascii=False, sort_keys=True, separators=(",", ":"))]
    of src/src/evidrun/shared/types.py and [sha256_json] the hex digest of its UTF-8
    bytes. The digest function and the text of a float are the interpreter's and the text
    of a [datetime] field the serializer's: the class [PyRuntime] holds them, [PyRuntimeLaws] the documented facts about the
    text of a float the canonical form relies on (shortest round-trip text, never the
    text of an [int], a single JSON token). No law is assumed of the digest.

    Main results: the canonical text is that of the document with sorted keys, it does
    not depend on the insertion order of keys, and it determines the document up to
    that order, so two documents with one digest are equal or exhibit a collision. *)

From S2P Require Import Prelude PyText.
From Stdlib Require Import Ascii SpecFloat.

(** ** Floats: IEEE binary64 values *)

Record pyfloat := MkFloat {
  pf_value : spec_float;
  pf_valid : valid_binary 53 1024 pf_value = true
}.

#[export] Instance spec_float_eq_dec : EqDecision spec_float.
Proof. solve_decision. Defined.

Lemma pyfloat_eq f g : pf_value f = pf_value g → f = g.
Proof.
  destruct f as [x Hx], g as [y Hy]; cbn. intros ->. f_equal. apply proof_irrel.
Qed.

#[export] Instance pyfloat_eq_dec : EqDecision pyfloat.
Proof.
  refine (λ f g, match decide (pf_value f = pf_value g) with
                 | left H => left (pyfloat_eq f g H)
                 | right H => right (λ E, H (f_equal pf_value E))
                 end).
Defined.

(** [x < y] on floats. *)
Definition float_ltb (f g : pyfloat) : bool := SFltb (pf_value f) (pf_value g).
(** [x <= y] on floats. *)
Definition float_leb (f g : pyfloat) : bool := SFleb (pf_value f) (pf_value g).

(** ** Documents *)

Inductive json :=
  | JNull
  | JBool (b : bool)
  | JInt (z : Z)
  | JFloat (f : pyfloat)
  | JStr (s : string)
  | JArr (l : list json)
  | JObj (m : list (string * json)).

Section json_ind.
Context (P : json → Prop)
  (Hnull : P JNull) (Hbool : ∀ b, P (JBool b)) (Hint : ∀ z, P (JInt z))
  (Hfloat : ∀ f, P (JFloat f)) (Hstr : ∀ s, P (JStr s))
  (Harr : ∀ l, Forall P l → P (JArr l))
  (Hobj : ∀ m, Forall (λ kv, P kv.2) m → P (JObj m)).

Fixpoint json_nested_ind (v : json) : P v :=
  match v with
  | JNull => Hnull
  | JBool b => Hbool b
  | JInt z => Hint z
  | JFloat f => Hfloat f
  | JStr s => Hstr s
  | JArr l => Harr l ((fix go l := match l return Forall P l with
      | [] => Forall_nil_2 _ | x :: l' => Forall_cons_2 _ _ _ (json_nested_ind x) (go l') end) l)
  | JObj m => Hobj m ((fix go m := match m return Forall (λ kv, P kv.2) m with
      | [] => Forall_nil_2 _
      | kv :: m' => Forall_cons_2 _ _ _ (json_nested_ind kv.2) (go m') end) m)
  end.
End json_ind.

#[export] Instance json_eq_dec : EqDecision json.
Proof.
  refine (fix go (v w : json) {struct v} : Decision (v = w) :=
    match v, w with
    | JNull, JNull => left eq_refl
    | JBool a, JBool b => cast_if (decide (a = b))
    | JInt a, JInt b => cast_if (decide (a = b))
    | JFloat a, JFloat b => cast_if (decide (a = b))
    | JStr a, JStr b => cast_if (decide (a = b))
    | JArr l, JArr k => cast_if (@decide (l = k) (@list_eq_dec _ go l k))
    | JObj m, JObj n =>
        cast_if (@decide (m = n)
          (@list_eq_dec _ (@prod_eq_dec _ _ _ go) m n))
    | _, _ => right _
    end); clear go; abstract congruence.
Defined.

(** [d.get(k)]; in a dict the first item under a key is the only one. *)
Fixpoint obj_get (k : string) (m : list (string * json)) : option json :=
  match m with
  | [] => None
  | (k', v) :: m' => if decide (k = k') then Some v else obj_get k m'
  end.

(** [d.get(k)] on a document: [None] also stands for JSON null. *)
Definition jget (k : string) (v : json) : option json :=
  match v with
  | JObj m => match obj_get k m with Some JNull => None | o => o end
  | _ => None
  end.

(** [d[k]], which raises [KeyError] on a missing key. *)
Definition jitem (k : string) (v : json) : result json :=
  match v with
  | JObj m => require (obj_get k m) (KeyError k)
  | _ => Raise (TypeError "not a mapping")
  end.

(** [str(d[k])] of a string field. *)
Definition jtext (v : json) : string := match v with JStr s => s | _ => "" end.

(** ** The interpreter's digest and float text *)

Class PyRuntime := {
  sha256_hex : string → string;
  float_repr : pyfloat → string;
  (** The JSON text pydantic writes for a UTC [datetime]. *)
  utc_text : instant → string
}.

(** The double quote and the backslash. *)
Definition dquote : ascii := "034"%char.
Definition backslash : ascii := "092"%char.

(** A character that may occur in a number or in [null], [true], [false], [NaN],
    [Infinity]: not a quote and not a structural character. *)
Definition token_char (c : ascii) : bool :=
  negb (existsb (Ascii.eqb c) [","; ":"; "["; "]"; "{"; "}"; dquote]%char).

(** Not the text of a number. *)
Definition json_word (s : string) : bool :=
  existsb (String.eqb s) [""; "null"; "true"; "false"].

(** Documented facts about [float.__repr__] as [json.dumps] prints it. *)
Class PyRuntimeLaws `{PyRuntime} := {
  float_repr_token f : all_chars token_char (float_repr f) = true;
  float_repr_not_int f (z : Z) : float_repr f ≠ pretty z;
  float_repr_not_word f : json_word (float_repr f) = false;
  float_repr_inj : Inj (=) (=) float_repr
}.

(** ** json.dumps *)

Definition hex_digit (n : N) : ascii := ascii_of_N (if (n <? 10)%N then 48 + n else 87 + n).

(** The escapes of [json.dumps(..., ensure_ascii=False)]. *)
Definition escape_char (c : ascii) : string :=
  let n := byte_of c in
  if (n =? 34)%N then String backslash (String dquote "")
  else if (n =? 92)%N then String backslash (String backslash "")
  else if (n =? 10)%N then "\n"
  else if (n =? 13)%N then "\r"
  else if (n =? 9)%N then "\t"
  else if (n =? 12)%N then "\f"
  else if (n =? 8)%N then "\b"
  else if (n <? 32)%N
  then "\u00" +:+ String (hex_digit (n / 16)) (String (hex_digit (n mod 16)) "")
  else String c "".

Fixpoint escape (s : string) : string :=
  match s with EmptyString => "" | String c s' => escape_char c +:+ escape s' end.

Definition quote (s : string) : string := String dquote (escape s +:+ String dquote "").

Section dumps.
Context `{PyRuntime}.

Fixpoint dumps (v : json) : string :=
  match v with
  | JNull => "null"
  | JBool true => "true"
  | JBool false => "false"
  | JInt z => pretty z
  | JFloat f => float_repr f
  | JStr s => quote s
  | JArr l => "[" +:+ join "," (map dumps l) +:+ "]"
  | JObj m =>
      "{" +:+ join "," (map (λ '(k, w), quote k +:+ ":" +:+ dumps w) m) +:+ "}"
  end.

Definition key_leb (p q : string * json) : bool := String.leb p.1 q.1.

(** [sort_keys=True], at every depth. *)
Fixpoint sort_keys (v : json) : json :=
  match v with
  | JArr l => JArr (map sort_keys l)
  | JObj m => JObj (sort_by key_leb (map (λ '(k, w), (k, sort_keys w)) m))
  | _ => v
  end.

Definition canonical_json (v : json) : string := dumps (sort_keys v).

Definition sha256_json (v : json) : string := sha256_hex (canonical_json v).
End dumps.

(** ** The text determines the document *)

(** What may follow a value: the end of the text or a structural character. *)
Definition delimited (r : string) : Prop :=
  match r with EmptyString => True | String c _ => token_char c = false end.

(** A text cut where a class of characters ends. *)
Definition ends_class (p : ascii → bool) (r : string) : Prop :=
  match r with EmptyString => True | String c _ => p c = false end.

Lemma chars_split p t1 t2 r1 r2 :
  all_chars p t1 = true → all_chars p t2 = true →
  ends_class p r1 → ends_class p r2 → t1 +:+ r1 = t2 +:+ r2 → t1 = t2 ∧ r1 = r2.
Proof.
  revert t2. induction t1 as [|c t1 IH]; intros [|d t2] H1 H2 D1 D2 E; cbn in *; bools.
  - done.
  - rewrite string_app_cons, string_app_nil_l in E. subst r1. cbn in D1. congruence.
  - rewrite string_app_cons, string_app_nil_l in E. subst r2. cbn in D2. congruence.
  - rewrite !string_app_cons in E. injection E as -> E.
    destruct (IH t2) as [-> ->]; auto.
Qed.

Lemma token_split t1 t2 r1 r2 :
  all_chars token_char t1 = true → all_chars token_char t2 = true →
  delimited r1 → delimited r2 → t1 +:+ r1 = t2 +:+ r2 → t1 = t2 ∧ r1 = r2.
Proof. apply chars_split. Qed.

Lemma delimited_char c r : token_char c = false → delimited (String c r).
Proof. done. Qed.

(** *** Strings *)

Fixpoint string_prefixb (s1 s2 : string) : bool :=
  match s1, s2 with
  | EmptyString, _ => true
  | String a s1', String b s2' => Ascii.eqb a b && string_prefixb s1' s2'
  | _, EmptyString => false
  end.

Lemma string_app_prefix s1 s2 r1 r2 :
  s1 +:+ r1 = s2 +:+ r2 → string_prefixb s1 s2 = true ∨ string_prefixb s2 s1 = true.
Proof.
  revert s2. induction s1 as [|a s1 IH]; intros [|b s2]; cbn; [by left..|by right|].
  rewrite !string_app_cons. intros [= -> E]. rewrite Ascii.eqb_refl. cbn. by apply IH.
Qed.

Definition all_ascii : list ascii := map ascii_of_nat (seq 0 256).

Lemma elem_of_all_ascii c : c ∈ all_ascii.
Proof.
  apply list_elem_of_fmap. exists (nat_of_ascii c). split.
  - by rewrite ascii_nat_embedding.
  - apply elem_of_seq. pose proof (nat_ascii_bounded c). lia.
Qed.

(** No escape is a prefix of another character's escape, nor starts with a quote. *)
Lemma escape_char_prefix_free c d :
  string_prefixb (escape_char c) (escape_char d) = true → c = d.
Proof.
  assert (forallb (λ c, forallb (λ d,
    implb (string_prefixb (escape_char c) (escape_char d)) (Ascii.eqb c d)) all_ascii) all_ascii
    = true) as Hall by (vm_compute; reflexivity).
  rewrite forallb_true in Hall. specialize (Hall c (elem_of_all_ascii c)).
  rewrite forallb_true in Hall. specialize (Hall d (elem_of_all_ascii d)).
  intros E. rewrite E in Hall. by apply Ascii.eqb_eq.
Qed.

Lemma escape_char_no_quote c :
  string_prefixb (String dquote "") (escape_char c) = false
  ∧ string_prefixb (escape_char c) (String dquote "") = false.
Proof.
  assert (forallb (λ c, negb (string_prefixb (String dquote "") (escape_char c))
    && negb (string_prefixb (escape_char c) (String dquote ""))) all_ascii = true) as Hall
    by (vm_compute; reflexivity).
  rewrite forallb_true in Hall. specialize (Hall c (elem_of_all_ascii c)). by bools.
Qed.

Lemma escape_split s1 s2 r1 r2 :
  escape s1 +:+ String dquote r1 = escape s2 +:+ String dquote r2 → s1 = s2 ∧ r1 = r2.
Proof.
  revert s2. induction s1 as [|c s1 IH]; intros [|d s2]; cbn [escape];
    rewrite ?string_app_assoc; intros E.
  - by injection E as ->.
  - change (String dquote "" +:+ r1 = escape_char d +:+ (escape s2 +:+ String dquote r2)) in E.
    apply string_app_prefix in E. destruct (escape_char_no_quote d); intuition congruence.
  - change (escape_char c +:+ (escape s1 +:+ String dquote r1) = String dquote "" +:+ r2) in E.
    apply string_app_prefix in E. destruct (escape_char_no_quote c); intuition congruence.
  - assert (c = d) as ->.
    { destruct (string_app_prefix _ _ _ _ E) as [?|?]; [|symmetry]; by apply escape_char_prefix_free. }
    apply (inj (String.app (escape_char d))) in E. destruct (IH _ E) as [-> ->]. done.
Qed.

Lemma quote_split s1 s2 r1 r2 : quote s1 +:+ r1 = quote s2 +:+ r2 → s1 = s2 ∧ r1 = r2.
Proof.
  unfold quote. rewrite !string_app_cons, !string_app_assoc. intros [= E].
  by apply escape_split.
Qed.

(** *** Comma-separated items *)

Section items.
Context {A : Type} (p : A → string) (close : ascii).
Context (p_head : ∀ x, ∃ c s, p x = String c s ∧ c ≠ close).
Hypothesis close_comma : close ≠ ","%char.
Hypothesis close_delim : token_char close = false.

Definition splits (x : A) : Prop := ∀ y r1 r2,
  delimited r1 → delimited r2 → p x +:+ r1 = p y +:+ r2 → x = y ∧ r1 = r2.

(** The text after the first item. *)
Fixpoint tail_text (l : list A) : string :=
  match l with [] => "" | x :: l' => String "," (p x +:+ tail_text l') end.

Lemma join_cons x l : join "," (map p (x :: l)) = p x +:+ tail_text l.
Proof.
  revert x. induction l as [|y l IH]; intros x; [by cbn; rewrite string_app_nil_r|].
  change (join "," (map p (x :: y :: l))) with (p x +:+ "," +:+ join "," (map p (y :: l))).
  by rewrite IH.
Qed.

Lemma delimited_tail l r : delimited (tail_text l +:+ String close r).
Proof. destruct l; cbn; [done|]. by rewrite string_app_cons. Qed.

Lemma tail_split l1 l2 r1 r2 :
  Forall splits l1 → tail_text l1 +:+ String close r1 = tail_text l2 +:+ String close r2 →
  l1 = l2 ∧ r1 = r2.
Proof.
  intros Hl. revert l2. induction Hl as [|x l1 Hx _ IH]; intros [|y l2]; cbn;
    rewrite ?string_app_cons; intros E.
  - by injection E as ->.
  - injection E as ? _. congruence.
  - injection E as ? _. congruence.
  - injection E as E. rewrite !string_app_assoc in E.
    destruct (Hx y _ _ (delimited_tail _ _) (delimited_tail _ _) E) as [-> E'].
    destruct (IH _ E') as [-> ->]. done.
Qed.

Lemma items_split l1 l2 r1 r2 :
  Forall splits l1 →
  join "," (map p l1) +:+ String close r1 = join "," (map p l2) +:+ String close r2 →
  l1 = l2 ∧ r1 = r2.
Proof.
  intros Hl. destruct l1 as [|x l1], l2 as [|y l2]; rewrite ?join_cons; intros E.
  - by injection E as ->.
  - destruct (p_head y) as (c & s & Hy & ?). rewrite Hy in E.
    rewrite !string_app_cons in E. injection E as ? _. congruence.
  - destruct (p_head x) as (c & s & Hx & ?). rewrite Hx in E.
    rewrite !string_app_cons in E. injection E as ? _. congruence.
  - rewrite !string_app_assoc in E. inversion Hl as [|?? Hx Hl']; subst.
    destruct (Hx y _ _ (delimited_tail _ _) (delimited_tail _ _) E) as [-> E'].
    destruct (tail_split _ _ _ _ Hl' E') as [-> ->]. done.
Qed.
End items.

(** *** Numbers *)

Definition numeral_char (c : ascii) : bool := is_digit c || Ascii.eqb c "-".

Lemma numeral_char_token c : numeral_char c = true → token_char c = true.
Proof.
  assert (forallb (λ c, implb (numeral_char c) (token_char c)) all_ascii = true) as Hall
    by (vm_compute; reflexivity).
  rewrite forallb_true in Hall. specialize (Hall c (elem_of_all_ascii c)).
  intros E. by rewrite E in Hall.
Qed.

Lemma pretty_N_char_numeral x : numeral_char (pretty_N_char x) = true.
Proof. unfold pretty_N_char. by repeat case_match. Qed.

Lemma pretty_N_go_numeral x s :
  s ≠ "" → all_chars numeral_char s = true →
  pretty_N_go x s ≠ "" ∧ all_chars numeral_char (pretty_N_go x s) = true.
Proof.
  revert s. induction (N.lt_wf_0 x) as [x _ IH]. intros s Hs Hall.
  destruct (decide (x = 0%N)) as [->|Hx]; [by rewrite pretty_N_go_0|].
  rewrite pretty_N_go_step by lia. apply IH.
  - apply N.div_lt; lia.
  - done.
  - cbn. by rewrite pretty_N_char_numeral.
Qed.

Lemma pretty_N_numeral (x : N) : pretty x ≠ "" ∧ all_chars numeral_char (pretty x) = true.
Proof.
  unfold pretty, pretty_N. case_decide; [done|].
  rewrite pretty_N_go_step by lia. apply pretty_N_go_numeral; [done|].
  cbn. by rewrite pretty_N_char_numeral.
Qed.

Lemma pretty_Z_numeral (z : Z) : pretty z ≠ "" ∧ all_chars numeral_char (pretty z) = true.
Proof.
  unfold pretty, pretty_Z. destruct z as [|p|p]; [done|apply pretty_N_numeral|].
  split; [done|]. rewrite all_chars_app. apply andb_true_iff. split; [done|].
  apply pretty_N_numeral.
Qed.

Lemma pretty_Z_not_word (z : Z) : json_word (pretty z) = false.
Proof.
  destruct (pretty_Z_numeral z) as [Hne Hall]. apply existsb_false.
  intros w Hw. apply String.eqb_neq. intros <-.
  repeat (apply elem_of_cons in Hw as [E|Hw];
    [rewrite E in *; first [done|discriminate Hall]|]). by apply not_elem_of_nil in Hw.
Qed.

(** *** Values *)

Section split.
Context `{PyRuntimeLaws}.

(** The values printed as a single token. *)
Definition is_token (v : json) : bool :=
  match v with JStr _ | JArr _ | JObj _ => false | _ => true end.

Lemma token_text v :
  is_token v = true → dumps v ≠ "" ∧ all_chars token_char (dumps v) = true.
Proof.
  destruct v as [|[]|z|f|s|l|m]; cbn; intros Hv; try done.
  - destruct (pretty_Z_numeral z). eauto using all_chars_impl, numeral_char_token.
  - split; [|apply float_repr_token]. intros E. pose proof (float_repr_not_word f) as Hw.
    rewrite E in Hw. discriminate Hw.
Qed.

Lemma token_inj v w : is_token v = true → is_token w = true → dumps v = dumps w → v = w.
Proof.
  destruct v as [|[]|z|f|s|l|m], w as [|[]|z'|f'|s'|l'|m']; cbn; intros Hv Hw E;
    try discriminate; try done; f_equal;
    try (pose proof (pretty_Z_not_word z) as Hz; rewrite E in Hz; discriminate Hz);
    try (pose proof (pretty_Z_not_word z') as Hz; rewrite <- E in Hz; discriminate Hz);
    try (pose proof (float_repr_not_word f) as Hf; rewrite E in Hf; discriminate Hf);
    try (pose proof (float_repr_not_word f') as Hf; rewrite <- E in Hf; discriminate Hf).
  - by apply (inj pretty).
  - symmetry in E. by apply float_repr_not_int in E.
  - by apply float_repr_not_int in E.
  - by apply float_repr_inj.
Qed.

Lemma dumps_head v : ∃ c s, dumps v = String c s ∧ c ≠ "]"%char ∧ c ≠ "}"%char.
Proof.
  destruct (is_token v) eqn:Hv.
  - destruct (token_text v Hv) as [Hne Hall]. destruct (dumps v) as [|c s]; [done|].
    cbn in Hall. bools. exists c, s. split; [done|]. split; intros ->; discriminate.
  - destruct v; try discriminate; by eexists _, _.
Qed.

Definition member_text (kv : string * json) : string :=
  quote kv.1 +:+ ":" +:+ dumps kv.2.

Lemma member_head kv : ∃ c s, member_text kv = String c s ∧ c ≠ "}"%char.
Proof. by eexists _, _. Qed.

Lemma dumps_members m :
  map (λ '(k, w), quote k +:+ ":" +:+ dumps w) m = map member_text m.
Proof. apply map_ext. by intros [k w]. Qed.

Lemma token_vs_composite v w r1 r2 :
  is_token v = true → is_token w = false → dumps v +:+ r1 ≠ dumps w +:+ r2.
Proof.
  intros Hv Hw E. destruct (token_text v Hv) as [Hne Hall].
  destruct (dumps v) as [|c s]; [done|]. cbn in Hall. bools.
  destruct w; try discriminate; cbn in E; rewrite !string_app_cons in E;
    injection E as -> _; discriminate.
Qed.

Lemma dumps_splits v : splits dumps v.
Proof.
  intros w. revert w.
  induction v as [|b|z|f|s|l IH|m IH] using json_nested_ind; intros w r1 r2 D1 D2 E;
    try (destruct (is_token w) eqn:Hw;
      [ match type of E with dumps ?v +:+ _ = _ =>
          destruct (token_text v eq_refl) as [_ ?] end;
        destruct (token_text w Hw) as [_ ?];
        apply token_split in E as [E ->]; try done; by apply token_inj in E
      | exfalso; by eapply token_vs_composite in E ]).
  all: destruct (is_token w) eqn:Hw;
    [exfalso; by eapply token_vs_composite; [exact Hw| |symmetry; exact E]|].
  all: destruct w as [| | | |s'|l'|m']; try discriminate; try discriminate E.
  - by apply quote_split in E as [-> ->].
  - cbn in E. rewrite !string_app_cons, !string_app_nil_l, !string_app_assoc in E.
    injection E as E. rewrite !string_app_cons, !string_app_nil_l in E.
    apply items_split in E as [-> ->]; try done.
    intros x. destruct (dumps_head x) as (c & t & ? & ? & ?). by eauto.
  - cbn in E. rewrite !dumps_members in E.
    rewrite !string_app_cons, !string_app_nil_l, !string_app_assoc in E.
    injection E as E. rewrite !string_app_cons, !string_app_nil_l in E.
    apply items_split in E as [-> ->]; try done; [apply member_head|].
    eapply Forall_impl; [exact IH|]. intros [k x] Hx [k' y] q1 q2 Q1 Q2 E'.
    unfold member_text in E'. cbn in *. rewrite !string_app_assoc in E'.
    apply quote_split in E' as [-> E']. apply (inj (String.app ":")) in E'.
    destruct (Hx y _ _ Q1 Q2 E') as [-> ->]. done.
Qed.

Lemma dumps_inj v w : dumps v = dumps w → v = w.
Proof.
  intros E. apply (f_equal (λ s, s +:+ "")) in E. by apply dumps_splits in E as [-> _].
Qed.
End split.

(** ** Canonical text and documents up to key order *)

(** Every object is a dict: no key occurs twice. *)
Fixpoint unique_keys (v : json) : bool :=
  match v with
  | JArr l => forallb unique_keys l
  | JObj m => bool_decide (NoDup m.*1) && forallb (λ '(_, w), unique_keys w) m
  | _ => true
  end.

(** The same document with the items of each object in any order. *)
Inductive same_document : json → json → Prop :=
  | same_refl v : same_document v v
  | same_arr l k : Forall2 same_document l k → same_document (JArr l) (JArr k)
  | same_obj m n n' :
      n ≡ₚ n' →
      Forall2 (λ p q, p.1 = q.1 ∧ same_document p.2 q.2) m n' →
      same_document (JObj m) (JObj n).

Definition sort_item (kv : string * json) : string * json := (kv.1, sort_keys kv.2).

Lemma sort_keys_obj m : sort_keys (JObj m) = JObj (sort_by key_leb (map sort_item m)).
Proof. cbn. do 2 f_equal. apply map_ext. by intros [k w]. Qed.

Lemma sort_item_keys m : (map sort_item m).*1 = m.*1.
Proof. induction m as [|[k w] m IH]; cbn; [done|]. by rewrite IH. Qed.

(** Sorting a dict's items does not depend on the order they come in. *)
Lemma sort_by_key_perm (m n : list (string * json)) :
  NoDup m.*1 → m ≡ₚ n → sort_by key_leb m = sort_by key_leb n.
Proof.
  intros Hnd Hp.
  assert (∀ l, StronglySorted (λ p q, key_leb p q = true) (sort_by key_leb l)) as Hs.
  { intros l. apply sort_by_Sorted.
    - intros p q. apply string_leb_total.
    - intros p q r. apply string_leb_trans. }
  eapply (StronglySorted_unique_strong (λ p q, key_leb p q = true)); try apply Hs.
  - intros p q Hp1 Hq1 Hpq Hqp.
    rewrite sort_by_Permutation in Hp1. rewrite sort_by_Permutation, <- Hp in Hq1.
    assert (p.1 = q.1) as Hk by by apply String.leb_antisym.
    destruct p as [k v], q as [k' w]. cbn in Hk. subst k'. f_equal.
    apply list_elem_of_lookup in Hp1 as [i Hi]. apply list_elem_of_lookup in Hq1 as [j Hj].
    assert (i = j) as ->.
    { eapply NoDup_lookup; [exact Hnd| |]; rewrite list_lookup_fmap;
        [by rewrite Hi|by rewrite Hj]. }
    congruence.
  - by rewrite !sort_by_Permutation.
Qed.

Lemma unique_keys_items m :
  unique_keys (JObj m) = true →
  NoDup m.*1 ∧ ∀ p, p ∈ m → unique_keys p.2 = true.
Proof.
  cbn. intros Hm. bools. split; [done|]. intros [k w] Hp.
  match goal with H : forallb _ _ = true |- _ => rewrite forallb_true in H end.
  by eapply (H0 (k, w)).
Qed.

Lemma sort_keys_same v w : sort_keys v = sort_keys w → same_document v w.
Proof.
  revert w. induction v as [|b|z|f|s|l IH|m IH] using json_nested_ind; intros w E;
    destruct w as [|b'|z'|f'|s'|l'|m']; try discriminate E; try (injection E as <-);
    try apply same_refl.
  - apply same_arr. injection E as E. revert l' E.
    induction IH as [|x l Hx _ IHl]; intros [|y l'] E; try discriminate; constructor.
    + injection E as E _. auto.
    + injection E as _ E. auto.
  - rewrite !sort_keys_obj in E. injection E as E.
    assert (map sort_item m ≡ₚ map sort_item m') as Hp.
    { rewrite <- (sort_by_Permutation key_leb (map sort_item m)), E.
      apply sort_by_Permutation. }
    apply Permutation_map_inv in Hp as (n' & En & Hn).
    apply same_obj with n'; [done|]. clear E Hn.
    revert n' En. induction IH as [|[k x] m Hx _ IHm]; intros [|[k' y] n'] En;
      try discriminate; constructor.
    + injection En as <- E _. cbn in *. auto.
    + injection En as _ _ E. auto.
Qed.

Lemma same_document_sort v w :
  unique_keys v = true → unique_keys w = true →
  same_document v w → sort_keys v = sort_keys w.
Proof.
  revert w. induction v as [|b|z|f|s|l IH|m IH] using json_nested_ind; intros w Uv Uw S;
    inversion S as [|? k Hlk|? n n' Hn Hmn]; subst; try done.
  - cbn in *. f_equal. rewrite forallb_true in Uv, Uw. clear S.
    induction Hlk as [|x y l k Hxy _ IHl]; [done|]. cbn.
    inversion IH as [|?? Hx IH']; subst. f_equal.
    + apply Hx; [apply Uv|apply Uw|done]; left.
    + apply IHl; [done| |]; intros z Hz; [apply Uv|apply Uw]; by right.
  - apply unique_keys_items in Uv as [Nm Um]. apply unique_keys_items in Uw as [Nn Un].
    rewrite !sort_keys_obj. f_equal.
    assert (map sort_item m = map sort_item n') as Em.
    { assert (∀ p, p ∈ n' → unique_keys p.2 = true) as Un'
        by (intros p Hp; apply Un; by rewrite Hn).
      clear Nm Nn Un Hn S. revert Um IH.
      induction Hmn as [|[k x] [k' y] m n' [Ek Hxy] _ IHm]; intros Um IH; [done|].
      inversion IH as [|?? Hx IH']; subst. cbn in *. subst k'. f_equal.
      - unfold sort_item; cbn. f_equal.
        apply Hx; [apply (Um (k, x))|apply (Un' (k, y))|done]; left.
      - apply IHm; [|intros z Hz|done]; [|apply Um]; [intros z Hz; apply Un'|]; by right. }
    rewrite Em. apply sort_by_key_perm.
    + rewrite <- Em, sort_item_keys. done.
    + by rewrite Hn.
Qed.

Section canonical.
Context `{PyRuntimeLaws}.

Lemma canonical_json_sort v w :
  canonical_json v = canonical_json w ↔ sort_keys v = sort_keys w.
Proof. unfold canonical_json. split; [apply dumps_inj|congruence]. Qed.

Lemma canonical_json_same_document v w :
  unique_keys v = true → unique_keys w = true →
  canonical_json v = canonical_json w ↔ same_document v w.
Proof.
  intros Hv Hw. rewrite canonical_json_sort.
  split; [apply sort_keys_same|by apply same_document_sort].
Qed.

(** Two distinct texts with one digest. *)
Definition sha256_collision : Prop := ∃ s t, s ≠ t ∧ sha256_hex s = sha256_hex t.

Lemma sha256_json_sort v w :
  sha256_json v = sha256_json w → sort_keys v = sort_keys w ∨ sha256_collision.
Proof.
  intros E. destruct (decide (canonical_json v = canonical_json w)) as [Ec|Ec].
  - left. by apply canonical_json_sort.
  - right. by exists (canonical_json v), (canonical_json w).
Qed.
End canonical.
