(* ===== verification/Sha256.v ===== *)
(** * SHA-256 (FIPS 180-4), the digest [hashlib.sha256(...).hexdigest()] computes.

    Words are 32-bit integers kept reduced modulo 2^32. The functions are executable;
    the examples are the published test vectors. [cpython] is the [PyRuntime] whose
    digest is this one; its float text writes mantissa and exponent of the binary64
    value, a text that satisfies the laws the development uses. *)

From S2P Require Import Prelude PyText PyJson.
From Stdlib Require Import Ascii SpecFloat.

#[local] Open Scope Z_scope.

Definition word_mod : Z := 4294967296.
Definition add32 (a b : Z) : Z := (a + b) mod word_mod.
Definition rotr (x : Z) (n : Z) : Z :=
  Z.lor (Z.shiftr x n) (Z.shiftl x (32 - n) mod word_mod).
Definition not32 (x : Z) : Z := word_mod - 1 - x.

Definition ch (x y z : Z) : Z := Z.lxor (Z.land x y) (Z.land (not32 x) z).
Definition maj (x y z : Z) : Z := Z.lxor (Z.lxor (Z.land x y) (Z.land x z)) (Z.land y z).
Definition big_sigma0 (x : Z) : Z := Z.lxor (Z.lxor (rotr x 2) (rotr x 13)) (rotr x 22).
Definition big_sigma1 (x : Z) : Z := Z.lxor (Z.lxor (rotr x 6) (rotr x 11)) (rotr x 25).
Definition small_sigma0 (x : Z) : Z := Z.lxor (Z.lxor (rotr x 7) (rotr x 18)) (Z.shiftr x 3).
Definition small_sigma1 (x : Z) : Z := Z.lxor (Z.lxor (rotr x 17) (rotr x 19)) (Z.shiftr x 10).

Definition round_constants : list Z :=
  [1116352408; 1899447441; 3049323471; 3921009573; 961987163; 1508970993; 2453635748;
   2870763221; 3624381080; 310598401; 607225278; 1426881987; 1925078388; 2162078206;
   2614888103; 3248222580; 3835390401; 4022224774; 264347078; 604807628; 770255983;
   1249150122; 1555081692; 1996064986; 2554220882; 2821834349; 2952996808; 3210313671;
   3336571891; 3584528711; 113926993; 338241895; 666307205; 773529912; 1294757372;
   1396182291; 1695183700; 1986661051; 2177026350; 2456956037; 2730485921; 2820302411;
   3259730800; 3345764771; 3516065817; 3600352804; 4094571909; 275423344; 430227734;
   506948616; 659060556; 883997877; 958139571; 1322822218; 1537002063; 1747873779;
   1955562222; 2024104815; 2227730452; 2361852424; 2428436474; 2756734187; 3204031479;
   3329325298].

Definition initial_hash : list Z :=
  [1779033703; 3144134277; 1013904242; 2773480762; 1359893119; 2600822924; 528734635;
   1541459225].

(** Message schedule: the window of the last sixteen words, oldest first. *)
Fixpoint schedule (n : nat) (window : list Z) : list Z :=
  match n, window with
  | S n', w0 :: rest =>
      let w1 := nth 0 rest 0 in let w9 := nth 8 rest 0 in let w14 := nth 13 rest 0 in
      w0 :: schedule n' (rest ++ [add32 (add32 w0 (small_sigma0 w1)) (add32 w9 (small_sigma1 w14))])
  | _, _ => []
  end.

Definition compress_round (st : list Z) (kw : Z * Z) : list Z :=
  match st with
  | [a; b; c; d; e; f; g; h] =>
      let t1 := add32 (add32 h (big_sigma1 e)) (add32 (ch e f g) (add32 kw.1 kw.2)) in
      let t2 := add32 (big_sigma0 a) (maj a b c) in
      [add32 t1 t2; a; b; c; add32 d t1; e; f; g]
  | _ => st
  end.

Definition compress (hash block : list Z) : list Z :=
  zip_with add32 hash
    (foldl compress_round hash (zip round_constants (schedule 64 block))).

(** ** Padding and words *)

Definition bytes_of (s : string) : list Z :=
  (λ c, Z.of_N (N_of_ascii c)) <$> String.list_ascii_of_string s.

Definition be_bytes (n : nat) (z : Z) : list Z :=
  (λ i, (Z.shiftr z (8 * Z.of_nat i)) mod 256) <$> reverse (seq 0 n).

Definition padded (bs : list Z) : list Z :=
  let zeros := Z.to_nat ((55 - Z.of_nat (length bs)) mod 64) in
  bs ++ [128] ++ replicate zeros 0 ++ be_bytes 8 (8 * Z.of_nat (length bs)).

Fixpoint words_of (bs : list Z) : list Z :=
  match bs with
  | a :: b :: c :: d :: rest => (((a * 256 + b) * 256 + c) * 256 + d) :: words_of rest
  | _ => []
  end.

Fixpoint digest_blocks (n : nat) (hash : list Z) (ws : list Z) : list Z :=
  match n with
  | O => hash
  | S n' => digest_blocks n' (compress hash (take 16 ws)) (drop 16 ws)
  end.

Definition hex_of_byte (z : Z) : string :=
  String (hex_digit (Z.to_N (z / 16))) (String (hex_digit (Z.to_N (z mod 16))) "").

Definition sha256 (s : string) : string :=
  let ws := words_of (padded (bytes_of s)) in
  let hash := digest_blocks (length ws / 16)%nat initial_hash ws in
  String.concat "" (hash ≫= λ w, hex_of_byte <$> be_bytes 4 w).

Example sha256_empty :
  sha256 "" = "e3b0c44298fc1c149afbf4c8996fb92427ae41e4649b934ca495991b7852b855".
Proof. vm_compute. reflexivity. Qed.

Example sha256_abc :
  sha256 "abc" = "ba7816bf8f01cfea414140de5dae2223b00361a396177a9cb410ff61f20015ad".
Proof. vm_compute. reflexivity. Qed.

Example sha256_two_blocks :
  sha256 "abcdbcdecdefdefgefghfghighijhijkijkljklmklmnlmnomnopnopq"
  = "248d6a61d20638b8e5c026930c3e6039a33ce45964ff2167f6ecedd419db06c1".
Proof. vm_compute. reflexivity. Qed.

(** ** A runtime *)

(** Mantissa and exponent of a binary64 value; the special values have mantissa 0. *)
Definition binary64_parts (f : spec_float) : Z * Z :=
  match f with
  | S754_zero s => (0, if s then 1 else 0)
  | S754_infinity s => (0, if s then 3 else 2)
  | S754_nan => (0, 4)
  | S754_finite s m e => (if s then Z.neg m else Z.pos m, e)
  end.

Definition binary64_text (f : pyfloat) : string :=
  let '(m, e) := binary64_parts (pf_value f) in pretty m +:+ "e" +:+ pretty e.

#[export] Instance cpython : PyRuntime := {|
  sha256_hex := sha256;
  float_repr := binary64_text;
  utc_text := λ t, isoformat t +:+ "Z"
|}.

Lemma binary64_text_token f : all_chars token_char (binary64_text f) = true.
Proof.
  unfold binary64_text. destruct (binary64_parts _) as [m e].
  destruct (pretty_Z_numeral m) as [_ Hm], (pretty_Z_numeral e) as [_ He].
  rewrite !all_chars_app. apply andb_true_iff. split; [|apply andb_true_iff; split; [done|]];
    (apply (all_chars_impl numeral_char); [apply numeral_char_token|done]).
Qed.

Lemma binary64_text_not_numeral f : all_chars numeral_char (binary64_text f) = false.
Proof.
  unfold binary64_text. destruct (binary64_parts _) as [m e].
  rewrite !all_chars_app. cbn. by rewrite andb_false_r.
Qed.

Lemma binary64_text_inj f g : binary64_text f = binary64_text g → f = g.
Proof.
  unfold binary64_text. intros E. apply pyfloat_eq.
  destruct (binary64_parts (pf_value f)) as [m e] eqn:Ef,
    (binary64_parts (pf_value g)) as [m' e'] eqn:Eg.
  apply (chars_split numeral_char) in E as [Em E]; [|by apply pretty_Z_numeral..|done|done].
  apply (inj (String.app "e")) in E. apply (inj pretty) in Em, E. subst.
  destruct (pf_value f) as [[]|[]| |[]], (pf_value g) as [[]|[]| |[]]; cbn in *; congruence.
Qed.

#[export] Instance cpython_laws : PyRuntimeLaws.
Proof.
  split.
  - apply binary64_text_token.
  - intros f z E. pose proof (binary64_text_not_numeral f) as Hf.
    destruct (pretty_Z_numeral z) as [_ Hz]. cbn in E. rewrite E in Hf. congruence.
  - intros f. change (float_repr f) with (binary64_text f). unfold binary64_text.
    destruct (binary64_parts _) as [m e]. apply existsb_false. intros w Hw. apply String.eqb_neq. intros E.
    pose proof (pretty_Z_numeral m) as [Hne Hm]. pose proof (pretty_Z_numeral e) as [_ He].
    repeat (apply elem_of_cons in Hw as [->|Hw]).
    all: try by apply not_elem_of_nil in Hw.
    all: destruct (pretty m) as [|c s]; [done|]; cbn in Hm; bools;
      rewrite string_app_cons in E; first [discriminate E|injection E as -> _; discriminate].
  - intros f g. apply binary64_text_inj.
Qed.
