(* ===== verification/Base.v ===== *)
(** * Shared types and contract primitives
    (src/src/evidrun/shared/types.py, src/src/evidrun/contracts/base.py).

    Each pydantic model is a record with the model's fields; an enumeration or a
    [Literal] is an inductive type with its text ([*_value]). [to_*] gives the
    document [model_dump(mode="json")] produces (an absent optional field is null),
    and [semantic_model_dump] prunes it the way the code does before it is hashed.
    A model's own validator is a function into [result unit]. *)

From S2P Require Import Prelude PyText PyJson.

(** ** Enumerations *)

Inductive Classification := PUBLIC | INTERNAL | SENSITIVE | RESTRICTED.
#[export] Instance Classification_eq_dec : EqDecision Classification.
Proof. solve_decision. Defined.
Definition Classification_value (c : Classification) : string :=
  match c with
  | PUBLIC => "public" | INTERNAL => "internal"
  | SENSITIVE => "sensitive" | RESTRICTED => "restricted"
  end.

Inductive EvidenceMode :=
  | PROSPECTIVE_CONTROLLED | COUNTERFACTUAL_REPLAY | RETROSPECTIVE_OBSERVATIONAL | EXPLORATORY.
#[export] Instance EvidenceMode_eq_dec : EqDecision EvidenceMode.
Proof. solve_decision. Defined.
Definition EvidenceMode_value (m : EvidenceMode) : string :=
  match m with
  | PROSPECTIVE_CONTROLLED => "prospective_controlled"
  | COUNTERFACTUAL_REPLAY => "counterfactual_replay"
  | RETROSPECTIVE_OBSERVATIONAL => "retrospective_observational"
  | EXPLORATORY => "exploratory"
  end.

Inductive ContractType :=
  | STUDY | GOAL | SCENARIO | AGENT_INVENTORY | WORKSPACE_TEMPLATE | INTERACTION_PROTOCOL
  | EVALUATION_PLAN | CHECKPOINT_POLICY | PROGRESS_ARTIFACT_POLICY.
#[export] Instance ContractType_eq_dec : EqDecision ContractType.
Proof. solve_decision. Defined.
Definition ContractType_value (t : ContractType) : string :=
  match t with
  | STUDY => "study" | GOAL => "goal" | SCENARIO => "scenario"
  | AGENT_INVENTORY => "agent_inventory" | WORKSPACE_TEMPLATE => "workspace_template"
  | INTERACTION_PROTOCOL => "interaction_protocol" | EVALUATION_PLAN => "evaluation_plan"
  | CHECKPOINT_POLICY => "checkpoint_policy"
  | PROGRESS_ARTIFACT_POLICY => "progress_artifact_policy"
  end.

Lemma ContractType_value_inj t u : ContractType_value t = ContractType_value u → t = u.
Proof. destruct t, u; by intros [=]. Qed.

(** ** Building documents *)

Definition jopt {A} (f : A → json) (o : option A) : json :=
  match o with Some a => f a | None => JNull end.
Definition jlist {A} (f : A → json) (l : list A) : json := JArr (map f l).
Definition jstrs (l : list string) : json := jlist JStr l.

(** [item == [] or item == {}]. *)
Definition is_empty_module (v : json) : bool :=
  match v with JArr [] | JObj [] => true | _ => false end.

(** The nested [normalize] of [semantic_model_dump]: null items leave their object,
    and an item whose normal form is an empty list or object leaves it too. *)
Fixpoint normalize (v : json) : json :=
  match v with
  | JArr l => JArr (map normalize l)
  | JObj m =>
      JObj (flat_map (λ '(k, w),
        match w with
        | JNull => []
        | _ => let n := normalize w in if is_empty_module n then [] else [(k, n)]
        end) m)
  | _ => v
  end.

(** [model_dump(exclude_none=True)], given the document of the model. *)
Fixpoint drop_nulls (v : json) : json :=
  match v with
  | JArr l => JArr (map drop_nulls l)
  | JObj m => JObj (flat_map (λ '(k, w),
      match w with JNull => [] | _ => [(k, drop_nulls w)] end) m)
  | _ => v
  end.

(** [semantic_model_dump(model)], given the document of [model]. *)
Definition semantic_model_dump (document : json) : json := normalize document.

(** ** References *)

Record ContractRef := MkContractRef {
  cr_contract_type : ContractType;
  cr_logical_id : string;
  cr_revision : Z;
  cr_digest : string
}.
#[export] Instance ContractRef_eq_dec : EqDecision ContractRef.
Proof. solve_decision. Defined.
Definition to_ContractRef (r : ContractRef) : json := JObj [
  ("contract_type", JStr (ContractType_value (cr_contract_type r)));
  ("logical_id", JStr (cr_logical_id r));
  ("revision", JInt (cr_revision r));
  ("digest", JStr (cr_digest r))].

Record ArtifactRef := MkArtifactRef {
  ar_artifact_id : string;
  ar_digest : string;
  ar_media_type : string;
  ar_classification : Classification
}.
#[export] Instance ArtifactRef_eq_dec : EqDecision ArtifactRef.
Proof. solve_decision. Defined.
Definition to_ArtifactRef (r : ArtifactRef) : json := JObj [
  ("artifact_id", JStr (ar_artifact_id r));
  ("digest", JStr (ar_digest r));
  ("media_type", JStr (ar_media_type r));
  ("classification", JStr (Classification_value (ar_classification r)))].

Record CapabilityDescriptorRef := MkCapabilityRef {
  cap_namespace : string;
  cap_name : string;
  cap_version : string;
  cap_digest : string
}.
#[export] Instance CapabilityDescriptorRef_eq_dec : EqDecision CapabilityDescriptorRef.
Proof. solve_decision. Defined.
Definition to_CapabilityRef (r : CapabilityDescriptorRef) : json := JObj [
  ("namespace", JStr (cap_namespace r));
  ("name", JStr (cap_name r));
  ("version", JStr (cap_version r));
  ("digest", JStr (cap_digest r))].

(** [capability_ref(namespace, name, version)]: the identity of a built-in adapter. *)
Definition capability_ref `{PyRuntime} (namespace name version : string)
    : CapabilityDescriptorRef := {|
  cap_namespace := namespace;
  cap_name := name;
  cap_version := version;
  cap_digest := sha256_json (JObj
    [("namespace", JStr namespace); ("name", JStr name); ("version", JStr version)])
|}.

(** [KeyValue.value: str | int | float | bool]. *)
Inductive Scalar := SStr (s : string) | SInt (z : Z) | SFloat (f : pyfloat) | SBool (b : bool).
#[export] Instance Scalar_eq_dec : EqDecision Scalar.
Proof. solve_decision. Defined.
Definition to_Scalar (v : Scalar) : json :=
  match v with SStr s => JStr s | SInt z => JInt z | SFloat f => JFloat f | SBool b => JBool b end.

Record KeyValue := MkKeyValue { kv_key : string; kv_value : Scalar }.
#[export] Instance KeyValue_eq_dec : EqDecision KeyValue.
Proof. solve_decision. Defined.
Definition to_KeyValue (p : KeyValue) : json :=
  JObj [("key", JStr (kv_key p)); ("value", to_Scalar (kv_value p))].

Record ExtensionRef := MkExtensionRef {
  ext_namespace : string;
  ext_slot : string;
  ext_schema_ref : ArtifactRef;
  ext_schema_version : string;
  ext_payload_ref : ArtifactRef;
  ext_digest : string;
  ext_classification : Classification;
  ext_required : bool
}.
#[export] Instance ExtensionRef_eq_dec : EqDecision ExtensionRef.
Proof. solve_decision. Defined.
Definition to_ExtensionRef (e : ExtensionRef) : json := JObj [
  ("namespace", JStr (ext_namespace e));
  ("slot", JStr (ext_slot e));
  ("schema_ref", to_ArtifactRef (ext_schema_ref e));
  ("schema_version", JStr (ext_schema_version e));
  ("payload_ref", to_ArtifactRef (ext_payload_ref e));
  ("digest", JStr (ext_digest e));
  ("classification", JStr (Classification_value (ext_classification e)));
  ("required", JBool (ext_required e))].
Definition validate_payload_identity (e : ExtensionRef) : result unit :=
  raise_when (ext_digest e !=b ar_digest (ext_payload_ref e))
    (ValidationError "extension digest must match its payload artifact");;
  raise_when (ext_classification e !=b ar_classification (ext_payload_ref e))
    (ValidationError "extension classification must match its payload artifact").

Record EvidenceRef := MkEvidenceRef { ev_ref : string }.
#[export] Instance EvidenceRef_eq_dec : EqDecision EvidenceRef.
Proof. solve_decision. Defined.
Definition to_EvidenceRef (e : EvidenceRef) : json := JObj [("ref", JStr (ev_ref e))].
Definition validate_scheme (value : string) : result string :=
  raise_when (negb (existsb (λ p, startswith p value) ["run:"; "event:"; "artifact:"]))
    (ValidationError "evidence refs must use run:, event:, or artifact:");;
  Ok value.

(** ** Revisions *)

(** What a revision's payload class fixes: its contract type and its document. *)
Class Payload (P : Type) := {
  payload_contract_type : ContractType;
  to_payload : P → json
}.

Record Revision (P : Type) := MkRevision {
  rev_logical_id : string;
  rev_revision : Z;
  rev_project_id : string;
  rev_title : string;
  rev_payload : P
}.
Arguments MkRevision {P}.
Arguments rev_logical_id {P}.
Arguments rev_revision {P}.
Arguments rev_project_id {P}.
Arguments rev_title {P}.
Arguments rev_payload {P}.
#[export] Instance Revision_eq_dec `{EqDecision P} : EqDecision (Revision P).
Proof. solve_decision. Defined.

Section revision.
Context `{PyRuntime} `{Payload P}.

Definition semantic_document (r : Revision P) : json := semantic_model_dump (JObj [
  ("schema_version", JStr "1");
  ("logical_id", JStr (rev_logical_id r));
  ("revision", JInt (rev_revision r));
  ("project_id", JStr (rev_project_id r));
  ("title", JStr (rev_title r));
  ("contract_type", JStr (ContractType_value (payload_contract_type (P:=P))));
  ("payload", to_payload (rev_payload r))]).

(** The identity excludes title and project. A payload document is never empty,
    so every key is present. *)
Definition digest_document (r : Revision P) : json :=
  match semantic_document r with
  | JObj m => JObj (omap (λ k, (k,.) <$> obj_get k m)
      ["schema_version"; "contract_type"; "logical_id"; "revision"; "payload"])
  | v => v
  end.

Definition rev_digest (r : Revision P) : string := sha256_json (digest_document r).

Definition rev_ref (r : Revision P) : ContractRef := {|
  cr_contract_type := payload_contract_type (P:=P);
  cr_logical_id := rev_logical_id r;
  cr_revision := rev_revision r;
  cr_digest := rev_digest r
|}.
End revision.

(** ** Human authority *)

Inductive HumanAction :=
  | RevisionAccepted | RevisionRejected | RevisionSuperseded
  | EvaluationAdjudicated | EvaluationReviewed.
#[export] Instance HumanAction_eq_dec : EqDecision HumanAction.
Proof. solve_decision. Defined.
Definition HumanAction_value (a : HumanAction) : string :=
  match a with
  | RevisionAccepted => "revision.accepted"
  | RevisionRejected => "revision.rejected"
  | RevisionSuperseded => "revision.superseded"
  | EvaluationAdjudicated => "evaluation.adjudicated"
  | EvaluationReviewed => "evaluation.reviewed"
  end.

Record HumanAttestationRecord := MkAttestation {
  att_attestation_id : string;
  att_principal_id : string;
  att_credential_id : string;
  att_action : HumanAction;
  att_target_digest : string;
  att_subject_digest : string;
  att_challenge_digest : string;
  att_assertion_ref : ArtifactRef;
  att_relying_party_id : string;
  att_origin : string;
  att_verifier_ref : CapabilityDescriptorRef;
  att_verified_at_utc : instant
}.
#[export] Instance HumanAttestationRecord_eq_dec : EqDecision HumanAttestationRecord.
Proof. solve_decision. Defined.
Definition to_Attestation `{PyRuntime} (a : HumanAttestationRecord) : json := JObj [
  ("schema_version", JStr "1");
  ("attestation_id", JStr (att_attestation_id a));
  ("principal_id", JStr (att_principal_id a));
  ("verification_method", JStr "webauthn");
  ("credential_id", JStr (att_credential_id a));
  ("action", JStr (HumanAction_value (att_action a)));
  ("target_digest", JStr (att_target_digest a));
  ("subject_digest", JStr (att_subject_digest a));
  ("challenge_digest", JStr (att_challenge_digest a));
  ("assertion_ref", to_ArtifactRef (att_assertion_ref a));
  ("user_verification", JStr "required_verified");
  ("relying_party_id", JStr (att_relying_party_id a));
  ("origin", JStr (att_origin a));
  ("verifier_ref", to_CapabilityRef (att_verifier_ref a));
  ("verified_at_utc", JStr (utc_text (att_verified_at_utc a)))].

Inductive Decision3 := Accepted | Rejected | Superseded.
#[export] Instance Decision3_eq_dec : EqDecision Decision3.
Proof. solve_decision. Defined.
Definition Decision3_value (d : Decision3) : string :=
  match d with Accepted => "accepted" | Rejected => "rejected" | Superseded => "superseded" end.

Inductive DecisionAuthority :=
  | VerifiedHuman (principal_id : string) (attestation : HumanAttestationRecord)
  | RepositoryFixture (fixture_digest : string).
#[export] Instance DecisionAuthority_eq_dec : EqDecision DecisionAuthority.
Proof. solve_decision. Defined.

Definition to_Authority `{PyRuntime} (a : DecisionAuthority) : json :=
  match a with
  | VerifiedHuman p att => JObj [
      ("kind", JStr "verified_human"); ("principal_id", JStr p);
      ("attestation", to_Attestation att)]
  | RepositoryFixture d => JObj [
      ("kind", JStr "repository_fixture");
      ("fixture_id", JStr "experiment-manifest-v1:crl-ctx-002");
      ("fixture_digest", JStr d)]
  end.

(** The validators of the two authority models. *)
Definition validate_decision_authority (a : DecisionAuthority) : result unit :=
  match a with
  | VerifiedHuman p att =>
      raise_when (p !=b att_principal_id att)
        (ValidationError "human authority principal must match the attestation principal")
  | RepositoryFixture d =>
      raise_when (d ==b String.concat "" (repeat "0" 64))
        (ValidationError "repository fixture digest cannot be a placeholder")
  end.

Record RevisionDecisionRecord := MkDecisionRecord {
  dec_revision_ref : ContractRef;
  dec_decision : Decision3;
  dec_authority : DecisionAuthority;
  dec_rationale : string;
  dec_decided_at_utc : instant
}.
#[export] Instance RevisionDecisionRecord_eq_dec : EqDecision RevisionDecisionRecord.
Proof. solve_decision. Defined.

Section decisions.
Context `{PyRuntime}.

Definition decision_subject_digest (d : RevisionDecisionRecord) : string := sha256_json (JObj [
  ("revision_ref", to_ContractRef (dec_revision_ref d));
  ("decision", JStr (Decision3_value (dec_decision d)));
  ("rationale", JStr (dec_rationale d))]).

Definition validate_authority (d : RevisionDecisionRecord) : result unit :=
  match dec_authority d with
  | RepositoryFixture _ =>
      raise_when (dec_decision d !=b Accepted)
        (ValidationError "repository fixtures can only import accepted revisions")
  | VerifiedHuman _ att =>
      raise_when (HumanAction_value (att_action att)
          !=b ("revision." +:+ Decision3_value (dec_decision d)))
        (ValidationError "human attestation action does not match the revision decision");;
      raise_when (att_target_digest att !=b cr_digest (dec_revision_ref d))
        (ValidationError "human attestation target does not match the revision digest");;
      raise_when (att_subject_digest att !=b decision_subject_digest d)
        (ValidationError "human attestation does not cover the revision decision content");;
      raise_when (dec_decided_at_utc d !=b att_verified_at_utc att)
        (ValidationError "human decision timestamp must be the verified attestation timestamp")
  end.

Definition decision_digest (d : RevisionDecisionRecord) : string :=
  sha256_json (semantic_model_dump (JObj [
    ("schema_version", JStr "1");
    ("revision_ref", to_ContractRef (dec_revision_ref d));
    ("decision", JStr (Decision3_value (dec_decision d)));
    ("authority", to_Authority (dec_authority d));
    ("rationale", JStr (dec_rationale d));
    ("decided_at_utc", JStr (utc_text (dec_decided_at_utc d)))])).
End decisions.

(** ** Normal forms *)

(** No object item is null, an empty list or an empty object. *)
Fixpoint pruned (v : json) : bool :=
  match v with
  | JArr l => forallb pruned l
  | JObj m => forallb (λ '(_, w), negb (w ==b JNull) && negb (is_empty_module w) && pruned w) m
  | _ => true
  end.

Lemma normalize_null v : normalize v = JNull ↔ v = JNull.
Proof. by destruct v. Qed.

Lemma match_not_null {T} (v : json) (a b : T) :
  v ≠ JNull → match v with JNull => a | _ => b end = b.
Proof. by destruct v. Qed.

Lemma normalize_pruned v : pruned (normalize v) = true.
Proof.
  induction v as [|b|z|f|s|l IH|m IH] using json_nested_ind; try done; cbn.
  - rewrite forallb_map. induction IH as [|x l Hx _ IHl]; [done|]. cbn. by rewrite Hx.
  - induction IH as [|[k w] m Hw _ IHm]; [done|]. cbn. rewrite forallb_app, IHm, andb_true_r.
    cbn in Hw. destruct (decide (w = JNull)) as [->|Hn]; [done|].
    rewrite (match_not_null w) by done.
    destruct (is_empty_module (normalize w)) eqn:E; [done|]. cbn.
    rewrite E, Hw, bool_decide_eq_false_2; [done|]. by rewrite normalize_null.
Qed.

Lemma normalize_fixpoint v : pruned v = true → normalize v = v.
Proof.
  induction v as [|b|z|f|s|l IH|m IH] using json_nested_ind; try done; cbn; intros Hp; f_equal.
  - induction IH as [|x l Hx _ IHl]; [done|]. cbn in *. bools. f_equal; auto.
  - induction IH as [|[k w] m Hw _ IHm]; [done|]. cbn in *. bools.
    rewrite (match_not_null w) by done.
    rewrite Hw, IHm by done. by destruct (is_empty_module w).
Qed.

Lemma normalize_keys m : (match normalize (JObj m) with JObj n => n.*1 | _ => [] end) `sublist_of` m.*1.
Proof.
  cbn. induction m as [|[k w] m IH]; cbn; [constructor|].
  destruct w; cbn -[normalize]; try (by constructor);
    try (case_match; cbn; by constructor).
Qed.

Lemma normalize_unique_keys v : unique_keys v = true → unique_keys (normalize v) = true.
Proof.
  induction v as [|b|z|f|s|l IH|m IH] using json_nested_ind; try done; intros Hu.
  - cbn in *. rewrite forallb_map. induction IH as [|x l Hx _ IHl]; [done|]. cbn in *.
    bools. by rewrite Hx, IHl.
  - pose proof (normalize_keys m) as Hsub. cbn in *. bools. apply andb_true_iff. split.
    + apply bool_decide_eq_true. by eapply sublist_NoDup.
    + clear H Hsub. induction IH as [|[k w] m Hw _ IHm]; [done|]. cbn in *. bools.
      rewrite forallb_app, IHm, andb_true_r by done.
      destruct (decide (w = JNull)) as [->|Hn]; [done|].
      rewrite (match_not_null w) by done.
      destruct (is_empty_module (normalize w)); [done|]. cbn. by rewrite Hw.
Qed.
