(* ===== verification/Authoring.v ===== *)
(** * Authoring contracts (src/src/evidrun/contracts/authoring/ and the context policy of
    src/src/evidrun/experiments/models.py).

    One record per model, one [validate_*] per model validator, in the order the source
    checks. Records hold the values of an instance; [validate_*] is what constructing it
    runs after the field types were checked. *)

From S2P Require Import Prelude PyText PyJson Base.

(** [set(a).issubset(b)]. *)
Definition subset_of `{EqDecision A} (a b : list A) : bool := forallb (λ x, x ∈b b) a.
(** [set(a) & set(b)] is not empty. *)
Definition intersects `{EqDecision A} (a b : list A) : bool := existsb (λ x, x ∈b b) a.
(** [set(a) == set(b)]. *)
Definition same_set `{EqDecision A} (a b : list A) : bool := subset_of a b && subset_of b a.

Lemma subset_of_true `{EqDecision A} (a b : list A) : subset_of a b = true ↔ ∀ x, x ∈ a → x ∈ b.
Proof. unfold subset_of. rewrite forallb_true. by setoid_rewrite bool_decide_eq_true. Qed.

Lemma same_set_true `{EqDecision A} (a b : list A) : same_set a b = true ↔ ∀ x, x ∈ a ↔ x ∈ b.
Proof. unfold same_set. rewrite andb_true_iff, !subset_of_true. naive_solver. Qed.

(** ** Context policy *)

Inductive ContextStrategy := Head | Tail | Full.
#[export] Instance ContextStrategy_eq_dec : EqDecision ContextStrategy.
Proof. solve_decision. Defined.
Definition ContextStrategy_value (x : ContextStrategy) : string :=
  match x with
  | Head => "head"
  | Tail => "tail"
  | Full => "full"
  end.

Record ContextPolicySpec := MkContextPolicySpec {
  cp_id : string;
  cp_strategy : ContextStrategy;
  cp_max_chars : Z
}.
#[export] Instance ContextPolicySpec_eq_dec : EqDecision ContextPolicySpec.
Proof. solve_decision. Defined.
Definition to_ContextPolicySpec (x : ContextPolicySpec) : json := JObj [
  ("id", JStr (cp_id x));
  ("strategy", JStr (ContextStrategy_value (cp_strategy x)));
  ("max_chars", JInt (cp_max_chars x))].

(** ** Goal *)

Inductive GoalMode := GoalState | BoundedExploration.
#[export] Instance GoalMode_eq_dec : EqDecision GoalMode.
Proof. solve_decision. Defined.
Definition GoalMode_value (x : GoalMode) : string :=
  match x with
  | GoalState => "goal_state"
  | BoundedExploration => "bounded_exploration"
  end.

Inductive ConstraintRule := Must | MustNot.
#[export] Instance ConstraintRule_eq_dec : EqDecision ConstraintRule.
Proof. solve_decision. Defined.
Definition ConstraintRule_value (x : ConstraintRule) : string :=
  match x with
  | Must => "must"
  | MustNot => "must_not"
  end.

Record GoalOutcome := MkGoalOutcome {
  go_id : string;
  go_description : string
}.
#[export] Instance GoalOutcome_eq_dec : EqDecision GoalOutcome.
Proof. solve_decision. Defined.
Definition to_GoalOutcome (x : GoalOutcome) : json := JObj [
  ("id", JStr (go_id x));
  ("description", JStr (go_description x))].

Record GoalConstraint := MkGoalConstraint {
  gc_id : string;
  gc_rule : ConstraintRule;
  gc_description : string
}.
#[export] Instance GoalConstraint_eq_dec : EqDecision GoalConstraint.
Proof. solve_decision. Defined.
Definition to_GoalConstraint (x : GoalConstraint) : json := JObj [
  ("id", JStr (gc_id x));
  ("rule", JStr (ConstraintRule_value (gc_rule x)));
  ("description", JStr (gc_description x))].

Record GoalSpec := MkGoalSpec {
  goal_mode : GoalMode;
  goal_instruction : string;
  goal_outcomes : list GoalOutcome;
  goal_learning_targets : list string;
  goal_constraints : list GoalConstraint;
  goal_evidence_expectations : list string;
  goal_completion_observations : list string
}.
#[export] Instance GoalSpec_eq_dec : EqDecision GoalSpec.
Proof. solve_decision. Defined.
Definition to_GoalSpec (x : GoalSpec) : json := JObj [
  ("mode", JStr (GoalMode_value (goal_mode x)));
  ("instruction", JStr (goal_instruction x));
  ("outcomes", jlist to_GoalOutcome (goal_outcomes x));
  ("learning_targets", jstrs (goal_learning_targets x));
  ("constraints", jlist to_GoalConstraint (goal_constraints x));
  ("evidence_expectations", jstrs (goal_evidence_expectations x));
  ("completion_observations", jstrs (goal_completion_observations x))].

Definition validate_goal_shape (g : GoalSpec) : result unit :=
  let outcome_ids := map go_id (goal_outcomes g) in
  let constraint_ids := map gc_id (goal_constraints g) in
  raise_when (has_duplicates outcome_ids)
    (ValidationError "goal outcome ids must be unique");;
  raise_when (has_duplicates constraint_ids)
    (ValidationError "goal constraint ids must be unique");;
  raise_when (intersects outcome_ids constraint_ids)
    (ValidationError "goal ids must be unique across outcomes and constraints");;
  raise_when (goal_mode g ==b GoalState && goal_outcomes g ==b [])
    (ValidationError "goal_state requires at least one outcome");;
  raise_when (goal_mode g ==b BoundedExploration
      && goal_learning_targets g ==b [] && goal_outcomes g ==b [])
    (ValidationError "bounded_exploration requires a learning target or outcome").

(** ** Scenario *)

Inductive Visibility := VSubject | VEvaluator | VLaboratory | VSubjectAndEvaluator.
#[export] Instance Visibility_eq_dec : EqDecision Visibility.
Proof. solve_decision. Defined.
Definition Visibility_value (x : Visibility) : string :=
  match x with
  | VSubject => "subject"
  | VEvaluator => "evaluator"
  | VLaboratory => "laboratory"
  | VSubjectAndEvaluator => "subject_and_evaluator"
  end.

Inductive MountAccess := ReadOnly | ReadWrite.
#[export] Instance MountAccess_eq_dec : EqDecision MountAccess.
Proof. solve_decision. Defined.
Definition MountAccess_value (x : MountAccess) : string :=
  match x with
  | ReadOnly => "read_only"
  | ReadWrite => "read_write"
  end.

Record InputBinding := MkInputBinding {
  ib_id : string;
  ib_role : string;
  ib_source : ArtifactRef;
  ib_visibility : Visibility;
  ib_mount_access : MountAccess;
  ib_mount_name : option string
}.
#[export] Instance InputBinding_eq_dec : EqDecision InputBinding.
Proof. solve_decision. Defined.
Definition to_InputBinding (x : InputBinding) : json := JObj [
  ("id", JStr (ib_id x));
  ("role", JStr (ib_role x));
  ("source", to_ArtifactRef (ib_source x));
  ("visibility", JStr (Visibility_value (ib_visibility x)));
  ("mount_access", JStr (MountAccess_value (ib_mount_access x)));
  ("mount_name", jopt JStr (ib_mount_name x))].

Record ScenarioSpec := MkScenarioSpec {
  sc_description : string;
  sc_input_bindings : list InputBinding;
  sc_observable_conditions : list string;
  sc_limitations : list string;
  sc_provenance : list string
}.
#[export] Instance ScenarioSpec_eq_dec : EqDecision ScenarioSpec.
Proof. solve_decision. Defined.
Definition to_ScenarioSpec (x : ScenarioSpec) : json := JObj [
  ("description", JStr (sc_description x));
  ("input_bindings", jlist to_InputBinding (sc_input_bindings x));
  ("observable_conditions", jstrs (sc_observable_conditions x));
  ("limitations", jstrs (sc_limitations x));
  ("provenance", jstrs (sc_provenance x))].

Definition validate_binding_ids (s : ScenarioSpec) : result unit :=
  let ids := map ib_id (sc_input_bindings s) in
  raise_when (ids ==b [])
    (ValidationError "scenario requires at least one input binding");;
  raise_when (has_duplicates ids)
    (ValidationError "scenario input binding ids must be unique").

(** ** Agent inventory *)

Inductive CapabilityKind := KTool | KSkill.
#[export] Instance CapabilityKind_eq_dec : EqDecision CapabilityKind.
Proof. solve_decision. Defined.
Definition CapabilityKind_value (x : CapabilityKind) : string :=
  match x with
  | KTool => "tool"
  | KSkill => "skill"
  end.

Inductive Exposure := SchemaOnly | Instructions | InstructionsAndSchema.
#[export] Instance Exposure_eq_dec : EqDecision Exposure.
Proof. solve_decision. Defined.
Definition Exposure_value (x : Exposure) : string :=
  match x with
  | SchemaOnly => "schema_only"
  | Instructions => "instructions"
  | InstructionsAndSchema => "instructions_and_schema"
  end.

Record CapabilityRequirement := MkCapabilityRequirement {
  rq_kind : CapabilityKind;
  rq_capability_ref : CapabilityDescriptorRef;
  rq_required : bool;
  rq_minimum_interface_version : string;
  rq_requested_permissions : list string;
  rq_exposure : Exposure;
  rq_instruction_refs : list ArtifactRef;
  rq_authority_constraints : list string
}.
#[export] Instance CapabilityRequirement_eq_dec : EqDecision CapabilityRequirement.
Proof. solve_decision. Defined.
Definition to_CapabilityRequirement (x : CapabilityRequirement) : json := JObj [
  ("kind", JStr (CapabilityKind_value (rq_kind x)));
  ("capability_ref", to_CapabilityRef (rq_capability_ref x));
  ("required", JBool (rq_required x));
  ("minimum_interface_version", JStr (rq_minimum_interface_version x));
  ("requested_permissions", jstrs (rq_requested_permissions x));
  ("exposure", JStr (Exposure_value (rq_exposure x)));
  ("instruction_refs", jlist to_ArtifactRef (rq_instruction_refs x));
  ("authority_constraints", jstrs (rq_authority_constraints x))].

Record RuntimeRequirement := MkRuntimeRequirement {
  rr_capability : string;
  rr_required : bool
}.
#[export] Instance RuntimeRequirement_eq_dec : EqDecision RuntimeRequirement.
Proof. solve_decision. Defined.
Definition to_RuntimeRequirement (x : RuntimeRequirement) : json := JObj [
  ("capability", JStr (rr_capability x));
  ("required", JBool (rr_required x))].

Record AgentInventorySpec := MkAgentInventorySpec {
  inv_subject_id : string;
  inv_runner_ref : CapabilityDescriptorRef;
  inv_provider_profile_id : option string;
  inv_capability_requirements : list CapabilityRequirement;
  inv_runtime_requirements : list RuntimeRequirement
}.
#[export] Instance AgentInventorySpec_eq_dec : EqDecision AgentInventorySpec.
Proof. solve_decision. Defined.
Definition to_AgentInventorySpec (x : AgentInventorySpec) : json := JObj [
  ("subject_id", JStr (inv_subject_id x));
  ("runner_ref", to_CapabilityRef (inv_runner_ref x));
  ("provider_profile_id", jopt JStr (inv_provider_profile_id x));
  ("capability_requirements", jlist to_CapabilityRequirement (inv_capability_requirements x));
  ("runtime_requirements", jlist to_RuntimeRequirement (inv_runtime_requirements x))].

Definition validate_capability_keys (i : AgentInventorySpec) : result unit :=
  let keys := map (λ item, (rq_kind item, cap_namespace (rq_capability_ref item),
                            cap_name (rq_capability_ref item))) (inv_capability_requirements i) in
  raise_when (has_duplicates keys) (ValidationError "capability requirements must be unique").

(** ** Workspace template *)

Inductive NetworkMode := NetDisabled | NetProviderOnly | NetAllowlist.
#[export] Instance NetworkMode_eq_dec : EqDecision NetworkMode.
Proof. solve_decision. Defined.
Definition NetworkMode_value (x : NetworkMode) : string :=
  match x with
  | NetDisabled => "disabled"
  | NetProviderOnly => "provider_only"
  | NetAllowlist => "allowlist"
  end.

Inductive EffectMode := EffDenied | EffApprovalRequired | EffAllowlist.
#[export] Instance EffectMode_eq_dec : EqDecision EffectMode.
Proof. solve_decision. Defined.
Definition EffectMode_value (x : EffectMode) : string :=
  match x with
  | EffDenied => "denied"
  | EffApprovalRequired => "approval_required"
  | EffAllowlist => "allowlist"
  end.

Inductive SecretSource := Keychain | Environment.
#[export] Instance SecretSource_eq_dec : EqDecision SecretSource.
Proof. solve_decision. Defined.
Definition SecretSource_value (x : SecretSource) : string :=
  match x with
  | Keychain => "keychain"
  | Environment => "environment"
  end.

Inductive CleanupMode := Discard | RetainUntilTtl | Retain.
#[export] Instance CleanupMode_eq_dec : EqDecision CleanupMode.
Proof. solve_decision. Defined.
Definition CleanupMode_value (x : CleanupMode) : string :=
  match x with
  | Discard => "discard"
  | RetainUntilTtl => "retain_until_ttl"
  | Retain => "retain"
  end.

Record WorkspaceMount := MkWorkspaceMount {
  wm_name : string;
  wm_source : ArtifactRef;
  wm_access : MountAccess;
  wm_target : string
}.
#[export] Instance WorkspaceMount_eq_dec : EqDecision WorkspaceMount.
Proof. solve_decision. Defined.
Definition to_WorkspaceMount (x : WorkspaceMount) : json := JObj [
  ("name", JStr (wm_name x));
  ("source", to_ArtifactRef (wm_source x));
  ("access", JStr (MountAccess_value (wm_access x)));
  ("target", JStr (wm_target x))].

Record NetworkPolicy := MkNetworkPolicy {
  np_mode : NetworkMode;
  np_allowed_endpoint_refs : list string
}.
#[export] Instance NetworkPolicy_eq_dec : EqDecision NetworkPolicy.
Proof. solve_decision. Defined.
Definition to_NetworkPolicy (x : NetworkPolicy) : json := JObj [
  ("mode", JStr (NetworkMode_value (np_mode x)));
  ("allowed_endpoint_refs", jstrs (np_allowed_endpoint_refs x))].

Definition validate_network_allowlist (p : NetworkPolicy) : result unit :=
  raise_when (np_mode p ==b NetAllowlist && np_allowed_endpoint_refs p ==b [])
    (ValidationError "allowlist network policy requires endpoint refs");;
  raise_when (np_mode p !=b NetAllowlist && np_allowed_endpoint_refs p !=b [])
    (ValidationError "endpoint refs are only valid for allowlist network policy").

Record ExternalEffectPolicy := MkExternalEffectPolicy {
  ep_mode : EffectMode;
  ep_allowed_effects : list string
}.
#[export] Instance ExternalEffectPolicy_eq_dec : EqDecision ExternalEffectPolicy.
Proof. solve_decision. Defined.
Definition to_ExternalEffectPolicy (x : ExternalEffectPolicy) : json := JObj [
  ("mode", JStr (EffectMode_value (ep_mode x)));
  ("allowed_effects", jstrs (ep_allowed_effects x))].

Definition validate_effect_allowlist (p : ExternalEffectPolicy) : result unit :=
  raise_when (ep_mode p ==b EffAllowlist && ep_allowed_effects p ==b [])
    (ValidationError "external effect allowlist requires effects");;
  raise_when (ep_mode p !=b EffAllowlist && ep_allowed_effects p !=b [])
    (ValidationError "allowed effects are only valid for allowlist policy").

Record SnapshotPolicy := MkSnapshotPolicy {
  sp_capture_workspace : bool;
  sp_include_zones : list string
}.
#[export] Instance SnapshotPolicy_eq_dec : EqDecision SnapshotPolicy.
Proof. solve_decision. Defined.
Definition to_SnapshotPolicy (x : SnapshotPolicy) : json := JObj [
  ("capture_workspace", JBool (sp_capture_workspace x));
  ("include_zones", jstrs (sp_include_zones x))].

Record SecretBindingRef := MkSecretBindingRef {
  sb_binding_id : string;
  sb_source : SecretSource
}.
#[export] Instance SecretBindingRef_eq_dec : EqDecision SecretBindingRef.
Proof. solve_decision. Defined.
Definition to_SecretBindingRef (x : SecretBindingRef) : json := JObj [
  ("binding_id", JStr (sb_binding_id x));
  ("source", JStr (SecretSource_value (sb_source x)))].

Record CleanupPolicy := MkCleanupPolicy {
  cl_mode : CleanupMode;
  cl_ttl_seconds : option Z
}.
#[export] Instance CleanupPolicy_eq_dec : EqDecision CleanupPolicy.
Proof. solve_decision. Defined.
Definition to_CleanupPolicy (x : CleanupPolicy) : json := JObj [
  ("mode", JStr (CleanupMode_value (cl_mode x)));
  ("ttl_seconds", jopt JInt (cl_ttl_seconds x))].

Definition validate_ttl (p : CleanupPolicy) : result unit :=
  raise_when (cl_mode p ==b RetainUntilTtl && cl_ttl_seconds p ==b None)
    (ValidationError "retain_until_ttl cleanup requires ttl_seconds");;
  raise_when (cl_mode p !=b RetainUntilTtl && cl_ttl_seconds p !=b None)
    (ValidationError "ttl_seconds is only valid with retain_until_ttl").

Record WorkspaceTemplateSpec := MkWorkspaceTemplateSpec {
  ws_runtime_kind : string;
  ws_mounts : list WorkspaceMount;
  ws_write_zones : list string;
  ws_network_policy : NetworkPolicy;
  ws_external_effect_policy : ExternalEffectPolicy;
  ws_secret_binding_refs : list SecretBindingRef;
  ws_snapshot_policy : SnapshotPolicy;
  ws_cleanup_policy : CleanupPolicy
}.
#[export] Instance WorkspaceTemplateSpec_eq_dec : EqDecision WorkspaceTemplateSpec.
Proof. solve_decision. Defined.
Definition to_WorkspaceTemplateSpec (x : WorkspaceTemplateSpec) : json := JObj [
  ("lifecycle", JStr "ephemeral_per_run");
  ("runtime_kind", JStr (ws_runtime_kind x));
  ("mounts", jlist to_WorkspaceMount (ws_mounts x));
  ("write_zones", jstrs (ws_write_zones x));
  ("network_policy", to_NetworkPolicy (ws_network_policy x));
  ("external_effect_policy", to_ExternalEffectPolicy (ws_external_effect_policy x));
  ("secret_binding_refs", jlist to_SecretBindingRef (ws_secret_binding_refs x));
  ("snapshot_policy", to_SnapshotPolicy (ws_snapshot_policy x));
  ("cleanup_policy", to_CleanupPolicy (ws_cleanup_policy x))].

Definition validate_workspace_names (w : WorkspaceTemplateSpec) : result unit :=
  raise_when (has_duplicates (map wm_name (ws_mounts w)))
    (ValidationError "workspace mount names must be unique");;
  raise_when (has_duplicates (ws_write_zones w))
    (ValidationError "workspace write zones must be unique").

(** ** Interaction protocol *)

Inductive NodeKind := NPrompt | NAwaitSubject | NCheckpoint | NHumanApproval | NTerminal.
#[export] Instance NodeKind_eq_dec : EqDecision NodeKind.
Proof. solve_decision. Defined.
Definition NodeKind_value (x : NodeKind) : string :=
  match x with
  | NPrompt => "prompt"
  | NAwaitSubject => "await_subject"
  | NCheckpoint => "checkpoint"
  | NHumanApproval => "human_approval"
  | NTerminal => "terminal"
  end.

Inductive InteractionMode := SingleTurn | Graph.
#[export] Instance InteractionMode_eq_dec : EqDecision InteractionMode.
Proof. solve_decision. Defined.
Definition InteractionMode_value (x : InteractionMode) : string :=
  match x with
  | SingleTurn => "single_turn"
  | Graph => "graph"
  end.

Record InteractionNode := MkInteractionNode {
  nd_id : string;
  nd_kind : NodeKind;
  nd_content_ref : option ArtifactRef
}.
#[export] Instance InteractionNode_eq_dec : EqDecision InteractionNode.
Proof. solve_decision. Defined.
Definition to_InteractionNode (x : InteractionNode) : json := JObj [
  ("id", JStr (nd_id x));
  ("kind", JStr (NodeKind_value (nd_kind x)));
  ("content_ref", jopt to_ArtifactRef (nd_content_ref x))].

Inductive InteractionTrigger :=
  | AlwaysTrigger
  | EventTrigger (event_type : string)
  | CheckpointReachedTrigger (checkpoint_definition_id : string)
  | EvaluatorSignalTrigger (stage_id signal : string)
  | HumanSignalTrigger (signal : string)
  | PredicateTrigger (predicate_ref : CapabilityDescriptorRef).
#[export] Instance InteractionTrigger_eq_dec : EqDecision InteractionTrigger.
Proof. solve_decision. Defined.
Definition to_InteractionTrigger (t : InteractionTrigger) : json :=
  match t with
  | AlwaysTrigger => JObj [("kind", JStr "always")]
  | EventTrigger e => JObj [("kind", JStr "event"); ("event_type", JStr e)]
  | CheckpointReachedTrigger c =>
      JObj [("kind", JStr "checkpoint_reached"); ("checkpoint_definition_id", JStr c)]
  | EvaluatorSignalTrigger s g =>
      JObj [("kind", JStr "evaluator_signal"); ("stage_id", JStr s); ("signal", JStr g)]
  | HumanSignalTrigger g => JObj [("kind", JStr "human_signal"); ("signal", JStr g)]
  | PredicateTrigger p =>
      JObj [("kind", JStr "predicate"); ("predicate_ref", to_CapabilityRef p)]
  end.

Record InteractionEdge := MkInteractionEdge {
  ed_source : string;
  ed_target : string;
  ed_trigger : InteractionTrigger;
  ed_priority : Z;
  ed_max_activations : Z
}.
#[export] Instance InteractionEdge_eq_dec : EqDecision InteractionEdge.
Proof. solve_decision. Defined.
Definition to_InteractionEdge (x : InteractionEdge) : json := JObj [
  ("source", JStr (ed_source x));
  ("target", JStr (ed_target x));
  ("trigger", to_InteractionTrigger (ed_trigger x));
  ("priority", JInt (ed_priority x));
  ("max_activations", JInt (ed_max_activations x))].

Record InteractionProtocolSpec := MkInteractionProtocolSpec {
  ip_mode : InteractionMode;
  ip_system_prompt_ref : option ArtifactRef;
  ip_initial_message_refs : list ArtifactRef;
  ip_max_turns : Z;
  ip_nodes : list InteractionNode;
  ip_edges : list InteractionEdge
}.
#[export] Instance InteractionProtocolSpec_eq_dec : EqDecision InteractionProtocolSpec.
Proof. solve_decision. Defined.
Definition to_InteractionProtocolSpec (x : InteractionProtocolSpec) : json := JObj [
  ("mode", JStr (InteractionMode_value (ip_mode x)));
  ("system_prompt_ref", jopt to_ArtifactRef (ip_system_prompt_ref x));
  ("initial_message_refs", jlist to_ArtifactRef (ip_initial_message_refs x));
  ("max_turns", JInt (ip_max_turns x));
  ("nodes", jlist to_InteractionNode (ip_nodes x));
  ("edges", jlist to_InteractionEdge (ip_edges x))].

Definition validate_graph (p : InteractionProtocolSpec) : result unit :=
  raise_when (ip_mode p ==b SingleTurn && (ip_nodes p !=b [] || ip_edges p !=b []))
    (ValidationError "single_turn protocol cannot declare graph nodes or edges");;
  if decide (ip_mode p = Graph) then
    let ids := map nd_id (ip_nodes p) in
    raise_when (ids ==b []) (ValidationError "graph protocol requires nodes");;
    raise_when (has_duplicates ids) (ValidationError "interaction node ids must be unique");;
    raise_when (existsb (λ e, negb (ed_source e ∈b ids) || negb (ed_target e ∈b ids)) (ip_edges p))
      (ValidationError "interaction edge references unknown node")
  else Ok tt.

(** ** Evaluation plan *)

Inductive ValueType := VTBoolean | VTNumber | VTCategory.
#[export] Instance ValueType_eq_dec : EqDecision ValueType.
Proof. solve_decision. Defined.
Definition ValueType_value (x : ValueType) : string :=
  match x with
  | VTBoolean => "boolean"
  | VTNumber => "number"
  | VTCategory => "category"
  end.

Inductive EvalTriggerKind := ETRunTerminal | ETCheckpoint | ETEvent.
#[export] Instance EvalTriggerKind_eq_dec : EqDecision EvalTriggerKind.
Proof. solve_decision. Defined.
Definition EvalTriggerKind_value (x : EvalTriggerKind) : string :=
  match x with
  | ETRunTerminal => "run_terminal"
  | ETCheckpoint => "checkpoint"
  | ETEvent => "event"
  end.

Inductive StageKind := Integrity | DeterministicGrader | ModelJudge | HumanReview.
#[export] Instance StageKind_eq_dec : EqDecision StageKind.
Proof. solve_decision. Defined.
Definition StageKind_value (x : StageKind) : string :=
  match x with
  | Integrity => "integrity"
  | DeterministicGrader => "deterministic_grader"
  | ModelJudge => "model_judge"
  | HumanReview => "human_review"
  end.

Inductive DisclosureMode := DNone | DPreRun | DOnRequest | DPostRun.
#[export] Instance DisclosureMode_eq_dec : EqDecision DisclosureMode.
Proof. solve_decision. Defined.
Definition DisclosureMode_value (x : DisclosureMode) : string :=
  match x with
  | DNone => "none"
  | DPreRun => "pre_run"
  | DOnRequest => "on_request"
  | DPostRun => "post_run"
  end.

Record EvaluationDimension := MkEvaluationDimension {
  dim_id : string;
  dim_description : string;
  dim_value_type : ValueType;
  dim_minimum : option pyfloat;
  dim_maximum : option pyfloat;
  dim_anchors : list KeyValue
}.
#[export] Instance EvaluationDimension_eq_dec : EqDecision EvaluationDimension.
Proof. solve_decision. Defined.
Definition to_EvaluationDimension (x : EvaluationDimension) : json := JObj [
  ("id", JStr (dim_id x));
  ("description", JStr (dim_description x));
  ("value_type", JStr (ValueType_value (dim_value_type x)));
  ("minimum", jopt JFloat (dim_minimum x));
  ("maximum", jopt JFloat (dim_maximum x));
  ("anchors", jlist to_KeyValue (dim_anchors x))].

Definition validate_scale (d : EvaluationDimension) : result unit :=
  raise_when (dim_value_type d ==b VTNumber
      && match dim_minimum d, dim_maximum d with
         | Some lo, Some hi => float_leb hi lo
         | _, _ => false
         end)
    (ValidationError "evaluation dimension minimum must be lower than maximum");;
  raise_when (dim_value_type d !=b VTNumber && (dim_minimum d !=b None || dim_maximum d !=b None))
    (ValidationError "only numeric dimensions can declare minimum or maximum").

Record EvaluationTrigger := MkEvaluationTrigger {
  et_kind : EvalTriggerKind;
  et_reference : option string
}.
#[export] Instance EvaluationTrigger_eq_dec : EqDecision EvaluationTrigger.
Proof. solve_decision. Defined.
Definition to_EvaluationTrigger (x : EvaluationTrigger) : json := JObj [
  ("kind", JStr (EvalTriggerKind_value (et_kind x)));
  ("reference", jopt JStr (et_reference x))].

Definition validate_reference (t : EvaluationTrigger) : result unit :=
  raise_when (et_kind t ∈b [ETCheckpoint; ETEvent] && et_reference t ==b None)
    (ValidationError (EvalTriggerKind_value (et_kind t)
      +:+ " evaluation trigger requires a reference"));;
  raise_when (et_kind t ==b ETRunTerminal && et_reference t !=b None)
    (ValidationError "run_terminal evaluation trigger cannot declare a reference").

Record EvaluationStage := MkEvaluationStage {
  st_id : string;
  st_kind : StageKind;
  st_evaluator_ref : CapabilityDescriptorRef;
  st_trigger : EvaluationTrigger;
  st_output_dimensions : list string;
  st_hard_gate : bool;
  st_parameters : list KeyValue
}.
#[export] Instance EvaluationStage_eq_dec : EqDecision EvaluationStage.
Proof. solve_decision. Defined.
Definition to_EvaluationStage (x : EvaluationStage) : json := JObj [
  ("id", JStr (st_id x));
  ("kind", JStr (StageKind_value (st_kind x)));
  ("evaluator_ref", to_CapabilityRef (st_evaluator_ref x));
  ("trigger", to_EvaluationTrigger (st_trigger x));
  ("output_dimensions", jstrs (st_output_dimensions x));
  ("hard_gate", JBool (st_hard_gate x));
  ("parameters", jlist to_KeyValue (st_parameters x))].

Record SubjectEvaluationDisclosure := MkSubjectEvaluationDisclosure {
  sd_mode : DisclosureMode;
  sd_dimension_ids : list string;
  sd_include_scale : bool;
  sd_include_anchors : bool
}.
#[export] Instance SubjectEvaluationDisclosure_eq_dec : EqDecision SubjectEvaluationDisclosure.
Proof. solve_decision. Defined.
Definition to_SubjectEvaluationDisclosure (x : SubjectEvaluationDisclosure) : json := JObj [
  ("mode", JStr (DisclosureMode_value (sd_mode x)));
  ("dimension_ids", jstrs (sd_dimension_ids x));
  ("include_scale", JBool (sd_include_scale x));
  ("include_anchors", JBool (sd_include_anchors x))].

Definition validate_disclosure (d : SubjectEvaluationDisclosure) : result unit :=
  raise_when (sd_mode d ==b DNone
      && (sd_dimension_ids d !=b [] || sd_include_scale d || sd_include_anchors d))
    (ValidationError "none disclosure cannot expose evaluation guidance");;
  raise_when (sd_mode d !=b DNone && sd_dimension_ids d ==b [])
    (ValidationError "enabled Subject disclosure requires public dimensions").

Record EvaluationDisclosure := MkEvaluationDisclosure {
  ds_subject : SubjectEvaluationDisclosure;
  ds_hidden_input_refs : list ArtifactRef
}.
#[export] Instance EvaluationDisclosure_eq_dec : EqDecision EvaluationDisclosure.
Proof. solve_decision. Defined.
Definition to_EvaluationDisclosure (x : EvaluationDisclosure) : json := JObj [
  ("subject", to_SubjectEvaluationDisclosure (ds_subject x));
  ("hidden_input_refs", jlist to_ArtifactRef (ds_hidden_input_refs x))].

Record BlindingPolicy := MkBlindingPolicy {
  bp_hidden_fields : list string
}.
#[export] Instance BlindingPolicy_eq_dec : EqDecision BlindingPolicy.
Proof. solve_decision. Defined.
Definition to_BlindingPolicy (x : BlindingPolicy) : json := JObj [
  ("hidden_fields", jstrs (bp_hidden_fields x))].

Record AggregationSpec := MkAggregationSpec {
  ag_projector_ref : CapabilityDescriptorRef;
  ag_parameters : list KeyValue
}.
#[export] Instance AggregationSpec_eq_dec : EqDecision AggregationSpec.
Proof. solve_decision. Defined.
Definition to_AggregationSpec (x : AggregationSpec) : json := JObj [
  ("projector_ref", to_CapabilityRef (ag_projector_ref x));
  ("parameters", jlist to_KeyValue (ag_parameters x))].

Record HumanAdjudicationPolicy := MkHumanAdjudicationPolicy {
  hp_required : bool;
  hp_adjudicator_ref : option CapabilityDescriptorRef;
  hp_adjudicable_stage_ids : list string;
  hp_attestation_verifier_ref : option CapabilityDescriptorRef
}.
#[export] Instance HumanAdjudicationPolicy_eq_dec : EqDecision HumanAdjudicationPolicy.
Proof. solve_decision. Defined.
Definition to_HumanAdjudicationPolicy (x : HumanAdjudicationPolicy) : json := JObj [
  ("required", JBool (hp_required x));
  ("adjudicator_ref", jopt to_CapabilityRef (hp_adjudicator_ref x));
  ("adjudicable_stage_ids", jstrs (hp_adjudicable_stage_ids x));
  ("attestation_verifier_ref", jopt to_CapabilityRef (hp_attestation_verifier_ref x))].

Definition validate_required_authority (p : HumanAdjudicationPolicy) : result unit :=
  let configured := hp_adjudicator_ref p !=b None && hp_adjudicable_stage_ids p !=b []
    && hp_attestation_verifier_ref p !=b None in
  raise_when (hp_required p && negb configured)
    (ValidationError "required human adjudication needs an adjudicator, stages, and verifier");;
  raise_when (negb (hp_required p)
      && (hp_adjudicator_ref p !=b None || hp_adjudicable_stage_ids p !=b []
          || hp_attestation_verifier_ref p !=b None))
    (ValidationError "optional adjudication authority is not supported in v1").

Record EvaluationPlanSpec := MkEvaluationPlanSpec {
  plan_dimensions : list EvaluationDimension;
  plan_stages : list EvaluationStage;
  plan_disclosure : EvaluationDisclosure;
  plan_blinding_policy : BlindingPolicy;
  plan_aggregation : option AggregationSpec;
  plan_human_adjudication_policy : HumanAdjudicationPolicy;
  plan_limitations : list string
}.
#[export] Instance EvaluationPlanSpec_eq_dec : EqDecision EvaluationPlanSpec.
Proof. solve_decision. Defined.
Definition to_EvaluationPlanSpec (x : EvaluationPlanSpec) : json := JObj [
  ("dimensions", jlist to_EvaluationDimension (plan_dimensions x));
  ("stages", jlist to_EvaluationStage (plan_stages x));
  ("disclosure", to_EvaluationDisclosure (plan_disclosure x));
  ("blinding_policy", to_BlindingPolicy (plan_blinding_policy x));
  ("aggregation", jopt to_AggregationSpec (plan_aggregation x));
  ("human_adjudication_policy", to_HumanAdjudicationPolicy (plan_human_adjudication_policy x));
  ("limitations", jstrs (plan_limitations x))].

Definition validate_evaluation_plan (p : EvaluationPlanSpec) : result unit :=
  let dimension_ids := map dim_id (plan_dimensions p) in
  let stage_ids := map st_id (plan_stages p) in
  raise_when (dimension_ids ==b [] || stage_ids ==b [])
    (ValidationError "evaluation plan requires dimensions and stages");;
  raise_when (has_duplicates dimension_ids)
    (ValidationError "evaluation dimension ids must be unique");;
  raise_when (has_duplicates stage_ids)
    (ValidationError "evaluation stage ids must be unique");;
  raise_when (existsb (λ s, negb (subset_of (st_output_dimensions s) dimension_ids)) (plan_stages p))
    (ValidationError "evaluation stage references unknown dimension");;
  raise_when (negb (subset_of (sd_dimension_ids (ds_subject (plan_disclosure p))) dimension_ids))
    (ValidationError "disclosure references unknown dimension");;
  raise_when (negb (subset_of
      (hp_adjudicable_stage_ids (plan_human_adjudication_policy p)) stage_ids))
    (ValidationError "human adjudication policy references an unknown stage").

(** ** Checkpoint policy *)

Inductive CheckpointTrigger :=
  | ManualCheckpointTrigger
  | CheckpointEventTrigger (event_type : string)
  | ProtocolNodeCheckpointTrigger (node_id : string)
  | PredicateCheckpointTrigger (predicate_ref : CapabilityDescriptorRef).
#[export] Instance CheckpointTrigger_eq_dec : EqDecision CheckpointTrigger.
Proof. solve_decision. Defined.
Definition to_CheckpointTrigger (t : CheckpointTrigger) : json :=
  match t with
  | ManualCheckpointTrigger => JObj [("kind", JStr "manual")]
  | CheckpointEventTrigger e => JObj [("kind", JStr "event"); ("event_type", JStr e)]
  | ProtocolNodeCheckpointTrigger n =>
      JObj [("kind", JStr "protocol_node"); ("node_id", JStr n)]
  | PredicateCheckpointTrigger p =>
      JObj [("kind", JStr "predicate"); ("predicate_ref", to_CapabilityRef p)]
  end.

Record CheckpointCaptureSpec := MkCheckpointCaptureSpec {
  cc_context_snapshot : bool;
  cc_protocol_state : bool;
  cc_artifact_manifest : bool;
  cc_workspace_snapshot : bool;
  cc_provider_resolution : bool;
  cc_agent_inventory : bool;
  cc_evaluation_records : bool
}.
#[export] Instance CheckpointCaptureSpec_eq_dec : EqDecision CheckpointCaptureSpec.
Proof. solve_decision. Defined.
Definition to_CheckpointCaptureSpec (x : CheckpointCaptureSpec) : json := JObj [
  ("context_snapshot", JBool (cc_context_snapshot x));
  ("protocol_state", JBool (cc_protocol_state x));
  ("artifact_manifest", JBool (cc_artifact_manifest x));
  ("workspace_snapshot", JBool (cc_workspace_snapshot x));
  ("provider_resolution", JBool (cc_provider_resolution x));
  ("agent_inventory", JBool (cc_agent_inventory x));
  ("evaluation_records", JBool (cc_evaluation_records x))].

Record CheckpointDefinition := MkCheckpointDefinition {
  cd_id : string;
  cd_label : string;
  cd_order : Z;
  cd_trigger : CheckpointTrigger;
  cd_validator_refs : list CapabilityDescriptorRef;
  cd_capture : CheckpointCaptureSpec;
  cd_required : bool;
  cd_compatibility_tags : list string
}.
#[export] Instance CheckpointDefinition_eq_dec : EqDecision CheckpointDefinition.
Proof. solve_decision. Defined.
Definition to_CheckpointDefinition (x : CheckpointDefinition) : json := JObj [
  ("id", JStr (cd_id x));
  ("label", JStr (cd_label x));
  ("order", JInt (cd_order x));
  ("trigger", to_CheckpointTrigger (cd_trigger x));
  ("validator_refs", jlist to_CapabilityRef (cd_validator_refs x));
  ("capture", to_CheckpointCaptureSpec (cd_capture x));
  ("required", JBool (cd_required x));
  ("compatibility_tags", jstrs (cd_compatibility_tags x))].

Record CheckpointPolicySpec := MkCheckpointPolicySpec {
  ckp_definitions : list CheckpointDefinition
}.
#[export] Instance CheckpointPolicySpec_eq_dec : EqDecision CheckpointPolicySpec.
Proof. solve_decision. Defined.
Definition to_CheckpointPolicySpec (x : CheckpointPolicySpec) : json := JObj [
  ("definitions", jlist to_CheckpointDefinition (ckp_definitions x))].

Definition validate_checkpoint_definitions (p : CheckpointPolicySpec) : result unit :=
  let ids := map cd_id (ckp_definitions p) in
  raise_when (ids ==b [])
    (ValidationError "checkpoint policy requires at least one definition");;
  raise_when (has_duplicates ids)
    (ValidationError "checkpoint definition ids must be unique");;
  raise_when (has_duplicates (map cd_order (ckp_definitions p)))
    (ValidationError "checkpoint definition order must be unique").

(** ** Progress artifact policy *)

Inductive ProgressArtifactTrigger :=
  | CheckpointReachedProgressTrigger (checkpoint_definition_id : string)
  | SubjectTurnIntervalProgressTrigger (every_n_turns : Z).
#[export] Instance ProgressArtifactTrigger_eq_dec : EqDecision ProgressArtifactTrigger.
Proof. solve_decision. Defined.
Definition to_ProgressArtifactTrigger (t : ProgressArtifactTrigger) : json :=
  match t with
  | CheckpointReachedProgressTrigger c =>
      JObj [("kind", JStr "checkpoint_reached"); ("checkpoint_definition_id", JStr c)]
  | SubjectTurnIntervalProgressTrigger n =>
      JObj [("kind", JStr "subject_turn_interval");
            ("counted_event_type", JStr "subject.responded"); ("every_n_turns", JInt n)]
  end.

Record ProgressArtifactDefinition := MkProgressArtifactDefinition {
  pd_id : string;
  pd_label : string;
  pd_trigger : ProgressArtifactTrigger;
  pd_summarizer_ref : CapabilityDescriptorRef;
  pd_minimum_interface_version : string;
  pd_max_output_characters : Z
}.
#[export] Instance ProgressArtifactDefinition_eq_dec : EqDecision ProgressArtifactDefinition.
Proof. solve_decision. Defined.
Definition to_ProgressArtifactDefinition (x : ProgressArtifactDefinition) : json := JObj [
  ("id", JStr (pd_id x));
  ("label", JStr (pd_label x));
  ("trigger", to_ProgressArtifactTrigger (pd_trigger x));
  ("summarizer_ref", to_CapabilityRef (pd_summarizer_ref x));
  ("minimum_interface_version", JStr (pd_minimum_interface_version x));
  ("authority_constraints", jstrs ["read_current_run_ledger_prefix";
    "write_progress_artifact_only"; "no_subject_feedback"]);
  ("input_scope", JStr "complete_run_ledger_prefix");
  ("max_output_characters", JInt (pd_max_output_characters x));
  ("audience", JStr "laboratory_human")].

Record ProgressArtifactPolicySpec := MkProgressArtifactPolicySpec {
  pp_definitions : list ProgressArtifactDefinition;
  pp_limitations : list string
}.
#[export] Instance ProgressArtifactPolicySpec_eq_dec : EqDecision ProgressArtifactPolicySpec.
Proof. solve_decision. Defined.
Definition to_ProgressArtifactPolicySpec (x : ProgressArtifactPolicySpec) : json := JObj [
  ("definitions", jlist to_ProgressArtifactDefinition (pp_definitions x));
  ("limitations", jstrs (pp_limitations x))].

Definition validate_progress_definitions (p : ProgressArtifactPolicySpec) : result unit :=
  let ids := map pd_id (pp_definitions p) in
  raise_when (ids ==b [])
    (ValidationError "progress artifact policy requires at least one definition");;
  raise_when (has_duplicates ids)
    (ValidationError "progress artifact definition ids must be unique").

(** ** Run blueprint *)

Inductive StopKind :=
  | SGoalComplete
  | SBoundedExplorationComplete
  | SBudgetExhausted
  | SHumanStop
  | SGuardrailViolation
  | SProviderError
  | SPredicate.
#[export] Instance StopKind_eq_dec : EqDecision StopKind.
Proof. solve_decision. Defined.
Definition StopKind_value (x : StopKind) : string :=
  match x with
  | SGoalComplete => "goal_complete"
  | SBoundedExplorationComplete => "bounded_exploration_complete"
  | SBudgetExhausted => "budget_exhausted"
  | SHumanStop => "human_stop"
  | SGuardrailViolation => "guardrail_violation"
  | SProviderError => "provider_error"
  | SPredicate => "predicate"
  end.

Inductive StopAction := StopTerminal | StopPause.
#[export] Instance StopAction_eq_dec : EqDecision StopAction.
Proof. solve_decision. Defined.
Definition StopAction_value (x : StopAction) : string :=
  match x with
  | StopTerminal => "terminal"
  | StopPause => "pause"
  end.

Inductive CaptureMode := CapMetadata | CapRedacted | CapRawEncrypted | CapDisabled.
#[export] Instance CaptureMode_eq_dec : EqDecision CaptureMode.
Proof. solve_decision. Defined.
Definition CaptureMode_value (x : CaptureMode) : string :=
  match x with
  | CapMetadata => "metadata"
  | CapRedacted => "redacted"
  | CapRawEncrypted => "raw_encrypted"
  | CapDisabled => "disabled"
  end.

Inductive RawSensitive := RawDisabled | RawOptIn.
#[export] Instance RawSensitive_eq_dec : EqDecision RawSensitive.
Proof. solve_decision. Defined.
Definition RawSensitive_value (x : RawSensitive) : string :=
  match x with
  | RawDisabled => "disabled"
  | RawOptIn => "opt_in"
  end.

Record BudgetSpec := MkBudgetSpec {
  bu_max_wall_seconds : Z;
  bu_max_turns : option Z;
  bu_max_input_tokens : option Z;
  bu_max_output_tokens : option Z;
  bu_max_tool_calls : option Z;
  bu_max_cost : option pyfloat
}.
#[export] Instance BudgetSpec_eq_dec : EqDecision BudgetSpec.
Proof. solve_decision. Defined.
Definition to_BudgetSpec (x : BudgetSpec) : json := JObj [
  ("max_wall_seconds", JInt (bu_max_wall_seconds x));
  ("max_turns", jopt JInt (bu_max_turns x));
  ("max_input_tokens", jopt JInt (bu_max_input_tokens x));
  ("max_output_tokens", jopt JInt (bu_max_output_tokens x));
  ("max_tool_calls", jopt JInt (bu_max_tool_calls x));
  ("max_cost", jopt JFloat (bu_max_cost x))].

Record StopCondition := MkStopCondition {
  sto_kind : StopKind;
  sto_action : StopAction;
  sto_predicate_ref : option CapabilityDescriptorRef
}.
#[export] Instance StopCondition_eq_dec : EqDecision StopCondition.
Proof. solve_decision. Defined.
Definition to_StopCondition (x : StopCondition) : json := JObj [
  ("kind", JStr (StopKind_value (sto_kind x)));
  ("action", JStr (StopAction_value (sto_action x)));
  ("predicate_ref", jopt to_CapabilityRef (sto_predicate_ref x))].

Definition validate_predicate_ref (s : StopCondition) : result unit :=
  raise_when (sto_kind s ==b SPredicate && sto_predicate_ref s ==b None)
    (ValidationError "predicate stop condition requires a predicate_ref");;
  raise_when (sto_kind s !=b SPredicate && sto_predicate_ref s !=b None)
    (ValidationError "predicate_ref is only valid for predicate stop conditions").

Record CapturePolicySpec := MkCapturePolicySpec {
  cap_default_mode : CaptureMode;
  cap_raw_sensitive : RawSensitive;
  cap_sensitive_ttl_days : Z
}.
#[export] Instance CapturePolicySpec_eq_dec : EqDecision CapturePolicySpec.
Proof. solve_decision. Defined.
Definition to_CapturePolicySpec (x : CapturePolicySpec) : json := JObj [
  ("default_mode", JStr (CaptureMode_value (cap_default_mode x)));
  ("raw_sensitive", JStr (RawSensitive_value (cap_raw_sensitive x)));
  ("sensitive_ttl_days", JInt (cap_sensitive_ttl_days x))].

Record RunBlueprint := MkRunBlueprint {
  rb_agent_inventory_ref : ContractRef;
  rb_workspace_template_ref : ContractRef;
  rb_interaction_protocol_ref : ContractRef;
  rb_evaluation_plan_ref : ContractRef;
  rb_checkpoint_policy_ref : option ContractRef;
  rb_progress_artifact_policy_ref : option ContractRef;
  rb_context_policy : option ContextPolicySpec;
  rb_budgets : BudgetSpec;
  rb_stop_conditions : list StopCondition;
  rb_capture_policy : CapturePolicySpec;
  rb_extensions : list ExtensionRef
}.
#[export] Instance RunBlueprint_eq_dec : EqDecision RunBlueprint.
Proof. solve_decision. Defined.
Definition to_RunBlueprint (x : RunBlueprint) : json := JObj [
  ("agent_inventory_ref", to_ContractRef (rb_agent_inventory_ref x));
  ("workspace_template_ref", to_ContractRef (rb_workspace_template_ref x));
  ("interaction_protocol_ref", to_ContractRef (rb_interaction_protocol_ref x));
  ("evaluation_plan_ref", to_ContractRef (rb_evaluation_plan_ref x));
  ("checkpoint_policy_ref", jopt to_ContractRef (rb_checkpoint_policy_ref x));
  ("progress_artifact_policy_ref", jopt to_ContractRef (rb_progress_artifact_policy_ref x));
  ("context_policy", jopt to_ContextPolicySpec (rb_context_policy x));
  ("budgets", to_BudgetSpec (rb_budgets x));
  ("stop_conditions", jlist to_StopCondition (rb_stop_conditions x));
  ("capture_policy", to_CapturePolicySpec (rb_capture_policy x));
  ("extensions", jlist to_ExtensionRef (rb_extensions x))].

(** [ref is not None and ref.contract_type != expected]. *)
Definition wrong_slot (r : option ContractRef) (expected : ContractType) : bool :=
  match r with Some c => cr_contract_type c !=b expected | None => false end.

Definition validate_stops (b : RunBlueprint) : result unit :=
  raise_when (rb_stop_conditions b ==b [])
    (ValidationError "run blueprint requires at least one stop condition");;
  raise_when (existsb (λ '(r, t), wrong_slot (Some r) t)
      [(rb_agent_inventory_ref b, AGENT_INVENTORY);
       (rb_workspace_template_ref b, WORKSPACE_TEMPLATE);
       (rb_interaction_protocol_ref b, INTERACTION_PROTOCOL);
       (rb_evaluation_plan_ref b, EVALUATION_PLAN)])
    (ValidationError "run blueprint contains a reference in the wrong contract slot");;
  raise_when (wrong_slot (rb_checkpoint_policy_ref b) CHECKPOINT_POLICY)
    (ValidationError "checkpoint policy slot requires a checkpoint_policy ref");;
  raise_when (wrong_slot (rb_progress_artifact_policy_ref b) PROGRESS_ARTIFACT_POLICY)
    (ValidationError "progress artifact policy slot requires a progress_artifact_policy ref").

(** ** Study *)

Record IntentScope := MkIntentScope {
  is_included : list string;
  is_excluded : list string
}.
#[export] Instance IntentScope_eq_dec : EqDecision IntentScope.
Proof. solve_decision. Defined.
Definition to_IntentScope (x : IntentScope) : json := JObj [
  ("included", jstrs (is_included x));
  ("excluded", jstrs (is_excluded x))].

Definition validate_boundaries (s : IntentScope) : result unit :=
  raise_when (intersects (is_included s) (is_excluded s))
    (ValidationError "intent scope cannot both include and exclude the same boundary").

Record StudyIntent := MkStudyIntent {
  si_purpose : string;
  si_questions : list string;
  si_hypothesis : option string;
  si_decision_to_inform : option string;
  si_scope : IntentScope;
  si_assumptions : list string
}.
#[export] Instance StudyIntent_eq_dec : EqDecision StudyIntent.
Proof. solve_decision. Defined.
Definition to_StudyIntent (x : StudyIntent) : json := JObj [
  ("purpose", JStr (si_purpose x));
  ("questions", jstrs (si_questions x));
  ("hypothesis", jopt JStr (si_hypothesis x));
  ("decision_to_inform", jopt JStr (si_decision_to_inform x));
  ("scope", to_IntentScope (si_scope x));
  ("assumptions", jstrs (si_assumptions x))].

Record VariantOverrides := MkVariantOverrides {
  vo_goal_ref : option ContractRef;
  vo_scenario_ref : option ContractRef;
  vo_agent_inventory_ref : option ContractRef;
  vo_workspace_template_ref : option ContractRef;
  vo_interaction_protocol_ref : option ContractRef;
  vo_evaluation_plan_ref : option ContractRef;
  vo_checkpoint_policy_ref : option ContractRef;
  vo_progress_artifact_policy_ref : option ContractRef;
  vo_context_policy : option ContextPolicySpec;
  vo_budgets : option BudgetSpec;
  vo_stop_conditions : option (list StopCondition);
  vo_capture_policy : option CapturePolicySpec;
  vo_extensions : option (list ExtensionRef)
}.
#[export] Instance VariantOverrides_eq_dec : EqDecision VariantOverrides.
Proof. solve_decision. Defined.
Definition to_VariantOverrides (x : VariantOverrides) : json := JObj [
  ("goal_ref", jopt to_ContractRef (vo_goal_ref x));
  ("scenario_ref", jopt to_ContractRef (vo_scenario_ref x));
  ("agent_inventory_ref", jopt to_ContractRef (vo_agent_inventory_ref x));
  ("workspace_template_ref", jopt to_ContractRef (vo_workspace_template_ref x));
  ("interaction_protocol_ref", jopt to_ContractRef (vo_interaction_protocol_ref x));
  ("evaluation_plan_ref", jopt to_ContractRef (vo_evaluation_plan_ref x));
  ("checkpoint_policy_ref", jopt to_ContractRef (vo_checkpoint_policy_ref x));
  ("progress_artifact_policy_ref", jopt to_ContractRef (vo_progress_artifact_policy_ref x));
  ("context_policy", jopt to_ContextPolicySpec (vo_context_policy x));
  ("budgets", jopt to_BudgetSpec (vo_budgets x));
  ("stop_conditions", jopt (jlist to_StopCondition) (vo_stop_conditions x));
  ("capture_policy", jopt to_CapturePolicySpec (vo_capture_policy x));
  ("extensions", jopt (jlist to_ExtensionRef) (vo_extensions x))].

(** The reference slots of a variant with the contract type each requires. *)
Definition override_slots (o : VariantOverrides) : list (option ContractRef * ContractType) :=
  [(vo_goal_ref o, GOAL); (vo_scenario_ref o, SCENARIO);
   (vo_agent_inventory_ref o, AGENT_INVENTORY);
   (vo_workspace_template_ref o, WORKSPACE_TEMPLATE);
   (vo_interaction_protocol_ref o, INTERACTION_PROTOCOL);
   (vo_evaluation_plan_ref o, EVALUATION_PLAN);
   (vo_checkpoint_policy_ref o, CHECKPOINT_POLICY);
   (vo_progress_artifact_policy_ref o, PROGRESS_ARTIFACT_POLICY)].

Definition validate_ref_slots (o : VariantOverrides) : result unit :=
  raise_when (existsb (λ '(r, t), wrong_slot r t) (override_slots o))
    (ValidationError "variant override contains a reference in the wrong contract slot").

Record VariantSpec := MkVariantSpec {
  va_id : string;
  va_label : string;
  va_overrides : VariantOverrides;
  va_confounders : list string;
  va_notes : option string
}.
#[export] Instance VariantSpec_eq_dec : EqDecision VariantSpec.
Proof. solve_decision. Defined.
Definition to_VariantSpec (x : VariantSpec) : json := JObj [
  ("id", JStr (va_id x));
  ("label", JStr (va_label x));
  ("overrides", to_VariantOverrides (va_overrides x));
  ("confounders", jstrs (va_confounders x));
  ("notes", jopt JStr (va_notes x))].

Definition VARIANT_SLOTS : list string :=
  ["goal"; "scenario"; "agent_inventory"; "workspace_template"; "interaction_protocol";
   "evaluation_plan"; "checkpoint_policy"; "progress_artifact_policy"; "context_policy";
   "budgets"; "stop_conditions"; "capture_policy"; "extensions"].

Record ComparisonPlan := MkComparisonPlan {
  cmp_baseline_variant : string;
  cmp_candidate_variant : string;
  cmp_primary_variable : string
}.
#[export] Instance ComparisonPlan_eq_dec : EqDecision ComparisonPlan.
Proof. solve_decision. Defined.
Definition to_ComparisonPlan (x : ComparisonPlan) : json := JObj [
  ("baseline_variant", JStr (cmp_baseline_variant x));
  ("candidate_variant", JStr (cmp_candidate_variant x));
  ("primary_variable", JStr (cmp_primary_variable x))].

Definition validate_primary_variable (c : ComparisonPlan) : result unit :=
  raise_when (cmp_baseline_variant c ==b cmp_candidate_variant c)
    (ValidationError "comparison variants must be different");;
  raise_when (negb (cmp_primary_variable c ∈b VARIANT_SLOTS)
      && negb (startswith "extension:" (cmp_primary_variable c)))
    (ValidationError "comparison primary variable is not a typed variant slot").

Inductive SeedKind := SeedDeterministic | SeedFixed | SeedPerRepetition.
#[export] Instance SeedKind_eq_dec : EqDecision SeedKind.
Proof. solve_decision. Defined.
Definition SeedKind_value (x : SeedKind) : string :=
  match x with
  | SeedDeterministic => "deterministic"
  | SeedFixed => "fixed"
  | SeedPerRepetition => "per_repetition"
  end.

Record SeedStrategy := MkSeedStrategy {
  seed_kind : SeedKind;
  seed_seed : option Z
}.
#[export] Instance SeedStrategy_eq_dec : EqDecision SeedStrategy.
Proof. solve_decision. Defined.
Definition to_SeedStrategy (x : SeedStrategy) : json := JObj [
  ("kind", JStr (SeedKind_value (seed_kind x)));
  ("seed", jopt JInt (seed_seed x))].

Definition validate_seed (s : SeedStrategy) : result unit :=
  raise_when (seed_kind s ==b SeedFixed && seed_seed s ==b None)
    (ValidationError "fixed seed strategy requires a seed");;
  raise_when (seed_kind s ==b SeedDeterministic && seed_seed s !=b None)
    (ValidationError "deterministic seed strategy does not accept an explicit seed").

Record StudySpec := MkStudySpec {
  study_intent : StudyIntent;
  study_evidence_mode : EvidenceMode;
  study_goal_ref : ContractRef;
  study_scenario_refs : list ContractRef;
  study_run_blueprint : RunBlueprint;
  study_variants : list VariantSpec;
  study_repetitions : Z;
  study_seed_strategy : SeedStrategy;
  study_comparisons : list ComparisonPlan;
  study_limitations : list string;
  study_tags : list string
}.
#[export] Instance StudySpec_eq_dec : EqDecision StudySpec.
Proof. solve_decision. Defined.
Definition to_StudySpec (x : StudySpec) : json := JObj [
  ("intent", to_StudyIntent (study_intent x));
  ("evidence_mode", JStr (EvidenceMode_value (study_evidence_mode x)));
  ("goal_ref", to_ContractRef (study_goal_ref x));
  ("scenario_refs", jlist to_ContractRef (study_scenario_refs x));
  ("run_blueprint", to_RunBlueprint (study_run_blueprint x));
  ("variants", jlist to_VariantSpec (study_variants x));
  ("repetitions", JInt (study_repetitions x));
  ("seed_strategy", to_SeedStrategy (study_seed_strategy x));
  ("comparisons", jlist to_ComparisonPlan (study_comparisons x));
  ("limitations", jstrs (study_limitations x));
  ("tags", jstrs (study_tags x))].

Definition validate_matrix (s : StudySpec) : result unit :=
  raise_when (study_scenario_refs s ==b [])
    (ValidationError "study requires at least one scenario");;
  raise_when (has_duplicates (study_scenario_refs s))
    (ValidationError "study scenario refs must be unique");;
  raise_when (wrong_slot (Some (study_goal_ref s)) GOAL
      || existsb (λ r, wrong_slot (Some r) SCENARIO) (study_scenario_refs s))
    (ValidationError "study Goal or scenario reference has the wrong contract type");;
  let variant_ids := map va_id (study_variants s) in
  raise_when (variant_ids ==b [])
    (ValidationError "study requires at least one variant");;
  raise_when (has_duplicates variant_ids)
    (ValidationError "study variant ids must be unique");;
  raise_when ((1 <? length (study_scenario_refs s))%nat
      && existsb (λ v, vo_scenario_ref (va_overrides v) !=b None) (study_variants s))
    (ValidationError "scenario overrides are ambiguous when the Study matrix has multiple scenarios");;
  raise_when (existsb (λ c, negb (cmp_baseline_variant c ∈b variant_ids)
                            || negb (cmp_candidate_variant c ∈b variant_ids)) (study_comparisons s))
    (ValidationError "comparison references unknown variant");;
  raise_when (study_evidence_mode s ==b PROSPECTIVE_CONTROLLED && study_comparisons s ==b [])
    (ValidationError "prospective_controlled study requires a comparison");;
  raise_when (study_evidence_mode s !=b EXPLORATORY
      && existsb (λ v, va_confounders v !=b []) (study_variants s))
    (ValidationError "variant confounders are only valid in exploratory studies").

(** ** Revisions by contract type *)

#[export] Instance GoalSpec_payload : Payload GoalSpec :=
  {| payload_contract_type := GOAL; to_payload := to_GoalSpec |}.
#[export] Instance ScenarioSpec_payload : Payload ScenarioSpec :=
  {| payload_contract_type := SCENARIO; to_payload := to_ScenarioSpec |}.
#[export] Instance AgentInventorySpec_payload : Payload AgentInventorySpec :=
  {| payload_contract_type := AGENT_INVENTORY; to_payload := to_AgentInventorySpec |}.
#[export] Instance WorkspaceTemplateSpec_payload : Payload WorkspaceTemplateSpec :=
  {| payload_contract_type := WORKSPACE_TEMPLATE; to_payload := to_WorkspaceTemplateSpec |}.
#[export] Instance InteractionProtocolSpec_payload : Payload InteractionProtocolSpec :=
  {| payload_contract_type := INTERACTION_PROTOCOL; to_payload := to_InteractionProtocolSpec |}.
#[export] Instance EvaluationPlanSpec_payload : Payload EvaluationPlanSpec :=
  {| payload_contract_type := EVALUATION_PLAN; to_payload := to_EvaluationPlanSpec |}.
#[export] Instance CheckpointPolicySpec_payload : Payload CheckpointPolicySpec :=
  {| payload_contract_type := CHECKPOINT_POLICY; to_payload := to_CheckpointPolicySpec |}.
#[export] Instance ProgressArtifactPolicySpec_payload : Payload ProgressArtifactPolicySpec :=
  {| payload_contract_type := PROGRESS_ARTIFACT_POLICY; to_payload := to_ProgressArtifactPolicySpec |}.
#[export] Instance StudySpec_payload : Payload StudySpec :=
  {| payload_contract_type := STUDY; to_payload := to_StudySpec |}.

(** The union [AuthoringRevision], discriminated by [contract_type]. *)
Inductive AuthoringRevision :=
  | StudyRevision (r : Revision StudySpec)
  | GoalRevision (r : Revision GoalSpec)
  | ScenarioRevision (r : Revision ScenarioSpec)
  | AgentInventoryRevision (r : Revision AgentInventorySpec)
  | WorkspaceTemplateRevision (r : Revision WorkspaceTemplateSpec)
  | InteractionProtocolRevision (r : Revision InteractionProtocolSpec)
  | EvaluationPlanRevision (r : Revision EvaluationPlanSpec)
  | CheckpointPolicyRevision (r : Revision CheckpointPolicySpec)
  | ProgressArtifactPolicyRevision (r : Revision ProgressArtifactPolicySpec).
#[export] Instance AuthoringRevision_eq_dec : EqDecision AuthoringRevision.
Proof. solve_decision. Defined.

Definition revision_ref `{PyRuntime} (r : AuthoringRevision) : ContractRef :=
  match r with
  | StudyRevision r => rev_ref r | GoalRevision r => rev_ref r
  | ScenarioRevision r => rev_ref r | AgentInventoryRevision r => rev_ref r
  | WorkspaceTemplateRevision r => rev_ref r | InteractionProtocolRevision r => rev_ref r
  | EvaluationPlanRevision r => rev_ref r | CheckpointPolicyRevision r => rev_ref r
  | ProgressArtifactPolicyRevision r => rev_ref r
  end.

Definition revision_document `{PyRuntime} (r : AuthoringRevision) : json :=
  match r with
  | StudyRevision r => semantic_document r | GoalRevision r => semantic_document r
  | ScenarioRevision r => semantic_document r | AgentInventoryRevision r => semantic_document r
  | WorkspaceTemplateRevision r => semantic_document r
  | InteractionProtocolRevision r => semantic_document r
  | EvaluationPlanRevision r => semantic_document r
  | CheckpointPolicyRevision r => semantic_document r
  | ProgressArtifactPolicyRevision r => semantic_document r
  end.

Definition revision_project_id (r : AuthoringRevision) : string :=
  match r with
  | StudyRevision r => rev_project_id r | GoalRevision r => rev_project_id r
  | ScenarioRevision r => rev_project_id r | AgentInventoryRevision r => rev_project_id r
  | WorkspaceTemplateRevision r => rev_project_id r
  | InteractionProtocolRevision r => rev_project_id r
  | EvaluationPlanRevision r => rev_project_id r
  | CheckpointPolicyRevision r => rev_project_id r
  | ProgressArtifactPolicyRevision r => rev_project_id r
  end.
