(* ===== verification/Runtime.v ===== *)
(** * Runtime contracts (src/src/evidrun/contracts/runtime/: spec.py, records.py,
    envelope.py, execution.py) and the trust reference of execution_trust.py.

    The RunSpec a Study compiles to, the admission record that resolves it, evaluation
    and checkpoint records, the closed disclosure envelopes, and the durable job and
    attempt of the execution queue. *)

From S2P Require Import Prelude PyText PyJson Base Authoring.

(** ** RunSpec *)

Record RunSpec := MkRunSpec {
  spec_study_ref : ContractRef;
  spec_scenario_ref : ContractRef;
  spec_variant_id : string;
  spec_repetition_index : Z;
  spec_seed : option Z;
  spec_goal_ref : ContractRef;
  spec_goal : GoalSpec;
  spec_scenario : ScenarioSpec;
  spec_agent_inventory_ref : ContractRef;
  spec_agent_inventory : AgentInventorySpec;
  spec_workspace_template_ref : ContractRef;
  spec_workspace : WorkspaceTemplateSpec;
  spec_interaction_protocol_ref : ContractRef;
  spec_interaction_protocol : InteractionProtocolSpec;
  spec_evaluation_plan_ref : ContractRef;
  spec_evaluation_plan : EvaluationPlanSpec;
  spec_checkpoint_policy_ref : option ContractRef;
  spec_checkpoint_policy : option CheckpointPolicySpec;
  spec_progress_artifact_policy_ref : option ContractRef;
  spec_progress_artifact_policy : option ProgressArtifactPolicySpec;
  spec_context_policy : option ContextPolicySpec;
  spec_budgets : BudgetSpec;
  spec_stop_conditions : list StopCondition;
  spec_capture_policy : CapturePolicySpec;
  spec_extensions : list ExtensionRef;
  spec_limitations : list string
}.
#[export] Instance RunSpec_eq_dec : EqDecision RunSpec.
Proof. solve_decision. Defined.
Definition to_RunSpec (x : RunSpec) : json := JObj [
  ("schema_version", JStr "1");
  ("study_ref", to_ContractRef (spec_study_ref x));
  ("scenario_ref", to_ContractRef (spec_scenario_ref x));
  ("variant_id", JStr (spec_variant_id x));
  ("repetition_index", JInt (spec_repetition_index x));
  ("seed", jopt JInt (spec_seed x));
  ("goal_ref", to_ContractRef (spec_goal_ref x));
  ("goal", to_GoalSpec (spec_goal x));
  ("scenario", to_ScenarioSpec (spec_scenario x));
  ("agent_inventory_ref", to_ContractRef (spec_agent_inventory_ref x));
  ("agent_inventory", to_AgentInventorySpec (spec_agent_inventory x));
  ("workspace_template_ref", to_ContractRef (spec_workspace_template_ref x));
  ("workspace", to_WorkspaceTemplateSpec (spec_workspace x));
  ("interaction_protocol_ref", to_ContractRef (spec_interaction_protocol_ref x));
  ("interaction_protocol", to_InteractionProtocolSpec (spec_interaction_protocol x));
  ("evaluation_plan_ref", to_ContractRef (spec_evaluation_plan_ref x));
  ("evaluation_plan", to_EvaluationPlanSpec (spec_evaluation_plan x));
  ("checkpoint_policy_ref", jopt to_ContractRef (spec_checkpoint_policy_ref x));
  ("checkpoint_policy", jopt to_CheckpointPolicySpec (spec_checkpoint_policy x));
  ("progress_artifact_policy_ref", jopt to_ContractRef (spec_progress_artifact_policy_ref x));
  ("progress_artifact_policy", jopt to_ProgressArtifactPolicySpec (spec_progress_artifact_policy x));
  ("context_policy", jopt to_ContextPolicySpec (spec_context_policy x));
  ("budgets", to_BudgetSpec (spec_budgets x));
  ("stop_conditions", jlist to_StopCondition (spec_stop_conditions x));
  ("capture_policy", to_CapturePolicySpec (spec_capture_policy x));
  ("extensions", jlist to_ExtensionRef (spec_extensions x));
  ("limitations", jstrs (spec_limitations x))].

Definition validate_run_spec (s : RunSpec) : result unit :=
  raise_when (negb (eqb (spec_checkpoint_policy_ref s ==b None) (spec_checkpoint_policy s ==b None)))
    (ValidationError "checkpoint policy ref and payload must be present together");;
  raise_when (negb (eqb (spec_progress_artifact_policy_ref s ==b None)
                        (spec_progress_artifact_policy s ==b None)))
    (ValidationError "progress artifact policy ref and payload must be present together");;
  let terminal_kinds :=
    map sto_kind (List.filter (λ c, sto_action c ==b StopTerminal) (spec_stop_conditions s)) in
  raise_when (goal_mode (spec_goal s) ==b BoundedExploration
      && forallb (λ k, k ==b SGoalComplete) terminal_kinds)
    (ValidationError "bounded exploration requires a bounded terminal stop condition");;
  raise_when (spec_stop_conditions s ==b [])
    (ValidationError "RunSpec requires at least one stop condition");;
  raise_when (existsb (λ '(r, t), wrong_slot (Some r) t)
      [(spec_study_ref s, STUDY); (spec_scenario_ref s, SCENARIO); (spec_goal_ref s, GOAL);
       (spec_agent_inventory_ref s, AGENT_INVENTORY);
       (spec_workspace_template_ref s, WORKSPACE_TEMPLATE);
       (spec_interaction_protocol_ref s, INTERACTION_PROTOCOL);
       (spec_evaluation_plan_ref s, EVALUATION_PLAN)])
    (ValidationError "RunSpec contains a reference in the wrong contract slot");;
  raise_when (wrong_slot (spec_checkpoint_policy_ref s) CHECKPOINT_POLICY)
    (ValidationError "RunSpec checkpoint slot requires a checkpoint_policy ref");;
  raise_when (wrong_slot (spec_progress_artifact_policy_ref s) PROGRESS_ARTIFACT_POLICY)
    (ValidationError "RunSpec progress slot requires a progress_artifact_policy ref").

Definition spec_digest `{PyRuntime} (s : RunSpec) : string :=
  sha256_json (semantic_model_dump (to_RunSpec s)).

(** ** Resolution *)

Inductive ReasonCode := RUnsupported | RDenied | RUnavailable | RDigestMismatch.
#[export] Instance ReasonCode_eq_dec : EqDecision ReasonCode.
Proof. solve_decision. Defined.
Definition ReasonCode_value (x : ReasonCode) : string :=
  match x with
  | RUnsupported => "unsupported"
  | RDenied => "denied"
  | RUnavailable => "unavailable"
  | RDigestMismatch => "digest_mismatch"
  end.

Inductive ResolutionStatus := Resolved | Unsupported | Denied | Unavailable.
#[export] Instance ResolutionStatus_eq_dec : EqDecision ResolutionStatus.
Proof. solve_decision. Defined.
Definition ResolutionStatus_value (x : ResolutionStatus) : string :=
  match x with
  | Resolved => "resolved"
  | Unsupported => "unsupported"
  | Denied => "denied"
  | Unavailable => "unavailable"
  end.

Inductive IssueCategory :=
  | CatRunner
  | CatProvider
  | CatCapability
  | CatRuntime
  | CatWorkspace
  | CatInteraction
  | CatObserver
  | CatAuthority
  | CatPolicy.
#[export] Instance IssueCategory_eq_dec : EqDecision IssueCategory.
Proof. solve_decision. Defined.
Definition IssueCategory_value (x : IssueCategory) : string :=
  match x with
  | CatRunner => "runner"
  | CatProvider => "provider"
  | CatCapability => "capability"
  | CatRuntime => "runtime"
  | CatWorkspace => "workspace"
  | CatInteraction => "interaction"
  | CatObserver => "observer"
  | CatAuthority => "authority"
  | CatPolicy => "policy"
  end.

Record ResolutionReason := MkResolutionReason {
  rs_code : ReasonCode;
  rs_detail : string
}.
#[export] Instance ResolutionReason_eq_dec : EqDecision ResolutionReason.
Proof. solve_decision. Defined.
Definition to_ResolutionReason (x : ResolutionReason) : json := JObj [
  ("code", JStr (ReasonCode_value (rs_code x)));
  ("detail", JStr (rs_detail x))].

Record ResolvedCapability := MkResolvedCapability {
  rc_kind : CapabilityKind;
  rc_requested_ref : CapabilityDescriptorRef;
  rc_required : bool;
  rc_exposure : Exposure;
  rc_status : ResolutionStatus;
  rc_resolved_ref : option CapabilityDescriptorRef;
  rc_adapter : option string;
  rc_effective_interface_version : option string;
  rc_effective_permissions : list string;
  rc_satisfied_authority_constraints : list string;
  rc_context_refs : list ArtifactRef;
  rc_reason : option ResolutionReason
}.
#[export] Instance ResolvedCapability_eq_dec : EqDecision ResolvedCapability.
Proof. solve_decision. Defined.
Definition to_ResolvedCapability (x : ResolvedCapability) : json := JObj [
  ("kind", JStr (CapabilityKind_value (rc_kind x)));
  ("requested_ref", to_CapabilityRef (rc_requested_ref x));
  ("required", JBool (rc_required x));
  ("exposure", JStr (Exposure_value (rc_exposure x)));
  ("status", JStr (ResolutionStatus_value (rc_status x)));
  ("resolved_ref", jopt to_CapabilityRef (rc_resolved_ref x));
  ("adapter", jopt JStr (rc_adapter x));
  ("effective_interface_version", jopt JStr (rc_effective_interface_version x));
  ("effective_permissions", jstrs (rc_effective_permissions x));
  ("satisfied_authority_constraints", jstrs (rc_satisfied_authority_constraints x));
  ("context_refs", jlist to_ArtifactRef (rc_context_refs x));
  ("reason", jopt to_ResolutionReason (rc_reason x))].

Definition validate_resolution (c : ResolvedCapability) : result unit :=
  raise_when (rc_status c ==b Resolved
      && (rc_resolved_ref c ==b None || rc_adapter c ==b None
          || rc_effective_interface_version c ==b None))
    (ValidationError "resolved capability requires an exact ref, adapter, and interface version");;
  raise_when (rc_status c ==b Resolved && rc_reason c !=b None)
    (ValidationError "resolved capability cannot contain an unresolved reason");;
  raise_when (rc_status c !=b Resolved && rc_reason c ==b None)
    (ValidationError "unresolved capability requires a reason");;
  raise_when (rc_status c !=b Resolved
      && (rc_resolved_ref c !=b None || rc_adapter c !=b None
          || rc_effective_interface_version c !=b None || rc_effective_permissions c !=b []
          || rc_satisfied_authority_constraints c !=b [] || rc_context_refs c !=b []))
    (ValidationError "unresolved capability cannot expose an effective resolution");;
  raise_when (rc_exposure c ==b SchemaOnly && rc_context_refs c !=b [])
    (ValidationError "schema-only capability cannot expose instruction context").

Record AdmissionIssue := MkAdmissionIssue {
  ai_category : IssueCategory;
  ai_subject_ref : string;
  ai_reason : ResolutionReason;
  ai_blocking : bool
}.
#[export] Instance AdmissionIssue_eq_dec : EqDecision AdmissionIssue.
Proof. solve_decision. Defined.
Definition to_AdmissionIssue (x : AdmissionIssue) : json := JObj [
  ("category", JStr (IssueCategory_value (ai_category x)));
  ("subject_ref", JStr (ai_subject_ref x));
  ("reason", to_ResolutionReason (ai_reason x));
  ("blocking", JBool (ai_blocking x))].

Record ResolvedAgentInventory := MkResolvedAgentInventory {
  ri_requirement_ref : ContractRef;
  ri_runner_ref : CapabilityDescriptorRef;
  ri_provider_profile_id : option string;
  ri_provider_profile_digest : option string;
  ri_provider_model : option string;
  ri_provider_reasoning_effort : option string;
  ri_provider_adapter : option string;
  ri_capabilities : list ResolvedCapability;
  ri_runtime_capabilities : list string
}.
#[export] Instance ResolvedAgentInventory_eq_dec : EqDecision ResolvedAgentInventory.
Proof. solve_decision. Defined.
Definition to_ResolvedAgentInventory (x : ResolvedAgentInventory) : json := JObj [
  ("requirement_ref", to_ContractRef (ri_requirement_ref x));
  ("runner_ref", to_CapabilityRef (ri_runner_ref x));
  ("provider_profile_id", jopt JStr (ri_provider_profile_id x));
  ("provider_profile_digest", jopt JStr (ri_provider_profile_digest x));
  ("provider_model", jopt JStr (ri_provider_model x));
  ("provider_reasoning_effort", jopt JStr (ri_provider_reasoning_effort x));
  ("provider_adapter", jopt JStr (ri_provider_adapter x));
  ("capabilities", jlist to_ResolvedCapability (ri_capabilities x));
  ("runtime_capabilities", jstrs (ri_runtime_capabilities x))].

Definition validate_requirement_ref (i : ResolvedAgentInventory) : result unit :=
  raise_when (wrong_slot (Some (ri_requirement_ref i)) AGENT_INVENTORY)
    (ValidationError "resolved inventory requires an agent_inventory ref");;
  let provider_fields := [ri_provider_profile_digest i; ri_provider_model i;
    ri_provider_reasoning_effort i; ri_provider_adapter i] in
  raise_when (ri_provider_profile_id i ==b None && existsb (λ f, f !=b None) provider_fields)
    (ValidationError "offline inventory cannot contain provider resolution fields");;
  raise_when (ri_provider_profile_id i !=b None && existsb (λ f, f ==b None) provider_fields)
    (ValidationError "provider inventory requires digest, model, reasoning, and adapter").

(** ** Admission record *)

Record ExecutionTrustRef := MkExecutionTrustRef {
  tr_trust_id : string;
  tr_digest : string
}.
#[export] Instance ExecutionTrustRef_eq_dec : EqDecision ExecutionTrustRef.
Proof. solve_decision. Defined.
Definition to_ExecutionTrustRef (x : ExecutionTrustRef) : json := JObj [
  ("trust_id", JStr (tr_trust_id x));
  ("digest", JStr (tr_digest x))].

Inductive AdmissionDecision := AdmissionAdmitted | AdmissionRejected.
#[export] Instance AdmissionDecision_eq_dec : EqDecision AdmissionDecision.
Proof. solve_decision. Defined.
Definition AdmissionDecision_value (x : AdmissionDecision) : string :=
  match x with
  | AdmissionAdmitted => "admitted"
  | AdmissionRejected => "rejected"
  end.

Record AdmissionRecord := MkAdmissionRecord {
  adm_run_spec_ref : string;
  adm_run_spec_digest : string;
  adm_decision : AdmissionDecision;
  adm_resolved_inventory : ResolvedAgentInventory;
  adm_workspace_status : ResolutionStatus;
  adm_interaction_status : ResolutionStatus;
  adm_missing_requirements : list string;
  adm_denied_policies : list string;
  adm_issues : list AdmissionIssue;
  adm_warnings : list string;
  adm_execution_trust : option ExecutionTrustRef;
  adm_created_at_utc : instant
}.
#[export] Instance AdmissionRecord_eq_dec : EqDecision AdmissionRecord.
Proof. solve_decision. Defined.
Definition to_AdmissionRecord `{PyRuntime} (x : AdmissionRecord) : json := JObj [
  ("schema_version", JStr "1");
  ("run_spec_ref", JStr (adm_run_spec_ref x));
  ("run_spec_digest", JStr (adm_run_spec_digest x));
  ("decision", JStr (AdmissionDecision_value (adm_decision x)));
  ("resolved_inventory", to_ResolvedAgentInventory (adm_resolved_inventory x));
  ("workspace_status", JStr (ResolutionStatus_value (adm_workspace_status x)));
  ("interaction_status", JStr (ResolutionStatus_value (adm_interaction_status x)));
  ("missing_requirements", jstrs (adm_missing_requirements x));
  ("denied_policies", jstrs (adm_denied_policies x));
  ("issues", jlist to_AdmissionIssue (adm_issues x));
  ("warnings", jstrs (adm_warnings x));
  ("execution_trust", jopt to_ExecutionTrustRef (adm_execution_trust x));
  ("created_at_utc", JStr (utc_text (adm_created_at_utc x)))].

(** The [blocked] of [AdmissionRecord.validate_decision]. *)
Definition record_blocked (a : AdmissionRecord) : bool :=
  adm_missing_requirements a !=b [] || adm_denied_policies a !=b []
  || adm_workspace_status a !=b Resolved || adm_interaction_status a !=b Resolved
  || existsb ai_blocking (adm_issues a)
  || existsb (λ c, rc_required c && rc_status c !=b Resolved)
       (ri_capabilities (adm_resolved_inventory a)).

Definition validate_decision (a : AdmissionRecord) : result unit :=
  raise_when (adm_run_spec_ref a !=b ("run-spec:" +:+ adm_run_spec_digest a))
    (ValidationError "admission RunSpec ref must be content-addressed by its digest");;
  raise_when (adm_decision a ==b AdmissionAdmitted && record_blocked a)
    (ValidationError "admitted record cannot contain blocking resolution failures");;
  raise_when (adm_decision a ==b AdmissionRejected && negb (record_blocked a))
    (ValidationError "rejected admission requires a blocking reason").

Definition admission_digest `{PyRuntime} (a : AdmissionRecord) : string :=
  sha256_json (semantic_model_dump (to_AdmissionRecord a)).

(** ** Evaluation records *)

Inductive SourceType :=
  | SrcDeterministicGrader
  | SrcModelJudge
  | SrcHumanReviewer
  | SrcHumanAdjudicator.
#[export] Instance SourceType_eq_dec : EqDecision SourceType.
Proof. solve_decision. Defined.
Definition SourceType_value (x : SourceType) : string :=
  match x with
  | SrcDeterministicGrader => "deterministic_grader"
  | SrcModelJudge => "model_judge"
  | SrcHumanReviewer => "human_reviewer"
  | SrcHumanAdjudicator => "human_adjudicator"
  end.

Inductive GateStatus := GatePassed | GateFailed | GateNotApplicable.
#[export] Instance GateStatus_eq_dec : EqDecision GateStatus.
Proof. solve_decision. Defined.
Definition GateStatus_value (x : GateStatus) : string :=
  match x with
  | GatePassed => "passed"
  | GateFailed => "failed"
  | GateNotApplicable => "not_applicable"
  end.

Inductive RecordStatus := Provisional | Final.
#[export] Instance RecordStatus_eq_dec : EqDecision RecordStatus.
Proof. solve_decision. Defined.
Definition RecordStatus_value (x : RecordStatus) : string :=
  match x with
  | Provisional => "provisional"
  | Final => "final"
  end.

Record EvaluationBoundary := MkEvaluationBoundary {
  eb_up_to_event_sequence : option Z;
  eb_event_hash : option string;
  eb_checkpoint_id : option string
}.
#[export] Instance EvaluationBoundary_eq_dec : EqDecision EvaluationBoundary.
Proof. solve_decision. Defined.
Definition to_EvaluationBoundary (x : EvaluationBoundary) : json := JObj [
  ("up_to_event_sequence", jopt JInt (eb_up_to_event_sequence x));
  ("event_hash", jopt JStr (eb_event_hash x));
  ("checkpoint_id", jopt JStr (eb_checkpoint_id x))].

Definition validate_boundary (b : EvaluationBoundary) : result unit :=
  let has_event := eb_up_to_event_sequence b !=b None || eb_event_hash b !=b None in
  raise_when (has_event && (eb_up_to_event_sequence b ==b None || eb_event_hash b ==b None))
    (ValidationError "evaluation event boundary requires both sequence and hash");;
  raise_when (negb has_event && eb_checkpoint_id b ==b None)
    (ValidationError "evaluation requires an event or checkpoint boundary");;
  raise_when (has_event && eb_checkpoint_id b !=b None)
    (ValidationError "evaluation boundary must use either an event or a checkpoint").

Record DimensionValue := MkDimensionValue {
  dv_dimension_id : string;
  dv_value : Scalar;
  dv_rationale : string;
  dv_confidence : option pyfloat;
  dv_evidence_refs : list EvidenceRef
}.
#[export] Instance DimensionValue_eq_dec : EqDecision DimensionValue.
Proof. solve_decision. Defined.
Definition to_DimensionValue (x : DimensionValue) : json := JObj [
  ("dimension_id", JStr (dv_dimension_id x));
  ("value", to_Scalar (dv_value x));
  ("rationale", JStr (dv_rationale x));
  ("confidence", jopt JFloat (dv_confidence x));
  ("evidence_refs", jlist to_EvidenceRef (dv_evidence_refs x))].

Inductive HumanEvaluationRelation :=
  | Adjudicates (target_record_refs : list string)
  | IndependentReview (considers_record_refs : list string).
#[export] Instance HumanEvaluationRelation_eq_dec : EqDecision HumanEvaluationRelation.
Proof. solve_decision. Defined.
Definition to_HumanEvaluationRelation (r : HumanEvaluationRelation) : json :=
  match r with
  | Adjudicates refs =>
      JObj [("kind", JStr "adjudicates"); ("target_record_refs", jstrs refs)]
  | IndependentReview refs =>
      JObj [("kind", JStr "independent_review"); ("considers_record_refs", jstrs refs)]
  end.
Definition validate_relation (r : HumanEvaluationRelation) : result unit :=
  match r with
  | Adjudicates refs => raise_when (has_duplicates refs)
      (ValidationError "adjudication target records must be unique")
  | IndependentReview refs => raise_when (has_duplicates refs)
      (ValidationError "considered evaluation records must be unique")
  end.

Record EvaluationRecord := MkEvaluationRecord {
  er_record_id : string;
  er_run_id : string;
  er_plan_ref : ContractRef;
  er_stage_id : string;
  er_source_type : SourceType;
  er_evaluator_ref : CapabilityDescriptorRef;
  er_provider_profile_id : option string;
  er_provider_model : option string;
  er_boundary : EvaluationBoundary;
  er_dimension_values : list DimensionValue;
  er_gate_status : GateStatus;
  er_status : RecordStatus;
  er_relation : option HumanEvaluationRelation;
  er_human_attestation : option HumanAttestationRecord;
  er_created_at_utc : instant
}.
#[export] Instance EvaluationRecord_eq_dec : EqDecision EvaluationRecord.
Proof. solve_decision. Defined.
Definition to_EvaluationRecord `{PyRuntime} (x : EvaluationRecord) : json := JObj [
  ("schema_version", JStr "1");
  ("record_id", JStr (er_record_id x));
  ("run_id", JStr (er_run_id x));
  ("plan_ref", to_ContractRef (er_plan_ref x));
  ("stage_id", JStr (er_stage_id x));
  ("source_type", JStr (SourceType_value (er_source_type x)));
  ("evaluator_ref", to_CapabilityRef (er_evaluator_ref x));
  ("provider_profile_id", jopt JStr (er_provider_profile_id x));
  ("provider_model", jopt JStr (er_provider_model x));
  ("boundary", to_EvaluationBoundary (er_boundary x));
  ("dimension_values", jlist to_DimensionValue (er_dimension_values x));
  ("gate_status", JStr (GateStatus_value (er_gate_status x)));
  ("status", JStr (RecordStatus_value (er_status x)));
  ("relation", jopt to_HumanEvaluationRelation (er_relation x));
  ("human_attestation", jopt to_Attestation (er_human_attestation x));
  ("created_at_utc", JStr (utc_text (er_created_at_utc x)))].

Section evaluation_record.
Context `{PyRuntime}.

(** What a human attestation of an evaluation covers: the record's content without
    null fields ([exclude_none=True] on the nested models). *)
Definition er_subject_digest (r : EvaluationRecord) : string := sha256_json (JObj [
  ("run_id", JStr (er_run_id r));
  ("plan_ref", to_ContractRef (er_plan_ref r));
  ("stage_id", JStr (er_stage_id r));
  ("source_type", JStr (SourceType_value (er_source_type r)));
  ("evaluator_ref", to_CapabilityRef (er_evaluator_ref r));
  ("boundary", drop_nulls (to_EvaluationBoundary (er_boundary r)));
  ("dimension_values", jlist (λ v, drop_nulls (to_DimensionValue v)) (er_dimension_values r));
  ("gate_status", JStr (GateStatus_value (er_gate_status r)));
  ("status", JStr (RecordStatus_value (er_status r)));
  ("relation", jopt to_HumanEvaluationRelation (er_relation r))]).

Definition is_human (s : SourceType) : bool :=
  s ∈b [SrcHumanReviewer; SrcHumanAdjudicator].

Definition is_adjudicates (r : option HumanEvaluationRelation) : bool :=
  match r with Some (Adjudicates _) => true | _ => false end.
Definition is_independent_review (r : option HumanEvaluationRelation) : bool :=
  match r with Some (IndependentReview _) => true | _ => false end.
Definition truthy (o : option string) : bool :=
  match o with Some s => s !=b "" | None => false end.

Definition validate_attestation (r : EvaluationRecord) (att : HumanAttestationRecord)
    : result unit :=
  raise_when (att_action att !=b (if decide (er_source_type r = SrcHumanAdjudicator)
                                 then EvaluationAdjudicated else EvaluationReviewed))
    (ValidationError "human attestation action does not match the evaluation role");;
  raise_when (att_target_digest att !=b cr_digest (er_plan_ref r))
    (ValidationError "human evaluation attestation must target the EvaluationPlan");;
  raise_when (att_subject_digest att !=b er_subject_digest r)
    (ValidationError "human attestation does not cover the evaluation content");;
  raise_when (er_created_at_utc r !=b att_verified_at_utc att)
    (ValidationError "human evaluation timestamp must be the verified attestation timestamp").

Definition validate_adjudication (r : EvaluationRecord) : result unit :=
  let human := is_human (er_source_type r) in
  raise_when (wrong_slot (Some (er_plan_ref r)) EVALUATION_PLAN)
    (ValidationError "evaluation record requires an evaluation_plan ref");;
  raise_when (human && er_status r !=b Final)
    (ValidationError "human evaluations must be final");;
  raise_when (human && er_human_attestation r ==b None)
    (ValidationError "human evaluations require verified attestation evidence");;
  raise_when (negb human && (er_human_attestation r !=b None || er_relation r !=b None))
    (ValidationError "automated evaluations cannot claim human authority or precedence");;
  raise_when (er_source_type r ==b SrcHumanAdjudicator && negb (is_adjudicates (er_relation r)))
    (ValidationError "human adjudication requires explicit target records");;
  raise_when (er_source_type r ==b SrcHumanReviewer
      && negb (is_independent_review (er_relation r)))
    (ValidationError "human review requires an independent review relation");;
  raise_when (er_source_type r ==b SrcModelJudge && er_status r !=b Provisional)
    (ValidationError "model judge evaluations remain provisional");;
  raise_when (er_source_type r ==b SrcModelJudge
      && negb (truthy (er_provider_profile_id r) && truthy (er_provider_model r)))
    (ValidationError "model judge evaluation requires provider and model resolution");;
  raise_when (er_source_type r !=b SrcModelJudge
      && (er_provider_profile_id r !=b None || er_provider_model r !=b None))
    (ValidationError "only model judge evaluations may declare provider and model resolution");;
  match er_human_attestation r with
  | Some att => if human then validate_attestation r att else Ok tt
  | None => Ok tt
  end;;
  raise_when (has_duplicates (map dv_dimension_id (er_dimension_values r)))
    (ValidationError "evaluation record dimensions must be unique").

Definition er_digest (r : EvaluationRecord) : string :=
  sha256_json (semantic_model_dump (to_EvaluationRecord r)).
End evaluation_record.

(** ** Checkpoint records *)

Record CheckpointValidation := MkCheckpointValidation {
  cv_validator_ref : CapabilityDescriptorRef;
  cv_passed : bool;
  cv_rationale : string;
  cv_evidence_refs : list EvidenceRef
}.
#[export] Instance CheckpointValidation_eq_dec : EqDecision CheckpointValidation.
Proof. solve_decision. Defined.
Definition to_CheckpointValidation (x : CheckpointValidation) : json := JObj [
  ("validator_ref", to_CapabilityRef (cv_validator_ref x));
  ("passed", JBool (cv_passed x));
  ("rationale", JStr (cv_rationale x));
  ("evidence_refs", jlist to_EvidenceRef (cv_evidence_refs x))].

Inductive Replayability := ReplayNone | ReplayPartial | ReplayDeterministic.
#[export] Instance Replayability_eq_dec : EqDecision Replayability.
Proof. solve_decision. Defined.
Definition Replayability_value (x : Replayability) : string :=
  match x with
  | ReplayNone => "none"
  | ReplayPartial => "partial"
  | ReplayDeterministic => "deterministic"
  end.

Record CheckpointRecord := MkCheckpointRecord {
  ck_checkpoint_id : string;
  ck_run_id : string;
  ck_policy_ref : ContractRef;
  ck_definition_id : string;
  ck_definition_digest : string;
  ck_up_to_event_sequence : Z;
  ck_event_hash : string;
  ck_context_snapshot_refs : list string;
  ck_protocol_state_ref : option ArtifactRef;
  ck_artifact_manifest_ref : option ArtifactRef;
  ck_workspace_snapshot_ref : option ArtifactRef;
  ck_admission_record_id : option string;
  ck_admission_record_digest : option string;
  ck_evaluation_record_refs : list string;
  ck_validations : list CheckpointValidation;
  ck_replayability : Replayability;
  ck_replayability_limitations : list string;
  ck_compatibility_tags : list string;
  ck_created_at_utc : instant
}.
#[export] Instance CheckpointRecord_eq_dec : EqDecision CheckpointRecord.
Proof. solve_decision. Defined.
Definition to_CheckpointRecord `{PyRuntime} (x : CheckpointRecord) : json := JObj [
  ("schema_version", JStr "1");
  ("checkpoint_id", JStr (ck_checkpoint_id x));
  ("run_id", JStr (ck_run_id x));
  ("policy_ref", to_ContractRef (ck_policy_ref x));
  ("definition_id", JStr (ck_definition_id x));
  ("definition_digest", JStr (ck_definition_digest x));
  ("up_to_event_sequence", JInt (ck_up_to_event_sequence x));
  ("event_hash", JStr (ck_event_hash x));
  ("context_snapshot_refs", jstrs (ck_context_snapshot_refs x));
  ("protocol_state_ref", jopt to_ArtifactRef (ck_protocol_state_ref x));
  ("artifact_manifest_ref", jopt to_ArtifactRef (ck_artifact_manifest_ref x));
  ("workspace_snapshot_ref", jopt to_ArtifactRef (ck_workspace_snapshot_ref x));
  ("admission_record_id", jopt JStr (ck_admission_record_id x));
  ("admission_record_digest", jopt JStr (ck_admission_record_digest x));
  ("evaluation_record_refs", jstrs (ck_evaluation_record_refs x));
  ("validations", jlist to_CheckpointValidation (ck_validations x));
  ("replayability", JStr (Replayability_value (ck_replayability x)));
  ("replayability_limitations", jstrs (ck_replayability_limitations x));
  ("compatibility_tags", jstrs (ck_compatibility_tags x));
  ("created_at_utc", JStr (utc_text (ck_created_at_utc x)))].

Definition validate_checkpoint (c : CheckpointRecord) : result unit :=
  raise_when (wrong_slot (Some (ck_policy_ref c)) CHECKPOINT_POLICY)
    (ValidationError "checkpoint record requires a checkpoint_policy ref");;
  raise_when (has_duplicates (map cv_validator_ref (ck_validations c)))
    (ValidationError "checkpoint validator results must be unique");;
  raise_when (negb (forallb cv_passed (ck_validations c)))
    (ValidationError "checkpoint records require successful validations");;
  raise_when (negb (eqb (ck_admission_record_id c ==b None) (ck_admission_record_digest c ==b None)))
    (ValidationError "checkpoint admission id and digest must be present together");;
  raise_when (ck_replayability c !=b ReplayDeterministic && ck_replayability_limitations c ==b [])
    (ValidationError "non-deterministic checkpoints require replayability limitations").

Definition checkpoint_hash `{PyRuntime} (c : CheckpointRecord) : string :=
  sha256_json (semantic_model_dump (to_CheckpointRecord c)).

(** ** Disclosure envelopes *)

Record SubjectWorkspace := MkSubjectWorkspace {
  sw_runtime_kind : string;
  sw_mounts : list string;
  sw_write_zones : list string;
  sw_network_mode : NetworkMode;
  sw_external_effect_mode : EffectMode
}.
#[export] Instance SubjectWorkspace_eq_dec : EqDecision SubjectWorkspace.
Proof. solve_decision. Defined.
Definition to_SubjectWorkspace (x : SubjectWorkspace) : json := JObj [
  ("runtime_kind", JStr (sw_runtime_kind x));
  ("mounts", jstrs (sw_mounts x));
  ("write_zones", jstrs (sw_write_zones x));
  ("network_mode", JStr (NetworkMode_value (sw_network_mode x)));
  ("external_effect_mode", JStr (EffectMode_value (sw_external_effect_mode x)))].

Record SubjectEvaluationDimension := MkSubjectEvaluationDimension {
  sed_id : string;
  sed_description : string;
  sed_value_type : ValueType;
  sed_minimum : option pyfloat;
  sed_maximum : option pyfloat;
  sed_anchors : list KeyValue
}.
#[export] Instance SubjectEvaluationDimension_eq_dec : EqDecision SubjectEvaluationDimension.
Proof. solve_decision. Defined.
Definition to_SubjectEvaluationDimension (x : SubjectEvaluationDimension) : json := JObj [
  ("id", JStr (sed_id x));
  ("description", JStr (sed_description x));
  ("value_type", JStr (ValueType_value (sed_value_type x)));
  ("minimum", jopt JFloat (sed_minimum x));
  ("maximum", jopt JFloat (sed_maximum x));
  ("anchors", jlist to_KeyValue (sed_anchors x))].

Record SubjectEvaluationGuidance := MkSubjectEvaluationGuidance {
  seg_plan_ref : ContractRef;
  seg_dimensions : list SubjectEvaluationDimension
}.
#[export] Instance SubjectEvaluationGuidance_eq_dec : EqDecision SubjectEvaluationGuidance.
Proof. solve_decision. Defined.
Definition to_SubjectEvaluationGuidance (x : SubjectEvaluationGuidance) : json := JObj [
  ("mode", JStr "pre_run");
  ("plan_ref", to_ContractRef (seg_plan_ref x));
  ("dimensions", jlist to_SubjectEvaluationDimension (seg_dimensions x))].

Definition validate_guidance_plan (g : SubjectEvaluationGuidance) : result unit :=
  raise_when (wrong_slot (Some (seg_plan_ref g)) EVALUATION_PLAN)
    (ValidationError "Subject evaluation guidance requires an evaluation_plan ref");;
  raise_when (seg_dimensions g ==b [])
    (ValidationError "Subject evaluation guidance requires public dimensions").

Record SubjectEnvelope := MkSubjectEnvelope {
  se_run_spec_digest : string;
  se_goal : GoalSpec;
  se_inputs : list InputBinding;
  se_interaction_protocol : InteractionProtocolSpec;
  se_effective_capabilities : list ResolvedCapability;
  se_workspace : SubjectWorkspace;
  se_budgets : BudgetSpec;
  se_stop_conditions : list StopCondition;
  se_evaluation_guidance : option SubjectEvaluationGuidance
}.
#[export] Instance SubjectEnvelope_eq_dec : EqDecision SubjectEnvelope.
Proof. solve_decision. Defined.
Definition to_SubjectEnvelope (x : SubjectEnvelope) : json := JObj [
  ("schema_version", JStr "1");
  ("run_spec_digest", JStr (se_run_spec_digest x));
  ("goal", to_GoalSpec (se_goal x));
  ("inputs", jlist to_InputBinding (se_inputs x));
  ("interaction_protocol", to_InteractionProtocolSpec (se_interaction_protocol x));
  ("effective_capabilities", jlist to_ResolvedCapability (se_effective_capabilities x));
  ("workspace", to_SubjectWorkspace (se_workspace x));
  ("budgets", to_BudgetSpec (se_budgets x));
  ("stop_conditions", jlist to_StopCondition (se_stop_conditions x));
  ("evaluation_guidance", jopt to_SubjectEvaluationGuidance (se_evaluation_guidance x))].

Definition envelope_digest `{PyRuntime} (e : SubjectEnvelope) : string :=
  sha256_json (semantic_model_dump (to_SubjectEnvelope e)).

Record EvaluatorEnvelope := MkEvaluatorEnvelope {
  ee_run_spec_digest : string;
  ee_plan_ref : ContractRef;
  ee_stage : EvaluationStage;
  ee_dimensions : list EvaluationDimension;
  ee_inputs : list InputBinding;
  ee_hidden_input_refs : list ArtifactRef;
  ee_blinded_fields : list string
}.
#[export] Instance EvaluatorEnvelope_eq_dec : EqDecision EvaluatorEnvelope.
Proof. solve_decision. Defined.
Definition to_EvaluatorEnvelope (x : EvaluatorEnvelope) : json := JObj [
  ("schema_version", JStr "1");
  ("run_spec_digest", JStr (ee_run_spec_digest x));
  ("plan_ref", to_ContractRef (ee_plan_ref x));
  ("stage", to_EvaluationStage (ee_stage x));
  ("dimensions", jlist to_EvaluationDimension (ee_dimensions x));
  ("inputs", jlist to_InputBinding (ee_inputs x));
  ("hidden_input_refs", jlist to_ArtifactRef (ee_hidden_input_refs x));
  ("blinded_fields", jstrs (ee_blinded_fields x))].

Definition validate_evaluator_plan_ref (e : EvaluatorEnvelope) : result unit :=
  raise_when (wrong_slot (Some (ee_plan_ref e)) EVALUATION_PLAN)
    (ValidationError "evaluator envelope requires an evaluation_plan ref");;
  raise_when (negb (same_set (map dim_id (ee_dimensions e)) (st_output_dimensions (ee_stage e))))
    (ValidationError "evaluator envelope dimensions must match its stage").

(** ** Durable jobs and attempts *)

Inductive JobStatus := JobQueued | JobLeased | JobCompleted | JobRejected.
#[export] Instance JobStatus_eq_dec : EqDecision JobStatus.
Proof. solve_decision. Defined.
Definition JobStatus_value (x : JobStatus) : string :=
  match x with
  | JobQueued => "queued"
  | JobLeased => "leased"
  | JobCompleted => "completed"
  | JobRejected => "rejected"
  end.

Inductive AttemptStatus := AttLeased | AttCompleted | AttReleased | AttExpired | AttRejected.
#[export] Instance AttemptStatus_eq_dec : EqDecision AttemptStatus.
Proof. solve_decision. Defined.
Definition AttemptStatus_value (x : AttemptStatus) : string :=
  match x with
  | AttLeased => "leased"
  | AttCompleted => "completed"
  | AttReleased => "released"
  | AttExpired => "expired"
  | AttRejected => "rejected"
  end.

Record RunExecutionJob := MkRunExecutionJob {
  xj_job_id : string;
  xj_run_id : string;
  xj_status : JobStatus;
  xj_idempotency_key : string;
  xj_request_digest : string;
  xj_available_at_utc : instant;
  xj_active_attempt_id : option string;
  xj_lease_generation : Z;
  xj_created_at_utc : instant;
  xj_finished_at_utc : option instant;
  xj_rejection_code : option string
}.
#[export] Instance RunExecutionJob_eq_dec : EqDecision RunExecutionJob.
Proof. solve_decision. Defined.
Definition to_RunExecutionJob `{PyRuntime} (x : RunExecutionJob) : json := JObj [
  ("schema_version", JStr "1");
  ("job_id", JStr (xj_job_id x));
  ("run_id", JStr (xj_run_id x));
  ("status", JStr (JobStatus_value (xj_status x)));
  ("idempotency_key", JStr (xj_idempotency_key x));
  ("request_digest", JStr (xj_request_digest x));
  ("available_at_utc", JStr (utc_text (xj_available_at_utc x)));
  ("active_attempt_id", jopt JStr (xj_active_attempt_id x));
  ("lease_generation", JInt (xj_lease_generation x));
  ("created_at_utc", JStr (utc_text (xj_created_at_utc x)));
  ("finished_at_utc", jopt (λ t, JStr (utc_text t)) (xj_finished_at_utc x));
  ("rejection_code", jopt JStr (xj_rejection_code x))].

Definition job_terminal (s : JobStatus) : bool := s ∈b [JobCompleted; JobRejected].

Definition validate_job_state (j : RunExecutionJob) : result unit :=
  raise_when (xj_status j ==b JobLeased && xj_active_attempt_id j ==b None)
    (ValidationError "leased job requires an active attempt");;
  raise_when (xj_status j !=b JobLeased && xj_active_attempt_id j !=b None)
    (ValidationError "only a leased job can expose an active attempt");;
  raise_when (job_terminal (xj_status j) && xj_finished_at_utc j ==b None)
    (ValidationError "terminal job requires finished_at_utc");;
  raise_when (negb (job_terminal (xj_status j)) && xj_finished_at_utc j !=b None)
    (ValidationError "non-terminal job cannot have finished_at_utc");;
  raise_when (xj_status j ==b JobRejected && xj_rejection_code j ==b None)
    (ValidationError "rejected job requires a rejection code");;
  raise_when (xj_status j !=b JobRejected && xj_rejection_code j !=b None)
    (ValidationError "only a rejected job can have a rejection code").

Record RunExecutionAttempt := MkRunExecutionAttempt {
  xa_attempt_id : string;
  xa_job_id : string;
  xa_ordinal : Z;
  xa_worker_id : string;
  xa_lease_generation : Z;
  xa_status : AttemptStatus;
  xa_leased_at_utc : instant;
  xa_lease_expires_at_utc : instant;
  xa_last_heartbeat_at_utc : instant;
  xa_finished_at_utc : option instant;
  xa_reason_code : option string
}.
#[export] Instance RunExecutionAttempt_eq_dec : EqDecision RunExecutionAttempt.
Proof. solve_decision. Defined.
Definition to_RunExecutionAttempt `{PyRuntime} (x : RunExecutionAttempt) : json := JObj [
  ("schema_version", JStr "1");
  ("attempt_id", JStr (xa_attempt_id x));
  ("job_id", JStr (xa_job_id x));
  ("ordinal", JInt (xa_ordinal x));
  ("worker_id", JStr (xa_worker_id x));
  ("lease_generation", JInt (xa_lease_generation x));
  ("status", JStr (AttemptStatus_value (xa_status x)));
  ("leased_at_utc", JStr (utc_text (xa_leased_at_utc x)));
  ("lease_expires_at_utc", JStr (utc_text (xa_lease_expires_at_utc x)));
  ("last_heartbeat_at_utc", JStr (utc_text (xa_last_heartbeat_at_utc x)));
  ("finished_at_utc", jopt (λ t, JStr (utc_text t)) (xa_finished_at_utc x));
  ("reason_code", jopt JStr (xa_reason_code x))].

Definition validate_attempt_state (a : RunExecutionAttempt) : result unit :=
  raise_when (xa_lease_expires_at_utc a <=? xa_leased_at_utc a)%Z
    (ValidationError "lease expiry must be after lease acquisition");;
  raise_when (xa_last_heartbeat_at_utc a <? xa_leased_at_utc a)%Z
    (ValidationError "heartbeat cannot predate lease acquisition");;
  raise_when (xa_status a ==b AttLeased && xa_finished_at_utc a !=b None)
    (ValidationError "active attempt cannot be finished");;
  raise_when (xa_status a !=b AttLeased && xa_finished_at_utc a ==b None)
    (ValidationError "inactive attempt requires finished_at_utc").
