(* ===== verification/Events.v ===== *)
(** * Run events (src/src/evidrun/contracts/runtime/events.py).

    One record per payload model with the fields a caller gives, [RunEventPayload] the
    union, and [normalize_event_payload] what validating the payload registered for an
    event type and dumping it yields: the document the ledger hashes and stores. The
    phase table [EVENT_ALLOWED_RUN_STATUSES] and the reserved types are here too. *)

From S2P Require Import Prelude PyText PyJson Base Authoring Runtime.

(** ** Run statuses *)

Inductive RunStatus :=
  | queued
  | preparing
  | running
  | paused
  | evaluating
  | completed
  | failed
  | cancelled
  | budget_exhausted
  | guardrail_stopped.
#[export] Instance RunStatus_eq_dec : EqDecision RunStatus.
Proof. solve_decision. Defined.
Definition RunStatus_value (x : RunStatus) : string :=
  match x with
  | queued => "queued"
  | preparing => "preparing"
  | running => "running"
  | paused => "paused"
  | evaluating => "evaluating"
  | completed => "completed"
  | failed => "failed"
  | cancelled => "cancelled"
  | budget_exhausted => "budget_exhausted"
  | guardrail_stopped => "guardrail_stopped"
  end.

Definition TERMINAL_RUN_STATUSES : list RunStatus :=
  [completed; failed; cancelled; budget_exhausted; guardrail_stopped].

Definition is_terminal (s : RunStatus) : bool := s ∈b TERMINAL_RUN_STATUSES.

(** ** Constrained fields *)

(** [NonEmptyStr]: the text without surrounding white space, which must not be empty. *)
Definition nonempty_str (s : string) : result string :=
  let t := trim s in
  raise_when (t ==b "") (ValidationError "string_too_short");; Ok t.

(** [Digest]. *)
Definition digest_str (s : string) : result string :=
  raise_when (negb (is_digest s)) (ValidationError "string_pattern_mismatch");; Ok s.

Definition optional {A} (f : A → result A) (o : option A) : result (option A) :=
  match o with Some a => Some <$> f a | None => Ok None end.

(** [Field(ge=lo)]. *)
Definition at_least (lo z : Z) : result Z :=
  raise_when (z <? lo)%Z (ValidationError "greater_than_equal");; Ok z.

(** ** Payload models *)

Record RunQueuedPayload := MkRunQueuedPayload {
  pq_run_id : string;
  pq_variant_id : string;
  pq_run_spec_digest : string;
  pq_admission_digest : string
}.
#[export] Instance RunQueuedPayload_eq_dec : EqDecision RunQueuedPayload.
Proof. solve_decision. Defined.
Definition to_RunQueuedPayload (x : RunQueuedPayload) : json := JObj [
  ("run_id", JStr (pq_run_id x));
  ("variant_id", JStr (pq_variant_id x));
  ("run_spec_digest", JStr (pq_run_spec_digest x));
  ("admission_digest", JStr (pq_admission_digest x))].

Definition validate_RunQueued (p : RunQueuedPayload) : result RunQueuedPayload :=
  a ← nonempty_str (pq_run_id p); b ← nonempty_str (pq_variant_id p);
  c ← digest_str (pq_run_spec_digest p); d ← digest_str (pq_admission_digest p);
  Ok (MkRunQueuedPayload a b c d).

Record RunPreparingPayload := MkRunPreparingPayload {
  ppr_scenario_ref : ContractRef
}.
#[export] Instance RunPreparingPayload_eq_dec : EqDecision RunPreparingPayload.
Proof. solve_decision. Defined.
Definition to_RunPreparingPayload (x : RunPreparingPayload) : json := JObj [
  ("scenario_ref", to_ContractRef (ppr_scenario_ref x))].

Record RunLifecyclePayload := MkRunLifecyclePayload {
  pl_from_status : RunStatus;
  pl_reason : string
}.
#[export] Instance RunLifecyclePayload_eq_dec : EqDecision RunLifecyclePayload.
Proof. solve_decision. Defined.
Definition to_RunLifecyclePayload (x : RunLifecyclePayload) : json := JObj [
  ("from_status", JStr (RunStatus_value (pl_from_status x)));
  ("reason", JStr (pl_reason x))].

Definition validate_RunLifecycle (p : RunLifecyclePayload) : result RunLifecyclePayload :=
  raise_when (is_terminal (pl_from_status p)) (ValidationError "literal_error");;
  r ← nonempty_str (pl_reason p); Ok (MkRunLifecyclePayload (pl_from_status p) r).

Record ContextComposedPayload := MkContextComposedPayload {
  pc_snapshot_id : string;
  pc_policy_id : string;
  pc_strategy : ContextStrategy;
  pc_source_chars : Z;
  pc_selected_chars : Z;
  pc_omitted : bool;
  pc_content_hash : string
}.
#[export] Instance ContextComposedPayload_eq_dec : EqDecision ContextComposedPayload.
Proof. solve_decision. Defined.
Definition to_ContextComposedPayload (x : ContextComposedPayload) : json := JObj [
  ("snapshot_id", JStr (pc_snapshot_id x));
  ("policy_id", JStr (pc_policy_id x));
  ("strategy", JStr (ContextStrategy_value (pc_strategy x)));
  ("source_chars", JInt (pc_source_chars x));
  ("selected_chars", JInt (pc_selected_chars x));
  ("omitted", JBool (pc_omitted x));
  ("content_hash", JStr (pc_content_hash x))].

Definition validate_ContextComposed (p : ContextComposedPayload) : result ContextComposedPayload :=
  a ← nonempty_str (pc_snapshot_id p); b ← nonempty_str (pc_policy_id p);
  c ← at_least 0 (pc_source_chars p); d ← at_least 0 (pc_selected_chars p);
  e ← digest_str (pc_content_hash p);
  Ok (MkContextComposedPayload a b (pc_strategy p) c d (pc_omitted p) e).

Record SubjectInvokedPayload := MkSubjectInvokedPayload {
  pi_runner : string;
  pi_network : NetworkMode;
  pi_subject_envelope_digest : string;
  pi_evaluation_guidance_digest : option string;
  pi_provider_profile_id : option string;
  pi_provider_model : option string;
  pi_provider_reasoning_effort : option string;
  pi_provider_adapter : option string
}.
#[export] Instance SubjectInvokedPayload_eq_dec : EqDecision SubjectInvokedPayload.
Proof. solve_decision. Defined.
Definition to_SubjectInvokedPayload (x : SubjectInvokedPayload) : json := JObj [
  ("runner", JStr (pi_runner x));
  ("network", JStr (NetworkMode_value (pi_network x)));
  ("subject_envelope_digest", JStr (pi_subject_envelope_digest x));
  ("evaluation_guidance_digest", jopt JStr (pi_evaluation_guidance_digest x));
  ("provider_profile_id", jopt JStr (pi_provider_profile_id x));
  ("provider_model", jopt JStr (pi_provider_model x));
  ("provider_reasoning_effort", jopt JStr (pi_provider_reasoning_effort x));
  ("provider_adapter", jopt JStr (pi_provider_adapter x))].

Definition validate_provider_resolution (p : SubjectInvokedPayload) : result unit :=
  let fields := [pi_provider_profile_id p; pi_provider_model p;
                 pi_provider_reasoning_effort p; pi_provider_adapter p] in
  raise_when (existsb (λ f, f !=b None) fields && existsb (λ f, f ==b None) fields)
    (ValidationError "Subject invocation provider resolution must be all-or-none").

Definition validate_SubjectInvoked (p : SubjectInvokedPayload) : result SubjectInvokedPayload :=
  a ← nonempty_str (pi_runner p); b ← digest_str (pi_subject_envelope_digest p);
  c ← optional digest_str (pi_evaluation_guidance_digest p);
  d ← optional nonempty_str (pi_provider_profile_id p);
  e ← optional nonempty_str (pi_provider_model p);
  f ← optional nonempty_str (pi_provider_reasoning_effort p);
  g ← optional nonempty_str (pi_provider_adapter p);
  let q := MkSubjectInvokedPayload a (pi_network p) b c d e f g in
  validate_provider_resolution q;; Ok q.

Record SubjectRespondedPayload := MkSubjectRespondedPayload {
  pr_output : option string;
  pr_output_ref : option ArtifactRef;
  pr_output_digest : string;
  pr_capture_mode : CaptureMode;
  pr_evidence : list string;
  pr_metadata : list KeyValue
}.
#[export] Instance SubjectRespondedPayload_eq_dec : EqDecision SubjectRespondedPayload.
Proof. solve_decision. Defined.
Definition to_SubjectRespondedPayload (x : SubjectRespondedPayload) : json := JObj [
  ("output", jopt JStr (pr_output x));
  ("output_ref", jopt to_ArtifactRef (pr_output_ref x));
  ("output_digest", JStr (pr_output_digest x));
  ("capture_mode", JStr (CaptureMode_value (pr_capture_mode x)));
  ("evidence", jstrs (pr_evidence x));
  ("metadata", jlist to_KeyValue (pr_metadata x))].

Definition validate_capture_shape (p : SubjectRespondedPayload) : result unit :=
  raise_when (pr_capture_mode p ==b CapRedacted
      && (pr_output p !=b Some "[REDACTED]" || pr_output_ref p !=b None || pr_evidence p !=b []))
    (ValidationError "redacted Subject capture requires the redaction marker and no raw evidence");;
  raise_when (pr_capture_mode p ==b CapMetadata
      && (pr_output p !=b None || pr_output_ref p !=b None || pr_evidence p !=b []))
    (ValidationError "metadata Subject capture cannot contain output or raw evidence");;
  raise_when (pr_capture_mode p ==b CapDisabled
      && (pr_output p !=b None || pr_output_ref p !=b None || pr_evidence p !=b []
          || pr_metadata p !=b []))
    (ValidationError "disabled Subject capture cannot contain captured content");;
  raise_when (pr_capture_mode p ==b CapRawEncrypted
      && (pr_output p !=b None
          || match pr_output_ref p with
             | None => true | Some r => ar_classification r !=b SENSITIVE end
          || existsb (λ e, negb (startswith "artifact:" e)) (pr_evidence p)))
    (ValidationError "raw encrypted Subject capture requires a sensitive output artifact ref").

Definition validate_SubjectResponded (p : SubjectRespondedPayload)
    : result SubjectRespondedPayload :=
  d ← digest_str (pr_output_digest p);
  validate_capture_shape p;; Ok p.

Record EvaluationCompletedPayload := MkEvaluationCompletedPayload {
  pe_evaluation_record_id : string;
  pe_evaluation_record_digest : string;
  pe_gate_status : GateStatus
}.
#[export] Instance EvaluationCompletedPayload_eq_dec : EqDecision EvaluationCompletedPayload.
Proof. solve_decision. Defined.
Definition to_EvaluationCompletedPayload (x : EvaluationCompletedPayload) : json := JObj [
  ("evaluation_record_id", JStr (pe_evaluation_record_id x));
  ("evaluation_record_digest", JStr (pe_evaluation_record_digest x));
  ("gate_status", JStr (GateStatus_value (pe_gate_status x)))].

Definition validate_EvaluationCompleted (p : EvaluationCompletedPayload)
    : result EvaluationCompletedPayload :=
  a ← nonempty_str (pe_evaluation_record_id p);
  b ← digest_str (pe_evaluation_record_digest p);
  Ok (MkEvaluationCompletedPayload a b (pe_gate_status p)).

Record CapabilityOfferedPayload := MkCapabilityOfferedPayload {
  po_capability_ref : CapabilityDescriptorRef;
  po_required : bool;
  po_exposure : Exposure;
  po_effective_permissions : list string
}.
#[export] Instance CapabilityOfferedPayload_eq_dec : EqDecision CapabilityOfferedPayload.
Proof. solve_decision. Defined.
Definition to_CapabilityOfferedPayload (x : CapabilityOfferedPayload) : json := JObj [
  ("capability_ref", to_CapabilityRef (po_capability_ref x));
  ("required", JBool (po_required x));
  ("exposure", JStr (Exposure_value (po_exposure x)));
  ("effective_permissions", jstrs (po_effective_permissions x))].

Definition validate_CapabilityOffered (p : CapabilityOfferedPayload)
    : result CapabilityOfferedPayload :=
  ps ← mapM nonempty_str (po_effective_permissions p);
  Ok (MkCapabilityOfferedPayload (po_capability_ref p) (po_required p) (po_exposure p) ps).

Record SkillLoadedPayload := MkSkillLoadedPayload {
  psl_capability_ref : CapabilityDescriptorRef;
  psl_instruction_refs : list ArtifactRef
}.
#[export] Instance SkillLoadedPayload_eq_dec : EqDecision SkillLoadedPayload.
Proof. solve_decision. Defined.
Definition to_SkillLoadedPayload (x : SkillLoadedPayload) : json := JObj [
  ("capability_ref", to_CapabilityRef (psl_capability_ref x));
  ("instruction_refs", jlist to_ArtifactRef (psl_instruction_refs x))].

Record CapabilityInvocationPayload := MkCapabilityInvocationPayload {
  pci_capability_ref : CapabilityDescriptorRef;
  pci_invocation_id : string
}.
#[export] Instance CapabilityInvocationPayload_eq_dec : EqDecision CapabilityInvocationPayload.
Proof. solve_decision. Defined.
Definition to_CapabilityInvocationPayload (x : CapabilityInvocationPayload) : json := JObj [
  ("capability_ref", to_CapabilityRef (pci_capability_ref x));
  ("invocation_id", JStr (pci_invocation_id x))].

Record CapabilityResultPayload := MkCapabilityResultPayload {
  pcr_capability_ref : CapabilityDescriptorRef;
  pcr_invocation_id : string;
  pcr_result_ref : option ArtifactRef;
  pcr_reason : option string
}.
#[export] Instance CapabilityResultPayload_eq_dec : EqDecision CapabilityResultPayload.
Proof. solve_decision. Defined.
Definition to_CapabilityResultPayload (x : CapabilityResultPayload) : json := JObj [
  ("capability_ref", to_CapabilityRef (pcr_capability_ref x));
  ("invocation_id", JStr (pcr_invocation_id x));
  ("result_ref", jopt to_ArtifactRef (pcr_result_ref x));
  ("reason", jopt JStr (pcr_reason x))].

Record ToolCalledPayload := MkToolCalledPayload {
  ptc_capability_ref : CapabilityDescriptorRef;
  ptc_call_id : string;
  ptc_input_digest : string;
  ptc_arguments_ref : option ArtifactRef
}.
#[export] Instance ToolCalledPayload_eq_dec : EqDecision ToolCalledPayload.
Proof. solve_decision. Defined.
Definition to_ToolCalledPayload (x : ToolCalledPayload) : json := JObj [
  ("capability_ref", to_CapabilityRef (ptc_capability_ref x));
  ("call_id", JStr (ptc_call_id x));
  ("input_digest", JStr (ptc_input_digest x));
  ("arguments_ref", jopt to_ArtifactRef (ptc_arguments_ref x))].

Definition validate_ToolCalled (p : ToolCalledPayload) : result ToolCalledPayload :=
  a ← nonempty_str (ptc_call_id p); b ← digest_str (ptc_input_digest p);
  Ok (MkToolCalledPayload (ptc_capability_ref p) a b (ptc_arguments_ref p)).

Record ToolDecisionPayload := MkToolDecisionPayload {
  ptd_call_id : string;
  ptd_decided_by : string;
  ptd_rationale : string
}.
#[export] Instance ToolDecisionPayload_eq_dec : EqDecision ToolDecisionPayload.
Proof. solve_decision. Defined.
Definition to_ToolDecisionPayload (x : ToolDecisionPayload) : json := JObj [
  ("call_id", JStr (ptd_call_id x));
  ("decided_by", JStr (ptd_decided_by x));
  ("rationale", JStr (ptd_rationale x))].

Definition validate_ToolDecision (p : ToolDecisionPayload) : result ToolDecisionPayload :=
  a ← nonempty_str (ptd_call_id p); b ← nonempty_str (ptd_decided_by p);
  c ← nonempty_str (ptd_rationale p); Ok (MkToolDecisionPayload a b c).

Record ToolResultPayload := MkToolResultPayload {
  ptr_capability_ref : CapabilityDescriptorRef;
  ptr_call_id : string;
  ptr_result_ref : option ArtifactRef;
  ptr_reason : option string
}.
#[export] Instance ToolResultPayload_eq_dec : EqDecision ToolResultPayload.
Proof. solve_decision. Defined.
Definition to_ToolResultPayload (x : ToolResultPayload) : json := JObj [
  ("capability_ref", to_CapabilityRef (ptr_capability_ref x));
  ("call_id", JStr (ptr_call_id x));
  ("result_ref", jopt to_ArtifactRef (ptr_result_ref x));
  ("reason", jopt JStr (ptr_reason x))].

Definition validate_ToolResult (p : ToolResultPayload) : result ToolResultPayload :=
  a ← nonempty_str (ptr_call_id p); b ← optional nonempty_str (ptr_reason p);
  Ok (MkToolResultPayload (ptr_capability_ref p) a (ptr_result_ref p) b).

Record CheckpointValidationFailedPayload := MkCheckpointValidationFailedPayload {
  pcf_checkpoint_definition_id : string;
  pcf_validator_ref : CapabilityDescriptorRef;
  pcf_rationale : string;
  pcf_evidence_refs : list EvidenceRef
}.
#[export] Instance CheckpointValidationFailedPayload_eq_dec : EqDecision CheckpointValidationFailedPayload.
Proof. solve_decision. Defined.
Definition to_CheckpointValidationFailedPayload (x : CheckpointValidationFailedPayload) : json := JObj [
  ("checkpoint_definition_id", JStr (pcf_checkpoint_definition_id x));
  ("validator_ref", to_CapabilityRef (pcf_validator_ref x));
  ("rationale", JStr (pcf_rationale x));
  ("evidence_refs", jlist to_EvidenceRef (pcf_evidence_refs x))].

Record ProgressObserverStartedPayload := MkProgressObserverStartedPayload {
  pos_attempt_id : string;
  pos_policy_ref : ContractRef;
  pos_definition_id : string;
  pos_up_to_event_sequence : Z;
  pos_event_hash : string;
  pos_summarizer_ref : CapabilityDescriptorRef
}.
#[export] Instance ProgressObserverStartedPayload_eq_dec : EqDecision ProgressObserverStartedPayload.
Proof. solve_decision. Defined.
Definition to_ProgressObserverStartedPayload (x : ProgressObserverStartedPayload) : json := JObj [
  ("attempt_id", JStr (pos_attempt_id x));
  ("policy_ref", to_ContractRef (pos_policy_ref x));
  ("definition_id", JStr (pos_definition_id x));
  ("up_to_event_sequence", JInt (pos_up_to_event_sequence x));
  ("event_hash", JStr (pos_event_hash x));
  ("summarizer_ref", to_CapabilityRef (pos_summarizer_ref x))].

Record ProgressArtifactCreatedPayload := MkProgressArtifactCreatedPayload {
  pac_attempt_id : string;
  pac_progress_record_id : string;
  pac_progress_record_digest : string;
  pac_artifact_ref : ArtifactRef;
  pac_up_to_event_sequence : Z;
  pac_event_hash : string
}.
#[export] Instance ProgressArtifactCreatedPayload_eq_dec : EqDecision ProgressArtifactCreatedPayload.
Proof. solve_decision. Defined.
Definition to_ProgressArtifactCreatedPayload (x : ProgressArtifactCreatedPayload) : json := JObj [
  ("attempt_id", JStr (pac_attempt_id x));
  ("progress_record_id", JStr (pac_progress_record_id x));
  ("progress_record_digest", JStr (pac_progress_record_digest x));
  ("artifact_ref", to_ArtifactRef (pac_artifact_ref x));
  ("up_to_event_sequence", JInt (pac_up_to_event_sequence x));
  ("event_hash", JStr (pac_event_hash x))].

Inductive ObserverPhase :=
  | PhInput
  | PhSummarizer
  | PhInvocation
  | PhOutput
  | PhArtifact
  | PhRecord.
#[export] Instance ObserverPhase_eq_dec : EqDecision ObserverPhase.
Proof. solve_decision. Defined.
Definition ObserverPhase_value (x : ObserverPhase) : string :=
  match x with
  | PhInput => "input_materialization"
  | PhSummarizer => "summarizer_resolution"
  | PhInvocation => "invocation"
  | PhOutput => "output_validation"
  | PhArtifact => "artifact_write"
  | PhRecord => "record_persistence"
  end.

Record ProgressObserverFailedPayload := MkProgressObserverFailedPayload {
  pof_attempt_id : string;
  pof_policy_ref : ContractRef;
  pof_definition_id : string;
  pof_up_to_event_sequence : Z;
  pof_event_hash : string;
  pof_phase : ObserverPhase;
  pof_reason_code : string;
  pof_retryable : bool
}.
#[export] Instance ProgressObserverFailedPayload_eq_dec : EqDecision ProgressObserverFailedPayload.
Proof. solve_decision. Defined.
Definition to_ProgressObserverFailedPayload (x : ProgressObserverFailedPayload) : json := JObj [
  ("attempt_id", JStr (pof_attempt_id x));
  ("policy_ref", to_ContractRef (pof_policy_ref x));
  ("definition_id", JStr (pof_definition_id x));
  ("up_to_event_sequence", JInt (pof_up_to_event_sequence x));
  ("event_hash", JStr (pof_event_hash x));
  ("phase", JStr (ObserverPhase_value (pof_phase x)));
  ("reason_code", JStr (pof_reason_code x));
  ("retryable", JBool (pof_retryable x))].

Inductive GoalTerminalState := GAchieved | GPartially | GNotAchieved | GNotAssessable.
#[export] Instance GoalTerminalState_eq_dec : EqDecision GoalTerminalState.
Proof. solve_decision. Defined.
Definition GoalTerminalState_value (x : GoalTerminalState) : string :=
  match x with
  | GAchieved => "achieved"
  | GPartially => "partially_achieved"
  | GNotAchieved => "not_achieved"
  | GNotAssessable => "not_assessable"
  end.

Inductive Disposition := DConcluded | DIncomplete | DNotAssessable.
#[export] Instance Disposition_eq_dec : EqDecision Disposition.
Proof. solve_decision. Defined.
Definition Disposition_value (x : Disposition) : string :=
  match x with
  | DConcluded => "concluded"
  | DIncomplete => "incomplete"
  | DNotAssessable => "not_assessable"
  end.

Inductive StopReason :=
  | SREvidenceSaturation
  | SRBoundedCompletion
  | SRBudgetLimit
  | SRTimeLimit
  | SRTurnLimit
  | SRHumanStop
  | SRGuardrail
  | SRProviderFailure.
#[export] Instance StopReason_eq_dec : EqDecision StopReason.
Proof. solve_decision. Defined.
Definition StopReason_value (x : StopReason) : string :=
  match x with
  | SREvidenceSaturation => "evidence_saturation"
  | SRBoundedCompletion => "bounded_completion"
  | SRBudgetLimit => "budget_limit"
  | SRTimeLimit => "time_limit"
  | SRTurnLimit => "turn_limit"
  | SRHumanStop => "human_stop"
  | SRGuardrail => "guardrail"
  | SRProviderFailure => "provider_failure"
  end.

Inductive TerminalGoalResult :=
  | GoalStateTerminalResult (state : GoalTerminalState)
  | BoundedExplorationTerminalResult (disposition : Disposition) (stop_reason : StopReason)
      (stop_condition_kind : string) (learning_summary_ref : option ArtifactRef)
      (evidence_refs : list EvidenceRef).
#[export] Instance TerminalGoalResult_eq_dec : EqDecision TerminalGoalResult.
Proof. solve_decision. Defined.
Definition to_TerminalGoalResult (g : TerminalGoalResult) : json :=
  match g with
  | GoalStateTerminalResult s =>
      JObj [("goal_mode", JStr "goal_state"); ("state", JStr (GoalTerminalState_value s))]
  | BoundedExplorationTerminalResult d r k l e =>
      JObj [("goal_mode", JStr "bounded_exploration");
            ("disposition", JStr (Disposition_value d));
            ("stop_reason", JStr (StopReason_value r));
            ("stop_condition_kind", JStr k);
            ("learning_summary_ref", jopt to_ArtifactRef l);
            ("evidence_refs", jlist to_EvidenceRef e)]
  end.

Record RunTerminalPayload := MkRunTerminalPayload {
  pt_status : RunStatus;
  pt_goal_result : TerminalGoalResult;
  pt_terminal_cause : string;
  pt_evaluation_record_refs : list string;
  pt_checkpoint_refs : list string
}.
#[export] Instance RunTerminalPayload_eq_dec : EqDecision RunTerminalPayload.
Proof. solve_decision. Defined.
Definition to_RunTerminalPayload (x : RunTerminalPayload) : json := JObj [
  ("status", JStr (RunStatus_value (pt_status x)));
  ("goal_result", to_TerminalGoalResult (pt_goal_result x));
  ("terminal_cause", JStr (pt_terminal_cause x));
  ("evaluation_record_refs", jstrs (pt_evaluation_record_refs x));
  ("checkpoint_refs", jstrs (pt_checkpoint_refs x))].

Definition validate_unique_record_refs (p : RunTerminalPayload) : result unit :=
  raise_when (has_duplicates (pt_evaluation_record_refs p))
    (ValidationError "terminal evaluation record refs must be unique");;
  raise_when (has_duplicates (pt_checkpoint_refs p))
    (ValidationError "terminal checkpoint refs must be unique").

Definition validate_goal_result (g : TerminalGoalResult) : result TerminalGoalResult :=
  match g with
  | GoalStateTerminalResult s => Ok g
  | BoundedExplorationTerminalResult d r k l e =>
      k' ← nonempty_str k; Ok (BoundedExplorationTerminalResult d r k' l e)
  end.

Definition validate_RunTerminal (p : RunTerminalPayload) : result RunTerminalPayload :=
  raise_when (negb (is_terminal (pt_status p))) (ValidationError "literal_error");;
  g ← validate_goal_result (pt_goal_result p);
  c ← nonempty_str (pt_terminal_cause p);
  es ← mapM nonempty_str (pt_evaluation_record_refs p);
  cs ← mapM nonempty_str (pt_checkpoint_refs p);
  let q := MkRunTerminalPayload (pt_status p) g c es cs in
  validate_unique_record_refs q;; Ok q.

(** ** The union and the registry of payload models *)

Inductive RunEventPayload :=
  | PRunQueued (p : RunQueuedPayload)
  | PRunPreparing (p : RunPreparingPayload)
  | PRunLifecycle (p : RunLifecyclePayload)
  | PContextComposed (p : ContextComposedPayload)
  | PSubjectInvoked (p : SubjectInvokedPayload)
  | PSubjectResponded (p : SubjectRespondedPayload)
  | PEvaluationCompleted (p : EvaluationCompletedPayload)
  | PCapabilityOffered (p : CapabilityOfferedPayload)
  | PSkillLoaded (p : SkillLoadedPayload)
  | PCapabilityInvocation (p : CapabilityInvocationPayload)
  | PCapabilityResult (p : CapabilityResultPayload)
  | PToolCalled (p : ToolCalledPayload)
  | PToolDecision (p : ToolDecisionPayload)
  | PToolResult (p : ToolResultPayload)
  | PCheckpointValidationFailed (p : CheckpointValidationFailedPayload)
  | PProgressObserverStarted (p : ProgressObserverStartedPayload)
  | PProgressArtifactCreated (p : ProgressArtifactCreatedPayload)
  | PProgressObserverFailed (p : ProgressObserverFailedPayload)
  | PRunTerminal (p : RunTerminalPayload).

Inductive PayloadModel :=
  | MQueued | MPreparing | MLifecycle | MContext | MInvoked | MResponded | MEvaluation
  | MOffered | MSkillLoaded | MInvocation | MResult | MToolCalled | MToolDecision | MToolResult
  | MCheckpointFailed | MObserverStarted | MArtifactCreated | MObserverFailed | MTerminal.
#[export] Instance PayloadModel_eq_dec : EqDecision PayloadModel.
Proof. solve_decision. Defined.

Definition EVENT_PAYLOAD_MODELS : list (string * PayloadModel) :=
  [("run.queued", MQueued); ("run.preparing", MPreparing); ("run.running", MLifecycle);
   ("run.paused", MLifecycle); ("run.resumed", MLifecycle); ("run.evaluating", MLifecycle);
   ("context.composed", MContext); ("subject.invoked", MInvoked);
   ("subject.responded", MResponded); ("evaluation.completed", MEvaluation);
   ("capability.offered", MOffered); ("skill.loaded", MSkillLoaded);
   ("skill.invoked", MInvocation); ("skill.completed", MResult); ("skill.failed", MResult);
   ("tool.called", MToolCalled); ("tool.approved", MToolDecision);
   ("tool.denied", MToolDecision); ("tool.completed", MToolResult);
   ("tool.failed", MToolResult); ("checkpoint.validation_failed", MCheckpointFailed);
   ("progress.observer_started", MObserverStarted);
   ("progress.artifact_created", MArtifactCreated);
   ("progress.observer_failed", MObserverFailed); ("run.completed", MTerminal);
   ("run.failed", MTerminal); ("run.cancelled", MTerminal);
   ("run.budget_exhausted", MTerminal); ("run.guardrail_stopped", MTerminal)].

(** [table.get(key)]. *)
Fixpoint assoc {A} (k : string) (l : list (string * A)) : option A :=
  match l with
  | [] => None
  | (k', a) :: l' => if decide (k = k') then Some a else assoc k l'
  end.

Definition payload_model (p : RunEventPayload) : PayloadModel :=
  match p with
  | PRunQueued _ => MQueued | PRunPreparing _ => MPreparing | PRunLifecycle _ => MLifecycle
  | PContextComposed _ => MContext | PSubjectInvoked _ => MInvoked
  | PSubjectResponded _ => MResponded | PEvaluationCompleted _ => MEvaluation
  | PCapabilityOffered _ => MOffered | PSkillLoaded _ => MSkillLoaded
  | PCapabilityInvocation _ => MInvocation | PCapabilityResult _ => MResult
  | PToolCalled _ => MToolCalled | PToolDecision _ => MToolDecision
  | PToolResult _ => MToolResult | PCheckpointValidationFailed _ => MCheckpointFailed
  | PProgressObserverStarted _ => MObserverStarted
  | PProgressArtifactCreated _ => MArtifactCreated
  | PProgressObserverFailed _ => MObserverFailed | PRunTerminal _ => MTerminal
  end.

(** [model.model_validate(payload)] followed by [model_dump(mode="json")]. The models of
    the event types no coordinator emits keep their fields as given. *)
Definition payload_document (p : RunEventPayload) : result json :=
  match p with
  | PRunQueued p => to_RunQueuedPayload <$> validate_RunQueued p
  | PRunPreparing p => Ok (to_RunPreparingPayload p)
  | PRunLifecycle p => to_RunLifecyclePayload <$> validate_RunLifecycle p
  | PContextComposed p => to_ContextComposedPayload <$> validate_ContextComposed p
  | PSubjectInvoked p => to_SubjectInvokedPayload <$> validate_SubjectInvoked p
  | PSubjectResponded p => to_SubjectRespondedPayload <$> validate_SubjectResponded p
  | PEvaluationCompleted p => to_EvaluationCompletedPayload <$> validate_EvaluationCompleted p
  | PCapabilityOffered p => to_CapabilityOfferedPayload <$> validate_CapabilityOffered p
  | PSkillLoaded p => Ok (to_SkillLoadedPayload p)
  | PCapabilityInvocation p => Ok (to_CapabilityInvocationPayload p)
  | PCapabilityResult p => Ok (to_CapabilityResultPayload p)
  | PToolCalled p => to_ToolCalledPayload <$> validate_ToolCalled p
  | PToolDecision p => to_ToolDecisionPayload <$> validate_ToolDecision p
  | PToolResult p => to_ToolResultPayload <$> validate_ToolResult p
  | PCheckpointValidationFailed p => Ok (to_CheckpointValidationFailedPayload p)
  | PProgressObserverStarted p => Ok (to_ProgressObserverStartedPayload p)
  | PProgressArtifactCreated p => Ok (to_ProgressArtifactCreatedPayload p)
  | PProgressObserverFailed p => Ok (to_ProgressObserverFailedPayload p)
  | PRunTerminal p => to_RunTerminalPayload <$> validate_RunTerminal p
  end.

Definition normalize_event_payload (event_type : string) (payload : RunEventPayload)
    : result json :=
  model ← require (assoc event_type EVENT_PAYLOAD_MODELS)
    (ValueError ("unregistered Run Event payload type: " +:+ event_type));
  raise_when (payload_model payload !=b model)
    (ValidationError "payload does not match the registered model");;
  document ← payload_document payload;
  Ok (semantic_model_dump document).

(** ** Phases *)

Definition EVENT_ALLOWED_RUN_STATUSES : list (string * list RunStatus) :=
  [("context.composed", [preparing]);
   ("capability.offered", [preparing; running]);
   ("skill.loaded", [preparing; running]);
   ("subject.invoked", [running]);
   ("subject.responded", [running]);
   ("skill.invoked", [running]);
   ("skill.completed", [running]);
   ("skill.failed", [running]);
   ("tool.called", [running]);
   ("tool.approved", [running]);
   ("tool.denied", [running]);
   ("tool.completed", [running]);
   ("tool.failed", [running]);
   ("checkpoint.validation_failed", [running; paused; evaluating]);
   ("evaluation.completed", [evaluating])].

Definition UNSUPPORTED_RUNTIME_EVENT_TYPES : list string :=
  ["run.paused"; "run.resumed"; "skill.loaded"; "skill.invoked"; "skill.completed";
   "skill.failed"; "tool.approved"; "checkpoint.validation_failed";
   "progress.observer_started"; "progress.artifact_created"; "progress.observer_failed"].
