(* ===== verification/Triage.v ===== *)
(** * Triage refusals (src/src/evidrun/contracts/triage.py).

    The closed set of refusal codes with the phase each belongs to, and the tables
    that give a code its category, its HTTP status and the CLI's exit code. *)

From S2P Require Import Prelude PyText PyJson Base Authoring Runtime.
From Stdlib Require Import Ascii.

Inductive TriagePhase := PARSE | REGISTER | DECIDE | COMPILE | ADMIT | ENQUEUE.
#[export] Instance TriagePhase_eq_dec : EqDecision TriagePhase.
Proof. solve_decision. Defined.
Definition TriagePhase_value (p : TriagePhase) : string :=
  match p with
  | PARSE => "parse" | REGISTER => "register" | DECIDE => "decide"
  | COMPILE => "compile" | ADMIT => "admit" | ENQUEUE => "enqueue"
  end.

(** [TriagePhase(value)]. *)
Definition TriagePhase_of (s : string) : option TriagePhase :=
  find_first (λ p, TriagePhase_value p ==b s) [PARSE; REGISTER; DECIDE; COMPILE; ADMIT; ENQUEUE].

Inductive TriageErrorCode :=
  | PARSE_DOCUMENT_NOT_OBJECT
  | PARSE_CONTRACT_TYPE_MISSING
  | PARSE_CONTRACT_TYPE_UNKNOWN
  | PARSE_FIELD_UNDECLARED
  | PARSE_REVISION_INVALID
  | PARSE_IDENTIFIER_EMPTY
  | PARSE_PAYLOAD_TYPE_INVALID
  | PARSE_SCHEMA_INVALID
  | REGISTER_PROJECT_NOT_FOUND
  | REGISTER_REVISION_NOT_MONOTONIC
  | REGISTER_IMMUTABILITY_CONFLICT
  | REGISTER_INITIAL_STATUS_INVALID
  | REGISTER_STORAGE_UNAVAILABLE
  | DECIDE_HUMAN_AUTHORITY_UNAVAILABLE
  | DECIDE_REVISION_NOT_FOUND
  | DECIDE_DECISION_CONFLICT
  | DECIDE_REPOSITORY_FIXTURE_FORBIDDEN
  | COMPILE_REVISION_NOT_FOUND
  | COMPILE_REVISION_NOT_STUDY
  | COMPILE_DEPENDENCY_NOT_ACCEPTED
  | COMPILE_DIGEST_MISMATCH
  | COMPILE_CONTROLLED_SLOTS_MISMATCH
  | COMPILE_CONFOUNDER_MISSING
  | ADMIT_RUN_SPEC_NOT_FOUND
  | ADMIT_REJECTED
  | ADMIT_INVENTORY_NOT_PERSISTIBLE
  | ENQUEUE_RUN_SPEC_NOT_FOUND
  | ENQUEUE_ADMISSION_NOT_FOUND
  | ENQUEUE_ADMISSION_NOT_ADMITTED
  | ENQUEUE_ADMISSION_RUN_SPEC_MISMATCH
  | ENQUEUE_DIGEST_MISMATCH
  | ENQUEUE_IDEMPOTENCY_KEY_EMPTY
  | ENQUEUE_IDEMPOTENCY_CONFLICT
  | ENQUEUE_RETRY_SOURCE_SUCCEEDED
  | ENQUEUE_RETRY_ADMISSION_NOT_NEWER
  | ENQUEUE_RETRY_ADMISSION_REUSED
  | ENQUEUE_RETRY_LEGACY_RUN.
#[export] Instance TriageErrorCode_eq_dec : EqDecision TriageErrorCode.
Proof. solve_decision. Defined.
Definition TriageErrorCode_value (c : TriageErrorCode) : string :=
  match c with
  | PARSE_DOCUMENT_NOT_OBJECT => "parse.document_not_object"
  | PARSE_CONTRACT_TYPE_MISSING => "parse.contract_type_missing"
  | PARSE_CONTRACT_TYPE_UNKNOWN => "parse.contract_type_unknown"
  | PARSE_FIELD_UNDECLARED => "parse.field_undeclared"
  | PARSE_REVISION_INVALID => "parse.revision_invalid"
  | PARSE_IDENTIFIER_EMPTY => "parse.identifier_empty"
  | PARSE_PAYLOAD_TYPE_INVALID => "parse.payload_type_invalid"
  | PARSE_SCHEMA_INVALID => "parse.schema_invalid"
  | REGISTER_PROJECT_NOT_FOUND => "register.project_not_found"
  | REGISTER_REVISION_NOT_MONOTONIC => "register.revision_not_monotonic"
  | REGISTER_IMMUTABILITY_CONFLICT => "register.immutability_conflict"
  | REGISTER_INITIAL_STATUS_INVALID => "register.initial_status_invalid"
  | REGISTER_STORAGE_UNAVAILABLE => "register.storage_unavailable"
  | DECIDE_HUMAN_AUTHORITY_UNAVAILABLE => "decide.human_authority_unavailable"
  | DECIDE_REVISION_NOT_FOUND => "decide.revision_not_found"
  | DECIDE_DECISION_CONFLICT => "decide.decision_conflict"
  | DECIDE_REPOSITORY_FIXTURE_FORBIDDEN => "decide.repository_fixture_forbidden"
  | COMPILE_REVISION_NOT_FOUND => "compile.revision_not_found"
  | COMPILE_REVISION_NOT_STUDY => "compile.revision_not_study"
  | COMPILE_DEPENDENCY_NOT_ACCEPTED => "compile.dependency_not_accepted"
  | COMPILE_DIGEST_MISMATCH => "compile.digest_mismatch"
  | COMPILE_CONTROLLED_SLOTS_MISMATCH => "compile.controlled_slots_mismatch"
  | COMPILE_CONFOUNDER_MISSING => "compile.confounder_missing"
  | ADMIT_RUN_SPEC_NOT_FOUND => "admit.run_spec_not_found"
  | ADMIT_REJECTED => "admit.rejected"
  | ADMIT_INVENTORY_NOT_PERSISTIBLE => "admit.inventory_not_persistible"
  | ENQUEUE_RUN_SPEC_NOT_FOUND => "enqueue.run_spec_not_found"
  | ENQUEUE_ADMISSION_NOT_FOUND => "enqueue.admission_not_found"
  | ENQUEUE_ADMISSION_NOT_ADMITTED => "enqueue.admission_not_admitted"
  | ENQUEUE_ADMISSION_RUN_SPEC_MISMATCH => "enqueue.admission_run_spec_mismatch"
  | ENQUEUE_DIGEST_MISMATCH => "enqueue.digest_mismatch"
  | ENQUEUE_IDEMPOTENCY_KEY_EMPTY => "enqueue.idempotency_key_empty"
  | ENQUEUE_IDEMPOTENCY_CONFLICT => "enqueue.idempotency_conflict"
  | ENQUEUE_RETRY_SOURCE_SUCCEEDED => "enqueue.retry_source_succeeded"
  | ENQUEUE_RETRY_ADMISSION_NOT_NEWER => "enqueue.retry_admission_not_newer"
  | ENQUEUE_RETRY_ADMISSION_REUSED => "enqueue.retry_admission_reused"
  | ENQUEUE_RETRY_LEGACY_RUN => "enqueue.retry_legacy_run"
  end.

Definition all_codes : list TriageErrorCode :=
  [PARSE_DOCUMENT_NOT_OBJECT;
   PARSE_CONTRACT_TYPE_MISSING;
   PARSE_CONTRACT_TYPE_UNKNOWN;
   PARSE_FIELD_UNDECLARED;
   PARSE_REVISION_INVALID;
   PARSE_IDENTIFIER_EMPTY;
   PARSE_PAYLOAD_TYPE_INVALID;
   PARSE_SCHEMA_INVALID;
   REGISTER_PROJECT_NOT_FOUND;
   REGISTER_REVISION_NOT_MONOTONIC;
   REGISTER_IMMUTABILITY_CONFLICT;
   REGISTER_INITIAL_STATUS_INVALID;
   REGISTER_STORAGE_UNAVAILABLE;
   DECIDE_HUMAN_AUTHORITY_UNAVAILABLE;
   DECIDE_REVISION_NOT_FOUND;
   DECIDE_DECISION_CONFLICT;
   DECIDE_REPOSITORY_FIXTURE_FORBIDDEN;
   COMPILE_REVISION_NOT_FOUND;
   COMPILE_REVISION_NOT_STUDY;
   COMPILE_DEPENDENCY_NOT_ACCEPTED;
   COMPILE_DIGEST_MISMATCH;
   COMPILE_CONTROLLED_SLOTS_MISMATCH;
   COMPILE_CONFOUNDER_MISSING;
   ADMIT_RUN_SPEC_NOT_FOUND;
   ADMIT_REJECTED;
   ADMIT_INVENTORY_NOT_PERSISTIBLE;
   ENQUEUE_RUN_SPEC_NOT_FOUND;
   ENQUEUE_ADMISSION_NOT_FOUND;
   ENQUEUE_ADMISSION_NOT_ADMITTED;
   ENQUEUE_ADMISSION_RUN_SPEC_MISMATCH;
   ENQUEUE_DIGEST_MISMATCH;
   ENQUEUE_IDEMPOTENCY_KEY_EMPTY;
   ENQUEUE_IDEMPOTENCY_CONFLICT;
   ENQUEUE_RETRY_SOURCE_SUCCEEDED;
   ENQUEUE_RETRY_ADMISSION_NOT_NEWER;
   ENQUEUE_RETRY_ADMISSION_REUSED;
   ENQUEUE_RETRY_LEGACY_RUN].

(** [value.partition(".")[0]]. *)
Fixpoint before_dot (s : string) : string :=
  match s with
  | "" => ""
  | String c rest => if Ascii.eqb c "."%char then "" else String c (before_dot rest)
  end.

(** [TriageErrorCode.phase]: a prefix outside the phases is a [ValueError]. *)
Definition code_phase (c : TriageErrorCode) : result TriagePhase :=
  require (TriagePhase_of (before_dot (TriageErrorCode_value c)))
    (ValueError "not a valid TriagePhase").

Inductive TriageErrorCategory := INVALID | REJECTED | NOT_FOUND | CONFLICT | UNAVAILABLE.
#[export] Instance TriageErrorCategory_eq_dec : EqDecision TriageErrorCategory.
Proof. solve_decision. Defined.

Inductive CliExitCode := EXIT_INVALID | EXIT_REJECTED | EXIT_NOT_FOUND | EXIT_CONFLICT.
#[export] Instance CliExitCode_eq_dec : EqDecision CliExitCode.
Proof. solve_decision. Defined.
Definition CliExitCode_value (c : CliExitCode) : Z :=
  match c with
  | EXIT_INVALID => 2 | EXIT_REJECTED => 3 | EXIT_NOT_FOUND => 4 | EXIT_CONFLICT => 5
  end.

(** The tables are mappings, so a code may be missing from one. *)
Definition CATEGORY_BY_CODE : list (TriageErrorCode * TriageErrorCategory) :=
  [(PARSE_DOCUMENT_NOT_OBJECT, INVALID);
   (PARSE_CONTRACT_TYPE_MISSING, INVALID);
   (PARSE_CONTRACT_TYPE_UNKNOWN, INVALID);
   (PARSE_FIELD_UNDECLARED, INVALID);
   (PARSE_REVISION_INVALID, INVALID);
   (PARSE_IDENTIFIER_EMPTY, INVALID);
   (PARSE_PAYLOAD_TYPE_INVALID, INVALID);
   (PARSE_SCHEMA_INVALID, INVALID);
   (REGISTER_PROJECT_NOT_FOUND, NOT_FOUND);
   (REGISTER_REVISION_NOT_MONOTONIC, CONFLICT);
   (REGISTER_IMMUTABILITY_CONFLICT, CONFLICT);
   (REGISTER_INITIAL_STATUS_INVALID, INVALID);
   (REGISTER_STORAGE_UNAVAILABLE, UNAVAILABLE);
   (DECIDE_HUMAN_AUTHORITY_UNAVAILABLE, UNAVAILABLE);
   (DECIDE_REVISION_NOT_FOUND, NOT_FOUND);
   (DECIDE_DECISION_CONFLICT, CONFLICT);
   (DECIDE_REPOSITORY_FIXTURE_FORBIDDEN, REJECTED);
   (COMPILE_REVISION_NOT_FOUND, NOT_FOUND);
   (COMPILE_REVISION_NOT_STUDY, INVALID);
   (COMPILE_DEPENDENCY_NOT_ACCEPTED, REJECTED);
   (COMPILE_DIGEST_MISMATCH, CONFLICT);
   (COMPILE_CONTROLLED_SLOTS_MISMATCH, INVALID);
   (COMPILE_CONFOUNDER_MISSING, INVALID);
   (ADMIT_RUN_SPEC_NOT_FOUND, NOT_FOUND);
   (ADMIT_REJECTED, REJECTED);
   (ADMIT_INVENTORY_NOT_PERSISTIBLE, UNAVAILABLE);
   (ENQUEUE_RUN_SPEC_NOT_FOUND, NOT_FOUND);
   (ENQUEUE_ADMISSION_NOT_FOUND, NOT_FOUND);
   (ENQUEUE_ADMISSION_NOT_ADMITTED, REJECTED);
   (ENQUEUE_ADMISSION_RUN_SPEC_MISMATCH, REJECTED);
   (ENQUEUE_DIGEST_MISMATCH, CONFLICT);
   (ENQUEUE_IDEMPOTENCY_KEY_EMPTY, INVALID);
   (ENQUEUE_IDEMPOTENCY_CONFLICT, CONFLICT);
   (ENQUEUE_RETRY_SOURCE_SUCCEEDED, CONFLICT);
   (ENQUEUE_RETRY_ADMISSION_NOT_NEWER, CONFLICT);
   (ENQUEUE_RETRY_ADMISSION_REUSED, CONFLICT);
   (ENQUEUE_RETRY_LEGACY_RUN, CONFLICT)].

Definition HTTP_STATUS_BY_CATEGORY (c : TriageErrorCategory) : Z :=
  match c with
  | INVALID => 422 | REJECTED => 422 | NOT_FOUND => 404 | CONFLICT => 409 | UNAVAILABLE => 503
  end.

Definition HTTP_STATUS_BY_CODE : list (TriageErrorCode * Z) :=
  map (λ '(code, category), (code, HTTP_STATUS_BY_CATEGORY category)) CATEGORY_BY_CODE.

Definition CLI_EXIT_BY_CODE : list (TriageErrorCode * CliExitCode) :=
  [(PARSE_DOCUMENT_NOT_OBJECT, EXIT_INVALID);
   (PARSE_CONTRACT_TYPE_MISSING, EXIT_INVALID);
   (PARSE_CONTRACT_TYPE_UNKNOWN, EXIT_INVALID);
   (PARSE_FIELD_UNDECLARED, EXIT_INVALID);
   (PARSE_REVISION_INVALID, EXIT_INVALID);
   (PARSE_IDENTIFIER_EMPTY, EXIT_INVALID);
   (PARSE_PAYLOAD_TYPE_INVALID, EXIT_INVALID);
   (PARSE_SCHEMA_INVALID, EXIT_INVALID);
   (REGISTER_PROJECT_NOT_FOUND, EXIT_NOT_FOUND);
   (REGISTER_REVISION_NOT_MONOTONIC, EXIT_CONFLICT);
   (REGISTER_IMMUTABILITY_CONFLICT, EXIT_CONFLICT);
   (REGISTER_INITIAL_STATUS_INVALID, EXIT_INVALID);
   (REGISTER_STORAGE_UNAVAILABLE, EXIT_REJECTED);
   (DECIDE_HUMAN_AUTHORITY_UNAVAILABLE, EXIT_REJECTED);
   (DECIDE_REVISION_NOT_FOUND, EXIT_NOT_FOUND);
   (DECIDE_DECISION_CONFLICT, EXIT_CONFLICT);
   (DECIDE_REPOSITORY_FIXTURE_FORBIDDEN, EXIT_REJECTED);
   (COMPILE_REVISION_NOT_FOUND, EXIT_NOT_FOUND);
   (COMPILE_REVISION_NOT_STUDY, EXIT_INVALID);
   (COMPILE_DEPENDENCY_NOT_ACCEPTED, EXIT_REJECTED);
   (COMPILE_DIGEST_MISMATCH, EXIT_CONFLICT);
   (COMPILE_CONTROLLED_SLOTS_MISMATCH, EXIT_INVALID);
   (COMPILE_CONFOUNDER_MISSING, EXIT_INVALID);
   (ADMIT_RUN_SPEC_NOT_FOUND, EXIT_NOT_FOUND);
   (ADMIT_REJECTED, EXIT_REJECTED);
   (ADMIT_INVENTORY_NOT_PERSISTIBLE, EXIT_REJECTED);
   (ENQUEUE_RUN_SPEC_NOT_FOUND, EXIT_NOT_FOUND);
   (ENQUEUE_ADMISSION_NOT_FOUND, EXIT_NOT_FOUND);
   (ENQUEUE_ADMISSION_NOT_ADMITTED, EXIT_REJECTED);
   (ENQUEUE_ADMISSION_RUN_SPEC_MISMATCH, EXIT_REJECTED);
   (ENQUEUE_DIGEST_MISMATCH, EXIT_CONFLICT);
   (ENQUEUE_IDEMPOTENCY_KEY_EMPTY, EXIT_INVALID);
   (ENQUEUE_IDEMPOTENCY_CONFLICT, EXIT_CONFLICT);
   (ENQUEUE_RETRY_SOURCE_SUCCEEDED, EXIT_CONFLICT);
   (ENQUEUE_RETRY_ADMISSION_NOT_NEWER, EXIT_CONFLICT);
   (ENQUEUE_RETRY_ADMISSION_REUSED, EXIT_CONFLICT);
   (ENQUEUE_RETRY_LEGACY_RUN, EXIT_CONFLICT)].

Definition table_get {A} (c : TriageErrorCode) (table : list (TriageErrorCode * A)) : option A :=
  snd <$> find_first (λ e, fst e ==b c) table.

(** [validate_error_tables]: each table covers exactly the declared codes. *)
Definition covers_declared (entries : list TriageErrorCode) : bool :=
  forallb (λ c, c ∈b entries) all_codes && forallb (λ c, c ∈b all_codes) entries.

Definition validate_error_tables (http_status_by_code : list (TriageErrorCode * Z))
    (cli_exit_by_code : list (TriageErrorCode * CliExitCode)) : result unit :=
  raise_when (negb (covers_declared (map fst CATEGORY_BY_CODE)))
    (ValueError "category table must match declared triage codes");;
  raise_when (negb (covers_declared (map fst http_status_by_code)))
    (ValueError "HTTP status table must match declared triage codes");;
  raise_when (negb (covers_declared (map fst cli_exit_by_code)))
    (ValueError "CLI exit table must match declared triage codes").

Record TriageError := MkTriageError {
  te_phase : TriagePhase;
  te_code : TriageErrorCode;
  te_message : string;
  te_field_path : list string;
  te_remediation : option string;
  te_issues : list AdmissionIssue;
  te_missing_requirements : list string;
  te_denied_policies : list string;
  te_unresolved_required_capabilities : list CapabilityDescriptorRef
}.

Definition validate_code_phase (e : TriageError) : result unit :=
  p ← code_phase (te_code e);
  raise_when (p !=b te_phase e) (ValidationError "code prefix must match phase").

(** [raise TriageRejected(error)], named by its code. *)
Definition rejected (c : TriageErrorCode) : exn := TriageRejected (TriageErrorCode_value c).

(** ** Properties *)

Lemma elem_of_all_codes c : c ∈ all_codes.
Proof. apply (bool_decide_eq_true (c ∈ all_codes)). by destruct c. Qed.

Definition cli_category (e : CliExitCode) : list TriageErrorCategory :=
  match e with
  | EXIT_INVALID => [INVALID] | EXIT_REJECTED => [REJECTED; UNAVAILABLE]
  | EXIT_NOT_FOUND => [NOT_FOUND] | EXIT_CONFLICT => [CONFLICT]
  end.

(** C37: every declared code has a phase, a category, an HTTP status and an exit code;
    the HTTP status is that of its category and the exit code names the same category
    (an unavailable phase exits as a refusal); distinct codes have distinct texts. *)
Theorem triage_tables_complete c :
  validate_error_tables HTTP_STATUS_BY_CODE CLI_EXIT_BY_CODE = Ok tt
  ∧ is_ok (code_phase c) = true
  ∧ (∃ category exit, table_get c CATEGORY_BY_CODE = Some category
       ∧ table_get c HTTP_STATUS_BY_CODE = Some (HTTP_STATUS_BY_CATEGORY category)
       ∧ table_get c CLI_EXIT_BY_CODE = Some exit ∧ category ∈ cli_category exit)
  ∧ ∀ d, TriageErrorCode_value c = TriageErrorCode_value d → c = d.
Proof.
  split; [by vm_compute|]. split; [by destruct c|]. split.
  - destruct c; eexists _, _; (split; [vm_compute; reflexivity|]);
      (split; [vm_compute; reflexivity|]); (split; [vm_compute; reflexivity|]); set_solver.
  - intros d. assert (Hinj : NoDup (map TriageErrorCode_value all_codes)).
    { apply (bool_decide_eq_true (NoDup _)). by vm_compute. }
    intros E. destruct (list_elem_of_lookup_1 _ _ (elem_of_all_codes c)) as [i Hi].
    destruct (list_elem_of_lookup_1 _ _ (elem_of_all_codes d)) as [j Hj].
    assert (i = j) as <-; [|congruence].
    eapply (NoDup_lookup _ i j (TriageErrorCode_value c) Hinj);
      rewrite list_lookup_fmap; [by rewrite Hi|by rewrite Hj, E].
Qed.
