(* ===== verification/Trust.v ===== *)
(** * Execution trust documents (src/src/evidrun/contracts/execution_trust.py).

    The closed revision set of a Study, the trust record that binds one RunSpec to it
    and the review target that covers a whole RunSpec matrix. *)

From S2P Require Import Prelude PyText PyJson Base Authoring Runtime.

(** ** Canonical order of references *)

(** The tuple order of [_ref_key]: type text, logical id, revision, digest. *)
Definition ref_leb (a b : ContractRef) : bool :=
  let ta := ContractType_value (cr_contract_type a) in
  let tb := ContractType_value (cr_contract_type b) in
  if decide (ta = tb) then
    if decide (cr_logical_id a = cr_logical_id b) then
      if decide (cr_revision a = cr_revision b)
      then String.leb (cr_digest a) (cr_digest b)
      else (cr_revision a <? cr_revision b)%Z
    else String.leb (cr_logical_id a) (cr_logical_id b)
  else String.leb ta tb.

Definition sort_refs : list ContractRef → list ContractRef := sort_by ref_leb.

(** [_identity_key]. *)
Definition identity_key (r : ContractRef) : ContractType * string * Z :=
  (cr_contract_type r, cr_logical_id r, cr_revision r).

(** ** The revision set *)

Record ExecutionRevisionSet := MkRevisionSet {
  rset_project_id : string;
  rset_study_ref : ContractRef;
  rset_revision_refs : list ContractRef
}.
#[export] Instance ExecutionRevisionSet_eq_dec : EqDecision ExecutionRevisionSet.
Proof. solve_decision. Defined.
Definition to_RevisionSet (s : ExecutionRevisionSet) : json := JObj [
  ("schema_version", JStr "1");
  ("project_id", JStr (rset_project_id s));
  ("study_ref", to_ContractRef (rset_study_ref s));
  ("revision_refs", jlist to_ContractRef (rset_revision_refs s))].

Definition validate_closed_set (s : ExecutionRevisionSet) : result unit :=
  raise_when (cr_contract_type (rset_study_ref s) !=b STUDY)
    (ValidationError "execution revision set requires a Study root");;
  raise_when (has_duplicates (map identity_key (rset_revision_refs s)))
    (ValidationError "execution revision refs must have unique identities");;
  raise_when (negb (rset_study_ref s ∈b rset_revision_refs s))
    (ValidationError "execution revision set must include its Study root");;
  raise_when (rset_revision_refs s !=b sort_refs (rset_revision_refs s))
    (ValidationError "execution revision refs must use canonical order").

Definition revision_set_digest `{PyRuntime} (s : ExecutionRevisionSet) : string :=
  sha256_json (semantic_model_dump (to_RevisionSet s)).

(** ** Trust records *)

Inductive TrustKind := UnverifiedRevisionSet | VerifiedRevisionSet.
#[export] Instance TrustKind_eq_dec : EqDecision TrustKind.
Proof. solve_decision. Defined.
Definition TrustKind_value (k : TrustKind) : string :=
  match k with
  | UnverifiedRevisionSet => "unverified_revision_set"
  | VerifiedRevisionSet => "verified_revision_set"
  end.

Record VerifiedDecisionBinding := MkBinding {
  vb_revision_ref : ContractRef;
  vb_decision_digest : string
}.
#[export] Instance VerifiedDecisionBinding_eq_dec : EqDecision VerifiedDecisionBinding.
Proof. solve_decision. Defined.
Definition to_Binding (b : VerifiedDecisionBinding) : json := JObj [
  ("revision_ref", to_ContractRef (vb_revision_ref b));
  ("decision_digest", JStr (vb_decision_digest b))].

Record ExecutionTrustRecord := MkTrustRecord {
  trust_trust_id : string;
  trust_kind : TrustKind;
  trust_project_id : string;
  trust_study_ref : ContractRef;
  trust_revision_refs : list ContractRef;
  trust_revision_set_digest : string;
  trust_run_spec_digest : string;
  trust_verified_decisions : list VerifiedDecisionBinding;
  trust_created_at_utc : instant
}.
#[export] Instance ExecutionTrustRecord_eq_dec : EqDecision ExecutionTrustRecord.
Proof. solve_decision. Defined.
Definition to_TrustRecord `{PyRuntime} (t : ExecutionTrustRecord) : json := JObj [
  ("schema_version", JStr "1");
  ("trust_id", JStr (trust_trust_id t));
  ("kind", JStr (TrustKind_value (trust_kind t)));
  ("project_id", JStr (trust_project_id t));
  ("study_ref", to_ContractRef (trust_study_ref t));
  ("revision_refs", jlist to_ContractRef (trust_revision_refs t));
  ("revision_set_digest", JStr (trust_revision_set_digest t));
  ("run_spec_digest", JStr (trust_run_spec_digest t));
  ("verified_decisions", jlist to_Binding (trust_verified_decisions t));
  ("created_at_utc", JStr (utc_text (trust_created_at_utc t)))].

Section trust.
Context `{PyRuntime}.

(** The set a record spells out. *)
Definition trust_revision_set (t : ExecutionTrustRecord) : ExecutionRevisionSet := {|
  rset_project_id := trust_project_id t;
  rset_study_ref := trust_study_ref t;
  rset_revision_refs := trust_revision_refs t
|}.

Definition validate_revision_set_and_binding_coverage (t : ExecutionTrustRecord)
    : result unit :=
  validate_closed_set (trust_revision_set t);;
  raise_when (revision_set_digest (trust_revision_set t) !=b trust_revision_set_digest t)
    (ValidationError "execution trust revision-set digest does not recompute");;
  match trust_kind t with
  | UnverifiedRevisionSet =>
      raise_when (trust_verified_decisions t !=b [])
        (ValidationError "unverified execution trust cannot bind verified decisions")
  | VerifiedRevisionSet =>
      raise_when (map vb_revision_ref (trust_verified_decisions t) !=b trust_revision_refs t)
        (ValidationError "verified execution trust must cover every revision in canonical order")
  end.

Definition trust_digest (t : ExecutionTrustRecord) : string :=
  sha256_json (semantic_model_dump (to_TrustRecord t)).

(** [document.pop(key)]. *)
Definition pop_key (k : string) (v : json) : json :=
  match v with
  | JObj m => JObj (List.filter (λ '(k', _), k' !=b k) m)
  | _ => v
  end.

Definition semantic_identity_digest (t : ExecutionTrustRecord) : string :=
  sha256_json (pop_key "created_at_utc"
    (pop_key "trust_id" (semantic_model_dump (to_TrustRecord t)))).

Definition trust_ref (t : ExecutionTrustRecord) : ExecutionTrustRef :=
  {| tr_trust_id := trust_trust_id t; tr_digest := trust_digest t |}.

(** ** Verified trust *)

(** [HumanAttestationVerifier.verify]: the authority adapter, which is not part of the
    contracts. *)
Variable verify_attestation : HumanAttestationRecord → string → result unit.

Fixpoint verify_bindings (bindings : list VerifiedDecisionBinding)
    (decisions : list RevisionDecisionRecord) : result unit :=
  match bindings, decisions with
  | binding :: bs, decision :: ds =>
      raise_when (dec_revision_ref decision !=b vb_revision_ref binding
          || decision_digest decision !=b vb_decision_digest binding
          || dec_decision decision !=b Accepted)
        (ValueError "verified execution trust binding does not match its decision");;
      match dec_authority decision with
      | RepositoryFixture _ =>
          Raise (PermissionError "verified execution trust requires human authority")
      | VerifiedHuman _ attestation =>
          verify_attestation attestation (decision_subject_digest decision)
      end;;
      verify_bindings bs ds
  | _, _ => Ok tt
  end.

Definition validate_verified_trust (record : ExecutionTrustRecord)
    (decisions : list RevisionDecisionRecord) : result unit :=
  raise_when (trust_kind record !=b VerifiedRevisionSet)
    (ValueError "verified trust validation requires verified_revision_set");;
  raise_when (negb (length decisions =? length (trust_verified_decisions record))%nat)
    (ValueError "verified execution trust decision count is incomplete");;
  verify_bindings (trust_verified_decisions record) decisions.

(** ** Review targets *)

Record ReviewTarget := MkReviewTarget {
  rt_project_id : string;
  rt_revision_set_digest : string;
  rt_run_spec_digests : list string
}.
Definition to_ReviewTarget (t : ReviewTarget) : json := JObj [
  ("schema_version", JStr "1");
  ("project_id", JStr (rt_project_id t));
  ("revision_set_digest", JStr (rt_revision_set_digest t));
  ("run_spec_digests", jstrs (rt_run_spec_digests t))].

Definition validate_run_specs (t : ReviewTarget) : result unit :=
  raise_when (has_duplicates (rt_run_spec_digests t))
    (ValidationError "ReviewTarget RunSpec digests must be unique");;
  raise_when (rt_run_spec_digests t !=b sorted_strings (rt_run_spec_digests t))
    (ValidationError "ReviewTarget RunSpec digests must use canonical order").

Definition review_target_digest (t : ReviewTarget) : string :=
  sha256_json (semantic_model_dump (to_ReviewTarget t)).

(** ** Lemmas *)

Lemma verify_bindings_spec bindings decisions :
  length decisions = length bindings →
  verify_bindings bindings decisions = Ok tt ↔
  Forall2 (λ b d, dec_revision_ref d = vb_revision_ref b ∧ decision_digest d = vb_decision_digest b
    ∧ dec_decision d = Accepted ∧ ∃ p att, dec_authority d = VerifiedHuman p att
    ∧ verify_attestation att (decision_subject_digest d) = Ok tt) bindings decisions.
Proof.
  revert decisions. induction bindings as [|b bs IH]; intros [|d ds] Hl; try done; cbn.
  injection Hl as Hl. rewrite Forall2_cons, <- IH by done. split.
  - intros Hv. inv_ok. bools. destruct (dec_authority d) as [p att|] eqn:Ea; [|done].
    repeat match goal with u : () |- _ => destruct u end. naive_solver.
  - intros [(-> & -> & -> & p & att & -> & ->) Hr].
    by rewrite !bool_decide_eq_true_2.
Qed.

End trust.

(** Verified trust is accepted exactly when there is one accepted decision per
    revision of the record, in order, each for the digest the record binds, made by a
    human whose attestation the verifier accepts over that decision's content; the
    revisions so covered are the record's own when the record is well formed. *)
Theorem validate_verified_trust_iff `{PyRuntime} verify record decisions :
  validate_verified_trust verify record decisions = Ok tt ↔
  trust_kind record = VerifiedRevisionSet ∧
  Forall2 (λ b d, dec_revision_ref d = vb_revision_ref b ∧ decision_digest d = vb_decision_digest b
    ∧ dec_decision d = Accepted ∧ ∃ p att, dec_authority d = VerifiedHuman p att
    ∧ verify att (decision_subject_digest d) = Ok tt) (trust_verified_decisions record) decisions.
Proof.
  unfold validate_verified_trust. split.
  - intros Hv. inv_ok. bools. split; [done|].
    apply verify_bindings_spec; [by apply Nat.eqb_eq|done].
  - intros [-> Hf]. pose proof (Forall2_length _ _ _ Hf) as Hl. cbn.
    rewrite (proj2 (Nat.eqb_eq _ _)) by done. cbn.
    by apply verify_bindings_spec.
Qed.
