(* ===== verification/Samples.v ===== *)
(** * A concrete Study's parts, on which the theorems of the components are instantiated.

    One goal, one scenario with a Subject-visible input, one runner without provider, an
    in-process workspace, a single-turn protocol and one deterministic boolean grader:
    the smallest RunSpec the offline runtime admits. *)

From S2P Require Import Prelude PyText PyJson Sha256 Base Authoring Runtime Trust.

(** A digest that is cheap to evaluate, for the samples that hash long documents; the
    runtime with SHA-256 itself is [Sha256.cpython]. *)
Definition checksum (s : string) : Z :=
  snd (foldl (λ '(sum, total) b, (sum + b, total + (sum + b)))%Z (1, 0)%Z (bytes_of s)).

Definition checksum_hex (s : string) : string :=
  String.concat "" (hex_of_byte <$> be_bytes 32 (checksum s)).

#[export] Instance demo : PyRuntime := {|
  sha256_hex := checksum_hex;
  float_repr := binary64_text;
  utc_text := λ t, isoformat t +:+ "Z"
|}.

#[export] Instance demo_laws : PyRuntimeLaws.
Proof. destruct cpython_laws. constructor; assumption. Qed.

Definition digest_of (c : string) : string := String.concat "" (repeat c 64).

Definition sample_ref (t : ContractType) (id : string) : ContractRef :=
  MkContractRef t id 1 (digest_of "a").

Definition sample_artifact : ArtifactRef :=
  MkArtifactRef "art_1" (digest_of "b") "text/plain" INTERNAL.

Definition sample_goal : GoalSpec :=
  MkGoalSpec GoalState "Find the cause." [MkGoalOutcome "cause" "the cause is named"] [] [] [] [].

Definition sample_binding : InputBinding :=
  MkInputBinding "log" "evidence" sample_artifact VSubject ReadOnly (Some "log").

Definition sample_hidden_binding : InputBinding :=
  MkInputBinding "answer" "reference" sample_artifact VEvaluator ReadOnly None.

Definition sample_scenario : ScenarioSpec :=
  MkScenarioSpec "An incident." [sample_binding; sample_hidden_binding] [] [] [].

Definition sample_runner : CapabilityDescriptorRef := capability_ref "evidrun.runner" "scripted" "1".
Definition sample_grader : CapabilityDescriptorRef := capability_ref "evidrun.grader" "cause" "1".
Definition sample_tool : CapabilityDescriptorRef := capability_ref "evidrun.tool" "read_text" "1".

Definition sample_requirement : CapabilityRequirement :=
  MkCapabilityRequirement KTool sample_tool true "1" ["read"] SchemaOnly [] [].

Definition sample_inventory : AgentInventorySpec :=
  MkAgentInventorySpec "subject" sample_runner None [sample_requirement] [].

Definition sample_workspace : WorkspaceTemplateSpec :=
  MkWorkspaceTemplateSpec "in_process"
    [MkWorkspaceMount "log" sample_artifact ReadOnly "/inputs/log"] []
    (MkNetworkPolicy NetDisabled []) (MkExternalEffectPolicy EffDenied []) []
    (MkSnapshotPolicy false []) (MkCleanupPolicy Discard None).

Definition sample_protocol : InteractionProtocolSpec :=
  MkInteractionProtocolSpec SingleTurn None [] 1 [] [].

Definition sample_stage : EvaluationStage :=
  MkEvaluationStage "grade" DeterministicGrader sample_grader
    (MkEvaluationTrigger ETEvent (Some "subject.responded")) ["correct"] true
    [MkKeyValue "expected" (SStr "disk full")].

Definition sample_plan : EvaluationPlanSpec :=
  MkEvaluationPlanSpec [MkEvaluationDimension "correct" "names the cause" VTBoolean None None []]
    [sample_stage] (MkEvaluationDisclosure (MkSubjectEvaluationDisclosure DNone [] false false) [])
    (MkBlindingPolicy []) None (MkHumanAdjudicationPolicy false None [] None) [].

Definition sample_budgets : BudgetSpec := MkBudgetSpec 60 None None None None None.
Definition sample_stops : list StopCondition :=
  [MkStopCondition SGoalComplete StopTerminal None;
   MkStopCondition SBudgetExhausted StopTerminal None].
Definition sample_capture : CapturePolicySpec := MkCapturePolicySpec CapMetadata RawDisabled 30.

Definition sample_spec : RunSpec := {|
  spec_study_ref := sample_ref STUDY "study";
  spec_scenario_ref := sample_ref SCENARIO "scenario";
  spec_variant_id := "baseline";
  spec_repetition_index := 0;
  spec_seed := None;
  spec_goal_ref := sample_ref GOAL "goal";
  spec_goal := sample_goal;
  spec_scenario := sample_scenario;
  spec_agent_inventory_ref := sample_ref AGENT_INVENTORY "inventory";
  spec_agent_inventory := sample_inventory;
  spec_workspace_template_ref := sample_ref WORKSPACE_TEMPLATE "workspace";
  spec_workspace := sample_workspace;
  spec_interaction_protocol_ref := sample_ref INTERACTION_PROTOCOL "protocol";
  spec_interaction_protocol := sample_protocol;
  spec_evaluation_plan_ref := sample_ref EVALUATION_PLAN "plan";
  spec_evaluation_plan := sample_plan;
  spec_checkpoint_policy_ref := None;
  spec_checkpoint_policy := None;
  spec_progress_artifact_policy_ref := None;
  spec_progress_artifact_policy := None;
  spec_context_policy := None;
  spec_budgets := sample_budgets;
  spec_stop_conditions := sample_stops;
  spec_capture_policy := sample_capture;
  spec_extensions := [];
  spec_limitations := []
|}.

Definition sample_refs : list ContractRef := sort_refs [sample_ref STUDY "study"].

Definition sample_trust : ExecutionTrustRecord :=
  let set := MkRevisionSet "project" (sample_ref STUDY "study") sample_refs in
  MkTrustRecord "trust_1" UnverifiedRevisionSet "project" (sample_ref STUDY "study") sample_refs
    (revision_set_digest set) (spec_digest sample_spec) [] 0.

Example sample_spec_valid : validate_run_spec sample_spec = Ok tt.
Proof. vm_compute. reflexivity. Qed.

Example sample_plan_valid : validate_evaluation_plan sample_plan = Ok tt.
Proof. vm_compute. reflexivity. Qed.

Example sample_trust_valid : validate_revision_set_and_binding_coverage sample_trust = Ok tt.
Proof. vm_compute. reflexivity. Qed.

(** A computation known to succeed returns its value. *)
Definition value_of {A} (d : A) (r : result A) : A := match r with Ok a => a | Raise _ => d end.

Lemma value_of_ok {A} (d : A) r : is_ok r = true → r = Ok (value_of d r).
Proof. by destruct r. Qed.
