(* ===== verification/Artifacts.v ===== *)
(** * The artifact store (src/src/evidrun/infrastructure/artifacts/store.py).

    The directories of the store are three finite maps: [cas], content under its own
    digest; [vault], the encrypted payload of a sensitive artifact under its identifier;
    [metadata], the JSON document of each artifact. A write replaces a file as a whole
    ([os.replace]); an operation that raises leaves what it had written before. AES-GCM is
    a parameter with its documented laws; the keyring is a map from Project to key. What an
    operation draws (a UUID, a nonce, a new key, the clock) is its argument. *)

From S2P Require Import Prelude PyText PyJson Sha256 Base Samples.
From Stdlib Require Import Ascii.

(** ** Parameters *)

(** [AESGCM(key).encrypt(nonce, content, aad)] and [decrypt]. *)
Class VaultCrypto := {
  aes_encrypt : string → string → string → string → string;
  aes_decrypt : string → string → string → string → result string
}.

(** The documented behaviour of AES-GCM: decryption inverts encryption, and the
    ciphertext carries a tag of sixteen bytes. *)
Class VaultLaws `{VaultCrypto} : Prop := {
  aes_roundtrip key nonce aad content :
    aes_decrypt key nonce aad (aes_encrypt key nonce aad content) = Ok content;
  aes_length key nonce aad content : (16 <= String.length (aes_encrypt key nonce aad content))%nat
}.

(** [hexdigest()] is 64 lower-case hexadecimal digits. *)
Class HexDigests `{PyRuntime} : Prop := hexdigest_hex s : is_digest (sha256_hex s) = true.

Record Draws := MkDraws {
  dr_uuid : string;
  dr_nonce : string;
  dr_key : string;
  dr_now : instant
}.

(** ** The directories *)

Record Artifacts := MkArtifacts {
  af_cas : gmap string string;
  af_vault : gmap string string;
  af_metadata : gmap string json;
  af_keys : gmap string string
}.

Definition empty_artifacts : Artifacts := MkArtifacts ∅ ∅ ∅ ∅.

(** An operation on the directories: what is left of them and what the caller sees. *)
Definition FileOp (A : Type) : Type := Artifacts → Artifacts * result A.

Definition write_cas (digest content : string) (s : Artifacts) : Artifacts :=
  MkArtifacts (<[digest := content]> (af_cas s)) (af_vault s) (af_metadata s) (af_keys s).
Definition write_vault (id payload : string) (s : Artifacts) : Artifacts :=
  MkArtifacts (af_cas s) (<[id := payload]> (af_vault s)) (af_metadata s) (af_keys s).
Definition write_metadata (id : string) (document : json) (s : Artifacts) : Artifacts :=
  MkArtifacts (af_cas s) (af_vault s) (<[id := document]> (af_metadata s)) (af_keys s).

(** [MemoryKeyProvider.get_or_create], and the keyring's: the stored key, or a new one
    that is stored. *)
Definition get_or_create (project_id new_key : string) (s : Artifacts) : string * Artifacts :=
  match af_keys s !! project_id with
  | Some key => (key, s)
  | None => (new_key, MkArtifacts (af_cas s) (af_vault s) (af_metadata s)
                        (<[project_id := new_key]> (af_keys s)))
  end.

(** ** Writing *)

Section artifacts.
Context `{PyRuntime} `{VaultCrypto}.

Definition IMMUTABLE_FIELDS : list string :=
  ["artifact_id"; "project_id"; "media_type"; "classification"; "storage"; "digest"].

Definition artifact_record (id project_id media_type : string) (classification : Classification)
    (storage digest : string) (now : instant) (ttl_days : Z) : json := JObj [
  ("artifact_id", JStr id);
  ("project_id", JStr project_id);
  ("media_type", JStr media_type);
  ("classification", JStr (Classification_value classification));
  ("storage", JStr storage);
  ("digest", JStr digest);
  ("created_at", JStr (isoformat now +:+ "+00:00"));
  ("ttl_days", if classification ==b SENSITIVE then JInt ttl_days else JNull);
  ("pinned", JBool false)].

(** The last part of [put]: the stored metadata wins, and must agree. *)
Definition register (id : string) (record : json) : FileOp json := λ s,
  match af_metadata s !! id with
  | Some existing =>
      (s, if existsb (λ field, jget field existing !=b jget field record) IMMUTABLE_FIELDS
          then Raise (ValueError "artifact identity collides with different immutable metadata")
          else Ok existing)
  | None => (write_metadata id record s, Ok record)
  end.

Definition authority_digest (project_id media_type : string) (classification : Classification)
    : string := sha256_hex (canonical_json (JObj [
  ("project_id", JStr project_id);
  ("media_type", JStr media_type);
  ("classification", JStr (Classification_value classification))])).

(** [art_{digest}_{authority_digest[:16]}]. *)
Definition cas_artifact_id (content project_id media_type : string)
    (classification : Classification) : string :=
  "art_" +:+ sha256_hex content +:+ "_"
    +:+ take_str 16 (authority_digest project_id media_type classification).

Definition put_sensitive (content project_id media_type : string) (ttl_days : Z) (draws : Draws)
    : FileOp json := λ s,
  let id := "art_" +:+ dr_uuid draws in
  let '(key, s) := get_or_create project_id (dr_key draws) s in
  let encrypted := aes_encrypt key (dr_nonce draws) id content in
  register id (artifact_record id project_id media_type SENSITIVE "encrypted_vault"
                 (sha256_hex encrypted) (dr_now draws) ttl_days)
    (write_vault id (dr_nonce draws +:+ encrypted) s).

Definition put_plain (content project_id media_type : string) (classification : Classification)
    (ttl_days : Z) (draws : Draws) : FileOp json := λ s,
  let digest := sha256_hex content in
  let id := cas_artifact_id content project_id media_type classification in
  register id (artifact_record id project_id media_type classification "cas" digest
                 (dr_now draws) ttl_days)
    (match af_cas s !! digest with Some _ => s | None => write_cas digest content s end).

Definition put (content project_id media_type : string) (classification : Classification)
    (raw_authorized : bool) (ttl_days : Z) (draws : Draws) : FileOp json := λ s,
  match classification with
  | RESTRICTED => (s, Raise (ValueError "restricted content cannot be persisted"))
  | SENSITIVE =>
      if (ttl_days <? 1)%Z then
        (s, Raise (ValueError "sensitive artifact ttl_days must be positive"))
      else if raw_authorized then put_sensitive content project_id media_type ttl_days draws s
      else (s, Raise (PermissionError "sensitive raw capture requires explicit authorization"))
  | _ => put_plain content project_id media_type classification ttl_days draws s
  end.

(** [str(record[field])] on a document of the store, whose fields are strings. *)
Definition text_field (field : string) (record : json) : result string :=
  jtext <$> jitem field record.

Definition put_ref (content project_id media_type : string) (classification : Classification)
    (raw_authorized : bool) (ttl_days : Z) (draws : Draws) : FileOp ArtifactRef := λ s,
  let '(s, r) := put content project_id media_type classification raw_authorized ttl_days draws s in
  (s, record ← r;
      id ← text_field "artifact_id" record;
      digest ← text_field "digest" record;
      media_type ← text_field "media_type" record;
      Ok (MkArtifactRef id digest media_type classification)).

(** ** Reading *)

Definition has_char (c : ascii) (s : string) : bool := negb (all_chars (λ d, negb (Ascii.eqb d c)) s).

Definition valid_artifact_id (id : string) : bool :=
  negb (has_char "/" id || has_char backslash id || startswith "." id).

Definition metadata_of (id : string) (s : Artifacts) : result json :=
  raise_when (negb (valid_artifact_id id)) (ValueError "invalid artifact id");;
  require (af_metadata s !! id) (OSError id).

Definition read_cas (digest : string) (s : Artifacts) : result string :=
  require (af_cas s !! digest) (OSError digest).
Definition read_vault (id : string) (s : Artifacts) : result string :=
  require (af_vault s !! id) (OSError id).

(** [new_key] is the key a keyring without an entry would create. *)
Definition get (id new_key : string) : FileOp string := λ s,
  match metadata_of id s with
  | Raise e => (s, Raise e)
  | Ok record =>
      match text_field "storage" record with
      | Raise e => (s, Raise e)
      | Ok storage =>
          if storage ==b "cas" then
            (s, digest ← text_field "digest" record; read_cas digest s)
          else
            match project_id ← text_field "project_id" record; payload ← read_vault id s;
                  Ok (project_id, payload) with
            | Raise e => (s, Raise e)
            | Ok (project_id, payload) =>
                let '(key, s') := get_or_create project_id new_key s in
                (s', aes_decrypt key (take_str 12 payload) id (drop_str 12 payload))
            end
      end
  end.

(** [record.get(field) == JStr text]. *)
Definition field_is (field text : string) (record : json) : bool := jget field record ==b Some (JStr text).

Definition matches_reference (reference : ArtifactRef) (project_id : option string) (record : json)
    : bool :=
  field_is "media_type" (ar_media_type reference) record
  && field_is "classification" (Classification_value (ar_classification reference)) record
  && field_is "digest" (ar_digest reference) record
  && match project_id with None => true | Some p => field_is "project_id" p record end.

Definition get_verified (reference : ArtifactRef) (project_id : option string) (new_key : string)
    : FileOp string := λ s,
  match metadata_of (ar_artifact_id reference) s with
  | Raise e => (s, Raise e)
  | Ok record =>
      if negb (matches_reference reference project_id record) then
        (s, Raise (ValueError "artifact metadata does not match its canonical reference"))
      else if field_is "storage" "cas" record then
        let '(s', r) := get (ar_artifact_id reference) new_key s in
        (s', content ← r;
             raise_when (sha256_hex content !=b ar_digest reference)
               (ValueError "artifact content digest does not match its canonical reference");;
             Ok content)
      else if field_is "storage" "encrypted_vault" record then
        match payload ← read_vault (ar_artifact_id reference) s;
              raise_when ((String.length payload <? 13)%nat
                          || sha256_hex (drop_str 12 payload) !=b ar_digest reference)
                (ValueError "encrypted artifact digest does not match its canonical reference") with
        | Raise e => (s, Raise e)
        | Ok _ => get (ar_artifact_id reference) new_key s
        end
      else (s, Raise (ValueError "artifact storage kind is not supported"))
  end.

(** ** Purging *)

Definition is_live_cas_reference (candidate : json) (digest : string) : bool :=
  field_is "storage" "cas" candidate && field_is "digest" digest candidate.

Definition has_live_reference (id digest : string) (s : Artifacts) : bool :=
  existsb (λ entry, (fst entry !=b id) && is_live_cas_reference (snd entry) digest)
    (map_to_list (af_metadata s)).

Definition tombstone (id : string) (classification digest : json) (now : instant) : json := JObj [
  ("artifact_id", JStr id);
  ("classification", classification);
  ("digest", digest);
  ("purged_at", JStr (isoformat now +:+ "+00:00"));
  ("reason", JStr "retention_expired_or_user_requested")].

Definition unlink_cas (digest : string) (s : Artifacts) : Artifacts :=
  MkArtifacts (delete digest (af_cas s)) (af_vault s) (af_metadata s) (af_keys s).
Definition unlink_vault (id : string) (s : Artifacts) : Artifacts :=
  MkArtifacts (af_cas s) (delete id (af_vault s)) (af_metadata s) (af_keys s).

(** The file of the artifact goes first, unless another artifact shares it. *)
Definition unlink_target (id : string) (record : json) (s : Artifacts) : result Artifacts :=
  storage ← text_field "storage" record;
  if storage ==b "cas" then
    digest ← text_field "digest" record;
    Ok (if has_live_reference id digest s then s else unlink_cas digest s)
  else Ok (unlink_vault id s).

Definition purge (id : string) (now : instant) : FileOp json := λ s,
  match record ← metadata_of id s; s' ← unlink_target id record s; Ok (record, s') with
  | Raise e => (s, Raise e)
  | Ok (record, s') =>
      match classification ← jitem "classification" record;
            digest ← jitem "digest" record;
            Ok (tombstone id classification digest now) with
      | Raise e => (s', Raise e)
      | Ok document => (write_metadata id document s', Ok document)
      end
  end.
End artifacts.

(** ** Steps *)

Inductive art_command :=
| Put (content project_id media_type : string) (classification : Classification)
    (raw_authorized : bool) (ttl_days : Z) (draws : Draws)
| Get (id new_key : string)
| Purge (id : string) (now : instant).

(** A UUID that names no artifact yet, and twelve random bytes. *)
Definition fresh_draws (draws : Draws) (s : Artifacts) : Prop :=
  af_metadata s !! ("art_" +:+ dr_uuid draws) = None
  ∧ all_chars (λ c, negb (Ascii.eqb c "/" || Ascii.eqb c backslash)) (dr_uuid draws) = true
  ∧ String.length (dr_nonce draws) = 12%nat.

Section steps.
Context `{PyRuntime} `{VaultCrypto}.

Definition art_exec (c : art_command) (s : Artifacts) : Artifacts :=
  match c with
  | Put content p m cl a ttl draws => fst (put content p m cl a ttl draws s)
  | Get id key => fst (get id key s)
  | Purge id now => fst (purge id now s)
  end.

Definition art_drawn (c : art_command) (s : Artifacts) : Prop :=
  match c with Put _ _ _ _ _ _ draws => fresh_draws draws s | _ => True end.

Definition art_step (s s' : Artifacts) : Prop := ∃ c, art_drawn c s ∧ s' = art_exec c s.

(** Any step but the purge of [id]. *)
Definition keeps (id : string) (s s' : Artifacts) : Prop :=
  ∃ c, art_drawn c s ∧ s' = art_exec c s ∧ ∀ now, c ≠ Purge id now.

(** Content lies under its own digest. *)
Definition cas_sound (s : Artifacts) : Prop :=
  ∀ digest content, af_cas s !! digest = Some content → sha256_hex content = digest.

(** What a read of an artifact relies on: the identity fields of its metadata, and its
    file. *)
Record stored (reference : ArtifactRef) (project_id content : string) (s : Artifacts)
    (document : json) : Prop := {
  so_metadata : af_metadata s !! ar_artifact_id reference = Some document;
  so_media : jget "media_type" document = Some (JStr (ar_media_type reference));
  so_class : jget "classification" document
             = Some (JStr (Classification_value (ar_classification reference)));
  so_digest : jget "digest" document = Some (JStr (ar_digest reference));
  so_project : jget "project_id" document = Some (JStr project_id);
  so_file :
    (jget "storage" document = Some (JStr "cas")
       ∧ af_cas s !! ar_digest reference = Some content
       ∧ sha256_hex content = ar_digest reference)
    ∨ (jget "storage" document = Some (JStr "encrypted_vault")
       ∧ ∃ key nonce, af_keys s !! project_id = Some key ∧ String.length nonce = 12%nat
           ∧ af_vault s !! ar_artifact_id reference
             = Some (nonce +:+ aes_encrypt key nonce (ar_artifact_id reference) content)
           ∧ sha256_hex (aes_encrypt key nonce (ar_artifact_id reference) content)
             = ar_digest reference)
}.
End steps.

(** ** Documents of the store *)

Lemma jget_jitem field v x : jget field v = Some x → jitem field v = Ok x.
Proof.
  unfold jget, jitem. destruct v as [| | | | | |m]; try done.
  destruct (obj_get field m) as [[]|]; intros [= <-]; done.
Qed.

Lemma jget_text field v x : jget field v = Some (JStr x) → text_field field v = Ok x.
Proof. intros E. unfold text_field. by rewrite (jget_jitem _ _ _ E). Qed.

Lemma field_is_true field text v : field_is field text v = true ↔ jget field v = Some (JStr text).
Proof. apply bool_decide_eq_true. Qed.

(** ** Every operation keeps the stored artifacts *)

Section preservation.
Context `{PyRuntime} `{VaultCrypto}.
Implicit Types s : Artifacts.

(** What no operation but a purge does: change metadata, content or keys that exist. *)
Record extends (s s' : Artifacts) : Prop := {
  ex_metadata : af_metadata s ⊆ af_metadata s';
  ex_cas : af_cas s ⊆ af_cas s';
  ex_keys : af_keys s ⊆ af_keys s';
  ex_vault id : is_Some (af_metadata s !! id) → af_vault s' !! id = af_vault s !! id
}.

#[global] Instance extends_refl : Reflexive extends.
Proof. by split. Qed.

Lemma extends_keys project_id new_key s :
  extends s (snd (get_or_create project_id new_key s)).
Proof.
  unfold get_or_create. destruct (af_keys s !! project_id) eqn:E; [done|].
  split; cbn; try done. by apply insert_subseteq.
Qed.

Lemma get_or_create_key project_id new_key s :
  af_keys (snd (get_or_create project_id new_key s)) !! project_id
  = Some (fst (get_or_create project_id new_key s)).
Proof.
  unfold get_or_create. destruct (af_keys s !! project_id) eqn:E; [done|]. cbn. by simplify_map_eq.
Qed.

Lemma extends_register id record s s0 :
  extends s0 s → extends s0 (fst (register id record s)).
Proof.
  intros [Hm Hc Hk Hv]. unfold register. destruct (af_metadata s !! id) eqn:E; cbn; [done|].
  split; cbn; try done. etrans; [exact Hm|]. by apply insert_subseteq.
Qed.

Lemma put_sensitive_extends content p m ttl draws s :
  fresh_draws draws s → extends s (fst (put_sensitive content p m ttl draws s)).
Proof.
  intros (Hf & _). unfold put_sensitive.
  pose proof (extends_keys p (dr_key draws) s) as He.
  destruct (get_or_create p (dr_key draws) s) as [key s1]; cbn [fst snd] in *.
  apply extends_register. destruct He as [Hm Hc Hk Hv]. split; cbn; try done.
  intros id Hid. rewrite lookup_insert_ne; [by apply Hv|].
  intros <-. rewrite Hf in Hid. by destruct Hid.
Qed.

Lemma put_plain_extends content p m cl ttl draws s :
  extends s (fst (put_plain content p m cl ttl draws s)).
Proof.
  unfold put_plain. apply extends_register. destruct (af_cas s !! _) eqn:E; [done|].
  split; cbn; try done. by apply insert_subseteq.
Qed.

Lemma put_extends content p m cl a ttl draws s :
  fresh_draws draws s → extends s (fst (put content p m cl a ttl draws s)).
Proof.
  intros Hf. unfold put. destruct cl; try done; try apply put_plain_extends.
  destruct (ttl <? 1)%Z; [done|]. destruct a; [by apply put_sensitive_extends|done].
Qed.

Lemma get_extends id key s : extends s (fst (get id key s)).
Proof.
  unfold get. destruct (metadata_of id s) as [record|]; [|done].
  destruct (text_field "storage" record) as [storage|]; [|done].
  case_bool_decide; [done|]. destruct (_ ≫= _) as [[p payload]|]; [|done].
  pose proof (extends_keys p key s). by destruct (get_or_create p key s).
Qed.

Lemma purge_cases id now s s' r : purge id now s = (s', r) →
  s' = s ∨ ∃ record s1, af_metadata s !! id = Some record ∧ unlink_target id record s = Ok s1
    ∧ (s' = s1 ∨ ∃ document, s' = write_metadata id document s1 ∧ obj_get "storage" match document with JObj m => m | _ => [] end = None).
Proof.
  unfold purge. destruct (_ ≫= _) as [[record s1]|e] eqn:E; [|intros [= <- _]; by left].
  apply bind_ok in E as (record' & Hm & E). apply bind_ok in E as (s1' & Hu & E). injection E as -> ->.
  unfold metadata_of in Hm. apply bind_ok in Hm as (u & _ & Hm). apply require_ok in Hm.
  destruct (_ ≫= _) as [document|e] eqn:Ed; intros [= <- _]; right; exists record, s1; split_and!; try done; [right|by left].
  exists document. split; [done|]. apply bind_ok in Ed as (c & _ & Ed). apply bind_ok in Ed as (d & _ & Ed).
  injection Ed as <-. done.
Qed.

Lemma stored_extends reference p content s s' document :
  extends s s' → stored reference p content s document → stored reference p content s' document.
Proof.
  intros [Hm Hc Hk Hv] [S1 S2 S3 S4 S5 S6]. split; try done.
  { by eapply lookup_weaken. }
  destruct S6 as [(E & Hf & Hd)|(E & key & nonce & Hkey & Hn & Hf & Hd)]; [left|right].
  - split_and!; try done. by eapply lookup_weaken.
  - split; [done|]. exists key, nonce. split_and!; try done; [by eapply lookup_weaken|].
    by rewrite Hv.
Qed.

(** Another artifact's purge keeps a file that is still referenced. *)
Lemma unlink_cases id record s s1 : unlink_target id record s = Ok s1 →
  af_metadata s1 = af_metadata s ∧ af_keys s1 = af_keys s
  ∧ (∀ k, k ≠ id → af_vault s1 !! k = af_vault s !! k)
  ∧ ∀ d c, af_cas s !! d = Some c → af_cas s1 !! d = Some c
      ∨ af_cas s1 !! d = None ∧ has_live_reference id d s = false.
Proof.
  unfold unlink_target. intros E. apply bind_ok in E as (storage & _ & E). case_bool_decide.
  - apply bind_ok in E as (digest & _ & E). injection E as <-.
    destruct (has_live_reference id digest s) eqn:L; cbn; split_and!; auto.
    intros d c Hd. destruct (decide (d = digest)) as [->|Hne]; [right|left]; by simplify_map_eq.
  - injection E as <-. cbn. split_and!; auto. intros k Hk. by rewrite lookup_delete_ne.
Qed.

Lemma live_reference id digest k document s :
  af_metadata s !! k = Some document → k ≠ id → is_live_cas_reference document digest = true →
  has_live_reference id digest s = true.
Proof.
  intros Hk Hne Hl. apply existsb_true. exists (k, document).
  split; [by apply elem_of_map_to_list|]. cbn. by rewrite bool_decide_eq_false_2.
Qed.

Lemma stored_purge reference p content s document id now :
  stored reference p content s document → id ≠ ar_artifact_id reference →
  stored reference p content (fst (purge id now s)) document.
Proof.
  intros [S1 S2 S3 S4 S5 S6] Hne. destruct (purge id now s) as [s' r] eqn:E. cbn [fst].
  apply purge_cases in E as [->|(record & s1 & _ & Hu & Hs')]; [by split|].
  apply unlink_cases in Hu as (Hm & Hk & Hv & Hc).
  assert (Hs1 : stored reference p content s1 document).
  { split; try done; [by rewrite Hm|].
    destruct S6 as [(E & Hf & Hd)|(E & key & nonce & Hkey & Hn & Hf & Hd)]; [left|right].
    - split_and!; try done. destruct (Hc _ _ Hf) as [|[_ Hl]]; [done|].
      rewrite (live_reference id _ _ _ _ S1) in Hl; [done..|].
      unfold is_live_cas_reference, field_is. by rewrite E, S4, !bool_decide_eq_true_2.
    - split; [done|]. exists key, nonce. rewrite Hk, Hv by done. done. }
  destruct Hs' as [->|(d & -> & _)]; [done|]. destruct Hs1 as [T1 T2 T3 T4 T5 T6].
  split; try done. cbn. by rewrite lookup_insert_ne.
Qed.

Lemma stored_keeps reference p content s s' document :
  keeps (ar_artifact_id reference) s s' → stored reference p content s document →
  stored reference p content s' document.
Proof.
  intros (c & Hd & -> & Hc) Hs. destruct c as [ct pr m cl a ttl draws|id key|id now]; cbn.
  - eapply stored_extends; [|exact Hs]. by apply put_extends.
  - eapply stored_extends; [|exact Hs]. apply get_extends.
  - apply stored_purge; [done|]. intros ->. by apply (Hc now).
Qed.

Lemma cas_sound_exec c s : cas_sound s → cas_sound (art_exec c s).
Proof.
  intros Hs. destruct c as [ct p m cl a ttl draws|id key|id now]; cbn.
  - assert (Hreg : ∀ id record s0, cas_sound s0 → cas_sound (fst (register id record s0))).
    { intros id record s0 Hr. unfold register. by destruct (_ !! _). }
    assert (Hpl : cas_sound (fst (put_plain ct p m cl ttl draws s))).
    { apply Hreg. destruct (af_cas s !! _) eqn:E; [done|]. intros d c. cbn.
      destruct (decide (d = sha256_hex ct)) as [->|Hne]; intros Hd; simplify_map_eq; [done|].
      by apply Hs. }
    unfold put. destruct cl; try done. destruct (ttl <? 1)%Z; [done|]. destruct a; [|done].
    unfold put_sensitive, get_or_create. destruct (af_keys s !! p); apply Hreg; apply Hs.
  - unfold get, get_or_create. repeat (case_match; cbn); try done; simplify_eq; try done.
  - destruct (purge id now s) as [s' r] eqn:E. cbn.
    apply purge_cases in E as [->|(record & s1 & _ & Hu & Hs')]; [done|].
    assert (Hs1 : cas_sound s1).
    { unfold unlink_target in Hu. apply bind_ok in Hu as (st & _ & Hu). case_bool_decide.
      - apply bind_ok in Hu as (d & _ & Hu). injection Hu as <-.
        destruct (has_live_reference id d s); [done|]. intros k c. cbn.
        destruct (decide (k = d)) as [->|]; intros Hk; simplify_map_eq. by apply Hs.
      - injection Hu as <-. apply Hs. }
    destruct Hs' as [->|(d & -> & _)]; [done|]. apply Hs1.
Qed.

Lemma cas_sound_steps s : rtc art_step empty_artifacts s → cas_sound s.
Proof.
  intros Hs. assert (Hempty : cas_sound empty_artifacts) by (intros d c; cbn; by rewrite lookup_empty).
  revert Hempty. induction Hs as [|x y z (c & _ & ->) Hs IH]; [done|]. intros Hx. by apply IH, cas_sound_exec.
Qed.

Lemma register_ok id record s s' document :
  register id record s = (s', Ok document) →
  af_metadata s' !! id = Some document
  ∧ (∀ field, field ∈ IMMUTABLE_FIELDS → jget field document = jget field record)
  ∧ af_cas s' = af_cas s ∧ af_vault s' = af_vault s ∧ af_keys s' = af_keys s.
Proof.
  unfold register. destruct (af_metadata s !! id) as [existing|] eqn:E.
  - destruct (existsb _ _) eqn:Hx; [done|]. intros [= <- <-]. split_and!; try done.
    intros field Hf. rewrite existsb_false in Hx. specialize (Hx field Hf). by bools.
  - intros [= <- <-]. cbn. by simplify_map_eq.
Qed.

Lemma register_fields id p m cl storage digest now ttl s s' document :
  register id (artifact_record id p m cl storage digest now ttl) s = (s', Ok document) →
  jget "artifact_id" document = Some (JStr id) ∧ jget "project_id" document = Some (JStr p)
  ∧ jget "media_type" document = Some (JStr m)
  ∧ jget "classification" document = Some (JStr (Classification_value cl))
  ∧ jget "storage" document = Some (JStr storage) ∧ jget "digest" document = Some (JStr digest).
Proof.
  intros (_ & Hf & _)%register_ok. split_and!; rewrite Hf by set_solver; done.
Qed.

(** A reference is built from the fields of the record. *)
Lemma put_ref_record content p m cl a ttl draws s s1 reference :
  put_ref content p m cl a ttl draws s = (s1, Ok reference) →
  ∃ document, put content p m cl a ttl draws s = (s1, Ok document)
    ∧ (∀ id digest, jget "artifact_id" document = Some (JStr id) →
       jget "digest" document = Some (JStr digest) → jget "media_type" document = Some (JStr m) →
       reference = MkArtifactRef id digest m cl).
Proof.
  unfold put_ref. destruct (put _ _ _ _ _ _ _ s) as [s' [document|]]; [|done].
  intros [= -> Hr]. exists document. split; [done|]. intros id digest H1 H2 H3.
  change (result_bind _ _) with (@mbind result result_bind) in Hr.
  rewrite (jget_text _ _ _ H1), (jget_text _ _ _ H2), (jget_text _ _ _ H3) in Hr. by injection Hr.
Qed.

Lemma put_ref_stored content p m cl a ttl draws s s1 reference :
  cas_sound s → fresh_draws draws s →
  put_ref content p m cl a ttl draws s = (s1, Ok reference) →
  ∃ c document, stored reference p c s1 document ∧ (c = content ∨ sha256_collision)
    ∧ (ar_artifact_id reference = "art_" +:+ dr_uuid draws
       ∨ ar_artifact_id reference = cas_artifact_id content p m cl).
Proof.
  intros Hs (Hf & _ & Hn) Hp. apply put_ref_record in Hp as (document & Hp & Href).
  assert (Hplain : put_plain content p m cl ttl draws s = (s1, Ok document) →
    ∃ c document, stored reference p c s1 document ∧ (c = content ∨ sha256_collision)
    ∧ (ar_artifact_id reference = "art_" +:+ dr_uuid draws
       ∨ ar_artifact_id reference = cas_artifact_id content p m cl)).
  { unfold put_plain. set (s0 := match _ with Some _ => s | None => _ end). intros Hr.
    pose proof (register_fields _ _ _ _ _ _ _ _ _ _ _ Hr) as (F1 & F2 & F3 & F4 & F5 & F6).
    apply register_ok in Hr as (R1 & _ & R2 & R3 & R4).
    specialize (Href _ _ F1 F6 F3) as ->.
    assert (Hc : ∃ c, af_cas s0 !! sha256_hex content = Some c ∧ sha256_hex c = sha256_hex content).
    { unfold s0. destruct (af_cas s !! sha256_hex content) as [c|] eqn:E.
      - exists c. split; [done|]. by apply Hs.
      - exists content. cbn. by simplify_map_eq. }
    destruct Hc as (c & Hc & Hd). exists c, document. split_and!.
    - split; try done. left. cbn. by rewrite R2.
    - destruct (decide (c = content)) as [|Hne]; [by left|right]. by exists c, content.
    - by right. }
  unfold put in Hp. destruct cl; try done; try by apply Hplain.
  destruct (ttl <? 1)%Z; [done|]. destruct a; [|done]. clear Hplain.
  unfold put_sensitive in Hp.
  pose proof (get_or_create_key p (dr_key draws) s) as Hkey.
  destruct (get_or_create p (dr_key draws) s) as [key s0]. cbn [fst snd] in *.
  pose proof (register_fields _ _ _ _ _ _ _ _ _ _ _ Hp) as (F1 & F2 & F3 & F4 & F5 & F6).
  apply register_ok in Hp as (R1 & _ & R2 & R3 & R4). specialize (Href _ _ F1 F6 F3) as ->.
  exists content, document. split_and!; [|by left|by left].
  split; try done. right. split; [done|]. exists key, (dr_nonce draws). cbn.
  rewrite R3, R4. cbn. by simplify_map_eq.
Qed.

(** ** Reading back *)

Lemma string_length_app (s t : string) :
  String.length (s +:+ t) = (String.length s + String.length t)%nat.
Proof. induction s as [|c s IH]; [done|]. rewrite string_app_cons. cbn. by rewrite IH. Qed.

Lemma get_verified_stored `{!VaultLaws} reference p content new_key s document :
  stored reference p content s document → valid_artifact_id (ar_artifact_id reference) = true →
  snd (get_verified reference (Some p) new_key s) = Ok content.
Proof.
  intros [S1 S2 S3 S4 S5 S6] Hid. unfold get_verified, get, metadata_of.
  rewrite Hid, S1. cbn [negb raise_when require mbind result_bind].
  unfold matches_reference, field_is. rewrite S2, S3, S4, S5, !bool_decide_eq_true_2 by done.
  cbn [negb andb].
  destruct S6 as [(E & Hf & Hd)|(E & key & nonce & Hkey & Hn & Hf & Hd)].
  - rewrite E, bool_decide_eq_true_2 by done. rewrite (jget_text _ _ _ E), bool_decide_eq_true_2 by done.
    cbn. rewrite (jget_text _ _ _ S4). unfold read_cas. cbn. rewrite Hf. cbn.
    by rewrite Hd, bool_decide_eq_true_2.
  - rewrite E, bool_decide_eq_false_2, bool_decide_eq_true_2 by done.
    pose proof (aes_length key nonce (ar_artifact_id reference) content) as Hlen.
    pose proof (aes_roundtrip key nonce (ar_artifact_id reference) content) as Haes.
    revert Hf Hd Hlen Haes. generalize (aes_encrypt key nonce (ar_artifact_id reference) content).
    intros encrypted Hf Hd Hlen Haes.
    assert (Ht : take_str 12 (nonce +:+ encrypted) = nonce) by (rewrite <- Hn; apply take_str_app).
    assert (Hr : drop_str 12 (nonce +:+ encrypted) = encrypted) by (rewrite <- Hn; apply drop_str_app).
    unfold read_vault. rewrite Hf. cbn [require mbind result_bind].
    rewrite Hr, Hd, bool_decide_eq_true_2, string_length_app by done.
    assert ((String.length nonce + String.length encrypted <? 13)%nat = false) as ->
      by (apply Nat.ltb_ge; lia).
    cbn [negb orb raise_when].
    rewrite (jget_text _ _ _ E), bool_decide_eq_false_2 by done. rewrite (jget_text _ _ _ S5).
    cbn [mbind result_bind]. unfold get_or_create. rewrite Hkey. cbn [snd].
    by rewrite Ht, Hr.
Qed.
End preservation.

(** ** Identifiers *)

Lemma has_char_app c s t : has_char c (s +:+ t) = has_char c s || has_char c t.
Proof. unfold has_char. rewrite all_chars_app. by destruct (all_chars _ s). Qed.

Lemma no_char p c s : all_chars p s = true → p c = false → has_char c s = false.
Proof.
  intros Hs Hc. unfold has_char. apply negb_false_iff. eapply all_chars_impl; [|exact Hs].
  intros d Hd. destruct (Ascii.eqb d c) eqn:E; [|done]. apply Ascii.eqb_eq in E as ->. congruence.
Qed.

Lemma all_chars_take p n s : all_chars p s = true → all_chars p (take_str n s) = true.
Proof.
  intros Hs. rewrite <- (take_drop_str n s), all_chars_app in Hs. by apply andb_true_iff in Hs as [? _].
Qed.

Section identifiers.
Context `{PyRuntime} `{!HexDigests}.

Lemma hexdigest_chars c s : c ∈ ["/"%char; backslash] → has_char c (sha256_hex s) = false.
Proof.
  intros Hc. pose proof (hexdigest_hex s) as Hx. unfold is_digest in Hx.
  apply andb_true_iff in Hx as [Hx _]. eapply no_char; [exact Hx|].
  apply elem_of_cons in Hc as [->|Hc%list_elem_of_singleton]; [done|by subst].
Qed.

Lemma valid_cas_id content p m cl : valid_artifact_id (cas_artifact_id content p m cl) = true.
Proof.
  assert (Hc : ∀ c, c ∈ ["/"%char; backslash] → has_char c (cas_artifact_id content p m cl) = false).
  { intros c Hc. unfold cas_artifact_id. rewrite !has_char_app, hexdigest_chars by done.
    assert (has_char c (take_str 16 (authority_digest p m cl)) = false) as ->.
    { unfold authority_digest, has_char. apply negb_false_iff, all_chars_take, negb_false_iff.
      by apply hexdigest_chars. }
    apply elem_of_cons in Hc as [->|Hc%list_elem_of_singleton]; [done|by subst]. }
  unfold valid_artifact_id. rewrite !Hc by set_solver. done.
Qed.
End identifiers.

Lemma valid_drawn_id draws s : fresh_draws draws s → valid_artifact_id ("art_" +:+ dr_uuid draws) = true.
Proof.
  intros (_ & Hu & _). unfold valid_artifact_id. rewrite !has_char_app.
  by rewrite (no_char _ "/" _ Hu), (no_char _ backslash _ Hu).
Qed.

(** ** Properties *)


(** Content that was purged and is stored again is refused because of its tombstone,
    but only after its bytes were written back to disk; from then on no purge removes
    them, since the purge of the identifier raises on the tombstone. *)
Theorem purged_content_returns `{PyRuntime} `{!HexDigests} `{VaultCrypto}
    content p m cl a ttl draws draws' now s s1 record s2 document :
  rtc art_step empty_artifacts s → cl ≠ SENSITIVE → cl ≠ RESTRICTED →
  put content p m cl a ttl draws s = (s1, Ok record) →
  purge (cas_artifact_id content p m cl) now s1 = (s2, Ok document) →
  ∃ s3, put content p m cl a ttl draws' s2
        = (s3, Raise (ValueError "artifact identity collides with different immutable metadata"))
    ∧ (af_cas s3 !! sha256_hex content = Some content ∨ sha256_collision)
    ∧ ∀ now', purge (cas_artifact_id content p m cl) now' s3 = (s3, Raise (KeyError "storage")).
Proof.
  intros Hs Hns Hnr Hp Hq. set (id := cas_artifact_id content p m cl) in *.
  assert (Hput : ∀ d t, put content p m cl a ttl d t = put_plain content p m cl ttl d t).
  { by destruct cl. }
  assert (Hcas2 : cas_sound s2).
  { pose proof (cas_sound_exec (Purge id now) s1) as Hx. cbn in Hx. rewrite Hq in Hx. apply Hx.
    pose proof (cas_sound_exec (Put content p m cl a ttl draws) s) as Hy. cbn in Hy.
    rewrite Hp in Hy. by apply Hy, cas_sound_steps. }
  assert (Hmeta : ∃ c d, af_metadata s2 !! id = Some (tombstone id c d now)).
  { unfold purge in Hq. destruct (_ ≫= _) as [[r sx]|] in Hq; [|done].
    destruct (_ ≫= _) as [doc|] eqn:Ed in Hq; [|done]. injection Hq as <- <-.
    apply bind_ok in Ed as (c & _ & Ed). apply bind_ok in Ed as (d & _ & Ed). injection Ed as <-.
    exists c, d. cbn. by simplify_map_eq. }
  destruct Hmeta as (c & d & Hm). rewrite Hput. unfold put_plain, register.
  set (s3 := match af_cas s2 !! _ with Some _ => s2 | None => _ end).
  assert (Hm3 : af_metadata s3 !! cas_artifact_id content p m cl = Some (tombstone id c d now)).
  { unfold s3. by destruct (af_cas s2 !! _). }
  exists s3. rewrite Hm3. split_and!.
  - assert (existsb (λ field, jget field (tombstone id c d now) !=b jget field (artifact_record
      (cas_artifact_id content p m cl) p m cl "cas" (sha256_hex content) (dr_now draws') ttl))
      IMMUTABLE_FIELDS = true) as ->; [|done].
    apply existsb_true. exists "project_id". split; [set_solver|]. cbn. by rewrite bool_decide_eq_false_2.
  - unfold s3. destruct (af_cas s2 !! sha256_hex content) as [c'|] eqn:E; cbn; [|left; by simplify_map_eq].
    rewrite E. pose proof (Hcas2 _ _ E) as Hh.
    destruct (decide (c' = content)) as [->|Hne]; [by left|right]. by exists c', content.
  - intros now'. unfold id, purge, metadata_of. rewrite valid_cas_id.
    cbn [negb raise_when mbind result_bind]. by rewrite Hm3.
Qed.

(** ** A small store *)

(** A cipher with the documented laws: the tag is constant. *)
#[export] Instance demo_crypto : VaultCrypto := {|
  aes_encrypt _ _ _ content := "0123456789abcdef" +:+ content;
  aes_decrypt _ _ _ payload := Ok (drop_str 16 payload)
|}.

#[export] Instance demo_crypto_laws : VaultLaws.
Proof.
  split; intros key nonce aad content.
  - reflexivity.
  - unfold aes_encrypt; cbn [demo_crypto]. rewrite string_length_app. cbn [String.length]. lia.
Qed.

Definition is_hex (c : ascii) : bool :=
  is_digit c || ((97 <=? byte_of c) && (byte_of c <=? 102))%N.

Lemma hex_digit_hex z : (0 <= z < 16)%Z → is_hex (hex_digit (Z.to_N z)) = true.
Proof.
  intros Hz. assert (Hall : forallb (λ n, is_hex (hex_digit (N.of_nat n))) (seq 0 16) = true) by done.
  rewrite forallb_true in Hall. specialize (Hall (Z.to_nat z)). rewrite elem_of_seq in Hall.
  rewrite <- Z_nat_N. apply Hall. lia.
Qed.

Lemma hex_of_byte_hex z : (0 <= z < 256)%Z →
  all_chars is_hex (hex_of_byte z) = true ∧ String.length (hex_of_byte z) = 2%nat.
Proof.
  intros Hz. split; [|done]. cbn [all_chars hex_of_byte].
  rewrite !hex_digit_hex; [done|..]; [apply Z.mod_pos_bound; lia|].
  split; [apply Z.div_pos; lia|apply Z.div_lt_upper_bound; lia].
Qed.

Lemma concat_chars p l n :
  (∀ x, x ∈ l → all_chars p x = true ∧ String.length x = n) →
  all_chars p (String.concat "" l) = true ∧ String.length (String.concat "" l) = (n * length l)%nat.
Proof.
  induction l as [|x l IH]; intros Hl; [split; [done|]; cbn; lia|].
  destruct (Hl x) as [Hx Hn]; [left|]. destruct IH as [IH1 IH2]; [intros y Hy; apply Hl; by right|].
  destruct l as [|y l]; cbn [String.concat] in *; [split; [done|]; cbn; lia|].
  change (String.append ?a ?b) with (a +:+ b) in *.
  rewrite !all_chars_app, !string_length_app, Hx, IH1, IH2. cbn [String.length length]. split; [done|lia].
Qed.

#[export] Instance demo_hex : HexDigests (H := demo).
Proof.
  intros s. unfold is_digest. change (sha256_hex s) with (checksum_hex s).
  destruct (concat_chars is_hex (hex_of_byte <$> be_bytes 32 (checksum s)) 2) as [H1 H2].
  { intros x (z & -> & Hz)%list_elem_of_fmap. apply hex_of_byte_hex.
    apply list_elem_of_fmap in Hz as (i & -> & _). apply Z.mod_pos_bound. lia. }
  unfold checksum_hex. fold is_hex. rewrite H1, H2, length_fmap. done.
Qed.

Definition demo_draws : Draws := MkDraws "0190" "abcdefghijkl" "key" 0.
Definition later_draws : Draws := MkDraws "0191" "mnopqrstuvwx" "key" 5.

Lemma fresh_initial : fresh_draws demo_draws empty_artifacts.
Proof. by split_and!. Qed.

Definition log_store : Artifacts * result ArtifactRef :=
  put_ref "ERROR" "project" "text/plain" INTERNAL false 30 demo_draws empty_artifacts.
Definition log_reference : ArtifactRef :=
  MkArtifactRef (cas_artifact_id "ERROR" "project" "text/plain" INTERNAL) (sha256_hex "ERROR")
    "text/plain" INTERNAL.


Definition purged_store : Artifacts * result json :=
  purge (ar_artifact_id log_reference) 3 (fst log_store).

Lemma purged_content_returns_witness :
  ∃ s3, put "ERROR" "project" "text/plain" INTERNAL false 30 later_draws (fst purged_store)
    = (s3, Raise (ValueError "artifact identity collides with different immutable metadata"))
    ∧ (af_cas s3 !! sha256_hex "ERROR" = Some "ERROR" ∨ sha256_collision)
    ∧ ∀ now', purge (ar_artifact_id log_reference) now' s3 = (s3, Raise (KeyError "storage")).
Proof.
  refine (purged_content_returns "ERROR" "project" "text/plain" INTERNAL false 30 demo_draws
    later_draws 3 empty_artifacts (fst log_store)
    (artifact_record (ar_artifact_id log_reference) "project" "text/plain" INTERNAL "cas"
       (sha256_hex "ERROR") 0 30)
    (fst purged_store)
    (tombstone (ar_artifact_id log_reference) (JStr "internal") (JStr (sha256_hex "ERROR")) 3)
    (rtc_refl _ _) _ _ _ _); [discriminate..| |]; vm_compute; reflexivity.
Defined.
