(* ===== verification/Evaluation.v ===== *)
(** * Evaluation validation and gate projection (src/src/evidrun/contracts/evaluation.py).

    [EvaluationValidator]: whether a record answers a stage of the plan, which gate
    each stage carries, and which stages become visible once the gates are known. *)

From S2P Require Import Prelude PyText PyJson Base Authoring Runtime Trust Samples.
From Stdlib Require Import SpecFloat.

(** ** Comparison of a number with a bound *)

(** Python compares an [int] with a [float] exactly. *)
Definition int_ltb_float (z : Z) (f : pyfloat) : bool :=
  match pf_value f with
  | S754_zero _ => (z <? 0)%Z
  | S754_infinity s => negb s
  | S754_nan => false
  | S754_finite s m e =>
      let v := (if s then Zneg m else Zpos m) in
      if (0 <=? e)%Z then (z <? v * 2 ^ e)%Z else (z * 2 ^ (- e) <? v)%Z
  end.

Definition float_ltb_int (f : pyfloat) (z : Z) : bool :=
  match pf_value f with
  | S754_zero _ => (0 <? z)%Z
  | S754_infinity s => s
  | S754_nan => false
  | S754_finite s m e =>
      let v := (if s then Zneg m else Zpos m) in
      if (0 <=? e)%Z then (v * 2 ^ e <? z)%Z else (v <? z * 2 ^ (- e))%Z
  end.

(** [value < bound] and [bound < value] for a numeric scalar. *)
Definition below (v : Scalar) (bound : pyfloat) : bool :=
  match v with
  | SInt z => int_ltb_float z bound | SFloat f => float_ltb f bound | _ => false
  end.
Definition above (v : Scalar) (bound : pyfloat) : bool :=
  match v with
  | SInt z => float_ltb_int bound z | SFloat f => float_ltb bound f | _ => false
  end.

Definition is_number (v : Scalar) : bool :=
  match v with SInt _ | SFloat _ => true | _ => false end.

(** [str(value)]. *)
Definition py_str `{PyRuntime} (v : Scalar) : string :=
  match v with
  | SStr s => s
  | SInt z => pretty z
  | SBool b => if b then "True" else "False"
  | SFloat f =>
      match pf_value f with
      | S754_nan => "nan"
      | S754_infinity s => if s then "-inf" else "inf"
      | _ => float_repr f
      end
  end.

Section validator.
Context `{PyRuntime}.

(** ** Records against their plan *)

Definition expected_source (k : StageKind) : SourceType :=
  match k with
  | Integrity => SrcDeterministicGrader
  | DeterministicGrader => SrcDeterministicGrader
  | ModelJudge => SrcModelJudge
  | HumanReview => SrcHumanReviewer
  end.

Definition validate_dimension_value (dimension : EvaluationDimension)
    (observation : DimensionValue) : result unit :=
  let value := dv_value observation in
  match dim_value_type dimension with
  | VTBoolean =>
      raise_when (match value with SBool _ => false | _ => true end)
        (ValueError "boolean evaluation dimension requires a boolean value")
  | VTNumber =>
      raise_when (negb (is_number value))
        (ValueError "numeric evaluation dimension requires a number");;
      raise_when (match dim_minimum dimension with Some lo => below value lo | None => false end)
        (ValueError "evaluation value is below the dimension minimum");;
      raise_when (match dim_maximum dimension with Some hi => above value hi | None => false end)
        (ValueError "evaluation value is above the dimension maximum")
  | VTCategory =>
      match value with
      | SStr s =>
          let categories := map (λ a, py_str (kv_value a)) (dim_anchors dimension) in
          raise_when (categories !=b [] && negb (s ∈b categories))
            (ValueError "evaluation category is not declared by an anchor")
      | _ => Raise (ValueError "category evaluation dimension requires a string value")
      end
  end.

(** [{item.id: item for item in plan.dimensions}[id]]: of two dimensions with one id
    the later one is the entry. *)
Definition dimension_by_id (plan : EvaluationPlanSpec) (id : string)
    : result EvaluationDimension :=
  require (find_first (λ d, dim_id d ==b id) (rev (plan_dimensions plan))) (KeyError id).

Definition find_stage (plan : EvaluationPlanSpec) (id : string) : option EvaluationStage :=
  find_first (λ s, st_id s ==b id) (plan_stages plan).

Fixpoint validate_values (plan : EvaluationPlanSpec) (values : list DimensionValue)
    : result unit :=
  match values with
  | [] => Ok tt
  | v :: rest =>
      d ← dimension_by_id plan (dv_dimension_id v);
      validate_dimension_value d v;;
      validate_values plan rest
  end.

Definition validate_record (plan : EvaluationPlanSpec) (record : EvaluationRecord)
    : result unit :=
  stage ← require (find_stage plan (er_stage_id record))
    (ValueError "evaluation record references an unknown stage");
  (if decide (er_source_type record = SrcHumanAdjudicator) then Ok tt
   else
     raise_when (er_source_type record !=b expected_source (st_kind stage))
       (ValueError "evaluation source type does not match its plan stage");;
     raise_when (er_evaluator_ref record !=b st_evaluator_ref stage)
       (ValueError "evaluation record substituted the planned evaluator"));;
  raise_when (negb (same_set (map dv_dimension_id (er_dimension_values record))
                             (st_output_dimensions stage)))
    (ValueError "evaluation record does not cover the stage output dimensions");;
  validate_values plan (er_dimension_values record).

End validator.

(** ** Gates *)

Definition gate_open (g : option GateStatus) : bool :=
  g ∈b [Some GatePassed; Some GateNotApplicable].

(** The loop of [stages_visible_after_gates]: a stage is visible, and a hard gate that
    has not passed hides every later one. *)
Fixpoint visible_stages (gates : gmap string GateStatus) (stages : list EvaluationStage)
    : list string :=
  match stages with
  | [] => []
  | s :: rest =>
      st_id s :: (if st_hard_gate s && negb (gate_open (gates !! st_id s)) then []
                  else visible_stages gates rest)
  end.

Definition stages_visible_after_gates (plan : EvaluationPlanSpec)
    (gate_results : gmap string GateStatus) : list string :=
  visible_stages gate_results (plan_stages plan).

Definition is_adjudicator (r : EvaluationRecord) : bool :=
  er_source_type r ==b SrcHumanAdjudicator.

Definition stage_records (records : list EvaluationRecord) (stage_id : string)
    : list EvaluationRecord :=
  List.filter (λ r, er_stage_id r ==b stage_id) records.

(** One iteration of the loop of [gate_results]. *)
Definition stage_gate (records : list EvaluationRecord)
    (results : gmap string GateStatus) (stage : EvaluationStage)
    : result (gmap string GateStatus) :=
  let of_stage := stage_records records (st_id stage) in
  let adjudications := List.filter is_adjudicator of_stage in
  let primary_records := List.filter (λ r, negb (is_adjudicator r)) of_stage in
  raise_when (1 <? length adjudications)%nat
    (ValueError "ambiguous human adjudication precedence in records");;
  raise_when (1 <? length primary_records)%nat
    (ValueError "ambiguous primary evaluation precedence in records");;
  Ok match adjudications, primary_records with
     | a :: _, _ => <[st_id stage := er_gate_status a]> results
     | [], p :: _ => <[st_id stage := er_gate_status p]> results
     | [], [] => results
     end.

Definition gate_results (plan : EvaluationPlanSpec) (records : list EvaluationRecord)
    : result (gmap string GateStatus) :=
  fold_res (stage_gate records) ∅ (plan_stages plan).

Definition validate_human_relation_boundary (record : EvaluationRecord)
    (boundary_sequence : Z) (related_records : list (EvaluationRecord * Z)) : result unit :=
  if is_human (er_source_type record) then
    raise_when (existsb (λ '(_, sequence), boundary_sequence <? sequence)%Z related_records)
      (ValueError "human evaluation relation references a record outside its boundary")
  else Ok tt.

(** ** Lemmas *)

Lemma filter_perm {A} (p : A → bool) l k : l ≡ₚ k → List.filter p l ≡ₚ List.filter p k.
Proof.
  induction 1 as [|x l k _ IH|x y l|l k m _ IH1 _ IH2]; cbn; [done| | |by etrans].
  - destruct (p x); [by rewrite IH|done].
  - destruct (p x), (p y); try done. constructor.
Qed.

(** Permuted lists of at most one element are equal, longer ones have the same length. *)
Lemma perm_short {A} (l k : list A) :
  l ≡ₚ k → (length l ≤ 1)%nat → l = k.
Proof.
  intros Hp Hl. destruct l as [|x [|y l]]; cbn in Hl; [| |lia].
  - by apply Permutation_nil_l in Hp as ->.
  - by apply Permutation_singleton_l in Hp as ->.
Qed.

Lemma stage_gate_perm r1 r2 results stage :
  r1 ≡ₚ r2 → stage_gate r1 results stage = stage_gate r2 results stage.
Proof.
  intros Hp. unfold stage_gate.
  assert (Hs : stage_records r1 (st_id stage) ≡ₚ stage_records r2 (st_id stage))
    by by apply filter_perm.
  set (a1 := List.filter is_adjudicator _). set (p1 := List.filter _ (stage_records r1 _)).
  set (a2 := List.filter is_adjudicator (stage_records r2 _)).
  set (p2 := List.filter _ (stage_records r2 _)).
  assert (Ha : a1 ≡ₚ a2) by by apply filter_perm.
  assert (Hq : p1 ≡ₚ p2) by by apply filter_perm.
  rewrite <- (Permutation_length Ha), <- (Permutation_length Hq).
  destruct (1 <? length a1)%nat eqn:E1; [done|].
  destruct (1 <? length p1)%nat eqn:E2; [done|].
  apply Nat.ltb_ge in E1, E2. by rewrite (perm_short _ _ Ha E1), (perm_short _ _ Hq E2).
Qed.

Lemma fold_res_ext {A B} (f g : B → A → result B) acc l :
  (∀ b a, f b a = g b a) → fold_res f acc l = fold_res g acc l.
Proof.
  intros Hfg. revert acc. induction l as [|x l IH]; intros acc; cbn; [done|].
  rewrite Hfg. destruct (g acc x); cbn; auto.
Qed.

(** The gate of a stage once the records are known to be unambiguous. *)
Definition projected_gate (records : list EvaluationRecord) (stage_id : string)
    : option GateStatus :=
  let of_stage := stage_records records stage_id in
  match List.filter is_adjudicator of_stage,
        List.filter (λ r, negb (is_adjudicator r)) of_stage with
  | a :: _, _ => Some (er_gate_status a)
  | [], p :: _ => Some (er_gate_status p)
  | [], [] => None
  end.

Lemma stage_gate_lookup records results stage results' id :
  stage_gate records results stage = Ok results' →
  results' !! id = if decide (id = st_id stage)
                   then (match projected_gate records id with
                         | Some g => Some g | None => results !! id end)
                   else results !! id.
Proof.
  unfold stage_gate, projected_gate. intros Hg. inv_ok.
  case_decide as E; [subst id|];
    destruct (List.filter is_adjudicator (stage_records records (st_id stage))) as [|a ?];
    [destruct (List.filter (λ r, negb (is_adjudicator r)) (stage_records records (st_id stage)))
      as [|p ?]| |destruct (List.filter (λ r, negb (is_adjudicator r))
        (stage_records records (st_id stage))) as [|p ?]|];
    try done; try (by rewrite lookup_insert_eq); by rewrite lookup_insert_ne.
Qed.

Lemma gate_results_fold records stages results results' id :
  fold_res (stage_gate records) results stages = Ok results' →
  results' !! id = if decide (id ∈ map st_id stages)
                   then (match projected_gate records id with
                         | Some g => Some g | None => results !! id end)
                   else results !! id.
Proof.
  revert results. induction stages as [|s stages IH]; intros results; cbn [fold_res map]; intros H.
  - inv_ok. rewrite decide_False by set_solver. done.
  - inv_ok. rewrite (IH _ H), (stage_gate_lookup _ _ _ _ id H0).
    repeat case_decide; set_unfold; try naive_solver; by destruct (projected_gate records id).
Qed.

Lemma projected_gate_adjudicator records r :
  r ∈ records → is_adjudicator r = true →
  (length (List.filter is_adjudicator (stage_records records (er_stage_id r))) ≤ 1)%nat →
  projected_gate records (er_stage_id r) = Some (er_gate_status r).
Proof.
  intros Hr Ha Hl. unfold projected_gate.
  set (l := List.filter is_adjudicator _) in *.
  assert (Hin : r ∈ l).
  { unfold l, stage_records. rewrite !list_elem_of_In, !filter_In, <- list_elem_of_In.
    repeat split; [done| |done]. by apply bool_decide_eq_true. }
  destruct l as [|x [|y l]]; cbn in Hl; [set_solver| |lia].
  by apply list_elem_of_singleton in Hin as ->.
Qed.

Lemma fold_res_stage_gate_short records stages results results' s :
  fold_res (stage_gate records) results stages = Ok results' → s ∈ stages →
  (length (List.filter is_adjudicator (stage_records records (st_id s))) ≤ 1)%nat.
Proof.
  revert results. induction stages as [|t stages IH]; intros results; [set_solver|].
  cbn [fold_res]. intros Hf Hs. inv_ok.
  apply elem_of_cons in Hs as [->|Hs]; [|by eapply IH].
  unfold stage_gate in *. inv_ok. by apply Nat.ltb_ge.
Qed.

Lemma visible_stages_prefix gates stages :
  visible_stages gates stages `prefix_of` map st_id stages.
Proof.
  induction stages as [|s stages IH]; cbn; [done|].
  apply prefix_cons. case_match; [apply prefix_nil|done].
Qed.

(** A stage stays hidden exactly because an earlier hard gate is closed. *)
Lemma visible_stages_spec gates pre s post :
  NoDup (map st_id (pre ++ s :: post)) →
  st_id s ∈ visible_stages gates (pre ++ s :: post)
  ↔ ∀ g, g ∈ pre → st_hard_gate g = true → gate_open (gates !! st_id g) = true.
Proof.
  induction pre as [|t pre IH]; cbn.
  - intros _. split; [set_solver|]. intros _. left.
  - rewrite NoDup_cons. intros [Ht Hnd].
    assert (Hne : st_id s ≠ st_id t).
    { intros E. apply Ht. rewrite <- E, map_app, elem_of_app. right. left. }
    rewrite elem_of_cons. specialize (IH Hnd).
    split.
    + intros [?|Hv]; [done|]. intros g [->|Hg]%elem_of_cons Hh.
      * rewrite Hh in Hv. destruct (gate_open _); [done|]. by apply elem_of_nil in Hv.
      * apply IH; [|done..]. case_match; [by apply elem_of_nil in Hv|done].
    + intros Hall. right. rewrite (proj2 (andb_false_iff _ _)).
      * apply IH. intros g Hg. apply Hall. by right.
      * destruct (st_hard_gate t) eqn:Eh; [right|by left]. by rewrite Hall by (done || left).
Qed.

(** ** Properties *)

(** The projected gates do not depend on the order in which records are listed,
    ambiguity errors included. *)
Theorem gate_results_order_independent plan records records' :
  records ≡ₚ records' → gate_results plan records = gate_results plan records'.
Proof.
  intros Hp. apply fold_res_ext. intros results stage. by apply stage_gate_perm.
Qed.

(** When the projection succeeds, an adjudication decides the gate of its stage,
    whatever the automated record of that stage said. *)
Lemma gate_results_adjudication_wins plan records gates r :
  gate_results plan records = Ok gates →
  r ∈ records → er_source_type r = SrcHumanAdjudicator →
  er_stage_id r ∈ map st_id (plan_stages plan) →
  gates !! er_stage_id r = Some (er_gate_status r).
Proof.
  intros Hg Hr Ha Hs. pose proof (gate_results_fold _ _ _ _ (er_stage_id r) Hg) as Hl.
  rewrite decide_True in Hl by done. rewrite Hl.
  rewrite projected_gate_adjudicator; [done|done| |].
  - unfold is_adjudicator. by apply bool_decide_eq_true.
  - apply list_elem_of_In, in_map_iff in Hs as (s & E & Hin). rewrite <- E.
    eapply fold_res_stage_gate_short; [exact Hg|]. by apply list_elem_of_In.
Qed.

(** The visible stages are an initial segment of the plan, and a stage is among
    them exactly when every hard gate before it has passed or is not applicable. *)
Theorem stages_visible_iff_gates_open plan gates pre s post :
  plan_stages plan = pre ++ s :: post → NoDup (map st_id (plan_stages plan)) →
  stages_visible_after_gates plan gates `prefix_of` map st_id (plan_stages plan)
  ∧ (st_id s ∈ stages_visible_after_gates plan gates
     ↔ ∀ g, g ∈ pre → st_hard_gate g = true → gate_open (gates !! st_id g) = true).
Proof.
  intros Hp Hnd. split; [apply visible_stages_prefix|].
  unfold stages_visible_after_gates. rewrite Hp in *. by apply visible_stages_spec.
Qed.


(** ** Instances *)

Definition grade_record (source : SourceType) (gate : GateStatus) : EvaluationRecord :=
  MkEvaluationRecord "rec_1" "run_1" (sample_ref EVALUATION_PLAN "plan") "grade" source
    sample_grader None None (MkEvaluationBoundary (Some 5%Z) (Some (digest_of "d")) None)
    [MkDimensionValue "correct" (SBool true) "matches" None []] gate Final None None 0.

Definition human_record : EvaluationRecord := grade_record SrcHumanAdjudicator GatePassed.
Definition graded_record : EvaluationRecord := grade_record SrcDeterministicGrader GateFailed.

Lemma gate_results_order_independent_witness :
  gate_results sample_plan [human_record; graded_record]
  = gate_results sample_plan [graded_record; human_record].
Proof. apply gate_results_order_independent. apply Permutation_swap. Defined.

Definition sample_gates : gmap string GateStatus := {["grade" := GatePassed]}.

Lemma stages_visible_iff_gates_open_witness :
  stages_visible_after_gates sample_plan ∅ `prefix_of` ["grade"].
Proof.
  apply (stages_visible_iff_gates_open sample_plan ∅ [] sample_stage []);
    [reflexivity|apply NoDup_singleton].
Defined.

