(* ===== verification/Registry.v ===== *)
(** * The in-memory contract registry (src/src/evidrun/contracts/registry.py, the default
    verifier of src/src/evidrun/contracts/authority.py, and the refusals of
    src/src/evidrun/contracts/compile_errors.py).

    [ContractResolver] is the interface a compiler reads revisions through; the law
    [resolve_exact] is what its implementations promise (here the registry, in
    Sealing.v the sealed resolver). The registry is a record of two maps; [add] and
    [decide] are its steps. The attestation verifier is an argument. *)

From S2P Require Import Prelude PyText PyJson Base Authoring Runtime Triage Trust Samples.

#[export] Instance ContractType_countable : Countable ContractType.
Proof.
  refine (inj_countable' ContractType_value
    (λ s, default STUDY (find_first (λ t, ContractType_value t ==b s)
       [STUDY; GOAL; SCENARIO; AGENT_INVENTORY; WORKSPACE_TEMPLATE; INTERACTION_PROTOCOL;
        EVALUATION_PLAN; CHECKPOINT_POLICY; PROGRESS_ARTIFACT_POLICY])) _).
  by intros [].
Defined.

Abbreviation RevisionKey := (ContractType * string * Z)%type.

(** ** The resolver interface *)

Class ContractResolver := resolve : ContractRef → result AuthoringRevision.

(** A resolver answers a reference only with the revision it names. *)
Class ResolverLaws `{PyRuntime} (R : ContractResolver) :=
  resolve_exact : ∀ reference revision,
    resolve reference = Ok revision → revision_ref revision = reference.

(** ** State *)

Record Registry := MkRegistry {
  reg_revisions : gmap RevisionKey AuthoringRevision;
  reg_decisions : gmap RevisionKey RevisionDecisionRecord
}.

Definition empty_registry : Registry := MkRegistry ∅ ∅.

Section registry.
Context `{PyRuntime}.

(** [human_attestation_verifier.verify] and [allow_repository_fixture]. *)
Variable verify : HumanAttestationRecord → string → result unit.
Variable allow_repository_fixture : bool.

Definition revision_key (r : AuthoringRevision) : RevisionKey := identity_key (revision_ref r).
Definition revision_digest (r : AuthoringRevision) : string := cr_digest (revision_ref r).

(** [UnavailableHumanAttestationVerifier.verify]; [HumanAttestationError] is a
    [ValueError]. *)
Definition unavailable_verify (attestation : HumanAttestationRecord)
    (expected_subject_digest : string) : result unit :=
  Raise (ValueError "verified human authority is unavailable; no trusted verifier is installed").

Definition authorize (decision : RevisionDecisionRecord) : result unit :=
  match dec_authority decision with
  | VerifiedHuman _ attestation => verify attestation (decision_subject_digest decision)
  | RepositoryFixture _ =>
      raise_when (negb allow_repository_fixture)
        (PermissionError "repository fixture acceptance is restricted to the legacy import path")
  end.

(** The revision numbers stored for a contract. *)
Definition prior_revisions (s : Registry) (t : ContractType) (id : string) : list Z :=
  map (λ r, cr_revision (revision_ref r))
    (List.filter (λ r, cr_contract_type (revision_ref r) ==b t
                       && cr_logical_id (revision_ref r) ==b id)
       (map snd (map_to_list (reg_revisions s)))).

(** [max(l, default=0)]. *)
Definition max_default (l : list Z) : Z :=
  match l with [] => 0%Z | x :: l' => foldl Z.max x l' end.

Definition require_monotonic (s : Registry) (revision : AuthoringRevision) : result unit :=
  let ref := revision_ref revision in
  let expected :=
    (max_default (prior_revisions s (cr_contract_type ref) (cr_logical_id ref)) + 1)%Z in
  raise_when (negb (cr_revision ref =? expected)%Z)
    (ValueError "contract revision must be monotonic").

Definition conflicts (existing decision : RevisionDecisionRecord) : bool :=
  if decide (dec_decision existing = dec_decision decision) then false
  else negb (dec_decision existing ==b Accepted && dec_decision decision ==b Superseded).

(** ** Operations *)

Definition add (revision : AuthoringRevision) (s : Registry) : result Registry :=
  let key := revision_key revision in
  match reg_revisions s !! key with
  | Some existing =>
      raise_when (revision_digest existing !=b revision_digest revision
                  || revision_document existing !=b revision_document revision)
        (ValueError "an immutable contract revision already exists with different content");;
      Ok s
  | None =>
      require_monotonic s revision;;
      Ok (MkRegistry (<[key := revision]> (reg_revisions s)) (reg_decisions s))
  end.

Definition decide_revision (decision : RevisionDecisionRecord) (s : Registry) : result Registry :=
  authorize decision;;
  let key := identity_key (dec_revision_ref decision) in
  raise_when (match reg_revisions s !! key with
              | None => true
              | Some revision => revision_digest revision !=b cr_digest (dec_revision_ref decision)
              end)
    (ValueError "decision references an unknown or mismatched revision");;
  let existing := reg_decisions s !! key in
  raise_when (existing ==b None && dec_decision decision ==b Superseded)
    (ValueError "only an accepted revision can be superseded");;
  raise_when (match existing with Some e => conflicts e decision | None => false end)
    (ValueError "contract revision already has a conflicting decision");;
  Ok (MkRegistry (reg_revisions s) (<[key := decision]> (reg_decisions s))).

Definition add_accepted (revision : AuthoringRevision) (decision : RevisionDecisionRecord)
    (s : Registry) : result Registry :=
  s' ← add revision s; decide_revision decision s'.

Definition registry_resolve (s : Registry) (reference : ContractRef) : result AuthoringRevision :=
  let key := identity_key reference in
  revision ← require (reg_revisions s !! key) (rejected COMPILE_REVISION_NOT_FOUND);
  raise_when (revision_digest revision !=b cr_digest reference) (rejected COMPILE_DIGEST_MISMATCH);;
  raise_when (match reg_decisions s !! key with
              | Some d => dec_decision d !=b Accepted | None => true end)
    (rejected COMPILE_DEPENDENCY_NOT_ACCEPTED);;
  Ok revision.

(** ** Steps and reachable states *)

Inductive reg_step : Registry → Registry → Prop :=
  | step_add s revision s' : add revision s = Ok s' → reg_step s s'
  | step_decide s decision s' : decide_revision decision s = Ok s' → reg_step s s'.

Definition reg_steps : Registry → Registry → Prop := rtc reg_step.

(** ** The invariant *)

Record reg_inv (s : Registry) : Prop := {
  ri_keys : ∀ k r, reg_revisions s !! k = Some r → revision_key r = k;
  ri_positive : ∀ t id n r, reg_revisions s !! (t, id, n) = Some r → (1 <= n)%Z;
  ri_contiguous : ∀ t id n r, reg_revisions s !! (t, id, n) = Some r → (1 < n)%Z →
    is_Some (reg_revisions s !! (t, id, (n - 1)%Z));
  ri_decided : ∀ k d, reg_decisions s !! k = Some d →
    identity_key (dec_revision_ref d) = k
    ∧ (∃ r, reg_revisions s !! k = Some r ∧ revision_ref r = dec_revision_ref d)
    ∧ authorize d = Ok tt
}.

Lemma max_default_spec l :
  (∀ x, x ∈ l → (x <= max_default l)%Z) ∧ (l = [] ∧ max_default l = 0%Z ∨ max_default l ∈ l).
Proof.
  destruct l as [|x l]; cbn; [split; [set_solver|by left]|].
  assert (Hg : ∀ l a, (a <= foldl Z.max a l)%Z ∧ (∀ y, y ∈ l → (y <= foldl Z.max a l)%Z)
    ∧ (foldl Z.max a l = a ∨ foldl Z.max a l ∈ l)).
  { clear. induction l as [|y l IH]; intros a; cbn; [split_and!; [lia|set_solver|by left]|].
    destruct (IH (Z.max a y)) as (H1 & H2 & H3). split_and!; [lia| |].
    - intros z [->|Hz]%elem_of_cons; [lia|by apply H2].
    - destruct H3 as [->|H3]; [|right; by right].
      destruct (Z.max_spec a y) as [[_ ->]|[_ ->]]; [right; left|by left]. }
  destruct (Hg l x) as (H1 & H2 & H3). split.
  - intros y [->|Hy]%elem_of_cons; [done|by apply H2].
  - right. destruct H3 as [->|H3]; [left|by right].
Qed.

Lemma elem_of_prior_revisions s t id n :
  reg_inv s →
  n ∈ prior_revisions s t id ↔ is_Some (reg_revisions s !! (t, id, n)).
Proof.
  intros Hi. unfold prior_revisions. rewrite list_elem_of_fmap. split.
  - intros (r & -> & Hr). rewrite list_elem_of_In, filter_In, <- list_elem_of_In in Hr.
    destruct Hr as [Hr Hk]. bools. apply list_elem_of_fmap in Hr as ([k r'] & -> & Hr).
    apply elem_of_map_to_list in Hr. cbn in *. apply (ri_keys _ Hi) in Hr as Hk.
    unfold revision_key, identity_key in Hk. exists r'. by subst.
  - intros [r Hr]. pose proof (ri_keys _ Hi _ _ Hr) as Hk. unfold revision_key, identity_key in Hk.
    injection Hk as Ht Hid Hn. exists r. split; [done|].
    rewrite list_elem_of_In, filter_In, <- list_elem_of_In. split.
    + apply list_elem_of_fmap. exists ((t, id, n), r). split; [done|].
      by apply elem_of_map_to_list.
    + apply andb_true_iff. by rewrite !bool_decide_eq_true.
Qed.

Lemma reg_inv_add revision s s' : reg_inv s → add revision s = Ok s' → reg_inv s'.
Proof.
  intros Hi. unfold add. destruct (reg_revisions s !! revision_key revision) as [e|] eqn:Ek;
    intros Ha; inv_ok; [done|].
  unfold require_monotonic in *. inv_ok. bools. rename H0 into Hm.
  set (ref := revision_ref revision) in *. apply Z.eqb_eq in Hm.
  set (prior := prior_revisions s _ _) in *. destruct (max_default_spec prior) as [Hmax Hin].
  assert (Hpos : (1 <= cr_revision ref)%Z).
  { destruct Hin as [[_ E]|Hin]; [lia|]. unfold prior in Hin.
    apply elem_of_prior_revisions in Hin as [r Hr]; [|done].
    apply (ri_positive _ Hi) in Hr. fold prior in Hr. lia. }
  constructor; cbn.
  - intros k r [[<- <-]|[_ Hr]]%lookup_insert_Some; [done|by apply (ri_keys _ Hi)].
  - intros t id n r [[[= <- <- <-] <-]|[_ Hr]]%lookup_insert_Some; [done|].
    by eapply ri_positive.
  - intros t id n r Hr Hn. apply lookup_insert_is_Some.
    apply lookup_insert_Some in Hr as [[[= <- <- <-] <-]|[Hne Hr]].
    + right. split; [intros [=]; lia|]. fold ref in Hn |- *.
      destruct Hin as [[_ E]|Hin]; [lia|].
      apply elem_of_prior_revisions in Hin; [|done].
      replace (cr_revision ref - 1)%Z with (max_default prior) by lia. done.
    + destruct (decide (revision_key revision = (t, id, (n - 1)%Z))); [by left|right].
      split; [done|]. by eapply ri_contiguous.
  - intros k d Hd. destruct (ri_decided _ Hi _ _ Hd) as (E & (r & Hr & Hrd) & Hau).
    split_and!; [done| |done]. exists r. split; [|done].
    rewrite lookup_insert_ne; [done|]. congruence.
Qed.

Lemma reg_inv_decide decision s s' : reg_inv s → decide_revision decision s = Ok s' → reg_inv s'.
Proof.
  intros Hi. unfold decide_revision. intros Hd. inv_ok. constructor; cbn; try apply Hi.
  intros k d [[<- <-]|[_ Hr]]%lookup_insert_Some; [|by apply (ri_decided _ Hi)].
  split_and!; [done| |by repeat match goal with u : () |- _ => destruct u end].
  destruct (reg_revisions s !! _) as [r|] eqn:Er; [|done]. bools. exists r. split; [done|].
  pose proof (ri_keys _ Hi _ _ Er) as Hk. unfold revision_key, identity_key in Hk.
  unfold revision_digest in *. destruct (revision_ref r), (dec_revision_ref decision); cbn in *.
  congruence.
Qed.

Lemma reg_inv_empty : reg_inv empty_registry.
Proof. by constructor. Qed.

Lemma reg_inv_steps s s' : reg_inv s → reg_steps s s' → reg_inv s'.
Proof.
  intros Hi Hs. induction Hs as [|s s1 s2 H1 _ IH]; [done|]. apply IH.
  destruct H1; [by eapply reg_inv_add|by eapply reg_inv_decide].
Qed.

Lemma reg_step_revisions s s' : reg_step s s' → reg_revisions s ⊆ reg_revisions s'.
Proof.
  destruct 1 as [s r s' Ha|s d s' Hd].
  - unfold add in Ha. destruct (reg_revisions s !! revision_key r) eqn:E; inv_ok; cbn; [done|].
    by apply insert_subseteq.
  - unfold decide_revision in Hd. inv_ok. done.
Qed.

#[global] Instance registry_resolver (s : Registry) : ContractResolver := registry_resolve s.

Lemma registry_resolve_exact s : reg_inv s → ResolverLaws (registry_resolver s).
Proof.
  intros Hi ref r Hr. unfold resolve, registry_resolver, registry_resolve in Hr. inv_ok. bools.
  match goal with H : _ !! _ = Some _ |- _ => pose proof (ri_keys _ Hi _ _ H) as Hk end.
  unfold revision_key, identity_key in Hk. unfold revision_digest in *.
  destruct (revision_ref _), ref; cbn in *; congruence.
Qed.

End registry.

(** ** Properties *)

(** In every state the registry can reach, revisions sit under their own identity,
    the revisions of a contract are numbered from 1 without gaps, and every recorded
    decision names a stored revision by its exact digest and passed authorization. *)
Theorem registry_reachable_inv `{PyRuntime} verify allow s :
  reg_steps verify allow empty_registry s → reg_inv verify allow s.
Proof. apply reg_inv_steps, reg_inv_empty. Qed.

(** Revisions are immutable: no sequence of operations changes or removes one. *)
Theorem registry_revisions_immutable `{PyRuntime} verify allow s s' key revision :
  reg_steps verify allow s s' → reg_revisions s !! key = Some revision →
  reg_revisions s' !! key = Some revision.
Proof.
  intros Hs. induction Hs as [|s s1 s2 H1 _ IH]; [done|]. intros Hk. apply IH.
  by eapply lookup_weaken, reg_step_revisions.
Qed.

(** A reachable registry resolves a reference only to the revision that has exactly
    that identity and digest, and only under an accepted decision whose authority was
    verified: a human attestation the verifier accepted, or a repository fixture where
    fixtures are allowed. *)
Theorem registry_resolve_authorized `{PyRuntime} verify allow s reference revision :
  reg_steps verify allow empty_registry s → registry_resolve s reference = Ok revision →
  revision_ref revision = reference
  ∧ ∃ d, reg_decisions s !! identity_key reference = Some d ∧ dec_decision d = Accepted
    ∧ match dec_authority d with
      | VerifiedHuman _ att => verify att (decision_subject_digest d) = Ok tt
      | RepositoryFixture _ => allow = true
      end.
Proof.
  intros Hs Hr. pose proof (reg_inv_steps _ _ _ _ (reg_inv_empty _ _) Hs) as Hi. split.
  - by apply (registry_resolve_exact _ _ _ Hi).
  - unfold registry_resolve in Hr. inv_ok.
    destruct (reg_decisions s !! _) as [d|] eqn:Ed; [|done]. bools. exists d.
    split_and!; [done..|]. destruct (ri_decided _ _ _ Hi _ _ Ed) as (_ & _ & Ha).
    unfold authorize in Ha. destruct (dec_authority d); [done|]. inv_ok. by bools.
Qed.

(** With the default verifier and no fixture path, no decision is ever recorded, so
    no reference resolves. *)
Theorem registry_fails_closed `{PyRuntime} s reference :
  reg_steps unavailable_verify false empty_registry s →
  reg_decisions s = ∅ ∧ is_ok (registry_resolve s reference) = false.
Proof.
  intros Hs. pose proof (reg_inv_steps _ _ _ _ (reg_inv_empty _ _) Hs) as Hi.
  assert (Hd : reg_decisions s = ∅).
  { apply map_empty. intros k. destruct (reg_decisions s !! k) as [d|] eqn:Ed; [|done].
    destruct (ri_decided _ _ _ Hi _ _ Ed) as (_ & _ & Ha). unfold authorize in Ha.
    by destruct (dec_authority d). }
  split; [done|]. unfold registry_resolve. rewrite Hd.
  destruct (reg_revisions s !! _) as [r|]; [|done]. cbn.
  destruct (revision_digest r !=b _); [done|]. cbn. by rewrite lookup_empty.
Qed.

(** ** Instances *)

Definition goal_revision (n : Z) : AuthoringRevision :=
  GoalRevision (MkRevision "goal" n "project" "Goal" sample_goal).

Definition goal_decision (d : Decision3) : RevisionDecisionRecord :=
  MkDecisionRecord (revision_ref (goal_revision 1)) d (RepositoryFixture (digest_of "c")) "ok" 0.

Definition small_registry : Registry :=
  value_of empty_registry
    (add_accepted unavailable_verify true (goal_revision 1) (goal_decision Accepted) empty_registry).

Lemma small_registry_reachable : reg_steps unavailable_verify true empty_registry small_registry.
Proof.
  assert (E : add_accepted unavailable_verify true (goal_revision 1) (goal_decision Accepted)
    empty_registry = Ok small_registry) by (apply value_of_ok; vm_compute; reflexivity).
  unfold add_accepted in E. inv_ok. eapply rtc_l; [by eapply step_add|].
  eapply rtc_l; [by eapply step_decide|]. done.
Qed.

Lemma registry_reachable_inv_witness : reg_inv unavailable_verify true small_registry.
Proof. apply registry_reachable_inv. exact small_registry_reachable. Defined.

Lemma registry_revisions_immutable_witness :
  reg_revisions small_registry !! (GOAL, "goal", 1%Z) = Some (goal_revision 1).
Proof.
  apply (registry_revisions_immutable unavailable_verify true small_registry small_registry);
    [constructor|vm_compute; reflexivity].
Defined.

Lemma registry_resolve_authorized_witness :
  ∃ d, reg_decisions small_registry !! (GOAL, "goal", 1%Z) = Some d ∧ dec_decision d = Accepted.
Proof.
  destruct (registry_resolve_authorized unavailable_verify true small_registry
    (revision_ref (goal_revision 1)) (goal_revision 1)) as (_ & d & Hd & Ha & _);
    [exact small_registry_reachable|vm_compute; reflexivity|].
  exists d. split; [exact Hd|exact Ha].
Defined.

Lemma registry_fails_closed_witness : reg_decisions empty_registry = ∅.
Proof.
  apply (registry_fails_closed empty_registry (revision_ref (goal_revision 1))). constructor.
Defined.
