(* ===== verification/Compiler.v ===== *)
(** * The Study compiler (src/src/evidrun/contracts/compiler.py).

    [ExtensionSchemaRegistry], [VariantDiffer], [StudyCompiler] (over any
    [ContractResolver]), and the two disclosure compilers. Extension validators are
    caller-registered callables and enter as the registry's entries. Constructing a
    RunSpec or an envelope runs its own validator. *)

From S2P Require Import Prelude PyText PyJson Base Authoring Runtime Triage Trust Samples.
From S2P Require Import Registry Evaluation.

(** ** Extensions *)

Definition ExtensionRegistry : Type := list (string * string * string * (ArtifactRef → result unit)).

(** [self._validators[key] = validator]: the entry registered last wins. *)
Definition register_extension (namespace schema_version schema_digest : string)
    (validator : ArtifactRef → result unit) (registry : ExtensionRegistry) : ExtensionRegistry :=
  (namespace, schema_version, schema_digest, validator) :: registry.

Definition validate_extension (registry : ExtensionRegistry) (extension : ExtensionRef)
    : result unit :=
  let key := (ext_namespace extension, ext_schema_version extension,
              ar_digest (ext_schema_ref extension)) in
  match find_first (λ e, fst e ==b key) registry with
  | Some (_, validator) => validator (ext_payload_ref extension)
  | None =>
      raise_when (ext_required extension)
        (ValueError ("unregistered required extension schema: " +:+ ext_namespace extension))
  end.

(** [for extension in extensions: registry.validate(extension)]. *)
Fixpoint validate_extensions (registry : ExtensionRegistry) (extensions : list ExtensionRef)
    : result unit :=
  match extensions with
  | [] => Ok tt
  | e :: rest => validate_extension registry e;; validate_extensions registry rest
  end.

(** ** Variant slots *)

(** The value of a slot, tagged by what it holds so that slots compare by equality. *)
Inductive SlotValue :=
  | VGoal (r : ContractRef) (v : GoalSpec)
  | VScenario (r : ContractRef) (v : ScenarioSpec)
  | VInventory (r : ContractRef) (v : AgentInventorySpec)
  | VWorkspace (r : ContractRef) (v : WorkspaceTemplateSpec)
  | VProtocol (r : ContractRef) (v : InteractionProtocolSpec)
  | VPlan (r : ContractRef) (v : EvaluationPlanSpec)
  | VCheckpoint (r : option ContractRef) (v : option CheckpointPolicySpec)
  | VProgress (r : option ContractRef) (v : option ProgressArtifactPolicySpec)
  | VContext (v : option ContextPolicySpec)
  | VBudgets (v : BudgetSpec)
  | VStops (v : list StopCondition)
  | VCapture (v : CapturePolicySpec)
  | VExtensions (v : list ExtensionRef).
#[export] Instance SlotValue_eq_dec : EqDecision SlotValue.
Proof. solve_decision. Defined.

(** [_slot_value]; [None] is the [AttributeError] of a name outside the slots. *)
Definition slot_value (spec : RunSpec) (slot : string) : option SlotValue :=
  match slot with
  | "goal" => Some (VGoal (spec_goal_ref spec) (spec_goal spec))
  | "scenario" => Some (VScenario (spec_scenario_ref spec) (spec_scenario spec))
  | "agent_inventory" =>
      Some (VInventory (spec_agent_inventory_ref spec) (spec_agent_inventory spec))
  | "workspace_template" =>
      Some (VWorkspace (spec_workspace_template_ref spec) (spec_workspace spec))
  | "interaction_protocol" =>
      Some (VProtocol (spec_interaction_protocol_ref spec) (spec_interaction_protocol spec))
  | "evaluation_plan" =>
      Some (VPlan (spec_evaluation_plan_ref spec) (spec_evaluation_plan spec))
  | "checkpoint_policy" =>
      Some (VCheckpoint (spec_checkpoint_policy_ref spec) (spec_checkpoint_policy spec))
  | "progress_artifact_policy" =>
      Some (VProgress (spec_progress_artifact_policy_ref spec)
              (spec_progress_artifact_policy spec))
  | "context_policy" => Some (VContext (spec_context_policy spec))
  | "budgets" => Some (VBudgets (spec_budgets spec))
  | "stop_conditions" => Some (VStops (spec_stop_conditions spec))
  | "capture_policy" => Some (VCapture (spec_capture_policy spec))
  | "extensions" => Some (VExtensions (spec_extensions spec))
  | _ => None
  end.

(** [VariantDiffer._SLOTS] is the order of [VARIANT_SLOTS]. The set of changed slots is
    the list of its members in that order. *)
Definition changed_slots (baseline candidate : RunSpec) : list string :=
  List.filter (λ slot, slot_value baseline slot !=b slot_value candidate slot) VARIANT_SLOTS.

(** ** Materialization *)

Section compiler.
Context `{PyRuntime} `{ContractResolver} (extension_registry : ExtensionRegistry).

(** [isinstance(revision, expected)] per revision class. *)
Definition as_study (r : AuthoringRevision) : option (Revision StudySpec) :=
  match r with StudyRevision r => Some r | _ => None end.
Definition as_goal (r : AuthoringRevision) : option (Revision GoalSpec) :=
  match r with GoalRevision r => Some r | _ => None end.
Definition as_scenario (r : AuthoringRevision) : option (Revision ScenarioSpec) :=
  match r with ScenarioRevision r => Some r | _ => None end.
Definition as_inventory (r : AuthoringRevision) : option (Revision AgentInventorySpec) :=
  match r with AgentInventoryRevision r => Some r | _ => None end.
Definition as_workspace (r : AuthoringRevision) : option (Revision WorkspaceTemplateSpec) :=
  match r with WorkspaceTemplateRevision r => Some r | _ => None end.
Definition as_protocol (r : AuthoringRevision) : option (Revision InteractionProtocolSpec) :=
  match r with InteractionProtocolRevision r => Some r | _ => None end.
Definition as_plan (r : AuthoringRevision) : option (Revision EvaluationPlanSpec) :=
  match r with EvaluationPlanRevision r => Some r | _ => None end.
Definition as_checkpoint (r : AuthoringRevision) : option (Revision CheckpointPolicySpec) :=
  match r with CheckpointPolicyRevision r => Some r | _ => None end.
Definition as_progress (r : AuthoringRevision) : option (Revision ProgressArtifactPolicySpec) :=
  match r with ProgressArtifactPolicyRevision r => Some r | _ => None end.

Definition resolve_typed {P} (expected : AuthoringRevision → option (Revision P))
    (reference : ContractRef) : result (Revision P) :=
  revision ← resolve reference;
  require (expected revision) (TypeError (cr_logical_id reference +:+ " resolved as another type")).

(** [x or y] on references. *)
Definition or_else {A} (o : option A) (d : A) : A := default d o.
Definition or_opt {A} (o d : option A) : option A := match o with Some _ => o | None => d end.

Definition checkpoint_ids (p : option CheckpointPolicySpec) : list string :=
  match p with Some p => map cd_id (ckp_definitions p) | None => [] end.

(** The loop over progress definitions: a trigger on an unknown checkpoint. *)
Definition unknown_checkpoint (ids : list string) (d : ProgressArtifactDefinition) : bool :=
  match pd_trigger d with
  | CheckpointReachedProgressTrigger c => negb (c ∈b ids)
  | SubjectTurnIntervalProgressTrigger _ => false
  end.

Definition resolve_checkpoint (r : option ContractRef) : result (option CheckpointPolicySpec) :=
  match r with
  | Some r => p ← resolve_typed as_checkpoint r; Ok (Some (rev_payload p))
  | None => Ok None
  end.

Definition resolve_progress (r : option ContractRef) (checkpoint : option CheckpointPolicySpec)
    : result (option ProgressArtifactPolicySpec) :=
  match r with
  | Some r =>
      p ← resolve_typed as_progress r;
      raise_when (existsb (unknown_checkpoint (checkpoint_ids checkpoint))
                    (pp_definitions (rev_payload p)))
        (ValueError "progress artifact trigger references an unknown checkpoint definition");;
      Ok (Some (rev_payload p))
  | None => Ok None
  end.

Definition compiler_seed (study : Revision StudySpec) (repetition_index : Z) : option Z :=
  let strategy := study_seed_strategy (rev_payload study) in
  match seed_kind strategy with
  | SeedDeterministic => Some 0%Z
  | SeedFixed => seed_seed strategy
  | SeedPerRepetition => Some (default 0 (seed_seed strategy) + repetition_index - 1)%Z
  end.

Definition materialize (study : Revision StudySpec) (matrix_scenario_ref : ContractRef)
    (variant : VariantSpec) (repetition_index : Z) : result RunSpec :=
  let blueprint := study_run_blueprint (rev_payload study) in
  let overrides := va_overrides variant in
  let goal_ref := or_else (vo_goal_ref overrides) (study_goal_ref (rev_payload study)) in
  let scenario_ref := or_else (vo_scenario_ref overrides) matrix_scenario_ref in
  let agent_ref := or_else (vo_agent_inventory_ref overrides) (rb_agent_inventory_ref blueprint) in
  let workspace_ref :=
    or_else (vo_workspace_template_ref overrides) (rb_workspace_template_ref blueprint) in
  let interaction_ref :=
    or_else (vo_interaction_protocol_ref overrides) (rb_interaction_protocol_ref blueprint) in
  let evaluation_ref :=
    or_else (vo_evaluation_plan_ref overrides) (rb_evaluation_plan_ref blueprint) in
  let checkpoint_ref :=
    or_opt (vo_checkpoint_policy_ref overrides) (rb_checkpoint_policy_ref blueprint) in
  let progress_ref := or_opt (vo_progress_artifact_policy_ref overrides)
                             (rb_progress_artifact_policy_ref blueprint) in
  goal ← resolve_typed as_goal goal_ref;
  scenario ← resolve_typed as_scenario scenario_ref;
  agent ← resolve_typed as_inventory agent_ref;
  workspace ← resolve_typed as_workspace workspace_ref;
  interaction ← resolve_typed as_protocol interaction_ref;
  evaluation ← resolve_typed as_plan evaluation_ref;
  checkpoint_payload ← resolve_checkpoint checkpoint_ref;
  progress_payload ← resolve_progress progress_ref checkpoint_payload;
  let extensions := or_else (vo_extensions overrides) (rb_extensions blueprint) in
  validate_extensions extension_registry extensions;;
  let spec := {|
    spec_study_ref := rev_ref study;
    spec_scenario_ref := rev_ref scenario;
    spec_variant_id := va_id variant;
    spec_repetition_index := repetition_index;
    spec_seed := compiler_seed study repetition_index;
    spec_goal_ref := rev_ref goal;
    spec_goal := rev_payload goal;
    spec_scenario := rev_payload scenario;
    spec_agent_inventory_ref := rev_ref agent;
    spec_agent_inventory := rev_payload agent;
    spec_workspace_template_ref := rev_ref workspace;
    spec_workspace := rev_payload workspace;
    spec_interaction_protocol_ref := rev_ref interaction;
    spec_interaction_protocol := rev_payload interaction;
    spec_evaluation_plan_ref := rev_ref evaluation;
    spec_evaluation_plan := rev_payload evaluation;
    spec_checkpoint_policy_ref := checkpoint_ref;
    spec_checkpoint_policy := checkpoint_payload;
    spec_progress_artifact_policy_ref := progress_ref;
    spec_progress_artifact_policy := progress_payload;
    spec_context_policy := or_opt (vo_context_policy overrides) (rb_context_policy blueprint);
    spec_budgets := or_else (vo_budgets overrides) (rb_budgets blueprint);
    spec_stop_conditions := or_else (vo_stop_conditions overrides) (rb_stop_conditions blueprint);
    spec_capture_policy := or_else (vo_capture_policy overrides) (rb_capture_policy blueprint);
    spec_extensions := extensions;
    spec_limitations := study_limitations (rev_payload study) ++ sc_limitations (rev_payload scenario)
  |} in
  validate_run_spec spec;;
  Ok spec.

(** ** Comparisons *)

Definition expected_slot (comparison : ComparisonPlan) : string :=
  if startswith "extension:" (cmp_primary_variable comparison) then "extensions"
  else cmp_primary_variable comparison.

(** [{variant.id: variant for variant in variants}[id]]. *)
Definition variant_by_id (study : Revision StudySpec) (id : string) : result VariantSpec :=
  require (find_first (λ v, va_id v ==b id) (rev (study_variants (rev_payload study)))) (KeyError id).

Definition validate_comparison (study : Revision StudySpec) (scenario_ref : ContractRef)
    (comparison : ComparisonPlan) : result unit :=
  baseline_variant ← variant_by_id study (cmp_baseline_variant comparison);
  baseline ← materialize study scenario_ref baseline_variant 1;
  candidate_variant ← variant_by_id study (cmp_candidate_variant comparison);
  candidate ← materialize study scenario_ref candidate_variant 1;
  let changed := changed_slots baseline candidate in
  let expected := expected_slot comparison in
  raise_when (study_evidence_mode (rev_payload study) ==b PROSPECTIVE_CONTROLLED
              && negb (same_set changed [expected]))
    (rejected COMPILE_CONTROLLED_SLOTS_MISMATCH);;
  let unexplained := List.filter (λ slot, slot !=b expected) changed in
  raise_when (study_evidence_mode (rev_payload study) ==b EXPLORATORY
              && unexplained !=b [] && va_confounders candidate_variant ==b [])
    (rejected COMPILE_CONFOUNDER_MISSING).

Fixpoint validate_each (study : Revision StudySpec) (scenario_ref : ContractRef)
    (comparisons : list ComparisonPlan) : result unit :=
  match comparisons with
  | [] => Ok tt
  | c :: rest => validate_comparison study scenario_ref c;; validate_each study scenario_ref rest
  end.

(** A validated Study has a first scenario ([scenario_refs[0]]). *)
Definition validate_comparisons (study : Revision StudySpec) : result unit :=
  match study_comparisons (rev_payload study), study_scenario_refs (rev_payload study) with
  | [], _ => Ok tt
  | _, [] => Raise (ValueError "list index out of range")
  | comparisons, scenario_ref :: _ => validate_each study scenario_ref comparisons
  end.

(** [range(1, repetitions + 1)]. *)
Definition repetition_range (repetitions : Z) : list Z :=
  map (λ i, Z.of_nat i) (seq 1 (Z.to_nat repetitions)).

(** The cells of the three nested loops, in order. *)
Definition matrix (study : StudySpec) : list (ContractRef * VariantSpec * Z) :=
  flat_map (λ scenario_ref, flat_map (λ variant,
    map (λ repetition_index, (scenario_ref, variant, repetition_index))
      (repetition_range (study_repetitions study)))
    (study_variants study)) (study_scenario_refs study).

(** The loop that appends one RunSpec per cell and stops at the first refusal. *)
Fixpoint materialize_cells (study : Revision StudySpec)
    (cells : list (ContractRef * VariantSpec * Z)) : result (list RunSpec) :=
  match cells with
  | [] => Ok []
  | (scenario_ref, variant, repetition_index) :: rest =>
      spec ← materialize study scenario_ref variant repetition_index;
      specs ← materialize_cells study rest;
      Ok (spec :: specs)
  end.

Definition compile (study : Revision StudySpec) : result (list RunSpec) :=
  resolved_study ← resolve (rev_ref study);
  raise_when (as_study resolved_study ==b None) (rejected COMPILE_REVISION_NOT_STUDY);;
  validate_comparisons study;;
  materialize_cells study (matrix (rev_payload study)).

(** ** Disclosure compilers *)

Definition subject_sees (b : InputBinding) : bool :=
  ib_visibility b ∈b [VSubject; VSubjectAndEvaluator].
Definition evaluator_sees (b : InputBinding) : bool :=
  ib_visibility b ∈b [VEvaluator; VSubjectAndEvaluator].

Definition declared_visible_inputs (spec : RunSpec) : list InputBinding :=
  List.filter subject_sees (sc_input_bindings (spec_scenario spec)).

Definition changed_authority (materialized declared : InputBinding) : bool :=
  ib_role materialized !=b ib_role declared
  || ib_visibility materialized !=b ib_visibility declared
  || ib_mount_access materialized !=b ib_mount_access declared
  || ib_mount_name materialized !=b ib_mount_name declared
  || ar_media_type (ib_source materialized) !=b ar_media_type (ib_source declared)
  || ar_classification (ib_source materialized) !=b ar_classification (ib_source declared).

Fixpoint check_materialized (declared inputs : list InputBinding) : result unit :=
  match inputs with
  | [] => Ok tt
  | m :: rest =>
      d ← require (find_first (λ b, ib_id b ==b ib_id m) (rev declared)) (KeyError (ib_id m));
      raise_when (changed_authority m d)
        (ValueError "materialized Subject input changed its declared authority metadata");;
      check_materialized declared rest
  end.

Definition public_dimension (disclosure : SubjectEvaluationDisclosure)
    (d : EvaluationDimension) : SubjectEvaluationDimension := {|
  sed_id := dim_id d;
  sed_description := dim_description d;
  sed_value_type := dim_value_type d;
  sed_minimum := if sd_include_scale disclosure then dim_minimum d else None;
  sed_maximum := if sd_include_scale disclosure then dim_maximum d else None;
  sed_anchors := if sd_include_anchors disclosure then dim_anchors d else []
|}.

Fixpoint dimensions_of (plan : EvaluationPlanSpec) (ids : list string)
    : result (list EvaluationDimension) :=
  match ids with
  | [] => Ok []
  | id :: rest =>
      d ← dimension_by_id plan id; ds ← dimensions_of plan rest; Ok (d :: ds)
  end.

Definition evaluation_guidance (spec : RunSpec) : result (option SubjectEvaluationGuidance) :=
  let plan := spec_evaluation_plan spec in
  let disclosure := ds_subject (plan_disclosure plan) in
  if sd_mode disclosure ==b DPreRun then
    ds ← dimensions_of plan (sd_dimension_ids disclosure);
    let g := {| seg_plan_ref := spec_evaluation_plan_ref spec;
                seg_dimensions := map (public_dimension disclosure) ds |} in
    validate_guidance_plan g;; Ok (Some g)
  else Ok None.

Definition compile_subject_envelope (spec : RunSpec) (admission : AdmissionRecord)
    (materialized_inputs : option (list InputBinding)) : result SubjectEnvelope :=
  raise_when (adm_run_spec_digest admission !=b spec_digest spec)
    (ValueError "admission does not belong to the RunSpec");;
  raise_when (adm_decision admission !=b AdmissionAdmitted)
    (ValueError "subject envelope cannot be created for rejected admission");;
  let declared := declared_visible_inputs spec in
  raise_when (spec_context_policy spec !=b None && materialized_inputs ==b None)
    (ValueError "context-limited RunSpec requires materialized Subject inputs");;
  let visible_inputs := default declared materialized_inputs in
  raise_when (negb (same_set (map ib_id visible_inputs) (map ib_id declared)))
    (ValueError "materialized Subject inputs must match visible scenario inputs");;
  check_materialized declared visible_inputs;;
  guidance ← evaluation_guidance spec;
  Ok {|
    se_run_spec_digest := spec_digest spec;
    se_goal := spec_goal spec;
    se_inputs := visible_inputs;
    se_interaction_protocol := spec_interaction_protocol spec;
    se_effective_capabilities :=
      List.filter (λ c, rc_status c ==b Resolved) (ri_capabilities (adm_resolved_inventory admission));
    se_workspace := {|
      sw_runtime_kind := ws_runtime_kind (spec_workspace spec);
      sw_mounts := map wm_name (ws_mounts (spec_workspace spec));
      sw_write_zones := ws_write_zones (spec_workspace spec);
      sw_network_mode := np_mode (ws_network_policy (spec_workspace spec));
      sw_external_effect_mode := ep_mode (ws_external_effect_policy (spec_workspace spec)) |};
    se_budgets := spec_budgets spec;
    se_stop_conditions := spec_stop_conditions spec;
    se_evaluation_guidance := guidance |}.

Definition compile_evaluator_envelope (spec : RunSpec) (stage_id : string)
    : result EvaluatorEnvelope :=
  stage ← require (find_stage (spec_evaluation_plan spec) stage_id)
    (ValueError "evaluation stage does not belong to the RunSpec");
  dimensions ← dimensions_of (spec_evaluation_plan spec) (st_output_dimensions stage);
  let e := {|
    ee_run_spec_digest := spec_digest spec;
    ee_plan_ref := spec_evaluation_plan_ref spec;
    ee_stage := stage;
    ee_dimensions := dimensions;
    ee_inputs := List.filter evaluator_sees (sc_input_bindings (spec_scenario spec));
    ee_hidden_input_refs := ds_hidden_input_refs (plan_disclosure (spec_evaluation_plan spec));
    ee_blinded_fields := bp_hidden_fields (plan_blinding_policy (spec_evaluation_plan spec)) |} in
  validate_evaluator_plan_ref e;; Ok e.

End compiler.

(** ** Lemmas on materialization *)

Section materialization.
Context `{PyRuntime} `{R : ContractResolver} (extensions : ExtensionRegistry).
Implicit Types study : Revision StudySpec.

Lemma materialize_fields study s v i spec :
  materialize extensions study s v i = Ok spec →
  spec_study_ref spec = rev_ref study ∧ spec_variant_id spec = va_id v
  ∧ spec_repetition_index spec = i ∧ validate_run_spec spec = Ok tt
  ∧ ∃ sc, resolve_typed as_scenario (or_else (vo_scenario_ref (va_overrides v)) s) = Ok sc
     ∧ spec_scenario_ref spec = rev_ref sc ∧ spec_scenario spec = rev_payload sc.
Proof.
  unfold materialize. intros Hm. inv_ok. cbn.
  repeat match goal with u : () |- _ => destruct u end. eauto 10.
Qed.

(** Two cells of one variant agree on every slot but the scenario's, and on that one
    too when they resolve the same scenario. *)
Lemma materialize_agree study s s' v i i' a b :
  materialize extensions study s v i = Ok a → materialize extensions study s' v i' = Ok b →
  Forall (λ slot, slot ≠ "scenario" → slot_value a slot = slot_value b slot) VARIANT_SLOTS.
Proof.
  unfold materialize. intros Ha Hb. inv_ok.
  repeat match goal with H1 : ?c = Ok _, H2 : ?c = Ok _ |- _ =>
    rewrite H1 in H2; injection H2 as H2; subst end.
  unfold VARIANT_SLOTS. repeat first [apply Forall_nil_2|apply Forall_cons_2; [done|]].
Qed.

Lemma materialize_agree_scenario study s v i i' a b :
  materialize extensions study s v i = Ok a → materialize extensions study s v i' = Ok b →
  Forall (λ slot, slot_value a slot = slot_value b slot) VARIANT_SLOTS.
Proof.
  intros Ha Hb. pose proof (materialize_agree _ _ _ _ _ _ _ _ Ha Hb) as Hs.
  apply materialize_fields in Ha as (_ & _ & _ & _ & sc & Hsc & E1 & E2).
  apply materialize_fields in Hb as (_ & _ & _ & _ & sc' & Hsc' & E1' & E2').
  rewrite Hsc in Hsc'. injection Hsc' as <-. eapply Forall_impl; [exact Hs|].
  intros slot Hx. destruct (decide (slot = "scenario")) as [->|]; [|by apply Hx].
  cbn. congruence.
Qed.

Lemma changed_slots_ext a b a' b' :
  Forall (λ slot, slot_value a slot = slot_value b slot ↔ slot_value a' slot = slot_value b' slot)
    VARIANT_SLOTS →
  changed_slots a b = changed_slots a' b'.
Proof.
  unfold changed_slots. induction 1 as [|slot l Hs _ IH]; [done|]. cbn. rewrite IH.
  by rewrite (bool_decide_ext _ _ Hs).
Qed.

Lemma filter_sublist {A} (p : A → bool) (l : list A) : List.filter p l `sublist_of` l.
Proof. induction l as [|x l IH]; cbn; [done|]. destruct (p x); by constructor. Qed.

Lemma changed_slots_singleton a b slot :
  same_set (changed_slots a b) [slot] = true → changed_slots a b = [slot].
Proof.
  rewrite same_set_true. intros Hs.
  assert (Hnd : NoDup (changed_slots a b)).
  { eapply sublist_NoDup; [|apply filter_sublist]. apply (proj1 (bool_decide_eq_true _)).
    vm_compute. reflexivity. }
  destruct (changed_slots a b) as [|x [|y l]].
  - pose proof (proj2 (Hs slot) ltac:(left)) as Hx. by apply elem_of_nil in Hx.
  - f_equal. by apply list_elem_of_singleton, Hs; left.
  - assert (x = slot) by (apply list_elem_of_singleton, Hs; left).
    assert (y = slot) by (apply list_elem_of_singleton, Hs; right; left).
    subst. apply NoDup_cons in Hnd as [[] _]. left.
Qed.

Lemma validate_each_ok study s comparisons c :
  validate_each extensions study s comparisons = Ok tt → c ∈ comparisons →
  validate_comparison extensions study s c = Ok tt.
Proof.
  induction comparisons as [|c' cs IH]; cbn; intros Hv Hc; [by apply elem_of_nil in Hc|].
  inv_ok. apply elem_of_cons in Hc as [->|Hc]; [by destruct x|by apply IH].
Qed.

Lemma variant_by_id_elem study id v :
  variant_by_id study id = Ok v → v ∈ study_variants (rev_payload study) ∧ va_id v = id.
Proof.
  unfold variant_by_id. intros Hv. inv_ok. apply find_first_Some in Hv as [Hv Hid]. bools.
  split; [|done]. by rewrite list_elem_of_In, in_rev, <- list_elem_of_In.
Qed.

Lemma validate_comparison_controlled study s c bv cv :
  validate_comparison extensions study s c = Ok tt →
  variant_by_id study (cmp_baseline_variant c) = Ok bv →
  variant_by_id study (cmp_candidate_variant c) = Ok cv →
  study_evidence_mode (rev_payload study) = PROSPECTIVE_CONTROLLED →
  ∃ b0 c0, materialize extensions study s bv 1 = Ok b0 ∧ materialize extensions study s cv 1 = Ok c0
    ∧ same_set (changed_slots b0 c0) [expected_slot c] = true.
Proof.
  unfold validate_comparison. intros Hv Hb Hc Hm. rewrite Hb, Hc, Hm in Hv.
  apply bind_ok in Hv as (? & [= <-] & Hv). apply bind_ok in Hv as (b0 & Hb0 & Hv).
  apply bind_ok in Hv as (? & [= <-] & Hv). apply bind_ok in Hv as (c0 & Hc0 & Hv).
  apply bind_ok in Hv as (u & Hg & _). apply raise_when_ok in Hg.
  exists b0, c0. split_and!; [done..|].
  change (bool_decide (PROSPECTIVE_CONTROLLED = PROSPECTIVE_CONTROLLED)) with true in Hg.
  cbn [andb] in Hg. by apply negb_false_iff.
Qed.

(** In a matrix with several scenarios no variant replaces the scenario. *)
Lemma no_scenario_override study v :
  validate_matrix (rev_payload study) = Ok tt →
  (1 < length (study_scenario_refs (rev_payload study)))%nat →
  v ∈ study_variants (rev_payload study) → vo_scenario_ref (va_overrides v) = None.
Proof.
  unfold validate_matrix. intros Hv Hl Hin. inv_ok.
  match goal with H : (_ <? _) && existsb _ (study_variants _) = false |- _ => rename H into Ho end.
  rewrite (proj2 (Nat.ltb_lt _ _) Hl) in Ho. cbn [andb] in Ho. rewrite existsb_false in Ho.
  specialize (Ho v Hin). by bools.
Qed.

(** The changed slots of two variants are the same in every cell of the matrix. *)
Lemma changed_slots_uniform study s s' bv cv i j i' j' b c b' c' :
  validate_matrix (rev_payload study) = Ok tt →
  s ∈ study_scenario_refs (rev_payload study) → s' ∈ study_scenario_refs (rev_payload study) →
  bv ∈ study_variants (rev_payload study) → cv ∈ study_variants (rev_payload study) →
  materialize extensions study s bv i = Ok b → materialize extensions study s cv j = Ok c →
  materialize extensions study s' bv i' = Ok b' → materialize extensions study s' cv j' = Ok c' →
  changed_slots b c = changed_slots b' c'.
Proof.
  intros Hval Hs Hs' Hbv Hcv Hb Hc Hb' Hc'. apply changed_slots_ext.
  pose proof (materialize_agree _ _ _ _ _ _ _ _ Hb Hb') as Hbb.
  pose proof (materialize_agree _ _ _ _ _ _ _ _ Hc Hc') as Hcc.
  rewrite Forall_forall in Hbb, Hcc. apply Forall_forall. intros slot Hslot.
  destruct (decide (slot = "scenario")) as [->|Hne].
  2:{ by rewrite (Hbb _ Hslot Hne), (Hcc _ Hslot Hne). }
  destruct (decide (s = s')) as [<-|Hss].
  - pose proof (materialize_agree_scenario _ _ _ _ _ _ _ Hb Hb') as Ebb.
    pose proof (materialize_agree_scenario _ _ _ _ _ _ _ Hc Hc') as Ecc.
    rewrite Forall_forall in Ebb, Ecc. by rewrite (Ebb _ Hslot), (Ecc _ Hslot).
  - assert (Hl : (1 < length (study_scenario_refs (rev_payload study)))%nat).
    { destruct (study_scenario_refs (rev_payload study)) as [|x [|y l]]; cbn;
        [by apply elem_of_nil in Hs| |lia].
      apply list_elem_of_singleton in Hs, Hs'. congruence. }
    pose proof (no_scenario_override _ _ Hval Hl Hbv) as Eb.
    pose proof (no_scenario_override _ _ Hval Hl Hcv) as Ec.
    apply materialize_fields in Hb as (_ & _ & _ & _ & x1 & R1 & A1 & B1).
    apply materialize_fields in Hc as (_ & _ & _ & _ & x2 & R2 & A2 & B2).
    apply materialize_fields in Hb' as (_ & _ & _ & _ & x3 & R3 & A3 & B3).
    apply materialize_fields in Hc' as (_ & _ & _ & _ & x4 & R4 & A4 & B4).
    rewrite Eb in R1, R3. rewrite Ec in R2, R4. cbn in R1, R2, R3, R4.
    rewrite R1 in R2. injection R2 as <-. rewrite R3 in R4. injection R4 as <-.
    cbn. rewrite A1, A2, A3, A4, B1, B2, B3, B4. done.
Qed.

Lemma materialize_cells_spec study cells specs :
  materialize_cells extensions study cells = Ok specs ↔
  Forall2 (λ '(s, v, i) spec, materialize extensions study s v i = Ok spec) cells specs.
Proof.
  revert specs. induction cells as [|[[s v] i] cells IH]; intros specs; cbn.
  - split; [intros [= <-]; constructor|]. by inversion 1.
  - split.
    + intros Hm. inv_ok. constructor; [done|]. by apply IH.
    + inversion 1 as [|? spec ? specs' Hm Hr]; subst. rewrite Hm. cbn.
      apply IH in Hr. by rewrite Hr.
Qed.

End materialization.

(** ** The matrix *)

Lemma repetition_range_NoDup n : NoDup (repetition_range n).
Proof. apply NoDup_fmap_2; [intros x y; lia|]. apply NoDup_seq. Qed.

Lemma repetition_range_length n : length (repetition_range n) = Z.to_nat n.
Proof. unfold repetition_range. by rewrite length_map, length_seq. Qed.

Lemma flat_map_length_const {A B} (f : A → list B) l k :
  (∀ x, length (f x) = k) → length (flat_map f l) = (length l * k)%nat.
Proof. intros Hf. induction l as [|x l IH]; cbn; [done|]. rewrite length_app, Hf, IH. lia. Qed.

Lemma matrix_length study :
  length (matrix study) = (length (study_scenario_refs study) * length (study_variants study)
                           * Z.to_nat (study_repetitions study))%nat.
Proof.
  unfold matrix. rewrite (flat_map_length_const _ _
    (length (study_variants study) * Z.to_nat (study_repetitions study))); [lia|].
  intros s. apply flat_map_length_const. intros v. by rewrite length_map, repetition_range_length.
Qed.

Lemma flat_map_NoDup {A B} (f : A → list B) l :
  NoDup l → (∀ x, x ∈ l → NoDup (f x)) →
  (∀ x y z, x ∈ l → y ∈ l → z ∈ f x → z ∈ f y → x = y) → NoDup (flat_map f l).
Proof.
  induction 1 as [|x l Hx Hl IH]; intros Hf Hd; cbn; [constructor|].
  apply NoDup_app. split_and!.
  - apply Hf. left.
  - intros z Hz (y & Hy & Hzy)%list_elem_of_In%in_flat_map.
    apply list_elem_of_In in Hy, Hzy. apply Hx.
    rewrite (Hd x y z); [done|left|by right|done..].
  - apply IH; [intros y Hy; apply Hf; by right|].
    intros y1 y2 z ? ? ? ?. apply (Hd y1 y2 z); [by right|by right|done..].
Qed.

Lemma map_flat_map {A B C} (g : B → C) (f : A → list B) l :
  map g (flat_map f l) = flat_map (λ x, map g (f x)) l.
Proof. induction l as [|x l IH]; cbn; [done|]. by rewrite map_app, IH. Qed.

Lemma flat_map_ext_elem {A B} (f g : A → list B) l :
  (∀ x, x ∈ l → f x = g x) → flat_map f l = flat_map g l.
Proof.
  induction l as [|x l IH]; intros Hfg; cbn; [done|]. rewrite Hfg by left.
  f_equal. apply IH. intros y Hy. apply Hfg. by right.
Qed.

(** The coordinates under which a cell's RunSpec is known. *)
Definition cell_coordinates (c : ContractRef * VariantSpec * Z) : ContractRef * string * Z :=
  let '(s, v, i) := c in (or_else (vo_scenario_ref (va_overrides v)) s, va_id v, i).

Definition spec_coordinates (spec : RunSpec) : ContractRef * string * Z :=
  (spec_scenario_ref spec, spec_variant_id spec, spec_repetition_index spec).

Lemma map_fmap_Z (s : ContractRef) (id : string) (l : list Z) :
  NoDup l → NoDup (map (λ i, (s, id, i)) l).
Proof. apply NoDup_fmap_2. intros x y; congruence. Qed.

Lemma matrix_coordinates_NoDup (study : Revision StudySpec) :
  validate_matrix (rev_payload study) = Ok tt →
  NoDup (map cell_coordinates (matrix (rev_payload study))).
Proof.
  intros Hv. pose proof (no_scenario_override study) as Hno. specialize (λ v, Hno v Hv).
  assert (Hids : NoDup (map va_id (study_variants (rev_payload study))) ∧
    NoDup (study_scenario_refs (rev_payload study))).
  { unfold validate_matrix in Hv. inv_ok. by rewrite !has_duplicates_false in *. }
  destruct Hids as [Hids Hrefs]. unfold matrix. rewrite map_flat_map.
  set (variants := study_variants (rev_payload study)) in *.
  set (refs := study_scenario_refs (rev_payload study)) in *.
  assert (Hcells : ∀ s, map cell_coordinates (flat_map (λ v, map (λ i, (s, v, i))
      (repetition_range (study_repetitions (rev_payload study)))) variants)
    = flat_map (λ v, map (λ i, (or_else (vo_scenario_ref (va_overrides v)) s, va_id v, i))
      (repetition_range (study_repetitions (rev_payload study)))) variants).
  { intros s. rewrite map_flat_map. apply flat_map_ext_elem. intros v _. by rewrite map_map. }
  apply flat_map_NoDup; [done| |].
  - intros s _. rewrite Hcells. apply flat_map_NoDup.
    + by eapply NoDup_fmap_1.
    + intros v _. apply map_fmap_Z, repetition_range_NoDup.
    + intros v w z Hvv Hw (i & -> & _)%list_elem_of_fmap (j & E & _)%list_elem_of_fmap.
      injection E as _ E _. apply list_elem_of_lookup_1 in Hvv as [a Ha], Hw as [b Hb].
      assert (a = b) as ->; [|congruence].
      eapply NoDup_lookup; [exact Hids| |]; rewrite list_lookup_fmap;
        [by rewrite Ha|by rewrite Hb, E].
  - intros s t z Hs Ht Hz Hz'. destruct (decide (length refs ≤ 1)%nat) as [Hl|Hl].
    { destruct refs as [|x [|? ?]]; cbn in Hl; [by apply elem_of_nil in Hs| |lia].
      apply list_elem_of_singleton in Hs, Ht. congruence. }
    rewrite Hcells in Hz, Hz'.
    apply list_elem_of_In, in_flat_map in Hz as (v & Hv1 & Hz), Hz' as (w & Hw1 & Hz').
    rewrite <- !list_elem_of_In in *.
    rewrite (Hno v) in Hz by (lia || done). rewrite (Hno w) in Hz' by (lia || done).
    apply list_elem_of_fmap in Hz as (i & -> & _), Hz' as (j & E & _). by injection E.
Qed.

(** ** Properties *)

Section properties.
Context `{PyRuntime} `{R : ContractResolver} `{!ResolverLaws R} (extensions : ExtensionRegistry).

Lemma resolve_typed_inv {P} (as_ : AuthoringRevision → option (Revision P)) ref r :
  resolve_typed as_ ref = Ok r → ∃ a, resolve ref = Ok a ∧ as_ a = Some r ∧ revision_ref a = ref.
Proof.
  unfold resolve_typed. intros Hr. inv_ok. eexists. split_and!; [done..|]. by apply resolve_exact.
Qed.

Lemma materialize_coordinates study s v i spec :
  materialize extensions study s v i = Ok spec → spec_coordinates spec = cell_coordinates (s, v, i).
Proof.
  intros (_ & E2 & E3 & _ & sc & Hsc & E4 & _)%materialize_fields.
  unfold spec_coordinates; cbn. rewrite E2, E3, E4.
  apply resolve_typed_inv in Hsc as (a & _ & Ha & <-). by destruct a; cbn in Ha; simplify_eq.
Qed.

Lemma compile_cells study specs :
  compile extensions study = Ok specs →
  Forall2 (λ '(s, v, i) spec, materialize extensions study s v i = Ok spec)
    (matrix (rev_payload study)) specs ∧ validate_comparisons extensions study = Ok tt.
Proof.
  unfold compile. intros Hc. inv_ok. repeat match goal with u : () |- _ => destruct u end.
  split; [|done]. by apply materialize_cells_spec.
Qed.

(** The part of [RunSpec] a resolver must give back for its references. *)
Definition pinned (spec : RunSpec) : Prop :=
  (∃ r, resolve (spec_goal_ref spec) = Ok (GoalRevision r) ∧ spec_goal spec = rev_payload r)
  ∧ (∃ r, resolve (spec_scenario_ref spec) = Ok (ScenarioRevision r)
       ∧ spec_scenario spec = rev_payload r)
  ∧ (∃ r, resolve (spec_agent_inventory_ref spec) = Ok (AgentInventoryRevision r)
       ∧ spec_agent_inventory spec = rev_payload r)
  ∧ (∃ r, resolve (spec_workspace_template_ref spec) = Ok (WorkspaceTemplateRevision r)
       ∧ spec_workspace spec = rev_payload r)
  ∧ (∃ r, resolve (spec_interaction_protocol_ref spec) = Ok (InteractionProtocolRevision r)
       ∧ spec_interaction_protocol spec = rev_payload r)
  ∧ (∃ r, resolve (spec_evaluation_plan_ref spec) = Ok (EvaluationPlanRevision r)
       ∧ spec_evaluation_plan spec = rev_payload r)
  ∧ (∀ c, spec_checkpoint_policy_ref spec = Some c →
       ∃ r, resolve c = Ok (CheckpointPolicyRevision r)
            ∧ spec_checkpoint_policy spec = Some (rev_payload r))
  ∧ (∀ c, spec_progress_artifact_policy_ref spec = Some c →
       ∃ r, resolve c = Ok (ProgressArtifactPolicyRevision r)
            ∧ spec_progress_artifact_policy spec = Some (rev_payload r)).

(** Close a reference's goal with the resolution that produced the payload [x]. *)
Ltac pin_from H :=
  let a := fresh in let Hr := fresh in let Ha := fresh in let Href := fresh in
  apply resolve_typed_inv in H as (a & Hr & Ha & Href);
  destruct a; cbn in Ha; try discriminate Ha; injection Ha as ->;
  cbn in Href; rewrite ?Href; eexists; split; [exact Hr|done].
Ltac pin := match goal with
  | H : resolve_typed _ _ = Ok ?x |- ∃ r, resolve (rev_ref ?x) = _ ∧ _ => pin_from H
  | H : resolve_typed _ ?c = Ok ?x |- ∃ r, resolve ?c = _ ∧ _ => pin_from H
  end.

Lemma resolve_checkpoint_inv c p :
  resolve_checkpoint (Some c) = Ok p →
  ∃ r, resolve c = Ok (CheckpointPolicyRevision r) ∧ p = Some (rev_payload r).
Proof. cbn. intros Hp. inv_ok. pin. Qed.

Lemma resolve_progress_inv c checkpoint p :
  resolve_progress (Some c) checkpoint = Ok p →
  ∃ r, resolve c = Ok (ProgressArtifactPolicyRevision r) ∧ p = Some (rev_payload r).
Proof. cbn. intros Hp. inv_ok. pin. Qed.

Lemma materialize_pinned study s v i spec :
  materialize extensions study s v i = Ok spec → pinned spec.
Proof.
  unfold materialize. intros Hm. inv_ok. unfold pinned; cbn.
  repeat match goal with |- _ ∧ _ => split end; try pin; intros c Hc; rewrite Hc in *.
  - by eapply resolve_checkpoint_inv.
  - by eapply resolve_progress_inv.
Qed.

End properties.

(** C26: a compiled Study has exactly one RunSpec per cell scenario x variant x
    repetition, in that order; each carries the coordinates of its cell (the scenario an
    override selects, where it does), is a valid RunSpec of this Study, and no two share
    their coordinates. *)
Theorem compile_covers_matrix `{PyRuntime} `{R : ContractResolver} `{!ResolverLaws R}
    extensions (study : Revision StudySpec) specs :
  validate_matrix (rev_payload study) = Ok tt → compile extensions study = Ok specs →
  length specs = (length (study_scenario_refs (rev_payload study))
    * length (study_variants (rev_payload study))
    * Z.to_nat (study_repetitions (rev_payload study)))%nat
  ∧ map spec_coordinates specs = map cell_coordinates (matrix (rev_payload study))
  ∧ NoDup (map spec_coordinates specs)
  ∧ ∀ spec, spec ∈ specs → spec_study_ref spec = rev_ref study ∧ validate_run_spec spec = Ok tt.
Proof.
  intros Hv [Hc _]%compile_cells.
  assert (Hm : map spec_coordinates specs = map cell_coordinates (matrix (rev_payload study))).
  { induction Hc as [|[[s v] i] spec cells specs Hs _ IH]; [done|]. cbn [map].
    rewrite IH. f_equal. by eapply materialize_coordinates. }
  split_and!.
  - by rewrite <- matrix_length, (Forall2_length _ _ _ Hc).
  - done.
  - rewrite Hm. by apply matrix_coordinates_NoDup.
  - intros spec (i & Hi)%list_elem_of_lookup.
    destruct (Forall2_lookup_r _ _ _ _ _ Hc Hi) as ([[s v] j] & _ & Hs).
    apply materialize_fields in Hs. tauto.
Qed.

(** Compilation pins exact content: every reference of a compiled RunSpec resolves to
    a revision of the right kind whose payload is the one embedded in the RunSpec. *)
Theorem compile_pins_revisions `{PyRuntime} `{R : ContractResolver} `{!ResolverLaws R}
    extensions (study : Revision StudySpec) specs spec :
  compile extensions study = Ok specs → spec ∈ specs → pinned spec.
Proof.
  intros [Hc _]%compile_cells (i & Hi)%list_elem_of_lookup.
  destruct (Forall2_lookup_r _ _ _ _ _ Hc Hi) as ([[s v] j] & _ & Hs).
  by eapply materialize_pinned.
Qed.

(** C27: a controlled comparison isolates its primary variable everywhere: although the
    compiler only compares the first scenario's first repetition, in every scenario and
    for every pair of repetitions the two variants' RunSpecs differ in exactly the slot
    of the primary variable. *)
Theorem compile_controlled_isolates `{PyRuntime} `{R : ContractResolver}
    extensions (study : Revision StudySpec) specs comparison s i j bv cv b c :
  validate_matrix (rev_payload study) = Ok tt → compile extensions study = Ok specs →
  study_evidence_mode (rev_payload study) = PROSPECTIVE_CONTROLLED →
  comparison ∈ study_comparisons (rev_payload study) →
  s ∈ study_scenario_refs (rev_payload study) →
  variant_by_id study (cmp_baseline_variant comparison) = Ok bv →
  variant_by_id study (cmp_candidate_variant comparison) = Ok cv →
  materialize extensions study s bv i = Ok b → materialize extensions study s cv j = Ok c →
  changed_slots b c = [expected_slot comparison].
Proof.
  intros Hval [_ Hcmp]%compile_cells Hmode Hin Hs Hbv Hcv Hb Hc.
  unfold validate_comparisons in Hcmp.
  destruct (study_comparisons (rev_payload study)) as [|c0 cs] eqn:Ecs; [by apply elem_of_nil in Hin|].
  destruct (study_scenario_refs (rev_payload study)) as [|s0 refs] eqn:Er; [done|].
  apply (validate_each_ok _ _ _ _ comparison) in Hcmp; [|done].
  destruct (validate_comparison_controlled _ _ _ _ _ _ Hcmp Hbv Hcv Hmode)
    as (b0 & c0' & Hb0 & Hc0 & Hset).
  rewrite <- Er in *. rewrite (changed_slots_uniform extensions study s s0 bv cv i j 1 1 b c b0 c0');
    try done; [by apply changed_slots_singleton|rewrite Er; left|..].
  - by apply variant_by_id_elem in Hbv as [? _].
  - by apply variant_by_id_elem in Hcv as [? _].
Qed.

(** ** Disclosure *)

Lemma check_materialized_ok declared inputs m :
  check_materialized declared inputs = Ok tt → m ∈ inputs →
  ∃ d, d ∈ declared ∧ ib_id d = ib_id m ∧ changed_authority m d = false.
Proof.
  induction inputs as [|x inputs IH]; cbn; intros Hc Hm; [by apply elem_of_nil in Hm|]. inv_ok.
  apply elem_of_cons in Hm as [->|Hm]; [|by apply IH].
  match goal with H : find_first _ _ = Some ?d |- _ => apply find_first_Some in H as [Hd Hid] end.
  bools. eexists. split_and!; [|done..].
  by rewrite list_elem_of_In, in_rev, <- list_elem_of_In.
Qed.

Lemma dimensions_of_ids plan ids ds :
  dimensions_of plan ids = Ok ds → map dim_id ds = ids.
Proof.
  revert ds. induction ids as [|id ids IH]; cbn; intros ds Hd; inv_ok; [done|]. cbn.
  rewrite (IH _ H0). unfold dimension_by_id in H. inv_ok.
  apply find_first_Some in H as [_ Hid]. by bools; subst.
Qed.


Lemma dimension_by_id_total plan id :
  id ∈ map dim_id (plan_dimensions plan) → ∃ d, dimension_by_id plan id = Ok d.
Proof.
  intros (d & -> & Hd)%list_elem_of_fmap. unfold dimension_by_id.
  destruct (find_first _ _) as [d'|] eqn:E; [by exists d'|].
  rewrite find_first_None in E. specialize (E d).
  rewrite list_elem_of_In, <- in_rev, <- list_elem_of_In in E. specialize (E Hd). by bools.
Qed.

Lemma dimensions_of_total plan ids :
  subset_of ids (map dim_id (plan_dimensions plan)) = true → ∃ ds, dimensions_of plan ids = Ok ds.
Proof.
  rewrite subset_of_true. induction ids as [|id ids IH]; cbn; intros Hs; [by eexists|].
  destruct (dimension_by_id_total plan id) as [d Hd]; [apply Hs; left|].
  destruct IH as [ds Hds]; [intros x Hx; apply Hs; by right|]. rewrite Hd, Hds. by eexists.
Qed.

(** Every stage of a valid plan has an evaluator envelope: it is produced without
    error, carries exactly the stage's output dimensions, and exposes no input that is
    not declared visible to evaluators. *)
Theorem evaluator_envelope_total `{PyRuntime} spec stage :
  validate_run_spec spec = Ok tt →
  validate_evaluation_plan (spec_evaluation_plan spec) = Ok tt →
  stage ∈ plan_stages (spec_evaluation_plan spec) →
  ∃ e, compile_evaluator_envelope spec (st_id stage) = Ok e ∧ ee_stage e = stage
    ∧ map dim_id (ee_dimensions e) = st_output_dimensions stage
    ∧ (∀ b, b ∈ ee_inputs e ↔ b ∈ sc_input_bindings (spec_scenario spec)
         ∧ ib_visibility b ∈ [VEvaluator; VSubjectAndEvaluator]).
Proof.
  intros Hspec Hplan Hs. unfold compile_evaluator_envelope.
  assert (Hslot : cr_contract_type (spec_evaluation_plan_ref spec) = EVALUATION_PLAN).
  { unfold validate_run_spec in Hspec. inv_ok.
    match goal with H : existsb (λ '(_, _), _) _ = false |- _ => rename H into Hr end.
    rewrite existsb_false in Hr.
    specialize (Hr (spec_evaluation_plan_ref spec, EVALUATION_PLAN) ltac:(set_solver)).
    cbn in Hr. by bools. }
  unfold validate_evaluation_plan in Hplan. inv_ok. rewrite !has_duplicates_false in *.
  assert (Hf : find_stage (spec_evaluation_plan spec) (st_id stage) = Some stage).
  { unfold find_stage. destruct (find_first _ _) as [t|] eqn:E.
    - apply find_first_Some in E as [Ht Hid]. bools. f_equal.
      apply list_elem_of_lookup_1 in Ht as [a Ha], Hs as [b Hb].
      assert (a = b) as ->; [|congruence].
      eapply NoDup_lookup; [eassumption| |]; rewrite list_lookup_fmap;
        [rewrite Ha|rewrite Hb]; cbn; by rewrite ?Hid.
    - rewrite find_first_None in E. specialize (E _ Hs). by bools. }
  rewrite Hf. cbn [require mbind result_bind].
  destruct (dimensions_of_total (spec_evaluation_plan spec) (st_output_dimensions stage)) as [ds Hds].
  { match goal with H : existsb _ (plan_stages _) = false |- _ => rewrite existsb_false in H;
      specialize (H _ Hs) end. by bools. }
  rewrite Hds. cbn [mbind result_bind]. apply dimensions_of_ids in Hds.
  unfold validate_evaluator_plan_ref; cbn. rewrite Hslot, Hds. cbn.
  rewrite (proj2 (same_set_true _ _)) by done. cbn. eexists. split_and!; [done..|].
  intros b. cbn. rewrite list_elem_of_In, filter_In, <- list_elem_of_In.
  unfold evaluator_sees. by rewrite bool_decide_eq_true.
Qed.

(** ** A concrete Study, compiled through the registry *)

Definition sample_revision {P} (id : string) (p : P) : Revision P := MkRevision id 1 "project" id p.

Definition sample_scenario_2 : ScenarioSpec :=
  MkScenarioSpec "Another incident." [sample_binding] [] [] [].

Definition sample_parts : list AuthoringRevision :=
  [GoalRevision (sample_revision "goal" sample_goal);
   ScenarioRevision (sample_revision "scenario" sample_scenario);
   ScenarioRevision (sample_revision "scenario_2" sample_scenario_2);
   AgentInventoryRevision (sample_revision "inventory" sample_inventory);
   WorkspaceTemplateRevision (sample_revision "workspace" sample_workspace);
   InteractionProtocolRevision (sample_revision "protocol" sample_protocol);
   EvaluationPlanRevision (sample_revision "plan" sample_plan)].

Definition no_overrides : VariantOverrides :=
  MkVariantOverrides None None None None None None None None None None None None None.

Definition sample_extension : ExtensionRef :=
  MkExtensionRef "lab" "notes" sample_artifact "1" sample_artifact (digest_of "b") INTERNAL false.

Definition sample_blueprint (extensions : list ExtensionRef) : RunBlueprint :=
  MkRunBlueprint (rev_ref (sample_revision "inventory" sample_inventory))
    (rev_ref (sample_revision "workspace" sample_workspace))
    (rev_ref (sample_revision "protocol" sample_protocol))
    (rev_ref (sample_revision "plan" sample_plan)) None None None sample_budgets sample_stops
    sample_capture extensions.

Definition sample_study_of (mode : EvidenceMode) (extensions : list ExtensionRef)
    (variants : list VariantSpec) (comparisons : list ComparisonPlan) : Revision StudySpec :=
  sample_revision "study" (MkStudySpec
    (MkStudyIntent "Compare." ["Does it help?"] None None (MkIntentScope [] []) [])
    mode (rev_ref (sample_revision "goal" sample_goal))
    [rev_ref (sample_revision "scenario" sample_scenario);
     rev_ref (sample_revision "scenario_2" sample_scenario_2)]
    (sample_blueprint extensions) variants 2 (MkSeedStrategy SeedPerRepetition None)
    comparisons [] []).

Definition candidate_overrides : VariantOverrides :=
  MkVariantOverrides None None None None None None None None
    (Some (MkContextPolicySpec "head" Head 100)) None None None None.

Definition sample_study : Revision StudySpec :=
  sample_study_of PROSPECTIVE_CONTROLLED []
    [MkVariantSpec "baseline" "Baseline" no_overrides [] None;
     MkVariantSpec "candidate" "Candidate" candidate_overrides [] None]
    [MkComparisonPlan "baseline" "candidate" "context_policy"].

Definition fixture_decision (r : AuthoringRevision) : RevisionDecisionRecord :=
  MkDecisionRecord (revision_ref r) Accepted (RepositoryFixture (digest_of "c")) "fixture" 0.

(** The registry after importing [revisions] as fixtures. *)
Definition import_fixtures (revisions : list AuthoringRevision) : result Registry :=
  fold_res (λ s r, add_accepted unavailable_verify true r (fixture_decision r) s)
    empty_registry revisions.

Definition sample_registry : Registry :=
  value_of empty_registry (import_fixtures (sample_parts ++ [StudyRevision sample_study])).

Lemma import_fixtures_steps revisions s s' :
  fold_res (λ s r, add_accepted unavailable_verify true r (fixture_decision r) s) s revisions = Ok s' →
  reg_steps unavailable_verify true s s'.
Proof.
  revert s. induction revisions as [|r rs IH]; intros s; cbn; intros Hf; inv_ok; [done|].
  unfold add_accepted in *. inv_ok. eapply rtc_l; [by eapply step_add|].
  eapply rtc_l; [by eapply step_decide|]. by apply IH.
Qed.

Lemma sample_registry_import :
  import_fixtures (sample_parts ++ [StudyRevision sample_study]) = Ok sample_registry.
Proof. apply value_of_ok. vm_compute. reflexivity. Qed.

Lemma sample_registry_reachable : reg_steps unavailable_verify true empty_registry sample_registry.
Proof. apply (import_fixtures_steps _ _ _ sample_registry_import). Qed.

#[local] Instance sample_resolver : ContractResolver := registry_resolver sample_registry.
#[local] Instance sample_resolver_laws : ResolverLaws sample_resolver.
Proof.
  apply (registry_resolve_exact unavailable_verify true).
  apply (reg_inv_steps _ _ _ _ (reg_inv_empty _ _) sample_registry_reachable).
Qed.

Definition sample_specs : list RunSpec := Eval vm_compute in
  value_of [] (compile [] sample_study).

Lemma sample_compiled : compile [] sample_study = Ok sample_specs.
Proof. vm_compute. reflexivity. Qed.

Lemma sample_matrix_valid : validate_matrix (rev_payload sample_study) = Ok tt.
Proof. vm_compute. reflexivity. Qed.

Definition sample_cell (n : nat) : RunSpec := nth n sample_specs sample_spec.

Lemma sample_cell_elem n : (n < 8)%nat → sample_cell n ∈ sample_specs.
Proof.
  intros Hn. unfold sample_cell. apply list_elem_of_In, (nth_In sample_specs sample_spec).
  destruct (compile_cells _ _ _ sample_compiled) as [Hf _].
  rewrite <- (Forall2_length _ _ _ Hf). vm_compute. lia.
Qed.

Lemma compile_covers_matrix_witness :
  length sample_specs = 8%nat ∧ NoDup (map spec_coordinates sample_specs).
Proof.
  destruct (compile_covers_matrix [] sample_study sample_specs sample_matrix_valid sample_compiled)
    as (Hl & _ & Hn & _).
  split; [rewrite Hl; vm_compute; reflexivity|exact Hn].
Defined.

Lemma compile_pins_revisions_witness : pinned (sample_cell 0).
Proof.
  apply (compile_pins_revisions [] sample_study sample_specs); [exact sample_compiled|].
  apply sample_cell_elem. lia.
Defined.

Definition baseline_variant : VariantSpec := MkVariantSpec "baseline" "Baseline" no_overrides [] None.
Definition candidate_variant : VariantSpec :=
  MkVariantSpec "candidate" "Candidate" candidate_overrides [] None.
Definition second_ref : ContractRef := rev_ref (sample_revision "scenario_2" sample_scenario_2).
Definition cell_spec (v : VariantSpec) (i : Z) : RunSpec :=
  value_of sample_spec (materialize [] sample_study second_ref v i).

Lemma cell_spec_ok v i :
  is_ok (materialize [] sample_study second_ref v i) = true →
  materialize [] sample_study second_ref v i = Ok (cell_spec v i).
Proof. intros Hm. unfold cell_spec. exact (value_of_ok sample_spec _ Hm). Qed.

Lemma compile_controlled_isolates_witness :
  changed_slots (cell_spec baseline_variant 1) (cell_spec candidate_variant 2) = ["context_policy"].
Proof.
  apply (compile_controlled_isolates [] sample_study sample_specs
    (MkComparisonPlan "baseline" "candidate" "context_policy") second_ref 1 2
    baseline_variant candidate_variant).
  - exact sample_matrix_valid.
  - exact sample_compiled.
  - reflexivity.
  - left.
  - right. left.
  - reflexivity.
  - reflexivity.
  - apply cell_spec_ok. vm_compute. reflexivity.
  - apply cell_spec_ok. vm_compute. reflexivity.
Defined.

Definition sample_admission : AdmissionRecord :=
  MkAdmissionRecord ("run-spec:" +:+ spec_digest sample_spec) (spec_digest sample_spec) AdmissionAdmitted
    (MkResolvedAgentInventory (sample_ref AGENT_INVENTORY "inventory") sample_runner
       None None None None None [] []) Resolved Resolved [] [] [] [] None 0.

Definition sample_envelope_of : SubjectEnvelope :=
  value_of (MkSubjectEnvelope "" sample_goal [] sample_protocol []
      (MkSubjectWorkspace "" [] [] NetDisabled EffDenied) sample_budgets [] None)
    (compile_subject_envelope sample_spec sample_admission None).


Lemma evaluator_envelope_total_witness :
  ∃ e, compile_evaluator_envelope sample_spec "grade" = Ok e ∧ ee_stage e = sample_stage
    ∧ map dim_id (ee_dimensions e) = ["correct"]
    ∧ (∀ b, b ∈ ee_inputs e ↔ b ∈ [sample_binding; sample_hidden_binding]
         ∧ ib_visibility b ∈ [VEvaluator; VSubjectAndEvaluator]).
Proof.
  apply (evaluator_envelope_total sample_spec sample_stage);
    [exact sample_spec_valid|exact sample_plan_valid|left].
Defined.

(** ** What the digest of a Study does not see *)

Definition override_study (override : option (list ExtensionRef)) : Revision StudySpec :=
  sample_study_of EXPLORATORY [sample_extension]
    [MkVariantSpec "only" "Only" (MkVariantOverrides None None None None None None None None None
       None None None override) [] None] [].

Definition override_specs (override : option (list ExtensionRef)) : result (list RunSpec) :=
  s ← import_fixtures (sample_parts ++ [StudyRevision (override_study override)]);
  compile (H0 := registry_resolver s) [] (override_study override).

(** A variant that overrides the extensions with none and a variant that inherits the
    blueprint's have one semantic document, hence one Study digest and one reference,
    yet they compile to different RunSpecs: the override is not part of the identity. *)
Theorem empty_override_shares_digest :
  override_study None ≠ override_study (Some [])
  ∧ digest_document (override_study None) = digest_document (override_study (Some []))
  ∧ rev_ref (override_study None) = rev_ref (override_study (Some []))
  ∧ map spec_extensions <$> override_specs None = Ok (repeat [sample_extension] 4)
  ∧ map spec_extensions <$> override_specs (Some []) = Ok (repeat [] 4).
Proof.
  repeat match goal with |- _ ∧ _ => split end.
  - intros E. apply (f_equal (λ s, map (λ v, vo_extensions (va_overrides v))
      (study_variants (rev_payload s)))) in E. discriminate E.
  - vm_compute. reflexivity.
  - vm_compute. reflexivity.
  - vm_compute. reflexivity.
  - vm_compute. reflexivity.
Qed.
