(* ===== verification/Sealing.v ===== *)
(** * Sealed revision sets (src/src/evidrun/contracts/execution_trust.py, lines 192-407).

    [seal] collects the closed set of revisions a Study depends on; the
    [sealed_resolver] answers only from such a set; [compile_execution_revision_set]
    reproduces the RunSpec matrix from a set and its revisions, and the two lineage
    checks bind trust records and review targets to that matrix.

    The sealed resolver is the second implementation of the [ContractResolver] interface
    of Registry.v: [sealed_resolver_laws] discharges the interface's law, so the theorems
    of Compiler.v apply to a compilation from a sealed set. *)

From S2P Require Import Prelude PyText PyJson Base Authoring Runtime Triage Trust Samples Registry Compiler.

Section sealing.
Context `{PyRuntime}.

(** ** SealedContractResolver *)

(** [{_identity_key(revision.ref): revision for revision in revisions}]: a later
    revision replaces an earlier one of the same identity. *)
Definition by_identity (revisions : list AuthoringRevision) : gmap RevisionKey AuthoringRevision :=
  foldl (λ m revision, <[identity_key (revision_ref revision) := revision]> m) ∅ revisions.

(** [__init__]: the keys of the map must be the identities of the set. *)
Definition sealed_revisions (revision_set : ExecutionRevisionSet)
    (revisions : list AuthoringRevision) : result (gmap RevisionKey AuthoringRevision) :=
  let expected : gset RevisionKey :=
    list_to_set (map identity_key (rset_revision_refs revision_set)) in
  raise_when (dom (by_identity revisions) !=b expected)
    (ValueError "sealed resolver revisions do not match the revision set");;
  Ok (by_identity revisions).

Definition sealed_resolver (m : gmap RevisionKey AuthoringRevision) : ContractResolver :=
  λ reference,
    revision ← require (m !! identity_key reference)
      (KeyError ("revision is outside the sealed set: " +:+ cr_logical_id reference
                 +:+ "@" +:+ pretty (cr_revision reference)));
    raise_when (revision_ref revision !=b reference)
      (ValueError "sealed contract reference digest mismatch");;
    Ok revision.

Record SealedStudy := MkSealedStudy {
  sealed_set : ExecutionRevisionSet;
  sealed_list : list AuthoringRevision;
  sealed_map : gmap RevisionKey AuthoringRevision
}.

(** ** ExecutionRevisionSetSealer *)

Definition typed_slots (study : Revision StudySpec) : list (option ContractRef * ContractType) :=
  let payload := rev_payload study in
  let blueprint := study_run_blueprint payload in
  [(Some (study_goal_ref payload), GOAL)]
  ++ map (λ reference, (Some reference, SCENARIO)) (study_scenario_refs payload)
  ++ [(Some (rb_agent_inventory_ref blueprint), AGENT_INVENTORY);
      (Some (rb_workspace_template_ref blueprint), WORKSPACE_TEMPLATE);
      (Some (rb_interaction_protocol_ref blueprint), INTERACTION_PROTOCOL);
      (Some (rb_evaluation_plan_ref blueprint), EVALUATION_PLAN);
      (rb_checkpoint_policy_ref blueprint, CHECKPOINT_POLICY);
      (rb_progress_artifact_policy_ref blueprint, PROGRESS_ARTIFACT_POLICY)]
  ++ flat_map (λ variant, override_slots (va_overrides variant)) (study_variants payload).

(** One turn of the collecting loop; the dictionary is its list of values, in insertion
    order. *)
Definition collect_one (collected : list ContractRef) (reference : option ContractRef)
    : result (list ContractRef) :=
  match reference with
  | None => Ok collected
  | Some reference =>
      match find_first (λ r, identity_key r ==b identity_key reference) collected with
      | Some existing =>
          raise_when (existing !=b reference)
            (ValueError "Study closure contains one identity with different digests");;
          Ok collected
      | None => Ok (collected ++ [reference])
      end
  end.

Definition collect_references (study : Revision StudySpec) : result (list ContractRef) :=
  raise_when (existsb (λ '(reference, expected), wrong_slot reference expected)
                (typed_slots study))
    (ValueError "Study closure contains an unsupported or cyclic contract ref");;
  fold_res collect_one [] (Some (rev_ref study) :: map fst (typed_slots study)).

Section sealer.
Context `{R : ContractResolver}.

(** The loop over the ordered references of one Project. *)
Fixpoint resolve_all (project_id : string) (references : list ContractRef)
    : result (list AuthoringRevision) :=
  match references with
  | [] => Ok []
  | reference :: rest =>
      revision ← resolve reference;
      raise_when (revision_ref revision !=b reference)
        (ValueError "resolved revision does not reproduce its reference");;
      raise_when (revision_project_id revision !=b project_id)
        (ValueError "execution revision set cannot cross a Project boundary");;
      revisions ← resolve_all project_id rest;
      Ok (revision :: revisions)
  end.

Definition seal (study : Revision StudySpec) : result SealedStudy :=
  resolved_root ← resolve (rev_ref study);
  raise_when (as_study resolved_root !=b Some study)
    (ValueError "Study root did not resolve to the exact registered revision");;
  references ← collect_references study;
  let ordered_refs := sort_refs references in
  revisions ← resolve_all (rev_project_id study) ordered_refs;
  let document := MkRevisionSet (rev_project_id study) (rev_ref study) ordered_refs in
  validate_closed_set document;;
  m ← sealed_revisions document revisions;
  Ok (MkSealedStudy document revisions m).
End sealer.

(** ** Reproduction *)

(** [StudyCompiler(resolver)] without an extension registry has the empty one. *)
Definition compile_execution_revision_set (revision_set : ExecutionRevisionSet)
    (revisions : list AuthoringRevision) : result (list RunSpec) :=
  m ← sealed_revisions revision_set revisions;
  root ← sealed_resolver m (rset_study_ref revision_set);
  study ← require (as_study root) (TypeError "execution revision-set root is not a StudyRevision");
  raise_when (rev_project_id study !=b rset_project_id revision_set)
    (ValueError "execution revision set cannot cross a Project boundary");;
  sealed ← seal (R := sealed_resolver m) study;
  raise_when (sealed_set sealed !=b revision_set)
    (ValueError "execution revision set does not reproduce from its Study");;
  compile (H0 := sealed_resolver (sealed_map sealed)) [] study.

(** [{spec.digest: spec for spec in specs}]. *)
Definition by_digest (specs : list RunSpec) : gmap string RunSpec :=
  foldl (λ m spec, <[spec_digest spec := spec]> m) ∅ specs.

Definition validate_execution_trust_lineage (record : ExecutionTrustRecord) (run_spec : RunSpec)
    (revisions : list AuthoringRevision) : result (list RunSpec) :=
  let revision_set := trust_revision_set record in
  validate_closed_set revision_set;;
  compiled ← compile_execution_revision_set revision_set revisions;
  raise_when (spec_digest run_spec !=b trust_run_spec_digest record
              || by_digest compiled !! trust_run_spec_digest record !=b Some run_spec)
    (ValueError "execution trust RunSpec was not compiled from its revision set");;
  Ok compiled.

(** [sorted(mapping)]: the keys in order. *)
Definition sorted_keys (m : gmap string RunSpec) : list string :=
  sorted_strings (map fst (map_to_list m)).

Definition validate_review_target_lineage (target : ReviewTarget)
    (records : list ExecutionTrustRecord) (run_specs : list RunSpec)
    (revisions : list AuthoringRevision) : result ReviewTarget :=
  root ← require (head records) (ValueError "ReviewTarget requires execution trust records");
  let revision_set := trust_revision_set root in
  validate_closed_set revision_set;;
  raise_when (rt_project_id target !=b trust_project_id root
      || rt_revision_set_digest target !=b trust_revision_set_digest root
      || revision_set_digest revision_set !=b rt_revision_set_digest target)
    (ValueError "ReviewTarget does not match its execution revision set");;
  raise_when (existsb (λ record, trust_project_id record !=b rt_project_id target
      || trust_study_ref record !=b trust_study_ref root
      || trust_revision_refs record !=b trust_revision_refs root
      || trust_revision_set_digest record !=b rt_revision_set_digest target) records)
    (ValueError "ReviewTarget trust records do not share one exact revision set");;
  compiled ← compile_execution_revision_set revision_set revisions;
  let compiled_by_digest := by_digest compiled in
  let expected := sorted_keys compiled_by_digest in
  raise_when (rt_run_spec_digests target !=b expected)
    (ValueError "ReviewTarget must contain the complete compiled RunSpec matrix");;
  raise_when (by_digest run_specs !=b compiled_by_digest)
    (ValueError "ReviewTarget stored RunSpecs do not reproduce the compiled matrix");;
  raise_when (negb (same_set (map trust_run_spec_digest records) expected))
    (ValueError "ReviewTarget trust records do not cover the complete RunSpec matrix");;
  Ok target.

End sealing.

(** ** Lemmas *)

Section lemmas.
Context `{PyRuntime}.
Implicit Types (study : Revision StudySpec) (refs : list ContractRef).

Lemma by_identity_snoc revisions r :
  by_identity (revisions ++ [r]) = <[identity_key (revision_ref r) := r]> (by_identity revisions).
Proof. unfold by_identity. by rewrite foldl_app. Qed.

Lemma by_identity_Some revisions k r :
  by_identity revisions !! k = Some r → r ∈ revisions ∧ identity_key (revision_ref r) = k.
Proof.
  induction revisions as [|x l IH] using rev_ind; [done|]. rewrite by_identity_snoc.
  rewrite lookup_insert_Some, elem_of_app, list_elem_of_singleton. naive_solver.
Qed.

Lemma by_identity_lookup revisions r :
  r ∈ revisions → NoDup (map (identity_key ∘ revision_ref) revisions) →
  by_identity revisions !! identity_key (revision_ref r) = Some r.
Proof.
  induction revisions as [|x l IH] using rev_ind; [by intros ?%elem_of_nil|].
  rewrite by_identity_snoc, map_app, elem_of_app, list_elem_of_singleton, NoDup_app.
  intros [Hr| ->] (Hn & Hd & _); [|by rewrite lookup_insert_eq].
  rewrite lookup_insert_ne; [by apply IH|]. intros E. apply (Hd (identity_key (revision_ref r))).
  - apply list_elem_of_fmap. by exists r.
  - cbn. rewrite <- E. left.
Qed.

(** The sealed resolver keeps the promise of the resolver interface. *)
#[export] Instance sealed_resolver_laws m : ResolverLaws (sealed_resolver m).
Proof.
  intros ref r Hr. unfold resolve, sealed_resolver in Hr. inv_ok. by bools.
Qed.

Lemma resolve_all_spec (R : ContractResolver) p refs revisions :
  resolve_all (R := R) p refs = Ok revisions ↔
  Forall2 (λ ref r, resolve ref = Ok r ∧ revision_ref r = ref ∧ revision_project_id r = p)
    refs revisions.
Proof.
  revert revisions. induction refs as [|ref refs IH]; intros revisions; cbn.
  - split; [by intros [= <-]|by inversion 1].
  - split.
    + intros Ha. inv_ok. bools. constructor; [done|]. by apply IH.
    + inversion 1 as [|? r ? rs (E & Er & Ep) Hr]; subst. rewrite E. cbn.
      rewrite !bool_decide_eq_true_2 by done. cbn. apply IH in Hr. by rewrite Hr.
Qed.

(** What one turn of the collecting loop preserves. *)
Lemma collect_one_ok collected o collected' :
  collect_one collected o = Ok collected' → NoDup (map identity_key collected) →
  NoDup (map identity_key collected')
  ∧ ∀ r, r ∈ collected' ↔ r ∈ collected ∨ o = Some r.
Proof.
  unfold collect_one. intros Hc Hn. destruct o as [reference|].
  2:{ inv_ok. split; [done|]. naive_solver. }
  destruct (find_first _ _) as [existing|] eqn:E.
  - inv_ok. bools. subst. apply find_first_Some in E as [E _]. split; [done|]. naive_solver.
  - inv_ok. rewrite find_first_None in E. split.
    + rewrite map_app. apply NoDup_app. split_and!; [done| |apply NoDup_singleton].
      intros k (r & -> & Hr)%list_elem_of_fmap Hk%list_elem_of_singleton.
      specialize (E _ Hr). by bools.
    + intros r. rewrite elem_of_app, list_elem_of_singleton. naive_solver.
Qed.

Lemma fold_collect_ok l collected collected' :
  fold_res collect_one collected l = Ok collected' → NoDup (map identity_key collected) →
  NoDup (map identity_key collected')
  ∧ ∀ r, r ∈ collected' ↔ r ∈ collected ∨ Some r ∈ l.
Proof.
  revert collected. induction l as [|o l IH]; cbn; intros collected Hf Hn; inv_ok.
  - split; [done|]. intros r. split; [by left|]. by intros [?|?%elem_of_nil].
  - destruct (collect_one_ok _ _ _ H0 Hn) as [Hn' He].
    destruct (IH _ Hf Hn') as [Hn'' He']. split; [done|]. intros r.
    rewrite He', He, elem_of_cons. naive_solver.
Qed.

(** The references a Study names, its own included. *)
Definition named_by study (r : ContractRef) : Prop :=
  Some r ∈ Some (rev_ref study) :: map fst (typed_slots study).

Lemma collect_references_ok study refs :
  collect_references study = Ok refs →
  NoDup (map identity_key refs) ∧ ∀ r, r ∈ refs ↔ named_by study r.
Proof.
  unfold collect_references. intros Hc. inv_ok.
  apply fold_collect_ok in Hc as [Hn He]; [|constructor]. split; [done|]. intros r.
  rewrite He. split; [intros [?%elem_of_nil|?]; done|by right].
Qed.

End lemmas.

(** ** Compilation reads nothing but the closure *)

Section agreement.
Context `{PyRuntime} (R1 R2 : ContractResolver) (extensions : ExtensionRegistry).
Variable study : Revision StudySpec.
Hypothesis agree : ∀ r, named_by study r → @resolve R1 r = @resolve R2 r.

Lemma resolve_typed_agree {P} (as_ : AuthoringRevision → option (Revision P)) r :
  named_by study r → resolve_typed (H0 := R1) as_ r = resolve_typed (H0 := R2) as_ r.
Proof. intros Hr. unfold resolve_typed. by rewrite agree. Qed.

Lemma named_slot r t : (Some r, t) ∈ typed_slots study → named_by study r.
Proof. intros Hr. right. apply list_elem_of_fmap. by exists (Some r, t). Qed.

Lemma named_override v o t :
  v ∈ study_variants (rev_payload study) → (o, t) ∈ override_slots (va_overrides v) →
  (o, t) ∈ typed_slots study.
Proof.
  intros Hv Ho. unfold typed_slots. rewrite !elem_of_app. do 3 right.
  apply list_elem_of_In, in_flat_map. exists v. by rewrite <- !list_elem_of_In.
Qed.

(** A slot filled from an override or, failing that, from the Study. *)
Lemma named_or_else v o d t :
  v ∈ study_variants (rev_payload study) → (o, t) ∈ override_slots (va_overrides v) →
  (Some d, t) ∈ typed_slots study → named_by study (or_else o d).
Proof.
  intros Hv Ho Hd. destruct o as [r|]; cbn; [|by eapply named_slot].
  eapply named_slot, named_override; done.
Qed.

Lemma named_or_opt v o d t r :
  v ∈ study_variants (rev_payload study) → (o, t) ∈ override_slots (va_overrides v) →
  (d, t) ∈ typed_slots study → or_opt o d = Some r → named_by study r.
Proof.
  intros Hv Ho Hd E. destruct o as [r'|]; cbn in E; simplify_eq; [|by eapply named_slot].
  eapply named_slot, named_override; done.
Qed.

Lemma resolve_checkpoint_agree o :
  (∀ r, o = Some r → named_by study r) →
  resolve_checkpoint (H0 := R1) o = resolve_checkpoint (H0 := R2) o.
Proof.
  intros Ho. destruct o as [r|]; cbn; [|done]. by rewrite resolve_typed_agree by by apply Ho.
Qed.

Lemma resolve_progress_agree o c :
  (∀ r, o = Some r → named_by study r) →
  resolve_progress (H0 := R1) o c = resolve_progress (H0 := R2) o c.
Proof.
  intros Ho. destruct o as [r|]; cbn; [|done]. by rewrite resolve_typed_agree by by apply Ho.
Qed.

Lemma result_bind_ext {A B} (m : result A) (f g : A → result B) :
  (∀ a, f a = g a) → (m ≫= f) = (m ≫= g).
Proof. destruct m; cbn; auto. Qed.

Lemma result_bind_ext_ok {A B} (m : result A) (f g : A → result B) :
  (∀ a, m = Ok a → f a = g a) → (m ≫= f) = (m ≫= g).
Proof. destruct m; cbn; auto. Qed.

Ltac slot := unfold typed_slots, override_slots; set_solver.
Ltac agree_step tac := etrans;
  [refine (f_equal (λ m, m ≫= _) _); tac|apply result_bind_ext; intros ?].

Ltac typed t := agree_step ltac:(apply resolve_typed_agree; eapply (named_or_else _ _ _ t);
  [eassumption|slot|first [assumption|slot]]).
Ltac optional t := intros ? ?; eapply (named_or_opt _ _ _ t); [eassumption| | |eassumption]; slot.

Lemma materialize_resolvers_agree s v i :
  s ∈ study_scenario_refs (rev_payload study) → v ∈ study_variants (rev_payload study) →
  materialize (H0 := R1) extensions study s v i = materialize (H0 := R2) extensions study s v i.
Proof.
  intros Hs Hv. unfold materialize.
  assert (Hscn : (Some s, SCENARIO) ∈ typed_slots study).
  { unfold typed_slots. rewrite !elem_of_app. right. left. apply list_elem_of_fmap. by exists s. }
  typed GOAL. typed SCENARIO. typed AGENT_INVENTORY. typed WORKSPACE_TEMPLATE.
  typed INTERACTION_PROTOCOL. typed EVALUATION_PLAN.
  agree_step ltac:(apply resolve_checkpoint_agree; optional CHECKPOINT_POLICY).
  agree_step ltac:(apply resolve_progress_agree; optional PROGRESS_ARTIFACT_POLICY).
  done.
Qed.

Lemma matrix_elem (spec : StudySpec) s v i :
  (s, v, i) ∈ matrix spec → s ∈ study_scenario_refs spec ∧ v ∈ study_variants spec.
Proof.
  unfold matrix. intros (s' & Hs & (v' & Hv & Hi)%in_flat_map)%list_elem_of_In%in_flat_map.
  apply in_map_iff in Hi as (j & [= -> -> ->] & _). by rewrite !list_elem_of_In.
Qed.

Lemma materialize_cells_agree cells :
  (∀ s v i, (s, v, i) ∈ cells →
     s ∈ study_scenario_refs (rev_payload study) ∧ v ∈ study_variants (rev_payload study)) →
  materialize_cells (H0 := R1) extensions study cells
  = materialize_cells (H0 := R2) extensions study cells.
Proof.
  induction cells as [|[[s v] i] cells IH]; intros Hc; cbn; [done|].
  destruct (Hc s v i) as [Hs Hv]; [left|]. rewrite materialize_resolvers_agree by done.
  apply result_bind_ext. intros spec. rewrite IH; [done|]. intros ? ? ? ?. eapply Hc. by right.
Qed.

Lemma validate_comparison_agree s c :
  s ∈ study_scenario_refs (rev_payload study) →
  validate_comparison (H0 := R1) extensions study s c
  = validate_comparison (H0 := R2) extensions study s c.
Proof.
  intros Hs. unfold validate_comparison.
  assert (Hm : ∀ id v, variant_by_id study id = Ok v →
    materialize (H0 := R1) extensions study s v 1 = materialize (H0 := R2) extensions study s v 1).
  { intros id v Hv. apply variant_by_id_elem in Hv as [Hv _]. by apply materialize_resolvers_agree. }
  apply result_bind_ext_ok. intros b Hb. rewrite (Hm _ _ Hb). apply result_bind_ext. intros bs.
  apply result_bind_ext_ok. intros x Hx. by rewrite (Hm _ _ Hx).
Qed.

Lemma validate_each_agree s comparisons :
  s ∈ study_scenario_refs (rev_payload study) →
  validate_each (H0 := R1) extensions study s comparisons
  = validate_each (H0 := R2) extensions study s comparisons.
Proof.
  intros Hs. induction comparisons as [|c cs IH]; [done|]. cbn [validate_each].
  by rewrite IH, validate_comparison_agree.
Qed.

Lemma compile_resolvers_agree :
  compile (H0 := R1) extensions study = compile (H0 := R2) extensions study.
Proof.
  unfold compile. rewrite agree by left. apply result_bind_ext. intros root. f_equal.
  unfold validate_comparisons. rewrite materialize_cells_agree by apply matrix_elem.
  destruct (study_comparisons (rev_payload study)) as [|c cs]; [done|].
  destruct (study_scenario_refs (rev_payload study)) as [|s l] eqn:E; [done|].
  rewrite validate_each_agree; [done|]. rewrite E. left.
Qed.

End agreement.

(** ** Sealing *)

Section sealed.
Context `{PyRuntime}.
Implicit Types (study : Revision StudySpec) (R : ContractResolver).

Lemma ref_leb_total a b : ref_leb a b = false → ref_leb b a = true.
Proof.
  unfold ref_leb. intros Hab.
  repeat case_decide; try congruence; try (by apply string_leb_total).
  rewrite Z.ltb_ge in Hab. rewrite Z.ltb_lt. lia.
Qed.

Lemma ref_leb_trans a b c : ref_leb a b = true → ref_leb b c = true → ref_leb a c = true.
Proof.
  unfold ref_leb. intros Hab Hbc.
  repeat case_decide; try congruence; rewrite ?Z.ltb_lt in *; try lia;
    repeat match goal with E : _ = _ |- _ => rewrite E in * end;
    first [done|by eapply string_leb_trans|exfalso];
    match goal with H1 : String.leb ?x ?y = true, H2 : String.leb ?y ?x = true |- _ =>
      pose proof (String.leb_antisym _ _ H1 H2); congruence end.
Qed.

(** Sorted references are in canonical order. *)
Lemma sort_refs_idem l : sort_refs (sort_refs l) = sort_refs l.
Proof. apply sort_by_id, sort_by_Sorted; [apply ref_leb_total|apply ref_leb_trans]. Qed.

(** The promise a sealed set keeps about the resolver it was read from. *)
Definition resolved_in R (project_id : string) (ref : ContractRef) (r : AuthoringRevision) : Prop :=
  @resolve R ref = Ok r ∧ revision_ref r = ref ∧ revision_project_id r = project_id.

Lemma Forall2_refs R p refs revisions :
  Forall2 (resolved_in R p) refs revisions → map revision_ref revisions = refs.
Proof. by induction 1 as [|? ? ? ? (_ & <- & _) _ <-]. Qed.

Lemma Forall2_identities R p refs revisions :
  Forall2 (resolved_in R p) refs revisions →
  map (identity_key ∘ revision_ref) revisions = map identity_key refs.
Proof. intros Hf. by rewrite <- (Forall2_refs _ _ _ _ Hf), map_map. Qed.

Lemma dom_by_identity revisions :
  dom (by_identity revisions) = list_to_set (map (identity_key ∘ revision_ref) revisions)
  :> gset RevisionKey.
Proof.
  induction revisions as [|r l IH] using rev_ind; [done|].
  rewrite by_identity_snoc, dom_insert_L, map_app, list_to_set_app_L, IH. cbn. set_solver.
Qed.

Lemma sealed_agrees R p refs revisions ref :
  Forall2 (resolved_in R p) refs revisions → NoDup (map identity_key refs) → ref ∈ refs →
  sealed_resolver (by_identity revisions) ref = @resolve R ref.
Proof.
  intros Hf Hn (i & Hi)%list_elem_of_lookup.
  destruct (Forall2_lookup_l _ _ _ _ _ Hf Hi) as (r & Hr & E & <- & _).
  unfold sealed_resolver. rewrite by_identity_lookup; cbn.
  - by rewrite bool_decide_eq_true_2.
  - by apply list_elem_of_lookup_2 in Hr.
  - by rewrite (Forall2_identities _ _ _ _ Hf).
Qed.

Lemma sealed_Forall2 R p refs revisions :
  Forall2 (resolved_in R p) refs revisions → NoDup (map identity_key refs) →
  Forall2 (resolved_in (sealed_resolver (by_identity revisions)) p) refs revisions.
Proof.
  intros Hf Hn. apply Forall2_same_length_lookup_2; [by eapply Forall2_length|].
  intros i ref r Hi Hj. destruct (Forall2_lookup_lr _ _ _ _ _ _ Hf Hi Hj) as (E & ? & ?).
  split_and!; [|done..]. unfold resolve. rewrite (sealed_agrees R p refs); [done..|].
  by apply list_elem_of_lookup_2 in Hi.
Qed.

(** Well-typed slots, one digest per identity: what a closure asks of the Study itself. *)
Definition closed_study study : Prop :=
  (∀ r t, (Some r, t) ∈ typed_slots study → cr_contract_type r = t)
  ∧ ∀ r r', named_by study r → named_by study r' → identity_key r = identity_key r' → r = r'.

Lemma fold_collect_total l collected :
  (∀ r r', (r ∈ collected ∨ Some r ∈ l) → (r' ∈ collected ∨ Some r' ∈ l) →
     identity_key r = identity_key r' → r = r') →
  ∃ refs, fold_res collect_one collected l = Ok refs.
Proof.
  revert collected. induction l as [|o l IH]; cbn; intros collected Hu; [by eexists|].
  assert (∃ c', collect_one collected o = Ok c' ∧
    ∀ r, r ∈ c' → r ∈ collected ∨ Some r ∈ o :: l) as (c' & -> & Hc').
  { unfold collect_one. destruct o as [reference|]; [|exists collected; auto].
    destruct (find_first _ _) as [existing|] eqn:E.
    - apply find_first_Some in E as [E1 E2]. bools.
      rewrite (Hu existing reference) by (done || (by left) || (right; by left)).
      rewrite bool_decide_eq_true_2 by done. exists collected. auto.
    - eexists. split; [done|]. intros r [?|?%list_elem_of_singleton]%elem_of_app; [by left|].
      subst. right. left. }
  cbn. apply IH. intros r r' Hr Hr'. apply Hu.
  - destruct Hr as [?|?]; [auto|right; by right].
  - destruct Hr' as [?|?]; [auto|right; by right].
Qed.

Lemma collect_references_total study : closed_study study → ∃ refs, collect_references study = Ok refs.
Proof.
  intros [Ht Hu]. unfold collect_references.
  destruct (existsb _ _) eqn:E; cbn [raise_when mbind result_bind].
  - apply existsb_exists in E as ([[r|] t] & Hin & Hw); cbn in Hw; [|done].
    apply list_elem_of_In in Hin. rewrite (Ht _ _ Hin) in Hw. by bools.
  - apply fold_collect_total. intros r r' [?%elem_of_nil|Hr] [?%elem_of_nil|Hr']; try done.
    by apply Hu.
Qed.

Lemma collect_references_closed study refs : collect_references study = Ok refs → closed_study study.
Proof.
  intros Hc. destruct (collect_references_ok _ _ Hc) as [Hn He]. split.
  - intros r t Hr. unfold collect_references in Hc. inv_ok.
    match goal with E : existsb _ _ = false |- _ => rewrite existsb_false in E; specialize (E _ Hr) end.
    cbn in *. by bools.
  - intros r r' Hr%He Hr'%He E. apply list_elem_of_lookup_1 in Hr as [i Hi], Hr' as [j Hj].
    assert (i = j) as ->; [|congruence].
    eapply NoDup_lookup; [exact Hn| |]; rewrite list_lookup_fmap; [by rewrite Hi|by rewrite Hj, E].
Qed.

Lemma sort_refs_NoDup refs :
  NoDup (map identity_key refs) → NoDup (map identity_key (sort_refs refs)).
Proof.
  intros Hn. change (NoDup (identity_key <$> sort_refs refs)).
  unfold sort_refs. by rewrite sort_by_Permutation.
Qed.

(** A set that [validate_closed_set] accepts, from the references a sealing collects. *)
Lemma collected_set_valid study refs :
  collect_references study = Ok refs →
  validate_closed_set (MkRevisionSet (rev_project_id study) (rev_ref study) (sort_refs refs)) = Ok tt.
Proof.
  intros Hc. destruct (collect_references_ok _ _ Hc) as [Hn He]. unfold validate_closed_set; cbn.
  rewrite (proj2 (has_duplicates_false _)) by by apply sort_refs_NoDup.
  rewrite (bool_decide_eq_true_2 (rev_ref study ∈ _)).
  2:{ apply elem_of_sort_by, He. left. }
  rewrite sort_refs_idem. by rewrite bool_decide_eq_true_2.
Qed.

Lemma seal_inv R study sealed :
  seal (R := R) study = Ok sealed →
  @resolve R (rev_ref study) = Ok (StudyRevision study)
  ∧ ∃ refs, collect_references study = Ok refs
    ∧ sealed_set sealed = MkRevisionSet (rev_project_id study) (rev_ref study) (sort_refs refs)
    ∧ Forall2 (resolved_in R (rev_project_id study)) (sort_refs refs) (sealed_list sealed)
    ∧ sealed_map sealed = by_identity (sealed_list sealed).
Proof.
  unfold seal. intros Hs. inv_ok. bools. cbn. split.
  - match goal with E : as_study ?r = Some _, Hr : resolve _ = Ok ?r |- _ =>
      destruct r; cbn in E; simplify_eq; exact Hr end.
  - eexists. split_and!; [done..|by apply resolve_all_spec|].
    unfold sealed_revisions in *. by inv_ok.
Qed.

(** Sealing succeeds on every closed Study whose references resolve in its Project. *)
Lemma seal_intro R study refs revisions :
  @resolve R (rev_ref study) = Ok (StudyRevision study) → collect_references study = Ok refs →
  Forall2 (resolved_in R (rev_project_id study)) (sort_refs refs) revisions →
  let s := MkRevisionSet (rev_project_id study) (rev_ref study) (sort_refs refs) in
  sealed_revisions s revisions = Ok (by_identity revisions)
  ∧ seal (R := R) study = Ok (MkSealedStudy s revisions (by_identity revisions)).
Proof.
  intros Hr Hc Hf. cbn.
  assert (Hm : sealed_revisions (MkRevisionSet (rev_project_id study) (rev_ref study) (sort_refs refs))
    revisions = Ok (by_identity revisions)).
  { unfold sealed_revisions; cbn. rewrite dom_by_identity, (Forall2_identities _ _ _ _ Hf).
    by rewrite bool_decide_eq_true_2. }
  split; [done|]. unfold seal. rewrite Hr. cbn. rewrite bool_decide_eq_true_2 by done. cbn.
  rewrite Hc. cbn. apply resolve_all_spec in Hf. rewrite Hf. cbn.
  pose proof (collected_set_valid _ _ Hc) as Hv. unfold sort_refs in *. rewrite Hv. cbn.
  by rewrite Hm.
Qed.

Lemma resolved_all R p refs :
  (∀ r, r ∈ refs → ∃ rev, resolved_in R p r rev) → ∃ revisions, Forall2 (resolved_in R p) refs revisions.
Proof.
  induction refs as [|r refs IH]; intros Hr; [by exists []|].
  destruct (Hr r) as [rev Hrev]; [left|]. destruct IH as [revs Hrevs]; [intros; apply Hr; by right|].
  exists (rev :: revs). by constructor.
Qed.

End sealed.

(** ** Reproduced compilations *)

Section reproduced.
Context `{PyRuntime}.

(** What a compilation from a closed set establishes about the set and its revisions. *)
Lemma compile_set_inv rset revisions specs :
  compile_execution_revision_set rset revisions = Ok specs →
  let S := sealed_resolver (by_identity revisions) in
  ∃ study refs, StudyRevision study ∈ revisions ∧ rev_ref study = rset_study_ref rset
    ∧ rev_project_id study = rset_project_id rset
    ∧ collect_references study = Ok refs ∧ rset_revision_refs rset = sort_refs refs
    ∧ (∃ l, Forall2 (resolved_in S (rset_project_id rset)) (rset_revision_refs rset) l)
    ∧ dom (by_identity revisions) = list_to_set (map identity_key (rset_revision_refs rset)) :> gset RevisionKey
    ∧ compile (H0 := S) [] study = Ok specs.
Proof.
  unfold compile_execution_revision_set. intros Hc.
  apply bind_ok in Hc as (m & Hm & Hc). unfold sealed_revisions in Hm. inv_ok. bools. cbn zeta.
  match goal with E : sealed_resolver _ (rset_study_ref rset) = Ok ?root |- _ =>
    rename root into x, E into Hroot end.
  match goal with E : as_study x = Some ?st |- _ => rename st into study, E into Hst end.
  destruct x; cbn in Hst; simplify_eq.
  pose proof (resolve_exact (R := sealed_resolver (by_identity revisions)) _ _ Hroot) as Href.
  unfold sealed_resolver in Hroot. inv_ok.
  match goal with E : by_identity revisions !! _ = Some _ |- _ => apply by_identity_Some in E as [Hin _] end.
  match goal with E : seal study = Ok ?s |- _ =>
    apply seal_inv in E as (Hr & refs & Hcol & Hset & Hf & Hmap) end.
  rewrite Hset in *. cbn in *. exists study, refs. split_and!; [done..| | |].
  - by eexists.
  - done.
  - rewrite <- Hc, Hmap. apply compile_resolvers_agree. intros r Hnamed.
    destruct (collect_references_ok _ _ Hcol) as [Hn He].
    symmetry. eapply sealed_agrees; [exact Hf|by apply sort_refs_NoDup|].
    by apply elem_of_sort_by, He.
Qed.

(** The sealed resolver of such a compilation answers only references of the set. *)
Lemma sealed_answers R p refs l revisions ref r :
  Forall2 (resolved_in (sealed_resolver (by_identity revisions)) p) refs l →
  dom (by_identity revisions) = list_to_set (map identity_key refs) :> gset RevisionKey →
  R = sealed_resolver (by_identity revisions) → @resolve R ref = Ok r →
  ref ∈ refs ∧ r ∈ revisions.
Proof.
  intros Hf Hd -> Hr.
  assert (∃ r', by_identity revisions !! identity_key ref = Some r' ∧ r' = r ∧ revision_ref r' = ref)
    as (? & Hm & -> & Href).
  { unfold resolve, sealed_resolver in Hr. inv_ok. bools. eauto. }
  split; [|by apply by_identity_Some in Hm as [? _]].
  assert (identity_key ref ∈ map identity_key refs) as (ref' & Eid & Hin)%list_elem_of_fmap.
  { apply (elem_of_list_to_set (C := gset RevisionKey)). rewrite <- Hd. by apply elem_of_dom_2 in Hm. }
  apply list_elem_of_lookup in Hin as Hi. destruct Hi as [i Hi].
  destruct (Forall2_lookup_l _ _ _ _ _ Hf Hi) as (r' & _ & E & E' & _).
  unfold resolve, sealed_resolver in E. rewrite <- Eid, Hm in E. inv_ok. congruence.
Qed.

(** Against its sealed revisions a Study compiles as against the resolver they came from. *)
Lemma sealed_compiles R study sealed :
  seal (R := R) study = Ok sealed →
  compile (H0 := sealed_resolver (sealed_map sealed)) [] study = compile (H0 := R) [] study.
Proof.
  intros (_ & refs & Hc & _ & Hf & ->)%seal_inv. destruct (collect_references_ok _ _ Hc) as [Hn He].
  apply compile_resolvers_agree. intros r Hnamed. eapply sealed_agrees; [exact Hf|by apply sort_refs_NoDup|].
  by apply elem_of_sort_by, He.
Qed.

Lemma by_digest_snoc specs s : by_digest (specs ++ [s]) = <[spec_digest s := s]> (by_digest specs).
Proof. unfold by_digest. by rewrite foldl_app. Qed.

Lemma by_digest_Some specs d s :
  by_digest specs !! d = Some s → s ∈ specs ∧ spec_digest s = d.
Proof.
  induction specs as [|x l IH] using rev_ind; [done|]. rewrite by_digest_snoc.
  rewrite lookup_insert_Some, elem_of_app, list_elem_of_singleton. naive_solver.
Qed.

Lemma by_digest_dom specs d :
  is_Some (by_digest specs !! d) ↔ ∃ s, s ∈ specs ∧ spec_digest s = d.
Proof.
  split; [intros [s Hs%by_digest_Some]; by exists s|]. intros (s & Hs & <-).
  induction specs as [|x l IH] using rev_ind; [by apply elem_of_nil in Hs|].
  rewrite by_digest_snoc, lookup_insert_is_Some'.
  rewrite elem_of_app, list_elem_of_singleton in Hs. destruct Hs as [Hs| ->]; auto.
Qed.

Lemma elem_of_sorted_keys m d : d ∈ sorted_keys m ↔ is_Some (m !! d).
Proof.
  unfold sorted_keys, sorted_strings. rewrite elem_of_sort_by. split.
  - intros ([k v] & -> & Hkv%elem_of_map_to_list)%list_elem_of_fmap. by exists v.
  - intros [v Hv]. apply list_elem_of_fmap. exists (d, v). by rewrite elem_of_map_to_list.
Qed.

Lemma sorted_keys_NoDup m : NoDup (sorted_keys m).
Proof.
  unfold sorted_keys, sorted_strings. rewrite sort_by_Permutation. apply NoDup_fst_map_to_list.
Qed.

Lemma sorted_keys_sorted m : sorted_strings (sorted_keys m) = sorted_keys m.
Proof. apply sort_by_id, sort_by_Sorted; [apply string_leb_total|apply string_leb_trans]. Qed.

End reproduced.

(** ** Properties *)

(** C35: a Study can be sealed exactly when the resolver gives back that Study for its own
    reference, every slot holds a reference of the slot's contract type, no identity is
    named with two digests, and every reference the Study names resolves to a revision of
    the Study's Project with exactly that reference; the sealed set then holds exactly the
    references the Study names, and is a valid revision set. *)
Theorem seal_decides `{PyRuntime} `{R : ContractResolver} (study : Revision StudySpec) :
  (is_ok (seal study) = true ↔
     resolve (rev_ref study) = Ok (StudyRevision study) ∧ closed_study study
     ∧ ∀ r, named_by study r → ∃ rev, resolved_in R (rev_project_id study) r rev)
  ∧ ∀ sealed, seal study = Ok sealed →
     validate_closed_set (sealed_set sealed) = Ok tt
     ∧ rset_study_ref (sealed_set sealed) = rev_ref study
     ∧ (∀ r, r ∈ rset_revision_refs (sealed_set sealed) ↔ named_by study r)
     ∧ map revision_ref (sealed_list sealed) = rset_revision_refs (sealed_set sealed).
Proof.
  split; [split|].
  - destruct (seal study) as [sealed|] eqn:Es; [|done]. intros _.
    apply seal_inv in Es as (Hr & refs & Hc & _ & Hf & _).
    destruct (collect_references_ok _ _ Hc) as [_ He].
    split_and!; [done|by eapply collect_references_closed|]. intros r Hn.
    assert (r ∈ sort_refs refs) as (i & Hi)%list_elem_of_lookup by by apply elem_of_sort_by, He.
    destruct (Forall2_lookup_l _ _ _ _ _ Hf Hi) as (rev & _ & Hrev). by exists rev.
  - intros (Hr & Hc & Hall). apply collect_references_total in Hc as [refs Hc].
    destruct (collect_references_ok _ _ Hc) as [_ He].
    destruct (resolved_all R (rev_project_id study) (sort_refs refs)) as [revisions Hf].
    { intros r Hin. by apply Hall, He, (elem_of_sort_by ref_leb). }
    by destruct (seal_intro _ _ _ _ Hr Hc Hf) as [_ ->].
  - intros sealed (Hr & refs & Hc & -> & Hf & _)%seal_inv.
    destruct (collect_references_ok _ _ Hc) as [_ He]. cbn. split_and!.
    + by apply collected_set_valid.
    + done.
    + intros r. unfold sort_refs. by rewrite elem_of_sort_by.
    + by eapply Forall2_refs.
Qed.

(** C34: what was sealed reproduces: from the sealed set and its revisions alone, without
    the resolver they came from, compilation yields exactly what compiling the Study
    against that resolver yields, a refusal included. *)
Theorem seal_reproduces `{PyRuntime} `{R : ContractResolver} (study : Revision StudySpec) sealed :
  seal study = Ok sealed →
  compile_execution_revision_set (sealed_set sealed) (sealed_list sealed) = compile [] study.
Proof.
  intros (Hr & refs & Hc & Hset & Hf & Hm)%seal_inv.
  destruct (collect_references_ok _ _ Hc) as [Hn He].
  set (S := sealed_resolver (by_identity (sealed_list sealed))).
  assert (Hag : ∀ r, named_by study r → @resolve S r = @resolve R r).
  { intros r Hnamed. eapply sealed_agrees; [exact Hf|by apply sort_refs_NoDup|].
    by apply elem_of_sort_by, He. }
  assert (HrS : @resolve S (rev_ref study) = Ok (StudyRevision study)).
  { rewrite Hag by left. exact Hr. }
  pose proof (sealed_Forall2 _ _ _ _ Hf (sort_refs_NoDup _ Hn)) as HfS.
  destruct (seal_intro S study refs (sealed_list sealed) HrS Hc HfS) as [E1 E2].
  unfold compile_execution_revision_set. rewrite Hset, E1. cbn [mbind result_bind].
  change (sealed_resolver (by_identity (sealed_list sealed))) with S.
  change (S (rset_study_ref _)) with (@resolve S (rev_ref study)). rewrite HrS.
  cbn [mbind result_bind require as_study rset_project_id].
  rewrite bool_decide_eq_true_2 by done. cbn [negb raise_when mbind result_bind].
  rewrite E2. cbn [mbind result_bind sealed_set]. rewrite bool_decide_eq_true_2 by done.
  cbn [negb raise_when mbind result_bind sealed_map]. by apply compile_resolvers_agree.
Qed.

(** Trust that passes the lineage check binds exactly what it says: the RunSpec has the
    digest the record binds and is a cell of the matrix recompiled from the record's set;
    the set holds exactly the references the Study names, each of them a given revision of
    the record's Project; and every reference of the RunSpec resolves inside the set to the
    revision whose payload the RunSpec embeds. *)
Theorem trust_lineage_sound `{PyRuntime} record spec revisions specs :
  validate_execution_trust_lineage record spec revisions = Ok specs →
  let S := sealed_resolver (by_identity revisions) in
  spec ∈ specs ∧ spec_digest spec = trust_run_spec_digest record
  ∧ pinned (R := S) spec
  ∧ (∀ ref r, @resolve S ref = Ok r → ref ∈ trust_revision_refs record ∧ r ∈ revisions)
  ∧ (∀ ref, ref ∈ trust_revision_refs record → ∃ r, r ∈ revisions ∧ revision_ref r = ref
       ∧ revision_project_id r = trust_project_id record)
  ∧ ∃ study, StudyRevision study ∈ revisions ∧ rev_ref study = trust_study_ref record
      ∧ spec_study_ref spec = rev_ref study
      ∧ ∀ ref, ref ∈ trust_revision_refs record ↔ named_by study ref.
Proof.
  unfold validate_execution_trust_lineage. intros Hv. inv_ok. bools. cbn zeta.
  match goal with E : by_digest _ !! _ = Some _ |- _ => apply by_digest_Some in E as [Hin _] end.
  match goal with E : compile_execution_revision_set _ _ = Ok _ |- _ =>
    apply compile_set_inv in E as (study & refs & Hst & Href & Hp & Hcol & Hrefs & [l Hf] & Hdom & Hc) end.
  cbn in *. destruct (collect_references_ok _ _ Hcol) as [_ He].
  pose proof (compile_cells _ _ _ Hc) as [Hcells _].
  apply list_elem_of_lookup in Hin as Hi. destruct Hi as [i Hi].
  destruct (Forall2_lookup_r _ _ _ _ _ Hcells Hi) as ([[s v] j] & _ & Hs).
  split_and!; [done..|by eapply materialize_pinned| | |].
  - intros ref r Hr. by eapply sealed_answers.
  - intros ref Hr. apply list_elem_of_lookup in Hr as Hk. destruct Hk as [k Hk].
    destruct (Forall2_lookup_l _ _ _ _ _ Hf Hk) as (r & _ & E1 & E2 & E3).
    exists r. split_and!; [|done..]. by eapply sealed_answers in E1 as [_ ?].
  - exists study. split_and!; [done..| |].
    + by apply materialize_fields in Hs as (? & _).
    + intros ref. rewrite Hrefs. unfold sort_refs. by rewrite elem_of_sort_by.
Qed.

(** A review target that passes its lineage check covers the whole matrix and nothing
    else: its digests are, in canonical order and without repetition, the digests of the
    RunSpecs recompiled from the one revision set all its trust records spell out; each is
    the digest of a stored RunSpec that the compilation reproduces and is bound by a trust
    record, and no record binds another. *)
Theorem review_target_complete `{PyRuntime} target records run_specs revisions target' :
  validate_review_target_lineage target records run_specs revisions = Ok target' →
  target' = target ∧ validate_run_specs target = Ok tt
  ∧ ∃ rset specs, compile_execution_revision_set rset revisions = Ok specs
    ∧ revision_set_digest rset = rt_revision_set_digest target
    ∧ rset_project_id rset = rt_project_id target
    ∧ (∀ record, record ∈ records → trust_revision_set record = rset)
    ∧ (∀ d, d ∈ rt_run_spec_digests target ↔ ∃ s, s ∈ specs ∧ spec_digest s = d)
    ∧ (∀ d, d ∈ rt_run_spec_digests target →
         ∃ s, s ∈ specs ∧ s ∈ run_specs ∧ spec_digest s = d)
    ∧ ∀ d, d ∈ rt_run_spec_digests target ↔ d ∈ map trust_run_spec_digest records.
Proof.
  unfold validate_review_target_lineage. intros Hv. inv_ok. bools.
  match goal with E : head records = Some ?r |- _ => rename r into root end.
  match goal with E : compile_execution_revision_set _ _ = Ok ?c |- _ => rename c into specs, E into Hc end.
  match goal with E : rt_run_spec_digests _ = _ |- _ => rename E into Ht end.
  match goal with E : by_digest _ = by_digest _ |- _ => rename E into Hstored end.
  match goal with E : same_set _ _ = true |- _ => rewrite same_set_true in E; rename E into Hbound end.
  assert (Hin : ∀ d, d ∈ rt_run_spec_digests target' ↔ ∃ s, s ∈ specs ∧ spec_digest s = d).
  { intros d. by rewrite Ht, elem_of_sorted_keys, by_digest_dom. }
  split_and!; [done| |].
  - unfold validate_run_specs. rewrite Ht, (proj2 (has_duplicates_false _)) by apply sorted_keys_NoDup.
    cbn. rewrite sorted_keys_sorted. by rewrite bool_decide_eq_true_2.
  - exists (trust_revision_set root), specs. split_and!; [done..| | | |].
    + intros record Hr.
      match goal with E : existsb _ records = false |- _ => rewrite existsb_false in E;
        specialize (E _ Hr); cbn in E end.
      bools. unfold trust_revision_set. congruence.
    + done.
    + intros d [s0 Hs]%Hin. destruct Hs as [Hs Hd].
      assert (is_Some (by_digest specs !! d)) as [s' Hs'] by (apply by_digest_dom; eauto).
      apply by_digest_Some in Hs' as Hx. rewrite <- Hstored in Hs'.
      apply by_digest_Some in Hs' as Hy. exists s'. tauto.
    + intros d. by rewrite Hbound, Ht.
Qed.

(** ** A small Study, sealed *)

Definition small_study : Revision StudySpec :=
  sample_revision "study" (MkStudySpec
    (MkStudyIntent "Explore." ["Does it help?"] None None (MkIntentScope [] []) [])
    EXPLORATORY (rev_ref (sample_revision "goal" sample_goal))
    [rev_ref (sample_revision "scenario" sample_scenario)] (sample_blueprint [])
    [MkVariantSpec "baseline" "Baseline" no_overrides [] None;
     MkVariantSpec "short" "Short" candidate_overrides [] None] 1 (MkSeedStrategy SeedFixed (Some 7%Z)) [] [] []).

Definition small_revisions : list AuthoringRevision := sample_parts ++ [StudyRevision small_study].

Definition small_imported : Registry := value_of empty_registry (import_fixtures small_revisions).

#[local] Instance small_resolver : ContractResolver := registry_resolver small_imported.

Definition small_specs : list RunSpec := Eval vm_compute in value_of [] (compile [] small_study).

Lemma small_compiled : compile [] small_study = Ok small_specs.
Proof. vm_compute. reflexivity. Qed.

Definition small_sealed : SealedStudy :=
  value_of (MkSealedStudy (MkRevisionSet "" (rev_ref small_study) []) [] ∅) (seal small_study).

Lemma small_sealed_ok : seal small_study = Ok small_sealed.
Proof. apply value_of_ok. vm_compute. reflexivity. Qed.

Lemma seal_reproduces_witness :
  compile_execution_revision_set (sealed_set small_sealed) (sealed_list small_sealed)
  = Ok small_specs.
Proof. rewrite (seal_reproduces small_study small_sealed small_sealed_ok). exact small_compiled. Defined.

Definition small_set : ExecutionRevisionSet := Eval vm_compute in sealed_set small_sealed.
Definition small_list : list AuthoringRevision := Eval vm_compute in sealed_list small_sealed.
Definition first_cell : RunSpec := Eval vm_compute in nth 0 small_specs sample_spec.

(** The trust record of a cell, as the trust service writes it. *)
Definition trust_for (spec : RunSpec) : ExecutionTrustRecord :=
  MkTrustRecord ("trust-" +:+ spec_digest spec) UnverifiedRevisionSet (rset_project_id small_set)
    (rset_study_ref small_set) (rset_revision_refs small_set) (revision_set_digest small_set)
    (spec_digest spec) [] 0.

Definition first_trust : ExecutionTrustRecord := Eval vm_compute in trust_for first_cell.

Lemma first_trust_lineage :
  validate_execution_trust_lineage first_trust first_cell small_list = Ok small_specs.
Proof. vm_compute. reflexivity. Qed.

Lemma trust_lineage_sound_witness :
  first_cell ∈ small_specs ∧ spec_digest first_cell = trust_run_spec_digest first_trust.
Proof.
  pose proof (trust_lineage_sound _ _ _ _ first_trust_lineage) as Hs.
  exact (conj (proj1 Hs) (proj1 (proj2 Hs))).
Defined.

Definition small_trusts : list ExecutionTrustRecord := Eval vm_compute in map trust_for small_specs.

Definition small_target : ReviewTarget := Eval vm_compute in
  MkReviewTarget (rset_project_id small_set) (revision_set_digest small_set)
    (sorted_strings (map spec_digest small_specs)).

Lemma small_target_lineage :
  validate_review_target_lineage small_target small_trusts small_specs small_list = Ok small_target.
Proof. vm_compute. reflexivity. Qed.

Lemma review_target_complete_witness : validate_run_specs small_target = Ok tt.
Proof. exact (proj1 (proj2 (review_target_complete _ _ _ _ _ small_target_lineage))). Defined.
