(* ===== verification/ContractStore.v ===== *)
(** * The persistent contract registry
    (src/src/evidrun/infrastructure/database/registry.py with register_errors.py and
    decide_errors.py, and [parse_revision] of src/src/evidrun/contracts/authoring/parse.py).

    Revisions and decisions are rows; a decision that claims human authority is verified in
    the transaction that stores it. [contract_registry] reads the rows back into the
    in-memory registry of Registry.v.

    The document column holds the JSON document and is read with [parse_revision], which
    dispatches to pydantic's [model_validate]: [RevisionModels] stands for that call, with
    the structured errors it reports. The decision column holds the decision itself, which
    loses nothing in its document. An operation is one transaction: it returns its row and
    the next tables, or raises and leaves the tables. The refusals of the register phase
    are named by their triage code, as those of the decide phase are. Rows with equal
    instants keep their insertion order when sorted by instant. *)

From S2P Require Import Prelude PyText PyJson Base Authoring Runtime Triage Trust Samples Registry.

(** ** Parsing *)

(** A component of [error["loc"]]: a field name or an index. *)
Inductive LocPart := LField (name : string) | LIndex (i : Z).

Record PydanticError := MkPydanticError {
  pe_type : string;
  pe_loc : list LocPart
}.

(** [REVISION_MODELS[contract_type].model_validate(document)]: the revision, or the
    reported errors, of which pydantic always has one. *)
Class RevisionModels := model_validate :
  ContractType → json → AuthoringRevision + (PydanticError * list PydanticError).

Definition undeclared_types : list string := ["extra_forbidden"; "unexpected_keyword_argument"].

Definition field_path (location : list LocPart) : list string :=
  omap (λ part, match part with LField name => Some name | LIndex _ => None end) location.

Definition classify (reported : PydanticError * list PydanticError) : TriageErrorCode :=
  let '(first, rest) := reported in
  match find_first (λ item, pe_type item ∈b undeclared_types) (first :: rest) with
  | Some _ => PARSE_FIELD_UNDECLARED
  | None =>
      let head := default "" (head (field_path (pe_loc first))) in
      let error_type := pe_type first in
      if head ==b "revision" then PARSE_REVISION_INVALID
      else if (head ∈b ["logical_id"; "project_id"; "title"])
              && startswith "string_too_short" error_type then PARSE_IDENTIFIER_EMPTY
      else if (head ==b "payload")
              && (error_type ∈b ["model_type"; "model_attributes_type"; "dict_type"; "missing"])
      then PARSE_PAYLOAD_TYPE_INVALID
      else PARSE_SCHEMA_INVALID
  end.

(** [ContractType(text)]. *)
Definition contract_type_of (text : string) : option ContractType :=
  find_first (λ t, ContractType_value t ==b text)
    [STUDY; GOAL; SCENARIO; AGENT_INVENTORY; WORKSPACE_TEMPLATE; INTERACTION_PROTOCOL;
     EVALUATION_PLAN; CHECKPOINT_POLICY; PROGRESS_ARTIFACT_POLICY].

(** [str(raw_type)] of a value that is not a text is never a contract type. *)
Definition parse_revision `{RevisionModels} (document : json) : result AuthoringRevision :=
  match document with
  | JObj m =>
      match default JNull (obj_get "contract_type" m) with
      | JNull => Raise (rejected PARSE_CONTRACT_TYPE_MISSING)
      | raw_type =>
          contract_type ← require (match raw_type with JStr text => contract_type_of text | _ => None end)
            (rejected PARSE_CONTRACT_TYPE_UNKNOWN);
          match model_validate contract_type document with
          | inl revision => Ok revision
          | inr reported => Raise (rejected (classify reported))
          end
      end
  | _ => Raise (rejected PARSE_DOCUMENT_NOT_OBJECT)
  end.

(** ** Tables *)

Record ContractRevisionRow := MkRevisionRow {
  crow_id : string;
  crow_contract_type : ContractType;
  crow_logical_id : string;
  crow_revision : Z;
  crow_project_id : string;
  crow_title : string;
  crow_status : string;
  crow_document : json;
  crow_digest : string;
  crow_created_at : instant
}.

Record ContractDecisionRow := MkDecisionRow {
  drow_id : string;
  drow_contract_revision_id : string;
  drow_decision : Decision3;
  drow_actor_type : string;
  drow_actor_id : string;
  drow_rationale : string;
  drow_record : RevisionDecisionRecord;
  drow_decision_digest : string;
  drow_decided_at : instant
}.

Record ContractDB := MkContractDB {
  cdb_projects : gset string;
  cdb_revisions : list ContractRevisionRow;
  cdb_decisions : list ContractDecisionRow
}.

Definition empty_contracts : ContractDB := MkContractDB ∅ [] [].

Section store.
Context `{PyRuntime} `{RevisionModels}.

(** [human_attestation_verifier.verify]. *)
Variable verify : HumanAttestationRecord → string → result unit.

Definition crow_key (row : ContractRevisionRow) : RevisionKey :=
  (crow_contract_type row, crow_logical_id row, crow_revision row).

(** [where(contract_type == ..., logical_id == ..., revision == ...)]. *)
Definition revision_row (key : RevisionKey) (s : ContractDB) : option ContractRevisionRow :=
  find_first (λ row, crow_key row ==b key) (cdb_revisions s).

Definition with_status (status : string) (row : ContractRevisionRow) : ContractRevisionRow :=
  MkRevisionRow (crow_id row) (crow_contract_type row) (crow_logical_id row) (crow_revision row)
    (crow_project_id row) (crow_title row) status (crow_document row) (crow_digest row)
    (crow_created_at row).

(** Assignment to the status of a loaded row. *)
Definition restatus (id status : string) (row : ContractRevisionRow) : ContractRevisionRow :=
  if decide (crow_id row = id) then with_status status row else row.
Definition set_status (id status : string) (s : ContractDB) : ContractDB :=
  MkContractDB (cdb_projects s) (map (restatus id status) (cdb_revisions s)) (cdb_decisions s).

(** ** Registration *)

Definition revision_title (r : AuthoringRevision) : string :=
  match r with
  | StudyRevision r => rev_title r | GoalRevision r => rev_title r
  | ScenarioRevision r => rev_title r | AgentInventoryRevision r => rev_title r
  | WorkspaceTemplateRevision r => rev_title r | InteractionProtocolRevision r => rev_title r
  | EvaluationPlanRevision r => rev_title r | CheckpointPolicyRevision r => rev_title r
  | ProgressArtifactPolicyRevision r => rev_title r
  end.

Definition resolve_existing_revision (existing : ContractRevisionRow) (revision : AuthoringRevision)
    (status : string) (s : ContractDB) : result (ContractRevisionRow * ContractDB) :=
  raise_when (crow_digest existing !=b revision_digest revision
      || canonical_json (crow_document existing) !=b canonical_json (revision_document revision))
    (rejected REGISTER_IMMUTABILITY_CONFLICT);;
  if (crow_status existing ==b "draft") && (status ==b "proposed")
  then Ok (with_status "proposed" existing, set_status (crow_id existing) "proposed" s)
  else Ok (existing, s).

(** The constraints of [contract_revisions]: primary key, identity, and the foreign key. *)
Definition revision_conflict (row : ContractRevisionRow) (s : ContractDB) : bool :=
  existsb (λ r, (crow_id r ==b crow_id row) || (crow_key r ==b crow_key row)) (cdb_revisions s)
  || negb (bool_decide (crow_project_id row ∈ cdb_projects s)).

Definition recover_integrity_error (revision : AuthoringRevision) (status : string) (s : ContractDB)
    : result (ContractRevisionRow * ContractDB) :=
  raise_when (negb (bool_decide (revision_project_id revision ∈ cdb_projects s)))
    (rejected REGISTER_PROJECT_NOT_FOUND);;
  existing ← require (revision_row (revision_key revision) s) (rejected REGISTER_STORAGE_UNAVAILABLE);
  resolve_existing_revision existing revision status s.

(** [func.max(revision)] over the rows of one contract, [or 0]. *)
Definition latest_revision (t : ContractType) (id : string) (s : ContractDB) : Z :=
  max_default (map crow_revision (List.filter (λ row, (crow_contract_type row ==b t)
    && (crow_logical_id row ==b id)) (cdb_revisions s))).

(** [id] is the drawn row identifier and [now] the clock. *)
Definition save_contract_revision (revision : AuthoringRevision) (status : string)
    (id : string) (now : instant) (s : ContractDB) : result (ContractRevisionRow * ContractDB) :=
  let ref := revision_ref revision in
  raise_when (negb (status ∈b ["draft"; "proposed"])) (rejected REGISTER_INITIAL_STATUS_INVALID);;
  match revision_row (revision_key revision) s with
  | Some existing => resolve_existing_revision existing revision status s
  | None =>
      let expected := (latest_revision (cr_contract_type ref) (cr_logical_id ref) s + 1)%Z in
      raise_when (cr_revision ref !=b expected) (rejected REGISTER_REVISION_NOT_MONOTONIC);;
      let row := MkRevisionRow id (cr_contract_type ref) (cr_logical_id ref) (cr_revision ref)
        (revision_project_id revision) (revision_title revision) status (revision_document revision)
        (cr_digest ref) now in
      if revision_conflict row s then recover_integrity_error revision status s
      else Ok (row, MkContractDB (cdb_projects s) (cdb_revisions s ++ [row]) (cdb_decisions s))
  end.

(** ** Decisions *)

Definition authority_kind (a : DecisionAuthority) : string :=
  match a with VerifiedHuman _ _ => "verified_human" | RepositoryFixture _ => "repository_fixture" end.

(** [HumanAttestationUnavailable], the error of the verifier that is not installed. *)
Definition human_unavailable : exn :=
  ValueError "verified human authority is unavailable; no trusted verifier is installed".

Definition authorize_decision (decision : RevisionDecisionRecord)
    (repository_fixture_digest : option string) : result unit :=
  match dec_authority decision with
  | VerifiedHuman _ attestation =>
      match verify attestation (decision_subject_digest decision) with
      | Ok _ => Ok tt
      | Raise e => Raise (if decide (e = human_unavailable)
                          then rejected DECIDE_HUMAN_AUTHORITY_UNAVAILABLE else e)
      end
  | RepositoryFixture fixture_digest =>
      raise_when (repository_fixture_digest !=b Some fixture_digest)
        (rejected DECIDE_REPOSITORY_FIXTURE_FORBIDDEN)
  end.

Definition decisions_of (id : string) (s : ContractDB) : list ContractDecisionRow :=
  List.filter (λ row, drow_contract_revision_id row ==b id) (cdb_decisions s).

(** [order_by(decided_at.desc()).limit(1)]. *)
Definition latest_decision (id : string) (s : ContractDB) : option ContractDecisionRow :=
  head (sort_by (λ a b, (drow_decided_at b <=? drow_decided_at a)%Z) (decisions_of id s)).

(** Whether the stored decision already is the answer ([return previous]), or whether the
    new one conflicts with it. *)
Inductive PreviousVerdict := Append | Keep | Conflict.

Definition against_previous (previous : option ContractDecisionRow) (decision : RevisionDecisionRecord)
    : PreviousVerdict :=
  match previous with
  | None => if decide (dec_decision decision = Superseded) then Conflict else Append
  | Some previous =>
      if decide (drow_decision previous = dec_decision decision) then
        if (drow_actor_type previous ==b "repository_fixture")
           && (authority_kind (dec_authority decision) ==b "verified_human")
           && (dec_decision decision ==b Accepted)
        then Append else Keep
      else if (drow_decision previous ==b Accepted) && (dec_decision decision ==b Superseded)
      then Append else Conflict
  end.

Definition fixture_id : string := "experiment-manifest-v1:crl-ctx-002".

Definition decision_row (id : string) (revision : ContractRevisionRow)
    (decision : RevisionDecisionRecord) : ContractDecisionRow :=
  MkDecisionRow id (crow_id revision) (dec_decision decision)
    (authority_kind (dec_authority decision))
    (match dec_authority decision with VerifiedHuman p _ => p | RepositoryFixture _ => fixture_id end)
    (dec_rationale decision) decision (decision_digest decision) (dec_decided_at_utc decision).

Definition persist_contract_decision (decision : RevisionDecisionRecord)
    (repository_fixture_digest : option string) (id : string) (s : ContractDB)
    : result (ContractDecisionRow * ContractDB) :=
  let ref := dec_revision_ref decision in
  revision ← require (revision_row (identity_key ref) s) (rejected DECIDE_REVISION_NOT_FOUND);
  raise_when (crow_digest revision !=b cr_digest ref) (rejected DECIDE_REVISION_NOT_FOUND);;
  authorize_decision decision repository_fixture_digest;;
  let previous := latest_decision (crow_id revision) s in
  match against_previous previous decision, previous with
  | Conflict, _ => Raise (rejected DECIDE_DECISION_CONFLICT)
  | Keep, Some previous => Ok (previous, s)
  | _, _ =>
      let row := decision_row id revision decision in
      raise_when (existsb (λ r, drow_id r ==b id) (cdb_decisions s)) (IntegrityError "contract_decisions");;
      let s' := set_status (crow_id revision) (Decision3_value (dec_decision decision)) s in
      Ok (row, MkContractDB (cdb_projects s') (cdb_revisions s') (cdb_decisions s' ++ [row]))
  end.

Definition decide_contract_revision (decision : RevisionDecisionRecord) (id : string) (s : ContractDB)
    : result (ContractDecisionRow * ContractDB) :=
  match dec_authority decision with
  | RepositoryFixture _ => Raise (rejected DECIDE_REPOSITORY_FIXTURE_FORBIDDEN)
  | VerifiedHuman _ _ => persist_contract_decision decision None id s
  end.

(** ** Reading the registry back *)

(** [order_by(contract_type, logical_id, revision)]. *)
Definition crow_leb (a b : ContractRevisionRow) : bool :=
  let ta := ContractType_value (crow_contract_type a) in
  let tb := ContractType_value (crow_contract_type b) in
  if decide (ta = tb) then
    if decide (crow_logical_id a = crow_logical_id b) then (crow_revision a <=? crow_revision b)%Z
    else String.leb (crow_logical_id a) (crow_logical_id b)
  else String.leb ta tb.

Definition decided_leb (a b : ContractDecisionRow) : bool :=
  (drow_decided_at a <=? drow_decided_at b)%Z.

Definition load_revision (acc : Registry * gmap string AuthoringRevision) (row : ContractRevisionRow)
    : result (Registry * gmap string AuthoringRevision) :=
  let '(registry, row_by_id) := acc in
  revision ← parse_revision (crow_document row);
  raise_when (revision_digest revision !=b crow_digest row)
    (ValueError ("stored contract digest mismatch: " +:+ crow_id row));;
  registry' ← add revision registry;
  Ok (registry', <[crow_id row := revision]> row_by_id).

Definition load_decision (row_by_id : gmap string AuthoringRevision) (registry : Registry)
    (row : ContractDecisionRow) : result Registry :=
  match row_by_id !! drow_contract_revision_id row with
  | None => Ok registry
  | Some _ =>
      raise_when (decision_digest (drow_record row) !=b drow_decision_digest row)
        (ValueError ("stored contract decision digest mismatch: " +:+ drow_id row));;
      decide_revision verify true (drow_record row) registry
  end.

Definition contract_registry (project_id : option string) (s : ContractDB) : result Registry :=
  let revisions := sort_by crow_leb
    (match project_id with
     | None => cdb_revisions s
     | Some p => List.filter (λ row, crow_project_id row ==b p) (cdb_revisions s)
     end) in
  let decisions := sort_by decided_leb (cdb_decisions s) in
  '(registry, row_by_id) ← fold_res load_revision (empty_registry, ∅) revisions;
  fold_res (load_decision row_by_id) registry decisions.

(** ** The legacy import *)

Record LegacyStudyPackage := MkLegacyPackage {
  pkg_revisions : list AuthoringRevision;
  pkg_study : Revision StudySpec
}.

Definition fixture_digest (package : LegacyStudyPackage) : string :=
  sha256_json (JArr (map (λ r, to_ContractRef (revision_ref r)) (pkg_revisions package))).

Definition acceptance_decisions (package : LegacyStudyPackage) (decided_at : instant)
    : list RevisionDecisionRecord :=
  map (λ r, MkDecisionRecord (revision_ref r) Accepted (RepositoryFixture (fixture_digest package))
    "Accepted repository benchmark imported from ExperimentManifest v1." decided_at)
    (pkg_revisions package).

Definition LEGACY_PACKAGE_IDENTITIES : list RevisionKey :=
  [(GOAL, "crl-ctx-002-context-policy-goal", 1%Z);
   (SCENARIO, "crl-ctx-002", 1%Z);
   (AGENT_INVENTORY, "crl-ctx-002-context-policy-agent", 1%Z);
   (WORKSPACE_TEMPLATE, "crl-ctx-002-context-policy-workspace", 1%Z);
   (INTERACTION_PROTOCOL, "crl-ctx-002-context-policy-interaction", 1%Z);
   (EVALUATION_PLAN, "crl-ctx-002-context-policy-evaluation", 1%Z);
   (STUDY, "crl-ctx-002-context-policy", 1%Z)].
Definition LEGACY_PACKAGE_STUDY_ID : string := "crl-ctx-002-context-policy".

(** A loop of transactions: the ones that committed before a refusal stay. *)
Fixpoint each_committed {A B} (f : nat → A → ContractDB → result (B * ContractDB)) (n : nat)
    (l : list A) (s : ContractDB) : ContractDB * result (list B) :=
  match l with
  | [] => (s, Ok [])
  | x :: rest =>
      match f n x s with
      | Raise e => (s, Raise e)
      | Ok (b, s') =>
          let '(s'', r) := each_committed f (S n) rest s' in
          (s'', bs ← r; Ok (b :: bs))
      end
  end.

(** [ids] are the drawn identifiers in order and [now] the clock of the import. *)
Definition import_legacy_contract_package (package : LegacyStudyPackage) (ids : nat → string)
    (now : instant) (s : ContractDB) : ContractDB * result (list ContractDecisionRow) :=
  let decisions := acceptance_decisions package now in
  let package_identities := map revision_key (pkg_revisions package) in
  let expected_refs := map revision_ref (pkg_revisions package) in
  let decision_refs := map dec_revision_ref decisions in
  if (decisions ==b []) || negb (same_set package_identities LEGACY_PACKAGE_IDENTITIES)
     || negb (same_set decision_refs expected_refs)
     || (rev_logical_id (pkg_study package) !=b LEGACY_PACKAGE_STUDY_ID)
     || existsb (λ d, match dec_authority d with
                      | RepositoryFixture f => f !=b fixture_digest package
                      | VerifiedHuman _ _ => true end) decisions
  then (s, Raise (ValueError "legacy package decisions do not cover the exact package digest"))
  else
    match each_committed (λ n r, save_contract_revision r "draft" (ids n) now) 0
            (pkg_revisions package) s with
    | (s', Raise e) => (s', Raise e)
    | (s', Ok rows) =>
        each_committed (λ n d, persist_contract_decision d (Some (fixture_digest package)) (ids n))
          (length rows) decisions s'
    end.

End store.
