(* ===== verification/ContractInv.v ===== *)
(** * What the persistent contract registry guarantees

    The invariants of the revision and decision tables over every sequence of operations,
    the refinement of the in-memory registry by the stored one when decisions are stored in
    the order of their instants, and the two ways in which the stored registry stops
    loading. *)

From S2P Require Import Prelude PyText PyJson Base Authoring Runtime Triage Trust Samples Registry ContractStore.

Section inv.
Context `{PyRuntime} `{RevisionModels}.
Variable verify : HumanAttestationRecord → string → result unit.

(** ** Steps *)

Inductive contract_command :=
  | CreateProject (id : string)
  | SaveRevision (revision : AuthoringRevision) (status id : string) (now : instant)
  | PersistDecision (decision : RevisionDecisionRecord) (fixture : option string) (id : string).

Definition contract_exec (c : contract_command) (s : ContractDB) : result ContractDB :=
  match c with
  | CreateProject id =>
      Ok (MkContractDB ({[id]} ∪ cdb_projects s) (cdb_revisions s) (cdb_decisions s))
  | SaveRevision revision status id now => snd <$> save_contract_revision revision status id now s
  | PersistDecision decision fixture id =>
      snd <$> persist_contract_decision verify decision fixture id s
  end.

(** Reading a revision's document back gives a revision of the same content: what
    validating the dump of a model promises. *)
Definition reparses (revision : AuthoringRevision) : Prop :=
  ∃ r, parse_revision (revision_document revision) = Ok r
    ∧ revision_ref r = revision_ref revision ∧ revision_document r = revision_document revision.

Definition command_ok (c : contract_command) : Prop :=
  match c with SaveRevision revision _ _ _ => reparses revision | _ => True end.

Definition contract_step (s s' : ContractDB) : Prop :=
  ∃ c, command_ok c ∧ contract_exec c s = Ok s'.

(** A decision later than every stored decision of its revision. *)
Definition in_order (c : contract_command) (s : ContractDB) : Prop :=
  match c with
  | PersistDecision d _ _ => ∀ row e, revision_row (identity_key (dec_revision_ref d)) s = Some row →
      e ∈ decisions_of (crow_id row) s → (drow_decided_at e < dec_decided_at_utc d)%Z
  | _ => True
  end.

Definition ordered_step (s s' : ContractDB) : Prop :=
  ∃ c, command_ok c ∧ contract_exec c s = Ok s' ∧ (s' = s ∨ in_order c s).

(** ** The invariant of every sequence *)

Definition row_sound (row : ContractRevisionRow) : Prop :=
  ∃ r, parse_revision (crow_document row) = Ok r ∧ revision_key r = crow_key row
    ∧ revision_digest r = crow_digest row.

(** A stored decision names [row] exactly and was authorized. *)
Definition decides (d : ContractDecisionRow) (row : ContractRevisionRow) : Prop :=
  drow_contract_revision_id d = crow_id row
  ∧ identity_key (dec_revision_ref (drow_record d)) = crow_key row
  ∧ cr_digest (dec_revision_ref (drow_record d)) = crow_digest row.

Definition decision_sound (d : ContractDecisionRow) : Prop :=
  authorize verify true (drow_record d) = Ok tt
  ∧ drow_decision_digest d = decision_digest (drow_record d)
  ∧ drow_decision d = dec_decision (drow_record d)
  ∧ drow_actor_type d = authority_kind (dec_authority (drow_record d))
  ∧ drow_decided_at d = dec_decided_at_utc (drow_record d).

Record contract_inv (s : ContractDB) : Prop := {
  ci_ids : NoDup (map crow_id (cdb_revisions s));
  ci_keys : NoDup (map crow_key (cdb_revisions s));
  ci_rows : ∀ row, row ∈ cdb_revisions s → row_sound row ∧ crow_project_id row ∈ cdb_projects s;
  ci_positive : ∀ row, row ∈ cdb_revisions s → (1 <= crow_revision row)%Z;
  ci_contiguous : ∀ row, row ∈ cdb_revisions s → (1 < crow_revision row)%Z →
    ∃ prev, prev ∈ cdb_revisions s
      ∧ crow_key prev = (crow_contract_type row, crow_logical_id row, (crow_revision row - 1)%Z);
  ci_decisions : ∀ d, d ∈ cdb_decisions s → decision_sound d
    ∧ ∃ row, row ∈ cdb_revisions s ∧ decides d row
}.

Lemma contract_inv_empty : contract_inv empty_contracts.
Proof. constructor; cbn; try apply NoDup_nil_2; intros ? Hin; by apply elem_of_nil in Hin. Qed.

Lemma revision_row_Some key s row :
  revision_row key s = Some row → row ∈ cdb_revisions s ∧ crow_key row = key.
Proof. unfold revision_row. intros [? ?]%find_first_Some. by bools. Qed.

Lemma revision_row_None key s :
  revision_row key s = None ↔ ∀ row, row ∈ cdb_revisions s → crow_key row ≠ key.
Proof.
  unfold revision_row. rewrite find_first_None. split; intros Hn row Hrow.
  - specialize (Hn _ Hrow). by bools.
  - by apply bool_decide_eq_false, Hn.
Qed.

(** ** Status changes keep everything but the status *)

Lemma restatus_same id status row :
  crow_id (restatus id status row) = crow_id row ∧ crow_key (restatus id status row) = crow_key row
  ∧ crow_document (restatus id status row) = crow_document row
  ∧ crow_digest (restatus id status row) = crow_digest row
  ∧ crow_project_id (restatus id status row) = crow_project_id row.
Proof. unfold restatus. by case_decide. Qed.

Lemma restatus_map {B} (f : ContractRevisionRow → B) id status l :
  (∀ row, f (restatus id status row) = f row) → map f (map (restatus id status) l) = map f l.
Proof. intros Hf. rewrite map_map. by apply map_ext. Qed.

Lemma elem_of_set_status row id status s :
  row ∈ cdb_revisions (set_status id status s) ↔
  ∃ row0, row = restatus id status row0 ∧ row0 ∈ cdb_revisions s.
Proof. unfold set_status; cbn. apply list_elem_of_fmap. Qed.

Lemma row_sound_restatus id status row : row_sound row → row_sound (restatus id status row).
Proof.
  destruct (restatus_same id status row) as (_ & Hk & Hd & Hg & _).
  intros (r & ? & ? & ?). exists r. by rewrite Hk, Hd, Hg.
Qed.

Lemma contract_inv_set_status id status s :
  contract_inv s → contract_inv (set_status id status s).
Proof.
  intros Hi. constructor.
  - cbn. rewrite (restatus_map crow_id); [apply Hi|]. intros row. apply restatus_same.
  - cbn. rewrite (restatus_map crow_key); [apply Hi|]. intros row. apply restatus_same.
  - intros row (row0 & -> & Hrow)%elem_of_set_status. destruct (ci_rows _ Hi _ Hrow).
    split; [by apply row_sound_restatus|]. destruct (restatus_same id status row0) as (_ & _ & _ & _ & ->). done.
  - intros row (row0 & -> & Hrow)%elem_of_set_status.
    destruct (restatus_same id status row0) as (_ & [= _ _ ->] & _). by apply Hi.
  - intros row (row0 & -> & Hrow)%elem_of_set_status.
    destruct (restatus_same id status row0) as (_ & [= -> -> ->] & _). intros Hlt.
    destruct (ci_contiguous _ Hi _ Hrow Hlt) as (prev & Hp & Hk).
    exists (restatus id status prev). split; [apply elem_of_set_status; eauto|].
    destruct (restatus_same id status prev) as (_ & -> & _). done.
  - intros d Hd. destruct (ci_decisions _ Hi _ Hd) as (Hs & row & Hrow & Hdec). split; [done|].
    exists (restatus id status row). split; [apply elem_of_set_status; eauto|].
    unfold decides. by destruct (restatus_same id status row) as (-> & -> & _ & -> & _).
Qed.

(** ** What a step does *)

Definition new_row (revision : AuthoringRevision) (status id : string) (now : instant)
    : ContractRevisionRow :=
  let ref := revision_ref revision in
  MkRevisionRow id (cr_contract_type ref) (cr_logical_id ref) (cr_revision ref)
    (revision_project_id revision) (revision_title revision) status (revision_document revision)
    (cr_digest ref) now.

Definition append_row (row : ContractRevisionRow) (s : ContractDB) : ContractDB :=
  MkContractDB (cdb_projects s) (cdb_revisions s ++ [row]) (cdb_decisions s).
Definition append_decision (d : ContractDecisionRow) (s : ContractDB) : ContractDB :=
  MkContractDB (cdb_projects s) (cdb_revisions s) (cdb_decisions s ++ [d]).

Lemma save_cases revision status id now s row s' :
  save_contract_revision revision status id now s = Ok (row, s') →
  status ∈ ["draft"; "proposed"] ∧
  ((∃ existing, revision_row (revision_key revision) s = Some existing
      ∧ crow_digest existing = revision_digest revision
      ∧ (s' = s ∨ crow_status existing = "draft" ∧ status = "proposed"
                  ∧ s' = set_status (crow_id existing) "proposed" s))
   ∨ (revision_row (revision_key revision) s = None
      ∧ cr_revision (revision_ref revision) = (latest_revision
          (cr_contract_type (revision_ref revision)) (cr_logical_id (revision_ref revision)) s + 1)%Z
      ∧ revision_conflict (new_row revision status id now) s = false
      ∧ row = new_row revision status id now ∧ s' = append_row row s)).
Proof.
  unfold save_contract_revision. intros Hs. apply bind_ok in Hs as (u & Hst & Hs).
  apply raise_when_ok in Hst. bools. split; [done|].
  destruct (revision_row _ s) as [existing|] eqn:Er.
  - left. exists existing. unfold resolve_existing_revision in Hs. inv_ok. bools.
    split_and!; [done..|]. destruct (_ && _) eqn:Es; inv_ok; bools; auto.
  - right. inv_ok. bools. fold (new_row revision status id now) in Hs.
    destruct (revision_conflict _ s) eqn:Ec; inv_ok; [|done].
    unfold recover_integrity_error in Hs. rewrite Er in Hs. inv_ok. done.
Qed.

Lemma persist_cases d fixture id s row s' :
  persist_contract_decision verify d fixture id s = Ok (row, s') →
  ∃ revision, revision_row (identity_key (dec_revision_ref d)) s = Some revision
    ∧ crow_digest revision = cr_digest (dec_revision_ref d)
    ∧ authorize_decision verify d fixture = Ok tt
    ∧ (s' = s ∧ latest_decision (crow_id revision) s = Some row
         ∧ against_previous (Some row) d = Keep
       ∨ against_previous (latest_decision (crow_id revision) s) d = Append
         ∧ row = decision_row id revision d
         ∧ existsb (λ r, drow_id r ==b id) (cdb_decisions s) = false
         ∧ s' = append_decision row
             (set_status (crow_id revision) (Decision3_value (dec_decision d)) s)).
Proof.
  unfold persist_contract_decision. intros Hp.
  apply bind_ok in Hp as (revision & Hr & Hp). apply require_ok in Hr.
  apply bind_ok in Hp as (u & Hd & Hp). apply raise_when_ok in Hd. bools.
  apply bind_ok in Hp as ([] & Ha & Hp). exists revision. split_and!; [done..|].
  destruct (against_previous _ d) eqn:Ev; [|destruct (latest_decision _ s) eqn:El|done]; inv_ok; auto.
  unfold against_previous in Ev. by repeat case_decide.
Qed.

Lemma authorize_decision_ok d fixture :
  authorize_decision verify d fixture = Ok tt →
  authorize verify true d = Ok tt
  ∧ (∀ f, dec_authority d = RepositoryFixture f → fixture = Some f).
Proof.
  unfold authorize_decision, authorize. destruct (dec_authority d) as [p att|f].
  - destruct (verify _ _) as [[]|] eqn:E; [|done]. done.
  - intros Ha. inv_ok. bools. split; [done|]. naive_solver.
Qed.

(** ** Preservation *)

Lemma latest_revision_spec t id s :
  (∀ row, row ∈ cdb_revisions s → crow_contract_type row = t → crow_logical_id row = id →
     (crow_revision row <= latest_revision t id s)%Z)
  ∧ (latest_revision t id s = 0%Z ∨ ∃ row, row ∈ cdb_revisions s
       ∧ crow_key row = (t, id, latest_revision t id s)).
Proof.
  unfold latest_revision. set (l := map crow_revision _). destruct (max_default_spec l) as [Hle Hin].
  assert (Hl : ∀ n, n ∈ l ↔ ∃ row, row ∈ cdb_revisions s ∧ crow_key row = (t, id, n)).
  { intros n. unfold l. rewrite list_elem_of_fmap. split.
    - intros (row & -> & Hr). rewrite list_elem_of_In, filter_In, <- list_elem_of_In in Hr.
      destruct Hr. bools. exists row. unfold crow_key. naive_solver.
    - intros (row & Hr & [= <- <- <-]). exists row. split; [done|].
      rewrite list_elem_of_In, filter_In, <- list_elem_of_In. by rewrite !bool_decide_eq_true_2. }
  split.
  - intros row Hr <- <-. apply Hle, Hl. by exists row.
  - destruct Hin as [[_ ->]|Hin]; [by left|right]. by apply Hl.
Qed.

Lemma contract_inv_append_row revision status id now s :
  contract_inv s → reparses revision → revision_row (revision_key revision) s = None →
  cr_revision (revision_ref revision) = (latest_revision
    (cr_contract_type (revision_ref revision)) (cr_logical_id (revision_ref revision)) s + 1)%Z →
  revision_conflict (new_row revision status id now) s = false →
  contract_inv (append_row (new_row revision status id now) s).
Proof.
  intros Hi Hp Hnone Hmono Hc. set (row := new_row revision status id now) in *.
  unfold revision_conflict in Hc. apply orb_false_iff in Hc as [Hc Hproj]. bools.
  rewrite existsb_false in Hc.
  assert (Hfresh : ∀ r, r ∈ cdb_revisions s → crow_id r ≠ crow_id row ∧ crow_key r ≠ crow_key row).
  { intros r Hr. specialize (Hc _ Hr). by bools. }
  destruct (latest_revision_spec (crow_contract_type row) (crow_logical_id row) s) as [Hle Hlast].
  change (crow_revision row = (latest_revision (crow_contract_type row) (crow_logical_id row) s + 1)%Z)
    in Hmono.
  assert (Hsnoc : ∀ {B} (f : ContractRevisionRow → B), NoDup (map f (cdb_revisions s)) →
    (∀ r, r ∈ cdb_revisions s → f r ≠ f row) → NoDup (map f (cdb_revisions s ++ [row]))).
  { intros B f Hn Hne. rewrite map_app. apply NoDup_app. split_and!; [done| |apply NoDup_singleton].
    intros x (r & -> & Hr)%list_elem_of_fmap Hx%list_elem_of_singleton. by apply (Hne r). }
  constructor; cbn [append_row cdb_revisions cdb_projects cdb_decisions].
  - apply Hsnoc; [apply Hi|]. intros r Hr. by apply Hfresh.
  - apply Hsnoc; [apply Hi|]. intros r Hr. by apply Hfresh.
  - intros r [Hr| ->%list_elem_of_singleton]%elem_of_app; [by apply Hi|]. split; [|done].
    destruct Hp as (r' & E1 & E2 & E3). exists r'. unfold revision_key, revision_digest.
    split_and!; [done|by rewrite E2|by rewrite E2].
  - intros r [Hr| ->%list_elem_of_singleton]%elem_of_app; [by apply Hi|].
    destruct Hlast as [?|(r & Hr & E)]; [lia|]. pose proof (ci_positive _ Hi _ Hr).
    apply (f_equal snd) in E. unfold crow_key in E. cbn [snd] in E. lia.
  - intros r [Hr| ->%list_elem_of_singleton]%elem_of_app Hlt.
    + destruct (ci_contiguous _ Hi _ Hr Hlt) as (prev & ? & ?). exists prev. set_solver.
    + destruct Hlast as [?|(r & Hr & Hk)]; [lia|]. exists r. split; [set_solver|].
      rewrite Hk. do 2 f_equal. lia.
  - intros d Hd. destruct (ci_decisions _ Hi _ Hd) as (Hs & r & Hr & Hdec).
    split; [done|]. exists r. set_solver.
Qed.

Lemma contract_inv_append_decision d fixture id s revision :
  contract_inv s → revision_row (identity_key (dec_revision_ref d)) s = Some revision →
  crow_digest revision = cr_digest (dec_revision_ref d) →
  authorize_decision verify d fixture = Ok tt →
  contract_inv (append_decision (decision_row id revision d) s).
Proof.
  intros Hi [Hr Hk]%revision_row_Some Hdig [Ha _]%authorize_decision_ok.
  constructor; cbn; try apply Hi.
  intros e [He| ->%list_elem_of_singleton]%elem_of_app; [by apply Hi|].
  split; [by split_and!|]. exists revision. by split_and!.
Qed.

Lemma contract_inv_step s s' : contract_inv s → contract_step s s' → contract_inv s'.
Proof.
  intros Hi ([p|r status id now|d fixture id] & Hok & Hx); cbn in Hok, Hx; inv_ok.
  - constructor; cbn; try apply Hi. intros row Hr. destruct (ci_rows _ Hi _ Hr). set_solver.
  - match goal with E : save_contract_revision _ _ _ _ _ = Ok ?p |- _ => destruct p as [row s1];
      apply save_cases in E as [_ [(ex & _ & _ & [->|(_ & _ & ->)])|(Hn & Hm & Hc & -> & ->)]] end; cbn.
    + done.
    + by apply contract_inv_set_status.
    + by apply contract_inv_append_row.
  - match goal with E : persist_contract_decision _ _ _ _ _ = Ok ?p |- _ => destruct p as [row s1];
      apply persist_cases in E as (rev & Hr & Hd & Ha & [(-> & _)|(_ & -> & _ & ->)]) end; cbn; [done|].
    change (append_decision ?x (set_status ?i ?t s)) with
      (set_status i t (append_decision x s)).
    apply contract_inv_set_status. by eapply contract_inv_append_decision.
Qed.

Lemma contract_inv_steps s s' : contract_inv s → rtc contract_step s s' → contract_inv s'.
Proof. intros Hi Hs. induction Hs; [done|]. eauto using contract_inv_step. Qed.

(** ** Decisions stored in order *)

Definition permitted (previous : option RevisionDecisionRecord) (d : RevisionDecisionRecord) : Prop :=
  match previous with
  | None => dec_decision d ≠ Superseded
  | Some e => conflicts e d = false
  end.

(** Decisions of one revision that the in-memory registry accepts one after the other. *)
Fixpoint legal (previous : option RevisionDecisionRecord) (l : list RevisionDecisionRecord) : Prop :=
  match l with
  | [] => True
  | d :: rest => permitted previous d ∧ legal (Some d) rest
  end.

Lemma legal_snoc previous l d :
  legal previous (l ++ [d]) ↔ legal previous l ∧ permitted (match last l with Some e => Some e | None => previous end) d.
Proof.
  revert previous. induction l as [|e l IH]; intros previous; [cbn; tauto|].
  cbn [app legal]. rewrite IH, last_cons. destruct (last l); tauto.
Qed.

Definition before (a b : ContractDecisionRow) : Prop := (drow_decided_at a < drow_decided_at b)%Z.

Record order_inv (s : ContractDB) : Prop := {
  oi_sorted : ∀ id, StronglySorted before (decisions_of id s);
  oi_legal : ∀ id, legal None (map drow_record (decisions_of id s));
  oi_status : ∀ row, row ∈ cdb_revisions s →
    match last (decisions_of (crow_id row) s) with
    | Some d => crow_status row = Decision3_value (drow_decision d)
    | None => crow_status row ∈ ["draft"; "proposed"]
    end
}.

Lemma order_inv_empty : order_inv empty_contracts.
Proof. constructor; cbn; [constructor|done|]. intros row Hr. by apply elem_of_nil in Hr. Qed.

Lemma latest_is_last id s :
  StronglySorted before (decisions_of id s) → latest_decision id s = last (decisions_of id s).
Proof.
  unfold latest_decision. set (l := decisions_of id s). intros Hs.
  destruct (head (sort_by _ l)) as [x|] eqn:E.
  - apply head_sort_by in E as [Hx Hmax]; [|intros a b; rewrite Z.leb_gt, Z.leb_le; lia
                                            |intros a b c; rewrite !Z.leb_le; lia].
    destruct l as [|y l'] eqn:El using rev_ind; [by apply elem_of_nil in Hx|].
    rewrite last_snoc. destruct (Hmax y) as [->|Hle]; [set_solver|done|]. apply Z.leb_le in Hle.
    apply elem_of_app in Hx as [Hx|Hx%list_elem_of_singleton]; [|congruence].
    eapply StronglySorted_app_1_elem_of in Hs; [|exact Hx|left]. unfold before in Hs. lia.
  - destruct l as [|y l']; [done|]. exfalso.
    pose proof (length_sort_by (λ a b, (drow_decided_at b <=? drow_decided_at a)%Z) (y :: l')) as Hl.
    by destruct (sort_by _ (y :: l')).
Qed.

Lemma against_previous_permitted previous d :
  (∀ e, previous = Some e → drow_decision e = dec_decision (drow_record e)) →
  against_previous previous d = Append → permitted (drow_record <$> previous) d.
Proof.
  unfold against_previous. destruct previous as [e|]; cbn; intros He.
  - rewrite (He e) by done. unfold conflicts. case_decide as E; [done|].
    destruct (_ && _); [done|]. done.
  - by case_decide.
Qed.

Lemma decisions_of_append id d s :
  decisions_of id (append_decision d s)
  = decisions_of id s ++ (if decide (drow_contract_revision_id d = id) then [d] else []).
Proof.
  unfold decisions_of; cbn. rewrite List.filter_app. cbn. f_equal.
  case_decide; [by rewrite bool_decide_eq_true_2|by rewrite bool_decide_eq_false_2].
Qed.

Lemma Decision3_value_initial d : Decision3_value d ∉ ["draft"; "proposed"].
Proof. destruct d; cbn; set_solver. Qed.

(** Restating an undecided row keeps the order invariant. *)
Lemma order_inv_propose existing s :
  contract_inv s → order_inv s → existing ∈ cdb_revisions s → crow_status existing = "draft" →
  order_inv (set_status (crow_id existing) "proposed" s).
Proof.
  intros Hi Ho Hin Hd. constructor; [apply Ho..|].
  intros row (row0 & -> & Hrow)%elem_of_set_status.
  destruct (restatus_same (crow_id existing) "proposed" row0) as (-> & _).
  change (decisions_of ?i (set_status _ _ s)) with (decisions_of i s).
  pose proof (oi_status _ Ho _ Hrow) as Hst. unfold restatus. case_decide as E; [|done].
  pose proof (oi_status _ Ho _ Hin) as Hst'. rewrite <- E, Hd in Hst'.
  destruct (last _) as [d|]; [|set_solver]. exfalso. apply (Decision3_value_initial (drow_decision d)).
  rewrite <- Hst'. set_solver.
Qed.

(** A new row has no decision yet. *)
Lemma order_inv_append_row row s :
  contract_inv s → order_inv s → (∀ r, r ∈ cdb_revisions s → crow_id r ≠ crow_id row) →
  crow_status row ∈ ["draft"; "proposed"] → order_inv (append_row row s).
Proof.
  intros Hi Ho Hfresh Hst. constructor; [apply Ho..|].
  change (decisions_of ?i (append_row row s)) with (decisions_of i s).
  intros r [Hr| ->%list_elem_of_singleton]%elem_of_app; [by apply Ho|].
  destruct (last _) as [d|] eqn:E; [|done]. exfalso. apply last_Some_elem in E.
  unfold decisions_of in E. rewrite list_elem_of_In, filter_In, <- list_elem_of_In in E.
  destruct E as [Hd Hid]. bools.
  destruct (ci_decisions _ Hi _ Hd) as (_ & r & Hr & Hk & _). apply (Hfresh _ Hr). congruence.
Qed.

Lemma order_inv_append_decision id revision d s :
  contract_inv s → order_inv s → revision ∈ cdb_revisions s →
  (∀ e, e ∈ decisions_of (crow_id revision) s → (drow_decided_at e < dec_decided_at_utc d)%Z) →
  against_previous (latest_decision (crow_id revision) s) d = Append →
  order_inv (append_decision (decision_row id revision d)
    (set_status (crow_id revision) (Decision3_value (dec_decision d)) s)).
Proof.
  intros Hi Ho Hrev Hlater Hv. rewrite latest_is_last in Hv by apply Ho.
  set (row := decision_row id revision d). set (s1 := set_status _ _ s).
  assert (Hds : ∀ i, decisions_of i (append_decision row s1)
    = decisions_of i s ++ (if decide (crow_id revision = i) then [row] else [])).
  { intros i. by rewrite decisions_of_append. }
  constructor.
  - intros i. rewrite Hds. case_decide as E; [|rewrite app_nil_r; apply Ho]. subst i.
    apply StronglySorted_app_2; [intros a b Ha ->%list_elem_of_singleton; by apply Hlater|apply Ho|].
    repeat constructor.
  - intros i. rewrite Hds. case_decide as E; [|rewrite app_nil_r; apply Ho]. subst i.
    rewrite map_app. apply legal_snoc. split; [apply Ho|].
    apply against_previous_permitted in Hv.
    + change (map drow_record ?l) with (drow_record <$> l). rewrite fmap_last. by destruct (last _).
    + intros e He%last_Some_elem. unfold decisions_of in He.
      rewrite list_elem_of_In, filter_In, <- list_elem_of_In in He.
      destruct He as [He _]. by destruct (ci_decisions _ Hi _ He) as [(_ & _ & ? & _) _].
  - intros r Hr. apply elem_of_set_status in Hr as (r0 & -> & Hr). rewrite Hds.
    destruct (restatus_same (crow_id revision) (Decision3_value (dec_decision d)) r0) as (-> & _).
    unfold restatus. case_decide as E; case_decide as E'; try congruence.
    + by rewrite last_snoc.
    + rewrite app_nil_r. by apply Ho.
Qed.

Lemma order_inv_step s s' : contract_inv s → order_inv s → ordered_step s s' → order_inv s'.
Proof.
  intros Hi Ho (c & Hok & Hx & [->|Hord]); [done|].
  destruct c as [p|r status id now|d fixture id]; cbn in Hok, Hx, Hord; inv_ok.
  - constructor; apply Ho.
  - match goal with E : save_contract_revision _ _ _ _ _ = Ok ?p |- _ => destruct p as [row s1];
      apply save_cases in E as [Hst [(ex & Hex & _ & [->|(Hd & _ & ->)])|(Hn & Hm & Hc & -> & ->)]] end; cbn.
    + done.
    + apply order_inv_propose; [done..| |done]. by apply revision_row_Some in Hex as [? _].
    + apply order_inv_append_row; [done..| |done]. intros x Hx'.
      unfold revision_conflict in Hc. apply orb_false_iff in Hc as [Hc _]. rewrite existsb_false in Hc.
      specialize (Hc _ Hx'). by bools.
  - match goal with E : persist_contract_decision _ _ _ _ _ = Ok ?p |- _ => destruct p as [row s1];
      apply persist_cases in E as (rev & Hr & Hd & Ha & [(-> & _)|(Hv & -> & _ & ->)]) end; cbn; [done|].
    apply revision_row_Some in Hr as Hr'. destruct Hr' as [Hin _].
    apply order_inv_append_decision; [done..| |done]. intros e He. by eapply Hord.
Qed.

(** ** The legacy import is a sequence of the same steps *)

Lemma each_committed_steps {A B} (f : nat → A → ContractDB → result (B * ContractDB)) n l s s' r :
  (∀ n x s b s', x ∈ l → f n x s = Ok (b, s') → contract_step s s') →
  each_committed f n l s = (s', r) → rtc contract_step s s'.
Proof.
  revert n s s' r. induction l as [|x l IH]; intros n s s' r Hf He; cbn in He; [by injection He as <- _|].
  destruct (f n x s) as [[b s1]|] eqn:E; [|by injection He as <- _].
  destruct (each_committed f (S n) l s1) as [s2 r2] eqn:E2. injection He as <- _.
  eapply rtc_l; [eapply Hf; [left|exact E]|]. eapply IH; [|exact E2].
  intros n' y t b' t' Hy. apply Hf. by right.
Qed.

Lemma import_legacy_steps package ids now s s' r :
  (∀ x, x ∈ pkg_revisions package → reparses x) →
  import_legacy_contract_package verify package ids now s = (s', r) → rtc contract_step s s'.
Proof.
  intros Hp. unfold import_legacy_contract_package.
  destruct (_ || _); [by intros [= <- _]|].
  destruct (each_committed _ 0 _ s) as [s1 [rows|e]] eqn:E1; intros E2.
  - etrans.
    + eapply each_committed_steps; [|exact E1]. intros n x t b t' Hx Hs.
      exists (SaveRevision x "draft" (ids n) now). cbn. rewrite Hs. split; [by apply Hp|done].
    + eapply each_committed_steps; [|exact E2]. intros n d t b t' _ Hs.
      exists (PersistDecision d (Some (fixture_digest package)) (ids n)). cbn. by rewrite Hs.
  - injection E2 as <- _. eapply each_committed_steps; [|exact E1]. intros n x t b t' Hx Hs.
    exists (SaveRevision x "draft" (ids n) now). cbn. rewrite Hs. split; [by apply Hp|done].
Qed.

End inv.
