(* ===== verification/ContractLoad.v ===== *)
(** * Loading the stored registry

    [contract_registry] rebuilds the in-memory registry from the tables. The fold over the
    revision rows adds every row, the fold over the decision rows replays the decisions in
    the order of their instants; both are characterised exactly, so that the theorems state
    when the registry loads and what it resolves. *)

From S2P Require Import Prelude PyText PyJson Base Authoring Runtime Triage Trust Samples Registry ContractStore ContractInv.

Section load.
Context `{PyRuntime} `{RevisionModels}.
Variable verify : HumanAttestationRecord → string → result unit.

(** ** Revisions *)

Lemma crow_leb_total a b : crow_leb a b = false → crow_leb b a = true.
Proof.
  unfold crow_leb. intros Hab.
  repeat case_decide; try congruence; try (by apply string_leb_total).
  rewrite Z.leb_gt in Hab. rewrite Z.leb_le. lia.
Qed.

Lemma crow_leb_trans a b c : crow_leb a b = true → crow_leb b c = true → crow_leb a c = true.
Proof.
  unfold crow_leb. intros Hab Hbc.
  repeat case_decide; try congruence; rewrite ?Z.leb_le in *; try lia;
    repeat match goal with E : _ = _ |- _ => rewrite E in * end;
    first [done|by eapply string_leb_trans|exfalso];
    match goal with H1 : String.leb ?x ?y = true, H2 : String.leb ?y ?x = true |- _ =>
      pose proof (String.leb_antisym _ _ H1 H2); congruence end.
Qed.

(** The registry and the row index after loading [rows]. *)
Record loaded (rows : list ContractRevisionRow) (reg : Registry) (m : gmap string AuthoringRevision)
    : Prop := {
  lo_steps : reg_steps verify true empty_registry reg;
  lo_undecided : reg_decisions reg = ∅;
  lo_revisions : ∀ k r, reg_revisions reg !! k = Some r ↔
    ∃ row, row ∈ rows ∧ crow_key row = k ∧ parse_revision (crow_document row) = Ok r;
  lo_index : ∀ id r, m !! id = Some r ↔
    ∃ row, row ∈ rows ∧ crow_id row = id ∧ parse_revision (crow_document row) = Ok r
}.

Lemma loaded_nil : loaded [] empty_registry ∅.
Proof.
  split; [constructor|done|..]; intros k r; cbn; rewrite lookup_empty;
    (split; [done|]); intros (row & Hr & _); by apply elem_of_nil in Hr.
Qed.

Lemma loaded_inv rows reg m : loaded rows reg m → reg_inv verify true reg.
Proof. intros Hl. eapply reg_inv_steps; [apply reg_inv_empty|apply Hl]. Qed.

(** Loading a row that is new and sound extends the registry by exactly that row. *)
Lemma load_revision_loaded rows reg m row reg' m' :
  loaded rows reg m → row_sound row →
  crow_key row ∉ map crow_key rows → crow_id row ∉ map crow_id rows →
  load_revision (reg, m) row = Ok (reg', m') → loaded (rows ++ [row]) reg' m'.
Proof.
  intros Hl (r & Hp & Hk & Hg) Hkey Hid. unfold load_revision. rewrite Hp. cbn [mbind result_bind].
  intros Hx. apply bind_ok in Hx as (u & _ & Hx). apply bind_ok in Hx as (reg1 & Ha & Hx).
  injection Hx as <- <-. pose proof (step_add verify true _ _ _ Ha) as Hstep. unfold add in Ha.
  rewrite Hk in Ha. destruct (reg_revisions reg !! crow_key row) as [e|] eqn:Ee.
  { exfalso. apply (lo_revisions _ _ _ Hl) in Ee as (row0 & Hr0 & E & _).
    apply Hkey, list_elem_of_fmap. by exists row0. }
  inv_ok. split; cbn.
  - eapply rtc_r; [apply Hl|exact Hstep].
  - apply Hl.
  - intros k r'. rewrite lookup_insert_Some, (lo_revisions _ _ _ Hl). split.
    + intros [[<- <-]|[Hne (row0 & ? & ? & ?)]]; [exists row|exists row0]; set_solver.
    + intros (row0 & [Hr0| ->%list_elem_of_singleton]%elem_of_app & <- & E);
        [right|left; split; congruence]. split; [|by exists row0]. intros E'. apply Hkey.
      apply list_elem_of_fmap. by exists row0.
  - intros i r'. rewrite lookup_insert_Some, (lo_index _ _ _ Hl). split.
    + intros [[<- <-]|[Hne (row0 & ? & ? & ?)]]; [exists row|exists row0]; set_solver.
    + intros (row0 & [Hr0| ->%list_elem_of_singleton]%elem_of_app & <- & E);
        [right|left; split; congruence]. split; [|by exists row0]. intros E'. apply Hid.
      apply list_elem_of_fmap. by exists row0.
Qed.

(** A row whose number follows the loaded ones is accepted. *)
Lemma load_revision_succeeds rows reg m row :
  loaded rows reg m → row_sound row → crow_key row ∉ map crow_key rows →
  (∀ r, r ∈ rows → row_sound r) → (1 <= crow_revision row)%Z →
  (∀ r, r ∈ rows → crow_contract_type r = crow_contract_type row →
     crow_logical_id r = crow_logical_id row → (crow_revision r < crow_revision row)%Z) →
  ((1 < crow_revision row)%Z → (crow_contract_type row, crow_logical_id row, (crow_revision row - 1)%Z)
     ∈ map crow_key rows) →
  ∃ reg' m', load_revision (reg, m) row = Ok (reg', m').
Proof.
  intros Hl (r & Hp & Hk & Hg) Hkey Hsound Hpos Hlt Hpred. unfold load_revision. rewrite Hp. cbn.
  rewrite Hg, bool_decide_eq_true_2 by done. cbn. unfold add. rewrite Hk.
  destruct (reg_revisions reg !! crow_key row) as [e|] eqn:Ee.
  { exfalso. apply (lo_revisions _ _ _ Hl) in Ee as (row0 & Hr0 & E & _).
    apply Hkey, list_elem_of_fmap. by exists row0. }
  unfold revision_key, identity_key, crow_key in Hk. injection Hk as Et Ei En.
  unfold require_monotonic. rewrite Et, Ei, En.
  set (prior := prior_revisions reg _ _). destruct (max_default_spec prior) as [Hmax Hin].
  assert (Hprior : ∀ n, n ∈ prior ↔
    (crow_contract_type row, crow_logical_id row, n) ∈ map crow_key rows).
  { intros n. unfold prior. rewrite (elem_of_prior_revisions verify true) by by eapply loaded_inv.
    rewrite list_elem_of_fmap. split.
    - intros [x (row0 & ? & ? & _)%(lo_revisions _ _ _ Hl)]. by exists row0.
    - intros (row0 & Ek & Hr0). destruct (Hsound _ Hr0) as (x & Hx & _).
      exists x. apply (lo_revisions _ _ _ Hl). by exists row0. }
  assert (E : (crow_revision row =? max_default prior + 1)%Z = true).
  { apply Z.eqb_eq. assert (Hbelow : ∀ n, n ∈ prior → (n < crow_revision row)%Z).
    { intros n (row0 & Ek & Hr0)%Hprior%list_elem_of_fmap. unfold crow_key in Ek. simplify_eq.
      by apply Hlt. }
    destruct (decide (1 < crow_revision row)%Z) as [Hgt|].
    - pose proof (proj2 (Hprior _) (Hpred Hgt)) as Hp1. pose proof (Hmax _ Hp1).
      destruct Hin as [[Hnil _]|Hin].
      + rewrite Hnil in Hp1. by apply elem_of_nil in Hp1.
      + apply Hbelow in Hin. lia.
    - destruct Hin as [[_ ->]|Hin]; [lia|]. apply Hprior, list_elem_of_fmap in Hin as (row0 & Ek & Hr0).
      destruct (Hsound _ Hr0) as (x & Hx & Hkx & _).
      assert (Hp0 : reg_revisions reg !! crow_key row0 = Some x)
        by (apply (lo_revisions _ _ _ Hl); by exists row0).
      rewrite <- Ek in Hp0. apply (ri_positive _ _ _ (loaded_inv _ _ _ Hl)) in Hp0.
      assert (max_default prior ∈ prior) as Hb%Hbelow by (apply Hprior, list_elem_of_fmap; eauto). lia. }
  rewrite E. cbn. eauto.
Qed.

(** The rows of a table in the order they are loaded. *)
Definition loadable (rows : list ContractRevisionRow) : Prop :=
  NoDup (map crow_id rows) ∧ NoDup (map crow_key rows)
  ∧ (∀ row, row ∈ rows → row_sound row ∧ (1 <= crow_revision row)%Z).

Definition closed_below (rows : list ContractRevisionRow) : Prop :=
  ∀ row, row ∈ rows → (1 < crow_revision row)%Z →
    (crow_contract_type row, crow_logical_id row, (crow_revision row - 1)%Z) ∈ map crow_key rows.

Lemma loadable_middle rows row rest :
  loadable (rows ++ row :: rest) →
  loadable ((rows ++ [row]) ++ rest) ∧ row_sound row
  ∧ (crow_key row ∉ map crow_key rows) ∧ (crow_id row ∉ map crow_id rows).
Proof.
  rewrite <- app_assoc. cbn. intros Hl. pose proof Hl as (Hi & Hk & Hs). split_and!; [done|..].
  - apply Hs. set_solver.
  - rewrite map_app in Hk. apply NoDup_app in Hk as (_ & Hd & _). intros E. apply (Hd _ E). left.
  - rewrite map_app in Hi. apply NoDup_app in Hi as (_ & Hd & _). intros E. apply (Hd _ E). left.
Qed.

Lemma load_revisions_loaded rest rows reg m reg' m' :
  loaded rows reg m → loadable (rows ++ rest) →
  fold_res load_revision (reg, m) rest = Ok (reg', m') → loaded (rows ++ rest) reg' m'.
Proof.
  revert rows reg m. induction rest as [|row rest IH]; intros rows reg m Hl Hok Hf; cbn in Hf.
  - injection Hf as <- <-. by rewrite app_nil_r.
  - apply bind_ok in Hf as ([reg1 m1] & H1 & Hf).
    apply loadable_middle in Hok as (Hok & Hs & Hk & Hi).
    replace (rows ++ row :: rest) with ((rows ++ [row]) ++ rest) by by rewrite <- app_assoc.
    eapply IH; [|done..]. by eapply load_revision_loaded.
Qed.

Lemma load_revisions_succeed rest rows reg m :
  loaded rows reg m → loadable (rows ++ rest) → closed_below (rows ++ rest) →
  StronglySorted (λ a b, crow_leb a b = true) (rows ++ rest) →
  ∃ reg' m', fold_res load_revision (reg, m) rest = Ok (reg', m').
Proof.
  revert rows reg m. induction rest as [|row rest IH]; intros rows reg m Hl Hok Hcl Hsort; [by do 2 eexists|].
  pose proof Hok as (_ & Hkeys & Hs). apply loadable_middle in Hok as (Hok & Hsr & Hk & Hi).
  destruct (load_revision_succeeds rows reg m row Hl Hsr Hk) as (reg1 & m1 & H1).
  - intros r Hr. apply Hs. set_solver.
  - apply Hs. set_solver.
  - intros r Hr Et Ei. eapply StronglySorted_app_1_elem_of in Hsort; [|exact Hr|left].
    unfold crow_leb in Hsort. rewrite Et, Ei, !decide_True in Hsort by done. apply Z.leb_le in Hsort.
    assert (crow_revision r ≠ crow_revision row); [|lia]. intros E. apply Hk, list_elem_of_fmap.
    exists r. split; [|done]. unfold crow_key. by rewrite Et, Ei, E.
  - intros Hgt. specialize (Hcl row ltac:(set_solver) Hgt). rewrite map_app in Hcl.
    apply elem_of_app in Hcl as [?|Hcl]; [done|exfalso].
    apply StronglySorted_app_1_r in Hsort. inversion Hsort as [|? ? ? Hf]; subst.
    apply list_elem_of_fmap in Hcl as (r & Ek & [->|Hr]%elem_of_cons).
    + unfold crow_key in Ek. injection Ek as Ek. lia.
    + rewrite Forall_forall in Hf. specialize (Hf _ Hr). unfold crow_key in Ek. injection Ek as Et Ei En.
      unfold crow_leb in Hf. rewrite <- Et, <- Ei, !decide_True in Hf by done. apply Z.leb_le in Hf. lia.
  - cbn [fold_res]. rewrite H1. cbn [mbind result_bind]. eapply (IH (rows ++ [row])).
    + by eapply load_revision_loaded.
    + done.
    + by rewrite <- app_assoc.
    + by rewrite <- app_assoc.
Qed.

(** ** Decisions *)

Definition drow_key (d : ContractDecisionRow) : RevisionKey :=
  identity_key (dec_revision_ref (drow_record d)).

(** The decisions in force after replaying [l]. *)
Definition replayed (l : list ContractDecisionRow) : gmap RevisionKey RevisionDecisionRecord :=
  foldl (λ m d, <[drow_key d := drow_record d]> m) ∅ l.

Definition of_key (k : RevisionKey) (l : list ContractDecisionRow) : list ContractDecisionRow :=
  List.filter (λ d, drow_key d ==b k) l.

Lemma of_key_snoc k l d :
  of_key k (l ++ [d]) = if decide (drow_key d = k) then of_key k l ++ [d] else of_key k l.
Proof.
  unfold of_key. rewrite List.filter_app. cbn.
  case_decide; [by rewrite bool_decide_eq_true_2|by rewrite bool_decide_eq_false_2, app_nil_r].
Qed.

Lemma replayed_snoc l d : replayed (l ++ [d]) = <[drow_key d := drow_record d]> (replayed l).
Proof. unfold replayed. by rewrite foldl_app. Qed.

Lemma replayed_lookup l k : replayed l !! k = drow_record <$> last (of_key k l).
Proof.
  induction l as [|d l IH] using rev_ind; [done|]. rewrite replayed_snoc, of_key_snoc.
  case_decide as E; [subst; by rewrite lookup_insert_eq, last_snoc|].
  by rewrite lookup_insert_ne.
Qed.

(** A decision row that can be replayed on the revisions [R] under the index [m]. *)
Definition replayable (R : gmap RevisionKey AuthoringRevision) (m : gmap string AuthoringRevision)
    (d : ContractDecisionRow) : Prop :=
  decision_sound verify d ∧ is_Some (m !! drow_contract_revision_id d)
  ∧ ∃ r, R !! drow_key d = Some r
      ∧ revision_digest r = cr_digest (dec_revision_ref (drow_record d)).

Lemma load_decision_iff R m l d reg :
  replayable R m d →
  load_decision verify m (MkRegistry R (replayed l)) d = Ok reg ↔
  permitted (drow_record <$> last (of_key (drow_key d) l)) (drow_record d)
  ∧ reg = MkRegistry R (replayed (l ++ [d])).
Proof.
  intros ((Ha & Hd & _) & [r' Hm] & r & Hr & Hg). unfold load_decision. rewrite Hm, Hd.
  rewrite bool_decide_eq_true_2 by done. cbn [negb raise_when mbind result_bind].
  unfold decide_revision. rewrite Ha. cbn [mbind result_bind reg_revisions reg_decisions].
  fold (drow_key d). rewrite Hr, Hg.
  rewrite (bool_decide_eq_true_2 (cr_digest (dec_revision_ref (drow_record d)) = _)) by done.
  cbn [negb raise_when mbind result_bind]. rewrite replayed_lookup, replayed_snoc.
  destruct (last (of_key (drow_key d) l)) as [e|]; cbn [fmap option_fmap option_map permitted].
  - rewrite (bool_decide_eq_false_2 (Some _ = None)) by done. cbn.
    destruct (conflicts _ _); cbn; naive_solver.
  - rewrite (bool_decide_eq_true_2 (None = None)) by done. cbn. case_bool_decide; cbn; naive_solver.
Qed.

Lemma load_decisions_iff R m rest l reg :
  (∀ d, d ∈ rest → replayable R m d) → (∀ k, legal None (map drow_record (of_key k l))) →
  fold_res (load_decision verify m) (MkRegistry R (replayed l)) rest = Ok reg ↔
  (∀ k, legal None (map drow_record (of_key k (l ++ rest))))
  ∧ reg = MkRegistry R (replayed (l ++ rest)).
Proof.
  revert l. induction rest as [|d rest IH]; intros l Hok Hl; cbn [fold_res].
  - rewrite app_nil_r. split; [by intros [= <-]|by intros [_ ->]].
  - assert (Hd : replayable R m d) by (apply Hok; left).
    assert (Hrest : ∀ d, d ∈ rest → replayable R m d) by (intros; apply Hok; by right).
    assert (Hnext : permitted (drow_record <$> last (of_key (drow_key d) l)) (drow_record d) →
      ∀ k, legal None (map drow_record (of_key k (l ++ [d])))).
    { intros Hp k. rewrite of_key_snoc. case_decide as E; [|done]. subst. rewrite map_app.
      apply legal_snoc. split; [done|]. change (map drow_record ?x) with (drow_record <$> x).
      rewrite fmap_last. by destruct (last _). }
    replace (l ++ d :: rest) with ((l ++ [d]) ++ rest) by by rewrite <- app_assoc.
    rewrite bind_ok. split.
    + intros (reg1 & [Hp ->]%load_decision_iff & Hf); [|done]. apply IH in Hf; [done|done|auto].
    + intros [Hk ->]. assert (Hp : permitted (drow_record <$> last (of_key (drow_key d) l)) (drow_record d)).
      { specialize (Hk (drow_key d)). unfold of_key in Hk. rewrite List.filter_app in Hk.
        fold (of_key (drow_key d) (l ++ [d])) in Hk. rewrite of_key_snoc, decide_True in Hk by done.
        rewrite map_app in Hk. clear -Hk. set (x := of_key _ l) in *. rewrite map_app in Hk.
        assert (Happ : ∀ a b p, legal p (a ++ b) → legal p a).
        { induction a as [|y a IHa]; cbn; [done|]. intros b p [? ?]. split; [done|]. by eapply IHa. }
        apply Happ, legal_snoc in Hk as [_ Hk]. change (map drow_record x) with (drow_record <$> x) in Hk.
        rewrite fmap_last in Hk. by destruct (last x). }
      eexists. split; [by apply load_decision_iff|]. apply IH; [done|auto|done].
Qed.

(** ** The whole load *)

Lemma NoDup_key_row s row row' :
  contract_inv verify s → row ∈ cdb_revisions s → row' ∈ cdb_revisions s →
  crow_key row = crow_key row' ∨ crow_id row = crow_id row' → row = row'.
Proof.
  intros Hi Hr Hr' E. apply list_elem_of_lookup_1 in Hr as [i Hi1], Hr' as [j Hj].
  assert (i = j) as ->; [|congruence]. destruct E as [E|E].
  - eapply NoDup_lookup; [apply (ci_keys _ _ Hi)| |]; rewrite list_lookup_fmap;
      [by rewrite Hi1|by rewrite Hj; cbn; rewrite E].
  - eapply NoDup_lookup; [apply (ci_ids _ _ Hi)| |]; rewrite list_lookup_fmap;
      [by rewrite Hi1|by rewrite Hj; cbn; rewrite E].
Qed.

(** The decisions that name a row are the decisions stored for it. *)
Lemma of_key_decisions s row :
  contract_inv verify s → row ∈ cdb_revisions s →
  of_key (crow_key row) (cdb_decisions s) = decisions_of (crow_id row) s.
Proof.
  intros Hi Hr. unfold of_key, decisions_of. apply filter_ext_in. intros d Hd%list_elem_of_In.
  destruct (ci_decisions _ _ Hi _ Hd) as (_ & row' & Hr' & Hid & Hk & _).
  apply bool_decide_ext. unfold drow_key. rewrite Hid, Hk. split; intros E.
  - by rewrite (NoDup_key_row s row' row) by auto.
  - by rewrite (NoDup_key_row s row' row) by auto.
Qed.

Lemma decided_leb_total a b : decided_leb a b = false → decided_leb b a = true.
Proof. unfold decided_leb. rewrite Z.leb_gt, Z.leb_le. lia. Qed.
Lemma decided_leb_trans a b c : decided_leb a b = true → decided_leb b c = true → decided_leb a c = true.
Proof. unfold decided_leb. rewrite !Z.leb_le. lia. Qed.

Lemma of_key_sorted k s :
  of_key k (sort_by decided_leb (cdb_decisions s)) = sort_by decided_leb (of_key k (cdb_decisions s)).
Proof. apply filter_sort_by; [apply decided_leb_total|apply decided_leb_trans]. Qed.

Lemma loadable_sub rows s :
  contract_inv verify s → rows `sublist_of` cdb_revisions s → loadable (sort_by crow_leb rows).
Proof.
  intros Hi Hsub. unfold loadable. split_and!.
  - change (NoDup (crow_id <$> sort_by crow_leb rows)). rewrite sort_by_Permutation.
    eapply sublist_NoDup; [apply (ci_ids _ _ Hi)|]. by apply fmap_sublist.
  - change (NoDup (crow_key <$> sort_by crow_leb rows)). rewrite sort_by_Permutation.
    eapply sublist_NoDup; [apply (ci_keys _ _ Hi)|]. by apply fmap_sublist.
  - intros row Hr%elem_of_sort_by. assert (row ∈ cdb_revisions s) by by eapply elem_of_sublist.
    split; by apply (ci_rows _ _ Hi) || by apply (ci_positive _ _ Hi).
Qed.

Lemma all_revisions_load s :
  contract_inv verify s → ∃ reg m,
    fold_res load_revision (empty_registry, ∅) (sort_by crow_leb (cdb_revisions s)) = Ok (reg, m)
    ∧ loaded (sort_by crow_leb (cdb_revisions s)) reg m.
Proof.
  intros Hi. assert (Hok : loadable (sort_by crow_leb (cdb_revisions s))).
  { by eapply loadable_sub. }
  destruct (load_revisions_succeed (sort_by crow_leb (cdb_revisions s)) [] empty_registry ∅)
    as (reg & m & Hf).
  - apply loaded_nil.
  - done.
  - intros row Hr%elem_of_sort_by Hgt. destruct (ci_contiguous _ _ Hi _ Hr Hgt) as (prev & Hp & <-).
    apply list_elem_of_fmap. exists prev. split; [done|]. by apply elem_of_sort_by.
  - apply sort_by_Sorted; [apply crow_leb_total|apply crow_leb_trans].
  - exists reg, m. split; [done|]. by eapply (load_revisions_loaded _ []); [apply loaded_nil|..].
Qed.

(** The stored registry loads exactly when, for every revision, its decisions are legal in
    the order of their instants. *)
Lemma contract_registry_iff s : contract_inv verify s → ∃ R,
  (∀ k r, R !! k = Some r ↔ ∃ row, row ∈ cdb_revisions s ∧ crow_key row = k
     ∧ parse_revision (crow_document row) = Ok r)
  ∧ ∀ reg, contract_registry verify None s = Ok reg ↔
     (∀ k, legal None (map drow_record (sort_by decided_leb (of_key k (cdb_decisions s)))))
     ∧ reg = MkRegistry R (replayed (sort_by decided_leb (cdb_decisions s))).
Proof.
  intros Hi. destruct (all_revisions_load s Hi) as (reg0 & m & Hf & Hl).
  exists (reg_revisions reg0). split.
  { intros k r. rewrite (lo_revisions _ _ _ Hl). by setoid_rewrite elem_of_sort_by. }
  intros reg. unfold contract_registry. rewrite Hf. cbn [mbind result_bind].
  assert (Ereg : reg0 = MkRegistry (reg_revisions reg0) (replayed [])).
  { pose proof (lo_undecided _ _ _ Hl) as E. destruct reg0. cbn in *. by rewrite E. }
  rewrite Ereg at 1.
  rewrite load_decisions_iff; [|..].
  - cbn [app]. by setoid_rewrite of_key_sorted.
  - intros d Hd%elem_of_sort_by. destruct (ci_decisions _ _ Hi _ Hd) as (Hs & row & Hr & Hid & Hk & Hg).
    destruct (ci_rows _ _ Hi _ Hr) as [(r & Hp & Hkr & Hgr) _]. split_and!; [done| |].
    + exists r. apply (lo_index _ _ _ Hl). exists row. by rewrite elem_of_sort_by.
    + exists r. split; [|congruence]. apply (lo_revisions _ _ _ Hl). exists row.
      by rewrite elem_of_sort_by.
  - done.
Qed.

Lemma load_decisions_steps m l reg reg' :
  fold_res (load_decision verify m) reg l = Ok reg' → reg_steps verify true reg reg'.
Proof.
  revert reg. induction l as [|d l IH]; intros reg Hf; cbn [fold_res] in Hf; [by injection Hf as <-|].
  apply bind_ok in Hf as (reg1 & H1 & Hf). etrans; [|by apply IH].
  unfold load_decision in H1. destruct (m !! _); [|by injection H1 as <-].
  apply bind_ok in H1 as (u & _ & H1). eapply rtc_once, step_decide, H1.
Qed.

Lemma contract_registry_steps s reg :
  contract_inv verify s → contract_registry verify None s = Ok reg →
  reg_steps verify true empty_registry reg.
Proof.
  intros Hi Hc. destruct (all_revisions_load s Hi) as (reg0 & m & Hf & Hl).
  unfold contract_registry in Hc. rewrite Hf in Hc. cbn [mbind result_bind] in Hc.
  etrans; [apply Hl|by eapply load_decisions_steps].
Qed.

Lemma sorted_decisions id s :
  order_inv s → sort_by decided_leb (decisions_of id s) = decisions_of id s.
Proof.
  intros Ho. apply sort_by_id. pose proof (oi_sorted _ Ho id) as Hs.
  induction Hs as [|d l Hs IH Hd]; constructor; [done|].
  eapply Forall_impl; [exact Hd|]. intros e He. unfold before in He. apply Z.leb_le. lia.
Qed.

(** In order, every revision's decisions are legal. *)
Lemma order_legal s k :
  contract_inv verify s → order_inv s →
  legal None (map drow_record (sort_by decided_leb (of_key k (cdb_decisions s)))).
Proof.
  intros Hi Ho. destruct (of_key k (cdb_decisions s)) as [|d l] eqn:E; [done|].
  assert (Hd : d ∈ of_key k (cdb_decisions s)) by (rewrite E; left).
  unfold of_key in Hd. rewrite list_elem_of_In, filter_In, <- list_elem_of_In in Hd.
  destruct Hd as [Hd Hk]. bools. destruct (ci_decisions _ _ Hi _ Hd) as (_ & row & Hr & _ & Hk' & _).
  rewrite <- E. fold (drow_key d) in Hk'. rewrite <- Hk, Hk'.
  rewrite of_key_decisions, sorted_decisions by done. apply Ho.
Qed.

Lemma latest_decision_elem id s e :
  latest_decision id s = Some e → e ∈ cdb_decisions s ∧ drow_contract_revision_id e = id.
Proof.
  intros He. apply head_sort_by in He as [He _]; [|intros a b; rewrite Z.leb_gt, Z.leb_le; lia
                                                |intros a b c; rewrite !Z.leb_le; lia].
  unfold decisions_of in He. rewrite list_elem_of_In, filter_In, <- list_elem_of_In in He.
  destruct He. by bools.
Qed.

(** Sequences of ordered steps keep both invariants. *)
Lemma ordered_steps_inv s :
  rtc (ordered_step verify) empty_contracts s → contract_inv verify s ∧ order_inv s.
Proof.
  assert (Hgen : ∀ a b, rtc (ordered_step verify) a b → contract_inv verify a ∧ order_inv a →
    contract_inv verify b ∧ order_inv b).
  { intros a b Hab. induction Hab as [|a a' b Hstep _ IH]; [done|]. intros [Hi Ho]. apply IH. split.
    - destruct Hstep as (c & ? & ? & _). eapply contract_inv_step; [done|]. by exists c.
    - by eapply order_inv_step. }
  intros Hs. eapply Hgen; [exact Hs|]. split; [apply contract_inv_empty|apply order_inv_empty].
Qed.

Lemma legal_superseded previous l x y k :
  legal previous (l ++ x :: k) → dec_decision x = Superseded → y ∈ k → dec_decision y = Superseded.
Proof.
  intros Hl Hx. revert previous x Hl Hx. induction l as [|z l IH]; intros previous x Hl Hx.
  2:{ cbn in Hl. destruct Hl as [_ Hl]. by eapply IH. }
  cbn in Hl. destruct Hl as [_ Hl]. revert x Hl Hx.
  induction k as [|z k IHk]; intros x Hl Hx Hy; [by apply elem_of_nil in Hy|].
  cbn in Hl. destruct Hl as [Hc Hl].
  assert (Hz : dec_decision z = Superseded).
  { unfold conflicts in Hc. case_decide; [congruence|]. rewrite Hx in Hc. by bools. }
  apply elem_of_cons in Hy as [->|Hy]; [done|]. by eapply IHk.
Qed.

End load.

(** ** Properties *)



(** A superseding decision attested before the acceptance it supersedes is stored, and
    from then on the registry of the whole store cannot be loaded: replaying the decisions
    in the order of their instants supersedes a revision that is not accepted yet. *)
Theorem backdated_supersede_breaks_registry `{PyRuntime} `{RevisionModels} verify s row e d id :
  rtc (contract_step verify) empty_contracts s →
  revision_row (identity_key (dec_revision_ref d)) s = Some row →
  crow_digest row = cr_digest (dec_revision_ref d) →
  latest_decision (crow_id row) s = Some e → drow_decision e = Accepted →
  dec_decision d = Superseded → authorize_decision verify d None = Ok tt →
  (dec_decided_at_utc d < drow_decided_at e)%Z →
  existsb (λ r, drow_id r ==b id) (cdb_decisions s) = false →
  ∃ stored s', persist_contract_decision verify d None id s = Ok (stored, s')
    ∧ is_ok (contract_registry verify None s') = false.
Proof.
  intros Hs Hrow Hdig Hlast He Hd Ha Hlt Hid.
  pose proof (contract_inv_steps verify _ _ (contract_inv_empty verify) Hs) as Hi.
  set (stored := decision_row id row d).
  set (s' := append_decision stored (set_status (crow_id row) "superseded" s)).
  assert (Hp : persist_contract_decision verify d None id s = Ok (stored, s')).
  { unfold persist_contract_decision. rewrite Hrow. cbn [require mbind result_bind].
    rewrite (bool_decide_eq_true_2 (crow_digest row = _)) by done.
    cbn [negb raise_when mbind result_bind]. rewrite Ha. cbn [mbind result_bind].
    rewrite Hlast. unfold against_previous. rewrite He, Hd. cbn. rewrite Hid. done. }
  exists stored, s'. split; [done|].
  assert (Hi' : contract_inv verify s').
  { eapply contract_inv_step; [exact Hi|]. exists (PersistDecision d None id). cbn. by rewrite Hp. }
  destruct (contract_registry verify None s') as [reg|] eqn:Hc; [|done]. exfalso.
  destruct (contract_registry_iff verify s' Hi') as (R & HR & Hreg).
  apply Hreg in Hc. destruct Hc as [Hl _]. specialize (Hl (drow_key stored)).
  set (l := sort_by decided_leb (of_key (drow_key stored) (cdb_decisions s'))) in Hl.
  assert (stored ∈ l ∧ e ∈ l) as [Hst Hel].
  { apply latest_decision_elem in Hlast as [Hin Hrid].
    destruct (ci_decisions _ _ Hi _ Hin) as (_ & row' & Hr' & Hid' & Hk' & _).
    apply revision_row_Some in Hrow as [Hr Hk].
    assert (row' = row) as -> by (eapply (NoDup_key_row verify); [exact Hi|done..|right; congruence]).
    unfold l. rewrite !elem_of_sort_by. unfold of_key.
    rewrite !list_elem_of_In, !filter_In, <- !list_elem_of_In, !bool_decide_eq_true.
    unfold drow_key. cbn. split; [|rewrite Hk']; set_solver. }
  apply list_elem_of_split in Hst as (a & b & Ea). rewrite Ea in Hel, Hl.
  assert (Hsorted : StronglySorted (λ x y, decided_leb x y = true) (a ++ stored :: b)).
  { rewrite <- Ea. apply sort_by_Sorted; [apply decided_leb_total|apply decided_leb_trans]. }
  apply elem_of_app in Hel as [Hel|[->|Hel]%elem_of_cons].
  - eapply StronglySorted_app_1_elem_of in Hsorted; [|exact Hel|left].
    unfold decided_leb in Hsorted. apply Z.leb_le in Hsorted. cbn in Hsorted. lia.
  - cbn in Hlt. lia.
  - rewrite map_app in Hl. cbn [map] in Hl.
    apply (legal_superseded _ _ _ (drow_record e)) in Hl; [|done|].
    + apply latest_decision_elem in Hlast as [Hin _].
      destruct (ci_decisions _ _ Hi _ Hin) as [(_ & _ & Ed & _) _]. congruence.
    + apply list_elem_of_fmap. by exists e.
Qed.

(** The registry of one Project cannot be loaded once the Project holds a later
    revision of a contract whose preceding revision belongs to another Project, which
    registration allows. *)
Theorem cross_project_revision_breaks_registry `{PyRuntime} `{RevisionModels} verify s row :
  rtc (contract_step verify) empty_contracts s → row ∈ cdb_revisions s → (1 < crow_revision row)%Z →
  (∀ r, r ∈ cdb_revisions s → crow_project_id r = crow_project_id row →
     crow_key r ≠ (crow_contract_type row, crow_logical_id row, (crow_revision row - 1)%Z)) →
  is_ok (contract_registry verify (Some (crow_project_id row)) s) = false.
Proof.
  intros Hs Hr Hgt Hno. pose proof (contract_inv_steps verify _ _ (contract_inv_empty verify) Hs) as Hi.
  unfold contract_registry. set (rows := List.filter _ (cdb_revisions s)).
  destruct (fold_res load_revision _ _) as [[reg m]|] eqn:Hf; [exfalso|done].
  apply (load_revisions_loaded verify _ []) in Hf; [|apply loaded_nil|].
  2:{ eapply loadable_sub; [exact Hi|]. clear. unfold rows. generalize (cdb_revisions s) as l.
      induction l as [|x l IH]; cbn; [done|]. case_bool_decide; by constructor. }
  cbn [app] in Hf.
  assert (Hrows : ∀ r, r ∈ rows ↔ r ∈ cdb_revisions s ∧ crow_project_id r = crow_project_id row).
  { intros r. unfold rows. by rewrite list_elem_of_In, filter_In, <- list_elem_of_In, bool_decide_eq_true. }
  destruct (ci_rows _ _ Hi _ Hr) as [(r & Hp & Hk & _) _].
  assert (Hin : reg_revisions reg !! crow_key row = Some r).
  { apply (lo_revisions _ _ _ _ Hf). exists row. rewrite elem_of_sort_by, Hrows. done. }
  destruct (ri_contiguous _ _ _ (loaded_inv _ _ _ _ Hf) _ _ _ _ Hin Hgt) as [r' Hr'].
  apply (lo_revisions _ _ _ _ Hf) in Hr' as (row' & Hin' & Hk' & _).
  rewrite elem_of_sort_by, Hrows in Hin'. destruct Hin' as [Hin' Hpr]. by apply (Hno row').
Qed.

(** ** A store with two Projects *)

(** A parser that knows the documents of the given revisions. *)
Definition table_models `{PyRuntime} (l : list AuthoringRevision) : RevisionModels := λ t document,
  match find_first (λ r, (revision_document r ==b document)
                         && (cr_contract_type (revision_ref r) ==b t)) l with
  | Some r => inl r
  | None => inr (MkPydanticError "missing" [], [])
  end.

Definition goal_of (revision : Z) (project : string) : AuthoringRevision :=
  GoalRevision (MkRevision "goal" revision project "Goal" sample_goal).

#[local] Instance demo_models : RevisionModels := table_models [goal_of 1 "a"; goal_of 2 "b"].

(** A verifier that accepts every attestation. *)
Definition trusting (a : HumanAttestationRecord) (subject : string) : result unit := Ok tt.

Definition demo_attestation (t : instant) : HumanAttestationRecord :=
  MkAttestation "attestation" "ana" "credential" RevisionAccepted (digest_of "a") (digest_of "b")
    (digest_of "c") sample_artifact "localhost" "http://localhost" sample_runner t.

Definition demo_decision (decision : Decision3) (t : instant) : RevisionDecisionRecord :=
  MkDecisionRecord (revision_ref (goal_of 1 "a")) decision (VerifiedHuman "ana" (demo_attestation t))
    "Reviewed." t.

Definition demo_commands : list contract_command :=
  [CreateProject "a"; CreateProject "b"; SaveRevision (goal_of 1 "a") "draft" "row-1" 0;
   SaveRevision (goal_of 2 "b") "proposed" "row-2" 0;
   PersistDecision (demo_decision Accepted 10) None "decision-1"].

Definition demo_run (commands : list contract_command) : result ContractDB :=
  fold_res (λ s c, contract_exec trusting c s) empty_contracts commands.

Definition demo_contracts : ContractDB := Eval vm_compute in
  value_of empty_contracts (demo_run demo_commands).

Lemma demo_contracts_run : demo_run demo_commands = Ok demo_contracts.
Proof. vm_compute. reflexivity. Qed.

Lemma goal_reparses n p : goal_of n p ∈ [goal_of 1 "a"; goal_of 2 "b"] → reparses (goal_of n p).
Proof.
  intros [E|[E|[]%elem_of_nil]%elem_of_cons]%elem_of_cons; rewrite E; eexists;
    (split_and!; [vm_compute; reflexivity|reflexivity..]).
Qed.

(** Running commands one by one is a sequence of steps. *)
Lemma demo_steps (P : contract_command → ContractDB → Prop) l s s' :
  (∀ c s, c ∈ l → P c s) → fold_res (λ s c, contract_exec trusting c s) s l = Ok s' →
  rtc (λ a b, ∃ c, P c a ∧ contract_exec trusting c a = Ok b) s s'.
Proof.
  revert s. induction l as [|c l IH]; intros s Hok Hf; cbn [fold_res] in Hf; [by injection Hf as <-|].
  apply bind_ok in Hf as (s1 & H1 & Hf). eapply rtc_l; [|apply (IH s1); [|done]].
  - exists c. split; [apply Hok; left|done].
  - intros c' s2 Hc. apply Hok. by right.
Qed.

Lemma demo_command_ok c : c ∈ demo_commands → command_ok c.
Proof.
  intros Hc. repeat (apply elem_of_cons in Hc as [->|Hc]); [..|by apply elem_of_nil in Hc];
    try done; apply goal_reparses; set_solver.
Qed.

Lemma demo_contracts_reachable : rtc (contract_step trusting) empty_contracts demo_contracts.
Proof.
  apply (demo_steps (λ c _, command_ok c) demo_commands); [|exact demo_contracts_run].
  intros c _. apply demo_command_ok.
Qed.


Definition demo_undecided : ContractDB := Eval vm_compute in
  value_of empty_contracts (demo_run (take 4 demo_commands)).

Lemma demo_contracts_ordered : rtc (ordered_step trusting) empty_contracts demo_contracts.
Proof.
  eapply rtc_r with demo_undecided.
  - eapply rtc_subrel; [|apply (demo_steps (λ c s, command_ok c ∧ in_order c s) (take 4 demo_commands))].
    + intros a b (c & [? ?] & ?). exists c. auto.
    + intros c s Hc. split.
      * apply demo_command_ok. by eapply elem_of_take in Hc as (i & Hi & _); apply list_elem_of_lookup_2 in Hi.
      * by repeat (apply elem_of_cons in Hc as [->|Hc]); [..|apply elem_of_nil in Hc].
    + vm_compute. reflexivity.
  - exists (PersistDecision (demo_decision Accepted 10) None "decision-1").
    split_and!; [done|vm_compute; reflexivity|right].
    intros row e _ He. by apply elem_of_nil in He.
Qed.


Definition demo_row : ContractRevisionRow := Eval vm_compute in
  nth 0 (cdb_revisions demo_contracts)
    (MkRevisionRow "" GOAL "" 0 "" "" "" JNull "" 0).
Definition demo_accepted : ContractDecisionRow := Eval vm_compute in
  decision_row "decision-1" demo_row (demo_decision Accepted 10).

Lemma backdated_supersede_breaks_registry_witness :
  ∃ stored s', persist_contract_decision trusting (demo_decision Superseded 5) None "decision-2"
      demo_contracts = Ok (stored, s')
    ∧ is_ok (contract_registry trusting None s') = false.
Proof.
  apply (backdated_supersede_breaks_registry trusting demo_contracts demo_row demo_accepted).
  - exact demo_contracts_reachable.
  - vm_compute. reflexivity.
  - vm_compute. reflexivity.
  - vm_compute. reflexivity.
  - reflexivity.
  - reflexivity.
  - reflexivity.
  - reflexivity.
  - reflexivity.
Defined.

Definition demo_row_2 : ContractRevisionRow := Eval vm_compute in
  nth 1 (cdb_revisions demo_contracts) demo_row.

Lemma cross_project_revision_breaks_registry_witness :
  is_ok (contract_registry trusting (Some "b") demo_contracts) = false.
Proof.
  apply (cross_project_revision_breaks_registry trusting demo_contracts demo_row_2).
  - exact demo_contracts_reachable.
  - right. left.
  - reflexivity.
  - intros r Hr Hp Hk. repeat (apply elem_of_cons in Hr as [->|Hr]); [discriminate Hp|discriminate Hk|].
    by apply elem_of_nil in Hr.
Defined.
