(* ===== verification/Admission.v ===== *)
(** * Admission (src/src/evidrun/contracts/admission/).

    [RuntimeCapabilityEnvelope] is what the active runtime declares it can execute
    (envelope.py); every checker (checks/*.py) is a function of the RunSpec and the
    envelope that returns [AdmissionFindings] (issues.py); [admit_run_spec] (service.py) folds
    them in a fixed order and assembles the [AdmissionRecord]; [admission_rejection_error]
    (rejection.py) projects a refusal.

    A frozenset is the list of its members, which the code only tests for membership; a
    read-only mapping is a [gmap]. The second layer of validators, which only a resolved
    adapter pair can decide, is an argument of [admit_run_spec], as it is of the service, and the
    clock is its [now]. The texts of a catalog entry satisfy the field types of the
    record that copies them. *)

From S2P Require Import Prelude PyText PyJson Base Authoring Runtime Triage Trust Samples.

(** ** The declared envelope *)

Definition CapabilityKey : Type := string * string * string.

Record CapabilityCatalogEntry := MkCapabilityEntry {
  ce_ref : CapabilityDescriptorRef;
  ce_adapter : string;
  ce_allowed_permissions : list string;
  ce_compatible_interface_versions : list string;
  ce_satisfied_authority_constraints : list string
}.

Record ProviderCatalogEntry := MkProviderEntry {
  pe_profile_id : string;
  pe_profile_digest : string;
  pe_model : string;
  pe_reasoning_effort : string;
  pe_adapter : string
}.
#[export] Instance ProviderCatalogEntry_eq_dec : EqDecision ProviderCatalogEntry.
Proof. solve_decision. Defined.

Definition capability_key (reference : CapabilityDescriptorRef) : CapabilityKey :=
  (cap_namespace reference, cap_name reference, cap_version reference).

Record RuntimeCapabilityEnvelope := MkEnvelope {
  env_runners : gmap CapabilityKey CapabilityDescriptorRef;
  env_capabilities : gmap CapabilityKey CapabilityCatalogEntry;
  env_providers : gmap string ProviderCatalogEntry;
  env_workspace_runtime_kinds : list string;
  env_interaction_modes : list InteractionMode;
  env_runtime_capabilities : list string;
  env_network_modes : list NetworkMode;
  env_external_effect_modes : list EffectMode;
  env_supported_budget_fields : list string;
  env_supports_raw_encrypted_capture : bool
}.

(** [{key(item): item for item in items}]. *)
Definition index_by {K A} `{Countable K} (key : A → K) (items : list A) : gmap K A :=
  foldl (λ m item, <[key item := item]> m) ∅ items.

Definition declare (runners : list CapabilityDescriptorRef)
    (capabilities : list CapabilityCatalogEntry) (providers : list ProviderCatalogEntry)
    (workspace_runtime_kinds : list string) (interaction_modes : list InteractionMode)
    (runtime_capabilities : list string) (network_modes : list NetworkMode)
    (external_effect_modes : list EffectMode) (supported_budget_fields : list string)
    (supports_raw_encrypted_capture : bool) : RuntimeCapabilityEnvelope := {|
  env_runners := index_by capability_key runners;
  env_capabilities := index_by (λ e, capability_key (ce_ref e)) capabilities;
  env_providers := index_by pe_profile_id providers;
  env_workspace_runtime_kinds := workspace_runtime_kinds;
  env_interaction_modes := interaction_modes;
  env_runtime_capabilities := runtime_capabilities;
  env_network_modes := network_modes;
  env_external_effect_modes := external_effect_modes;
  env_supported_budget_fields := supported_budget_fields;
  env_supports_raw_encrypted_capture := supports_raw_encrypted_capture
|}.

(** ** Findings *)

Definition issue (category : IssueCategory) (subject_ref detail : string)
    (code : ReasonCode) (blocking : bool) : AdmissionIssue := {|
  ai_category := category;
  ai_subject_ref := subject_ref;
  ai_reason := {| rs_code := code; rs_detail := detail |};
  ai_blocking := blocking
|}.

Record AdmissionFindings := MkFindings {
  f_missing : list string;
  f_denied_policies : list string;
  f_warnings : list string;
  f_issues : list AdmissionIssue
}.

Definition EMPTY_FINDINGS : AdmissionFindings := MkFindings [] [] [] [].

Definition merge (self other : AdmissionFindings) : AdmissionFindings := {|
  f_missing := f_missing self ++ f_missing other;
  f_denied_policies := f_denied_policies self ++ f_denied_policies other;
  f_warnings := f_warnings self ++ f_warnings other;
  f_issues := f_issues self ++ f_issues other
|}.

Definition blocks (f : AdmissionFindings) : bool :=
  f_missing f !=b [] || f_denied_policies f !=b [] || existsb ai_blocking (f_issues f).

(** [FindingsBuilder]: the scratch space of one checker. *)
Definition b_reject (category : IssueCategory) (subject_ref detail : string) (code : ReasonCode)
    (f : AdmissionFindings) : AdmissionFindings :=
  MkFindings (f_missing f) (f_denied_policies f) (f_warnings f)
    (f_issues f ++ [issue category subject_ref detail code true]).
Definition b_require (requirement : string) (f : AdmissionFindings) : AdmissionFindings :=
  MkFindings (f_missing f ++ [requirement]) (f_denied_policies f) (f_warnings f) (f_issues f).
Definition b_deny (policy : string) (f : AdmissionFindings) : AdmissionFindings :=
  MkFindings (f_missing f) (f_denied_policies f ++ [policy]) (f_warnings f) (f_issues f).
Definition b_warn (message : string) (f : AdmissionFindings) : AdmissionFindings :=
  MkFindings (f_missing f) (f_denied_policies f) (f_warnings f ++ [message]) (f_issues f).

(** ** Inventory (checks/inventory.py) *)

Record ResolvedProvider := MkResolvedProvider {
  rp_profile_id : option string;
  rp_profile_digest : option string;
  rp_model : option string;
  rp_reasoning_effort : option string;
  rp_adapter : option string
}.
Definition no_provider : ResolvedProvider := MkResolvedProvider None None None None None.

Definition check_runner (spec : RunSpec) (envelope : RuntimeCapabilityEnvelope)
    : option CapabilityDescriptorRef * AdmissionFindings :=
  let requested := inv_runner_ref (spec_agent_inventory spec) in
  let missing :=
    (None, b_reject CatRunner (cap_name requested)
             "runner is not registered with the required digest" RUnsupported
             (b_require ("runner:" +:+ cap_name requested) EMPTY_FINDINGS)) in
  match env_runners envelope !! capability_key requested with
  | Some runner =>
      if decide (cap_digest runner = cap_digest requested)
      then (Some runner, EMPTY_FINDINGS) else missing
  | None => missing
  end.

Definition check_provider (spec : RunSpec) (envelope : RuntimeCapabilityEnvelope)
    : ResolvedProvider * AdmissionFindings :=
  match inv_provider_profile_id (spec_agent_inventory spec) with
  | None => (no_provider, EMPTY_FINDINGS)
  | Some declared =>
      match env_providers envelope !! declared with
      | None =>
          (no_provider,
           b_reject CatProvider declared
             "provider profile is not available in the active runtime" RUnavailable
             (b_require ("provider:" +:+ declared) EMPTY_FINDINGS))
      | Some provider =>
          (MkResolvedProvider (Some declared) (Some (pe_profile_digest provider))
             (Some (pe_model provider)) (Some (pe_reasoning_effort provider))
             (Some (pe_adapter provider)), EMPTY_FINDINGS)
      end
  end.

Definition unresolved (requirement : CapabilityRequirement) (status : ResolutionStatus)
    (code : ReasonCode) (detail : string) : ResolvedCapability := {|
  rc_kind := rq_kind requirement;
  rc_requested_ref := rq_capability_ref requirement;
  rc_required := rq_required requirement;
  rc_exposure := rq_exposure requirement;
  rc_status := status;
  rc_resolved_ref := None;
  rc_adapter := None;
  rc_effective_interface_version := None;
  rc_effective_permissions := [];
  rc_satisfied_authority_constraints := [];
  rc_context_refs := [];
  rc_reason := Some {| rs_code := code; rs_detail := detail |}
|}.

(** [tuple(sorted(frozenset(values)))]. *)
Definition sorted_set (values : list string) : list string := sorted_strings (remove_dups values).

(** One iteration of [check_capabilities]: the entry, and the warning an optional
    requirement leaves. *)
Definition check_capability (envelope : RuntimeCapabilityEnvelope)
    (requirement : CapabilityRequirement) : ResolvedCapability * list string :=
  let name := cap_name (rq_capability_ref requirement) in
  let warn (message : string) := if rq_required requirement then [] else [message +:+ name] in
  match env_capabilities envelope !! capability_key (rq_capability_ref requirement) with
  | Some entry =>
      if decide (cap_digest (ce_ref entry) = cap_digest (rq_capability_ref requirement)) then
        if negb (rq_minimum_interface_version requirement
                 ∈b ce_compatible_interface_versions entry) then
          (unresolved requirement Unsupported RUnsupported
             "capability adapter does not support the required interface version",
           warn "optional capability interface unavailable: ")
        else if negb (subset_of (rq_requested_permissions requirement)
                                (ce_allowed_permissions entry)) then
          (unresolved requirement Denied RDenied
             "requested permissions exceed the catalog allowlist",
           warn "optional capability permission denied: ")
        else if negb (subset_of (rq_authority_constraints requirement)
                                (ce_satisfied_authority_constraints entry)) then
          (unresolved requirement Denied RDenied
             "capability adapter cannot prove all requested authority constraints",
           warn "optional capability authority constraint denied: ")
        else
          ({| rc_kind := rq_kind requirement;
              rc_requested_ref := rq_capability_ref requirement;
              rc_required := rq_required requirement;
              rc_exposure := rq_exposure requirement;
              rc_status := Resolved;
              rc_resolved_ref := Some (ce_ref entry);
              rc_adapter := Some (ce_adapter entry);
              rc_effective_interface_version := Some (rq_minimum_interface_version requirement);
              rc_effective_permissions := sorted_set (rq_requested_permissions requirement);
              rc_satisfied_authority_constraints :=
                sorted_set (rq_authority_constraints requirement);
              rc_context_refs :=
                if rq_exposure requirement ∈b [Instructions; InstructionsAndSchema]
                then rq_instruction_refs requirement else [];
              rc_reason := None |}, [])
      else
        (unresolved requirement Unsupported RUnsupported
           "capability is not registered in the active runtime",
         warn "optional capability unavailable: ")
  | None =>
      (unresolved requirement Unsupported RUnsupported
         "capability is not registered in the active runtime",
       warn "optional capability unavailable: ")
  end.

(** Each entry is validated as it is constructed. *)
Fixpoint check_requirements (envelope : RuntimeCapabilityEnvelope)
    (requirements : list CapabilityRequirement)
    : result (list ResolvedCapability * AdmissionFindings) :=
  match requirements with
  | [] => Ok ([], EMPTY_FINDINGS)
  | r :: rest =>
      let '(entry, warnings) := check_capability envelope r in
      validate_resolution entry;;
      '(entries, findings) ← check_requirements envelope rest;
      Ok (entry :: entries, merge (MkFindings [] [] warnings []) findings)
  end.

Definition check_capabilities (spec : RunSpec) (envelope : RuntimeCapabilityEnvelope)
    : result (list ResolvedCapability * AdmissionFindings) :=
  check_requirements envelope (inv_capability_requirements (spec_agent_inventory spec)).

Definition check_runtime_requirement (envelope : RuntimeCapabilityEnvelope)
    (found : AdmissionFindings) (requirement : RuntimeRequirement) : AdmissionFindings :=
  if rr_capability requirement ∈b env_runtime_capabilities envelope then found
  else if rr_required requirement then
    b_reject CatRuntime (rr_capability requirement) "runtime capability is not implemented"
      RUnsupported (b_require ("runtime:" +:+ rr_capability requirement) found)
  else b_warn ("optional runtime capability unavailable: " +:+ rr_capability requirement) found.

Definition check_runtime_capabilities (spec : RunSpec) (envelope : RuntimeCapabilityEnvelope)
    : list string * AdmissionFindings :=
  let requirements := inv_runtime_requirements (spec_agent_inventory spec) in
  (sorted_strings (map rr_capability
     (List.filter (λ r, rr_capability r ∈b env_runtime_capabilities envelope) requirements)),
   foldl (check_runtime_requirement envelope) EMPTY_FINDINGS requirements).

(** ** Workspace (checks/workspace.py) *)

Definition subject_visible (v : Visibility) : bool := v ∈b [VSubject; VSubjectAndEvaluator].

Definition has_unauthorized_mount (spec : RunSpec) : bool :=
  existsb (λ mount, negb (existsb (λ binding,
      subject_visible (ib_visibility binding)
      && ib_mount_name binding ==b Some (wm_name mount)
      && ib_source binding ==b wm_source mount
      && ib_mount_access binding ==b wm_access mount)
    (sc_input_bindings (spec_scenario spec))))
  (ws_mounts (spec_workspace spec)).

Definition requests_unimplemented_workspace_features (spec : RunSpec) : bool :=
  let w := spec_workspace spec in
  ws_write_zones w !=b [] || ws_secret_binding_refs w !=b []
  || sp_capture_workspace (ws_snapshot_policy w) || sp_include_zones (ws_snapshot_policy w) !=b []
  || cl_mode (ws_cleanup_policy w) !=b Discard.

(** The texts of the input classifications selected by [p], each once and sorted. *)
Definition input_classifications (p : Classification → bool) (spec : RunSpec) : list string :=
  sorted_set (map Classification_value
    (List.filter p (map (λ b, ar_classification (ib_source b))
       (sc_input_bindings (spec_scenario spec))))).

Definition resolve_workspace (spec : RunSpec) (envelope : RuntimeCapabilityEnvelope)
    : ResolutionStatus * AdmissionFindings :=
  let w := spec_workspace spec in
  let disallowed := input_classifications (λ c, c ∈b [SENSITIVE; RESTRICTED]) spec in
  if disallowed !=b [] then
    (Denied, b_reject CatPolicy "input_classification"
       "the active runtime has no classified materialization boundary for sensitive or restricted inputs"
       RDenied (foldl (λ f c, b_deny ("classification:" +:+ c) f) EMPTY_FINDINGS disallowed))
  else if negb (ws_runtime_kind w ∈b env_workspace_runtime_kinds envelope) then
    (Unsupported, b_reject CatWorkspace (ws_runtime_kind w)
       "workspace runtime is not implemented" RUnsupported EMPTY_FINDINGS)
  else if has_unauthorized_mount spec then
    (Denied, b_reject CatWorkspace "mount_authority"
       "workspace mount is not an exact Subject-visible scenario input" RDenied EMPTY_FINDINGS)
  else if existsb (λ m, wm_access m !=b ReadOnly) (ws_mounts w) then
    (Unsupported, b_reject CatWorkspace "read_write_mount"
       "the active workspace adapter only supports read-only inputs" RUnsupported EMPTY_FINDINGS)
  else if requests_unimplemented_workspace_features spec then
    (Unsupported, b_reject CatWorkspace (ws_runtime_kind w)
       "workspace requests write, secret, snapshot, or retention features that the active adapter does not implement"
       RUnsupported EMPTY_FINDINGS)
  else if negb (np_mode (ws_network_policy w) ∈b env_network_modes envelope) then
    let policy := "network:" +:+ NetworkMode_value (np_mode (ws_network_policy w)) in
    (Denied, b_reject CatPolicy policy "network policy is not allowed by this runtime"
       RDenied (b_deny policy EMPTY_FINDINGS))
  else if negb (ep_mode (ws_external_effect_policy w) ∈b env_external_effect_modes envelope) then
    let policy := "external_effect:" +:+ EffectMode_value (ep_mode (ws_external_effect_policy w)) in
    (Denied, b_reject CatPolicy policy "external effect policy is not allowed by this runtime"
       RDenied (b_deny policy EMPTY_FINDINGS))
  else (Resolved, EMPTY_FINDINGS).

(** ** Interaction and capture (checks/interaction.py) *)

Definition check_interaction (spec : RunSpec) (envelope : RuntimeCapabilityEnvelope)
    : ResolutionStatus * AdmissionFindings :=
  let p := spec_interaction_protocol spec in
  if negb (ip_mode p ∈b env_interaction_modes envelope) then
    (Unsupported, b_reject CatInteraction (InteractionMode_value (ip_mode p))
       "interaction mode is not implemented" RUnsupported EMPTY_FINDINGS)
  else if negb (ip_max_turns p =? 1)%Z || ip_system_prompt_ref p !=b None
          || ip_initial_message_refs p !=b [] then
    (Unsupported, b_reject CatInteraction "single_turn_materialization"
       "the active runner supports one direct turn without materialized prompt artifacts"
       RUnsupported EMPTY_FINDINGS)
  else (Resolved, EMPTY_FINDINGS).

Definition check_capture (spec : RunSpec) (envelope : RuntimeCapabilityEnvelope)
    : AdmissionFindings :=
  if cap_default_mode (spec_capture_policy spec) ==b CapRawEncrypted
     && negb (env_supports_raw_encrypted_capture envelope) then
    b_reject CatPolicy "capture:raw_encrypted"
      "the active runner has no encrypted Subject-output artifact sink" RDenied
      (b_deny "capture:raw_encrypted" EMPTY_FINDINGS)
  else EMPTY_FINDINGS.

(** ** Contracts no coordinator executes (checks/unsupported.py) *)

Definition check_progress_observer (spec : RunSpec) : AdmissionFindings :=
  if spec_progress_artifact_policy spec !=b None then
    b_reject CatObserver "background_progress_observer"
      "background progress observer is not implemented" RUnsupported
      (b_require "runtime:background_progress_observer" EMPTY_FINDINGS)
  else EMPTY_FINDINGS.

Definition check_checkpoint_coordinator (spec : RunSpec) : AdmissionFindings :=
  if spec_checkpoint_policy spec !=b None then
    b_reject CatRuntime "checkpoint_coordinator"
      "checkpoint contracts are valid, but the active runtime does not observe triggers, execute validators, or create records"
      RUnsupported (b_require "runtime:checkpoint_coordinator" EMPTY_FINDINGS)
  else EMPTY_FINDINGS.

Definition check_goal_mode (spec : RunSpec) : AdmissionFindings :=
  if goal_mode (spec_goal spec) ==b BoundedExploration then
    b_reject CatRuntime "bounded_exploration_terminal"
      "the active deterministic runner only emits goal_state terminal results" RUnsupported
      (b_require "runtime:bounded_exploration_terminal" EMPTY_FINDINGS)
  else EMPTY_FINDINGS.

(** [dimension_by_id[id]]: the last dimension with that id, or [KeyError]. *)
Definition plan_dimension (plan : EvaluationPlanSpec) (id : string) : result EvaluationDimension :=
  require (find_first (λ d, dim_id d ==b id) (rev (plan_dimensions plan))) (KeyError id).

Definition is_supported_evaluation (spec : RunSpec) : result bool :=
  match plan_stages (spec_evaluation_plan spec) with
  | [stage] =>
      if st_kind stage ==b DeterministicGrader
         && et_kind (st_trigger stage) ==b ETEvent
         && et_reference (st_trigger stage) ==b Some "subject.responded" then
        match st_output_dimensions stage with
        | [id] =>
            d ← plan_dimension (spec_evaluation_plan spec) id;
            Ok (dim_value_type d ==b VTBoolean
                && existsb (λ p, kv_key p ==b "expected") (st_parameters stage))
        | _ => Ok false
        end
      else Ok false
  | _ => Ok false
  end.

Definition check_evaluation_pipeline (spec : RunSpec) : result AdmissionFindings :=
  supported ← is_supported_evaluation spec;
  Ok (if (supported : bool) then EMPTY_FINDINGS
      else b_reject CatRuntime "evaluation_pipeline"
             "the active runtime supports one deterministic boolean grader triggered by subject.responded"
             RUnsupported (b_require "runtime:evaluation_pipeline" EMPTY_FINDINGS)).

Definition check_human_adjudication (spec : RunSpec) : AdmissionFindings :=
  if hp_required (plan_human_adjudication_policy (spec_evaluation_plan spec)) then
    b_reject CatAuthority "verified_human_adjudication"
      "verified human adjudication is not implemented" RUnsupported
      (b_require "runtime:verified_human_adjudication" EMPTY_FINDINGS)
  else EMPTY_FINDINGS.

Definition check_subject_disclosure (spec : RunSpec)
    : option ResolutionStatus * AdmissionFindings :=
  let mode := sd_mode (ds_subject (plan_disclosure (spec_evaluation_plan spec))) in
  if mode ==b DNone then (None, EMPTY_FINDINGS)
  else
    (Some Unsupported,
     b_reject CatInteraction ("evaluation_disclosure:" +:+ DisclosureMode_value mode)
       "the active runner receives objective and context only; it does not consume Subject evaluation guidance"
       RUnsupported (b_require "runtime:subject_evaluation_guidance_delivery" EMPTY_FINDINGS)).

Definition unsupported_budget_fields (spec : RunSpec) (envelope : RuntimeCapabilityEnvelope)
    : list string :=
  let b := spec_budgets spec in
  map fst (List.filter (λ '(name, declared),
      declared && negb (name ∈b env_supported_budget_fields envelope))
    [("max_input_tokens", bu_max_input_tokens b !=b None);
     ("max_output_tokens", bu_max_output_tokens b !=b None);
     ("max_tool_calls", bu_max_tool_calls b !=b None);
     ("max_cost", bu_max_cost b !=b None)])
  ++ (if bu_max_turns b ∈b [None; Some 1%Z] then [] else ["max_turns"]).

Definition check_budgets (spec : RunSpec) (envelope : RuntimeCapabilityEnvelope)
    : AdmissionFindings :=
  match unsupported_budget_fields spec envelope with
  | [] => EMPTY_FINDINGS
  | fields =>
      b_reject CatRuntime "budget_enforcement"
        "the active runtime cannot enforce one or more declared budgets" RUnsupported
        (foldl (λ f name, b_require ("runtime:budget:" +:+ name) f) EMPTY_FINDINGS fields)
  end.

Definition check_stop_conditions (spec : RunSpec) : AdmissionFindings :=
  let unsupported_stops := List.filter
    (λ s, negb (sto_kind s ∈b [SGoalComplete; SBudgetExhausted]) || sto_action s !=b StopTerminal)
    (spec_stop_conditions spec) in
  let has_terminal_budget := existsb
    (λ s, sto_kind s ==b SBudgetExhausted && sto_action s ==b StopTerminal)
    (spec_stop_conditions spec) in
  if unsupported_stops !=b [] || negb has_terminal_budget then
    b_reject CatRuntime "stop_condition_coordinator"
      "the active runner supports terminal goal completion and wall-time budget exhaustion only"
      RUnsupported (b_require "runtime:stop_condition_coordinator" EMPTY_FINDINGS)
  else EMPTY_FINDINGS.

(** ** Execution trust (checks/execution_trust.py) *)

Section service.
Context `{PyRuntime}.

Definition deny_classification (f : AdmissionFindings) (c : string) : AdmissionFindings :=
  b_reject CatPolicy ("classification:" +:+ c)
    "unverified execution permits only public or internal inputs" RDenied
    (b_deny ("unverified_classification:" +:+ c) f).

Definition check_execution_trust_invariants (spec : RunSpec) (trust : ExecutionTrustRecord)
    : result AdmissionFindings :=
  raise_when (trust_run_spec_digest trust !=b spec_digest spec
              || trust_study_ref trust !=b spec_study_ref spec)
    (ValueError "execution trust does not bind the exact RunSpec and Study");;
  if trust_kind trust ==b VerifiedRevisionSet then Ok EMPTY_FINDINGS
  else
    let effect := ep_mode (ws_external_effect_policy (spec_workspace spec)) in
    let network := np_mode (ws_network_policy (spec_workspace spec)) in
    let found := foldl deny_classification EMPTY_FINDINGS
      (input_classifications (λ c, negb (c ∈b [PUBLIC; INTERNAL])) spec) in
    let found :=
      if effect !=b EffDenied then
        b_reject CatPolicy "unverified_external_effect"
          "unverified execution requires external effects to be denied" RDenied
          (b_deny ("unverified_external_effect:" +:+ EffectMode_value effect) found)
      else found in
    Ok (if network ∈b [NetDisabled; NetProviderOnly] then found
        else b_reject CatPolicy ("network:" +:+ NetworkMode_value network)
               "unverified execution permits only disabled or provider_only network" RDenied
               (b_deny ("unverified_network:" +:+ NetworkMode_value network) found)).

Definition check_execution_trust_policy (spec : RunSpec) (trust : ExecutionTrustRecord)
    (envelope : RuntimeCapabilityEnvelope) : result AdmissionFindings :=
  found ← check_execution_trust_invariants spec trust;
  Ok (if trust_kind trust ==b VerifiedRevisionSet then found
      else if np_mode (ws_network_policy (spec_workspace spec)) !=b NetProviderOnly then found
      else
        let profile := inv_provider_profile_id (spec_agent_inventory spec) in
        if match profile with
           | Some id => env_providers envelope !! id ==b None | None => true end
        then merge found
          (b_reject CatProvider (default "missing" profile)
             "provider_only requires a provider backed by the active runtime" RUnavailable
             (b_require "provider_only:resolved_provider" EMPTY_FINDINGS))
        else found).

(** ** The service *)

(** [AdmissionService.admit]. *)
Definition admit_run_spec (envelope : RuntimeCapabilityEnvelope)
    (execution_validators : list (RunSpec → list AdmissionIssue)) (now : instant)
    (spec : RunSpec) (execution_trust : ExecutionTrustRecord) : result AdmissionRecord :=
  let '(runner, runner_findings) := check_runner spec envelope in
  let '(provider, provider_findings) := check_provider spec envelope in
  '(resolved, capability_findings) ← check_capabilities spec envelope;
  let '(runtime_capabilities, runtime_findings) := check_runtime_capabilities spec envelope in
  let '(workspace_status, workspace_findings) := resolve_workspace spec envelope in
  let '(interaction, interaction_findings) := check_interaction spec envelope in
  let '(disclosure, disclosure_findings) := check_subject_disclosure spec in
  trust_findings ← check_execution_trust_policy spec execution_trust envelope;
  evaluation_findings ← check_evaluation_pipeline spec;
  let findings := foldl merge EMPTY_FINDINGS
    [trust_findings; runner_findings; provider_findings; capability_findings;
     runtime_findings; workspace_findings; interaction_findings;
     check_capture spec envelope; check_progress_observer spec;
     check_checkpoint_coordinator spec; check_goal_mode spec; evaluation_findings;
     check_human_adjudication spec; disclosure_findings; check_budgets spec envelope;
     check_stop_conditions spec] in
  let adapter_issues := flat_map (λ validator, validator spec) execution_validators in
  let findings := merge findings (MkFindings [] [] [] adapter_issues) in
  let interaction_status := default interaction disclosure in
  let blocked := blocks findings
    || existsb (λ c, rc_required c && rc_status c !=b Resolved) resolved
    || workspace_status !=b Resolved || interaction_status !=b Resolved in
  let inventory := {|
    ri_requirement_ref := spec_agent_inventory_ref spec;
    ri_runner_ref := default (inv_runner_ref (spec_agent_inventory spec)) runner;
    ri_provider_profile_id := rp_profile_id provider;
    ri_provider_profile_digest := rp_profile_digest provider;
    ri_provider_model := rp_model provider;
    ri_provider_reasoning_effort := rp_reasoning_effort provider;
    ri_provider_adapter := rp_adapter provider;
    ri_capabilities := resolved;
    ri_runtime_capabilities := runtime_capabilities |} in
  validate_requirement_ref inventory;;
  let record := {|
    adm_run_spec_ref := "run-spec:" +:+ spec_digest spec;
    adm_run_spec_digest := spec_digest spec;
    adm_decision := if blocked then AdmissionRejected else AdmissionAdmitted;
    adm_resolved_inventory := inventory;
    adm_workspace_status := workspace_status;
    adm_interaction_status := interaction_status;
    adm_missing_requirements := f_missing findings;
    adm_denied_policies := f_denied_policies findings;
    adm_issues := f_issues findings;
    adm_warnings := f_warnings findings;
    adm_execution_trust := Some (trust_ref execution_trust);
    adm_created_at_utc := now |} in
  validate_decision record;;
  Ok record.

(** [admission_rejection_error]. *)
Definition unresolved_required_capabilities (record : AdmissionRecord)
    : list CapabilityDescriptorRef :=
  map rc_requested_ref (List.filter (λ c, rc_required c && rc_status c !=b Resolved)
    (ri_capabilities (adm_resolved_inventory record))).

Definition rejection_causes (record : AdmissionRecord) : list string :=
  map (λ i, "issue:" +:+ ai_subject_ref i) (List.filter ai_blocking (adm_issues record))
  ++ map (λ m, "missing:" +:+ m) (adm_missing_requirements record)
  ++ map (λ d, "denied:" +:+ d) (adm_denied_policies record)
  ++ map (λ c, "capability:" +:+ cap_name c) (unresolved_required_capabilities record).

Definition admission_rejection_error (record : AdmissionRecord) : result TriageError :=
  raise_when (adm_decision record !=b AdmissionRejected)
    (ValueError "an admission rejection error requires a rejected record");;
  let e := {|
    te_phase := ADMIT;
    te_code := ADMIT_REJECTED;
    te_message := "RunSpec recusado: " +:+ join ", " (rejection_causes record);
    te_field_path := [];
    te_remediation := Some "Corrija os achados e solicite uma nova admissão.";
    te_issues := adm_issues record;
    te_missing_requirements := adm_missing_requirements record;
    te_denied_policies := adm_denied_policies record;
    te_unresolved_required_capabilities := unresolved_required_capabilities record |} in
  validate_code_phase e;; Ok e.

End service.

(** ** Lemmas on findings *)

Lemma app_nonempty {A} `{EqDecision A} (l k : list A) : ((l ++ k) !=b []) = (l !=b []) || (k !=b []).
Proof. by destruct l. Qed.

Lemma blocks_merge f g : blocks (merge f g) = blocks f || blocks g.
Proof.
  unfold blocks, merge; cbn. rewrite !app_nonempty, existsb_app.
  destruct (f_missing f !=b []), (f_missing g !=b []), (f_denied_policies f !=b []),
    (f_denied_policies g !=b []), (existsb ai_blocking (f_issues f)); done.
Qed.

Lemma blocks_fold_merge f l : blocks (foldl merge f l) = blocks f || existsb blocks l.
Proof.
  revert f. induction l as [|g l IH]; intros f; cbn; [by rewrite orb_false_r|].
  by rewrite IH, blocks_merge, orb_assoc.
Qed.

Lemma blocks_reject c s d r f : blocks (b_reject c s d r f) = true.
Proof. unfold blocks; cbn. rewrite existsb_app. cbn. by rewrite !orb_true_r. Qed.

Lemma blocks_warn m f : blocks (b_warn m f) = blocks f.
Proof. done. Qed.

Lemma blocks_if (b : bool) f g : blocks (if b then f else g) = if b then blocks f else blocks g.
Proof. by destruct b. Qed.

Lemma blocks_empty : blocks EMPTY_FINDINGS = false.
Proof. done. Qed.

Lemma sorted_set_nil l : sorted_set l = [] ↔ l = [].
Proof.
  split; [|by intros ->]. intros E. destruct l as [|x l]; [done|].
  assert (Hs : x ∈ sorted_set (x :: l)).
  { unfold sorted_set, sorted_strings. rewrite elem_of_sort_by, elem_of_remove_dups. left. }
  rewrite E in Hs. by apply elem_of_nil in Hs.
Qed.

Lemma forall_elem_cons {A} (P : A → Prop) x l :
  (∀ y, y ∈ x :: l → P y) ↔ P x ∧ ∀ y, y ∈ l → P y.
Proof. by rewrite <- !Forall_forall, Forall_cons. Qed.

Lemma filter_nil {A} (p : A → bool) l : List.filter p l = [] ↔ ∀ x, x ∈ l → p x = false.
Proof.
  induction l as [|y l IH]; cbn; [set_solver|]. destruct (p y) eqn:E.
  - split; [done|]. intros Hall. by rewrite Hall in E by left.
  - rewrite IH. set_solver.
Qed.

(** ** What each checker lets through *)

Section checkers.
Context (spec : RunSpec) (envelope : RuntimeCapabilityEnvelope).

Definition runner_registered : Prop :=
  ∃ r, env_runners envelope !! capability_key (inv_runner_ref (spec_agent_inventory spec)) = Some r
       ∧ cap_digest r = cap_digest (inv_runner_ref (spec_agent_inventory spec)).

Lemma check_runner_blocks : blocks (check_runner spec envelope).2 = false ↔ runner_registered.
Proof.
  unfold check_runner, runner_registered.
  destruct (env_runners envelope !! _) as [r|]; [case_decide|]; cbn [snd];
    rewrite ?blocks_reject, ?blocks_empty; naive_solver.
Qed.

Definition provider_available : Prop :=
  ∀ id, inv_provider_profile_id (spec_agent_inventory spec) = Some id →
        is_Some (env_providers envelope !! id).

Lemma check_provider_blocks : blocks (check_provider spec envelope).2 = false ↔ provider_available.
Proof.
  unfold check_provider, provider_available.
  destruct (inv_provider_profile_id _) as [id|]; [|naive_solver].
  destruct (env_providers envelope !! id) as [p|] eqn:E; cbn [snd];
    rewrite ?blocks_reject, ?blocks_empty; split; try done.
  - intros _ ? [= <-]. by rewrite E.
  - intros Hall. destruct (Hall id eq_refl) as [? ?]. congruence.
Qed.

(** What a capability requirement needs of the catalog. *)
Definition capability_satisfied (r : CapabilityRequirement) : Prop :=
  ∃ e, env_capabilities envelope !! capability_key (rq_capability_ref r) = Some e
    ∧ cap_digest (ce_ref e) = cap_digest (rq_capability_ref r)
    ∧ rq_minimum_interface_version r ∈ ce_compatible_interface_versions e
    ∧ (∀ p, p ∈ rq_requested_permissions r → p ∈ ce_allowed_permissions e)
    ∧ (∀ c, c ∈ rq_authority_constraints r → c ∈ ce_satisfied_authority_constraints e).

Lemma check_capability_resolved r :
  rc_status (check_capability envelope r).1 = Resolved ↔ capability_satisfied r.
Proof.
  unfold check_capability, capability_satisfied.
  destruct (env_capabilities envelope !! _) as [e|]; [|by split; [|intros (? & ? & ?)]].
  case_decide as Hd; [|by split; [|intros (? & [= <-] & ? & ?)]].
  destruct (rq_minimum_interface_version r ∈b _) eqn:Hv; cbn [negb]; [|by bools; split; [done|]; intros (e' & [= <-] & ?); naive_solver].
  destruct (subset_of (rq_requested_permissions r) _) eqn:Hp; cbn [negb].
  2:{ split; [done|]. intros (e' & [= <-] & _ & _ & Hs & _).
      apply subset_of_true in Hs. congruence. }
  destruct (subset_of (rq_authority_constraints r) _) eqn:Hc; cbn [negb].
  2:{ split; [done|]. intros (e' & [= <-] & _ & _ & _ & Hs).
      apply subset_of_true in Hs. congruence. }
  rewrite subset_of_true in Hp, Hc. bools. naive_solver.
Qed.

Lemma unresolved_valid r status code detail :
  status ≠ Resolved → validate_resolution (unresolved r status code detail) = Ok tt.
Proof. unfold validate_resolution; cbn. by destruct status, (rq_exposure r). Qed.

Lemma check_capability_valid r : validate_resolution (check_capability envelope r).1 = Ok tt.
Proof.
  unfold check_capability. destruct (env_capabilities envelope !! _) as [e|];
    [case_decide; [repeat case_match|]|]; try (by apply unresolved_valid); cbn [fst];
    unfold validate_resolution; cbn; by destruct (rq_exposure r).
Qed.

Lemma check_capability_fields r :
  let c := (check_capability envelope r).1 in
  rc_required c = rq_required r ∧ rc_requested_ref c = rq_capability_ref r
  ∧ rc_exposure c = rq_exposure r ∧ rc_kind c = rq_kind r.
Proof. unfold check_capability. repeat case_match; done. Qed.

Lemma check_requirements_ok rs :
  ∃ f, check_requirements envelope rs = Ok (map (λ r, (check_capability envelope r).1) rs, f)
       ∧ blocks f = false.
Proof.
  induction rs as [|r rs (f & IH & Hb)]; [by exists EMPTY_FINDINGS|]. cbn.
  pose proof (check_capability_valid r) as Hv.
  destruct (check_capability envelope r) as [c w]; cbn in *. rewrite Hv, IH. cbn.
  eexists. split; [done|]. by rewrite blocks_merge, Hb.
Qed.

Lemma required_unresolved rs :
  existsb (λ c, rc_required c && rc_status c !=b Resolved)
    (map (λ r, (check_capability envelope r).1) rs) = false
  ↔ ∀ r, r ∈ rs → rq_required r = true → capability_satisfied r.
Proof.
  rewrite existsb_false. setoid_rewrite list_elem_of_fmap. split.
  - intros Hall r Hr Hreq. apply check_capability_resolved.
    specialize (Hall _ (ex_intro _ r (conj eq_refl Hr))).
    destruct (check_capability_fields r) as [E _]. rewrite E, Hreq in Hall. cbn in Hall.
    by bools.
  - intros Hall c (r & -> & Hr). destruct (check_capability_fields r) as [E _]. rewrite E.
    destruct (rq_required r) eqn:Hreq; [|done]. cbn.
    by rewrite (proj2 (check_capability_resolved r)) by by apply Hall.
Qed.

Lemma check_runtime_fold_blocks rs f :
  blocks (foldl (check_runtime_requirement envelope) f rs) = false ↔
  blocks f = false ∧
  ∀ r, r ∈ rs → rr_required r = true → rr_capability r ∈ env_runtime_capabilities envelope.
Proof.
  revert f. induction rs as [|r rs IH]; intros f; cbn; [set_solver|].
  rewrite IH, forall_elem_cons. unfold check_runtime_requirement.
  destruct (rr_capability r ∈b env_runtime_capabilities envelope) eqn:E; bools; [tauto|].
  destruct (rr_required r); rewrite ?blocks_reject, ?blocks_warn; naive_solver.
Qed.

Lemma input_classifications_nil p :
  input_classifications p spec = []
  ↔ ∀ b, b ∈ sc_input_bindings (spec_scenario spec) → p (ar_classification (ib_source b)) = false.
Proof.
  unfold input_classifications. rewrite sorted_set_nil. split.
  - intros E%map_eq_nil. rewrite filter_nil in E. intros b Hb. apply E.
    apply list_elem_of_fmap. by exists b.
  - intros Hall. rewrite (proj2 (filter_nil _ _)); [done|].
    intros c (b & -> & Hb)%list_elem_of_fmap. by apply Hall.
Qed.

(** A mount is authorized when it is an exact Subject-visible scenario input. *)
Definition mount_authorized (m : WorkspaceMount) : Prop :=
  ∃ b, b ∈ sc_input_bindings (spec_scenario spec)
    ∧ ib_visibility b ∈ [VSubject; VSubjectAndEvaluator]
    ∧ ib_mount_name b = Some (wm_name m) ∧ ib_source b = wm_source m
    ∧ ib_mount_access b = wm_access m.

Lemma has_unauthorized_mount_false :
  has_unauthorized_mount spec = false
  ↔ ∀ m, m ∈ ws_mounts (spec_workspace spec) → mount_authorized m.
Proof.
  unfold has_unauthorized_mount, mount_authorized, subject_visible. rewrite existsb_false.
  setoid_rewrite negb_false_iff. setoid_rewrite existsb_true.
  setoid_rewrite andb_true_iff. setoid_rewrite andb_true_iff. setoid_rewrite andb_true_iff.
  setoid_rewrite bool_decide_eq_true. naive_solver.
Qed.

Definition workspace_executable : Prop :=
  let w := spec_workspace spec in
  (∀ b, b ∈ sc_input_bindings (spec_scenario spec) →
        ar_classification (ib_source b) ∉ [SENSITIVE; RESTRICTED])
  ∧ ws_runtime_kind w ∈ env_workspace_runtime_kinds envelope
  ∧ (∀ m, m ∈ ws_mounts w → mount_authorized m ∧ wm_access m = ReadOnly)
  ∧ requests_unimplemented_workspace_features spec = false
  ∧ np_mode (ws_network_policy w) ∈ env_network_modes envelope
  ∧ ep_mode (ws_external_effect_policy w) ∈ env_external_effect_modes envelope.

(** The status is resolved exactly when nothing is reported. *)
Lemma resolve_workspace_status :
  blocks (resolve_workspace spec envelope).2 = negb ((resolve_workspace spec envelope).1 ==b Resolved).
Proof.
  unfold resolve_workspace. repeat case_match; cbn [fst snd]; by rewrite ?blocks_reject.
Qed.

Lemma resolve_workspace_resolved :
  (resolve_workspace spec envelope).1 = Resolved ↔ workspace_executable.
Proof.
  unfold resolve_workspace, workspace_executable.
  assert (Hc : (∀ b, b ∈ sc_input_bindings (spec_scenario spec) →
      ar_classification (ib_source b) ∉ [SENSITIVE; RESTRICTED])
    ↔ input_classifications (λ c, c ∈b [SENSITIVE; RESTRICTED]) spec = []).
  { rewrite input_classifications_nil. by setoid_rewrite bool_decide_eq_false. }
  assert (Hm : (∀ m, m ∈ ws_mounts (spec_workspace spec) → mount_authorized m ∧ wm_access m = ReadOnly)
    ↔ has_unauthorized_mount spec = false
      ∧ existsb (λ m, wm_access m !=b ReadOnly) (ws_mounts (spec_workspace spec)) = false).
  { rewrite has_unauthorized_mount_false, existsb_false.
    setoid_rewrite negb_false_iff. setoid_rewrite bool_decide_eq_true. naive_solver. }
  rewrite Hm, Hc. clear Hm Hc. repeat (case_match; cbn [fst]; bools; [naive_solver|]). naive_solver.
Qed.

Definition interaction_executable : Prop :=
  let p := spec_interaction_protocol spec in
  ip_mode p ∈ env_interaction_modes envelope ∧ ip_max_turns p = 1%Z
  ∧ ip_system_prompt_ref p = None ∧ ip_initial_message_refs p = [].

Lemma check_interaction_status :
  blocks (check_interaction spec envelope).2 = negb ((check_interaction spec envelope).1 ==b Resolved).
Proof. unfold check_interaction. repeat case_match; cbn [fst snd]; by rewrite ?blocks_reject. Qed.

Lemma check_interaction_resolved :
  (check_interaction spec envelope).1 = Resolved ↔ interaction_executable.
Proof.
  unfold check_interaction, interaction_executable.
  repeat case_match; cbn [fst]; bools.
  - naive_solver.
  - split; [done|]. intros (_ & E1 & E2 & E3).
    match goal with H : _ || _ = true |- _ => rewrite E1, E2, E3 in H end. done.
  - split; [|done]. intros _. rewrite Z.eqb_eq in *. naive_solver.
Qed.

Lemma check_budgets_blocks :
  blocks (check_budgets spec envelope) = false ↔ unsupported_budget_fields spec envelope = [].
Proof.
  unfold check_budgets. destruct (unsupported_budget_fields spec envelope); [done|].
  rewrite blocks_reject. done.
Qed.

Definition stops_executable : Prop :=
  (∀ s, s ∈ spec_stop_conditions spec →
        sto_kind s ∈ [SGoalComplete; SBudgetExhausted] ∧ sto_action s = StopTerminal)
  ∧ ∃ s, s ∈ spec_stop_conditions spec ∧ sto_kind s = SBudgetExhausted ∧ sto_action s = StopTerminal.

Lemma check_stop_conditions_blocks :
  blocks (check_stop_conditions spec) = false ↔ stops_executable.
Proof.
  assert (H1 : stops_executable ↔ (List.filter
      (λ s, negb (sto_kind s ∈b [SGoalComplete; SBudgetExhausted]) || sto_action s !=b StopTerminal)
      (spec_stop_conditions spec) !=b [] || negb (existsb
      (λ s, sto_kind s ==b SBudgetExhausted && sto_action s ==b StopTerminal)
      (spec_stop_conditions spec))) = false).
  { unfold stops_executable. rewrite orb_false_iff, !negb_false_iff, bool_decide_eq_true,
      filter_nil, existsb_true. setoid_rewrite orb_false_iff. setoid_rewrite negb_false_iff.
    setoid_rewrite andb_true_iff. by setoid_rewrite bool_decide_eq_true. }
  rewrite H1. unfold check_stop_conditions. case_match; [|done]. by rewrite blocks_reject.
Qed.

(** A checker that rejects under one condition and otherwise finds nothing. *)
Lemma blocks_guard (b : bool) c s d r f :
  blocks (if b then b_reject c s d r f else EMPTY_FINDINGS) = b.
Proof. rewrite blocks_if, blocks_reject. by destruct b. Qed.

Lemma check_capture_blocks :
  blocks (check_capture spec envelope) = false ↔
  (cap_default_mode (spec_capture_policy spec) = CapRawEncrypted →
   env_supports_raw_encrypted_capture envelope = true).
Proof.
  unfold check_capture. rewrite blocks_guard, andb_false_iff, bool_decide_eq_false, negb_false_iff.
  destruct (env_supports_raw_encrypted_capture envelope); intuition congruence.
Qed.

Lemma check_progress_observer_blocks :
  blocks (check_progress_observer spec) = false ↔ spec_progress_artifact_policy spec = None.
Proof.
  unfold check_progress_observer. by rewrite blocks_guard, negb_false_iff, bool_decide_eq_true.
Qed.

Lemma check_checkpoint_coordinator_blocks :
  blocks (check_checkpoint_coordinator spec) = false ↔ spec_checkpoint_policy spec = None.
Proof.
  unfold check_checkpoint_coordinator. by rewrite blocks_guard, negb_false_iff, bool_decide_eq_true.
Qed.

Lemma check_goal_mode_blocks :
  blocks (check_goal_mode spec) = false ↔ goal_mode (spec_goal spec) = GoalState.
Proof.
  unfold check_goal_mode. rewrite blocks_guard, bool_decide_eq_false. by destruct (goal_mode _).
Qed.

Lemma check_human_adjudication_blocks :
  blocks (check_human_adjudication spec) = false
  ↔ hp_required (plan_human_adjudication_policy (spec_evaluation_plan spec)) = false.
Proof. unfold check_human_adjudication. by rewrite blocks_guard. Qed.

Lemma check_subject_disclosure_blocks :
  blocks (check_subject_disclosure spec).2 = negb ((check_subject_disclosure spec).1 ==b None)
  ∧ ((check_subject_disclosure spec).1 = None
     ↔ sd_mode (ds_subject (plan_disclosure (spec_evaluation_plan spec))) = DNone).
Proof. unfold check_subject_disclosure. by destruct (sd_mode _). Qed.

Lemma interaction_status_resolved :
  default (check_interaction spec envelope).1 (check_subject_disclosure spec).1 = Resolved
  → (check_subject_disclosure spec).1 = None.
Proof. unfold check_subject_disclosure. by destruct (sd_mode _). Qed.

End checkers.

Definition evaluation_executable (spec : RunSpec) : Prop :=
  let plan := spec_evaluation_plan spec in
  ∃ stage id d, plan_stages plan = [stage] ∧ st_kind stage = DeterministicGrader
    ∧ et_kind (st_trigger stage) = ETEvent
    ∧ et_reference (st_trigger stage) = Some "subject.responded"
    ∧ st_output_dimensions stage = [id] ∧ plan_dimension plan id = Ok d
    ∧ dim_value_type d = VTBoolean ∧ ∃ p, p ∈ st_parameters stage ∧ kv_key p = "expected".

Lemma plan_dimension_total plan id :
  id ∈ map dim_id (plan_dimensions plan) → ∃ d, plan_dimension plan id = Ok d.
Proof.
  intros (d & -> & Hd)%list_elem_of_fmap. unfold plan_dimension.
  destruct (find_first _ _) as [d'|] eqn:E; [by exists d'|].
  rewrite find_first_None in E. specialize (E d). rewrite list_elem_of_In, <- in_rev, <- list_elem_of_In in E.
  specialize (E Hd). by bools.
Qed.

Lemma is_supported_evaluation_total spec :
  validate_evaluation_plan (spec_evaluation_plan spec) = Ok tt →
  ∃ b, is_supported_evaluation spec = Ok b ∧ (b = true ↔ evaluation_executable spec).
Proof.
  intros Hv. unfold validate_evaluation_plan in Hv. inv_ok. unfold evaluation_executable.
  unfold is_supported_evaluation.
  assert (Hno : ∀ P : Prop, ~ P → ∃ b, @Ok bool false = Ok b ∧ (b = true ↔ P))
    by (intros P HP; exists false; split; [done|]; by split).
  destruct (plan_stages (spec_evaluation_plan spec)) as [|stage [|? ?]] eqn:Es;
    [apply Hno; by intros (? & ? & ? & ? & _)| |apply Hno; by intros (? & ? & ? & ? & _)].
  destruct (st_kind stage ==b _) eqn:E1;
    [|apply Hno; intros (? & ? & ? & [= <-] & ? & _); by bools].
  destruct (et_kind (st_trigger stage) ==b _) eqn:E2;
    [|apply Hno; intros (? & ? & ? & [= <-] & _ & ? & _); by bools].
  destruct (et_reference (st_trigger stage) ==b _) eqn:E3;
    [|apply Hno; intros (? & ? & ? & [= <-] & _ & _ & ? & _); by bools].
  cbn [andb].
  destruct (st_output_dimensions stage) as [|id [|? ?]] eqn:Eo;
    [apply Hno; intros (? & ? & ? & [= <-] & _ & _ & _ & ? & _); congruence| |
     apply Hno; intros (? & ? & ? & [= <-] & _ & _ & _ & ? & _); congruence].
  destruct (plan_dimension_total (spec_evaluation_plan spec) id) as [d Hd].
  { match goal with H : existsb _ [stage] = false |- _ => rename H into Hk end.
    rewrite existsb_false in Hk. specialize (Hk stage ltac:(left)). bools.
    rewrite subset_of_true, Eo in Hk. apply Hk. left. }
  rewrite Hd. eexists. split; [done|]. rewrite andb_true_iff, bool_decide_eq_true, existsb_true.
  setoid_rewrite bool_decide_eq_true. bools. split.
  - intros [? ?]. by exists stage, id, d.
  - intros (? & ? & d' & [= <-] & _ & _ & _ & Hid & Hd' & ? & ?).
    rewrite Eo in Hid. injection Hid as <-. rewrite Hd in Hd'. by injection Hd' as ->.
Qed.

Lemma check_evaluation_pipeline_spec spec :
  validate_evaluation_plan (spec_evaluation_plan spec) = Ok tt →
  ∃ f, check_evaluation_pipeline spec = Ok f ∧ (blocks f = false ↔ evaluation_executable spec).
Proof.
  intros (b & Hb & He)%is_supported_evaluation_total. unfold check_evaluation_pipeline.
  rewrite Hb. cbn [mbind result_bind]. eexists; split; [done|]. rewrite <- He, blocks_if, blocks_reject.
  by destruct b.
Qed.

(** What a trust record that no human decision backs allows. *)
Definition trust_permits (spec : RunSpec) (envelope : RuntimeCapabilityEnvelope)
    (trust : ExecutionTrustRecord) : Prop :=
  trust_kind trust = UnverifiedRevisionSet →
  let w := spec_workspace spec in
  (∀ b, b ∈ sc_input_bindings (spec_scenario spec) →
        ar_classification (ib_source b) ∈ [PUBLIC; INTERNAL])
  ∧ ep_mode (ws_external_effect_policy w) = EffDenied
  ∧ np_mode (ws_network_policy w) ∈ [NetDisabled; NetProviderOnly]
  ∧ (np_mode (ws_network_policy w) = NetProviderOnly →
     ∃ id, inv_provider_profile_id (spec_agent_inventory spec) = Some id
           ∧ is_Some (env_providers envelope !! id)).

Section service_lemmas.
Context `{PyRuntime}.

Lemma deny_classifications_blocks l f :
  blocks (foldl deny_classification f l) = blocks f || (l !=b []).
Proof.
  revert f. induction l as [|c l IH]; intros f; cbn [foldl].
  { change ([] !=b []) with false. by rewrite orb_false_r. }
  rewrite IH. unfold deny_classification. rewrite blocks_reject. cbn. by rewrite orb_true_r.
Qed.

Lemma check_execution_trust_policy_spec spec trust envelope :
  trust_run_spec_digest trust = spec_digest spec → trust_study_ref trust = spec_study_ref spec →
  ∃ f, check_execution_trust_policy spec trust envelope = Ok f
       ∧ (blocks f = false ↔ trust_permits spec envelope trust).
Proof.
  intros Hd Hs. unfold check_execution_trust_policy, check_execution_trust_invariants.
  rewrite (bool_decide_eq_true_2 _ Hd), (bool_decide_eq_true_2 _ Hs).
  cbn [negb orb raise_when mbind result_bind].
  unfold trust_permits. destruct (trust_kind trust); cbn [bool_decide].
  2:{ eexists; split; [done|]. naive_solver. }
  assert (Hc : (∀ b, b ∈ sc_input_bindings (spec_scenario spec) →
      ar_classification (ib_source b) ∈ [PUBLIC; INTERNAL])
    ↔ input_classifications (λ c, negb (c ∈b [PUBLIC; INTERNAL])) spec = []).
  { rewrite input_classifications_nil. setoid_rewrite negb_false_iff.
    by setoid_rewrite bool_decide_eq_true. }
  set (network := np_mode _). set (effect := ep_mode _).
  set (backed := ∃ id, inv_provider_profile_id (spec_agent_inventory spec) = Some id
                       ∧ is_Some (env_providers envelope !! id)).
  assert (Hb : backed ↔ match inv_provider_profile_id (spec_agent_inventory spec) with
                        | Some id => env_providers envelope !! id ==b None
                        | None => true end = false).
  { unfold backed. destruct (inv_provider_profile_id _) as [id|]; [|naive_solver].
    rewrite bool_decide_eq_false, not_eq_None_Some. naive_solver. }
  assert (He : effect = EffDenied ↔ (effect !=b EffDenied) = false)
    by by rewrite negb_false_iff, bool_decide_eq_true.
  assert (Hn : network ∈ [NetDisabled; NetProviderOnly]
    ↔ (network ∈b [NetDisabled; NetProviderOnly]) = true) by by rewrite bool_decide_eq_true.
  assert (Hp : network = NetProviderOnly ↔ (network !=b NetProviderOnly) = false)
    by by rewrite negb_false_iff, bool_decide_eq_true.
  assert (Hi : input_classifications (λ c, negb (c ∈b [PUBLIC; INTERNAL])) spec = []
    ↔ (input_classifications (λ c, negb (c ∈b [PUBLIC; INTERNAL])) spec !=b []) = false)
    by by rewrite negb_false_iff, bool_decide_eq_true.
  rewrite Hi in Hc. clear Hi. eexists; split; [done|]. cbn zeta.
  match goal with |- ?L ↔ _ => enough (Hx : L ↔
    (input_classifications (λ c, negb (c ∈b [PUBLIC; INTERNAL])) spec !=b []) = false
    ∧ (effect !=b EffDenied) = false ∧ (network ∈b [NetDisabled; NetProviderOnly]) = true
    ∧ ((network !=b NetProviderOnly) = false →
       match inv_provider_profile_id (spec_agent_inventory spec) with
       | Some id => env_providers envelope !! id ==b None
       | None => true end = false)) end.
  { rewrite Hx, <- Hc, <- He, <- Hn, <- Hp, <- Hb. clear. tauto. }
  clear Hc Hb He Hn Hp.
  change (bool_decide (UnverifiedRevisionSet = VerifiedRevisionSet)) with false. cbn iota.
  rewrite !blocks_if, blocks_merge, !blocks_if, !blocks_reject, deny_classifications_blocks,
    blocks_empty.
  destruct (network ∈b _), (effect !=b _), (network !=b _), (_ !=b []),
    (match inv_provider_profile_id _ with Some _ => _ | None => _ end); cbn; intuition congruence.
Qed.
End service_lemmas.

(** ** Properties *)

(** The declarative reading of the whole admission policy. *)
Record Admissible (envelope : RuntimeCapabilityEnvelope)
    (validators : list (RunSpec → list AdmissionIssue)) (spec : RunSpec)
    (trust : ExecutionTrustRecord) : Prop := {
  a_trust : trust_permits spec envelope trust;
  a_runner : runner_registered spec envelope;
  a_provider : provider_available spec envelope;
  a_capabilities : ∀ r, r ∈ inv_capability_requirements (spec_agent_inventory spec) →
    rq_required r = true → capability_satisfied envelope r;
  a_runtime : ∀ r, r ∈ inv_runtime_requirements (spec_agent_inventory spec) →
    rr_required r = true → rr_capability r ∈ env_runtime_capabilities envelope;
  a_workspace : workspace_executable spec envelope;
  a_interaction : interaction_executable spec envelope;
  a_capture : cap_default_mode (spec_capture_policy spec) = CapRawEncrypted →
    env_supports_raw_encrypted_capture envelope = true;
  a_no_observer : spec_progress_artifact_policy spec = None;
  a_no_checkpoint : spec_checkpoint_policy spec = None;
  a_goal : goal_mode (spec_goal spec) = GoalState;
  a_evaluation : evaluation_executable spec;
  a_no_adjudication : hp_required (plan_human_adjudication_policy (spec_evaluation_plan spec)) = false;
  a_no_disclosure : sd_mode (ds_subject (plan_disclosure (spec_evaluation_plan spec))) = DNone;
  a_budgets : unsupported_budget_fields spec envelope = [];
  a_stops : stops_executable spec;
  a_adapters : ∀ v i, v ∈ validators → i ∈ v spec → ai_blocking i = false
}.

Lemma validate_resolution_unresolved c :
  validate_resolution c = Ok tt → rc_status c ≠ Resolved →
  rc_effective_permissions c = [] ∧ rc_context_refs c = [].
Proof.
  unfold validate_resolution. intros Hv Hs. rewrite (bool_decide_eq_false_2 _ Hs) in Hv.
  cbn [negb andb] in Hv. inv_ok. by bools.
Qed.

Section admission.
Context `{PyRuntime}.

(** The facts of a validated RunSpec and of its trust record that [admit_run_spec] relies on. *)
Definition admissible_input (spec : RunSpec) (trust : ExecutionTrustRecord) : Prop :=
  validate_run_spec spec = Ok tt
  ∧ validate_evaluation_plan (spec_evaluation_plan spec) = Ok tt
  ∧ trust_run_spec_digest trust = spec_digest spec
  ∧ trust_study_ref trust = spec_study_ref spec.

Lemma run_spec_inventory_slot spec :
  validate_run_spec spec = Ok tt → cr_contract_type (spec_agent_inventory_ref spec) = AGENT_INVENTORY.
Proof.
  unfold validate_run_spec. intros Hv. inv_ok.
  match goal with H : existsb (λ '(_, _), _) _ = false |- _ => rename H into Hs end.
  rewrite existsb_false in Hs.
  specialize (Hs (spec_agent_inventory_ref spec, AGENT_INVENTORY) ltac:(set_solver)).
  cbn in Hs. by bools.
Qed.

Lemma adapter_issues_blocks spec (validators : list (RunSpec → list AdmissionIssue)) :
  blocks (MkFindings [] [] [] (flat_map (λ v, v spec) validators)) = false
  ↔ ∀ v i, v ∈ validators → i ∈ v spec → ai_blocking i = false.
Proof.
  unfold blocks; cbn. rewrite existsb_false. setoid_rewrite list_elem_of_In.
  setoid_rewrite in_flat_map. naive_solver.
Qed.

(** One condition for the two forms of the [blocked] test. *)
Lemma blocked_record f caps ws it inventory ref digest decision warnings trust now :
  ri_capabilities inventory = caps →
  record_blocked (MkAdmissionRecord ref digest decision inventory ws it (f_missing f)
    (f_denied_policies f) (f_issues f) warnings trust now)
  = blocks f || existsb (λ c, rc_required c && rc_status c !=b Resolved) caps
    || (ws !=b Resolved) || (it !=b Resolved).
Proof.
  intros <-. unfold record_blocked, blocks; cbn.
  destruct (f_missing f !=b []), (f_denied_policies f !=b []), (ws !=b _), (it !=b _),
    (existsb ai_blocking _), (existsb _ _); done.
Qed.

Lemma check_provider_inventory spec envelope ref runner caps runtime :
  cr_contract_type ref = AGENT_INVENTORY →
  let p := (check_provider spec envelope).1 in
  validate_requirement_ref (MkResolvedAgentInventory ref runner (rp_profile_id p)
    (rp_profile_digest p) (rp_model p) (rp_reasoning_effort p) (rp_adapter p) caps runtime) = Ok tt.
Proof.
  intros E. unfold validate_requirement_ref, check_provider; cbn. rewrite E. cbn.
  destruct (inv_provider_profile_id _) as [id|]; [|done].
  by destruct (env_providers envelope !! id).
Qed.

(** What [admit_run_spec] computes, in one equation. *)
Lemma admit_unfold envelope validators now spec trust :
  admissible_input spec trust →
  ∃ f record, admit_run_spec envelope validators now spec trust = Ok record
    ∧ adm_decision record = (if record_blocked record then AdmissionRejected else AdmissionAdmitted)
    ∧ ri_capabilities (adm_resolved_inventory record)
      = map (λ r, (check_capability envelope r).1)
          (inv_capability_requirements (spec_agent_inventory spec))
    ∧ adm_run_spec_digest record = spec_digest spec
    ∧ adm_execution_trust record = Some (trust_ref trust)
    ∧ adm_missing_requirements record = f_missing f
    ∧ adm_denied_policies record = f_denied_policies f ∧ adm_issues record = f_issues f
    ∧ validate_decision record = Ok tt
    ∧ validate_requirement_ref (adm_resolved_inventory record) = Ok tt
    ∧ adm_workspace_status record = (resolve_workspace spec envelope).1
    ∧ adm_interaction_status record
      = default (check_interaction spec envelope).1 (check_subject_disclosure spec).1
    ∧ ∃ tf cf ef, check_execution_trust_policy spec trust envelope = Ok tf
      ∧ blocks cf = false ∧ check_evaluation_pipeline spec = Ok ef
      ∧ blocks f = existsb blocks
          [tf; (check_runner spec envelope).2; (check_provider spec envelope).2; cf;
           (check_runtime_capabilities spec envelope).2; (resolve_workspace spec envelope).2;
           (check_interaction spec envelope).2; check_capture spec envelope;
           check_progress_observer spec; check_checkpoint_coordinator spec; check_goal_mode spec;
           ef; check_human_adjudication spec; (check_subject_disclosure spec).2;
           check_budgets spec envelope; check_stop_conditions spec;
           MkFindings [] [] [] (flat_map (λ v, v spec) validators)].
Proof.
  intros (Hspec & Hplan & Hd & Hs). apply run_spec_inventory_slot in Hspec as Hslot.
  unfold admit_run_spec. destruct (check_runner spec envelope) as [runner rf].
  pose proof (check_provider_inventory spec envelope (spec_agent_inventory_ref spec)
    (default (inv_runner_ref (spec_agent_inventory spec)) runner)
    (map (λ r, (check_capability envelope r).1)
       (inv_capability_requirements (spec_agent_inventory spec)))
    (check_runtime_capabilities spec envelope).1 Hslot) as Hp. cbn zeta in Hp.
  destruct (check_provider spec envelope) as [provider pf].
  destruct (check_requirements_ok envelope
    (inv_capability_requirements (spec_agent_inventory spec))) as (cf & Hc & Hcf).
  unfold check_capabilities. rewrite Hc. cbn [mbind result_bind].
  destruct (check_runtime_capabilities spec envelope) as [rc rtf].
  destruct (resolve_workspace spec envelope) as [ws wf].
  destruct (check_interaction spec envelope) as [it itf].
  destruct (check_subject_disclosure spec) as [dis df].
  destruct (check_execution_trust_policy_spec spec trust envelope Hd Hs) as (tf & Ht & _).
  rewrite Ht. cbn [mbind result_bind].
  destruct (is_supported_evaluation_total spec Hplan) as (b & He & _).
  destruct (check_evaluation_pipeline spec) as [ef|] eqn:Eef;
    [|unfold check_evaluation_pipeline in Eef; by rewrite He in Eef].
  cbn [mbind result_bind fst snd] in *. cbn zeta.
  set (f := merge (foldl merge EMPTY_FINDINGS _) (MkFindings [] [] [] _)).
  rewrite Hp. cbn [mbind result_bind]. exists f.
  match goal with |- context [validate_decision ?r] => set (record := r) end.
  assert (Hb : record_blocked record = blocks f
    || existsb (λ c, rc_required c && rc_status c !=b Resolved)
         (map (λ r, (check_capability envelope r).1)
            (inv_capability_requirements (spec_agent_inventory spec)))
    || (ws !=b Resolved) || (default it dis !=b Resolved)) by by apply blocked_record.
  assert (Hdec : adm_decision record = if record_blocked record then AdmissionRejected else AdmissionAdmitted)
    by by rewrite Hb.
  assert (Hv : validate_decision record = Ok tt).
  { unfold validate_decision. rewrite Hdec.
    rewrite (bool_decide_eq_true_2 (adm_run_spec_ref record = _)) by done. cbn -[record_blocked].
    by destruct (record_blocked record). }
  exists record. rewrite Hv. split_and!; try done.
  exists tf, cf, ef. split_and!; try done.
  unfold f. rewrite blocks_merge, blocks_fold_merge, blocks_empty. cbn [existsb orb].
  by rewrite !orb_false_r, <- !orb_assoc.
Qed.
End admission.

(** C13: admission decides: on every validated RunSpec with a trust record that binds it,
    [admit_run_spec] returns a well-formed record (it never raises), and the record admits exactly
    when the declared envelope satisfies the whole policy [Admissible]. *)
Theorem admit_decides `{PyRuntime} envelope validators now spec trust :
  admissible_input spec trust →
  ∃ record, admit_run_spec envelope validators now spec trust = Ok record
    ∧ validate_decision record = Ok tt
    ∧ validate_requirement_ref (adm_resolved_inventory record) = Ok tt
    ∧ (adm_decision record = AdmissionAdmitted ↔ Admissible envelope validators spec trust).
Proof.
  intros Hin. destruct (admit_unfold envelope validators now spec trust Hin)
    as (f & r & Hr & Hdec & Hcaps & _ & _ & Hm & Hde & Hi & Hv & Hq & Hw & Hit & tf & cf & ef & Ht
        & Hcf & He & Hf).
  exists r. split_and!; [done..|]. rewrite Hdec.
  assert (Hb : record_blocked r = false ↔ blocks f = false
    ∧ (∀ q, q ∈ inv_capability_requirements (spec_agent_inventory spec) →
        rq_required q = true → capability_satisfied envelope q)
    ∧ adm_workspace_status r = Resolved ∧ adm_interaction_status r = Resolved).
  { unfold record_blocked, blocks. rewrite Hm, Hde, Hi, Hcaps, <- required_unresolved,
      !orb_false_iff, !negb_false_iff, !bool_decide_eq_true. tauto. }
  assert (Hd2 : (if record_blocked r then AdmissionRejected else AdmissionAdmitted) = AdmissionAdmitted
    ↔ record_blocked r = false) by by destruct (record_blocked r).
  rewrite Hd2, Hb, Hf. clear Hd2 Hb Hm Hde Hi Hdec.
  destruct Hin as (_ & Hplan & Hd & Hs).
  destruct (check_execution_trust_policy_spec spec trust envelope Hd Hs) as (tf' & Ht' & Htp).
  rewrite Ht in Ht'. injection Ht' as <-.
  destruct (check_evaluation_pipeline_spec spec Hplan) as (ef' & He' & Hef).
  rewrite He in He'. injection He' as <-.
  destruct (check_subject_disclosure_blocks spec) as [Hdf Hdn].
  cbn [existsb]. rewrite !orb_false_iff, Htp, check_runner_blocks, check_provider_blocks, Hcf, Hef,
    check_budgets_blocks, check_stop_conditions_blocks, adapter_issues_blocks,
    resolve_workspace_status, check_interaction_status, Hw, Hit, check_capture_blocks,
    check_progress_observer_blocks, check_checkpoint_coordinator_blocks, check_goal_mode_blocks,
    check_human_adjudication_blocks, Hdf, !negb_false_iff, !bool_decide_eq_true, Hdn,
    resolve_workspace_resolved, check_interaction_resolved.
  cbn [check_runtime_capabilities snd]. rewrite check_runtime_fold_blocks, blocks_empty.
  split.
  - intros [? ?]. destruct_and!. by constructor.
  - intros []. assert (Hdis := proj2 Hdn ltac:(done)). rewrite Hdis. cbn [default].
    rewrite check_interaction_resolved. split_and!; done.
Qed.

(** Least authority: every capability of an admission record is well formed; a
    resolved one comes from a requirement the catalog satisfies with the exact digest,
    carries exactly the permissions requested, none outside the catalog's allowlist,
    and instruction context only when its exposure includes instructions; an unresolved
    one carries no permission and no context. *)
Theorem admit_least_authority `{PyRuntime} envelope validators now spec trust record c :
  admissible_input spec trust → admit_run_spec envelope validators now spec trust = Ok record →
  c ∈ ri_capabilities (adm_resolved_inventory record) →
  validate_resolution c = Ok tt
  ∧ (rc_status c ≠ Resolved → rc_effective_permissions c = [] ∧ rc_context_refs c = [])
  ∧ (rc_status c = Resolved →
     ∃ r e, r ∈ inv_capability_requirements (spec_agent_inventory spec)
       ∧ env_capabilities envelope !! capability_key (rq_capability_ref r) = Some e
       ∧ rc_requested_ref c = rq_capability_ref r ∧ rc_resolved_ref c = Some (ce_ref e)
       ∧ cap_digest (ce_ref e) = cap_digest (rc_requested_ref c)
       ∧ (∀ p, p ∈ rc_effective_permissions c ↔ p ∈ rq_requested_permissions r)
       ∧ (∀ p, p ∈ rc_effective_permissions c → p ∈ ce_allowed_permissions e)
       ∧ (rc_exposure c = SchemaOnly → rc_context_refs c = [])).
Proof.
  intros Hin Hadm Hc. destruct (admit_unfold envelope validators now spec trust Hin)
    as (f & r0 & Hr & _ & Hcaps & _).
  rewrite Hadm in Hr. injection Hr as <-. rewrite Hcaps in Hc.
  apply list_elem_of_fmap in Hc as (r & -> & Hr).
  pose proof (check_capability_valid envelope r) as Hv. split; [done|].
  destruct (check_capability_fields envelope r) as (_ & Href & _).
  split; [intros Hs | intros Hs].
  - by apply validate_resolution_unresolved.
  - pose proof (proj1 (check_capability_resolved _ _) Hs) as (e & He & Hd & Hver & Hp & Hk).
    exists r, e. rewrite Href. clear Hv Href Hs. unfold check_capability.
    rewrite He, decide_True, (bool_decide_eq_true_2 _ Hver), (proj2 (subset_of_true _ _) Hp),
      (proj2 (subset_of_true _ _) Hk) by done. cbn. unfold sorted_set, sorted_strings.
    setoid_rewrite elem_of_sort_by. setoid_rewrite elem_of_remove_dups.
    split_and!; try done. intros ->. done.
Qed.

Lemma rejection_causes_nil record :
  rejection_causes record = [] ↔
  existsb ai_blocking (adm_issues record) = false ∧ adm_missing_requirements record = []
  ∧ adm_denied_policies record = []
  ∧ existsb (λ c, rc_required c && rc_status c !=b Resolved)
      (ri_capabilities (adm_resolved_inventory record)) = false.
Proof.
  unfold rejection_causes, unresolved_required_capabilities. rewrite !app_nil, !existsb_false.
  split.
  - intros (E1%map_eq_nil & E2%map_eq_nil & E3%map_eq_nil & E4%map_eq_nil).
    apply map_eq_nil in E4. rewrite filter_nil in E1. by rewrite filter_nil in E4.
  - intros (E1 & -> & -> & E4). rewrite !(proj2 (filter_nil _ _)); done.
Qed.

(** No silent refusal: the error projected from a rejected record of [admit_run_spec] always
    names at least one cause, and repeats the record's findings unchanged. *)
Lemma admission_rejection_explained `{PyRuntime} envelope validators now spec trust record :
  admissible_input spec trust → admit_run_spec envelope validators now spec trust = Ok record →
  adm_decision record = AdmissionRejected →
  rejection_causes record ≠ []
  ∧ ∃ e, admission_rejection_error record = Ok e
    ∧ te_issues e = adm_issues record ∧ te_missing_requirements e = adm_missing_requirements record
    ∧ te_denied_policies e = adm_denied_policies record.
Proof.
  intros Hin Hadm Hrej. destruct (admit_unfold envelope validators now spec trust Hin)
    as (f & r & Hr & Hdec & _ & _ & _ & Hm & Hde & Hi & _ & _ & Hw & Hit & tf & cf & ef & _ & _
        & _ & Hf).
  rewrite Hadm in Hr. injection Hr as <-. split.
  - intros (E1 & E2 & E3 & E4)%rejection_causes_nil.
    assert (Hb : blocks f = false)
      by (unfold blocks; by rewrite <- Hm, <- Hde, <- Hi, E1, E2, E3).
    rewrite Hf in Hb. cbn [existsb] in Hb. rewrite !orb_false_iff, resolve_workspace_status,
      check_interaction_status, !negb_false_iff, !bool_decide_eq_true in Hb.
    destruct (check_subject_disclosure_blocks spec) as [Hdf _]. rewrite Hdf in Hb.
    rewrite negb_false_iff, bool_decide_eq_true in Hb. destruct_and!.
    rewrite Hrej in Hdec. unfold record_blocked in Hdec. rewrite E1, E2, E3, E4, Hw, Hit in Hdec.
    repeat match goal with H : _.1 = _ |- _ => rewrite H in Hdec end. done.
  - unfold admission_rejection_error. rewrite Hrej. eexists. split; [done|]. done.
Qed.

(** ** A concrete envelope *)

Definition sample_envelope : RuntimeCapabilityEnvelope :=
  declare [sample_runner] [MkCapabilityEntry sample_tool "read_text" ["read"; "list"] ["1"] []]
    [] ["in_process"] [SingleTurn] [] [NetDisabled] [EffDenied] [] false.

Lemma sample_admissible_input : admissible_input sample_spec sample_trust.
Proof. split_and!; [exact sample_spec_valid|exact sample_plan_valid|done|done]. Qed.

Lemma admit_decides_witness :
  ∃ record, admit_run_spec sample_envelope [] 0 sample_spec sample_trust = Ok record
    ∧ validate_decision record = Ok tt
    ∧ validate_requirement_ref (adm_resolved_inventory record) = Ok tt
    ∧ (adm_decision record = AdmissionAdmitted ↔ Admissible sample_envelope [] sample_spec sample_trust).
Proof.
  apply (admit_decides sample_envelope [] 0 sample_spec sample_trust).
  exact sample_admissible_input.
Defined.

Definition empty_envelope : RuntimeCapabilityEnvelope := declare [] [] [] [] [] [] [] [] [] false.

Definition blank_record : AdmissionRecord := MkAdmissionRecord "" "" AdmissionRejected
  (MkResolvedAgentInventory (sample_ref AGENT_INVENTORY "inventory") sample_runner
     None None None None None [] []) Resolved Resolved [] [] [] [] None 0.

Definition sample_record : AdmissionRecord := Eval vm_compute in
  value_of blank_record (admit_run_spec sample_envelope [] 0 sample_spec sample_trust).

(** The sample is admitted by the offline envelope, and rejected by an empty one. *)
Lemma sample_record_admitted :
  admit_run_spec sample_envelope [] 0 sample_spec sample_trust = Ok sample_record.
Proof. vm_compute. reflexivity. Qed.

Definition rejected_record : AdmissionRecord := Eval vm_compute in
  value_of blank_record (admit_run_spec empty_envelope [] 0 sample_spec sample_trust).

Lemma rejected_record_admit :
  admit_run_spec empty_envelope [] 0 sample_spec sample_trust = Ok rejected_record.
Proof. vm_compute. reflexivity. Qed.

Lemma admit_least_authority_witness :
  let c := (check_capability sample_envelope sample_requirement).1 in
  rc_status c = Resolved ∧ validate_resolution c = Ok tt.
Proof.
  split; [vm_compute; reflexivity|].
  apply (admit_least_authority sample_envelope [] 0 sample_spec sample_trust sample_record);
    [exact sample_admissible_input|exact sample_record_admitted|].
  apply (proj1 (bool_decide_eq_true _)). vm_compute. reflexivity.
Defined.
