(* ===== verification/Store.v ===== *)
(** * Rows, tables and transactions
    (src/src/evidrun/infrastructure/database/: models.py, unit_of_work.py, clock.py,
    timestamps.py, and [new_id] of src/src/evidrun/shared/types.py).

    A table with a primary key is a [gmap]; the event table is the list of its rows in
    insertion order, since the code reads it per Run by sequence. A TEXT column that is
    only written with [canonical_json] and read with [json.loads] (and validated into
    its model) holds the document, or the model, itself; where the code compares the
    texts, the model compares their canonical texts.

    A transaction is a computation of the monad [Tx]: it reads the clock and draws
    identifiers from an environment, reads and writes the tables, and may raise. The
    session context commits a transaction that returns and rolls back one that raises:
    [transaction]. A flush checks the table constraints: a violated one is an
    [IntegrityError]. SQLite serializes writers, so operations interleave only at
    transaction boundaries. Timestamps are UTC instants; [naive_utc] and [aware_utc]
    only change how an instant is tagged. *)

From S2P Require Import Prelude PyText PyJson Base Authoring Runtime Events.

(** ** Rows *)

Record RunRow := MkRunRow {
  run_id : string;
  run_experiment_revision_id : option string;
  run_variant_id : string;
  run_repetition : Z;
  run_status : RunStatus;
  run_runner : string;
  run_objective : string;
  run_output : option string;
  run_context_hash : option string;
  run_retry_of : option string;
  run_run_spec_id : option string;
  run_admission_id : option string;
  run_execution_trust_id : option string;
  run_execution_trust_digest : option string;
  run_created_at : instant;
  run_completed_at : option instant
}.

Record RunEventRow := MkRunEventRow {
  evt_id : string;
  evt_run_id : string;
  evt_sequence : Z;
  evt_event_type : string;
  evt_occurred_at : instant;
  evt_actor_type : string;
  evt_actor_id : string;
  evt_classification : string;
  evt_payload : json;
  evt_correlation_id : string;
  evt_causation_id : option string;
  evt_prev_event_hash : option string;
  evt_event_hash : string;
  evt_operation_key : option string
}.

Record RunExecutionJobRow := MkJobRow {
  job_id : string;
  job_run_id : string;
  job_status : JobStatus;
  job_idempotency_key : string;
  job_request_digest : string;
  job_available_at : instant;
  job_active_attempt_id : option string;
  job_lease_generation : Z;
  job_created_at : instant;
  job_finished_at : option instant;
  job_rejection_code : option string
}.

Record RunExecutionAttemptRow := MkAttemptRow {
  att_row_id : string;
  att_job_id : string;
  att_ordinal : Z;
  att_worker_id : string;
  att_lease_generation : Z;
  att_status : AttemptStatus;
  att_leased_at : instant;
  att_lease_expires_at : instant;
  att_last_heartbeat_at : instant;
  att_finished_at : option instant;
  att_reason_code : option string
}.

Record RunSpecRow := MkRunSpecRow {
  rsp_id : string;
  rsp_spec : RunSpec;
  rsp_digest : string;
  rsp_created_at : instant
}.

Record AdmissionRecordRow := MkAdmissionRow {
  arow_id : string;
  arow_run_spec_id : string;
  arow_decision : AdmissionDecision;
  arow_record : AdmissionRecord;
  arow_digest : string;
  arow_execution_trust_id : option string;
  arow_execution_trust_digest : option string;
  arow_created_at : instant
}.

Record SubjectEnvelopeRow := MkEnvelopeRow {
  erow_run_id : string;
  erow_envelope_json : json;
  erow_digest : string;
  erow_created_at : instant
}.

Record ContextSnapshotRow := MkSnapshotRow {
  snap_id : string;
  snap_run_id : string;
  snap_policy_id : string;
  snap_strategy : ContextStrategy;
  snap_max_chars : Z;
  snap_source_chars : Z;
  snap_selected_chars : Z;
  snap_selected_content : string;
  snap_omitted : json;
  snap_content_hash : string;
  snap_created_at : instant
}.

Record CheckpointRecordRow := MkCheckpointRow {
  ckrow_id : string;
  ckrow_run_id : string;
  ckrow_definition_id : string;
  ckrow_up_to_event_sequence : Z;
  ckrow_record : CheckpointRecord;
  ckrow_checkpoint_hash : string;
  ckrow_created_at : instant
}.

Record EvaluationRecordRow := MkEvaluationRow {
  evrow_id : string;
  evrow_run_id : string;
  evrow_source_type : SourceType;
  evrow_stage_id : string;
  evrow_record : EvaluationRecord;
  evrow_record_digest : string;
  evrow_created_at : instant
}.

Record GradeRow := MkGradeRow {
  grd_id : string;
  grd_run_id : string;
  grd_grader_id : string;
  grd_score : pyfloat;
  grd_passed : bool;
  grd_rationale : string;
  grd_evidence : json;
  grd_created_at : instant
}.

(** ** Tables *)

Record DB := MkDB {
  db_runs : gmap string RunRow;
  db_events : list RunEventRow;
  db_jobs : gmap string RunExecutionJobRow;
  db_attempts : gmap string RunExecutionAttemptRow;
  db_run_specs : gmap string RunSpecRow;
  db_admissions : gmap string AdmissionRecordRow;
  db_envelopes : gmap string SubjectEnvelopeRow;
  db_snapshots : gmap string ContextSnapshotRow;
  db_checkpoints : gmap string CheckpointRecordRow;
  db_evaluations : gmap string EvaluationRecordRow;
  db_grades : gmap string GradeRow
}.

Definition empty_db : DB := MkDB ∅ [] ∅ ∅ ∅ ∅ ∅ ∅ ∅ ∅ ∅.

Definition set_runs (f : gmap string RunRow → gmap string RunRow) (d : DB) : DB :=
  MkDB (f (db_runs d)) (db_events d) (db_jobs d) (db_attempts d) (db_run_specs d)
    (db_admissions d) (db_envelopes d) (db_snapshots d) (db_checkpoints d) (db_evaluations d)
    (db_grades d).
Definition set_events (f : list RunEventRow → list RunEventRow) (d : DB) : DB :=
  MkDB (db_runs d) (f (db_events d)) (db_jobs d) (db_attempts d) (db_run_specs d)
    (db_admissions d) (db_envelopes d) (db_snapshots d) (db_checkpoints d) (db_evaluations d)
    (db_grades d).
Definition set_jobs (f : gmap string RunExecutionJobRow → gmap string RunExecutionJobRow) (d : DB) : DB :=
  MkDB (db_runs d) (db_events d) (f (db_jobs d)) (db_attempts d) (db_run_specs d)
    (db_admissions d) (db_envelopes d) (db_snapshots d) (db_checkpoints d) (db_evaluations d)
    (db_grades d).
Definition set_attempts (f : gmap string RunExecutionAttemptRow → gmap string RunExecutionAttemptRow)
    (d : DB) : DB :=
  MkDB (db_runs d) (db_events d) (db_jobs d) (f (db_attempts d)) (db_run_specs d)
    (db_admissions d) (db_envelopes d) (db_snapshots d) (db_checkpoints d) (db_evaluations d)
    (db_grades d).
Definition set_envelopes (f : gmap string SubjectEnvelopeRow → gmap string SubjectEnvelopeRow)
    (d : DB) : DB :=
  MkDB (db_runs d) (db_events d) (db_jobs d) (db_attempts d) (db_run_specs d)
    (db_admissions d) (f (db_envelopes d)) (db_snapshots d) (db_checkpoints d) (db_evaluations d)
    (db_grades d).
Definition set_snapshots (f : gmap string ContextSnapshotRow → gmap string ContextSnapshotRow)
    (d : DB) : DB :=
  MkDB (db_runs d) (db_events d) (db_jobs d) (db_attempts d) (db_run_specs d)
    (db_admissions d) (db_envelopes d) (f (db_snapshots d)) (db_checkpoints d) (db_evaluations d)
    (db_grades d).

Definition set_checkpoints (f : gmap string CheckpointRecordRow → gmap string CheckpointRecordRow)
    (d : DB) : DB :=
  MkDB (db_runs d) (db_events d) (db_jobs d) (db_attempts d) (db_run_specs d)
    (db_admissions d) (db_envelopes d) (db_snapshots d) (f (db_checkpoints d)) (db_evaluations d)
    (db_grades d).
Definition set_evaluations (f : gmap string EvaluationRecordRow → gmap string EvaluationRecordRow)
    (d : DB) : DB :=
  MkDB (db_runs d) (db_events d) (db_jobs d) (db_attempts d) (db_run_specs d)
    (db_admissions d) (db_envelopes d) (db_snapshots d) (db_checkpoints d) (f (db_evaluations d))
    (db_grades d).
Definition set_grades (f : gmap string GradeRow → gmap string GradeRow) (d : DB) : DB :=
  MkDB (db_runs d) (db_events d) (db_jobs d) (db_attempts d) (db_run_specs d)
    (db_admissions d) (db_envelopes d) (db_snapshots d) (db_checkpoints d) (db_evaluations d)
    (f (db_grades d)).

(** ** Transactions *)

(** The clock and the identifier source: what the n-th reading returns. *)
Record Env := MkEnv {
  env_now : nat → instant;
  env_id : nat → string
}.

Record St := MkSt {
  st_db : DB;
  st_ticks : nat;
  st_ids : nat
}.

Definition Tx (A : Type) : Type := Env → St → result (A * St).

#[export] Instance tx_ret : MRet Tx := λ A a env s, Ok (a, s).
#[export] Instance tx_bind : MBind Tx := λ A B f m env s,
  match m env s with Ok (a, s') => f a env s' | Raise e => Raise e end.

(** [session.get], [session.scalar(select(...))]: a function of the tables. *)
Definition query {A} (f : DB → A) : Tx A := λ env s, Ok (f (st_db s), s).
(** [session.add(row)] and attribute assignment on a loaded row. *)
Definition update (f : DB → DB) : Tx unit := λ env s,
  Ok (tt, MkSt (f (st_db s)) (st_ticks s) (st_ids s)).
Definition lift {A} (r : result A) : Tx A := λ env s,
  match r with Ok a => Ok (a, s) | Raise e => Raise e end.
Definition guard (b : bool) (e : exn) : Tx unit := lift (raise_when b e).
(** [x = session.get(...); if x is None: raise e]. *)
Definition fetch {A} (f : DB → option A) (e : exn) : Tx A := o ← query f; lift (require o e).

(** [clock.utc_now()]. *)
Definition utc_now : Tx instant := λ env s,
  Ok (env_now env (st_ticks s), MkSt (st_db s) (S (st_ticks s)) (st_ids s)).
(** [new_id(prefix)]. *)
Definition new_id (prefix : string) : Tx string := λ env s,
  Ok (prefix +:+ "_" +:+ env_id env (st_ids s), MkSt (st_db s) (st_ticks s) (S (st_ids s))).
(** [now or clock.utc_now()]. *)
Definition now_or_clock (now : option instant) : Tx instant :=
  match now with Some t => mret t | None => utc_now end.

(** An operation: the next state and what the caller sees. *)
Definition Op (A : Type) : Type := Env → St → St * result A.

(** Run the body, commit, then build the returned model from the committed rows; the
    construction can still raise, after the commit. *)
Definition transaction {A B} (body : Tx A) (model : A → result B) : Op B := λ env s,
  match body env s with
  | Ok (a, s') => (s', model a)
  | Raise e => (s, Raise e)
  end.

(** An operation that opens several sessions: each commits or rolls back on its own. *)
#[export] Instance op_ret : MRet Op := λ A a env s, (s, Ok a).
#[export] Instance op_bind : MBind Op := λ A B f m env s,
  match m env s with (s', Ok a) => f a env s' | (s', Raise e) => (s', Raise e) end.
(** Code between two sessions that may raise. *)
Definition op_lift {A} (r : result A) : Op A := λ env s, (s, r).
(** A session that only reads the tables. *)
Definition read_session {A} (f : DB → result A) : Op A := λ env s, (s, f (st_db s)).

(** Several writes in a loop. *)
Fixpoint for_each {A} (l : list A) (f : A → Tx unit) : Tx unit :=
  match l with
  | [] => mret tt
  | x :: rest => f x;; for_each rest f
  end.

(** ** Queries *)

Definition get_run (id : string) (d : DB) : option RunRow := db_runs d !! id.
Definition get_job (id : string) (d : DB) : option RunExecutionJobRow := db_jobs d !! id.
Definition get_attempt (id : string) (d : DB) : option RunExecutionAttemptRow := db_attempts d !! id.
Definition all_jobs (d : DB) : list RunExecutionJobRow := map snd (map_to_list (db_jobs d)).
Definition all_attempts (d : DB) : list RunExecutionAttemptRow :=
  map snd (map_to_list (db_attempts d)).

(** [where(run_id == id)], in insertion order. *)
Definition run_events (id : string) (d : DB) : list RunEventRow :=
  List.filter (λ e, evt_run_id e ==b id) (db_events d).

Definition sequence_leb (a b : RunEventRow) : bool := (evt_sequence a <=? evt_sequence b)%Z.

(** [where(run_id == id).order_by(sequence)]. *)
Definition events_by_sequence (id : string) (d : DB) : list RunEventRow :=
  sort_by sequence_leb (run_events id d).

(** [order_by(sequence.desc()).limit(1)]. *)
Definition last_event (id : string) (d : DB) : option RunEventRow :=
  last (events_by_sequence id d).

(** [where(run_id == id, operation_key == key)]. *)
Definition event_by_key (id key : string) (d : DB) : option RunEventRow :=
  find_first (λ e, evt_operation_key e ==b Some key) (run_events id d).

(** ** Inserts and their constraints *)

Definition event_conflict (row : RunEventRow) (d : DB) : bool :=
  existsb (λ e, evt_id e ==b evt_id row
    || (evt_run_id e ==b evt_run_id row && (evt_sequence e =? evt_sequence row)%Z)
    || (evt_run_id e ==b evt_run_id row && evt_operation_key row !=b None
        && evt_operation_key e ==b evt_operation_key row)) (db_events d).

Definition insert_event (row : RunEventRow) : Tx unit :=
  conflict ← query (event_conflict row);
  guard conflict (IntegrityError "run_events");;
  update (set_events (λ l, l ++ [row])).

Definition insert_run (row : RunRow) : Tx unit :=
  existing ← query (get_run (run_id row));
  guard (match existing with Some _ => true | None => false end) (IntegrityError "runs");;
  update (set_runs (insert (run_id row) row)).

Definition job_conflict (row : RunExecutionJobRow) (d : DB) : bool :=
  existsb (λ j, job_id j ==b job_id row || job_run_id j ==b job_run_id row
    || job_idempotency_key j ==b job_idempotency_key row) (all_jobs d).

Definition insert_job (row : RunExecutionJobRow) : Tx unit :=
  conflict ← query (job_conflict row);
  guard conflict (IntegrityError "run_execution_jobs");;
  update (set_jobs (insert (job_id row) row)).

Definition attempt_conflict (row : RunExecutionAttemptRow) (d : DB) : bool :=
  existsb (λ a, att_row_id a ==b att_row_id row
    || (att_job_id a ==b att_job_id row && (att_ordinal a =? att_ordinal row)%Z)
    || (att_job_id a ==b att_job_id row
        && (att_lease_generation a =? att_lease_generation row)%Z)) (all_attempts d).

Definition insert_attempt (row : RunExecutionAttemptRow) : Tx unit :=
  conflict ← query (attempt_conflict row);
  guard conflict (IntegrityError "run_execution_attempts");;
  update (set_attempts (insert (att_row_id row) row)).

(** [ForeignKey("runs.id")]. *)
Definition run_missing (id : string) (d : DB) : bool :=
  match get_run id d with Some _ => false | None => true end.

Definition snapshot_by_run (id : string) (d : DB) : option ContextSnapshotRow :=
  find_first (λ s, snap_run_id s ==b id) (map snd (map_to_list (db_snapshots d))).

Definition insert_snapshot (row : ContextSnapshotRow) : Tx unit :=
  missing ← query (run_missing (snap_run_id row));
  guard missing (IntegrityError "context_snapshots");;
  existing ← query (λ d, (db_snapshots d !! snap_id row, snapshot_by_run (snap_run_id row) d));
  guard (match existing with (None, None) => false | _ => true end)
    (IntegrityError "context_snapshots");;
  update (set_snapshots (insert (snap_id row) row)).

Definition insert_envelope (row : SubjectEnvelopeRow) : Tx unit :=
  existing ← query (λ d, db_envelopes d !! erow_run_id row);
  guard (match existing with Some _ => true | None => false end)
    (IntegrityError "subject_envelopes");;
  update (set_envelopes (insert (erow_run_id row) row)).

Definition all_evaluations (d : DB) : list EvaluationRecordRow :=
  map snd (map_to_list (db_evaluations d)).
Definition all_checkpoints (d : DB) : list CheckpointRecordRow :=
  map snd (map_to_list (db_checkpoints d)).
Definition all_grades (d : DB) : list GradeRow := map snd (map_to_list (db_grades d)).

Definition evaluation_conflict (row : EvaluationRecordRow) (d : DB) : bool :=
  run_missing (evrow_run_id row) d
  || existsb (λ e, evrow_id e ==b evrow_id row
       || (evrow_run_id e ==b evrow_run_id row && evrow_stage_id e ==b evrow_stage_id row
           && evrow_source_type e ==b evrow_source_type row)
       || evrow_record_digest e ==b evrow_record_digest row) (all_evaluations d).

Definition insert_evaluation (row : EvaluationRecordRow) : Tx unit :=
  conflict ← query (evaluation_conflict row);
  guard conflict (IntegrityError "evaluation_records");;
  update (set_evaluations (insert (evrow_id row) row)).

Definition checkpoint_conflict (row : CheckpointRecordRow) (d : DB) : bool :=
  run_missing (ckrow_run_id row) d
  || existsb (λ c, ckrow_id c ==b ckrow_id row
       || (ckrow_run_id c ==b ckrow_run_id row
           && ckrow_definition_id c ==b ckrow_definition_id row
           && (ckrow_up_to_event_sequence c =? ckrow_up_to_event_sequence row)%Z)
       || ckrow_checkpoint_hash c ==b ckrow_checkpoint_hash row) (all_checkpoints d).

Definition insert_checkpoint (row : CheckpointRecordRow) : Tx unit :=
  conflict ← query (checkpoint_conflict row);
  guard conflict (IntegrityError "checkpoint_records");;
  update (set_checkpoints (insert (ckrow_id row) row)).

Definition grade_conflict (row : GradeRow) (d : DB) : bool :=
  run_missing (grd_run_id row) d
  || existsb (λ g, grd_id g ==b grd_id row
       || (grd_run_id g ==b grd_run_id row && grd_grader_id g ==b grd_grader_id row))
       (all_grades d).

Definition insert_grade (row : GradeRow) : Tx unit :=
  conflict ← query (grade_conflict row);
  guard conflict (IntegrityError "grades");;
  update (set_grades (insert (grd_id row) row)).

(** Assignments to a loaded row. *)
Definition save_run (row : RunRow) : Tx unit := update (set_runs (insert (run_id row) row)).
Definition save_job (row : RunExecutionJobRow) : Tx unit :=
  update (set_jobs (insert (job_id row) row)).
Definition save_attempt (row : RunExecutionAttemptRow) : Tx unit :=
  update (set_attempts (insert (att_row_id row) row)).

(** The rows of a table. *)
Lemma rows_elem {A} (m : gmap string A) x :
  x ∈ map snd (map_to_list m) ↔ ∃ k, m !! k = Some x.
Proof.
  split.
  - intros ([k y] & -> & Hy%elem_of_map_to_list)%list_elem_of_fmap. by exists k.
  - intros [k Hk]. apply list_elem_of_fmap. exists (k, x). split; [done|].
    by apply elem_of_map_to_list.
Qed.

Lemma existsb_rows {A} (p : A → bool) (m : gmap string A) :
  existsb p (map snd (map_to_list m)) = false ↔ ∀ k x, m !! k = Some x → p x = false.
Proof. rewrite existsb_false. setoid_rewrite rows_elem. naive_solver. Qed.

(** ** Reasoning about transactions *)

Section tx.
Context {A B : Type} (env : Env).

Lemma tx_bind_ok (m : Tx A) (f : A → Tx B) s b s' :
  (m ≫= f) env s = Ok (b, s') ↔ ∃ a s1, m env s = Ok (a, s1) ∧ f a env s1 = Ok (b, s').
Proof.
  unfold mbind, tx_bind. destruct (m env s) as [[a s1]|e]; naive_solver.
Qed.

Lemma tx_run (m : Tx A) (f : A → Tx B) s a s1 :
  m env s = Ok (a, s1) → (m ≫= f) env s = f a env s1.
Proof. unfold mbind, tx_bind. by intros ->. Qed.

Lemma tx_fails (m : Tx A) (f : A → Tx B) s e :
  m env s = Raise e → (m ≫= f) env s = Raise e.
Proof. unfold mbind, tx_bind. by intros ->. Qed.

Lemma tx_ret_ok (a b : A) s s' : (mret a : Tx A) env s = Ok (b, s') ↔ b = a ∧ s' = s.
Proof. unfold mret, tx_ret. naive_solver. Qed.

Lemma query_ok (f : DB → A) s a s' : query f env s = Ok (a, s') ↔ a = f (st_db s) ∧ s' = s.
Proof. unfold query. naive_solver. Qed.

Lemma lift_ok (r : result A) s a s' : lift r env s = Ok (a, s') ↔ r = Ok a ∧ s' = s.
Proof. unfold lift. destruct r; naive_solver. Qed.

Lemma fetch_ok (f : DB → option A) e s a s' :
  fetch f e env s = Ok (a, s') ↔ f (st_db s) = Some a ∧ s' = s.
Proof.
  unfold fetch. unfold mbind, tx_bind, query, lift, require.
  destruct (f (st_db s)); naive_solver.
Qed.
End tx.

Lemma guard_ok env b e s u s' : guard b e env s = Ok (u, s') ↔ b = false ∧ s' = s.
Proof. unfold guard. rewrite lift_ok, raise_when_ok. done. Qed.

Lemma update_ok env f s u s' :
  update f env s = Ok (u, s') ↔ s' = MkSt (f (st_db s)) (st_ticks s) (st_ids s).
Proof. unfold update. destruct u. naive_solver. Qed.

Lemma utc_now_ok env s t s' :
  utc_now env s = Ok (t, s') → st_db s' = st_db s ∧ t = env_now env (st_ticks s).
Proof. unfold utc_now. by intros [= <- <-]. Qed.

Lemma new_id_ok env prefix s t s' : new_id prefix env s = Ok (t, s') → st_db s' = st_db s.
Proof. unfold new_id. by intros [= <- <-]. Qed.

Lemma now_or_clock_ok env now s t s' :
  now_or_clock now env s = Ok (t, s') → st_db s' = st_db s.
Proof. destruct now; cbn; [by intros [-> ->]%tx_ret_ok|]. by intros [? _]%utc_now_ok. Qed.

(** Decompose a successful transaction into its steps. *)
Ltac inv_tx_step :=
  match goal with
  | H : mbind _ _ _ _ = Ok (_, _) |- _ => apply tx_bind_ok in H as (? & ? & ? & H)
  | H : mret _ _ _ = Ok (_, _) |- _ => apply tx_ret_ok in H as [? ?]; try subst
  | H : query _ _ _ = Ok (_, _) |- _ => apply query_ok in H as [? ?]; try subst
  | H : guard _ _ _ _ = Ok (_, _) |- _ => apply guard_ok in H as [? ?]; try subst
  | H : lift _ _ _ = Ok (_, _) |- _ => apply lift_ok in H as [? ?]; try subst
  | H : fetch _ _ _ _ = Ok (_, _) |- _ => apply fetch_ok in H as [? ?]; try subst
  | H : update _ _ _ = Ok (_, _) |- _ => apply update_ok in H; try subst
  | H : save_run _ _ _ = Ok (_, _) |- _ => unfold save_run in H
  | H : save_job _ _ _ = Ok (_, _) |- _ => unfold save_job in H
  | H : save_attempt _ _ _ = Ok (_, _) |- _ => unfold save_attempt in H
  | H : Ok _ = Ok _ |- _ => injection H as H; try subst
  | H : Raise _ = Ok _ |- _ => discriminate H
  | H : (_, _) = (_, _) |- _ => injection H as ? ?; try subst
  end.
Ltac inv_tx := repeat inv_tx_step.

(** A step that leaves every table as it is. *)
Definition reads {A} (m : Tx A) : Prop :=
  ∀ env s a s', m env s = Ok (a, s') → st_db s' = st_db s.

Lemma reads_bind {A B} (m : Tx A) (f : A → Tx B) :
  reads m → (∀ a, reads (f a)) → reads (m ≫= f).
Proof.
  intros Hm Hf env s b s' (a & s1 & H1 & H2)%tx_bind_ok.
  rewrite (Hf a _ _ _ _ H2). by apply (Hm _ _ _ _ H1).
Qed.

Lemma reads_ret {A} (a : A) : reads (mret a).
Proof. intros env s b s'. by intros [-> ->]%tx_ret_ok. Qed.
Lemma reads_query {A} (f : DB → A) : reads (query f).
Proof. intros env s b s'. by intros [-> ->]%query_ok. Qed.
Lemma reads_lift {A} (r : result A) : reads (lift r).
Proof. intros env s b s'. by intros [_ ->]%lift_ok. Qed.
Lemma reads_guard b e : reads (guard b e).
Proof. apply reads_lift. Qed.
Lemma reads_fetch {A} (f : DB → option A) e : reads (fetch f e).
Proof. intros env s b s'. by intros [_ ->]%fetch_ok. Qed.
Lemma reads_utc_now : reads utc_now.
Proof. intros env s b s'. by intros [? _]%utc_now_ok. Qed.
Lemma reads_new_id p : reads (new_id p).
Proof. intros env s b s'. by intros ?%new_id_ok. Qed.
Lemma reads_now_or_clock now : reads (now_or_clock now).
Proof. intros env s b s'. by intros ?%now_or_clock_ok. Qed.

#[export] Hint Resolve reads_bind reads_ret reads_query reads_lift reads_guard reads_fetch
  reads_utc_now reads_new_id reads_now_or_clock : evidrun.

(** A transaction moves the tables along a relation. *)
Definition steps_by {A} (R : DB → DB → Prop) (m : Tx A) : Prop :=
  ∀ env s a s', m env s = Ok (a, s') → R (st_db s) (st_db s').

Section steps_by.
Context {A B : Type} (R : DB → DB → Prop) `{!PreOrder R}.

Lemma steps_by_bind (m : Tx A) (f : A → Tx B) :
  steps_by R m → (∀ a, steps_by R (f a)) → steps_by R (m ≫= f).
Proof.
  intros Hm Hf env s b s' (a & s1 & H1 & H2)%tx_bind_ok.
  etrans; [by eapply Hm|by eapply Hf].
Qed.

Lemma steps_by_reads (m : Tx A) : reads m → steps_by R m.
Proof. intros Hm env s a s' ->%Hm. done. Qed.
End steps_by.

Lemma steps_by_update (R : DB → DB → Prop) f : (∀ d, R d (f d)) → steps_by R (update f).
Proof. intros Hf env s u s' ->%update_ok. apply Hf. Qed.

(** Walk through the text of a transaction. *)
Ltac walk :=
  repeat first
    [ progress intros
    | apply steps_by_reads; [apply _|solve [eauto 10 with evidrun]]
    | apply steps_by_bind; [apply _| |]
    | apply steps_by_update; intros; split; reflexivity
    | match goal with
      | |- steps_by _ (if ?b then _ else _) => destruct b
      | |- steps_by _ (match ?x with _ => _ end) => destruct x
      end ].

(** Pass a read whose result does not matter. *)
Ltac skip_read E :=
  let Ex := fresh in
  apply tx_bind_ok in E as (? & ? & Ex & E);
  lazymatch type of Ex with
  | lift _ _ _ = _ => apply lift_ok in Ex as [_ ->]
  | fetch _ _ _ _ = _ => apply fetch_ok in Ex as [_ ->]
  | guard _ _ _ _ = _ => apply guard_ok in Ex as [_ ->]
  end.

Lemma for_each_steps {A} (R : DB → DB → Prop) `{!PreOrder R} (l : list A) f :
  (∀ x, steps_by R (f x)) → steps_by R (for_each l f).
Proof. intros Hf. induction l as [|x l IH]; cbn; walk; done. Qed.

(** A transaction that raises commits nothing. *)
Lemma transaction_steps {A B} (R : DB → DB → Prop) `{!PreOrder R} (body : Tx A)
    (model : A → result B) env s :
  steps_by R body → R (st_db s) (st_db (fst (transaction body model env s))).
Proof.
  intros Hb. unfold transaction. destruct (body env s) as [[a s']|e] eqn:E; cbn; [|done].
  by eapply Hb.
Qed.

(** ** Operations of several sessions *)

Lemma op_bind_eq {A B} (m : Op A) (f : A → Op B) env s :
  (m ≫= f) env s = match m env s with (s', Ok a) => f a env s' | (s', Raise e) => (s', Raise e) end.
Proof. done. Qed.

(** A session that writes nothing. *)
Lemma read_transaction {A B} (body : Tx A) (model : A → result B) env s :
  reads body → st_db (fst (transaction body model env s)) = st_db s.
Proof.
  intros Hb. unfold transaction. destruct (body env s) as [[a s']|e] eqn:E; [|done].
  by apply Hb in E.
Qed.

Definition op_steps_by {A} (R : DB → DB → Prop) (m : Op A) : Prop :=
  ∀ env s, R (st_db s) (st_db (fst (m env s))).

Lemma op_steps_bind {A B} (R : DB → DB → Prop) `{!PreOrder R} (m : Op A) (f : A → Op B) :
  op_steps_by R m → (∀ a, op_steps_by R (f a)) → op_steps_by R (m ≫= f).
Proof.
  intros Hm Hf env s. rewrite op_bind_eq. specialize (Hm env s).
  destruct (m env s) as [s' [a|e]]; cbn in *; [|done]. etrans; [exact Hm|apply Hf].
Qed.

Lemma op_steps_transaction {A B} (R : DB → DB → Prop) `{!PreOrder R} (body : Tx A)
    (model : A → result B) :
  steps_by R body → op_steps_by R (transaction body model).
Proof. intros Hb env s. by apply transaction_steps. Qed.
