(* ===== verification/Catalog.v ===== *)
(** * Projects, RunSpecs, trust records and admissions
    (src/src/evidrun/infrastructure/database/catalog.py and trust.py,
    scope_errors.py, and [normalize_scope_name] of src/src/evidrun/contracts/scope.py).

    The catalog keeps Workspaces, Projects, RunSpecs and admission records; the trust store
    keeps trust records and review targets and re-validates their lineage against the
    stored revisions whenever they are read. Both share the contract tables of
    ContractStore.v. Each operation is one transaction: it returns its row and the next
    tables, or raises and leaves them; identifiers and the clock are arguments. A text
    column that is written from a model and validated back into it holds the model. The
    writes of the legacy Runs, comparisons and experiment revisions are left out.

    The Unicode tables behind [unicodedata.normalize] and [str.casefold] are the class
    [UnicodeTables]. *)

From S2P Require Import Prelude PyText PyJson Base Authoring Runtime Triage Trust Samples Registry Compiler Sealing ContractStore Store.

(** ** Scope names *)

Class UnicodeTables := {
  nfkc : string → string;
  casefold : string → string
}.

Definition flush (word : string) (words : list string) : list string :=
  if word ==b "" then words else word :: words.

(** [s.split()]: the maximal runs without white space. *)
Fixpoint split_words (s word : string) : list string :=
  match s with
  | EmptyString => flush word []
  | String a s1 =>
      let next := split_words s1 (word +:+ String a EmptyString) in
      if space1 (byte_of a) then flush word (split_words s1 "")
      else match s1 with
      | String b s2 =>
          if space2 (byte_of a) (byte_of b) then flush word (split_words s2 "")
          else match s2 with
          | String c s3 =>
              if space3 (byte_of a) (byte_of b) (byte_of c) then flush word (split_words s3 "") else next
          | EmptyString => next
          end
      | EmptyString => next
      end
  end.

(** The display form and the identity key of a name. *)
Definition normalize_scope_name `{UnicodeTables} (value : string) : result (string * string) :=
  let name := String.concat " " (split_words (nfkc value) "") in
  raise_when (name ==b "") (ValueError "scope name must not be empty after normalization");;
  Ok (name, casefold name).

Inductive ScopeErrorCode :=
  | WORKSPACE_NAME_INVALID | WORKSPACE_NAME_CONFLICT | PROJECT_NAME_INVALID
  | PROJECT_NAME_CONFLICT | PROJECT_WORKSPACE_NOT_FOUND | SCOPE_STORAGE_UNAVAILABLE.
Definition ScopeErrorCode_value (c : ScopeErrorCode) : string :=
  match c with
  | WORKSPACE_NAME_INVALID => "workspace.name_invalid"
  | WORKSPACE_NAME_CONFLICT => "workspace.name_conflict"
  | PROJECT_NAME_INVALID => "project.name_invalid"
  | PROJECT_NAME_CONFLICT => "project.name_conflict"
  | PROJECT_WORKSPACE_NOT_FOUND => "project.workspace_not_found"
  | SCOPE_STORAGE_UNAVAILABLE => "scope.storage_unavailable"
  end.

(** [ScopeRejected] and [ScopeStorageUnavailable], named by their code. *)
Definition scope_rejected (c : ScopeErrorCode) : exn := TriageRejected (ScopeErrorCode_value c).

(** ** Tables *)

Record WorkspaceRow := MkWorkspaceRow {
  wsp_id : string;
  wsp_name : string;
  wsp_name_key : string;
  wsp_created_at : instant
}.

Record ProjectRow := MkProjectRow {
  prj_id : string;
  prj_workspace_id : string;
  prj_name : string;
  prj_name_key : string;
  prj_created_at : instant
}.

Record ExecutionTrustRecordRow := MkTrustRow {
  trow_id : string;
  trow_kind : TrustKind;
  trow_project_id : string;
  trow_study_logical_id : string;
  trow_revision_set_digest : string;
  trow_run_spec_digest : string;
  trow_record : ExecutionTrustRecord;
  trow_digest : string;
  trow_semantic_digest : string;
  trow_created_at : instant
}.

Record ExecutionReviewTargetRow := MkTargetRow {
  tgt_digest : string;
  tgt_project_id : string;
  tgt_revision_set_digest : string;
  tgt_target : ReviewTarget;
  tgt_created_at : instant
}.

Record CatalogDB := MkCatalogDB {
  cat_workspaces : list WorkspaceRow;
  cat_projects : list ProjectRow;
  cat_contracts : ContractDB;
  cat_run_specs : list RunSpecRow;
  cat_trust : list ExecutionTrustRecordRow;
  cat_targets : list ExecutionReviewTargetRow;
  cat_admissions : list AdmissionRecordRow
}.

Definition empty_catalog : CatalogDB := MkCatalogDB [] [] empty_contracts [] [] [] [].

Section catalog.
Context `{PyRuntime} `{RevisionModels} `{UnicodeTables}.

(** [human_attestation_verifier.verify]. *)
Variable verify : HumanAttestationRecord → string → result unit.

(** ** Workspaces and Projects *)

Definition create_workspace (name id : string) (now : instant) (s : CatalogDB)
    : result (WorkspaceRow * CatalogDB) :=
  match normalize_scope_name name with
  | Raise _ => Raise (scope_rejected WORKSPACE_NAME_INVALID)
  | Ok (display, key) =>
      let row := MkWorkspaceRow id display key now in
      if existsb (λ w, (wsp_id w ==b id) || (wsp_name_key w ==b key)) (cat_workspaces s) then
        if existsb (λ w, wsp_name_key w ==b key) (cat_workspaces s)
        then Raise (scope_rejected WORKSPACE_NAME_CONFLICT)
        else Raise (scope_rejected SCOPE_STORAGE_UNAVAILABLE)
      else Ok (row, MkCatalogDB (cat_workspaces s ++ [row]) (cat_projects s) (cat_contracts s)
                      (cat_run_specs s) (cat_trust s) (cat_targets s) (cat_admissions s))
  end.

(** A Project row makes its identifier a target of the contract tables' foreign key. *)
Definition create_project (workspace_id name id : string) (now : instant) (s : CatalogDB)
    : result (ProjectRow * CatalogDB) :=
  match normalize_scope_name name with
  | Raise _ => Raise (scope_rejected PROJECT_NAME_INVALID)
  | Ok (display, key) =>
      let row := MkProjectRow id workspace_id display key now in
      raise_when (negb (existsb (λ w, wsp_id w ==b workspace_id) (cat_workspaces s)))
        (scope_rejected PROJECT_WORKSPACE_NOT_FOUND);;
      let same_name p := (prj_workspace_id p ==b workspace_id) && (prj_name_key p ==b key) in
      if existsb (λ p, (prj_id p ==b id) || same_name p) (cat_projects s) then
        if existsb same_name (cat_projects s)
        then Raise (scope_rejected PROJECT_NAME_CONFLICT)
        else Raise (scope_rejected SCOPE_STORAGE_UNAVAILABLE)
      else
        let c := cat_contracts s in
        Ok (row, MkCatalogDB (cat_workspaces s) (cat_projects s ++ [row])
                   (MkContractDB ({[id]} ∪ cdb_projects c) (cdb_revisions c) (cdb_decisions c))
                   (cat_run_specs s) (cat_trust s) (cat_targets s) (cat_admissions s))
  end.

(** ** RunSpecs *)

Definition spec_row (digest : string) (s : CatalogDB) : option RunSpecRow :=
  find_first (λ r, rsp_digest r ==b digest) (cat_run_specs s).

Definition save_run_spec (spec : RunSpec) (id : string) (now : instant) (s : CatalogDB)
    : result (RunSpecRow * CatalogDB) :=
  match spec_row (spec_digest spec) s with
  | Some existing => Ok (existing, s)
  | None =>
      let row := MkRunSpecRow id spec (spec_digest spec) now in
      raise_when (existsb (λ r, rsp_id r ==b id) (cat_run_specs s)) (IntegrityError "run_specs");;
      Ok (row, MkCatalogDB (cat_workspaces s) (cat_projects s) (cat_contracts s)
                 (cat_run_specs s ++ [row]) (cat_trust s) (cat_targets s) (cat_admissions s))
  end.

(** ** Hydration *)

Definition project_exists (id : string) (s : CatalogDB) : bool :=
  existsb (λ p, prj_id p ==b id) (cat_projects s).

Definition hydrate_run_spec (digest : string) (s : CatalogDB) : result RunSpec :=
  row ← require (spec_row digest s) (ValueError "execution trust RunSpec does not exist");
  raise_when (spec_digest (rsp_spec row) !=b rsp_digest row) (ValueError "stored RunSpec digest mismatch");;
  Ok (rsp_spec row).

Definition hydrate_revision (reference : ContractRef) (s : CatalogDB) : result AuthoringRevision :=
  row ← require (revision_row (identity_key reference) (cat_contracts s))
    (ValueError "execution trust references an unknown revision");
  revision ← parse_revision (crow_document row);
  raise_when (crow_digest row !=b cr_digest reference || revision_ref revision !=b reference)
    (ValueError "stored revision does not match its reference");;
  Ok revision.

(** A loop that hydrates each element and stops at the first refusal. *)
Fixpoint map_res {A B} (f : A → result B) (l : list A) : result (list B) :=
  match l with
  | [] => Ok []
  | x :: rest => b ← f x; bs ← map_res f rest; Ok (b :: bs)
  end.

Definition hydrate_revisions (references : list ContractRef) (s : CatalogDB)
    : result (list AuthoringRevision) :=
  map_res (λ reference, hydrate_revision reference s) references.

Definition validate_decision_row (row : ContractDecisionRow) : result RevisionDecisionRecord :=
  let decision := drow_record row in
  raise_when (decision_digest decision !=b drow_decision_digest row
      || dec_decision decision !=b drow_decision row
      || authority_kind (dec_authority decision) !=b drow_actor_type row)
    (ValueError "stored contract decision digest mismatch");;
  Ok decision.

(** [where(decision_digest == digest)]. *)
Definition decision_by_digest (digest : string) (s : CatalogDB) : option ContractDecisionRow :=
  find_first (λ r, drow_decision_digest r ==b digest) (cdb_decisions (cat_contracts s)).

Definition hydrate_bound_decision (binding : VerifiedDecisionBinding) (s : CatalogDB)
    : result RevisionDecisionRecord :=
  row ← require (decision_by_digest (vb_decision_digest binding) s)
    (ValueError "verified trust references an unknown decision");
  decision ← validate_decision_row row;
  raise_when (dec_revision_ref decision !=b vb_revision_ref binding)
    (ValueError "verified trust decision binding was swapped");;
  Ok decision.

Definition hydrate_bound_decisions (record : ExecutionTrustRecord) (s : CatalogDB)
    : result (list RevisionDecisionRecord) :=
  map_res (λ binding, hydrate_bound_decision binding s) (trust_verified_decisions record).

Fixpoint check_bound (bindings : list VerifiedDecisionBinding)
    (decisions : list RevisionDecisionRecord) : result unit :=
  match bindings, decisions with
  | binding :: bs, decision :: ds =>
      raise_when (dec_revision_ref decision !=b vb_revision_ref binding
          || decision_digest decision !=b vb_decision_digest binding
          || dec_decision decision !=b Accepted
          || authority_kind (dec_authority decision) !=b "verified_human")
        (ValueError "verified execution trust binding does not match its human decision");;
      check_bound bs ds
  | _, _ => Ok tt
  end.

Definition validate_bound_decisions (record : ExecutionTrustRecord)
    (decisions : list RevisionDecisionRecord) : result unit :=
  raise_when (negb (length decisions =? length (trust_verified_decisions record))%nat)
    (ValueError "verified execution trust decision count is incomplete");;
  check_bound (trust_verified_decisions record) decisions.

Definition validate_verified_record (record : ExecutionTrustRecord) (verify_attestation : bool)
    (s : CatalogDB) : result unit :=
  match trust_kind record with
  | UnverifiedRevisionSet => Ok tt
  | VerifiedRevisionSet =>
      decisions ← hydrate_bound_decisions record s;
      if verify_attestation then validate_verified_trust verify record decisions
      else validate_bound_decisions record decisions
  end.

Definition validate_hydrated_lineage (record : ExecutionTrustRecord) (s : CatalogDB) : result unit :=
  raise_when (negb (project_exists (trust_project_id record) s))
    (ValueError "execution trust Project does not exist");;
  run_spec ← hydrate_run_spec (trust_run_spec_digest record) s;
  revisions ← hydrate_revisions (trust_revision_refs record) s;
  validate_execution_trust_lineage record run_spec revisions;;
  Ok tt.

Definition validate_record_row (row : ExecutionTrustRecordRow) : result ExecutionTrustRecord :=
  let record := trow_record row in
  raise_when (trust_digest record !=b trow_digest row
      || semantic_identity_digest record !=b trow_semantic_digest row
      || trust_trust_id record !=b trow_id row)
    (ValueError "stored execution trust digest mismatch");;
  Ok record.

Definition validate_target_row (row : ExecutionReviewTargetRow) : result ReviewTarget :=
  raise_when (review_target_digest (tgt_target row) !=b tgt_digest row)
    (ValueError "stored ReviewTarget digest mismatch");;
  Ok (tgt_target row).

(** ** Trust records *)

Definition trust_row (id : string) (s : CatalogDB) : option ExecutionTrustRecordRow :=
  find_first (λ r, trow_id r ==b id) (cat_trust s).

Definition save_record (record : ExecutionTrustRecord) (s : CatalogDB)
    : result (ExecutionTrustRecordRow * CatalogDB) :=
  match find_first (λ r, trow_semantic_digest r ==b semantic_identity_digest record) (cat_trust s) with
  | Some existing =>
      stored ← validate_record_row existing;
      validate_hydrated_lineage stored s;;
      validate_verified_record stored false s;;
      Ok (existing, s)
  | None =>
      raise_when (match trust_row (trust_trust_id record) s with Some _ => true | None => false end)
        (ValueError "execution trust id already has different content");;
      validate_hydrated_lineage record s;;
      validate_verified_record record true s;;
      let row := MkTrustRow (trust_trust_id record) (trust_kind record) (trust_project_id record)
        (cr_logical_id (trust_study_ref record)) (trust_revision_set_digest record)
        (trust_run_spec_digest record) record (trust_digest record)
        (semantic_identity_digest record) (trust_created_at_utc record) in
      raise_when (existsb (λ r, trow_digest r ==b trust_digest record) (cat_trust s))
        (IntegrityError "execution_trust_records");;
      Ok (row, MkCatalogDB (cat_workspaces s) (cat_projects s) (cat_contracts s) (cat_run_specs s)
                 (cat_trust s ++ [row]) (cat_targets s) (cat_admissions s))
  end.

Definition get_record (trust_id : string) (s : CatalogDB) : result ExecutionTrustRecord :=
  row ← require (trust_row trust_id s) (KeyError trust_id);
  record ← validate_record_row row;
  validate_hydrated_lineage record s;;
  validate_verified_record record false s;;
  Ok record.

Definition get_verified_decisions (record : ExecutionTrustRecord) (s : CatalogDB)
    : result (list RevisionDecisionRecord) :=
  match trust_kind record with
  | UnverifiedRevisionSet => Ok []
  | VerifiedRevisionSet =>
      decisions ← hydrate_bound_decisions record s;
      validate_bound_decisions record decisions;;
      Ok decisions
  end.

(** One reference of [verified_decisions_for]: [None] when it has no current human
    acceptance. *)
Definition verified_decision_for (reference : ContractRef) (s : CatalogDB)
    : result (option RevisionDecisionRecord) :=
  revision ← require (revision_row (identity_key reference) (cat_contracts s))
    (ValueError "verified trust references an unknown revision");
  raise_when (crow_digest revision !=b cr_digest reference)
    (ValueError "verified trust references an unknown revision");;
  match latest_decision (crow_id revision) (cat_contracts s) with
  | None => Ok None
  | Some row =>
      if (drow_decision row !=b Accepted) || (drow_actor_type row !=b "verified_human") then Ok None
      else
        decision ← validate_decision_row row;
        raise_when (dec_revision_ref decision !=b reference || dec_decision decision !=b Accepted)
          (ValueError "stored human decision does not cover the exact revision");;
        match dec_authority decision with
        | RepositoryFixture _ => Raise (ValueError "stored human decision authority was swapped")
        | VerifiedHuman _ attestation =>
            verify attestation (decision_subject_digest decision);;
            Ok (Some decision)
        end
  end.

Fixpoint verified_decisions_for (references : list ContractRef) (s : CatalogDB)
    : result (option (list RevisionDecisionRecord)) :=
  match references with
  | [] => Ok (Some [])
  | reference :: rest =>
      o ← verified_decision_for reference s;
      match o with
      | None => Ok None
      | Some decision =>
          os ← verified_decisions_for rest s;
          Ok (option_map (cons decision) os)
      end
  end.

(** ** Review targets *)

Definition target_row (digest : string) (s : CatalogDB) : option ExecutionReviewTargetRow :=
  find_first (λ r, tgt_digest r ==b digest) (cat_targets s).

Definition save_review_target (target : ReviewTarget) (now : instant) (s : CatalogDB)
    : result (ExecutionReviewTargetRow * CatalogDB) :=
  let digest := review_target_digest target in
  match target_row digest s with
  | Some existing => validate_target_row existing;; Ok (existing, s)
  | None =>
      raise_when (negb (project_exists (rt_project_id target) s))
        (ValueError "ReviewTarget Project does not exist");;
      run_specs ← map_res (λ d, hydrate_run_spec d s) (rt_run_spec_digests target);
      records ← map_res validate_record_row
        (List.filter (λ r, (trow_project_id r ==b rt_project_id target)
            && (trow_revision_set_digest r ==b rt_revision_set_digest target)) (cat_trust s));
      root ← require (head records) (ValueError "ReviewTarget requires execution trust records");
      map_res (λ record, validate_verified_record record false s) records;;
      revisions ← hydrate_revisions (trust_revision_refs root) s;
      validate_review_target_lineage target records run_specs revisions;;
      let row := MkTargetRow digest (rt_project_id target) (rt_revision_set_digest target) target now in
      Ok (row, MkCatalogDB (cat_workspaces s) (cat_projects s) (cat_contracts s) (cat_run_specs s)
                 (cat_trust s) (cat_targets s ++ [row]) (cat_admissions s))
  end.

Definition get_review_target (digest : string) (s : CatalogDB) : result ReviewTarget :=
  row ← require (target_row digest s) (KeyError digest);
  validate_target_row row.

(** [order_by(created_at, id)]. *)
Definition trow_leb (a b : ExecutionTrustRecordRow) : bool :=
  if decide (trow_created_at a = trow_created_at b) then String.leb (trow_id a) (trow_id b)
  else (trow_created_at a <? trow_created_at b)%Z.

Record ExecutionReviewMaterial := MkReviewMaterial {
  rm_target : ReviewTarget;
  rm_revisions : list AuthoringRevision;
  rm_run_specs : list RunSpec;
  rm_trust_records : list ExecutionTrustRecord
}.

(** The first record of each RunSpec digest is the one in use ([setdefault]). *)
Definition get_review_material (digest : string) (s : CatalogDB) : result ExecutionReviewMaterial :=
  row ← require (target_row digest s) (KeyError digest);
  target ← validate_target_row row;
  let rows := sort_by trow_leb
    (List.filter (λ r, (trow_project_id r ==b rt_project_id target)
       && (trow_revision_set_digest r ==b rt_revision_set_digest target)
       && (trow_run_spec_digest r ∈b rt_run_spec_digests target)) (cat_trust s)) in
  candidates ← map_res (λ r, record ← validate_record_row r;
                             validate_verified_record record false s;; Ok record) rows;
  records ← map_res (λ d, require (find_first (λ r, trust_run_spec_digest r ==b d) candidates)
      (ValueError "ReviewTarget trust records do not cover its RunSpecs"))
    (rt_run_spec_digests target);
  root ← require (head records) (ValueError "tuple index out of range");
  revisions ← hydrate_revisions (trust_revision_refs root) s;
  run_specs ← map_res (λ d, hydrate_run_spec d s) (rt_run_spec_digests target);
  validate_review_target_lineage target records run_specs revisions;;
  Ok (MkReviewMaterial target revisions run_specs records).

(** ** Admission records *)

Definition provider_resolution_matches (run_spec : RunSpec) (record : AdmissionRecord) : bool :=
  let requested := inv_provider_profile_id (spec_agent_inventory run_spec) in
  let resolved := ri_provider_profile_id (adm_resolved_inventory record) in
  if decide (resolved = requested) then true
  else match requested with
  | None => false
  | Some profile =>
      (resolved ==b None) && (adm_decision record ==b AdmissionRejected)
      && (("provider:" +:+ profile) ∈b adm_missing_requirements record)
      && existsb (λ item, ai_blocking item && (ai_category item ==b CatProvider)
                          && (ai_subject_ref item ==b profile)
                          && (rs_code (ai_reason item) ==b RUnavailable)) (adm_issues record)
  end.

Definition check_resolution (requirement : CapabilityRequirement) (resolved : ResolvedCapability)
    : result unit :=
  raise_when (rc_kind resolved !=b rq_kind requirement
      || rc_requested_ref resolved !=b rq_capability_ref requirement
      || rc_required resolved !=b rq_required requirement
      || rc_exposure resolved !=b rq_exposure requirement)
    (ValueError "admission capability does not match its RunSpec requirement");;
  raise_when (negb (subset_of (rc_effective_permissions resolved) (rq_requested_permissions requirement)))
    (ValueError "admission capability escalates requested permissions");;
  raise_when (negb (subset_of (rc_satisfied_authority_constraints resolved)
                      (rq_authority_constraints requirement)))
    (ValueError "admission capability substitutes authority constraints");;
  raise_when ((rc_status resolved ==b Resolved)
      && (rc_resolved_ref resolved !=b Some (rq_capability_ref requirement)
          || rc_context_refs resolved !=b
               (if rq_exposure requirement ∈b [Instructions; InstructionsAndSchema]
                then rq_instruction_refs requirement else [])
          || rc_effective_interface_version resolved !=b Some (rq_minimum_interface_version requirement)
          || negb (same_set (rc_satisfied_authority_constraints resolved)
                     (rq_authority_constraints requirement))))
    (ValueError "admission capability does not satisfy its interface or authority contract").

Fixpoint check_resolutions (requirements : list CapabilityRequirement)
    (resolved : list ResolvedCapability) : result unit :=
  match requirements, resolved with
  | q :: qs, c :: cs => check_resolution q c;; check_resolutions qs cs
  | _, _ => Ok tt
  end.

Definition check_admission_inventory (run_spec : RunSpec) (record : AdmissionRecord) : result unit :=
  let inventory := adm_resolved_inventory record in
  raise_when (ri_requirement_ref inventory !=b spec_agent_inventory_ref run_spec
      || ri_runner_ref inventory !=b inv_runner_ref (spec_agent_inventory run_spec)
      || negb (provider_resolution_matches run_spec record))
    (ValueError "admission inventory does not match the RunSpec requirements");;
  let requirements := inv_capability_requirements (spec_agent_inventory run_spec) in
  raise_when (negb (length (ri_capabilities inventory) =? length requirements)%nat)
    (ValueError "admission must resolve every requested capability exactly once");;
  check_resolutions requirements (ri_capabilities inventory).

Definition save_admission_record (run_spec_id : string) (record : AdmissionRecord) (id : string)
    (s : CatalogDB) : result (AdmissionRecordRow * CatalogDB) :=
  spec ← require (find_first (λ r, rsp_id r ==b run_spec_id) (cat_run_specs s))
    (KeyError ("RunSpec not found: " +:+ run_spec_id));
  raise_when (rsp_digest spec !=b adm_run_spec_digest record)
    (ValueError "admission digest does not match its RunSpec");;
  reference ← require (adm_execution_trust record)
    (ValueError "new AdmissionRecord requires execution trust");
  row ← require (trust_row (tr_trust_id reference) s) (ValueError "execution trust does not exist");
  let trust := trow_record row in
  raise_when (trust_digest trust !=b trow_digest row || trust_ref trust !=b reference
      || trust_run_spec_digest trust !=b rsp_digest spec)
    (ValueError "admission execution trust does not match its RunSpec");;
  check_admission_inventory (rsp_spec spec) record;;
  match find_first (λ r, (arow_run_spec_id r ==b run_spec_id)
                         && (arow_digest r ==b admission_digest record)) (cat_admissions s) with
  | Some existing =>
      raise_when (arow_execution_trust_id existing !=b Some (trust_trust_id trust)
          || arow_execution_trust_digest existing !=b Some (trust_digest trust))
        (ValueError "stored admission execution trust mismatch");;
      Ok (existing, s)
  | None =>
      let row := MkAdmissionRow id run_spec_id (adm_decision record) record (admission_digest record)
        (Some (trust_trust_id trust)) (Some (trust_digest trust)) (adm_created_at_utc record) in
      raise_when (existsb (λ r, arow_id r ==b id) (cat_admissions s)) (IntegrityError "admission_records");;
      Ok (row, MkCatalogDB (cat_workspaces s) (cat_projects s) (cat_contracts s) (cat_run_specs s)
                 (cat_trust s) (cat_targets s) (cat_admissions s ++ [row]))
  end.

End catalog.
