(* ===== verification/CatalogInv.v ===== *)
(** * What the catalog guarantees

    The invariants of the catalog and trust tables over every sequence of operations. The
    central fact is monotonicity: nothing a trust record was checked against is ever
    changed, so a stored record stays valid, and every stored admission can be traced to
    the revisions its RunSpec was compiled from. *)

From S2P Require Import Prelude PyText PyJson Base Authoring Runtime Triage Trust Samples Registry Compiler Sealing ContractStore ContractInv Store Catalog.

Section inv.
Context `{PyRuntime} `{RevisionModels} `{UnicodeTables}.
Variable verify : HumanAttestationRecord → string → result unit.

(** ** Steps *)

Inductive catalog_command :=
  | CreateWorkspace (name id : string) (now : instant)
  | CreateProjectIn (workspace_id name id : string) (now : instant)
  | RegisterRevision (revision : AuthoringRevision) (status id : string) (now : instant)
  | DecideRevision (decision : RevisionDecisionRecord) (fixture : option string) (id : string)
  | SaveRunSpec (spec : RunSpec) (id : string) (now : instant)
  | SaveTrust (record : ExecutionTrustRecord)
  | SaveTarget (target : ReviewTarget) (now : instant)
  | SaveAdmission (run_spec_id : string) (record : AdmissionRecord) (id : string).

Definition with_contracts (s : CatalogDB) (c : ContractDB) : CatalogDB :=
  MkCatalogDB (cat_workspaces s) (cat_projects s) c (cat_run_specs s) (cat_trust s) (cat_targets s)
    (cat_admissions s).

Definition catalog_exec (c : catalog_command) (s : CatalogDB) : result CatalogDB :=
  match c with
  | CreateWorkspace name id now => snd <$> create_workspace name id now s
  | CreateProjectIn w name id now => snd <$> create_project w name id now s
  | RegisterRevision r status id now =>
      with_contracts s <$> contract_exec verify (SaveRevision r status id now) (cat_contracts s)
  | DecideRevision d fixture id =>
      with_contracts s <$> contract_exec verify (PersistDecision d fixture id) (cat_contracts s)
  | SaveRunSpec spec id now => snd <$> save_run_spec spec id now s
  | SaveTrust record => snd <$> save_record verify record s
  | SaveTarget target now => snd <$> save_review_target verify target now s
  | SaveAdmission run_spec_id record id => snd <$> save_admission_record run_spec_id record id s
  end.

(** Documents reach the stores as validated models. *)
Definition catalog_command_ok (c : catalog_command) : Prop :=
  match c with
  | RegisterRevision r _ _ _ => reparses r
  | SaveTrust record => validate_revision_set_and_binding_coverage record = Ok tt
  | _ => True
  end.

Definition catalog_step (s s' : CatalogDB) : Prop :=
  ∃ c, catalog_command_ok c ∧ catalog_exec c s = Ok s'.

(** ** Growth *)

(** A stored revision keeps its identity, its Project and its document. *)
Definition same_revision (row row' : ContractRevisionRow) : Prop :=
  crow_document row' = crow_document row ∧ crow_digest row' = crow_digest row
  ∧ crow_contract_type row' = crow_contract_type row ∧ crow_project_id row' = crow_project_id row.

Definition revision_by_id (id : string) (c : ContractDB) : option ContractRevisionRow :=
  find_first (λ row, crow_id row ==b id) (cdb_revisions c).

Record revisions_kept (c c' : ContractDB) : Prop := {
  rk_key : ∀ k row, revision_row k c = Some row →
    ∃ row', revision_row k c' = Some row' ∧ same_revision row row';
  rk_id : ∀ id row, revision_by_id id c = Some row →
    ∃ row', revision_by_id id c' = Some row' ∧ same_revision row row'
}.

#[export] Instance revisions_kept_preorder : PreOrder revisions_kept.
Proof.
  split.
  - intros c. split; intros ? row Hr; exists row; done.
  - intros a b c [K1 I1] [K2 I2]. split; intros k row Hr.
    + destruct (K1 _ _ Hr) as (r1 & Hr1 & E1). destruct (K2 _ _ Hr1) as (r2 & Hr2 & E2).
      exists r2. unfold same_revision in *. split; [done|intuition congruence].
    + destruct (I1 _ _ Hr) as (r1 & Hr1 & E1). destruct (I2 _ _ Hr1) as (r2 & Hr2 & E2).
      exists r2. unfold same_revision in *. split; [done|intuition congruence].
Qed.

(** Every table only grows. *)
Record grows (s s' : CatalogDB) : Prop := {
  gr_workspaces : cat_workspaces s `prefix_of` cat_workspaces s';
  gr_projects : cat_projects s `prefix_of` cat_projects s';
  gr_specs : cat_run_specs s `prefix_of` cat_run_specs s';
  gr_trust : cat_trust s `prefix_of` cat_trust s';
  gr_targets : cat_targets s `prefix_of` cat_targets s';
  gr_admissions : cat_admissions s `prefix_of` cat_admissions s';
  gr_decisions : cdb_decisions (cat_contracts s) `prefix_of` cdb_decisions (cat_contracts s');
  gr_revisions : revisions_kept (cat_contracts s) (cat_contracts s')
}.

#[export] Instance grows_preorder : PreOrder grows.
Proof.
  split; [by intros s; split|].
  intros a b c Hab Hbc. split; etrans; apply Hab || apply Hbc.
Qed.

Lemma find_first_prefix {A} (p : A → bool) l k x :
  l `prefix_of` k → find_first p l = Some x → find_first p k = Some x.
Proof. intros [k' ->] Hl. by rewrite find_first_app, Hl. Qed.

Lemma existsb_prefix {A} (p : A → bool) l k :
  l `prefix_of` k → existsb p l = true → existsb p k = true.
Proof. intros [k' ->] Hl. by rewrite existsb_app, Hl. Qed.

Lemma find_first_restatus (p : ContractRevisionRow → bool) id status l :
  (∀ row, p (restatus id status row) = p row) →
  find_first p (map (restatus id status) l) = restatus id status <$> find_first p l.
Proof.
  intros Hp. induction l as [|row l IH]; [done|]. cbn. rewrite Hp. by destruct (p row).
Qed.

Lemma restatus_same_revision id status row : same_revision row (restatus id status row).
Proof. unfold same_revision, restatus. by case_decide. Qed.

Lemma set_status_kept id status c : revisions_kept c (set_status id status c).
Proof.
  split; intros k row Hr; exists (restatus id status row);
    (split; [|apply restatus_same_revision]); unfold revision_row, revision_by_id in *; cbn;
    rewrite find_first_restatus, Hr; try done;
    intros r; destruct (restatus_same id status r) as (E1 & E2 & _); cbn; by rewrite ?E1, ?E2.
Qed.

Lemma appended_kept c row decisions :
  revisions_kept c (MkContractDB (cdb_projects c) (cdb_revisions c ++ [row]) decisions).
Proof.
  split; intros k r Hr; exists r; (split; [|done]); unfold revision_row, revision_by_id in *; cbn;
    by rewrite find_first_app, Hr.
Qed.

Lemma contract_step_grows c s s' :
  contract_exec verify c (cat_contracts s) = Ok s' →
  cdb_decisions (cat_contracts s) `prefix_of` cdb_decisions s' ∧ revisions_kept (cat_contracts s) s'.
Proof.
  set (d := cat_contracts s).
  destruct c as [p|r status id now|x fixture id]; cbn; intros Hx; inv_ok; cbn.
  - split; [done|]. by split; intros ? row ?; exists row.
  - match goal with E : save_contract_revision _ _ _ _ _ = Ok ?p |- _ => destruct p as [row s1];
      apply save_cases in E as [_ [(ex & _ & _ & [->|(_ & _ & ->)])|(Hn & Hm & Hc & -> & ->)]] end; cbn.
    + done.
    + split; [done|]. apply set_status_kept.
    + split; [done|]. apply appended_kept.
  - match goal with E : persist_contract_decision _ _ _ _ _ = Ok ?p |- _ => destruct p as [row s1];
      apply persist_cases in E as (rev & Hr & Hd & Ha & [(-> & _)|(_ & -> & _ & ->)]) end; cbn.
    + done.
    + split; [by apply prefix_app_r|]. destruct (set_status_kept (crow_id rev) (Decision3_value (dec_decision x)) d).
      by split.
Qed.

Lemma grows_contracts s c :
  cdb_decisions (cat_contracts s) `prefix_of` cdb_decisions c →
  revisions_kept (cat_contracts s) c → grows s (with_contracts s c).
Proof. intros Hd Hr. by split; cbn. Qed.

Ltac grown := split; cbn; try done; try (by apply prefix_app_r);
  try (split; intros ? ? ?; eexists; by split).

Lemma catalog_step_grows s s' : catalog_step s s' → grows s s'.
Proof.
  intros (c & _ & Hx).
  destruct c; cbn [catalog_exec] in Hx; inv_ok;
    try (match goal with E : contract_exec _ _ _ = Ok _ |- _ =>
      apply contract_step_grows in E as [? ?]; by apply grows_contracts end);
    match goal with E : _ = Ok ?p |- _ => destruct p as [row s1]; rename E into Hop end; cbn.
  - unfold create_workspace in Hop. destruct (normalize_scope_name name) as [[d k]|]; [|done].
    destruct (existsb _ _); [by destruct (existsb _ _)|]. inv_ok. grown.
  - unfold create_project in Hop. destruct (normalize_scope_name name) as [[d k]|]; [|done].
    apply bind_ok in Hop as (u & _ & Hop). destruct (existsb _ _); [by destruct (existsb _ _)|].
    inv_ok. grown.
  - unfold save_run_spec in Hop. destruct (spec_row _ s); inv_ok; grown.
  - unfold save_record in Hop. destruct (find_first _ _); inv_ok; grown.
  - unfold save_review_target in Hop. destruct (target_row _ s); inv_ok; grown.
  - unfold save_admission_record in Hop. inv_ok. destruct (find_first _ (cat_admissions s)); inv_ok; grown.
Qed.

(** ** What was hydrated once is hydrated again *)

Lemma map_res_mono {A B} (f g : A → result B) l bs :
  (∀ x b, f x = Ok b → g x = Ok b) → map_res f l = Ok bs → map_res g l = Ok bs.
Proof.
  intros Hfg. revert bs. induction l as [|x l IH]; intros bs Hm; cbn in *; [done|]. inv_ok.
  erewrite Hfg by done. cbn. erewrite IH by done. done.
Qed.

Lemma map_res_elem {A B} (f : A → result B) l bs x :
  map_res f l = Ok bs → x ∈ l → ∃ b, f x = Ok b ∧ b ∈ bs.
Proof.
  revert bs. induction l as [|y l IH]; intros bs Hm Hx; [by apply elem_of_nil in Hx|]. cbn in Hm. inv_ok.
  apply elem_of_cons in Hx as [->|Hx]; [eexists; split; [done|left]|].
  match goal with E : map_res f l = Ok _ |- _ => destruct (IH _ E Hx) as (b & ? & ?) end.
  exists b. split; [done|by right].
Qed.

Section growth.
Context (s s' : CatalogDB) (Hg : grows s s').

Lemma hydrate_run_spec_mono digest spec :
  hydrate_run_spec digest s = Ok spec → hydrate_run_spec digest s' = Ok spec.
Proof.
  unfold hydrate_run_spec, spec_row. intros Hh. apply bind_ok in Hh as (row & Hr & Hh).
  apply require_ok in Hr. by rewrite (find_first_prefix _ _ _ _ (gr_specs _ _ Hg) Hr).
Qed.

Lemma hydrate_revision_mono reference r :
  hydrate_revision reference s = Ok r → hydrate_revision reference s' = Ok r.
Proof.
  unfold hydrate_revision. intros Hh. apply bind_ok in Hh as (row & Hr & Hh). apply require_ok in Hr.
  destruct (rk_key _ _ (gr_revisions _ _ Hg) _ _ Hr) as (row' & -> & Ed & Edg & _). cbn. by rewrite Ed, Edg.
Qed.

Lemma hydrate_bound_decision_mono binding d :
  hydrate_bound_decision binding s = Ok d → hydrate_bound_decision binding s' = Ok d.
Proof.
  unfold hydrate_bound_decision, decision_by_digest. intros Hh. apply bind_ok in Hh as (row & Hr & Hh).
  apply require_ok in Hr. by rewrite (find_first_prefix _ _ _ _ (gr_decisions _ _ Hg) Hr).
Qed.

Lemma hydrate_bound_decisions_mono record ds :
  hydrate_bound_decisions record s = Ok ds → hydrate_bound_decisions record s' = Ok ds.
Proof. apply map_res_mono, hydrate_bound_decision_mono. Qed.

Lemma hydrate_revisions_mono refs rs :
  hydrate_revisions refs s = Ok rs → hydrate_revisions refs s' = Ok rs.
Proof. apply map_res_mono, hydrate_revision_mono. Qed.

Lemma lineage_mono record :
  validate_hydrated_lineage record s = Ok tt → validate_hydrated_lineage record s' = Ok tt.
Proof.
  unfold validate_hydrated_lineage. intros Hv. apply bind_ok in Hv as (u & Hp & Hv).
  apply raise_when_ok in Hp. bools.
  rewrite (existsb_prefix _ _ _ (gr_projects _ _ Hg) Hp : project_exists _ s' = true). cbn.
  apply bind_ok in Hv as (spec & Hs & Hv). rewrite (hydrate_run_spec_mono _ _ Hs). cbn.
  apply bind_ok in Hv as (rs & Hr & Hv). by rewrite (hydrate_revisions_mono _ _ Hr).
Qed.

Lemma verified_record_mono record b :
  validate_verified_record verify record b s = Ok tt → validate_verified_record verify record b s' = Ok tt.
Proof.
  unfold validate_verified_record. destruct (trust_kind record); [done|]. intros Hv.
  apply bind_ok in Hv as (ds & Hd & Hv). by rewrite (hydrate_bound_decisions_mono _ _ Hd).
Qed.

End growth.

(** ** The invariant *)

Lemma check_bound_of_verified bindings decisions :
  verify_bindings verify bindings decisions = Ok tt → check_bound bindings decisions = Ok tt.
Proof.
  revert decisions. induction bindings as [|b bs IH]; intros [|d ds] Hv; try done. cbn in *.
  apply bind_ok in Hv as (u & Hm & Hv). apply raise_when_ok in Hm.
  apply bind_ok in Hv as (u' & Ha & Hv). rewrite Hm. cbn.
  destruct (dec_authority d) as [p att|f] eqn:Ea; [|done]. cbn. by apply IH.
Qed.

(** Verification at the time of writing implies the check at the time of reading. *)
Lemma verified_record_weaken record s :
  validate_verified_record verify record true s = Ok tt →
  validate_verified_record verify record false s = Ok tt.
Proof.
  unfold validate_verified_record. destruct (trust_kind record) eqn:Ek; [done|]. intros Hv.
  apply bind_ok in Hv as (ds & Hd & Hv). rewrite Hd. cbn.
  unfold validate_verified_trust in Hv. apply bind_ok in Hv as (u0 & _ & Hv).
  unfold validate_bound_decisions. apply bind_ok in Hv as (u & Hl & Hv).
  apply raise_when_ok in Hl. rewrite Hl. cbn. by apply check_bound_of_verified.
Qed.

(** A stored trust record: its row, its lineage and its decisions. *)
Definition trust_sound (s : CatalogDB) (row : ExecutionTrustRecordRow) : Prop :=
  let record := trow_record row in
  trow_id row = trust_trust_id record ∧ trow_digest row = trust_digest record
  ∧ trow_semantic_digest row = semantic_identity_digest record
  ∧ validate_revision_set_and_binding_coverage record = Ok tt
  ∧ validate_hydrated_lineage record s = Ok tt
  ∧ validate_verified_record verify record true s = Ok tt.

(** A stored admission: the RunSpec and the trust record it was checked against. *)
Definition admission_sound (s : CatalogDB) (row : AdmissionRecordRow) : Prop :=
  let record := arow_record row in
  ∃ spec trust, spec ∈ cat_run_specs s ∧ trust ∈ cat_trust s
    ∧ rsp_id spec = arow_run_spec_id row ∧ rsp_digest spec = adm_run_spec_digest record
    ∧ adm_execution_trust record = Some (trust_ref (trow_record trust))
    ∧ trust_run_spec_digest (trow_record trust) = rsp_digest spec
    ∧ arow_execution_trust_id row = Some (trow_id trust)
    ∧ arow_execution_trust_digest row = Some (trust_digest (trow_record trust))
    ∧ check_admission_inventory (rsp_spec spec) record = Ok tt.

Record catalog_inv (s : CatalogDB) : Prop := {
  ca_contracts : contract_inv verify (cat_contracts s);
  ca_spec_digests : ∀ row, row ∈ cat_run_specs s → rsp_digest row = spec_digest (rsp_spec row);
  ca_spec_unique : NoDup (map rsp_digest (cat_run_specs s));
  ca_trust_unique : NoDup (map trow_id (cat_trust s));
  ca_trust : ∀ row, row ∈ cat_trust s → trust_sound s row;
  ca_admissions : ∀ row, row ∈ cat_admissions s → admission_sound s row;
  ca_workspace_names : NoDup (map wsp_name_key (cat_workspaces s));
  ca_project_names : NoDup (map (λ p, (prj_workspace_id p, prj_name_key p)) (cat_projects s))
}.

Lemma catalog_inv_empty : catalog_inv empty_catalog.
Proof.
  split; cbn; try apply NoDup_nil_2; try apply contract_inv_empty;
    intros ? Hin; by apply elem_of_nil in Hin.
Qed.

Lemma trust_sound_mono s s' row : grows s s' → trust_sound s row → trust_sound s' row.
Proof.
  intros Hg (? & ? & ? & ? & ? & ?). split_and!; [done..|by eapply lineage_mono|by eapply verified_record_mono].
Qed.

Lemma admission_sound_mono s s' row : grows s s' → admission_sound s row → admission_sound s' row.
Proof.
  intros Hg (spec & trust & Hs & Ht & Hrest). exists spec, trust.
  split; [by eapply elem_of_prefix; [|apply gr_specs]|].
  split; [by eapply elem_of_prefix; [|apply gr_trust]|done].
Qed.

Lemma NoDup_snoc_map {A B} (f : A → B) l x :
  NoDup (map f l) → (∀ y, y ∈ l → f y ≠ f x) → NoDup (map f (l ++ [x])).
Proof.
  intros Hn Hx. rewrite map_app. apply NoDup_app. split_and!; [done| |apply NoDup_singleton].
  intros k (y & -> & Hy)%list_elem_of_fmap Hk%list_elem_of_singleton. by apply (Hx y).
Qed.

(** A step that leaves specs, trust and admissions: everything is kept. *)
Lemma catalog_inv_others s s' :
  catalog_inv s → grows s s' → contract_inv verify (cat_contracts s') →
  cat_run_specs s' = cat_run_specs s → cat_trust s' = cat_trust s →
  cat_admissions s' = cat_admissions s →
  NoDup (map wsp_name_key (cat_workspaces s')) →
  NoDup (map (λ p, (prj_workspace_id p, prj_name_key p)) (cat_projects s')) → catalog_inv s'.
Proof.
  intros Hi Hg Hc Es Et Ea Hw Hp. split; rewrite ?Es, ?Et, ?Ea; try done; try apply Hi.
  - intros row Hr. eapply trust_sound_mono; [done|]. by apply Hi.
  - intros row Hr. eapply admission_sound_mono; [done|]. by apply Hi.
Qed.

Lemma catalog_inv_contracts s c :
  catalog_inv s → grows s (with_contracts s c) → contract_inv verify c → catalog_inv (with_contracts s c).
Proof. intros Hi Hg Hc. by apply (catalog_inv_others s); try done; apply Hi. Qed.

Lemma inv_create_workspace s name id now row s' :
  catalog_inv s → grows s s' → create_workspace name id now s = Ok (row, s') → catalog_inv s'.
Proof.
  intros Hi Hg Hop. unfold create_workspace in Hop.
  destruct (normalize_scope_name name) as [[d k]|]; [|done].
  destruct (existsb _ _) eqn:E; [clear E; by destruct (existsb _ _)|]. inv_ok.
  eapply (catalog_inv_others s); try done; cbn; try apply Hi.
  apply NoDup_snoc_map; [apply Hi|]. intros w Hw. cbn. rewrite existsb_false in E.
  specialize (E _ Hw). by bools.
Qed.

Lemma inv_create_project s w name id now row s' :
  catalog_inv s → grows s s' → create_project w name id now s = Ok (row, s') → catalog_inv s'.
Proof.
  intros Hi Hg Hop. unfold create_project in Hop.
  destruct (normalize_scope_name name) as [[d k]|]; [|done].
  apply bind_ok in Hop as (u & _ & Hop). destruct (existsb _ _) eqn:E; [clear E; by destruct (existsb _ _)|].
  inv_ok. eapply (catalog_inv_others s); try done; cbn; try apply Hi.
  - pose proof (ca_contracts _ Hi) as Hc. split; cbn; try apply Hc.
    intros r Hr. destruct (ci_rows _ _ Hc _ Hr). split; [done|set_solver].
  - apply NoDup_snoc_map; [apply Hi|]. intros p Hp. cbn. rewrite existsb_false in E.
    specialize (E _ Hp). apply orb_false_iff in E as [_ E]. intros [= E1 E2].
    rewrite !bool_decide_eq_true_2 in E by done. done.
Qed.

Lemma inv_save_run_spec s spec id now row s' :
  catalog_inv s → grows s s' → save_run_spec spec id now s = Ok (row, s') → catalog_inv s'.
Proof.
  intros Hi Hg Hop. unfold save_run_spec in Hop. destruct (spec_row _ s) eqn:E; inv_ok; [done|].
  split; cbn; try apply Hi.
  - intros r [Hr| ->%list_elem_of_singleton]%elem_of_app; [by apply Hi|done].
  - apply NoDup_snoc_map; [apply Hi|]. intros r Hr. cbn. unfold spec_row in E.
    rewrite find_first_None in E. specialize (E _ Hr). by bools.
  - intros r Hr. eapply trust_sound_mono; [done|]. by apply Hi.
  - intros r Hr. eapply admission_sound_mono; [done|]. by apply Hi.
Qed.

Lemma inv_save_record s record row s' :
  catalog_inv s → grows s s' → validate_revision_set_and_binding_coverage record = Ok tt →
  save_record verify record s = Ok (row, s') → catalog_inv s'.
Proof.
  intros Hi Hg Hv Hop. unfold save_record in Hop. destruct (find_first _ _); inv_ok; [done|].
  repeat match goal with u : () |- _ => destruct u end.
  split; cbn; try apply Hi.
  - apply NoDup_snoc_map; [apply Hi|]. intros r Hr. cbn. unfold trust_row in *.
    destruct (find_first _ _) eqn:E; [done|]. rewrite find_first_None in E. specialize (E _ Hr). by bools.
  - intros r [Hr| ->%list_elem_of_singleton]%elem_of_app.
    + eapply trust_sound_mono; [done|]. by apply Hi.
    + split_and!; first [done|by eapply lineage_mono|by eapply verified_record_mono].
  - intros r Hr. eapply admission_sound_mono; [done|]. by apply Hi.
Qed.

Lemma inv_save_target s target now row s' :
  catalog_inv s → grows s s' → save_review_target verify target now s = Ok (row, s') → catalog_inv s'.
Proof.
  intros Hi Hg Hop. unfold save_review_target in Hop. destruct (target_row _ s); inv_ok; [done|].
  eapply (catalog_inv_others s); try done; apply Hi.
Qed.

Lemma inv_save_admission s run_spec_id record id row s' :
  catalog_inv s → grows s s' → save_admission_record run_spec_id record id s = Ok (row, s') →
  catalog_inv s'.
Proof.
  intros Hi Hg Hop. unfold save_admission_record in Hop.
  apply bind_ok in Hop as (spec & Hs & Hop). apply require_ok in Hs.
  apply bind_ok in Hop as (u1 & Hd & Hop). apply raise_when_ok in Hd. bools.
  apply bind_ok in Hop as (reference & Href & Hop). apply require_ok in Href.
  apply bind_ok in Hop as (trust & Ht & Hop). apply require_ok in Ht.
  apply bind_ok in Hop as (u2 & Hm & Hop). apply raise_when_ok in Hm. bools.
  apply bind_ok in Hop as ([] & Hinv & Hop).
  destruct (find_first _ (cat_admissions s)); inv_ok; [done|].
  apply find_first_Some in Hs as [Hs Hsid]. apply find_first_Some in Ht as [Ht Htid]. bools.
  split; try apply Hi. cbn. intros r [Hr| ->%list_elem_of_singleton]%elem_of_app.
  - eapply admission_sound_mono; [done|]. by apply Hi.
  - destruct (ca_trust _ Hi _ Ht) as (Eid & _). exists spec, trust.
    split_and!; try done; cbn; congruence.
Qed.

Lemma catalog_inv_step s s' : catalog_inv s → catalog_step s s' → catalog_inv s'.
Proof.
  intros Hi Hstep. pose proof (catalog_step_grows _ _ Hstep) as Hg.
  destruct Hstep as (c & Hok & Hx).
  destruct c as [| |r st i n|d fx i| | | |]; cbn [catalog_exec catalog_command_ok] in Hx, Hok; inv_ok.
  - destruct x. by eapply inv_create_workspace.
  - destruct x. by eapply inv_create_project.
  - apply catalog_inv_contracts; [done..|]. eapply contract_inv_step; [apply Hi|].
    by exists (SaveRevision r st i n).
  - apply catalog_inv_contracts; [done..|]. eapply contract_inv_step; [apply Hi|].
    by exists (PersistDecision d fx i).
  - destruct x. by eapply inv_save_run_spec.
  - destruct x. by eapply inv_save_record.
  - destruct x. by eapply inv_save_target.
  - destruct x. by eapply inv_save_admission.
Qed.

Lemma catalog_inv_steps s s' : catalog_inv s → rtc catalog_step s s' → catalog_inv s'.
Proof. intros Hi Hs. induction Hs; [done|]. eauto using catalog_inv_step. Qed.

Lemma catalog_steps_grow s s' : rtc catalog_step s s' → grows s s'.
Proof. intros Hs. induction Hs as [|a b c Hab _ IH]; [done|]. etrans; [by apply catalog_step_grows|done]. Qed.

End inv.
