(* ===== verification/Provenance.v ===== *)
(** * Where a stored admission comes from

    Theorems about every state the catalog can reach: a trust record that was stored can
    always be read back, and a stored admission is traced to its RunSpec, to the trust
    record that binds it, to the revisions the RunSpec was compiled from, and, where the
    trust is verified, to the human decisions that accepted them. *)

From S2P Require Import Prelude PyText PyJson Base Authoring Runtime Triage Trust Samples Registry Compiler Sealing ContractStore ContractInv Store Catalog CatalogInv.

Lemma trust_row_unique `{PyRuntime} `{RevisionModels} verify s row :
  catalog_inv verify s → row ∈ cat_trust s → trust_row (trow_id row) s = Some row.
Proof.
  intros Hi Hr. unfold trust_row. destruct (find_first _ _) as [row'|] eqn:E.
  - apply find_first_Some in E as [Hr' Hid]. bools. f_equal.
    apply list_elem_of_lookup_1 in Hr as [i Hi1], Hr' as [j Hj].
    assert (i = j) as ->; [|congruence].
    eapply NoDup_lookup; [apply (ca_trust_unique _ _ Hi)| |]; rewrite list_lookup_fmap;
      [by rewrite Hi1|by rewrite Hj; cbn; rewrite Hid].
  - rewrite find_first_None in E. specialize (E _ Hr). by bools.
Qed.

(** A stored row passes every check of a read. *)
Lemma stored_record_valid `{PyRuntime} `{RevisionModels} verify s row :
  catalog_inv verify s → row ∈ cat_trust s →
  validate_record_row row = Ok (trow_record row) ∧ validate_hydrated_lineage (trow_record row) s = Ok tt
  ∧ validate_verified_record verify (trow_record row) false s = Ok tt.
Proof.
  intros Hi Hr. destruct (ca_trust _ _ Hi _ Hr) as (E1 & E2 & E3 & _ & Hl & Hv).
  split_and!; [|done|by apply (verified_record_weaken verify)].
  unfold validate_record_row. by rewrite E1, E2, E3, !bool_decide_eq_true_2.
Qed.

Lemma stored_record_read `{PyRuntime} `{RevisionModels} verify s row :
  catalog_inv verify s → row ∈ cat_trust s → get_record verify (trow_id row) s = Ok (trow_record row).
Proof.
  intros Hi Hr. destruct (stored_record_valid verify s row Hi Hr) as (E1 & E2 & E3).
  unfold get_record. rewrite (trust_row_unique verify) by done. cbn [require mbind result_bind].
  rewrite E1. cbn [mbind result_bind]. rewrite E2. cbn [mbind result_bind]. by rewrite E3.
Qed.

(** A trust record that was stored can be read back in every later state, unchanged:
    the Project, RunSpec, revisions and decisions it was checked against are never changed
    or removed, so its lineage keeps validating. *)
Theorem trust_record_durable `{PyRuntime} `{RevisionModels} `{UnicodeTables} verify s s' row :
  rtc (catalog_step verify) empty_catalog s → row ∈ cat_trust s → rtc (catalog_step verify) s s' →
  get_record verify (trow_id row) s' = Ok (trow_record row).
Proof.
  intros Hs Hr Hs'. apply stored_record_read.
  - eapply catalog_inv_steps, Hs'. by eapply catalog_inv_steps, Hs; apply catalog_inv_empty.
  - eapply elem_of_prefix; [exact Hr|]. by apply gr_trust, (catalog_steps_grow verify).
Qed.

(** The RunSpec a lineage was checked for is the stored one, and one of the recompiled. *)
Lemma lineage_recompiles `{PyRuntime} `{RevisionModels} verify s record spec :
  catalog_inv verify s → validate_hydrated_lineage record s = Ok tt →
  spec ∈ cat_run_specs s → trust_run_spec_digest record = rsp_digest spec →
  ∃ revisions specs, hydrate_revisions (trust_revision_refs record) s = Ok revisions
    ∧ compile_execution_revision_set (trust_revision_set record) revisions = Ok specs
    ∧ rsp_spec spec ∈ specs.
Proof.
  intros Hi Hv Hspec Hd. unfold validate_hydrated_lineage in Hv.
  apply bind_ok in Hv as (u & _ & Hv). apply bind_ok in Hv as (rs & Hrs & Hv).
  apply bind_ok in Hv as (revisions & Hrev & Hv). apply bind_ok in Hv as (specs & Hl & _).
  assert (Ers : rs = rsp_spec spec).
  { unfold hydrate_run_spec, spec_row in Hrs. apply bind_ok in Hrs as (row & Hrow & Hrs).
    apply require_ok, find_first_Some in Hrow as [Hrow Hrd]. inv_ok. bools.
    apply list_elem_of_lookup_1 in Hrow as [i Hi1], Hspec as [j Hj].
    assert (i = j) as ->; [|congruence].
    eapply NoDup_lookup; [apply (ca_spec_unique _ _ Hi)| |]; rewrite list_lookup_fmap;
      [by rewrite Hi1|by rewrite Hj; cbn; rewrite Hrd, Hd]. }
  subst rs. exists revisions, specs. split; [done|].
  unfold validate_execution_trust_lineage in Hl. apply bind_ok in Hl as (u' & _ & Hl).
  apply bind_ok in Hl as (compiled & Hc & Hl). inv_ok. split; [done|]. bools.
  match goal with E : by_digest _ !! _ = Some _ |- _ => by apply by_digest_Some in E as [? _] end.
Qed.

(** A stored, accepted decision of a human whose attestation the verifier accepted. *)
Definition human_accepted `{PyRuntime} (verify : HumanAttestationRecord → string → result unit)
    (s : CatalogDB) (ref : ContractRef) : Prop :=
  ∃ row, row ∈ cdb_decisions (cat_contracts s) ∧ dec_revision_ref (drow_record row) = ref
    ∧ dec_decision (drow_record row) = Accepted
    ∧ ∃ p att, dec_authority (drow_record row) = VerifiedHuman p att
        ∧ verify att (decision_subject_digest (drow_record row)) = Ok tt.

Lemma verified_covers `{PyRuntime} `{RevisionModels} verify s record :
  trust_kind record = VerifiedRevisionSet →
  validate_revision_set_and_binding_coverage record = Ok tt →
  validate_verified_record verify record true s = Ok tt →
  ∀ ref, ref ∈ trust_revision_refs record → human_accepted verify s ref.
Proof.
  intros Hk Hcov Hv ref Href.
  unfold validate_revision_set_and_binding_coverage in Hcov. rewrite Hk in Hcov. inv_ok. bools.
  unfold validate_verified_record in Hv. rewrite Hk in Hv. apply bind_ok in Hv as (ds & Hds & Hv).
  unfold validate_verified_trust in Hv. apply bind_ok in Hv as (u1 & _ & Hv).
  apply bind_ok in Hv as (u2 & Hlen & Hv). apply raise_when_ok in Hlen. bools. apply Nat.eqb_eq in Hlen.
  apply verify_bindings_spec in Hv; [|done].
  match goal with E : map vb_revision_ref _ = _ |- _ => rewrite <- E in Href end.
  apply list_elem_of_fmap in Href as (b & -> & Hb). destruct (map_res_elem _ _ _ _ Hds Hb) as (d & Hd & _).
  apply list_elem_of_lookup in Hb as [i Hi]. destruct (Forall2_lookup_l _ _ _ _ _ Hv Hi) as (d' & Hd' & Hspec).
  assert (d' = d) as ->.
  { clear -Hds Hi Hd' Hd. unfold hydrate_bound_decisions in Hds. revert ds i Hds Hi Hd'.
    induction (trust_verified_decisions record) as [|y l IH]; intros ds i Hds Hi Hd'; [done|].
    cbn in Hds. inv_ok. destruct i as [|i]; cbn in Hi, Hd'; [congruence|]. by eapply IH. }
  unfold hydrate_bound_decision in Hd. apply bind_ok in Hd as (row & Hrow & Hd).
  apply require_ok, find_first_Some in Hrow as [Hrow _]. apply bind_ok in Hd as (dd & Hx & Hd).
  unfold validate_decision_row in Hx. inv_ok. bools. destruct Hspec as (E1 & _ & E3 & E4).
  exists row. by split_and!.
Qed.

Lemma check_resolutions_spec requirements resolved :
  length resolved = length requirements → check_resolutions requirements resolved = Ok tt →
  Forall2 (λ q c, rc_requested_ref c = rq_capability_ref q
    ∧ ∀ p, p ∈ rc_effective_permissions c → p ∈ rq_requested_permissions q) requirements resolved.
Proof.
  revert resolved. induction requirements as [|q qs IH]; intros [|c cs] Hl Hc; try done.
  cbn in Hc. apply bind_ok in Hc as (u & Hq & Hc). constructor; [|apply IH; [by injection Hl|done]].
  unfold check_resolution in Hq. inv_ok. bools. split; [done|].
  match goal with E : subset_of (rc_effective_permissions c) _ = true |- _ => by apply subset_of_true end.
Qed.

(** C14: every stored admission has its provenance in the same store: its RunSpec, of
    exactly the digest it admits; the trust record it cites, which binds that RunSpec; the
    stored revisions from which compiling the record's revision set yields that very
    RunSpec; no capability beyond the permissions the RunSpec requests; and, under verified
    trust, for every revision of the set a stored human acceptance the verifier accepted. *)
Theorem admission_provenance `{PyRuntime} `{RevisionModels} `{UnicodeTables} verify s row :
  rtc (catalog_step verify) empty_catalog s → row ∈ cat_admissions s →
  ∃ spec trust revisions specs, spec ∈ cat_run_specs s ∧ trust ∈ cat_trust s
    ∧ rsp_id spec = arow_run_spec_id row
    ∧ spec_digest (rsp_spec spec) = adm_run_spec_digest (arow_record row)
    ∧ adm_execution_trust (arow_record row) = Some (trust_ref (trow_record trust))
    ∧ hydrate_revisions (trust_revision_refs (trow_record trust)) s = Ok revisions
    ∧ compile_execution_revision_set (trust_revision_set (trow_record trust)) revisions = Ok specs
    ∧ rsp_spec spec ∈ specs
    ∧ Forall2 (λ q c, rc_requested_ref c = rq_capability_ref q
        ∧ ∀ p, p ∈ rc_effective_permissions c → p ∈ rq_requested_permissions q)
        (inv_capability_requirements (spec_agent_inventory (rsp_spec spec)))
        (ri_capabilities (adm_resolved_inventory (arow_record row)))
    ∧ (trust_kind (trow_record trust) = VerifiedRevisionSet →
         ∀ ref, ref ∈ trust_revision_refs (trow_record trust) → human_accepted verify s ref).
Proof.
  intros Hs Hr. pose proof (catalog_inv_steps verify _ _ (catalog_inv_empty verify) Hs) as Hi.
  destruct (ca_admissions _ _ Hi _ Hr) as (spec & trust & Hspec & Htr & Eid & Edig & Eref & Ets & _ & _ & Hinv).
  destruct (ca_trust _ _ Hi _ Htr) as (_ & _ & _ & Hcov & Hl & Hv).
  destruct (lineage_recompiles verify s _ spec Hi Hl Hspec Ets) as (revisions & specs & Hrev & Hc & Hin).
  exists spec, trust, revisions, specs. split_and!; try done.
  - rewrite <- Edig. symmetry. by apply (ca_spec_digests _ _ Hi).
  - unfold check_admission_inventory in Hinv. apply bind_ok in Hinv as (u1 & _ & Hinv).
    apply bind_ok in Hinv as (u2 & Hlen & Hinv). apply raise_when_ok in Hlen. bools.
    apply Nat.eqb_eq in Hlen. by apply check_resolutions_spec.
  - intros Hk. by apply (verified_covers verify s _ Hk Hcov Hv).
Qed.

(** ** A catalog with one admitted RunSpec *)

(** A parser that knows the documents of the small Study's revisions. *)
Definition parsed_documents : list (json * AuthoringRevision) := Eval vm_compute in
  map (λ r, (revision_document r, r)) small_list.

#[local] Instance literal_models : RevisionModels := λ _ document,
  match find_first (λ '(d, _), d ==b document) parsed_documents with
  | Some (_, r) => inl r
  | None => inr (MkPydanticError "missing" [], [])
  end.

(** Names in plain ASCII are their own normal form. *)
#[local] Instance ascii_tables : UnicodeTables := {| nfkc := id; casefold := id |}.

Definition no_verifier (a : HumanAttestationRecord) (subject : string) : result unit :=
  unavailable_verify a subject.

Definition first_admission : AdmissionRecord := Eval vm_compute in
  MkAdmissionRecord ("run-spec:" +:+ spec_digest first_cell) (spec_digest first_cell) AdmissionAdmitted
    (MkResolvedAgentInventory (spec_agent_inventory_ref first_cell)
       (inv_runner_ref (spec_agent_inventory first_cell)) None None None None None
       (map (λ q, MkResolvedCapability (rq_kind q) (rq_capability_ref q) (rq_required q) (rq_exposure q)
          Resolved (Some (rq_capability_ref q)) None (Some (rq_minimum_interface_version q))
          (rq_requested_permissions q) (rq_authority_constraints q) [] None)
          (inv_capability_requirements (spec_agent_inventory first_cell))) [])
    Resolved Resolved [] [] [] [] (Some (trust_ref first_trust)) 0.

Definition catalog_commands : list catalog_command :=
  [CreateWorkspace " Lab " "ws" 0; CreateProjectIn "ws" "Project one" "project" 0]
  ++ map (λ r, RegisterRevision r "draft" ("row-" +:+ cr_logical_id (revision_ref r)) 0) small_list
  ++ [SaveRunSpec first_cell "spec" 0; SaveTrust first_trust; SaveAdmission "spec" first_admission "admission"].

Definition catalog_run (l : list catalog_command) : result CatalogDB :=
  fold_res (λ s c, catalog_exec no_verifier c s) empty_catalog l.

Definition sample_catalog : CatalogDB := Eval vm_compute in
  value_of empty_catalog (catalog_run catalog_commands).

Lemma sample_catalog_run : catalog_run catalog_commands = Ok sample_catalog.
Proof. vm_compute. reflexivity. Qed.

Lemma catalog_command_valid c : c ∈ catalog_commands → catalog_command_ok c.
Proof.
  intros Hc. apply elem_of_app in Hc as [Hc|Hc]; [by repeat (apply elem_of_cons in Hc as [->|Hc]);
    [..|apply elem_of_nil in Hc]|].
  apply elem_of_app in Hc as [(r & -> & Hr)%list_elem_of_fmap|Hc].
  - repeat (apply elem_of_cons in Hr as [->|Hr]; [eexists; split_and!; [vm_compute; reflexivity|reflexivity..]|]).
    by apply elem_of_nil in Hr.
  - repeat (apply elem_of_cons in Hc as [->|Hc]); [done| |done|by apply elem_of_nil in Hc].
    vm_compute. reflexivity.
Qed.

Lemma sample_catalog_reachable : rtc (catalog_step no_verifier) empty_catalog sample_catalog.
Proof.
  assert (Hgen : ∀ l s s', (∀ c, c ∈ l → catalog_command_ok c) →
    fold_res (λ s c, catalog_exec no_verifier c s) s l = Ok s' → rtc (catalog_step no_verifier) s s').
  { induction l as [|c l IH]; intros s s' Hok Hf; cbn [fold_res] in Hf; [by injection Hf as <-|].
    apply bind_ok in Hf as (s1 & H1 & Hf). eapply rtc_l.
    - exists c. split; [apply Hok; left|exact H1].
    - apply IH; [|exact Hf]. intros c' Hc'. apply Hok. by right. }
  apply (Hgen catalog_commands); [apply catalog_command_valid|exact sample_catalog_run].
Qed.

Definition stored_trust : ExecutionTrustRecordRow := Eval vm_compute in
  nth 0 (cat_trust sample_catalog)
    (MkTrustRow "" UnverifiedRevisionSet "" "" "" "" first_trust "" "" 0).

Lemma trust_record_durable_witness :
  get_record no_verifier (trow_id stored_trust) sample_catalog = Ok first_trust.
Proof.
  apply (trust_record_durable no_verifier sample_catalog sample_catalog stored_trust).
  - exact sample_catalog_reachable.
  - left.
  - apply rtc_refl.
Defined.

Definition stored_admission : AdmissionRecordRow := Eval vm_compute in
  nth 0 (cat_admissions sample_catalog)
    (MkAdmissionRow "" "" AdmissionAdmitted first_admission "" None None 0).

Lemma admission_provenance_witness :
  ∃ spec, spec ∈ cat_run_specs sample_catalog ∧ rsp_id spec = "spec"
    ∧ spec_digest (rsp_spec spec) = adm_run_spec_digest first_admission.
Proof.
  destruct (admission_provenance no_verifier sample_catalog stored_admission sample_catalog_reachable
    ltac:(left)) as (spec & _ & _ & _ & Hspec & _ & Hid & Hd & _).
  exists spec. exact (conj Hspec (conj Hid Hd)).
Defined.
