(* ===== verification/Lease.v ===== *)
(** * Fenced execution leases
    (src/src/evidrun/infrastructure/database/queue/: fencing.py, models.py, lease.py).

    A worker holds a job through a fence (job, attempt, worker, generation). Every
    function here is the whole transaction of the source: [require_active_lease] re-reads
    the live rows, and the write it guards happens in the same transaction. A lease
    duration is a whole number of microseconds, the resolution of [timedelta]. *)

From S2P Require Import Prelude PyText PyJson Base Authoring Runtime Events Store Registry.

(** ** Fencing (fencing.py) *)

Record LeaseFence := MkFence {
  f_job_id : string;
  f_attempt_id : string;
  f_worker_id : string;
  f_lease_generation : Z
}.
#[export] Instance LeaseFence_eq_dec : EqDecision LeaseFence.
Proof. solve_decision. Defined.

(** The condition under which the fence no longer holds, on the two rows. *)
Definition fence_lost (fence : LeaseFence) (now : instant) (job : RunExecutionJobRow)
    (attempt : RunExecutionAttemptRow) : bool :=
  job_status job !=b JobLeased
  || job_active_attempt_id job !=b Some (f_attempt_id fence)
  || negb (job_lease_generation job =? f_lease_generation fence)%Z
  || att_job_id attempt !=b f_job_id fence
  || att_status attempt !=b AttLeased
  || att_worker_id attempt !=b f_worker_id fence
  || negb (att_lease_generation attempt =? f_lease_generation fence)%Z
  || (att_lease_expires_at attempt <=? now)%Z.

Definition require_active_lease (fence : LeaseFence) (now : instant)
    : Tx (RunExecutionJobRow * RunExecutionAttemptRow) :=
  job ← fetch (get_job (f_job_id fence)) (LeaseLost "execution lease is no longer active");
  attempt ← fetch (get_attempt (f_attempt_id fence))
    (LeaseLost "execution lease is no longer active");
  guard (fence_lost fence now job attempt) (LeaseLost "execution lease is no longer active");;
  mret (job, attempt).

Definition validate_optional_lease (lease : option LeaseFence) (run : string) : Tx unit :=
  match lease with
  | None => mret tt
  | Some fence =>
      now ← utc_now;
      '(job, _) ← require_active_lease fence now;
      guard (job_run_id job !=b run) (LeaseLost "execution lease does not own this Run")
  end.

(** The row assignments of a settled lease. *)
Definition finish_attempt (a : RunExecutionAttemptRow) (status : AttemptStatus) (at_ : instant)
    (reason : option string) : RunExecutionAttemptRow := {|
  att_row_id := att_row_id a; att_job_id := att_job_id a; att_ordinal := att_ordinal a;
  att_worker_id := att_worker_id a; att_lease_generation := att_lease_generation a;
  att_status := status; att_leased_at := att_leased_at a;
  att_lease_expires_at := att_lease_expires_at a;
  att_last_heartbeat_at := att_last_heartbeat_at a;
  att_finished_at := Some at_; att_reason_code := reason
|}.

Definition finish_job (j : RunExecutionJobRow) (status : JobStatus) (at_ : instant)
    (rejection : option string) : RunExecutionJobRow := {|
  job_id := job_id j; job_run_id := job_run_id j; job_status := status;
  job_idempotency_key := job_idempotency_key j; job_request_digest := job_request_digest j;
  job_available_at := job_available_at j; job_active_attempt_id := None;
  job_lease_generation := job_lease_generation j; job_created_at := job_created_at j;
  job_finished_at := Some at_; job_rejection_code := rejection
|}.

Definition requeue_job (j : RunExecutionJobRow) (available_at : instant) : RunExecutionJobRow := {|
  job_id := job_id j; job_run_id := job_run_id j; job_status := JobQueued;
  job_idempotency_key := job_idempotency_key j; job_request_digest := job_request_digest j;
  job_available_at := available_at; job_active_attempt_id := None;
  job_lease_generation := job_lease_generation j; job_created_at := job_created_at j;
  job_finished_at := job_finished_at j; job_rejection_code := job_rejection_code j
|}.

Definition lease_job (j : RunExecutionJobRow) (attempt : string) (generation : Z)
    : RunExecutionJobRow := {|
  job_id := job_id j; job_run_id := job_run_id j; job_status := JobLeased;
  job_idempotency_key := job_idempotency_key j; job_request_digest := job_request_digest j;
  job_available_at := job_available_at j; job_active_attempt_id := Some attempt;
  job_lease_generation := generation; job_created_at := job_created_at j;
  job_finished_at := job_finished_at j; job_rejection_code := job_rejection_code j
|}.

Definition beat_attempt (a : RunExecutionAttemptRow) (at_ expires : instant)
    : RunExecutionAttemptRow := {|
  att_row_id := att_row_id a; att_job_id := att_job_id a; att_ordinal := att_ordinal a;
  att_worker_id := att_worker_id a; att_lease_generation := att_lease_generation a;
  att_status := att_status a; att_leased_at := att_leased_at a;
  att_lease_expires_at := expires; att_last_heartbeat_at := at_;
  att_finished_at := att_finished_at a; att_reason_code := att_reason_code a
|}.

(** Both rows of a settled lease. A completed attempt keeps its reason and a completed
    job its rejection code. *)
Definition complete_active_lease (lease : LeaseFence) (run : string) (completed_at : instant)
    : Tx unit :=
  '(job, attempt) ← require_active_lease lease completed_at;
  guard (job_run_id job !=b run) (LeaseLost "execution lease does not own this Run");;
  save_attempt (finish_attempt attempt AttCompleted completed_at (att_reason_code attempt));;
  save_job (finish_job job JobCompleted completed_at (job_rejection_code job)).

Definition reject_active_lease (lease : LeaseFence) (run : string) (rejected_at : instant)
    (reason_code : string) : Tx unit :=
  '(job, attempt) ← require_active_lease lease rejected_at;
  guard (job_run_id job !=b run) (LeaseLost "execution lease does not own this Run");;
  save_attempt (finish_attempt attempt AttRejected rejected_at (Some reason_code));;
  save_job (finish_job job JobRejected rejected_at (Some reason_code)).

Definition validate_reason_code (value : string) : result unit :=
  raise_when (negb (is_reason_code value))
    (ValueError "execution reason code must be a sanitized identifier").

(** ** Rows to models (models.py) *)

Definition job_document (row : RunExecutionJobRow) : RunExecutionJob := {|
  xj_job_id := job_id row;
  xj_run_id := job_run_id row;
  xj_status := job_status row;
  xj_idempotency_key := job_idempotency_key row;
  xj_request_digest := job_request_digest row;
  xj_available_at_utc := job_available_at row;
  xj_active_attempt_id := job_active_attempt_id row;
  xj_lease_generation := job_lease_generation row;
  xj_created_at_utc := job_created_at row;
  xj_finished_at_utc := job_finished_at row;
  xj_rejection_code := job_rejection_code row
|}.
Definition execution_job_model (row : RunExecutionJobRow) : result RunExecutionJob :=
  validate_job_state (job_document row);; Ok (job_document row).

Definition attempt_document (row : RunExecutionAttemptRow) : RunExecutionAttempt := {|
  xa_attempt_id := att_row_id row;
  xa_job_id := att_job_id row;
  xa_ordinal := att_ordinal row;
  xa_worker_id := att_worker_id row;
  xa_lease_generation := att_lease_generation row;
  xa_status := att_status row;
  xa_leased_at_utc := att_leased_at row;
  xa_lease_expires_at_utc := att_lease_expires_at row;
  xa_last_heartbeat_at_utc := att_last_heartbeat_at row;
  xa_finished_at_utc := att_finished_at row;
  xa_reason_code := att_reason_code row
|}.
Definition execution_attempt_model (row : RunExecutionAttemptRow) : result RunExecutionAttempt :=
  validate_attempt_state (attempt_document row);; Ok (attempt_document row).

(** ** The lease store (lease.py) *)

(** One iteration of the loop over leased jobs of [claim_next_job]. *)
Definition expire_stale (claimed_at : instant) (leased_job : RunExecutionJobRow) : Tx unit :=
  active ← lift (require (job_active_attempt_id leased_job)
    (ValueError "leased job has no active attempt"));
  attempt ← fetch (get_attempt active) (ValueError "leased job references a missing attempt");
  if (att_lease_expires_at attempt <=? claimed_at)%Z then
    save_attempt (finish_attempt attempt AttExpired claimed_at (Some "lease_expired"));;
    save_job (requeue_job leased_job claimed_at)
  else mret tt.

(** [order_by(available_at, created_at, id)]. *)
Definition job_leb (a b : RunExecutionJobRow) : bool :=
  if decide (job_available_at a = job_available_at b) then
    if decide (job_created_at a = job_created_at b) then String.leb (job_id a) (job_id b)
    else (job_created_at a <? job_created_at b)%Z
  else (job_available_at a <? job_available_at b)%Z.

Definition claimable (now : instant) (filter_id : option string) (j : RunExecutionJobRow) : bool :=
  job_status j ==b JobQueued && (job_available_at j <=? now)%Z
  && match filter_id with Some id => job_id j ==b id | None => true end.

Definition next_job (now : instant) (filter_id : option string) (d : DB)
    : option RunExecutionJobRow :=
  head (sort_by job_leb (List.filter (claimable now filter_id) (all_jobs d))).

Definition max_ordinal (job : string) (d : DB) : Z :=
  max_default (map att_ordinal (List.filter (λ a, att_job_id a ==b job) (all_attempts d))).

(** The rest of [claim_next_job] once the stale leases are expired. *)
Definition take_next (worker_id : string) (lease_us : Z) (filter_id : option string)
    (claimed_at : instant) : Tx (option (RunExecutionJobRow * RunExecutionAttemptRow)) :=
  job ← query (next_job claimed_at filter_id);
  match job with
  | None => mret None
  | Some job =>
      highest ← query (max_ordinal (job_id job));
      let generation := (job_lease_generation job + 1)%Z in
      attempt_id ← new_id "attempt";
      let attempt_row := {|
        att_row_id := attempt_id; att_job_id := job_id job; att_ordinal := (highest + 1)%Z;
        att_worker_id := worker_id; att_lease_generation := generation;
        att_status := AttLeased; att_leased_at := claimed_at;
        att_lease_expires_at := (claimed_at + lease_us)%Z; att_last_heartbeat_at := claimed_at;
        att_finished_at := None; att_reason_code := None |} in
      insert_attempt attempt_row;;
      let job' := lease_job job attempt_id generation in
      save_job job';;
      mret (Some (job', attempt_row))
  end.

Definition claim_body (worker_id : string) (lease_us : Z) (filter_id : option string)
    (now : option instant) : Tx (option (RunExecutionJobRow * RunExecutionAttemptRow)) :=
  guard (is_blank worker_id) (ValueError "worker_id cannot be empty");;
  guard (lease_us <=? 0)%Z (ValueError "lease_seconds must be positive");;
  claimed_at ← now_or_clock now;
  leased_jobs ← query (λ d, List.filter (λ j, job_status j ==b JobLeased) (all_jobs d));
  for_each leased_jobs (expire_stale claimed_at);;
  take_next worker_id lease_us filter_id claimed_at.

Definition claim_next_job (worker_id : string) (lease_us : Z) (filter_id : option string)
    (now : option instant) : Op (option (RunExecutionJob * RunExecutionAttempt)) :=
  transaction (claim_body worker_id lease_us filter_id now) (λ claimed,
    match claimed with
    | None => Ok None
    | Some (job, attempt) =>
        j ← execution_job_model job; a ← execution_attempt_model attempt; Ok (Some (j, a))
    end).

Definition heartbeat_body (fence : LeaseFence) (lease_us : Z) (now : option instant)
    : Tx RunExecutionAttemptRow :=
  heartbeat_at ← now_or_clock now;
  '(_, attempt) ← require_active_lease fence heartbeat_at;
  let attempt' := beat_attempt attempt heartbeat_at (heartbeat_at + lease_us)%Z in
  save_attempt attempt';; mret attempt'.

Definition heartbeat_lease (fence : LeaseFence) (lease_us : Z) (now : option instant)
    : Op RunExecutionAttempt :=
  transaction (heartbeat_body fence lease_us now) execution_attempt_model.

Definition assert_lease (fence : LeaseFence) (now : option instant) : Op unit :=
  transaction (at_ ← now_or_clock now; require_active_lease fence at_;; mret tt) Ok.

(** [list.count(value)]. *)
Definition count_type (event_type : string) (events : list RunEventRow) : nat :=
  length (List.filter (λ e, evt_event_type e ==b event_type) events).

Definition release_body (fence : LeaseFence) (reason_code : string)
    (available_at now : option instant) : Tx RunExecutionJobRow :=
  lift (validate_reason_code reason_code);;
  released_at ← now_or_clock now;
  '(job, attempt) ← require_active_lease fence released_at;
  events ← query (run_events (job_run_id job));
  guard (count_type "subject.responded" events <? count_type "subject.invoked" events)%nat
    (ValueError "lease cannot be released while a Subject invocation is pending");;
  save_attempt (finish_attempt attempt AttReleased released_at (Some reason_code));;
  let job' := requeue_job job (default released_at available_at) in
  save_job job';; mret job'.

Definition release_lease (fence : LeaseFence) (reason_code : string)
    (available_at now : option instant) : Op RunExecutionJob :=
  transaction (release_body fence reason_code available_at now) execution_job_model.

Definition reject_body (fence : LeaseFence) (reason_code : string) (now : option instant)
    : Tx RunExecutionJobRow :=
  lift (validate_reason_code reason_code);;
  rejected_at ← now_or_clock now;
  '(job, attempt) ← require_active_lease fence rejected_at;
  save_attempt (finish_attempt attempt AttRejected rejected_at (Some reason_code));;
  let job' := finish_job job JobRejected rejected_at (Some reason_code) in
  save_job job';; mret job'.

Definition reject_lease (fence : LeaseFence) (reason_code : string) (now : option instant)
    : Op RunExecutionJob :=
  transaction (reject_body fence reason_code now) execution_job_model.

Definition complete_body (fence : LeaseFence) (now : option instant) : Tx RunExecutionJobRow :=
  completed_at ← now_or_clock now;
  '(job, attempt) ← require_active_lease fence completed_at;
  save_attempt (finish_attempt attempt AttCompleted completed_at (att_reason_code attempt));;
  let job' := finish_job job JobCompleted completed_at (job_rejection_code job) in
  save_job job';; mret job'.

Definition complete_lease (fence : LeaseFence) (now : option instant) : Op RunExecutionJob :=
  transaction (complete_body fence now) execution_job_model.

Definition get_execution_job (id : string) : Op RunExecutionJob :=
  transaction (fetch (get_job id) (KeyError id)) execution_job_model.

Definition ordinal_leb (a b : RunExecutionAttemptRow) : bool := (att_ordinal a <=? att_ordinal b)%Z.

Definition run_execution_rows (run : string) (d : DB)
    : option (RunExecutionJobRow * list RunExecutionAttemptRow) :=
  match find_first (λ j, job_run_id j ==b run) (all_jobs d) with
  | None => None
  | Some job => Some (job, sort_by ordinal_leb
      (List.filter (λ a, att_job_id a ==b job_id job) (all_attempts d)))
  end.

Fixpoint attempt_models (rows : list RunExecutionAttemptRow) : result (list RunExecutionAttempt) :=
  match rows with
  | [] => Ok []
  | r :: rest => a ← execution_attempt_model r; l ← attempt_models rest; Ok (a :: l)
  end.

Definition get_run_execution (run : string)
    : Op (option (RunExecutionJob * list RunExecutionAttempt)) :=
  transaction (query (run_execution_rows run)) (λ rows,
    match rows with
    | None => Ok None
    | Some (job, attempts) =>
        j ← execution_job_model job; l ← attempt_models attempts; Ok (Some (j, l))
    end).

(** ** The queue invariant *)

Record queue_inv (d : DB) : Prop := {
  qi_job_key : ∀ k j, db_jobs d !! k = Some j → job_id j = k;
  qi_att_key : ∀ k a, db_attempts d !! k = Some a → att_row_id a = k;
  (** An attempt belongs to a job, with a generation the job has reached. *)
  qi_att_job : ∀ k a, db_attempts d !! k = Some a →
    ∃ j, db_jobs d !! att_job_id a = Some j
         ∧ (att_lease_generation a <= job_lease_generation j)%Z;
  (** A leased job names a leased attempt of its own and of its current generation. *)
  qi_active : ∀ k j, db_jobs d !! k = Some j →
    match job_active_attempt_id j with
    | Some a => job_status j = JobLeased ∧ ∃ row, db_attempts d !! a = Some row
        ∧ att_job_id row = k ∧ att_status row = AttLeased
        ∧ att_lease_generation row = job_lease_generation j
    | None => job_status j ≠ JobLeased
    end;
  (** A leased attempt is the one its job names. *)
  qi_leased : ∀ k a, db_attempts d !! k = Some a → att_status a = AttLeased →
    ∃ j, db_jobs d !! att_job_id a = Some j ∧ job_active_attempt_id j = Some k;
  qi_job_valid : ∀ k j, db_jobs d !! k = Some j → validate_job_state (job_document j) = Ok tt;
  qi_att_finished : ∀ k a, db_attempts d !! k = Some a →
    (att_status a = AttLeased ↔ att_finished_at a = None);
  qi_job_keys : ∀ k1 j1 k2 j2, db_jobs d !! k1 = Some j1 → db_jobs d !! k2 = Some j2 →
    job_idempotency_key j1 = job_idempotency_key j2 ∨ job_run_id j1 = job_run_id j2 → k1 = k2
}.

(** What the job model's validator accepts. *)
Lemma job_state_iff j :
  validate_job_state j = Ok tt ↔
  (xj_status j = JobLeased ↔ xj_active_attempt_id j ≠ None)
  ∧ (job_terminal (xj_status j) = true ↔ xj_finished_at_utc j ≠ None)
  ∧ (xj_status j = JobRejected ↔ xj_rejection_code j ≠ None).
Proof.
  unfold validate_job_state.
  destruct (xj_status j), (xj_active_attempt_id j), (xj_finished_at_utc j),
    (xj_rejection_code j); cbn; naive_solver.
Qed.

(** The tables after both rows of a lease were assigned. *)
Definition put_lease (d : DB) (a : RunExecutionAttemptRow) (j : RunExecutionJobRow) : DB :=
  set_jobs (insert (job_id j) j) (set_attempts (insert (att_row_id a) a) d).

(** Nothing else in the job changes identity. *)
Definition same_job (j j' : RunExecutionJobRow) : Prop :=
  job_id j' = job_id j ∧ job_run_id j' = job_run_id j
  ∧ job_idempotency_key j' = job_idempotency_key j
  ∧ job_lease_generation j' = job_lease_generation j.

Definition same_attempt (a a' : RunExecutionAttemptRow) : Prop :=
  att_row_id a' = att_row_id a ∧ att_job_id a' = att_job_id a
  ∧ att_lease_generation a' = att_lease_generation a ∧ att_ordinal a' = att_ordinal a
  ∧ att_worker_id a' = att_worker_id a ∧ att_leased_at a' = att_leased_at a.

Section settle.
Context (d : DB) (Hd : queue_inv d).
Context (j j' : RunExecutionJobRow) (a a' : RunExecutionAttemptRow) (aid : string).
Context (Hj : db_jobs d !! job_id j = Some j) (Ha : db_attempts d !! aid = Some a).
Context (Hact : job_active_attempt_id j = Some aid).
Context (Hsame : same_job j j') (Hsame' : same_attempt a a').
Context (Hnone : job_active_attempt_id j' = None) (Hst : job_status j' ≠ JobLeased).
Context (Hval : validate_job_state (job_document j') = Ok tt).
Context (Hast : att_status a' ≠ AttLeased) (Hafin : att_finished_at a' ≠ None).

Lemma settle_active : att_row_id a = aid ∧ att_job_id a = job_id j ∧ att_status a = AttLeased.
Proof.
  pose proof (qi_active _ Hd _ _ Hj) as Hx. rewrite Hact in Hx.
  destruct Hx as (_ & row & Hrow & E1 & E2 & _). rewrite Ha in Hrow. injection Hrow as <-.
  split_and!; [by apply (qi_att_key _ Hd)|done|done].
Qed.

Lemma queue_inv_settle : queue_inv (put_lease d a' j').
Proof.
  destruct settle_active as (Eid & Ejob & Est).
  destruct Hsame as (S1 & S2 & S3 & S4), Hsame' as (T1 & T2 & T3 & _).
  unfold put_lease. rewrite S1, T1, Eid. constructor; cbn.
  - intros k x [[<- <-]|[_ Hx]]%lookup_insert_Some; [done|by apply (qi_job_key _ Hd)].
  - intros k x [[<- <-]|[_ Hx]]%lookup_insert_Some; [congruence|by apply (qi_att_key _ Hd)].
  - intros k x [[<- <-]|[_ Hx]]%lookup_insert_Some.
    + rewrite T2, Ejob, lookup_insert_eq. exists j'. split; [done|].
      destruct (qi_att_job _ Hd _ _ Ha) as (y & Hy & Hle). rewrite Ejob, Hj in Hy.
      injection Hy as <-. lia.
    + destruct (qi_att_job _ Hd _ _ Hx) as (y & Hy & Hle).
      destruct (decide (att_job_id x = job_id j)) as [E|E].
      * rewrite E, lookup_insert_eq. exists j'. split; [done|]. rewrite E, Hj in Hy.
        injection Hy as <-. lia.
      * exists y. by rewrite lookup_insert_ne.
  - intros k x [[<- <-]|[Hne Hx]]%lookup_insert_Some; [by rewrite Hnone|].
    pose proof (qi_active _ Hd _ _ Hx) as Hy. destruct (job_active_attempt_id x) as [b|]; [|done].
    destruct Hy as (Hy1 & row & Hrow & E1 & E2). split; [done|]. exists row.
    rewrite lookup_insert_ne; [done|]. intros <-. rewrite Ha in Hrow. injection Hrow as <-. congruence.
  - intros k x [[<- <-]|[Hne Hx]]%lookup_insert_Some Hs; [done|].
    destruct (qi_leased _ Hd _ _ Hx Hs) as (y & Hy & Hyk). exists y.
    rewrite lookup_insert_ne; [done|]. intros E. rewrite <- E, Hj in Hy. injection Hy as <-. congruence.
  - intros k x [[<- <-]|[_ Hx]]%lookup_insert_Some; [done|by eapply (qi_job_valid _ Hd)].
  - intros k x [[<- <-]|[_ Hx]]%lookup_insert_Some; [done|by eapply (qi_att_finished _ Hd)].
  - intros k1 x1 k2 x2 H1 H2 Hk.
    apply lookup_insert_Some in H1 as [[<- <-]|[_ H1]], H2 as [[<- <-]|[_ H2]]; try done.
    + apply (qi_job_keys _ Hd _ j _ x2); [done..|]. by rewrite <- S2, <- S3.
    + apply (qi_job_keys _ Hd _ x1 _ j); [done..|]. by rewrite <- S2, <- S3.
    + by apply (qi_job_keys _ Hd _ x1 _ x2).
Qed.
End settle.

(** A heartbeat rewrites a leased attempt in place. *)
Lemma queue_inv_beat d a a' aid :
  queue_inv d → db_attempts d !! aid = Some a → same_attempt a a' →
  att_status a' = att_status a → att_finished_at a' = att_finished_at a →
  queue_inv (set_attempts (insert (att_row_id a') a') d).
Proof.
  intros Hd Ha (T1 & T2 & T3 & _) Hs Hf. rewrite T1, (qi_att_key _ Hd _ _ Ha).
  constructor; cbn; try apply Hd.
  - intros k x [[<- <-]|[_ Hx]]%lookup_insert_Some; [|by apply (qi_att_key _ Hd)].
    rewrite T1. by apply (qi_att_key _ Hd).
  - intros k x [[<- <-]|[_ Hx]]%lookup_insert_Some; [|by apply (qi_att_job _ Hd _ _ Hx)].
    rewrite T2, T3. by apply (qi_att_job _ Hd _ _ Ha).
  - intros k x Hx. pose proof (qi_active _ Hd _ _ Hx) as Hy.
    destruct (job_active_attempt_id x) as [b|]; [|done]. destruct Hy as (Hy1 & row & Hrow & E).
    split; [done|]. destruct (decide (b = aid)) as [->|Hne].
    + rewrite lookup_insert_eq. exists a'. split; [done|]. rewrite Ha in Hrow.
      injection Hrow as <-. by rewrite T2, T3, Hs.
    + exists row. by rewrite lookup_insert_ne.
  - intros k x [[<- <-]|[_ Hx]]%lookup_insert_Some; [|by apply (qi_leased _ Hd _ _ Hx)].
    rewrite Hs, T2. by apply (qi_leased _ Hd _ _ Ha).
  - intros k x [[<- <-]|[_ Hx]]%lookup_insert_Some; [|by apply (qi_att_finished _ Hd _ _ Hx)].
    rewrite Hs, Hf. by apply (qi_att_finished _ Hd _ _ Ha).
Qed.

(** A claim adds an attempt of the next generation to a queued job. *)
Lemma queue_inv_claim d j a :
  queue_inv d → db_jobs d !! job_id j = Some j → job_status j = JobQueued →
  db_attempts d !! att_row_id a = None → att_job_id a = job_id j →
  att_lease_generation a = (job_lease_generation j + 1)%Z → att_status a = AttLeased →
  att_finished_at a = None →
  queue_inv (put_lease d a (lease_job j (att_row_id a) (job_lease_generation j + 1))).
Proof.
  intros Hd Hj Hq Hnew Ejob Egen Est Efin. unfold put_lease. constructor; cbn.
  - intros k x [[<- <-]|[_ Hx]]%lookup_insert_Some; [done|by apply (qi_job_key _ Hd)].
  - intros k x [[<- <-]|[_ Hx]]%lookup_insert_Some; [done|by apply (qi_att_key _ Hd)].
  - intros k x [[<- <-]|[_ Hx]]%lookup_insert_Some.
    + rewrite Ejob, lookup_insert_eq. eexists. split; [done|]. cbn. lia.
    + destruct (qi_att_job _ Hd _ _ Hx) as (y & Hy & Hle).
      destruct (decide (att_job_id x = job_id j)) as [E|E].
      * rewrite E, lookup_insert_eq. eexists. split; [done|]. cbn. rewrite E, Hj in Hy.
        injection Hy as <-. lia.
      * exists y. by rewrite lookup_insert_ne.
  - intros k x [[<- <-]|[Hne Hx]]%lookup_insert_Some; cbn.
    + split; [done|]. rewrite lookup_insert_eq. eauto.
    + pose proof (qi_active _ Hd _ _ Hx) as Hy. destruct (job_active_attempt_id x) as [b|]; [|done].
      destruct Hy as (Hy1 & row & Hrow & E1). split; [done|]. exists row.
      rewrite lookup_insert_ne; [done|]. intros <-. congruence.
  - intros k x [[<- <-]|[Hne Hx]]%lookup_insert_Some Hs.
    + rewrite Ejob, lookup_insert_eq. by eexists.
    + destruct (qi_leased _ Hd _ _ Hx Hs) as (y & Hy & Hyk). exists y.
      rewrite lookup_insert_ne; [done|]. intros E. rewrite <- E, Hj in Hy. injection Hy as <-.
      pose proof (qi_active _ Hd _ _ Hj) as Hz. rewrite Hyk in Hz. destruct Hz as [Hz _]. congruence.
  - intros k x [[<- <-]|[_ Hx]]%lookup_insert_Some; [|by eapply (qi_job_valid _ Hd)].
    pose proof (qi_job_valid _ Hd _ _ Hj) as Hv. rewrite job_state_iff in *. cbn in *.
    rewrite Hq in Hv. cbn in Hv. intuition congruence.
  - intros k x [[<- <-]|[_ Hx]]%lookup_insert_Some; [|by eapply (qi_att_finished _ Hd)].
    by rewrite Est, Efin.
  - intros k1 x1 k2 x2 H1 H2 Hk.
    apply lookup_insert_Some in H1 as [[<- <-]|[_ H1]], H2 as [[<- <-]|[_ H2]]; try done.
    + by apply (qi_job_keys _ Hd _ j _ x2).
    + by apply (qi_job_keys _ Hd _ x1 _ j).
    + by apply (qi_job_keys _ Hd _ x1 _ x2).
Qed.

(** ** How the queue evolves *)

(** Jobs and attempts are never removed or renamed, generations only grow, and a settled
    job or attempt is frozen. *)
Record evolves (d d' : DB) : Prop := {
  ev_job : ∀ k j, db_jobs d !! k = Some j → ∃ j', db_jobs d' !! k = Some j'
    ∧ job_run_id j' = job_run_id j ∧ job_idempotency_key j' = job_idempotency_key j
    ∧ job_request_digest j' = job_request_digest j
    ∧ (job_lease_generation j <= job_lease_generation j')%Z
    ∧ (job_terminal (job_status j) = true → j' = j);
  ev_attempt : ∀ k a, db_attempts d !! k = Some a → ∃ a', db_attempts d' !! k = Some a'
    ∧ same_attempt a a' ∧ (att_status a ≠ AttLeased → a' = a)
}.

#[export] Instance evolves_preorder : PreOrder evolves.
Proof.
  split.
  - intros d. constructor; intros k x Hx; exists x; unfold same_attempt; split_and!; done || lia.
  - intros d1 d2 d3 [J1 A1] [J2 A2]. constructor.
    + intros k j (j1 & H1 & R1 & K1 & D1 & G1 & T1)%J1.
      destruct (J2 _ _ H1) as (j2 & H2 & R2 & K2 & D2 & G2 & T2). exists j2.
      split_and!; [done|congruence..|lia|]. intros Ht. rewrite (T1 Ht) in T2. by apply T2.
    + intros k a (a1 & H1 & S1 & T1)%A1. destruct (A2 _ _ H1) as (a2 & H2 & S2 & T2). exists a2.
      unfold same_attempt in *. split_and!; [done|intuition congruence..|].
      intros Ht. rewrite (T1 Ht) in T2. by apply T2.
Qed.

(** The relation every transaction on the queue follows. *)
Definition queue_step (d d' : DB) : Prop := queue_inv d → queue_inv d' ∧ evolves d d'.

#[export] Instance queue_step_preorder : PreOrder queue_step.
Proof.
  split; [by split|]. intros d1 d2 d3 H1 H2 Hd. destruct (H1 Hd) as [Hi1 He1].
  destruct (H2 Hi1) as [Hi2 He2]. split; [done|by etrans].
Qed.

Lemma evolves_put d j j' a' :
  db_jobs d !! job_id j = Some j → job_id j' = job_id j → job_run_id j' = job_run_id j →
  job_idempotency_key j' = job_idempotency_key j →
  job_request_digest j' = job_request_digest j →
  (job_lease_generation j <= job_lease_generation j')%Z →
  job_terminal (job_status j) = false →
  (∀ a, db_attempts d !! att_row_id a' = Some a → same_attempt a a' ∧ att_status a = AttLeased) →
  evolves d (put_lease d a' j').
Proof.
  intros Hj E1 E2 E3 E4 Hg Ht Ha. constructor; cbn.
  - intros k x Hx. rewrite E1. destruct (decide (k = job_id j)) as [->|Hne].
    + rewrite lookup_insert_eq. exists j'. rewrite Hj in Hx. injection Hx as <-.
      split_and!; congruence || done.
    + rewrite lookup_insert_ne by done. exists x. split_and!; done || lia.
  - intros k x Hx. destruct (decide (k = att_row_id a')) as [->|Hne].
    + rewrite lookup_insert_eq. exists a'. destruct (Ha _ Hx) as [? ?]. done.
    + rewrite lookup_insert_ne by done. exists x. unfold same_attempt. done.
Qed.

(** ** What a live fence says *)

Definition fence_holds (d : DB) (fence : LeaseFence) (now : instant)
    (j : RunExecutionJobRow) (a : RunExecutionAttemptRow) : Prop :=
  db_jobs d !! f_job_id fence = Some j ∧ db_attempts d !! f_attempt_id fence = Some a
  ∧ job_status j = JobLeased ∧ job_active_attempt_id j = Some (f_attempt_id fence)
  ∧ job_lease_generation j = f_lease_generation fence
  ∧ att_job_id a = f_job_id fence ∧ att_status a = AttLeased
  ∧ att_worker_id a = f_worker_id fence ∧ att_lease_generation a = f_lease_generation fence
  ∧ (now < att_lease_expires_at a)%Z.

Lemma fence_lost_false fence now j a :
  fence_lost fence now j a = false ↔
  job_status j = JobLeased ∧ job_active_attempt_id j = Some (f_attempt_id fence)
  ∧ job_lease_generation j = f_lease_generation fence
  ∧ att_job_id a = f_job_id fence ∧ att_status a = AttLeased
  ∧ att_worker_id a = f_worker_id fence ∧ att_lease_generation a = f_lease_generation fence
  ∧ (now < att_lease_expires_at a)%Z.
Proof.
  unfold fence_lost. rewrite !orb_false_iff, !negb_false_iff, !bool_decide_eq_true.
  rewrite !Z.eqb_eq, Z.leb_gt. intuition.
Qed.

Lemma require_active_lease_ok fence now env s j a s' :
  require_active_lease fence now env s = Ok ((j, a), s') ↔
  s' = s ∧ fence_holds (st_db s) fence now j a.
Proof.
  unfold fence_holds. rewrite <- fence_lost_false. unfold require_active_lease. split.
  - intros H. inv_tx. done.
  - intros (-> & Hj & Ha & Hf).
    apply tx_bind_ok. exists j, s. split; [by apply fetch_ok|].
    apply tx_bind_ok. exists a, s. split; [by apply fetch_ok|].
    apply tx_bind_ok. exists tt, s. split; [by apply guard_ok|done].
Qed.

(** The only failure is [LeaseLost]. *)
Lemma require_active_lease_lost fence now env s :
  (∀ j a, ¬ fence_holds (st_db s) fence now j a) →
  require_active_lease fence now env s = Raise (LeaseLost "execution lease is no longer active").
Proof.
  intros Hn. destruct (require_active_lease fence now env s) as [[[j a] s']|e] eqn:E.
  - apply require_active_lease_ok in E as [-> Hf]. by destruct (Hn j a).
  - revert E. unfold require_active_lease, fetch, guard. unfold mbind, tx_bind, query, lift, require.
    destruct (get_job _ _) as [j|]; [|by intros [= <-]].
    destruct (get_attempt _ _) as [a|]; [|by intros [= <-]].
    unfold raise_when. destruct (fence_lost _ _ _ _); [by intros [= <-]|done].
Qed.

Lemma reads_require_active_lease fence now : reads (require_active_lease fence now).
Proof. intros env s [j a] s' E. by apply require_active_lease_ok in E as [-> _]. Qed.
#[export] Hint Resolve reads_require_active_lease : evidrun.

Lemma reads_validate_optional_lease lease run : reads (validate_optional_lease lease run).
Proof.
  destruct lease as [f|]; cbn; [|apply reads_ret]. apply reads_bind; [auto with evidrun|]. intros t.
  apply reads_bind; [auto with evidrun|]. intros [j a]. auto with evidrun.
Qed.
#[export] Hint Resolve reads_validate_optional_lease : evidrun.

(** A caller that passes the optional check held the Run's live lease. *)
Lemma validate_optional_lease_ok fence run env s u s' :
  validate_optional_lease (Some fence) run env s = Ok (u, s') →
  ∃ now j a, fence_holds (st_db s) fence now j a ∧ job_run_id j = run.
Proof.
  cbn. intros E. apply tx_bind_ok in E as (now & s1 & E1 & E). apply utc_now_ok in E1 as [E1 _].
  apply tx_bind_ok in E as ([j a] & s2 & E2 & E). apply require_active_lease_ok in E2 as [-> Hf].
  rewrite E1 in Hf. apply guard_ok in E as [Hr _]. apply negb_false_iff, bool_decide_eq_true in Hr.
  by exists now, j, a.
Qed.

(** ** Every lease operation keeps the invariant *)

(** The three ways a leased job is settled. *)
Inductive settles (j : RunExecutionJobRow) : RunExecutionJobRow → Prop :=
| settles_requeue at_ : settles j (requeue_job j at_)
| settles_complete at_ : settles j (finish_job j JobCompleted at_ (job_rejection_code j))
| settles_reject at_ reason : settles j (finish_job j JobRejected at_ (Some reason)).

Lemma settles_valid j j' :
  validate_job_state (job_document j) = Ok tt → job_status j = JobLeased → settles j j' →
  same_job j j' ∧ job_active_attempt_id j' = None ∧ job_status j' ≠ JobLeased
  ∧ validate_job_state (job_document j') = Ok tt.
Proof.
  rewrite !job_state_iff. cbn. intros Hv Hl [at_|at_|at_ r]; rewrite Hl in Hv; cbn in *;
    unfold same_job; cbn; naive_solver.
Qed.

Lemma settle_step d j j' a aid status at_ reason :
  db_jobs d !! job_id j = Some j → db_attempts d !! aid = Some a →
  job_active_attempt_id j = Some aid → settles j j' → status ≠ AttLeased →
  queue_step d (put_lease d (finish_attempt a status at_ reason) j').
Proof.
  intros Hj Ha Hact Hs Hst Hd.
  pose proof (settle_active d Hd j a aid Hj Ha Hact) as (Eid & Ejob & Eleased).
  assert (Hl : job_status j = JobLeased).
  { pose proof (qi_active _ Hd _ _ Hj) as Hx. rewrite Hact in Hx. apply Hx. }
  destruct (settles_valid _ _ (qi_job_valid _ Hd _ _ Hj) Hl Hs) as (Hsame & Hn & Hns & Hv).
  split.
  - by apply (queue_inv_settle d Hd j j' a _ aid).
  - apply (evolves_put d j); try (by destruct Hsame as (? & ? & ? & ?); (done || lia));
      try by destruct Hs.
    + by rewrite Hl.
    + intros x Hx. cbn in Hx. rewrite Eid, Ha in Hx. injection Hx as <-. done.
Qed.

Lemma fence_settle_step d fence now j j' a status at_ reason :
  fence_holds d fence now j a → settles j j' → status ≠ AttLeased →
  queue_step d (put_lease d (finish_attempt a status at_ reason) j').
Proof.
  intros (Hj & Ha & _ & Hact & _) Hs Hst Hd.
  apply (settle_step d j j' a (f_attempt_id fence)); try done.
  by rewrite (qi_job_key _ Hd _ _ Hj).
Qed.

Lemma complete_active_lease_step lease run at_ :
  steps_by queue_step (complete_active_lease lease run at_).
Proof.
  intros env s a s' H. unfold complete_active_lease in H. inv_tx. destruct x as [j att].
  apply require_active_lease_ok in H0 as [-> Hf]. inv_tx.
  eapply fence_settle_step; [done|constructor|done].
Qed.

Lemma reject_active_lease_step lease run at_ reason :
  steps_by queue_step (reject_active_lease lease run at_ reason).
Proof.
  intros env s a s' H. unfold reject_active_lease in H. inv_tx. destruct x as [j att].
  apply require_active_lease_ok in H0 as [-> Hf]. inv_tx.
  eapply fence_settle_step; [done|constructor|done].
Qed.

Lemma complete_body_step fence now : steps_by queue_step (complete_body fence now).
Proof.
  intros env s a s' H. unfold complete_body in H. inv_tx. destruct x1 as [j att].
  apply now_or_clock_ok in H0. apply require_active_lease_ok in H1 as [-> Hf]. inv_tx. cbn [st_db].
  rewrite H0 in *. eapply fence_settle_step; [done|constructor|done].
Qed.

Lemma reject_body_step fence reason now : steps_by queue_step (reject_body fence reason now).
Proof.
  intros env s a s' H. unfold reject_body in H. inv_tx. destruct x3 as [j att].
  apply now_or_clock_ok in H1. apply require_active_lease_ok in H2 as [-> Hf]. inv_tx. cbn [st_db].
  rewrite H1 in *. eapply fence_settle_step; [done|constructor|done].
Qed.

Lemma release_body_step fence reason available_at now :
  steps_by queue_step (release_body fence reason available_at now).
Proof.
  intros env s a s' H. unfold release_body in H. inv_tx. destruct x3 as [j att].
  apply now_or_clock_ok in H1. apply require_active_lease_ok in H2 as [-> Hf]. inv_tx. cbn [st_db].
  rewrite H1 in *. eapply fence_settle_step; [done|constructor|done].
Qed.

Lemma heartbeat_body_step fence lease_us now : steps_by queue_step (heartbeat_body fence lease_us now).
Proof.
  intros env s a s' H. unfold heartbeat_body in H. inv_tx. destruct x1 as [j att].
  apply now_or_clock_ok in H0. apply require_active_lease_ok in H1 as [-> Hf]. inv_tx. cbn [st_db].
  rewrite H0 in *. destruct Hf as (Hj & Ha & _ & _ & _ & _ & Hs & _). intros Hd.
  pose proof (qi_att_key _ Hd _ _ Ha) as Hk. split.
  - by apply (queue_inv_beat _ att _ (f_attempt_id fence)).
  - constructor; cbn.
    + intros k y Hy. exists y. split_and!; done || lia.
    + intros k y Hy. destruct (decide (k = att_row_id att)) as [->|Hne].
      * rewrite lookup_insert_eq. eexists. split; [done|]. rewrite Hk, Ha in Hy. injection Hy as <-.
        done.
      * rewrite lookup_insert_ne by done. exists y. unfold same_attempt. done.
Qed.

(** The rows of the job table, once each and under their own key. *)
Lemma elem_of_all_jobs d j : queue_inv d → j ∈ all_jobs d ↔ db_jobs d !! job_id j = Some j.
Proof.
  intros Hd. unfold all_jobs. rewrite list_elem_of_fmap. split.
  - intros ([k x] & -> & Hx). apply elem_of_map_to_list in Hx. cbn.
    by rewrite (qi_job_key _ Hd _ _ Hx).
  - intros Hj. exists (job_id j, j). split; [done|]. by apply elem_of_map_to_list.
Qed.

Lemma all_jobs_distinct d : queue_inv d → NoDup (map job_id (all_jobs d)).
Proof.
  intros Hd. unfold all_jobs. rewrite map_map.
  rewrite (map_ext_in _ fst); [apply NoDup_fst_map_to_list|].
  intros [k x] Hx. cbn. apply (qi_job_key _ Hd). apply elem_of_map_to_list.
  by apply list_elem_of_In.
Qed.

Lemma NoDup_map_filter {A B} (f : A → B) (p : A → bool) l :
  NoDup (map f l) → NoDup (map f (List.filter p l)).
Proof.
  induction l as [|x l IH]; cbn; [done|]. intros [Hx Hl]%NoDup_cons.
  destruct (p x); cbn; [|by apply IH]. constructor; [|by apply IH].
  intros (y & E & Hy)%list_elem_of_fmap. apply Hx. apply list_elem_of_fmap. exists y.
  split; [done|]. apply list_elem_of_In, List.filter_In in Hy as [Hy _]. by apply list_elem_of_In.
Qed.

(** What expiring leases at [t] may change. *)
Record expires (t : instant) (d d' : DB) : Prop := {
  ex_step : queue_step d d';
  (** A lease that has not run out keeps both its rows. *)
  ex_attempt : ∀ k a, db_attempts d !! k = Some a → (t < att_lease_expires_at a)%Z →
    db_attempts d' !! k = Some a;
  ex_job : ∀ k j, db_jobs d !! k = Some j → db_jobs d' !! k = Some j
    ∨ db_jobs d' !! k = Some (requeue_job j t) ∧ ∃ aid a, job_active_attempt_id j = Some aid
      ∧ db_attempts d !! aid = Some a ∧ (att_lease_expires_at a <= t)%Z;
  ex_none : ∀ k, (db_attempts d !! k = None → db_attempts d' !! k = None)
    ∧ (db_jobs d !! k = None → db_jobs d' !! k = None)
}.

Definition stale (t : instant) (d : DB) (j : RunExecutionJobRow) : Prop :=
  ∃ aid a, job_active_attempt_id j = Some aid ∧ db_attempts d !! aid = Some a
    ∧ (att_lease_expires_at a <= t)%Z.

(** One iteration never raises on a consistent queue: it settles a stale lease or does
    nothing, and other jobs keep their rows. *)
Lemma expire_stale_step t j env s :
  queue_inv (st_db s) → db_jobs (st_db s) !! job_id j = Some j → job_status j = JobLeased →
  ∃ s', expire_stale t j env s = Ok (tt, s') ∧ st_ids s' = st_ids s
  ∧ expires t (st_db s) (st_db s')
  ∧ (∀ k, k ≠ job_id j → db_jobs (st_db s') !! k = db_jobs (st_db s) !! k)
  ∧ (∀ k a, db_attempts (st_db s) !! k = Some a → att_job_id a ≠ job_id j →
       db_attempts (st_db s') !! k = Some a)
  ∧ (stale t (st_db s) j → db_jobs (st_db s') !! job_id j = Some (requeue_job j t)).
Proof.
  intros Hd Hj Hl. pose proof (qi_active _ Hd _ _ Hj) as Hact.
  destruct (job_active_attempt_id j) as [aid|] eqn:Eact; [|done].
  destruct Hact as (_ & a & Ha & Ejob & _). pose proof (qi_att_key _ Hd _ _ Ha) as Ek.
  unfold expire_stale. rewrite Eact. unfold fetch. unfold mbind, tx_bind, lift, query, require.
  unfold get_attempt. rewrite Ha. destruct (Z.leb_spec (att_lease_expires_at a) t) as [Ht|Ht].
  - eexists. split; [reflexivity|]. cbn [st_db]. split_and!.
    + done.
    + constructor.
      * eapply (settle_step _ j _ a); [done..|constructor|done].
      * intros k x Hx Hlt. cbn. rewrite Ek. rewrite lookup_insert_ne; [done|]. intros <-.
        rewrite Ha in Hx. injection Hx as <-. lia.
      * intros k x Hx. cbn. destruct (decide (k = job_id j)) as [->|Hne].
        -- right. rewrite lookup_insert_eq. rewrite Hj in Hx. injection Hx as <-.
           split; [done|]. by exists aid, a.
        -- left. by rewrite lookup_insert_ne.
      * intros k. cbn. rewrite Ek. split; intros Hk;
          (rewrite lookup_insert_ne; [done|intros <-; congruence]).
    + intros k Hk. cbn. by rewrite lookup_insert_ne.
    + intros k x Hx Hne. cbn. rewrite Ek. rewrite lookup_insert_ne; [done|]. intros <-. congruence.
    + intros _. cbn. by rewrite lookup_insert_eq.
  - exists s. split; [done|]. split; [done|]. split_and!; [|done..|].
    + constructor; [done|done|by left|done].
    + intros (aid' & a' & E1 & E2 & E3). rewrite Eact in E1. injection E1 as <-.
      rewrite Ha in E2. injection E2 as <-. lia.
Qed.

(** The whole loop. *)
Lemma expire_all_step t l env s :
  queue_inv (st_db s) → NoDup (map job_id l) →
  (∀ j, j ∈ l → db_jobs (st_db s) !! job_id j = Some j ∧ job_status j = JobLeased) →
  ∃ s', for_each l (expire_stale t) env s = Ok (tt, s') ∧ st_ids s' = st_ids s
  ∧ expires t (st_db s) (st_db s')
  ∧ (∀ k, k ∉ map job_id l → db_jobs (st_db s') !! k = db_jobs (st_db s) !! k)
  ∧ (∀ j, j ∈ l → stale t (st_db s) j → db_jobs (st_db s') !! job_id j = Some (requeue_job j t)).
Proof.
  revert s. induction l as [|j l IH]; intros s Hd Hnd Hl.
  { exists s. split_and!; [done|done| |done|by intros j Hj%not_elem_of_nil].
    constructor; [done|done|by left|done]. }
  apply NoDup_cons in Hnd as [Hj Hnd]. destruct (Hl j ltac:(left)) as [Hlk Hst].
  destruct (expire_stale_step t j env s Hd Hlk Hst) as (s1 & E1 & I1 & X1 & K1 & A1 & T1).
  destruct (ex_step _ _ _ X1 Hd) as [Hd1 _].
  assert (Hfresh : ∀ y, y ∈ l → job_id y ≠ job_id j).
  { intros y Hy E. apply Hj. change (job_id j ∈ map job_id l). rewrite <- E.
    by apply (list_elem_of_fmap_2 job_id). }
  destruct (IH s1 Hd1 Hnd) as (s2 & E2 & I2 & X2 & K2 & T2).
  { intros y Hy. rewrite K1 by by apply Hfresh. apply Hl. by right. }
  exists s2. split; [cbn; unfold mbind, tx_bind; by rewrite E1|]. split_and!.
  - congruence.
  - constructor.
    + etrans; [apply X1|apply X2].
    + intros k a Ha Ht. apply (ex_attempt _ _ _ X2); [|done]. by apply (ex_attempt _ _ _ X1).
    + intros k y Hy. destruct (decide (k = job_id j)) as [->|Hne].
      * rewrite K2 by done. by apply X1.
      * assert (Hy1 := Hy). rewrite <- K1 in Hy1 by done.
        destruct (ex_job _ _ _ X2 _ _ Hy1) as [?|(Hr & aid & a & Eact & Ha & Ht)]; [by left|].
        right. split; [done|]. exists aid.
        pose proof (qi_active _ Hd _ _ Hy) as Hact. rewrite Eact in Hact.
        destruct Hact as (_ & a0 & Ha0 & Ejob & _).
        rewrite (A1 _ _ Ha0) in Ha by congruence. injection Ha as <-. by exists a0.
    + intros k. split; intros Hk; apply X2, X1, Hk.
  - intros k Hk. cbn in Hk. apply not_elem_of_cons in Hk as [Hk1 Hk2].
    rewrite K2 by done. by apply K1.
  - intros y [->|Hy]%elem_of_cons Hs; [rewrite K2 by done; by apply T1|].
    apply T2; [done|]. destruct Hs as (aid & a & Eact & Ha & Ht). exists aid, a.
    split_and!; [done| |done]. apply A1; [done|].
    destruct (Hl y ltac:(by right)) as [Hy' _]. pose proof (qi_active _ Hd _ _ Hy') as Hact.
    rewrite Eact in Hact. destruct Hact as (_ & a0 & Ha0 & Ejob & _).
    rewrite Ha in Ha0. injection Ha0 as <-. rewrite Ejob. by apply Hfresh.
Qed.

Lemma job_leb_total a b : job_leb a b = false → job_leb b a = true.
Proof.
  unfold job_leb. repeat case_decide; try congruence; try lia.
  apply string_leb_total.
Qed.

Lemma job_leb_trans a b c : job_leb a b = true → job_leb b c = true → job_leb a c = true.
Proof.
  unfold job_leb. repeat case_decide; try congruence; try lia. apply string_leb_trans.
Qed.

(** The head of a sorted list is minimal. *)
(** The job a claim takes is claimable and first in the queue's order. *)
Lemma next_job_spec now filter_id d j :
  queue_inv d → next_job now filter_id d = Some j →
  db_jobs d !! job_id j = Some j ∧ claimable now filter_id j = true
  ∧ ∀ k x, db_jobs d !! k = Some x → claimable now filter_id x = true →
      k = job_id j ∨ job_leb j x = true.
Proof.
  intros Hd H. apply (head_sort_by _ _ _ job_leb_total job_leb_trans) in H as [Hj Hmin].
  apply list_elem_of_In, List.filter_In in Hj as [Hj Hc].
  apply list_elem_of_In, elem_of_all_jobs in Hj; [|done]. split_and!; [done..|].
  intros k x Hx Hcx. pose proof (qi_job_key _ Hd _ _ Hx) as Hk. rewrite <- Hk in Hx |- *.
  destruct (Hmin x) as [->|?]; [|by left|by right].
  apply list_elem_of_In, List.filter_In. split; [|done].
  by apply list_elem_of_In, elem_of_all_jobs.
Qed.

Lemma next_job_None now filter_id d :
  queue_inv d → next_job now filter_id d = None →
  ∀ k x, db_jobs d !! k = Some x → claimable now filter_id x = false.
Proof.
  intros Hd H k x Hx. destruct (claimable now filter_id x) eqn:Hc; [|done]. exfalso.
  unfold next_job in H.
  assert (Hin : x ∈ sort_by job_leb (List.filter (claimable now filter_id) (all_jobs d))).
  { apply elem_of_sort_by, list_elem_of_In, List.filter_In. split; [|done].
    apply list_elem_of_In, elem_of_all_jobs; [done|]. by rewrite (qi_job_key _ Hd _ _ Hx). }
  destruct (sort_by _ _); [|done]. by apply not_elem_of_nil in Hin.
Qed.

(** The attempt row a claim writes. *)
Definition new_attempt (id worker_id : string) (claimed_at lease_us : Z) (highest : Z)
    (job : RunExecutionJobRow) : RunExecutionAttemptRow := {|
  att_row_id := id; att_job_id := job_id job; att_ordinal := (highest + 1)%Z;
  att_worker_id := worker_id; att_lease_generation := (job_lease_generation job + 1)%Z;
  att_status := AttLeased; att_leased_at := claimed_at;
  att_lease_expires_at := (claimed_at + lease_us)%Z; att_last_heartbeat_at := claimed_at;
  att_finished_at := None; att_reason_code := None |}.

(** On a consistent queue only a reused identifier conflicts: the ordinal and the
    generation are above every earlier attempt of the job. *)
Lemma new_attempt_conflict id worker_id t lease_us j d :
  queue_inv d → db_jobs d !! job_id j = Some j →
  attempt_conflict (new_attempt id worker_id t lease_us (max_ordinal (job_id j) d) j) d = false
  ↔ db_attempts d !! id = None.
Proof.
  intros Hd Hj. unfold attempt_conflict. rewrite existsb_false. split.
  - intros Hc. destruct (db_attempts d !! id) as [a|] eqn:E; [|done]. exfalso.
    assert (Ha : a ∈ all_attempts d).
    { apply list_elem_of_fmap. exists (id, a). split; [done|]. by apply elem_of_map_to_list. }
    apply Hc in Ha. rewrite !orb_false_iff in Ha. destruct Ha as [[Ha _] _].
    apply bool_decide_eq_false in Ha. by apply Ha, (qi_att_key _ Hd).
  - intros Hid a Ha. assert (Hin := Ha). apply list_elem_of_fmap in Ha as ([k x] & -> & Hx).
    apply elem_of_map_to_list in Hx. cbn in *. rewrite !orb_false_iff. split_and!.
    + apply bool_decide_eq_false. rewrite (qi_att_key _ Hd _ _ Hx). congruence.
    + destruct (decide (att_job_id x = job_id j)) as [E|E]; [|by rewrite bool_decide_eq_false_2].
      apply andb_false_iff. right. apply Z.eqb_neq. intros Ho.
      assert (Hle : (att_ordinal x <= max_ordinal (job_id j) d)%Z); [|lia].
      apply max_default_spec, list_elem_of_fmap. exists x. split; [done|].
      apply list_elem_of_In, List.filter_In. split; [by apply list_elem_of_In|].
      by apply bool_decide_eq_true.
    + destruct (decide (att_job_id x = job_id j)) as [E|E]; [|by rewrite bool_decide_eq_false_2].
      apply andb_false_iff. right. apply Z.eqb_neq.
      destruct (qi_att_job _ Hd _ _ Hx) as (y & Hy & Hle). rewrite E, Hj in Hy.
      injection Hy as <-. lia.
Qed.

Lemma take_next_some worker_id lease_us filter_id t env s j :
  queue_inv (st_db s) → db_jobs (st_db s) !! job_id j = Some j →
  next_job t filter_id (st_db s) = Some j →
  let d := st_db s in
  let id := "attempt_" +:+ env_id env (st_ids s) in
  let a := new_attempt id worker_id t lease_us (max_ordinal (job_id j) d) j in
  let j' := lease_job j id (job_lease_generation j + 1) in
  take_next worker_id lease_us filter_id t env s =
  match db_attempts d !! id with
  | None => Ok (Some (j', a), MkSt (put_lease d a j') (st_ticks s) (S (st_ids s)))
  | Some _ => Raise (IntegrityError "run_execution_attempts")
  end.
Proof.
  intros Hd Hj Hn d id a j'. unfold take_next. erewrite tx_run; [|reflexivity].
  rewrite Hn. erewrite tx_run; [|reflexivity]. erewrite tx_run; [|reflexivity].
  pose proof (new_attempt_conflict id worker_id t lease_us j d Hd Hj) as Hc. fold a in Hc.
  fold d. change ("attempt" +:+ "_" +:+ env_id env (st_ids s)) with id.
  change (MkAttemptRow id _ _ _ _ _ _ _ _ _ _) with a.
  unfold insert_attempt, guard. unfold mbind, tx_bind, query, lift. cbn [st_db]. fold d.
  destruct (attempt_conflict a d), (db_attempts d !! id); try reflexivity; naive_solver.
Qed.

(** The tables once [claim_next_job] has expired the stale leases. *)
Definition expired_at (t : instant) (d d1 : DB) : Prop :=
  expires t d d1 ∧ ∀ k j, db_jobs d !! k = Some j → job_status j = JobLeased → stale t d j →
    db_jobs d1 !! k = Some (requeue_job j t).

(** What a claim does, on every branch: stale leases expire, then the first claimable job
    gets an attempt of the next generation. Only a reused attempt identifier raises. *)
Lemma claim_body_spec worker_id lease_us filter_id now env s :
  queue_inv (st_db s) → is_blank worker_id = false → (0 < lease_us)%Z →
  let t := match now with Some t => t | None => env_now env (st_ticks s) end in
  let id := "attempt_" +:+ env_id env (st_ids s) in
  ∃ d1, expired_at t (st_db s) d1 ∧
  match next_job t filter_id d1 with
  | None => ∃ s', claim_body worker_id lease_us filter_id now env s = Ok (None, s')
      ∧ st_db s' = d1
  | Some j =>
      let a := new_attempt id worker_id t lease_us (max_ordinal (job_id j) d1) j in
      let j' := lease_job j id (job_lease_generation j + 1) in
      match db_attempts d1 !! id with
      | None => ∃ s', claim_body worker_id lease_us filter_id now env s = Ok (Some (j', a), s')
          ∧ st_db s' = put_lease d1 a j'
      | Some _ => claim_body worker_id lease_us filter_id now env s
          = Raise (IntegrityError "run_execution_attempts")
      end
  end.
Proof.
  intros Hd Hw Hl t id.
  set (s0 := MkSt (st_db s) (match now with Some _ => st_ticks s | None => S (st_ticks s) end)
                  (st_ids s)).
  assert (Hnow : now_or_clock now env s = Ok (t, s0)) by (destruct s; by destruct now).
  set (l := List.filter (λ j, job_status j ==b JobLeased) (all_jobs (st_db s))).
  assert (Hel : ∀ j, j ∈ l ↔ db_jobs (st_db s) !! job_id j = Some j ∧ job_status j = JobLeased).
  { intros j. unfold l. rewrite list_elem_of_In, List.filter_In, <- list_elem_of_In.
    rewrite elem_of_all_jobs, bool_decide_eq_true by done. done. }
  destruct (expire_all_step t l env s0) as (s1 & Eloop & Hids & Hx & _ & Hstale); cbn.
  { done. } { by apply NoDup_map_filter, all_jobs_distinct. } { intros j. apply Hel. }
  exists (st_db s1). split.
  { split; [done|]. intros k j Hj Hs Ht. pose proof (qi_job_key _ Hd _ _ Hj) as Ek.
    rewrite <- Ek. apply Hstale; [|done]. apply Hel. by rewrite Ek. }
  destruct (ex_step _ _ _ Hx Hd) as [Hd1 _].
  assert (Hbody : claim_body worker_id lease_us filter_id now env s =
    take_next worker_id lease_us filter_id t env s1).
  { unfold claim_body. rewrite Hw, (proj2 (Z.leb_gt _ _) Hl). unfold mbind at 1, tx_bind at 1.
    cbn [guard lift raise_when]. unfold mbind at 1, tx_bind at 1.
    cbn [guard lift raise_when]. unfold mbind at 1, tx_bind at 1. rewrite Hnow.
    unfold mbind at 1, tx_bind at 1. cbn [query]. unfold mbind at 1, tx_bind at 1.
    cbn [st_db s0]. fold l. by rewrite Eloop. }
  rewrite Hbody. destruct (next_job t filter_id (st_db s1)) as [j|] eqn:Hj.
  - destruct (next_job_spec _ _ _ _ Hd1 Hj) as (Hlk & _ & _).
    pose proof (take_next_some worker_id lease_us filter_id t env s1 j Hd1 Hlk Hj) as Hn.
    cbv zeta in Hn. rewrite Hids in Hn. change (st_ids s0) with (st_ids s) in Hn.
    fold id in Hn. cbv zeta. destruct (db_attempts (st_db s1) !! id); [done|]. by eexists.
  - exists s1. split; [|done]. unfold take_next. erewrite tx_run; [|reflexivity].
    by rewrite Hj.
Qed.

Lemma claim_body_step worker_id lease_us filter_id now :
  steps_by queue_step (claim_body worker_id lease_us filter_id now).
Proof.
  intros env s r s' H Hd.
  destruct (is_blank worker_id) eqn:Hw; [by unfold claim_body in H; rewrite Hw in H; inv_tx|].
  destruct (Z.leb_spec lease_us 0) as [Hl|Hl].
  { unfold claim_body in H. rewrite (proj2 (Z.leb_le _ _) Hl) in H. by inv_tx. }
  destruct (claim_body_spec worker_id lease_us filter_id now env s Hd Hw Hl)
    as (d1 & [Hx _] & Hspec).
  destruct (ex_step _ _ _ Hx Hd) as [Hd1 He1].
  destruct (next_job _ _ _) as [j|] eqn:Hj.
  - destruct (next_job_spec _ _ _ _ Hd1 Hj) as (Hlk & Hc & _). cbv zeta in Hspec.
    destruct (db_attempts d1 !! _) eqn:Hid; [congruence|].
    destruct Hspec as (s1 & Hr & Hs1). rewrite Hr in H. injection H as <- <-. rewrite Hs1.
    unfold claimable in Hc. bools.
    split; [by apply (queue_inv_claim d1 j)|]. etrans; [exact He1|].
    apply (evolves_put d1 j); cbn; try done || lia; [by rewrite H|]. intros x Hx'. congruence.
  - destruct Hspec as (s1 & Hr & Hs1). rewrite Hr in H. injection H as <- <-. by rewrite Hs1.
Qed.

(** A job as [enqueue_run] creates it. *)
Definition fresh_job (j : RunExecutionJobRow) : Prop :=
  job_status j = JobQueued ∧ job_active_attempt_id j = None ∧ job_finished_at j = None
  ∧ job_rejection_code j = None.

Lemma job_conflict_false row d :
  job_conflict row d = false ↔ ∀ k j, db_jobs d !! k = Some j →
    job_id j ≠ job_id row ∧ job_run_id j ≠ job_run_id row
    ∧ job_idempotency_key j ≠ job_idempotency_key row.
Proof.
  unfold job_conflict. rewrite existsb_false. split.
  - intros H k j Hj. assert (Hin : j ∈ all_jobs d).
    { apply list_elem_of_fmap. exists (k, j). split; [done|]. by apply elem_of_map_to_list. }
    apply H in Hin. rewrite !orb_false_iff, !bool_decide_eq_false in Hin. tauto.
  - intros H j ([k x] & -> & Hx%elem_of_map_to_list)%list_elem_of_fmap.
    apply H in Hx. rewrite !orb_false_iff, !bool_decide_eq_false. tauto.
Qed.

Lemma enqueue_step d j :
  fresh_job j → job_conflict j d = false → queue_step d (set_jobs (insert (job_id j) j) d).
Proof.
  intros (Hq & Ha & Hf & Hr) Hc Hd. rewrite job_conflict_false in Hc.
  assert (Hnew : db_jobs d !! job_id j = None).
  { destruct (db_jobs d !! job_id j) as [x|] eqn:E; [|done]. destruct (Hc _ _ E) as [Hne _].
    by destruct Hne; apply (qi_job_key _ Hd). }
  assert (Hkeep : ∀ k x, db_jobs d !! k = Some x → <[job_id j:=j]> (db_jobs d) !! k = Some x).
  { intros k x Hx. rewrite lookup_insert_ne; [done|]. intros <-. congruence. }
  split.
  - constructor; cbn; try apply Hd.
    + intros k x [[<- <-]|[_ Hx]]%lookup_insert_Some; [done|by apply (qi_job_key _ Hd)].
    + intros k a (x & Hx & Hle)%(qi_att_job _ Hd). eauto.
    + intros k x [[<- <-]|[_ Hx]]%lookup_insert_Some; [by rewrite Ha, Hq|].
      by apply (qi_active _ Hd).
    + intros k a Hk Hs. destruct (qi_leased _ Hd _ _ Hk Hs) as (x & Hx & E). eauto.
    + intros k x [[<- <-]|[_ Hx]]%lookup_insert_Some; [|by eapply (qi_job_valid _ Hd)].
      apply job_state_iff. cbn. rewrite Hq, Ha, Hf, Hr. cbn. naive_solver.
    + intros k1 x1 k2 x2 H1 H2 Hk.
      apply lookup_insert_Some in H1 as [[<- <-]|[_ H1]], H2 as [[<- <-]|[_ H2]]; try done.
      * apply Hc in H2. naive_solver.
      * apply Hc in H1. naive_solver.
      * by apply (qi_job_keys _ Hd _ x1 _ x2).
  - constructor; cbn.
    + intros k x Hx. exists x. split_and!; done || eauto || lia.
    + intros k a Hk. exists a. unfold same_attempt. done.
Qed.

Lemma queue_inv_empty : queue_inv empty_db.
Proof. by constructor; cbn; intros *; rewrite ?lookup_empty. Qed.

(** ** What a claim grants *)

(** A job a worker may take at [t]: queued and available, or leased with a lease that ran
    out. *)
Definition eligible (t : instant) (filter_id : option string) (d : DB) (j : RunExecutionJobRow)
    : Prop :=
  (match filter_id with Some id => job_id j = id | None => True end)
  ∧ (job_status j = JobQueued ∧ (job_available_at j <= t)%Z
     ∨ job_status j = JobLeased ∧ stale t d j).

Lemma claimable_true t filter_id j :
  claimable t filter_id j = true ↔
  (match filter_id with Some id => job_id j = id | None => True end)
  ∧ job_status j = JobQueued ∧ (job_available_at j <= t)%Z.
Proof.
  unfold claimable. rewrite !andb_true_iff, bool_decide_eq_true, Z.leb_le.
  destruct filter_id; [rewrite bool_decide_eq_true|]; tauto.
Qed.

(** Expiring the stale leases makes exactly the eligible jobs claimable. *)
Lemma eligible_claimable t filter_id d d1 :
  queue_inv d → expired_at t d d1 →
  ∀ k, (∃ j, db_jobs d !! k = Some j ∧ eligible t filter_id d j) ↔
       (∃ j, db_jobs d1 !! k = Some j ∧ claimable t filter_id j = true).
Proof.
  intros Hd [Hx Hst] k. split.
  - intros (j & Hj & Hf & [[Hq Ha]|[Hl Hs]]).
    + exists j. rewrite claimable_true. split; [|done].
      destruct (ex_job _ _ _ Hx _ _ Hj) as [?|(_ & aid & a & Eact & _)]; [done|].
      pose proof (qi_active _ Hd _ _ Hj) as Hact. rewrite Eact in Hact. destruct Hact. congruence.
    + exists (requeue_job j t). rewrite claimable_true. cbn. split_and!; [|done|done|lia].
      by apply Hst.
  - intros (j1 & Hj1 & Hc). apply claimable_true in Hc as (Hf & Hq & Ha).
    destruct (db_jobs d !! k) as [j|] eqn:Hj; [|apply (ex_none _ _ _ Hx) in Hj; congruence].
    exists j. split; [done|].
    destruct (ex_job _ _ _ Hx _ _ Hj) as [E|(E & aid & a & Eact & Hat & Ht)];
      rewrite Hj1 in E; injection E as ->; [by split; [|left]|].
    split; [done|right]. pose proof (qi_active _ Hd _ _ Hj) as Hact. rewrite Eact in Hact.
    split; [by destruct Hact|by exists aid, a].
Qed.

Lemma granted_models j id worker_id t lease_us highest :
  validate_job_state (job_document (lease_job j id (job_lease_generation j + 1))) = Ok tt →
  (0 < lease_us)%Z →
  let a := new_attempt id worker_id t lease_us highest j in
  execution_job_model (lease_job j id (job_lease_generation j + 1))
    = Ok (job_document (lease_job j id (job_lease_generation j + 1)))
  ∧ execution_attempt_model a = Ok (attempt_document a).
Proof.
  intros Hv Hl a. unfold execution_job_model, execution_attempt_model. rewrite Hv. split; [done|].
  unfold validate_attempt_state. cbn.
  rewrite (proj2 (Z.leb_gt (t + lease_us) t)), (proj2 (Z.ltb_ge t t)) by lia. done.
Qed.

(** The row of an eligible job once its stale lease is expired. *)
Definition queue_row (t : instant) (j : RunExecutionJobRow) : RunExecutionJobRow :=
  if job_status j ==b JobLeased then requeue_job j t else j.

Lemma eligible_row t filter_id d d1 k j :
  queue_inv d → expired_at t d d1 → db_jobs d !! k = Some j → eligible t filter_id d j →
  db_jobs d1 !! k = Some (queue_row t j) ∧ claimable t filter_id (queue_row t j) = true.
Proof.
  intros Hd Hx Hj He.
  destruct (proj1 (eligible_claimable t filter_id d d1 Hd Hx k)) as (j1 & Hj1 & Hc); [eauto|].
  assert (j1 = queue_row t j) as ->; [|done].
  unfold queue_row. destruct He as (_ & [[Hq _]|[Hl Hs]]).
  - rewrite (bool_decide_eq_false_2 (job_status j = JobLeased)) by congruence. destruct Hx as [Hx _].
    destruct (ex_job _ _ _ Hx _ _ Hj) as [E|(_ & aid & a & Eact & _)]; [congruence|].
    pose proof (qi_active _ Hd _ _ Hj) as Hact. rewrite Eact in Hact. destruct Hact. congruence.
  - rewrite (bool_decide_eq_true_2 (job_status j = JobLeased)) by done. destruct Hx as [_ Hst]. rewrite (Hst _ _ Hj Hl Hs) in Hj1. by injection Hj1.
Qed.

(** On a consistent queue a claim with a fresh attempt identifier never raises. It
    returns nothing exactly when no job is eligible; otherwise it grants the eligible job
    that is first by (available_at, created_at, id), under the next lease generation and
    until [t + lease], and the fence it hands out is live. Leases that have not run out
    keep their attempt rows. *)
Theorem claim_next_job_grants worker_id lease_us filter_id now env s :
  queue_inv (st_db s) → is_blank worker_id = false → (0 < lease_us)%Z →
  db_attempts (st_db s) !! ("attempt_" +:+ env_id env (st_ids s)) = None →
  let t := match now with Some t => t | None => env_now env (st_ticks s) end in
  let d := st_db s in
  let '(s', r) := claim_next_job worker_id lease_us filter_id now env s in
  (∀ k a, db_attempts d !! k = Some a → (t < att_lease_expires_at a)%Z →
     db_attempts (st_db s') !! k = Some a)
  ∧ ((r = Ok None ∧ ∀ k x, db_jobs d !! k = Some x → ¬ eligible t filter_id d x)
     ∨ ∃ j job attempt, r = Ok (Some (job, attempt))
         ∧ db_jobs d !! job_id j = Some j ∧ eligible t filter_id d j
         ∧ (∀ k x, db_jobs d !! k = Some x → eligible t filter_id d x →
              k = job_id j ∨ job_leb (queue_row t j) (queue_row t x) = true)
         ∧ xj_lease_generation job = (job_lease_generation j + 1)%Z
         ∧ xa_lease_expires_at_utc attempt = (t + lease_us)%Z
         ∧ fence_holds (st_db s')
             (MkFence (job_id j) (xa_attempt_id attempt) worker_id (xj_lease_generation job)) t
             (lease_job (queue_row t j) (xa_attempt_id attempt) (xj_lease_generation job))
             (new_attempt (xa_attempt_id attempt) worker_id t lease_us
                (xa_ordinal attempt - 1) j)).
Proof.
  intros Hd Hw Hl Hid t d. unfold claim_next_job, transaction.
  pose proof (claim_body_step worker_id lease_us filter_id now env s) as Hstep.
  destruct (claim_body_spec worker_id lease_us filter_id now env s Hd Hw Hl)
    as (d1 & Hx & Hspec).
  fold t d in Hx, Hspec. destruct (ex_step _ _ _ (proj1 Hx) Hd) as [Hd1 _].
  pose proof (proj1 (ex_none _ _ _ (proj1 Hx) _) Hid) as Hid1.
  destruct (next_job t filter_id d1) as [j1|] eqn:Hj.
  - destruct (next_job_spec _ _ _ _ Hd1 Hj) as (Hlk & Hc & Hmin). cbv zeta in Hspec.
    rewrite Hid1 in Hspec. destruct Hspec as (s' & Hr & Hs'). rewrite Hr in Hstep |- *.
    destruct (proj2 (eligible_claimable t filter_id d d1 Hd Hx (job_id j1))) as (j & Hj0 & He);
      [eauto|].
    pose proof (qi_job_key _ Hd _ _ Hj0) as Ek.
    destruct (eligible_row _ _ _ _ _ _ Hd Hx Hj0 He) as [Hrow _].
    rewrite Hlk in Hrow. injection Hrow as ->.
    assert (Hgen : job_lease_generation (queue_row t j) = job_lease_generation j)
      by (unfold queue_row; by destruct (job_status j ==b JobLeased)).
    destruct (Hstep _ _ eq_refl Hd) as [Hd' _].
    set (id := "attempt_" +:+ env_id env (st_ids s)) in *.
    assert (Hv : validate_job_state (job_document
      (lease_job (queue_row t j) id (job_lease_generation (queue_row t j) + 1))) = Ok tt).
    { apply (qi_job_valid _ Hd' (job_id (queue_row t j))). rewrite Hs'. cbn.
      by rewrite lookup_insert_eq. }
    destruct (granted_models _ id worker_id t lease_us (max_ordinal (job_id (queue_row t j)) d1)
      Hv Hl) as [E1 E2].
    rewrite E1, E2. split.
    + intros k a Ha Ht. rewrite Hs'. cbn. rewrite lookup_insert_ne.
      * by apply (ex_attempt _ _ _ (proj1 Hx)).
      * intros <-. apply (ex_attempt _ _ _ (proj1 Hx)) in Ha; [congruence|done].
    + right. rewrite <- Ek in Hmin. exists j. do 2 eexists. split; [reflexivity|]. rewrite Ek.
      cbn. rewrite Hgen. split_and!; try done.
      * intros k x Hk Hxe. destruct (eligible_row _ _ _ _ _ _ Hd Hx Hk Hxe) as [Hk1 Hc1].
        rewrite <- Ek. by apply Hmin.
      * unfold fence_holds. rewrite Hs', Hgen. cbn. rewrite !lookup_insert_eq.
        unfold new_attempt. rewrite Hgen, Ek, Z.add_simpl_r. split_and!; try done. lia.
  - destruct Hspec as (s' & Hr & Hs'). rewrite Hr. split.
    + intros k a Ha Ht. rewrite Hs'. by apply (ex_attempt _ _ _ (proj1 Hx)).
    + left. split; [done|]. intros k x Hk Hxe.
      destruct (eligible_row _ _ _ _ _ _ Hd Hx Hk Hxe) as [Hk1 Hc1].
      by rewrite (next_job_None _ _ _ Hd1 Hj _ _ Hk1) in Hc1.
Qed.

(** A queue of two jobs, the first of them leased with a lease that ran out at 50. *)
Definition demo_job (id : string) (available : instant) : RunExecutionJobRow := {|
  job_id := id; job_run_id := "run_" +:+ id; job_status := JobQueued;
  job_idempotency_key := "key_" +:+ id; job_request_digest := "digest";
  job_available_at := available; job_active_attempt_id := None; job_lease_generation := 0;
  job_created_at := 0; job_finished_at := None; job_rejection_code := None |}.
Definition demo_env : Env := {| env_now := λ n, Z.of_nat n; env_id := λ n, pretty n |}.
Definition demo_queued : St :=
  MkSt (set_jobs (λ _, {["a" := demo_job "a" 5; "b" := demo_job "b" 90]}) empty_db) 0 0.
Definition demo_queue : St := fst (claim_next_job "w1" 40 None (Some 10%Z) demo_env demo_queued).

Lemma demo_queue_inv : queue_inv (st_db demo_queue).
Proof.
  assert (H1 : queue_inv (st_db demo_queued)).
  { change (st_db demo_queued) with (set_jobs (insert (job_id (demo_job "a" 5)) (demo_job "a" 5))
      (set_jobs (insert (job_id (demo_job "b" 90)) (demo_job "b" 90)) empty_db)).
    apply enqueue_step; [done|by vm_compute|]. apply enqueue_step; [done|by vm_compute|].
    apply queue_inv_empty. }
  pose proof (transaction_steps queue_step (claim_body "w1" 40 None (Some 10%Z)) (λ claimed,
    match claimed with
    | None => Ok None
    | Some (job, attempt) =>
        j ← execution_job_model job; a ← execution_attempt_model attempt; Ok (Some (j, a))
    end) demo_env demo_queued (claim_body_step _ _ _ _) H1) as [H2 _].
  exact H2.
Qed.

(** At 100 the second worker takes job b first: job a is re-queued at 100, behind it. *)
Lemma claim_next_job_grants_witness :
  (let '(s', r) := claim_next_job "w2" 40 None (Some 100%Z) demo_env demo_queue in
   (∀ k a, db_attempts (st_db demo_queue) !! k = Some a → (100 < att_lease_expires_at a)%Z →
     db_attempts (st_db s') !! k = Some a))
  ∧ match snd (claim_next_job "w2" 40 None (Some 100%Z) demo_env demo_queue) with
    | Ok (Some (job, attempt)) => xj_job_id job = "b" ∧ xa_ordinal attempt = 1%Z
    | _ => False
    end.
Proof.
  split; [|by vm_compute].
  pose proof (claim_next_job_grants "w2" 40 None (Some 100%Z) demo_env demo_queue
    demo_queue_inv eq_refl eq_refl eq_refl) as H.
  destruct (claim_next_job _ _ _ _ _ _) as [s' r]. exact (proj1 H).
Defined.

(** A heartbeat does not check its duration. Under a live lease, a heartbeat whose new
    expiry is not after the acquisition commits that expiry and then raises while it builds
    the returned model: the caller sees a [ValidationError], and the lease is already
    lost at the instant of the heartbeat. *)
Theorem heartbeat_commits_then_raises fence lease_us t j a env s :
  queue_inv (st_db s) → fence_holds (st_db s) fence t j a →
  (t + lease_us <= att_leased_at a)%Z → (lease_us <= 0)%Z →
  let '(s', r) := heartbeat_lease fence lease_us (Some t) env s in
  r = Raise (ValidationError "lease expiry must be after lease acquisition")
  ∧ db_attempts (st_db s') !! f_attempt_id fence = Some (beat_attempt a t (t + lease_us))
  ∧ ∀ j' a', ¬ fence_holds (st_db s') fence t j' a'.
Proof.
  intros Hq Hf Hexp Hneg. unfold heartbeat_lease, transaction, heartbeat_body.
  erewrite tx_run; [|reflexivity].
  erewrite tx_run; [|apply require_active_lease_ok; by split].
  cbv beta iota zeta. erewrite tx_run; [|reflexivity].
  cbn -[Z.add]. destruct Hf as (_ & Ha & _). pose proof (qi_att_key _ Hq _ _ Ha) as Ek.
  rewrite Ek, lookup_insert_eq. split_and!; [|done|].
  - unfold execution_attempt_model, validate_attempt_state. cbn -[Z.add].
    by rewrite (proj2 (Z.leb_le _ _) Hexp).
  - intros j' a' (_ & Ha' & _ & _ & _ & _ & _ & _ & _ & Hlt). cbn -[Z.add] in Ha'.
    rewrite lookup_insert_eq in Ha'. injection Ha' as <-. cbn -[Z.add] in Hlt. lia.
Qed.

Lemma heartbeat_commits_then_raises_witness :
  let fence := MkFence "a" "attempt_0" "w1" 1 in
  let '(s', r) := heartbeat_lease fence (-5) (Some 12%Z) demo_env demo_queue in
  r = Raise (ValidationError "lease expiry must be after lease acquisition")
  ∧ is_Some (db_attempts (st_db s') !! "attempt_0").
Proof.
  assert (Hf : ∃ j a, fence_holds (st_db demo_queue) (MkFence "a" "attempt_0" "w1" 1) 12 j a
    ∧ (12 + -5 <= att_leased_at a)%Z).
  { eexists _, _. split; [split_and!; vm_compute; reflexivity|vm_compute; discriminate]. }
  destruct Hf as (j & a & Hf & Hle).
  pose proof (heartbeat_commits_then_raises _ (-5) 12 j a demo_env demo_queue demo_queue_inv Hf Hle
    ltac:(lia)) as H. cbv zeta.
  destruct (heartbeat_lease _ _ _ _ _) as [s' r]. destruct H as (-> & Ha & _). split; [done|].
  cbn [f_attempt_id] in Ha. rewrite Ha. eauto.
Defined.
