(* ===== verification/Handlers.v ===== *)
(** * The factual checks of the Run ledger
    (src/src/evidrun/infrastructure/database/ledger/handlers/: evaluation.py, lifecycle.py,
    subject.py).

    A handler reads the tables and either raises or lets the event through. It writes
    nothing, so it is a function of the tables into [result unit]. The payload is the
    normalized document: [d[k]] is [jitem], which raises [KeyError], and [d.get(k)] is
    [jget]. [or] stops at its first true operand, so a later [d[k]] is not evaluated. *)

From Stdlib Require Import SpecFloat.
From S2P Require Import Prelude PyText PyJson Base Authoring Runtime Events Evaluation Store.

(** [a or b] where evaluating an operand may raise. *)
Definition or_else (a b : result bool) : result bool := x ← a; if (x : bool) then Ok true else b.
#[local] Infix "or" := or_else (at level 51, right associativity).
#[local] Notation "x ∈ₛ X" := (bool_decide (x ∈ (X : gset string))) (at level 35, no associativity).

(** Equality of parsed documents: objects compare as mappings. Every document compared
    here is made of strings. *)
Definition doc_eqb (v w : json) : bool := sort_keys v ==b sort_keys w.

(** [payload[k] != v]. *)
Definition item_differs (payload : json) (k : string) (v : json) : result bool :=
  x ← jitem k payload; Ok (negb (doc_eqb x v)).

(** [payload.get(k) != v], where [v] may be None. *)
Definition get_differs (payload : json) (k : string) (v : option json) : bool :=
  match jget k payload, v with
  | Some x, Some y => negb (doc_eqb x y)
  | None, None => false
  | _, _ => true
  end.

(** [str(payload[k])] of a string field. *)
Definition item_text (payload : json) (k : string) : result string := jtext <$> jitem k payload.

(** [payload.get(k, [])] of a list of strings. *)
Definition get_strings (payload : json) (k : string) : list string :=
  match jget k payload with Some (JArr l) => map jtext l | _ => [] end.

(** [any(p(x) for x in l)] where [p] may raise: stops at the first hit. *)
Fixpoint any_res {A} (p : A → result bool) (l : list A) : result bool :=
  match l with
  | [] => Ok false
  | x :: l' => b ← p x; if (b : bool) then Ok true else any_res p l'
  end.

(** ** evaluation.py *)

(** A completion event of this record among the prior events. *)
Definition completes (record : string) (e : RunEventRow) : bool :=
  evt_event_type e ==b "evaluation.completed"
  && negb (get_differs (evt_payload e) "evaluation_record_id" (Some (JStr record))).

Definition check_evaluation_completed (d : DB) (run : string) (payload : json)
    (prior_events : list RunEventRow) : result unit :=
  id ← item_text payload "evaluation_record_id";
  mismatch ←
    match db_evaluations d !! id with
    | None => Ok true
    | Some evaluation =>
        Ok (evrow_run_id evaluation !=b run)
        or item_differs payload "evaluation_record_digest" (JStr (evrow_record_digest evaluation))
        or item_differs payload "gate_status"
             (JStr (GateStatus_value (er_gate_status (evrow_record evaluation))))
    end;
  raise_when mismatch
    (ValueError "evaluation.completed requires the exact persisted EvaluationRecord");;
  raise_when (existsb (completes id) prior_events)
    (ValueError "EvaluationRecord already has a completion event").

(** ** lifecycle.py *)

Definition check_run_queued (d : DB) (run : RunRow) (payload : json) : result unit :=
  match run_run_spec_id run, run_admission_id run with
  | Some spec_id, Some admission_id =>
      match db_run_specs d !! spec_id, db_admissions d !! admission_id with
      | Some spec_row, Some admission_row =>
          raise_when (get_differs payload "run_spec_digest" (Some (JStr (rsp_digest spec_row)))
              || get_differs payload "admission_digest" (Some (JStr (arow_digest admission_row))))
            (ValueError "run.queued contract digests do not match the RunRecord")
      | _, _ => Raise (ValueError "run.queued references missing Run contracts")
      end
  | _, _ => Raise (ValueError "run.queued requires canonical Run contracts")
  end.

(** [bool(json.loads(text))]. *)
Definition truthy (v : json) : bool :=
  match v with
  | JNull | JBool false | JInt 0%Z | JStr "" | JArr [] | JObj [] => false
  | JFloat f => negb (SFeqb (pf_value f) (S754_zero false))
  | _ => true
  end.

Definition snapshot_mismatch (payload : json) (run : string) (snapshot : ContextSnapshotRow)
    : result bool :=
  Ok (snap_run_id snapshot !=b run)
  or item_differs payload "policy_id" (JStr (snap_policy_id snapshot))
  or item_differs payload "strategy" (JStr (ContextStrategy_value (snap_strategy snapshot)))
  or item_differs payload "content_hash" (JStr (snap_content_hash snapshot))
  or item_differs payload "source_chars" (JInt (snap_source_chars snapshot))
  or item_differs payload "selected_chars" (JInt (snap_selected_chars snapshot))
  or item_differs payload "omitted" (JBool (truthy (snap_omitted snapshot))).

Definition check_context_composed (d : DB) (run : RunRow) (id : string) (payload : json)
    : result unit :=
  snapshot_id ← item_text payload "snapshot_id";
  snapshot ← require (db_snapshots d !! snapshot_id)
    (ValueError "context.composed requires the exact persisted ContextSnapshot");
  mismatch ← snapshot_mismatch payload id snapshot;
  raise_when mismatch (ValueError "context.composed requires the exact persisted ContextSnapshot");;
  spec_id ← require (run_run_spec_id run)
    (ValueError "context.composed requires a canonical RunSpec");
  spec_row ← require (db_run_specs d !! spec_id)
    (ValueError "context.composed references a missing RunSpec");
  raise_when
    (match spec_context_policy (rsp_spec spec_row) with
     | None => true
     | Some policy => cp_id policy !=b snap_policy_id snapshot
         || cp_strategy policy !=b snap_strategy snapshot
     end)
    (ValueError "ContextSnapshot policy does not match the admitted RunSpec").

(** A completion event of this record and digest. *)
Definition completes_exactly (id digest : string) (e : RunEventRow) : bool :=
  completes id e
  && negb (get_differs (evt_payload e) "evaluation_record_digest" (Some (JStr digest))).

(** The loop over [evaluation_refs]: each record belongs to the Run and was announced. *)
Fixpoint referenced_evaluations (d : DB) (run : string) (prior_events : list RunEventRow)
    (refs : list string) : result (list EvaluationRecordRow) :=
  match refs with
  | [] => Ok []
  | id :: rest =>
      evaluation ← require (db_evaluations d !! id)
        (ValueError "terminal event references an evaluation outside the Run");
      raise_when (evrow_run_id evaluation !=b run)
        (ValueError "terminal event references an evaluation outside the Run");;
      raise_when (negb (existsb (completes_exactly id (evrow_record_digest evaluation)) prior_events))
        (ValueError "terminal evaluation ref has no matching completion event");;
      l ← referenced_evaluations d run prior_events rest;
      Ok (evaluation :: l)
  end.

(** The persisted evaluation record identifiers of a Run. *)
Definition persisted_evaluation_ids (d : DB) (run : string) : gset string :=
  list_to_set (map evrow_id (List.filter (λ e, evrow_run_id e ==b run)
    (map snd (map_to_list (db_evaluations d))))).

Definition call_ids (types : list string) (events : list RunEventRow) : result (list string) :=
  mapM (λ e, item_text (evt_payload e) "call_id")
    (List.filter (λ e, evt_event_type e ∈b types) events).

Definition check_goal_result (spec : RunSpec) (payload : json) : result unit :=
  goal_result ← jitem "goal_result" payload;
  raise_when (get_differs goal_result "goal_mode"
      (Some (JStr (GoalMode_value (goal_mode (spec_goal spec))))))
    (ValueError "terminal Goal result mode does not match the RunSpec Goal");;
  raise_when (negb (get_differs goal_result "goal_mode" (Some (JStr "bounded_exploration")))
      && negb (existsb (λ s, negb (get_differs goal_result "stop_condition_kind"
                 (Some (JStr (StopKind_value (sto_kind s)))))) (spec_stop_conditions spec)))
    (ValueError "bounded exploration terminal references an undeclared stop condition").

Definition check_checkpoint_refs (d : DB) (run : string) (refs : list string) : result unit :=
  raise_when (existsb (λ id, match db_checkpoints d !! id with
                             | None => true | Some c => ckrow_run_id c !=b run end) refs)
    (ValueError "terminal event references a checkpoint outside the Run").

Definition check_stage_coverage (plan : EvaluationPlanSpec) (records : list EvaluationRecord)
    : result unit :=
  results ← gate_results plan records;
  raise_when (negb (forallb (λ s, match results !! s with Some _ => true | None => false end)
                      (stages_visible_after_gates plan results)))
    (ValueError "completed Run does not cover the required EvaluationPlan stages").

Definition check_open_tool_calls (prior_events : list RunEventRow) : result unit :=
  called ← call_ids ["tool.called"] prior_events;
  closed ← call_ids ["tool.completed"; "tool.denied"; "tool.failed"] prior_events;
  raise_when (negb (forallb (λ c, c ∈b closed) called))
    (ValueError "terminal Run cannot contain an unresolved tool call").

Definition check_terminal_event (d : DB) (run : RunRow) (id event_type : string) (payload : json)
    (prior_events : list RunEventRow) (prior_event_types : list string) : result unit :=
  spec_id ← require (run_run_spec_id run)
    (ValueError "terminal event requires a canonical RunSpec");
  spec_row ← require (db_run_specs d !! spec_id)
    (ValueError "terminal event references a missing RunSpec");
  let spec := rsp_spec spec_row in
  check_goal_result spec payload;;
  let refs := get_strings payload "evaluation_record_refs" in
  raise_when (list_to_set refs !=b persisted_evaluation_ids d id)
    (ValueError "terminal event must reference every persisted EvaluationRecord exactly");;
  raise_when (event_type ==b "run.completed"
      && (negb ("subject.responded" ∈b prior_event_types) || refs ==b []))
    (ValueError "completed Run requires a Subject response and evaluation records");;
  records ← referenced_evaluations d id prior_events refs;
  (if event_type ==b "run.completed"
   then check_stage_coverage (spec_evaluation_plan spec) (map evrow_record records)
   else Ok tt);;
  raise_when (hp_required (plan_human_adjudication_policy (spec_evaluation_plan spec))
      && negb (existsb (λ r, evrow_source_type r ==b SrcHumanAdjudicator) records))
    (ValueError "terminal event requires the planned verified human adjudication");;
  check_checkpoint_refs d id (get_strings payload "checkpoint_refs");;
  check_open_tool_calls prior_events.

(** ** subject.py *)

Definition check_subject_invoked (d : DB) (run : RunRow) (id : string) (payload : json)
    : result unit :=
  match run_run_spec_id run, run_admission_id run with
  | Some spec_id, Some admission_id =>
      match db_run_specs d !! spec_id, db_admissions d !! admission_id, db_envelopes d !! id with
      | Some spec_row, Some admission_row, Some envelope_row =>
          let inventory := adm_resolved_inventory (arow_record admission_row) in
          let provider_fields :=
            [("provider_profile_id", ri_provider_profile_id inventory);
             ("provider_model", ri_provider_model inventory);
             ("provider_reasoning_effort", ri_provider_reasoning_effort inventory);
             ("provider_adapter", ri_provider_adapter inventory)] in
          raise_when
            (get_differs payload "runner" (Some (JStr (cap_name (ri_runner_ref inventory))))
             || get_differs payload "network" (Some (JStr (NetworkMode_value
                  (np_mode (ws_network_policy (spec_workspace (rsp_spec spec_row)))))))
             || get_differs payload "subject_envelope_digest"
                  (Some (JStr (erow_digest envelope_row)))
             || existsb (λ '(field, value), get_differs payload field (JStr <$> value))
                  provider_fields)
            (ValueError "Subject invocation does not match admitted runner/provider evidence")
      | _, _, _ => Raise (ValueError "Subject invocation references missing canonical evidence")
      end
  | _, _ => Raise (ValueError "Subject invocation requires canonical Run contracts")
  end.

Definition check_subject_responded (d : DB) (run : RunRow) (payload : json) : result unit :=
  spec_id ← require (run_run_spec_id run)
    (ValueError "Subject response requires a canonical RunSpec");
  spec_row ← require (db_run_specs d !! spec_id)
    (ValueError "Subject response references a missing RunSpec");
  raise_when (get_differs payload "capture_mode"
      (Some (JStr (CaptureMode_value (cap_default_mode (spec_capture_policy (rsp_spec spec_row)))))))
    (ValueError "Subject response capture mode does not match the RunSpec policy").

(** The admitted capabilities that were resolved to the offered reference. *)
Definition offered_matches (admission : AdmissionRecord) (offered_ref : json)
    : list ResolvedCapability :=
  List.filter (λ item, rc_status item ==b Resolved
    && match rc_resolved_ref item with
       | Some r => doc_eqb (to_CapabilityRef r) offered_ref
       | None => false
       end) (ri_capabilities (adm_resolved_inventory admission)).

Definition check_capability_offered (d : DB) (run : RunRow) (payload : json) : result unit :=
  admission_id ← require (run_admission_id run)
    (ValueError "capability offer requires a canonical admission");
  admission_row ← require (db_admissions d !! admission_id)
    (ValueError "capability offer references a missing admission");
  offered_ref ← jitem "capability_ref" payload;
  mismatch ←
    match offered_matches (arow_record admission_row) offered_ref with
    | [item] =>
        item_differs payload "required" (JBool (rc_required item))
        or item_differs payload "exposure" (JStr (Exposure_value (rc_exposure item)))
        or item_differs payload "effective_permissions" (jstrs (rc_effective_permissions item))
    | _ => Ok true
    end;
  raise_when mismatch (ValueError "capability offer does not match the admitted inventory").

(** What the loop of [check_tool_events] collects. *)
Record ToolState := MkToolState {
  tool_calls : gmap string (json * string);
  tool_terminals : gset string;
  offered_refs : gset string
}.

Section tools.
Context `{PyRuntime}.

Definition tool_step (acc : ToolState) (prior : RunEventRow) : result ToolState :=
  let p := evt_payload prior in
  if evt_event_type prior ==b "capability.offered" then
    ref ← jitem "capability_ref" p;
    Ok (MkToolState (tool_calls acc) (tool_terminals acc)
          ({[canonical_json ref]} ∪ offered_refs acc))
  else if evt_event_type prior ==b "tool.called" then
    call ← item_text p "call_id";
    Ok (MkToolState (<[call := (p, evt_id prior)]> (tool_calls acc)) (tool_terminals acc)
          (offered_refs acc))
  else if evt_event_type prior ∈b ["tool.denied"; "tool.completed"; "tool.failed"] then
    call ← item_text p "call_id";
    Ok (MkToolState (tool_calls acc) ({[call]} ∪ tool_terminals acc) (offered_refs acc))
  else Ok acc.

Definition collect_tools (prior_events : list RunEventRow) : result ToolState :=
  fold_res tool_step (MkToolState ∅ ∅ ∅) prior_events.

Definition is_dict (o : option json) : bool :=
  match o with Some (JObj _) => true | _ => false end.

(** [list.count(value)]. *)
Definition count_of (value : string) (types : list string) : nat :=
  length (List.filter (λ t, t ==b value) types).

Definition check_tool_events (event_type : string) (payload : json)
    (prior_events : list RunEventRow) (prior_event_types : list string) : result unit :=
  raise_when (negb (count_of "subject.invoked" prior_event_types
      =? count_of "subject.responded" prior_event_types + 1)%nat)
    (ValueError "tool events require one active Subject invocation");;
  state ← collect_tools prior_events;
  call_id ← item_text payload "call_id";
  if event_type ==b "tool.called" then
    capability_document ← jitem "capability_ref" payload;
    let arguments_ref := jget "arguments_ref" payload in
    raise_when (bool_decide (is_Some (tool_calls state !! call_id))
        || negb (canonical_json capability_document ∈ₛ offered_refs state)
        || negb (is_dict arguments_ref))
      (ValueError "tool call is duplicate, unoffered, or missing canonical arguments");;
    let arguments_document := default JNull arguments_ref in
    raise_when (get_differs arguments_document "media_type" (Some (JStr "application/json"))
        || get_differs arguments_document "classification" (Some (JStr "internal")))
      (ValueError "tool call is duplicate, unoffered, or missing canonical arguments")
  else
    match tool_calls state !! call_id with
    | None => Raise (ValueError "tool result requires one unmatched canonical call")
    | Some (called, _) =>
        raise_when (call_id ∈ₛ tool_terminals state)
          (ValueError "tool result requires one unmatched canonical call");;
        called_capability ← jitem "capability_ref" called;
        mismatch ← (if event_type ∈b ["tool.completed"; "tool.failed"]
                    then item_differs payload "capability_ref" called_capability else Ok false);
        raise_when mismatch (ValueError "tool result capability does not match its call");;
        raise_when (event_type ==b "tool.completed" && negb (is_dict (jget "result_ref" payload)))
          (ValueError "completed tool call requires a result artifact")
    end.
End tools.
