(* ===== verification/Ledger.v ===== *)
(** * The Run ledger
    (src/src/evidrun/infrastructure/database/ledger/: transitions.py, appender.py, store.py).

    [append_event] is the whole transaction of the source: request validation, the lease
    fence, idempotent replay, phase validity, the family checks, the lifecycle machine,
    and the write of the chain link with the status advance and the lease settlement. *)

From S2P Require Import Prelude PyText PyJson Base Authoring Runtime Events Evaluation Store.
From S2P Require Import Registry Lease Handlers.

(** ** The lifecycle machine (transitions.py) *)

Definition RETRYABLE_RUN_STATUSES : list RunStatus :=
  List.filter (λ s, s !=b completed) TERMINAL_RUN_STATUSES.

Definition TERMINAL_EVENT_TYPES : list string :=
  map (λ s, "run." +:+ RunStatus_value s) TERMINAL_RUN_STATUSES.

Definition open_statuses : list RunStatus := [queued; preparing; running; paused; evaluating].

Definition transition : list (string * (list RunStatus * RunStatus)) :=
  [("run.preparing", ([queued], preparing));
   ("run.running", ([preparing], running));
   ("run.paused", ([running], paused));
   ("run.resumed", ([paused], running));
   ("run.evaluating", ([running], evaluating));
   ("run.completed", ([evaluating], completed));
   ("run.failed", (open_statuses, failed));
   ("run.cancelled", (open_statuses, cancelled));
   ("run.budget_exhausted", (open_statuses, budget_exhausted));
   ("run.guardrail_stopped", (open_statuses, guardrail_stopped))].

(** [x = payload.get(k); x is not None and x != v]. *)
Definition declared_otherwise (payload : json) (k : string) (v : string) : bool :=
  match jget k payload with Some x => x !=b JStr v | None => false end.

Definition event_transition (run : RunRow) (event_type : string) (payload : json)
    (has_prior_event : bool) : result (option RunStatus) :=
  raise_when (is_terminal (run_status run))
    (ValueError "no Run events may be appended after a terminal lifecycle event");;
  raise_when (negb has_prior_event && event_type !=b "run.queued")
    (ValueError "run.queued must be the first Run event");;
  if event_type ==b "run.queued" then
    raise_when (has_prior_event || run_status run !=b queued)
      (ValueError "run.queued must be the first lifecycle event");;
    raise_when (get_differs payload "run_id" (Some (JStr (run_id run)))
        || get_differs payload "variant_id" (Some (JStr (run_variant_id run))))
      (ValueError "run.queued identity does not match the RunRecord");;
    Ok None
  else
    match assoc event_type transition with
    | None => Ok None
    | Some (allowed_from, target) =>
        raise_when (negb (run_status run ∈b allowed_from))
          (ValueError ("invalid Run lifecycle transition: " +:+ RunStatus_value (run_status run)
             +:+ " -> " +:+ RunStatus_value target));;
        raise_when (declared_otherwise payload "from_status" (RunStatus_value (run_status run)))
          (ValueError "Run lifecycle payload has an incorrect from_status");;
        raise_when (declared_otherwise payload "status" (RunStatus_value target))
          (ValueError "terminal event type and payload status do not match");;
        Ok (Some target)
    end.

(** ** Chain links *)

(** The envelope whose digest is the event's hash. *)
Definition envelope_document (event_id run : string) (sequence : Z) (event_type : string)
    (occurred_at : instant) (actor_type actor_id classification : string) (payload : json)
    (correlation_id : string) (causation_id prev_event_hash : option string) : json := JObj [
  ("event_id", JStr event_id);
  ("schema_version", JStr "1");
  ("run_id", JStr run);
  ("sequence", JInt sequence);
  ("type", JStr event_type);
  ("occurred_at_utc", JStr (isoformat occurred_at));
  ("actor_type", JStr actor_type);
  ("actor_id", JStr actor_id);
  ("classification", JStr classification);
  ("payload", payload);
  ("correlation_id", JStr correlation_id);
  ("causation_id", jopt JStr causation_id);
  ("prev_event_hash", jopt JStr prev_event_hash)].

(** The envelope of a stored row. *)
Definition row_envelope (e : RunEventRow) : json :=
  envelope_document (evt_id e) (evt_run_id e) (evt_sequence e) (evt_event_type e)
    (evt_occurred_at e) (evt_actor_type e) (evt_actor_id e) (evt_classification e)
    (evt_payload e) (evt_correlation_id e) (evt_causation_id e) (evt_prev_event_hash e).

(** [run.status = status], with [completed_at] for a terminal one. *)
Definition advance_run (run : RunRow) (status : RunStatus) (completed_at : option instant)
    : RunRow := {|
  run_id := run_id run; run_experiment_revision_id := run_experiment_revision_id run;
  run_variant_id := run_variant_id run; run_repetition := run_repetition run;
  run_status := status; run_runner := run_runner run; run_objective := run_objective run;
  run_output := run_output run; run_context_hash := run_context_hash run;
  run_retry_of := run_retry_of run; run_run_spec_id := run_run_spec_id run;
  run_admission_id := run_admission_id run;
  run_execution_trust_id := run_execution_trust_id run;
  run_execution_trust_digest := run_execution_trust_digest run;
  run_created_at := run_created_at run; run_completed_at := completed_at
|}.

(** [run.output = output; run.context_hash = context_hash]. *)
Definition project_run (run : RunRow) (output context_hash : option string) : RunRow := {|
  run_id := run_id run; run_experiment_revision_id := run_experiment_revision_id run;
  run_variant_id := run_variant_id run; run_repetition := run_repetition run;
  run_status := run_status run; run_runner := run_runner run; run_objective := run_objective run;
  run_output := output; run_context_hash := context_hash;
  run_retry_of := run_retry_of run; run_run_spec_id := run_run_spec_id run;
  run_admission_id := run_admission_id run;
  run_execution_trust_id := run_execution_trust_id run;
  run_execution_trust_digest := run_execution_trust_digest run;
  run_created_at := run_created_at run; run_completed_at := run_completed_at run
|}.

Section ledger.
Context `{PyRuntime}.

Definition chain_row (event_id run : string) (sequence : Z) (event_type : string)
    (occurred_at : instant) (actor_type actor_id classification : string) (payload : json)
    (correlation_id : string) (causation_id prev_event_hash operation_key : option string)
    : RunEventRow := {|
  evt_id := event_id; evt_run_id := run; evt_sequence := sequence; evt_event_type := event_type;
  evt_occurred_at := occurred_at; evt_actor_type := actor_type; evt_actor_id := actor_id;
  evt_classification := classification; evt_payload := payload;
  evt_correlation_id := correlation_id; evt_causation_id := causation_id;
  evt_prev_event_hash := prev_event_hash;
  evt_event_hash := sha256_json (envelope_document event_id run sequence event_type occurred_at
    actor_type actor_id classification payload correlation_id causation_id prev_event_hash);
  evt_operation_key := operation_key
|}.

(** [existing.event_type != event_type or existing.payload_json != canonical_json(payload)]. *)
Definition replay_conflict (existing : RunEventRow) (event_type : string) (payload : json) : bool :=
  evt_event_type existing !=b event_type
  || canonical_json (evt_payload existing) !=b canonical_json payload.

(** ** appender.py *)

Definition append_event_once_in_session (run : RunRow) (event_type : string)
    (payload : RunEventPayload) (operation_key : string) (allowed_statuses : list RunStatus)
    (next_status : option RunStatus) : Tx (RunEventRow * RunRow) :=
  normalized_payload ← lift (normalize_event_payload event_type payload);
  existing ← query (event_by_key (run_id run) operation_key);
  match existing with
  | Some existing =>
      guard (replay_conflict existing event_type normalized_payload)
        (ValueError "Run operation key conflicts with an existing event");;
      mret (existing, run)
  | None =>
      guard (negb (run_status run ∈b allowed_statuses))
        (ValueError (event_type +:+ " is not valid while the Run is "
           +:+ RunStatus_value (run_status run)));;
      last ← fetch (last_event (run_id run)) (ValueError "prepared Run is missing run.queued");
      event_id ← new_id "evt";
      occurred_at ← utc_now;
      let row := chain_row event_id (run_id run) (evt_sequence last + 1) event_type occurred_at
        "system" "evidrun" "internal" normalized_payload (run_id run) None
        (Some (evt_event_hash last)) (Some operation_key) in
      insert_event row;;
      match next_status with
      | None => mret (row, run)
      | Some status =>
          let run' := advance_run run status (run_completed_at run) in
          save_run run';; mret (row, run')
      end
  end.

(** ** store.py *)

Definition ALLOWED_ACTOR_TYPES : list string :=
  ["system"; "subject"; "evaluator"; "tool"; "skill"; "observer"].

Definition FENCED_EVENT_TYPES : list string :=
  ["capability.offered"; "tool.called"; "tool.denied"; "tool.completed"; "tool.failed"].

Record AppendRequest := MkAppendRequest {
  rq_run_id : string;
  rq_event_type : string;
  rq_payload : RunEventPayload;
  rq_actor_type : string;
  rq_actor_id : string;
  rq_classification : string;
  rq_correlation_id : option string;
  rq_causation_id : option string;
  rq_operation_key : option string;
  rq_lease : option LeaseFence;
  rq_complete_execution : bool;
  rq_reject_execution_code : option string
}.

Definition validate_request (r : AppendRequest) : result json :=
  raise_when (negb (rq_actor_type r ∈b ALLOWED_ACTOR_TYPES))
    (ValueError "Run events cannot claim human authority without a typed attestation flow");;
  raise_when (is_blank (rq_actor_id r)) (ValueError "Run event actor_id cannot be empty");;
  raise_when (rq_event_type r ∈b UNSUPPORTED_RUNTIME_EVENT_TYPES)
    (ValueError "Run event type is reserved until its coordinator/runtime is implemented");;
  raise_when (rq_event_type r ∈b FENCED_EVENT_TYPES && rq_lease r ==b None)
    (ValueError "runtime capability and tool events require an active lease fence");;
  normalized_payload ← normalize_event_payload (rq_event_type r) (rq_payload r);
  raise_when (rq_complete_execution r && rq_lease r ==b None)
    (ValueError "atomic execution completion requires a lease fence");;
  match rq_reject_execution_code r with
  | None => Ok tt
  | Some code =>
      raise_when (rq_complete_execution r || rq_lease r ==b None)
        (ValueError "atomic execution rejection requires only a lease fence");;
      validate_reason_code code
  end;;
  Ok normalized_payload.

(** [if complete_execution and lease is not None: ... elif reject_execution_code is not None
    and lease is not None: ...], at [at_]. *)
Definition settle_lease (r : AppendRequest) (at_ : instant) : Tx unit :=
  match rq_lease r with
  | None => mret tt
  | Some lease =>
      if rq_complete_execution r then complete_active_lease lease (rq_run_id r) at_
      else match rq_reject_execution_code r with
           | Some code => reject_active_lease lease (rq_run_id r) at_ code
           | None => mret tt
           end
  end.

(** Whether a replay settles a lease: only then does it read the clock. *)
Definition settles_lease (r : AppendRequest) : bool :=
  match rq_lease r with
  | None => false
  | Some _ => rq_complete_execution r || rq_reject_execution_code r !=b None
  end.

Definition resolve_idempotent (r : AppendRequest) (operation_key : string) (payload : json)
    : Tx (option RunEventRow) :=
  existing ← query (event_by_key (rq_run_id r) operation_key);
  match existing with
  | None => mret None
  | Some existing =>
      guard (replay_conflict existing (rq_event_type r) payload)
        (ValueError "Run operation key conflicts with an existing event");;
      (if settles_lease r then at_ ← utc_now; settle_lease r at_ else mret tt);;
      mret (Some existing)
  end.

Definition validate_phase (run : RunRow) (event_type : string) (prior_event_types : list string)
    : result unit :=
  raise_when (is_terminal (run_status run))
    (ValueError "no Run events may be appended after a terminal lifecycle event");;
  raise_when (match assoc event_type EVENT_ALLOWED_RUN_STATUSES with
              | Some allowed => negb (run_status run ∈b allowed)
              | None => false
              end)
    (ValueError (event_type +:+ " is not valid while the Run is "
       +:+ RunStatus_value (run_status run)));;
  raise_when (event_type ==b "subject.invoked"
      && negb (count_of "subject.invoked" prior_event_types
               =? count_of "subject.responded" prior_event_types)%nat)
    (ValueError "Subject invocation requires the prior turn to be complete");;
  raise_when (event_type ==b "subject.responded"
      && negb (count_of "subject.invoked" prior_event_types
               =? count_of "subject.responded" prior_event_types + 1)%nat)
    (ValueError "Subject response requires one unmatched Subject invocation");;
  raise_when (event_type ==b "run.evaluating" && negb ("subject.responded" ∈b prior_event_types))
    (ValueError "Run cannot enter evaluation before a Subject response").

Definition when (b : bool) (check : result unit) : result unit := if b then check else Ok tt.

Definition run_family_checks (d : DB) (run : RunRow) (id event_type : string) (payload : json)
    (prior_events : list RunEventRow) (prior_event_types : list string) : result unit :=
  when (event_type ==b "evaluation.completed")
    (check_evaluation_completed d id payload prior_events);;
  when (event_type ==b "run.queued") (check_run_queued d run payload);;
  when (event_type ==b "context.composed") (check_context_composed d run id payload);;
  when (event_type ==b "subject.invoked") (check_subject_invoked d run id payload);;
  when (event_type ==b "capability.offered") (check_capability_offered d run payload);;
  when (startswith "tool." event_type)
    (check_tool_events event_type payload prior_events prior_event_types);;
  when (event_type ==b "subject.responded") (check_subject_responded d run payload);;
  when (event_type ∈b TERMINAL_EVENT_TYPES)
    (check_terminal_event d run id event_type payload prior_events prior_event_types).

(** [a or b] on an optional text: the empty text counts as absent. *)
Definition text_or (o : option string) (dflt : string) : string :=
  match o with Some "" | None => dflt | Some s => s end.

Definition persist_event (r : AppendRequest) (run : RunRow) (payload : json)
    (last : option RunEventRow) (next_status : option RunStatus) : Tx RunEventRow :=
  let sequence := match last with None => 1%Z | Some l => (evt_sequence l + 1)%Z end in
  event_id ← new_id "evt";
  occurred_at ← utc_now;
  let row := chain_row event_id (rq_run_id r) sequence (rq_event_type r) occurred_at
    (rq_actor_type r) (rq_actor_id r) (rq_classification r) payload
    (text_or (rq_correlation_id r) (rq_run_id r)) (rq_causation_id r)
    (evt_event_hash <$> last) (rq_operation_key r) in
  insert_event row;;
  match next_status with
  | None => mret tt
  | Some status => save_run (advance_run run status
      (if is_terminal status then Some occurred_at else run_completed_at run))
  end;;
  settle_lease r occurred_at;;
  mret row.

Definition append_body (r : AppendRequest) : Tx RunEventRow :=
  normalized_payload ← lift (validate_request r);
  validate_optional_lease (rq_lease r) (rq_run_id r);;
  run ← fetch (get_run (rq_run_id r)) (KeyError ("Run not found: " +:+ rq_run_id r));
  existing ← match rq_operation_key r with
             | None => mret None
             | Some key => resolve_idempotent r key normalized_payload
             end;
  match existing with
  | Some existing => mret existing
  | None =>
      prior_events ← query (events_by_sequence (rq_run_id r));
      let last := last prior_events in
      let prior_event_types := map evt_event_type prior_events in
      lift (validate_phase run (rq_event_type r) prior_event_types);;
      d ← query (λ d, d);
      lift (run_family_checks d run (rq_run_id r) (rq_event_type r) normalized_payload
        prior_events prior_event_types);;
      next_status ← lift (event_transition run (rq_event_type r) normalized_payload
        (bool_decide (is_Some last)));
      persist_event r run normalized_payload last next_status
  end.

Definition append_event (r : AppendRequest) : Op RunEventRow := transaction (append_body r) Ok.

(** The payload of the transition that follows a captured response. *)
Definition evaluating_payload : RunEventPayload :=
  PRunLifecycle (MkRunLifecyclePayload running "terminal Subject response captured").

Definition save_subject_response_body (id : string) (spec : RunSpec)
    (response_payload : RunEventPayload) (captured_output : option string) (lease : LeaseFence)
    : Tx RunEventRow :=
  validate_optional_lease (Some lease) id;;
  run ← fetch (get_run id) (ValueError "Subject response requires a canonical RunSpec");
  spec_id ← lift (require (run_run_spec_id run)
    (ValueError "Subject response requires a canonical RunSpec"));
  spec_row ← fetch (λ d, db_run_specs d !! spec_id)
    (ValueError "Subject response RunSpec is not exact");
  guard (rsp_digest spec_row !=b spec_digest spec)
    (ValueError "Subject response RunSpec is not exact");;
  normalized_response ← lift (normalize_event_payload "subject.responded" response_payload);
  guard (get_differs normalized_response "capture_mode"
      (Some (JStr (CaptureMode_value (cap_default_mode (spec_capture_policy spec))))))
    (ValueError "Subject response capture mode does not match the RunSpec");;
  turn_events ← query (run_events id);
  response_existing ← query (event_by_key id "subject:responded");
  guard (bool_decide (response_existing = None)
      && negb (count_type "subject.invoked" turn_events
               =? count_type "subject.responded" turn_events + 1)%nat)
    (ValueError "Subject response requires one unmatched Subject invocation");;
  '(response, run) ← append_event_once_in_session run "subject.responded" response_payload
    "subject:responded" [running] None;
  let run := project_run run captured_output (run_context_hash run) in
  save_run run;;
  append_event_once_in_session run "run.evaluating" evaluating_payload "run:evaluating" [running]
    (Some evaluating);;
  mret response.

Definition save_subject_response (id : string) (spec : RunSpec)
    (response_payload : RunEventPayload) (captured_output : option string) (lease : LeaseFence)
    : Op RunEventRow :=
  transaction (save_subject_response_body id spec response_payload captured_output lease) Ok.

Definition update_run_body (id : string) (output context_hash : option string)
    (lease : option LeaseFence) : Tx RunRow :=
  validate_optional_lease lease id;;
  row ← fetch (get_run id) (KeyError ("Run not found: " +:+ id));
  let row' := project_run row
    (match output with Some o => Some o | None => run_output row end)
    (match context_hash with Some h => Some h | None => run_context_hash row end) in
  save_run row';; mret row'.

Definition update_run (id : string) (output context_hash : option string)
    (lease : option LeaseFence) : Op RunRow :=
  transaction (update_run_body id output context_hash lease) Ok.
End ledger.
