(* ===== verification/LedgerInv.v ===== *)
(** * Invariants of the Run ledger

    The automaton [life_step] gives the legal event types of a Run in order, with the
    status and the Subject turn they lead to (Lifecycle.v shows that it is the rule-based
    specification). The ledger implements it: on every Run, the stored events form a hash chain numbered
    from 1, their types are a path of the automaton, and the stored status is its
    state. [ledger_step] is the relation every transaction follows. *)

From S2P Require Import Prelude PyText PyJson Base Authoring Runtime Events Evaluation Store.
From S2P Require Import Registry Lease Handlers Ledger.

(** ** The lifecycle automaton *)

Record Life := MkLife {
  lf_status : RunStatus;
  (** A Subject invocation has no response yet. *)
  lf_pending : bool;
  (** The Subject responded at least once. *)
  lf_responded : bool
}.

Definition turn_ok (l : Life) (t : string) : bool :=
  if t ==b "subject.invoked" then negb (lf_pending l)
  else if (t ==b "subject.responded") || startswith "tool." t then lf_pending l
  else if t ==b "run.evaluating" then lf_responded l
  else true.

Definition phase_ok (s : RunStatus) (t : string) : bool :=
  match assoc t EVENT_ALLOWED_RUN_STATUSES with Some allowed => s ∈b allowed | None => true end.

Definition life_step (l : Life) (t : string) : option Life :=
  if is_terminal (lf_status l) || (t ==b "run.queued") || negb (turn_ok l t)
     || negb (phase_ok (lf_status l) t) then None
  else
    let pending := if t ==b "subject.invoked" then true
                   else if t ==b "subject.responded" then false else lf_pending l in
    let responded := lf_responded l || (t ==b "subject.responded") in
    match assoc t transition with
    | None => Some (MkLife (lf_status l) pending responded)
    | Some (allowed_from, target) =>
        if lf_status l ∈b allowed_from then Some (MkLife target pending responded) else None
    end.

(** The paths of the automaton, from the event that opens a chain. *)
Inductive lives : list string → Life → Prop :=
| lives_queued : lives ["run.queued"] (MkLife queued false false)
| lives_next ts l t l' : lives ts l → life_step l t = Some l' → lives (ts ++ [t]) l'.

Lemma count_of_snoc v ts t :
  count_of v (ts ++ [t]) = (count_of v ts + if t ==b v then 1 else 0)%nat.
Proof.
  unfold count_of. rewrite List.filter_app, length_app. cbn. by destruct (t ==b v).
Qed.

(** What the automaton remembers of its path. *)
Lemma lives_facts ts l :
  lives ts l →
  lf_responded l = bool_decide ("subject.responded" ∈ ts)
  ∧ count_of "subject.invoked" ts
    = (count_of "subject.responded" ts + if lf_pending l then 1 else 0)%nat.
Proof.
  induction 1 as [|ts l t l' Hl [IHr IHp] Hs]; [done|].
  unfold life_step in Hs. destruct (_ || _ || _ || _) eqn:E; [done|].
  rewrite !orb_false_iff, !negb_false_iff in E. destruct E as [[[_ _] Hturn] _].
  assert (Hl' : lf_responded l' = lf_responded l || (t ==b "subject.responded")
    ∧ lf_pending l' = if t ==b "subject.invoked" then true
                      else if t ==b "subject.responded" then false else lf_pending l).
  { destruct (assoc t transition) as [[from to]|]; [|by injection Hs as <-].
    destruct (lf_status l ∈b from); [by injection Hs as <-|done]. }
  destruct Hl' as [-> ->]. rewrite !count_of_snoc, IHr, IHp. unfold turn_ok in *. split.
  - rewrite <- bool_decide_or. apply bool_decide_ext. set_solver.
  - destruct (decide (t = "subject.invoked")) as [->|H3].
    { apply negb_true_iff in Hturn. rewrite Hturn.
      change ("subject.invoked" ==b "subject.invoked") with true.
      change ("subject.invoked" ==b "subject.responded") with false. cbv iota. lia. }
    rewrite (bool_decide_eq_false_2 (t = "subject.invoked")) in * by done.
    destruct (decide (t = "subject.responded")) as [->|H4].
    { change (lf_pending l = true) in Hturn. rewrite Hturn.
      change ("subject.responded" ==b "subject.responded") with true. cbv iota. lia. }
    rewrite (bool_decide_eq_false_2 (t = "subject.responded")) by done.
    destruct (lf_pending l); lia.
Qed.

(** A Run under evaluation or past it has a complete Subject turn. *)
Lemma lives_nonempty ts l : lives ts l → ts ≠ [].
Proof. destruct 1; [done|]. by destruct ts. Qed.

Lemma lives_functional ts l l' : lives ts l → lives ts l' → l = l'.
Proof.
  intros Hl. revert l'. induction Hl as [|ts l t l1 Hl IH Hs]; intros l' Hl'.
  - inversion Hl' as [|ts0 l0 t0 l0' Hl0 Hs0 E]; [done|].
    apply (app_inj_tail ts0 []) in E as [-> _]. by apply lives_nonempty in Hl0.
  - inversion Hl' as [E|ts0 l0 t0 l0' Hl0 Hs0 E].
    + apply (app_inj_tail [] ts) in E as [<- _]. by apply lives_nonempty in Hl.
    + apply app_inj_tail in E as [-> ->]. apply IH in Hl0 as ->. congruence.
Qed.

(** ** The hash chain *)

Section chain.
Context `{PyRuntime}.

(** Events numbered from [n], each hashing its own envelope and naming its predecessor. *)
Fixpoint chain (prev : option string) (n : Z) (es : list RunEventRow) : Prop :=
  match es with
  | [] => True
  | e :: es' =>
      evt_sequence e = n ∧ evt_prev_event_hash e = prev
      ∧ evt_event_hash e = sha256_json (row_envelope e)
      ∧ chain (Some (evt_event_hash e)) (n + 1) es'
  end.

(** The hash and number the next event of a chain must carry. *)
Definition head_hash (prev : option string) (es : list RunEventRow) : option string :=
  match last es with Some e => Some (evt_event_hash e) | None => prev end.

Lemma chain_snoc prev n es e :
  chain prev n (es ++ [e]) ↔
  chain prev n es ∧ evt_sequence e = (n + Z.of_nat (length es))%Z
  ∧ evt_prev_event_hash e = head_hash prev es
  ∧ evt_event_hash e = sha256_json (row_envelope e).
Proof.
  revert prev n. induction es as [|x es IH]; intros prev n; cbn [chain app length].
  - rewrite Z.add_0_r. unfold head_hash. cbn. tauto.
  - rewrite IH. replace (n + 1 + Z.of_nat (length es))%Z
      with (n + Z.of_nat (S (length es)))%Z by lia.
    assert (E : head_hash (Some (evt_event_hash x)) es = head_hash prev (x :: es)).
    { unfold head_hash. rewrite last_cons. by destruct (last es). }
    rewrite E. tauto.
Qed.

Lemma chain_bounds prev n es e :
  chain prev n es → e ∈ es → (n <= evt_sequence e < n + Z.of_nat (length es))%Z.
Proof.
  revert prev n. induction es as [|x es IH]; intros prev n; [by intros _ ?%not_elem_of_nil|].
  intros (Hn & _ & _ & Hc) [->|He]%elem_of_cons; cbn [length]; [lia|].
  specialize (IH _ _ Hc He). lia.
Qed.

(** A chain is stored in sequence order. *)
Lemma chain_sorted prev n es :
  chain prev n es → StronglySorted (λ a b, sequence_leb a b = true) es.
Proof.
  revert prev n. induction es as [|x es IH]; intros prev n; [constructor|].
  intros (Hn & _ & _ & Hc). constructor; [by eapply IH|].
  apply Forall_forall. intros e He. pose proof (chain_bounds _ _ _ _ Hc He).
  unfold sequence_leb. apply Z.leb_le. lia.
Qed.

Lemma chain_last_sequence prev n es e :
  chain prev n es → last es = Some e → evt_sequence e = (n + Z.of_nat (length es) - 1)%Z.
Proof.
  intros Hc [es' ->]%last_Some. apply chain_snoc in Hc as (_ & -> & _).
  rewrite length_app. cbn. lia.
Qed.

(** ** Sound events *)

(** What an event was checked for when it was written after the events [pre]: a registered
    payload in normal form, a non-human actor, no reserved type, and, by family, the tool
    protocol, the declared statuses and the closed tool calls of a terminal event. *)
Record sound_event (pre : list RunEventRow) (t actor_type actor_id : string) (payload : json)
    : Prop := {
  so_payload : ∃ p, normalize_event_payload t p = Ok payload;
  so_actor : actor_type ∈ ALLOWED_ACTOR_TYPES;
  so_actor_id : is_blank actor_id = false;
  so_type : t ∉ UNSUPPORTED_RUNTIME_EVENT_TYPES;
  so_tools : startswith "tool." t = true →
    check_tool_events t payload pre (map evt_event_type pre) = Ok tt;
  so_statuses : ∀ l from to, lives (map evt_event_type pre) l →
    assoc t transition = Some (from, to) →
    declared_otherwise payload "from_status" (RunStatus_value (lf_status l)) = false
    ∧ declared_otherwise payload "status" (RunStatus_value to) = false;
  so_closed : t ∈ TERMINAL_EVENT_TYPES → check_open_tool_calls pre = Ok tt
}.

Definition sound_row (pre : list RunEventRow) (e : RunEventRow) : Prop :=
  sound_event pre (evt_event_type e) (evt_actor_type e) (evt_actor_id e) (evt_payload e).

(** ** The ledger invariant *)

Record ledger_inv (d : DB) : Prop := {
  li_run_key : ∀ k r, db_runs d !! k = Some r → run_id r = k;
  li_chain : ∀ id, chain None 1 (run_events id d);
  li_ids : NoDup (map evt_id (db_events d));
  li_owned : ∀ e, e ∈ db_events d → is_Some (db_runs d !! evt_run_id e);
  li_sound : ∀ id pre e post, run_events id d = pre ++ e :: post → sound_row pre e;
  (** The stored status is the automaton's state after the stored events. *)
  li_life : ∀ k r, db_runs d !! k = Some r →
    (run_events k d = [] ∧ run_status r = queued)
    ∨ ∃ l, lives (map evt_event_type (run_events k d)) l ∧ run_status r = lf_status l;
  li_completed : ∀ k r, db_runs d !! k = Some r →
    (is_terminal (run_status r) = true ↔ run_completed_at r ≠ None)
}.

(** The columns of a Run no operation changes. *)
Definition pinned (r r' : RunRow) : Prop :=
  run_id r' = run_id r ∧ run_variant_id r' = run_variant_id r
  ∧ run_repetition r' = run_repetition r ∧ run_run_spec_id r' = run_run_spec_id r
  ∧ run_admission_id r' = run_admission_id r ∧ run_retry_of r' = run_retry_of r
  ∧ run_experiment_revision_id r' = run_experiment_revision_id r
  ∧ run_execution_trust_id r' = run_execution_trust_id r
  ∧ run_execution_trust_digest r' = run_execution_trust_digest r
  ∧ run_created_at r' = run_created_at r.

(** Events are only appended; Runs keep their identity; a terminal Run is closed. *)
Record ledger_evolves (d d' : DB) : Prop := {
  le_events : db_events d `prefix_of` db_events d';
  le_run : ∀ k r, db_runs d !! k = Some r → ∃ r', db_runs d' !! k = Some r' ∧ pinned r r'
    ∧ (is_terminal (run_status r) = true →
         run_status r' = run_status r ∧ run_completed_at r' = run_completed_at r
         ∧ run_events k d' = run_events k d)
}.

#[export] Instance ledger_evolves_preorder : PreOrder ledger_evolves.
Proof.
  split.
  - intros d. split; [done|]. intros k r Hr. exists r. unfold pinned. done.
  - intros d1 d2 d3 [E1 R1] [E2 R2]. split; [by etrans|].
    intros k r (r1 & H1 & P1 & T1)%R1. destruct (R2 _ _ H1) as (r2 & H2 & P2 & T2).
    exists r2. unfold pinned in *. split_and!; try (intuition congruence).
    intros Ht. destruct (T1 Ht) as (S1 & C1 & V1). rewrite S1 in T2.
    destruct (T2 Ht) as (S2 & C2 & V2). split_and!; congruence.
Qed.

Definition ledger_step (d d' : DB) : Prop := ledger_inv d → ledger_inv d' ∧ ledger_evolves d d'.

#[export] Instance ledger_step_preorder : PreOrder ledger_step.
Proof.
  split; [by split|]. intros d1 d2 d3 H1 H2 Hd. destruct (H1 Hd) as [Hi1 He1].
  destruct (H2 Hi1) as [Hi2 He2]. split; [done|by etrans].
Qed.

Lemma ledger_inv_empty : ledger_inv empty_db.
Proof.
  constructor; cbn; try (intros *; rewrite ?lookup_empty; done).
  - constructor.
  - by intros e ?%not_elem_of_nil.
  - intros id pre e post Hsplit. by destruct pre.
Qed.

(** On a consistent ledger the queries that sort by sequence read the insertion order. *)
Lemma events_by_sequence_id d id :
  ledger_inv d → events_by_sequence id d = run_events id d.
Proof. intros Hd. apply sort_by_id. by eapply chain_sorted, (li_chain _ Hd). Qed.

Lemma run_events_snoc id d row :
  run_events id (set_events (λ l, l ++ [row]) d) =
  run_events id d ++ (if evt_run_id row ==b id then [row] else []).
Proof.
  unfold run_events. cbn. rewrite List.filter_app. cbn. by destruct (evt_run_id row ==b id).
Qed.

(** Frame: the invariants read only their own tables. *)
Lemma ledger_frame d d' :
  db_runs d' = db_runs d → db_events d' = db_events d → ledger_step d d'.
Proof.
  intros Er Ee Hd.
  assert (Hre : ∀ id, run_events id d' = run_events id d) by (intros; unfold run_events; by rewrite Ee).
  split.
  - destruct Hd. constructor; rewrite ?Er, ?Ee; try done; setoid_rewrite Hre; done.
  - constructor; rewrite ?Er, ?Ee; [done|]. setoid_rewrite Hre. intros k r Hr. exists r.
    unfold pinned. done.
Qed.

Lemma queue_frame d d' :
  db_jobs d' = db_jobs d → db_attempts d' = db_attempts d → queue_step d d'.
Proof.
  intros Ej Ea Hd. split.
  - destruct Hd. constructor; rewrite ?Ej, ?Ea; done.
  - constructor; rewrite ?Ej, ?Ea; intros k x Hx; exists x; unfold same_attempt;
      split_and!; done || lia.
Qed.

(** ** Appending one event *)

(** The row continues the chain of its Run. *)
Definition continues (d : DB) (id : string) (row : RunEventRow) : Prop :=
  evt_run_id row = id
  ∧ evt_sequence row = (1 + Z.of_nat (length (run_events id d)))%Z
  ∧ evt_prev_event_hash row = head_hash None (run_events id d)
  ∧ evt_event_hash row = sha256_json (row_envelope row).

Lemma event_conflict_id row d :
  event_conflict row d = false → evt_id row ∉ map evt_id (db_events d).
Proof.
  unfold event_conflict. rewrite existsb_false. intros Hc (e & E & He)%list_elem_of_fmap.
  apply Hc in He. rewrite !orb_false_iff, bool_decide_eq_false in He. destruct He as [[Hne _] _].
  by apply Hne.
Qed.

Lemma append_row_step d id run run' row l' :
  db_runs d !! id = Some run → is_terminal (run_status run) = false →
  continues d id row → event_conflict row d = false → sound_row (run_events id d) row →
  lives (map evt_event_type (run_events id d) ++ [evt_event_type row]) l' →
  run_status run' = lf_status l' → pinned run run' →
  (is_terminal (run_status run') = true ↔ run_completed_at run' ≠ None) →
  ledger_step d (set_runs (insert id run') (set_events (λ l, l ++ [row]) d)).
Proof.
  intros Hrun Hopen (Eid & Eseq & Eprev & Ehash) Hc Hsound Hl Hst Hpin Hcomp Hd.
  assert (Hre : ∀ k, run_events k (set_runs (insert id run') (set_events (λ l, l ++ [row]) d))
    = run_events k d ++ (if id ==b k then [row] else []))
    by (intros k; rewrite <- Eid; apply run_events_snoc).
  split.
  - constructor; try setoid_rewrite Hre; cbn.
    + intros k r [[<- <-]|[_ Hr]]%lookup_insert_Some; [|by apply (li_run_key _ Hd)].
      destruct Hpin as [-> _]. by apply (li_run_key _ Hd).
    + intros k. destruct (decide (id = k)) as [<-|Hne].
      * rewrite bool_decide_eq_true_2 by done. apply chain_snoc. split_and!; try done.
        by apply (li_chain _ Hd).
      * rewrite bool_decide_eq_false_2, app_nil_r by done. by apply (li_chain _ Hd).
    + rewrite map_app. apply NoDup_app. split_and!; [by apply (li_ids _ Hd)| |by apply NoDup_singleton].
      intros x Hx Hx'%list_elem_of_singleton. subst x. by apply event_conflict_id in Hc.
    + intros e [He|He]%elem_of_app; [|apply list_elem_of_singleton in He as ->].
      * apply lookup_insert_is_Some'. right. by apply (li_owned _ Hd).
      * rewrite Eid, lookup_insert_eq. eauto.
    + intros k pre e post. destruct (decide (id = k)) as [<-|Hne].
      * rewrite bool_decide_eq_true_2 by done. intros Hsplit.
        destruct post as [|y post _] using rev_ind.
        -- apply app_inj_tail in Hsplit as [<- <-]. done.
        -- rewrite app_comm_cons, app_assoc in Hsplit. apply app_inj_tail in Hsplit as [Hs _].
           by eapply (li_sound _ Hd).
      * rewrite bool_decide_eq_false_2, app_nil_r by done. by apply (li_sound _ Hd).
    + intros k r [[<- <-]|[Hne Hr]]%lookup_insert_Some.
      * right. exists l'. rewrite bool_decide_eq_true_2, map_app by done. done.
      * rewrite bool_decide_eq_false_2, app_nil_r by done. by apply (li_life _ Hd).
    + intros k r [[<- <-]|[_ Hr]]%lookup_insert_Some; [done|by eapply (li_completed _ Hd)].
  - constructor; cbn.
    + by apply prefix_app_r.
    + intros k r Hr. setoid_rewrite Hre. destruct (decide (id = k)) as [<-|Hne].
      * rewrite lookup_insert_eq. exists run'. rewrite Hrun in Hr. injection Hr as <-.
        split_and!; [done..|congruence].
      * rewrite lookup_insert_ne, bool_decide_eq_false_2, app_nil_r by done. exists r.
        unfold pinned. done.
Qed.

(** A projection of a Run: no event, no status. *)
Lemma project_step d id run output context_hash :
  db_runs d !! id = Some run →
  ledger_step d (set_runs (insert id (project_run run output context_hash)) d).
Proof.
  intros Hrun Hd. split.
  - constructor; cbn; try apply Hd.
    + intros k r [[<- <-]|[_ Hr]]%lookup_insert_Some;
        [exact (li_run_key _ Hd _ _ Hrun)|exact (li_run_key _ Hd _ _ Hr)].
    + intros e He%(li_owned _ Hd). apply lookup_insert_is_Some'. by right.
    + intros k r [[<- <-]|[_ Hr]]%lookup_insert_Some;
        [exact (li_life _ Hd _ _ Hrun)|exact (li_life _ Hd _ _ Hr)].
    + intros k r [[<- <-]|[_ Hr]]%lookup_insert_Some;
        [exact (li_completed _ Hd _ _ Hrun)|exact (li_completed _ Hd _ _ Hr)].
  - constructor; cbn; [done|]. intros k r Hr. destruct (decide (id = k)) as [<-|Hne].
    + rewrite lookup_insert_eq. eexists. split; [done|]. rewrite Hrun in Hr. injection Hr as <-.
      unfold pinned. done.
    + rewrite lookup_insert_ne by done. exists r. unfold pinned. done.
Qed.

(** ** The operations *)

Definition same_ledger (d d' : DB) : Prop := db_runs d' = db_runs d ∧ db_events d' = db_events d.
Definition same_queue (d d' : DB) : Prop := db_jobs d' = db_jobs d ∧ db_attempts d' = db_attempts d.

#[export] Instance same_ledger_preorder : PreOrder same_ledger.
Proof. split; [done|]. intros d1 d2 d3 [? ?] [? ?]. split; congruence. Qed.
#[export] Instance same_queue_preorder : PreOrder same_queue.
Proof. split; [done|]. intros d1 d2 d3 [? ?] [? ?]. split; congruence. Qed.

Lemma same_ledger_frame d d' : same_ledger d d' → ledger_step d d'.
Proof. intros [? ?]. by apply ledger_frame. Qed.
Lemma same_queue_frame d d' : same_queue d d' → queue_step d d'.
Proof. intros [? ?]. by apply queue_frame. Qed.

Lemma same_ledger_step {A} (m : Tx A) : steps_by same_ledger m → steps_by ledger_step m.
Proof. intros Hm env s a s' E. apply Hm in E. by apply same_ledger_frame. Qed.
Lemma same_queue_step {A} (m : Tx A) : steps_by same_queue m → steps_by queue_step m.
Proof. intros Hm env s a s' E. apply Hm in E. by apply same_queue_frame. Qed.

Lemma settle_lease_ledger r at_ : steps_by same_ledger (settle_lease r at_).
Proof.
  unfold settle_lease, complete_active_lease, reject_active_lease, save_attempt, save_job. walk.
Qed.

Lemma settle_lease_queue r at_ : steps_by queue_step (settle_lease r at_).
Proof.
  unfold settle_lease. destruct (rq_lease r); [|by walk].
  destruct (rq_complete_execution r); [apply complete_active_lease_step|].
  destruct (rq_reject_execution_code r); [apply reject_active_lease_step|by walk].
Qed.

Lemma resolve_idempotent_ledger r key payload :
  steps_by same_ledger (resolve_idempotent r key payload).
Proof. unfold resolve_idempotent. walk. apply settle_lease_ledger. Qed.

Lemma insert_event_queue row : steps_by same_queue (insert_event row).
Proof. unfold insert_event. walk. Qed.

Lemma lease_bodies_ledger :
  (∀ w l f now, steps_by same_ledger (claim_body w l f now))
  ∧ (∀ f l now, steps_by same_ledger (heartbeat_body f l now))
  ∧ (∀ f c a now, steps_by same_ledger (release_body f c a now))
  ∧ (∀ f c now, steps_by same_ledger (reject_body f c now))
  ∧ (∀ f now, steps_by same_ledger (complete_body f now)).
Proof.
  unfold claim_body, heartbeat_body, release_body, reject_body, complete_body, take_next,
    insert_attempt, save_attempt, save_job. split_and!; walk.
  apply for_each_steps; [apply _|]. unfold expire_stale, save_attempt, save_job. walk.
Qed.

(** ** append_event follows the automaton *)

Lemma check_tool_events_pending t payload prior types u :
  check_tool_events t payload prior types = Ok u →
  count_of "subject.invoked" types = (count_of "subject.responded" types + 1)%nat.
Proof.
  unfold check_tool_events. intros E. inv_ok. apply negb_false_iff, Nat.eqb_eq in H0. done.
Qed.

Lemma family_tools d run id t payload prior types :
  run_family_checks d run id t payload prior types = Ok tt → startswith "tool." t = true →
  count_of "subject.invoked" types = (count_of "subject.responded" types + 1)%nat.
Proof.
  unfold run_family_checks. intros E Ht. inv_ok. rewrite Ht in *. unfold when in *.
  eauto using check_tool_events_pending.
Qed.

Lemma validate_phase_ok run t types :
  validate_phase run t types = Ok tt →
  is_terminal (run_status run) = false ∧ phase_ok (run_status run) t = true
  ∧ (t = "subject.invoked" → count_of "subject.invoked" types = count_of "subject.responded" types)
  ∧ (t = "subject.responded" →
       count_of "subject.invoked" types = (count_of "subject.responded" types + 1)%nat)
  ∧ (t = "run.evaluating" → "subject.responded" ∈ types).
Proof.
  unfold validate_phase, phase_ok. intros E. inv_ok. split; [done|]. split.
  { destruct (assoc t EVENT_ALLOWED_RUN_STATUSES); [|done]. by apply negb_false_iff. }
  split_and!; intros ->.
  - rewrite bool_decide_eq_true_2 in H2 by done. cbn in H2. by apply negb_false_iff, Nat.eqb_eq in H2.
  - rewrite bool_decide_eq_true_2 in H3 by done. cbn in H3. by apply negb_false_iff, Nat.eqb_eq in H3.
  - rewrite bool_decide_eq_true_2 in E by done. cbn in E.
    by apply negb_false_iff, bool_decide_eq_true in E.
Qed.

(** The turn conditions of the code are the automaton's. *)
Lemma turn_ok_intro types l t :
  lives types l →
  (t = "subject.invoked" → count_of "subject.invoked" types = count_of "subject.responded" types) →
  (t = "subject.responded" ∨ startswith "tool." t = true →
     count_of "subject.invoked" types = (count_of "subject.responded" types + 1)%nat) →
  (t = "run.evaluating" → "subject.responded" ∈ types) →
  turn_ok l t = true.
Proof.
  intros Hl H1 H2 H3. destruct (lives_facts _ _ Hl) as [Hr Hp]. unfold turn_ok.
  destruct (t ==b "subject.invoked") eqn:E1.
  { apply bool_decide_eq_true in E1. specialize (H1 E1). destruct (lf_pending l); [lia|done]. }
  destruct (_ || _) eqn:E2.
  { apply orb_true_iff in E2. rewrite bool_decide_eq_true in E2. specialize (H2 E2).
    destruct (lf_pending l); [done|lia]. }
  destruct (t ==b "run.evaluating") eqn:E3; [|done]. apply bool_decide_eq_true in E3.
  rewrite Hr. by apply bool_decide_eq_true, H3.
Qed.

Lemma event_transition_ok run t payload next :
  event_transition run t payload true = Ok next →
  t ≠ "run.queued" ∧
  match assoc t transition with
  | None => next = None
  | Some (from, to) => run_status run ∈ from ∧ next = Some to
  end.
Proof.
  unfold event_transition. intros E. inv_ok.
  case_bool_decide as Hq; inv_ok; [done|]. split; [done|].
  destruct (assoc t transition) as [[from to]|]; inv_ok; [|done].
  split; [|done]. by apply negb_false_iff, bool_decide_eq_true in H2.
Qed.

Lemma append_life d id run t payload next :
  ledger_inv d → db_runs d !! id = Some run →
  let prior := run_events id d in
  let types := map evt_event_type prior in
  validate_phase run t types = Ok tt →
  run_family_checks d run id t payload prior types = Ok tt →
  event_transition run t payload (bool_decide (is_Some (last prior))) = Ok next →
  ∃ l', lives (types ++ [t]) l' ∧ default (run_status run) next = lf_status l'.
Proof.
  intros Hd Hrun prior types Hphase Hfam Htr.
  destruct (validate_phase_ok _ _ _ Hphase) as (Hopen & Hph & H1 & H2 & H3).
  destruct (li_life _ Hd _ _ Hrun) as [[Hnil Hst]|(l & Hl & Hst)].
  - unfold types, prior in *. rewrite Hnil in *. cbn in *. unfold event_transition in Htr. inv_ok.
    cbn in H4. apply negb_false_iff, bool_decide_eq_true in H4 as ->.
    rewrite (bool_decide_eq_true_2 ("run.queued" = "run.queued")) in Htr by done. inv_ok.
    eexists. split; [constructor|done].
  - fold prior types in Hl.
    assert (Hlast : is_Some (last prior)).
    { destruct (last prior) eqn:E; [eauto|]. apply last_None in E.
      apply lives_nonempty in Hl. unfold types in Hl. by rewrite E in Hl. }
    rewrite bool_decide_eq_true_2 in Htr by done.
    apply event_transition_ok in Htr as [Hnq Hrule].
    assert (Hturn : turn_ok l t = true).
    { apply (turn_ok_intro types); [done..| |done].
      intros [->|Ht]; [by apply H2|by eapply family_tools]. }
    rewrite Hst in Hopen, Hph.
    assert (Hstep : ∃ l', life_step l t = Some l' ∧ default (run_status run) next = lf_status l').
    { unfold life_step. rewrite Hopen, Hturn, Hph, (bool_decide_eq_false_2 (t = "run.queued")) by done.
      cbn [orb negb]. destruct (assoc t transition) as [[from to]|].
      - destruct Hrule as [Hin ->]. rewrite Hst in Hin.
        rewrite (bool_decide_eq_true_2 (lf_status l ∈ from)) by done. by eexists.
      - rewrite Hrule. eexists. split; [reflexivity|exact Hst]. }
    destruct Hstep as (l' & Hs & Hd'). exists l'. split; [by eapply lives_next|done].
Qed.

(** The row both writers build continues the chain. *)
Lemma chain_row_continues d id event_id seq t at_ at1 at2 cls payload corr caus prev key :
  ledger_inv d →
  seq = match last (run_events id d) with None => 1%Z | Some l => (evt_sequence l + 1)%Z end →
  prev = evt_event_hash <$> last (run_events id d) →
  continues d id (chain_row event_id id seq t at_ at1 at2 cls payload corr caus prev key).
Proof.
  intros Hd -> ->. unfold continues. cbn. split_and!; [done| | |done].
  - destruct (last (run_events id d)) as [e|] eqn:E.
    + rewrite (chain_last_sequence _ _ _ _ (li_chain _ Hd id) E). lia.
    + apply last_None in E. by rewrite E.
  - unfold head_hash. by destruct (last (run_events id d)).
Qed.

Lemma set_runs_same d id run : db_runs d !! id = Some run → set_runs (insert id run) d = d.
Proof. intros Hr. destruct d. unfold set_runs. cbn in *. by rewrite insert_id. Qed.

Lemma insert_event_ok row env s u s' :
  insert_event row env s = Ok (u, s') →
  event_conflict row (st_db s) = false ∧ st_db s' = set_events (λ l, l ++ [row]) (st_db s).
Proof. unfold insert_event. intros E. inv_tx. done. Qed.

Lemma persist_event_step r run payload next env s row s' l' :
  let d := st_db s in
  ledger_inv d → db_runs d !! rq_run_id r = Some run → is_terminal (run_status run) = false →
  sound_event (run_events (rq_run_id r) d) (rq_event_type r) (rq_actor_type r) (rq_actor_id r)
    payload →
  lives (map evt_event_type (run_events (rq_run_id r) d) ++ [rq_event_type r]) l' →
  default (run_status run) next = lf_status l' →
  persist_event r run payload (last (run_events (rq_run_id r) d)) next env s = Ok (row, s') →
  ledger_step d (st_db s').
Proof.
  intros d Hd Hrun Hopen Hsound Hl Hst E. unfold persist_event in E.
  apply tx_bind_ok in E as (eid & s1 & E1 & E). apply new_id_ok in E1.
  apply tx_bind_ok in E as (at_ & s2 & E2 & E). apply utc_now_ok in E2 as [E2 _].
  rewrite E1 in E2.
  apply tx_bind_ok in E as ([] & s3 & E3 & E). apply insert_event_ok in E3 as [Hc E3].
  rewrite E2 in Hc, E3. fold d in Hc, E3.
  apply tx_bind_ok in E as ([] & s4 & E4 & E). apply tx_bind_ok in E as ([] & s5 & E5 & E).
  apply tx_ret_ok in E as [-> ->]. apply settle_lease_ledger in E5.
  etrans; [|by apply same_ledger_frame].
  pose proof (li_run_key _ Hd _ _ Hrun) as Ek. pose proof (li_completed _ Hd _ _ Hrun) as Hcomp.
  assert (Hnone : run_completed_at run = None).
  { destruct (run_completed_at run); [|done]. rewrite Hopen in Hcomp. naive_solver. }
  destruct next as [status|]; cbn in E4, Hst.
  - inv_tx. cbn [st_db advance_run run_id]. rewrite E3, Ek.
    eapply (append_row_step d (rq_run_id r) run); try done.
    + by apply chain_row_continues.
    + cbn. rewrite Hnone. destruct (is_terminal (lf_status l')); naive_solver.
  - inv_tx. rewrite E3. rewrite <- (set_runs_same (set_events _ d) (rq_run_id r) run) by done.
    eapply (append_row_step d (rq_run_id r) run); try done.
    by apply chain_row_continues.
Qed.

(** The transition table is read in the status the Run is in. *)
Lemma run_life d id run l :
  ledger_inv d → db_runs d !! id = Some run →
  lives (map evt_event_type (run_events id d)) l → lf_status l = run_status run.
Proof.
  intros Hd Hrun Hl. destruct (li_life _ Hd _ _ Hrun) as [[Hnil _]|(l1 & Hl1 & ->)].
  - rewrite Hnil in Hl. by apply lives_nonempty in Hl.
  - by rewrite (lives_functional _ _ _ Hl Hl1).
Qed.

Lemma event_transition_statuses run t payload prior next from to :
  event_transition run t payload prior = Ok next → assoc t transition = Some (from, to) →
  declared_otherwise payload "from_status" (RunStatus_value (run_status run)) = false
  ∧ declared_otherwise payload "status" (RunStatus_value to) = false.
Proof.
  unfold event_transition. intros E Ht. inv_ok. case_bool_decide as Hq.
  - subst t. discriminate Ht.
  - rewrite Ht in E. inv_ok. done.
Qed.

Lemma append_sound d run r payload next :
  let id := rq_run_id r in
  ledger_inv d → db_runs d !! id = Some run → validate_request r = Ok payload →
  run_family_checks d run id (rq_event_type r) payload (run_events id d)
    (map evt_event_type (run_events id d)) = Ok tt →
  event_transition run (rq_event_type r) payload
    (bool_decide (is_Some (last (run_events id d)))) = Ok next →
  sound_event (run_events id d) (rq_event_type r) (rq_actor_type r) (rq_actor_id r) payload.
Proof.
  intros id Hd Hrun Hreq Hfam Htr. unfold validate_request in Hreq. inv_ok.
  unfold run_family_checks in Hfam. inv_ok. constructor; try done.
  - eauto.
  - by apply negb_false_iff, bool_decide_eq_true in H0.
  - by apply bool_decide_eq_false in H2.
  - intros Ht. rewrite Ht in *. by match goal with H : when true _ = Ok ?u |- _ => destruct u end.
  - intros l from to Hl Ht. rewrite (run_life _ _ _ _ Hd Hrun Hl).
    by eapply event_transition_statuses.
  - intros Ht. rewrite bool_decide_eq_true_2 in Hfam by done.
    unfold when, check_terminal_event in Hfam. inv_ok. done.
Qed.

Lemma append_body_ledger r : steps_by ledger_step (append_body r).
Proof.
  intros env s row s' E. unfold append_body in E.
  apply tx_bind_ok in E as (payload & s1 & E1 & E). apply lift_ok in E1 as [Hreq ->].
  apply tx_bind_ok in E as ([] & s2 & E2 & E). apply reads_validate_optional_lease in E2.
  apply tx_bind_ok in E as (run & s3 & E3 & E). apply fetch_ok in E3 as [Hrun ->].
  apply tx_bind_ok in E as (existing & s4 & E4 & E).
  assert (Hs4 : same_ledger (st_db s) (st_db s4)).
  { rewrite <- E2. destruct (rq_operation_key r).
    - by apply resolve_idempotent_ledger in E4.
    - apply tx_ret_ok in E4 as [_ ->]. done. }
  destruct existing as [existing|]; [apply tx_ret_ok in E as [-> ->]; by apply same_ledger_frame|].
  etrans; [by apply same_ledger_frame|]. intros Hd.
  inv_tx. unfold get_run in Hrun. rewrite E2 in Hrun.
  rewrite <- (proj1 Hs4) in Hrun.
  rewrite events_by_sequence_id in * by done.
  match goal with H : validate_phase _ _ _ = Ok ?u |- _ => destruct u; rename H into Hph end.
  match goal with H : run_family_checks _ _ _ _ _ _ _ = Ok ?u |- _ =>
    destruct u; rename H into Hfam end.
  match goal with H : event_transition _ _ _ _ = Ok _ |- _ => rename H into Htr end.
  destruct (append_life _ _ _ _ _ _ Hd Hrun Hph Hfam Htr) as (l' & Hl & Hst).
  pose proof (append_sound _ _ _ _ _ Hd Hrun Hreq Hfam Htr) as Hsound.
  apply validate_phase_ok in Hph as [Hopen _].
  by eapply persist_event_step.
Qed.

Lemma save_run_queue run : steps_by queue_step (save_run run).
Proof. apply same_queue_step. unfold save_run. walk. Qed.

Lemma append_body_queue r : steps_by queue_step (append_body r).
Proof.
  unfold append_body, resolve_idempotent, persist_event. walk;
    first [apply settle_lease_queue | apply save_run_queue
          | apply same_queue_step, steps_by_update; intros; split; reflexivity].
Qed.

(** ** append_event_once_in_session *)

Lemma event_by_key_type id key d e :
  event_by_key id key d = Some e → evt_event_type e ∈ map evt_event_type (run_events id d).
Proof. intros [He _]%find_first_Some. by apply (list_elem_of_fmap_2 evt_event_type). Qed.

(** An event type that may follow, with the status it leads to. *)
Definition legal (types : list string) (run : RunRow) (t : string) (next : option RunStatus) : Prop :=
  ∀ l, lives types l → lf_status l = run_status run →
    ∃ l', life_step l t = Some l' ∧ lf_status l' = default (run_status run) next.

(** The event types the session writers append: not reserved, outside the tool and terminal
    families, and declaring the statuses of the transition they make. *)
Definition plain_event (t : string) (payload : RunEventPayload) (st : RunStatus) : bool :=
  negb (t ∈b UNSUPPORTED_RUNTIME_EVENT_TYPES) && negb (startswith "tool." t)
  && negb (t ∈b TERMINAL_EVENT_TYPES)
  && match assoc t transition, normalize_event_payload t payload with
     | Some (_, to), Ok doc =>
         negb (declared_otherwise doc "from_status" (RunStatus_value st))
         && negb (declared_otherwise doc "status" (RunStatus_value to))
     | _, _ => true
     end.

Lemma plain_sound d run t payload doc :
  ledger_inv d → db_runs d !! run_id run = Some run →
  plain_event t payload (run_status run) = true → normalize_event_payload t payload = Ok doc →
  sound_event (run_events (run_id run) d) t "system" "evidrun" doc.
Proof.
  unfold plain_event. intros Hd Hrun Hplain Hdoc.
  rewrite !andb_true_iff, !negb_true_iff, !bool_decide_eq_false in Hplain.
  destruct Hplain as [[[Hres Htool] Hterm] Hst]. constructor; try done.
  - eauto.
  - unfold ALLOWED_ACTOR_TYPES. left.
  - intros Ht. congruence.
  - intros l from to Hl Ht. rewrite (run_life _ _ _ _ Hd Hrun Hl).
    rewrite Ht, Hdoc, andb_true_iff, !negb_true_iff in Hst. done.
Qed.

Lemma append_once_step run t payload key allowed next env s row run' s' :
  let d := st_db s in
  let id := run_id run in
  ledger_inv d → db_runs d !! id = Some run →
  (event_by_key id key d = None → run_status run ∈ allowed →
     legal (map evt_event_type (run_events id d)) run t next) →
  (run_status run ∈ allowed → plain_event t payload (run_status run) = true) →
  (∀ status, next = Some status → is_terminal status = false) →
  (∀ s, s ∈ allowed → is_terminal s = false) →
  append_event_once_in_session run t payload key allowed next env s = Ok ((row, run'), s') →
  ledger_step d (st_db s') ∧ db_runs (st_db s') !! id = Some run' ∧ run_id run' = id ∧ run_run_spec_id run' = run_run_spec_id run
  ∧ t ∈ map evt_event_type (run_events id (st_db s')).
Proof.
  intros d id Hd Hrun Hlegal Hplain Hnext Hallow E. unfold append_event_once_in_session in E.
  apply tx_bind_ok in E as (np & s1 & E1 & E). apply lift_ok in E1 as [Hnp ->].
  apply tx_bind_ok in E as (ex & s1 & E1 & E). apply query_ok in E1 as [-> ->]. fold d id in E.
  destruct (event_by_key id key d) as [e|] eqn:Hkey.
  - inv_tx. apply orb_false_iff in H0 as [Ht _]. apply negb_false_iff, bool_decide_eq_true in Ht.
    split_and!; try done. rewrite <- Ht. by eapply event_by_key_type.
  - apply tx_bind_ok in E as ([] & s1 & E1 & E). apply guard_ok in E1 as [Hst ->].
    apply negb_false_iff, bool_decide_eq_true in Hst.
    apply tx_bind_ok in E as (lst & s1 & E1 & E). apply fetch_ok in E1 as [Hlast ->].
    unfold last_event in Hlast. fold d in Hlast. rewrite events_by_sequence_id in Hlast by done.
    apply tx_bind_ok in E as (eid & s1 & E1 & E). apply new_id_ok in E1.
    apply tx_bind_ok in E as (at_ & s2 & E2 & E). apply utc_now_ok in E2 as [E2 _].
    apply tx_bind_ok in E as ([] & s3 & E3 & E). apply insert_event_ok in E3 as [Hc E3].
    rewrite E2, E1 in Hc, E3. fold d in Hc, E3.
    assert (Hlf : ∃ l, lives (map evt_event_type (run_events id d)) l ∧ lf_status l = run_status run).
    { destruct (li_life _ Hd _ _ Hrun) as [[Hn _]|(l & Hl & E4)]; [by rewrite Hn in Hlast|eauto]. }
    destruct Hlf as (l & Hl & El). destruct (Hlegal eq_refl Hst l Hl El) as (l' & Hstep & El').
    assert (Hcont : continues d id (chain_row eid id (evt_sequence lst + 1) t at_ "system" "evidrun"
      "internal" np id None (Some (evt_event_hash lst)) (Some key)))
      by (apply chain_row_continues; [done|by rewrite Hlast..]).
    pose proof (plain_sound _ _ _ _ _ Hd Hrun (Hplain Hst) Hnp) as Hsound.
    assert (Hnone : run_completed_at run = None).
    { pose proof (li_completed _ Hd _ _ Hrun) as Hcomp. rewrite Hallow in Hcomp by done.
      destruct (run_completed_at run); [|done]. naive_solver. }
    pose proof (lives_next _ _ _ _ Hl Hstep) as Hl'.
    destruct next as [status|]; cbn in El'; inv_tx; cbn [st_db].
    + rewrite E3. cbn [run_id advance_run]. split_and!; try done.
      * eapply (append_row_step d id run); try done.
        -- by apply Hallow.
        -- cbn. rewrite Hnone, Hnext by done. naive_solver.
      * cbn. by rewrite lookup_insert_eq.
      * change (t ∈ map evt_event_type (run_events id (set_events (λ l, l ++ [chain_row eid id
          (evt_sequence lst + 1) t at_ "system" "evidrun" "internal" np id None
          (Some (evt_event_hash lst)) (Some key)]) d))).
        rewrite run_events_snoc, map_app. cbn.
        rewrite (bool_decide_eq_true_2 (id = id)) by done. set_solver.
    + rewrite E3. split_and!; try done.
      * rewrite <- (set_runs_same (set_events _ d) id run) by done.
        eapply (append_row_step d id run); try done; [by apply Hallow|].
        cbn. rewrite Hnone, Hallow by done. naive_solver.
      * rewrite run_events_snoc, map_app. cbn.
        rewrite (bool_decide_eq_true_2 (id = id)) by done. set_solver.
Qed.

Lemma count_type_map t es : count_type t es = count_of t (map evt_event_type es).
Proof.
  unfold count_type, count_of. induction es as [|e es IH]; cbn; [done|].
  destruct (evt_event_type e ==b t); cbn; by rewrite IH.
Qed.

Lemma legal_responded types run :
  count_of "subject.invoked" types = (count_of "subject.responded" types + 1)%nat →
  run_status run = running → legal types run "subject.responded" None.
Proof.
  intros Hc Hst l Hl E. destruct (lives_facts _ _ Hl) as [_ Hp].
  destruct l as [st p r]; cbn in *. rewrite Hst in E. subst st.
  destruct p; [|lia]. eexists. split; [reflexivity|done].
Qed.

Lemma legal_evaluating types run :
  "subject.responded" ∈ types → run_status run = running →
  legal types run "run.evaluating" (Some evaluating).
Proof.
  intros Hin Hst l Hl E. destruct (lives_facts _ _ Hl) as [Hr _].
  rewrite bool_decide_eq_true_2 in Hr by done.
  destruct l as [st p r]; cbn in *. rewrite Hst in E. subst st r. eexists. by split.
Qed.

Lemma append_once_queue run t payload key allowed next :
  steps_by same_queue (append_event_once_in_session run t payload key allowed next).
Proof. unfold append_event_once_in_session, insert_event, save_run. walk. Qed.

Lemma save_subject_response_queue id spec payload output lease :
  steps_by queue_step (save_subject_response_body id spec payload output lease).
Proof.
  apply same_queue_step. unfold save_subject_response_body, save_run. walk; apply append_once_queue.
Qed.

Lemma save_subject_response_ledger id spec payload output lease :
  steps_by ledger_step (save_subject_response_body id spec payload output lease).
Proof.
  intros env s row s' E Hd. unfold save_subject_response_body in E.
  apply tx_bind_ok in E as ([] & s1 & E1 & E). apply reads_validate_optional_lease in E1.
  apply tx_bind_ok in E as (run & s2 & E2 & E). apply fetch_ok in E2 as [Hrun ->].
  unfold get_run in Hrun. rewrite <- E1 in Hd |- *. clear E1.
  pose proof (li_run_key _ Hd _ _ Hrun) as Ek. rewrite <- Ek in *. clear Ek id.
  do 5 skip_read E.
  apply tx_bind_ok in E as (turns & s3 & Ex & E). apply query_ok in Ex as [-> ->].
  apply tx_bind_ok in E as (existing & s3 & Ex & E). apply query_ok in Ex as [-> ->].
  apply tx_bind_ok in E as ([] & s3 & Ex & E). apply guard_ok in Ex as [Hturn ->].
  apply tx_bind_ok in E as ([response run1] & s3 & E1 & E).
  apply append_once_step in E1 as (Hs1 & Hr1 & Ei1 & _ & Ht1); try done.
  2:{ intros Hkey Hst. apply list_elem_of_singleton in Hst. apply legal_responded; [|done].
      rewrite Hkey, !count_type_map in Hturn. cbn in Hturn.
      by apply negb_false_iff, Nat.eqb_eq in Hturn. }
  2:{ intros st ->%list_elem_of_singleton. done. }
  destruct (Hs1 Hd) as [Hd1 _].
  apply tx_bind_ok in E as ([] & s4 & Ex & E). unfold save_run in Ex. apply update_ok in Ex as ->.
  apply tx_bind_ok in E as ([row2 run2] & s5 & E2 & E). apply tx_ret_ok in E as [-> ->].
  set (run1' := project_run run1 output (run_context_hash run1)) in *.
  assert (Hs2 : ledger_step (st_db s3) (set_runs (insert (run_id run1') run1') (st_db s3))).
  { apply (project_step (st_db s3) (run_id run1') run1). change (run_id run1') with (run_id run1). by rewrite Ei1. }
  destruct (Hs2 Hd1) as [Hd2 _].
  apply append_once_step in E2 as (Hs3 & _); try done.
  - revert Hd. change (ledger_step (st_db s1) (st_db s5)). etrans; [exact Hs1|].
    etrans; [exact Hs2|exact Hs3].
  - cbn. by rewrite lookup_insert_eq.
  - intros _ Hst. apply list_elem_of_singleton in Hst. apply legal_evaluating; [|done].
    rewrite <- Ei1 in Ht1. exact Ht1.
  - intros Hst%list_elem_of_singleton. by rewrite Hst.
  - by intros st [= <-].
  - intros st ->%list_elem_of_singleton. done.
Qed.

Lemma update_run_ledger id output context_hash lease :
  steps_by ledger_step (update_run_body id output context_hash lease).
Proof.
  intros env s row s' E. unfold update_run_body in E.
  apply tx_bind_ok in E as ([] & s1 & E1 & E). apply reads_validate_optional_lease in E1.
  inv_tx. unfold get_run in H0. rewrite E1 in H0 |- *. intros Hd. cbn [st_db run_id project_run].
  rewrite (li_run_key _ Hd _ _ H0). by apply project_step.
Qed.

Lemma update_run_queue id output context_hash lease :
  steps_by queue_step (update_run_body id output context_hash lease).
Proof. unfold update_run_body. walk. apply save_run_queue. Qed.
End chain.
