(* ===== verification/Lifecycle.v ===== *)
(** * The lifecycle of a Run, rule by rule

    The specification of the ledger's language, written without the code's tables: which
    event may follow in which status, and where it leads. [LedgerInv.life_step] is the
    executable automaton that the append path follows; the two are the same relation. *)

From S2P Require Import Prelude PyText PyJson Base Authoring Runtime Events Evaluation Store.
From S2P Require Import Handlers Ledger LedgerInv.

(** The statuses a Run can still leave. *)
Definition open_run (s : RunStatus) : Prop :=
  match s with
  | queued | preparing | running | paused | evaluating => True
  | completed | failed | cancelled | budget_exhausted | guardrail_stopped => False
  end.

(** How a Run can be ended from any open status. *)
Inductive aborts : string → RunStatus → Prop :=
| aborts_failed : aborts "run.failed" failed
| aborts_cancelled : aborts "run.cancelled" cancelled
| aborts_budget : aborts "run.budget_exhausted" budget_exhausted
| aborts_guardrail : aborts "run.guardrail_stopped" guardrail_stopped.

(** The facts that may be noted in a status without changing it. *)
Inductive notes : RunStatus → string → Prop :=
| notes_context : notes preparing "context.composed"
| notes_offered s : s = preparing ∨ s = running → notes s "capability.offered"
| notes_loaded s : s = preparing ∨ s = running → notes s "skill.loaded"
| notes_skill t : t ∈ ["skill.invoked"; "skill.completed"; "skill.failed"] → notes running t
| notes_checkpoint s : s = running ∨ s = paused ∨ s = evaluating →
    notes s "checkpoint.validation_failed"
| notes_evaluation : notes evaluating "evaluation.completed".

Definition tool_types : list string :=
  ["tool.called"; "tool.approved"; "tool.denied"; "tool.completed"; "tool.failed"].

(** The event types with a rule of their own. *)
Definition ruled_types : list string :=
  ["run.queued"; "run.preparing"; "run.running"; "run.paused"; "run.resumed"; "run.evaluating";
   "run.completed"; "run.failed"; "run.cancelled"; "run.budget_exhausted";
   "run.guardrail_stopped"; "subject.invoked"; "subject.responded"; "context.composed";
   "capability.offered"; "skill.loaded"; "skill.invoked"; "skill.completed"; "skill.failed";
   "checkpoint.validation_failed"; "evaluation.completed"] ++ tool_types.

Inductive flow : Life → string → Life → Prop :=
| flow_preparing p r : flow (MkLife queued p r) "run.preparing" (MkLife preparing p r)
| flow_running p r : flow (MkLife preparing p r) "run.running" (MkLife running p r)
| flow_paused p r : flow (MkLife running p r) "run.paused" (MkLife paused p r)
| flow_resumed p r : flow (MkLife paused p r) "run.resumed" (MkLife running p r)
| flow_evaluating p : flow (MkLife running p true) "run.evaluating" (MkLife evaluating p true)
| flow_completed p r : flow (MkLife evaluating p r) "run.completed" (MkLife completed p r)
| flow_aborts s p r t s' : open_run s → aborts t s' → flow (MkLife s p r) t (MkLife s' p r)
| flow_invoked r : flow (MkLife running false r) "subject.invoked" (MkLife running true r)
| flow_responded r : flow (MkLife running true r) "subject.responded" (MkLife running false true)
| flow_tool t r : t ∈ tool_types → flow (MkLife running true r) t (MkLife running true r)
| flow_notes s t p r : notes s t → flow (MkLife s p r) t (MkLife s p r)
| flow_other s t p r : open_run s → t ∉ ruled_types → (startswith "tool." t = true → p = true) →
    flow (MkLife s p r) t (MkLife s p r).

(** The paths of the specification, from the event that opens a Run. *)
Inductive flows : list string → Life → Prop :=
| flows_queued : flows ["run.queued"] (MkLife queued false false)
| flows_next ts l t l' : flows ts l → flow l t l' → flows (ts ++ [t]) l'.

Ltac flow_rule :=
  first
    [ solve [constructor]
    | solve [apply flow_aborts; [exact I|constructor]]
    | solve [apply flow_tool; repeat first [left|right]]
    | solve [apply flow_notes, notes_skill; repeat first [left|right]]
    | solve [apply flow_notes; constructor; auto] ].

Lemma assoc_unruled {A} t (l : list (string * A)) :
  t ∉ ruled_types → (∀ k, k ∈ map fst l → k ∈ ruled_types) → assoc t l = None.
Proof.
  intros Ht Hl. induction l as [|[k a] l IH]; [done|]. cbn. case_decide as Hk.
  - subst k. destruct Ht. apply Hl. by left.
  - apply IH. intros k' Hk'. apply Hl. by right.
Qed.

Lemma unruled_transition t : t ∉ ruled_types → assoc t transition = None.
Proof.
  intros Ht. apply assoc_unruled; [done|]. intros k Hk.
  apply list_elem_of_In in Hk. apply list_elem_of_In. cbn in *. naive_solver.
Qed.

Lemma unruled_phase s t : t ∉ ruled_types → phase_ok s t = true.
Proof.
  intros Ht. unfold phase_ok. rewrite assoc_unruled; [done..|]. intros k Hk.
  apply list_elem_of_In in Hk. apply list_elem_of_In. cbn in *. naive_solver.
Qed.

Lemma unruled_turn l t :
  t ∉ ruled_types → turn_ok l t = negb (startswith "tool." t) || lf_pending l.
Proof.
  intros Ht. unfold turn_ok.
  rewrite !(bool_decide_eq_false_2 (t = _)) by (intros ->; apply Ht; vm_compute; set_solver).
  cbn. by destruct (startswith "tool." t).
Qed.

Lemma unruled_step l t :
  t ∉ ruled_types →
  life_step l t =
    if is_terminal (lf_status l) || startswith "tool." t && negb (lf_pending l) then None else Some l.
Proof.
  intros Ht. unfold life_step. rewrite unruled_transition, unruled_phase, unruled_turn by done.
  rewrite !(bool_decide_eq_false_2 (t = _)) by (intros ->; apply Ht; vm_compute; set_solver).
  rewrite !orb_false_r, negb_orb, negb_involutive. by destruct l, (_ || _).
Qed.

Lemma flow_life_step l t l' : flow l t l' → life_step l t = Some l'.
Proof.
  destruct 1 as [p r|p r|p r|p r|p|p r|s p r t s' Hs Ht|r|r|t r Ht|s t p r Hn|s t p r Hs Ht Htool];
    try (by destruct r); try reflexivity.
  - by destruct Ht, s, r.
  - apply list_elem_of_In in Ht. cbn in Ht. by repeat destruct Ht as [<-|Ht]; destruct r.
  - destruct Hn as [|? [-> | ->]|? [-> | ->]|t Ht|? [->|[-> | ->]]|]; try (by destruct r).
    apply list_elem_of_In in Ht. cbn in Ht. by repeat destruct Ht as [<-|Ht]; destruct r.
  - rewrite unruled_step by done. cbn. destruct (startswith "tool." t); [rewrite Htool by done|];
      by destruct s.
Qed.

Lemma ruled_flow l t l' : t ∈ ruled_types → life_step l t = Some l' → flow l t l'.
Proof.
  intros Hr%list_elem_of_In. destruct l as [s p r]. cbn in Hr.
  repeat destruct Hr as [<-|Hr]; try done; destruct s, p, r; intros H; vm_compute in H;
    try discriminate H; injection H as <-; flow_rule.
Qed.

(** The executable automaton takes exactly the steps of the specification. *)
Lemma life_step_flow l t l' : life_step l t = Some l' ↔ flow l t l'.
Proof.
  split; [|apply flow_life_step]. intros Hs.
  destruct (decide (t ∈ ruled_types)) as [Hr|Hr]; [by apply ruled_flow|].
  rewrite unruled_step in Hs by done. destruct l as [s p r]. cbn in Hs.
  destruct (_ || _) eqn:E; [done|]. injection Hs as <-. apply orb_false_iff in E as [Ho Ht].
  constructor; [by destruct s|done|]. intros Htool. rewrite Htool in Ht. by destruct p.
Qed.

Lemma lives_flows ts l : lives ts l ↔ flows ts l.
Proof.
  split; (induction 1 as [|ts l t l' _ IH Hs]; [constructor|]); econstructor; try done;
    by apply life_step_flow.
Qed.
