(* ===== verification/Queue.v ===== *)
(** * Enqueueing and preparing a Run
    (src/src/evidrun/infrastructure/database/queue/: enqueue.py, preparation.py,
    enqueue_errors.py).

    [enqueue_run] writes the Run, the event that opens its chain and its job in one
    transaction; [prepare_run_execution] publishes the context snapshot, the Subject
    envelope and the preparation events under the caller's lease. *)

From S2P Require Import Prelude PyText PyJson Base Authoring Runtime Events Triage Evaluation Store.
From S2P Require Import Registry Lease Handlers Ledger.

Section queue.
Context `{PyRuntime}.

(** ** enqueue.py *)

Definition request_document (run_spec_id admission_id : string)
    (retry_of experiment_revision_id : option string) : json := JObj [
  ("run_spec_id", JStr run_spec_id);
  ("admission_id", JStr admission_id);
  ("retry_of", jopt JStr retry_of);
  ("experiment_revision_id", jopt JStr experiment_revision_id)].

Definition job_by_key (key : string) (d : DB) : option RunExecutionJobRow :=
  find_first (λ j, job_idempotency_key j ==b key) (all_jobs d).

Definition load_admitted_contracts (run_spec_id admission_id : string) (d : DB)
    : result (RunSpec * AdmissionRecord * AdmissionRecordRow) :=
  spec_row ← require (db_run_specs d !! run_spec_id) (rejected ENQUEUE_RUN_SPEC_NOT_FOUND);
  admission_row ← require (db_admissions d !! admission_id) (rejected ENQUEUE_ADMISSION_NOT_FOUND);
  let spec := rsp_spec spec_row in
  let admission := arow_record admission_row in
  raise_when (spec_digest spec !=b rsp_digest spec_row
      || admission_digest admission !=b arow_digest admission_row)
    (rejected ENQUEUE_DIGEST_MISMATCH);;
  raise_when (arow_decision admission_row !=b AdmissionAdmitted || adm_decision admission !=b AdmissionAdmitted)
    (rejected ENQUEUE_ADMISSION_NOT_ADMITTED);;
  raise_when (arow_run_spec_id admission_row !=b rsp_id spec_row
      || adm_run_spec_digest admission !=b spec_digest spec)
    (rejected ENQUEUE_ADMISSION_RUN_SPEC_MISMATCH);;
  raise_when
    (match adm_execution_trust admission with
     | None => true
     | Some trust => arow_execution_trust_id admission_row !=b Some (tr_trust_id trust)
         || arow_execution_trust_digest admission_row !=b Some (tr_digest trust)
     end) (ValueError "Run requires the AdmissionRecord execution trust");;
  Ok (spec, admission, admission_row).

(** The source Run of a retry ended without success, on the same RunSpec, under another
    admission, and this admission is newer than its end. *)
Definition validate_retry (retry_of run_spec_id admission_id : string)
    (admission_created_at : instant) (experiment_revision_id : option string) (d : DB)
    : result (option string) :=
  source_run ← require (get_run retry_of d) (ValueError "retry_of must reference an existing Run");
  raise_when (negb (run_status source_run
      ∈b [failed; cancelled; budget_exhausted; guardrail_stopped]))
    (rejected ENQUEUE_RETRY_SOURCE_SUCCEEDED);;
  raise_when (run_run_spec_id source_run !=b Some run_spec_id)
    (rejected ENQUEUE_ADMISSION_RUN_SPEC_MISMATCH);;
  raise_when (run_admission_id source_run ==b Some admission_id)
    (rejected ENQUEUE_RETRY_ADMISSION_REUSED);;
  raise_when (match run_completed_at source_run with
              | None => true
              | Some t => (admission_created_at <=? t)%Z
              end) (rejected ENQUEUE_RETRY_ADMISSION_NOT_NEWER);;
  Ok (match experiment_revision_id with
      | None => run_experiment_revision_id source_run
      | Some e => Some e
      end).

Definition append_queued_event (run : RunRow) (spec : RunSpec) (admission : AdmissionRecord)
    (requested_at : instant) : Tx unit :=
  queued_payload ← lift (normalize_event_payload "run.queued" (PRunQueued
    (MkRunQueuedPayload (run_id run) (spec_variant_id spec) (spec_digest spec)
       (admission_digest admission))));
  event_id ← new_id "evt";
  insert_event (chain_row event_id (run_id run) 1 "run.queued" requested_at "system" "evidrun"
    "internal" queued_payload (run_id run) None None (Some "run:queued")).

Definition enqueue_body (run_spec_id admission_id idempotency_key : string)
    (retry_of experiment_revision_id : option string) (now : option instant)
    : Tx (RunRow * RunExecutionJobRow) :=
  guard (is_blank idempotency_key) (rejected ENQUEUE_IDEMPOTENCY_KEY_EMPTY);;
  requested_at ← now_or_clock now;
  let request_digest :=
    sha256_json (request_document run_spec_id admission_id retry_of experiment_revision_id) in
  existing ← query (job_by_key idempotency_key);
  match existing with
  | Some existing =>
      guard (job_request_digest existing !=b request_digest)
        (rejected ENQUEUE_IDEMPOTENCY_CONFLICT);;
      run ← fetch (get_run (job_run_id existing))
        (ValueError "idempotent execution job references a missing Run");
      mret (run, existing)
  | None =>
      d ← query (λ d, d);
      '(spec, admission, admission_row) ←
        lift (load_admitted_contracts run_spec_id admission_id d);
      execution_trust ← lift (require (adm_execution_trust admission)
        (ValueError "Run requires the AdmissionRecord execution trust"));
      experiment ← lift (match retry_of with
        | None => Ok experiment_revision_id
        | Some retry_of => validate_retry retry_of run_spec_id admission_id
            (arow_created_at admission_row) experiment_revision_id d
        end);
      new_run_id ← new_id "run";
      let run := {|
        run_id := new_run_id; run_experiment_revision_id := experiment;
        run_variant_id := spec_variant_id spec; run_repetition := spec_repetition_index spec;
        run_status := queued; run_runner := cap_name (inv_runner_ref (spec_agent_inventory spec));
        run_objective := goal_instruction (spec_goal spec); run_output := None;
        run_context_hash := None; run_retry_of := retry_of;
        run_run_spec_id := Some run_spec_id; run_admission_id := Some admission_id;
        run_execution_trust_id := Some (tr_trust_id execution_trust);
        run_execution_trust_digest := Some (tr_digest execution_trust);
        run_created_at := requested_at; run_completed_at := None |} in
      insert_run run;;
      append_queued_event run spec admission requested_at;;
      new_job_id ← new_id "job";
      let job_row := {|
        job_id := new_job_id; job_run_id := run_id run; job_status := JobQueued;
        job_idempotency_key := idempotency_key; job_request_digest := request_digest;
        job_available_at := requested_at; job_active_attempt_id := None;
        job_lease_generation := 0; job_created_at := requested_at;
        job_finished_at := None; job_rejection_code := None |} in
      insert_job job_row;;
      mret (run, job_row)
  end.

Definition enqueue_run (run_spec_id admission_id idempotency_key : string)
    (retry_of experiment_revision_id : option string) (now : option instant)
    : Op (RunRow * RunExecutionJob) :=
  transaction (enqueue_body run_spec_id admission_id idempotency_key retry_of
    experiment_revision_id now) (λ '(run, job), j ← execution_job_model job; Ok (run, j)).

(** ** preparation.py *)

(** The [snapshot] argument, with its fields converted as the code converts them. *)
Record ContextSnapshot := MkContextSnapshot {
  cs_policy_id : string;
  cs_strategy : ContextStrategy;
  cs_max_chars : Z;
  cs_source_chars : Z;
  cs_selected_chars : Z;
  cs_selected_content : string;
  cs_omitted : json;
  cs_content_hash : string
}.

Definition load_prepared_run (id : string) (spec : RunSpec) (admission : AdmissionRecord)
    (envelope : SubjectEnvelope) (d : DB) : result RunRow :=
  run ← require (get_run id d) (ValueError "prepared Run requires canonical contracts");
  match run_run_spec_id run, run_admission_id run with
  | Some spec_id, Some admission_id =>
      raise_when
        (match db_run_specs d !! spec_id, db_admissions d !! admission_id with
         | Some spec_row, Some admission_row =>
             rsp_digest spec_row !=b spec_digest spec
             || arow_digest admission_row !=b admission_digest admission
             || adm_run_spec_digest admission !=b spec_digest spec
             || adm_decision admission !=b AdmissionAdmitted
             || se_run_spec_digest envelope !=b spec_digest spec
         | _, _ => true
         end) (ValueError "prepared Run contracts are not exact");;
      Ok run
  | _, _ => Raise (ValueError "prepared Run requires canonical contracts")
  end.

(** [{key: getattr(row, key) for key in expected} != expected]. *)
Definition snapshot_differs (row : ContextSnapshotRow) (s : ContextSnapshot) : bool :=
  snap_policy_id row !=b cs_policy_id s || snap_strategy row !=b cs_strategy s
  || negb (snap_max_chars row =? cs_max_chars s)%Z
  || negb (snap_source_chars row =? cs_source_chars s)%Z
  || negb (snap_selected_chars row =? cs_selected_chars s)%Z
  || snap_selected_content row !=b cs_selected_content s
  || canonical_json (snap_omitted row) !=b canonical_json (cs_omitted s)
  || snap_content_hash row !=b cs_content_hash s.

Definition upsert_context_snapshot (id : string) (expected : ContextSnapshot)
    (prepared_at : instant) : Tx ContextSnapshotRow :=
  existing ← query (snapshot_by_run id);
  match existing with
  | None =>
      snapshot_id ← new_id "ctx";
      let row := {|
        snap_id := snapshot_id; snap_run_id := id; snap_policy_id := cs_policy_id expected;
        snap_strategy := cs_strategy expected; snap_max_chars := cs_max_chars expected;
        snap_source_chars := cs_source_chars expected;
        snap_selected_chars := cs_selected_chars expected;
        snap_selected_content := cs_selected_content expected;
        snap_omitted := cs_omitted expected; snap_content_hash := cs_content_hash expected;
        snap_created_at := prepared_at |} in
      insert_snapshot row;; mret row
  | Some row =>
      guard (snapshot_differs row expected)
        (ValueError "a different ContextSnapshot already exists for the Run");;
      mret row
  end.

Definition upsert_subject_envelope (id : string) (envelope : SubjectEnvelope)
    (prepared_at : instant) : Tx SubjectEnvelopeRow :=
  existing ← query (λ d, db_envelopes d !! id);
  let document := semantic_model_dump (to_SubjectEnvelope envelope) in
  match existing with
  | None =>
      let row := {| erow_run_id := id; erow_envelope_json := document;
                    erow_digest := envelope_digest envelope; erow_created_at := prepared_at |} in
      insert_envelope row;; mret row
  | Some row =>
      guard (canonical_json (erow_envelope_json row) !=b canonical_json document
             || erow_digest row !=b envelope_digest envelope)
        (ValueError "a different SubjectEnvelope already exists for the Run");;
      mret row
  end.

Definition offered_key (r : CapabilityDescriptorRef) : string :=
  "capability:" +:+ cap_namespace r +:+ ":" +:+ cap_name r +:+ ":" +:+ cap_version r +:+ ":offered".

(** The loop over the envelope's effective capabilities. *)
Fixpoint offer_capabilities (run : RunRow) (capabilities : list ResolvedCapability) : Tx unit :=
  match capabilities with
  | [] => mret tt
  | capability :: rest =>
      ref ← lift (require (rc_resolved_ref capability)
        (ValueError "SubjectEnvelope contains an unresolved effective capability"));
      append_event_once_in_session run "capability.offered"
        (PCapabilityOffered (MkCapabilityOfferedPayload ref (rc_required capability)
           (rc_exposure capability) (rc_effective_permissions capability)))
        (offered_key ref) [preparing] None;;
      offer_capabilities run rest
  end.

Definition append_preparation_events (run : RunRow) (spec : RunSpec) (envelope : SubjectEnvelope)
    (snapshot_id : string) (s : ContextSnapshot) : Tx RunRow :=
  '(_, run) ← append_event_once_in_session run "run.preparing"
    (PRunPreparing (MkRunPreparingPayload (spec_scenario_ref spec)))
    "run:preparing" [queued] (Some preparing);
  '(_, run) ← append_event_once_in_session run "context.composed"
    (PContextComposed (MkContextComposedPayload snapshot_id (cs_policy_id s) (cs_strategy s)
       (cs_source_chars s) (cs_selected_chars s) (truthy (cs_omitted s)) (cs_content_hash s)))
    "context:composed" [preparing] None;
  offer_capabilities run (se_effective_capabilities envelope);;
  '(_, run) ← append_event_once_in_session run "run.running"
    (PRunLifecycle (MkRunLifecyclePayload preparing
       "SubjectEnvelope materialized and runner adapter ready"))
    "run:running" [preparing] (Some running);
  mret run.

Definition prepare_body (id : string) (spec : RunSpec) (admission : AdmissionRecord)
    (snapshot : ContextSnapshot) (envelope : SubjectEnvelope) (lease : LeaseFence)
    : Tx (ContextSnapshotRow * SubjectEnvelopeRow) :=
  prepared_at ← utc_now;
  validate_optional_lease (Some lease) id;;
  d ← query (λ d, d);
  run ← lift (load_prepared_run id spec admission envelope d);
  snapshot_row ← upsert_context_snapshot id snapshot prepared_at;
  envelope_row ← upsert_subject_envelope id envelope prepared_at;
  run ← append_preparation_events run spec envelope (snap_id snapshot_row) snapshot;
  save_run (project_run run (run_output run) (Some (cs_content_hash snapshot)));;
  mret (snapshot_row, envelope_row).

Definition prepare_run_execution (id : string) (spec : RunSpec) (admission : AdmissionRecord)
    (snapshot : ContextSnapshot) (envelope : SubjectEnvelope) (lease : LeaseFence)
    : Op (ContextSnapshotRow * SubjectEnvelopeRow) :=
  transaction (prepare_body id spec admission snapshot envelope lease) Ok.
End queue.
