(* ===== verification/Composer.v ===== *)
(** * Text and context selection
    (src/src/evidrun/contexts/engine.py, src/src/evidrun/subject_runners/scripted.py,
    src/src/evidrun/evaluations/deterministic.py).

    A Python [str] is its UTF-8 encoding; its characters are the code points, so slices
    and lengths count the byte groups [code_points] returns. [compose] selects what the
    Subject reads of its source, the scripted investigator answers from it, and the exact
    cause grader judges the answer. *)

From S2P Require Import Prelude PyText PyJson Base Authoring Runtime Events Samples Store Queue.
From Stdlib Require Import Ascii.

(** ** Characters *)

(** A byte that continues a UTF-8 sequence. *)
Definition continues (c : ascii) : bool := ((128 <=? byte_of c) && (byte_of c <=? 191))%N.

Fixpoint code_points (s : string) : list string :=
  match s with
  | EmptyString => []
  | String c s' =>
      match code_points s' with
      | (String d t) :: rest =>
          if continues d then String c (String d t) :: rest else String c "" :: String d t :: rest
      | other => String c "" :: other
      end
  end.

(** [len(s)], [s[:n]] and [s[n:]]. *)
Definition str_len (s : string) : nat := length (code_points s).
Definition str_take (n : nat) (s : string) : string := String.concat "" (take n (code_points s)).
Definition str_drop (n : nat) (s : string) : string := String.concat "" (drop n (code_points s)).

(** [sub in s]. *)
Fixpoint contains (sub s : string) : bool :=
  startswith sub s || match s with EmptyString => false | String _ s' => contains sub s' end.

(** ** [str.splitlines] *)

Definition carriage_return : ascii := "013"%char.
Definition line_feed : ascii := "010"%char.

(** LF, VT, FF, FS, GS, RS. *)
Definition break1 (c : ascii) : bool :=
  let b := byte_of c in ((10 <=? b) && (b <=? 12) || (28 <=? b) && (b <=? 30))%N.
(** U+0085. *)
Definition break2 (c d : ascii) : bool := ((byte_of c =? 194) && (byte_of d =? 133))%N.
(** U+2028 and U+2029. *)
Definition break3 (c d e : ascii) : bool :=
  ((byte_of c =? 226) && (byte_of d =? 128) && ((byte_of e =? 168) || (byte_of e =? 169)))%N.

(** [line] is the line read so far. *)
Fixpoint lines_from (line s : string) : list string :=
  match s with
  | EmptyString => if line ==b "" then [] else [line]
  | String c s1 =>
      if Ascii.eqb c carriage_return then
        match s1 with
        | String d s2 => if Ascii.eqb d line_feed then line :: lines_from "" s2
                         else line :: lines_from "" s1
        | EmptyString => [line]
        end
      else if break1 c then line :: lines_from "" s1
      else
        match s1 with
        | String d s2 =>
            if break2 c d then line :: lines_from "" s2
            else match s2 with
                 | String e s3 => if break3 c d e then line :: lines_from "" s3
                                  else lines_from (line +:+ String c "") s1
                 | EmptyString => lines_from (line +:+ String c "") s1
                 end
        | EmptyString => lines_from (line +:+ String c "") s1
        end
  end.

Definition splitlines (s : string) : list string := lines_from "" s.

Example splitlines_mixed :
  splitlines (String "a" (String carriage_return (String line_feed (String "b" (String line_feed
    (String line_feed "c"))))))
  = ["a"; "b"; ""; "c"].
Proof. reflexivity. Qed.

(** ** ContextComposer *)

Definition to_range (range : nat * nat) : json :=
  JObj [("start", JInt (Z.of_nat (fst range))); ("end", JInt (Z.of_nat (snd range)))].

Section composer.
Context `{PyRuntime}.

(** The selected text and the omitted ranges. *)
Definition select (source : string) (policy : ContextPolicySpec) : string * list (nat * nat) :=
  let source_chars := str_len source in
  let max_chars := Z.to_nat (cp_max_chars policy) in
  if (cp_strategy policy ==b Full) || (Z.of_nat source_chars <=? cp_max_chars policy)%Z then
    (source, [])
  else match cp_strategy policy with
  | Head => (str_take max_chars source, [(max_chars, source_chars)])
  | _ =>
      let start := (source_chars - max_chars)%nat in
      (str_drop start source, [(0%nat, start)])
  end.

Definition compose (source : string) (policy : ContextPolicySpec) : ContextSnapshot :=
  let '(selected, omitted) := select source policy in
  MkContextSnapshot (cp_id policy) (cp_strategy policy) (cp_max_chars policy)
    (Z.of_nat (str_len source)) (Z.of_nat (str_len selected)) selected (jlist to_range omitted)
    (sha256_json (JObj [
      ("policy_id", JStr (cp_id policy));
      ("selected_content", JStr selected);
      ("omitted", jlist to_range omitted)])).
End composer.

(** ** ScriptedLogInvestigator *)

Record SubjectResult := MkSubjectResult {
  sr_output : string;
  sr_evidence : list string;
  sr_metadata : list (string * json)
}.

(** [[A-Z0-9_]]. *)
Definition cause_char (c : ascii) : bool :=
  is_digit c || ((65 <=? byte_of c) && (byte_of c <=? 90))%N || (byte_of c =? 95)%N.

(** The longest prefix of such characters. *)
Fixpoint cause_run (s : string) : string :=
  match s with
  | String c s' => if cause_char c then String c (cause_run s') else ""
  | EmptyString => ""
  end.

Definition marker : string := "ROOT_CAUSE=".

(** [re.search(r"ROOT_CAUSE=([A-Z0-9_]+)", s).group(1)]. *)
Fixpoint search_cause (s : string) : option string :=
  let cause := cause_run (drop_str (String.length marker) s) in
  if startswith marker s && (cause !=b "") then Some cause
  else match s with EmptyString => None | String _ s' => search_cause s' end.

Definition scripted_execute (objective context : string) : SubjectResult :=
  match search_cause context with
  | None => MkSubjectResult
      "Não foi possível identificar a causa-raiz com o contexto disponível." []
      [("objective", JStr objective); ("marker_visible", JBool false)]
  | Some cause => MkSubjectResult
      ("A causa-raiz é " +:+ cause +:+ ".")
      (map strip (List.filter (contains (marker +:+ cause)) (splitlines context)))
      [("objective", JStr objective); ("marker_visible", JBool true)]
  end.

(** ** ExactCauseGrader *)

Definition grade_passed (expected output : string) (evidence : list string) : bool :=
  contains expected output && existsb (contains expected) evidence.

Definition float_one : pyfloat :=
  MkFloat (SpecFloat.S754_finite false 4503599627370496 (-52)) eq_refl.
Definition float_zero : pyfloat := MkFloat (SpecFloat.S754_zero false) eq_refl.

Definition grade (expected output : string) (evidence : list string) : pyfloat * bool * string :=
  let passed := grade_passed expected output evidence in
  (if passed then float_one else float_zero, passed,
   if passed then "Resposta e evidência contêm a causa-raiz esperada."
   else "A causa-raiz esperada não está simultaneamente na resposta e na evidência.").

(** ** Slices partition a text *)

Definition body_of (p : string) : bool :=
  match p with String _ t => all_chars continues t | EmptyString => false end.
Definition starts_point (p : string) : bool :=
  match p with String c _ => negb (continues c) | EmptyString => false end.

Lemma concat_cons x l : String.concat "" (x :: l) = x +:+ String.concat "" l.
Proof. destruct l; cbn [String.concat]; [by rewrite string_app_nil_r|done]. Qed.

Lemma concat_app l k : String.concat "" (l ++ k) = String.concat "" l +:+ String.concat "" k.
Proof.
  induction l as [|x l IH]; [done|]. rewrite <- app_comm_cons, !concat_cons, IH.
  by rewrite string_app_assoc.
Qed.

Lemma concat_code_points s : String.concat "" (code_points s) = s.
Proof.
  induction s as [|c s IH]; [done|]. cbn [code_points].
  destruct (code_points s) as [|[|d t] rest]; rewrite <- IH; [done|..].
  - by rewrite !concat_cons.
  - destruct (continues d); by rewrite !concat_cons.
Qed.

(** Every group is a byte with its continuation; only the first may start with one. *)
Lemma code_points_shape s :
  Forall (λ p, body_of p = true) (code_points s)
  ∧ Forall (λ p, starts_point p = true) (tail (code_points s)).
Proof.
  induction s as [|c s [IH1 IH2]]; [by split; constructor|]. cbn [code_points].
  destruct (code_points s) as [|[|d t] rest]; cbn [tail] in *.
  - split; repeat constructor.
  - by inversion IH1.
  - inversion IH1 as [|? ? Hb Hr]; subst. cbn in Hb. destruct (continues d) eqn:E; cbn [tail].
    + split; [|done]. constructor; [|done]. cbn. by rewrite E.
    + split; [by repeat constructor|]. constructor; [|done]. cbn. by rewrite E.
Qed.

Lemma code_points_cons p s :
  body_of p = true → (match code_points s with q :: _ => starts_point q = true | [] => True end) →
  code_points (p +:+ s) = p :: code_points s.
Proof.
  destruct p as [|c t]; [done|]. cbn [body_of]. revert c. induction t as [|d t IH]; intros c Hb Hs.
  - rewrite string_app_cons, string_app_nil_l. cbn [code_points].
    destruct (code_points s) as [|[|d t] rest]; [done|done|]. cbn in Hs. by destruct (continues d).
  - cbn in Hb. apply andb_true_iff in Hb as [Hd Hb]. rewrite string_app_cons. cbn [code_points].
    rewrite IH by done. by rewrite Hd.
Qed.

Lemma code_points_concat l :
  Forall (λ p, body_of p = true) l → Forall (λ p, starts_point p = true) (tail l) →
  code_points (String.concat "" l) = l.
Proof.
  induction l as [|p l IH]; intros Hb Hs; [done|]. inversion Hb; subst. cbn [tail] in Hs.
  assert (Hl : code_points (String.concat "" l) = l).
  { apply IH; [done|]. destruct l; [constructor|]. by inversion Hs. }
  rewrite concat_cons, code_points_cons; [by rewrite Hl|done|]. rewrite Hl.
  destruct l; [done|]. by inversion Hs.
Qed.

Lemma tail_take {A} n (l : list A) : tail (take n l) = take (pred n) (tail l).
Proof. destruct n as [|n], l as [|x l]; cbn; [done..|by destruct n|done]. Qed.

Lemma tail_drop_sub {A} n (l : list A) : tail (drop n l) `sublist_of` tail l.
Proof.
  destruct l as [|x l]; [by rewrite drop_nil|]. destruct n as [|n]; cbn; [done|].
  etrans; [|apply (sublist_drop l n)]. destruct (drop n l); [done|]. by apply sublist_cons.
Qed.

Lemma Forall_sublist {A} (P : A → Prop) l k : l `sublist_of` k → Forall P k → Forall P l.
Proof. rewrite !Forall_forall. intros Hs Hk x Hx. apply Hk. by eapply elem_of_sublist. Qed.

Lemma str_len_take n s : str_len (str_take n s) = Nat.min n (str_len s).
Proof.
  destruct (code_points_shape s) as [H1 H2]. unfold str_len, str_take.
  rewrite code_points_concat, length_take; [done|by apply Forall_take|].
  rewrite tail_take. by apply Forall_take.
Qed.

Lemma str_len_drop n s : str_len (str_drop n s) = (str_len s - n)%nat.
Proof.
  destruct (code_points_shape s) as [H1 H2]. unfold str_len, str_drop.
  rewrite code_points_concat, length_drop; [done|by apply Forall_drop|].
  eapply Forall_sublist; [apply tail_drop_sub|done].
Qed.

Lemma str_take_drop n s : str_take n s +:+ str_drop n s = s.
Proof.
  unfold str_take, str_drop. rewrite <- concat_app, take_drop. apply concat_code_points.
Qed.

Lemma str_len_nil s : str_len s = 0%nat → s = "".
Proof.
  unfold str_len. destruct (code_points s) eqn:E; [|done].
  rewrite <- (concat_code_points s), E. done.
Qed.

(** The ranges of the parts left out before and after the selection. *)
Definition omitted_ranges (before selected after : nat) : list (nat * nat) :=
  (if (before =? 0)%nat then [] else [(0%nat, before)])
  ++ (if (after =? 0)%nat then [] else [(before + selected, before + selected + after)%nat]).

Lemma select_parts source policy :
  (0 < cp_max_chars policy)%Z →
  ∃ before after, source = before +:+ fst (select source policy) +:+ after
    ∧ str_len source = (str_len before + str_len (fst (select source policy)) + str_len after)%nat
    ∧ str_len (fst (select source policy))
      = (if cp_strategy policy ==b Full then str_len source
         else Nat.min (Z.to_nat (cp_max_chars policy)) (str_len source))
    ∧ (cp_strategy policy = Head → before = "") ∧ (cp_strategy policy = Tail → after = "")
    ∧ snd (select source policy)
      = omitted_ranges (str_len before) (str_len (fst (select source policy))) (str_len after).
Proof.
  intros Hmax. set (n := Z.to_nat (cp_max_chars policy)).
  assert (Hall : ∀ k, k = str_len source →
    ∃ before after, source = before +:+ source +:+ after
    ∧ str_len source = (str_len before + str_len source + str_len after)%nat
    ∧ str_len source = k
    ∧ (cp_strategy policy = Head → before = "") ∧ (cp_strategy policy = Tail → after = "")
    ∧ [] = omitted_ranges (str_len before) (str_len source) (str_len after)).
  { intros k ->. exists "", "". rewrite string_app_nil_l, string_app_nil_r. unfold omitted_ranges.
    split_and!; try done. }
  unfold select. destruct (cp_strategy policy) eqn:Es.
  all: rewrite ?bool_decide_eq_true_2 by done; rewrite ?bool_decide_eq_false_2 by done;
    cbn [orb]; try by apply Hall.
  all: destruct (Z.of_nat (str_len source) <=? cp_max_chars policy)%Z eqn:Hlen;
    [apply Z.leb_le in Hlen; apply Hall; lia|apply Z.leb_gt in Hlen]; cbn [fst snd];
    assert (n < str_len source)%nat by lia; fold n.
  - exists "", (str_drop n source). rewrite string_app_nil_l, str_take_drop, str_len_take, str_len_drop.
    change (str_len "") with 0%nat. unfold omitted_ranges.
    assert ((str_len source - n =? 0)%nat = false) as -> by (apply Nat.eqb_neq; lia).
    split_and!; try done; [lia|]. cbn. do 2 f_equal; lia.
  - exists (str_take (str_len source - n) source), "".
    rewrite string_app_nil_r, str_take_drop, str_len_take, str_len_drop.
    change (str_len "") with 0%nat. unfold omitted_ranges.
    assert ((Nat.min (str_len source - n) (str_len source) =? 0)%nat = false) as ->
      by (apply Nat.eqb_neq; lia).
    split_and!; try done; [lia..|]. cbn. do 2 f_equal; lia.
Qed.

(** The context handed to the Subject is a contiguous part of its source: all of it
    under [full] or when it fits, otherwise exactly [max_chars] characters from the start
    ([head]) or from the end ([tail]); the snapshot's counts add up to the source and its
    omitted ranges are exactly the parts left out. *)
Theorem compose_selects `{PyRuntime} source policy :
  (0 < cp_max_chars policy)%Z →
  ∃ before after, source = before +:+ cs_selected_content (compose source policy) +:+ after
    ∧ cs_source_chars (compose source policy)
      = (Z.of_nat (str_len before) + cs_selected_chars (compose source policy)
         + Z.of_nat (str_len after))%Z
    ∧ cs_selected_chars (compose source policy)
      = (if cp_strategy policy ==b Full then Z.of_nat (str_len source)
         else Z.min (cp_max_chars policy) (Z.of_nat (str_len source)))
    ∧ (cp_strategy policy = Head → before = "") ∧ (cp_strategy policy = Tail → after = "")
    ∧ cs_omitted (compose source policy)
      = jlist to_range (omitted_ranges (str_len before)
          (str_len (cs_selected_content (compose source policy))) (str_len after)).
Proof.
  intros Hmax. destruct (select_parts source policy Hmax) as (b & a & H1 & H2 & H3 & H4 & H5 & H6).
  unfold compose. destruct (select source policy) as [selected omitted].
  cbn [fst snd cs_source_chars cs_selected_chars cs_selected_content cs_omitted] in *.
  exists b, a. split_and!; try done; [lia| |by rewrite H6].
  case_bool_decide; lia.
Qed.

Definition tail_policy : ContextPolicySpec := MkContextPolicySpec "tail-4" Tail 4.

Lemma compose_selects_witness :
  (0 < cp_max_chars tail_policy)%Z
  ∧ cs_selected_content (compose "abcção" tail_policy) = "cção"
  ∧ ∃ before after, "abcção" = before +:+ "cção" +:+ after
    ∧ 6%Z = (Z.of_nat (str_len before) + 4 + Z.of_nat (str_len after))%Z.
Proof.
  split; [done|]. assert (E : cs_selected_content (compose "abcção" tail_policy) = "cção")
    by (vm_compute; reflexivity). split; [done|].
  destruct (compose_selects "abcção" tail_policy eq_refl) as (b & a & H1 & H2 & _).
  exists b, a. rewrite E in H1. split; [exact H1|exact H2].
Defined.
