(* ===== verification/Subject.v ===== *)
(** * Subject adapters
    (src/src/evidrun/runs/adapters/: types.py, tool_read_text.py, subject_responses.py,
    subject_scripted.py; the response readers of
    src/src/evidrun/infrastructure/providers/openai_responses.py).

    A Subject turn talks to two others: the model provider, whose answers are arbitrary,
    and the sink that records its tool calls, which may refuse. [turn] is the tree of such
    conversations: a node per awaited provider call and per recorded tool call, branching
    over what comes back. The provider loop is written with [while True]; its model takes
    fuel and [Diverged] marks the exhaustion of it, which no turn reaches
    ([read_agent_disciplined]). Pydantic's reading of JSON text and of the provider's
    response are parameters. *)

From S2P Require Import Prelude PyText PyJson Base Authoring Runtime Events Store Queue Samples Composer.

(** ** Parameters *)

(** [TypeAdapter(dict[str, object]).validate_json(text)]. *)
Class JsonObjects := validate_json : string → result (list (string * json)).

(** The fields of [_OutputItem] and [_ResponseEnvelope] that the adapter reads. *)
Record OutputItem := MkOutputItem {
  oi_type : option string;
  oi_call_id : option string;
  oi_name : option string;
  oi_arguments : option string;
  oi_content : list (string * option string)
}.

Record ResponseEnvelope := MkResponseEnvelope {
  rv_id : option string;
  rv_output_text : option string;
  rv_output : list OutputItem
}.

(** [_ResponseEnvelope.model_validate(response)]; an absent list is empty. *)
Class ResponseModels := read_envelope : json → result ResponseEnvelope.

(** ** Reading a provider response *)

Record ProviderFunctionCall := MkFunctionCall {
  fc_call_id : string;
  fc_name : string;
  fc_arguments : string
}.

Fixpoint function_calls (items : list OutputItem) : result (list ProviderFunctionCall) :=
  match items with
  | [] => Ok []
  | item :: rest =>
      if oi_type item !=b Some "function_call" then function_calls rest
      else match oi_call_id item, oi_name item, oi_arguments item with
      | Some call_id, Some name, Some arguments =>
          if (call_id ==b "") || (name ==b "") then Raise (ProviderRequestError "invalid_function_call")
          else calls ← function_calls rest; Ok (MkFunctionCall call_id name arguments :: calls)
      | _, _, _ => Raise (ProviderRequestError "invalid_function_call")
      end
  end.

(** ** Turns *)

Inductive TraceCall :=
| Called (ref : CapabilityDescriptorRef) (call_id arguments : string)
| Completed (ref : CapabilityDescriptorRef) (call_id output : string) (classification : Classification)
| Denied (call_id reason : string)
| Failed (ref : CapabilityDescriptorRef) (call_id reason : string).

Inductive turn (A : Type) :=
| Finish (r : result A)
| Ask (request : json) (k : result json → turn A)
| Trace (c : TraceCall) (k : result unit → turn A)
| Diverged.
Arguments Finish {A} r.
Arguments Ask {A} request k.
Arguments Trace {A} c k.
Arguments Diverged {A}.

#[export] Instance turn_ret : MRet turn := λ A a, Finish (Ok a).
Fixpoint turn_bind_go {A B} (f : A → turn B) (t : turn A) : turn B :=
  match t with
  | Finish (Ok a) => f a
  | Finish (Raise e) => Finish (Raise e)
  | Ask request k => Ask request (λ r, turn_bind_go f (k r))
  | Trace c k => Trace c (λ r, turn_bind_go f (k r))
  | Diverged => Diverged
  end.
#[export] Instance turn_bind : MBind turn := @turn_bind_go.

Definition attempt {A} (r : result A) : turn A := Finish r.
(** [await self.provider.invoke(request)] and [trace_sink.<call>(...)]. *)
Definition invoke_provider (request : json) : turn json := Ask request Finish.
Definition trace (c : TraceCall) : turn unit := Trace c Finish.

(** ** The read tool *)

Record ReadToolResult := MkReadToolResult {
  rt_output : string;
  rt_evidence : string;
  rt_classification : Classification
}.

Section subject.
Context `{PyRuntime}.

Definition READ_TOOL_NAME : string := "read_text".
Definition READ_TOOL_REF : CapabilityDescriptorRef :=
  capability_ref "evidrun.tool" "read-artifact-text-v1" "1".
Definition READ_PERMISSION : string := "read:subject_artifacts".
Definition READ_CONSTRAINT : string := "subject-envelope-only".
Definition MAX_LINES_PER_CALL : Z := 80.

Definition allowed_range (start_line max_lines : option json) : result (Z * Z) :=
  match start_line, max_lines with
  | Some (JInt start), Some (JInt lines) =>
      if ((1 <=? start) && (1 <=? lines) && (lines <=? MAX_LINES_PER_CALL))%Z then Ok (start, lines)
      else Raise (PermissionError "requested line range is outside the read tool limits")
  | _, _ => Raise (PermissionError "requested line range is outside the read tool limits")
  end.

(** [enumerate(selected)] with the number of the first line. *)
Fixpoint numbered (line : Z) (texts : list string) : list (Z * string) :=
  match texts with [] => [] | text :: rest => (line, text) :: numbered (line + 1) rest end.

Definition to_line (line : Z * string) : json := JObj [("line", JInt (fst line)); ("text", JStr (snd line))].

Definition newline : string := String line_feed "".

Definition read_text_execute (envelope : SubjectEnvelope) (materialized_inputs : list (string * string))
    (arguments : list (string * json)) : result ReadToolResult :=
  raise_when (negb (same_set (map fst arguments) ["input_id"; "start_line"; "max_lines"]))
    (PermissionError "tool arguments do not match the closed read schema");;
  input_id ← require (match obj_get "input_id" arguments with Some (JStr s) => Some s | _ => None end)
    (PermissionError "requested input is outside the SubjectEnvelope");
  content ← require (assoc input_id materialized_inputs)
    (PermissionError "requested input is outside the SubjectEnvelope");
  '(start_line, max_lines) ← allowed_range (obj_get "start_line" arguments) (obj_get "max_lines" arguments);
  binding ← require (find_first (λ item, ib_id item ==b input_id) (se_inputs envelope))
    (PermissionError "requested input is outside the SubjectEnvelope");
  let lines := splitlines content in
  let selected := take (Z.to_nat max_lines) (drop (Z.to_nat (start_line - 1)) lines) in
  let returned := numbered start_line selected in
  Ok (MkReadToolResult
    (canonical_json (JObj [
      ("input_id", JStr input_id);
      ("start_line", JInt start_line);
      ("returned_lines", JInt (Z.of_nat (length returned)));
      ("total_lines", JInt (Z.of_nat (length lines)));
      ("truncated", JBool (start_line - 1 + Z.of_nat (length returned) <? Z.of_nat (length lines))%Z);
      ("lines", jlist to_line returned)]))
    (join newline (map snd returned))
    (ar_classification (ib_source binding))).

(** ** ResponsesReadAgentAdapter *)

Record ProviderProfile := MkProviderProfile {
  pp_id : string;
  pp_model : string;
  pp_reasoning_effort : string;
  (** [public_dict()]. *)
  pp_document : json
}.

Context `{JsonObjects} `{ResponseModels} (profile : ProviderProfile) (envelope : SubjectEnvelope)
  (materialized_inputs : list (string * string)).

Definition SUBJECT_INSTRUCTIONS : string :=
  "You are the Subject Agent in an auditable benchmark. Use only the objective, "
  +:+ "the SubjectEnvelope inventory, and the offered tools. You must read evidence "
  +:+ "before answering, never guess, and never claim access to paths or data not returned "
  +:+ "by a tool. Do not reveal private reasoning. Your final response must be only one "
  +:+ "JSON object with exactly these keys: answer and evidence. answer must be a string; "
  +:+ "evidence must be a non-empty array of objects with exactly input_id and line. Cite "
  +:+ "only numbered lines actually returned by read_text.".

Definition property (type description : string) (bounds : list (string * json)) : json :=
  JObj ([("type", JStr type)] ++ bounds ++ [("description", JStr description)]).

Definition provider_schema : json := JObj [
  ("type", JStr "function");
  ("name", JStr READ_TOOL_NAME);
  ("description", JStr ("Read a bounded range of numbered lines from one text input explicitly "
    +:+ "listed in the SubjectEnvelope. It cannot access paths, URLs, or other artifacts."));
  ("parameters", JObj [
    ("type", JStr "object");
    ("properties", JObj [
      ("input_id", property "string" "Exact SubjectEnvelope input id." []);
      ("start_line", property "integer" "One-based first line to read." [("minimum", JInt 1)]);
      ("max_lines", property "integer" "Maximum number of lines to return."
        [("minimum", JInt 1); ("maximum", JInt MAX_LINES_PER_CALL)])]);
    ("required", jstrs ["input_id"; "start_line"; "max_lines"]);
    ("additionalProperties", JBool false)]);
  ("strict", JBool true)].

Definition TRANSPORT_MAX_OUTPUT_TOKENS : Z := 768.

Record LoopState := MkLoopState {
  ls_next_input : json;
  ls_transcript : list json;
  ls_tool_calls : Z;
  ls_provider_responses : Z;
  ls_input_tokens : Z;
  ls_output_tokens : Z;
  ls_evidence : list string;
  ls_provider_trace : list json
}.

Definition assert_authorized_tool : result unit :=
  match se_effective_capabilities envelope with
  | [capability] =>
      raise_when (rc_status capability !=b Resolved
          || rc_resolved_ref capability !=b Some READ_TOOL_REF
          || rc_effective_permissions capability !=b [READ_PERMISSION]
          || rc_satisfied_authority_constraints capability !=b [READ_CONSTRAINT])
        (ValueError "SubjectEnvelope does not authorize the closed read tool")
  | _ => Raise (ValueError "SubjectEnvelope does not authorize the closed read tool")
  end.

Definition initial_input : string :=
  let inventory := join ", " (map (λ item, ib_id item +:+ " (" +:+ ar_media_type (ib_source item)
    +:+ ", " +:+ Classification_value (ar_classification (ib_source item)) +:+ ")")
    (se_inputs envelope)) in
  "Objective:" +:+ newline +:+ goal_instruction (se_goal envelope) +:+ newline +:+ newline
    +:+ "Authorized input inventory:" +:+ newline +:+ inventory.

(** [usage.get(key, 0)] after normalization. *)
Definition usage_of (key : string) (response : json) : Z :=
  match jget "usage" response with
  | Some usage => match jget key usage with Some (JInt n) => if (0 <=? n)%Z then n else 0 | _ => 0 end
  | None => 0
  end.

Definition extract_response_id (response : json) : result string :=
  e ← read_envelope response;
  match rv_id e with
  | Some id => if id ==b "" then Raise (ProviderRequestError "missing_response_id") else Ok id
  | None => Raise (ProviderRequestError "missing_response_id")
  end.

Definition provider_request (state : LoopState) : json := JObj [
  ("input", ls_next_input state);
  ("instructions", JStr SUBJECT_INSTRUCTIONS);
  ("tools", JArr [provider_schema]);
  ("tool_choice", JStr "auto");
  ("max_output_tokens", JInt TRANSPORT_MAX_OUTPUT_TOKENS)].

Definition ask_provider (state : LoopState) : turn (json * LoopState) :=
  let request := provider_request state in
  response ← invoke_provider request;
  id ← attempt (extract_response_id response);
  let entry := JObj [
    ("request_digest", JStr (sha256_json request));
    ("response_id_digest", JStr (sha256_json (JStr id)));
    ("response_digest", JStr (sha256_json response))] in
  mret (response, MkLoopState (ls_next_input state) (ls_transcript state) (ls_tool_calls state)
    (ls_provider_responses state + 1) (ls_input_tokens state + usage_of "input_tokens" response)
    (ls_output_tokens state + usage_of "output_tokens" response) (ls_evidence state)
    (ls_provider_trace state ++ [entry])).

Definition is_boundary_error (e : exn) : bool :=
  match e with PermissionError _ | ValueError _ | ValidationError _ => true | _ => false end.

Definition execute_tool_call (call : ProviderFunctionCall) : turn (option ReadToolResult) :=
  match arguments ← validate_json (fc_arguments call);
        read_text_execute envelope materialized_inputs arguments with
  | Ok result =>
      trace (Completed READ_TOOL_REF (fc_call_id call) (rt_output result) (rt_classification result));;
      mret (Some result)
  | Raise e =>
      if is_boundary_error e then
        trace (Denied (fc_call_id call) "tool request violates the closed read boundary");;
        mret None
      else
        trace (Failed READ_TOOL_REF (fc_call_id call) "read tool execution failed");;
        attempt (Raise e)
  end.

Definition call_entry (call : ProviderFunctionCall) : json := JObj [
  ("type", JStr "function_call"); ("call_id", JStr (fc_call_id call));
  ("name", JStr (fc_name call)); ("arguments", JStr (fc_arguments call))].

Definition output_entry (call : ProviderFunctionCall) (output : string) : json := JObj [
  ("type", JStr "function_call_output"); ("call_id", JStr (fc_call_id call)); ("output", JStr output)].

(** The transcript and the evidence of one serviced call. *)
Definition add_call (call : ProviderFunctionCall) (tool_output : option ReadToolResult)
    (state : LoopState) : LoopState :=
  let text := match tool_output with
    | Some o => rt_output o
    | None => canonical_json (JObj [("error", JStr "request denied by the SubjectEnvelope boundary")])
    end in
  MkLoopState (ls_next_input state)
    (ls_transcript state ++ [call_entry call; output_entry call text])
    (ls_tool_calls state + 1) (ls_provider_responses state) (ls_input_tokens state)
    (ls_output_tokens state)
    (ls_evidence state ++ match tool_output with Some o => [rt_evidence o] | None => [] end)
    (ls_provider_trace state).

Fixpoint service_tool_calls (calls : list ProviderFunctionCall) (max_tool_calls : Z) (state : LoopState)
    : turn LoopState :=
  match calls with
  | [] => mret (MkLoopState (JArr (ls_transcript state)) (ls_transcript state) (ls_tool_calls state)
             (ls_provider_responses state) (ls_input_tokens state) (ls_output_tokens state)
             (ls_evidence state) (ls_provider_trace state))
  | call :: rest =>
      attempt (raise_when (fc_name call !=b READ_TOOL_NAME)
                 (ValueError "provider attempted an unoffered tool"));;
      trace (Called READ_TOOL_REF (fc_call_id call) (fc_arguments call));;
      if (max_tool_calls <? ls_tool_calls state + 1)%Z then
        trace (Denied (fc_call_id call) "declared max_tool_calls budget exhausted");;
        attempt (Raise (SubjectBudgetExceeded "max_tool_calls budget exhausted"))
      else
        tool_output ← execute_tool_call call;
        service_tool_calls rest max_tool_calls (add_call call tool_output state)
  end.

Definition content_texts (item : OutputItem) : list string :=
  flat_map (λ '(type, text), if type ∈b ["output_text"; "text"] then option_list text else [])
    (oi_content item).

Definition extract_output_text (e : ResponseEnvelope) : string :=
  let text := default "" (rv_output_text e) in
  if text ==b "" then String.concat "" (flat_map content_texts (rv_output e)) else text.

Definition terminal_result (response : json) (state : LoopState) : result SubjectResult :=
  e ← read_envelope response;
  let output := strip (extract_output_text e) in
  raise_when (output ==b "") (ProviderRequestError "provider_request_failed");;
  raise_when (ls_tool_calls state ==b 0%Z)
    (ValueError "real agent returned without using the required read tool");;
  Ok (MkSubjectResult output (List.filter (λ item, item !=b "") (ls_evidence state)) [
    ("provider_profile_id", JStr (pp_id profile));
    ("provider_model", JStr (pp_model profile));
    ("provider_reasoning_effort", JStr (pp_reasoning_effort profile));
    ("provider_responses", JInt (ls_provider_responses state));
    ("tool_calls", JInt (ls_tool_calls state));
    ("input_tokens", JInt (ls_input_tokens state));
    ("output_tokens", JInt (ls_output_tokens state));
    ("transport_max_output_tokens", JInt TRANSPORT_MAX_OUTPUT_TOKENS);
    ("provider_trace_digest", JStr (sha256_json (JArr (ls_provider_trace state))))]).

Fixpoint agent_loop (fuel : nat) (max_tool_calls : Z) (state : LoopState) : turn SubjectResult :=
  match fuel with
  | O => Diverged
  | S fuel' =>
      '(response, state) ← ask_provider state;
      calls ← attempt (e ← read_envelope response; function_calls (rv_output e));
      match calls with
      | [] => attempt (terminal_result response state)
      | _ =>
          state ← service_tool_calls calls max_tool_calls state;
          agent_loop fuel' max_tool_calls state
      end
  end.

(** Every round services a call, and the call past the budget ends the turn. *)
Definition agent_fuel (max_tool_calls : Z) : nat := S (S (Z.to_nat max_tool_calls)).

Definition read_agent_execute : turn SubjectResult :=
  attempt assert_authorized_tool;;
  max_tool_calls ← attempt (require (bu_max_tool_calls (se_budgets envelope))
    (ValueError "real agent execution requires max_tool_calls"));
  let state := MkLoopState (JStr initial_input)
    [JObj [("role", JStr "user"); ("content", JStr initial_input)]] 0 0 0 0 [] [] in
  agent_loop (agent_fuel max_tool_calls) max_tool_calls state.

(** ** ScriptedLogInvestigatorAdapter *)

Definition scripted_adapter_execute : turn SubjectResult :=
  match materialized_inputs with
  | [(_, context)] => mret (scripted_execute (goal_instruction (se_goal envelope)) context)
  | _ => attempt (Raise (ValueError "scripted runner requires exactly one materialized input"))
  end.
End subject.

(** ** The discipline of a turn *)

(** [keeps_to t n open Q]: whatever the provider and the sink answer, the turn ends; it has
    at most one tool call open, [open] at its start, and none when it asks the provider or
    raises; it reports at most [n] executions of the tool; it stops at once when the sink
    refuses; and when it returns, [Q] holds of the executions left, the open call and the
    value. *)
Fixpoint keeps_to {A} (t : turn A) (n : nat) (open : option string)
    (Q : nat → option string → A → Prop) : Prop :=
  match t with
  | Finish (Ok a) => Q n open a
  | Finish (Raise _) => open = None
  | Ask _ k => open = None ∧ ∀ r, keeps_to (k r) n None Q
  | Trace (Called _ id _) k =>
      open = None ∧ keeps_to (k (Ok tt)) n (Some id) Q ∧ ∀ e, k (Raise e) = Finish (Raise e)
  | Trace (Denied id _) k =>
      open = Some id ∧ keeps_to (k (Ok tt)) n None Q ∧ ∀ e, k (Raise e) = Finish (Raise e)
  | Trace (Completed _ id _ _) k | Trace (Failed _ id _) k =>
      open = Some id ∧ match n with S n' => keeps_to (k (Ok tt)) n' None Q | O => False end
      ∧ ∀ e, k (Raise e) = Finish (Raise e)
  | Diverged => False
  end.

Lemma keeps_to_bind {A B} (f : A → turn B) (t : turn A) n open Q :
  keeps_to t n open (λ n' open' a, keeps_to (f a) n' open' Q) → keeps_to (t ≫= f) n open Q.
Proof.
  revert n open. change (t ≫= f) with (turn_bind_go f t).
  induction t as [[a|e]|request k IH|c k IH|]; intros n open; cbn; [done..|by intros [-> ?]; split; auto| |done].
  destruct c as [ref id args|ref id output cl|id reason|ref id reason].
  1,3: intros (-> & Hk & He); split_and!; [done|by apply IH|]; intros e; by rewrite He.
  all: destruct n as [|n]; [by intros (_ & [] & _)|]; intros (-> & Hk & He); split_and!;
    [done|by apply IH|]; intros e; by rewrite He.
Qed.

Lemma keeps_to_mono {A} (t : turn A) n open (Q Q' : nat → option string → A → Prop) :
  (∀ n' open' a, Q n' open' a → Q' n' open' a) → keeps_to t n open Q → keeps_to t n open Q'.
Proof.
  intros HQ. revert n open. induction t as [[a|e]|request k IH|c k IH|]; intros n open; cbn; auto.
  - intros [-> ?]. split; auto.
  - destruct c as [ref id args|ref id output cl|id reason|ref id reason].
    1,3: intros (-> & Hk & He); split_and!; auto.
    all: destruct n as [|n]; intros (-> & Hk & He); split_and!; auto.
Qed.

Lemma keeps_to_attempt {A} (r : result A) n (Q : nat → option string → A → Prop) :
  (∀ a, r = Ok a → Q n None a) → keeps_to (attempt r) n None Q.
Proof. intros HQ. destruct r as [a|e]; cbn; [by apply HQ|done]. Qed.

Lemma keeps_to_called ref id arguments n (Q : nat → option string → unit → Prop) :
  Q n (Some id) tt → keeps_to (trace (Called ref id arguments)) n None Q.
Proof. by cbn. Qed.

Lemma keeps_to_denied id reason n (Q : nat → option string → unit → Prop) :
  Q n None tt → keeps_to (trace (Denied id reason)) n (Some id) Q.
Proof. by cbn. Qed.

Section discipline.
Context `{PyRuntime} `{JsonObjects} `{ResponseModels} (profile : ProviderProfile)
  (envelope : SubjectEnvelope) (materialized_inputs : list (string * string)).

Lemma ask_keeps state n Q :
  (∀ response state', ls_tool_calls state' = ls_tool_calls state → Q n None (response, state')) →
  keeps_to (ask_provider state) n None Q.
Proof.
  intros HQ. unfold ask_provider, invoke_provider. cbn [mbind turn_bind turn_bind_go keeps_to].
  split; [done|]. intros [response|e]; [|done]. cbn [turn_bind_go]. apply keeps_to_bind.
  apply keeps_to_attempt. intros id _. cbn. by apply HQ.
Qed.

Lemma execute_tool_keeps call n Q :
  (∀ n' output, (n <= n')%nat → Q n' None output) →
  keeps_to (execute_tool_call envelope materialized_inputs call) (S n) (Some (fc_call_id call)) Q.
Proof.
  intros HQ. unfold execute_tool_call. destruct (_ ≫= _) as [r|e]; [|destruct (is_boundary_error e)];
    cbn; split_and!; try done; apply HQ; lia.
Qed.

(** At least the calls left of the budget may still be executed; a response with calls
    either ends the turn or uses up some of the budget. *)
Lemma service_keeps calls max_tool_calls state n (Q : nat → option string → LoopState → Prop) :
  (max_tool_calls - ls_tool_calls state <= Z.of_nat n)%Z →
  (∀ n' state', (max_tool_calls - ls_tool_calls state' <= Z.of_nat n')%Z →
     ls_tool_calls state' = (ls_tool_calls state + Z.of_nat (length calls))%Z →
     (calls ≠ [] → (ls_tool_calls state' <= max_tool_calls)%Z) → Q n' None state') →
  keeps_to (service_tool_calls envelope materialized_inputs calls max_tool_calls state) n None Q.
Proof.
  revert state n. induction calls as [|call rest IH]; intros state n Hn HQ.
  { cbn. apply HQ; cbn; [done|lia|done]. }
  cbn [service_tool_calls]. apply keeps_to_bind, keeps_to_attempt. intros _ _.
  apply keeps_to_bind, keeps_to_called.
  destruct (max_tool_calls <? ls_tool_calls state + 1)%Z eqn:E.
  - by apply keeps_to_bind, keeps_to_denied.
  - apply Z.ltb_ge in E. destruct n as [|n]; [lia|].
    apply keeps_to_bind, execute_tool_keeps. intros n' output Hn'.
    apply IH; [cbn; lia|]. intros n2 state2 H2 E2 Hle. apply HQ; [done|cbn in *; lia|].
    intros _. destruct rest as [|call' rest]; [cbn in E2; lia|by apply Hle].
Qed.

Lemma agent_loop_keeps fuel max_tool_calls state n :
  (max_tool_calls - ls_tool_calls state <= Z.of_nat n)%Z → (0 <= ls_tool_calls state)%Z →
  (max_tool_calls - ls_tool_calls state < Z.of_nat fuel)%Z → (0 < fuel)%nat →
  keeps_to (agent_loop profile envelope materialized_inputs fuel max_tool_calls state) n None
    (λ _ open _, open = None).
Proof.
  revert state n. induction fuel as [|fuel IH]; intros state n Hn Hcalls Hf Hpos; [lia|].
  cbn [agent_loop]. apply keeps_to_bind, ask_keeps. intros response state1 E1.
  apply keeps_to_bind, keeps_to_attempt. intros calls Hc. destruct calls as [|call rest] eqn:Ec.
  - apply keeps_to_attempt. done.
  - apply keeps_to_bind. apply service_keeps; [by rewrite E1|]. intros n' state2 Hn2 E2 Hle.
    specialize (Hle (ltac:(done))). cbn [length] in E2. apply IH; [done|lia|lia|lia].
Qed.
End discipline.

(** C20: a turn of the read agent ends, whatever the provider answers and however often it
    asks for the tool: the loop never outlives its budget. It reports at most
    [max_tool_calls] executions of the tool, keeps at most one call open, closes every call
    before it asks the provider again, answers or raises, and stops at once when the
    ledger refuses to record a call. *)
Theorem read_agent_disciplined `{PyRuntime} `{JsonObjects} `{ResponseModels}
    profile envelope materialized_inputs max_tool_calls :
  bu_max_tool_calls (se_budgets envelope) = Some max_tool_calls →
  keeps_to (read_agent_execute profile envelope materialized_inputs) (Z.to_nat max_tool_calls) None
    (λ _ open _, open = None).
Proof.
  intros Hmax. unfold read_agent_execute. apply keeps_to_bind, keeps_to_attempt. intros _ _.
  rewrite Hmax. apply keeps_to_bind, keeps_to_attempt. intros m [= <-].
  apply agent_loop_keeps; cbn [ls_tool_calls]; unfold agent_fuel; lia.
Qed.

(** ** A provider that keeps asking for the tool *)

(** Play a turn against the same answer for ever, with a sink that accepts everything. *)
Fixpoint play {A} (answer : json) (t : turn A) : list TraceCall * option (result A) :=
  match t with
  | Finish r => ([], Some r)
  | Ask _ k => play answer (k (Ok answer))
  | Trace c k => let '(calls, r) := play answer (k (Ok tt)) in (c :: calls, r)
  | Diverged => ([], None)
  end.

Definition tool_envelope : SubjectEnvelope :=
  MkSubjectEnvelope (digest_of "c") sample_goal [sample_binding] sample_protocol
    [MkResolvedCapability KTool READ_TOOL_REF true SchemaOnly Resolved (Some READ_TOOL_REF)
       (Some "read-artifact-text@1") (Some "1") [READ_PERMISSION] [READ_CONSTRAINT] [] None]
    (MkSubjectWorkspace "in_process" ["log"] [] NetProviderOnly EffDenied)
    (MkBudgetSpec 60 None None None (Some 2%Z) None) [] None.

Definition demo_profile : ProviderProfile := MkProviderProfile "local" "model" "low" JNull.

(** Readers for the one request and response of the example. *)
Definition reads_first_line : JsonObjects :=
  λ _, Ok [("input_id", JStr "log"); ("start_line", JInt 1); ("max_lines", JInt 1)].
Definition asks_for_tool : ResponseModels :=
  λ _, Ok (MkResponseEnvelope (Some "resp") None
             [MkOutputItem (Some "function_call") (Some "call") (Some "read_text") (Some "args") []]).

Definition insistent_turn : turn SubjectResult :=
  @read_agent_execute demo reads_first_line asks_for_tool demo_profile tool_envelope [("log", "line")].

Lemma read_agent_disciplined_witness :
  snd (play JNull insistent_turn)
    = Some (Raise (SubjectBudgetExceeded "max_tool_calls budget exhausted"))
  ∧ length (fst (play JNull insistent_turn)) = 6%nat
  ∧ keeps_to insistent_turn 2 None (λ _ open _, open = None).
Proof.
  split; [vm_compute; reflexivity|]. split; [vm_compute; reflexivity|].
  exact (@read_agent_disciplined demo reads_first_line asks_for_tool demo_profile tool_envelope
           [("log", "line")] 2 eq_refl).
Defined.
