(* ===== verification/Graders.v ===== *)
(** * Deterministic graders
    (src/src/evidrun/runs/adapters/grader_cause.py, grader_read_answer.py, types.py;
    src/src/evidrun/runs/adapters/materializer.py).

    A grader turns the Subject's result into an evaluation record. The cause grader looks
    for the expected text in answer and evidence; the strict grader trusts only the lines
    the read tool returned, which it reads back from the artifacts of the [tool.completed]
    events. The record identifier, the clock and the key a keyring would create are
    arguments. *)

From S2P Require Import Prelude PyText PyJson Sha256 Base Authoring Runtime Events Samples Artifacts Evaluation Compiler Admission Store Queue Composer Subject.

Record EvaluationOutcome := MkOutcome {
  eo_record : EvaluationRecord;
  eo_score : pyfloat;
  eo_passed : bool;
  eo_rationale : string;
  eo_evidence : list string;
  eo_goal_result : TerminalGoalResult
}.

Section graders.
Context `{PyRuntime}.

Definition CAUSE_GRADER_REF : CapabilityDescriptorRef :=
  capability_ref "evidrun.evaluator" "exact-root-cause-legacy-v1" "1".
Definition READ_ANSWER_REF : CapabilityDescriptorRef :=
  capability_ref "evidrun.evaluator" "exact-read-answer-v1" "1".

(** ** What both graders require of the plan *)

(** One parameter [expected] with a text that is not blank. *)
Definition expected_parameter (stage : EvaluationStage) : option string :=
  match st_parameters stage with
  | [MkKeyValue key (SStr value)] =>
      if (key ==b "expected") && negb (is_blank value) then Some value else None
  | _ => None
  end.

(** [supports]: one boolean deterministic stage, on [subject.responded], of grader [ref]. *)
Definition grader_supports (ref : CapabilityDescriptorRef) (spec : RunSpec) : bool :=
  let plan := spec_evaluation_plan spec in
  match plan_stages plan with
  | [stage] =>
      (st_evaluator_ref stage ==b ref)
      && (st_kind stage ==b DeterministicGrader)
      && (et_kind (st_trigger stage) ==b ETEvent)
      && (et_reference (st_trigger stage) ==b Some "subject.responded")
      && match st_output_dimensions stage with
         | [dimension] =>
             match plan_dimension plan dimension with
             | Ok d => dim_value_type d ==b VTBoolean
             | Raise _ => false
             end
         | _ => false
         end
      && match expected_parameter stage with Some _ => true | None => false end
  | _ => false
  end.

(** The record and the projections both graders return. *)
Definition outcome_of (record_id run_id : string) (now : instant) (spec : RunSpec)
    (stage : EvaluationStage) (dimension : string) (sequence : Z) (event_hash : string)
    (score : pyfloat) (passed : bool) (rationale : string) (evidence_refs : list EvidenceRef)
    : result EvaluationOutcome :=
  let record := {|
    er_record_id := record_id;
    er_run_id := run_id;
    er_plan_ref := spec_evaluation_plan_ref spec;
    er_stage_id := st_id stage;
    er_source_type := SrcDeterministicGrader;
    er_evaluator_ref := st_evaluator_ref stage;
    er_provider_profile_id := None;
    er_provider_model := None;
    er_boundary := MkEvaluationBoundary (Some sequence) (Some event_hash) None;
    er_dimension_values := [MkDimensionValue dimension (SBool passed) rationale (Some float_one)
                              evidence_refs];
    er_gate_status := if passed then GatePassed else GateFailed;
    er_status := Final;
    er_relation := None;
    er_human_attestation := None;
    er_created_at_utc := now |} in
  validate_boundary (er_boundary record);;
  validate_adjudication record;;
  Ok (MkOutcome record score passed rationale (map ev_ref evidence_refs)
        (GoalStateTerminalResult (if passed then GAchieved else GNotAchieved))).

(** [EvidenceRef(ref=...)] of an event. *)
Definition event_evidence (event_id : string) : result EvidenceRef :=
  ref ← validate_scheme ("event:" +:+ event_id); Ok (MkEvidenceRef ref).

(** ** ExactCauseGraderAdapter *)

Definition cause_evaluate (record_id run_id : string) (now : instant) (spec : RunSpec)
    (subject : SubjectResult) (response_event_id : string) (response_sequence : Z)
    (response_event_hash : string) : result EvaluationOutcome :=
  first ← require (head (plan_stages (spec_evaluation_plan spec))) (RuntimeError "IndexError");
  envelope ← compile_evaluator_envelope spec (st_id first);
  let stage := ee_stage envelope in
  expected ← require (find_first (λ item, kv_key item ==b "expected") (st_parameters stage))
    (RuntimeError "StopIteration");
  dimension ← require (head (st_output_dimensions stage)) (RuntimeError "IndexError");
  let '(score, passed, rationale) := grade (py_str (kv_value expected)) (sr_output subject) (sr_evidence subject) in
  evidence ← event_evidence response_event_id;
  outcome_of record_id run_id now spec stage dimension response_sequence response_event_hash
    score passed rationale [evidence].

(** ** ExactReadAnswerGraderAdapter *)

Definition PersistedLine : Type := string * Z * string.

Definition persisted_line (input_id : string) (line : json) : list PersistedLine :=
  match line with
  | JObj fields =>
      match obj_get "line" fields, obj_get "text" fields with
      | Some (JInt number), Some (JStr text) => [(input_id, number, text)]
      | _, _ => []
      end
  | _ => []
  end.

Definition document_lines (document : list (string * json)) : result (list PersistedLine) :=
  match obj_get "lines" document with
  | Some (JArr lines) =>
      match obj_get "input_id" document with
      | Some (JStr input_id) => Ok (flat_map (persisted_line input_id) lines)
      | _ => Raise (ValueError "persisted read-tool result is missing input_id")
      end
  | _ => Raise (ValueError "persisted read-tool result has an invalid shape")
  end.

Record ParsedAnswer := MkParsedAnswer {
  pa_valid_shape : bool;
  pa_answer : option json;
  pa_cited : list (string * Z)
}.

Definition malformed (answer : option json) : ParsedAnswer := MkParsedAnswer false answer [].

(** The citations, or [None] at the first malformed one. *)
Fixpoint citations_of (citations : list json) : option (list (string * Z)) :=
  match citations with
  | [] => Some []
  | JObj fields :: rest =>
      match obj_get "input_id" fields, obj_get "line" fields with
      | Some (JStr input_id), Some (JInt line) =>
          if same_set (map fst fields) ["input_id"; "line"] then
            cited ← citations_of rest; Some ((input_id, line) :: cited)
          else None
      | _, _ => None
      end
  | _ :: _ => None
  end.

Definition is_value_error (e : exn) : bool :=
  match e with ValueError _ | ValidationError _ => true | _ => false end.

Definition parse_answer `{JsonObjects} (output : string) : result ParsedAnswer :=
  match validate_json output with
  | Raise e => if is_value_error e then Ok (malformed None) else Raise e
  | Ok document => Ok (
      if negb (same_set (map fst document) ["answer"; "evidence"]) then malformed None
      else
        let answer := jget "answer" (JObj document) in
        match obj_get "evidence" document with
        | Some (JArr ((_ :: _) as citations)) =>
            match citations_of citations with
            | Some cited => MkParsedAnswer true answer cited
            | None => malformed answer
            end
        | _ => malformed answer
        end)
  end.

Definition is_grounded (parsed : ParsedAnswer) (persisted_lines : list PersistedLine)
    (expected : string) : bool :=
  let citations_grounded := pa_valid_shape parsed
    && forallb (λ '(input_id, line), existsb (λ '(stored_input, stored_line, _),
         (stored_input ==b input_id) && (stored_line ==b line)) persisted_lines) (pa_cited parsed) in
  let answer_grounded := existsb (λ '(cited_input, cited_line),
    existsb (λ '(input_id, line, text), (input_id ==b cited_input) && (line ==b cited_line)
      && (strip text ==b ("ROOT_CAUSE_CODE=" +:+ expected))) persisted_lines) (pa_cited parsed) in
  (pa_answer parsed ==b Some (JStr expected)) && citations_grounded && answer_grounded.

Definition Classification_of (text : string) : option Classification :=
  find_first (λ c, Classification_value c ==b text) [PUBLIC; INTERNAL; SENSITIVE; RESTRICTED].

(** [ArtifactRef.model_validate(document)]. *)
Definition read_artifact_ref (document : json) : result ArtifactRef :=
  match jget "artifact_id" document, jget "digest" document, jget "media_type" document,
        jget "classification" document with
  | Some (JStr id), Some (JStr digest), Some (JStr media_type), Some (JStr classification) =>
      c ← require (Classification_of classification) (ValidationError "classification");
      raise_when ((id ==b "") || negb (is_digest digest) || (media_type ==b ""))
        (ValidationError "ArtifactRef");;
      Ok (MkArtifactRef id digest media_type c)
  | _, _, _, _ => Raise (ValidationError "ArtifactRef")
  end.

Context `{JsonObjects} `{VaultCrypto}.

(** The lines of one [tool.completed] event, with its evidence; other events add none. *)
Definition event_lines (project_id : option string) (new_key : string) (event : json)
    : FileOp (list PersistedLine * list EvidenceRef) := λ s,
  match jget "type" event, jget "payload" event with
  | Some (JStr "tool.completed"), Some (JObj payload) =>
      match jget "result_ref" (JObj payload) with
      | None => (s, Ok ([], []))
      | Some document =>
          match read_artifact_ref document with
          | Raise e => (s, Raise e)
          | Ok reference =>
              let '(s', r) := get_verified reference project_id new_key s in
              (s', content ← r;
                   document ← validate_json content;
                   lines ← document_lines document;
                   evidence ← match jget "event_id" event with
                     | Some (JStr id) => ref ← event_evidence id; Ok [ref]
                     | _ => Ok []
                     end;
                   Ok (lines, evidence))
          end
      end
  | _, _ => (s, Ok ([], []))
  end.

Fixpoint collect_persisted_evidence (project_id : option string) (new_key : string)
    (tool_events : list json) (lines : list PersistedLine) (evidence : list EvidenceRef)
    : FileOp (list PersistedLine * list EvidenceRef) := λ s,
  match tool_events with
  | [] => (s, Ok (lines, evidence))
  | event :: rest =>
      match event_lines project_id new_key event s with
      | (s', Ok (found, refs)) =>
          collect_persisted_evidence project_id new_key rest (lines ++ found) (evidence ++ refs) s'
      | (s', Raise e) => (s', Raise e)
      end
  end.

Definition read_answer_evaluate (record_id run_id : string) (now : instant) (spec : RunSpec)
    (subject : SubjectResult) (response_event_id : string) (response_sequence : Z)
    (response_event_hash : string) (tool_events : list json) (project_id : option string)
    (new_key : string) : FileOp EvaluationOutcome := λ s,
  match stage ← require (head (plan_stages (spec_evaluation_plan spec))) (RuntimeError "IndexError");
        expected ← require (head (st_parameters stage)) (RuntimeError "IndexError");
        first ← event_evidence response_event_id;
        Ok (stage, py_str (kv_value expected), first) with
  | Raise e => (s, Raise e)
  | Ok (stage, expected, first) =>
      let '(s', r) := collect_persisted_evidence project_id new_key tool_events [] [first] s in
      (s', '(lines, evidence) ← r;
           parsed ← parse_answer (sr_output subject);
           dimension ← require (head (st_output_dimensions stage)) (RuntimeError "IndexError");
           let passed := is_grounded parsed lines expected in
           let rationale := if passed
             then "Strict answer matched the hidden reference and cited a persisted read-tool line."
             else "Strict answer or its cited persisted read-tool evidence did not match." in
           outcome_of record_id run_id now spec stage dimension response_sequence
             response_event_hash (if passed then float_one else float_zero) passed rationale evidence)
  end.
End graders.

(** ** A passed answer was read *)

Section grounded.
Context `{PyRuntime} `{!PyRuntimeLaws} (envelope : SubjectEnvelope) (inputs : list (string * string)).

(** A document with the text of a result of the read tool: what reading its artifact back
    gives. *)
Definition read_back (document : list (string * json)) : Prop :=
  ∃ arguments r v, read_text_execute envelope inputs arguments = Ok r
    ∧ rt_output r = canonical_json v ∧ sort_keys v = JObj document.

Lemma elem_of_numbered first texts n text :
  (n, text) ∈ numbered first texts →
  (first <= n)%Z ∧ texts !! Z.to_nat (n - first) = Some text.
Proof.
  revert first. induction texts as [|t texts IH]; intros first; cbn; [set_solver|].
  intros [E|Hn]%elem_of_cons; [injection E as -> ->|].
  - rewrite Z.sub_diag. split; [lia|done].
  - apply IH in Hn as [Hle Hn]. split; [lia|].
    replace (Z.to_nat (n - first)) with (S (Z.to_nat (n - (first + 1)))) by lia. done.
Qed.

(** The lines of such a document are lines of an input, under their own numbers. *)
Lemma read_back_lines document found input_id n text :
  read_back document → document_lines document = Ok found → (input_id, n, text) ∈ found →
  ∃ content, assoc input_id inputs = Some content ∧ (1 <= n)%Z
    ∧ splitlines content !! Z.to_nat (n - 1) = Some text.
Proof.
  intros (arguments & r & v & Hr & Ho & Hv) Hd Hin. unfold read_text_execute in Hr.
  apply bind_ok in Hr as (u & _ & Hr). apply bind_ok in Hr as (id & _ & Hr).
  apply bind_ok in Hr as (content & Hc & Hr). apply require_ok in Hc.
  apply bind_ok in Hr as ([start max] & Hrange & Hr). apply bind_ok in Hr as (binding & _ & Hr).
  assert (Hstart : (1 <= start)%Z).
  { unfold allowed_range in Hrange. repeat case_match; simplify_eq. bools. lia. }
  set (selected := take (Z.to_nat max) (drop (Z.to_nat (start - 1)) (splitlines content))) in Hr.
  injection Hr as <-. cbn [rt_output] in Ho. apply canonical_json_sort in Ho.
  rewrite <- Ho in Hv. clear Ho. cbn in Hv. injection Hv as <-.
  cbn in Hd. injection Hd as <-.
  apply list_elem_of_In, in_flat_map in Hin as (line & Hline & Hin).
  apply in_map_iff in Hline as (line' & <- & Hline). apply in_map_iff in Hline as ([k t] & <- & Hline).
  cbn in Hin. destruct Hin as [[= -> -> ->]|[]]. apply list_elem_of_In, elem_of_numbered in Hline as [Hle Hn].
  exists content. split; [done|]. split; [lia|]. unfold selected in Hn.
  apply lookup_take_Some in Hn as [Hn _]. rewrite lookup_drop in Hn.
  replace (Z.to_nat (n - 1)) with (Z.to_nat (start - 1) + Z.to_nat (n - start))%nat by lia. done.
Qed.
End grounded.


(** ** A grounded answer *)

Definition cause_log : list (string * string) :=
  [("log", "start" +:+ newline +:+ "ROOT_CAUSE_CODE=E42" +:+ newline +:+ "end")].

Definition second_line : list (string * json) :=
  [("input_id", JStr "log"); ("start_line", JInt 2); ("max_lines", JInt 1)].

Definition second_line_document : list (string * json) :=
  [("input_id", JStr "log"); ("lines", JArr [to_line (2%Z, "ROOT_CAUSE_CODE=E42")]);
   ("returned_lines", JInt 1); ("start_line", JInt 2); ("total_lines", JInt 3);
   ("truncated", JBool true)].

Definition cited_answer : ParsedAnswer := MkParsedAnswer true (Some (JStr "E42")) [("log", 2%Z)].

