(* ===== verification/AdapterCatalog.v ===== *)
(** * The adapter catalog and the concrete layer of admission
    (src/src/evidrun/runs/adapters/catalog.py, materializer.py;
    src/src/evidrun/runs/admission/: catalog_checks.py, scripted_checks.py, real_checks.py).

    The catalog declares the execution surface of the adapters that are wired and, when a
    Run executes, resolves the admitted adapters again. Its validators are the second layer
    of admission. Reading a text artifact and finding the Project of a RunSpec are functions
    the catalog is given; [resolve_text] is the one of the artifact store. *)

From S2P Require Import Prelude PyText PyJson Base Authoring Runtime Events Trust Samples Artifacts Evaluation Compiler Admission Store Queue Composer Subject Graders.

(** ** The materializer *)

(** [content.decode("utf-8")]. *)
Class Utf8Decoder := utf8_decode : string → option string.

Definition resolve_text `{PyRuntime} `{VaultCrypto} `{Utf8Decoder} (reference : ArtifactRef)
    (project_id : option string) (new_key : string) : FileOp string := λ s,
  if negb (ar_classification reference ∈b [PUBLIC; INTERNAL]) then
    (s, Raise (ValueError "the active runtime rejects classified Subject inputs"))
  else if ar_media_type reference !=b "text/plain" then
    (s, Raise (ValueError "the deterministic adapter requires text/plain"))
  else
    let '(s', r) := get_verified reference project_id new_key s in
    (s', content ← r;
         require (utf8_decode content) (ValueError "Subject input is not valid UTF-8")).

(** ** Issues of the adapter layer *)

Definition catalog_issue (subject_ref detail : string) : AdmissionIssue :=
  issue CatRuntime subject_ref detail RUnsupported true.
Definition typed_issue (subject_ref detail : string) (category : IssueCategory) (code : ReasonCode)
    : AdmissionIssue := issue category subject_ref detail code true.
Definition issue_when (b : bool) (i : AdmissionIssue) : list AdmissionIssue := if b then [i] else [].

Section catalog.
Context `{PyRuntime}.

Definition SCRIPTED_REF : CapabilityDescriptorRef :=
  capability_ref "evidrun.runner" "scripted-log-investigator-v1" "1".
Definition READ_AGENT_REF : CapabilityDescriptorRef :=
  capability_ref "evidrun.runner" "responses-read-agent-v1" "1".
Definition PROVIDER_ADAPTER : string := "openai-responses@1".
Definition READ_TOOL_ADAPTER : string := "read-artifact-text@1".

Record RealSubject := MkRealSubject {
  rl_profile : ProviderProfile;
  rl_credential_available : bool
}.

Record AdapterCatalog := MkAdapterCatalog {
  ac_real_subject : option RealSubject;
  (** [materializer.resolve_text], when there is one. *)
  ac_resolve_text : option (ArtifactRef → string → result string);
  (** [project_id_for_spec]. *)
  ac_project_id : option (RunSpec → result string)
}.

Inductive SubjectAdapter := ScriptedSubject | ReadAgentSubject (real : RealSubject).
Inductive EvaluatorAdapter := CauseGrader | ReadAnswerGrader.

Definition profile_digest (real : RealSubject) : string := sha256_json (pp_document (rl_profile real)).
Definition subject_name (subject : SubjectAdapter) : string :=
  match subject with
  | ScriptedSubject => "scripted-log-investigator-v1"
  | ReadAgentSubject _ => "responses-read-agent-v1"
  end.
Definition adapter_ref (subject : SubjectAdapter) : CapabilityDescriptorRef :=
  match subject with ScriptedSubject => SCRIPTED_REF | ReadAgentSubject _ => READ_AGENT_REF end.

(** [self._subjects.get(self._subject_key(reference))]. *)
Definition find_subject (catalog : AdapterCatalog) (reference : CapabilityDescriptorRef)
    : option SubjectAdapter :=
  match ac_real_subject catalog with
  | Some real =>
      if reference ==b READ_AGENT_REF then Some (ReadAgentSubject real)
      else if reference ==b SCRIPTED_REF then Some ScriptedSubject else None
  | None => if reference ==b SCRIPTED_REF then Some ScriptedSubject else None
  end.

Definition capability_envelope (catalog : AdapterCatalog) : RuntimeCapabilityEnvelope :=
  match ac_real_subject catalog with
  | None => declare [SCRIPTED_REF] [] [] ["in_process"] [SingleTurn] [] [NetDisabled] [EffDenied] [] false
  | Some real =>
      declare [SCRIPTED_REF; READ_AGENT_REF]
        [MkCapabilityEntry READ_TOOL_REF READ_TOOL_ADAPTER [READ_PERMISSION] ["1"] [READ_CONSTRAINT]]
        [MkProviderEntry (pp_id (rl_profile real)) (profile_digest real) (pp_model (rl_profile real))
           (pp_reasoning_effort (rl_profile real)) PROVIDER_ADAPTER]
        ["in_process"] [SingleTurn] ["provider_tool_loop"] [NetDisabled; NetProviderOnly] [EffDenied]
        ["max_tool_calls"] true
  end.

(** ** Shared checks *)

Definition visible_inputs (spec : RunSpec) : list InputBinding :=
  List.filter (λ item, subject_visible (ib_visibility item)) (sc_input_bindings (spec_scenario spec)).

(** [except FileNotFoundError, KeyError, ValueError]. *)
Definition is_resolution_error (e : exn) : bool :=
  match e with OSError _ | KeyError _ | ValueError _ | ValidationError _ | TriageRejected _ => true | _ => false end.

(** A materializer whose error is none of those makes the check itself raise. *)
Definition check_subject_input (catalog : AdapterCatalog) (spec : RunSpec) : result (list AdmissionIssue) :=
  match visible_inputs spec with
  | [visible] =>
      if ar_media_type (ib_source visible) !=b "text/plain" then
        Ok [catalog_issue "subject_input_media_type"
              "the active Subject adapter requires a text/plain input"]
      else match ac_resolve_text catalog, ac_project_id catalog with
      | Some resolve, Some project_id_for_spec =>
          match project_id ← project_id_for_spec spec; resolve (ib_source visible) project_id with
          | Ok _ => Ok []
          | Raise e =>
              if is_resolution_error e then
                Ok [catalog_issue "subject_input_artifact"
                      "the Subject input cannot be verified in the canonical ArtifactStore"]
              else Raise e
          end
      | _, _ => Ok [catalog_issue "subject_input_materializer"
                      "the active catalog has no artifact materializer"]
      end
  | _ => Ok [catalog_issue "subject_input_count"
               "the active Subject adapter requires exactly one Subject-visible input"]
  end.

Definition check_shared_spec (catalog : AdapterCatalog) (spec : RunSpec) : result (list AdmissionIssue) :=
  let plan := spec_evaluation_plan spec in
  input_issues ← check_subject_input catalog spec;
  Ok (issue_when (negb (length (sc_input_bindings (spec_scenario spec)) =? 1)%nat)
        (catalog_issue "scenario_input_count"
           "the active adapters require exactly one scenario input in total")
    ++ input_issues
    ++ issue_when (spec_context_policy spec ==b None)
         (catalog_issue "context_policy" "the active Subject adapter requires a ContextPolicy")
    ++ issue_when (spec_extensions spec !=b [])
         (catalog_issue "runtime_extensions" "the active adapters do not execute RunSpec extensions")
    ++ issue_when (ds_hidden_input_refs (plan_disclosure plan) !=b [])
         (catalog_issue "evaluation_hidden_inputs"
            "the active evaluator adapter does not consume hidden input artifacts")
    ++ issue_when (bp_hidden_fields (plan_blinding_policy plan) !=b [])
         (catalog_issue "evaluation_blinding"
            "the active evaluator adapter does not implement field blinding")
    ++ issue_when (plan_aggregation plan !=b None)
         (catalog_issue "evaluation_aggregation"
            "the active evaluator adapter does not execute an aggregation projector")).

Definition evaluator_supports (evaluator : EvaluatorAdapter) (spec : RunSpec) : bool :=
  match evaluator with
  | CauseGrader => grader_supports CAUSE_GRADER_REF spec
  | ReadAnswerGrader => grader_supports READ_ANSWER_REF spec
  end.

Definition check_evaluator_resolution (spec : RunSpec) : list AdmissionIssue :=
  issue_when (negb (existsb (λ e, evaluator_supports e spec) [CauseGrader; ReadAnswerGrader]))
    (catalog_issue "evaluator_adapter"
       "the EvaluationPlan has no exact deterministic evaluator adapter").

(** ** The scripted pair *)

Definition check_scripted_spec (spec : RunSpec) : list AdmissionIssue :=
  issue_when (negb (evaluator_supports CauseGrader spec))
    (catalog_issue "scripted_evaluator"
       "the scripted runner requires the exact legacy deterministic evaluator")
  ++ issue_when (inv_provider_profile_id (spec_agent_inventory spec) !=b None)
       (catalog_issue "offline_provider" "the scripted adapter does not invoke a provider")
  ++ issue_when (inv_capability_requirements (spec_agent_inventory spec) !=b [])
       (catalog_issue "offline_capabilities" "the scripted adapter does not execute tools or skills")
  ++ issue_when (np_mode (ws_network_policy (spec_workspace spec)) !=b NetDisabled)
       (catalog_issue "offline_network" "the scripted adapter requires disabled network")
  ++ issue_when (bu_max_tool_calls (spec_budgets spec) !=b None)
       (catalog_issue "offline_tool_budget" "the scripted adapter cannot consume a tool-call budget")
  ++ issue_when (cap_default_mode (spec_capture_policy spec) ==b CapRawEncrypted)
       (catalog_issue "offline_raw_capture"
          "the scripted compatibility adapter does not use raw encrypted capture").

(** ** The provider pair *)

Definition matches_closed_read_tool (spec : RunSpec) : bool :=
  match inv_capability_requirements (spec_agent_inventory spec) with
  | [requirement] =>
      (rq_kind requirement ==b KTool)
      && (rq_capability_ref requirement ==b READ_TOOL_REF)
      && rq_required requirement
      && (rq_minimum_interface_version requirement ==b "1")
      && (rq_requested_permissions requirement ==b [READ_PERMISSION])
      && (rq_exposure requirement ==b SchemaOnly)
      && (rq_authority_constraints requirement ==b [READ_CONSTRAINT])
      && (rq_instruction_refs requirement ==b [])
  | _ => false
  end.

Definition check_real_spec (real : RealSubject) (spec : RunSpec) : list AdmissionIssue :=
  issue_when (negb (evaluator_supports ReadAnswerGrader spec))
    (catalog_issue "real_evaluator" "the real read agent requires the strict read-answer evaluator")
  ++ issue_when (inv_provider_profile_id (spec_agent_inventory spec) !=b Some (pp_id (rl_profile real)))
       (typed_issue "provider_profile" "the real adapter requires its exact provider profile"
          CatProvider RUnsupported)
  ++ issue_when (negb (rl_credential_available real))
       (typed_issue "provider_credential"
          "the provider credential is unavailable to the worker composition" CatProvider RUnavailable)
  ++ issue_when (negb (matches_closed_read_tool spec))
       (typed_issue "read_tool_contract"
          "the real adapter requires the exact closed read-tool capability" CatCapability RUnsupported)
  ++ issue_when (np_mode (ws_network_policy (spec_workspace spec)) !=b NetProviderOnly)
       (typed_issue "provider_network" "the real adapter requires provider_only network"
          CatPolicy RDenied)
  ++ issue_when (match bu_max_tool_calls (spec_budgets spec) with None => true | Some n => (8 <? n)%Z end)
       (catalog_issue "max_tool_calls" "the real adapter requires max_tool_calls between 1 and 8")
  ++ issue_when (negb ((cap_default_mode (spec_capture_policy spec) ==b CapRawEncrypted)
                       && (cap_raw_sensitive (spec_capture_policy spec) ==b RawOptIn)))
       (typed_issue "recoverable_subject_output"
          "the real adapter requires opt-in encrypted raw capture for recovery" CatPolicy RDenied).

(** [_single_visible_input] of src/src/evidrun/runs/coordinator/prepare.py. *)
Definition single_visible_input (spec : RunSpec) : result (InputBinding * ContextPolicySpec) :=
  match visible_inputs spec, spec_context_policy spec with
  | [visible], Some policy => Ok (visible, policy)
  | _, _ => Raise (ValueError "admitted deterministic Run has unsupported Subject inputs")
  end.

(** [declared.model_copy(update={"source": reference})]. *)
Definition with_source (reference : ArtifactRef) (b : InputBinding) : InputBinding :=
  MkInputBinding (ib_id b) (ib_role b) reference (ib_visibility b) (ib_mount_access b) (ib_mount_name b).

(** ** The validator and the resolution *)

Definition validate_spec (catalog : AdapterCatalog) (spec : RunSpec) : result (list AdmissionIssue) :=
  match find_subject catalog (inv_runner_ref (spec_agent_inventory spec)) with
  | None => Ok [catalog_issue "runner_adapter" "the admitted runner has no exact executable adapter"]
  | Some subject =>
      shared ← check_shared_spec catalog spec;
      Ok (shared
          ++ match subject with
             | ScriptedSubject => check_scripted_spec spec
             | ReadAgentSubject real => check_real_spec real spec
             end
          ++ check_evaluator_resolution spec)
  end.

(** [self.admission_service().admit(spec, trust)]; the validator runs after the checks of the
    declared envelope, and its error is the caller's. *)
Definition catalog_admit (catalog : AdapterCatalog) (now : instant) (spec : RunSpec)
    (trust : ExecutionTrustRecord) : result AdmissionRecord :=
  let issues := validate_spec catalog spec in
  record ← admit_run_spec (capability_envelope catalog)
    [λ _, match issues with Ok l => l | Raise _ => [] end] now spec trust;
  issues;;
  Ok record.

Definition assert_provider_resolution (admission : AdmissionRecord) (real : RealSubject) : result unit :=
  let resolved := adm_resolved_inventory admission in
  let drifted := ValueError "admitted provider or tool resolution drifted from the active catalog" in
  raise_when (ri_provider_profile_id resolved !=b Some (pp_id (rl_profile real))
      || ri_provider_profile_digest resolved !=b Some (profile_digest real)
      || ri_provider_model resolved !=b Some (pp_model (rl_profile real))
      || ri_provider_reasoning_effort resolved !=b Some (pp_reasoning_effort (rl_profile real))
      || ri_provider_adapter resolved !=b Some PROVIDER_ADAPTER) drifted;;
  match ri_capabilities resolved with
  | [capability] =>
      raise_when (rc_status capability !=b Resolved
          || rc_resolved_ref capability !=b Some READ_TOOL_REF) drifted
  | _ => Raise drifted
  end.

Definition subject_for (catalog : AdapterCatalog) (spec : RunSpec) (admission : AdmissionRecord)
    : result SubjectAdapter :=
  let unresolved := ValueError "admitted runner cannot be resolved by the active catalog" in
  subject ← require (find_subject catalog (inv_runner_ref (spec_agent_inventory spec))) unresolved;
  raise_when (ri_runner_ref (adm_resolved_inventory admission) !=b adapter_ref subject
      || adm_run_spec_digest admission !=b spec_digest spec
      || adm_decision admission !=b AdmissionAdmitted) unresolved;;
  match subject with
  | ReadAgentSubject real => assert_provider_resolution admission real
  | ScriptedSubject => Ok tt
  end;;
  Ok subject.

Definition evaluator_for (spec : RunSpec) : result EvaluatorAdapter :=
  require (find_first (λ e, evaluator_supports e spec) [CauseGrader; ReadAnswerGrader])
    (ValueError "EvaluationPlan cannot be resolved by the active catalog").
End catalog.

(** ** An admitted RunSpec can be executed *)

Lemma index_by_lookup {K A} `{Countable K} (key : A → K) items k x :
  index_by key items !! k = Some x → x ∈ items ∧ key x = k.
Proof.
  unfold index_by. induction items as [|y items IH] using rev_ind; cbn; [done|].
  rewrite foldl_app. cbn. destruct (decide (key y = k)) as [<-|Hne].
  - rewrite lookup_insert. case_decide; [|done]. intros [= <-]. split; [set_solver|done].
  - rewrite lookup_insert_ne by done. intros [? ?]%IH. split; [set_solver|done].
Qed.

Lemma capability_ref_eq (r q : CapabilityDescriptorRef) :
  capability_key r = capability_key q → cap_digest r = cap_digest q → r = q.
Proof. destruct r, q. unfold capability_key; cbn. naive_solver. Qed.

Lemma issue_when_blocking b i : ai_blocking i = true → Forall (λ j, ai_blocking j = true) (issue_when b i).
Proof. intros Hi. destruct b; repeat constructor. done. Qed.

Lemma issue_when_nil b i : issue_when b i = [] ↔ b = false.
Proof. by destruct b. Qed.

Section executable.
Context `{PyRuntime}.
Implicit Types (catalog : AdapterCatalog) (spec : RunSpec) (trust : ExecutionTrustRecord).

Ltac blocking := repeat first [apply Forall_app_2 | apply issue_when_blocking; reflexivity].

Lemma validate_spec_blocking catalog spec l :
  validate_spec catalog spec = Ok l → Forall (λ i, ai_blocking i = true) l.
Proof.
  unfold validate_spec. destruct (find_subject _ _) as [subject|]; [|intros [= <-]; by repeat constructor].
  intros (shared & Hs & E)%bind_ok. injection E as <-. apply Forall_app_2; [|apply Forall_app_2].
  - unfold check_shared_spec in Hs. apply bind_ok in Hs as (input & Hi & E). injection E as <-. blocking.
    unfold check_subject_input in Hi. repeat case_match; simplify_eq; by repeat constructor.
  - destruct subject; unfold check_scripted_spec, check_real_spec; blocking.
  - unfold check_evaluator_resolution. blocking.
Qed.

(** The fields of the record that the catalog compares again. *)
Lemma admit_inventory envelope validators now spec trust record :
  admit_run_spec envelope validators now spec trust = Ok record →
  ri_runner_ref (adm_resolved_inventory record)
    = default (inv_runner_ref (spec_agent_inventory spec)) (check_runner spec envelope).1
  ∧ ri_provider_profile_id (adm_resolved_inventory record) = rp_profile_id (check_provider spec envelope).1
  ∧ ri_provider_profile_digest (adm_resolved_inventory record) = rp_profile_digest (check_provider spec envelope).1
  ∧ ri_provider_model (adm_resolved_inventory record) = rp_model (check_provider spec envelope).1
  ∧ ri_provider_reasoning_effort (adm_resolved_inventory record)
    = rp_reasoning_effort (check_provider spec envelope).1
  ∧ ri_provider_adapter (adm_resolved_inventory record) = rp_adapter (check_provider spec envelope).1.
Proof.
  unfold admit_run_spec. destruct (check_runner spec envelope) as [runner rf].
  destruct (check_provider spec envelope) as [provider pf].
  intros ([resolved cf] & _ & E)%bind_ok. destruct (check_runtime_capabilities spec envelope) as [rc rtf].
  destruct (resolve_workspace spec envelope) as [ws wf].
  destruct (check_interaction spec envelope) as [it itf].
  destruct (check_subject_disclosure spec) as [dis df].
  apply bind_ok in E as (tf & _ & E). apply bind_ok in E as (ef & _ & E). cbn zeta in E.
  apply bind_ok in E as (u1 & _ & E). apply bind_ok in E as (u2 & _ & E).
  assert (Er : ∀ x y : AdmissionRecord, Ok x = Ok y → x = y) by (by intros x y [= ->]).
  apply Er in E. rewrite <- E. clear. split_and!; reflexivity.
Qed.

(** What an admitted decision says about the two layers. *)
Lemma catalog_admitted catalog now spec trust record :
  admissible_input spec trust → catalog_admit catalog now spec trust = Ok record →
  adm_decision record = AdmissionAdmitted →
  validate_spec catalog spec = Ok []
  ∧ runner_registered spec (capability_envelope catalog)
  ∧ sd_mode (ds_subject (plan_disclosure (spec_evaluation_plan spec))) = DNone
  ∧ adm_run_spec_digest record = spec_digest spec
  ∧ ri_capabilities (adm_resolved_inventory record)
    = map (λ r, (check_capability (capability_envelope catalog) r).1)
        (inv_capability_requirements (spec_agent_inventory spec))
  ∧ ri_runner_ref (adm_resolved_inventory record)
    = default (inv_runner_ref (spec_agent_inventory spec)) (check_runner spec (capability_envelope catalog)).1
  ∧ ∃ now', admit_run_spec (capability_envelope catalog) [λ _, []] now' spec trust = Ok record.
Proof.
  intros Hin Hc Hd. unfold catalog_admit in Hc. destruct (validate_spec catalog spec) as [l|] eqn:Ev.
  2:{ apply bind_ok in Hc as (r & _ & E). done. }
  apply bind_ok in Hc as (r & Hr & E). cbn in E. injection E as ->.
  destruct (admit_unfold (capability_envelope catalog) [λ _, l] now spec trust Hin)
    as (f & r0 & Hr0 & Hdec & Hcaps & Hdig & _ & Hm & Hde & Hi & _ & _ & _ & _ & tf & cf & ef & _ & _ & _ & Hf).
  rewrite Hr in Hr0. injection Hr0 as <-.
  assert (Hb : record_blocked record = false) by (destruct (record_blocked record); congruence).
  assert (Hbf : blocks f = false).
  { unfold record_blocked in Hb. rewrite !orb_false_iff in Hb. unfold blocks.
    rewrite <- Hm, <- Hde, <- Hi. destruct_and!. by rewrite !orb_false_iff. }
  rewrite Hf, existsb_false in Hbf.
  assert (Hl : l = []).
  { pose proof (validate_spec_blocking _ _ _ Ev) as Hbl. destruct l as [|i l]; [done|].
    assert (Ha : blocks (MkFindings [] [] [] (flat_map (λ v, v spec) [λ _, i :: l])) = false)
      by (apply Hbf; repeat (first [left | right])).
    rewrite adapter_issues_blocks in Ha. inversion Hbl; subst.
    specialize (Ha (λ _, i :: l) i ltac:(left) ltac:(left)). congruence. }
  subst l. split_and!; try done.
  - apply check_runner_blocks. apply Hbf. right. left.
  - destruct (check_subject_disclosure_blocks spec) as [Hdf Hdn].
    assert (Hs : blocks (check_subject_disclosure spec).2 = false) by (apply Hbf; do 13 right; left).
    rewrite Hdf in Hs. bools. by apply Hdn.
  - by apply (admit_inventory _ _ _ _ _ _ Hr).
  - by exists now.
Qed.
End executable.

(** The subject the catalog finds is the one whose exact reference the RunSpec names. *)
Lemma find_subject_ref `{PyRuntime} catalog reference subject :
  find_subject catalog reference = Some subject → reference = adapter_ref subject.
Proof.
  unfold find_subject. destruct (ac_real_subject catalog) as [real|]; repeat case_bool_decide; naive_solver.
Qed.

Lemma find_subject_real `{PyRuntime} catalog reference real :
  find_subject catalog reference = Some (ReadAgentSubject real) → ac_real_subject catalog = Some real.
Proof.
  unfold find_subject. destruct (ac_real_subject catalog) as [r|]; repeat case_bool_decide; naive_solver.
Qed.

Lemma envelope_runners `{PyRuntime} catalog :
  ∃ runners, env_runners (capability_envelope catalog) = index_by capability_key runners.
Proof. unfold capability_envelope. destruct (ac_real_subject catalog); by eexists. Qed.

Lemma registered_runner `{PyRuntime} catalog spec :
  runner_registered spec (capability_envelope catalog) →
  (check_runner spec (capability_envelope catalog)).1 = Some (inv_runner_ref (spec_agent_inventory spec)).
Proof.
  intros (r & Hr & Hd). unfold check_runner. rewrite Hr, decide_True by done. cbn. f_equal.
  destruct (envelope_runners catalog) as [runners Hrs]. rewrite Hrs in Hr.
  apply index_by_lookup in Hr as [_ Hk]. by apply capability_ref_eq.
Qed.

(** The closed read tool resolves to itself with exactly its permission. *)
Lemma read_tool_resolved `{PyRuntime} catalog real spec :
  ac_real_subject catalog = Some real → matches_closed_read_tool spec = true →
  ∃ c, map (λ r, (check_capability (capability_envelope catalog) r).1)
         (inv_capability_requirements (spec_agent_inventory spec)) = [c]
    ∧ rc_status c = Resolved ∧ rc_resolved_ref c = Some READ_TOOL_REF
    ∧ rc_effective_permissions c = [READ_PERMISSION]
    ∧ rc_satisfied_authority_constraints c = [READ_CONSTRAINT].
Proof.
  intros Hreal Hm. unfold matches_closed_read_tool in Hm.
  destruct (inv_capability_requirements _) as [|q [|q' qs]]; try done. bools.
  cbn [map]. eexists. split; [done|]. unfold check_capability, capability_envelope. rewrite Hreal.
  cbn [env_capabilities declare].
  assert (index_by (λ e, capability_key (ce_ref e)) [MkCapabilityEntry READ_TOOL_REF READ_TOOL_ADAPTER
    [READ_PERMISSION] ["1"] [READ_CONSTRAINT]] !! capability_key (rq_capability_ref q)
    = Some (MkCapabilityEntry READ_TOOL_REF READ_TOOL_ADAPTER [READ_PERMISSION] ["1"] [READ_CONSTRAINT])) as ->.
  { replace (rq_capability_ref q) with READ_TOOL_REF by done. unfold index_by. cbn [foldl]. apply lookup_insert_eq. }
  replace (rq_capability_ref q) with READ_TOOL_REF by done.
  rewrite decide_True by done. cbn [ce_ref ce_compatible_interface_versions ce_allowed_permissions
    ce_satisfied_authority_constraints].
  replace (rq_minimum_interface_version q) with "1" by done.
  replace (rq_requested_permissions q) with [READ_PERMISSION] by done.
  replace (rq_authority_constraints q) with [READ_CONSTRAINT] by done.
  done.
Qed.

Lemma provider_resolved `{PyRuntime} catalog real spec :
  ac_real_subject catalog = Some real →
  inv_provider_profile_id (spec_agent_inventory spec) = Some (pp_id (rl_profile real)) →
  (check_provider spec (capability_envelope catalog)).1
  = MkResolvedProvider (Some (pp_id (rl_profile real))) (Some (profile_digest real))
      (Some (pp_model (rl_profile real))) (Some (pp_reasoning_effort (rl_profile real)))
      (Some PROVIDER_ADAPTER).
Proof.
  intros Hreal Hid. unfold check_provider, capability_envelope. rewrite Hid, Hreal.
  cbn [env_providers declare]. unfold index_by. cbn [foldl pe_profile_id].
  rewrite lookup_insert_eq. done.
Qed.

(** Materializing the one visible input keeps its authority metadata. *)
Lemma single_input_compiles `{PyRuntime} spec record declared policy reference :
  single_visible_input spec = Ok (declared, policy) →
  adm_run_spec_digest record = spec_digest spec → adm_decision record = AdmissionAdmitted →
  sd_mode (ds_subject (plan_disclosure (spec_evaluation_plan spec))) = DNone →
  ar_media_type reference = ar_media_type (ib_source declared) →
  ar_classification reference = ar_classification (ib_source declared) →
  ∃ envelope, compile_subject_envelope spec record (Some [with_source reference declared]) = Ok envelope
    ∧ se_inputs envelope = [with_source reference declared]
    ∧ se_effective_capabilities envelope
      = List.filter (λ c, rc_status c ==b Resolved) (ri_capabilities (adm_resolved_inventory record))
    ∧ se_budgets envelope = spec_budgets spec.
Proof.
  intros Hs Hd Ha Hm E1 E2. unfold single_visible_input in Hs.
  assert (Hv : declared_visible_inputs spec = [declared]).
  { unfold visible_inputs in Hs. unfold declared_visible_inputs.
    change (λ item, subject_visible (ib_visibility item)) with (λ item, subject_sees item) in Hs.
    destruct (List.filter _ _) as [|b [|b' l]]; try done. by destruct (spec_context_policy spec); simplify_eq. }
  unfold compile_subject_envelope. rewrite Hd, Ha, Hv.
  rewrite (bool_decide_eq_true_2 (spec_digest spec = spec_digest spec)) by done.
  rewrite (bool_decide_eq_true_2 (AdmissionAdmitted = AdmissionAdmitted)) by done.
  rewrite (bool_decide_eq_false_2 (Some _ = None)), andb_false_r by done.
  cbn [negb raise_when mbind result_bind default id map with_source ib_id].
  rewrite (proj2 (same_set_true [ib_id declared] [ib_id declared])) by done.
  cbn [negb raise_when mbind result_bind check_materialized rev app find_first with_source ib_id].
  rewrite (bool_decide_eq_true_2 (ib_id declared = ib_id declared)) by done.
  cbn [require mbind result_bind]. unfold changed_authority.
  cbn [with_source ib_role ib_visibility ib_mount_access ib_mount_name ib_source].
  rewrite E1, E2, !bool_decide_eq_true_2 by done. cbn [negb orb raise_when mbind result_bind].
  unfold evaluation_guidance. rewrite Hm, bool_decide_eq_false_2 by done.
  cbn [mbind result_bind]. eexists. split; [done|]. done.
Qed.

(** The two graders have different references, so a plan has at most one of them. *)
Lemma cause_not_read_answer `{PyRuntime} spec :
  evaluator_supports ReadAnswerGrader spec = true → evaluator_supports CauseGrader spec = false.
Proof.
  cbn. unfold grader_supports. destruct (plan_stages _) as [|stage [|]]; try done.
  intros Hs. bools. rewrite (bool_decide_eq_false_2 (st_evaluator_ref stage = CAUSE_GRADER_REF)); [done|].
  replace (st_evaluator_ref stage) with READ_ANSWER_REF by done. by intros [=].
Qed.

(** The shared checks leave one visible input and a policy. *)
Lemma shared_single `{PyRuntime} catalog spec :
  check_shared_spec catalog spec = Ok [] →
  ∃ declared policy, single_visible_input spec = Ok (declared, policy).
Proof.
  unfold check_shared_spec. intros (input & Hi & E)%bind_ok.
  assert (Hnil : ∀ x y : list AdmissionIssue, Ok x = Ok y → x = y) by (by intros x y [= ->]).
  apply Hnil in E. rewrite !app_nil, !issue_when_nil in E. destruct E as (_ & -> & Hp & _).
  unfold check_subject_input in Hi. unfold single_visible_input.
  destruct (visible_inputs spec) as [|b [|b' l]]; try done.
  destruct (spec_context_policy spec) as [policy|]; [by exists b, policy|]. by bools.
Qed.

(** C19: what admission admits, the runtime can execute: for a RunSpec the wired catalog
    admits, the coordinator resolves its Subject and its evaluator from the record without
    error, the one Subject-visible input and its policy exist, and the Subject envelope
    compiles for every materialization that keeps media type and classification; the
    scripted runner gets no capability and the cause grader, the read agent exactly its
    closed tool, a tool budget of at most eight calls and the strict grader. *)
Theorem admitted_executable `{PyRuntime} catalog now spec trust record :
  admissible_input spec trust → catalog_admit catalog now spec trust = Ok record →
  adm_decision record = AdmissionAdmitted →
  ∃ subject evaluator declared policy,
    subject_for catalog spec record = Ok subject ∧ evaluator_for spec = Ok evaluator
    ∧ single_visible_input spec = Ok (declared, policy)
    ∧ ∀ reference, ar_media_type reference = ar_media_type (ib_source declared) →
        ar_classification reference = ar_classification (ib_source declared) →
        ∃ envelope, compile_subject_envelope spec record (Some [with_source reference declared])
                    = Ok envelope
          ∧ se_inputs envelope = [with_source reference declared]
          ∧ match subject with
            | ScriptedSubject => evaluator = CauseGrader ∧ se_effective_capabilities envelope = []
            | ReadAgentSubject _ =>
                evaluator = ReadAnswerGrader ∧ assert_authorized_tool envelope = Ok tt
                ∧ ∃ n, bu_max_tool_calls (se_budgets envelope) = Some n ∧ (n <= 8)%Z
            end.
Proof.
  intros Hin Hadm Hdec.
  destruct (catalog_admitted _ _ _ _ _ Hin Hadm Hdec) as (Hv & Hrun & Hdis & Hdig & Hcaps & Href & now' & Hr).
  pose proof (admit_inventory _ _ _ _ _ _ Hr) as (_ & P1 & P2 & P3 & P4 & P5).
  rewrite (registered_runner _ _ Hrun) in Href. cbn in Href.
  unfold validate_spec in Hv. destruct (find_subject _ _) as [subject|] eqn:Hf; [|done].
  apply bind_ok in Hv as (shared & Hsh & Hv). assert (Hnil : ∀ A (x y : list A), Ok x = Ok y → x = y)
    by (by intros A x y [= ->]). apply Hnil in Hv. rewrite !app_nil in Hv. destruct Hv as (-> & Hpair & Hev).
  destruct (shared_single catalog spec Hsh) as (declared & policy & Hsingle).
  assert (Hsub : find_subject catalog (inv_runner_ref (spec_agent_inventory spec)) = Some subject →
    ri_runner_ref (adm_resolved_inventory record) = adapter_ref subject).
  { intros E. rewrite Href. by apply (find_subject_ref catalog). }
  specialize (Hsub Hf). unfold subject_for. rewrite Hf. cbn [require mbind result_bind].
  rewrite Hsub, Hdig, Hdec, !bool_decide_eq_true_2 by done. cbn [negb orb raise_when mbind result_bind].
  destruct subject as [|real].
  - unfold check_scripted_spec in Hpair. rewrite !app_nil, !issue_when_nil in Hpair.
    destruct Hpair as (Hs & _ & Hq & _). bools.
    exists ScriptedSubject, CauseGrader, declared, policy. split_and!; [done| |done|].
    { unfold evaluator_for. cbn [find_first]. by rewrite Hs. }
    intros reference E1 E2.
    destruct (single_input_compiles spec record declared policy reference Hsingle Hdig Hdec Hdis E1 E2)
      as (envelope & Hc & Hi & He & _).
    exists envelope. split_and!; try done. rewrite He, Hcaps, Hq. done.
  - pose proof (find_subject_real _ _ _ Hf) as Hreal.
    unfold check_real_spec in Hpair. rewrite !app_nil, !issue_when_nil in Hpair.
    destruct Hpair as (Hs & Hid & _ & Hm & _ & Hmax & _). bools.
    destruct (read_tool_resolved catalog real spec Hreal Hm) as (c & Hc & C1 & C2 & C3 & C4).
    rewrite (provider_resolved catalog real spec Hreal Hid) in P1, P2, P3, P4, P5.
    unfold assert_provider_resolution. cbn in P1, P2, P3, P4, P5.
    rewrite P1, P2, P3, P4, P5, Hcaps, Hc, C1, C2, !bool_decide_eq_true_2 by done.
    exists (ReadAgentSubject real), ReadAnswerGrader, declared, policy. split_and!; [done| |done|].
    { unfold evaluator_for. cbn [find_first]. rewrite Hs, (cause_not_read_answer spec Hs). done. }
    intros reference E1 E2.
    destruct (single_input_compiles spec record declared policy reference Hsingle Hdig Hdec Hdis E1 E2)
      as (envelope & Hcomp & Hi & He & Hb).
    exists envelope. split_and!; try done.
    + unfold assert_authorized_tool. rewrite He, Hcaps, Hc. cbn [List.filter].
      rewrite C1, bool_decide_eq_true_2 by done. rewrite C1, C2, C3, C4, !bool_decide_eq_true_2 by done. done.
    + rewrite Hb. destruct (bu_max_tool_calls (spec_budgets spec)) as [n|]; [|done]. exists n.
      split; [done|]. by apply Z.ltb_ge.
Qed.

(** ** An offline RunSpec *)

Definition offline_policy : ContextPolicySpec := MkContextPolicySpec "tail" Tail 4000.

(** The sample with the scripted runner, its grader, one input and a context policy. *)
Definition offline_spec : RunSpec := {|
  spec_study_ref := sample_ref STUDY "study";
  spec_scenario_ref := sample_ref SCENARIO "scenario";
  spec_variant_id := "baseline";
  spec_repetition_index := 1;
  spec_seed := None;
  spec_goal_ref := sample_ref GOAL "goal";
  spec_goal := sample_goal;
  spec_scenario := MkScenarioSpec "An incident." [sample_binding] [] [] [];
  spec_agent_inventory_ref := sample_ref AGENT_INVENTORY "inventory";
  spec_agent_inventory := MkAgentInventorySpec "subject" SCRIPTED_REF None [] [];
  spec_workspace_template_ref := sample_ref WORKSPACE_TEMPLATE "workspace";
  spec_workspace := sample_workspace;
  spec_interaction_protocol_ref := sample_ref INTERACTION_PROTOCOL "protocol";
  spec_interaction_protocol := sample_protocol;
  spec_evaluation_plan_ref := sample_ref EVALUATION_PLAN "plan";
  spec_evaluation_plan :=
    MkEvaluationPlanSpec (plan_dimensions sample_plan)
      [MkEvaluationStage "grade" DeterministicGrader CAUSE_GRADER_REF
         (MkEvaluationTrigger ETEvent (Some "subject.responded")) ["correct"] true
         [MkKeyValue "expected" (SStr "DISK_FULL")]]
      (plan_disclosure sample_plan) (MkBlindingPolicy []) None
      (MkHumanAdjudicationPolicy false None [] None) [];
  spec_checkpoint_policy_ref := None;
  spec_checkpoint_policy := None;
  spec_progress_artifact_policy_ref := None;
  spec_progress_artifact_policy := None;
  spec_context_policy := Some offline_policy;
  spec_budgets := sample_budgets;
  spec_stop_conditions := sample_stops;
  spec_capture_policy := sample_capture;
  spec_extensions := [];
  spec_limitations := []
|}.

Definition offline_trust : ExecutionTrustRecord :=
  MkTrustRecord "trust_1" UnverifiedRevisionSet "project" (sample_ref STUDY "study") sample_refs
    (revision_set_digest (MkRevisionSet "project" (sample_ref STUDY "study") sample_refs))
    (spec_digest offline_spec) [] 0.

(** The catalog without a provider, on a store that holds every input. *)
Definition offline_catalog : AdapterCatalog :=
  MkAdapterCatalog None (Some (λ _ _, Ok "ROOT_CAUSE=DISK_FULL")) (Some (λ _, Ok "project")).

Definition offline_record : AdmissionRecord := Eval vm_compute in
  value_of blank_record (catalog_admit offline_catalog 0 offline_spec offline_trust).

Lemma offline_admissible : admissible_input offline_spec offline_trust.
Proof. split_and!; vm_compute; reflexivity. Qed.

Lemma offline_admitted : catalog_admit offline_catalog 0 offline_spec offline_trust = Ok offline_record.
Proof. vm_compute. reflexivity. Qed.

Lemma admitted_executable_witness :
  adm_decision offline_record = AdmissionAdmitted
  ∧ ∃ subject evaluator, subject_for offline_catalog offline_spec offline_record = Ok subject
      ∧ evaluator_for offline_spec = Ok evaluator.
Proof.
  split; [reflexivity|].
  destruct (admitted_executable offline_catalog 0 offline_spec offline_trust offline_record
    offline_admissible offline_admitted eq_refl) as (subject & evaluator & _ & _ & H1 & H2 & _).
  exists subject, evaluator. split; [exact H1|exact H2].
Defined.
