(* ===== verification/EvalStore.v ===== *)
(** * Evaluation and checkpoint records
    (src/src/evidrun/infrastructure/database/evaluation/records.py and checkpoints.py,
    evidence_boundary.py).

    [save_evaluation_record] opens several sessions: one that looks for an identical
    record, the verification of a human attestation outside any transaction, two that
    check the boundary against the ledger, and the one that writes. They are composed in
    that order; no other command runs between them in the model. The attestation verifier
    is a collaborator of the store, given by a class. *)

From Stdlib Require Import Ascii.
From S2P Require Import Prelude PyText PyJson Base Authoring Runtime Events Evaluation Store.
From S2P Require Import Lease Handlers Ledger Queue.

(** [ref.split(":", 1)]. *)
Fixpoint split_colon (s : string) : option (string * string) :=
  match s with
  | "" => None
  | String c rest =>
      if decide (c = ":"%char) then Some ("", rest)
      else match split_colon rest with
           | Some (scheme, target) => Some (String c scheme, target)
           | None => None
           end
  end.

(** [where(run_id == id, sequence == n)]. *)
Definition event_at (id : string) (n : Z) (d : DB) : option RunEventRow :=
  find_first (λ e, (evt_sequence e =? n)%Z) (run_events id d).

(** [session.get(RunEventRow, id)]. *)
Definition get_event (id : string) (d : DB) : option RunEventRow :=
  find_first (λ e, evt_id e ==b id) (db_events d).

(** ** evidence_boundary.py *)

Definition validate_evidence_boundary (id : string) (sequence : option Z)
    (event_hash : option string) (d : DB) : result unit :=
  match sequence, event_hash with
  | None, None => Ok tt
  | Some n, Some h =>
      raise_when (match event_at id n d with Some e => evt_event_hash e !=b h | None => true end)
        (ValueError "event boundary does not match the Run ledger")
  | _, _ => Raise (ValueError "event boundary requires sequence and hash")
  end.

Definition validate_evaluation_boundary (record : EvaluationRecord) (d : DB) : result unit :=
  match eb_checkpoint_id (er_boundary record) with
  | None => Ok tt
  | Some id =>
      raise_when (match db_checkpoints d !! id with
                  | Some c => ckrow_run_id c !=b er_run_id record
                  | None => true
                  end)
        (ValueError "evaluation checkpoint boundary does not belong to the Run")
  end.

(** ** Checks of a record against the tables *)

Definition boundary_event (record : EvaluationRecord) (d : DB) : option RunEventRow :=
  n ← eb_up_to_event_sequence (er_boundary record); event_at (er_run_id record) n d.

Definition boundary_checkpoint (record : EvaluationRecord) (d : DB) : option CheckpointRecordRow :=
  id ← eb_checkpoint_id (er_boundary record); db_checkpoints d !! id.

(** The last event sequence a record may cite. *)
Definition boundary_ceiling (record : EvaluationRecord) (d : DB) : Z :=
  match boundary_event record d, boundary_checkpoint record d with
  | Some e, _ => evt_sequence e
  | None, Some c => ckrow_up_to_event_sequence c
  | None, None => 0%Z
  end.

Definition validate_trigger_boundary (record : EvaluationRecord) (stage : EvaluationStage)
    (d : DB) : result Z :=
  let event := boundary_event record d in
  let checkpoint := boundary_checkpoint record d in
  match et_kind (st_trigger stage) with
  | ETEvent =>
      raise_when (match event with
                  | Some e => Some (evt_event_type e) !=b et_reference (st_trigger stage)
                  | None => true
                  end)
        (ValueError "evaluation boundary does not satisfy its event trigger")
  | ETCheckpoint =>
      c ← require checkpoint
        (ValueError "evaluation checkpoint trigger requires a checkpoint boundary");
      match et_reference (st_trigger stage) with
      | None => Ok tt
      | Some reference =>
          raise_when (ck_definition_id (ckrow_record c) !=b reference)
            (ValueError "evaluation boundary does not satisfy its checkpoint trigger")
      end
  | ETRunTerminal =>
      raise_when (match event with
                  | Some e => negb (evt_event_type e ∈b TERMINAL_EVENT_TYPES)
                  | None => true
                  end)
        (ValueError "run-terminal evaluation requires a terminal event boundary")
  end;;
  Ok (boundary_ceiling record d).

Definition validate_evidence_ref (record : EvaluationRecord) (ceiling : Z) (d : DB)
    (ref : EvidenceRef) : result unit :=
  '(scheme, target) ← require (split_colon (ev_ref ref))
    (ValueError "not enough values to unpack (expected 2, got 1)");
  raise_when (scheme ==b "run" && target !=b er_run_id record)
    (ValueError "evaluation evidence references a different Run");;
  raise_when (scheme ==b "event"
      && match get_event target d with
         | Some e => evt_run_id e !=b er_run_id record || (ceiling <? evt_sequence e)%Z
         | None => true
         end)
    (ValueError "evaluation evidence event is outside its authorized boundary").

Fixpoint check_all {A} (f : A → result unit) (l : list A) : result unit :=
  match l with [] => Ok tt | x :: rest => f x;; check_all f rest end.

Definition validate_evidence_refs (record : EvaluationRecord) (ceiling : Z) (d : DB) : result unit :=
  check_all (validate_evidence_ref record ceiling d)
    (flat_map dv_evidence_refs (er_dimension_values record)).

Definition related_boundary_sequence (record related : EvaluationRecord) (d : DB) : result Z :=
  match eb_up_to_event_sequence (er_boundary related) with
  | Some n => Ok n
  | None =>
      match boundary_checkpoint related d with
      | Some c =>
          raise_when (ckrow_run_id c !=b er_run_id record)
            (ValueError "related evaluation record has an unverifiable boundary");;
          Ok (ckrow_up_to_event_sequence c)
      | None => Raise (ValueError "related evaluation record has an unverifiable boundary")
      end
  end.

Fixpoint map_res {A B} (f : A → result B) (l : list A) : result (list B) :=
  match l with
  | [] => Ok []
  | x :: rest => y ← f x; ys ← map_res f rest; Ok (y :: ys)
  end.

Definition adjudication_target (record : EvaluationRecord) (d : DB) (ref : string)
    : result (EvaluationRecord * Z) :=
  target ← require (db_evaluations d !! ref)
    (ValueError "human adjudication target must belong to the same Run");
  raise_when (evrow_run_id target !=b er_run_id record)
    (ValueError "human adjudication target must belong to the same Run");;
  let target_record := evrow_record target in
  raise_when (er_plan_ref target_record !=b er_plan_ref record
              || er_stage_id target_record !=b er_stage_id record)
    (ValueError "human adjudication target must use the same plan and stage");;
  n ← related_boundary_sequence record target_record d;
  Ok (target_record, n).

Definition considered_record (record : EvaluationRecord) (d : DB) (ref : string)
    : result (EvaluationRecord * Z) :=
  considered ← require (db_evaluations d !! ref)
    (ValueError "human review can only consider records from the same Run");
  raise_when (evrow_run_id considered !=b er_run_id record)
    (ValueError "human review can only consider records from the same Run");;
  n ← related_boundary_sequence record (evrow_record considered) d;
  Ok (evrow_record considered, n).

Definition collect_related_records (record : EvaluationRecord) (spec : RunSpec) (d : DB)
    : result (list (EvaluationRecord * Z)) :=
  match er_source_type record with
  | SrcHumanAdjudicator =>
      match er_relation record with
      | Some (Adjudicates refs) =>
          let policy := plan_human_adjudication_policy (spec_evaluation_plan spec) in
          raise_when (negb (hp_required policy)
              || negb (er_stage_id record ∈b hp_adjudicable_stage_ids policy)
              || Some (er_evaluator_ref record) !=b hp_adjudicator_ref policy
              || match er_human_attestation record with
                 | Some att => Some (att_verifier_ref att) !=b hp_attestation_verifier_ref policy
                 | None => true
                 end)
            (ValueError "human adjudication is not authorized by the EvaluationPlan");;
          map_res (adjudication_target record d) refs
      | _ => Raise (ValueError "human adjudication requires explicit target records")
      end
  | SrcHumanReviewer =>
      match er_relation record with
      | Some (IndependentReview refs) => map_res (considered_record record d) refs
      | _ => Raise (ValueError "human review requires an independent review relation")
      end
  | _ => Ok []
  end.

Definition record_leb (a b : EvaluationRecordRow) : bool := String.leb (evrow_id a) (evrow_id b).

(** [where(run_id == id).order_by(id)]. *)
Definition run_evaluations (id : string) (d : DB) : list EvaluationRecordRow :=
  sort_by record_leb (List.filter (λ r, evrow_run_id r ==b id) (all_evaluations d)).

Definition validate_stage_availability (record : EvaluationRecord) (spec : RunSpec) (d : DB)
    : result unit :=
  let prior_rows := run_evaluations (er_run_id record) d in
  let prior_records := map evrow_record prior_rows in
  raise_when (er_source_type record ==b SrcHumanAdjudicator
      && existsb (λ p, er_stage_id p ==b er_stage_id record
                       && er_source_type p ==b SrcHumanAdjudicator) prior_records)
    (ValueError "v1 permits only one human adjudication per stage");;
  gates ← gate_results (spec_evaluation_plan spec) prior_records;
  raise_when (negb (er_stage_id record ∈b
                    stages_visible_after_gates (spec_evaluation_plan spec) gates))
    (ValueError "evaluation stage is blocked by a failed hard gate");;
  raise_when (er_source_type record !=b SrcHumanAdjudicator
      && existsb (λ p, evrow_stage_id p ==b er_stage_id record
                       && evrow_source_type p ==b er_source_type record) prior_rows)
    (ValueError "evaluation stage already has a record from this source type").

(** ** records.py *)

(** The verifier the repository is composed with: it accepts an attestation over the
    digest of the subject it must cover, or raises. *)
Class HumanVerifier := human_verify : HumanAttestationRecord → string → result unit.

Section store.
Context `{PyRuntime} {HV : HumanVerifier}.

(** [where(run_id == .., stage_id == .., source_type == ..)]. *)
Definition evaluation_by_stage (record : EvaluationRecord) (d : DB) : option EvaluationRecordRow :=
  find_first (λ r, evrow_run_id r ==b er_run_id record && evrow_stage_id r ==b er_stage_id record
                   && evrow_source_type r ==b er_source_type record) (all_evaluations d).

Definition evaluation_by_digest (digest : string) (d : DB) : option EvaluationRecordRow :=
  find_first (λ r, evrow_record_digest r ==b digest) (all_evaluations d).

Definition evaluation_row (record : EvaluationRecord) : EvaluationRecordRow := {|
  evrow_id := er_record_id record; evrow_run_id := er_run_id record;
  evrow_source_type := er_source_type record; evrow_stage_id := er_stage_id record;
  evrow_record := record; evrow_record_digest := er_digest record;
  evrow_created_at := er_created_at_utc record |}.

(** The first session: an identical record is returned, a different one is refused. *)
Definition existing_evaluation (record : EvaluationRecord) (lease : option LeaseFence)
    : Tx (option EvaluationRecordRow) :=
  validate_optional_lease lease (er_run_id record);;
  existing ← query (evaluation_by_stage record);
  match existing with
  | None => mret None
  | Some row =>
      guard (evrow_id row !=b er_record_id record || evrow_record_digest row !=b er_digest record)
        (ValueError "evaluation stage already has a different record from this source type");;
      mret (Some row)
  end.

(** Between the sessions: a human record needs an attestation the verifier accepts. *)
Definition verify_human_source (record : EvaluationRecord) : result unit :=
  if is_human (er_source_type record) then
    att ← require (er_human_attestation record)
      (ValueError "human evaluation requires attestation evidence");
    human_verify att (er_subject_digest record)
  else Ok tt.

(** The plan of the Run a record claims to evaluate. *)
Definition evaluated_spec (record : EvaluationRecord) : Tx RunSpec :=
  run ← fetch (get_run (er_run_id record)) (KeyError ("Run not found: " +:+ er_run_id record));
  spec_id ← lift (require (run_run_spec_id run)
    (ValueError "legacy Run does not have an EvaluationPlanRevision"));
  spec_row ← fetch (λ d, db_run_specs d !! spec_id)
    (ValueError "Run references a missing RunSpec");
  let spec := rsp_spec spec_row in
  guard (spec_evaluation_plan_ref spec !=b er_plan_ref record)
    (ValueError "evaluation plan does not belong to the RunSpec");;
  lift (validate_record (spec_evaluation_plan spec) record);;
  mret spec.

(** The stage of a record; [validate_record] has found it before. *)
Definition record_stage (spec : RunSpec) (record : EvaluationRecord) : result EvaluationStage :=
  require (find_stage (spec_evaluation_plan spec) (er_stage_id record)) (KeyError "stage").

(** The writing session. *)
Definition store_evaluation (record : EvaluationRecord) (lease : option LeaseFence)
    : Tx EvaluationRecordRow :=
  validate_optional_lease lease (er_run_id record);;
  spec ← evaluated_spec record;
  stage ← lift (record_stage spec record);
  d ← query (λ d, d);
  ceiling ← lift (validate_trigger_boundary record stage d);
  lift (validate_evidence_refs record ceiling d);;
  match evaluation_by_digest (er_digest record) d with
  | Some existing => mret existing
  | None =>
      related ← lift (collect_related_records record spec d);
      lift (validate_human_relation_boundary record ceiling related);;
      lift (validate_stage_availability record spec d);;
      let row := evaluation_row record in
      insert_evaluation row;; mret row
  end.

Definition save_evaluation_record (record : EvaluationRecord) (lease : option LeaseFence) : Op EvaluationRecordRow :=
  existing ← transaction (existing_evaluation record lease) Ok;
  match existing with
  | Some row => mret row
  | None =>
      op_lift (verify_human_source record);;
      read_session (validate_evaluation_boundary record);;
      read_session (validate_evidence_boundary (er_run_id record)
        (eb_up_to_event_sequence (er_boundary record)) (eb_event_hash (er_boundary record)));;
      transaction (store_evaluation record lease) Ok
  end.

(** ** Grades *)

(** [x == y] on floats. *)
Definition float_eqb (f g : pyfloat) : bool := float_leb f g && float_leb g f.

Definition grade_by_run (id grader : string) (d : DB) : option GradeRow :=
  find_first (λ g, grd_run_id g ==b id && grd_grader_id g ==b grader) (all_grades d).

Definition grade_differs (g : GradeRow) (score : pyfloat) (passed : bool) (rationale : string)
    (evidence : list string) : bool :=
  negb (float_eqb (grd_score g) score) || negb (Bool.eqb (grd_passed g) passed)
  || grd_rationale g !=b rationale
  || canonical_json (grd_evidence g) !=b canonical_json (jstrs evidence).

(** Insert the Grade, or return the equal one already stored. *)
Definition upsert_grade (id grader : string) (score : pyfloat) (passed : bool)
    (rationale : string) (evidence : list string) : Tx GradeRow :=
  existing ← query (grade_by_run id grader);
  match existing with
  | Some g =>
      guard (grade_differs g score passed rationale evidence)
        (ValueError "a different Grade already exists for this Run/grader");;
      mret g
  | None =>
      grade_id ← new_id "grade";
      created_at ← utc_now;
      let row := MkGradeRow grade_id id grader score passed rationale (jstrs evidence) created_at in
      insert_grade row;; mret row
  end.

Definition save_grade_body (id grader : string) (score : pyfloat) (passed : bool)
    (rationale : string) (evidence : list string) (lease : option LeaseFence) : Tx GradeRow :=
  validate_optional_lease lease id;;
  upsert_grade id grader score passed rationale evidence.

Definition save_grade (id grader : string) (score : pyfloat) (passed : bool)
    (rationale : string) (evidence : list string) (lease : option LeaseFence) : Op GradeRow :=
  transaction (save_grade_body id grader score passed rationale evidence lease) Ok.

(** ** The built-in evaluation *)

Definition upsert_deterministic_record (record : EvaluationRecord) : Tx EvaluationRecordRow :=
  existing ← query (evaluation_by_stage record);
  match existing with
  | None => let row := evaluation_row record in insert_evaluation row;; mret row
  | Some row =>
      guard (evrow_id row !=b er_record_id record || evrow_record_digest row !=b er_digest record
             || canonical_json (semantic_model_dump (to_EvaluationRecord (evrow_record row)))
                !=b canonical_json (semantic_model_dump (to_EvaluationRecord record)))
        (ValueError "evaluation stage already has a different deterministic record");;
      mret row
  end.

Definition completed_payload (record : EvaluationRecord) : RunEventPayload :=
  PEvaluationCompleted (MkEvaluationCompletedPayload (er_record_id record) (er_digest record)
    (er_gate_status record)).

Definition deterministic_boundary (record : EvaluationRecord) (spec : RunSpec) (d : DB)
    : result RunEventRow :=
  n ← require (eb_up_to_event_sequence (er_boundary record))
    (ValueError "deterministic evaluation requires an event boundary");
  stage ← record_stage spec record;
  let refusal := ValueError "evaluation boundary does not satisfy its event trigger" in
  boundary ← require (event_at (er_run_id record) n d) refusal;
  raise_when (Some (evt_event_hash boundary) !=b eb_event_hash (er_boundary record)
              || et_kind (st_trigger stage) !=b ETEvent
              || Some (evt_event_type boundary) !=b et_reference (st_trigger stage)) refusal;;
  Ok boundary.

Definition deterministic_body (record : EvaluationRecord) (score : pyfloat) (passed : bool)
    (rationale : string) (evidence : list string) (lease : LeaseFence) : Tx EvaluationRecordRow :=
  guard (er_source_type record !=b SrcDeterministicGrader)
    (ValueError "atomic built-in evaluation requires a deterministic grader");;
  validate_optional_lease (Some lease) (er_run_id record);;
  let unready := ValueError "deterministic evaluation requires an evaluating Run" in
  run ← fetch (get_run (er_run_id record)) unready;
  spec_id ← lift (require (run_run_spec_id run) unready);
  guard (run_status run !=b evaluating) unready;;
  spec_row ← fetch (λ d, db_run_specs d !! spec_id)
    (ValueError "Run references a missing RunSpec");
  let spec := rsp_spec spec_row in
  guard (spec_digest spec !=b rsp_digest spec_row
         || spec_evaluation_plan_ref spec !=b er_plan_ref record)
    (ValueError "evaluation plan does not belong to the RunSpec");;
  lift (validate_record (spec_evaluation_plan spec) record);;
  d ← query (λ d, d);
  boundary ← lift (deterministic_boundary record spec d);
  lift (validate_evidence_refs record (evt_sequence boundary) d);;
  row ← upsert_deterministic_record record;
  upsert_grade (er_run_id record) (er_stage_id record) score passed rationale evidence;;
  append_event_once_in_session run "evaluation.completed" (completed_payload record)
    ("evaluation:" +:+ er_stage_id record +:+ ":completed") [evaluating] None;;
  mret row.

Definition save_deterministic_evaluation (record : EvaluationRecord) (score : pyfloat)
    (passed : bool) (rationale : string) (evidence : list string) (lease : LeaseFence)
    : Op EvaluationRecordRow :=
  transaction (deterministic_body record score passed rationale evidence lease) Ok.

(** ** checkpoints.py *)

Definition save_snapshot_body (id : string) (snapshot : ContextSnapshot)
    (lease : option LeaseFence) : Tx ContextSnapshotRow :=
  validate_optional_lease lease id;;
  existing ← query (snapshot_by_run id);
  match existing with
  | Some row =>
      guard (snapshot_differs row snapshot)
        (ValueError "a different ContextSnapshot already exists for the Run");;
      mret row
  | None =>
      snapshot_id ← new_id "ctx";
      created_at ← utc_now;
      let row := {|
        snap_id := snapshot_id; snap_run_id := id; snap_policy_id := cs_policy_id snapshot;
        snap_strategy := cs_strategy snapshot; snap_max_chars := cs_max_chars snapshot;
        snap_source_chars := cs_source_chars snapshot;
        snap_selected_chars := cs_selected_chars snapshot;
        snap_selected_content := cs_selected_content snapshot;
        snap_omitted := cs_omitted snapshot; snap_content_hash := cs_content_hash snapshot;
        snap_created_at := created_at |} in
      insert_snapshot row;; mret row
  end.

Definition save_snapshot (id : string) (snapshot : ContextSnapshot) (lease : option LeaseFence)
    : Op ContextSnapshotRow :=
  transaction (save_snapshot_body id snapshot lease) Ok.

(** The captures a definition requests are the ones the record carries. *)
Definition check_captures (capture : CheckpointCaptureSpec) (record : CheckpointRecord)
    : result unit :=
  let differs (requested present : bool) (label : string) :=
    raise_when (negb (Bool.eqb requested present))
      (ValueError ("checkpoint " +:+ label +:+ " capture does not match its definition")) in
  differs (cc_context_snapshot capture) (ck_context_snapshot_refs record !=b [])
    "context snapshot";;
  differs (cc_protocol_state capture) (ck_protocol_state_ref record !=b None) "protocol state";;
  differs (cc_artifact_manifest capture) (ck_artifact_manifest_ref record !=b None)
    "artifact manifest";;
  differs (cc_workspace_snapshot capture) (ck_workspace_snapshot_ref record !=b None)
    "workspace snapshot";;
  differs (cc_evaluation_records capture) (ck_evaluation_record_refs record !=b [])
    "evaluation records";;
  raise_when (negb (Bool.eqb (cc_provider_resolution capture || cc_agent_inventory capture)
                      (ck_admission_record_id record !=b None)))
    (ValueError "checkpoint admission capture does not match provider/inventory request").

Definition check_checkpoint_definition (definition : CheckpointDefinition)
    (record : CheckpointRecord) (d : DB) : result unit :=
  raise_when (ck_replayability record ==b ReplayDeterministic)
    (ValueError "deterministic checkpoint replayability is unsupported in this runtime");;
  raise_when (ck_definition_digest record
              !=b sha256_json (semantic_model_dump (to_CheckpointDefinition definition)))
    (ValueError "checkpoint definition digest does not match the RunSpec");;
  let refs := map cv_validator_ref (ck_validations record) in
  raise_when (negb (same_set refs (cd_validator_refs definition))
              || negb (length refs =? length (cd_validator_refs definition))%nat)
    (ValueError "checkpoint validations must match the definition validators");;
  boundary ← require (event_at (ck_run_id record) (ck_up_to_event_sequence record) d)
    (ValueError "checkpoint boundary event is missing");
  match cd_trigger definition with
  | ManualCheckpointTrigger => Ok tt
  | CheckpointEventTrigger event_type =>
      raise_when (evt_event_type boundary !=b event_type)
        (ValueError "checkpoint boundary does not satisfy its event trigger")
  | _ => Raise (ValueError "checkpoint trigger is representable but unsupported by this runtime")
  end.

(** The admission, snapshots and evaluations a record names belong to its Run. *)
Definition check_checkpoint_owner (run : RunRow) (record : CheckpointRecord) (d : DB) : result unit :=
  match ck_admission_record_id record with
  | None => Ok tt
  | Some id =>
      raise_when (match db_admissions d !! id with
                  | Some row => Some (arow_id row) !=b run_admission_id run
                                || Some (arow_digest row) !=b ck_admission_record_digest record
                  | None => true
                  end)
        (ValueError "checkpoint admission capture does not belong to the Run")
  end;;
  check_all (λ id, raise_when (match db_snapshots d !! id with
                               | Some s => snap_run_id s !=b ck_run_id record
                               | None => true
                               end)
    (ValueError "checkpoint context snapshot does not belong to the Run"))
    (ck_context_snapshot_refs record);;
  check_all (λ id, raise_when (match db_evaluations d !! id with
                               | Some e => evrow_run_id e !=b ck_run_id record
                               | None => true
                               end)
    (ValueError "checkpoint evaluation record does not belong to the Run"))
    (ck_evaluation_record_refs record).

Definition checkpoint_by_hash (hash : string) (d : DB) : option CheckpointRecordRow :=
  find_first (λ c, ckrow_checkpoint_hash c ==b hash) (all_checkpoints d).

Definition checkpoint_row (record : CheckpointRecord) : CheckpointRecordRow := {|
  ckrow_id := ck_checkpoint_id record; ckrow_run_id := ck_run_id record;
  ckrow_definition_id := ck_definition_id record;
  ckrow_up_to_event_sequence := ck_up_to_event_sequence record; ckrow_record := record;
  ckrow_checkpoint_hash := checkpoint_hash record;
  ckrow_created_at := ck_created_at_utc record |}.

Definition store_checkpoint (record : CheckpointRecord) : Tx CheckpointRecordRow :=
  run ← fetch (get_run (ck_run_id record)) (KeyError ("Run not found: " +:+ ck_run_id record));
  spec_id ← lift (require (run_run_spec_id run)
    (ValueError "legacy Run does not have a checkpoint policy"));
  spec_row ← fetch (λ d, db_run_specs d !! spec_id)
    (ValueError "Run references a missing RunSpec");
  let spec := rsp_spec spec_row in
  let foreign := ValueError "checkpoint policy does not belong to the RunSpec" in
  guard (spec_checkpoint_policy_ref spec !=b Some (ck_policy_ref record)) foreign;;
  policy ← lift (require (spec_checkpoint_policy spec) foreign);
  definition ← lift (require
    (find_first (λ x, cd_id x ==b ck_definition_id record) (ckp_definitions policy))
    (ValueError "checkpoint definition does not belong to the RunSpec"));
  d ← query (λ d, d);
  lift (check_checkpoint_definition definition record d);;
  lift (check_captures (cd_capture definition) record);;
  lift (check_checkpoint_owner run record d);;
  match checkpoint_by_hash (checkpoint_hash record) d with
  | Some existing => mret existing
  | None => let row := checkpoint_row record in insert_checkpoint row;; mret row
  end.

Definition save_checkpoint_record (record : CheckpointRecord) : Op CheckpointRecordRow :=
  read_session (validate_evidence_boundary (ck_run_id record)
    (Some (ck_up_to_event_sequence record)) (Some (ck_event_hash record)));;
  transaction (store_checkpoint record) Ok.
End store.
