(* ===== verification/Verify.v ===== *)
(** * The replay of an exported Run
    (src/src/evidrun/evidence/verify/dispatch.py, and the event documents of
    src/src/evidrun/infrastructure/database/read_model/).

    The verifier reads event documents it did not write, so every [d[k]] and every set
    membership may raise. Validating a payload against the registered pydantic model and
    dumping it again is pydantic's: [PayloadDump] stands for it. *)

From Stdlib Require Import SpecFloat.
From S2P Require Import Prelude PyText PyJson Base Authoring Runtime Events Evaluation Store.
From S2P Require Import Handlers Ledger.

#[local] Infix "or" := or_else (at level 51, right associativity).

(** ** Python equality of parsed documents *)

(** The integer a float is equal to. *)
Definition float_integer (f : pyfloat) : option Z :=
  match pf_value f with
  | S754_zero _ => Some 0%Z
  | S754_finite s m e =>
      let v := if s then Zneg m else Zpos m in
      if (0 <=? e)%Z then Some (v * 2 ^ e)%Z
      else if (v mod 2 ^ (- e) =? 0)%Z then Some (v / 2 ^ (- e))%Z else None
  | _ => None
  end.

(** [True == 1 == 1.0]: the integer stands for all of them. *)
Fixpoint py_value (v : json) : json :=
  match v with
  | JBool b => JInt (if b then 1 else 0)
  | JFloat f => match float_integer f with Some z => JInt z | None => v end
  | JArr l => JArr (map py_value l)
  | JObj m => JObj (map (λ '(k, w), (k, py_value w)) m)
  | _ => v
  end.

Definition py_eqb (v w : json) : bool := sort_keys (py_value v) ==b sort_keys (py_value w).

(** [d.get(k) != v]. *)
Definition get_not (d : json) (k : string) (v : json) : bool :=
  negb (py_eqb (default JNull (jget k d)) v).

(** [x not in {...}] for a set of strings: an unhashable value raises. *)
Definition not_in (x : json) (l : list string) : result bool :=
  match x with
  | JStr s => Ok (negb (s ∈b l))
  | JArr _ | JObj _ => Raise (TypeError "unhashable type")
  | _ => Ok true
  end.

(** [x not in {None, s}]. *)
Definition not_in_optional (x : option json) (s : string) : result bool :=
  match x with None => Ok false | Some x => not_in x [s] end.

(** ** Tables *)

Definition PRE_TERMINAL_STATES : list RunStatus := [queued; preparing; running; paused; evaluating].

Definition TRANSITIONS : list (string * (list RunStatus * RunStatus)) :=
  [("run.preparing", ([queued], preparing));
   ("run.running", ([preparing], running));
   ("run.paused", ([running], paused));
   ("run.resumed", ([paused], running));
   ("run.evaluating", ([running], evaluating));
   ("run.completed", ([evaluating], completed));
   ("run.failed", (PRE_TERMINAL_STATES, failed));
   ("run.cancelled", (PRE_TERMINAL_STATES, cancelled));
   ("run.budget_exhausted", (PRE_TERMINAL_STATES, budget_exhausted));
   ("run.guardrail_stopped", (PRE_TERMINAL_STATES, guardrail_stopped))].

Definition VERIFIER_ACTOR_TYPES : list string :=
  ["system"; "subject"; "evaluator"; "tool"; "skill"; "observer"].

Definition TOOL_TERMINAL_TYPES : list string := ["tool.completed"; "tool.denied"; "tool.failed"].

(** ** The documents of the ledger *)

Section documents.
Context `{PyRuntime}.

Definition event_document (row : RunEventRow) : json := JObj [
  ("event_id", JStr (evt_id row));
  ("schema_version", JStr "1");
  ("run_id", JStr (evt_run_id row));
  ("sequence", JInt (evt_sequence row));
  ("type", JStr (evt_event_type row));
  ("occurred_at_utc", JStr (isoformat (evt_occurred_at row)));
  ("actor_type", JStr (evt_actor_type row));
  ("actor_id", JStr (evt_actor_id row));
  ("classification", JStr (evt_classification row));
  ("payload", evt_payload row);
  ("correlation_id", JStr (evt_correlation_id row));
  ("causation_id", jopt JStr (evt_causation_id row));
  ("prev_event_hash", jopt JStr (evt_prev_event_hash row));
  ("event_hash", JStr (evt_event_hash row))].

Definition get_run_events (id : string) (d : DB) : list json :=
  map event_document (events_by_sequence id d).
End documents.

(** ** The replay *)

(** [model.model_validate(document)] and its dump, for a registered payload model. *)
Class PayloadDump := payload_dump : PayloadModel → json → result json.

(** Dumping a validated payload and validating the dump gives the dump back. *)
Class PayloadDumpLaws `{PyRuntime} `{PayloadDump} :=
  payload_dump_idem t model p doc : assoc t EVENT_PAYLOAD_MODELS = Some model →
    normalize_event_payload t p = Ok doc → payload_dump model doc = Ok doc.

Record ChainState := MkChainState {
  cs_previous : json;
  cs_current_status : RunStatus;
  cs_subject_invocations : nat;
  cs_subject_responses : nat;
  cs_offered_capabilities : gset string;
  cs_tool_calls : gmap string string;
  cs_tool_terminals : gset string
}.

Definition initial_chain : ChainState := MkChainState JNull queued 0 0 ∅ ∅ ∅.

Definition subject_open (st : ChainState) : bool :=
  (cs_subject_invocations st =? cs_subject_responses st + 1)%nat.

Section replay.
Context `{PyRuntime} `{PayloadDump}.

(** [normalize_event_payload(event_type, document)]. *)
Definition normalize_document (event_type : string) (document : json) : result json :=
  model ← require (assoc event_type EVENT_PAYLOAD_MODELS)
    (ValueError ("unregistered Run Event payload type: " +:+ event_type));
  payload_dump model document.

(** [str(event.get("type"))]; the text of a value that is not a string is no event type. *)
Definition document_type (event : json) : string :=
  match jget "type" event with Some (JStr t) => t | _ => "" end.

(** [not str(event.get("actor_id", "")).strip()]: only a string can be blank. *)
Definition blank_actor (event : json) : bool :=
  match event with
  | JObj m => match obj_get "actor_id" m with
              | None => true
              | Some (JStr s) => is_blank s
              | Some _ => false
              end
  | _ => true
  end.

Definition envelope_valid (event : json) (run_id : string) (sequence : Z) (stored_hash : json)
    (state : ChainState) : result bool :=
  negb <$> (Ok (get_not event "schema_version" (JStr "1"))
    or Ok (get_not event "run_id" (JStr run_id))
    or Ok (get_not event "sequence" (JInt sequence))
    or not_in (default JNull (jget "actor_type" event)) VERIFIER_ACTOR_TYPES
    or Ok (blank_actor event)
    or Ok (document_type event ∈b UNSUPPORTED_RUNTIME_EVENT_TYPES)
    or Ok (get_not event "prev_event_hash" (cs_previous state))
    or Ok (JStr (sha256_json event) !=b stored_hash)).

(** [except TypeError, ValueError]: pydantic's error is a [ValueError]. *)
Definition payload_normal (event_type : string) (payload : json) : result bool :=
  match normalize_document event_type payload with
  | Ok document => Ok (py_eqb document payload)
  | Raise (TypeError _) | Raise (ValueError _) | Raise (ValidationError _) => Ok false
  | Raise e => Raise e
  end.

Definition ordering_valid (event_type : string) (sequence : Z) (state : ChainState) : bool :=
  if (sequence =? 1)%Z then event_type ==b "run.queued"
  else if (event_type ==b "run.queued") || is_terminal (cs_current_status state) then false
  else match assoc event_type EVENT_ALLOWED_RUN_STATUSES with
       | None => true
       | Some allowed => cs_current_status state ∈b allowed
       end.

Definition tool_call_valid (payload : json) (state : ChainState) : result (option ChainState) :=
  call_id ← item_text payload "call_id";
  capability ← canonical_json <$> jitem "capability_ref" payload;
  let arguments_ref := default JNull (jget "arguments_ref" payload) in
  if negb (subject_open state) || bool_decide (is_Some (cs_tool_calls state !! call_id))
     || negb (bool_decide (capability ∈ cs_offered_capabilities state))
     || negb (is_dict (Some arguments_ref))
     || get_not arguments_ref "media_type" (JStr "application/json")
     || get_not arguments_ref "classification" (JStr "internal")
  then Ok None
  else Ok (Some (MkChainState (cs_previous state) (cs_current_status state)
    (cs_subject_invocations state) (cs_subject_responses state) (cs_offered_capabilities state)
    (<[call_id := capability]> (cs_tool_calls state)) (cs_tool_terminals state))).

Definition tool_terminal_valid (event_type : string) (payload : json) (state : ChainState)
    : result (option ChainState) :=
  call_id ← item_text payload "call_id";
  match cs_tool_calls state !! call_id with
  | None => Ok None
  | Some called =>
      if negb (subject_open state) || bool_decide (call_id ∈ cs_tool_terminals state) then Ok None
      else
        differs ← (if event_type ∈b ["tool.completed"; "tool.failed"]
                   then (λ c, canonical_json c !=b called) <$> jitem "capability_ref" payload
                   else Ok false);
        if differs || (event_type ==b "tool.completed")
                      && negb (is_dict (jget "result_ref" payload))
        then Ok None
        else Ok (Some (MkChainState (cs_previous state) (cs_current_status state)
          (cs_subject_invocations state) (cs_subject_responses state)
          (cs_offered_capabilities state) (cs_tool_calls state)
          ({[call_id]} ∪ cs_tool_terminals state)))
  end.

(** The families are disjoint, so the conditionals of the source never chain. *)
Definition family_valid (event_type : string) (payload : json) (state : ChainState)
    : result (option ChainState) :=
  if event_type ==b "subject.invoked" then
    if negb (cs_subject_invocations state =? cs_subject_responses state)%nat then Ok None
    else Ok (Some (MkChainState (cs_previous state) (cs_current_status state)
      (S (cs_subject_invocations state)) (cs_subject_responses state)
      (cs_offered_capabilities state) (cs_tool_calls state) (cs_tool_terminals state)))
  else if event_type ==b "subject.responded" then
    if negb (subject_open state) then Ok None
    else Ok (Some (MkChainState (cs_previous state) (cs_current_status state)
      (cs_subject_invocations state) (S (cs_subject_responses state))
      (cs_offered_capabilities state) (cs_tool_calls state) (cs_tool_terminals state)))
  else if event_type ==b "capability.offered" then
    ref ← jitem "capability_ref" payload;
    Ok (Some (MkChainState (cs_previous state) (cs_current_status state)
      (cs_subject_invocations state) (cs_subject_responses state)
      ({[canonical_json ref]} ∪ cs_offered_capabilities state) (cs_tool_calls state)
      (cs_tool_terminals state)))
  else if event_type ==b "tool.called" then tool_call_valid payload state
  else if event_type ∈b TOOL_TERMINAL_TYPES then tool_terminal_valid event_type payload state
  else Ok (Some state).

Definition subject_and_tool_valid (event_type : string) (payload : json) (state : ChainState)
    : result (option ChainState) :=
  next ← family_valid event_type payload state;
  Ok (match next with
      | Some state =>
          if (event_type ∈b ["run.evaluating"; "run.completed"])
             && (cs_subject_responses state =? 0)%nat then None else Some state
      | None => None
      end).

Definition transition_valid (payload : json) (event_type : string) (state : ChainState)
    : result (option ChainState) :=
  match assoc event_type TRANSITIONS with
  | None => Ok (Some state)
  | Some (allowed_from, target) =>
      bad ← Ok (negb (cs_current_status state ∈b allowed_from))
        or not_in_optional (jget "from_status" payload) (RunStatus_value (cs_current_status state))
        or not_in_optional (jget "status" payload) (RunStatus_value target);
      Ok (if bad : bool then None
          else Some (MkChainState (cs_previous state) target (cs_subject_invocations state)
            (cs_subject_responses state) (cs_offered_capabilities state) (cs_tool_calls state)
            (cs_tool_terminals state)))
  end.

Definition link (stored_hash : json) (state : ChainState) : ChainState :=
  MkChainState stored_hash (cs_current_status state) (cs_subject_invocations state)
    (cs_subject_responses state) (cs_offered_capabilities state) (cs_tool_calls state)
    (cs_tool_terminals state).

(** One iteration: [None] where the source returns False. *)
Definition replay_event (run_id : string) (sequence : Z) (document : json) (state : ChainState)
    : result (option ChainState) :=
  match document with
  | JObj m =>
      stored_hash ← require (obj_get "event_hash" m) (KeyError "event_hash");
      let event := JObj (List.filter (λ kv, kv.1 !=b "event_hash") m) in
      let event_type := document_type event in
      let payload := default JNull (jget "payload" event) in
      envelope ← envelope_valid event run_id sequence stored_hash state;
      if negb envelope then Ok None else
      normal ← payload_normal event_type payload;
      if negb normal || negb (ordering_valid event_type sequence state) then Ok None else
      next ← subject_and_tool_valid event_type payload state;
      match next with
      | None => Ok None
      | Some state =>
          next ← transition_valid payload event_type state;
          Ok (option_map (link stored_hash) next)
      end
  | _ => Raise (TypeError "event is not a mapping")
  end.

Fixpoint replay (run_id : string) (sequence : Z) (events : list json) (state : ChainState)
    : result (option ChainState) :=
  match events with
  | [] => Ok (Some state)
  | event :: rest =>
      next ← replay_event run_id sequence event state;
      match next with
      | None => Ok None
      | Some state => replay run_id (sequence + 1) rest state
      end
  end.

Definition chain_valid (events : list json) (run_id : string) : result bool :=
  final ← replay run_id 1 events initial_chain;
  Ok (match final with
      | None => false
      | Some state => bool_decide (dom (cs_tool_calls state) = cs_tool_terminals state)
      end).
End replay.
