(* ===== verification/ReadModel.v ===== *)
(** * The read model
    (src/src/evidrun/infrastructure/database/read_model/queries.py and projections.py).

    Read-only sessions: each checks the stored digest before it hands a document back.
    [DB] holds the tables of Runs and records, [CatalogDB] those of scopes, contracts and
    trust. The envelope column holds a document, read back by [EnvelopeModel]
    ([SubjectEnvelope.model_validate]); the columns that hold a model are compared by
    digest. The legacy experiment table is the function [experiment_project]; comparisons
    and the dashboard, which lists every table, are left out. *)

From S2P Require Import Prelude PyText PyJson Base Authoring Runtime Events Trust Registry ContractStore Store Catalog EvalStore Verify.

(** [SubjectEnvelope.model_validate(document)]. *)
Class EnvelopeModel := read_subject_envelope : json → result SubjectEnvelope.

(** [get_experiment(revision_id).project_id]. *)
Class LegacyExperiments := experiment_project : string → option string.

Section queries.
Context `{PyRuntime} `{RevisionModels} `{EnvelopeModel} `{LegacyExperiments}.

(** ** Runs and their contracts *)

Definition get_run (id : string) (d : DB) : result RunRow := require (db_runs d !! id) (KeyError id).

Definition get_run_spec (id : string) (d : DB) : result RunSpec :=
  row ← require (db_run_specs d !! id) (KeyError id);
  raise_when (spec_digest (rsp_spec row) !=b rsp_digest row)
    (ValueError ("stored RunSpec digest mismatch: " +:+ id));;
  Ok (rsp_spec row).

Definition get_admission_record (id : string) (d : DB) : result AdmissionRecord :=
  row ← require (db_admissions d !! id) (KeyError id);
  raise_when (admission_digest (arow_record row) !=b arow_digest row)
    (ValueError ("stored admission digest mismatch: " +:+ id));;
  Ok (arow_record row).

Definition get_run_contracts (id : string) (d : DB) : result (option (RunSpec * AdmissionRecord)) :=
  row ← get_run id d;
  match run_run_spec_id row, run_admission_id row with
  | Some spec_id, Some admission_id =>
      spec ← get_run_spec spec_id d;
      admission ← get_admission_record admission_id d;
      Ok (Some (spec, admission))
  | _, _ => Ok None
  end.

(** [None] is [status="not_recorded"]. *)
Definition get_run_execution_trust (id : string) (d : DB) (c : CatalogDB)
    : result (option (string * string * TrustKind)) :=
  row ← get_run id d;
  match run_execution_trust_id row, run_execution_trust_digest row with
  | None, None => Ok None
  | Some trust_id, Some digest =>
      trust ← require (trust_row trust_id c)
        (ValueError "Run references an unknown execution trust record");
      let record := trow_record trust in
      raise_when (trow_digest trust !=b digest || trust_digest record !=b trow_digest trust
          || trust_trust_id record !=b trow_id trust || trust_kind record !=b trow_kind trust)
        (ValueError "Run execution trust digest mismatch");;
      Ok (Some (trow_id trust, trow_digest trust, trust_kind record))
  | _, _ => Raise (ValueError "Run execution trust reference is incomplete")
  end.

(** ** Records *)

Fixpoint verified_records (rows : list EvaluationRecordRow) : result (list EvaluationRecord) :=
  match rows with
  | [] => Ok []
  | row :: rest =>
      raise_when (er_digest (evrow_record row) !=b evrow_record_digest row)
        (ValueError ("stored evaluation digest mismatch: " +:+ evrow_id row));;
      records ← verified_records rest;
      Ok (evrow_record row :: records)
  end.

Definition created_leb (a b : EvaluationRecordRow) : bool := (evrow_created_at a <=? evrow_created_at b)%Z.

(** [where(run_id == id).order_by(created_at)]. *)
Definition get_evaluation_records (id : string) (d : DB) : result (list EvaluationRecord) :=
  verified_records (sort_by created_leb (List.filter (λ r, evrow_run_id r ==b id) (all_evaluations d))).

Definition get_grade (id : string) (d : DB) : result GradeRow :=
  require (find_first (λ g, grd_run_id g ==b id) (all_grades d)) (KeyError id).

Definition get_subject_envelope (id : string) (d : DB) : result SubjectEnvelope :=
  row ← require (db_envelopes d !! id) (KeyError id);
  envelope ← read_subject_envelope (erow_envelope_json row);
  raise_when (envelope_digest envelope !=b erow_digest row)
    (ValueError "stored SubjectEnvelope digest mismatch");;
  Ok envelope.

(** ** Contract revisions *)

Definition get_contract_revision (id : string) (c : CatalogDB) : result AuthoringRevision :=
  row ← require (find_first (λ r, crow_id r ==b id) (cdb_revisions (cat_contracts c))) (KeyError id);
  revision ← parse_revision (crow_document row);
  raise_when (revision_digest revision !=b crow_digest row)
    (ValueError ("stored contract digest mismatch: " +:+ id));;
  Ok revision.

Definition get_contract_revision_by_ref (reference : ContractRef) (c : CatalogDB)
    : result AuthoringRevision :=
  row ← require (find_first (λ r, (crow_contract_type r ==b cr_contract_type reference)
                                  && (crow_logical_id r ==b cr_logical_id reference)
                                  && (crow_revision r ==b cr_revision reference))
                   (cdb_revisions (cat_contracts c)))
    (KeyError (cr_logical_id reference));
  revision ← parse_revision (crow_document row);
  raise_when (revision_digest revision !=b cr_digest reference || crow_digest row !=b cr_digest reference)
    (ValueError "stored contract does not match its reference");;
  Ok revision.

Definition project_id_for_run_spec (spec : RunSpec) (c : CatalogDB) : result string :=
  revision_project_id <$> get_contract_revision_by_ref (spec_study_ref spec) c.

Definition project_id_for_run (id : string) (d : DB) (c : CatalogDB) : result string :=
  run ← get_run id d;
  match run_run_spec_id run with
  | None =>
      experiment ← require (run_experiment_revision_id run)
        (ValueError "Run has no project-bearing contract");
      require (experiment_project experiment) (KeyError experiment)
  | Some spec_id => spec ← get_run_spec spec_id d; project_id_for_run_spec spec c
  end.
End queries.
