(* ===== verification/Preparation.v ===== *)
(** * Preparing a Study for execution (src/src/evidrun/runs/preparation.py)

    One operation from a registered Study to its execution package: seal the revisions the
    Study names, compile the matrix against the sealed set, store every RunSpec with the
    trust record that binds it, and store the review target that covers them all. Every
    store call is a transaction of its own, so a refusal leaves what was stored before it;
    the calls are performed without other writers in between. The identifiers and instants
    the calls draw are an argument, one [Stamp] per cell of the matrix. *)

From S2P Require Import Prelude PyText PyJson Base Authoring Runtime Triage Trust Samples Registry Compiler Sealing.
From S2P Require Import ContractStore ContractInv Store Catalog CatalogInv Provenance ReadModel.

(** ** Operations on the catalog *)

Definition CatalogOp (A : Type) : Type := CatalogDB → CatalogDB * result A.

#[export] Instance catalog_ret : MRet CatalogOp := λ A a s, (s, Ok a).
#[export] Instance catalog_bind : MBind CatalogOp := λ A B f m s,
  let '(s', r) := m s in match r with Ok a => f a s' | Raise e => (s', Raise e) end.

(** A read-only session, a transaction, and a step without the database. *)
Definition session {A} (f : CatalogDB → result A) : CatalogOp A := λ s, (s, f s).
Definition commits {A} (f : CatalogDB → result (A * CatalogDB)) : CatalogOp A := λ s,
  match f s with Ok (a, s') => (s', Ok a) | Raise e => (s, Raise e) end.
Definition yields {A} (r : result A) : CatalogOp A := λ s, (s, r).

(** ** The documents *)

Record PreparedRunSpec := MkPreparedRunSpec {
  pr_row_id : string;
  pr_spec : RunSpec;
  pr_execution_trust : ExecutionTrustRecord
}.

Record ExecutionPreparation := MkExecutionPreparation {
  ep_revision_set : ExecutionRevisionSet;
  ep_review_target : ReviewTarget;
  ep_run_specs : list PreparedRunSpec
}.

(** What the calls of one cell draw: [new_id] and [utc_now] of the RunSpec row and of the
    trust record. *)
Record Stamp := MkStamp {
  sp_spec_id : string;
  sp_spec_now : instant;
  sp_trust_id : string;
  sp_trust_now : instant
}.

(** [{**semantic_model_dump(model), "digest": digest}]. *)
Definition with_digest (document : json) (digest : string) : json :=
  match document with JObj fields => JObj (fields ++ [("digest", JStr digest)]) | _ => document end.

Definition prepared_document `{PyRuntime} (item : PreparedRunSpec) : json :=
  let spec := pr_spec item in let trust := pr_execution_trust item in
  JObj [("id", JStr (pr_row_id item)); ("digest", JStr (spec_digest spec));
        ("variant_id", JStr (spec_variant_id spec));
        ("scenario_id", JStr (cr_logical_id (spec_scenario_ref spec)));
        ("repetition_index", JInt (spec_repetition_index spec));
        ("execution_trust", JObj [("trust_id", JStr (trust_trust_id trust));
           ("digest", JStr (trust_digest trust)); ("kind", JStr (TrustKind_value (trust_kind trust)))])].

Definition preparation_document `{PyRuntime} (p : ExecutionPreparation) : json := JObj [
  ("revision_set", with_digest (semantic_model_dump (to_RevisionSet (ep_revision_set p)))
     (revision_set_digest (ep_revision_set p)));
  ("review_target", with_digest (semantic_model_dump (to_ReviewTarget (ep_review_target p)))
     (review_target_digest (ep_review_target p)));
  ("run_specs", jlist prepared_document (ep_run_specs p))].

Section preparation.
Context `{PyRuntime} `{RevisionModels}.
Variable verify : HumanAttestationRecord → string → result unit.

(** [RegisteredRevisionResolver.resolve]: [TriageRejected] is a [ValueError]. *)
Definition registered_resolver (s : CatalogDB) : ContractResolver := λ reference,
  match get_contract_revision_by_ref reference s with
  | Raise (KeyError _) => Raise (rejected COMPILE_REVISION_NOT_FOUND)
  | Raise (ValueError _) | Raise (ValidationError _) | Raise (TriageRejected _) =>
      Raise (rejected COMPILE_DIGEST_MISMATCH)
  | r => r
  end.

Definition prepared_revision (study_revision_id : string) (s : CatalogDB) : result AuthoringRevision :=
  match get_contract_revision study_revision_id s with
  | Raise (KeyError _) => Raise (rejected COMPILE_REVISION_NOT_FOUND)
  | r => r
  end.

(** The kind of the trust and the decisions it binds. *)
Definition trust_basis (decisions : option (list RevisionDecisionRecord))
    : TrustKind * list VerifiedDecisionBinding :=
  match decisions with
  | Some decisions =>
      (VerifiedRevisionSet,
       map (λ decision, MkBinding (dec_revision_ref decision) (decision_digest decision)) decisions)
  | None => (UnverifiedRevisionSet, [])
  end.

Section study.
Variables (study : Revision StudySpec) (revision_set : ExecutionRevisionSet).
Variable basis : TrustKind * list VerifiedDecisionBinding.

Definition candidate (spec : RunSpec) (stamp : Stamp) : ExecutionTrustRecord :=
  MkTrustRecord (sp_trust_id stamp) (fst basis) (rev_project_id study) (rev_ref study)
    (rset_revision_refs revision_set) (revision_set_digest revision_set) (spec_digest spec)
    (snd basis) (sp_trust_now stamp).

(** The body of the loop over the compiled RunSpecs. *)
Definition prepare_cell (stamp : Stamp) (spec : RunSpec) : CatalogOp PreparedRunSpec :=
  row ← commits (save_run_spec spec (sp_spec_id stamp) (sp_spec_now stamp));
  let record := candidate spec stamp in
  yields (validate_revision_set_and_binding_coverage record);;
  trust_row ← commits (save_record verify record);
  trust ← session (get_record verify (trow_id trust_row));
  mret (MkPreparedRunSpec (rsp_id row) spec trust).

Fixpoint prepare_cells (stamps : nat → Stamp) (n : nat) (specs : list RunSpec)
    : CatalogOp (list PreparedRunSpec) :=
  match specs with
  | [] => mret []
  | spec :: rest =>
      item ← prepare_cell (stamps n) spec;
      items ← prepare_cells stamps (S n) rest;
      mret (item :: items)
  end.

Definition prepared_target (specs : list RunSpec) : ReviewTarget :=
  MkReviewTarget (rev_project_id study) (revision_set_digest revision_set)
    (sorted_strings (map spec_digest specs)).
End study.

Definition prepare (study_revision_id : string) (stamps : nat → Stamp) (target_now : instant)
    : CatalogOp ExecutionPreparation :=
  revision ← session (prepared_revision study_revision_id);
  study ← yields (require (as_study revision) (rejected COMPILE_REVISION_NOT_STUDY));
  sealed ← session (λ s, seal (R := registered_resolver s) study);
  specs ← yields (compile (H0 := sealed_resolver (sealed_map sealed)) [] study);
  decisions ← session (verified_decisions_for verify (rset_revision_refs (sealed_set sealed)));
  items ← prepare_cells study (sealed_set sealed) (trust_basis decisions) stamps 0 specs;
  let target := prepared_target study (sealed_set sealed) specs in
  yields (validate_run_specs target);;
  commits (save_review_target verify target target_now);;
  mret (MkExecutionPreparation (sealed_set sealed) target items).
End preparation.

(** ** Lemmas *)

Lemma catalog_bind_ok {A B} (m : CatalogOp A) (f : A → CatalogOp B) s s' b :
  (m ≫= f) s = (s', Ok b) ↔ ∃ a s1, m s = (s1, Ok a) ∧ f a s1 = (s', Ok b).
Proof.
  unfold mbind, catalog_bind. destruct (m s) as [s1 [a|e]]; (split; [|intros (x & s2 & E & Hf)]);
    [by exists a, s1|by injection E as -> ->|done|done].
Qed.

Lemma session_ok {A} (f : CatalogDB → result A) s s' a : session f s = (s', Ok a) ↔ s' = s ∧ f s = Ok a.
Proof. unfold session. split; [by intros [= <- ->]|by intros [-> ->]]. Qed.

Lemma commits_ok {A} (f : CatalogDB → result (A * CatalogDB)) s s' a :
  commits f s = (s', Ok a) ↔ f s = Ok (a, s').
Proof.
  unfold commits. destruct (f s) as [[b s1]|e]; [|done]. by split; intros [= <- <-].
Qed.

Lemma yields_ok {A} (r : result A) s s' a : yields r s = (s', Ok a) ↔ s' = s ∧ r = Ok a.
Proof. unfold yields. split; [by intros [= <- ->]|by intros [-> ->]]. Qed.

Lemma catalog_ret_ok {A} (a b : A) s s' : (mret a : CatalogOp A) s = (s', Ok b) ↔ s' = s ∧ b = a.
Proof. unfold mret, catalog_ret. split; [by intros [= <- ->]|by intros [-> ->]]. Qed.

Ltac inv_op_step :=
  match goal with
  | E : (_ ≫= _) _ = (_, Ok _) |- _ => apply catalog_bind_ok in E as (? & ? & ? & E)
  | E : session _ _ = (_, Ok _) |- _ => apply session_ok in E as [? E]; try subst
  | E : commits _ _ = (_, Ok _) |- _ => apply commits_ok in E
  | E : yields _ _ = (_, Ok _) |- _ => apply yields_ok in E as [? E]; try subst
  | E : mret _ _ = (_, Ok _) |- _ => apply catalog_ret_ok in E as [? E]; try subst
  end.
Ltac inv_op := repeat inv_op_step.

Section lemmas.
Context `{PyRuntime} `{RevisionModels} `{UnicodeTables}.
Variable verify : HumanAttestationRecord → string → result unit.

(** What the queries read: the contract tables alone. *)
Definition same_contracts (s s' : CatalogDB) : Prop := cat_contracts s' = cat_contracts s.

Lemma registered_resolver_same s s' :
  same_contracts s s' → registered_resolver s' = registered_resolver s.
Proof. intros E. unfold registered_resolver, get_contract_revision_by_ref. by rewrite E. Qed.

Lemma prepared_revision_same id s s' :
  same_contracts s s' → prepared_revision id s' = prepared_revision id s.
Proof. intros E. unfold prepared_revision, get_contract_revision. by rewrite E. Qed.

Lemma verified_decisions_same refs s s' :
  same_contracts s s' → verified_decisions_for verify refs s' = verified_decisions_for verify refs s.
Proof.
  intros E. induction refs as [|r refs IH]; [done|]. cbn. rewrite IH.
  unfold verified_decision_for. by rewrite E.
Qed.

(** The document whose digest identifies a trust record: neither its identifier nor its
    instant. *)
Definition identity_document (t : ExecutionTrustRecord) : json := JObj (
  [("schema_version", JStr "1"); ("kind", JStr (TrustKind_value (trust_kind t)));
   ("project_id", JStr (trust_project_id t));
   ("study_ref", normalize (to_ContractRef (trust_study_ref t)))]
  ++ (if trust_revision_refs t ==b [] then []
      else [("revision_refs", normalize (jlist to_ContractRef (trust_revision_refs t)))])
  ++ [("revision_set_digest", JStr (trust_revision_set_digest t));
      ("run_spec_digest", JStr (trust_run_spec_digest t))]
  ++ (if trust_verified_decisions t ==b [] then []
      else [("verified_decisions", normalize (jlist to_Binding (trust_verified_decisions t)))])).

Lemma semantic_identity t : semantic_identity_digest t = sha256_json (identity_document t).
Proof.
  unfold semantic_identity_digest. f_equal. destruct t as [id k p r refs d rd ds now].
  unfold identity_document; cbn [trust_revision_refs trust_verified_decisions].
  destruct refs, ds; reflexivity.
Qed.

(** Equal up to key order, two objects have the same text fields. *)
Lemma sorted_text_field m n k x :
  sort_keys (JObj m) = sort_keys (JObj n) → (k, JStr x) ∈ m → (k, JStr x) ∈ n.
Proof.
  rewrite !sort_keys_obj. intros [= E] Hm.
  assert (Hn : sort_item (k, JStr x) ∈ map sort_item n).
  { apply (elem_of_sort_by key_leb). rewrite <- E. apply (elem_of_sort_by key_leb).
    apply list_elem_of_fmap. by exists (k, JStr x). }
  apply list_elem_of_fmap in Hn as ([k' v] & Hs & Hn). injection Hs as <- Hv.
  destruct v; try discriminate Hv. cbn in Hv. congruence.
Qed.

Lemma identity_field t k x :
  (k, JStr x) ∈ (match identity_document t with JObj m => m | _ => [] end) →
  (k = "kind" → x = TrustKind_value (trust_kind t)) ∧ (k = "project_id" → x = trust_project_id t)
  ∧ (k = "revision_set_digest" → x = trust_revision_set_digest t)
  ∧ (k = "run_spec_digest" → x = trust_run_spec_digest t).
Proof.
  unfold identity_document. case_bool_decide; case_bool_decide; cbn; intros Hin;
    repeat (apply elem_of_cons in Hin as [Hin|Hin]; [first [discriminate Hin|injection Hin as -> ->; by split_and!]|]);
    by apply elem_of_nil in Hin.
Qed.

(** Two records of one identity bind the same RunSpec under the same revision set. *)
Lemma identity_binds `{!PyRuntimeLaws} a b :
  semantic_identity_digest a = semantic_identity_digest b →
  (trust_kind a = trust_kind b ∧ trust_project_id a = trust_project_id b
   ∧ trust_revision_set_digest a = trust_revision_set_digest b
   ∧ trust_run_spec_digest a = trust_run_spec_digest b) ∨ sha256_collision.
Proof.
  rewrite !semantic_identity. intros [E|?]%sha256_json_sort; [left|by right].
  pose proof (λ k x, sorted_text_field _ _ k x E) as Hf.
  assert (Hk : TrustKind_value (trust_kind a) = TrustKind_value (trust_kind b)).
  { eapply identity_field; [|reflexivity]. apply Hf. do 1 right. left. }
  split_and!.
  - by destruct (trust_kind a), (trust_kind b).
  - eapply identity_field; [|reflexivity]. apply Hf. do 2 right. left.
  - eapply identity_field; [|reflexivity]. apply Hf. do 4 right. apply elem_of_app. right. left.
  - eapply identity_field; [|reflexivity]. apply Hf. do 4 right. apply elem_of_app. do 2 right. left.
Qed.

(** ** One cell *)

Section cells.
Variables (study : Revision StudySpec) (revision_set : ExecutionRevisionSet).
Variable basis : TrustKind * list VerifiedDecisionBinding.
#[local] Abbreviation candidate_of := (candidate study revision_set basis).

(** The first stored record of the candidate's identity. *)
Definition bound_record (spec : RunSpec) (stamp : Stamp) (s : CatalogDB) : option ExecutionTrustRecordRow :=
  find_first (λ r, trow_semantic_digest r ==b semantic_identity_digest (candidate_of spec stamp)) (cat_trust s).

(** The identity and the validity of a candidate do not depend on what was drawn. *)
Lemma candidate_identity spec stamp stamp' :
  semantic_identity_digest (candidate_of spec stamp) = semantic_identity_digest (candidate_of spec stamp').
Proof.
  by rewrite !semantic_identity.
Qed.

(** What a prepared cell leaves in the catalog. *)
Record settled (s : CatalogDB) (item : PreparedRunSpec) : Prop := {
  st_valid : ∀ stamp, validate_revision_set_and_binding_coverage (candidate_of (pr_spec item) stamp) = Ok tt;
  st_spec : ∃ row, spec_row (spec_digest (pr_spec item)) s = Some row ∧ rsp_id row = pr_row_id item;
  st_trust : ∀ stamp, ∃ row, bound_record (pr_spec item) stamp s = Some row
    ∧ trow_record row = pr_execution_trust item
}.

Lemma settled_mono s s' item : grows s s' → settled s item → settled s' item.
Proof.
  intros Hg [Hv (row & Hr & Hid) Ht]. split; [done| |].
  - exists row. split; [|done]. by eapply find_first_prefix; [apply gr_specs|].
  - intros stamp. destruct (Ht stamp) as (row' & Hr' & ?). exists row'. split; [|done].
    by eapply find_first_prefix; [apply gr_trust|].
Qed.

Lemma prepare_cell_again stamp s item :
  catalog_inv verify s → settled s item →
  prepare_cell verify study revision_set basis stamp (pr_spec item) s = (s, Ok item).
Proof.
  intros Hi [Hv (row & Hr & Hid) Ht]. destruct (Ht stamp) as (trow & Hb & Hrec).
  pose proof (find_first_Some _ _ _ Hb) as [Hin _].
  destruct (stored_record_valid verify s trow Hi Hin) as (E1 & E2 & E3).
  unfold prepare_cell. apply catalog_bind_ok. exists row, s. split.
  { apply commits_ok. unfold save_run_spec. by rewrite Hr. }
  apply catalog_bind_ok. exists tt, s. split; [apply yields_ok; split; [done|apply Hv]|].
  apply catalog_bind_ok. exists trow, s. split.
  { apply commits_ok. unfold save_record. unfold bound_record in Hb. rewrite Hb, E1.
    cbn [mbind result_bind]. rewrite E2. cbn [mbind result_bind]. by rewrite E3. }
  apply catalog_bind_ok. exists (trow_record trow), s. split.
  { apply session_ok. split; [done|]. by apply stored_record_read. }
  apply catalog_ret_ok. split; [done|]. rewrite Hrec, Hid. by destruct item.
Qed.

Lemma save_run_spec_found spec id now s row s' :
  save_run_spec spec id now s = Ok (row, s') →
  spec_row (spec_digest spec) s' = Some row ∧ same_contracts s s'.
Proof.
  unfold save_run_spec. destruct (spec_row _ s) eqn:E; intros Hs; inv_ok; [done|].
  split; [|done]. unfold spec_row in *. cbn. rewrite find_first_app, E. cbn.
  by rewrite bool_decide_eq_true_2.
Qed.

Lemma save_record_found spec stamp s row s' :
  save_record verify (candidate_of spec stamp) s = Ok (row, s') →
  bound_record spec stamp s' = Some row ∧ same_contracts s s'.
Proof.
  unfold save_record, bound_record. destruct (find_first _ (cat_trust s)) eqn:E; intros Hs; inv_ok; [done|].
  split; [|done]. cbn [cat_trust]. rewrite find_first_app, E. cbn. by rewrite bool_decide_eq_true_2.
Qed.

Lemma prepare_cell_ok stamp spec s s' item :
  catalog_inv verify s → prepare_cell verify study revision_set basis stamp spec s = (s', Ok item) →
  rtc (catalog_step verify) s s' ∧ same_contracts s s' ∧ pr_spec item = spec ∧ settled s' item.
Proof.
  intros Hi Hc. unfold prepare_cell in Hc. inv_op.
  match goal with E : save_run_spec _ _ _ _ = Ok (?r, ?t) |- _ => rename r into row, t into s1, E into Hrow end.
  match goal with E : save_record _ _ _ = Ok (?r, ?t) |- _ => rename r into trow, t into s2, E into Htrow end.
  match goal with E : validate_revision_set_and_binding_coverage _ = Ok ?u |- _ => destruct u; rename E into Hv end.
  match goal with E : get_record _ _ _ = Ok _ |- _ => rename E into Hget end.
  assert (Ha : catalog_step verify s s1).
  { exists (SaveRunSpec spec (sp_spec_id stamp) (sp_spec_now stamp)). split; [done|]. cbn. by rewrite Hrow. }
  assert (Hb : catalog_step verify s1 s2).
  { exists (SaveTrust (candidate_of spec stamp)). split; [done|]. cbn. by rewrite Htrow. }
  pose proof (catalog_inv_step verify _ _ (catalog_inv_step verify _ _ Hi Ha) Hb) as Hi2.
  apply save_run_spec_found in Hrow as [Hrow Ec1]. apply save_record_found in Htrow as [Htrow Ec2].
  pose proof (find_first_Some _ _ _ Htrow) as [Hin _].
  rewrite (stored_record_read verify s2 trow Hi2 Hin) in Hget. injection Hget as <-.
  split_and!; [by eapply rtc_l, rtc_once| |done|].
  - unfold same_contracts in *. congruence.
  - split; cbn; [done| |].
    + exists row. split; [|done].
      eapply find_first_prefix; [|exact Hrow]. by apply gr_specs, (catalog_step_grows verify).
    + intros stamp'. exists trow. split; [|done]. rewrite <- Htrow. unfold bound_record.
      by rewrite (candidate_identity spec stamp' stamp).
Qed.

Lemma prepare_cells_ok stamps n specs s s' items :
  catalog_inv verify s → prepare_cells verify study revision_set basis stamps n specs s = (s', Ok items) →
  rtc (catalog_step verify) s s' ∧ same_contracts s s' ∧ map pr_spec items = specs ∧ Forall (settled s') items.
Proof.
  revert n s items. induction specs as [|spec specs IH]; intros n s items Hi Hc; cbn in Hc; inv_op.
  { split_and!; [constructor|done|done|constructor]. }
  match goal with E : prepare_cell _ _ _ _ _ _ s = (?t, Ok ?i) |- _ =>
    rename t into s1, i into item; apply prepare_cell_ok in E as (Hs1 & Ec1 & Hspec & Hset); [|done] end.
  match goal with E : prepare_cells _ _ _ _ _ _ _ s1 = (_, Ok ?l) |- _ =>
    apply IH in E as (Hs2 & Ec2 & <- & Hall); [|by eapply catalog_inv_steps] end.
  split_and!; [by etrans|unfold same_contracts in *; congruence|cbn; by rewrite Hspec|].
  constructor; [|done]. eapply settled_mono; [|exact Hset]. by apply (catalog_steps_grow verify).
Qed.

Lemma prepare_cells_again stamps n s items :
  catalog_inv verify s → Forall (settled s) items →
  prepare_cells verify study revision_set basis stamps n (map pr_spec items) s = (s, Ok items).
Proof.
  intros Hi Hall. revert n. induction Hall as [|item items Hitem Hall IH]; intros n; [done|]. cbn.
  apply catalog_bind_ok. exists item, s. split; [by apply prepare_cell_again|].
  apply catalog_bind_ok. exists items, s. by rewrite IH.
Qed.
End cells.

(** ** The whole operation *)

Lemma prepared_revision_ok id s r : prepared_revision id s = Ok r → get_contract_revision id s = Ok r.
Proof. unfold prepared_revision. by destruct (get_contract_revision id s) as [|[]]. Qed.

Lemma as_study_some r study : as_study r = Some study → r = StudyRevision study.
Proof. destruct r; cbn; congruence. Qed.

Lemma save_review_target_found target now s row s' :
  save_review_target verify target now s = Ok (row, s') →
  target_row (review_target_digest target) s' = Some row ∧ validate_target_row row = Ok (tgt_target row)
  ∧ catalog_step verify s s' ∧ same_contracts s s'.
Proof.
  intros Hs. assert (Hstep : catalog_step verify s s').
  { exists (SaveTarget target now). split; [done|]. cbn. by rewrite Hs. }
  unfold save_review_target in Hs. destruct (target_row _ s) eqn:E; inv_ok.
  - split_and!; [done| |done|done]. unfold validate_target_row in *. inv_ok. bools.
    match goal with D : review_target_digest _ = _ |- _ => by rewrite D, bool_decide_eq_true_2 end.
  - split_and!; [| |done|done].
    + unfold target_row in *. cbn. rewrite find_first_app, E. cbn. by rewrite bool_decide_eq_true_2.
    + unfold validate_target_row. cbn. by rewrite bool_decide_eq_true_2.
Qed.

(** What a successful preparation read and what it leaves. *)
Record prepared (id : string) (s s1 : CatalogDB) (p : ExecutionPreparation) (study : Revision StudySpec)
    (sealed : SealedStudy) (decisions : option (list RevisionDecisionRecord)) : Prop := {
  pd_study : prepared_revision id s = Ok (StudyRevision study);
  pd_sealed : seal (R := registered_resolver s) study = Ok sealed;
  pd_specs : compile (H0 := sealed_resolver (sealed_map sealed)) [] study = Ok (map pr_spec (ep_run_specs p));
  pd_decisions : verified_decisions_for verify (rset_revision_refs (sealed_set sealed)) s = Ok decisions;
  pd_steps : rtc (catalog_step verify) s s1;
  pd_contracts : same_contracts s s1;
  pd_set : ep_revision_set p = sealed_set sealed;
  pd_cells : Forall (settled study (sealed_set sealed) (trust_basis decisions) s1) (ep_run_specs p);
  pd_target : ep_review_target p = prepared_target study (sealed_set sealed) (map pr_spec (ep_run_specs p));
  pd_target_valid : validate_run_specs (ep_review_target p) = Ok tt;
  pd_target_row : ∃ row, target_row (review_target_digest (ep_review_target p)) s1 = Some row
    ∧ validate_target_row row = Ok (tgt_target row)
}.

Lemma prepare_ok id stamps now s s1 p :
  catalog_inv verify s → prepare verify id stamps now s = (s1, Ok p) →
  ∃ study sealed decisions, prepared id s s1 p study sealed decisions.
Proof.
  intros Hi Hp. unfold prepare in Hp. inv_op.
  match goal with E : require (as_study ?r) _ = Ok ?x |- _ => rename x into study;
    apply require_ok, as_study_some in E as -> end.
  match goal with E : seal _ = Ok ?x |- _ => rename x into sealed end.
  match goal with E : verified_decisions_for _ _ _ = Ok ?x |- _ => rename x into decisions end.
  match goal with E : prepare_cells _ _ _ _ _ _ _ _ = (?t, Ok ?x) |- _ => rename t into s2, x into items;
    apply prepare_cells_ok in E as (Hs2 & Ec & <- & Hall); [|done] end.
  match goal with E : save_review_target _ _ _ _ = Ok (?x, _) |- _ => rename x into row;
    apply save_review_target_found in E as (Hrow & Hval & Hstep & Ec') end.
  match goal with E : validate_run_specs _ = Ok ?u |- _ => destruct u end.
  exists study, sealed, decisions. split; cbn; try done.
  - eapply rtc_r; [exact Hs2|done].
  - unfold same_contracts in *. congruence.
  - eapply Forall_impl; [exact Hall|]. intros item. apply settled_mono.
    by apply (catalog_step_grows verify).
  - by exists row.
Qed.

Lemma prepare_again id s s1 p study sealed decisions s2 stamps now :
  prepared id s s1 p study sealed decisions → catalog_inv verify s2 → grows s1 s2 →
  same_contracts s1 s2 → prepare verify id stamps now s2 = (s2, Ok p).
Proof.
  intros Hp Hi Hg Ec2. pose proof (pd_contracts _ _ _ _ _ _ _ Hp) as Ec1.
  assert (Ec : same_contracts s s2) by (unfold same_contracts in *; congruence).
  destruct (pd_target_row _ _ _ _ _ _ _ Hp) as (row & Hrow & Hval).
  unfold prepare. apply catalog_bind_ok. exists (StudyRevision study), s2. split.
  { apply session_ok. split; [done|]. rewrite (prepared_revision_same id s s2 Ec). apply Hp. }
  apply catalog_bind_ok. exists study, s2. split; [done|].
  apply catalog_bind_ok. exists sealed, s2. split.
  { apply session_ok. split; [done|]. rewrite (registered_resolver_same s s2 Ec). apply Hp. }
  apply catalog_bind_ok. exists (map pr_spec (ep_run_specs p)), s2. split; [apply yields_ok; split; [done|apply Hp]|].
  apply catalog_bind_ok. exists decisions, s2. split.
  { apply session_ok. split; [done|]. rewrite (verified_decisions_same _ s s2 Ec). apply Hp. }
  apply catalog_bind_ok. exists (ep_run_specs p), s2. split.
  { apply prepare_cells_again; [done|]. eapply Forall_impl; [apply Hp|].
    intros item. by apply settled_mono. }
  rewrite <- (pd_target _ _ _ _ _ _ _ Hp).
  apply catalog_bind_ok. exists tt, s2. split; [apply yields_ok; split; [done|apply Hp]|].
  apply catalog_bind_ok. exists row, s2. split.
  { apply commits_ok. unfold save_review_target.
    assert (Hrow2 : target_row (review_target_digest (ep_review_target p)) s2 = Some row)
      by (eapply find_first_prefix; [apply gr_targets, Hg|exact Hrow]).
    by rewrite Hrow2, Hval. }
  apply catalog_ret_ok. split; [done|]. rewrite <- (pd_set _ _ _ _ _ _ _ Hp). by destruct p.
Qed.

(** What a reader finds for a prepared cell. *)
Lemma settled_item `{!PyRuntimeLaws} study sealed decisions s item :
  catalog_inv verify s → settled study (sealed_set sealed) (trust_basis decisions) s item →
  let trust := pr_execution_trust item in
  (∃ row, row ∈ cat_run_specs s ∧ rsp_id row = pr_row_id item ∧ rsp_digest row = spec_digest (pr_spec item))
  ∧ get_record verify (trust_trust_id trust) s = Ok trust
  ∧ ((trust_run_spec_digest trust = spec_digest (pr_spec item)
      ∧ trust_revision_set_digest trust = revision_set_digest (sealed_set sealed)) ∨ sha256_collision)
  ∧ (trust_kind trust = VerifiedRevisionSet →
       ∀ ref, ref ∈ trust_revision_refs trust → human_accepted verify s ref).
Proof.
  intros Hi [_ (row & Hrow & Hid) Ht]. cbn.
  destruct (Ht (MkStamp "" 0 "" 0)) as (trow & Hb & <-).
  apply find_first_Some in Hb as [Hin Hsem]. bools.
  destruct (ca_trust _ _ Hi _ Hin) as (E1 & _ & E3 & Hcov & _ & Hv). split_and!.
  - apply find_first_Some in Hrow as [Hr Hd]. bools. by exists row.
  - rewrite <- E1. by apply stored_record_read.
  - rewrite E3 in Hsem. apply identity_binds in Hsem as [(_ & _ & ? & ?)|?]; [by left|by right].
  - intros Hk. by apply (verified_covers verify s _ Hk Hcov Hv).
Qed.
End lemmas.

(** ** Theorems *)


(** C16: a successful preparation publishes the whole matrix of the registered Study: its
    RunSpecs are, in order, what compiling the Study against the registered revisions
    yields; each is stored under the row it names with its digest, and its trust record can
    be read back, binds that RunSpec's digest and the sealed set's digest (or a digest
    collision is exhibited) and, when it is verified, every revision it lists was accepted
    by a human whose attestation the verifier accepted; the sealed set holds exactly what
    the Study names, and the stored review target lists exactly the digests of the matrix,
    in canonical order and without repetition. *)
Theorem prepare_publishes_matrix `{PyRuntime} `{!PyRuntimeLaws} `{RevisionModels} `{UnicodeTables} verify
    id stamps now s s1 p :
  rtc (catalog_step verify) empty_catalog s → prepare verify id stamps now s = (s1, Ok p) →
  ∃ study, get_contract_revision id s = Ok (StudyRevision study)
  ∧ compile (H0 := registered_resolver s) [] study = Ok (map pr_spec (ep_run_specs p))
  ∧ (∀ r, r ∈ rset_revision_refs (ep_revision_set p) ↔ named_by study r)
  ∧ (∀ item, item ∈ ep_run_specs p → let trust := pr_execution_trust item in
       (∃ row, row ∈ cat_run_specs s1 ∧ rsp_id row = pr_row_id item
          ∧ rsp_digest row = spec_digest (pr_spec item))
       ∧ get_record verify (trust_trust_id trust) s1 = Ok trust
       ∧ ((trust_run_spec_digest trust = spec_digest (pr_spec item)
           ∧ trust_revision_set_digest trust = revision_set_digest (ep_revision_set p)) ∨ sha256_collision)
       ∧ (trust_kind trust = VerifiedRevisionSet →
            ∀ ref, ref ∈ trust_revision_refs trust → human_accepted verify s1 ref))
  ∧ rt_run_spec_digests (ep_review_target p) = sorted_strings (map spec_digest (map pr_spec (ep_run_specs p)))
  ∧ NoDup (rt_run_spec_digests (ep_review_target p))
  ∧ ∃ target, get_review_target (review_target_digest (ep_review_target p)) s1 = Ok target.
Proof.
  intros Hs Hp. assert (Hi : catalog_inv verify s) by (eapply catalog_inv_steps, Hs; apply catalog_inv_empty).
  apply prepare_ok in Hp as (study & sealed & decisions & Hp); [|done].
  destruct Hp as [Hst Hse Hc Hd Hsteps Hcon Hset Hcells Ht Hvalid (row & Hrow & Hval)].
  pose proof (catalog_inv_steps verify _ _ Hi Hsteps) as Hi1.
  exists study. split_and!.
  - by apply prepared_revision_ok.
  - by rewrite <- Hc, (sealed_compiles _ _ _ Hse).
  - rewrite Hset. intros r. apply seal_inv in Hse as (_ & refs & Hcol & -> & _). cbn.
    destruct (collect_references_ok _ _ Hcol) as [_ He]. unfold sort_refs. by rewrite elem_of_sort_by.
  - intros item Hitem trust. rewrite Forall_forall in Hcells. specialize (Hcells item Hitem). rewrite Hset.
    by apply (settled_item verify study sealed decisions).
  - by rewrite Ht.
  - unfold validate_run_specs in Hvalid. inv_ok. by apply has_duplicates_false.
  - exists (tgt_target row). unfold get_review_target. by rewrite Hrow.
Qed.

(** ** The small Study, prepared twice *)

#[local] Existing Instance literal_models.
#[local] Existing Instance ascii_tables.

Definition demo_stamps (prefix : string) (n : nat) : Stamp :=
  MkStamp (prefix +:+ "-spec-" +:+ pretty n) 5 (prefix +:+ "-trust-" +:+ pretty n) 6.

Definition small_row : string := "row-" +:+ rev_logical_id small_study.

Definition first_preparation : CatalogDB * result ExecutionPreparation := Eval vm_compute in
  prepare no_verifier small_row (demo_stamps "first") 7 sample_catalog.
Definition small_preparation : ExecutionPreparation := Eval vm_compute in
  value_of (MkExecutionPreparation small_set (MkReviewTarget "" "" []) []) (snd first_preparation).

Lemma first_preparation_ok :
  prepare no_verifier small_row (demo_stamps "first") 7 sample_catalog
  = (fst first_preparation, Ok small_preparation).
Proof. vm_compute. reflexivity. Qed.

(** The RunSpec that was stored before keeps its row and its trust record. *)
Example small_rows :
  map (λ item, (pr_row_id item, take_str 13 (trust_trust_id (pr_execution_trust item))))
    (ep_run_specs small_preparation)
  = [("spec", take_str 13 (trust_trust_id first_trust)); ("first-spec-1", "first-trust-1")].
Proof. vm_compute. reflexivity. Qed.

(** Another workspace, opened between the two preparations. *)
Definition later_catalog : CatalogDB := Eval vm_compute in
  value_of empty_catalog (catalog_exec no_verifier (CreateWorkspace "Other" "ws-2" 8) (fst first_preparation)).

Lemma later_catalog_step : rtc (catalog_step no_verifier) (fst first_preparation) later_catalog.
Proof.
  apply rtc_once. exists (CreateWorkspace "Other" "ws-2" 8). split; [done|]. vm_compute. reflexivity.
Qed.


Lemma prepare_publishes_matrix_witness :
  NoDup (rt_run_spec_digests (ep_review_target small_preparation))
  ∧ ∃ target, get_review_target (review_target_digest (ep_review_target small_preparation))
      (fst first_preparation) = Ok target.
Proof.
  destruct (prepare_publishes_matrix no_verifier small_row (demo_stamps "first") 7 sample_catalog
    (fst first_preparation) small_preparation sample_catalog_reachable first_preparation_ok)
    as (study & _ & _ & _ & _ & _ & Hn & Ht).
  exact (conj Hn Ht).
Defined.
