(* ===== verification/EvalInv.v ===== *)
(** * Invariants of the evaluation and checkpoint records

    A stored evaluation record is what the stores promise of it: it was checked against
    the plan its Run was compiled with, its boundary names an event of the Run's ledger (or
    a checkpoint of the Run), its trigger holds there, the events it cites lie within it,
    and a human one carries an attestation the verifier accepted. [records_step] is the
    relation every transaction follows: the invariants are kept, the ledger only grows and
    no stored record changes. *)

From S2P Require Import Prelude PyText PyJson Base Authoring Runtime Events Evaluation Store.
From S2P Require Import Registry Lease Handlers Ledger LedgerInv Queue EvalStore.

Section eval_inv.
Context `{PyRuntime} {HV : HumanVerifier}.

(** ** What a stored record satisfies *)

Definition trigger_met (record : EvaluationRecord) (stage : EvaluationStage) (d : DB) : Prop :=
  match et_kind (st_trigger stage) with
  | ETEvent => ∃ e, boundary_event record d = Some e
      ∧ et_reference (st_trigger stage) = Some (evt_event_type e)
  | ETCheckpoint => ∃ c, boundary_checkpoint record d = Some c
      ∧ (∀ reference, et_reference (st_trigger stage) = Some reference →
           ck_definition_id (ckrow_record c) = reference)
  | ETRunTerminal => ∃ e, boundary_event record d = Some e
      ∧ evt_event_type e ∈ TERMINAL_EVENT_TYPES
  end.

(** The record was checked against the plan of its Run, at a boundary its stage waits for. *)
Definition planned (record : EvaluationRecord) (d : DB) : Prop :=
  ∃ run spec_id row stage, db_runs d !! er_run_id record = Some run
    ∧ run_run_spec_id run = Some spec_id ∧ db_run_specs d !! spec_id = Some row
    ∧ spec_evaluation_plan_ref (rsp_spec row) = er_plan_ref record
    ∧ validate_record (spec_evaluation_plan (rsp_spec row)) record = Ok tt
    ∧ find_stage (spec_evaluation_plan (rsp_spec row)) (er_stage_id record) = Some stage
    ∧ trigger_met record stage d.

(** An event boundary is an event of the ledger of the Run, named by sequence and hash. *)
Definition anchored (id : string) (sequence : option Z) (event_hash : option string) (d : DB)
    : Prop :=
  match sequence, event_hash with
  | Some n, Some h => ∃ e, event_at id n d = Some e ∧ evt_event_hash e = h
  | None, None => True
  | _, _ => False
  end.

(** The events a record cites are events of its Run, up to its boundary. *)
Definition within_boundary (record : EvaluationRecord) (d : DB) : Prop :=
  ∀ ref id, ref ∈ flat_map dv_evidence_refs (er_dimension_values record) →
    split_colon (ev_ref ref) = Some ("event", id) →
    ∃ e, get_event id d = Some e ∧ evt_run_id e = er_run_id record
      ∧ (evt_sequence e <= boundary_ceiling record d)%Z.

Record recorded (d : DB) (k : string) (row : EvaluationRecordRow) : Prop := {
  rc_key : evrow_id row = k;
  rc_row : row = evaluation_row (evrow_record row);
  rc_planned : planned (evrow_record row) d;
  rc_anchored : anchored (evrow_run_id row)
    (eb_up_to_event_sequence (er_boundary (evrow_record row)))
    (eb_event_hash (er_boundary (evrow_record row))) d;
  rc_evidence : within_boundary (evrow_record row) d;
  rc_human : is_human (evrow_source_type row) = true → ∃ att,
    er_human_attestation (evrow_record row) = Some att
    ∧ human_verify att (er_subject_digest (evrow_record row)) = Ok tt
}.

Definition same_slot (a b : EvaluationRecordRow) : Prop :=
  evrow_run_id a = evrow_run_id b ∧ evrow_stage_id a = evrow_stage_id b
  ∧ evrow_source_type a = evrow_source_type b.

Record eval_inv (d : DB) : Prop := {
  ei_rows : ∀ k row, db_evaluations d !! k = Some row → recorded d k row;
  (** One record per Run, stage and source, and one per digest. *)
  ei_slots : ∀ k1 k2 r1 r2, db_evaluations d !! k1 = Some r1 → db_evaluations d !! k2 = Some r2 →
    same_slot r1 r2 ∨ evrow_record_digest r1 = evrow_record_digest r2 → k1 = k2
}.

Record checkpointed (d : DB) (k : string) (row : CheckpointRecordRow) : Prop := {
  cr_key : ckrow_id row = k;
  cr_row : row = checkpoint_row (ckrow_record row);
  cr_anchored : anchored (ckrow_run_id row) (Some (ckrow_up_to_event_sequence row))
    (Some (ck_event_hash (ckrow_record row))) d;
  cr_policy : ∃ run spec_id srow policy definition, db_runs d !! ckrow_run_id row = Some run
    ∧ run_run_spec_id run = Some spec_id ∧ db_run_specs d !! spec_id = Some srow
    ∧ spec_checkpoint_policy (rsp_spec srow) = Some policy
    ∧ spec_checkpoint_policy_ref (rsp_spec srow) = Some (ck_policy_ref (ckrow_record row))
    ∧ definition ∈ ckp_definitions policy ∧ cd_id definition = ckrow_definition_id row
}.

Definition checkpoint_inv (d : DB) : Prop :=
  ∀ k row, db_checkpoints d !! k = Some row → checkpointed d k row.

(** ** Frames *)

(** Contracts are fixed and records are never changed or removed. *)
Record keeps (d d' : DB) : Prop := {
  kp_specs : db_run_specs d' = db_run_specs d;
  kp_admissions : db_admissions d' = db_admissions d;
  kp_evaluations : db_evaluations d ⊆ db_evaluations d';
  kp_checkpoints : db_checkpoints d ⊆ db_checkpoints d';
  kp_grades : db_grades d ⊆ db_grades d'
}.

#[export] Instance keeps_preorder : PreOrder keeps.
Proof.
  split; [by split|]. intros d1 d2 d3 [] []. split; [congruence..|by etrans|by etrans|by etrans].
Qed.

Lemma event_at_evolves id n d d' e :
  ledger_evolves d d' → event_at id n d = Some e → event_at id n d' = Some e.
Proof.
  intros [[l El] _]. unfold event_at, run_events. rewrite El, List.filter_app, find_first_app.
  by intros ->.
Qed.

Lemma get_event_evolves id d d' e :
  ledger_evolves d d' → get_event id d = Some e → get_event id d' = Some e.
Proof. intros [[l El] _]. unfold get_event. rewrite El, find_first_app. by intros ->. Qed.

Lemma boundary_event_evolves r d d' e :
  ledger_evolves d d' → boundary_event r d = Some e → boundary_event r d' = Some e.
Proof.
  intros Hl. unfold boundary_event. destruct (eb_up_to_event_sequence _); cbn; [|done].
  by apply event_at_evolves.
Qed.

Lemma boundary_checkpoint_keeps r d d' c :
  keeps d d' → boundary_checkpoint r d = Some c → boundary_checkpoint r d' = Some c.
Proof.
  intros Hk. unfold boundary_checkpoint. destruct (eb_checkpoint_id _); cbn; [|done].
  intros Hc. exact (lookup_weaken _ _ _ _ Hc (kp_checkpoints _ _ Hk)).
Qed.

Lemma trigger_met_evolves r stage d d' :
  ledger_evolves d d' → keeps d d' → trigger_met r stage d → trigger_met r stage d'.
Proof.
  intros Hl Hk. unfold trigger_met. destruct (et_kind _); intros (x & Hx & Hr); exists x;
    eauto using boundary_event_evolves, boundary_checkpoint_keeps.
Qed.

Lemma pinned_spec r r' : pinned r r' → run_run_spec_id r' = run_run_spec_id r.
Proof. by intros (_ & _ & _ & ? & _). Qed.

Lemma planned_evolves r d d' : ledger_evolves d d' → keeps d d' → planned r d → planned r d'.
Proof.
  intros Hl Hk (run & spec_id & row & stage & Hrun & Hs & Hrow & Hp & Hv & Hst & Ht).
  destruct (le_run _ _ Hl _ _ Hrun) as (run' & Hrun' & Hpin & _).
  exists run', spec_id, row, stage. rewrite (kp_specs _ _ Hk). split_and!; try done.
  - by rewrite (pinned_spec _ _ Hpin).
  - by eapply trigger_met_evolves.
Qed.

Lemma anchored_evolves id n h d d' : ledger_evolves d d' → anchored id n h d → anchored id n h d'.
Proof.
  intros Hl. unfold anchored. destruct n, h; try done. intros (e & He & Hh).
  exists e. eauto using event_at_evolves.
Qed.

(** A record that has a boundary keeps its ceiling. *)
Lemma ceiling_evolves r d d' :
  ledger_evolves d d' → keeps d d' → planned r d →
  anchored (er_run_id r) (eb_up_to_event_sequence (er_boundary r)) (eb_event_hash (er_boundary r)) d →
  boundary_ceiling r d' = boundary_ceiling r d.
Proof.
  intros Hl Hk (run & spec_id & row & stage & _ & _ & _ & _ & _ & _ & Ht) Ha.
  unfold boundary_ceiling. destruct (boundary_event r d) as [e|] eqn:He.
  { by rewrite (boundary_event_evolves _ _ _ _ Hl He). }
  assert (Hnone : boundary_event r d' = None).
  { unfold boundary_event, anchored in *.
    destruct (eb_up_to_event_sequence _), (eb_event_hash _); cbn in *; try done.
    destruct Ha as (e & Ha & _). congruence. }
  rewrite Hnone. unfold trigger_met in Ht. rewrite He in Ht.
  destruct (et_kind _); [naive_solver| |naive_solver]. destruct Ht as (c & Hc & _).
  by rewrite Hc, (boundary_checkpoint_keeps _ _ _ _ Hk Hc).
Qed.

Lemma recorded_evolves d d' k row :
  ledger_evolves d d' → keeps d d' → recorded d k row → recorded d' k row.
Proof.
  intros Hl Hk [Hkey Hrow Hp Ha He Hh].
  assert (Hid : evrow_run_id row = er_run_id (evrow_record row)) by (rewrite Hrow; done).
  split; try done.
  - by eapply planned_evolves.
  - by eapply anchored_evolves.
  - intros ref id Hin Hc. destruct (He ref id Hin Hc) as (e & Hg & Hr & Hle). exists e.
    rewrite Hid in Ha. rewrite (ceiling_evolves _ d d') by done.
    eauto using get_event_evolves.
Qed.

Lemma checkpointed_evolves d d' k row :
  ledger_evolves d d' → keeps d d' → checkpointed d k row → checkpointed d' k row.
Proof.
  intros Hl Hk [Hkey Hrow Ha (run & spec_id & srow & policy & def & Hrun & Hs & Hd & Hrest)].
  split; try done; [by eapply anchored_evolves|].
  destruct (le_run _ _ Hl _ _ Hrun) as (run' & Hrun' & Hpin & _).
  exists run', spec_id, srow, policy, def. rewrite (kp_specs _ _ Hk). split_and!; try apply Hrest; try done.
  by rewrite (pinned_spec _ _ Hpin).
Qed.

(** ** The relation every transaction follows *)

Record records_inv (d : DB) : Prop := {
  rv_ledger : ledger_inv d;
  rv_evaluations : eval_inv d;
  rv_checkpoints : checkpoint_inv d;
  rv_grades : ∀ k g, db_grades d !! k = Some g → grd_id g = k
}.

Definition records_step (d d' : DB) : Prop :=
  records_inv d → records_inv d' ∧ ledger_evolves d d' ∧ keeps d d'.

#[export] Instance records_step_preorder : PreOrder records_step.
Proof.
  split; [by split|]. intros d1 d2 d3 H1 H2 Hd. destruct (H1 Hd) as (Hi1 & He1 & Hk1).
  destruct (H2 Hi1) as (Hi2 & He2 & Hk2). split_and!; [done|by etrans|by etrans].
Qed.

(** A step that writes no record. *)
Definition records_of (d : DB) :=
  (db_run_specs d, db_admissions d, db_evaluations d, db_checkpoints d, db_grades d).
Definition same_records (d d' : DB) : Prop := records_of d' = records_of d.

#[export] Instance same_records_preorder : PreOrder same_records.
Proof. split; [done|]. intros d1 d2 d3. unfold same_records. congruence. Qed.

(** Growing ledger and records keep what is stored. *)
Lemma old_evaluations d d' :
  eval_inv d → ledger_evolves d d' → keeps d d' → db_evaluations d' = db_evaluations d →
  eval_inv d'.
Proof.
  intros Hev Hlv Hk Ee. split; rewrite Ee; [|by apply Hev]. intros k row Hrow.
  eapply recorded_evolves; try done. by apply Hev.
Qed.

Lemma old_checkpoints d d' :
  checkpoint_inv d → ledger_evolves d d' → keeps d d' → db_checkpoints d' = db_checkpoints d →
  checkpoint_inv d'.
Proof.
  intros Hck Hlv Hk Ec k row. rewrite Ec. intros Hrow.
  eapply checkpointed_evolves; try done. by apply Hck.
Qed.

Lemma unchanged_step d d' : ledger_step d d' → same_records d d' → records_step d d'.
Proof.
  unfold same_records, records_of. intros Hl [= E1 E2 E3 E4 E5] [Hd Hev Hck Hg].
  destruct (Hl Hd) as [Hd' Hlv].
  assert (Hk : keeps d d') by (split; [done..| | |]; by rewrite ?E3, ?E4, ?E5).
  split; [|done]. split; [done| | |by rewrite E5].
  - by eapply old_evaluations.
  - by eapply old_checkpoints.
Qed.

Lemma records_unchanged {A} (m : Tx A) :
  steps_by ledger_step m → steps_by same_records m → steps_by records_step m.
Proof.
  intros Hl Hm env s a s' E. apply unchanged_step; [by eapply Hl|by eapply Hm].
Qed.

(** The three inserts: the tables other than the one written stay as they are. *)
Lemma insert_step d d' :
  db_runs d' = db_runs d → db_events d' = db_events d → keeps d d' → ledger_inv d →
  ledger_inv d' ∧ ledger_evolves d d' ∧ keeps d d'.
Proof. intros Er Ee Hk Hd. destruct (ledger_frame d d' Er Ee Hd). done. Qed.

Lemma add_evaluation d row :
  evaluation_conflict row d = false → recorded d (evrow_id row) row →
  records_step d (set_evaluations (insert (evrow_id row) row) d).
Proof.
  intros Hc Hrow [Hd Hev Hck Hg]. unfold evaluation_conflict, all_evaluations in Hc.
  apply orb_false_iff in Hc as [_ Hc]. rewrite existsb_rows in Hc.
  set (d' := set_evaluations _ d).
  assert (Hfresh : db_evaluations d !! evrow_id row = None).
  { destruct (db_evaluations d !! evrow_id row) as [x|] eqn:Hx; [|done]. exfalso.
    pose proof (Hc _ _ Hx) as Hf. bools. apply (ei_rows _ Hev) in Hx as [Hk _ _ _ _ _]. done. }
  destruct (insert_step d d') as (Hd' & Hlv & Hk); try done.
  { split; try done. by apply insert_subseteq. }
  split; [|done]. split; [done| |by eapply old_checkpoints|done].
  assert (Hnew : ∀ k x, db_evaluations d !! k = Some x →
    ¬ (same_slot row x ∨ evrow_record_digest row = evrow_record_digest x)).
  { intros k x Hx. apply Hc in Hx.
    rewrite !orb_false_iff, !andb_false_iff, !bool_decide_eq_false in Hx.
    unfold same_slot. intuition congruence. }
  split; change (db_evaluations d') with (<[evrow_id row:=row]> (db_evaluations d)).
  - intros k x [[<- <-]|[_ Hx]]%lookup_insert_Some; (eapply recorded_evolves; [done..|]);
      [done|by apply Hev].
  - intros k1 k2 r1 r2 [[<- <-]|[Hn1 Hx1]]%lookup_insert_Some
      [[<- <-]|[Hn2 Hx2]]%lookup_insert_Some Hs; [done| | |by eapply (ei_slots _ Hev)].
    + by destruct (Hnew _ _ Hx2).
    + destruct (Hnew _ _ Hx1). unfold same_slot in *. naive_solver.
Qed.

Lemma add_checkpoint d row :
  checkpoint_conflict row d = false → checkpointed d (ckrow_id row) row →
  records_step d (set_checkpoints (insert (ckrow_id row) row) d).
Proof.
  intros Hc Hrow [Hd Hev Hck Hg]. unfold checkpoint_conflict, all_checkpoints in Hc.
  apply orb_false_iff in Hc as [_ Hc]. rewrite existsb_rows in Hc.
  set (d' := set_checkpoints _ d).
  assert (Hfresh : db_checkpoints d !! ckrow_id row = None).
  { destruct (db_checkpoints d !! ckrow_id row) as [x|] eqn:Hx; [|done]. exfalso.
    pose proof (Hc _ _ Hx) as Hf. bools. by apply Hck in Hx as [Hk _ _ _]. }
  destruct (insert_step d d') as (Hd' & Hlv & Hk); try done.
  { split; try done. by apply insert_subseteq. }
  split; [|done]. split; [done|by eapply old_evaluations| |done].
  unfold checkpoint_inv. change (db_checkpoints d') with (<[ckrow_id row:=row]> (db_checkpoints d)).
  intros k x [[<- <-]|[_ Hx]]%lookup_insert_Some; (eapply checkpointed_evolves; [done..|]);
    [done|by apply Hck].
Qed.

Lemma insert_grade_records row : steps_by records_step (insert_grade row).
Proof.
  intros env s u s' E [Hd Hev Hck Hg]. unfold insert_grade in E. inv_tx. cbn [st_db].
  set (d := st_db s) in *. set (d' := set_grades _ d).
  unfold grade_conflict, all_grades in H0. apply orb_false_iff in H0 as [_ Hc].
  rewrite existsb_rows in Hc.
  assert (Hfresh : db_grades d !! grd_id row = None).
  { destruct (db_grades d !! grd_id row) as [x|] eqn:Hx; [|done]. exfalso.
    pose proof (Hc _ _ Hx) as Hf. bools. by apply Hg in Hx. }
  destruct (insert_step d d') as (Hd' & Hlv & Hk); try done.
  { split; try done. by apply insert_subseteq. }
  split; [|done]. split; [done|by eapply old_evaluations|by eapply old_checkpoints|].
  change (db_grades d') with (<[grd_id row:=row]> (db_grades d)).
  intros k x [[<- <-]|[_ Hx]]%lookup_insert_Some; [done|by apply Hg].
Qed.

(** ** The operations *)

Lemma upsert_grade_records id grader score passed rationale evidence :
  steps_by records_step (upsert_grade id grader score passed rationale evidence).
Proof.
  unfold upsert_grade. apply steps_by_bind; [apply _|walk|intros [g|]]; [walk|].
  do 2 (apply steps_by_bind; [apply _|walk|intros ?]).
  apply steps_by_bind; [apply _|apply insert_grade_records|walk].
Qed.

Lemma save_grade_records id grader score passed rationale evidence lease :
  steps_by records_step (save_grade_body id grader score passed rationale evidence lease).
Proof.
  unfold save_grade_body. apply steps_by_bind; [apply _|walk|intros ?]. apply upsert_grade_records.
Qed.

Lemma save_snapshot_records id snapshot lease :
  steps_by records_step (save_snapshot_body id snapshot lease).
Proof.
  apply records_unchanged; [apply same_ledger_step|]; unfold save_snapshot_body, insert_snapshot;
    walk.
Qed.

Lemma check_all_ok {A} (f : A → result unit) l :
  check_all f l = Ok tt → ∀ x, x ∈ l → f x = Ok tt.
Proof.
  induction l as [|y l IH]; cbn; intros E x Hx; [by apply not_elem_of_nil in Hx|].
  inv_ok. apply elem_of_cons in Hx as [->|Hx]; [by destruct x0|by apply IH].
Qed.

Lemma evidence_refs_ok r ceiling d :
  validate_evidence_refs r ceiling d = Ok tt → ceiling = boundary_ceiling r d →
  within_boundary r d.
Proof.
  intros Hv -> ref id Hin Hs. apply (check_all_ok _ _ Hv) in Hin.
  unfold validate_evidence_ref in Hin. rewrite Hs in Hin. cbn in Hin. inv_ok.
  change ("event" ==b "event") with true in Hin. cbn [andb] in Hin.
  destruct (get_event id d) as [e|]; [|done]. bools. exists e. split_and!; [done..|]. lia.
Qed.

Lemma trigger_boundary_ok r stage d ceiling :
  validate_trigger_boundary r stage d = Ok ceiling →
  trigger_met r stage d ∧ ceiling = boundary_ceiling r d.
Proof.
  unfold validate_trigger_boundary, trigger_met. intros E. inv_ok. split; [|done].
  destruct (et_kind (st_trigger stage)).
  - inv_ok. destruct (boundary_event r d) as [e|]; [|done]. bools. by exists e.
  - inv_ok. eexists. split; [done|]. intros reference Hr. rewrite Hr in *. inv_ok. by bools.
  - inv_ok. destruct (boundary_event r d) as [e|]; [|done]. bools. by exists e.
Qed.

Lemma evidence_boundary_ok id n h d :
  validate_evidence_boundary id n h d = Ok tt → anchored id n h d.
Proof.
  unfold validate_evidence_boundary, anchored. destruct n, h; try done. intros E. inv_ok.
  destruct (event_at _ _ _) as [e|]; [|done]. bools. by exists e.
Qed.

Lemma insert_evaluation_ok row env s u s' :
  insert_evaluation row env s = Ok (u, s') →
  evaluation_conflict row (st_db s) = false
  ∧ st_db s' = set_evaluations (insert (evrow_id row) row) (st_db s).
Proof. unfold insert_evaluation. intros E. inv_tx. done. Qed.

Lemma evaluated_spec_ok r env s spec s' :
  evaluated_spec r env s = Ok (spec, s') →
  s' = s ∧ ∃ run spec_id row, db_runs (st_db s) !! er_run_id r = Some run
    ∧ run_run_spec_id run = Some spec_id ∧ db_run_specs (st_db s) !! spec_id = Some row
    ∧ spec = rsp_spec row ∧ spec_evaluation_plan_ref spec = er_plan_ref r
    ∧ validate_record (spec_evaluation_plan spec) r = Ok tt.
Proof.
  unfold evaluated_spec, get_run. intros E. inv_tx. split; [done|]. apply require_ok in H1.
  bools. repeat match goal with u : unit |- _ => destruct u end. eauto 10.
Qed.

(** The writing session stores a record that was anchored and attested before. *)
Lemma store_evaluation_step r lease env s row s' :
  anchored (er_run_id r) (eb_up_to_event_sequence (er_boundary r))
    (eb_event_hash (er_boundary r)) (st_db s) →
  verify_human_source r = Ok tt →
  store_evaluation r lease env s = Ok (row, s') → records_step (st_db s) (st_db s').
Proof.
  intros Ha Hh E. unfold store_evaluation in E.
  apply tx_bind_ok in E as (u & s1 & E1 & E). apply reads_validate_optional_lease in E1.
  rewrite <- E1 in Ha |- *. clear E1.
  apply tx_bind_ok in E as (spec & s2 & E2 & E).
  apply evaluated_spec_ok in E2 as (-> & run & spec_id & srow & Hrun & Hs & Hrow & -> & Hp & Hv).
  apply tx_bind_ok in E as (stage & s2 & E2 & E). apply lift_ok in E2 as [Hstage ->].
  apply require_ok in Hstage.
  apply tx_bind_ok in E as (d & s2 & E2 & E). apply query_ok in E2 as [-> ->].
  apply tx_bind_ok in E as (ceiling & s2 & E2 & E). apply lift_ok in E2 as [Ht ->].
  apply trigger_boundary_ok in Ht as [Ht Hceil].
  apply tx_bind_ok in E as ([] & s2 & E2 & E). apply lift_ok in E2 as [Hrefs ->].
  destruct (evaluation_by_digest _ _); [by apply tx_ret_ok in E as [_ ->]|].
  do 3 skip_read E.
  apply tx_bind_ok in E as ([] & s2 & E2 & E). apply tx_ret_ok in E as [-> ->].
  apply insert_evaluation_ok in E2 as [Hc ->]. apply add_evaluation; [done|]. split; try done.
  - by exists run, spec_id, srow, stage.
  - by eapply evidence_refs_ok.
  - cbn. unfold verify_human_source in Hh. intros Hhuman. rewrite Hhuman in Hh. inv_ok. eauto.
Qed.

Lemma reads_existing_evaluation r lease : reads (existing_evaluation r lease).
Proof.
  unfold existing_evaluation. apply reads_bind; [apply reads_validate_optional_lease|intros _].
  apply reads_bind; [apply reads_query|intros [row|]]; [|apply reads_ret].
  apply reads_bind; [apply reads_guard|intros _; apply reads_ret].
Qed.

Lemma save_evaluation_step r lease env s :
  records_step (st_db s) (st_db (fst (save_evaluation_record r lease env s))).
Proof.
  unfold save_evaluation_record. rewrite op_bind_eq.
  pose proof (read_transaction (existing_evaluation r lease) Ok env s
    (reads_existing_evaluation r lease)) as E1.
  destruct (transaction (existing_evaluation r lease) Ok env s) as [s1 [[row|]|e]]; cbn in E1;
    [by rewrite <- E1|rewrite <- E1|by rewrite <- E1].
  rewrite op_bind_eq. unfold op_lift. destruct (verify_human_source r) as [[]|e] eqn:Hh; [|done].
  rewrite op_bind_eq. unfold read_session.
  destruct (validate_evaluation_boundary r (st_db s1)); [|done]. rewrite op_bind_eq.
  destruct (validate_evidence_boundary _ _ _ _) as [[]|e] eqn:Hb; [|done].
  apply evidence_boundary_ok in Hb. unfold transaction.
  destruct (store_evaluation r lease env s1) as [[row s2]|e] eqn:Es; [|done].
  by eapply store_evaluation_step.
Qed.

Lemma legal_completed types run :
  run_status run = evaluating → legal types run "evaluation.completed" None.
Proof.
  intros Hst [st p r] Hl E. cbn in *. rewrite Hst in E. subst st. eexists. by split.
Qed.

Lemma append_once_records run t payload key allowed next :
  steps_by same_records (append_event_once_in_session run t payload key allowed next).
Proof. unfold append_event_once_in_session, insert_event, save_run. walk. Qed.

Lemma deterministic_boundary_ok r spec d e :
  deterministic_boundary r spec d = Ok e →
  boundary_event r d = Some e
  ∧ anchored (er_run_id r) (eb_up_to_event_sequence (er_boundary r))
      (eb_event_hash (er_boundary r)) d
  ∧ ∃ stage, find_stage (spec_evaluation_plan spec) (er_stage_id r) = Some stage
      ∧ trigger_met r stage d.
Proof.
  unfold deterministic_boundary, record_stage, boundary_event, anchored. intros E. inv_ok. bools.
  assert (He : boundary_event r d = Some e) by (unfold boundary_event; by rewrite H0).
  rewrite H0, <- H3. split_and!; [done|eauto|]. eexists. split; [done|].
  unfold trigger_met. rewrite H5. eauto.
Qed.

(** The record of the built-in evaluation, inserted or found identical. *)
Lemma upsert_deterministic_ok r env s row s' :
  upsert_deterministic_record r env s = Ok (row, s') →
  (st_db s' = st_db s ∨ (evaluation_conflict (evaluation_row r) (st_db s) = false
     ∧ st_db s' = set_evaluations (insert (er_record_id r) (evaluation_row r)) (st_db s))).
Proof.
  unfold upsert_deterministic_record. intros E.
  apply tx_bind_ok in E as (existing & s1 & E1 & E). apply query_ok in E1 as [-> ->].
  destruct (evaluation_by_stage r (st_db s)) as [x|]; [by inv_tx; left|].
  apply tx_bind_ok in E as ([] & s2 & E2 & E). apply tx_ret_ok in E as [-> ->].
  apply insert_evaluation_ok in E2 as [Hc ->]. by right.
Qed.

Lemma records_ledger d d' : records_inv d → records_step d d' → ledger_inv d'.
Proof. intros Hd Hs. by destruct (Hs Hd) as [[Hd' _ _ _] _]. Qed.

(** What the guards of the built-in evaluation establish before it writes. *)
Lemma deterministic_checked r score passed rationale evidence lease env s row s' :
  deterministic_body r score passed rationale evidence lease env s = Ok (row, s') →
  ∃ run s1 s2 s3 u, st_db s1 = st_db s ∧ db_runs (st_db s) !! er_run_id r = Some run ∧ run_status run = evaluating
    ∧ recorded (st_db s) (er_record_id r) (evaluation_row r)
    ∧ upsert_deterministic_record r env s1 = Ok (row, s2)
    ∧ upsert_grade (er_run_id r) (er_stage_id r) score passed rationale evidence env s2 = Ok (u, s3)
    ∧ ∃ v, append_event_once_in_session run "evaluation.completed" (completed_payload r)
        ("evaluation:" +:+ er_stage_id r +:+ ":completed") [evaluating] None env s3 = Ok (v, s').
Proof.
  intros E. unfold deterministic_body in E.
  apply tx_bind_ok in E as ([] & s1 & E1 & E). apply guard_ok in E1 as [Hsrc ->].
  apply tx_bind_ok in E as ([] & s1 & E1 & E). apply reads_validate_optional_lease in E1.
  apply tx_bind_ok in E as (run & s2 & E2 & E). apply fetch_ok in E2 as [Hrun ->].
  apply tx_bind_ok in E as (spec_id & s2 & E2 & E). apply lift_ok in E2 as [Hspec%require_ok ->].
  apply tx_bind_ok in E as ([] & s2 & E2 & E). apply guard_ok in E2 as [Hst ->].
  apply tx_bind_ok in E as (srow & s2 & E2 & E). apply fetch_ok in E2 as [Hrow ->].
  apply tx_bind_ok in E as ([] & s2 & E2 & E). apply guard_ok in E2 as [Hplan ->].
  apply tx_bind_ok in E as ([] & s2 & E2 & E). apply lift_ok in E2 as [Hv ->].
  apply tx_bind_ok in E as (d & s2 & E2 & E). apply query_ok in E2 as [-> ->].
  apply tx_bind_ok in E as (e & s2 & E2 & E). apply lift_ok in E2 as [Hb ->].
  apply deterministic_boundary_ok in Hb as (Hev & Ha & stage & Hstage & Ht).
  apply tx_bind_ok in E as ([] & s2 & E2 & E). apply lift_ok in E2 as [Hrefs ->].
  apply tx_bind_ok in E as (row' & s2 & E2 & E).
  apply tx_bind_ok in E as (g & s3 & E3 & E).
  apply tx_bind_ok in E as (v & s4 & E4 & E). apply tx_ret_ok in E as [-> ->].
  unfold get_run in Hrun. rewrite E1 in *. bools.
  exists run, s1, s2, s3, g. split_and!; try done; [|by exists v].
  split; try done.
  - by exists run, spec_id, srow, stage.
  - eapply evidence_refs_ok; [done|]. unfold boundary_ceiling. cbn [evrow_record evaluation_row].
    by rewrite Hev.
  - cbn. rewrite Hsrc. done.
Qed.

Lemma upserts_same_ledger :
  (∀ r, steps_by same_ledger (upsert_deterministic_record r))
  ∧ (∀ id g sc p ra ev, steps_by same_ledger (upsert_grade id g sc p ra ev)).
Proof.
  unfold upsert_deterministic_record, insert_evaluation, upsert_grade, insert_grade.
  split; walk.
Qed.

Lemma deterministic_body_records r score passed rationale evidence lease :
  steps_by records_step (deterministic_body r score passed rationale evidence lease).
Proof.
  intros env s row s' E Hd.
  apply deterministic_checked in E
    as (run & s1 & s2 & s3 & u & E1 & Hrun & Hst & Hrec & E2 & E3 & [[e run'] E4]).
  assert (Hs2 : records_step (st_db s) (st_db s2)).
  { rewrite <- E1 in Hrec |- *. apply upsert_deterministic_ok in E2 as [->|[Hc ->]]; [done|].
    by apply add_evaluation. }
  destruct upserts_same_ledger as [L1 L2].
  assert (Hsame : same_ledger (st_db s) (st_db s3)).
  { rewrite <- E1. etrans; [by eapply L1|by eapply L2]. }
  apply upsert_grade_records in E3.
  assert (Hs3 : records_step (st_db s) (st_db s3)) by by etrans.
  pose proof (records_ledger _ _ Hd Hs3) as Hd3.
  rewrite <- (proj1 Hsame) in Hrun. pose proof (li_run_key _ Hd3 _ _ Hrun) as Ek.
  pose proof (append_once_records _ _ _ _ _ _ _ _ _ _ E4) as Hs4.
  apply append_once_step in E4 as (Hl4 & _); try done.
  - revert Hd. change (records_step (st_db s) (st_db s')). etrans; [exact Hs3|].
    by apply unchanged_step.
  - by rewrite Ek.
  - intros _ _. by apply legal_completed.
  - by intros x ->%list_elem_of_singleton.
Qed.

(** ** Checkpoints *)

Lemma store_checkpoint_step r env s row s' :
  anchored (ck_run_id r) (Some (ck_up_to_event_sequence r)) (Some (ck_event_hash r)) (st_db s) →
  store_checkpoint r env s = Ok (row, s') → records_step (st_db s) (st_db s').
Proof.
  intros Ha E. unfold store_checkpoint in E.
  apply tx_bind_ok in E as (run & s2 & E2 & E). apply fetch_ok in E2 as [Hrun ->].
  apply tx_bind_ok in E as (spec_id & s2 & E2 & E). apply lift_ok in E2 as [Hspec%require_ok ->].
  apply tx_bind_ok in E as (srow & s2 & E2 & E). apply fetch_ok in E2 as [Hrow ->].
  apply tx_bind_ok in E as ([] & s2 & E2 & E). apply guard_ok in E2 as [Hpol ->].
  apply tx_bind_ok in E as (policy & s2 & E2 & E). apply lift_ok in E2 as [Hp%require_ok ->].
  apply tx_bind_ok in E as (def & s2 & E2 & E). apply lift_ok in E2 as [Hdef%require_ok ->].
  apply find_first_Some in Hdef as [Hin Hid].
  apply tx_bind_ok in E as (d & s2 & E2 & E). apply query_ok in E2 as [-> ->].
  do 3 skip_read E.
  destruct (checkpoint_by_hash _ _); [by apply tx_ret_ok in E as [_ ->]|].
  apply tx_bind_ok in E as ([] & s2 & E2 & E). apply tx_ret_ok in E as [-> ->].
  unfold insert_checkpoint in E2. inv_tx. bools. apply (add_checkpoint _ (checkpoint_row r)); [done|].
  split; try done. by exists run, spec_id, srow, policy, def.
Qed.

Lemma save_checkpoint_step r env s :
  records_step (st_db s) (st_db (fst (save_checkpoint_record r env s))).
Proof.
  unfold save_checkpoint_record. rewrite op_bind_eq. unfold read_session.
  destruct (validate_evidence_boundary _ _ _ _) as [[]|e] eqn:Hb; [|done].
  apply evidence_boundary_ok in Hb. unfold transaction.
  destruct (store_checkpoint r env s) as [[row s2]|e] eqn:Es; [|done].
  by eapply store_checkpoint_step.
Qed.

(** ** The queue *)

Lemma evaluation_bodies_queue :
  (∀ id g sc p ra ev l, steps_by same_queue (save_grade_body id g sc p ra ev l))
  ∧ (∀ id sn l, steps_by same_queue (save_snapshot_body id sn l))
  ∧ (∀ r l, steps_by same_queue (store_evaluation r l))
  ∧ (∀ r sc p ra ev l, steps_by same_queue (deterministic_body r sc p ra ev l))
  ∧ (∀ r, steps_by same_queue (store_checkpoint r)).
Proof.
  unfold save_grade_body, upsert_grade, insert_grade, save_snapshot_body, insert_snapshot,
    store_evaluation, evaluated_spec, insert_evaluation, deterministic_body,
    upsert_deterministic_record, insert_evaluation, store_checkpoint, insert_checkpoint.
  split_and!; walk; apply append_once_queue.
Qed.

Lemma save_evaluation_queue r lease : op_steps_by same_queue (save_evaluation_record r lease).
Proof.
  unfold save_evaluation_record. destruct evaluation_bodies_queue as (_ & _ & Q & _).
  apply op_steps_bind; [apply _|apply op_steps_transaction, steps_by_reads; [apply _..|]|].
  { apply reads_existing_evaluation. }
  intros [row|]; [by intros env s|]. do 3 (apply op_steps_bind; [apply _|by intros env s|intros _]).
  by apply op_steps_transaction; [apply _|].
Qed.

Lemma save_checkpoint_queue r : op_steps_by same_queue (save_checkpoint_record r).
Proof.
  unfold save_checkpoint_record. destruct evaluation_bodies_queue as (_ & _ & _ & _ & Q).
  apply op_steps_bind; [apply _|by intros env s|intros _]. by apply op_steps_transaction; [apply _|].
Qed.
End eval_inv.
