(* ===== verification/System.v ===== *)
(** * The store as one transition system

    A [command] is a call of one operation of the stores with all its arguments, and
    [exec] runs it in an environment that fixes what the clock and the identifier source
    return. [reachable] closes the empty database (with any set of compiled and admitted
    contracts) under commands, in any order and by any number of workers. The invariants
    of the queue and of the ledger hold in every reachable state. *)

From S2P Require Import Prelude PyText PyJson Base Authoring Runtime Events Triage Evaluation Store.
From S2P Require Import Registry Lease Handlers Ledger LedgerInv Queue EvalStore EvalInv.

Section system.
Context `{PyRuntime} {HV : HumanVerifier}.

(** ** Enqueueing keeps both invariants *)

Lemma no_run_no_events d id : ledger_inv d → db_runs d !! id = None → run_events id d = [].
Proof.
  intros Hd Hnew. destruct (run_events id d) as [|e l] eqn:E; [done|]. exfalso.
  assert (He : e ∈ run_events id d) by (rewrite E; left).
  apply list_elem_of_In, List.filter_In in He as [He Hk]. apply list_elem_of_In in He.
  apply bool_decide_eq_true in Hk. apply (li_owned _ Hd) in He. rewrite Hk, Hnew in He.
  by destruct He.
Qed.

Lemma new_run_step d run :
  db_runs d !! run_id run = None → run_status run = queued → run_completed_at run = None →
  ledger_step d (set_runs (insert (run_id run) run) d).
Proof.
  intros Hnew Hst Hcomp Hd.
  pose proof (no_run_no_events _ _ Hd Hnew) as Hnil.
  split.
  - constructor; cbn; try apply Hd.
    + intros k r [[<- <-]|[_ Hr]]%lookup_insert_Some; [done|by apply (li_run_key _ Hd)].
    + intros e He%(li_owned _ Hd). apply lookup_insert_is_Some'. by right.
    + intros k r [[<- <-]|[_ Hr]]%lookup_insert_Some; [by left|exact (li_life _ Hd _ _ Hr)].
    + intros k r [[<- <-]|[_ Hr]]%lookup_insert_Some; [|exact (li_completed _ Hd _ _ Hr)].
      rewrite Hst, Hcomp. naive_solver.
  - constructor; cbn; [done|]. intros k r Hr. exists r. unfold pinned.
    split_and!; try done. rewrite lookup_insert_ne; [done|]. intros <-. congruence.
Qed.

Lemma queued_event_step run spec admission requested_at env s u s' :
  let d := st_db s in
  ledger_inv d → db_runs d !! run_id run = Some run → run_status run = queued →
  run_events (run_id run) d = [] →
  append_queued_event run spec admission requested_at env s = Ok (u, s') →
  ledger_step d (st_db s').
Proof.
  intros d Hd Hrun Hst Hnil E. unfold append_queued_event in E.
  apply tx_bind_ok in E as (p & s1 & E1 & E). apply lift_ok in E1 as [Hp ->].
  apply tx_bind_ok in E as (eid & s1 & E1 & E). apply new_id_ok in E1.
  apply insert_event_ok in E as [Hc E]. rewrite E1 in Hc, E. fold d in Hc, E. rewrite E.
  rewrite <- (set_runs_same (set_events _ d) (run_id run) run) by done.
  eapply (append_row_step d (run_id run) run _ _ (MkLife queued false false)); try done.
  - by rewrite Hst.
  - apply chain_row_continues; [done|by rewrite Hnil..].
  - by eapply plain_sound.
  - rewrite Hnil. constructor.
  - exact (li_completed _ Hd _ _ Hrun).
Qed.

Lemma insert_run_ok run env s u s' :
  insert_run run env s = Ok (u, s') →
  db_runs (st_db s) !! run_id run = None ∧ st_db s' = set_runs (insert (run_id run) run) (st_db s).
Proof.
  unfold insert_run, get_run. intros E. inv_tx. by destruct (db_runs (st_db s) !! run_id run).
Qed.

Lemma insert_job_ok job env s u s' :
  insert_job job env s = Ok (u, s') →
  job_conflict job (st_db s) = false ∧ st_db s' = set_jobs (insert (job_id job) job) (st_db s).
Proof. unfold insert_job. intros E. inv_tx. done. Qed.

Lemma append_queued_queue run spec admission at_ :
  steps_by same_queue (append_queued_event run spec admission at_).
Proof. unfold append_queued_event, insert_event. walk. Qed.

(** What a successful enqueue did: returned the job already queued under the key, or wrote
    the Run, the opening event and the job. *)
Lemma enqueue_body_ok spec_id admission_id key retry exper now env s run job s' :
  enqueue_body spec_id admission_id key retry exper now env s = Ok ((run, job), s') →
  let digest := sha256_json (request_document spec_id admission_id retry exper) in
  is_blank key = false ∧
  ((job_by_key key (st_db s) = Some job ∧ job_request_digest job = digest
    ∧ db_runs (st_db s) !! job_run_id job = Some run ∧ st_db s' = st_db s)
   ∨ (job_by_key key (st_db s) = None ∧
      ∃ spec admission arow s1 s2 u at_,
        load_admitted_contracts spec_id admission_id (st_db s) = Ok (spec, admission, arow)
        ∧ (∀ src, retry = Some src → is_ok (validate_retry src spec_id admission_id
             (arow_created_at arow) exper (st_db s)) = true)
        ∧ run_status run = queued ∧ run_completed_at run = None
        ∧ run_run_spec_id run = Some spec_id ∧ run_admission_id run = Some admission_id
        ∧ run_retry_of run = retry ∧ run_variant_id run = spec_variant_id spec
        ∧ db_runs (st_db s) !! run_id run = None
        ∧ st_db s1 = set_runs (insert (run_id run) run) (st_db s)
        ∧ append_queued_event run spec admission at_ env s1 = Ok (u, s2)
        ∧ fresh_job job ∧ job_idempotency_key job = key ∧ job_request_digest job = digest
        ∧ job_run_id job = run_id run ∧ job_conflict job (st_db s2) = false
        ∧ st_db s' = set_jobs (insert (job_id job) job) (st_db s2))).
Proof.
  intros E digest. unfold enqueue_body in E.
  apply tx_bind_ok in E as ([] & s1 & E1 & E). apply guard_ok in E1 as [Hkey ->].
  split; [done|].
  apply tx_bind_ok in E as (at_ & s1 & E1 & E). apply now_or_clock_ok in E1.
  apply tx_bind_ok in E as (ex & s2 & E2 & E). apply query_ok in E2 as [-> ->]. rewrite E1 in E.
  destruct (job_by_key key (st_db s)) as [existing|] eqn:Hk.
  - left. inv_tx. apply negb_false_iff, bool_decide_eq_true in H0. unfold get_run in H1.
    rewrite E1 in H1. done.
  - right. split; [done|].
    apply tx_bind_ok in E as (d & s2 & E2 & E). apply query_ok in E2 as [-> ->]. rewrite E1 in E.
    apply tx_bind_ok in E as ([[spec admission] arow] & s2 & E2 & E).
    apply lift_ok in E2 as [Hload ->].
    apply tx_bind_ok in E as (trust & s2 & E2 & E). apply lift_ok in E2 as [_ ->].
    apply tx_bind_ok in E as (experiment & s2 & E2 & E). apply lift_ok in E2 as [Hretry ->].
    apply tx_bind_ok in E as (rid & s2 & E2 & E). apply new_id_ok in E2. rewrite E1 in E2.
    apply tx_bind_ok in E as ([] & s3 & E3 & E). apply insert_run_ok in E3 as [Hnew E3].
    apply tx_bind_ok in E as (u & s4 & E4 & E).
    apply tx_bind_ok in E as (jid & s5 & E5 & E). apply new_id_ok in E5.
    apply tx_bind_ok in E as ([] & s6 & E6 & E). apply insert_job_ok in E6 as [Hc E6].
    apply tx_ret_ok in E as [E ->]. injection E as -> ->.
    rewrite E2 in Hnew, E3. rewrite E5 in Hc, E6.
    exists spec, admission, arow, s3, s4, u, at_. split_and!; try done.
    intros src ->. by rewrite Hretry.
Qed.


Lemma enqueue_ledger spec_id admission_id key retry exper now :
  steps_by ledger_step (enqueue_body spec_id admission_id key retry exper now).
Proof.
  intros env s [run job] s' E. apply enqueue_body_ok in E as [_ E].
  destruct E as [(_ & _ & _ & ->)|(_ & spec & admission & arow & s1 & s2 & u & at_ & E)]; [done|].
  destruct E as (_ & _ & Hst & Hcomp & _ & _ & _ & _ & Hnew & E1 & E2 & _ & _ & _ & _ & _ & E3).
  pose proof (new_run_step (st_db s) run Hnew Hst Hcomp) as Hs1. rewrite <- E1 in Hs1. intros Hd.
  destruct (Hs1 Hd) as [Hd1 He1].
  assert (Hs2 : ledger_step (st_db s1) (st_db s2)).
  { eapply queued_event_step; try done.
    - rewrite E1. cbn. by rewrite lookup_insert_eq.
    - rewrite E1. by apply (no_run_no_events (st_db s)). }
  revert Hd. change (ledger_step (st_db s) (st_db s')).
  etrans; [exact Hs1|]. etrans; [exact Hs2|]. apply ledger_frame; by rewrite E3.
Qed.

Lemma enqueue_queue spec_id admission_id key retry exper now :
  steps_by queue_step (enqueue_body spec_id admission_id key retry exper now).
Proof.
  intros env s [run job] s' E. apply enqueue_body_ok in E as [_ E].
  destruct E as [(_ & _ & _ & ->)|(_ & spec & admission & arow & s1 & s2 & u & at_ & E)]; [done|].
  destruct E as (_ & _ & _ & _ & _ & _ & _ & _ & _ & E1 & E2 & Hf & _ & _ & _ & Hc & E3).
  apply append_queued_queue in E2. rewrite E3.
  etrans; [apply same_queue_frame; etrans; [|exact E2]; by rewrite E1|]. by apply enqueue_step.
Qed.

(** ** Preparation keeps both invariants *)

Lemma legal_preparing types run :
  run_status run = queued → legal types run "run.preparing" (Some preparing).
Proof.
  intros Hst [st p r] Hl E. cbn in *. rewrite Hst in E. subst st. eexists. by split.
Qed.
Lemma legal_composed types run :
  run_status run = preparing → legal types run "context.composed" None.
Proof.
  intros Hst [st p r] Hl E. cbn in *. rewrite Hst in E. subst st. eexists. by split.
Qed.
Lemma legal_offered types run :
  run_status run = preparing → legal types run "capability.offered" None.
Proof.
  intros Hst [st p r] Hl E. cbn in *. rewrite Hst in E. subst st. eexists. by split.
Qed.
Lemma legal_running types run :
  run_status run = preparing → legal types run "run.running" (Some running).
Proof.
  intros Hst [st p r] Hl E. cbn in *. rewrite Hst in E. subst st. eexists. by split.
Qed.

(** An append that may only happen in one open status. *)
Lemma append_in_status run t payload key st next env s row run' s' :
  let d := st_db s in
  ledger_inv d → db_runs d !! run_id run = Some run →
  (∀ types, run_status run = st → legal types run t next) → plain_event t payload st = true →
  (∀ status, next = Some status → is_terminal status = false) → is_terminal st = false →
  append_event_once_in_session run t payload key [st] next env s = Ok ((row, run'), s') →
  ledger_step d (st_db s') ∧ ledger_inv (st_db s')
  ∧ db_runs (st_db s') !! run_id run' = Some run' ∧ run_id run' = run_id run
  ∧ t ∈ map evt_event_type (run_events (run_id run) (st_db s')).
Proof.
  intros d Hd Hrun Hlegal Hplain Hnext Hst E.
  apply append_once_step in E as (Hs & Hr & Ei & _ & Ht); try done.
  - rewrite Ei. split_and!; try done. by apply Hs.
  - intros _ Hin. apply list_elem_of_singleton in Hin. by apply Hlegal.
  - intros Hin%list_elem_of_singleton. by rewrite Hin.
  - by intros x ->%list_elem_of_singleton.
Qed.

Lemma offer_capabilities_step run caps env s u s' :
  ledger_inv (st_db s) → db_runs (st_db s) !! run_id run = Some run →
  offer_capabilities run caps env s = Ok (u, s') →
  ledger_step (st_db s) (st_db s') ∧ db_runs (st_db s') !! run_id run = Some run.
Proof.
  revert s. induction caps as [|c caps IH]; intros s Hd Hrun E; cbn in E.
  { apply tx_ret_ok in E as [_ ->]. done. }
  apply tx_bind_ok in E as (ref & s1 & E1 & E). apply lift_ok in E1 as [_ ->].
  apply tx_bind_ok in E as ([row run1] & s1 & E1 & E).
  assert (run1 = run) as ->.
  { unfold append_event_once_in_session in E1. cbn in E1.
    apply tx_bind_ok in E1 as (p & s2 & Ex & E1). apply lift_ok in Ex as [_ ->].
    apply tx_bind_ok in E1 as (ex & s2 & Ex & E1). apply query_ok in Ex as [-> ->].
    destruct (event_by_key _ _ _); inv_tx; done. }
  apply append_in_status in E1 as (Hs & Hd1 & Hr & _); try done.
  - destruct (IH s1 Hd1 Hr E) as [Hs' Hr']. split; [by etrans|done].
  - intros types. apply legal_offered.
Qed.

Lemma append_preparation_step run spec envelope sid snap env s run' s' :
  let d := st_db s in
  ledger_inv d → db_runs d !! run_id run = Some run →
  append_preparation_events run spec envelope sid snap env s = Ok (run', s') →
  ledger_step d (st_db s') ∧ db_runs (st_db s') !! run_id run = Some run' ∧ run_id run' = run_id run
  ∧ (∀ t, t ∈ ["run.preparing"; "context.composed"; "run.running"] →
       t ∈ map evt_event_type (run_events (run_id run) (st_db s'))).
Proof.
  intros d Hd Hrun E. unfold append_preparation_events in E.
  apply tx_bind_ok in E as ([r1 run1] & s1 & E1 & E).
  apply append_in_status in E1 as (Hs1 & Hd1 & Hr1 & Ei1 & Ht1); try done;
    [|intros types; apply legal_preparing|by intros ? [= <-]].
  apply tx_bind_ok in E as ([r2 run2] & s2 & E2 & E).
  apply append_in_status in E2 as (Hs2 & Hd2 & Hr2 & Ei2 & Ht2); try done;
    [|intros types; apply legal_composed].
  apply tx_bind_ok in E as ([] & s3 & E3 & E).
  apply offer_capabilities_step in E3 as [Hs3 Hr3]; try done.
  destruct (Hs3 Hd2) as [Hd3 _].
  apply tx_bind_ok in E as ([r4 run4] & s4 & E4 & E).
  apply append_in_status in E4 as (Hs4 & Hd4 & Hr4 & Ei4 & Ht4); try done;
    [|intros types; apply legal_running|by intros ? [= <-]].
  apply tx_ret_ok in E as [-> ->].
  assert (Hall : ledger_step d (st_db s4)) by (repeat (etrans; [eassumption|]); done).
  assert (Eid : run_id run4 = run_id run) by congruence.
  split_and!; [done|by rewrite <- Eid|done|].
  assert (Hkeep : ∀ da db t, ledger_step da db → ledger_inv da →
    t ∈ map evt_event_type (run_events (run_id run) da) →
    t ∈ map evt_event_type (run_events (run_id run) db)).
  { intros da db t Hab Ha (e & -> & He)%list_elem_of_fmap. destruct (Hab Ha) as [_ Hev].
    apply (list_elem_of_fmap_2 evt_event_type). destruct (le_events _ _ Hev) as [l El].
    unfold run_events in *. rewrite El, List.filter_app. apply elem_of_app. by left. }
  rewrite Ei1 in Ht2. rewrite Ei2, Ei1 in Ht4. intros t Ht.
  rewrite !elem_of_cons in Ht. destruct Ht as [->|[->|[->|[]%not_elem_of_nil]]]; [| |done].
  - apply (Hkeep (st_db s3) _ _ Hs4 Hd3), (Hkeep (st_db s2) _ _ Hs3 Hd2).
    by apply (Hkeep (st_db s1) _ _ Hs2 Hd1).
  - by apply (Hkeep (st_db s3) _ _ Hs4 Hd3), (Hkeep (st_db s2) _ _ Hs3 Hd2).
Qed.

Lemma prepare_ledger id spec admission snap envelope lease :
  steps_by ledger_step (prepare_body id spec admission snap envelope lease).
Proof.
  intros env s [srow erow] s' E. unfold prepare_body in E.
  apply tx_bind_ok in E as (at_ & s1 & E1 & E). apply utc_now_ok in E1 as [E1 _].
  apply tx_bind_ok in E as ([] & s2 & E2 & E). apply reads_validate_optional_lease in E2.
  rewrite E1 in E2.
  apply tx_bind_ok in E as (d & s3 & E3 & E). apply query_ok in E3 as [-> ->].
  apply tx_bind_ok in E as (run & s3 & E3 & E). apply lift_ok in E3 as [Hload ->].
  apply tx_bind_ok in E as (row & s3 & E3 & E).
  assert (S3 : steps_by same_ledger (upsert_context_snapshot id snap at_))
    by (unfold upsert_context_snapshot, insert_snapshot; walk).
  apply S3 in E3. rewrite E2 in E3.
  apply tx_bind_ok in E as (erow' & s4 & E4 & E).
  assert (S4 : steps_by same_ledger (upsert_subject_envelope id envelope at_))
    by (unfold upsert_subject_envelope, insert_envelope; walk).
  apply S4 in E4. assert (Hsame : same_ledger (st_db s) (st_db s4)) by by etrans.
  intros Hd. destruct (same_ledger_frame _ _ Hsame Hd) as [Hd4 _].
  assert (Hrun : db_runs (st_db s4) !! run_id run = Some run).
  { rewrite (proj1 Hsame). unfold load_prepared_run in Hload. rewrite E2 in Hload. inv_ok.
    unfold get_run in *. destruct (run_run_spec_id x), (run_admission_id x); inv_ok; try done.
    by rewrite (li_run_key _ Hd _ _ H0). }
  apply tx_bind_ok in E as (run' & s5 & E5 & E).
  apply append_preparation_step in E5 as (Hs5 & Hr5 & Ei & _); try done. destruct (Hs5 Hd4) as [Hd5 _].
  apply tx_bind_ok in E as ([] & s6 & E6 & E). unfold save_run in E6. apply update_ok in E6 as ->.
  apply tx_ret_ok in E as [_ ->]. revert Hd. change (ledger_step (st_db s) (set_runs (insert
    (run_id run') (project_run run' (run_output run') (Some (cs_content_hash snap)))) (st_db s5))).
  etrans; [by apply same_ledger_frame|]. etrans; [exact Hs5|]. apply project_step. by rewrite Ei.
Qed.

Lemma prepare_queue id spec admission snap envelope lease :
  steps_by queue_step (prepare_body id spec admission snap envelope lease).
Proof.
  assert (Hoffer : ∀ run l, steps_by same_queue (offer_capabilities run l)).
  { intros run l. induction l as [|c l IH]; cbn; [walk|].
    apply steps_by_bind; [apply _|walk|intros ref].
    apply steps_by_bind; [apply _|apply append_once_queue|done]. }
  apply same_queue_step. unfold prepare_body, upsert_context_snapshot, insert_snapshot,
    upsert_subject_envelope, insert_envelope, append_preparation_events, save_run.
  walk; first [apply append_once_queue|apply Hoffer].
Qed.

(** ** Commands *)

Inductive command :=
| Enqueue (run_spec_id admission_id idempotency_key : string)
    (retry_of experiment_revision_id : option string) (now : option instant)
| Claim (worker_id : string) (lease_us : Z) (filter_id : option string) (now : option instant)
| Heartbeat (fence : LeaseFence) (lease_us : Z) (now : option instant)
| Release (fence : LeaseFence) (reason_code : string) (available_at now : option instant)
| Reject (fence : LeaseFence) (reason_code : string) (now : option instant)
| Complete (fence : LeaseFence) (now : option instant)
| Prepare (run : string) (spec : RunSpec) (admission : AdmissionRecord)
    (snapshot : ContextSnapshot) (envelope : SubjectEnvelope) (lease : LeaseFence)
| Append (request : AppendRequest)
| Respond (run : string) (spec : RunSpec) (payload : RunEventPayload)
    (captured_output : option string) (lease : LeaseFence)
| UpdateRun (run : string) (output context_hash : option string) (lease : option LeaseFence)
| SaveGrade (run grader : string) (score : pyfloat) (passed : bool) (rationale : string)
    (evidence : list string) (lease : option LeaseFence)
| SaveEvaluation (record : EvaluationRecord) (lease : option LeaseFence)
| SaveDeterministic (record : EvaluationRecord) (score : pyfloat) (passed : bool)
    (rationale : string) (evidence : list string) (lease : LeaseFence)
| SaveSnapshot (run : string) (snapshot : ContextSnapshot) (lease : option LeaseFence)
| SaveCheckpoint (record : CheckpointRecord).

(** The next state and the outcome, up to the value returned. *)
Definition outcome {A} (x : St * result A) : St * result unit := (fst x, (λ _, tt) <$> snd x).

Definition exec (c : command) (env : Env) (s : St) : St * result unit :=
  match c with
  | Enqueue a b k r e now => outcome (enqueue_run a b k r e now env s)
  | Claim w l f now => outcome (claim_next_job w l f now env s)
  | Heartbeat f l now => outcome (heartbeat_lease f l now env s)
  | Release f c a now => outcome (release_lease f c a now env s)
  | Reject f c now => outcome (reject_lease f c now env s)
  | Complete f now => outcome (complete_lease f now env s)
  | Prepare r sp ad sn en l => outcome (prepare_run_execution r sp ad sn en l env s)
  | Append rq => outcome (append_event rq env s)
  | Respond r sp p o l => outcome (save_subject_response r sp p o l env s)
  | UpdateRun r o h l => outcome (update_run r o h l env s)
  | SaveGrade r g sc p ra ev l => outcome (save_grade r g sc p ra ev l env s)
  | SaveEvaluation r l => outcome (save_evaluation_record r l env s)
  | SaveDeterministic r sc p ra ev l =>
      outcome (save_deterministic_evaluation r sc p ra ev l env s)
  | SaveSnapshot r sn l => outcome (save_snapshot r sn l env s)
  | SaveCheckpoint r => outcome (save_checkpoint_record r env s)
  end.

(** One command by one caller: the clock and the identifiers it draws are its own. *)
Definition step (s s' : St) : Prop := ∃ c env, s' = fst (exec c env s).

Definition steps : St → St → Prop := rtc step.

(** A database with no Run, no job and no record; contracts may already be compiled and
    admitted. *)
Definition initial (s : St) : Prop :=
  db_runs (st_db s) = ∅ ∧ db_events (st_db s) = [] ∧ db_jobs (st_db s) = ∅
  ∧ db_attempts (st_db s) = ∅ ∧ db_evaluations (st_db s) = ∅ ∧ db_checkpoints (st_db s) = ∅
  ∧ db_grades (st_db s) = ∅.

Definition reachable (s : St) : Prop := ∃ s0, initial s0 ∧ steps s0 s.

(** Outside the evaluation stores no record is written. *)
Lemma prepare_records id spec admission snap envelope lease :
  steps_by same_records (prepare_body id spec admission snap envelope lease).
Proof.
  assert (Hoffer : ∀ run l, steps_by same_records (offer_capabilities run l)).
  { intros run l. induction l as [|c l IH]; cbn; [walk|].
    apply steps_by_bind; [apply _|walk|intros ref].
    apply steps_by_bind; [apply _|apply append_once_records|done]. }
  unfold prepare_body, upsert_context_snapshot, insert_snapshot,
    upsert_subject_envelope, insert_envelope, append_preparation_events, save_run.
  walk; first [apply append_once_records|apply Hoffer].
Qed.

Lemma lease_bodies_records :
  (∀ w l f now, steps_by same_records (claim_body w l f now))
  ∧ (∀ f l now, steps_by same_records (heartbeat_body f l now))
  ∧ (∀ f c a now, steps_by same_records (release_body f c a now))
  ∧ (∀ f c now, steps_by same_records (reject_body f c now))
  ∧ (∀ f now, steps_by same_records (complete_body f now)).
Proof.
  unfold claim_body, heartbeat_body, release_body, reject_body, complete_body, take_next,
    insert_attempt, save_attempt, save_job. split_and!; walk.
  apply for_each_steps; [apply _|]. unfold expire_stale, save_attempt, save_job. walk.
Qed.

Lemma ledger_bodies_records :
  (∀ a b k r e now, steps_by same_records (enqueue_body a b k r e now))
  ∧ (∀ r, steps_by same_records (append_body r))
  ∧ (∀ id sp p o l, steps_by same_records (save_subject_response_body id sp p o l))
  ∧ (∀ id o h l, steps_by same_records (update_run_body id o h l)).
Proof.
  unfold enqueue_body, insert_run, append_queued_event, insert_job, append_body, resolve_idempotent,
    persist_event, insert_event, settle_lease, complete_active_lease, reject_active_lease,
    save_attempt, save_job, save_subject_response_body, update_run_body, save_run.
  split_and!; walk; apply append_once_records.
Qed.

(** Every command follows both relations. *)
Lemma exec_step c env s :
  queue_step (st_db s) (st_db (fst (exec c env s)))
  ∧ records_step (st_db s) (st_db (fst (exec c env s))).
Proof.
  destruct lease_bodies_ledger as (L1 & L2 & L3 & L4 & L5).
  destruct lease_bodies_records as (R1 & R2 & R3 & R4 & R5).
  destruct ledger_bodies_records as (R6 & R7 & R8 & R9).
  destruct evaluation_bodies_queue as (Q1 & Q2 & _ & Q4 & _).
  destruct c; cbn [exec]; unfold outcome; cbn [fst];
    try (split; [apply same_queue_frame, save_evaluation_queue|apply save_evaluation_step]);
    try (split; [apply same_queue_frame, save_checkpoint_queue|apply save_checkpoint_step]);
    unfold enqueue_run, claim_next_job, heartbeat_lease,
    release_lease, reject_lease, complete_lease, prepare_run_execution, append_event,
    save_subject_response, update_run, save_grade, save_deterministic_evaluation, save_snapshot;
    split; apply transaction_steps; try apply _;
    auto using enqueue_queue, enqueue_ledger, claim_body_step, heartbeat_body_step,
      release_body_step, reject_body_step, complete_body_step, prepare_queue, prepare_ledger,
      append_body_queue, append_body_ledger, save_subject_response_queue,
      save_subject_response_ledger, update_run_queue, update_run_ledger, same_ledger_step,
      same_queue_step, records_unchanged, prepare_records, save_grade_records,
      save_snapshot_records, deterministic_body_records.
Qed.

Lemma steps_step s s' :
  steps s s' → queue_step (st_db s) (st_db s') ∧ records_step (st_db s) (st_db s').
Proof.
  induction 1 as [s|s1 s2 s3 (c & env & ->) _ [Q L]]; [done|].
  destruct (exec_step c env s1) as [Q1 L1]. split; by etrans.
Qed.

Lemma initial_inv s : initial s → queue_inv (st_db s) ∧ records_inv (st_db s).
Proof.
  intros (Hr & He & Hj & Ha & Hev & Hck & Hg).
  destruct (queue_frame empty_db (st_db s) Hj Ha queue_inv_empty) as [Hq _].
  destruct (ledger_frame empty_db (st_db s) Hr He ledger_inv_empty) as [Hl _].
  split; [done|]. split; [done| | |by rewrite Hg].
  - split; rewrite Hev; done.
  - intros k row. by rewrite Hck.
Qed.

Lemma reachable_records s : reachable s → queue_inv (st_db s) ∧ records_inv (st_db s).
Proof.
  intros (s0 & Hi & Hs). destruct (initial_inv _ Hi) as [Hq Hr].
  apply steps_step in Hs as [Q R]. split; [by apply Q|by apply R].
Qed.

Lemma reachable_inv s : reachable s → queue_inv (st_db s) ∧ ledger_inv (st_db s).
Proof. intros [Hq [Hl _ _ _]]%reachable_records. done. Qed.

(** What a reachable state keeps along every continuation. *)
Lemma reachable_evolves s s' :
  reachable s → steps s s' →
  evolves (st_db s) (st_db s') ∧ ledger_evolves (st_db s) (st_db s') ∧ keeps (st_db s) (st_db s').
Proof.
  intros [Hq Hr]%reachable_records [Q R]%steps_step. destruct (Q Hq) as [_ He].
  destruct (R Hr) as (_ & Hl & Hk). done.
Qed.

Lemma reachable_steps s s' : reachable s → steps s s' → reachable s'.
Proof. intros (s0 & Hi & H0) Hs. exists s0. split; [done|]. by etrans. Qed.
End system.
