(* ===== verification/Scenario.v ===== *)
(** * One Run from enqueue to completion

    The sample RunSpec, admitted by the sample envelope, is enqueued, claimed, prepared,
    invoked, answered, evaluated and completed by a worker, command by command. The states
    are reachable, and the theorems on reachable states are instantiated on them. *)

From S2P Require Import Prelude PyText PyJson Sha256 Base Authoring Runtime Events Triage Trust.
From S2P Require Import Samples Evaluation Registry Compiler Admission Store Lease Handlers Ledger.
From S2P Require Import LedgerInv Queue EvalStore EvalInv System.

(** The repository's default: no human ceremony can be verified. *)
#[export] Instance production_verifier : HumanVerifier := unavailable_verify.

Definition scn_spec_row : RunSpecRow :=
  MkRunSpecRow "spec_1" sample_spec (spec_digest sample_spec) 0.

Definition scn_admission_row : AdmissionRecordRow :=
  MkAdmissionRow "adm_1" "spec_1" AdmissionAdmitted sample_record (admission_digest sample_record)
    (Some (trust_trust_id sample_trust)) (Some (trust_digest sample_trust)) 0.

Definition scn_start : St := MkSt
  (MkDB ∅ [] ∅ ∅ {["spec_1" := scn_spec_row]} {["adm_1" := scn_admission_row]} ∅ ∅ ∅
     ∅ ∅) 0 0.

Definition scn_env : Env := {| env_now := λ _, 30%Z; env_id := λ n, pretty n |}.

Definition scn_envelope : SubjectEnvelope :=
  value_of (MkSubjectEnvelope "" sample_goal [] sample_protocol []
      (MkSubjectWorkspace "" [] [] NetDisabled EffDenied) sample_budgets [] None)
    (compile_subject_envelope sample_spec sample_record None).

Definition scn_snapshot : ContextSnapshot :=
  MkContextSnapshot "default" Full 1000 4 4 "text" (JArr []) (digest_of "c").

Definition scn_fence : LeaseFence := MkFence "job_2" "attempt_3" "w1" 1.

Definition request (event_type : string) (payload : RunEventPayload) (lease : option LeaseFence)
    (key : option string) (complete : bool) : AppendRequest :=
  MkAppendRequest "run_0" event_type payload "system" "evidrun" "internal" None None key lease
    complete None.

Definition scn_enqueue : command := Enqueue "spec_1" "adm_1" "request-1" None None (Some 10%Z).
Definition scn_claim : command := Claim "w1" 100 None (Some 20%Z).
Definition scn_prepare : command :=
  Prepare "run_0" sample_spec sample_record scn_snapshot scn_envelope scn_fence.
Definition scn_invoke_request : AppendRequest := request "subject.invoked"
  (PSubjectInvoked (MkSubjectInvokedPayload "scripted" NetDisabled (envelope_digest scn_envelope)
     None None None None None)) None (Some "subject:invoked") false.
Definition scn_invoke : command := Append scn_invoke_request.

Definition after (s : St) (c : command) : St := fst (exec c scn_env s).
Definition scn_1 : St := Eval vm_compute in after scn_start scn_enqueue.
Definition scn_2 : St := Eval vm_compute in after scn_1 scn_claim.
Definition scn_3 : St := Eval vm_compute in after scn_2 scn_prepare.
Definition scn_4 : St := Eval vm_compute in after scn_3 scn_invoke.

Definition scn_response : RunEventPayload :=
  PSubjectResponded (MkSubjectRespondedPayload None None (digest_of "f") CapMetadata [] []).
Definition scn_respond : command := Respond "run_0" sample_spec scn_response None scn_fence.
Definition scn_complete_request : AppendRequest := request "run.completed"
  (PRunTerminal (MkRunTerminalPayload completed (GoalStateTerminalResult GAchieved)
     "Subject answered and every stage passed" ["rec_1"] [])) (Some scn_fence)
  (Some "run:completed") true.

Definition scn_5 : St := Eval vm_compute in after scn_4 scn_respond.

(** The grader's record: bounded by the response it cites. *)
Definition no_event : RunEventRow :=
  MkRunEventRow "" "" 0 "" 0 "" "" "" JNull "" None None "" None.
Definition scn_responded : RunEventRow :=
  Eval vm_compute in default no_event (event_at "run_0" 7 (st_db scn_5)).
Definition scn_record : EvaluationRecord := Eval vm_compute in
  MkEvaluationRecord "rec_1" "run_0" (spec_evaluation_plan_ref sample_spec) "grade"
    SrcDeterministicGrader sample_grader None None
    (MkEvaluationBoundary (Some 7%Z) (Some (evt_event_hash scn_responded)) None)
    [MkDimensionValue "correct" (SBool true) "matches" None
       [MkEvidenceRef ("event:" +:+ evt_id scn_responded)]]
    GatePassed Final None None 30.
(** [1.0]. *)
Definition score_one : pyfloat := MkFloat (SpecFloat.S754_finite false 4503599627370496 (-52)) eq_refl.
Definition scn_evaluate : command :=
  SaveDeterministic scn_record score_one true "matches" [] scn_fence.

Definition scn_6 : St := Eval vm_compute in after scn_5 scn_evaluate.
Definition scn_7 : St := Eval vm_compute in after scn_6 (Append scn_complete_request).

(** Every command of the scenario goes through, and leads to the next state. *)
Lemma scn_1_step : exec scn_enqueue scn_env scn_start = (scn_1, Ok tt).
Proof. vm_compute. reflexivity. Qed.
Lemma scn_2_step : exec scn_claim scn_env scn_1 = (scn_2, Ok tt).
Proof. vm_compute. reflexivity. Qed.
Lemma scn_3_step : exec scn_prepare scn_env scn_2 = (scn_3, Ok tt).
Proof. vm_compute. reflexivity. Qed.
Lemma scn_4_step : exec scn_invoke scn_env scn_3 = (scn_4, Ok tt).
Proof. vm_compute. reflexivity. Qed.
Lemma scn_5_step : exec scn_respond scn_env scn_4 = (scn_5, Ok tt).
Proof. vm_compute. reflexivity. Qed.
Lemma scn_6_step : exec scn_evaluate scn_env scn_5 = (scn_6, Ok tt).
Proof. vm_compute. reflexivity. Qed.
Lemma scn_7_step : exec (Append scn_complete_request) scn_env scn_6 = (scn_7, Ok tt).
Proof. vm_compute. reflexivity. Qed.

Example scenario_events :
  map evt_event_type (run_events "run_0" (st_db scn_7)) =
  ["run.queued"; "run.preparing"; "context.composed"; "capability.offered"; "run.running";
   "subject.invoked"; "subject.responded"; "run.evaluating"; "evaluation.completed";
   "run.completed"].
Proof. vm_compute. reflexivity. Qed.

Lemma after_steps s c : steps s (after s c).
Proof. apply rtc_once. by exists c, scn_env. Qed.

Lemma exec_steps s c s' r : exec c scn_env s = (s', r) → steps s s'.
Proof. intros Hc. apply rtc_once. exists c, scn_env. by rewrite Hc. Qed.

Lemma steps_trans s1 s2 s3 : steps s1 s2 → steps s2 s3 → steps s1 s3.
Proof. unfold steps. intros. by etrans. Qed.

Lemma scn_start_initial : initial scn_start.
Proof. split_and!; reflexivity. Qed.

Lemma reachable_exec s c s' r : exec c scn_env s = (s', r) → reachable s → reachable s'.
Proof. intros Hc Hr. exact (reachable_steps s s' Hr (exec_steps _ _ _ _ Hc)). Qed.

Lemma scn_start_reachable : reachable scn_start.
Proof. exists scn_start. split; [apply scn_start_initial|apply rtc_refl]. Qed.
Lemma scn_1_reachable : reachable scn_1.
Proof. exact (reachable_exec _ _ _ _ scn_1_step scn_start_reachable). Qed.
Lemma scn_2_reachable : reachable scn_2.
Proof. exact (reachable_exec _ _ _ _ scn_2_step scn_1_reachable). Qed.
Lemma scn_3_reachable : reachable scn_3.
Proof. exact (reachable_exec _ _ _ _ scn_3_step scn_2_reachable). Qed.
Lemma scn_4_reachable : reachable scn_4.
Proof. exact (reachable_exec _ _ _ _ scn_4_step scn_3_reachable). Qed.
Lemma scn_5_reachable : reachable scn_5.
Proof. exact (reachable_exec _ _ _ _ scn_5_step scn_4_reachable). Qed.
Lemma scn_6_reachable : reachable scn_6.
Proof. exact (reachable_exec _ _ _ _ scn_6_step scn_5_reachable). Qed.
Lemma scn_7_reachable : reachable scn_7.
Proof. exact (reachable_exec _ _ _ _ scn_7_step scn_6_reachable). Qed.

Lemma scn_steps_6_7 : steps scn_6 scn_7.
Proof. exact (exec_steps _ _ _ _ scn_7_step). Qed.
Lemma scn_steps_4_7 : steps scn_4 scn_7.
Proof.
  exact (steps_trans _ _ _ (exec_steps _ _ _ _ scn_5_step)
    (steps_trans _ _ _ (exec_steps _ _ _ _ scn_6_step) scn_steps_6_7)).
Qed.
Lemma scn_steps_1_7 : steps scn_1 scn_7.
Proof.
  exact (steps_trans _ _ _ (exec_steps _ _ _ _ scn_2_step)
    (steps_trans _ _ _ (exec_steps _ _ _ _ scn_3_step)
    (steps_trans _ _ _ (exec_steps _ _ _ _ scn_4_step) scn_steps_4_7))).
Qed.

(** The rows of the scenario, read off its states. *)
Definition blank_run : RunRow := MkRunRow "" None "" 0 queued "" "" None None None None None None
  None 0 None.
Definition run_at (s : St) : RunRow := default blank_run (db_runs (st_db s) !! "run_0").
Definition job_at (s : St) : RunExecutionJobRow :=
  default (demo_job "" 0) (db_jobs (st_db s) !! "job_2").
Definition attempt_at (s : St) : RunExecutionAttemptRow :=
  default (new_attempt "" "" 0 0 0 (demo_job "" 0)) (db_attempts (st_db s) !! "attempt_3").

Lemma default_some {A} (x : A) (o : option A) : bool_decide (is_Some o) = true → o = Some (default x o).
Proof. intros H%bool_decide_eq_true. destruct H as [y ->]. done. Qed.

Lemma run_at_6 : db_runs (st_db scn_6) !! "run_0" = Some (run_at scn_6).
Proof. apply default_some. vm_compute. reflexivity. Qed.
Lemma run_at_7 : db_runs (st_db scn_7) !! "run_0" = Some (run_at scn_7).
Proof. apply default_some. vm_compute. reflexivity. Qed.
Lemma job_at_7 : db_jobs (st_db scn_7) !! "job_2" = Some (job_at scn_7).
Proof. apply default_some. vm_compute. reflexivity. Qed.
Lemma attempt_at_2 : db_attempts (st_db scn_2) !! "attempt_3" = Some (attempt_at scn_2).
Proof. apply default_some. vm_compute. reflexivity. Qed.
Lemma attempt_at_7 : db_attempts (st_db scn_7) !! "attempt_3" = Some (attempt_at scn_7).
Proof. apply default_some. vm_compute. reflexivity. Qed.

(** An operation whose command went through, with its state and value. *)
Lemma outcome_returned {A} (x : A) (out : St * result A) s' :
  outcome out = (s', Ok tt) → out = (s', Ok (value_of x (snd out))).
Proof. destruct out as [s [a|e]]; unfold outcome; cbn; intros [= ->]; done. Qed.

(** The values the scenario's operations return. *)
Definition written (rq : AppendRequest) (s : St) : RunEventRow :=
  value_of no_event (snd (append_event rq scn_env s)).

Lemma append_returns rq s s' :
  exec (Append rq) scn_env s = (s', Ok tt) →
  append_event rq scn_env s = (s', Ok (written rq s)).
Proof. exact (outcome_returned no_event _ _). Qed.

Definition no_snapshot : ContextSnapshotRow := MkSnapshotRow "" "" "" Full 0 0 0 "" JNull "" 0.
Definition no_envelope : SubjectEnvelopeRow := MkEnvelopeRow "" JNull "" 0.
Definition scn_prepare_call (s : St) : St * result (ContextSnapshotRow * SubjectEnvelopeRow) :=
  prepare_run_execution "run_0" sample_spec sample_record scn_snapshot scn_envelope scn_fence
    scn_env s.
Definition prepared (s : St) : ContextSnapshotRow * SubjectEnvelopeRow :=
  value_of (no_snapshot, no_envelope) (snd (scn_prepare_call s)).

Lemma prepare_returns s s' :
  exec scn_prepare scn_env s = (s', Ok tt) →
  prepare_run_execution "run_0" sample_spec sample_record scn_snapshot scn_envelope scn_fence
    scn_env s = (s', Ok ((prepared s).1, (prepared s).2)).
Proof.
  intros Hok. rewrite <- surjective_pairing.
  exact (outcome_returned (no_snapshot, no_envelope) _ _ Hok).
Qed.
