(* ===== verification/Guarantees.v ===== *)
(** * What the run store guarantees

    Theorems about every reachable state of [System] and every continuation of it. Each
    theorem with hypotheses is applied by a witness to the concrete execution of
    [Scenario]. *)

From S2P Require Import Prelude PyText PyJson Base Authoring Runtime Events Triage Evaluation Store.
From S2P Require Import Registry Lease Handlers Ledger LedgerInv Lifecycle Queue EvalStore EvalInv System Samples Scenario.

Section guarantees.
Context `{PyRuntime} {HV : HumanVerifier}.

(** ** Leases *)

(** The commands that act under a fence. *)
Definition uses_fence (fence : LeaseFence) (c : command) : Prop :=
  match c with
  | Heartbeat f _ _ | Release f _ _ _ | Reject f _ _ | Complete f _
  | Prepare _ _ _ _ _ f | Respond _ _ _ _ f | SaveDeterministic _ _ _ _ _ f => f = fence
  | Append rq => rq_lease rq = Some fence
  | UpdateRun _ _ _ l | SaveGrade _ _ _ _ _ _ l | SaveEvaluation _ l | SaveSnapshot _ _ l =>
      l = Some fence
  | Enqueue _ _ _ _ _ _ | Claim _ _ _ _ | SaveCheckpoint _ => False
  end.

Definition live (d : DB) (fence : LeaseFence) : Prop := ∃ now j a, fence_holds d fence now j a.

Lemma live_optional fence run env s u s' :
  validate_optional_lease (Some fence) run env s = Ok (u, s') → live (st_db s) fence.
Proof. intros (now & j & a & Hf & _)%validate_optional_lease_ok. by exists now, j, a. Qed.

(** A fenced command that goes through held a live fence. *)
Lemma fenced_body_live {A} (fence : LeaseFence) (pre : Tx instant) (k : instant → Tx A)
    env s a s' :
  reads pre →
  (∀ t env s a s', k t env s = Ok (a, s') → live (st_db s) fence) →
  (pre ≫= k) env s = Ok (a, s') → live (st_db s) fence.
Proof.
  intros Hp Hk (t & s1 & E1 & E2)%tx_bind_ok. apply Hk in E2. by rewrite (Hp _ _ _ _ E1) in E2.
Qed.

Lemma live_required {A} fence t (k : RunExecutionJobRow * RunExecutionAttemptRow → Tx A)
    env s a s' :
  (require_active_lease fence t ≫= k) env s = Ok (a, s') → live (st_db s) fence.
Proof.
  intros ([j b] & s1 & E1 & _)%tx_bind_ok. apply require_active_lease_ok in E1 as [_ Hf].
  by exists t, j, b.
Qed.

Lemma heartbeat_live f l now env s a s' :
  heartbeat_body f l now env s = Ok (a, s') → live (st_db s) f.
Proof.
  apply fenced_body_live; [auto with evidrun|]. intros t env' s1 a1 s1'. apply live_required.
Qed.

Lemma complete_live f now env s a s' :
  complete_body f now env s = Ok (a, s') → live (st_db s) f.
Proof.
  apply fenced_body_live; [auto with evidrun|]. intros t env' s1 a1 s1'. apply live_required.
Qed.

Lemma reject_live f c now env s a s' :
  reject_body f c now env s = Ok (a, s') → live (st_db s) f.
Proof.
  intros (u & s1 & E1 & E)%tx_bind_ok. apply lift_ok in E1 as [_ ->]. revert E.
  apply fenced_body_live; [auto with evidrun|]. intros t env' s1 a1 s1'. apply live_required.
Qed.

Lemma release_live f c at_ now env s a s' :
  release_body f c at_ now env s = Ok (a, s') → live (st_db s) f.
Proof.
  intros (u & s1 & E1 & E)%tx_bind_ok. apply lift_ok in E1 as [_ ->]. revert E.
  apply fenced_body_live; [auto with evidrun|]. intros t env' s1 a1 s1'. apply live_required.
Qed.

Lemma prepare_live r sp ad sn en f env s a s' :
  prepare_body r sp ad sn en f env s = Ok (a, s') → live (st_db s) f.
Proof.
  apply fenced_body_live; [auto with evidrun|]. intros t env' s1 a1 s1'.
  intros (u & s2 & E1 & _)%tx_bind_ok. by apply live_optional in E1.
Qed.

Lemma respond_live r sp p o f env s a s' :
  save_subject_response_body r sp p o f env s = Ok (a, s') → live (st_db s) f.
Proof. intros (u & s2 & E1 & _)%tx_bind_ok. by apply live_optional in E1. Qed.

Lemma append_live rq f env s a s' :
  rq_lease rq = Some f → append_body rq env s = Ok (a, s') →
  ∃ now j at_, fence_holds (st_db s) f now j at_ ∧ job_run_id j = rq_run_id rq.
Proof.
  intros Hl (p & s1 & E1 & E)%tx_bind_ok. apply lift_ok in E1 as [_ ->].
  apply tx_bind_ok in E as (u & s2 & E1 & _). rewrite Hl in E1. by apply validate_optional_lease_ok in E1.
Qed.

Lemma update_live r o h f env s a s' :
  update_run_body r o h (Some f) env s = Ok (a, s') → live (st_db s) f.
Proof. intros (u & s2 & E1 & _)%tx_bind_ok. by apply live_optional in E1. Qed.

(** A body that starts by validating its optional lease. *)
Lemma optional_live {A} run f (k : unit → Tx A) env s a s' :
  (validate_optional_lease (Some f) run ≫= k) env s = Ok (a, s') → live (st_db s) f.
Proof. intros (u & s2 & E1 & _)%tx_bind_ok. by apply live_optional in E1. Qed.

Lemma deterministic_live r sc p ra ev f env s a s' :
  deterministic_body r sc p ra ev f env s = Ok (a, s') → live (st_db s) f.
Proof. intros (u & s2 & [_ ->]%guard_ok & E)%tx_bind_ok. by apply optional_live in E. Qed.

Lemma transaction_raise {A B} (body : Tx A) (model : A → result B) env s :
  (∀ a s', body env s ≠ Ok (a, s')) →
  ∃ e, outcome (transaction body model env s) = (s, Raise e).
Proof.
  intros Hb. unfold outcome, transaction. destruct (body env s) as [[a s']|e].
  - by destruct (Hb a s').
  - by exists e.
Qed.

Lemma dead_fence_raises fence c env s :
  uses_fence fence c → ¬ live (st_db s) fence → ∃ e, exec c env s = (s, Raise e).
Proof.
  intros Hu Hn. destruct c; cbn in Hu; try done; subst;
    [apply transaction_raise; intros x s' E; apply Hn..| |
     apply transaction_raise; intros x s' E; apply Hn
     |apply transaction_raise; intros x s' E; apply Hn].
  - by eapply heartbeat_live.
  - by eapply release_live.
  - by eapply reject_live.
  - by eapply complete_live.
  - by eapply prepare_live.
  - eapply append_live in E as (now & j & a & Hf & _); [by exists now, j, a|done].
  - by eapply respond_live.
  - by eapply update_live.
  - by eapply optional_live.
  - cbn [exec]. unfold save_evaluation_record, outcome. rewrite op_bind_eq. unfold transaction.
    destruct (existing_evaluation record (Some fence) env s) as [[x s']|e] eqn:E; [|by exists e].
    destruct Hn. by eapply optional_live.
  - by eapply deterministic_live.
  - by eapply optional_live.
Qed.

(** A fence whose attempt was settled, or whose job was claimed again. *)
Definition superseded (d : DB) (fence : LeaseFence) : Prop :=
  ∃ a, db_attempts d !! f_attempt_id fence = Some a
  ∧ (att_status a ≠ AttLeased
     ∨ ∃ j, db_jobs d !! f_job_id fence = Some j
            ∧ (f_lease_generation fence < job_lease_generation j)%Z).

Lemma superseded_not_live d fence : superseded d fence → ¬ live d fence.
Proof.
  intros (a & Ha & Hs) (now & j & a' & Hj & Ha' & _ & _ & Hg & _ & Hst & _).
  rewrite Ha in Ha'. injection Ha' as <-. destruct Hs as [?|(j' & Hj' & Hlt)]; [done|].
  rewrite Hj in Hj'. injection Hj' as <-. lia.
Qed.

Lemma superseded_evolves d d' fence : evolves d d' → superseded d fence → superseded d' fence.
Proof.
  intros [Ej Ea] (a & Ha & Hs). destruct (Ea _ _ Ha) as (a' & Ha' & _ & Hfix).
  exists a'. split; [done|]. destruct Hs as [Hs|(j & Hj & Hlt)].
  - left. by rewrite Hfix.
  - right. destruct (Ej _ _ Hj) as (j' & Hj' & _ & _ & _ & Hg & _). exists j'. split; [done|lia].
Qed.

(** C2: at most one worker holds a job. In a reachable state a job has at most one leased
    attempt; the job row is leased, names that attempt and carries its generation; and two
    fences that are live on the job are the same fence. *)
Theorem lease_exclusive s id1 id2 a1 a2 :
  reachable s →
  db_attempts (st_db s) !! id1 = Some a1 → att_status a1 = AttLeased →
  db_attempts (st_db s) !! id2 = Some a2 → att_status a2 = AttLeased →
  att_job_id a1 = att_job_id a2 →
  id1 = id2 ∧ a1 = a2
  ∧ (∃ j, db_jobs (st_db s) !! att_job_id a1 = Some j ∧ job_status j = JobLeased
          ∧ job_active_attempt_id j = Some id1
          ∧ job_lease_generation j = att_lease_generation a1)
  ∧ ∀ f1 f2, live (st_db s) f1 → live (st_db s) f2 →
      f_job_id f1 = att_job_id a1 → f_job_id f2 = att_job_id a1 → f1 = f2.
Proof.
  intros Hr H1 L1 H2 L2 Ej. destruct (reachable_inv _ Hr) as [Hq _].
  destruct (qi_leased _ Hq _ _ H1 L1) as (j & Hj & C1).
  destruct (qi_leased _ Hq _ _ H2 L2) as (j2 & Hj2 & C2).
  rewrite <- Ej, Hj in Hj2. injection Hj2 as <-. assert (id1 = id2) as -> by congruence.
  rewrite H1 in H2. injection H2 as ->. split_and!; [done..| |].
  - pose proof (qi_active _ Hq _ _ Hj) as Hact. rewrite C1 in Hact.
    destruct Hact as (Hl & row & Hrow & _ & _ & Hg). rewrite H1 in Hrow. injection Hrow as <-.
    by exists j.
  - intros f1 f2 (t1 & j1 & b1 & J1 & A1 & _ & D1 & G1 & _ & _ & W1 & _)
      (t2 & j2 & b2 & J2 & A2 & _ & D2 & G2 & _ & _ & W2 & _) E1 E2.
    rewrite E1, Hj in J1. rewrite E2, Hj in J2. injection J1 as <-. injection J2 as <-.
    rewrite D1 in D2. injection D2 as E. rewrite E in A1. rewrite A1 in A2. injection A2 as ->.
    destruct f1, f2; cbn in *. congruence.
Qed.

(** C3: a superseded fence is dead for good. Once its attempt was settled, or its job was
    claimed under a later generation, then in every later state every command under that
    fence raises and leaves the database exactly as it was. *)
Theorem superseded_fence_rejected s s' fence c env :
  reachable s → superseded (st_db s) fence → steps s s' → uses_fence fence c →
  ∃ e, exec c env s' = (s', Raise e).
Proof.
  intros Hr Hs Hss Hu. destruct (reachable_evolves _ _ Hr Hss) as [He _].
  apply (dead_fence_raises fence); [done|].
  by apply superseded_not_live, (superseded_evolves _ _ _ He).
Qed.

(** A settled job is final: once completed or rejected its row never changes again,
    and no attempt of it ever becomes leased again. *)
Theorem settled_job_final s s' k j :
  reachable s → steps s s' → db_jobs (st_db s) !! k = Some j → job_terminal (job_status j) = true →
  db_jobs (st_db s') !! k = Some j
  ∧ ∀ id a, db_attempts (st_db s') !! id = Some a → att_job_id a = k → att_status a ≠ AttLeased.
Proof.
  intros Hr Hs Hj Ht. pose proof (reachable_inv _ (reachable_steps _ _ Hr Hs)) as [Hq' _].
  destruct (reachable_evolves _ _ Hr Hs) as [He _]. destruct (ev_job _ _ He _ _ Hj) as (j' & Hj' & _ & _ & _ & _ & Hfix).
  rewrite (Hfix Ht) in Hj'. split; [done|]. intros id a Ha Hk Hl.
  destruct (qi_leased _ Hq' _ _ Ha Hl) as (x & Hx & Eact). rewrite Hk, Hj' in Hx. injection Hx as <-.
  pose proof (qi_active _ Hq' _ _ Hj') as Hact. rewrite Eact in Hact. destruct Hact as [E _].
  by rewrite E in Ht.
Qed.

(** ** The ledger *)

(** C1: the ledger refines the lifecycle specification. In a reachable state the events of
    a Run are numbered 1, 2, ... in the order they were written, each names its
    predecessor's hash and hashes its own envelope; their types are a path of the
    lifecycle rules [flow] and the stored status is the state they lead to. Only a Run
    with no event yet, which is queued, is outside. *)
Theorem ledger_refines_lifecycle s id run :
  reachable s → db_runs (st_db s) !! id = Some run →
  let events := run_events id (st_db s) in
  chain None 1 events
  ∧ events_by_sequence id (st_db s) = events
  ∧ ((events = [] ∧ run_status run = queued)
     ∨ ∃ l, flows (map evt_event_type events) l ∧ run_status run = lf_status l).
Proof.
  intros Hr Hrun events. destruct (reachable_inv _ Hr) as [_ Hl].
  split_and!; [apply (li_chain _ Hl)|by apply events_by_sequence_id|].
  destruct (li_life _ Hl _ _ Hrun) as [H0|(l & Hlives & Hst)]; [by left|right].
  exists l. split; [by apply lives_flows|done].
Qed.

(** History is append-only and contracts are pinned. Along any continuation the event
    table only grows at its end, no stored evaluation record, checkpoint or Grade changes
    or disappears, RunSpecs and admissions stay as they were, and every Run keeps its
    identity: variant, RunSpec, admission, execution trust, retry source and creation
    time. *)
Theorem history_append_only s s' id run :
  reachable s → steps s s' → db_runs (st_db s) !! id = Some run →
  db_events (st_db s) `prefix_of` db_events (st_db s')
  ∧ (∃ run', db_runs (st_db s') !! id = Some run' ∧ pinned run run')
  ∧ db_evaluations (st_db s) ⊆ db_evaluations (st_db s')
  ∧ db_checkpoints (st_db s) ⊆ db_checkpoints (st_db s')
  ∧ db_grades (st_db s) ⊆ db_grades (st_db s')
  ∧ db_run_specs (st_db s') = db_run_specs (st_db s)
  ∧ db_admissions (st_db s') = db_admissions (st_db s).
Proof.
  intros Hr Hs Hrun. destruct (reachable_evolves _ _ Hr Hs) as (_ & [He Hru] & Hk).
  destruct (Hru _ _ Hrun) as (r' & Hr' & Hp & _). destruct Hk. split_and!; eauto.
Qed.

(** C8: terminal Runs are closed. Once a Run is terminal no command changes its status or
    its end time or adds an event to it; an append of a new event raises. *)
Theorem terminal_run_closed s s' id run :
  reachable s → steps s s' → db_runs (st_db s) !! id = Some run →
  is_terminal (run_status run) = true →
  run_events id (st_db s') = run_events id (st_db s)
  ∧ (∃ run', db_runs (st_db s') !! id = Some run' ∧ run_status run' = run_status run
             ∧ run_completed_at run' = run_completed_at run)
  ∧ run_completed_at run ≠ None
  ∧ ∀ rq env, rq_run_id rq = id → rq_operation_key rq = None →
      ∃ e, exec (Append rq) env s' = (s', Raise e).
Proof.
  intros Hr Hs Hrun Ht. destruct (reachable_inv _ Hr) as [_ Hl].
  destruct (reachable_evolves _ _ Hr Hs) as (_ & [He Hru] & _). destruct (Hru _ _ Hrun) as (r' & Hr' & _ & Hc).
  destruct (Hc Ht) as (S1 & C1 & V1). split_and!; [done|by exists r'|by apply (li_completed _ Hl _ _ Hrun)|].
  intros rq env Hid Hkey. apply transaction_raise. intros row s2 E. unfold append_body in E.
  apply tx_bind_ok in E as (p & s3 & E3 & E). apply lift_ok in E3 as [_ ->].
  apply tx_bind_ok in E as (u & s3 & E3 & E). apply reads_validate_optional_lease in E3.
  apply tx_bind_ok in E as (run2 & s4 & E4 & E). apply fetch_ok in E4 as [Hrun2 ->].
  rewrite Hkey in E. inv_tx.
  match goal with H : validate_phase _ _ _ = Ok ?u |- _ => destruct u;
    apply validate_phase_ok in H as [Hopen _] end.
  unfold get_run in Hrun2. rewrite E3, Hr' in Hrun2. injection Hrun2 as <-. congruence.
Qed.

Lemma lives_responded ts l :
  lives ts l → lf_status l = evaluating ∨ lf_status l = completed → lf_responded l = true.
Proof.
  induction 1 as [|ts l t l' Hl IH Hs]; [by intros [?|?]|].
  unfold life_step in Hs. destruct (_ || _ || _ || _) eqn:E; [done|].
  rewrite !orb_false_iff, !negb_false_iff in E. destruct E as [[[_ _] Hturn] _].
  destruct (assoc t transition) as [[from to]|] eqn:Ha.
  - destruct (lf_status l ∈b from) eqn:Hin; [|done]. apply bool_decide_eq_true in Hin.
    injection Hs as <-. cbn. unfold transition in Ha. cbn in Ha.
    repeat (case_decide; [injection Ha as <- <-; subst t; cbn in *|]); try done;
      intros [?|?]; try done.
    + change (lf_responded l = true) in Hturn. by rewrite Hturn.
    + apply list_elem_of_singleton in Hin. rewrite IH by by left. done.
  - injection Hs as <-. cbn. intros Hst. by rewrite IH.
Qed.

(** No verdict without a response. A Run that is under evaluation or completed has a
    Subject response in its ledger, and at most one Subject invocation is ever unanswered. *)
Lemma evaluated_run_responded s id run :
  reachable s → db_runs (st_db s) !! id = Some run →
  let types := map evt_event_type (run_events id (st_db s)) in
  (count_of "subject.responded" types <= count_of "subject.invoked" types
   <= count_of "subject.responded" types + 1)%nat
  ∧ (run_status run = evaluating ∨ run_status run = completed → "subject.responded" ∈ types).
Proof.
  intros Hr Hrun types. destruct (reachable_inv _ Hr) as [_ Hl].
  destruct (li_life _ Hl _ _ Hrun) as [[Hn Hst]|(l & Hli & Hst)].
  - unfold types. rewrite Hn, Hst. cbn. split; [lia|naive_solver].
  - fold types in Hli. destruct (lives_facts _ _ Hli) as [Hre Hp].
    split; [destruct (lf_pending l); lia|]. rewrite Hst. intros Hs%(lives_responded _ _ Hli).
    rewrite Hs in Hre. symmetry in Hre. by apply bool_decide_eq_true in Hre.
Qed.
End guarantees.

(** ** On the scenario *)

Lemma lease_exclusive_witness :
  ∃ j, db_jobs (st_db scn_2) !! att_job_id (attempt_at scn_2) = Some j
    ∧ job_status j = JobLeased ∧ job_active_attempt_id j = Some "attempt_3"
    ∧ job_lease_generation j = att_lease_generation (attempt_at scn_2).
Proof.
  destruct (lease_exclusive scn_2 "attempt_3" "attempt_3" (attempt_at scn_2) (attempt_at scn_2)
    scn_2_reachable attempt_at_2 ltac:(vm_compute; reflexivity) attempt_at_2
    ltac:(vm_compute; reflexivity) eq_refl) as (_ & _ & Hj & _).
  exact Hj.
Defined.

Lemma superseded_fence_rejected_witness :
  ∃ e, exec (Heartbeat scn_fence 10 None) scn_env scn_7 = (scn_7, Raise e).
Proof.
  apply (superseded_fence_rejected scn_7 scn_7 scn_fence).
  - exact scn_7_reachable.
  - exists (attempt_at scn_7). split; [exact attempt_at_7|left]. vm_compute. discriminate.
  - apply rtc_refl.
  - reflexivity.
Defined.

Lemma settled_job_final_witness :
  db_jobs (st_db (after scn_7 (Claim "w2" 5 None None))) !! "job_2" = Some (job_at scn_7).
Proof.
  refine (proj1 (settled_job_final scn_7 (after scn_7 (Claim "w2" 5 None None)) "job_2"
    (job_at scn_7) scn_7_reachable (after_steps scn_7 _) job_at_7 _)). vm_compute. reflexivity.
Defined.

Lemma ledger_refines_lifecycle_witness :
  chain None 1 (run_events "run_0" (st_db scn_7)) ∧ run_status (run_at scn_7) = completed.
Proof.
  split; [|vm_compute; reflexivity].
  exact (proj1 (ledger_refines_lifecycle scn_7 "run_0" (run_at scn_7) scn_7_reachable run_at_7)).
Defined.

Lemma history_append_only_witness :
  db_events (st_db scn_6) `prefix_of` db_events (st_db scn_7).
Proof.
  exact (proj1 (history_append_only scn_6 scn_7 "run_0" (run_at scn_6) scn_6_reachable
    scn_steps_6_7 run_at_6)).
Defined.

Lemma terminal_run_closed_witness :
  run_events "run_0" (st_db (after scn_7 scn_invoke)) = run_events "run_0" (st_db scn_7).
Proof.
  refine (proj1 (terminal_run_closed scn_7 (after scn_7 scn_invoke) "run_0" (run_at scn_7)
    scn_7_reachable (after_steps scn_7 scn_invoke) run_at_7 _)). vm_compute. reflexivity.
Defined.
