(* ===== verification/Replay.v ===== *)
(** * The verifier and the ledger agree

    The replay accepts every ledger the stores can write, and whatever it accepts is a hash
    chain whose event types are a path of the lifecycle, with every tool call closed. *)

From S2P Require Import Prelude PyText PyJson Base Authoring Runtime Events Triage Evaluation Store.
From S2P Require Import Registry Lease Handlers Ledger LedgerInv Lifecycle Queue EvalStore EvalInv.
From S2P Require Import Verify System Samples Scenario Guarantees.

(** The verifier's tables are the ledger's. *)
Lemma transitions_same : TRANSITIONS = transition.
Proof. reflexivity. Qed.

Lemma py_eqb_refl v : py_eqb v v = true.
Proof. unfold py_eqb. by apply bool_decide_eq_true_2. Qed.

Lemma jget_default k doc m v :
  doc = JObj m → obj_get k m = Some v → default JNull (jget k doc) = v.
Proof. intros -> Hk. cbn. rewrite Hk. by destruct v. Qed.

(** ** Collecting tools *)

Section tools.
Context `{PyRuntime}.

Lemma fold_res_snoc {A B} (f : B → A → result B) acc l x :
  fold_res f acc (l ++ [x]) = (acc' ← fold_res f acc l; f acc' x).
Proof.
  revert acc. induction l as [|y l IH]; intros acc; cbn.
  - by destruct (f acc x).
  - destruct (f acc y); cbn; [apply IH|done].
Qed.

Lemma collect_snoc es e ts :
  collect_tools es = Ok ts → collect_tools (es ++ [e]) = tool_step ts e.
Proof. intros Hc. unfold collect_tools in *. by rewrite fold_res_snoc, Hc. Qed.

Lemma mapM_snoc {A B} (f : A → result B) l x ys :
  mapM f (l ++ [x]) = Ok ys → ∃ zs z, mapM f l = Ok zs ∧ f x = Ok z ∧ ys = zs ++ [z].
Proof.
  revert ys. induction l as [|y l IH]; intros ys Hm; cbn in Hm; inv_ok.
  - exists [], x0. done.
  - destruct (IH _ H1) as (zs & z & E1 & E2 & ->). exists (x0 :: zs), z. cbn.
    rewrite H0. cbn. rewrite E1. done.
Qed.

Lemma call_ids_snoc types es e called :
  call_ids types (es ++ [e]) = Ok called →
  if evt_event_type e ∈b types
  then ∃ before c, call_ids types es = Ok before ∧ item_text (evt_payload e) "call_id" = Ok c
       ∧ called = before ++ [c]
  else call_ids types es = Ok called.
Proof.
  unfold call_ids. rewrite List.filter_app. cbn.
  destruct (evt_event_type e ∈b types); [|by rewrite app_nil_r].
  intros Hm. by apply (mapM_snoc (λ e, item_text (evt_payload e) "call_id")) in Hm.
Qed.

(** What the ledger's collection of tools says about the call identifiers. *)
Lemma collect_call_ids es ts :
  collect_tools es = Ok ts →
  (∀ called, call_ids ["tool.called"] es = Ok called → dom (tool_calls ts) = list_to_set called)
  ∧ (∀ closed, call_ids TOOL_TERMINAL_TYPES es = Ok closed →
       tool_terminals ts = list_to_set closed).
Proof.
  revert ts. induction es as [|e es IH] using rev_ind; intros ts Hc.
  { injection Hc as <-. cbn. split; intros ? [= <-]; set_solver. }
  unfold collect_tools in Hc. rewrite fold_res_snoc in Hc.
  apply bind_ok in Hc as (ts0 & H0 & Hstep). destruct (IH ts0 H0) as [IH1 IH2].
  unfold tool_step in Hstep. split; intros ids Hids; apply call_ids_snoc in Hids.
  - destruct (decide (evt_event_type e = "tool.called")) as [Ht|Ht].
    + rewrite Ht in *. cbn in Hids, Hstep. destruct Hids as (before & c & Hb & Hcid & ->).
      rewrite Hcid in Hstep. cbn in Hstep. injection Hstep as <-. cbn.
      rewrite dom_insert_L, (IH1 _ Hb), list_to_set_app_L. set_solver.
    + rewrite bool_decide_eq_false_2 in Hids by set_solver. rewrite <- (IH1 _ Hids).
      repeat case_bool_decide; inv_ok; done.
  - destruct (decide (evt_event_type e ∈ TOOL_TERMINAL_TYPES)) as [Ht|Ht].
    + rewrite bool_decide_eq_true_2 in Hids by done.
      destruct Hids as (before & c & Hb & Hcid & ->).
      unfold TOOL_TERMINAL_TYPES in Ht. rewrite !elem_of_cons in Ht.
      destruct Ht as [Ht|[Ht|[Ht|[]%not_elem_of_nil]]]; rewrite Ht in Hstep; cbn in Hstep;
        rewrite Hcid in Hstep; cbn in Hstep; injection Hstep as <-; cbn;
        rewrite (IH2 _ Hb), list_to_set_app_L; set_solver.
    + rewrite bool_decide_eq_false_2 in Hids by done. rewrite <- (IH2 _ Hids).
      unfold TOOL_TERMINAL_TYPES in Ht. repeat case_bool_decide; inv_ok; try done. set_solver.
Qed.
End tools.

(** ** The replay follows the ledger *)

Section follows.
Context `{PyRuntime} `{PayloadDump} `{!PayloadDumpLaws}.

(** What the replay counted and collected over the events [pre] of a ledger. *)
Record counted (pre : list RunEventRow) (st : ChainState) : Prop := {
  ct_invocations : cs_subject_invocations st = count_of "subject.invoked" (map evt_event_type pre);
  ct_responses : cs_subject_responses st = count_of "subject.responded" (map evt_event_type pre);
  ct_tools : ∃ ts, collect_tools pre = Ok ts ∧ cs_offered_capabilities st = offered_refs ts
    ∧ cs_tool_terminals st = tool_terminals ts ∧ tool_terminals ts ⊆ dom (tool_calls ts)
    ∧ ∀ c, match tool_calls ts !! c, cs_tool_calls st !! c with
           | Some (p, _), Some k => ∃ cap, jitem "capability_ref" p = Ok cap ∧ k = canonical_json cap
           | None, None => True
           | _, _ => False
           end
}.

(** The state of the replay after [pre]. *)
Record tracks (pre : list RunEventRow) (st : ChainState) : Prop := {
  tk_previous : cs_previous st = jopt JStr (head_hash None pre);
  tk_status : (pre = [] ∧ cs_current_status st = queued)
    ∨ ∃ l, lives (map evt_event_type pre) l ∧ cs_current_status st = lf_status l;
  tk_counted : counted pre st
}.

(** A row the ledger of [id] wrote after [pre]. *)
Record follows (id : string) (pre : list RunEventRow) (e : RunEventRow) : Prop := {
  fo_run : evt_run_id e = id;
  fo_sequence : evt_sequence e = (1 + Z.of_nat (length pre))%Z;
  fo_previous : evt_prev_event_hash e = head_hash None pre;
  fo_hash : evt_event_hash e = sha256_json (row_envelope e);
  fo_sound : sound_row pre e;
  fo_life : (pre = [] ∧ evt_event_type e = "run.queued")
    ∨ ∃ l l', lives (map evt_event_type pre) l ∧ life_step l (evt_event_type e) = Some l'
}.

Lemma envelope_ok id pre e st :
  follows id pre e → tracks pre st →
  envelope_valid (row_envelope e) id (1 + Z.of_nat (length pre)) (JStr (evt_event_hash e)) st
  = Ok true.
Proof.
  intros Hf Ht. destruct (fo_sound _ _ _ Hf) as [_ Hact Hblank Hres _ _ _].
  unfold envelope_valid, get_not.
  rewrite (jget_default "schema_version" (row_envelope e) _ (JStr "1") eq_refl) by reflexivity.
  rewrite (jget_default "run_id" (row_envelope e) _ (JStr (evt_run_id e)) eq_refl) by reflexivity.
  rewrite (jget_default "sequence" (row_envelope e) _ (JInt (evt_sequence e)) eq_refl) by reflexivity.
  rewrite (jget_default "actor_type" (row_envelope e) _ (JStr (evt_actor_type e)) eq_refl) by reflexivity.
  rewrite (jget_default "prev_event_hash" (row_envelope e) _ (jopt JStr (evt_prev_event_hash e)) eq_refl) by reflexivity.
  change (document_type (row_envelope e)) with (evt_event_type e).
  change (blank_actor (row_envelope e)) with (is_blank (evt_actor_id e)).
  rewrite (fo_run _ _ _ Hf), (fo_sequence _ _ _ Hf), (fo_previous _ _ _ Hf), <- (tk_previous _ _ Ht).
  rewrite !py_eqb_refl, Hblank. cbn [not_in]. rewrite (bool_decide_eq_true_2 (evt_actor_type e ∈ _)) by done.
  rewrite (bool_decide_eq_false_2 (evt_event_type e ∈ _)) by done.
  rewrite (fo_hash _ _ _ Hf), bool_decide_eq_true_2 by done. done.
Qed.

Lemma payload_ok pre e :
  sound_row pre e → payload_normal (evt_event_type e) (evt_payload e) = Ok true.
Proof.
  intros [[p Hp] _ _ _ _ _ _]. pose proof Hp as Hn. unfold normalize_event_payload in Hn.
  apply bind_ok in Hn as (model & Hm & _). apply require_ok in Hm.
  assert (Hd : normalize_document (evt_event_type e) (evt_payload e) = Ok (evt_payload e)).
  { unfold normalize_document. rewrite Hm. exact (payload_dump_idem _ _ _ _ Hm Hp). }
  unfold payload_normal. by rewrite Hd, py_eqb_refl.
Qed.

Lemma ordering_ok id pre e st :
  follows id pre e → tracks pre st →
  ordering_valid (evt_event_type e) (1 + Z.of_nat (length pre)) st = true.
Proof.
  intros Hf Ht. unfold ordering_valid.
  destruct (fo_life _ _ _ Hf) as [[-> Hq]|(l & l' & Hl & Hs)].
  { cbn. by apply bool_decide_eq_true_2. }
  pose proof (lives_nonempty _ _ Hl) as Hne. destruct pre as [|x pre]; [done|].
  rewrite (proj2 (Z.eqb_neq _ _)) by (cbn [length]; lia).
  destruct (tk_status _ _ Ht) as [[? _]|(l1 & Hl1 & ->)]; [done|].
  rewrite (lives_functional _ _ _ Hl1 Hl). unfold life_step in Hs.
  destruct (_ || _ || _ || _) eqn:E; [done|].
  rewrite !orb_false_iff, !negb_false_iff in E. destruct E as [[[Hterm Hq] _] Hph].
  rewrite Hterm, Hq. cbn. exact Hph.
Qed.

Lemma get_differs_str d k s :
  get_differs d k (Some (JStr s)) = false → get_not d k (JStr s) = false.
Proof.
  unfold get_differs, get_not, doc_eqb. destruct (jget k d) as [x|]; [|done]. intros E. bools.
  assert (x = JStr s) as ->; [|cbn [default]; by rewrite py_eqb_refl].
  destruct x; cbn in E; congruence.
Qed.

Lemma offered_has_ref p doc :
  normalize_event_payload "capability.offered" p = Ok doc →
  ∃ ref, jitem "capability_ref" doc = Ok ref.
Proof.
  unfold normalize_event_payload. intros E. apply bind_ok in E as (model & Hm & E).
  apply require_ok in Hm. vm_compute in Hm. injection Hm as <-.
  apply bind_ok in E as ([] & Hp & E). apply raise_when_ok in Hp. bools.
  destruct p; try discriminate Hp. apply bind_ok in E as (doc' & Hd & E). injection E as <-.
  unfold payload_document in Hd. apply fmap_ok in Hd as (q & _ & ->). eexists. reflexivity.
Qed.

Lemma count_events_snoc v pre e :
  count_of v (map evt_event_type (pre ++ [e]))
  = (count_of v (map evt_event_type pre) + if evt_event_type e ==b v then 1 else 0)%nat.
Proof. rewrite map_app. apply count_of_snoc. Qed.

Ltac count_event Ht :=
  rewrite count_events_snoc, Ht; cbn [cs_subject_invocations cs_subject_responses];
  first [rewrite bool_decide_eq_true_2 by done | rewrite bool_decide_eq_false_2 by done]; lia.

(** A step that neither counts nor collects. *)
Lemma counted_other pre e st :
  counted pre st → evt_event_type e ∉ ["subject.invoked"; "subject.responded"] →
  (∀ ts, tool_step ts e = Ok ts) → counted (pre ++ [e]) st.
Proof.
  intros [Hi Hr (ts & Hc & Hrest)] Hne Hstep. split.
  - rewrite count_events_snoc, Hi, bool_decide_eq_false_2 by set_solver. lia.
  - rewrite count_events_snoc, Hr, bool_decide_eq_false_2 by set_solver. lia.
  - exists ts. by rewrite (collect_snoc _ _ _ Hc), Hstep.
Qed.

Lemma tool_step_other ts e :
  evt_event_type e ∉ ["capability.offered"; "tool.called"; "tool.denied"; "tool.completed";
    "tool.failed"] → tool_step ts e = Ok ts.
Proof.
  intros Hne. unfold tool_step. rewrite !bool_decide_eq_false_2 by set_solver. done.
Qed.

(** An event that opens no chain continues the life of the Run. *)
Lemma follows_life id pre e :
  follows id pre e → evt_event_type e ≠ "run.queued" →
  ∃ l l', lives (map evt_event_type pre) l ∧ life_step l (evt_event_type e) = Some l'
    ∧ turn_ok l (evt_event_type e) = true
    ∧ count_of "subject.invoked" (map evt_event_type pre)
      = (count_of "subject.responded" (map evt_event_type pre) + if lf_pending l then 1 else 0)%nat.
Proof.
  intros Hf Hq. destruct (fo_life _ _ _ Hf) as [[_ ?]|(l & l' & Hl & Hs)]; [done|].
  exists l, l'. destruct (lives_facts _ _ Hl) as [_ Hc]. split_and!; try done.
  unfold life_step in Hs. destruct (_ || _ || _ || _) eqn:E; [done|].
  rewrite !orb_false_iff, !negb_false_iff in E. apply E.
Qed.

Definition stays (st st' : ChainState) : Prop :=
  cs_previous st' = cs_previous st ∧ cs_current_status st' = cs_current_status st.

Lemma invoked_ok id pre e st :
  follows id pre e → counted pre st → evt_event_type e = "subject.invoked" →
  ∃ st', family_valid (evt_event_type e) (evt_payload e) st = Ok (Some st')
    ∧ counted (pre ++ [e]) st' ∧ stays st st'.
Proof.
  intros Hf [Hi Hr (ts & Hc & Hrest)] Ht.
  destruct (follows_life _ _ _ Hf) as (l & l' & _ & _ & Hturn & Hn); [by rewrite Ht|].
  rewrite Ht in Hturn. apply negb_true_iff in Hturn. rewrite Hturn in Hn.
  unfold family_valid. rewrite Ht.
  rewrite (bool_decide_eq_true_2 ("subject.invoked" = "subject.invoked")) by done.
  rewrite Hi, Hr, (proj2 (Nat.eqb_eq _ _)) by lia. cbn [negb].
  eexists. split; [reflexivity|]. split; [|done]. split.
  - count_event Ht.
  - count_event Ht.
  - exists ts. rewrite (collect_snoc _ _ _ Hc), tool_step_other; [done|rewrite Ht; set_solver].
Qed.

Lemma responded_ok id pre e st :
  follows id pre e → counted pre st → evt_event_type e = "subject.responded" →
  ∃ st', family_valid (evt_event_type e) (evt_payload e) st = Ok (Some st')
    ∧ counted (pre ++ [e]) st' ∧ stays st st'.
Proof.
  intros Hf [Hi Hr (ts & Hc & Hrest)] Ht.
  destruct (follows_life _ _ _ Hf) as (l & l' & _ & _ & Hturn & Hn); [by rewrite Ht|].
  rewrite Ht in Hturn. change (lf_pending l = true) in Hturn. rewrite Hturn in Hn.
  unfold family_valid, subject_open. rewrite Ht.
  rewrite (bool_decide_eq_false_2 ("subject.responded" = "subject.invoked")) by done.
  rewrite (bool_decide_eq_true_2 ("subject.responded" = "subject.responded")) by done.
  rewrite Hi, Hr, (proj2 (Nat.eqb_eq _ _)) by lia. cbn [negb].
  eexists. split; [reflexivity|]. split; [|done]. split.
  - count_event Ht.
  - count_event Ht.
  - exists ts. rewrite (collect_snoc _ _ _ Hc), tool_step_other; [done|rewrite Ht; set_solver].
Qed.

Lemma offered_ok id pre e st :
  follows id pre e → counted pre st → evt_event_type e = "capability.offered" →
  ∃ st', family_valid (evt_event_type e) (evt_payload e) st = Ok (Some st')
    ∧ counted (pre ++ [e]) st' ∧ stays st st'.
Proof.
  intros Hf [Hi Hr (ts & Hc & Hof & Hrest)] Ht.
  destruct (fo_sound _ _ _ Hf) as [[p Hp] _ _ _ _ _ _]. rewrite Ht in Hp.
  apply offered_has_ref in Hp as [ref Href].
  unfold family_valid. rewrite Ht.
  rewrite (bool_decide_eq_false_2 ("capability.offered" = "subject.invoked")) by done.
  rewrite (bool_decide_eq_false_2 ("capability.offered" = "subject.responded")) by done.
  rewrite (bool_decide_eq_true_2 ("capability.offered" = "capability.offered")) by done.
  rewrite Href. eexists. split; [reflexivity|]. split; [|done]. split.
  - count_event Ht.
  - count_event Ht.
  - rewrite (collect_snoc _ _ _ Hc). unfold tool_step. rewrite Ht.
    rewrite (bool_decide_eq_true_2 ("capability.offered" = "capability.offered")) by done.
    rewrite Href. eexists. split; [reflexivity|]. cbn. by rewrite Hof.
Qed.

Lemma called_ok id pre e st :
  follows id pre e → counted pre st → evt_event_type e = "tool.called" →
  ∃ st', family_valid (evt_event_type e) (evt_payload e) st = Ok (Some st')
    ∧ counted (pre ++ [e]) st' ∧ stays st st'.
Proof.
  intros Hf [Hi Hr (ts & Hc & Hof & Hte & Hsub & Hcalls)] Ht.
  pose proof (so_tools _ _ _ _ _ (fo_sound _ _ _ Hf)) as Htool. rewrite Ht in Htool.
  specialize (Htool eq_refl). unfold check_tool_events in Htool. rewrite Hc in Htool.
  apply bind_ok in Htool as ([] & Hopen & Htool). apply raise_when_ok in Hopen.
  apply negb_false_iff, Nat.eqb_eq in Hopen. cbn [mbind result_bind] in Htool.
  apply bind_ok in Htool as (call & Hcall & Htool).
  rewrite (bool_decide_eq_true_2 ("tool.called" = "tool.called")) in Htool by done.
  apply bind_ok in Htool as (cap & Hcap & Htool).
  apply bind_ok in Htool as ([] & Hguard & Htool). apply raise_when_ok in Hguard, Htool.
  apply orb_false_iff in Hguard as [[Hnew Hoff]%orb_false_iff Hargs%negb_false_iff].
  apply orb_false_iff in Htool. destruct Htool as [Hmedia Hclass]. bools.
  destruct (jget "arguments_ref" (evt_payload e)) as [args|] eqn:Eargs; [|done].
  change (default JNull (Some args)) with args in *. apply get_differs_str in Hmedia, Hclass.
  assert (Hnone : tool_calls ts !! call = None).
  { destruct (tool_calls ts !! call) eqn:E; [|done]. by destruct Hnew. }
  assert (Hnone' : cs_tool_calls st !! call = None).
  { specialize (Hcalls call). rewrite Hnone in Hcalls. by destruct (cs_tool_calls st !! call). }
  unfold family_valid, tool_call_valid, subject_open. rewrite Ht.
  rewrite !(bool_decide_eq_false_2 ("tool.called" = _)) by done.
  rewrite (bool_decide_eq_true_2 ("tool.called" = "tool.called")) by done.
  rewrite Hcall. cbn [mbind result_bind]. rewrite Hcap. cbn [fmap result_fmap mbind result_bind].
  rewrite Hi, Hr, (proj2 (Nat.eqb_eq _ _)) by done.
  rewrite Hnone', (bool_decide_eq_false_2 (is_Some None)) by by intros [? ?].
  rewrite Hof, (bool_decide_eq_true_2 (canonical_json cap ∈ _)) by done.
  rewrite Eargs. cbv zeta. change (default JNull (Some args)) with args. rewrite Hargs, Hmedia, Hclass. cbn [negb orb].
  eexists. split; [reflexivity|]. split; [|done]. split.
  - count_event Ht.
  - count_event Ht.
  - rewrite (collect_snoc _ _ _ Hc). unfold tool_step. rewrite Ht.
    rewrite (bool_decide_eq_false_2 ("tool.called" = "capability.offered")) by done.
    rewrite (bool_decide_eq_true_2 ("tool.called" = "tool.called")) by done.
    rewrite Hcall. eexists. split; [reflexivity|].
    cbn [cs_offered_capabilities cs_tool_terminals cs_tool_calls offered_refs tool_terminals
      tool_calls]. split_and!; [done..| |].
    + rewrite dom_insert_L. set_solver.
    + intros c. destruct (decide (call = c)) as [<-|Hne].
      * rewrite !lookup_insert_eq. by exists cap.
      * rewrite !lookup_insert_ne by done. apply Hcalls.
Qed.

Lemma terminal_type t :
  t ∈ TOOL_TERMINAL_TYPES →
  t ≠ "subject.invoked" ∧ t ≠ "subject.responded" ∧ t ≠ "capability.offered" ∧ t ≠ "tool.called"
  ∧ t ∈ ["tool.denied"; "tool.completed"; "tool.failed"] ∧ startswith "tool." t = true.
Proof.
  unfold TOOL_TERMINAL_TYPES. rewrite !elem_of_cons.
  intros [->|[->|[->|[]%not_elem_of_nil]]]; split_and!; try done;
    apply (bool_decide_eq_true_1 _); reflexivity.
Qed.

Lemma closed_ok id pre e st :
  follows id pre e → counted pre st → evt_event_type e ∈ TOOL_TERMINAL_TYPES →
  ∃ st', family_valid (evt_event_type e) (evt_payload e) st = Ok (Some st')
    ∧ counted (pre ++ [e]) st' ∧ stays st st'.
Proof.
  intros Hf [Hi Hr (ts & Hc & Hof & Hte & Hsub & Hcalls)] Ht.
  destruct (terminal_type _ Ht) as (Hn1 & Hn2 & Hn3 & Hn4 & Hin & Hpre).
  pose proof (so_tools _ _ _ _ _ (fo_sound _ _ _ Hf)) as Htool.
  specialize (Htool Hpre). unfold check_tool_events in Htool. rewrite Hc in Htool.
  apply bind_ok in Htool as ([] & Hopen & Htool). apply raise_when_ok in Hopen.
  apply negb_false_iff, Nat.eqb_eq in Hopen. cbn [mbind result_bind] in Htool.
  apply bind_ok in Htool as (call & Hcall & Htool).
  rewrite (bool_decide_eq_false_2 (evt_event_type e = "tool.called")) in Htool by done.
  destruct (tool_calls ts !! call) as [[called ev]|] eqn:Ecall; [|done].
  apply bind_ok in Htool as ([] & Hnew & Htool). apply raise_when_ok in Hnew. bools.
  apply bind_ok in Htool as (cap & Hcap & Htool). apply bind_ok in Htool as (mis & Hmis & Htool).
  apply bind_ok in Htool as ([] & Hm & Hres). apply raise_when_ok in Hm, Hres. subst mis.
  pose proof (Hcalls call) as Hk. rewrite Ecall in Hk.
  destruct (cs_tool_calls st !! call) as [k|] eqn:Ek; [|done]. destruct Hk as (cap' & Hcap' & ->).
  rewrite Hcap in Hcap'. injection Hcap' as <-.
  unfold family_valid, tool_terminal_valid, subject_open.
  rewrite (bool_decide_eq_false_2 (evt_event_type e = "subject.invoked")) by done.
  rewrite (bool_decide_eq_false_2 (evt_event_type e = "subject.responded")) by done.
  rewrite (bool_decide_eq_false_2 (evt_event_type e = "capability.offered")) by done.
  rewrite (bool_decide_eq_false_2 (evt_event_type e = "tool.called")) by done.
  rewrite (bool_decide_eq_true_2 (evt_event_type e ∈ TOOL_TERMINAL_TYPES)) by done.
  rewrite Hcall. cbn [mbind result_bind]. rewrite Ek.
  rewrite Hi, Hr, (proj2 (Nat.eqb_eq _ _)) by done.
  rewrite Hte, (bool_decide_eq_false_2 (call ∈ tool_terminals ts)) by done. cbn [negb orb].
  assert (Hdiff : (if evt_event_type e ∈b ["tool.completed"; "tool.failed"]
    then (λ c, canonical_json c !=b canonical_json cap) <$> jitem "capability_ref" (evt_payload e)
    else Ok false) = Ok false).
  { destruct (evt_event_type e ∈b ["tool.completed"; "tool.failed"]); [|done].
    unfold item_differs in Hmis. apply bind_ok in Hmis as (x & Hx & Hmis). injection Hmis as Hmis.
    rewrite Hx. cbn. unfold doc_eqb in Hmis. bools. unfold canonical_json. by rewrite Hmis, bool_decide_eq_true_2. }
  rewrite Hdiff. cbn [mbind result_bind orb]. rewrite Hres.
  eexists. split; [reflexivity|]. split; [|done]. split.
  - rewrite count_events_snoc, bool_decide_eq_false_2 by done. cbn [cs_subject_invocations]. lia.
  - rewrite count_events_snoc, bool_decide_eq_false_2 by done. cbn [cs_subject_responses]. lia.
  - rewrite (collect_snoc _ _ _ Hc). unfold tool_step.
    rewrite (bool_decide_eq_false_2 (evt_event_type e = "capability.offered")) by done.
    rewrite (bool_decide_eq_false_2 (evt_event_type e = "tool.called")) by done.
    rewrite (bool_decide_eq_true_2 (evt_event_type e ∈ _)) by done.
    rewrite Hcall. eexists. split; [reflexivity|].
    cbn [cs_offered_capabilities cs_tool_terminals cs_tool_calls offered_refs tool_terminals
      tool_calls]. split_and!; [done|done| |done].
    apply union_subseteq. split; [|done]. apply singleton_subseteq_l, elem_of_dom. eauto.
Qed.

Lemma family_ok id pre e st :
  follows id pre e → counted pre st →
  ∃ st', family_valid (evt_event_type e) (evt_payload e) st = Ok (Some st')
    ∧ counted (pre ++ [e]) st' ∧ stays st st'.
Proof.
  intros Hf Hc. set (t := evt_event_type e).
  destruct (decide (t = "subject.invoked")) as [T1|T1]; [by eapply invoked_ok|].
  destruct (decide (t = "subject.responded")) as [T2|T2]; [by eapply responded_ok|].
  destruct (decide (t = "capability.offered")) as [T3|T3]; [by eapply offered_ok|].
  destruct (decide (t = "tool.called")) as [T4|T4]; [by eapply called_ok|].
  destruct (decide (t ∈ TOOL_TERMINAL_TYPES)) as [T5|T5]; [by eapply closed_ok|].
  exists st. unfold family_valid. rewrite !bool_decide_eq_false_2 by done. split; [done|].
  split; [|done]. apply counted_other; [done| |].
  - intros Hin. rewrite !elem_of_cons in Hin. unfold t in *.
    intuition (congruence || by eapply not_elem_of_nil).
  - intros ts. apply tool_step_other. intros Hin. unfold TOOL_TERMINAL_TYPES in T5.
    rewrite !elem_of_cons in T5. rewrite !elem_of_cons in Hin. unfold t in *.
    intuition (congruence || by eapply not_elem_of_nil).
Qed.

(** An evaluation or a completion follows a response. *)
Lemma responded_before id pre e :
  follows id pre e → evt_event_type e ∈ ["run.evaluating"; "run.completed"] →
  count_of "subject.responded" (map evt_event_type pre) ≠ 0%nat.
Proof.
  intros Hf Ht. destruct (follows_life _ _ _ Hf) as (l & l' & Hl & Hs & Hturn & _).
  { intros E. rewrite E in Ht. by apply (bool_decide_eq_true_2 _) in Ht. }
  assert (Hr : lf_responded l = true).
  { rewrite !elem_of_cons in Ht. destruct Ht as [E|[E|[]%not_elem_of_nil]]; rewrite E in *.
    - exact Hturn.
    - apply (lives_responded _ _ Hl). left. unfold life_step in Hs.
      destruct (_ || _ || _ || _); [done|].
      change (assoc "run.completed" transition) with (Some ([evaluating], completed)) in Hs.
      cbv iota beta in Hs. destruct (lf_status l ∈b [evaluating]) eqn:Hin; [|done].
      bools. by apply list_elem_of_singleton in Hin. }
  destruct (lives_facts _ _ Hl) as [Hb _]. rewrite Hr in Hb. symmetry in Hb. bools.
  unfold count_of. rewrite length_zero_iff_nil. intros Hnil.
  assert (Hin : "subject.responded" ∈ List.filter (λ t, t ==b "subject.responded")
    (map evt_event_type pre)); [|by rewrite Hnil in Hin; apply not_elem_of_nil in Hin].
  apply list_elem_of_In, List.filter_In. split; [by apply list_elem_of_In|done].
Qed.

Lemma declared_ok payload k v :
  declared_otherwise payload k v = false → not_in_optional (jget k payload) v = Ok false.
Proof.
  unfold declared_otherwise, not_in_optional. destruct (jget k payload) as [x|]; [|done].
  intros E. bools. subst x. cbn. by rewrite bool_decide_eq_true_2 by left.
Qed.

Lemma transition_ok id pre e st :
  follows id pre e → counted (pre ++ [e]) st →
  ((pre = [] ∧ cs_current_status st = queued)
   ∨ ∃ l, lives (map evt_event_type pre) l ∧ cs_current_status st = lf_status l) →
  ∃ st', transition_valid (evt_payload e) (evt_event_type e) st = Ok (Some st')
    ∧ counted (pre ++ [e]) st' ∧ cs_previous st' = cs_previous st
    ∧ ∃ l, lives (map evt_event_type (pre ++ [e])) l ∧ cs_current_status st' = lf_status l.
Proof.
  intros Hf Hc Hst. unfold transition_valid. rewrite transitions_same, map_app.
  destruct (fo_life _ _ _ Hf) as [[-> Hq]|(l & l' & Hl & Hs)].
  - rewrite Hq. exists st. split_and!; try done. exists (MkLife queued false false).
    destruct Hst as [[_ Hst]|(l & Hl & _)]; [|by apply lives_nonempty in Hl].
    cbn. rewrite Hq. split; [constructor|done].
  - destruct Hst as [[-> _]|(l1 & Hl1 & Hst)]; [by apply lives_nonempty in Hl|].
    rewrite (lives_functional _ _ _ Hl1 Hl) in Hst. clear l1 Hl1.
    pose proof (lives_next _ _ _ _ Hl Hs) as Hl'. unfold life_step in Hs.
    destruct (_ || _ || _ || _); [done|].
    destruct (assoc (evt_event_type e) transition) as [[from to]|] eqn:Ha.
    + destruct (lf_status l ∈b from) eqn:Hin; [|done]. injection Hs as <-.
      destruct (so_statuses _ _ _ _ _ (fo_sound _ _ _ Hf) l from to Hl Ha) as [D1 D2].
      rewrite Hst, Hin. cbn [negb or_else mbind result_bind].
      rewrite (declared_ok _ _ _ D1). cbn [mbind result_bind or_else].
      rewrite (declared_ok _ _ _ D2). cbn [mbind result_bind].
      eexists. split; [reflexivity|]. split_and!; [by destruct Hc; split|done|].
      by eexists.
    + injection Hs as <-. exists st. split_and!; try done. by eexists.
Qed.

Lemma replay_event_ok id pre e st :
  follows id pre e → tracks pre st →
  ∃ st', replay_event id (1 + Z.of_nat (length pre)) (event_document e) st = Ok (Some st')
    ∧ tracks (pre ++ [e]) st'.
Proof.
  intros Hf Ht. pose proof (envelope_ok _ _ _ _ Hf Ht) as Henv.
  pose proof (payload_ok _ _ (fo_sound _ _ _ Hf)) as Hpay.
  pose proof (ordering_ok _ _ _ _ Hf Ht) as Hord.
  destruct (family_ok _ _ _ _ Hf (tk_counted _ _ Ht)) as (st1 & Hfam & Hc1 & Hp1 & Hs1).
  assert (Hsub : subject_and_tool_valid (evt_event_type e) (evt_payload e) st = Ok (Some st1)).
  { unfold subject_and_tool_valid. rewrite Hfam. cbn [mbind result_bind]. do 2 f_equal.
    destruct (evt_event_type e ∈b ["run.evaluating"; "run.completed"]) eqn:Hin; [|done]. bools.
    pose proof (responded_before _ _ _ Hf Hin) as Hn. rewrite (ct_responses _ _ Hc1).
    rewrite count_events_snoc, (proj2 (Nat.eqb_neq _ _)) by lia. done. }
  destruct (transition_ok _ _ _ st1 Hf Hc1) as (st2 & Htr & Hc2 & Hp2 & Hl2).
  { rewrite Hs1. apply Ht. }
  exists (link (JStr (evt_event_hash e)) st2). split.
  - change (replay_event id (1 + Z.of_nat (length pre)) (event_document e) st) with
      (envelope ← envelope_valid (row_envelope e) id (1 + Z.of_nat (length pre))
         (JStr (evt_event_hash e)) st;
       if negb envelope then Ok None else
       normal ← payload_normal (evt_event_type e) (default JNull (jget "payload" (row_envelope e)));
       if negb normal || negb (ordering_valid (evt_event_type e) (1 + Z.of_nat (length pre)) st)
       then Ok None else
       next ← subject_and_tool_valid (evt_event_type e)
         (default JNull (jget "payload" (row_envelope e))) st;
       match next with
       | None => Ok None
       | Some state =>
           next ← transition_valid (default JNull (jget "payload" (row_envelope e)))
             (evt_event_type e) state;
           Ok (option_map (link (JStr (evt_event_hash e))) next)
       end).
    rewrite (jget_default "payload" (row_envelope e) _ (evt_payload e) eq_refl) by reflexivity.
    rewrite Henv. cbn [mbind result_bind negb]. rewrite Hpay. cbn [mbind result_bind negb orb].
    rewrite Hord. cbn [negb]. rewrite Hsub. cbn [mbind result_bind]. by rewrite Htr.
  - split; cbn [cs_previous cs_current_status link].
    + unfold head_hash. rewrite last_snoc. done.
    + right. exact Hl2.
    + by destruct Hc2; split.
Qed.

Lemma replay_app id n a b st :
  replay id n (a ++ b) st
  = (next ← replay id n a st;
     match next with None => Ok None | Some st => replay id (n + Z.of_nat (length a)) b st end).
Proof.
  revert n st. induction a as [|x a IH]; intros n st; cbn [app replay length].
  - cbn. by rewrite Z.add_0_r.
  - destruct (replay_event id n x st) as [[st'|]|e]; [|done..]. cbn [mbind result_bind].
    rewrite IH. by replace (n + 1 + Z.of_nat (length a))%Z with (n + Z.of_nat (S (length a)))%Z by lia.
Qed.

(** Every prefix of a ledger replays. *)
Lemma ledger_replays id es :
  (∀ pre e post, es = pre ++ e :: post → follows id pre e) →
  ∃ st, replay id 1 (map event_document es) initial_chain = Ok (Some st) ∧ tracks es st.
Proof.
  induction es as [|e es IH] using rev_ind; intros Hall.
  - exists initial_chain. split; [done|]. split; [done|by left|]. split; [done..|].
    exists (MkToolState ∅ ∅ ∅). by split_and!.
  - destruct IH as (st & Hrep & Ht).
    { intros pre x post ->. apply (Hall pre x (post ++ [e])). by rewrite <- app_assoc. }
    destruct (replay_event_ok id es e st) as (st' & Hstep & Ht'); [by apply (Hall es e [])|done|].
    exists st'. split; [|done]. rewrite map_app, replay_app, Hrep. cbn [mbind result_bind map replay].
    by rewrite length_map, Hstep.
Qed.
End follows.

(** ** The ledger of a consistent store *)

Section store.
Context `{PyRuntime}.

Lemma chain_prefix prev n a b : chain prev n (a ++ b) → chain prev n a.
Proof.
  revert prev n. induction a as [|x a IH]; intros prev n; [done|]. cbn.
  intros (? & ? & ? & Hc). split_and!; try done. by apply IH.
Qed.

Lemma lives_prefix a b l : lives (a ++ b) l → a ≠ [] → ∃ l', lives a l'.
Proof.
  revert l. induction b as [|t b IH] using rev_ind; intros l Hl Ha.
  - exists l. by rewrite app_nil_r in Hl.
  - rewrite app_assoc in Hl. inversion Hl as [E|ts l0 t0 l0' Hl0 Hs E].
    + apply (app_inj_tail [] (a ++ b)) in E as [E _]. symmetry in E.
      by apply app_eq_nil in E as [-> _].
    + apply app_inj_tail in E as [-> _]. by eapply IH.
Qed.

Lemma lives_snoc a t l :
  lives (a ++ [t]) l → (a = [] ∧ t = "run.queued") ∨ ∃ l0, lives a l0 ∧ life_step l0 t = Some l.
Proof.
  intros Hl. inversion Hl as [E|ts l0 t0 l0' Hl0 Hs E].
  - left. by apply (app_inj_tail [] a) in E as [<- <-].
  - right. apply app_inj_tail in E as [-> ->]. eauto.
Qed.

Lemma ledger_follows d id pre e post :
  ledger_inv d → run_events id d = pre ++ e :: post → follows id pre e.
Proof.
  intros Hd Hes. pose proof (li_chain _ Hd id) as Hc.
  assert (He : e ∈ run_events id d) by (rewrite Hes; set_solver).
  apply list_elem_of_In, List.filter_In in He as [He Hid]. bools. apply list_elem_of_In in He.
  destruct (li_owned _ Hd _ He) as [run Hrun]. rewrite Hid in Hrun.
  rewrite Hes in Hc. replace (pre ++ e :: post) with ((pre ++ [e]) ++ post) in Hc
    by by rewrite <- app_assoc.
  apply chain_prefix, chain_snoc in Hc as (_ & Hn & Hp & Hh). split; try done.
  - by eapply (li_sound _ Hd).
  - destruct (li_life _ Hd _ _ Hrun) as [[Hnil _]|(l & Hl & _)].
    { rewrite Hes in Hnil. by destruct pre. }
    rewrite Hes, map_app in Hl. cbn in Hl.
    rewrite (cons_middle (evt_event_type e)), app_assoc in Hl.
    apply lives_prefix in Hl as [l' [[Hn' Hq]|(l0 & Hl0 & Hs)]%lives_snoc]; [| |by destruct pre].
    + left. split; [by apply map_eq_nil in Hn'|done].
    + right. eauto.
Qed.

(** A terminal status is the work of a terminal event. *)
Lemma terminal_last ts l :
  lives ts l → is_terminal (lf_status l) = true →
  ∃ ts' t, ts = ts' ++ [t] ∧ t ∈ TERMINAL_EVENT_TYPES.
Proof.
  destruct 1 as [|ts l t l' Hl Hs]; [done|]. intros Hterm. exists ts, t. split; [done|].
  unfold life_step in Hs. destruct (_ || _ || _ || _) eqn:E; [done|].
  rewrite !orb_false_iff in E. destruct E as [[[Hopen _] _] _].
  destruct (assoc t transition) as [[from to]|] eqn:Ha.
  - destruct (lf_status l ∈b from); [|done]. injection Hs as <-. cbn in Hterm.
    unfold transition in Ha. cbn in Ha.
    repeat (case_decide; [injection Ha as <- <-; subst t; try done;
      apply (bool_decide_eq_true_1 _); reflexivity|]). done.
  - injection Hs as <-. cbn in Hterm. congruence.
Qed.

Lemma terminal_types_not_tools t :
  t ∈ TERMINAL_EVENT_TYPES → t ∉ "tool.called" :: TOOL_TERMINAL_TYPES.
Proof.
  unfold TERMINAL_EVENT_TYPES. intros (st & -> & Hst)%list_elem_of_fmap.
  apply (bool_decide_eq_false_1 _). by destruct st.
Qed.

Lemma call_ids_snoc_other types es e :
  evt_event_type e ∉ types → call_ids types (es ++ [e]) = call_ids types es.
Proof.
  intros Hne. unfold call_ids. rewrite List.filter_app. cbn.
  by rewrite bool_decide_eq_false_2, app_nil_r.
Qed.

(** The ledger's check that every call is closed. *)
Lemma open_calls_ok es st :
  tracks es st → check_open_tool_calls es = Ok tt → dom (cs_tool_calls st) = cs_tool_terminals st.
Proof.
  intros [_ _ [_ _ (ts & Hc & _ & -> & Hsub & Hcalls)]] Hopen. unfold check_open_tool_calls in Hopen.
  apply bind_ok in Hopen as (called & E1 & Hopen). apply bind_ok in Hopen as (closed & E2 & Hopen).
  apply raise_when_ok, negb_false_iff in Hopen. rewrite forallb_true in Hopen.
  destruct (collect_call_ids _ _ Hc) as [Hdom Hterm].
  assert (Hset : dom (cs_tool_calls st) = dom (tool_calls ts)).
  { apply set_eq. intros c. rewrite !elem_of_dom. specialize (Hcalls c).
    destruct (tool_calls ts !! c) as [[p x]|], (cs_tool_calls st !! c); try done;
      split; intros [? ?]; done. }
  rewrite Hset. apply set_eq. intros c. split; [|by apply Hsub].
  rewrite (Hdom _ E1), (Hterm _ E2), !elem_of_list_to_set. intros Hin%Hopen. by bools.
Qed.
End store.

(** ** What the replay accepts *)

Definition without_hash (m : list (string * json)) : json :=
  JObj (List.filter (λ kv, kv.1 !=b "event_hash") m).

Definition document_payload (doc : json) : json := default JNull (jget "payload" doc).

Section accepts.
Context `{PyRuntime} `{PayloadDump}.

(** Documents that form a hash chain: numbered from [n], of the Run [run_id], each carrying
    the digest of the rest of it and the hash of its predecessor. *)
Fixpoint linked (run_id : string) (prev : json) (n : Z) (docs : list json) : Prop :=
  match docs with
  | [] => True
  | doc :: rest =>
      ∃ m, doc = JObj m
        ∧ obj_get "event_hash" m = Some (JStr (sha256_json (without_hash m)))
        ∧ get_not (without_hash m) "prev_event_hash" prev = false
        ∧ get_not (without_hash m) "sequence" (JInt n) = false
        ∧ get_not (without_hash m) "run_id" (JStr run_id) = false
        ∧ linked run_id (JStr (sha256_json (without_hash m))) (n + 1) rest
  end.

(** The calls named by the documents of some event types. *)
Definition names_call (types : list string) (docs : list json) (c : string) : Prop :=
  ∃ doc, doc ∈ docs ∧ document_type doc ∈ types ∧ item_text (document_payload doc) "call_id" = Ok c.

Record accepted (docs : list json) (st : ChainState) : Prop := {
  ac_life : (docs = [] ∧ st = initial_chain)
    ∨ ∃ l, lives (map document_type docs) l ∧ cs_current_status st = lf_status l;
  ac_invocations : cs_subject_invocations st = count_of "subject.invoked" (map document_type docs);
  ac_responses : cs_subject_responses st = count_of "subject.responded" (map document_type docs);
  ac_calls : ∀ c, c ∈ dom (cs_tool_calls st) ↔ names_call ["tool.called"] docs c;
  ac_terminals : ∀ c, c ∈ cs_tool_terminals st ↔ names_call TOOL_TERMINAL_TYPES docs c
}.

Lemma obj_get_filter k (m : list (string * json)) :
  k ≠ "event_hash" → obj_get k (List.filter (λ kv, kv.1 !=b "event_hash") m) = obj_get k m.
Proof.
  intros Hk. induction m as [|[k' v] m IH]; [done|]. cbn.
  destruct (decide (k' = "event_hash")) as [->|Hne].
  - rewrite bool_decide_eq_true_2 by done. cbn. rewrite decide_False by done. exact IH.
  - rewrite bool_decide_eq_false_2 by done. cbn. by rewrite IH.
Qed.

Lemma jget_without k m : k ≠ "event_hash" → jget k (without_hash m) = jget k (JObj m).
Proof. intros Hk. cbn. by rewrite obj_get_filter. Qed.

Lemma document_type_without m : document_type (without_hash m) = document_type (JObj m).
Proof. unfold document_type. by rewrite jget_without. Qed.

Lemma payload_without m : default JNull (jget "payload" (without_hash m)) = document_payload (JObj m).
Proof. unfold document_payload. by rewrite jget_without. Qed.

Lemma or_else_false a b : or_else a b = Ok false → a = Ok false ∧ b = Ok false.
Proof. unfold or_else. destruct a as [[]|]; cbn; naive_solver. Qed.

(** What one accepted document satisfied. *)
Lemma replay_event_inv run_id n doc st st' :
  replay_event run_id n doc st = Ok (Some st') →
  ∃ m st1 st2, doc = JObj m
    ∧ obj_get "event_hash" m = Some (JStr (sha256_json (without_hash m)))
    ∧ get_not (without_hash m) "prev_event_hash" (cs_previous st) = false
    ∧ get_not (without_hash m) "sequence" (JInt n) = false
    ∧ get_not (without_hash m) "run_id" (JStr run_id) = false
    ∧ (document_type doc ∉ UNSUPPORTED_RUNTIME_EVENT_TYPES)
    ∧ is_Some (assoc (document_type doc) EVENT_PAYLOAD_MODELS)
    ∧ ordering_valid (document_type doc) n st = true
    ∧ subject_and_tool_valid (document_type doc) (document_payload doc) st = Ok (Some st1)
    ∧ transition_valid (document_payload doc) (document_type doc) st1 = Ok (Some st2)
    ∧ st' = link (JStr (sha256_json (without_hash m))) st2.
Proof.
  intros E. destruct doc as [| | | | | |m]; try done. cbn [replay_event] in E.
  apply bind_ok in E as (h & Hh & E). apply require_ok in Hh. cbv zeta in E.
  fold (without_hash m) in E. rewrite document_type_without, payload_without in E.
  apply bind_ok in E as (env & Henv & E). destruct env; [|done]. cbn [negb] in E.
  apply bind_ok in E as (normal & Hnorm & E). destruct normal; [|done]. cbn [negb orb] in E.
  destruct (ordering_valid (document_type (JObj m)) n st) eqn:Hord; [|done]. cbn [negb] in E.
  apply bind_ok in E as ([st1|] & Hsub & E); [|done].
  apply bind_ok in E as ([st2|] & Htr & E); [|done]. injection E as <-.
  unfold envelope_valid in Henv. apply fmap_ok in Henv as (bad & Henv & Hb).
  destruct bad; [done|].
  apply or_else_false in Henv as [_ Henv]. apply or_else_false in Henv as [Hrun Henv].
  apply or_else_false in Henv as [Hseq Henv]. apply or_else_false in Henv as [_ Henv].
  apply or_else_false in Henv as [_ Henv]. apply or_else_false in Henv as [Hun Henv].
  apply or_else_false in Henv as [Hprev Hhash].
  injection Hrun as Hrun. injection Hseq as Hseq. injection Hun as Hun. injection Hprev as Hprev.
  injection Hhash as Hhash. bools. subst h. rewrite document_type_without in Hun.
  exists m, st1, st2. split_and!; try done.
  unfold payload_normal, normalize_document in Hnorm.
  destruct (assoc _ EVENT_PAYLOAD_MODELS); [eauto|done].
Qed.

Lemma registered_tools t :
  is_Some (assoc t EVENT_PAYLOAD_MODELS) → t ∉ UNSUPPORTED_RUNTIME_EVENT_TYPES →
  startswith "tool." t = true → t = "tool.called" ∨ t ∈ TOOL_TERMINAL_TYPES.
Proof.
  intros [model Hm] Hun Htool. apply (bool_decide_eq_false_2 _) in Hun.
  assert (Hin : t ∈ map fst EVENT_PAYLOAD_MODELS).
  { revert Hm. generalize EVENT_PAYLOAD_MODELS as l. induction l as [|[k a] l IH]; cbn; [done|].
    destruct (decide (t = k)) as [->|]; [left|]. intros Hm. right. by apply IH. }
  clear Hm. assert (Hall : Forall (λ t, (t ∈b UNSUPPORTED_RUNTIME_EVENT_TYPES)
      || negb (startswith "tool." t) || (t ==b "tool.called") || (t ∈b TOOL_TERMINAL_TYPES) = true)
      (map fst EVENT_PAYLOAD_MODELS)) by (repeat constructor).
  rewrite Forall_forall in Hall. specialize (Hall t Hin). cbn beta in Hall.
  rewrite Hun, Htool in Hall. cbn in Hall. apply orb_true_iff in Hall as [Hall|Hall]; bools; auto.
Qed.

Ltac known_types :=
  repeat match goal with
  | |- context [bool_decide (?a = ?b)] =>
      first [rewrite (bool_decide_eq_true_2 (a = b)) by done
            |rewrite (bool_decide_eq_false_2 (a = b)) by done]
  end.

Lemma one_more (call c : string) (X : gset string) (P : Prop) :
  P → c ∈ {[call]} ∪ X ↔ c ∈ X ∨ (P ∧ Ok call = Ok c).
Proof.
  intros HP. rewrite elem_of_union, elem_of_singleton. split.
  - intros [->|Hc]; [by right|by left].
  - intros [Hc|[_ [= ->]]]; [by right|by left].
Qed.

(** What the family checks say of the turn, and what they count. *)
Lemma family_inv t payload st st1 :
  family_valid t payload st = Ok (Some st1) →
  (t = "subject.invoked" → cs_subject_invocations st = cs_subject_responses st)
  ∧ (t = "subject.responded" ∨ t = "tool.called" ∨ t ∈ TOOL_TERMINAL_TYPES →
       cs_subject_invocations st = (cs_subject_responses st + 1)%nat)
  ∧ cs_current_status st1 = cs_current_status st
  ∧ cs_subject_invocations st1
    = (cs_subject_invocations st + if t ==b "subject.invoked" then 1 else 0)%nat
  ∧ cs_subject_responses st1
    = (cs_subject_responses st + if t ==b "subject.responded" then 1 else 0)%nat
  ∧ (∀ c, c ∈ dom (cs_tool_calls st1) ↔ c ∈ dom (cs_tool_calls st)
       ∨ (t = "tool.called" ∧ item_text payload "call_id" = Ok c))
  ∧ (∀ c, c ∈ cs_tool_terminals st1 ↔ c ∈ cs_tool_terminals st
       ∨ (t ∈ TOOL_TERMINAL_TYPES ∧ item_text payload "call_id" = Ok c)).
Proof.
  assert (Hnot : ∀ t, t ∈ ["subject.invoked"; "subject.responded"; "capability.offered"; "tool.called"] →
    t ∉ TOOL_TERMINAL_TYPES).
  { intros t' Ht'. rewrite !elem_of_cons in Ht'.
    destruct Ht' as [->|[->|[->|[->|[]%not_elem_of_nil]]]]; by apply (bool_decide_eq_false_1 _). }
  unfold family_valid. intros E.
  destruct (decide (t = "subject.invoked")) as [->|N1].
  { pose proof (Hnot "subject.invoked" ltac:(set_solver)) as Hn. cbn in E.
    destruct (_ =? _)%nat eqn:Heq; [|done]. injection E as <-. apply Nat.eqb_eq in Heq. cbn.
    known_types; split_and!; try done; try lia; try naive_solver. }
  rewrite (bool_decide_eq_false_2 (t = "subject.invoked")) in * by done.
  destruct (decide (t = "subject.responded")) as [->|N2].
  { pose proof (Hnot "subject.responded" ltac:(set_solver)) as Hn. unfold subject_open in E. cbn in E.
    destruct (_ =? _)%nat eqn:Heq; [|done]. injection E as <-. apply Nat.eqb_eq in Heq. cbn.
    known_types; split_and!; try done; try lia; try naive_solver. }
  rewrite (bool_decide_eq_false_2 (t = "subject.responded")) in * by done.
  destruct (decide (t = "capability.offered")) as [->|N3].
  { pose proof (Hnot "capability.offered" ltac:(set_solver)) as Hn. cbn in E.
    apply bind_ok in E as (ref & _ & E). injection E as <-. cbn.
    known_types; split_and!; try done; try lia; try naive_solver. }
  rewrite (bool_decide_eq_false_2 (t = "capability.offered")) in * by done.
  destruct (decide (t = "tool.called")) as [->|N4].
  { pose proof (Hnot "tool.called" ltac:(set_solver)) as Hn. cbn [bool_decide] in E.
    rewrite bool_decide_eq_true_2 in E by done. unfold tool_call_valid, subject_open in E.
    apply bind_ok in E as (call & Hcall & E). apply bind_ok in E as (cap & _ & E).
    destruct (_ || _ || _ || _ || _ || _) eqn:Hb; [done|]. injection E as <-.
    rewrite !orb_false_iff, negb_false_iff, Nat.eqb_eq in Hb. cbn. rewrite dom_insert_L.
    known_types. split; [done|]. split; [intros _; lia|]. split; [done|]. split; [lia|].
    split; [lia|]. split; [intros c; rewrite Hcall; by apply one_more|intros c].
    split; [by left|]. by intros [?|[? _]]. }
  rewrite (bool_decide_eq_false_2 (t = "tool.called")) in * by done.
  destruct (decide (t ∈ TOOL_TERMINAL_TYPES)) as [Ht|N5].
  { rewrite bool_decide_eq_true_2 in E by done. unfold tool_terminal_valid, subject_open in E.
    apply bind_ok in E as (call & Hcall & E). destruct (cs_tool_calls st !! call); [|done].
    destruct (_ || _) eqn:Hb; [done|]. apply bind_ok in E as (diff & _ & E).
    destruct (_ || _) eqn:Hb2 in E; [done|]. injection E as <-.
    rewrite orb_false_iff, negb_false_iff, Nat.eqb_eq in Hb. cbn.
    known_types. split; [done|]. split; [intros _; lia|]. split; [done|]. split; [lia|].
    split; [lia|]. split; [intros c|intros c; rewrite Hcall; by apply one_more].
    split; [by left|]. by intros [?|[? _]]. }
  rewrite (bool_decide_eq_false_2 (t ∈ TOOL_TERMINAL_TYPES)) in E by done. injection E as <-.
  known_types; split_and!; try done; try lia; try naive_solver.
Qed.

Lemma names_call_snoc types docs doc c :
  names_call types (docs ++ [doc]) c ↔ names_call types docs c
    ∨ (document_type doc ∈ types ∧ item_text (document_payload doc) "call_id" = Ok c).
Proof.
  unfold names_call. setoid_rewrite elem_of_app. setoid_rewrite list_elem_of_singleton. naive_solver.
Qed.

(** The transition table, read forwards. *)
Lemma transition_inv payload t st1 st2 :
  transition_valid payload t st1 = Ok (Some st2) →
  cs_subject_invocations st2 = cs_subject_invocations st1
  ∧ cs_subject_responses st2 = cs_subject_responses st1
  ∧ cs_tool_calls st2 = cs_tool_calls st1 ∧ cs_tool_terminals st2 = cs_tool_terminals st1
  ∧ match assoc t transition with
    | None => cs_current_status st2 = cs_current_status st1
    | Some (from, to) => cs_current_status st1 ∈ from ∧ cs_current_status st2 = to
    end.
Proof.
  unfold transition_valid. rewrite transitions_same. destruct (assoc t transition) as [[from to]|].
  - intros E. apply bind_ok in E as ([] & Hbad & E); [done|]. injection E as <-.
    apply or_else_false in Hbad as [Hin _]. injection Hin as Hin. bools. done.
  - intros [= <-]. done.
Qed.

Lemma count_of_elem v ts : count_of v ts ≠ 0%nat → v ∈ ts.
Proof.
  unfold count_of. intros Hn. destruct (List.filter _ ts) as [|x l] eqn:E; [done|].
  assert (Hx : In x (x :: l)) by by left. rewrite <- E in Hx.
  apply List.filter_In in Hx as [Hx Hv]. bools. subst x. by apply list_elem_of_In.
Qed.

Lemma accepted_life docs t st st1 st2 payload :
  accepted docs st → ordering_valid t (1 + Z.of_nat (length docs)) st = true →
  t ∉ UNSUPPORTED_RUNTIME_EVENT_TYPES → is_Some (assoc t EVENT_PAYLOAD_MODELS) →
  subject_and_tool_valid t payload st = Ok (Some st1) →
  transition_valid payload t st1 = Ok (Some st2) →
  ∃ l, lives (map document_type docs ++ [t]) l ∧ cs_current_status st2 = lf_status l.
Proof.
  intros Ha Hord Hun Hreg Hsub Htr. unfold subject_and_tool_valid in Hsub.
  apply bind_ok in Hsub as ([x|] & Hfam & Hsub); [|done].
  destruct ((t ∈b ["run.evaluating"; "run.completed"]) && _) eqn:Hresp; [done|].
  injection Hsub as ->. apply family_inv in Hfam as (Hinv & Hopen & Hst & _ & Hr1 & _).
  apply transition_inv in Htr as (_ & _ & _ & _ & Htr). rewrite Hst in Htr.
  destruct (ac_life _ _ Ha) as [[-> ->]|(l & Hl & El)].
  - unfold ordering_valid in Hord. change (1 + Z.of_nat (length []) =? 1)%Z with true in Hord.
    cbv iota in Hord. bools. subst t. cbn in Htr |- *.
    exists (MkLife queued false false). split; [constructor|done].
  - assert (Hne : (1 + Z.of_nat (length docs) =? 1)%Z = false).
    { apply Z.eqb_neq. apply lives_nonempty in Hl. destruct docs; [done|]. cbn [length]. lia. }
    unfold ordering_valid in Hord. rewrite Hne, El in Hord.
    destruct (_ || _) eqn:Hq; [done|]. apply orb_false_iff in Hq as [Hq Hterm].
    destruct (lives_facts _ _ Hl) as [Hr Hp].
    rewrite (ac_invocations _ _ Ha), (ac_responses _ _ Ha) in *.
    assert (Hturn : turn_ok l t = true).
    { apply (turn_ok_intro (map document_type docs)); try done.
      - intros [->|Ht]; [by apply Hopen; left|]. apply Hopen. right. by apply registered_tools.
      - intros ->. apply count_of_elem. cbn in Hresp. rewrite Hr1 in Hresp. intros Hz.
        by rewrite Hz in Hresp. }
    assert (Hph : phase_ok (lf_status l) t = true) by exact Hord.
    assert (Hstep : ∃ l', life_step l t = Some l' ∧ cs_current_status st2 = lf_status l').
    { unfold life_step. rewrite Hterm, Hq, Hturn, Hph. cbn [orb negb]. rewrite El in Htr.
      destruct (assoc t transition) as [[from to]|].
      - destruct Htr as [Hin ->]. rewrite bool_decide_eq_true_2 by done. by eexists.
      - by eexists. }
    destruct Hstep as (l' & Hs & El'). exists l'. split; [by eapply lives_next|done].
Qed.

Lemma accepted_step run_id docs doc st st' :
  accepted docs st → replay_event run_id (1 + Z.of_nat (length docs)) doc st = Ok (Some st') →
  accepted (docs ++ [doc]) st'.
Proof.
  intros Ha E.
  apply replay_event_inv in E as (m & st1 & st2 & -> & _ & _ & _ & _ & Hun & Hreg & Hord & Hsub & Htr & ->).
  pose proof (accepted_life _ _ _ _ _ _ Ha Hord Hun Hreg Hsub Htr) as Hlife.
  unfold subject_and_tool_valid in Hsub. apply bind_ok in Hsub as ([x|] & Hfam & Hsub); [|done].
  destruct (_ && _); [done|]. injection Hsub as ->.
  apply family_inv in Hfam as (_ & _ & _ & Hi & Hr & Hc & Ht).
  apply transition_inv in Htr as (I2 & R2 & C2 & T2 & _).
  split; cbn [link cs_current_status cs_subject_invocations cs_subject_responses cs_tool_calls
    cs_tool_terminals].
  - right. by rewrite map_app.
  - rewrite I2, Hi, (ac_invocations _ _ Ha), map_app. symmetry. apply count_of_snoc.
  - rewrite R2, Hr, (ac_responses _ _ Ha), map_app. symmetry. apply count_of_snoc.
  - intros c. rewrite C2, Hc, names_call_snoc, (ac_calls _ _ Ha), list_elem_of_singleton. done.
  - intros c. rewrite T2, Ht, names_call_snoc, (ac_terminals _ _ Ha). done.
Qed.

Lemma replay_inv run_id docs seen st st' :
  accepted seen st → replay run_id (1 + Z.of_nat (length seen)) docs st = Ok (Some st') →
  accepted (seen ++ docs) st' ∧ linked run_id (cs_previous st) (1 + Z.of_nat (length seen)) docs.
Proof.
  revert seen st. induction docs as [|doc docs IH]; intros seen st Ha E; cbn [replay] in E.
  - injection E as <-. by rewrite app_nil_r.
  - apply bind_ok in E as ([st1|] & Hev & E); [|done].
    pose proof (accepted_step _ _ _ _ _ Ha Hev) as Ha1.
    replace (1 + Z.of_nat (length seen) + 1)%Z with (1 + Z.of_nat (length (seen ++ [doc])))%Z in E
      by (rewrite length_app; cbn; lia).
    destruct (IH _ _ Ha1 E) as [Hacc Hlink]. rewrite <- app_assoc in Hacc. split; [exact Hacc|].
    apply replay_event_inv in Hev as (m & st2 & st3 & -> & Hh & Hp & Hn & Hr & _ & _ & _ & _ & _ & ->).
    exists m. split_and!; try done. cbn [link cs_previous] in Hlink.
    replace (1 + Z.of_nat (length seen) + 1)%Z
      with (1 + Z.of_nat (length (seen ++ [JObj m])))%Z by (rewrite length_app; cbn; lia).
    done.
Qed.
End accepts.

(** ** The guarantees *)

Section replay_claims.
Context `{PyRuntime} {HV : HumanVerifier}.

(** A Run that ended has every tool call closed. *)
Lemma terminal_calls_closed d id run :
  ledger_inv d → db_runs d !! id = Some run → is_terminal (run_status run) = true →
  check_open_tool_calls (run_events id d) = Ok tt.
Proof.
  intros Hd Hrun Hterm. destruct (li_life _ Hd _ _ Hrun) as [[-> _]|(l & Hl & El)]; [done|].
  rewrite El in Hterm. destruct (terminal_last _ _ Hl Hterm) as (ts & t & Ets & Ht).
  assert (Hne : run_events id d ≠ []) by (intros Hn; rewrite Hn in Ets; by destruct ts).
  destruct (exists_last Hne) as (es & e & Hes). rewrite Hes, map_app in Ets. apply app_inj_tail in Ets as [_ <-].
  pose proof (so_closed _ _ _ _ _ (li_sound _ Hd id es e [] Hes) Ht) as Hclosed.
  pose proof (terminal_types_not_tools _ Ht) as Hnot.
  rewrite Hes. unfold check_open_tool_calls in *. rewrite !call_ids_snoc_other; [done|..];
    intros Hin; apply Hnot; [apply list_elem_of_singleton in Hin as ->; left|by right].
Qed.

(** From evaluation a Run only moves by a terminal event, and no tool event comes. *)
Lemma evaluating_step l t l' :
  life_step l t = Some l' → lf_status l = evaluating →
  t ∈ TERMINAL_EVENT_TYPES ∨ (lf_status l' = evaluating ∧ (t ∉ TOOL_TERMINAL_TYPES)).
Proof.
  unfold life_step. intros Hs Hst. rewrite Hst in Hs.
  destruct (_ || _ || _ || _) eqn:E; [done|]. rewrite !orb_false_iff, !negb_false_iff in E.
  destruct E as [_ Hph].
  destruct (assoc t transition) as [[from to]|] eqn:Ha.
  - left. destruct (evaluating ∈b from) eqn:Hin; [|done]. unfold transition in Ha. cbn in Ha.
    repeat (case_decide; [injection Ha as <- <-; subst t; try done;
      apply (bool_decide_eq_true_1 _); reflexivity|]). done.
  - right. injection Hs as <-. split; [done|]. intros Ht. unfold TOOL_TERMINAL_TYPES in Ht.
    rewrite !elem_of_cons in Ht. destruct Ht as [->|[->|[->|[]%not_elem_of_nil]]]; done.
Qed.

Lemma call_ids_elem types es ids e c :
  call_ids types es = Ok ids → e ∈ es → evt_event_type e ∈ types →
  item_text (evt_payload e) "call_id" = Ok c → c ∈ ids.
Proof.
  revert ids. induction es as [|x es IH] using rev_ind; intros ids Hids He Ht Hc;
    [by apply not_elem_of_nil in He|].
  apply call_ids_snoc in Hids. apply elem_of_app in He as [He|He%list_elem_of_singleton].
  - destruct (evt_event_type x ∈b types); [|by eapply IH].
    destruct Hids as (before & c' & Hb & _ & ->). apply elem_of_app. left. by eapply IH.
  - subst x. rewrite bool_decide_eq_true_2 in Hids by done.
    destruct Hids as (before & c' & _ & Hc' & ->). rewrite Hc in Hc'. injection Hc' as <-.
    apply elem_of_app. right. by left.
Qed.

(** With an open call, evaluation never ends. *)
Lemma open_call_stays d id es e c new post :
  ledger_inv d → run_events id d = (es ++ new) ++ post →
  (∃ l, lives (map evt_event_type es) l ∧ lf_status l = evaluating) →
  e ∈ es → evt_event_type e = "tool.called" → item_text (evt_payload e) "call_id" = Ok c →
  (∀ closed, call_ids TOOL_TERMINAL_TYPES es = Ok closed → c ∉ closed) →
  (∃ l, lives (map evt_event_type (es ++ new)) l ∧ lf_status l = evaluating)
  ∧ ∀ closed, call_ids TOOL_TERMINAL_TYPES (es ++ new) = Ok closed → c ∉ closed.
Proof.
  intros Hd Hes Hl He Ht Hc Hno. revert post Hes.
  induction new as [|x new IH] using rev_ind; intros post Hes; [by rewrite app_nil_r|].
  assert (Hes' : run_events id d = (es ++ new) ++ x :: post)
    by (rewrite Hes, <- !app_assoc; done).
  destruct (IH (x :: post) Hes') as [(l & Hll & Hev) Hopen].
  pose proof (ledger_follows _ _ _ _ _ Hd Hes') as Hf. pose proof (fo_sound _ _ _ Hf) as Hsound.
  destruct (fo_life _ _ _ Hf) as [[Hnil _]|(l0 & l' & Hl0 & Hs)].
  { rewrite Hnil in Hll. by apply lives_nonempty in Hll. }
  rewrite <- (lives_functional _ _ _ Hll Hl0) in Hs.
  destruct (evaluating_step _ _ _ Hs Hev) as [Hterm|[Hev' Hnt]].
  - exfalso. pose proof (so_closed _ _ _ _ _ Hsound Hterm) as Hcl. unfold check_open_tool_calls in Hcl.
    apply bind_ok in Hcl as (called & Hcalled & Hcl). apply bind_ok in Hcl as (closed & Hclosed & Hcl).
    apply raise_when_ok, negb_false_iff in Hcl. rewrite forallb_true in Hcl.
    assert (Hin : c ∈ called).
    { eapply call_ids_elem; [exact Hcalled|apply elem_of_app; by left|rewrite Ht; by left|done]. }
    apply Hcl in Hin. bools. by apply (Hopen closed).
  - rewrite app_assoc. split.
    + exists l'. split; [|done]. rewrite (map_app _ (es ++ new)). exact (lives_next _ _ _ _ Hll Hs).
    + intros closed. rewrite call_ids_snoc_other by done. apply Hopen.
Qed.

(** C38: an open tool call wedges an evaluated Run. A response is accepted while a tool call
    is open; from then on no command can close the call and none can end the Run: in every
    later state it is still under evaluation. *)
Theorem open_call_wedges_run s s' id run e c :
  reachable s → steps s s' → db_runs (st_db s) !! id = Some run → run_status run = evaluating →
  e ∈ run_events id (st_db s) → evt_event_type e = "tool.called" →
  item_text (evt_payload e) "call_id" = Ok c →
  (∀ closed, call_ids TOOL_TERMINAL_TYPES (run_events id (st_db s)) = Ok closed → c ∉ closed) →
  ∃ run', db_runs (st_db s') !! id = Some run' ∧ run_status run' = evaluating.
Proof.
  intros Hr Hs Hrun Hst He Ht Hc Hno. destruct (reachable_inv _ Hr) as [_ Hd].
  destruct (reachable_inv _ (reachable_steps _ _ Hr Hs)) as [_ Hd'].
  destruct (reachable_evolves _ _ Hr Hs) as (_ & [[l El] Hruns] & _).
  destruct (Hruns _ _ Hrun) as (run' & Hrun' & _).
  assert (Hes : run_events id (st_db s')
    = (run_events id (st_db s) ++ List.filter (λ e, evt_run_id e ==b id) l) ++ []).
  { unfold run_events. by rewrite El, List.filter_app, app_nil_r. }
  destruct (open_call_stays _ _ _ e c _ _ Hd' Hes) as [(l1 & Hl1 & Hev) _]; try done.
  { destruct (li_life _ Hd _ _ Hrun) as [[_ Hq]|(l0 & Hl0 & E0)]; [by rewrite Hst in Hq|].
    exists l0. split; [done|by rewrite <- E0]. }
  exists run'. split; [done|]. rewrite app_nil_r in Hes. rewrite <- Hes in Hl1.
  by rewrite <- (run_life _ _ _ _ Hd' Hrun' Hl1).
Qed.

Context `{PayloadDump}.

(** C10: what the stores write, the verifier accepts. In a reachable state the exported
    events of a Run that ended, or of any Run without an open tool call, pass the replay:
    hashes, numbering, actors, payloads, phases, Subject turns, tool protocol and
    lifecycle. *)
Theorem exported_ledger_verifies `{!PayloadDumpLaws} s id run :
  reachable s → db_runs (st_db s) !! id = Some run →
  is_terminal (run_status run) = true ∨ check_open_tool_calls (run_events id (st_db s)) = Ok tt →
  chain_valid (get_run_events id (st_db s)) id = Ok true.
Proof.
  intros Hr Hrun Hclosed. destruct (reachable_inv _ Hr) as [_ Hd].
  assert (Hopen : check_open_tool_calls (run_events id (st_db s)) = Ok tt)
    by (destruct Hclosed; [by eapply terminal_calls_closed|done]).
  unfold chain_valid, get_run_events. rewrite events_by_sequence_id by done.
  destruct (ledger_replays id (run_events id (st_db s))) as (st & -> & Ht).
  { intros pre e post Hes. by eapply ledger_follows. }
  cbn [mbind result_bind]. by rewrite (open_calls_ok _ _ Ht Hopen), bool_decide_eq_true_2.
Qed.

(** C11: what the verifier accepts is a ledger. Accepted documents form a hash chain of the
    Run, numbered from 1, each document carrying the digest of the rest of it and naming
    its predecessor's; unless there are none, their types are a path of the lifecycle
    rules; and the calls they open are exactly the calls they close. *)
Theorem verified_chain_sound docs run_id :
  chain_valid docs run_id = Ok true →
  linked run_id JNull 1 docs
  ∧ (docs = [] ∨ ∃ l, flows (map document_type docs) l)
  ∧ ∀ c, names_call ["tool.called"] docs c ↔ names_call TOOL_TERMINAL_TYPES docs c.
Proof.
  unfold chain_valid. intros E. apply bind_ok in E as ([st|] & Hrep & E); [|done].
  injection E as E. bools.
  assert (Hinit : accepted [] initial_chain).
  { split; [by left|done|done|..]; intros c; cbn; unfold names_call;
      (split; [intros Hc; exfalso; set_solver|]); intros (doc & []%not_elem_of_nil & _). }
  destruct (replay_inv run_id docs [] initial_chain st Hinit Hrep) as [[Hl _ _ Hc Ht] Hlink].
  cbn in Hlink. cbn [app] in *. split_and!; [done| |].
  - destruct Hl as [[Hn _]|(l & Hl & _)]; [by left|right]. exists l. by apply lives_flows.
  - intros c. by rewrite <- Hc, <- Ht, E.
Qed.
End replay_claims.

(** ** Instances *)

(** The simplest pydantic: the document is already the dump. *)
#[export] Instance identity_dump : PayloadDump := λ model document, Ok document.
#[export] Instance identity_dump_laws : PayloadDumpLaws.
Proof. intros t model p doc _ _. reflexivity. Qed.

Lemma exported_ledger_verifies_witness :
  chain_valid (get_run_events "run_0" (st_db scn_7)) "run_0" = Ok true.
Proof.
  apply (exported_ledger_verifies scn_7 "run_0" (run_at scn_7) scn_7_reachable run_at_7).
  left. vm_compute. reflexivity.
Defined.

Definition scn_documents : list json := Eval vm_compute in get_run_events "run_0" (st_db scn_7).

Lemma scn_documents_valid : chain_valid scn_documents "run_0" = Ok true.
Proof. vm_compute. reflexivity. Qed.

Lemma verified_chain_sound_witness : linked "run_0" JNull 1 scn_documents.
Proof. exact (proj1 (verified_chain_sound scn_documents "run_0" scn_documents_valid)). Defined.

(** The Subject calls the offered tool, and its response is captured before the result. *)
Definition scn_call : AppendRequest := request "tool.called"
  (PToolCalled (MkToolCalledPayload sample_tool "call-1" (digest_of "a")
     (Some (MkArtifactRef "args" (digest_of "a") "application/json" INTERNAL))))
  (Some scn_fence) None false.

Definition scn_called : St := Eval vm_compute in after scn_4 (Append scn_call).
Definition scn_wedged : St := Eval vm_compute in after scn_called scn_respond.
Lemma scn_call_step : exec (Append scn_call) scn_env scn_4 = (scn_called, Ok tt).
Proof. vm_compute. reflexivity. Qed.
Lemma scn_wedged_step : exec scn_respond scn_env scn_called = (scn_wedged, Ok tt).
Proof. vm_compute. reflexivity. Qed.
Lemma scn_wedged_reachable : reachable scn_wedged.
Proof.
  exact (reachable_exec _ _ _ _ scn_wedged_step
    (reachable_exec _ _ _ _ scn_call_step scn_4_reachable)).
Qed.
Lemma run_at_wedged : db_runs (st_db scn_wedged) !! "run_0" = Some (run_at scn_wedged).
Proof. apply default_some. vm_compute. reflexivity. Qed.

Definition scn_call_event : RunEventRow :=
  Eval vm_compute in default no_event (event_at "run_0" 7 (st_db scn_wedged)).
Definition scn_cancel : command := Append (request "run.cancelled"
  (PRunTerminal (MkRunTerminalPayload cancelled (GoalStateTerminalResult GAchieved) "stop" [] []))
  None None false).

Lemma scn_call_event_stored : scn_call_event ∈ run_events "run_0" (st_db scn_wedged).
Proof. apply (list_elem_of_lookup_2 _ 6). vm_compute. reflexivity. Qed.
Lemma scn_no_result : call_ids TOOL_TERMINAL_TYPES (run_events "run_0" (st_db scn_wedged)) = Ok [].
Proof. vm_compute. reflexivity. Qed.

Lemma open_call_wedges_run_witness :
  ∃ run, db_runs (st_db (after scn_wedged scn_cancel)) !! "run_0" = Some run
    ∧ run_status run = evaluating.
Proof.
  refine (open_call_wedges_run scn_wedged (after scn_wedged scn_cancel) "run_0" (run_at scn_wedged)
    scn_call_event "call-1" scn_wedged_reachable (after_steps scn_wedged scn_cancel) run_at_wedged
    ltac:(vm_compute; reflexivity) scn_call_event_stored eq_refl eq_refl _).
  rewrite scn_no_result. intros closed Hclosed. injection Hclosed as <-. apply not_elem_of_nil.
Defined.
