(* ===== verification/Idempotence.v ===== *)
(** * Exactly-once effects

    Replaying a request returns what the first call wrote and writes nothing: enqueueing
    under an idempotency key, appending under an operation key, preparing a Run. The
    theorems allow any commands between the call and its replay. *)

From S2P Require Import Prelude PyText PyJson Base Authoring Runtime Events Triage Evaluation Store.
From S2P Require Import Registry Admission Lease Handlers Ledger LedgerInv Queue EvalStore EvalInv System Samples Scenario.

Section idempotence.
Context `{PyRuntime} {HV : HumanVerifier}.

(** ** Enqueue *)

Lemma job_by_key_unique d key k j :
  queue_inv d → db_jobs d !! k = Some j → job_idempotency_key j = key →
  job_by_key key d = Some j.
Proof.
  intros Hd Hj Hk. unfold job_by_key. pose proof (qi_job_key _ Hd _ _ Hj) as Ek.
  assert (Hin : j ∈ all_jobs d) by (apply elem_of_all_jobs; [done|by rewrite Ek]).
  destruct (find_first _ _) as [x|] eqn:E.
  - apply find_first_Some in E as [Hx Hkx]. apply bool_decide_eq_true in Hkx.
    apply elem_of_all_jobs in Hx; [|done].
    assert (job_id x = k) as <- by (eapply (qi_job_keys _ Hd); [exact Hx|exact Hj|left; congruence]).
    congruence.
  - rewrite find_first_None in E. apply E in Hin. rewrite Hk in Hin.
    by apply bool_decide_eq_false in Hin.
Qed.

Lemma job_by_key_lookup d key j :
  queue_inv d → job_by_key key d = Some j →
  db_jobs d !! job_id j = Some j ∧ job_idempotency_key j = key.
Proof.
  intros Hd [Hj Hk]%find_first_Some. apply bool_decide_eq_true in Hk.
  by apply elem_of_all_jobs in Hj.
Qed.

(** Both outcomes of a successful enqueue leave the job and its Run in the tables. *)
Lemma enqueue_stored spec_id admission_id key retry exper now env s run job s' :
  queue_inv (st_db s) → ledger_inv (st_db s) →
  enqueue_body spec_id admission_id key retry exper now env s = Ok ((run, job), s') →
  db_jobs (st_db s') !! job_id job = Some job ∧ job_idempotency_key job = key
  ∧ job_request_digest job = sha256_json (request_document spec_id admission_id retry exper)
  ∧ db_runs (st_db s') !! job_run_id job = Some run.
Proof.
  intros Hq Hl E. apply enqueue_body_ok in E as [_ E].
  destruct E as [(Hk & Hd & Hr & ->)|(_ & spec & admission & arow & s1 & s2 & u & at_ & E)].
  - apply job_by_key_lookup in Hk as [? ?]; done.
  - destruct E as (_ & _ & _ & _ & _ & _ & _ & _ & _ & E1 & E2 & _ & Hk & Hd & Hr & _ & E3).
    rewrite E3. cbn. rewrite lookup_insert_eq, Hr. split_and!; try done.
    unfold append_queued_event in E2.
    apply tx_bind_ok in E2 as (p & s3 & E4 & E2). apply lift_ok in E4 as [_ ->].
    apply tx_bind_ok in E2 as (eid & s3 & E4 & E2). apply new_id_ok in E4.
    apply insert_event_ok in E2 as [_ E2]. rewrite E2, E4, E1. cbn. by rewrite lookup_insert_eq.
Qed.

(** What enqueue answers when the key is taken. *)
Lemma enqueue_replay spec_id admission_id key retry exper now env s job run :
  is_blank key = false → job_by_key key (st_db s) = Some job →
  db_runs (st_db s) !! job_run_id job = Some run →
  ∃ s', st_db s' = st_db s ∧
  enqueue_body spec_id admission_id key retry exper now env s =
    if job_request_digest job ==b sha256_json (request_document spec_id admission_id retry exper)
    then Ok ((run, job), s') else Raise (rejected ENQUEUE_IDEMPOTENCY_CONFLICT).
Proof.
  intros Hk Hj Hr. unfold enqueue_body. rewrite Hk. erewrite tx_run; [|reflexivity].
  assert (Hn : ∃ t s1, now_or_clock now env s = Ok (t, s1) ∧ st_db s1 = st_db s)
    by (destruct now; cbn; eauto).
  destruct Hn as (t & s1 & E1 & Es). exists s1. split; [done|].
  erewrite tx_run; [|exact E1]. erewrite tx_run; [|reflexivity]. rewrite Es, Hj.
  destruct (job_request_digest job ==b _) eqn:Ed.
  - erewrite tx_run; [|reflexivity]. erewrite tx_run; [reflexivity|].
    apply fetch_ok. unfold get_run. by rewrite Es.
  - by apply tx_fails.
Qed.

Lemma enqueue_run_ok a b k r e now env s s' run job :
  enqueue_run a b k r e now env s = (s', Ok (run, job)) →
  ∃ row, enqueue_body a b k r e now env s = Ok ((run, row), s') ∧ job = job_document row.
Proof.
  unfold enqueue_run, transaction. destruct (enqueue_body _ _ _ _ _ _ _ _) as [[[run' row] s1]|x].
  - unfold execution_job_model. destruct (validate_job_state _); [|done]. cbn.
    intros [= <- <- <-]. by exists row.
  - done.
Qed.

(** The job of an enqueue in a later state. *)
Lemma enqueue_later a b k r e now env s s1 run row s2 :
  reachable s → enqueue_body a b k r e now env s = Ok ((run, row), s1) → steps s1 s2 →
  is_blank k = false ∧ reachable s2 ∧
  ∃ row' run', job_by_key k (st_db s2) = Some row' ∧ job_id row' = job_id row
    ∧ job_request_digest row' = sha256_json (request_document a b r e)
    ∧ db_runs (st_db s2) !! job_run_id row' = Some run' ∧ pinned run run'.
Proof.
  intros Hr E Hs. destruct (reachable_inv _ Hr) as [Hq Hl].
  assert (Hr1 : reachable s1).
  { apply (reachable_steps s); [done|]. apply rtc_once. exists (Enqueue a b k r e now), env.
    cbn. unfold enqueue_run, transaction. by rewrite E. }
  pose proof (reachable_steps _ _ Hr1 Hs) as Hr2.
  destruct (reachable_inv _ Hr1) as [Hq1 Hl1]. destruct (reachable_inv _ Hr2) as [Hq2 Hl2].
  pose proof (proj1 (enqueue_body_ok _ _ _ _ _ _ _ _ _ _ _ E)) as Hk.
  apply enqueue_stored in E as (Hj & Ek & Ed & Hrun); [|done..].
  destruct (reachable_evolves _ _ Hr1 Hs) as (He & Hle & _).
  destruct (ev_job _ _ He _ _ Hj) as (j' & Hj' & Er & Ek' & Ed' & _).
  destruct (le_run _ _ Hle _ _ Hrun) as (run' & Hrun' & Hpin & _).
  split_and!; [done..|]. exists j', run'. split_and!; try congruence.
  - eapply job_by_key_unique; [done|exact Hj'|congruence].
  - by apply (qi_job_key _ Hq2).
Qed.

(** C32: enqueue is exactly-once. After a successful enqueue, and whatever happened since,
    the same request returns the same Run and the same job and writes nothing. *)
Theorem enqueue_idempotent a b k r e now env s s1 run job s2 now' env' :
  reachable s → enqueue_run a b k r e now env s = (s1, Ok (run, job)) → steps s1 s2 →
  ∃ s' run' job', enqueue_run a b k r e now' env' s2 = (s', Ok (run', job'))
    ∧ st_db s' = st_db s2 ∧ run_id run' = run_id run ∧ pinned run run'
    ∧ xj_job_id job' = xj_job_id job.
Proof.
  intros Hr (row & E & ->)%enqueue_run_ok Hs.
  destruct (enqueue_later _ _ _ _ _ _ _ _ _ _ _ _ Hr E Hs)
    as (Hk & Hr2 & j' & run' & Hj & Ej & Ed & Hrun & Hpin).
  destruct (enqueue_replay a b k r e now' env' s2 j' run' Hk Hj Hrun) as (s' & Es & Eb).
  rewrite Ed, bool_decide_eq_true_2 in Eb by done.
  destruct (reachable_inv _ Hr2) as [Hq2 _].
  exists s', run', (job_document j'). unfold enqueue_run, transaction. rewrite Eb.
  unfold execution_job_model. apply job_by_key_lookup in Hj as [Hj _]; [|done].
  rewrite (qi_job_valid _ Hq2 _ _ Hj). split_and!; try done. apply Hpin.
Qed.

(** An idempotency key binds one request. Two successful enqueues under one key, in
    one execution, are the same request and name the same Run, unless two texts with one
    digest are at hand. *)
Theorem enqueue_key_binds_request `{!PyRuntimeLaws} a b k r e a' b' r' e' now now' env env'
    s s1 run job s2 s3 run' job' :
  reachable s → enqueue_run a b k r e now env s = (s1, Ok (run, job)) → steps s1 s2 →
  enqueue_run a' b' k r' e' now' env' s2 = (s3, Ok (run', job')) →
  (a' = a ∧ b' = b ∧ r' = r ∧ e' = e ∧ run_id run' = run_id run) ∨ sha256_collision.
Proof.
  intros Hr (row & E & ->)%enqueue_run_ok Hs (row' & E' & ->)%enqueue_run_ok.
  destruct (enqueue_later _ _ _ _ _ _ _ _ _ _ _ _ Hr E Hs)
    as (Hk & Hr2 & j' & run2 & Hj & Ej & Ed & Hrun & Hpin).
  destruct (enqueue_replay a' b' k r' e' now' env' s2 j' run2 Hk Hj Hrun) as (s' & Es & Eb).
  rewrite E' in Eb. destruct (job_request_digest j' ==b _) eqn:Edig; [|done].
  apply bool_decide_eq_true in Edig. rewrite Ed in Edig. injection Eb as -> -> ->.
  apply sha256_json_sort in Edig as [Edoc|?]; [left|by right].
  destruct r, r', e, e'; cbn in Edoc; try discriminate Edoc; injection Edoc; intros; subst;
    split_and!; try done; apply Hpin.
Qed.

Lemma load_admitted_ok spec_id admission_id d spec admission arow :
  load_admitted_contracts spec_id admission_id d = Ok (spec, admission, arow) →
  ∃ srow trust, db_run_specs d !! spec_id = Some srow ∧ db_admissions d !! admission_id = Some arow
    ∧ spec = rsp_spec srow ∧ admission = arow_record arow
    ∧ spec_digest spec = rsp_digest srow ∧ admission_digest admission = arow_digest arow
    ∧ arow_decision arow = AdmissionAdmitted ∧ adm_decision admission = AdmissionAdmitted
    ∧ arow_run_spec_id arow = rsp_id srow ∧ adm_run_spec_digest admission = spec_digest spec
    ∧ adm_execution_trust admission = Some trust
    ∧ arow_execution_trust_id arow = Some (tr_trust_id trust)
    ∧ arow_execution_trust_digest arow = Some (tr_digest trust).
Proof.
  unfold load_admitted_contracts. intros E. inv_ok. bools.
  destruct (adm_execution_trust _) as [trust|] eqn:Ht; [|done]. bools. eauto 20.
Qed.

Lemma validate_retry_ok src spec_id admission_id created exper d :
  is_ok (validate_retry src spec_id admission_id created exper d) = true →
  ∃ run t, db_runs d !! src = Some run ∧ run_status run ∈ RETRYABLE_RUN_STATUSES
    ∧ run_run_spec_id run = Some spec_id ∧ run_admission_id run ≠ Some admission_id
    ∧ run_completed_at run = Some t ∧ (t < created)%Z.
Proof.
  unfold validate_retry, get_run. destruct (db_runs d !! src) as [run|]; [|done].
  cbn [require mbind result_bind]. unfold raise_when.
  destruct (negb (run_status run ∈b _)) eqn:E1; [done|].
  destruct (run_run_spec_id run !=b _) eqn:E2; [done|].
  destruct (run_admission_id run ==b _) eqn:E3; [done|]. bools.
  destruct (run_completed_at run) as [t|] eqn:Ec; [|done].
  destruct (Z.leb_spec created t) as [Hle|Hlt]; [done|]. intros _. exists run, t.
  change RETRYABLE_RUN_STATUSES with [failed; cancelled; budget_exhausted; guardrail_stopped].
  split_and!; done.
Qed.

(** No Run without an admission. A Run that enqueue creates is queued, and its RunSpec
    and its admission record are stored under the given identifiers, reproduce their
    digests, admit each other exactly and carry the execution trust; if it retries a Run,
    that Run ended without success on the same RunSpec, under another admission, before
    this admission was made. *)
Theorem enqueue_requires_admission a b k r e now env s s1 run job :
  enqueue_run a b k r e now env s = (s1, Ok (run, job)) → job_by_key k (st_db s) = None →
  let d := st_db s in
  run_status run = queued ∧ run_run_spec_id run = Some a ∧ run_admission_id run = Some b
  ∧ run_retry_of run = r
  ∧ (∃ srow arow trust, db_run_specs d !! a = Some srow ∧ db_admissions d !! b = Some arow
       ∧ spec_digest (rsp_spec srow) = rsp_digest srow
       ∧ admission_digest (arow_record arow) = arow_digest arow
       ∧ arow_decision arow = AdmissionAdmitted ∧ adm_decision (arow_record arow) = AdmissionAdmitted
       ∧ arow_run_spec_id arow = rsp_id srow
       ∧ adm_run_spec_digest (arow_record arow) = rsp_digest srow
       ∧ adm_execution_trust (arow_record arow) = Some trust
       ∧ run_variant_id run = spec_variant_id (rsp_spec srow)
       ∧ ∀ src, r = Some src → ∃ source t, db_runs d !! src = Some source
           ∧ run_status source ∈ RETRYABLE_RUN_STATUSES ∧ run_run_spec_id source = Some a
           ∧ run_admission_id source ≠ Some b ∧ run_completed_at source = Some t
           ∧ (t < arow_created_at arow)%Z).
Proof.
  intros (row & E & ->)%enqueue_run_ok Hnone d. apply enqueue_body_ok in E as [_ E].
  destruct E as [(Hk & _)|(_ & spec & admission & arow & s2 & s3 & u & at_ & E)]; [congruence|].
  destruct E as (Hload & Hretry & Hst & _ & Hsp & Had & Hre & Hva & _).
  apply load_admitted_ok in Hload as (srow & trust & L1 & L2 & -> & -> & L3 & L4 & L5 & L6 & L7 & L8
    & L9 & _). split_and!; try done.
  exists srow, arow, trust. split_and!; try done; [congruence|].
  intros src Hsrc. eapply validate_retry_ok, (Hretry src Hsrc).
Qed.

(** ** Append *)

Lemma event_by_key_prefix id key d d' e :
  db_events d `prefix_of` db_events d' → event_by_key id key d = Some e →
  event_by_key id key d' = Some e.
Proof.
  intros [l El]. unfold event_by_key, run_events. rewrite El, List.filter_app, find_first_app.
  by intros ->.
Qed.

Lemma replay_conflict_refl row : replay_conflict row (evt_event_type row) (evt_payload row) = false.
Proof.
  unfold replay_conflict. by rewrite !bool_decide_eq_true_2.
Qed.

(** A keyed append that goes through leaves its event under the key. *)
Lemma append_stored rq key env s row s' :
  ledger_inv (st_db s) → rq_operation_key rq = Some key → append_body rq env s = Ok (row, s') →
  ∃ payload, validate_request rq = Ok payload
  ∧ event_by_key (rq_run_id rq) key (st_db s') = Some row
  ∧ replay_conflict row (rq_event_type rq) payload = false
  ∧ is_Some (db_runs (st_db s') !! rq_run_id rq).
Proof.
  intros Hd Hkey E. pose proof (append_body_ledger rq env s row s' E Hd) as [Hd' _]. revert E.
  unfold append_body. intros E.
  apply tx_bind_ok in E as (payload & s1 & E1 & E). apply lift_ok in E1 as [Hreq ->].
  exists payload. split; [done|].
  apply tx_bind_ok in E as (u & s1 & E1 & E). apply reads_validate_optional_lease in E1.
  apply tx_bind_ok in E as (run & s2 & E2 & E). apply fetch_ok in E2 as [Hrun ->].
  unfold get_run in Hrun. rewrite Hkey in E. apply tx_bind_ok in E as (ex & s2 & E2 & E).
  assert (Hs2 := resolve_idempotent_ledger _ _ _ _ _ _ _ E2).
  assert (Hkeys : event_by_key (rq_run_id rq) key (st_db s2) = event_by_key (rq_run_id rq) key (st_db s1)).
  { unfold event_by_key, run_events. by rewrite (proj2 Hs2). }
  unfold resolve_idempotent in E2. apply tx_bind_ok in E2 as (ex' & s3 & E3 & E2).
  apply query_ok in E3 as [-> ->].
  destruct (event_by_key (rq_run_id rq) key (st_db s1)) as [x|] eqn:Hx.
  - apply tx_bind_ok in E2 as (u2 & s3 & E3 & E2). apply guard_ok in E3 as [Hc ->].
    apply tx_bind_ok in E2 as (u3 & s3 & E3 & E2). apply tx_ret_ok in E2 as [-> ->].
    apply tx_ret_ok in E as [-> ->]. split_and!; try done. rewrite (proj1 Hs2). eauto.
  - apply tx_ret_ok in E2 as [-> ->].
    apply tx_bind_ok in E as (prior & s3 & E3 & E). apply query_ok in E3 as [-> ->].
    do 1 skip_read E. apply tx_bind_ok in E as (d & s3 & E3 & E). apply query_ok in E3 as [-> ->].
    skip_read E. apply tx_bind_ok in E as (next & s3 & E3 & E). apply lift_ok in E3 as [_ ->].
    unfold persist_event in E.
    apply tx_bind_ok in E as (eid & s3 & E3 & E). apply new_id_ok in E3.
    apply tx_bind_ok in E as (at_ & s4 & E4 & E). apply utc_now_ok in E4 as [E4 _].
    apply tx_bind_ok in E as (u1 & s5 & E5 & E). apply insert_event_ok in E5 as [_ E5].
    apply tx_bind_ok in E as (u2 & s6 & E6 & E). apply tx_bind_ok in E as (u3 & s7 & E7 & E).
    apply tx_ret_ok in E as [-> ->]. apply settle_lease_ledger in E7 as [_ Ee7].
    assert (Ee6 : db_events (st_db s6) = db_events (st_db s5)) by (destruct next; inv_tx; done).
    assert (Hin : event_by_key (rq_run_id rq) key (st_db s7)
      = event_by_key (rq_run_id rq) key (st_db s5)).
    { unfold event_by_key, run_events. by rewrite Ee7, Ee6. }
    set (row := chain_row _ _ _ _ _ _ _ _ _ _ _ _ _) in *.
    assert (Hnew : event_by_key (rq_run_id rq) key (st_db s5) = Some row).
    { rewrite E5, E4, E3. unfold event_by_key. rewrite run_events_snoc, find_first_app.
      fold (event_by_key (rq_run_id rq) key (st_db s1)). rewrite Hx.
      unfold row at 1. cbn [evt_run_id chain_row].
      rewrite (bool_decide_eq_true_2 (rq_run_id rq = rq_run_id rq)) by done. cbn [find_first].
      unfold row at 1. cbn [evt_operation_key chain_row].
      by rewrite (bool_decide_eq_true_2 (rq_operation_key rq = Some key)). }
    rewrite Hin, Hnew. split_and!; [done|exact (replay_conflict_refl row)|].
    assert (Hrow : row ∈ db_events (st_db s7)).
    { rewrite Ee7, Ee6, E5. cbn. set_solver. }
    apply (li_owned _ Hd') in Hrow. exact Hrow.
Qed.

(** What an append without a lease answers when its key is taken. *)
Lemma append_replay rq key env s e run :
  rq_lease rq = None → rq_operation_key rq = Some key →
  event_by_key (rq_run_id rq) key (st_db s) = Some e → db_runs (st_db s) !! rq_run_id rq = Some run →
  append_body rq env s =
  match validate_request rq with
  | Raise x => Raise x
  | Ok payload => if replay_conflict e (rq_event_type rq) payload
      then Raise (ValueError "Run operation key conflicts with an existing event") else Ok (e, s)
  end.
Proof.
  intros Hl Hk He Hr. unfold append_body. destruct (validate_request rq) as [p|x]; [|by apply tx_fails].
  erewrite tx_run; [|reflexivity]. rewrite Hl. erewrite tx_run; [|reflexivity].
  erewrite tx_run; [|by apply fetch_ok]. rewrite Hk.
  assert (Hres : resolve_idempotent rq key p env s =
    if replay_conflict e (rq_event_type rq) p
    then Raise (ValueError "Run operation key conflicts with an existing event")
    else Ok (Some e, s)).
  { unfold resolve_idempotent. erewrite tx_run; [|reflexivity]. rewrite He.
    destruct (replay_conflict _ _ _); [by apply tx_fails|].
    erewrite tx_run; [|reflexivity]. unfold settles_lease. by rewrite Hl. }
  revert Hres. destruct (replay_conflict _ _ _); intros Hres; [by apply tx_fails|].
  erewrite tx_run; [|exact Hres]. reflexivity.
Qed.

(** C33: an operation key writes at most one event. After a keyed append went through, and
    whatever happened since, the same unfenced request returns the same event and leaves
    the whole state as it is; any other unfenced request under the key and Run returns
    that event or raises, and writes nothing either. *)
Theorem append_event_idempotent rq key env s s1 row s2 env' :
  reachable s → rq_operation_key rq = Some key → rq_lease rq = None →
  append_event rq env s = (s1, Ok row) → steps s1 s2 →
  append_event rq env' s2 = (s2, Ok row)
  ∧ ∀ rq', rq_run_id rq' = rq_run_id rq → rq_operation_key rq' = Some key → rq_lease rq' = None →
      append_event rq' env' s2 = (s2, Ok row) ∨ ∃ e, append_event rq' env' s2 = (s2, Raise e).
Proof.
  intros Hr Hk Hl E Hs. destruct (reachable_inv _ Hr) as [_ Hd].
  assert (Hr1 : reachable s1).
  { apply (reachable_steps s); [done|]. apply rtc_once. exists (Append rq), env. cbn. by rewrite E. }
  unfold append_event, transaction in E. destruct (append_body rq env s) as [[x s']|x] eqn:Eb; [|done].
  injection E as -> ->. destruct (append_stored _ _ _ _ _ _ Hd Hk Eb) as (p & Hp & He & Hc & [run Hrun]).
  destruct (reachable_evolves _ _ Hr1 Hs) as (_ & [Hpre Hruns] & _). apply (event_by_key_prefix _ _ _ _ _ Hpre) in He.
  destruct (Hruns _ _ Hrun) as (run' & Hrun' & _). unfold append_event, transaction. split.
  - by rewrite (append_replay _ _ _ _ _ _ Hl Hk He Hrun'), Hp, Hc.
  - intros rq' Ei Hk' Hl'. rewrite <- Ei in He, Hrun'.
    rewrite (append_replay _ _ _ _ _ _ Hl' Hk' He Hrun').
    destruct (validate_request rq') as [p'|x']; [|eauto].
    destruct (replay_conflict row (rq_event_type rq') p'); [eauto|left; reflexivity].
Qed.

(** ** Prepare *)

Definition same_boundary (d d' : DB) : Prop :=
  db_envelopes d' = db_envelopes d ∧ db_snapshots d' = db_snapshots d.
#[local] Instance same_boundary_preorder : PreOrder same_boundary.
Proof. split; [done|]. intros d1 d2 d3 [? ?] [? ?]. split; congruence. Qed.

Lemma preparation_events_boundary run spec envelope sid snap :
  steps_by same_boundary (append_preparation_events run spec envelope sid snap).
Proof.
  assert (Honce : ∀ run t p k al n,
    steps_by same_boundary (append_event_once_in_session run t p k al n))
    by (intros; unfold append_event_once_in_session, insert_event, save_run; walk).
  assert (Hoffer : ∀ run l, steps_by same_boundary (offer_capabilities run l)).
  { intros r l. induction l as [|c l IH]; cbn; [walk|].
    apply steps_by_bind; [apply _|walk|intros ref]. apply steps_by_bind; [apply _|apply Honce|done]. }
  unfold append_preparation_events. walk; first [apply Honce|apply Hoffer].
Qed.

Lemma upsert_snapshot_ok id snap at_ env s row s' :
  upsert_context_snapshot id snap at_ env s = Ok (row, s') →
  snapshot_by_run id (st_db s') = Some row ∧ snapshot_differs row snap = false
  ∧ db_envelopes (st_db s') = db_envelopes (st_db s).
Proof.
  unfold upsert_context_snapshot. intros E.
  apply tx_bind_ok in E as (ex & s1 & E1 & E). apply query_ok in E1 as [-> ->].
  destruct (snapshot_by_run id (st_db s)) as [x|] eqn:Hx; [by inv_tx|].
  apply tx_bind_ok in E as (sid & s1 & E1 & E). apply new_id_ok in E1.
  unfold insert_snapshot in E. inv_tx. rewrite E1 in *.
  set (row := MkSnapshotRow _ _ _ _ _ _ _ _ _ _ _) in *. cbn [st_db]. split_and!.
  - unfold snapshot_by_run. destruct (find_first _ _) as [y|] eqn:Hy.
    + apply find_first_Some in Hy as [Hy Hid]. apply bool_decide_eq_true in Hid.
      apply list_elem_of_fmap in Hy as ([k z] & -> & Hz). apply elem_of_map_to_list in Hz. cbn in *.
      apply lookup_insert_Some in Hz as [[_ <-]|[_ Hz]]; [done|]. exfalso.
      unfold snapshot_by_run in Hx. rewrite find_first_None in Hx.
      assert (Hin : z ∈ map snd (map_to_list (db_snapshots (st_db s)))).
      { apply list_elem_of_fmap. exists (k, z). split; [done|]. by apply elem_of_map_to_list. }
      apply Hx in Hin. by apply bool_decide_eq_false in Hin.
    + rewrite find_first_None in Hy. exfalso.
      assert (Hin : row ∈ map snd (map_to_list (<[snap_id row:=row]> (db_snapshots (st_db s))))).
      { apply list_elem_of_fmap. exists (snap_id row, row). split; [done|].
        apply elem_of_map_to_list. by rewrite lookup_insert_eq. }
      apply Hy in Hin. by apply bool_decide_eq_false in Hin.
  - unfold snapshot_differs, row. cbn. rewrite !Z.eqb_refl. cbn.
    by rewrite !bool_decide_eq_true_2.
  - done.
Qed.

Lemma upsert_envelope_ok id en at_ env s row s' :
  upsert_subject_envelope id en at_ env s = Ok (row, s') →
  db_envelopes (st_db s') !! id = Some row ∧ erow_digest row = envelope_digest en
  ∧ db_snapshots (st_db s') = db_snapshots (st_db s).
Proof.
  unfold upsert_subject_envelope. intros E.
  apply tx_bind_ok in E as (ex & s1 & E1 & E). apply query_ok in E1 as [-> ->].
  destruct (db_envelopes (st_db s) !! id) as [x|] eqn:Hx.
  - inv_tx. apply orb_false_iff in H0 as [_ H0]. apply negb_false_iff, bool_decide_eq_true in H0. done.
  - unfold insert_envelope in E. inv_tx. cbn. by rewrite lookup_insert_eq.
Qed.

Lemma load_prepared_ok id spec admission en d run :
  load_prepared_run id spec admission en d = Ok run →
  db_runs d !! id = Some run ∧ adm_decision admission = AdmissionAdmitted
  ∧ adm_run_spec_digest admission = spec_digest spec ∧ se_run_spec_digest en = spec_digest spec.
Proof.
  unfold load_prepared_run, get_run. intros E. inv_ok.
  destruct (run_run_spec_id x) as [sid|], (run_admission_id x) as [aid|]; inv_ok; try done.
  destruct (db_run_specs d !! sid), (db_admissions d !! aid); try done. bools. done.
Qed.

(** A prepared Run is published whole. When preparation goes through, the caller held
    the live lease of that Run, the RunSpec, admission and envelope agree exactly, and in
    one commit the Run has its context snapshot, its Subject envelope under the envelope's
    digest, the events that announce them and its context hash. *)
Theorem prepare_publishes id spec admission snap en lease env s s' srow erow :
  reachable s →
  prepare_run_execution id spec admission snap en lease env s = (s', Ok (srow, erow)) →
  let d' := st_db s' in
  (∃ now j a, fence_holds (st_db s) lease now j a ∧ job_run_id j = id)
  ∧ adm_decision admission = AdmissionAdmitted ∧ adm_run_spec_digest admission = spec_digest spec
  ∧ se_run_spec_digest en = spec_digest spec
  ∧ snapshot_by_run id d' = Some srow ∧ snapshot_differs srow snap = false
  ∧ db_envelopes d' !! id = Some erow ∧ erow_digest erow = envelope_digest en
  ∧ (∀ t, t ∈ ["run.preparing"; "context.composed"; "run.running"] →
       t ∈ map evt_event_type (run_events id d'))
  ∧ ∃ run, db_runs d' !! id = Some run ∧ run_context_hash run = Some (cs_content_hash snap).
Proof.
  intros Hreach E d'. destruct (reachable_inv _ Hreach) as [_ Hd].
  unfold prepare_run_execution, transaction in E.
  destruct (prepare_body _ _ _ _ _ _ _ _) as [[[a b] s9]|x] eqn:Eb; [|done]. injection E as -> -> ->.
  unfold prepare_body in Eb. rename Eb into E.
  apply tx_bind_ok in E as (at_ & s1 & E1 & E). apply utc_now_ok in E1 as [E1 _].
  apply tx_bind_ok in E as ([] & s2 & E2 & E).
  pose proof (validate_optional_lease_ok _ _ _ _ _ _ E2) as Hlive. rewrite E1 in Hlive.
  apply reads_validate_optional_lease in E2. rewrite E1 in E2.
  apply tx_bind_ok in E as (d & s3 & E3 & E). apply query_ok in E3 as [-> ->].
  apply tx_bind_ok in E as (run & s3 & E3 & E). apply lift_ok in E3 as [Hload ->].
  rewrite E2 in Hload.
  apply tx_bind_ok in E as (row & s3 & E3 & E).
  assert (S3 : steps_by same_ledger (upsert_context_snapshot id snap at_))
    by (unfold upsert_context_snapshot, insert_snapshot; walk).
  pose proof (S3 _ _ _ _ E3) as L3. apply upsert_snapshot_ok in E3 as (Hsn & Hdiff & _).
  apply tx_bind_ok in E as (erow' & s4 & E4 & E).
  assert (S4 : steps_by same_ledger (upsert_subject_envelope id en at_))
    by (unfold upsert_subject_envelope, insert_envelope; walk).
  pose proof (S4 _ _ _ _ E4) as L4. apply upsert_envelope_ok in E4 as (Hen & Hdig & Hkeep).
  rewrite E2 in L3. assert (Hsame : same_ledger (st_db s) (st_db s4)) by by etrans.
  destruct (same_ledger_frame _ _ Hsame Hd) as [Hd4 _].
  assert (Hexact : db_runs (st_db s4) !! run_id run = Some run ∧ run_id run = id
    ∧ adm_decision admission = AdmissionAdmitted ∧ adm_run_spec_digest admission = spec_digest spec
    ∧ se_run_spec_digest en = spec_digest spec).
  { apply load_prepared_ok in Hload as (Hx & X). rewrite (proj1 Hsame).
    by rewrite (li_run_key _ Hd _ _ Hx). }
  destruct Hexact as (Hrun & Eid & X1 & X2 & X3).
  apply tx_bind_ok in E as (run' & s5 & E5 & E).
  pose proof (preparation_events_boundary _ _ _ _ _ _ _ _ _ E5) as [B1 B2].
  apply append_preparation_step in E5 as (_ & _ & Ei & Ht); try done.
  apply tx_bind_ok in E as ([] & s6 & E6 & E). unfold save_run in E6. apply update_ok in E6 as ->.
  apply tx_ret_ok in E as [Eout ->]. injection Eout as -> ->. unfold d'. cbn [st_db].
  rewrite Eid in Ei, Ht. split_and!; try done.
  - unfold snapshot_by_run in *. cbn. by rewrite B2, Hkeep.
  - cbn. by rewrite B1.
  - cbn. rewrite Ei, lookup_insert_eq. by eexists.
Qed.
End idempotence.

(** ** On the scenario *)

Definition scn_enqueue_call (s : St) : St * result (RunRow * RunExecutionJob) :=
  enqueue_run "spec_1" "adm_1" "request-1" None None (Some 10%Z) scn_env s.
Definition blank_job : RunExecutionJob := job_document (demo_job "" 0).
Definition scn_enqueued (s : St) : RunRow * RunExecutionJob :=
  value_of (blank_run, blank_job) (snd (scn_enqueue_call s)).

Lemma scn_enqueue_returns s s' :
  exec scn_enqueue scn_env s = (s', Ok tt) →
  scn_enqueue_call s = (s', Ok ((scn_enqueued s).1, (scn_enqueued s).2)).
Proof.
  intros Hok. rewrite <- surjective_pairing.
  exact (outcome_returned (blank_run, blank_job) _ _ Hok).
Qed.

Lemma scn_enqueue_again : exec scn_enqueue scn_env scn_7 = (scn_7, Ok tt).
Proof. vm_compute. reflexivity. Qed.

Lemma enqueue_idempotent_witness :
  ∃ s' run' job', scn_enqueue_call scn_7 = (s', Ok (run', job'))
    ∧ st_db s' = st_db scn_7 ∧ run_id run' = run_id (scn_enqueued scn_start).1
    ∧ pinned (scn_enqueued scn_start).1 run'
    ∧ xj_job_id job' = xj_job_id (scn_enqueued scn_start).2.
Proof.
  refine (enqueue_idempotent "spec_1" "adm_1" "request-1" None None (Some 10%Z) scn_env scn_start
    scn_1 _ _ scn_7 (Some 10%Z) scn_env scn_start_reachable
    (scn_enqueue_returns _ _ scn_1_step) scn_steps_1_7).
Defined.

Lemma enqueue_key_binds_request_witness :
  ("spec_1" = "spec_1" ∧ "adm_1" = "adm_1" ∧ @None string = None ∧ @None string = None
   ∧ run_id (scn_enqueued scn_7).1 = run_id (scn_enqueued scn_start).1) ∨ sha256_collision.
Proof.
  refine (enqueue_key_binds_request "spec_1" "adm_1" "request-1" None None "spec_1" "adm_1" None None
    (Some 10%Z) (Some 10%Z) scn_env scn_env scn_start scn_1 _ _ scn_7 scn_7 _ _
    scn_start_reachable (scn_enqueue_returns _ _ scn_1_step) scn_steps_1_7
    (scn_enqueue_returns _ _ scn_enqueue_again)).
Defined.

Lemma enqueue_requires_admission_witness :
  run_status (scn_enqueued scn_start).1 = queued
  ∧ run_run_spec_id (scn_enqueued scn_start).1 = Some "spec_1".
Proof.
  destruct (enqueue_requires_admission "spec_1" "adm_1" "request-1" None None (Some 10%Z) scn_env
    scn_start scn_1 _ _ (scn_enqueue_returns _ _ scn_1_step) ltac:(vm_compute; reflexivity)) as (Hq & Hs & _).
  split; [exact Hq|exact Hs].
Defined.

Lemma append_event_idempotent_witness :
  append_event scn_invoke_request scn_env scn_7 = (scn_7, Ok (written scn_invoke_request scn_3)).
Proof.
  exact (proj1 (append_event_idempotent scn_invoke_request "subject:invoked" scn_env scn_3 scn_4
    (written scn_invoke_request scn_3) scn_7 scn_env scn_3_reachable eq_refl eq_refl
    (append_returns _ _ _ scn_4_step) scn_steps_4_7)).
Defined.

Lemma prepare_publishes_witness :
  db_envelopes (st_db scn_3) !! "run_0" = Some (prepared scn_2).2.
Proof.
  pose proof (prepare_publishes "run_0" sample_spec sample_record scn_snapshot scn_envelope scn_fence
    scn_env scn_2 scn_3 (prepared scn_2).1 (prepared scn_2).2 scn_2_reachable
    (prepare_returns _ _ scn_3_step)) as (_ & _ & _ & _ & _ & _ & He & _).
  exact He.
Defined.
