(* ===== verification/Evidence.v ===== *)
(** * What the ledger's evidence means

    What must be in the tables before a Run may be completed, what a fenced event proves
    about its writer, and why a chain cannot be rewritten under its head hash. *)

From S2P Require Import Prelude PyText PyJson Base Authoring Runtime Events Triage Evaluation Store.
From S2P Require Import Registry Admission Lease Handlers Ledger LedgerInv Queue EvalStore EvalInv System Samples Scenario.

Section evidence.
Context `{PyRuntime} {HV : HumanVerifier}.

(** An append that wrote a new event passed every check on the tables it read. *)
Lemma append_new rq env s row s' :
  ledger_inv (st_db s) → append_body rq env s = Ok (row, s') → row ∉ db_events (st_db s) →
  let d := st_db s in
  let prior := run_events (rq_run_id rq) d in
  let types := map evt_event_type prior in
  ∃ payload run next, validate_request rq = Ok payload
  ∧ db_runs d !! rq_run_id rq = Some run
  ∧ validate_phase run (rq_event_type rq) types = Ok tt
  ∧ run_family_checks d run (rq_run_id rq) (rq_event_type rq) payload prior types = Ok tt
  ∧ event_transition run (rq_event_type rq) payload (bool_decide (is_Some (last prior))) = Ok next.
Proof.
  intros Hd E Hnew d prior types. unfold append_body in E.
  apply tx_bind_ok in E as (payload & s1 & E1 & E). apply lift_ok in E1 as [Hreq ->].
  apply tx_bind_ok in E as (u & s1 & E1 & E). apply reads_validate_optional_lease in E1.
  apply tx_bind_ok in E as (run & s2 & E2 & E). apply fetch_ok in E2 as [Hrun ->].
  apply tx_bind_ok in E as (ex & s2 & E2 & E).
  assert (Hex : ex = None ∧ st_db s2 = st_db s).
  { destruct (rq_operation_key rq) as [key|]; [|apply tx_ret_ok in E2 as [-> ->]; done].
    unfold resolve_idempotent in E2. apply tx_bind_ok in E2 as (x & s3 & E3 & E2).
    apply query_ok in E3 as [-> ->].
    destruct (event_by_key (rq_run_id rq) key (st_db s1)) as [x|] eqn:Hx;
      [|apply tx_ret_ok in E2 as [-> ->]; done].
    exfalso. apply tx_bind_ok in E2 as (u2 & s3 & _ & E2).
    apply tx_bind_ok in E2 as (u3 & s4 & _ & E2). apply tx_ret_ok in E2 as [-> ->].
    apply tx_ret_ok in E as [-> _]. apply find_first_Some in Hx as [Hx _]. apply Hnew.
    apply list_elem_of_In, List.filter_In in Hx as [Hx _]. apply list_elem_of_In in Hx.
    by rewrite E1 in Hx. }
  destruct Hex as [-> Es2]. unfold get_run in Hrun. rewrite E1 in Hrun.
  inv_tx. rewrite Es2 in *. rewrite events_by_sequence_id in * by done.
  repeat match goal with u : () |- _ => destruct u end. eauto 10.
Qed.

Lemma referenced_evaluations_ok d run prior refs rows :
  referenced_evaluations d run prior refs = Ok rows →
  ∀ id, id ∈ refs → ∃ row, db_evaluations d !! id = Some row ∧ row ∈ rows
    ∧ evrow_run_id row = run
    ∧ ∃ e, e ∈ prior ∧ completes_exactly id (evrow_record_digest row) e = true.
Proof.
  revert rows. induction refs as [|x refs IH]; intros rows E id Hid; [by apply not_elem_of_nil in Hid|].
  cbn in E. inv_ok. bools. apply elem_of_cons in Hid as [->|Hid].
  - exists x0. split_and!; [done|left|done|]. by apply existsb_true.
  - destruct (IH _ H3 id Hid) as (row & H4 & H5 & H6 & H7). exists row.
    split_and!; [done|by right|done..].
Qed.

(** What [check_terminal_event] lets through for a completion. *)
Lemma check_completed_ok d run id payload prior :
  check_terminal_event d run id "run.completed" payload prior (map evt_event_type prior) = Ok tt →
  ∃ spec_id spec_row records results called closed,
    run_run_spec_id run = Some spec_id ∧ db_run_specs d !! spec_id = Some spec_row
    ∧ "subject.responded" ∈ map evt_event_type prior
    ∧ (let refs := get_strings payload "evaluation_record_refs" in
       refs ≠ [] ∧ list_to_set refs = persisted_evaluation_ids d id
       ∧ ∀ x, x ∈ refs → ∃ ev, db_evaluations d !! x = Some ev ∧ ev ∈ records
           ∧ evrow_run_id ev = id
           ∧ ∃ e, e ∈ prior ∧ completes_exactly x (evrow_record_digest ev) e = true)
    ∧ (let plan := spec_evaluation_plan (rsp_spec spec_row) in
       gate_results plan (map evrow_record records) = Ok results
       ∧ (∀ stage, stage ∈ stages_visible_after_gates plan results → is_Some (results !! stage))
       ∧ (hp_required (plan_human_adjudication_policy plan) = true →
            ∃ ev, ev ∈ records ∧ evrow_source_type ev = SrcHumanAdjudicator))
    ∧ call_ids ["tool.called"] prior = Ok called
    ∧ call_ids ["tool.completed"; "tool.denied"; "tool.failed"] prior = Ok closed
    ∧ (∀ c, c ∈ called → c ∈ closed).
Proof.
  unfold check_terminal_event. intros E.
  apply bind_ok in E as (spec_id & Hs & E). apply require_ok in Hs.
  apply bind_ok in E as (spec_row & Hr & E). apply require_ok in Hr. apply bind_ok in E as ([] & _ & E).
  apply bind_ok in E as ([] & Hset & E). apply raise_when_ok in Hset.
  apply negb_false_iff, bool_decide_eq_true in Hset.
  apply bind_ok in E as ([] & Hsub & E). apply raise_when_ok in Hsub.
  rewrite (bool_decide_eq_true_2 ("run.completed" = "run.completed")) in Hsub, E by done.
  cbn [andb] in Hsub. apply orb_false_iff in Hsub as [Hsub Hne].
  apply negb_false_iff, bool_decide_eq_true in Hsub. apply bool_decide_eq_false in Hne.
  apply bind_ok in E as (records & Hrec & E). apply bind_ok in E as ([] & Hcov & E).
  unfold check_stage_coverage in Hcov. apply bind_ok in Hcov as (results & Hres & Hcov).
  apply raise_when_ok, negb_false_iff in Hcov. rewrite forallb_true in Hcov.
  apply bind_ok in E as ([] & Hhum & E). apply raise_when_ok in Hhum.
  apply bind_ok in E as ([] & _ & E). unfold check_open_tool_calls in E.
  apply bind_ok in E as (called & Hcalled & E). apply bind_ok in E as (closed & Hclosed & E).
  apply raise_when_ok, negb_false_iff in E. rewrite forallb_true in E.
  exists spec_id, spec_row, records, results, called, closed. split_and!; try done.
  - by apply (referenced_evaluations_ok _ _ _ _ _ Hrec).
  - intros stage Hin. apply Hcov in Hin. destruct (results !! stage); [eauto|done].
  - intros Hreq. rewrite Hreq in Hhum. cbn in Hhum. apply negb_false_iff, existsb_true in Hhum.
    destruct Hhum as (ev & Hev & Hsrc). apply bool_decide_eq_true in Hsrc. eauto.
  - intros c Hc. by apply E, bool_decide_eq_true in Hc.
Qed.


(** Tool and capability events come from the lease holder. An append of a fenced event
    type goes through only under a fence that is live in the tables it read and whose job
    is the job of that Run; and no append at all goes through for a reserved event type or
    in the name of a human. *)
Theorem fenced_events_need_lease rq env s s' row :
  append_event rq env s = (s', Ok row) →
  (rq_event_type rq ∈ FENCED_EVENT_TYPES →
     (∃ fence now j a, rq_lease rq = Some fence ∧ fence_holds (st_db s) fence now j a
       ∧ job_run_id j = rq_run_id rq))
  ∧ (rq_event_type rq ∉ UNSUPPORTED_RUNTIME_EVENT_TYPES)
  ∧ rq_actor_type rq ∈ ALLOWED_ACTOR_TYPES.
Proof.
  unfold append_event, transaction. destruct (append_body rq env s) as [[x s1]|x] eqn:E; [|done].
  intros _. unfold append_body in E. apply tx_bind_ok in E as (payload & s2 & E1 & E).
  apply lift_ok in E1 as [Hreq ->]. apply tx_bind_ok in E as (u & s2 & E1 & _).
  unfold validate_request in Hreq.
  apply bind_ok in Hreq as ([] & H1 & Hreq). apply raise_when_ok, negb_false_iff in H1.
  apply bind_ok in Hreq as ([] & _ & Hreq). apply bind_ok in Hreq as ([] & H2 & Hreq).
  apply raise_when_ok in H2. apply bind_ok in Hreq as ([] & H3 & _). apply raise_when_ok in H3.
  apply bool_decide_eq_true in H1. apply bool_decide_eq_false in H2. split_and!; [|done..].
  intros Hin. rewrite bool_decide_eq_true_2 in H3 by done. cbn in H3.
  apply bool_decide_eq_false in H3. destruct (rq_lease rq) as [fence|]; [|done].
  apply validate_optional_lease_ok in E1 as (now & j & a & Hf & Hj). exists fence, now, j, a. done.
Qed.

(** ** Tamper evidence *)

Lemma envelope_sorted id run n t at_ ty ai cl p co ca pr :
  sort_keys (envelope_document id run n t at_ ty ai cl p co ca pr) = JObj [
    ("actor_id", JStr ai); ("actor_type", JStr ty); ("causation_id", jopt JStr ca);
    ("classification", JStr cl); ("correlation_id", JStr co); ("event_id", JStr id);
    ("occurred_at_utc", JStr (isoformat at_)); ("payload", sort_keys p);
    ("prev_event_hash", jopt JStr pr); ("run_id", JStr run); ("schema_version", JStr "1");
    ("sequence", JInt n); ("type", JStr t)].
Proof. destruct ca, pr; reflexivity. Qed.

(** Two chains that end in the same hash are the same chain, document by document. *)
Lemma chains_agree `{!PyRuntimeLaws} es fs :
  chain None 1 es → chain None 1 fs → head_hash None es = head_hash None fs →
  Forall2 (λ a b, sort_keys (row_envelope a) = sort_keys (row_envelope b)) es fs
  ∨ sha256_collision.
Proof.
  revert fs. induction es as [|a es IH] using rev_ind; intros fs Hes Hfs Hh.
  { destruct fs as [|b fs] using rev_ind; [by left|]. unfold head_hash in Hh. by rewrite last_snoc in Hh. }
  destruct fs as [|b fs _] using rev_ind.
  { unfold head_hash in Hh. by rewrite last_snoc in Hh. }
  apply chain_snoc in Hes as (Hes & _ & Pa & Ha). apply chain_snoc in Hfs as (Hfs & _ & Pb & Hb).
  unfold head_hash in Hh. rewrite !last_snoc in Hh. injection Hh as Hh. rewrite Ha, Hb in Hh.
  apply sha256_json_sort in Hh as [Hdoc|?]; [|by right].
  assert (Hprev : evt_prev_event_hash a = evt_prev_event_hash b).
  { unfold row_envelope in Hdoc. rewrite !envelope_sorted in Hdoc. injection Hdoc.
    destruct (evt_prev_event_hash a), (evt_prev_event_hash b); cbn; try congruence. }
  rewrite Pa, Pb in Hprev. destruct (IH fs Hes Hfs Hprev) as [Hall|?]; [left|by right].
  apply Forall2_app; [done|]. by constructor.
Qed.

(** C29: the head hash commits to the whole history. If a list of events is numbered and
    hashed like a chain and ends in the hash of the last stored event of a Run, then it has
    the same length and, event by event, the same identifier, sequence, type, time text,
    actor, classification, correlation and payload document as the stored events, unless
    two texts with one digest are at hand. *)
Theorem head_hash_commits `{!PyRuntimeLaws} s id es :
  reachable s → chain None 1 es →
  head_hash None es = head_hash None (run_events id (st_db s)) →
  Forall2 (λ a b, evt_id a = evt_id b ∧ evt_run_id a = evt_run_id b
      ∧ evt_sequence a = evt_sequence b ∧ evt_event_type a = evt_event_type b
      ∧ isoformat (evt_occurred_at a) = isoformat (evt_occurred_at b)
      ∧ evt_actor_type a = evt_actor_type b ∧ evt_actor_id a = evt_actor_id b
      ∧ evt_classification a = evt_classification b
      ∧ evt_correlation_id a = evt_correlation_id b ∧ evt_causation_id a = evt_causation_id b
      ∧ same_document (evt_payload a) (evt_payload b))
    es (run_events id (st_db s))
  ∨ sha256_collision.
Proof.
  intros Hr Hes Hh. destruct (reachable_inv _ Hr) as [_ Hl].
  destruct (chains_agree _ _ Hes (li_chain _ Hl id) Hh) as [Hall|?]; [left|by right].
  eapply Forall2_impl; [exact Hall|]. intros a b Hab. unfold row_envelope in Hab.
  rewrite !envelope_sorted in Hab. injection Hab. intros.
  split_and!; try done; [|by apply sort_keys_same].
  destruct (evt_causation_id a), (evt_causation_id b); cbn in *; congruence.
Qed.

(** ** Findings *)

(** A capability without permissions cannot be offered through [append_event]. The
    family check indexes [effective_permissions], which normalization drops when it is
    empty, so the exact offer of an admitted capability with no permissions raises
    [KeyError] instead of passing. *)
Theorem empty_permissions_offer_raises d run admission_id arow item ref normalized :
  run_admission_id run = Some admission_id → db_admissions d !! admission_id = Some arow →
  offered_matches (arow_record arow) (to_CapabilityRef ref) = [item] →
  rc_effective_permissions item = [] →
  normalize_event_payload "capability.offered" (PCapabilityOffered
    (MkCapabilityOfferedPayload ref (rc_required item) (rc_exposure item) [])) = Ok normalized →
  check_capability_offered d run normalized = Raise (KeyError "effective_permissions").
Proof.
  intros Ha Hd Hm Hp Hn. cbn in Hn. injection Hn as <-. unfold check_capability_offered.
  rewrite Ha. cbn [require mbind result_bind]. rewrite Hd. cbn [require mbind result_bind].
  set (p := JObj _).
  assert (Hr : jitem "capability_ref" p = Ok (to_CapabilityRef ref)) by reflexivity.
  rewrite Hr. cbn [mbind result_bind]. rewrite Hm. unfold or_else, item_differs.
  assert (E1 : jitem "required" p = Ok (JBool (rc_required item))) by reflexivity.
  assert (E2 : jitem "exposure" p = Ok (JStr (Exposure_value (rc_exposure item)))) by reflexivity.
  assert (E3 : jitem "effective_permissions" p = Raise (KeyError "effective_permissions"))
    by reflexivity.
  rewrite E1, E2, E3. cbn [mbind result_bind]. unfold doc_eqb.
  by rewrite !bool_decide_eq_true_2 by done.
Qed.
End evidence.

(** ** On the scenario *)

Lemma scn_completion_is_new : written scn_complete_request scn_6 ∉ db_events (st_db scn_6).
Proof.
  intros Hin. apply (list_elem_of_fmap_2 evt_id) in Hin. revert Hin.
  apply (proj1 (bool_decide_eq_false _)). vm_compute. reflexivity.
Qed.


(** The worker offers the admitted tool again while the Run is running. *)
Definition scn_offer : AppendRequest := request "capability.offered"
  (PCapabilityOffered (MkCapabilityOfferedPayload sample_tool true SchemaOnly ["read"]))
  (Some scn_fence) None false.

Definition scn_offered : St := Eval vm_compute in after scn_3 (Append scn_offer).
Lemma scn_offer_step : exec (Append scn_offer) scn_env scn_3 = (scn_offered, Ok tt).
Proof. vm_compute. reflexivity. Qed.

Lemma fenced_events_need_lease_witness :
  ∃ fence now j a, rq_lease scn_offer = Some fence ∧ fence_holds (st_db scn_3) fence now j a
    ∧ job_run_id j = "run_0".
Proof.
  refine (proj1 (fenced_events_need_lease scn_offer scn_env scn_3 _ _
    (append_returns _ _ _ scn_offer_step)) _). left.
Defined.

Lemma scn_chain : chain None 1 (run_events "run_0" (st_db scn_7)).
Proof. exact (li_chain _ (proj2 (reachable_inv _ scn_7_reachable)) "run_0"). Qed.

Lemma head_hash_commits_witness :
  Forall2 (λ a b, evt_event_type a = evt_event_type b) (run_events "run_0" (st_db scn_7))
    (run_events "run_0" (st_db scn_7)) ∨ sha256_collision.
Proof.
  pose proof (head_hash_commits scn_7 "run_0" (run_events "run_0" (st_db scn_7)) scn_7_reachable
    scn_chain eq_refl) as [Hall|Hc]; [left|right; exact Hc].
  refine (Forall2_impl _ _ _ _ Hall _). intros a b (_ & _ & _ & Ht & _). exact Ht.
Defined.

(** An admission that resolved the tool with no permissions. *)
Definition bare_capability : ResolvedCapability :=
  MkResolvedCapability KTool sample_tool true SchemaOnly Resolved (Some sample_tool)
    (Some "read_text") (Some "1") [] [] [] None.
Definition bare_admission : AdmissionRecord :=
  MkAdmissionRecord "" "" AdmissionAdmitted
    (MkResolvedAgentInventory (sample_ref AGENT_INVENTORY "inventory") sample_runner
       None None None None None [bare_capability] []) Resolved Resolved [] [] [] [] None 0.
Definition bare_row : AdmissionRecordRow :=
  MkAdmissionRow "adm_2" "spec_1" AdmissionAdmitted bare_admission "" None None 0.
Definition bare_db : DB :=
  MkDB ∅ [] ∅ ∅ ∅ {["adm_2" := bare_row]} ∅ ∅ ∅ ∅ ∅.
Definition bare_run : RunRow :=
  MkRunRow "run_9" None "v" 0 preparing "" "" None None None None (Some "adm_2") None None 0 None.
Definition bare_offer : json := value_of JNull (normalize_event_payload "capability.offered"
  (PCapabilityOffered (MkCapabilityOfferedPayload sample_tool true SchemaOnly []))).

Lemma empty_permissions_offer_raises_witness :
  check_capability_offered bare_db bare_run bare_offer = Raise (KeyError "effective_permissions").
Proof.
  apply (empty_permissions_offer_raises bare_db bare_run "adm_2" bare_row bare_capability sample_tool);
    reflexivity.
Defined.
