(* ===== verification/Records.v ===== *)
(** * Evaluation records across every execution

    The invariants of EvalInv.v on reachable states, and the built-in evaluation as one
    transaction: the record, its Grade and its completion event are committed together,
    and a retry writes nothing. *)

From S2P Require Import Prelude PyText PyJson Base Authoring Runtime Events Triage Evaluation Store.
From S2P Require Import Registry Lease Handlers Ledger LedgerInv Queue EvalStore EvalInv System.
From S2P Require Import Samples Scenario Idempotence.

Section records.
Context `{PyRuntime} {HV : HumanVerifier}.


(** ** The built-in evaluation *)

Lemma append_once_event run t p key allowed env s row run' s' :
  append_event_once_in_session run t p key allowed None env s = Ok ((row, run'), s') →
  run' = run ∧ db_runs (st_db s') = db_runs (st_db s)
  ∧ event_by_key (run_id run) key (st_db s') = Some row
  ∧ (∃ doc, normalize_event_payload t p = Ok doc ∧ replay_conflict row t doc = false)
  ∧ (∀ e, event_by_key (run_id run) key (st_db s) = Some e → row = e ∧ st_db s' = st_db s).
Proof.
  unfold append_event_once_in_session. intros E.
  apply tx_bind_ok in E as (doc & s1 & E1 & E). apply lift_ok in E1 as [Hdoc ->].
  apply tx_bind_ok in E as (ex & s1 & E1 & E). apply query_ok in E1 as [-> ->].
  destruct (event_by_key (run_id run) key (st_db s)) as [e|] eqn:Hkey.
  - inv_tx. split_and!; eauto. by intros ? [= ->].
  - apply tx_bind_ok in E as ([] & s1 & E1 & E). apply guard_ok in E1 as [_ ->].
    apply tx_bind_ok in E as (lst & s1 & E1 & E). apply fetch_ok in E1 as [_ ->].
    apply tx_bind_ok in E as (eid & s1 & E1 & E). apply new_id_ok in E1.
    apply tx_bind_ok in E as (at_ & s2 & E2 & E). apply utc_now_ok in E2 as [E2 _].
    apply tx_bind_ok in E as ([] & s3 & E3 & E). apply insert_event_ok in E3 as [_ E3].
    apply tx_ret_ok in E as [E ->]. injection E as -> ->. rewrite E3, E2, E1.
    split_and!; [done..| |exists doc; split; [done|]|done].
    + unfold event_by_key in *. rewrite run_events_snoc, find_first_app, Hkey. cbn.
      rewrite (bool_decide_eq_true_2 (run_id run = run_id run)) by done. cbn.
      by rewrite bool_decide_eq_true_2.
    + unfold replay_conflict. cbn. by rewrite !bool_decide_eq_true_2.
Qed.

Lemma find_first_elem {A} (p : A → bool) l x : x ∈ l → p x = true → is_Some (find_first p l).
Proof.
  intros Hx Hp. destruct (find_first p l) eqn:E; [eauto|].
  rewrite find_first_None in E. apply E in Hx. congruence.
Qed.

(** After an upsert of a Grade the Run has one for the grader, with these values; a Run
    that had one is left as it is. *)
Lemma upsert_grade_ok id grader score passed rationale evidence env s g s' :
  float_eqb score score = true →
  upsert_grade id grader score passed rationale evidence env s = Ok (g, s') →
  is_Some (grade_by_run id grader (st_db s'))
  ∧ g ∈ all_grades (st_db s') ∧ grd_run_id g = id ∧ grd_grader_id g = grader
  ∧ grade_differs g score passed rationale evidence = false
  ∧ (is_Some (grade_by_run id grader (st_db s)) → st_db s' = st_db s).
Proof.
  intros Hnan E. unfold upsert_grade in E.
  apply tx_bind_ok in E as (ex & s1 & E1 & E). apply query_ok in E1 as [-> ->].
  destruct (grade_by_run id grader (st_db s)) as [x|] eqn:Hx.
  - inv_tx. rewrite Hx. pose proof Hx as [Hin Hp]%find_first_Some. bools. split_and!; eauto.
  - apply tx_bind_ok in E as (gid & s1 & E1 & E). apply new_id_ok in E1.
    apply tx_bind_ok in E as (at_ & s2 & E2 & E). apply utc_now_ok in E2 as [E2 _].
    apply tx_bind_ok in E as ([] & s3 & E3 & E). apply tx_ret_ok in E as [-> ->].
    unfold insert_grade in E3. inv_tx. cbn [st_db].
    set (row := MkGradeRow gid id grader score passed rationale (jstrs evidence) at_).
    assert (Hin : row ∈ all_grades (set_grades (insert (grd_id row) row) (st_db s2))).
    { unfold all_grades. apply rows_elem. exists gid. cbn. by rewrite lookup_insert_eq. }
    split_and!; try done.
    + eapply find_first_elem; [exact Hin|]. cbn.
      by rewrite !bool_decide_eq_true_2.
    + unfold grade_differs. cbn. rewrite Hnan, Bool.eqb_reflx, !bool_decide_eq_true_2 by done. done.
Qed.

(** The row the upsert of a record returns is stored; one found in its slot stays. *)
Lemma upsert_deterministic_row r env s row s' :
  eval_inv (st_db s) → upsert_deterministic_record r env s = Ok (row, s') →
  evrow_id row = er_record_id r ∧ evrow_record_digest row = er_digest r
  ∧ same_slot row (evaluation_row r)
  ∧ db_evaluations (st_db s') !! er_record_id r = Some row
  ∧ (∀ x, evaluation_by_stage r (st_db s) = Some x → row = x ∧ st_db s' = st_db s).
Proof.
  intros Hev E. unfold upsert_deterministic_record in E.
  apply tx_bind_ok in E as (ex & s1 & E1 & E). apply query_ok in E1 as [-> ->].
  destruct (evaluation_by_stage r (st_db s)) as [x|] eqn:Hx.
  - inv_tx. bools. apply find_first_Some in Hx as [[k Hk]%rows_elem Hslot]. bools.
    pose proof (rc_key _ _ _ (ei_rows _ Hev _ _ Hk)) as <-.
    split; [done|]. split; [done|]. split; [by split_and!|].
    split; [congruence|by intros ? [= ->]].
  - apply tx_bind_ok in E as ([] & s2 & E2 & E). apply tx_ret_ok in E as [-> ->].
    apply insert_evaluation_ok in E2 as [_ ->]. split_and!; try done. cbn.
    by rewrite lookup_insert_eq.
Qed.

Lemma upsert_grade_evaluations id g sc p ra ev :
  steps_by (λ d d', db_evaluations d' = db_evaluations d) (upsert_grade id g sc p ra ev).
Proof.
  assert (PreOrder (λ d d' : DB, db_evaluations d' = db_evaluations d))
    by (split; [done|intros ???; congruence]).
  unfold upsert_grade, insert_grade. walk.
Qed.

Definition completion_key (r : EvaluationRecord) : string :=
  "evaluation:" +:+ er_stage_id r +:+ ":completed".

(** What the built-in evaluation leaves behind, with what it does when it is already there. *)
Record evaluated (r : EvaluationRecord) (score : pyfloat) (passed : bool) (rationale : string)
    (evidence : list string) (row : EvaluationRecordRow) (d : DB) : Prop := {
  ed_id : evrow_id row = er_record_id r;
  ed_digest : evrow_record_digest row = er_digest r;
  ed_slot : same_slot row (evaluation_row r);
  ed_row : db_evaluations d !! er_record_id r = Some row;
  ed_grade : ∃ g, g ∈ all_grades d ∧ grd_run_id g = er_run_id r ∧ grd_grader_id g = er_stage_id r
    ∧ grade_differs g score passed rationale evidence = false;
  ed_event : ∃ e doc, event_by_key (er_run_id r) (completion_key r) d = Some e
    ∧ normalize_event_payload "evaluation.completed" (completed_payload r) = Ok doc
    ∧ replay_conflict e "evaluation.completed" doc = false
}.

Lemma deterministic_body_ok r score passed rationale evidence lease env s row s' :
  records_inv (st_db s) → float_eqb score score = true →
  deterministic_body r score passed rationale evidence lease env s = Ok (row, s') →
  evaluated r score passed rationale evidence row (st_db s')
  ∧ (∃ run, db_runs (st_db s) !! er_run_id r = Some run ∧ run_status run = evaluating
       ∧ db_runs (st_db s') !! er_run_id r = Some run)
  ∧ ∀ x e, evaluation_by_stage r (st_db s) = Some x →
      is_Some (grade_by_run (er_run_id r) (er_stage_id r) (st_db s)) →
      event_by_key (er_run_id r) (completion_key r) (st_db s) = Some e →
      row = x ∧ st_db s' = st_db s.
Proof.
  intros [Hl Hev _ _] Hnan Eb.
  apply deterministic_checked in Eb
    as (run & s1 & s2 & s3 & g & E1 & Hrun & Hst & _ & E2 & E3 & [[e run'] E4]).
  destruct upserts_same_ledger as [L1 L2].
  pose proof (L1 _ _ _ _ _ E2) as [R2 _]. pose proof (L2 _ _ _ _ _ _ _ _ _ _ E3) as [R3 _].
  rewrite <- E1 in Hev. apply upsert_deterministic_row in E2 as (Hid & Hdg & Hsl & Hrow & X2); [|done].
  pose proof (upsert_grade_evaluations _ _ _ _ _ _ _ _ _ _ E3) as V3.
  apply upsert_grade_ok in E3 as (_ & Hg & Hg1 & Hg2 & Hg3 & X3); [|done].
  pose proof (append_once_records _ _ _ _ _ _ _ _ _ _ E4) as Hsame.
  unfold same_records, records_of in Hsame. injection Hsame as _ _ V4 _ G4.
  apply append_once_event in E4 as (_ & R4 & Hkey & (doc & Hdoc & Hc) & X4).
  rewrite (li_run_key _ Hl _ _ Hrun) in Hkey, X4. rewrite E1 in X2. split_and!.
  - split; try done; [by rewrite V4, V3| |by exists e, doc].
    exists g. split_and!; try done. unfold all_grades in *. by rewrite G4.
  - exists run. split_and!; try done. rewrite R4, R3, R2, E1. done.
  - intros x e0 H2 H3 H4. destruct (X2 _ H2) as [-> E5]. split; [done|].
    rewrite E5 in X3. specialize (X3 H3). rewrite X3 in X4. by destruct (X4 _ H4).
Qed.

(** The built-in evaluation is atomic. A call that raises leaves the database as it
    was. A call that returns found the Run under evaluation and leaves, in the same commit,
    the record under its identifier, a Grade of the Run for the stage with the values
    given, and a completion event of the Run that announces the record with its digest;
    the status of the Run is unchanged. *)
Theorem deterministic_evaluation_atomic r score passed rationale evidence lease env s s' out :
  reachable s → float_eqb score score = true →
  save_deterministic_evaluation r score passed rationale evidence lease env s = (s', out) →
  match out with
  | Raise _ => s' = s
  | Ok row =>
      evaluated r score passed rationale evidence row (st_db s')
      ∧ ∃ run, db_runs (st_db s) !! er_run_id r = Some run ∧ run_status run = evaluating
          ∧ db_runs (st_db s') !! er_run_id r = Some run
  end.
Proof.
  intros Hr Hnan E. destruct (reachable_records _ Hr) as [_ Hd].
  unfold save_deterministic_evaluation, transaction in E.
  destruct (deterministic_body _ _ _ _ _ _ _ _) as [[row s1]|e] eqn:Eb; [|by injection E as -> <-].
  injection E as -> <-. apply deterministic_body_ok in Eb as (He & Hrun & _); done.
Qed.

(** What was committed is still there later, and the evaluation finds it. *)
Lemma evaluated_found r score passed rationale evidence row d d' :
  evaluated r score passed rationale evidence row d → eval_inv d' → ledger_evolves d d' →
  keeps d d' →
  evaluation_by_stage r d' = Some row
  ∧ is_Some (grade_by_run (er_run_id r) (er_stage_id r) d')
  ∧ ∃ e, event_by_key (er_run_id r) (completion_key r) d' = Some e.
Proof.
  intros [Hid Hdg Hsl Hrow (g & Hg & Hg1 & Hg2 & _) (e & doc & He & _)] Hev Hl Hk.
  destruct Hsl as (S1 & S2 & S3). cbn in S1, S2, S3.
  pose proof (lookup_weaken _ _ _ _ Hrow (kp_evaluations _ _ Hk)) as Hrow'.
  split_and!.
  - destruct (find_first_elem (λ x, evrow_run_id x ==b er_run_id r
      && evrow_stage_id x ==b er_stage_id r && evrow_source_type x ==b er_source_type r)
      (all_evaluations d') row) as [x Hx].
    + apply rows_elem. eauto.
    + by rewrite !bool_decide_eq_true_2.
    + unfold evaluation_by_stage. rewrite Hx. f_equal.
      apply find_first_Some in Hx as [[k Hx]%rows_elem Hp]. bools.
      assert (k = er_record_id r) as ->; [|congruence].
      apply (ei_slots _ Hev _ _ _ _ Hx Hrow'). left.
      split_and!; congruence.
  - apply rows_elem in Hg as [k Hg]. apply (find_first_elem _ _ g).
    + apply rows_elem. exists k. exact (lookup_weaken _ _ _ _ Hg (kp_grades _ _ Hk)).
    + by rewrite !bool_decide_eq_true_2.
  - exists e. eapply event_by_key_prefix; [apply Hl|done].
Qed.

(** The built-in evaluation happens once. After a call that returned, whatever commands
    ran since and under whatever lease, another call with the same record and values that
    returns gives the same row and leaves the database as it was. *)
Theorem deterministic_evaluation_once r score passed rationale evidence lease lease' env env'
    s s1 row s2 s3 row' :
  reachable s → float_eqb score score = true →
  save_deterministic_evaluation r score passed rationale evidence lease env s = (s1, Ok row) →
  steps s1 s2 →
  save_deterministic_evaluation r score passed rationale evidence lease' env' s2
    = (s3, Ok row') →
  row' = row ∧ st_db s3 = st_db s2.
Proof.
  intros Hr Hnan E1 Hs E2.
  assert (Hr1 : reachable s1).
  { apply (reachable_steps s); [done|]. apply rtc_once.
    exists (SaveDeterministic r score passed rationale evidence lease), env.
    cbn. by rewrite E1. }
  destruct (reachable_records _ Hr) as [_ Hd].
  destruct (reachable_records _ (reachable_steps _ _ Hr1 Hs)) as [_ Hd2].
  destruct (reachable_evolves _ _ Hr1 Hs) as (_ & Hl & Hk).
  unfold save_deterministic_evaluation, transaction in E1, E2.
  destruct (deterministic_body _ _ _ _ _ _ env s) as [[x x1]|e] eqn:B1; [|done].
  destruct (deterministic_body _ _ _ _ _ _ env' s2) as [[y y1]|e] eqn:B2; [|done].
  injection E1 as -> ->. injection E2 as -> ->.
  apply deterministic_body_ok in B1 as (He & _ & _); [|done..].
  apply deterministic_body_ok in B2 as (_ & _ & Hagain); [|done..].
  destruct (evaluated_found _ _ _ _ _ _ _ (st_db s2) He) as (F1 & F2 & e & F3);
    [apply Hd2|done..|]. by eapply Hagain.
Qed.
End records.

(** ** Instances *)

Definition no_evaluation : EvaluationRecordRow := evaluation_row scn_record.
Definition scn_graded (s : St) : EvaluationRecordRow :=
  value_of no_evaluation (snd (save_deterministic_evaluation scn_record score_one true "matches" []
    scn_fence scn_env s)).

Lemma evaluate_returns s s' :
  exec scn_evaluate scn_env s = (s', Ok tt) →
  save_deterministic_evaluation scn_record score_one true "matches" [] scn_fence scn_env s
  = (s', Ok (scn_graded s)).
Proof. exact (outcome_returned no_evaluation _ _). Qed.

Lemma scn_evaluate_again : exec scn_evaluate scn_env scn_6 = (after scn_6 scn_evaluate, Ok tt).
Proof. vm_compute. reflexivity. Qed.


Lemma deterministic_evaluation_atomic_witness :
  db_evaluations (st_db scn_6) !! "rec_1" = Some (scn_graded scn_5).
Proof.
  exact (ed_row _ _ _ _ _ _ _ (proj1 (deterministic_evaluation_atomic scn_record score_one true
    "matches" [] scn_fence scn_env scn_5 scn_6 (Ok (scn_graded scn_5)) scn_5_reachable
    ltac:(vm_compute; reflexivity) (evaluate_returns _ _ scn_6_step)))).
Defined.

Lemma deterministic_evaluation_once_witness :
  scn_graded scn_6 = scn_graded scn_5 ∧ st_db (after scn_6 scn_evaluate) = st_db scn_6.
Proof.
  exact (deterministic_evaluation_once scn_record score_one true "matches" [] scn_fence scn_fence
    scn_env scn_env scn_5 scn_6 (scn_graded scn_5) scn_6 (after scn_6 scn_evaluate)
    (scn_graded scn_6) scn_5_reachable ltac:(vm_compute; reflexivity)
    (evaluate_returns _ _ scn_6_step) (rtc_refl _ _) (evaluate_returns _ _ scn_evaluate_again)).
Defined.
