(* ===== verification/Coordinator.v ===== *)
(** * The run coordinator
    (src/src/evidrun/runs/coordinator/: attempt.py, prepare.py, response.py, resume.py,
    recovery.py, terminal.py, tool_trace.py, lease.py, budget.py, context.py).

    An attempt is a process: a tree of calls on the store, the artifact files and the
    provider, each with what follows for every answer, so that a [try] is a case
    distinction on the answer. Each transaction and each file operation is one call:
    other workers act between any two of them. What the artifact files, the provider and
    the clock answer is decided when a call is performed ([acts]).

    [remaining_wall] counts microseconds; the code compares the same difference as a double
    with zero, which agrees for less than 2^33 seconds. The event documents the code reads
    are projected from the rows used here. *)

From S2P Require Import Prelude PyText PyJson Base Authoring Runtime Events Trust Samples Artifacts Evaluation.
From S2P Require Import Registry Compiler ContractStore Admission Store Catalog Lease Handlers Ledger Queue Composer Subject.
From S2P Require Import Graders AdapterCatalog EvalStore Verify System ReadModel.

(** ** Processes *)

Record World := MkWorld {
  w_store : St;
  w_files : Artifacts;
  w_catalog : CatalogDB
}.

(** What a command returns to the process that issued it: the event row of a captured
    response, the job and the attempt of a claim. *)
Definition answer (c : command) : Type :=
  match c with
  | Respond _ _ _ _ _ => RunEventRow
  | Claim _ _ _ _ => option (RunExecutionJob * RunExecutionAttempt)
  | _ => unit
  end.

Inductive call : Type → Type :=
| Look {A} (f : Env → World → result A) : call A
| Command (c : command) : call (answer c)
| File {A} (op : Draws → FileOp A) : call A
| Provider (request : json) : call json
| StartSubject : call unit.

Inductive proc (A : Type) : Type :=
| Halt (r : result A)
| Perform {B} (c : call B) (k : result B → proc A)
| Stuck.
Arguments Halt {A} r.
Arguments Perform {A B} c k.
Arguments Stuck {A}.

(** [try: p except ...: ...]: [k] continues from the value or the error of [p]. *)
Fixpoint catch {A B} (p : proc A) (k : result A → proc B) : proc B :=
  match p with
  | Halt r => k r
  | Perform c f => Perform c (λ x, catch (f x) k)
  | Stuck => Stuck
  end.

#[export] Instance proc_ret : MRet proc := λ A a, Halt (Ok a).
#[export] Instance proc_bind : MBind proc := λ A B f p,
  catch p (λ r, match r with Ok a => f a | Raise e => Halt (Raise e) end).

Definition pure {A} (r : result A) : proc A := Halt r.
Definition request {A} (c : call A) : proc A := Perform c Halt.
Definition look {A} (f : World → result A) : proc A := request (Look (λ _ w, f w)).
Definition look_db {A} (f : DB → result A) : proc A := look (λ w, f (st_db (w_store w))).
Definition issue_command (c : command) : proc (answer c) := request (Command c).
Definition on_files {A} (op : Draws → FileOp A) : proc A := request (File op).

Fixpoint for_all {A} (l : list A) (f : A → proc unit) : proc unit :=
  match l with [] => mret tt | x :: rest => f x;; for_all rest f end.

(** [d[key] = value] on a dict in insertion order. *)
Fixpoint dict_set {V} (key : string) (value : V) (d : list (string * V)) : list (string * V) :=
  match d with
  | [] => [(key, value)]
  | (k, v) :: rest => if k ==b key then (key, value) :: rest else (k, v) :: dict_set key value rest
  end.

Section coordinator.
Context `{PyRuntime} {HV : HumanVerifier} `{RevisionModels} `{EnvelopeModel} `{LegacyExperiments}.
Context `{JsonObjects} `{ResponseModels} `{VaultCrypto} `{Utf8Decoder}.

(** What a command does and answers. *)
Definition perform (c : command) : Op (answer c) :=
  match c return Op (answer c) with
  | Respond r sp p o l => save_subject_response r sp p o l
  | Claim w l f now => claim_next_job w l f now
  | c => exec c
  end.

(** The runtime the coordinator was built with; its materializer and the Project of a
    RunSpec are those of the world it reads. *)
Variable wired : option RealSubject.

Definition active_catalog (w : World) : AdapterCatalog :=
  MkAdapterCatalog wired
    (Some (λ reference project_id, snd (resolve_text reference (Some project_id) "" (w_files w))))
    (Some (λ spec, project_id_for_run_spec spec (w_catalog w))).

Section attempt.
Variables (job : RunExecutionJob) (att : RunExecutionAttempt).
Let run_id := xj_run_id job.

(** ** lease.py *)

Definition lease_of : LeaseFence :=
  MkFence (xj_job_id job) (xa_attempt_id att) (xa_worker_id att) (xa_lease_generation att).

Definition assert_held : proc unit :=
  request (Look (λ env w, snd (assert_lease lease_of None env (w_store w)))).

Definition is_lease_lost (e : exn) : bool := match e with LeaseLost _ => true | _ => false end.

Definition complete : proc unit :=
  catch (issue_command (Complete lease_of None)) (λ r,
    match r with
    | Ok _ => mret tt
    | Raise e =>
        if is_lease_lost e then
          execution ← request (Look (λ env w, snd (get_run_execution run_id env (w_store w))));
          match execution with
          | Some (current, _) => if xj_status current ==b JobCompleted then mret tt else pure (Raise e)
          | None => pure (Raise e)
          end
        else pure (Raise e)
    end).

(** An event of this Run under this lease. *)
Definition append (event_type : string) (payload : RunEventPayload) (actor_type actor_id key : string)
    (complete_execution : bool) (reject_execution_code : option string) : proc unit :=
  issue_command (Append (MkAppendRequest run_id event_type payload actor_type actor_id "internal"
    None None (Some key) (Some lease_of) complete_execution reject_execution_code)).

Definition append_system (event_type : string) (payload : RunEventPayload) (key : string) : proc unit :=
  append event_type payload "system" "evidrun" key false None.

Definition project_id : proc string :=
  look (λ w, project_id_for_run run_id (st_db (w_store w)) (w_catalog w)).

Definition run_status_now : proc RunStatus := look_db (λ d, run_status <$> get_run run_id d).
Definition events_now : proc (list RunEventRow) := look_db (λ d, Ok (events_by_sequence run_id d)).

(** ** terminal.py *)

Definition terminal_payload (status : RunStatus) (goal_result : TerminalGoalResult) (cause : string)
    (records : list EvaluationRecord) : RunEventPayload :=
  PRunTerminal (MkRunTerminalPayload status goal_result cause (map er_record_id records) []).

Definition terminal (status : RunStatus) (goal_result : TerminalGoalResult) (cause : string)
    : proc unit :=
  current ← run_status_now;
  if is_terminal current then complete
  else
    assert_held;;
    evaluations ← look_db (get_evaluation_records run_id);
    append ("run." +:+ RunStatus_value status) (terminal_payload status goal_result cause evaluations)
      "system" "evidrun" "run:terminal" true None.

Definition not_assessable : TerminalGoalResult := GoalStateTerminalResult GNotAssessable.

Definition is_reportable (contracts : option (RunSpec * AdmissionRecord)) (status : RunStatus) : bool :=
  match contracts with
  | None => false
  | Some (spec, admission) =>
      (adm_decision admission ==b AdmissionAdmitted)
      && (adm_run_spec_digest admission ==b spec_digest spec) && negb (is_terminal status)
  end.

Definition is_contract_error (e : exn) : bool :=
  match e with KeyError _ | ValueError _ | ValidationError _ | TriageRejected _ => true | _ => false end.

Definition reject (reason_code : string) : proc unit :=
  assert_held;;
  contracts ← catch (look_db (get_run_contracts run_id)) (λ r,
    match r with
    | Ok contracts => mret contracts
    | Raise e => if is_contract_error e then mret None else pure (Raise e)
    end);
  status ← run_status_now;
  if is_reportable contracts status then
    evaluations ← look_db (get_evaluation_records run_id);
    append "run.failed"
      (terminal_payload failed not_assessable "Runtime execution could not be completed safely" evaluations)
      "system" "evidrun" "run:terminal" false (Some reason_code)
  else issue_command (Reject lease_of reason_code None).

(** ** tool_trace.py *)

Section trace.
Variables (project actor : string).

Definition store_text (content : string) (classification : Classification) : proc ArtifactRef :=
  on_files (put_ref content project "application/json" classification false 30).

Definition tool_event (event_type : string) (payload : RunEventPayload) (actor_type actor_id call_id
    phase : string) : proc unit :=
  append event_type payload actor_type actor_id ("tool:" +:+ call_id +:+ ":" +:+ phase) false None.

Definition trace_failed (ref : CapabilityDescriptorRef) (call_id reason : string) : proc unit :=
  tool_event "tool.failed" (PToolResult (MkToolResultPayload ref call_id None (Some reason)))
    "tool" (cap_name ref) call_id "failed".

Definition persist_trace (c : TraceCall) : proc unit :=
  match c with
  | Called ref call_id arguments =>
      arguments_ref ← store_text (canonical_json (JObj [("raw_arguments", JStr arguments)])) INTERNAL;
      tool_event "tool.called"
        (PToolCalled (MkToolCalledPayload ref call_id (sha256_hex arguments) (Some arguments_ref)))
        "subject" actor call_id "called"
  | Completed ref call_id result classification =>
      result_ref ← store_text result classification;
      tool_event "tool.completed" (PToolResult (MkToolResultPayload ref call_id (Some result_ref) None))
        "tool" (cap_name ref) call_id "completed"
  | Denied call_id reason =>
      tool_event "tool.denied" (PToolDecision (MkToolDecisionPayload call_id "runtime-policy" reason))
        "system" "runtime-policy" call_id "denied"
  | Failed ref call_id reason => trace_failed ref call_id reason
  end.

(** The adapter's turn, its tool calls recorded as they happen. *)
Fixpoint perform_turn {A} (t : turn A) : proc A :=
  match t with
  | Finish r => pure r
  | Ask prompt k => Perform (Provider prompt) (λ r, perform_turn (k r))
  | Trace c k => catch (persist_trace c) (λ r, perform_turn (k r))
  | Diverged => Stuck
  end.
End trace.

(** ** prepare.py *)

Definition captured_content (selected : string) (spec : RunSpec) : string :=
  match cap_default_mode (spec_capture_policy spec) with
  | CapRedacted => "[REDACTED]"
  | CapMetadata | CapDisabled => ""
  | _ => selected
  end.

Definition with_content (content : string) (s : ContextSnapshot) : ContextSnapshot :=
  MkContextSnapshot (cs_policy_id s) (cs_strategy s) (cs_max_chars s) (cs_source_chars s)
    (cs_selected_chars s) content (cs_omitted s) (cs_content_hash s).

Definition compile_and_persist (spec : RunSpec) (admission : AdmissionRecord) : proc SubjectEnvelope :=
  '(declared, context_policy) ← pure (single_visible_input spec);
  project ← project_id;
  source ← on_files (λ draws, resolve_text (ib_source declared) (Some project) (dr_key draws));
  let snapshot := compose source context_policy in
  let selected := cs_selected_content snapshot in
  materialized_ref ← on_files (put_ref selected project (ar_media_type (ib_source declared))
    (ar_classification (ib_source declared)) false 30);
  envelope ← pure (compile_subject_envelope spec admission
    (Some [with_source materialized_ref declared]));
  issue_command (Prepare run_id spec admission (with_content (captured_content selected spec) snapshot)
    envelope lease_of);;
  mret envelope.

Definition is_key_error (e : exn) : bool := match e with KeyError _ => true | _ => false end.

(** The dict of the decoded inputs, by identifier. *)
Fixpoint materialize_inputs (inputs : list InputBinding) (done : list (string * string))
    : proc (list (string * string)) :=
  match inputs with
  | [] => mret done
  | item :: rest =>
      project ← project_id;
      content ← on_files (λ draws, get_verified (ib_source item) (Some project) (dr_key draws));
      text ← pure (require (utf8_decode content) (ValueError "invalid utf-8"));
      materialize_inputs rest (dict_set (ib_id item) text done)
  end.

Definition advance_to_running : proc unit :=
  status ← run_status_now;
  if status ==b preparing then
    assert_held;;
    append_system "run.running"
      (PRunLifecycle (MkRunLifecyclePayload preparing
         "SubjectEnvelope materialized and runner adapter ready")) "run:running"
  else mret tt.

Definition PREPARABLE_RUN_STATUSES : list RunStatus := [queued; preparing; running; evaluating].

Definition prepare (spec : RunSpec) (admission : AdmissionRecord)
    : proc (SubjectEnvelope * list (string * string)) :=
  status ← run_status_now;
  pure (raise_when (negb (status ∈b PREPARABLE_RUN_STATUSES))
    (ValueError ("Run cannot be prepared while " +:+ RunStatus_value status)));;
  envelope ← catch (look_db (get_subject_envelope run_id)) (λ r,
    match r with
    | Ok envelope => mret envelope
    | Raise e => if is_key_error e then compile_and_persist spec admission else pure (Raise e)
    end);
  materialized_inputs ← materialize_inputs (se_inputs envelope) [];
  advance_to_running;;
  mret (envelope, materialized_inputs).

(** ** response.py *)

(** [isinstance(value, str | int | float | bool)]. *)
Definition scalar_of (v : json) : option Scalar :=
  match v with
  | JStr s => Some (SStr s) | JInt z => Some (SInt z) | JFloat f => Some (SFloat f)
  | JBool b => Some (SBool b) | _ => None
  end.

Definition captured_metadata (subject : SubjectResult) (mode : CaptureMode) : list KeyValue :=
  if mode ==b CapDisabled then []
  else omap (λ '(key, value), MkKeyValue key <$> scalar_of value) (sr_metadata subject).

Definition result_document (subject : SubjectResult) (metadata : list KeyValue) : string :=
  canonical_json (JObj [
    ("output", JStr (sr_output subject));
    ("evidence", jstrs (sr_evidence subject));
    ("metadata", jlist to_KeyValue metadata)]).

Definition persist_response (spec : RunSpec) (subject : SubjectResult) : proc RunEventRow :=
  let mode := cap_default_mode (spec_capture_policy spec) in
  let captured_output := if mode ==b CapRedacted then Some "[REDACTED]" else None in
  let metadata := captured_metadata subject mode in
  output_ref ←
    (if mode ==b CapRawEncrypted then
       project ← project_id;
       ref ← on_files (put_ref (result_document subject metadata) project "application/json" SENSITIVE
         true (cap_sensitive_ttl_days (spec_capture_policy spec)));
       mret (Some ref)
     else mret None);
  issue_command (Respond run_id spec (PSubjectResponded (MkSubjectRespondedPayload captured_output output_ref
      (sha256_hex (sr_output subject)) mode
      (match output_ref with Some ref => ["artifact:" +:+ ar_artifact_id ref] | None => [] end) metadata))
    captured_output lease_of).

Definition persist_evaluation (outcome : EvaluationOutcome) : proc unit :=
  assert_held;;
  issue_command (SaveDeterministic (eo_record outcome) (eo_score outcome) (eo_passed outcome)
    (eo_rationale outcome) (eo_evidence outcome) lease_of).

(** [evaluator.evaluate(...)]. *)
Definition evaluate (spec : RunSpec) (subject : SubjectResult) (response : RunEventRow)
    (tool_events : list json) (project : string) (evaluator : EvaluatorAdapter) : proc EvaluationOutcome :=
  on_files (λ draws,
    let record_id := "eval_" +:+ dr_uuid draws in
    match evaluator with
    | CauseGrader => λ files, (files, cause_evaluate record_id run_id (dr_now draws) spec subject
        (evt_id response) (evt_sequence response) (evt_event_hash response))
    | ReadAnswerGrader => read_answer_evaluate record_id run_id (dr_now draws) spec subject
        (evt_id response) (evt_sequence response) (evt_event_hash response) tool_events (Some project)
        (dr_key draws)
    end).

Definition tool_documents (events : list RunEventRow) : list json :=
  map event_document (List.filter (λ e, startswith "tool." (evt_event_type e)) events).

(** ** recovery.py *)

Definition recoverable_output_ref (response : RunEventRow) : result (option ArtifactRef) :=
  match jget "output_ref" (evt_payload response) with
  | None | Some JNull => Ok None
  | Some document => Some <$> read_artifact_ref document
  end.

(** [_metadata]: entries of another shape are dropped. *)
Fixpoint read_metadata (entries : list json) (metadata : list (string * json)) : list (string * json) :=
  match entries with
  | [] => metadata
  | JObj entry :: rest =>
      match jget "key" (JObj entry), jget "value" (JObj entry) with
      | Some (JStr key), Some value =>
          match scalar_of value with
          | Some _ => if same_set (map fst entry) ["key"; "value"]
                      then read_metadata rest (dict_set key value metadata)
                      else read_metadata rest metadata
          | None => read_metadata rest metadata
          end
      | _, _ => read_metadata rest metadata
      end
  | _ :: rest => read_metadata rest metadata
  end.

Fixpoint all_strings (l : list json) : option (list string) :=
  match l with
  | [] => Some []
  | JStr s :: rest => (λ r, s :: r) <$> all_strings rest
  | _ :: _ => None
  end.

Definition read_subject_result (document : list (string * json)) : result SubjectResult :=
  match jget "output" (JObj document), jget "evidence" (JObj document), jget "metadata" (JObj document) with
  | Some (JStr output), Some (JArr evidence), Some (JArr metadata) =>
      evidence ← require (all_strings evidence) (ValueError "persisted Subject result has an invalid shape");
      Ok (MkSubjectResult output evidence (read_metadata metadata []))
  | _, _, _ => Raise (ValueError "persisted Subject result has an invalid shape")
  end.

Definition load_subject_result (output_ref : ArtifactRef) (project : string) : proc SubjectResult :=
  content ← on_files (λ draws, get_verified output_ref (Some project) (dr_key draws));
  document ← pure (validate_json content);
  pure (read_subject_result document).

(** ** resume.py *)

Definition response_counts (events : list RunEventRow) : nat * nat :=
  (count_type "subject.invoked" events, count_type "subject.responded" events).

Definition advance_to_evaluating : proc unit :=
  status ← run_status_now;
  if status ==b running then
    append_system "run.evaluating"
      (PRunLifecycle (MkRunLifecyclePayload running "persisted Subject response is being reconciled"))
      "run:evaluating"
  else mret tt.

Definition stop_iteration : exn := RuntimeError "coroutine raised StopIteration".

Definition evaluate_persisted_response (spec : RunSpec) : proc unit :=
  events ← events_now;
  response ← pure (require (find_first (λ e, evt_event_type e ==b "subject.responded") events)
    stop_iteration);
  output_ref ← pure (recoverable_output_ref response);
  match output_ref with
  | None => terminal failed not_assessable
      "Subject response cannot be deterministically recovered for evaluation"
  | Some output_ref =>
      project ← project_id;
      subject ← load_subject_result output_ref project;
      evaluator ← pure (evaluator_for spec);
      project ← project_id;
      outcome ← evaluate spec subject response (tool_documents events) project evaluator;
      persist_evaluation outcome;;
      terminal completed (eo_goal_result outcome) "persisted Subject response evaluated after recovery"
  end.

(** [bool(value)]. *)
Definition scalar_truthy (v : Scalar) : bool := truthy (to_Scalar v).

Definition reconcile_record (record : EvaluationRecord) : proc unit :=
  dimension ← pure (require (head (er_dimension_values record)) (RuntimeError "IndexError"));
  let passed := scalar_truthy (dv_value dimension) in
  issue_command (SaveGrade (er_run_id record) (er_stage_id record)
    (if passed then float_one else float_zero) passed (dv_rationale dimension)
    (map ev_ref (dv_evidence_refs dimension)) (Some lease_of));;
  append_system "evaluation.completed"
    (PEvaluationCompleted (MkEvaluationCompletedPayload (er_record_id record) (er_digest record)
       (er_gate_status record))) ("evaluation:" +:+ er_stage_id record +:+ ":completed").

Definition reconcile_existing_records (records : list EvaluationRecord) : proc unit :=
  for_all records reconcile_record;;
  terminal completed
    (GoalStateTerminalResult
       (if forallb (λ record, er_gate_status record !=b GateFailed) records then GAchieved
        else GNotAchieved))
    "persisted deterministic evaluation reconciled".

Definition resume_after_response (spec : RunSpec) : proc unit :=
  records ← look_db (get_evaluation_records run_id);
  advance_to_evaluating;;
  match records with
  | [] => evaluate_persisted_response spec
  | _ => reconcile_existing_records records
  end.

(** ** budget.py *)

Definition remaining_wall (spec : RunSpec) : proc Z :=
  request (Look (λ env w,
    running_event ← require (find_first (λ e, evt_event_type e ==b "run.running")
      (events_by_sequence run_id (st_db (w_store w)))) stop_iteration;
    Ok (Z.max 0 (bu_max_wall_seconds (spec_budgets spec) * 1000000
                 - (env_now env 0 - evt_occurred_at running_event))))).

(** ** attempt.py *)

Definition coherent_contracts : proc (RunSpec * AdmissionRecord) :=
  contracts ← look_db (get_run_contracts run_id);
  '(spec, admission) ← pure (require contracts
    (ValueError "execution job references a legacy Run without contracts"));
  pure (raise_when (adm_decision admission !=b AdmissionAdmitted
      || adm_run_spec_digest admission !=b spec_digest spec)
    (ValueError "execution job contracts are no longer coherent"));;
  reference ← pure (require (adm_execution_trust admission)
    (ValueError "execution job admission has no execution trust"));
  trust ← look (λ w, get_record human_verify (tr_trust_id reference) (w_catalog w));
  pure (raise_when (trust_ref trust !=b reference)
    (ValueError "execution job admission trust digest mismatch"));;
  active ← request (Look (λ env w, catalog_admit (active_catalog w) (env_now env 0) spec trust));
  pure (raise_when (adm_decision active !=b AdmissionAdmitted
      || adm_resolved_inventory active !=b adm_resolved_inventory admission
      || adm_workspace_status active !=b adm_workspace_status admission
      || adm_interaction_status active !=b adm_interaction_status admission)
    (ValueError "stored admission no longer matches the active runtime catalog"));;
  mret (spec, admission).

(** [CapabilityDescriptorRef.model_validate(document)]. *)
Definition read_capability_ref (document : json) : result CapabilityDescriptorRef :=
  match jget "namespace" document, jget "name" document, jget "version" document, jget "digest" document with
  | Some (JStr namespace), Some (JStr name), Some (JStr version), Some (JStr digest) =>
      namespace ← nonempty_str namespace; name ← nonempty_str name;
      version ← nonempty_str version; digest ← digest_str digest;
      Ok (MkCapabilityRef namespace name version digest)
  | _, _, _, _ => Raise (ValidationError "CapabilityDescriptorRef")
  end.

Definition call_id_of (event : RunEventRow) : result string := item_text (evt_payload event) "call_id".

Fixpoint settled_calls (events : list RunEventRow) : result (list string) :=
  match events with
  | [] => Ok []
  | e :: rest =>
      if evt_event_type e ∈b ["tool.completed"; "tool.denied"; "tool.failed"] then
        id ← call_id_of e; ids ← settled_calls rest; Ok (id :: ids)
      else settled_calls rest
  end.

Definition fail_open_call (settled : list string) (event : RunEventRow) : proc unit :=
  if evt_event_type event ==b "tool.called" then
    id ← pure (call_id_of event);
    if id ∈b settled then mret tt
    else
      ref ← pure (document ← jitem "capability_ref" (evt_payload event); read_capability_ref document);
      trace_failed ref id "prior tool execution ended without a durable result"
  else mret tt.

Definition fail_indeterminate_invocation (events : list RunEventRow) : proc unit :=
  settled ← pure (settled_calls events);
  project_id;;
  for_all events (fail_open_call settled);;
  terminal failed not_assessable "Prior Subject invocation ended without a durable response".

Definition WALL_BUDGET_CAUSE : string := "Run exceeded its max_wall_seconds budget".

Definition terminate_budget (cause : string) : proc unit := terminal budget_exhausted not_assessable cause.
Definition fail (cause : string) : proc unit := terminal failed not_assessable cause.

Definition guidance_digest (g : SubjectEvaluationGuidance) : string :=
  sha256_json (semantic_model_dump (to_SubjectEvaluationGuidance g)).

Definition append_invoked (spec : RunSpec) (admission : AdmissionRecord) (subject : SubjectAdapter)
    (envelope : SubjectEnvelope) : proc unit :=
  let inventory := adm_resolved_inventory admission in
  append_system "subject.invoked"
    (PSubjectInvoked (MkSubjectInvokedPayload (subject_name subject)
       (np_mode (ws_network_policy (spec_workspace spec))) (envelope_digest envelope)
       (guidance_digest <$> se_evaluation_guidance envelope) (ri_provider_profile_id inventory)
       (ri_provider_model inventory) (ri_provider_reasoning_effort inventory)
       (ri_provider_adapter inventory))) "subject:invoked".

Definition subject_turn (subject : SubjectAdapter) (envelope : SubjectEnvelope)
    (inputs : list (string * string)) : turn SubjectResult :=
  match subject with
  | ScriptedSubject => scripted_adapter_execute envelope inputs
  | ReadAgentSubject real => read_agent_execute (rl_profile real) envelope inputs
  end.

(** How a failed turn ends the Run. *)
Definition settle_failure (e : exn) : proc unit :=
  assert_held;;
  match e with
  | TimeoutError => terminate_budget WALL_BUDGET_CAUSE
  | SubjectBudgetExceeded _ => terminate_budget "Run exceeded its max_tool_calls budget"
  | ProviderRequestError code => fail ("Subject provider request failed: " +:+ code)
  | _ => fail "Subject runner execution failed"
  end.

Definition invoke_subject (spec : RunSpec) (admission : AdmissionRecord) (subject : SubjectAdapter)
    (envelope : SubjectEnvelope) (inputs : list (string * string)) : proc (option SubjectResult) :=
  assert_held;;
  append_invoked spec admission subject envelope;;
  project ← project_id;
  request StartSubject;;
  catch (perform_turn project (subject_name subject) (subject_turn subject envelope inputs)) (λ r,
    match r with
    | Ok result => mret (Some result)
    | Raise e => settle_failure e;; mret None
    end).

Definition evaluate_and_close (spec : RunSpec) (subject : SubjectResult) : proc unit :=
  assert_held;;
  response ← persist_response spec subject;
  evaluator ← pure (evaluator_for spec);
  events ← events_now;
  project ← project_id;
  outcome ← evaluate spec subject response (tool_documents events) project evaluator;
  persist_evaluation outcome;;
  terminal completed (eo_goal_result outcome) "terminal Subject response evaluated".

Definition run_subject (spec : RunSpec) (admission : AdmissionRecord) (subject : SubjectAdapter)
    (envelope : SubjectEnvelope) (inputs : list (string * string)) : proc unit :=
  remaining ← remaining_wall spec;
  if (remaining <=? 0)%Z then terminate_budget WALL_BUDGET_CAUSE
  else
    result ← invoke_subject spec admission subject envelope inputs;
    match result with
    | None => mret tt
    | Some result => evaluate_and_close spec result
    end.

Definition execute_attempt : proc unit :=
  assert_held;;
  status ← run_status_now;
  if is_terminal status then complete
  else
    '(spec, admission) ← coherent_contracts;
    subject ← request (Look (λ _ w, subject_for (active_catalog w) spec admission));
    pure (evaluator_for spec);;
    '(envelope, inputs) ← prepare spec admission;
    status ← run_status_now;
    if is_terminal status then complete
    else
      events ← events_now;
      let '(invocations, responses) := response_counts events in
      if (responses <? invocations)%nat then fail_indeterminate_invocation events
      else if (0 <? responses)%nat then resume_after_response spec
      else run_subject spec admission subject envelope inputs.

End attempt.
End coordinator.
