(* ===== verification/Histories.v ===== *)
(** * Histories

    A [timeline] is a history of the world: between two instants any number of store
    commands of other workers, and any change of files and catalog, may happen. A process
    performs its calls at instants of its own; the database may fail any of its sessions,
    and it may stop for ever between two calls, which is a crash or a cancellation. [ends],
    [reaches] and [gets_stuck] say where it gets, [only] bounds the calls of its tree, and
    each has its rules for [catch] and bind. *)

From S2P Require Import Prelude PyText PyJson Base Authoring Runtime Events Trust Artifacts Evaluation Registry Store.
From S2P Require Import Lease Handlers Ledger LedgerInv Queue EvalStore EvalInv System Coordinator.

Section semantics.
Context `{PyRuntime} {HV : HumanVerifier}.

(** ** Performing a call *)

(** The calls that open a session of the database. *)
Definition uses_store {B} (c : call B) : Prop :=
  match c with Look _ | Command _ => True | _ => False end.

Definition served {B} (c : call B) (w w' : World) (r : result B) : Prop :=
  match c in call B return result B → Prop with
  | Look f => λ r, w' = w ∧ ∃ env, r = f env w
  | Command c => λ r, ∃ env, perform c env (w_store w) = (w_store w', r)
      ∧ w_files w' = w_files w ∧ w_catalog w' = w_catalog w
  | File op => λ r, ∃ draws, op draws (w_files w) = (w_files w', r)
      ∧ w_store w' = w_store w ∧ w_catalog w' = w_catalog w
  | Provider _ => λ _, w' = w
  | StartSubject => λ r, w' = w ∧ r = Ok tt
  end r.

(** The engine may fail any session, which is then rolled back. *)
Definition acts {B} (c : call B) (w w' : World) (r : result B) : Prop :=
  served c w w' r ∨ (uses_store c ∧ w' = w ∧ r = Raise OperationalError).

Lemma acts_ok {B} (c : call B) w w' a : acts c w w' (Ok a) → served c w w' (Ok a).
Proof. by intros [?|(_ & _ & ?)]. Qed.

Lemma perform_exec c env s : exec c env s = outcome (perform c env s).
Proof.
  destruct c; cbn [perform]; try reflexivity;
    destruct (exec _ env s) as [s' [[]|e]]; reflexivity.
Qed.

Lemma acts_steps {B} (c : call B) w w' r : acts c w w' r → steps (w_store w) (w_store w').
Proof.
  intros [Hs|(_ & -> & _)]; [|constructor]. revert Hs.
  destruct c; cbn; [intros [-> _]; constructor| |intros (d & _ & -> & _); constructor
                   |intros ->; constructor|intros [-> _]; constructor].
  intros (env & Ep & _). apply rtc_once. exists c, env. by rewrite perform_exec, Ep.
Qed.

(** ** Histories *)

Definition timeline (tl : nat → World) : Prop :=
  reachable (w_store (tl 0%nat)) ∧ ∀ n, steps (w_store (tl n)) (w_store (tl (S n))).

Definition db_at (tl : nat → World) (n : nat) : DB := st_db (w_store (tl n)).

Lemma timeline_steps tl n m : timeline tl → n ≤ m → steps (w_store (tl n)) (w_store (tl m)).
Proof.
  intros [_ Hs] Hle. induction Hle as [|m _ IH]; [constructor|]. unfold steps in *. etrans; [exact IH|apply Hs].
Qed.

Lemma timeline_reachable tl n : timeline tl → reachable (w_store (tl n)).
Proof.
  intros Ht. apply (reachable_steps (w_store (tl 0%nat))); [apply Ht|].
  apply timeline_steps; [done|lia].
Qed.

Lemma timeline_evolves tl n m :
  timeline tl → n ≤ m → evolves (db_at tl n) (db_at tl m) ∧ ledger_evolves (db_at tl n) (db_at tl m).
Proof.
  intros Ht Hle.
  destruct (reachable_evolves _ _ (timeline_reachable tl n Ht) (timeline_steps tl n m Ht Hle)) as (E & L & _).
  done.
Qed.

(** [ends tl p n r m]: started at [n], [p] halts with [r] at [m]. *)
Fixpoint ends {A} (tl : nat → World) (p : proc A) (n : nat) (r : result A) (m : nat) : Prop :=
  match p with
  | Halt x => r = x ∧ m = n
  | Perform c k => ∃ i x, n ≤ i ∧ acts c (tl i) (tl (S i)) x ∧ ends tl (k x) (S i) r m
  | Stuck => False
  end.

Definition call_pred := ∀ B, call B → Prop.

(** [reaches tl p n P m]: started at [n], [p] is about to make a call in [P] at [m]. *)
Fixpoint reaches {A} (tl : nat → World) (p : proc A) (n : nat) (P : call_pred) (m : nat) : Prop :=
  match p with
  | Perform c k =>
      (P _ c ∧ n ≤ m) ∨ ∃ i x, n ≤ i ∧ acts c (tl i) (tl (S i)) x ∧ reaches tl (k x) (S i) P m
  | _ => False
  end.

Fixpoint gets_stuck {A} (tl : nat → World) (p : proc A) (n : nat) : Prop :=
  match p with
  | Halt _ => False
  | Perform c k => ∃ i x, n ≤ i ∧ acts c (tl i) (tl (S i)) x ∧ gets_stuck tl (k x) (S i)
  | Stuck => True
  end.

(** The start of the Subject, and a given command. *)
Definition starts_subject : call_pred := λ B c, match c with StartSubject => True | _ => False end.
Definition is_command (c : command) : call_pred := λ B x, match x with Command c' => c' = c | _ => False end.

(** Every call of the tree is in [P], and no branch is stuck. *)
Fixpoint only {A} (P : call_pred) (p : proc A) : Prop :=
  match p with
  | Halt _ => True
  | Perform c k => P _ c ∧ ∀ r, only P (k r)
  | Stuck => False
  end.

(** ** Rules *)

Lemma ends_le {A} tl (p : proc A) n r m : ends tl p n r m → n ≤ m.
Proof.
  revert n. induction p as [x|B c k IH|]; intros n; cbn; [intros [_ ->]; lia| |done].
  intros (i & x & Hi & _ & He%IH). lia.
Qed.

Lemma reaches_le {A} tl (p : proc A) n P m : reaches tl p n P m → n ≤ m.
Proof.
  revert n. induction p as [x|B c k IH|]; intros n; cbn; [done| |done].
  intros [[_ ?]|(i & x & Hi & _ & He%IH)]; lia.
Qed.

Lemma ends_catch {A B} tl (p : proc A) (k : result A → proc B) n r m :
  ends tl (catch p k) n r m → ∃ x i, ends tl p n x i ∧ ends tl (k x) i r m.
Proof.
  revert n. induction p as [x|C c f IH|]; intros n; cbn; [by exists x, n| |done].
  intros (i & x & Hi & Ha & (y & j & Hp & Hk)%IH). exists y, j. split; [by exists i, x|done].
Qed.

Lemma ends_bind {A B} tl (p : proc A) (f : A → proc B) n b m :
  ends tl (p ≫= f) n (Ok b) m → ∃ a i, ends tl p n (Ok a) i ∧ ends tl (f a) i (Ok b) m.
Proof.
  intros ([a|e] & i & Hp & Hk)%ends_catch; [by exists a, i|]. by destruct Hk.
Qed.

Lemma reaches_catch {A B} tl (p : proc A) (k : result A → proc B) n P m :
  reaches tl (catch p k) n P m →
  reaches tl p n P m ∨ ∃ x i, ends tl p n x i ∧ reaches tl (k x) i P m.
Proof.
  revert n. induction p as [x|C c f IH|]; intros n; cbn.
  - intros Hk. right. by exists x, n.
  - intros [?|(i & x & Hi & Ha & [Hp|(y & j & Hp & Hk)]%IH)]; [by left; left|left; right; by exists i, x|].
    right. exists y, j. split; [by exists i, x|done].
  - done.
Qed.

Lemma reaches_only {A} tl (P Q : call_pred) (p : proc A) n m :
  (∀ B (c : call B), P B c → ¬ Q B c) → only P p → ¬ reaches tl p n Q m.
Proof.
  intros HPQ. revert n. induction p as [x|B c k IH|]; intros n; cbn; [tauto| |tauto].
  intros [Hc Hk] [[Hq _]|(i & x & _ & _ & Hr)]; [by eapply HPQ|]. by eapply IH.
Qed.

Lemma reaches_bind {A B} tl (P Q : call_pred) (p : proc A) (f : A → proc B) n m :
  (∀ C (c : call C), P C c → ¬ Q C c) → only P p → reaches tl (p ≫= f) n Q m →
  ∃ a i, ends tl p n (Ok a) i ∧ reaches tl (f a) i Q m.
Proof.
  intros HPQ Hp [Hr|([a|e] & i & He & Hk)]%reaches_catch; [|by exists a, i|done].
  by destruct (reaches_only tl P Q p n m HPQ Hp).
Qed.

Lemma only_catch {A B} P (p : proc A) (k : result A → proc B) :
  only P p → (∀ r, only P (k r)) → only P (catch p k).
Proof. induction p as [x|C c f IH|]; cbn; [auto| |done]. intros [Hc Hf] Hk. split; [done|]. auto. Qed.

Lemma only_bind {A B} P (p : proc A) (f : A → proc B) :
  only P p → (∀ a, only P (f a)) → only P (p ≫= f).
Proof. intros Hp Hf. apply only_catch; [done|]. by intros [a|e]; [|cbn]. Qed.

Lemma only_mono {A} (P Q : call_pred) (p : proc A) :
  (∀ B (c : call B), P B c → Q B c) → only P p → only Q p.
Proof. intros HPQ. induction p as [x|B c k IH|]; cbn; [done| |done]. intros [? ?]. split; auto. Qed.

Lemma only_for_all {A} P (l : list A) (f : A → proc unit) :
  (∀ x, only P (f x)) → only P (for_all l f).
Proof. intros Hf. induction l as [|x l IH]; cbn; [done|]. by apply only_bind. Qed.

Lemma only_not_stuck {A} tl P (p : proc A) n : only P p → ¬ gets_stuck tl p n.
Proof.
  revert n. induction p as [x|B c k IH|]; intros n; cbn; [tauto| |tauto].
  intros [_ Hk] (i & x & _ & _ & Hs). by eapply IH.
Qed.
Lemma reaches_in {A} tl (P Q : call_pred) (p : proc A) n m :
  only P p → reaches tl p n Q m → ∃ B (c : call B), P B c ∧ Q B c.
Proof.
  revert n. induction p as [x|B c k IH|]; intros n; cbn; [done| |done].
  intros [Hc Hk] [[Hq _]|(i & x & _ & _ & Hr)]; [by exists B, c|by eapply IH].
Qed.

End semantics.
