(* ===== verification/Offline.v ===== *)
(** * One offline Study, from authoring to a completed Run

    The pipeline on concrete data: the revisions of a small Study are registered, compiled
    and sealed, its one RunSpec is trusted and admitted by the runtime without a provider,
    the Run is enqueued and claimed, and the coordinator executes the attempt through the
    scripted Subject and the cause grader. [drive] performs the calls of a process one
    after the other, and its states form a timeline, on which the theorems about attempts
    (Attempts.v) are instantiated. *)

From S2P Require Import Prelude PyText PyJson Base Authoring Runtime Events Trust Samples Artifacts Evaluation Registry.
From S2P Require Import Compiler Sealing ContractStore Admission Store Catalog CatalogInv Lease Handlers Ledger Queue Composer Subject.
From S2P Require Import Graders AdapterCatalog EvalStore Verify ReadModel System Scenario Coordinator Histories.

(** ** Performing a process *)

(** What the clock, the random source and the provider say at the i-th call. *)
Record Oracle := MkOracle {
  or_env : nat → Env;
  or_draws : nat → Draws;
  or_provider : nat → json → result json
}.

Section drive.
Context `{PyRuntime} {HV : HumanVerifier} (oracle : Oracle).

Definition answer_call {B} (c : call B) (i : nat) (w : World) : World * result B :=
  match c in call B return World * result B with
  | Look f => (w, f (or_env oracle i) w)
  | Command c =>
      let '(s, r) := perform c (or_env oracle i) (w_store w) in (MkWorld s (w_files w) (w_catalog w), r)
  | File op =>
      let '(files, r) := op (or_draws oracle i) (w_files w) in (MkWorld (w_store w) files (w_catalog w), r)
  | Provider request => (w, or_provider oracle i request)
  | StartSubject => (w, Ok tt)
  end.

(** The world after each call, and the result. *)
Fixpoint drive {A} (p : proc A) (i : nat) (w : World) : list World * option (result A) :=
  match p with
  | Halt r => ([], Some r)
  | Perform c k =>
      let '(w', x) := answer_call c i w in
      let '(l, r) := drive (k x) (S i) w' in (w' :: l, r)
  | Stuck => ([], None)
  end.

(** The index of the first call that starts the Subject. *)
Fixpoint start_index {A} (p : proc A) (i : nat) (w : World) : option nat :=
  match p with
  | Perform c k =>
      match c with
      | StartSubject => Some i
      | _ => let '(w', x) := answer_call c i w in start_index (k x) (S i) w'
      end
  | _ => None
  end.

Lemma answer_acts {B} (c : call B) i w w' x : answer_call c i w = (w', x) → acts c w w' x.
Proof.
  intros E. left. revert E. destruct c; cbn.
  - intros [= <- <-]. eauto.
  - destruct (perform _ _ _) as [s r] eqn:E. intros [= <- <-]. eauto.
  - destruct (op _ _) as [files r] eqn:E. intros [= <- <-]. exists (or_draws oracle i). done.
  - by intros [= <- <-].
  - by intros [= <- <-].
Qed.

(** The history of a process alone in the world. *)
Definition history (w : World) (l : list World) (n : nat) : World := nth n (w :: l) (List.last l w).

Lemma drive_steps {A} (p : proc A) i w l r :
  drive p i w = (l, r) → ∀ n, steps (w_store (history w l n)) (w_store (history w l (S n))).
Proof.
  revert i w l. induction p as [x|B c k IH|]; intros i w l; cbn.
  - intros [= <- _] [|[|n]]; constructor.
  - destruct (answer_call c i w) as [w' x] eqn:E. destruct (drive (k x) (S i) w') as [l' r'] eqn:E'.
    intros [= <- <-] [|n]; unfold history.
    + cbn. eapply acts_steps, answer_acts, E.
    + specialize (IH x (S i) w' l' E' n). unfold history in IH.
      assert (Hlast : List.last (w' :: l') w = List.last l' w').
      { clear. induction l' as [|y l' IHl] using rev_ind; [done|].
        rewrite app_comm_cons, !last_last. done. }
      rewrite Hlast. exact IH.
  - intros [= <- _] [|[|n]]; constructor.
Qed.

Lemma drive_timeline {A} (p : proc A) w :
  reachable (w_store w) → timeline (history w (fst (drive p 0 w))).
Proof. intros Hw. split; [done|]. eapply drive_steps, surjective_pairing. Qed.

Lemma drive_ends {A} (tl : nat → World) (p : proc A) i n l r :
  drive p i (tl n) = (l, Some r) → (∀ j w, nth_error l j = Some w → tl (S (n + j)) = w) →
  ends tl p n r (n + length l).
Proof.
  revert i n l. induction p as [x|B c k IH|]; intros i n l; cbn; [|intros E Hl|done].
  - intros [= <- <-] _. split; [done|]. cbn. lia.
  - destruct (answer_call c i (tl n)) as [w' x] eqn:E1.
    destruct (drive (k x) (S i) w') as [l' r'] eqn:E2. injection E as <- ->.
    assert (tl (S n) = w') as Hw by (rewrite <- (Hl 0%nat w'); [f_equal; lia|done]).
    exists n, x. split; [lia|]. rewrite Hw. split; [by eapply answer_acts|].
    rewrite <- Hw in E2. cbn [length]. rewrite Nat.add_succ_r, <- Nat.add_succ_l.
    apply (IH _ (S i)); [done|]. intros j w Hj. rewrite <- (Hl (S j) w Hj). f_equal. lia.
Qed.

Lemma start_index_le {A} (p : proc A) i w j : start_index p i w = Some j → i ≤ j.
Proof.
  revert i w. induction p as [x|B c k IH|]; intros i w; cbn; [done| |done].
  destruct c; try (destruct (answer_call _ i w) as [w' x]; intros Hj%IH; lia).
  intros [= ->]. lia.
Qed.

Lemma drive_reaches {A} (tl : nat → World) (p : proc A) i n l r m :
  drive p i (tl n) = (l, r) → (∀ j w, nth_error l j = Some w → tl (S (n + j)) = w) →
  start_index p i (tl n) = Some (i + m) → reaches tl p n starts_subject (n + m).
Proof.
  revert i n l m. induction p as [x|B c k IH|]; intros i n l m; cbn [drive start_index reaches];
    [done| |done].
  destruct (answer_call c i (tl n)) as [w' x] eqn:E1.
  destruct (drive (k x) (S i) w') as [l' r'] eqn:E2. intros [= <- <-] Hl.
  assert (tl (S n) = w') as Hw by (rewrite <- (Hl 0%nat w'); [f_equal; lia|done]).
  assert (Hrest : start_index (k x) (S i) w' = Some (i + m) →
    ∃ i x, n ≤ i ∧ acts c (tl i) (tl (S i)) x ∧ reaches tl (k x) (S i) starts_subject (n + m)).
  { intros Hs. pose proof (start_index_le _ _ _ _ Hs) as Hle.
    exists n, x. split; [lia|]. rewrite Hw. split; [by eapply answer_acts|].
    rewrite <- Hw in E2, Hs. replace (n + m) with (S n + (m - 1)) by lia.
    eapply (IH x (S i)); [exact E2| |rewrite Hs; f_equal; lia].
    intros j w Hj. rewrite <- (Hl (S j) w Hj). f_equal. lia. }
  destruct c; intros Hs; try (right; by apply Hrest).
  left. split; [exact I|lia].
Qed.

Lemma history_nth w l j w' : nth_error l j = Some w' → history w l (S (0 + j)) = w'.
Proof. intros Hj. unfold history. cbn. by apply nth_error_nth. Qed.

Lemma history_ends {A} (p : proc A) w r :
  snd (drive p 0 w) = Some r →
  ends (history w (fst (drive p 0 w))) p 0 r (length (fst (drive p 0 w))).
Proof.
  intros Hr. apply (drive_ends _ p 0 0); [by rewrite <- Hr, <- surjective_pairing|].
  intros j w'. apply history_nth.
Qed.

Lemma history_reaches {A} (p : proc A) w m :
  start_index p 0 w = Some m → reaches (history w (fst (drive p 0 w))) p 0 starts_subject m.
Proof.
  intros Hm.
  apply (drive_reaches (history w (fst (drive p 0 w))) p 0 0 _ _ m (surjective_pairing (drive p 0 w)));
    [|done]. intros j w'. apply history_nth.
Qed.
End drive.

(** ** The Study *)

Definition incident_text : string :=
  "service started" +:+ newline +:+ "ROOT_CAUSE=DISK_FULL" +:+ newline +:+ "service stopped".

Definition incident_files : Artifacts * result ArtifactRef := Eval vm_compute in
  put_ref incident_text "project" "text/plain" INTERNAL false 30 demo_draws empty_artifacts.
Definition incident_ref : ArtifactRef := Eval vm_compute in value_of sample_artifact (snd incident_files).

Definition incident_binding : InputBinding :=
  MkInputBinding "log" "evidence" incident_ref VSubject ReadOnly (Some "log").

Definition incident_workspace : WorkspaceTemplateSpec :=
  MkWorkspaceTemplateSpec "in_process" [MkWorkspaceMount "log" incident_ref ReadOnly "/inputs/log"] []
    (MkNetworkPolicy NetDisabled []) (MkExternalEffectPolicy EffDenied []) []
    (MkSnapshotPolicy false []) (MkCleanupPolicy Discard None).

Definition goal_part := sample_revision "goal" sample_goal.
Definition scenario_part := sample_revision "scenario" (MkScenarioSpec "An incident." [incident_binding] [] [] []).
Definition inventory_part :=
  sample_revision "inventory" (MkAgentInventorySpec "subject" SCRIPTED_REF None [] []).
Definition workspace_part := sample_revision "workspace" incident_workspace.
Definition protocol_part := sample_revision "protocol" sample_protocol.
Definition plan_part := sample_revision "plan" (spec_evaluation_plan offline_spec).

Definition incident_study : Revision StudySpec :=
  sample_revision "study" (MkStudySpec
    (MkStudyIntent "Explore." ["Is the cause found?"] None None (MkIntentScope [] []) [])
    EXPLORATORY (rev_ref goal_part) [rev_ref scenario_part]
    (MkRunBlueprint (rev_ref inventory_part) (rev_ref workspace_part) (rev_ref protocol_part)
       (rev_ref plan_part) None None (Some offline_policy) sample_budgets sample_stops sample_capture [])
    [MkVariantSpec "baseline" "Baseline" no_overrides [] None] 1 (MkSeedStrategy SeedFixed (Some 7%Z))
    [] [] []).

Definition incident_parts : list AuthoringRevision :=
  [GoalRevision goal_part; ScenarioRevision scenario_part; AgentInventoryRevision inventory_part;
   WorkspaceTemplateRevision workspace_part; InteractionProtocolRevision protocol_part;
   EvaluationPlanRevision plan_part; StudyRevision incident_study].

Definition incident_registry : Registry := value_of empty_registry (import_fixtures incident_parts).
#[export] Instance incident_resolver : ContractResolver := registry_resolver incident_registry.

Definition incident_specs : list RunSpec := Eval vm_compute in value_of [] (compile [] incident_study).
Definition incident_spec : RunSpec := Eval vm_compute in nth 0 incident_specs sample_spec.

Definition incident_sealed : SealedStudy :=
  value_of (MkSealedStudy (MkRevisionSet "" (rev_ref incident_study) []) [] ∅) (seal incident_study).
Definition incident_set : ExecutionRevisionSet := Eval vm_compute in sealed_set incident_sealed.

Definition incident_trust : ExecutionTrustRecord := Eval vm_compute in
  MkTrustRecord "trust" UnverifiedRevisionSet (rset_project_id incident_set) (rset_study_ref incident_set)
    (rset_revision_refs incident_set) (revision_set_digest incident_set) (spec_digest incident_spec) [] 0.

(** ** The stores *)

Definition incident_documents : list (json * AuthoringRevision) := Eval vm_compute in
  map (λ r, (revision_document r, r)) incident_parts.

#[export] Instance incident_models : RevisionModels := λ _ document,
  match find_first (λ '(d, _), d ==b document) incident_documents with
  | Some (_, r) => inl r
  | None => inr (MkPydanticError "missing" [], [])
  end.
#[export] Instance incident_names : UnicodeTables := {| nfkc := id; casefold := id |}.
#[export] Instance no_experiments : LegacyExperiments := λ _, None.
#[export] Instance plain_text : Utf8Decoder := Some.
#[export] Instance no_documents : JsonObjects := λ _, Raise (ValidationError "json_invalid").
#[export] Instance no_responses : ResponseModels := λ _, Raise (ValidationError "missing").

Definition incident_commands : list catalog_command :=
  [CreateWorkspace "Lab" "ws" 0; CreateProjectIn "ws" "Project one" "project" 0]
  ++ map (λ r, RegisterRevision r "draft" ("row-" +:+ cr_logical_id (revision_ref r)) 0) incident_parts
  ++ [SaveRunSpec incident_spec "spec" 0; SaveTrust incident_trust].

Definition incident_catalog : CatalogDB := Eval vm_compute in
  value_of empty_catalog (fold_res (λ s c, catalog_exec unavailable_verify c s) empty_catalog incident_commands).

Definition incident_world (s : St) : World := MkWorld s (fst incident_files) incident_catalog.

Definition incident_admission : AdmissionRecord := Eval vm_compute in
  value_of blank_record
    (catalog_admit (active_catalog None (incident_world (MkSt empty_db 0 0))) 0 incident_spec incident_trust).

Example incident_admitted : adm_decision incident_admission = AdmissionAdmitted.
Proof. reflexivity. Qed.

(** ** The Run *)

Definition incident_start : St := MkSt
  (MkDB ∅ [] ∅ ∅ {["spec" := MkRunSpecRow "spec" incident_spec (spec_digest incident_spec) 0]}
     {["adm" := MkAdmissionRow "adm" "spec" AdmissionAdmitted incident_admission
         (admission_digest incident_admission) (Some (trust_trust_id incident_trust))
         (Some (trust_digest incident_trust)) 0]} ∅ ∅ ∅ ∅ ∅) 0 0.

Definition incident_enqueue : command := Enqueue "spec" "adm" "request-1" None None (Some 10%Z).
Definition incident_claim : command := Claim "w1" 100 None (Some 20%Z).
Definition incident_queued : St := Eval vm_compute in after incident_start incident_enqueue.
Definition incident_claimed : St := Eval vm_compute in after incident_queued incident_claim.

Definition incident_job : RunExecutionJob := Eval vm_compute in job_document (job_at incident_claimed).
Definition incident_attempt : RunExecutionAttempt := Eval vm_compute in
  attempt_document (attempt_at incident_claimed).

(** The one envelope of the Run: its input is stored under the identity it was read from. *)
Definition incident_envelope : SubjectEnvelope := Eval vm_compute in
  value_of (MkSubjectEnvelope "" sample_goal [] sample_protocol []
      (MkSubjectWorkspace "" [] [] NetDisabled EffDenied) sample_budgets [] None)
    (compile_subject_envelope incident_spec incident_admission (Some [incident_binding])).
#[export] Instance incident_envelopes : EnvelopeModel := λ document,
  if document ==b semantic_model_dump (to_SubjectEnvelope incident_envelope)
  then Ok incident_envelope else Raise (ValidationError "missing").

Definition incident_oracle : Oracle := MkOracle (λ _, scn_env)
  (λ n, MkDraws (pretty n) "abcdefghijkl" "key" 30) (λ _ _, Raise TimeoutError).

Definition incident_process : proc unit := execute_attempt None incident_job incident_attempt.
Definition incident_begin : World := incident_world incident_claimed.
#[local] Abbreviation incident_drive := (drive incident_oracle incident_process 0 incident_begin).
Definition incident_end : St := Eval vm_compute in
  w_store (List.last (fst incident_drive) incident_begin).

Example incident_returns : snd incident_drive = Some (Ok tt).
Proof. vm_compute. reflexivity. Qed.
Example incident_events :
  map evt_event_type (run_events "run_0" (st_db incident_end)) =
  ["run.queued"; "run.preparing"; "context.composed"; "run.running"; "subject.invoked";
   "subject.responded"; "run.evaluating"; "evaluation.completed"; "run.completed"].
Proof. vm_compute. reflexivity. Qed.
Example incident_starts : start_index incident_oracle incident_process 0 incident_begin = Some 21.
Proof. vm_compute. reflexivity. Qed.

Lemma incident_reachable : reachable incident_claimed.
Proof.
  exists incident_start. split; [by split_and!|].
  apply (steps_trans _ incident_queued).
  - apply (exec_steps _ incident_enqueue _ (Ok tt)). vm_compute. reflexivity.
  - apply (exec_steps _ incident_claim _ (Ok tt)). vm_compute. reflexivity.
Qed.

(** The history of the attempt alone in the world. *)
Definition incident_history : nat → World := history incident_begin (fst incident_drive).

Lemma incident_timeline : timeline incident_history.
Proof. exact (drive_timeline incident_oracle incident_process incident_begin incident_reachable). Qed.

Definition incident_length : nat := length (fst incident_drive).

Lemma incident_ends : ends incident_history incident_process 0 (Ok tt) incident_length.
Proof. exact (history_ends incident_oracle incident_process incident_begin (Ok tt) incident_returns). Qed.

Lemma incident_reaches : reaches incident_history incident_process 0 starts_subject 21.
Proof. exact (history_reaches incident_oracle incident_process incident_begin 21 incident_starts). Qed.

(** ** A crash while the Subject runs *)

(** The first worker stops for ever when the Subject starts; its lease runs out and a second
    worker claims the job. *)
Definition crashed : St := Eval vm_compute in w_store (nth 20 (fst incident_drive) incident_begin).
Definition late_env : Env := {| env_now := λ _, 210%Z; env_id := λ n, pretty n |}.
Definition reclaimed : St := Eval vm_compute in fst (exec (Claim "w2" 100 None (Some 200%Z)) late_env crashed).

Definition second_row : RunExecutionAttemptRow := Eval vm_compute in
  default (attempt_at reclaimed)
    (head (List.filter (λ a, att_status a ==b AttLeased) (all_attempts (st_db reclaimed)))).

Definition recovery_process : proc unit :=
  execute_attempt None (job_document (job_at reclaimed)) (attempt_document second_row).
Definition recovery_oracle : Oracle := MkOracle (λ _, late_env)
  (λ n, MkDraws ("r" +:+ pretty n) "abcdefghijkl" "key" 210) (λ _ _, Raise TimeoutError).
(** The second attempt does not start the Subject again: it fails the Run. *)
Example recovery_fails_run :
  (let '(worlds, r) := drive recovery_oracle recovery_process 0 (incident_world reclaimed) in
   (r, map evt_event_type (run_events "run_0"
         (st_db (w_store (List.last worlds (incident_world reclaimed))))))) =
  (Some (Ok tt),
   ["run.queued"; "run.preparing"; "context.composed"; "run.running"; "subject.invoked"; "run.failed"]).
Proof. vm_compute. reflexivity. Qed.
