(* ===== verification/Attempts.v ===== *)
(** * Interleaved attempts

    What attempts of one Run achieve together on every timeline: the Subject starts at most
    once, an attempt that returns has closed its Run, and one that lost its lease writes
    nothing. *)

From S2P Require Import Prelude PyText PyJson Base Authoring Runtime Events Trust Samples Artifacts Evaluation Registry.
From S2P Require Import ContractStore Store Catalog Lease Handlers Ledger LedgerInv Queue Composer Subject Graders AdapterCatalog EvalStore.
From S2P Require Import EvalInv ReadModel System Scenario Guarantees Idempotence Coordinator Histories Offline.

(** ** The calls of an attempt *)

Create HintDb procs.

Ltac only_step :=
  match goal with
  | |- only _ (mbind _ _) => apply only_bind
  | |- only _ (catch _ _) => apply only_catch
  | |- only _ (for_all _ _) => apply only_for_all
  | |- only _ (match ?x with _ => _ end) => destruct x
  | |- only _ (Halt _) => exact I
  | |- only _ (mret _) => exact I
  | |- only _ (pure _) => exact I
  | |- only _ (request _) => split; [|intros ?; exact I]
  | |- only _ (look _) => split; [|intros ?; exact I]
  | |- only _ (look_db _) => split; [|intros ?; exact I]
  | |- only _ (on_files _) => split; [|intros ?; exact I]
  | |- only _ (issue_command _) => split; [|intros ?; exact I]
  | |- ∀ _, _ => intros ?
  end.
Ltac walk_proc := repeat (only_step; cbn beta iota); try done.

Section attempts.
Context `{PyRuntime} {HV : HumanVerifier} `{RevisionModels} `{EnvelopeModel} `{LegacyExperiments}.
Context `{JsonObjects} `{ResponseModels} `{VaultCrypto} `{Utf8Decoder}.
Variable wired : option RealSubject.

(** A store command under this fence. *)
Definition fenced_call (fence : LeaseFence) : call_pred := λ B c,
  match c with Command c => uses_fence fence c | _ => True end.
(** A fenced call other than the start of the Subject. *)
Definition plain_call (fence : LeaseFence) : call_pred := λ B c,
  match c with Command c => uses_fence fence c | StartSubject => False | _ => True end.

Lemma plain_not_start fence B (c : call B) : plain_call fence B c → ¬ starts_subject B c.
Proof. destruct c; cbn; tauto. Qed.
Lemma plain_fenced fence B (c : call B) : plain_call fence B c → fenced_call fence B c.
Proof. destruct c; cbn; tauto. Qed.

Section one.
Variables (job : RunExecutionJob) (att : RunExecutionAttempt).
Let fence := lease_of job att.
#[local] Abbreviation plain := (only (plain_call fence)).

Lemma plain_assert_held : plain (assert_held job att).
Proof. unfold assert_held. walk_proc. Qed.
Lemma plain_complete : plain (complete job att).
Proof. unfold complete. walk_proc. Qed.
Lemma plain_append t p a i k c r : plain (append job att t p a i k c r).
Proof. unfold append. walk_proc. Qed.
Lemma plain_project_id : plain (project_id job).
Proof. unfold project_id. walk_proc. Qed.
Lemma plain_status : plain (run_status_now job).
Proof. unfold run_status_now. walk_proc. Qed.
Lemma plain_events : plain (events_now job).
Proof. unfold events_now. walk_proc. Qed.
Hint Resolve plain_assert_held plain_complete plain_append plain_project_id plain_status plain_events : procs.

Ltac plain_tac := walk_proc; try solve [auto with procs nocore].

Lemma plain_terminal s g c : plain (terminal job att s g c).
Proof. unfold terminal. plain_tac. Qed.
Hint Resolve plain_terminal : procs.

Lemma plain_reject code : plain (reject job att code).
Proof. unfold reject. plain_tac. Qed.

Lemma plain_persist_trace project actor c : plain (persist_trace job att project actor c).
Proof. unfold persist_trace, trace_failed, tool_event, store_text. plain_tac. Qed.

Lemma plain_turn {A} project actor (t : turn A) n o Q :
  keeps_to t n o Q → plain (perform_turn job att project actor t).
Proof.
  revert n o. induction t as [r|prompt k IH|c k IH|]; intros n o Hk; cbn in *; [done| | |done].
  - destruct Hk as [_ Hk]. split; [done|]. intros r. by eapply IH.
  - apply only_catch; [apply plain_persist_trace|]. intros [[]|e].
    + destruct c; destruct Hk as (_ & Hk & _); try (by eapply IH); destruct n; [done| |done|]; by eapply IH.
    + assert (k (Raise e) = Finish (Raise e)) as -> by (destruct c; apply Hk). done.
Qed.

Lemma plain_prepare spec admission : plain (prepare job att spec admission).
Proof.
  unfold prepare, advance_to_running, append_system, compile_and_persist. plain_tac.
  generalize (@nil (string * string)). induction (se_inputs _) as [|item rest IH]; intros l;
    cbn [materialize_inputs]; plain_tac.
Qed.

Lemma plain_coherent : plain (coherent_contracts wired job).
Proof. unfold coherent_contracts. plain_tac. Qed.

Lemma plain_persist_evaluation o : plain (persist_evaluation job att o).
Proof. unfold persist_evaluation. plain_tac. Qed.
Hint Resolve plain_persist_evaluation : procs.

Lemma plain_resume spec : plain (resume_after_response job att spec).
Proof.
  unfold resume_after_response, advance_to_evaluating, evaluate_persisted_response, append_system,
    load_subject_result, evaluate, reconcile_existing_records, reconcile_record, append_system. plain_tac.
Qed.

Lemma plain_indeterminate events : plain (fail_indeterminate_invocation job att events).
Proof.
  unfold fail_indeterminate_invocation, fail_open_call, trace_failed, tool_event. plain_tac.
Qed.

Lemma plain_settle_failure e : plain (settle_failure job att e).
Proof. unfold settle_failure, terminate_budget, fail. plain_tac. Qed.

Lemma plain_close spec subject : plain (evaluate_and_close job att spec subject).
Proof. unfold evaluate_and_close, persist_response, evaluate. plain_tac. Qed.

Lemma subject_turn_keeps subject envelope inputs :
  ∃ n, keeps_to (subject_turn subject envelope inputs) n None (λ _ open _, open = None).
Proof.
  destruct subject as [|real]; cbn [subject_turn].
  - exists 0%nat. unfold scripted_adapter_execute. destruct inputs as [|[id text] [|? ?]]; done.
  - destruct (bu_max_tool_calls (se_budgets envelope)) as [m|] eqn:Em.
    + exists (Z.to_nat m). unfold read_agent_execute. apply keeps_to_bind, keeps_to_attempt.
      intros _ _. rewrite Em. apply keeps_to_bind, keeps_to_attempt. intros x [= <-].
      apply agent_loop_keeps; cbn [ls_tool_calls]; unfold agent_fuel; lia.
    + exists 0%nat. unfold read_agent_execute. apply keeps_to_bind, keeps_to_attempt.
      intros _ _. rewrite Em. done.
Qed.

Lemma plain_subject_turn project actor subject envelope inputs :
  plain (perform_turn job att project actor (subject_turn subject envelope inputs)).
Proof. destruct (subject_turn_keeps subject envelope inputs) as [n Hn]. by eapply plain_turn. Qed.

(** Every store command of an attempt carries its fence, and no branch is stuck. *)
Lemma attempt_fenced : only (fenced_call fence) (execute_attempt wired job att).
Proof.
  assert (Hp : ∀ A (p : proc A), plain p → only (fenced_call fence) p)
    by (intros A p; apply only_mono, plain_fenced).
  unfold execute_attempt, run_subject, invoke_subject, append_invoked, append_system, remaining_wall,
    terminate_budget.
  walk_proc; apply Hp; auto using plain_prepare, plain_coherent, plain_resume, plain_indeterminate,
    plain_close, plain_settle_failure, plain_subject_turn with procs nocore.
Qed.
End one.

(** ** What the calls establish *)

Section facts.
Variables (tl : nat → World) (Ht : timeline tl) (job : RunExecutionJob) (att : RunExecutionAttempt).
Let fence := lease_of job att.

Lemma ends_look {A} (f : Env → World → result A) n a m :
  ends tl (request (Look f)) n (Ok a) m → ∃ i env, n ≤ i < m ∧ f env (tl i) = Ok a.
Proof.
  intros (i & x & Hi & Ha & <- & ->). apply acts_ok in Ha as [_ [env Hx]].
  exists i, env. split; [lia|by symmetry].
Qed.

Lemma ends_look_db {A} (f : DB → result A) n a m :
  ends tl (look_db f) n (Ok a) m → ∃ i, n ≤ i < m ∧ f (db_at tl i) = Ok a.
Proof. intros (i & env & Hi & Hf)%ends_look. by exists i. Qed.

Lemma ends_assert_held n m :
  ends tl (assert_held job att) n (Ok tt) m → ∃ i, n ≤ i < m ∧ live (db_at tl i) fence.
Proof.
  intros (i & env & Hi & Hf)%ends_look. exists i. split; [done|].
  unfold assert_lease, transaction in Hf.
  match type of Hf with context [match ?x with _ => _ end] => destruct x as [[[] s]|e] eqn:E end; [|done].
  apply tx_bind_ok in E as (now & s1 & E1 & E).
  assert (st_db s1 = st_db (w_store (tl i))) as E2 by (by injection E1 as <- <-).
  apply tx_bind_ok in E as ([j a] & s2 & E3 & _). apply require_active_lease_ok in E3 as [_ Hl].
  rewrite E2 in Hl. by exists now, j, a.
Qed.

(** An append of this attempt that goes through: the fence was live, and the event is
    stored in the next instant. *)
Lemma ends_append t p actor actor_id key c r n m :
  ends tl (append job att t p actor actor_id key c r) n (Ok tt) m →
  ∃ i, n ≤ i < m
  ∧ (∃ now j a, fence_holds (db_at tl i) fence now j a ∧ job_run_id j = xj_run_id job)
  ∧ is_Some (db_runs (db_at tl (S i)) !! xj_run_id job)
  ∧ t ∈ map evt_event_type (run_events (xj_run_id job) (db_at tl (S i))).
Proof.
  intros (i & x & Hi & Ha & <- & ->). apply acts_ok in Ha as (env & Ep & _). exists i. split; [lia|].
  cbn [perform exec] in Ep. unfold outcome, append_event, transaction in Ep.
  destruct (append_body _ env (w_store (tl i))) as [[row s']|e] eqn:E; cbn in Ep; [|congruence].
  injection Ep as Es. unfold db_at. rewrite <- Es. split.
  { apply (append_live _ fence) in E; [|done]. done. }
  pose proof (reachable_inv _ (timeline_reachable tl i Ht)) as [_ Hd].
  apply (append_stored _ key) in E as (payload & _ & He & Hc & Hrun); [|done..].
  split; [done|]. apply event_by_key_type in He. cbn in *.
  unfold replay_conflict in Hc. apply orb_false_iff in Hc as [Hc _].
  apply negb_false_iff, bool_decide_eq_true in Hc. by rewrite <- Hc.
Qed.

Lemma count_of_zero v ts : count_of v ts = 0%nat → v ∉ ts.
Proof.
  intros Hz Hin. unfold count_of in Hz. apply length_zero_iff_nil in Hz.
  assert (Hf : v ∈ List.filter (λ t, t ==b v) ts).
  { apply list_elem_of_In, List.filter_In. split; [by apply list_elem_of_In|by apply bool_decide_eq_true]. }
  rewrite Hz in Hf. by apply not_elem_of_nil in Hf.
Qed.

Ltac never_starts := exfalso; eapply reaches_only; [apply plain_not_start| |eassumption].
Ltac reach H x i E :=
  apply (reaches_bind _ (plain_call (lease_of job att))) in H as (x & i & E & H);
  [|apply plain_not_start|].

(** Before an attempt starts the Subject it held its lease, then read a ledger without an
    invocation, then recorded the invocation under its lease. *)
Lemma starts_after_record n m :
  reaches tl (execute_attempt wired job att) n starts_subject m →
  ∃ a e t, a ≤ e ≤ t ∧ t < m
  ∧ live (db_at tl a) fence
  ∧ ("subject.invoked" ∉ map evt_event_type (run_events (xj_run_id job) (db_at tl e)))
  ∧ (∃ now j r, fence_holds (db_at tl t) fence now j r ∧ job_run_id j = xj_run_id job)
  ∧ "subject.invoked" ∈ map evt_event_type (run_events (xj_run_id job) (db_at tl (S t))).
Proof.
  intros Hr. unfold execute_attempt in Hr. reach Hr u i E; [|apply plain_assert_held].
  destruct u. apply ends_assert_held in E as (a & Ha & Hlive).
  reach Hr status i1 E1; [|apply plain_status].
  destruct (is_terminal status); [never_starts; apply plain_complete|].
  reach Hr c i2 E2; [|apply plain_coherent]. destruct c as [spec admission].
  reach Hr subject i3 E3; [|walk_proc]. reach Hr u i4 E4; [|walk_proc].
  reach Hr p i5 E5; [|apply plain_prepare]. destruct p as [envelope inputs].
  reach Hr status' i6 E6; [|apply plain_status].
  destruct (is_terminal status'); [never_starts; apply plain_complete|].
  reach Hr events i7 E7; [|apply plain_events].
  pose proof (ends_look_db (λ d, Ok (events_by_sequence (xj_run_id job) d)) _ _ _ E7) as (e & He & [= Hev]). unfold response_counts in Hr.
  destruct (_ <? _)%nat eqn:Hcount; [never_starts; apply plain_indeterminate|].
  destruct (0 <? _)%nat eqn:Hresp; [never_starts; apply plain_resume|].
  apply Nat.ltb_ge in Hcount, Hresp. unfold run_subject in Hr.
  reach Hr rem i8 E8; [|unfold remaining_wall; walk_proc].
  destruct (rem <=? 0)%Z; [never_starts; apply plain_terminal|].
  apply reaches_catch in Hr as [Hr|([[subj|]|x] & i9 & _ & Hr)];
    [|never_starts; apply plain_close|done..].
  unfold invoke_subject in Hr. reach Hr u1 i9 E9; [|apply plain_assert_held].
  reach Hr u2 i10 E10; [|apply plain_append]. destruct u2.
  apply ends_append in E10 as (t & Hi & Hf & _ & Hin). apply reaches_le in Hr as Hm.
  exists a, e, t.
  apply ends_le in E1, E2, E3, E4, E5, E6, E8, E9. split_and!; try done; try lia.
  pose proof (reachable_inv _ (timeline_reachable tl e Ht)) as [_ Hd].
  rewrite events_by_sequence_id in Hev by done. rewrite <- Hev, !count_type_map in Hcount.
  rewrite <- Hev, count_type_map in Hresp.
  apply count_of_zero. lia.
Qed.
End facts.

(** A lease that is live before and after an instant at which a lease of the same Run is
    live is that lease. *)
Lemma fence_between tl f1 f2 a t b now1 j1 r1 now2 j2 r2 :
  timeline tl → a ≤ t ≤ b → live (db_at tl a) f2 →
  fence_holds (db_at tl t) f1 now1 j1 r1 → fence_holds (db_at tl b) f2 now2 j2 r2 →
  job_run_id j1 = job_run_id j2 → f1 = f2.
Proof.
  intros Ht [Hat Htb] (now & j & r & Hj & Hr & _) K1 K2 Hrun.
  destruct K1 as (Hj1 & Hr1 & _ & Hact & Hg1 & Hjob1 & Hst1 & Hw1 & Ha1 & _).
  destruct K2 as (Hj2 & Hr2 & _ & _ & Hg2 & Hjob2 & Hst2 & Hw2 & Ha2 & _).
  destruct (timeline_evolves tl a t Ht Hat) as [Ea _].
  destruct (timeline_evolves tl t b Ht Htb) as [Eb _].
  destruct (ev_attempt _ _ Ea _ _ Hr) as (r' & Hr' & _).
  destruct (ev_attempt _ _ Eb _ _ Hr') as (r'' & Hr'' & Hsame & Hfix).
  rewrite Hr2 in Hr''. injection Hr'' as <-.
  assert (Hleased : att_status r' = AttLeased).
  { destruct (decide (att_status r' = AttLeased)) as [|Hn]; [done|]. by rewrite (Hfix Hn) in Hst2. }
  destruct (ev_job _ _ Eb _ _ Hj1) as (j1' & Hj1' & Hrun1 & _).
  pose proof (reachable_inv _ (timeline_reachable tl b Ht)) as [Hqb _].
  assert (Hid : f_job_id f1 = f_job_id f2).
  { eapply (qi_job_keys _ Hqb); [exact Hj1'|exact Hj2|right; congruence]. }
  pose proof (reachable_inv _ (timeline_reachable tl t Ht)) as [Hqt _].
  destruct (qi_leased _ Hqt _ _ Hr' Hleased) as (j' & Hj' & Hact').
  destruct Hsame as (S1 & S2 & S3 & S4 & S5 & _).
  assert (att_job_id r' = f_job_id f1) as E by congruence.
  unfold db_at in *. rewrite E, Hj1 in Hj'. injection Hj' as <-. rewrite Hact in Hact'. injection Hact' as Hatt.
  rewrite Hatt, Hr' in Hr1. injection Hr1 as <-.
  destruct f1, f2; cbn in *. congruence.
Qed.

(** At most [n] starts of the Subject on every branch. *)
Fixpoint starts_at_most {A} (n : nat) (p : proc A) : Prop :=
  match p with
  | Perform StartSubject k => match n with S n' => ∀ r, starts_at_most n' (k r) | O => False end
  | Perform _ k => ∀ r, starts_at_most n (k r)
  | _ => True
  end.

Lemma plain_starts {A} fence n (p : proc A) : only (plain_call fence) p → starts_at_most n p.
Proof. induction p as [x|B c k IH|]; cbn; [done| |done]. intros [Hc Hk]. destruct c; try done; auto. Qed.

Lemma starts_catch {A B} fence n (p : proc A) (k : result A → proc B) :
  starts_at_most n p → (∀ r, only (plain_call fence) (k r)) → starts_at_most n (catch p k).
Proof.
  revert n. induction p as [x|C c f IH|]; intros n; cbn; [|intros Hc Hk; destruct c; auto|done].
  - intros _ Hk. by eapply plain_starts.
  - destruct n as [|n]; [done|]. auto.
Qed.

Lemma starts_bind {A B} fence n (p : proc A) (f : A → proc B) :
  only (plain_call fence) p → (∀ a, starts_at_most n (f a)) → starts_at_most n (p ≫= f).
Proof.
  intros Hp Hf. induction p as [[a|e]|C c g IH|]; cbn; [apply Hf|done| |done].
  destruct Hp as [Hc Hg]. destruct c; try done; intros r; apply IH, Hg.
Qed.

Lemma starts_once job att : starts_at_most 1 (execute_attempt wired job att).
Proof.
  pose proof (λ A p, @plain_starts A (lease_of job att) 1 p) as Hplain.
  unfold execute_attempt.
  apply (starts_bind (lease_of job att)); [apply plain_assert_held|intros _].
  apply (starts_bind (lease_of job att)); [apply plain_status|intros status].
  destruct (is_terminal status); [apply Hplain, plain_complete|].
  apply (starts_bind (lease_of job att)); [apply plain_coherent|intros [spec admission]].
  apply (starts_bind (lease_of job att)); [walk_proc|intros subject].
  apply (starts_bind (lease_of job att)); [walk_proc|intros _].
  apply (starts_bind (lease_of job att)); [apply plain_prepare|intros [envelope inputs]].
  apply (starts_bind (lease_of job att)); [apply plain_status|intros status'].
  destruct (is_terminal status'); [apply Hplain, plain_complete|].
  apply (starts_bind (lease_of job att)); [apply plain_events|intros events]. unfold response_counts.
  destruct (_ <? _)%nat; [apply Hplain, plain_indeterminate|].
  destruct (0 <? _)%nat; [apply Hplain, plain_resume|]. unfold run_subject.
  apply (starts_bind (lease_of job att)); [unfold remaining_wall; walk_proc|intros rem].
  destruct (rem <=? 0)%Z; [apply Hplain, plain_terminal|].
  apply (starts_catch (lease_of job att)); [|intros [[r|]|e]; [apply plain_close|done..]].
  unfold invoke_subject.
  apply (starts_bind (lease_of job att)); [apply plain_assert_held|intros _].
  apply (starts_bind (lease_of job att)); [apply plain_append|intros _].
  apply (starts_bind (lease_of job att)); [apply plain_project_id|intros project].
  intros [[]|e]; [|done]. cbn [catch]. apply (plain_starts (lease_of job att)).
  apply only_catch; [apply plain_subject_turn|]. intros [r|e]; [done|].
  apply only_bind; [apply plain_settle_failure|done].
Qed.

(** C4: a Run starts its Subject at most once, whatever crashes, expires, is retried or
    interleaves: on every history two attempts that both reach the Subject are the same
    attempt, under one lease, and an attempt starts it once. *)
Theorem subject_starts_once tl job1 att1 job2 att2 n1 n2 m1 m2 :
  timeline tl → xj_run_id job1 = xj_run_id job2 →
  reaches tl (execute_attempt wired job1 att1) n1 starts_subject m1 →
  reaches tl (execute_attempt wired job2 att2) n2 starts_subject m2 →
  lease_of job1 att1 = lease_of job2 att2
  ∧ starts_at_most 1 (execute_attempt wired job1 att1).
Proof.
  intros Ht Hrun (a1 & e1 & t1 & Ho1 & _ & L1 & N1 & F1 & I1)%starts_after_record
    (a2 & e2 & t2 & Ho2 & _ & L2 & N2 & F2 & I2)%starts_after_record; [|done..].
  split; [|apply starts_once]. rewrite <- Hrun in *.
  destruct F1 as (now1 & j1 & r1 & F1 & R1), F2 as (now2 & j2 & r2 & F2 & R2).
  assert (Hseen : ∀ t e, S t ≤ e →
    "subject.invoked" ∈ map evt_event_type (run_events (xj_run_id job1) (db_at tl (S t))) →
    "subject.invoked" ∈ map evt_event_type (run_events (xj_run_id job1) (db_at tl e))).
  { intros t e Hle (ev & E & Hev)%list_elem_of_fmap. apply list_elem_of_fmap. exists ev. split; [done|].
    destruct (timeline_evolves tl (S t) e Ht Hle) as [_ [Hpre _]].
    apply list_elem_of_In, List.filter_In in Hev as [Hev Hk]. apply list_elem_of_In, List.filter_In.
    split; [|done]. apply list_elem_of_In in Hev. apply list_elem_of_In.
    destruct Hpre as [l ->]. apply elem_of_app. by left. }
  destruct (le_lt_dec t1 t2) as [Hle|Hlt].
  - destruct (le_lt_dec e2 t1) as [He|He]; [|by destruct (N2 (Hseen t1 e2 He I1))].
    eapply (fence_between tl _ _ a2 t1 t2); try done; [lia|congruence].
  - destruct (le_lt_dec e1 t2) as [He|He]; [|by destruct (N1 (Hseen t2 e1 He I2))].
    symmetry. eapply (fence_between tl _ _ a1 t2 t1); try done; [lia|congruence].
Qed.

(** ** Attempts that return *)

Definition closed (d : DB) (id : string) : Prop :=
  ∃ run, db_runs d !! id = Some run ∧ is_terminal (run_status run) = true.

Lemma closed_stays tl id n m : timeline tl → n ≤ m → closed (db_at tl n) id → closed (db_at tl m) id.
Proof.
  intros Ht Hle (run & Hr & Hst). destruct (timeline_evolves tl n m Ht Hle) as [_ [_ Hl]].
  destruct (Hl _ _ Hr) as (run' & Hr' & _ & Hclosed). exists run'. split; [done|].
  by rewrite (proj1 (Hclosed Hst)).
Qed.

Lemma terminal_transition t :
  t ∈ TERMINAL_EVENT_TYPES →
  match assoc t transition with Some (_, target) => is_terminal target | None => false end = true.
Proof.
  assert (Hall : Forall (λ t, match assoc t transition with
    Some (_, target) => is_terminal target | None => false end = true) TERMINAL_EVENT_TYPES)
    by (repeat constructor).
  intros Ht. by apply (proj1 (Forall_forall _ _) Hall).
Qed.

Lemma lives_ended ts l t :
  lives ts l → t ∈ ts → t ∈ TERMINAL_EVENT_TYPES → is_terminal (lf_status l) = true.
Proof.
  intros Hl Hin Ht. induction Hl as [|ts l t' l' Hl IH Hs].
  { apply list_elem_of_singleton in Hin as ->. vm_compute in Ht. repeat (apply elem_of_cons in Ht as [Ht|Ht]; [discriminate|]). by apply not_elem_of_nil in Ht. }
  unfold life_step in Hs. destruct (_ || _ || _ || _) eqn:E; [done|].
  rewrite !orb_false_iff in E. destruct E as [[[Hopen _] _] _].
  apply elem_of_app in Hin as [Hin|Hin%list_elem_of_singleton]; [by rewrite IH in Hopen|].
  subst t'. apply terminal_transition in Ht.
  destruct (assoc t transition) as [[from target]|]; [|done].
  destruct (lf_status l ∈b from); [|done]. injection Hs as <-. exact Ht.
Qed.

Lemma ended_closed tl n id t :
  timeline tl → is_Some (db_runs (db_at tl n) !! id) → t ∈ TERMINAL_EVENT_TYPES →
  t ∈ map evt_event_type (run_events id (db_at tl n)) → closed (db_at tl n) id.
Proof.
  intros Ht [run Hr] Hterm Hin. exists run. split; [done|].
  pose proof (reachable_inv _ (timeline_reachable tl n Ht)) as [_ Hd].
  destruct (li_life _ Hd _ _ Hr) as [[Hnil _]|(l & Hl & ->)].
  - unfold db_at in Hin. rewrite Hnil in Hin. by apply not_elem_of_nil in Hin.
  - by eapply lives_ended.
Qed.

Section returns.
Variables (tl : nat → World) (Ht : timeline tl) (job : RunExecutionJob) (att : RunExecutionAttempt).
#[local] Abbreviation closes := (λ m, closed (db_at tl m) (xj_run_id job)).

Lemma status_closed n s m : ends tl (run_status_now job) n (Ok s) m → is_terminal s = true → closes m.
Proof.
  intros E Hs. pose proof (ends_look_db tl (λ d, run_status <$> get_run (xj_run_id job) d) _ _ _ E) as (i & Hi & Hr).
  apply (closed_stays tl _ i); [done|lia|]. unfold get_run, require in Hr.
  destruct (db_runs _ !! _) as [run|] eqn:Er; [|done]. injection Hr as <-. by exists run.
Qed.

Lemma terminal_closes status goal cause n m :
  is_terminal status = true → ends tl (terminal job att status goal cause) n (Ok tt) m → closes m.
Proof.
  intros Hst (s & i & E1 & E)%ends_bind. pose proof (status_closed _ _ _ E1) as Hc.
  destruct (is_terminal s).
  { apply ends_le in E. apply (closed_stays tl _ i); auto. }
  apply ends_bind in E as (u & i1 & _ & E). apply ends_bind in E as (records & i2 & _ & E).
  apply ends_append in E as (j & Hj & _ & Hrun & Hin); [|done].
  apply (closed_stays tl _ (S j)); [done|lia|]. eapply ended_closed; try done.
  unfold TERMINAL_EVENT_TYPES. apply list_elem_of_fmap. exists status. split; [done|].
  by apply bool_decide_eq_true in Hst.
Qed.

Lemma settle_closes e n m : ends tl (settle_failure job att e) n (Ok tt) m → closes m.
Proof.
  intros (u & i & _ & E)%ends_bind. destruct e; by eapply terminal_closes in E.
Qed.

Lemma resume_closes spec n m : ends tl (resume_after_response job att spec) n (Ok tt) m → closes m.
Proof.
  intros (records & i & _ & E)%ends_bind. apply ends_bind in E as (u & i1 & _ & E).
  destruct records as [|record records].
  - apply ends_bind in E as (events & i2 & _ & E). apply ends_bind in E as (response & i3 & _ & E).
    apply ends_bind in E as ([ref|] & i4 & _ & E); [|by eapply terminal_closes in E].
    do 6 apply ends_bind in E as (? & ? & _ & E). by eapply terminal_closes in E.
  - apply ends_bind in E as (u1 & i2 & _ & E). by eapply terminal_closes in E.
Qed.

Lemma indeterminate_closes events n m :
  ends tl (fail_indeterminate_invocation job att events) n (Ok tt) m → closes m.
Proof.
  intros E. do 3 apply ends_bind in E as (? & ? & _ & E). by eapply terminal_closes in E.
Qed.

Lemma invoke_closes spec admission subject envelope inputs n m :
  ends tl (invoke_subject job att spec admission subject envelope inputs) n (Ok None) m → closes m.
Proof.
  intros E. do 4 apply ends_bind in E as (? & ? & _ & E).
  apply ends_catch in E as ([r|e] & i & _ & E); [by destruct E|].
  apply ends_bind in E as ([] & i1 & E & [_ ->]). by apply settle_closes in E.
Qed.

Lemma run_subject_closes spec admission subject envelope inputs n m :
  ends tl (run_subject job att spec admission subject envelope inputs) n (Ok tt) m → closes m.
Proof.
  intros (rem & i & _ & E)%ends_bind. destruct (rem <=? 0)%Z; [by eapply terminal_closes in E|].
  apply ends_bind in E as ([r|] & i1 & E1 & E).
  - do 7 apply ends_bind in E as (? & ? & _ & E). by eapply terminal_closes in E.
  - apply invoke_closes in E1. destruct E as [_ ->]. done.
Qed.
End returns.

Lemma attempt_closes tl job att n m :
  timeline tl → ends tl (execute_attempt wired job att) n (Ok tt) m → closed (db_at tl m) (xj_run_id job).
Proof.
  intros Ht E. unfold execute_attempt in E.
  apply ends_bind in E as (u & i & _ & E). apply ends_bind in E as (status & i1 & E1 & E).
  pose proof (status_closed tl Ht job _ _ _ E1) as Hc.
  destruct (is_terminal status).
  { apply ends_le in E. apply (closed_stays tl _ i1); auto. }
  apply ends_bind in E as ([spec admission] & i2 & _ & E).
  apply ends_bind in E as (subject & i3 & _ & E). apply ends_bind in E as (v & i4 & _ & E).
  apply ends_bind in E as ([envelope inputs] & i5 & _ & E).
  apply ends_bind in E as (status' & i6 & E6 & E).
  pose proof (status_closed tl Ht job _ _ _ E6) as Hc'.
  destruct (is_terminal status').
  { apply ends_le in E. apply (closed_stays tl _ i6); auto. }
  apply ends_bind in E as (events & i7 & _ & E). unfold response_counts in E.
  destruct (_ <? _)%nat; [by eapply indeterminate_closes in E|].
  destruct (0 <? _)%nat; [by eapply resume_closes in E|]. by eapply run_subject_closes in E.
Qed.

(** C5: an attempt that returns has closed its Run: when [execute_attempt] ends without an
    error, at whatever point earlier attempts stopped and whatever others did meanwhile,
    the Run is terminal. And an attempt always ends or waits for an answer: no branch of it
    runs for ever. *)
Theorem attempt_returns_terminal tl job att n m :
  timeline tl → ends tl (execute_attempt wired job att) n (Ok tt) m →
  closed (db_at tl m) (xj_run_id job) ∧ ¬ gets_stuck tl (execute_attempt wired job att) n.
Proof. intros Ht E. split; [by eapply attempt_closes|eapply only_not_stuck, attempt_fenced]. Qed.

(** C6: an attempt that lost its lease writes nothing more: every store command of an
    attempt carries its fence, so from the instant the fence is superseded each command the
    attempt still issues raises and leaves the store as it was. *)
Theorem superseded_attempt_silent tl job att k n m c w r :
  timeline tl → superseded (db_at tl k) (lease_of job att) → k ≤ m →
  reaches tl (execute_attempt wired job att) n (is_command c) m → acts (Command c) (tl m) w r →
  w_store w = w_store (tl m) ∧ ∃ e, r = Raise e.
Proof.
  intros Ht Hs Hle Hr [(env & Ep & _)|(_ & -> & ->)]; [|split; [done|by eexists]].
  apply (reaches_in tl (fenced_call (lease_of job att))) in Hr as (B & x & Hf & Hx);
    [|apply attempt_fenced]. destruct x; try done. cbn in Hf, Hx. subst c0.
  destruct (timeline_evolves tl k m Ht Hle) as [He _].
  destruct (dead_fence_raises _ c env (w_store (tl m)) Hf) as [e Hx].
  { eapply superseded_not_live, superseded_evolves; [exact He|done]. }
  rewrite perform_exec, Ep in Hx. unfold outcome in Hx. cbn in Hx. injection Hx as -> Hx.
  split; [done|]. destruct r as [a|e']; [done|by exists e'].
Qed.
End attempts.

(** ** The theorems on the offline Run *)

Lemma subject_starts_once_witness : starts_at_most 1 incident_process.
Proof.
  exact (proj2 (subject_starts_once None incident_history incident_job incident_attempt incident_job
    incident_attempt 0 0 21 21 incident_timeline eq_refl incident_reaches incident_reaches)).
Defined.

Lemma attempt_returns_terminal_witness : closed (db_at incident_history incident_length) "run_0".
Proof.
  exact (proj1 (attempt_returns_terminal None incident_history incident_job incident_attempt 0
    incident_length incident_timeline incident_ends)).
Defined.

(** The Run is cancelled while its job is leased; the attempt sees that it is terminal, but
    before it completes the job somebody else has. *)
Definition incident_cancel : command := Append (Scenario.request "run.cancelled"
  (PRunTerminal (MkRunTerminalPayload cancelled (GoalStateTerminalResult GNotAssessable)
     "cancelled by the user" [] [])) None None false).
Definition cancelled_state : St := Eval vm_compute in after incident_claimed incident_cancel.
Definition completed_state : St := Eval vm_compute in
  after cancelled_state (Complete (lease_of incident_job incident_attempt) None).

Definition overtaken (n : nat) : World :=
  incident_world (if (n <? 3)%nat then cancelled_state else completed_state).

Lemma overtaken_timeline : timeline overtaken.
Proof.
  split.
  - change (reachable cancelled_state).
    apply (reachable_steps incident_claimed); [exact incident_reachable|].
    apply (exec_steps _ incident_cancel _ (Ok tt)). vm_compute. reflexivity.
  - intros [|[|[|n]]].
    1,2: change (steps cancelled_state cancelled_state); apply rtc_refl.
    + change (steps cancelled_state completed_state).
      apply (exec_steps _ (Complete (lease_of incident_job incident_attempt) None) _ (Ok tt)).
      vm_compute. reflexivity.
    + change (steps completed_state completed_state). apply rtc_refl.
Qed.

Definition last_complete : command := Complete (lease_of incident_job incident_attempt) None.

Lemma overtaken_reaches : reaches overtaken incident_process 0 (is_command last_complete) 3.
Proof.
  right. exists 0%nat, (Ok tt). split; [lia|]. split; [left; split; [done|by exists scn_env; vm_compute]|].
  right. exists 1%nat, (Ok cancelled). split; [lia|]. split; [left; split; [done|by exists scn_env; vm_compute]|].
  left. split; [done|lia].
Qed.

Lemma superseded_attempt_silent_witness : ∃ e, snd (exec last_complete scn_env completed_state) = Raise e.
Proof.
  destruct (superseded_attempt_silent None overtaken incident_job incident_attempt 3 0 3 last_complete
    (overtaken 3) (snd (exec last_complete scn_env completed_state)) overtaken_timeline) as [_ He].
  - exists (default (attempt_at completed_state)
      (db_attempts (st_db completed_state) !! f_attempt_id (lease_of incident_job incident_attempt))).
    split; [vm_compute; reflexivity|]. left. vm_compute. discriminate.
  - lia.
  - exact overtaken_reaches.
  - left. exists scn_env. split; [vm_compute; reflexivity|split; reflexivity].
  - exact He.
Defined.
