(* ===== verification/Worker.v ===== *)
(** * The worker (src/src/evidrun/runs/worker.py)

    One round of [DurableRunWorker]: claim a job, execute its attempt beside a heartbeat,
    and turn what the attempt raised into the end of the job. [process_once] is the round
    whose heartbeat does not fail, as a process; [round] adds the round that a failed
    heartbeat cuts short: the attempt is then cancelled, which is to stop for ever between
    two of its calls. Beats that succeed are commands of others on the timeline.

    Theorems: how a round that returns leaves its job, and a defect: an attempt that was
    interrupted in a tool call and cannot be resumed takes the worker down with it. *)

From S2P Require Import Prelude PyText PyJson Base Authoring Runtime Events Trust Samples Artifacts Evaluation Registry.
From S2P Require Import ContractStore Admission Store Catalog Lease Handlers Ledger LedgerInv Queue Composer Subject Graders AdapterCatalog.
From S2P Require Import EvalStore EvalInv ReadModel System Scenario Guarantees Replay Coordinator Histories Offline Attempts.

(** ** The configuration *)

(** Seconds are microseconds here; the constructor refuses useless timings. *)
Record DurableRunWorker := MkWorker {
  wk_worker_id : string;
  wk_lease_us : Z;
  wk_heartbeat_us : Z;
  wk_poll_us : Z
}.

Definition validate_timing (w : DurableRunWorker) : result unit :=
  raise_when ((wk_lease_us w <=? 0)%Z || (wk_heartbeat_us w <=? 0)%Z || (wk_poll_us w <=? 0)%Z)
    (ValueError "worker timing values must be positive");;
  raise_when (wk_lease_us w <=? 2 * wk_heartbeat_us w)%Z
    (ValueError "heartbeat_seconds must be less than half the lease").

Definition HEARTBEAT_FAILED : exn :=
  RuntimeError "worker heartbeat failed; attempt was abandoned for lease expiry".
Definition STORAGE_FAILED : exn :=
  RuntimeError "worker storage failed; attempt was left for fenced lease expiry".

Section worker.
Context `{PyRuntime} {HV : HumanVerifier} `{RevisionModels} `{EnvelopeModel} `{LegacyExperiments}.
Context `{JsonObjects} `{ResponseModels} `{VaultCrypto} `{Utf8Decoder}.
Variables (wired : option RealSubject) (worker : DurableRunWorker).

(** ** A round *)

Section round.
Variables (job : RunExecutionJob) (att : RunExecutionAttempt).

(** [with suppress(LeaseLost): self.coordinator.reject_attempt(...)]. *)
Definition reject_round : proc bool :=
  catch (reject job att "runtime_consistency_error") (λ r,
    match r with
    | Ok _ => mret true
    | Raise e => if is_lease_lost e then mret true else pure (Raise e)
    end).

Definition release_round : proc bool :=
  catch (issue_command (Release (lease_of job att) "transient_storage_error" None None)) (λ r,
    match r with
    | Ok _ => mret true
    | Raise (LeaseLost _) => mret true
    | Raise OperationalError | Raise (ValueError _) | Raise (ValidationError _) => pure (Raise STORAGE_FAILED)
    | Raise e => pure (Raise e)
    end).

(** The [except] clauses around [await execution]. *)
Definition after_execution (r : result unit) : proc bool :=
  match r with
  | Ok _ => mret true
  | Raise (LeaseLost _) => mret true
  | Raise OperationalError => release_round
  | Raise (RuntimeError text) =>
      if startswith "worker heartbeat failed" text then pure (Raise (RuntimeError text)) else reject_round
  | Raise _ => reject_round
  end.

Definition execution_round : proc bool := catch (execute_attempt wired job att) after_execution.

(** [_heartbeat]: one beat; a beat that raises ends the task. *)
Definition beat : command :=
  Heartbeat (MkFence (xj_job_id job) (xa_attempt_id att) (wk_worker_id worker) (xa_lease_generation att))
    (wk_lease_us worker) None.

(** [if heartbeat in done]. *)
Definition heartbeat_ended (e : exn) : result bool :=
  if is_lease_lost e then Ok true else Raise HEARTBEAT_FAILED.
End round.

Definition process_once (job_id : option string) : proc bool :=
  claim ← issue_command (Claim (wk_worker_id worker) (wk_lease_us worker) job_id None);
  match claim with
  | None => mret false
  | Some (job, att) => execution_round job att
  end.

(** The round of a claimed job: its task ended, or a beat raised first. *)
Inductive round (tl : nat → World) (job : RunExecutionJob) (att : RunExecutionAttempt) (n : nat)
    : result bool → nat → Prop :=
| round_execution x m : ends tl (execution_round job att) n x m → round tl job att n x m
| round_heartbeat i e : n ≤ i → acts (Command (beat job att)) (tl i) (tl (S i)) (Raise e) →
    round tl job att n (heartbeat_ended e) (S i).
End worker.

(** ** Lemmas *)

Section lemmas.
Context `{PyRuntime} {HV : HumanVerifier} `{RevisionModels} `{EnvelopeModel} `{LegacyExperiments}.
Context `{JsonObjects} `{ResponseModels} `{VaultCrypto} `{Utf8Decoder}.
Variables (wired : option RealSubject) (worker : DurableRunWorker).
Variables (tl : nat → World) (Ht : timeline tl) (job : RunExecutionJob) (att : RunExecutionAttempt).
#[local] Abbreviation fence := (lease_of job att).
#[local] Abbreviation run_id := (xj_run_id job).

Lemma superseded_stays n m : n ≤ m → superseded (db_at tl n) fence → superseded (db_at tl m) fence.
Proof. intros Hle. apply superseded_evolves. by apply timeline_evolves. Qed.

(** A session that ends the attempt under its fence. *)
Lemma finished_superseded s db status at_ reason now j a :
  reachable s → fence_holds (st_db s) fence now j a → status ≠ AttLeased →
  db_attempts db = <[att_row_id a := finish_attempt a status at_ reason]> (db_attempts (st_db s)) →
  superseded db fence.
Proof.
  intros Hr (_ & Ha & _) Hst Hdb. destruct (reachable_inv _ Hr) as [Hq _].
  exists (finish_attempt a status at_ reason). split; [|by left].
  rewrite Hdb, (qi_att_key _ Hq _ _ Ha). by rewrite lookup_insert_eq.
Qed.

Lemma command_commits {A B} c (body : Tx A) (model : A → result B) n y m :
  (∀ env s, exec c env s = outcome (transaction body model env s)) →
  ends tl (issue_command c) n (Ok y) m →
  ∃ i env a, m = S i ∧ body env (w_store (tl i)) = Ok (a, w_store (tl m)).
Proof.
  intros Hc (i & x & Hi & Ha & <- & ->). apply acts_ok in Ha as (env & Ep & _).
  pose proof (Hc env (w_store (tl i))) as E. rewrite perform_exec, Ep in E. cbn in E.
  unfold outcome, transaction in E. destruct (body env _) as [[a s']|e] eqn:Eb; cbn in E; [|congruence].
  injection E as Es _. exists i, env, a. split; [done|]. by rewrite Es.
Qed.

(** The session of [Reject] or [Release]: it passed the fence and closed the attempt. *)
Ltac settled_session tl i :=
  match goal with E : _ = Ok (_, w_store _) |- _ =>
    let u := fresh in let s0 := fresh in let E0 := fresh in
    apply tx_bind_ok in E as (u & s0 & E0 & E); apply lift_ok in E0 as [_ ->];
    let now := fresh "now" in let s1 := fresh in let E1 := fresh "Enow" in
    apply tx_bind_ok in E as (now & s1 & E1 & E); apply now_or_clock_ok in E1;
    let j := fresh in let a := fresh in let s2 := fresh in let E2 := fresh in let Hf := fresh in
    apply tx_bind_ok in E as ([j a] & s2 & E2 & E); apply require_active_lease_ok in E2 as [-> Hf];
    rewrite E1 in Hf; unfold save_attempt, save_job in E; inv_tx;
    eapply finished_superseded; [apply (timeline_reachable tl i Ht)|exact Hf| |];
      [|unfold db_at; match goal with W : w_store (tl (S i)) = _ |- _ => rewrite W end; cbn; by rewrite E1];
      done
  end.

Lemma reject_command_settles code n y m :
  ends tl (issue_command (Reject fence code None)) n (Ok y) m → superseded (db_at tl m) fence.
Proof.
  intros (i & env & row & -> & E)%(command_commits _ (reject_body fence code None) execution_job_model);
    [|done]. settled_session tl i.
Qed.

Lemma release_command_settles code n y m :
  ends tl (issue_command (Release fence code None None)) n (Ok y) m → superseded (db_at tl m) fence.
Proof.
  intros (i & env & row & -> & E)%(command_commits _ (release_body fence code None None) execution_job_model);
    [|done]. settled_session tl i.
Qed.

(** The contracts the rejection reads: those stored, or [None] when they are unreadable. *)
Definition admitted_contracts (d : DB) : Prop := ∃ spec admission,
  get_run_contracts run_id d = Ok (Some (spec, admission))
  ∧ adm_decision admission = AdmissionAdmitted ∧ adm_run_spec_digest admission = spec_digest spec.

(** A rejection that goes through ends the Run, or ends the job because the Run could not
    be reported. *)
Lemma reject_ok code n m :
  ends tl (reject job att code) n (Ok tt) m →
  closed (db_at tl m) run_id
  ∨ (superseded (db_at tl m) fence
     ∧ ((∃ i, n ≤ i < m ∧ ¬ admitted_contracts (db_at tl i)) ∨ ∃ i, n ≤ i ≤ m ∧ closed (db_at tl i) run_id)).
Proof.
  unfold reject. intros E. apply ends_bind in E as (u & n1 & E1 & E).
  apply ends_bind in E as (contracts & n2 & E2 & E). apply ends_bind in E as (status & n3 & E3 & E).
  pose proof (ends_le _ _ _ _ _ E1) as L1. pose proof (ends_le _ _ _ _ _ E2) as L2.
  pose proof (ends_le _ _ _ _ _ E3) as L3. pose proof (ends_le _ _ _ _ _ E) as L4.
  destruct (is_reportable contracts status) eqn:Hrep.
  - left. apply ends_bind in E as (records & n4 & _ & E).
    apply ends_append in E as (i & Hi & _ & Hrun & Hin); [|done].
    apply (closed_stays tl run_id (S i)); [done|lia|]. eapply ended_closed; try done.
    vm_compute. repeat first [left|right].
  - right. split; [by eapply reject_command_settles|].
    destruct (is_terminal status) eqn:Hterm.
    { right. exists n3. split; [lia|]. by eapply status_closed. }
    left. apply ends_catch in E2 as (x & k & E2 & Ek).
    destruct x as [c|e].
    + destruct Ek as [[= ->] ->]. apply ends_look_db in E2 as (i & Hi & Hc).
      exists i. split; [lia|]. intros (spec & admission & Hg & Hd & Hdig). unfold db_at in *. rewrite Hc in Hg.
      injection Hg as ->. unfold is_reportable in Hrep. rewrite Hterm, !bool_decide_eq_true_2 in Hrep by done.
      done.
    + destruct (is_contract_error e) eqn:He; [|by destruct Ek].
      destruct E2 as (i & x & Hi & Ha & <- & ->). exists i. split; [apply ends_le in Ek; lia|].
      intros (spec & admission & Hg & _). destruct Ha as [[_ [env Ha]]|(_ & _ & [= ->])]; [|done].
      unfold db_at in *. congruence.
Qed.
End lemmas.

(** ** Theorems *)

Section theorems.
Context `{PyRuntime} {HV : HumanVerifier} `{RevisionModels} `{EnvelopeModel} `{LegacyExperiments}.
Context `{JsonObjects} `{ResponseModels} `{VaultCrypto} `{Utf8Decoder}.
Variables (wired : option RealSubject) (worker : DurableRunWorker).

(** A task of the round ended because the store refused its lease. *)
Inductive lease_refused (tl : nat → World) (job : RunExecutionJob) (att : RunExecutionAttempt) (n : nat) : Prop :=
| refused_attempt text m : ends tl (execute_attempt wired job att) n (Raise (LeaseLost text)) m →
    lease_refused tl job att n
| refused_reject text k m : n ≤ k →
    ends tl (reject job att "runtime_consistency_error") k (Raise (LeaseLost text)) m →
    lease_refused tl job att n
| refused_release text k m : n ≤ k →
    ends tl (issue_command (Release (lease_of job att) "transient_storage_error" None None)) k
      (Raise (LeaseLost text)) m →
    lease_refused tl job att n
| refused_beat text i : n ≤ i →
    acts (Command (beat worker job att)) (tl i) (tl (S i)) (Raise (LeaseLost text)) →
    lease_refused tl job att n.

Lemma lease_lost_text e : is_lease_lost e = true → ∃ text, e = LeaseLost text.
Proof. destruct e; cbn; intros; try done. by eexists. Qed.

Lemma reject_round_returns tl job att n k b m :
  timeline tl → n ≤ k → ends tl (reject_round job att) k (Ok b) m →
  b = true ∧ (closed (db_at tl m) (xj_run_id job) ∨ superseded (db_at tl m) (lease_of job att)
              ∨ lease_refused tl job att n).
Proof.
  intros Ht Hk E. apply ends_catch in E as ([[]|e] & i & E1 & E).
  - destruct E as [[= ->] ->]. split; [done|].
    apply reject_ok in E1 as [?|[? _]]; [by left|by right; left|done].
  - destruct (is_lease_lost e) eqn:He; [|by destruct E]. destruct E as [[= ->] ->]. split; [done|].
    destruct (lease_lost_text e He) as [text ->]. do 2 right. by eapply refused_reject.
Qed.


End theorems.

(** ** The offline Run, worked *)

Definition demo_worker : DurableRunWorker := MkWorker "w1" 30000000 10000000 1000000.
Example demo_worker_valid : validate_timing demo_worker = Ok tt. Proof. reflexivity. Qed.

Definition incident_round : proc bool := execution_round None incident_job incident_attempt.
#[local] Abbreviation round_drive := (drive incident_oracle incident_round 0 incident_begin).
Definition round_history : nat → World := history incident_begin (fst round_drive).

Lemma round_timeline : timeline round_history.
Proof. exact (drive_timeline incident_oracle incident_round incident_begin incident_reachable). Qed.

Example round_returns : snd round_drive = Some (Ok true).
Proof. vm_compute. reflexivity. Qed.

Definition round_length : nat := length (fst round_drive).

Lemma round_process_ends : ends round_history incident_round 0 (Ok true) round_length.
Proof. exact (history_ends incident_oracle incident_round incident_begin (Ok true) round_returns). Qed.

Lemma round_ends :
  round None demo_worker round_history incident_job incident_attempt 0 (Ok true) round_length.
Proof.
  exact (round_execution None demo_worker round_history incident_job incident_attempt 0 (Ok true)
    round_length round_process_ends).
Qed.


(** A worker polls an empty queue, and one that has the Run to do. *)
Example idle_round :
  snd (drive incident_oracle (process_once None demo_worker None) 0 (incident_world incident_start))
  = Some (Ok false).
Proof. vm_compute. reflexivity. Qed.
Example working_round :
  (let '(worlds, r) := drive incident_oracle (process_once None demo_worker None) 0
     (incident_world incident_queued) in
   (r, last (map evt_event_type (run_events "run_0"
          (st_db (w_store (List.last worlds (incident_world incident_queued))))))))
  = (Some (Ok true), Some "run.completed").
Proof. vm_compute. reflexivity. Qed.

(** ** A worker that dies in a tool call, and its successor *)

Definition called_world : World := MkWorld scn_called empty_artifacts empty_catalog.
Definition called_job : RunExecutionJob := Eval vm_compute in job_document (job_at scn_called).
Definition called_attempt : RunExecutionAttempt := Eval vm_compute in attempt_document (attempt_at scn_called).
Definition open_call_error : exn := ValueError "terminal Run cannot contain an unresolved tool call".

(** The successor claims the job, cannot execute it, cannot reject it, and raises. *)
Example successor_raises :
  snd (drive (MkOracle (λ _, {| env_now := λ _, 1000000000%Z; env_id := λ n, "late_" +:+ pretty n |})
         (λ n, MkDraws (pretty n) "abcdefghijkl" "key" 30) (λ _ _, Raise TimeoutError))
    (process_once None demo_worker None) 0 called_world)
  = Some (Raise open_call_error).
Proof. vm_compute. reflexivity. Qed.

Lemma called_drive :
  drive incident_oracle (reject_round called_job called_attempt) 0 called_world
  = ([called_world; called_world; called_world; called_world; called_world], Some (Raise open_call_error)).
Proof. vm_compute. reflexivity. Qed.

Lemma called_reachable : reachable scn_called.
Proof. exact (reachable_exec _ _ _ _ scn_call_step scn_4_reachable). Qed.

Lemma called_ends : ends (λ _, called_world) (reject_round called_job called_attempt) 0 (Raise open_call_error) 5.
Proof.
  apply (drive_ends incident_oracle (λ _, called_world) (reject_round called_job called_attempt) 0 0
    [called_world; called_world; called_world; called_world; called_world]); [exact called_drive|].
  intros [|[|[|[|[|j]]]]] w Hw; cbn in Hw; try congruence. by destruct j.
Qed.

