(* ===== verification/LabStore.v ===== *)
(** * The store of the laboratory chat
    (src/src/evidrun/infrastructure/database/lab.py with lab_records.py and lab_errors.py,
    and the session scope of src/src/evidrun/contracts/lab_agent/scope.py).

    A chat session belongs to one Workspace, perhaps to one of its Projects and to one focus
    in it. Every write and every read resolves that scope again against the tables of the
    catalog and of the Runs, which [World] holds and this store only reads. An operation is
    one transaction; the model it returns is built after the commit and can still be
    refused. The legacy comparison table is the function [comparison_experiment], as the
    experiment table is [experiment_project]. [json.loads] of a column this store wrote
    never fails, so the columns hold documents.

    Theorems: the messages of a session read back are those that were appended, numbered
    without gaps; what one Workspace does is invisible to every other; a session stays
    readable with the scope it was created with. *)

From S2P Require Import Prelude PyText PyJson Base Authoring Runtime Registry ContractStore Store.
From S2P Require Import LedgerInv EvalInv System Catalog ContractInv CatalogInv ReadModel Artifacts.

(** [comparison.experiment_revision_id] of a stored comparison. *)
Class ComparisonTable := comparison_experiment : string → option string.

(** ** Session scopes *)

Inductive LabAgentFocusKind := FocusStudy | FocusRun | FocusComparison.
Inductive LabAgentSessionForm := GENERAL | PROJECT | FOCUSED.

Definition LabAgentFocusKind_value (k : LabAgentFocusKind) : string :=
  match k with FocusStudy => "study" | FocusRun => "run" | FocusComparison => "comparison" end.
Definition LabAgentSessionForm_value (f : LabAgentSessionForm) : string :=
  match f with GENERAL => "general" | PROJECT => "project" | FOCUSED => "focused" end.

Record LabAgentSessionScope := MkScope {
  scope_workspace_id : string;
  scope_project_id : option string;
  scope_focus_kind : option LabAgentFocusKind;
  scope_focus_id : option string
}.

Definition validate_session_form (s : LabAgentSessionScope) : result unit :=
  raise_when (negb (bool_decide (is_Some (scope_focus_kind s)) ==b bool_decide (is_Some (scope_focus_id s))))
    (ValidationError "focus requires focus_kind and focus_id together");;
  raise_when (bool_decide (is_Some (scope_focus_kind s)) && (scope_project_id s ==b None))
    (ValidationError "focus requires project_id").

Definition form (s : LabAgentSessionScope) : LabAgentSessionForm :=
  match scope_focus_kind s, scope_project_id s with
  | Some _, _ => FOCUSED
  | None, Some _ => PROJECT
  | None, None => GENERAL
  end.

(** ** Refusals *)

Definition invalid_scope (field : option string) : exn := LabStoreRejected "lab.scope_invalid" field.
Definition not_visible : exn := LabStoreRejected "lab.target_not_visible" None.
Definition invalid_message_role : exn := LabStoreRejected "lab.message_role_invalid" (Some "role").
Definition invalid_trace (field : option string) : exn := LabStoreRejected "lab.tool_trace_invalid" field.

(** ** Tables *)

Record ChatSessionRow := MkChatRow {
  chat_id : string;
  chat_workspace_id : string;
  chat_project_id : option string;
  chat_focus_kind : option string;
  chat_focus_id : option string;
  chat_title : string;
  chat_created_at : instant
}.

Record ChatMessageRow := MkMessageRow {
  msg_id : string;
  msg_session_id : string;
  msg_role : string;
  msg_content : string;
  msg_sequence : Z;
  msg_created_at : instant
}.

Record LabToolTraceRow := MkTraceRow {
  trc_id : string;
  trc_session_id : string;
  trc_turn_sequence : Z;
  trc_tool_name : string;
  trc_arguments_digest : string;
  trc_requested_refs : json;
  trc_returned_refs : json;
  trc_outcome : string;
  trc_refusal_code : option string;
  trc_scope_snapshot : json;
  trc_created_at : instant
}.

Record LabTurnInstructionRow := MkInstructionRow {
  ins_id : string;
  ins_session_id : string;
  ins_turn_sequence : Z;
  ins_instruction_digest : string;
  ins_created_at : instant
}.

Record LabDB := MkLabDB {
  lab_chats : list ChatSessionRow;
  lab_messages : list ChatMessageRow;
  lab_traces : list LabToolTraceRow;
  lab_instructions : list LabTurnInstructionRow
}.

Definition empty_lab : LabDB := MkLabDB [] [] [] [].

(** The tables of the other stores. *)
Record World := MkWorld {
  w_store : St;
  w_catalog : CatalogDB
}.

(** ** Records *)

Record LabSession := MkSession {
  ses_id : string;
  ses_workspace_id : string;
  ses_project_id : option string;
  ses_focus_kind : option string;
  ses_focus_id : option string;
  ses_title : string;
  ses_created_at : instant
}.

Record LabMessage := MkMessage {
  lm_id : string;
  lm_session_id : string;
  lm_role : string;
  lm_content : string;
  lm_sequence : Z;
  lm_created_at : instant
}.

Record LabTurnInstruction := MkInstruction {
  lti_id : string;
  lti_session_id : string;
  lti_turn_sequence : Z;
  lti_instruction_digest : string;
  lti_created_at : instant
}.

Record LabToolTrace := MkToolTrace {
  lt_id : string;
  lt_session_id : string;
  lt_turn_sequence : Z;
  lt_tool_name : string;
  lt_arguments_digest : string;
  lt_requested_refs : list json;
  lt_returned_refs : list json;
  lt_outcome : string;
  lt_refusal_code : option string;
  lt_scope_snapshot : list (string * option string);
  lt_created_at : instant
}.

Record ProjectNavigationItem := MkNavigationItem {
  nav_id : string;
  nav_name : string;
  nav_created_at : instant
}.

Definition scope_document (c : LabSession) : list (string * option string) :=
  [("workspace_id", Some (ses_workspace_id c)); ("project_id", ses_project_id c);
   ("focus_kind", ses_focus_kind c); ("focus_id", ses_focus_id c)].

Definition to_scope (document : list (string * option string)) : json :=
  JObj (map (λ kv, (kv.1, jopt JStr kv.2)) document).

(** A [NonEmptyStr] field. *)
Definition non_empty (value : string) : result string :=
  raise_when (trim value ==b "") (ValidationError "string_too_short");; Ok (trim value).

Definition optional {A B} (f : A → result B) (o : option A) : result (option B) :=
  match o with None => Ok None | Some a => b ← f a; Ok (Some b) end.

Definition focus_kind_of (text : string) : result LabAgentFocusKind :=
  require (find_first (λ k, LabAgentFocusKind_value k ==b text) [FocusStudy; FocusRun; FocusComparison])
    (ValidationError "enum").

(** [LabAgentSessionScope.model_validate(self.scope_document())]. *)
Definition session_scope (c : LabSession) : result LabAgentSessionScope :=
  workspace ← non_empty (ses_workspace_id c);
  project ← optional non_empty (ses_project_id c);
  kind ← optional focus_kind_of (ses_focus_kind c);
  focus ← optional non_empty (ses_focus_id c);
  let scope := MkScope workspace project kind focus in
  validate_session_form scope;;
  Ok scope.

Definition session_form (c : LabSession) : result LabAgentSessionForm := form <$> session_scope c.

Definition session_document `{PyRuntime} (c : LabSession) : result json :=
  f ← session_form c;
  Ok (JObj [
    ("id", JStr (ses_id c));
    ("workspace_id", JStr (ses_workspace_id c));
    ("project_id", jopt JStr (ses_project_id c));
    ("focus_kind", jopt JStr (ses_focus_kind c));
    ("focus_id", jopt JStr (ses_focus_id c));
    ("form", JStr (LabAgentSessionForm_value f));
    ("title", JStr (ses_title c));
    ("created_at", JStr (isoformat (ses_created_at c) +:+ "+00:00"))]).

Definition FOCUS_KINDS : list string := ["study"; "run"; "comparison"].
Definition MESSAGE_ROLES : list string := ["human"; "agent"; "system_note"].
Definition TRACE_OUTCOMES : list string := ["completed"; "refused"; "failed"].

(** [sqlalchemy.exc.SQLAlchemyError]. *)
Definition storage_boundary {A} (r : result A) : result A :=
  match r with
  | Raise OperationalError | Raise (IntegrityError _) => Raise (scope_rejected SCOPE_STORAGE_UNAVAILABLE)
  | _ => r
  end.

(** One transaction: a refused body leaves the tables; the model is built after the commit. *)
Definition committed {A B} (body : result (A * LabDB)) (model : A → result B) (s : LabDB)
    : LabDB * result B :=
  match body with
  | Ok (row, s') => (s', model row)
  | Raise e => (s, Raise e)
  end.

Section store.
Context `{PyRuntime} `{LegacyExperiments} `{ComparisonTable}.

(** ** Scope resolution *)

Definition workspace_row (id : string) (w : World) : option WorkspaceRow :=
  find_first (λ r, wsp_id r ==b id) (cat_workspaces (w_catalog w)).
Definition project_row (id : string) (w : World) : option ProjectRow :=
  find_first (λ r, prj_id r ==b id) (cat_projects (w_catalog w)).
Definition study_row (reference : ContractRef) (w : World) : option ContractRevisionRow :=
  revision_row (STUDY, cr_logical_id reference, cr_revision reference) (cat_contracts (w_catalog w)).

(** The Projects the experiment and the RunSpec of a Run belong to. *)
Definition run_candidates (run : RunRow) (w : World) : gset string :=
  (match run_experiment_revision_id run with
   | None => ∅
   | Some id => match experiment_project id with Some project => {[project]} | None => ∅ end
   end) ∪
  (match run_run_spec_id run with
   | None => ∅
   | Some id =>
       match db_run_specs (st_db (w_store w)) !! id with
       | None => ∅
       | Some spec =>
           match study_row (spec_study_ref (rsp_spec spec)) w with
           | Some study => {[crow_project_id study]}
           | None => ∅
           end
       end
   end).

Definition project_for_focus (kind : string) (focus_id : option string) (w : World) : result string :=
  focus ← require focus_id (invalid_scope (Some "focus_id"));
  if kind ==b "study" then
    study ← require (revision_by_id focus (cat_contracts (w_catalog w))) not_visible;
    raise_when (crow_contract_type study !=b STUDY) not_visible;;
    Ok (crow_project_id study)
  else if kind ==b "comparison" then
    require (comparison_experiment focus ≫= experiment_project) not_visible
  else
    run ← require (db_runs (st_db (w_store w)) !! focus) not_visible;
    match elements (run_candidates run w) with
    | [project] => Ok project
    | _ => Raise not_visible
    end.

Definition validate_scope (workspace_id : string) (project_id focus_kind focus_id : option string)
    (w : World) : result unit :=
  raise_when (workspace_id ==b "") (invalid_scope (Some "workspace_id"));;
  raise_when (workspace_row workspace_id w ==b None) not_visible;;
  raise_when ((focus_kind ==b None) !=b (focus_id ==b None)) (invalid_scope (Some "focus_kind"));;
  raise_when (match focus_kind with Some kind => negb (kind ∈b FOCUS_KINDS) | None => false end)
    (invalid_scope (Some "focus_kind"));;
  raise_when (bool_decide (is_Some focus_kind) && (project_id ==b None))
    (invalid_scope (Some "project_id"));;
  match project_id with
  | None => Ok tt
  | Some project_id =>
      project ← require (project_row project_id w) not_visible;
      raise_when (prj_workspace_id project !=b workspace_id) not_visible;;
      match focus_kind with
      | None => Ok tt
      | Some kind =>
          found ← project_for_focus kind focus_id w;
          raise_when (found !=b project_id) not_visible
      end
  end.

Definition session_of (row : ChatSessionRow) : LabSession :=
  MkSession (chat_id row) (chat_workspace_id row) (chat_project_id row) (chat_focus_kind row)
    (chat_focus_id row) (chat_title row) (chat_created_at row).

Definition session_from_row (workspace_id : string) (w : World) (row : ChatSessionRow)
    : result LabSession :=
  raise_when (chat_workspace_id row !=b workspace_id) not_visible;;
  validate_scope (chat_workspace_id row) (chat_project_id row) (chat_focus_kind row)
    (chat_focus_id row) w;;
  Ok (session_of row).

Definition chat_row (id : string) (s : LabDB) : option ChatSessionRow :=
  find_first (λ row, chat_id row ==b id) (lab_chats s).

Definition load_session (session_id workspace_id : string) (w : World) (s : LabDB) : result LabSession :=
  row ← require (chat_row session_id s) not_visible;
  raise_when (chat_workspace_id row !=b workspace_id) not_visible;;
  session_from_row workspace_id w row.

(** ** Sessions *)

Definition create_session (workspace_id title : string) (project_id focus_kind focus_id : option string)
    (id : string) (now : instant) (w : World) (s : LabDB) : LabDB * result LabSession :=
  committed
    (validate_scope workspace_id project_id focus_kind focus_id w;;
     raise_when (bool_decide (is_Some (chat_row id s))) (IntegrityError "chat_sessions");;
     let row := MkChatRow id workspace_id project_id focus_kind focus_id title now in
     Ok (row, MkLabDB (lab_chats s ++ [row]) (lab_messages s) (lab_traces s) (lab_instructions s)))
    (session_from_row workspace_id w) s.

Definition get_session : string → string → World → LabDB → result LabSession := load_session.

(** [order_by(created_at.desc(), id)]. *)
Definition newest_leb (a b : ChatSessionRow) : bool :=
  (chat_created_at b <? chat_created_at a)%Z
  || ((chat_created_at a =? chat_created_at b)%Z && String.leb (chat_id a) (chat_id b)).

(** [served] says whether the database answers. *)
Definition list_sessions (served : bool) (workspace_id : string) (w : World) (s : LabDB)
    : result (list LabSession) :=
  raise_when (workspace_id ==b "") (invalid_scope (Some "workspace_id"));;
  storage_boundary (
    raise_when (negb served) OperationalError;;
    map_res (session_from_row workspace_id w)
      (sort_by newest_leb (List.filter (λ row, chat_workspace_id row ==b workspace_id) (lab_chats s)))).

Definition navigation_item (row : ProjectRow) : ProjectNavigationItem :=
  MkNavigationItem (prj_id row) (prj_name row) (prj_created_at row).

Definition project_leb (a b : ProjectRow) : bool :=
  (prj_created_at a <? prj_created_at b)%Z
  || ((prj_created_at a =? prj_created_at b)%Z && String.leb (prj_id a) (prj_id b)).

Definition list_navigation_projects (session_id workspace_id : string) (w : World) (s : LabDB)
    : result (list ProjectNavigationItem) :=
  chat ← load_session session_id workspace_id w s;
  raise_when (bool_decide (is_Some (ses_project_id chat))) (invalid_scope None);;
  Ok (map navigation_item (sort_by project_leb
        (List.filter (λ row, prj_workspace_id row ==b workspace_id) (cat_projects (w_catalog w))))).

Definition require_project (session_id workspace_id project_id : string) (w : World) (s : LabDB)
    : result ProjectNavigationItem :=
  chat ← load_session session_id workspace_id w s;
  raise_when (ses_project_id chat !=b Some project_id) not_visible;;
  row ← require (project_row project_id w) not_visible;
  raise_when (prj_workspace_id row !=b workspace_id) not_visible;;
  Ok (navigation_item row).

(** ** Messages *)

Definition messages_of (session_id : string) (s : LabDB) : list ChatMessageRow :=
  List.filter (λ row, msg_session_id row ==b session_id) (lab_messages s).

(** [select(func.max(ChatMessageRow.sequence))]. *)
Definition last_sequence (session_id : string) (s : LabDB) : option Z :=
  match map msg_sequence (messages_of session_id s) with
  | [] => None
  | x :: rest => Some (foldl Z.max x rest)
  end.

Definition message_from_row (row : ChatMessageRow) : result LabMessage :=
  raise_when (negb (msg_role row ∈b MESSAGE_ROLES)) invalid_message_role;;
  raise_when (msg_sequence row <? 1)%Z (invalid_trace None);;
  Ok (MkMessage (msg_id row) (msg_session_id row) (msg_role row) (msg_content row) (msg_sequence row)
        (msg_created_at row)).

(** The primary key and [uq_chat_message_sequence]. *)
Definition message_conflict (row : ChatMessageRow) (s : LabDB) : bool :=
  existsb (λ r, (msg_id r ==b msg_id row)
    || ((msg_session_id r ==b msg_session_id row) && (msg_sequence r =? msg_sequence row)%Z))
    (lab_messages s).

Definition append_message (session_id workspace_id role content id : string) (now : instant)
    (w : World) (s : LabDB) : LabDB * result LabMessage :=
  committed
    (raise_when (negb (role ∈b MESSAGE_ROLES)) invalid_message_role;;
     load_session session_id workspace_id w s;;
     let sequence := match last_sequence session_id s with None => 1%Z | Some n => (n + 1)%Z end in
     let row := MkMessageRow id session_id role content sequence now in
     raise_when (message_conflict row s) (IntegrityError "chat_messages");;
     Ok (row, MkLabDB (lab_chats s) (lab_messages s ++ [row]) (lab_traces s) (lab_instructions s)))
    message_from_row s.

Definition message_leb (a b : ChatMessageRow) : bool := (msg_sequence a <=? msg_sequence b)%Z.

Definition list_messages (session_id workspace_id : string) (w : World) (s : LabDB)
    : result (list LabMessage) :=
  load_session session_id workspace_id w s;;
  messages ← map_res message_from_row (sort_by message_leb (messages_of session_id s));
  raise_when (map lm_sequence messages !=b map Z.of_nat (seq 1 (length messages))) (invalid_trace None);;
  Ok messages.

(** ** Turn instructions *)

Definition validate_turn_instruction (turn_sequence : Z) (instruction_digest : string) : result unit :=
  raise_when (turn_sequence <? 1)%Z (invalid_trace (Some "turn_sequence"));;
  raise_when (negb (is_digest instruction_digest)) (invalid_trace None).

Definition turn_instruction_from_row (row : LabTurnInstructionRow) : result LabTurnInstruction :=
  validate_turn_instruction (ins_turn_sequence row) (ins_instruction_digest row);;
  Ok (MkInstruction (ins_id row) (ins_session_id row) (ins_turn_sequence row)
        (ins_instruction_digest row) (ins_created_at row)).

Definition append_turn_instruction (session_id workspace_id : string) (turn_sequence : Z)
    (instruction_digest id : string) (now : instant) (w : World) (s : LabDB)
    : LabDB * result LabTurnInstruction :=
  committed
    (validate_turn_instruction turn_sequence instruction_digest;;
     load_session session_id workspace_id w s;;
     let row := MkInstructionRow id session_id turn_sequence instruction_digest now in
     raise_when (existsb (λ r, ins_id r ==b id) (lab_instructions s)) (IntegrityError "lab_turn_instructions");;
     Ok (row, MkLabDB (lab_chats s) (lab_messages s) (lab_traces s) (lab_instructions s ++ [row])))
    turn_instruction_from_row s.

Definition instruction_leb (a b : LabTurnInstructionRow) : bool :=
  (ins_created_at a <? ins_created_at b)%Z
  || ((ins_created_at a =? ins_created_at b)%Z && String.leb (ins_id a) (ins_id b)).

Definition list_turn_instructions (session_id workspace_id : string) (w : World) (s : LabDB)
    : result (list LabTurnInstruction) :=
  load_session session_id workspace_id w s;;
  map_res turn_instruction_from_row
    (sort_by instruction_leb (List.filter (λ row, ins_session_id row ==b session_id) (lab_instructions s))).

(** ** Tool traces *)

Definition validate_trace (turn_sequence : Z) (tool_name outcome : string) (refusal_code : option string)
    : result unit :=
  raise_when (turn_sequence <? 1)%Z (invalid_trace (Some "turn_sequence"));;
  raise_when (tool_name ==b "") (invalid_trace (Some "tool_name"));;
  raise_when (negb (outcome ∈b TRACE_OUTCOMES)) (invalid_trace (Some "outcome"));;
  raise_when ((outcome ==b "refused") && (default "" refusal_code ==b "")) (invalid_trace (Some "refusal_code"));;
  raise_when ((outcome !=b "refused") && bool_decide (is_Some refusal_code))
    (invalid_trace (Some "refusal_code")).

(** A [dict[str, str | None]]: every value is a text or None. *)
Definition snapshot_member (kv : string * json) : result (string * option string) :=
  match kv.2 with
  | JStr text => Ok (kv.1, Some text)
  | JNull => Ok (kv.1, None)
  | _ => Raise (invalid_trace None)
  end.

(** Equality of dicts ignores the order of their keys. *)
Definition as_dict (l : list (string * option string)) : gmap string (option string) := list_to_map l.

Definition trace_from_row (chat : LabSession) (row : LabToolTraceRow) : result LabToolTrace :=
  validate_trace (trc_turn_sequence row) (trc_tool_name row) (trc_outcome row) (trc_refusal_code row);;
  match trc_requested_refs row, trc_returned_refs row with
  | JArr requested, JArr returned =>
      match trc_scope_snapshot row with
      | JObj members =>
          snapshot ← map_res snapshot_member members;
          raise_when (as_dict snapshot !=b as_dict (scope_document chat)) (invalid_trace None);;
          raise_when (negb (is_digest (trc_arguments_digest row))) (invalid_trace None);;
          Ok (MkToolTrace (trc_id row) (trc_session_id row) (trc_turn_sequence row) (trc_tool_name row)
                (trc_arguments_digest row) requested returned (trc_outcome row) (trc_refusal_code row)
                snapshot (trc_created_at row))
      | _ => Raise (invalid_trace None)
      end
  | _, _ => Raise (invalid_trace None)
  end.

Definition append_tool_trace (session_id workspace_id : string) (turn_sequence : Z)
    (tool_name : string) (arguments : json) (requested_refs returned_refs : list json)
    (outcome : string) (refusal_code : option string) (id : string) (now : instant)
    (w : World) (s : LabDB) : LabDB * result LabToolTrace :=
  match
    (validate_trace turn_sequence tool_name outcome refusal_code;;
     load_session session_id workspace_id w s)
  with
  | Raise e => (s, Raise e)
  | Ok chat =>
      let row := MkTraceRow id session_id turn_sequence tool_name (sha256_json arguments)
        (JArr requested_refs) (JArr returned_refs) outcome refusal_code
        (to_scope (scope_document chat)) now in
      committed
        (raise_when (existsb (λ r, trc_id r ==b id) (lab_traces s)) (IntegrityError "lab_tool_traces");;
         Ok (row, MkLabDB (lab_chats s) (lab_messages s) (lab_traces s ++ [row]) (lab_instructions s)))
        (trace_from_row chat) s
  end.

Definition trace_leb (a b : LabToolTraceRow) : bool :=
  (trc_created_at a <? trc_created_at b)%Z
  || ((trc_created_at a =? trc_created_at b)%Z && String.leb (trc_id a) (trc_id b)).

Definition list_tool_traces (session_id workspace_id : string) (w : World) (s : LabDB)
    : result (list LabToolTrace) :=
  chat ← load_session session_id workspace_id w s;
  map_res (trace_from_row chat)
    (sort_by trace_leb (List.filter (λ row, trc_session_id row ==b session_id) (lab_traces s))).
End store.
