(* ===== verification/LabChat.v ===== *)
(** * The laboratory chat: what its store promises

    [lab_history] is every way the store can be used: commands of any Workspace, in any
    order, while the catalog and the Runs evolve by their own steps. Its index is the list of
    the commands and of how each ended, from which [spoken] and [recorded] say what a
    session must hold.

    Theorems: a session reads back exactly the messages that were appended, numbered from 1
    without gaps, and exactly the traces and instructions that were recorded; a Workspace
    neither sees nor changes what another one stores; a session stays readable under its
    Workspace as long as its focus does not resolve to a second Project. *)

From S2P Require Import Prelude PyText PyJson Base Authoring Runtime Registry ContractStore Store.
From S2P Require Import LedgerInv EvalStore EvalInv System Catalog ContractInv CatalogInv ReadModel.
From S2P Require Import Samples Artifacts Provenance Scenario Offline LabStore.

(** ** Commands, queries and histories *)

Inductive lab_command :=
  | CreateSession (title : string) (project_id focus_kind focus_id : option string)
      (id : string) (now : instant)
  | AppendMessage (session_id role content id : string) (now : instant)
  | AppendInstruction (session_id : string) (turn : Z) (digest id : string) (now : instant)
  | AppendTrace (session_id : string) (turn : Z) (tool_name : string) (arguments : json)
      (requested returned : list json) (outcome : string) (refusal : option string)
      (id : string) (now : instant).

Inductive lab_query :=
  | GetSession (session_id : string)
  | ListSessions (served : bool)
  | ListProjects (session_id : string)
  | RequireProject (session_id project_id : string)
  | ListMessages (session_id : string)
  | ListInstructions (session_id : string)
  | ListTraces (session_id : string).

Inductive lab_reply :=
  | RSessions (l : list LabSession)
  | RProjects (l : list ProjectNavigationItem)
  | RMessages (l : list LabMessage)
  | RInstructions (l : list LabTurnInstruction)
  | RTraces (l : list LabToolTrace).

Definition replied {A} (f : A → lab_reply) (x : LabDB * result A) : LabDB * result lab_reply :=
  (x.1, f <$> x.2).

Section chat.
Context `{PyRuntime} `{HumanVerifier} `{RevisionModels} `{UnicodeTables} `{LegacyExperiments}
  `{ComparisonTable}.
Variable verify : HumanAttestationRecord → string → result unit.

Definition lab_exec (ws : string) (c : lab_command) (w : World) (s : LabDB)
    : LabDB * result lab_reply :=
  match c with
  | CreateSession title p k f id now =>
      replied (λ x, RSessions [x]) (create_session ws title p k f id now w s)
  | AppendMessage sid role content id now =>
      replied (λ x, RMessages [x]) (append_message sid ws role content id now w s)
  | AppendInstruction sid turn digest id now =>
      replied (λ x, RInstructions [x]) (append_turn_instruction sid ws turn digest id now w s)
  | AppendTrace sid turn tool args rq rt outcome refusal id now =>
      replied (λ x, RTraces [x]) (append_tool_trace sid ws turn tool args rq rt outcome refusal id now w s)
  end.

Definition lab_ask (ws : string) (q : lab_query) (w : World) (s : LabDB) : result lab_reply :=
  match q with
  | GetSession sid => (λ x, RSessions [x]) <$> get_session sid ws w s
  | ListSessions served => RSessions <$> list_sessions served ws w s
  | ListProjects sid => RProjects <$> list_navigation_projects sid ws w s
  | RequireProject sid p => (λ x, RProjects [x]) <$> require_project sid ws p w s
  | ListMessages sid => RMessages <$> list_messages sid ws w s
  | ListInstructions sid => RInstructions <$> list_turn_instructions sid ws w s
  | ListTraces sid => RTraces <$> list_tool_traces sid ws w s
  end.

(** The other stores take a step. *)
Definition world_step (w w' : World) : Prop :=
  (catalog_step verify (w_catalog w) (w_catalog w') ∧ w_store w' = w_store w)
  ∨ (step (w_store w) (w_store w') ∧ w_catalog w' = w_catalog w).

Definition world_reachable (w : World) : Prop :=
  rtc (catalog_step verify) empty_catalog (w_catalog w) ∧ reachable (w_store w).

Record lab_entry := MkEntry {
  le_workspace : string;
  le_command : lab_command;
  le_reply : result lab_reply
}.

Inductive lab_history : World → LabDB → list lab_entry → Prop :=
  | history_start w : world_reachable w → lab_history w empty_lab []
  | history_world w w' s h : lab_history w s h → world_step w w' → lab_history w' s h
  | history_call w s h ws c :
      lab_history w s h →
      lab_history w (lab_exec ws c w s).1 (h ++ [MkEntry ws c (lab_exec ws c w s).2]).

(** What a session must hold: the role and content of every accepted message, the turn and
    digest of every accepted instruction, and every accepted trace. *)
Definition spoken (sid : string) (h : list lab_entry) : list (string * string) :=
  omap (λ e, match le_command e with
    | AppendMessage sid' role content _ _ =>
        if is_ok (le_reply e) && (sid' ==b sid) then Some (role, content) else None
    | _ => None
    end) h.

Definition instructed (sid : string) (h : list lab_entry) : list (Z * string) :=
  omap (λ e, match le_command e with
    | AppendInstruction sid' turn digest _ _ =>
        if is_ok (le_reply e) && (sid' ==b sid) then Some (turn, digest) else None
    | _ => None
    end) h.

Definition recorded (sid : string) (h : list lab_entry)
    : list (Z * string * string * list json * list json * string * option string) :=
  omap (λ e, match le_command e with
    | AppendTrace sid' turn tool args rq rt outcome refusal _ _ =>
        if is_ok (le_reply e) && (sid' ==b sid)
        then Some (turn, tool, sha256_json args, rq, rt, outcome, refusal) else None
    | _ => None
    end) h.

Definition message_said (m : LabMessage) : string * string := (lm_role m, lm_content m).
Definition instruction_said (i : LabTurnInstruction) : Z * string :=
  (lti_turn_sequence i, lti_instruction_digest i).
Definition trace_said (t : LabToolTrace) :=
  (lt_turn_sequence t, lt_tool_name t, lt_arguments_digest t, lt_requested_refs t,
   lt_returned_refs t, lt_outcome t, lt_refusal_code t).

(** ** The tables a scope is resolved against only grow *)

Record world_grows (w w' : World) : Prop := {
  wg_catalog : grows (w_catalog w) (w_catalog w');
  wg_ledger : ledger_evolves (st_db (w_store w)) (st_db (w_store w'));
  wg_records : EvalInv.keeps (st_db (w_store w)) (st_db (w_store w'))
}.

Lemma world_step_grows w w' : world_reachable w → world_step w w' → world_grows w w'.
Proof.
  intros [_ Hr] [[Hc E]|[Hs E]]; split; rewrite ?E; try done.
  - by apply (catalog_step_grows verify).
  - eapply reachable_evolves; [exact Hr|by apply rtc_once].
  - eapply reachable_evolves; [exact Hr|by apply rtc_once].
Qed.

Lemma world_step_reachable w w' : world_reachable w → world_step w w' → world_reachable w'.
Proof.
  intros [Hc Hr] [[Hs E]|[Hs E]]; split; rewrite ?E; try done.
  - by eapply rtc_r.
  - eapply reachable_steps; [exact Hr|by apply rtc_once].
Qed.

Section growth.
Context (w w' : World) (Hg : world_grows w w').

Lemma workspace_row_mono id row : workspace_row id w = Some row → workspace_row id w' = Some row.
Proof. apply find_first_prefix, gr_workspaces, wg_catalog, Hg. Qed.

Lemma project_row_mono id row : project_row id w = Some row → project_row id w' = Some row.
Proof. apply find_first_prefix, gr_projects, wg_catalog, Hg. Qed.

Lemma study_row_mono ref row : study_row ref w = Some row →
  ∃ row', study_row ref w' = Some row' ∧ crow_project_id row' = crow_project_id row.
Proof.
  intros Hr. destruct (rk_key _ _ (gr_revisions _ _ (wg_catalog _ _ Hg)) _ _ Hr)
    as (row' & ? & _ & _ & _ & ?). eauto.
Qed.

Lemma run_row_mono id run : db_runs (st_db (w_store w)) !! id = Some run →
  ∃ run', db_runs (st_db (w_store w')) !! id = Some run' ∧ run_candidates run w ⊆ run_candidates run' w'.
Proof.
  intros Hr. destruct (le_run _ _ (wg_ledger _ _ Hg) _ _ Hr) as (run' & Hr' & Hp & _).
  exists run'. split; [done|]. destruct Hp as (_ & _ & _ & Es & _ & _ & Ee & _).
  unfold run_candidates. rewrite Es, Ee, (kp_specs _ _ (wg_records _ _ Hg)).
  apply union_mono_l. destruct (run_run_spec_id run) as [id'|]; [|done].
  destruct (db_run_specs _ !! id') as [srow|]; [|done].
  destruct (study_row _ w) as [row|] eqn:E; [|set_solver].
  apply study_row_mono in E as (row' & -> & ->). done.
Qed.
End growth.

(** ** Scopes *)

(** What a valid scope is: the Workspace exists, the Project belongs to it, and the focus
    resolves to that Project. *)
Definition in_scope (ws : string) (p k f : option string) (w : World) : Prop :=
  ws ≠ "" ∧ is_Some (workspace_row ws w) ∧
  match p with
  | None => k = None ∧ f = None
  | Some project =>
      (∃ row, project_row project w = Some row ∧ prj_workspace_id row = ws) ∧
      match k with
      | None => f = None
      | Some kind => kind ∈ FOCUS_KINDS ∧ is_Some f ∧ project_for_focus kind f w = Ok project
      end
  end.

Lemma validate_scope_ok ws p k f w : validate_scope ws p k f w = Ok tt ↔ in_scope ws p k f w.
Proof.
  unfold validate_scope, in_scope. split.
  - intros Hv. inv_ok. bools.
    assert (Hw : is_Some (workspace_row ws w)) by by apply not_eq_None_Some.
    split_and!; [done..|]. destruct p as [p|].
    + inv_ok. bools. split; [eauto|]. destruct k as [k|], f as [f|]; inv_ok; bools; try done.
      all: cbn in *; try congruence. split_and!; [done|eauto|congruence].
    + destruct k, f; cbn in *; try done; bools; by destruct_and?.
  - intros (Hn & [wr Hw] & Hp). rewrite (bool_decide_false (ws = "")), Hw by done. cbn.
    destruct p as [p|]; [|destruct Hp as [-> ->]; done].
    destruct Hp as ((row & Hr & Hws) & Hk). destruct k as [k|].
    + destruct Hk as (Hk & [g ->] & Hf).
      rewrite (bool_decide_true (k ∈ FOCUS_KINDS)) by done. cbn -[project_for_focus]. rewrite Hr.
      cbn -[project_for_focus]. rewrite (bool_decide_true (prj_workspace_id row = ws)), Hf by done. cbn.
      by rewrite (bool_decide_true (p = p)).
    + subst f. cbn. rewrite Hr. cbn. by rewrite (bool_decide_true (prj_workspace_id row = ws)).
Qed.

Definition resolves (w : World) (row : ChatSessionRow) : Prop :=
  in_scope (chat_workspace_id row) (chat_project_id row) (chat_focus_kind row) (chat_focus_id row) w.

(** The focus is a Run whose experiment and Study belong to two Projects. *)
Definition divided (w : World) (row : ChatSessionRow) : Prop :=
  in_scope (chat_workspace_id row) (chat_project_id row) None None w ∧ is_Some (chat_project_id row) ∧
  ∃ id run, chat_focus_kind row = Some "run" ∧ chat_focus_id row = Some id
    ∧ db_runs (st_db (w_store w)) !! id = Some run ∧ 2 ≤ size (run_candidates run w).

Lemma project_for_run id run w :
  db_runs (st_db (w_store w)) !! id = Some run →
  project_for_focus "run" (Some id) w
  = match elements (run_candidates run w) with [project] => Ok project | _ => Raise not_visible end.
Proof. intros Hr. unfold project_for_focus. cbn. by rewrite Hr. Qed.

Lemma divided_refused w row :
  divided w row →
  validate_scope (chat_workspace_id row) (chat_project_id row) (chat_focus_kind row)
    (chat_focus_id row) w = Raise not_visible.
Proof.
  intros ((Hn & [wr Hw] & Hp) & [p Ep] & id & run & -> & -> & Hr & Hs).
  rewrite Ep in *. destruct Hp as [(prow & Hpr & Hws) _]. unfold validate_scope.
  rewrite (bool_decide_false (_ = "")), Hw by done. cbn -[project_for_focus]. rewrite Hpr. cbn -[project_for_focus].
  rewrite bool_decide_true by done. cbn -[project_for_focus]. rewrite (project_for_run _ run) by done.
  unfold size, set_size in Hs; cbn in Hs. destruct (elements _) as [|a [|b l]]; cbn in *; done || lia.
Qed.

Section resolution.
Context (w w' : World) (Hg : world_grows w w').

Lemma unfocused_mono ws p : in_scope ws p None None w → in_scope ws p None None w'.
Proof.
  intros (Hn & [wr Hw] & Hp). split_and!; [done|by eexists; apply workspace_row_mono with w|].
  destruct p as [p|]; [|done]. destruct Hp as ((row & Hr & Hws) & _). split; [|done].
  exists row. split; [by apply project_row_mono with w|done].
Qed.

Lemma divided_mono row : divided w row → divided w' row.
Proof.
  intros (Hu & Hp & id & run & Hk & Hf & Hr & Hs). split_and!; [by apply unfocused_mono|done|].
  destruct (run_row_mono w w' Hg _ _ Hr) as (run' & Hr' & Hsub). exists id, run'.
  split_and!; try done. apply subseteq_size in Hsub. lia.
Qed.

Lemma elements_singleton_inv (X : gset string) x : elements X = [x] → X = {[x]}.
Proof. intros E. apply set_eq. intros y. rewrite <- elem_of_elements, E. set_solver. Qed.

(** A study, a comparison and a Run keep their Project; only a Run can gain a second one. *)
Lemma project_for_focus_mono kind f p :
  kind ∈ FOCUS_KINDS → project_for_focus kind (Some f) w = Ok p →
  project_for_focus kind (Some f) w' = Ok p
  ∨ kind = "run" ∧ ∃ run, db_runs (st_db (w_store w')) !! f = Some run ∧ 2 ≤ size (run_candidates run w').
Proof.
  intros Hk. repeat (apply elem_of_cons in Hk as [->|Hk]); [..|by apply elem_of_nil in Hk];
    unfold project_for_focus; cbn [require mbind result_bind];
    repeat (first [rewrite bool_decide_true by done|rewrite bool_decide_false by done]; cbv iota).
  - intros Hf. inv_ok. bools. left.
    match goal with Hr : revision_by_id _ _ = Some _ |- _ =>
      destruct (rk_id _ _ (gr_revisions _ _ (wg_catalog _ _ Hg)) _ _ Hr)
        as (row' & -> & _ & _ & Et & Ep) end.
    cbn. by rewrite Et, Ep, bool_decide_true.
  - intros Hf. apply bind_ok in Hf as (run & Hr & Hf). apply require_ok in Hr.
    destruct (run_row_mono w w' Hg _ _ Hr) as (run' & Hr' & Hsub).
    destruct (elements (run_candidates run w)) as [|q [|? ?]] eqn:E; try done. injection Hf as ->.
    apply elements_singleton_inv in E. rewrite E in Hsub. rewrite Hr'. cbn.
    destruct (decide (2 ≤ size (run_candidates run' w'))) as [Hs|Hs]; [right; eauto|left].
    assert (run_candidates run' w' = {[p]}) as ->.
    { symmetry. apply set_subseteq_size_eq; [done|]. rewrite size_singleton. lia. }
    by rewrite elements_singleton.
  - by left.
Qed.

Lemma resolves_mono row : resolves w row → resolves w' row ∨ divided w' row.
Proof.
  intros Hr. assert (Hu : in_scope (chat_workspace_id row) (chat_project_id row) None None w').
  { destruct Hr as (Hn & Hw & Hp). apply unfocused_mono. split_and!; [done..|].
    destruct (chat_project_id row); naive_solver. }
  destruct Hr as (Hn & Hw & Hp). unfold resolves, in_scope.
  destruct Hu as (Hn' & Hw' & Hp'). destruct (chat_project_id row) as [p|] eqn:Ep; [|by left].
  destruct Hp' as [Hpr' _]. destruct Hp as [_ Hk].
  destruct (chat_focus_kind row) as [kind|] eqn:Ek; [|by left].
  destruct Hk as (Hk & [f Ef] & Hf). rewrite Ef in *.
  destruct (project_for_focus_mono kind f p Hk Hf) as [Hf'|(-> & run & Hrun & Hs)].
  - left. split_and!; try done.
  - right. unfold divided, in_scope. rewrite Ep. split_and!; try done. exists f, run. done.
Qed.
End resolution.
(** ** The invariant *)

Definition has_session (sid : string) (s : LabDB) : Prop := ∃ row, chat_row sid s = Some row.
Definition sees (ws sid : string) (s : LabDB) : Prop :=
  ∃ row, chat_row sid s = Some row ∧ chat_workspace_id row = ws.

Lemma sees_session ws sid s : sees ws sid s → has_session sid s.
Proof. intros (row & ? & _). by exists row. Qed.

Lemma find_first_unique {A} (f : A → string) l x :
  NoDup (map f l) → x ∈ l → find_first (λ y, f y ==b f x) l = Some x.
Proof.
  induction l as [|y l IH]; cbn; intros Hn Hx; [by apply elem_of_nil in Hx|].
  apply NoDup_cons in Hn as [Hy Hn]. apply elem_of_cons in Hx as [->|Hx].
  - by rewrite bool_decide_true.
  - rewrite bool_decide_false; [by apply IH|]. intros E. apply Hy. rewrite E. by apply list_elem_of_fmap_2.
Qed.

Definition instruction_sound (row : LabTurnInstructionRow) : Prop :=
  validate_turn_instruction (ins_turn_sequence row) (ins_instruction_digest row) = Ok tt.

(** A trace that can be read back in its session. *)
Definition trace_sound (s : LabDB) (row : LabToolTraceRow) : Prop :=
  ∃ chat, chat_row (trc_session_id row) s = Some chat
  ∧ validate_trace (trc_turn_sequence row) (trc_tool_name row) (trc_outcome row) (trc_refusal_code row) = Ok tt
  ∧ (∃ requested, trc_requested_refs row = JArr requested)
  ∧ (∃ returned, trc_returned_refs row = JArr returned)
  ∧ trc_scope_snapshot row = to_scope (scope_document (session_of chat))
  ∧ ∃ arguments, trc_arguments_digest row = sha256_json arguments.

Record lab_inv (w : World) (s : LabDB) : Prop := {
  lv_ids : NoDup (map chat_id (lab_chats s));
  lv_chats : ∀ row, row ∈ lab_chats s → resolves w row ∨ divided w row;
  lv_message_session : ∀ m, m ∈ lab_messages s → has_session (msg_session_id m) s;
  lv_message_role : ∀ m, m ∈ lab_messages s → msg_role m ∈ MESSAGE_ROLES;
  lv_sequence : ∀ sid, map msg_sequence (messages_of sid s)
    = map Z.of_nat (seq 1 (length (messages_of sid s)));
  lv_instruction_session : ∀ i, i ∈ lab_instructions s → has_session (ins_session_id i) s;
  lv_instructions : ∀ i, i ∈ lab_instructions s → instruction_sound i;
  lv_traces : ∀ t, t ∈ lab_traces s → trace_sound s t
}.

Lemma lab_inv_empty w : lab_inv w empty_lab.
Proof. split; cbn; try done; [constructor|intros ? Hin; by apply elem_of_nil in Hin..]. Qed.

Lemma lab_inv_world w w' s : world_grows w w' → lab_inv w s → lab_inv w' s.
Proof.
  intros Hg [D C S R Q IS I T]. split; try done. intros row [Hr|Hr]%C.
  - by apply resolves_mono with w.
  - right. by apply divided_mono with w.
Qed.

(** What loading a session means. *)
Lemma load_session_ok sid ws w s c :
  load_session sid ws w s = Ok c →
  ∃ row, chat_row sid s = Some row ∧ chat_workspace_id row = ws ∧ c = session_of row ∧ resolves w row.
Proof.
  unfold load_session, session_from_row. intros Hl. inv_ok. bools.
  match goal with Hv : validate_scope _ _ _ _ _ = Ok ?u |- _ => destruct u; apply validate_scope_ok in Hv end.
  eauto 10.
Qed.

Lemma load_session_row sid ws w s row :
  chat_row sid s = Some row → chat_workspace_id row = ws → resolves w row →
  load_session sid ws w s = Ok (session_of row).
Proof.
  intros Hr Hws Hv%validate_scope_ok. unfold load_session, session_from_row. rewrite Hr. cbn.
  rewrite bool_decide_true by done. cbn. by rewrite Hv.
Qed.

Lemma chat_row_snoc sid s row k : chat_row sid s = Some row →
  chat_row sid (MkLabDB (lab_chats s ++ k) (lab_messages s) (lab_traces s) (lab_instructions s)) = Some row.
Proof. unfold chat_row; cbn. intros Hr. by rewrite find_first_app, Hr. Qed.

Definition push_message (row : ChatMessageRow) (s : LabDB) : LabDB :=
  MkLabDB (lab_chats s) (lab_messages s ++ [row]) (lab_traces s) (lab_instructions s).

Lemma messages_of_snoc sid s m :
  messages_of sid (push_message m s)
  = messages_of sid s ++ (if msg_session_id m ==b sid then [m] else []).
Proof. unfold messages_of; cbn. by rewrite List.filter_app. Qed.

Lemma foldl_max_seq k n : foldl Z.max (Z.of_nat k) (map Z.of_nat (seq (S k) n)) = Z.of_nat (k + n).
Proof.
  revert k. induction n as [|n IH]; intros k; cbn; [lia|].
  replace (Z.max (Z.of_nat k) (Z.of_nat (S k))) with (Z.of_nat (S k)) by lia. rewrite IH. lia.
Qed.

(** The next sequence number is the number of messages plus one. *)
Lemma next_sequence w s sid : lab_inv w s →
  match last_sequence sid s with None => 1%Z | Some n => (n + 1)%Z end
  = Z.of_nat (S (length (messages_of sid s))).
Proof.
  intros Hi. unfold last_sequence. rewrite (lv_sequence _ _ Hi).
  destruct (length (messages_of sid s)) as [|n]; [done|]. cbn -[Z.of_nat].
  rewrite foldl_max_seq. lia.
Qed.
(** ** The effect of a command *)

Definition push_chat (row : ChatSessionRow) (s : LabDB) : LabDB :=
  MkLabDB (lab_chats s ++ [row]) (lab_messages s) (lab_traces s) (lab_instructions s).
Definition push_trace (row : LabToolTraceRow) (s : LabDB) : LabDB :=
  MkLabDB (lab_chats s) (lab_messages s) (lab_traces s ++ [row]) (lab_instructions s).
Definition push_instruction (row : LabTurnInstructionRow) (s : LabDB) : LabDB :=
  MkLabDB (lab_chats s) (lab_messages s) (lab_traces s) (lab_instructions s ++ [row]).

Definition message_of (row : ChatMessageRow) : LabMessage :=
  MkMessage (msg_id row) (msg_session_id row) (msg_role row) (msg_content row) (msg_sequence row)
    (msg_created_at row).
Definition instruction_of (row : LabTurnInstructionRow) : LabTurnInstruction :=
  MkInstruction (ins_id row) (ins_session_id row) (ins_turn_sequence row) (ins_instruction_digest row)
    (ins_created_at row).
Definition refs_of (v : json) : list json := match v with JArr l => l | _ => [] end.
Definition trace_of (chat : LabSession) (row : LabToolTraceRow) : LabToolTrace :=
  MkToolTrace (trc_id row) (trc_session_id row) (trc_turn_sequence row) (trc_tool_name row)
    (trc_arguments_digest row) (refs_of (trc_requested_refs row)) (refs_of (trc_returned_refs row))
    (trc_outcome row) (trc_refusal_code row) (scope_document chat) (trc_created_at row).

(** A command is refused and changes nothing, or adds one sound row to a session it sees and
    returns that row. *)
Inductive lab_effect (ws : string) (w : World) (s : LabDB) : lab_command → LabDB * result lab_reply → Prop :=
  | effect_refused c e : lab_effect ws w s c (s, Raise e)
  | effect_session title p k f id now :
      let row := MkChatRow id ws p k f title now in
      chat_row id s = None → resolves w row →
      lab_effect ws w s (CreateSession title p k f id now)
        (push_chat row s, Ok (RSessions [session_of row]))
  | effect_message sid role content id now :
      let row := MkMessageRow id sid role content (Z.of_nat (S (length (messages_of sid s)))) now in
      sees ws sid s → role ∈ MESSAGE_ROLES →
      lab_effect ws w s (AppendMessage sid role content id now)
        (push_message row s, Ok (RMessages [message_of row]))
  | effect_instruction sid turn digest id now :
      let row := MkInstructionRow id sid turn digest now in
      sees ws sid s → instruction_sound row →
      lab_effect ws w s (AppendInstruction sid turn digest id now)
        (push_instruction row s, Ok (RInstructions [instruction_of row]))
  | effect_trace sid turn tool args rq rt outcome refusal id now chat :
      let row := MkTraceRow id sid turn tool (sha256_json args) (JArr rq) (JArr rt) outcome refusal
        (to_scope (scope_document (session_of chat))) now in
      chat_row sid s = Some chat → chat_workspace_id chat = ws → trace_sound s row →
      lab_effect ws w s (AppendTrace sid turn tool args rq rt outcome refusal id now)
        (push_trace row s, Ok (RTraces [trace_of (session_of chat) row])).

Lemma message_from_row_ok row :
  msg_role row ∈ MESSAGE_ROLES → (1 <= msg_sequence row)%Z → message_from_row row = Ok (message_of row).
Proof.
  intros Hr Hn. unfold message_from_row. rewrite bool_decide_true by done. cbn.
  by rewrite (proj2 (Z.ltb_ge _ _)).
Qed.

Lemma snapshot_members chat :
  map_res snapshot_member (map (λ kv, (kv.1, jopt JStr kv.2)) (scope_document chat)) = Ok (scope_document chat).
Proof. unfold scope_document. destruct (ses_project_id chat), (ses_focus_kind chat), (ses_focus_id chat); done. Qed.

Lemma trace_from_row_ok `{!HexDigests} s row chat :
  trace_sound s row → chat_row (trc_session_id row) s = Some chat →
  trace_from_row (session_of chat) row = Ok (trace_of (session_of chat) row).
Proof.
  intros (chat' & Hc' & Hv & [rq Hrq] & [rt Hrt] & Hs & args & Ha) Hc. simplify_eq.
  unfold trace_from_row, trace_of. rewrite Hv, Hrq, Hrt, Hs. cbn [mbind result_bind to_scope].
  rewrite snapshot_members. cbn [mbind result_bind]. rewrite bool_decide_true by done. cbn.
  unfold sha256_json in Ha. by rewrite Ha, hexdigest_hex.
Qed.

Lemma lab_exec_effect `{!HexDigests} ws c w s :
  lab_inv w s → lab_effect ws w s c (lab_exec ws c w s).
Proof.
  intros Hi. destruct c as [title p k f id now|sid role content id now|sid turn digest id now
    |sid turn tool args rq rt outcome refusal id now];
    cbn [lab_exec]; unfold replied, create_session, append_message, append_turn_instruction,
      append_tool_trace, committed.
  - destruct (validate_scope ws p k f w) as [[]|] eqn:Hv; cbn [mbind result_bind]; [|constructor].
    destruct (chat_row id s) eqn:Hc; cbn [raise_when mbind result_bind is_ok]; [constructor|]. cbn.
    unfold session_from_row. cbn [chat_workspace_id]. rewrite bool_decide_true by done. cbn. rewrite Hv.
    apply effect_session; [done|]. by apply validate_scope_ok.
  - destruct (role ∈b MESSAGE_ROLES) eqn:Hr; cbn [negb raise_when mbind result_bind]; [|constructor].
    destruct (load_session sid ws w s) as [c|] eqn:Hl; cbn [mbind result_bind]; [|constructor].
    rewrite (next_sequence w) by done.
    destruct (message_conflict _ s); cbn [raise_when mbind result_bind]; [constructor|].
    apply load_session_ok in Hl as (row & Hrow & Hws & _). bools. cbn [fst snd].
    rewrite message_from_row_ok by (cbn; done || lia).
    apply effect_message; [by exists row|done].
  - destruct (validate_turn_instruction turn digest) as [[]|] eqn:Hv; cbn [mbind result_bind]; [|constructor].
    destruct (load_session sid ws w s) as [c|] eqn:Hl; cbn [mbind result_bind]; [|constructor].
    destruct (existsb _ _); cbn [raise_when mbind result_bind]; [constructor|].
    apply load_session_ok in Hl as (row & Hrow & Hws & _). cbn [fst snd].
    unfold turn_instruction_from_row; cbn [ins_turn_sequence ins_instruction_digest]. rewrite Hv.
    apply effect_instruction; [by exists row|done].
  - destruct (validate_trace turn tool outcome refusal) as [[]|] eqn:Hv; cbn [mbind result_bind]; [|constructor].
    destruct (load_session sid ws w s) as [c|] eqn:Hl; cbn [mbind result_bind]; [|constructor].
    destruct (existsb _ _); cbn [raise_when mbind result_bind]; [constructor|].
    apply load_session_ok in Hl as (row & Hrow & Hws & -> & _). cbn [fst snd].
    set (t := MkTraceRow id sid turn tool (sha256_json args) (JArr rq) (JArr rt) outcome refusal
                (to_scope (scope_document (session_of row))) now).
    assert (Ht : trace_sound s t) by (exists row; split_and!; eauto).
    rewrite (trace_from_row_ok s t row) by done. by apply effect_trace.
Qed.
Lemma elem_of_snoc {A} (x y : A) l : x ∈ l ++ [y] ↔ x ∈ l ∨ x = y.
Proof. by rewrite elem_of_app, list_elem_of_singleton. Qed.

Lemma has_session_mono s k sid : has_session sid s →
  has_session sid (MkLabDB (lab_chats s ++ k) (lab_messages s) (lab_traces s) (lab_instructions s)).
Proof. intros [row Hr]. exists row. by apply chat_row_snoc. Qed.

Lemma lab_effect_inv ws w s c out : lab_effect ws w s c out → lab_inv w s → lab_inv w out.1.
Proof.
  intros He [D C S R Q IS I T]. destruct He; [done|..]; (split; cbn [fst]; try done).
  - unfold push_chat; cbn. rewrite map_app. apply NoDup_app. split_and!; [done| |apply NoDup_singleton].
    intros i Hin Hi%list_elem_of_singleton. subst i. apply list_elem_of_fmap in Hin as (r & Er & Hr).
    rename select (chat_row id s = None) into Hn. unfold chat_row in Hn. rewrite find_first_None in Hn.
    specialize (Hn r Hr). by bools.
  - intros r [Hr| ->]%elem_of_snoc; [by apply C|by left].
  - intros m Hm. by apply has_session_mono, S.
  - intros i Hm. by apply has_session_mono, IS.
  - intros t Ht. destruct (T t Ht) as (chat & Hc & Hrest). exists chat. split; [by apply chat_row_snoc|done].
  - intros m [Hm| ->]%elem_of_snoc; [by apply S|by eapply sees_session].
  - intros m [Hm| ->]%elem_of_snoc; [by apply R|done].
  - intros sid'. rewrite messages_of_snoc, map_app, Q, length_app. cbn [msg_session_id row].
    case_bool_decide as E; [subst sid'|by rewrite !app_nil_r, Nat.add_0_r]. cbn [map msg_sequence row length].
    by rewrite Nat.add_1_r, seq_S, map_app.
  - intros i [Hm| ->]%elem_of_snoc; [by apply IS|by eapply sees_session].
  - intros i [Hm| ->]%elem_of_snoc; [by apply I|done].
  - intros t [Ht| ->]%elem_of_snoc; [by apply T|done].
Qed.

Definition message_pair (m : ChatMessageRow) : string * string := (msg_role m, msg_content m).
Definition instruction_pair (i : LabTurnInstructionRow) : Z * string :=
  (ins_turn_sequence i, ins_instruction_digest i).
Definition trace_tuple (t : LabToolTraceRow) :=
  (trc_turn_sequence t, trc_tool_name t, trc_arguments_digest t, refs_of (trc_requested_refs t),
   refs_of (trc_returned_refs t), trc_outcome t, trc_refusal_code t).

Definition instructions_of (sid : string) (s : LabDB) : list LabTurnInstructionRow :=
  List.filter (λ row, ins_session_id row ==b sid) (lab_instructions s).
Definition traces_of (sid : string) (s : LabDB) : list LabToolTraceRow :=
  List.filter (λ row, trc_session_id row ==b sid) (lab_traces s).

(** The tables hold what the history recorded. *)
Record logged (s : LabDB) (h : list lab_entry) : Prop := {
  lg_messages : ∀ sid, map message_pair (messages_of sid s) = spoken sid h;
  lg_instructions : ∀ sid, map instruction_pair (instructions_of sid s) = instructed sid h;
  lg_traces : ∀ sid, map trace_tuple (traces_of sid s) = recorded sid h
}.

Lemma lab_effect_logged ws w s c out h :
  lab_effect ws w s c out → logged s h → logged out.1 (h ++ [MkEntry ws c out.2]).
Proof.
  intros He [M I T].
  destruct He; cbn [fst snd]; (split; intros sid0;
    unfold spoken, instructed, recorded; rewrite omap_app; cbn [omap list_omap le_command le_reply is_ok];
    fold (spoken sid0 h) (instructed sid0 h) (recorded sid0 h);
    rewrite <- ?M, <- ?I, <- ?T, ?app_nil_r).
  all: try (destruct c; cbn [andb]; by rewrite app_nil_r).
  all: try done.
  - rewrite messages_of_snoc, map_app. cbn. by case_bool_decide.
  - unfold instructions_of, push_instruction; cbn. rewrite List.filter_app, map_app. cbn. by case_bool_decide.
  - unfold traces_of, push_trace; cbn. rewrite List.filter_app, map_app. cbn. by case_bool_decide.
Qed.

Lemma history_facts `{!HexDigests} w s h :
  lab_history w s h → world_reachable w ∧ lab_inv w s ∧ logged s h.
Proof.
  induction 1 as [w Hw|w w' s h _ (Hw & Hi & Hl) Hs|w s h ws c _ (Hw & Hi & Hl)].
  - split_and!; [done|apply lab_inv_empty|done].
  - split_and!; [by apply world_step_reachable with w| |done].
    apply lab_inv_world with w; [by apply world_step_grows|done].
  - pose proof (lab_exec_effect ws c w s Hi) as He. split_and!; [done| |].
    + by apply (lab_effect_inv _ _ _ _ _ He).
    + by apply (lab_effect_logged _ _ _ _ _ _ He).
Qed.

Lemma map_res_all {A B} (f : A → result B) (g : A → B) l :
  (∀ x, x ∈ l → f x = Ok (g x)) → map_res f l = Ok (map g l).
Proof.
  induction l as [|x l IH]; intros Hf; [done|]. cbn. rewrite (Hf x) by left. cbn.
  rewrite IH; [done|]. intros y Hy. apply Hf. by right.
Qed.

Lemma elem_of_messages m sid s : m ∈ messages_of sid s → m ∈ lab_messages s ∧ msg_session_id m = sid.
Proof. intros [? ?]%list_elem_of_In%filter_In. bools. by rewrite list_elem_of_In. Qed.

Lemma seq_sorted k n : StronglySorted Z.le (map Z.of_nat (seq k n)).
Proof.
  revert k. induction n as [|n IH]; intros k; cbn; constructor; [done|].
  apply Forall_forall. intros z (i & -> & Hi%elem_of_seq)%list_elem_of_fmap. lia.
Qed.

(** Messages are stored in the order of their numbers. *)
Lemma messages_in_order w s sid : lab_inv w s → sort_by message_leb (messages_of sid s) = messages_of sid s.
Proof.
  intros Hi. apply sort_by_id. pose proof (seq_sorted 1 (length (messages_of sid s))) as Hs.
  rewrite <- (lv_sequence _ _ Hi sid) in Hs. induction (messages_of sid s) as [|m l IH]; [constructor|].
  cbn in Hs. inversion Hs as [|? ? Hl Hf]; subst. constructor; [by apply IH|].
  apply Forall_forall. intros m' Hm'. apply Z.leb_le.
  by eapply (proj1 (Forall_forall _ _) Hf), list_elem_of_fmap_2.
Qed.

(** A readable session lists its stored messages. *)
Lemma list_messages_rows w s sid ws chat :
  lab_inv w s → get_session sid ws w s = Ok chat →
  list_messages sid ws w s = Ok (map message_of (messages_of sid s)).
Proof.
  intros Hi Hg. unfold list_messages, get_session in *. rewrite Hg. cbn [mbind result_bind].
  rewrite (messages_in_order w) by done. rewrite (map_res_all _ message_of).
  - cbn [mbind result_bind]. rewrite length_map, map_map.
    rewrite bool_decide_true by apply (lv_sequence _ _ Hi). done.
  - intros m Hm. apply elem_of_messages in Hm as Hm'. destruct Hm' as [Hin _].
    apply message_from_row_ok; [by apply (lv_message_role _ _ Hi)|].
    assert (Hz : msg_sequence m ∈ map msg_sequence (messages_of sid s)) by by apply list_elem_of_fmap_2.
    rewrite (lv_sequence _ _ Hi) in Hz. apply list_elem_of_fmap in Hz as (i & -> & ?%elem_of_seq). lia.
Qed.

(** C31: Whatever any Workspace did before and however the other stores evolved, a session that
    can be read lists exactly the messages accepted for it, in the order they were accepted and
    numbered 1, 2, ... without gaps. *)
Theorem conversation_exact `{!HexDigests} w s h sid ws chat :
  lab_history w s h → get_session sid ws w s = Ok chat →
  ∃ messages, list_messages sid ws w s = Ok messages
    ∧ map message_said messages = spoken sid h
    ∧ map lm_sequence messages = map Z.of_nat (seq 1 (length (spoken sid h))).
Proof.
  intros (_ & Hi & Hl)%history_facts Hg. exists (map message_of (messages_of sid s)).
  split; [by eapply list_messages_rows|]. rewrite <- (lg_messages _ _ Hl), length_map, !map_map.
  split; [done|]. apply (lv_sequence _ _ Hi).
Qed.

(** Reading the recorded turns back: nothing is refused, nothing is missing. *)
Lemma instructions_read w s h sid ws chat `{!HexDigests} :
  lab_history w s h → get_session sid ws w s = Ok chat →
  ∃ l, list_turn_instructions sid ws w s = Ok l ∧ map instruction_said l ≡ₚ instructed sid h.
Proof.
  intros (_ & Hi & Hl)%history_facts Hg. unfold list_turn_instructions, get_session in *.
  rewrite Hg. cbn [mbind result_bind]. fold (instructions_of sid s).
  eexists. split.
  - apply (map_res_all _ instruction_of). intros i Hin%elem_of_sort_by.
    apply list_elem_of_In, filter_In in Hin as [Hin%list_elem_of_In _].
    unfold turn_instruction_from_row. by rewrite (lv_instructions _ _ Hi i Hin).
  - by rewrite map_map, sort_by_Permutation, <- (lg_instructions _ _ Hl).
Qed.

Lemma traces_read `{!HexDigests} w s h sid ws chat :
  lab_history w s h → get_session sid ws w s = Ok chat →
  ∃ l, list_tool_traces sid ws w s = Ok l ∧ map trace_said l ≡ₚ recorded sid h.
Proof.
  intros (_ & Hi & Hl)%history_facts Hg. unfold list_tool_traces, get_session in *.
  rewrite Hg. cbn [mbind result_bind]. fold (traces_of sid s).
  apply load_session_ok in Hg as (row & Hrow & _ & -> & _). eexists. split.
  - apply (map_res_all _ (trace_of (session_of row))). intros t Hin%elem_of_sort_by.
    apply list_elem_of_In, filter_In in Hin as [Hin%list_elem_of_In Hsid]. bools.
    apply (trace_from_row_ok s); [by apply (lv_traces _ _ Hi)|by subst].
  - by rewrite map_map, sort_by_Permutation, <- (lg_traces _ _ Hl).
Qed.

(** A session that was created is read back under its Workspace with its scope, unless its focus
    is a Run that came to have a second Project. *)
Theorem session_durable `{!HexDigests} w s h row :
  lab_history w s h → row ∈ lab_chats s →
  get_session (chat_id row) (chat_workspace_id row) w s = Ok (session_of row)
  ∨ divided w row ∧ get_session (chat_id row) (chat_workspace_id row) w s = Raise not_visible.
Proof.
  intros (_ & Hi & _)%history_facts Hrow. assert (Hc : chat_row (chat_id row) s = Some row).
  { by apply find_first_unique; [apply (lv_ids _ _ Hi)|]. }
  destruct (lv_chats _ _ Hi row Hrow) as [Hr|Hd]; [left|right].
  - by apply load_session_row.
  - split; [done|]. unfold get_session, load_session, session_from_row. rewrite Hc. cbn.
    rewrite bool_decide_true by done. cbn. by rewrite divided_refused.
Qed.

(** ** What a Workspace sees *)

Definition belongs (ws : string) (s : LabDB) (sid : string) : bool :=
  match chat_row sid s with Some row => chat_workspace_id row ==b ws | None => false end.

(** The store with everything of the other Workspaces removed. *)
Definition visible (ws : string) (s : LabDB) : LabDB :=
  MkLabDB (List.filter (λ row, chat_workspace_id row ==b ws) (lab_chats s))
    (List.filter (λ row, belongs ws s (msg_session_id row)) (lab_messages s))
    (List.filter (λ row, belongs ws s (trc_session_id row)) (lab_traces s))
    (List.filter (λ row, belongs ws s (ins_session_id row)) (lab_instructions s)).

(** [new_id] returned an identifier no row of the table has. *)
Definition fresh_id (c : lab_command) (s : LabDB) : Prop :=
  match c with
  | CreateSession _ _ _ _ id _ => ∀ row, row ∈ lab_chats s → chat_id row ≠ id
  | AppendMessage _ _ _ id _ => ∀ row, row ∈ lab_messages s → msg_id row ≠ id
  | AppendInstruction _ _ _ id _ => ∀ row, row ∈ lab_instructions s → ins_id row ≠ id
  | AppendTrace _ _ _ _ _ _ _ _ id _ => ∀ row, row ∈ lab_traces s → trc_id row ≠ id
  end.
Lemma find_first_filter {A} (p q : A → bool) l :
  (∀ x y, x ∈ l → y ∈ l → q x = true → q y = true → x = y) →
  find_first q (List.filter p l)
  = match find_first q l with Some x => if p x then Some x else None | None => None end.
Proof.
  induction l as [|x l IH]; intros Hu; [done|]. cbn.
  assert (IH' := IH (λ a b Ha Hb, Hu a b (list_elem_of_further _ _ _ Ha) (list_elem_of_further _ _ _ Hb))).
  destruct (q x) eqn:Eq, (p x) eqn:Ep; cbn; rewrite ?Eq; try done.
  rewrite IH'. destruct (find_first q l) as [y|] eqn:E; [|done].
  apply find_first_Some in E as [Hy Hqy].
  assert (x = y) as <- by (apply Hu; [left|by right|done..]). by rewrite Ep.
Qed.

Section confinement.
Context (w : World) (s : LabDB) (Hi : lab_inv w s) (ws : string).

Lemma chat_row_visible sid :
  chat_row sid (visible ws s)
  = match chat_row sid s with Some row => if chat_workspace_id row ==b ws then Some row else None | None => None end.
Proof.
  unfold chat_row at 1. cbn [visible lab_chats]. rewrite find_first_filter; [done|].
  intros x y Hx Hy Ex Ey. bools. subst sid.
  pose proof (find_first_unique chat_id _ _ (lv_ids _ _ Hi) Hx) as E1.
  pose proof (find_first_unique chat_id _ _ (lv_ids _ _ Hi) Hy) as E2.
  rewrite Ey in E2. congruence.
Qed.

Lemma load_visible sid : load_session sid ws w (visible ws s) = load_session sid ws w s.
Proof.
  unfold load_session. rewrite chat_row_visible. destruct (chat_row sid s) as [row|]; [|done].
  case_bool_decide as E; cbn; [done|]. by rewrite bool_decide_false.
Qed.

Lemma load_belongs sid c : load_session sid ws w s = Ok c → belongs ws s sid = true.
Proof.
  intros (row & Hr & Hws & _)%load_session_ok. unfold belongs. rewrite Hr. by apply bool_decide_eq_true.
Qed.

Lemma filter_visible {A} (f : A → string) l sid :
  belongs ws s sid = true →
  List.filter (λ row, f row ==b sid) (List.filter (λ row, belongs ws s (f row)) l)
  = List.filter (λ row, f row ==b sid) l.
Proof.
  intros Hb. induction l as [|x l IH]; [done|]. cbn. case_bool_decide as E.
  - rewrite E, Hb. cbn. rewrite E, bool_decide_true by done. by rewrite IH.
  - destruct (belongs ws s (f x)); cbn; [by rewrite bool_decide_false|done].
Qed.

Lemma messages_visible sid : belongs ws s sid = true → messages_of sid (visible ws s) = messages_of sid s.
Proof. apply filter_visible. Qed.

(** Every answer to a Workspace is computed from its own sessions. *)
Lemma ask_visible q : lab_ask ws q w (visible ws s) = lab_ask ws q w s.
Proof.
  destruct q as [sid|served|sid|sid p|sid|sid|sid]; cbn [lab_ask]; unfold get_session, list_sessions,
    list_navigation_projects, require_project, list_messages, list_turn_instructions, list_tool_traces;
    rewrite ?load_visible; try done.
  - do 4 f_equal. cbn [visible lab_chats].
    assert (E : ∀ l, List.filter (λ r, chat_workspace_id r ==b ws) (List.filter (λ r, chat_workspace_id r ==b ws) l)
      = List.filter (λ r, chat_workspace_id r ==b ws) l).
    { intros l. induction l as [|r l IH]; [done|]. cbn. destruct (chat_workspace_id r ==b ws) eqn:Er; [|done].
      cbn. by rewrite Er, IH. }
    by rewrite E.
  - destruct (load_session sid ws w s) as [c|] eqn:Hl; [|done]. cbn [mbind result_bind].
    by rewrite messages_visible by by eapply load_belongs.
  - destruct (load_session sid ws w s) as [c|] eqn:Hl; [|done]. cbn [mbind result_bind].
    cbn [visible lab_instructions]. by rewrite filter_visible by by eapply load_belongs.
  - destruct (load_session sid ws w s) as [c|] eqn:Hl; [|done]. cbn [mbind result_bind].
    cbn [visible lab_traces]. by rewrite filter_visible by by eapply load_belongs.
Qed.

Lemma existsb_false_iff {A} (p : A → bool) l : existsb p l = false ↔ ∀ x, x ∈ l → p x = false.
Proof.
  induction l as [|y l IH]; cbn; [split; [intros _ x Hx; by apply elem_of_nil in Hx|done]|].
  rewrite orb_false_iff, IH. split; [intros [Hy Hl] x [->|Hx]%elem_of_cons; auto|].
  intros Hp. split; [apply Hp; left|intros x Hx; apply Hp; by right].
Qed.

Lemma elem_of_filter_list {A} (p : A → bool) l x : x ∈ List.filter p l → x ∈ l.
Proof. intros [Hx _]%list_elem_of_In%filter_In. by apply list_elem_of_In. Qed.

(** A new message has an unused number. *)
Lemma next_message_fits sid role content id now :
  (∀ row, row ∈ lab_messages s → msg_id row ≠ id) →
  message_conflict (MkMessageRow id sid role content (Z.of_nat (S (length (messages_of sid s)))) now) s = false.
Proof.
  intros Hf. apply existsb_false_iff. intros r Hr. cbn. rewrite bool_decide_false by by apply Hf. cbn.
  case_bool_decide as E; [|done]. cbn. apply Z.eqb_neq. intros Es.
  assert (Hm : r ∈ messages_of sid s).
  { apply list_elem_of_In, filter_In. split; [by apply list_elem_of_In|by apply bool_decide_eq_true]. }
  apply (list_elem_of_fmap_2 msg_sequence) in Hm.
  change (msg_sequence <$> messages_of sid s) with (map msg_sequence (messages_of sid s)) in Hm.
  rewrite (lv_sequence _ _ Hi), Es in Hm. apply list_elem_of_fmap in Hm as (i & Ei & ?%elem_of_seq). lia.
Qed.
End confinement.
Lemma existsb_subset {A} (p : A → bool) l k :
  (∀ x, x ∈ k → x ∈ l) → existsb p l = false → existsb p k = false.
Proof. rewrite !existsb_false_iff. auto. Qed.

Lemma fresh_existsb {A} (f : A → string) id l :
  (∀ x, x ∈ l → f x ≠ id) → existsb (λ x, f x ==b id) l = false.
Proof. intros Hf. apply existsb_false_iff. intros x Hx. by apply bool_decide_eq_false, Hf. Qed.

Lemma belongs_push ws row s sid :
  has_session sid s → belongs ws (push_chat row s) sid = belongs ws s sid.
Proof.
  intros [chat Hc]. unfold belongs. rewrite Hc.
  unfold push_chat. by rewrite (chat_row_snoc sid s chat [row] Hc).
Qed.

Lemma filter_ext_in_list {A} (p q : A → bool) l :
  (∀ x, x ∈ l → p x = q x) → List.filter p l = List.filter q l.
Proof. intros Hpq. apply filter_ext_in. intros x Hx. by apply Hpq, list_elem_of_In. Qed.

(** A new session hides or reveals nothing that was stored. *)
Lemma visible_push_chat w s ws row :
  lab_inv w s →
  visible ws (push_chat row s)
  = if chat_workspace_id row ==b ws then push_chat row (visible ws s) else visible ws s.
Proof.
  intros Hi. unfold visible. cbn [push_chat lab_chats lab_messages lab_traces lab_instructions].
  rewrite List.filter_app. cbn [List.filter].
  rewrite (filter_ext_in_list (λ m, belongs ws (push_chat row s) (msg_session_id m))
             (λ m, belongs ws s (msg_session_id m)))
    by (intros m Hm; by apply belongs_push, (lv_message_session _ _ Hi)).
  rewrite (filter_ext_in_list (λ t, belongs ws (push_chat row s) (trc_session_id t))
             (λ t, belongs ws s (trc_session_id t)))
    by (intros t Ht; apply belongs_push; destruct (lv_traces _ _ Hi t Ht) as (c & Hc & _); by exists c).
  rewrite (filter_ext_in_list (λ i, belongs ws (push_chat row s) (ins_session_id i))
             (λ i, belongs ws s (ins_session_id i)))
    by (intros i Hin; by apply belongs_push, (lv_instruction_session _ _ Hi)).
  case_bool_decide; cbn; by rewrite ?app_nil_r.
Qed.

Lemma sees_belongs ws sid s ws' : sees ws sid s → belongs ws' s sid = bool_decide (ws = ws').
Proof. intros (row & Hr & <-). unfold belongs. by rewrite Hr. Qed.

Lemma fresh_sub {A} (f : A → string) (p : A → bool) id l :
  (∀ x, x ∈ l → f x ≠ id) → ∀ x, x ∈ List.filter p l → f x ≠ id.
Proof. intros Hf x Hx%elem_of_filter_list. by apply Hf. Qed.

(** A command has on the visible part exactly the effect it has on the whole. *)
Lemma exec_visible w s ws c :
  lab_inv w s → fresh_id c s →
  lab_exec ws c w (visible ws s) = (visible ws (lab_exec ws c w s).1, (lab_exec ws c w s).2).
Proof.
  intros Hi Hf. destruct c as [title p k f id now|sid role content id now|sid turn digest id now
    |sid turn tool args rq rt outcome refusal id now];
    cbn [lab_exec fresh_id] in *; unfold replied, create_session, append_message, append_turn_instruction,
      append_tool_trace, committed; rewrite ?(load_visible w s Hi).
  - destruct (validate_scope ws p k f w) as [[]|] eqn:Hv; cbn [mbind result_bind fst snd]; [|done].
    assert (Hnone : chat_row id s = None).
    { apply find_first_None. intros r Hr. by apply bool_decide_eq_false, Hf. }
    rewrite (chat_row_visible w s Hi), Hnone. cbn [raise_when mbind result_bind is_Some].
    rewrite bool_decide_false by by intros [? ?]. cbn -[visible validate_scope session_from_row].
    pose proof (visible_push_chat w s ws (MkChatRow id ws p k f title now) Hi) as Hp. cbn in Hp.
    rewrite bool_decide_true in Hp by done. f_equal. symmetry. exact Hp.
  - destruct (role ∈b MESSAGE_ROLES); cbn [negb raise_when mbind result_bind fst snd]; [|done].
    destruct (load_session sid ws w s) as [c|] eqn:Hl; cbn [mbind result_bind fst snd]; [|done].
    assert (Hb := load_belongs w s ws sid c Hl).
    assert (Hm := messages_visible s ws sid Hb).
    unfold last_sequence. rewrite Hm. fold (last_sequence sid s). rewrite (next_sequence w) by done.
    set (row := MkMessageRow _ _ _ _ _ _).
    pose proof (next_message_fits w s Hi sid role content id now Hf) as Hc. fold row in Hc.
    assert (Hc' : message_conflict row (visible ws s) = false).
    { eapply existsb_subset; [|exact Hc]. intros r Hr. exact (elem_of_filter_list _ _ _ Hr). }
    rewrite Hc, Hc'. cbn [raise_when mbind result_bind fst snd]. f_equal.
    unfold visible; cbn [lab_chats lab_messages lab_traces lab_instructions].
    rewrite List.filter_app. cbn [List.filter msg_session_id row].
    change (belongs ws (MkLabDB _ _ _ _)) with (belongs ws s). by rewrite Hb.
  - destruct (validate_turn_instruction turn digest) as [[]|]; cbn [mbind result_bind fst snd]; [|done].
    destruct (load_session sid ws w s) as [c|] eqn:Hl; cbn [mbind result_bind fst snd]; [|done].
    assert (Hb := load_belongs w s ws sid c Hl).
    rewrite (fresh_existsb ins_id id (lab_instructions s)) by done.
    rewrite (fresh_existsb ins_id id (lab_instructions (visible ws s))) by by apply fresh_sub.
    cbn [raise_when mbind result_bind fst snd]. f_equal.
    unfold visible; cbn [lab_chats lab_messages lab_traces lab_instructions].
    rewrite List.filter_app. cbn [List.filter ins_session_id].
    change (belongs ws (MkLabDB _ _ _ _)) with (belongs ws s). by rewrite Hb.
  - destruct (validate_trace turn tool outcome refusal) as [[]|]; cbn [mbind result_bind fst snd]; [|done].
    destruct (load_session sid ws w s) as [c|] eqn:Hl; cbn [mbind result_bind fst snd]; [|done].
    assert (Hb := load_belongs w s ws sid c Hl).
    rewrite (fresh_existsb trc_id id (lab_traces s)) by done.
    rewrite (fresh_existsb trc_id id (lab_traces (visible ws s))) by by apply fresh_sub.
    cbn [raise_when mbind result_bind fst snd]. f_equal.
    unfold visible; cbn [lab_chats lab_messages lab_traces lab_instructions].
    rewrite List.filter_app. cbn [List.filter trc_session_id].
    change (belongs ws (MkLabDB _ _ _ _)) with (belongs ws s). by rewrite Hb.
Qed.

(** A command of another Workspace leaves the visible part. *)
Lemma exec_invisible `{!HexDigests} w s ws ws' c :
  lab_inv w s → ws' ≠ ws → visible ws (lab_exec ws' c w s).1 = visible ws s.
Proof.
  intros Hi Hne. destruct (lab_exec_effect ws' c w s Hi)
    as [|? ? ? ? ? ? row|? ? ? ? ? row Hs|? ? ? ? ? row Hs|sid ? ? ? ? ? ? ? ? ? chat row Hc Hws]; cbn [fst].
  - done.
  - rewrite (visible_push_chat w) by done. by rewrite bool_decide_false.
  - unfold visible, push_message; cbn [lab_chats lab_messages lab_traces lab_instructions].
    rewrite List.filter_app. cbn [List.filter msg_session_id row].
    change (belongs ws (MkLabDB _ _ _ _)) with (belongs ws s).
    by rewrite (sees_belongs _ _ _ ws Hs), bool_decide_false, app_nil_r.
  - unfold visible, push_instruction; cbn [lab_chats lab_messages lab_traces lab_instructions].
    rewrite List.filter_app. cbn [List.filter ins_session_id row].
    change (belongs ws (MkLabDB _ _ _ _)) with (belongs ws s).
    by rewrite (sees_belongs _ _ _ ws Hs), bool_decide_false, app_nil_r.
  - unfold visible, push_trace; cbn [lab_chats lab_messages lab_traces lab_instructions].
    rewrite List.filter_app. cbn [List.filter trc_session_id row].
    change (belongs ws (MkLabDB _ _ _ _)) with (belongs ws s).
    assert (Hs : sees ws' sid s) by by exists chat.
    by rewrite (sees_belongs _ _ _ ws Hs), bool_decide_false, app_nil_r.
Qed.

(** C30: A Workspace is confined: whatever it asks or does has the answer and the effect it would
    have if nothing of any other Workspace were stored, and what another Workspace does
    leaves everything it sees. *)
Theorem workspace_confined `{!HexDigests} w s h ws :
  lab_history w s h →
  (∀ q, lab_ask ws q w s = lab_ask ws q w (visible ws s))
  ∧ (∀ c, fresh_id c s →
       (lab_exec ws c w s).2 = (lab_exec ws c w (visible ws s)).2
       ∧ visible ws (lab_exec ws c w s).1 = (lab_exec ws c w (visible ws s)).1)
  ∧ (∀ ws' c, ws' ≠ ws → visible ws (lab_exec ws' c w s).1 = visible ws s).
Proof.
  intros (_ & Hi & _)%history_facts. split_and!.
  - intros q. symmetry. by apply ask_visible.
  - intros c Hf. by rewrite exec_visible.
  - intros ws' c Hne. by apply exec_invisible.
Qed.
End chat.

(** ** A small laboratory *)

(** The catalog of Provenance.v with a second Workspace, and no comparison. *)
#[local] Existing Instance literal_models.
#[local] Existing Instance ascii_tables.
#[local] Instance no_comparisons : ComparisonTable := λ _, None.

Definition two_workspaces : CatalogDB := Eval vm_compute in
  value_of empty_catalog (catalog_exec no_verifier (CreateWorkspace "Other" "other" 1) sample_catalog).

Definition demo_world : World := MkWorld (MkSt empty_db 0 0) two_workspaces.

Definition demo_study : string := Eval vm_compute in
  match find_first (λ r, crow_contract_type r ==b STUDY) (cdb_revisions (cat_contracts two_workspaces)) with
  | Some row => crow_id row
  | None => ""
  end.

(** Two Workspaces talk; the second tries to write into a session of the first. *)
Definition demo_commands : list (string * lab_command) := [
  ("ws", CreateSession "Why" (Some "project") (Some "study") (Some demo_study) "chat_1" 1);
  ("other", CreateSession "General" None None None "chat_2" 2);
  ("ws", AppendMessage "chat_1" "human" "why?" "msg_1" 3);
  ("other", AppendMessage "chat_1" "human" "me too" "msg_2" 4);
  ("ws", AppendInstruction "chat_1" 1 (digest_of "a") "labinstruction_1" 5);
  ("ws", AppendTrace "chat_1" 1 "read_run" (JObj []) [JStr "run"] [] "refused" (Some "not_visible") "labtrace_1" 6);
  ("ws", AppendMessage "chat_1" "agent" "because" "msg_3" 7);
  ("other", AppendMessage "chat_2" "system_note" "hello" "msg_4" 8)].

Definition lab_run (w : World) (l : list (string * lab_command)) : LabDB * list lab_entry :=
  foldl (λ x c, ((lab_exec c.1 c.2 w x.1).1, x.2 ++ [MkEntry c.1 c.2 (lab_exec c.1 c.2 w x.1).2]))
    (empty_lab, []) l.

Definition demo_lab : LabDB * list lab_entry := Eval vm_compute in lab_run demo_world demo_commands.

(** Every command but the intruder's is accepted. *)
Example demo_replies : map (λ e, is_ok (le_reply e)) demo_lab.2
  = [true; true; true; false; true; true; true; true].
Proof. vm_compute. reflexivity. Qed.

Lemma lab_run_history w l :
  world_reachable no_verifier w → lab_history no_verifier w (lab_run w l).1 (lab_run w l).2.
Proof.
  intros Hw. induction l as [|[ws c] l IH] using rev_ind; [by apply history_start|].
  unfold lab_run. rewrite foldl_app. fold (lab_run w l). by apply history_call.
Qed.

Lemma demo_world_reachable : world_reachable no_verifier demo_world.
Proof.
  split.
  - eapply rtc_r; [exact sample_catalog_reachable|].
    exists (CreateWorkspace "Other" "other" 1). split; [done|]. vm_compute. reflexivity.
  - exists (MkSt empty_db 0 0). by split.
Qed.

Lemma demo_history : lab_history no_verifier demo_world demo_lab.1 demo_lab.2.
Proof. exact (lab_run_history demo_world demo_commands demo_world_reachable). Qed.

Lemma conversation_exact_witness :
  ∃ messages, list_messages "chat_1" "ws" demo_world demo_lab.1 = Ok messages
    ∧ map message_said messages = [("human", "why?"); ("agent", "because")]
    ∧ map lm_sequence messages = [1; 2]%Z.
Proof.
  destruct (conversation_exact no_verifier demo_world demo_lab.1 demo_lab.2 "chat_1" "ws"
    (MkSession "chat_1" "ws" (Some "project") (Some "study") (Some demo_study) "Why" 1))
    as (messages & Hl & Hs & Hn); [exact demo_history|vm_compute; reflexivity|].
  exists messages. split; [exact Hl|]. split.
  - rewrite Hs. vm_compute. reflexivity.
  - rewrite Hn. vm_compute. reflexivity.
Defined.

Lemma workspace_confined_witness :
  (lab_exec "other" (AppendMessage "chat_1" "human" "again" "msg_5" 9) demo_world demo_lab.1).2
    = Raise not_visible
  ∧ lab_ask "other" (ListMessages "chat_1") demo_world demo_lab.1
    = lab_ask "other" (ListMessages "chat_1") demo_world (visible "other" demo_lab.1)
  ∧ visible "ws" (lab_exec "other" (AppendMessage "chat_2" "human" "more" "msg_6" 9) demo_world demo_lab.1).1
    = visible "ws" demo_lab.1.
Proof.
  destruct (workspace_confined no_verifier demo_world demo_lab.1 demo_lab.2 "other" demo_history) as (Hq & _ & _).
  destruct (workspace_confined no_verifier demo_world demo_lab.1 demo_lab.2 "ws" demo_history) as (_ & _ & Ho).
  split; [vm_compute; reflexivity|]. split; [apply Hq|by apply Ho].
Defined.
