(* ===== verification/LabTurn.v ===== *)
(** * A turn of the laboratory agent: refusals, envelope and argument checks
    (src/src/evidrun/contracts/lab_agent/errors.py and envelope.py, and
    src/src/evidrun/lab/budgets.py, protocol.py, turn.py and tools/_base.py).

    A refusal is a [LabAgentError], a pydantic model whose texts must not be blank: building
    one can itself fail, so every function that refuses returns a [result]. The schema of a
    tool and the arguments of a call are JSON documents; comparing a bound of the wrong type
    raises [TypeError] as Python does. [json.loads] is the parameter [json_loads]. *)

From S2P Require Import Prelude PyText PyJson Base Authoring Runtime Events Triage Composer LabStore.
From Stdlib Require Import SpecFloat.

(** ** Refusals *)

Inductive LabAgentStage :=
  | STAGE_CATALOG | STAGE_BUDGET | STAGE_SCHEMA | STAGE_SCOPE | STAGE_CLASSIFICATION
  | STAGE_AUTHORITY | STAGE_DRAFT.
#[export] Instance LabAgentStage_eq_dec : EqDecision LabAgentStage.
Proof. solve_decision. Defined.

Definition LabAgentStage_value (s : LabAgentStage) : string :=
  match s with
  | STAGE_CATALOG => "catalog" | STAGE_BUDGET => "budget" | STAGE_SCHEMA => "schema"
  | STAGE_SCOPE => "scope" | STAGE_CLASSIFICATION => "classification"
  | STAGE_AUTHORITY => "authority" | STAGE_DRAFT => "draft"
  end.

Definition LabAgentStage_of (text : string) : result LabAgentStage :=
  require (find_first (λ s, LabAgentStage_value s ==b text)
    [STAGE_CATALOG; STAGE_BUDGET; STAGE_SCHEMA; STAGE_SCOPE; STAGE_CLASSIFICATION; STAGE_AUTHORITY; STAGE_DRAFT])
    (ValueError "LabAgentStage").

Inductive LabAgentErrorCode :=
  | CATALOG_TOOL_UNKNOWN | CATALOG_TOOL_NOT_OFFERED
  | BUDGET_TOOL_CALLS_EXHAUSTED | BUDGET_ROUND_TRIPS_EXHAUSTED | BUDGET_WALL_TIME_EXHAUSTED
  | BUDGET_REFUSALS_EXHAUSTED | BUDGET_REFUSAL_REPEATED
  | SCHEMA_ARGUMENT_SET_INVALID | SCHEMA_ARGUMENT_TYPE_INVALID | SCHEMA_ARGUMENT_LIMIT_EXCEEDED
  | SCHEMA_SCOPE_ARGUMENT_FORBIDDEN
  | SCOPE_TARGET_NOT_VISIBLE | SCOPE_FOCUS_MISMATCH | SCOPE_PROJECT_REQUIRED
  | CLASSIFICATION_GRANT_REQUIRED
  | AUTHORITY_HUMAN_DECISION_REQUIRED | AUTHORITY_LEDGER_WRITE_FORBIDDEN
  | AUTHORITY_PERSISTED_EFFECT_FORBIDDEN
  | DRAFT_VALIDATION_FAILED | DRAFT_NOT_VALIDATED | DRAFT_SCOPE_OVERRIDE_FORBIDDEN.
#[export] Instance LabAgentErrorCode_eq_dec : EqDecision LabAgentErrorCode.
Proof. solve_decision. Defined.

Definition LabAgentErrorCode_value (c : LabAgentErrorCode) : string :=
  match c with
  | CATALOG_TOOL_UNKNOWN => "catalog.tool_unknown"
  | CATALOG_TOOL_NOT_OFFERED => "catalog.tool_not_offered"
  | BUDGET_TOOL_CALLS_EXHAUSTED => "budget.tool_calls_exhausted"
  | BUDGET_ROUND_TRIPS_EXHAUSTED => "budget.round_trips_exhausted"
  | BUDGET_WALL_TIME_EXHAUSTED => "budget.wall_time_exhausted"
  | BUDGET_REFUSALS_EXHAUSTED => "budget.refusals_exhausted"
  | BUDGET_REFUSAL_REPEATED => "budget.refusal_repeated"
  | SCHEMA_ARGUMENT_SET_INVALID => "schema.argument_set_invalid"
  | SCHEMA_ARGUMENT_TYPE_INVALID => "schema.argument_type_invalid"
  | SCHEMA_ARGUMENT_LIMIT_EXCEEDED => "schema.argument_limit_exceeded"
  | SCHEMA_SCOPE_ARGUMENT_FORBIDDEN => "schema.scope_argument_forbidden"
  | SCOPE_TARGET_NOT_VISIBLE => "scope.target_not_visible"
  | SCOPE_FOCUS_MISMATCH => "scope.focus_mismatch"
  | SCOPE_PROJECT_REQUIRED => "scope.project_required"
  | CLASSIFICATION_GRANT_REQUIRED => "classification.grant_required"
  | AUTHORITY_HUMAN_DECISION_REQUIRED => "authority.human_decision_required"
  | AUTHORITY_LEDGER_WRITE_FORBIDDEN => "authority.ledger_write_forbidden"
  | AUTHORITY_PERSISTED_EFFECT_FORBIDDEN => "authority.persisted_effect_forbidden"
  | DRAFT_VALIDATION_FAILED => "draft.validation_failed"
  | DRAFT_NOT_VALIDATED => "draft.not_validated"
  | DRAFT_SCOPE_OVERRIDE_FORBIDDEN => "draft.scope_override_forbidden"
  end.

Definition code_stage (c : LabAgentErrorCode) : result LabAgentStage :=
  LabAgentStage_of (before_dot (LabAgentErrorCode_value c)).

Inductive LabAgentErrorCategory := LAB_INVALID | LAB_REJECTED | LAB_NOT_FOUND | LAB_FORBIDDEN | LAB_EXHAUSTED.
#[export] Instance LabAgentErrorCategory_eq_dec : EqDecision LabAgentErrorCategory.
Proof. solve_decision. Defined.

Definition LabAgentErrorCategory_value (c : LabAgentErrorCategory) : string :=
  match c with
  | LAB_INVALID => "invalid" | LAB_REJECTED => "rejected" | LAB_NOT_FOUND => "not_found"
  | LAB_FORBIDDEN => "forbidden" | LAB_EXHAUSTED => "exhausted"
  end.

Definition LAB_CATEGORY_BY_CODE (c : LabAgentErrorCode) : LabAgentErrorCategory :=
  match c with
  | CATALOG_TOOL_UNKNOWN | CATALOG_TOOL_NOT_OFFERED => LAB_NOT_FOUND
  | BUDGET_TOOL_CALLS_EXHAUSTED | BUDGET_ROUND_TRIPS_EXHAUSTED | BUDGET_WALL_TIME_EXHAUSTED
  | BUDGET_REFUSALS_EXHAUSTED | BUDGET_REFUSAL_REPEATED => LAB_EXHAUSTED
  | SCHEMA_ARGUMENT_SET_INVALID | SCHEMA_ARGUMENT_TYPE_INVALID | SCHEMA_ARGUMENT_LIMIT_EXCEEDED
  | SCHEMA_SCOPE_ARGUMENT_FORBIDDEN => LAB_INVALID
  | SCOPE_TARGET_NOT_VISIBLE | SCOPE_FOCUS_MISMATCH => LAB_NOT_FOUND
  | SCOPE_PROJECT_REQUIRED => LAB_REJECTED
  | CLASSIFICATION_GRANT_REQUIRED => LAB_FORBIDDEN
  | AUTHORITY_HUMAN_DECISION_REQUIRED | AUTHORITY_LEDGER_WRITE_FORBIDDEN
  | AUTHORITY_PERSISTED_EFFECT_FORBIDDEN => LAB_REJECTED
  | DRAFT_VALIDATION_FAILED => LAB_INVALID
  | DRAFT_NOT_VALIDATED | DRAFT_SCOPE_OVERRIDE_FORBIDDEN => LAB_REJECTED
  end.

Definition LAB_HTTP_STATUS_BY_CATEGORY (c : LabAgentErrorCategory) : Z :=
  match c with
  | LAB_INVALID => 422 | LAB_REJECTED => 422 | LAB_NOT_FOUND => 404 | LAB_FORBIDDEN => 403
  | LAB_EXHAUSTED => 429
  end.

(** [LabAgentCliExitCode]. *)
Definition LAB_CLI_EXIT_BY_CATEGORY (c : LabAgentErrorCategory) : Z :=
  match c with
  | LAB_INVALID => 2 | LAB_REJECTED => 3 | LAB_NOT_FOUND => 4 | LAB_FORBIDDEN => 6 | LAB_EXHAUSTED => 7
  end.

Record LabAgentError := MkLabError {
  le_stage : LabAgentStage;
  le_code : LabAgentErrorCode;
  le_message : string;
  le_remediation : string;
  le_field_path : list string;
  le_tool_name : option string
}.

Definition validate_code_stage (e : LabAgentError) : result unit :=
  stage ← code_stage (le_code e);
  raise_when (stage !=b le_stage e) (ValidationError "code prefix must match stage").

(** [LabAgentError(...)]: pydantic strips each text and refuses a blank one. *)
Definition lab_agent_error (stage : LabAgentStage) (code : LabAgentErrorCode)
    (message remediation : string) (field_path : list string) (tool_name : option string)
    : result LabAgentError :=
  message ← non_empty message;
  remediation ← non_empty remediation;
  field_path ← Catalog.map_res non_empty field_path;
  tool_name ← optional non_empty tool_name;
  let error := MkLabError stage code message remediation field_path tool_name in
  validate_code_stage error;;
  Ok error.

Inductive LabAgentTargetSituation := ABSENT | SIBLING_PROJECT | OTHER_WORKSPACE.

Definition target_not_visible (situation : LabAgentTargetSituation) (field_path : list string)
    (tool_name : option string) : result LabAgentError :=
  lab_agent_error STAGE_SCOPE SCOPE_TARGET_NOT_VISIBLE
    "A referência solicitada não está disponível nesta sessão."
    "Liste os alvos deste Project antes de referenciar um id." field_path tool_name.

(** The texts of the refusals the turn itself issues. *)
Definition refusal_messages (code : LabAgentErrorCode) : option (string * string) :=
  match code with
  | CATALOG_TOOL_UNKNOWN => Some ("A tool solicitada não existe no catálogo efetivo.",
      "Use somente uma tool anunciada nesta sessão.")
  | CATALOG_TOOL_NOT_OFFERED => Some ("A tool solicitada não é oferecida nesta forma de sessão.",
      "Use uma tool anunciada ou abra a forma de sessão necessária.")
  | BUDGET_TOOL_CALLS_EXHAUSTED => Some ("O teto de tool calls deste turno foi alcançado.",
      "Responda com o trabalho já concluído; não solicite outra tool.")
  | BUDGET_WALL_TIME_EXHAUSTED => Some ("O teto de tempo deste turno foi alcançado.",
      "Responda com o trabalho já concluído.")
  | SCHEMA_ARGUMENT_SET_INVALID => Some ("O conjunto de argumentos não corresponde ao schema da tool.",
      "Use exatamente as chaves declaradas pela tool.")
  | SCHEMA_ARGUMENT_TYPE_INVALID => Some ("Um argumento não corresponde ao tipo declarado.",
      "Corrija o tipo do campo indicado antes de tentar novamente.")
  | SCHEMA_ARGUMENT_LIMIT_EXCEEDED => Some ("Um argumento excede o limite declarado.",
      "Reduza o valor ao teto declarado antes de tentar novamente.")
  | SCHEMA_SCOPE_ARGUMENT_FORBIDDEN => Some ("Scope, sessão e autoridade não podem ser argumentos de tool.",
      "Remova o campo; o runtime deriva o scope da sessão validada.")
  | _ => None
  end.

Definition refusal_error (code : LabAgentErrorCode) (tool_name : string) (field_path : list string)
    : result LabAgentError :=
  '(message, remediation) ← require (refusal_messages code)
    (ValueError "refusal code without a declared message and remediation");
  stage ← code_stage code;
  lab_agent_error stage code message remediation field_path (Some tool_name).

Definition error_payload (e : LabAgentError) : json := JObj [
  ("stage", JStr (LabAgentStage_value (le_stage e)));
  ("code", JStr (LabAgentErrorCode_value (le_code e)));
  ("category", JStr (LabAgentErrorCategory_value (LAB_CATEGORY_BY_CODE (le_code e))));
  ("message", JStr (le_message e));
  ("remediation", JStr (le_remediation e));
  ("field_path", jstrs (le_field_path e));
  ("tool_name", jopt JStr (le_tool_name e))].

(** ** The envelope *)

Inductive LabAgentMessageRole := ROLE_HUMAN | ROLE_AGENT | ROLE_SYSTEM_NOTE.
Definition LabAgentMessageRole_value (r : LabAgentMessageRole) : string :=
  match r with ROLE_HUMAN => "human" | ROLE_AGENT => "agent" | ROLE_SYSTEM_NOTE => "system_note" end.
(** [LabAgentMessageRole(text)]. *)
Definition LabAgentMessageRole_of (text : string) : result LabAgentMessageRole :=
  require (find_first (λ r, LabAgentMessageRole_value r ==b text) [ROLE_HUMAN; ROLE_AGENT; ROLE_SYSTEM_NOTE])
    (ValueError "LabAgentMessageRole").

Record LabAgentMessage := MkAgentMessage {
  am_role : LabAgentMessageRole;
  am_sequence : Z;
  am_content : string
}.

(** [LabAgentMessage(role=..., content=..., sequence=...)]. *)
Definition lab_agent_message (role : LabAgentMessageRole) (content : string) (sequence : Z)
    : result LabAgentMessage :=
  raise_when (sequence <=? 0)%Z (ValidationError "greater_than");;
  content ← non_empty content;
  Ok (MkAgentMessage role sequence content).

Record LabAgentTurnLimits := MkTurnLimits {
  max_tool_calls_per_turn : Z;
  max_provider_round_trips_per_turn : Z;
  max_wall_seconds_per_turn : Z;
  max_refusals_per_turn : Z;
  max_output_tokens_per_round_trip : Z
}.

Definition validate_limits (l : LabAgentTurnLimits) : result unit :=
  raise_when (existsb (λ n, n <=? 0)%Z
    [max_tool_calls_per_turn l; max_provider_round_trips_per_turn l; max_wall_seconds_per_turn l;
     max_refusals_per_turn l; max_output_tokens_per_round_trip l]) (ValidationError "greater_than").

Record LabAgentEnvelope := MkEnvelope {
  env_session_id : string;
  env_scope : LabAgentSessionScope;
  env_history : list LabAgentMessage;
  env_contract_refs : list ContractRef;
  env_evidence_refs : list EvidenceRef;
  env_artifact_refs : list ArtifactRef;
  env_offered_tools : list string;
  env_limits : LabAgentTurnLimits
}.

#[export] Instance LabAgentSessionForm_eq_dec : EqDecision LabAgentSessionForm.
Proof. solve_decision. Defined.

Definition validate_disclosure (e : LabAgentEnvelope) : result unit :=
  let sequences := map am_sequence (env_history e) in
  raise_when (negb (length (remove_dups sequences) =? length (env_history e))%nat)
    (ValidationError "session history requires distinct sequences");;
  raise_when (sequences !=b sort_by Z.leb sequences)
    (ValidationError "session history must be ordered by sequence");;
  raise_when ((form (env_scope e) ==b GENERAL)
      && negb ((length (env_contract_refs e) + length (env_evidence_refs e)
                + length (env_artifact_refs e) =? 0)%nat))
    (ValidationError "General chat envelope cannot disclose Project content refs").

(** ** Budgets *)

(** The monotonic clock in microseconds. *)
Record TurnBudgetGuard := MkGuard {
  guard_limits : LabAgentTurnLimits;
  guard_started_at : Z
}.

Definition wall_exhausted (g : TurnBudgetGuard) (now : Z) : bool :=
  (max_wall_seconds_per_turn (guard_limits g) * 1000000 <=? now - guard_started_at g)%Z.
Definition round_trip_denied (g : TurnBudgetGuard) (completed : Z) : bool :=
  (max_provider_round_trips_per_turn (guard_limits g) <=? completed)%Z.
Definition tool_call_denied (g : TurnBudgetGuard) (attempted : Z) : bool :=
  (max_tool_calls_per_turn (guard_limits g) <? attempted)%Z.
Definition refusal_exhausted (g : TurnBudgetGuard) (recorded : Z) : bool :=
  (max_refusals_per_turn (guard_limits g) <=? recorded)%Z.

(** ** Tools *)

Record LabToolContext := MkToolContext {
  ctx_scope : LabAgentSessionScope;
  ctx_session_id : string;
  ctx_turn_sequence : Z
}.

Record LabToolResult := MkToolResult {
  tr_content : json;
  tr_requested_refs : list string;
  tr_returned_refs : list string
}.

(** [ToolAvailability.forms], by default every form but General. *)
Definition default_forms : list LabAgentSessionForm := [PROJECT; FOCUSED].

(** What the loop knows of a tool; running it is a call of the turn. *)
Record LabTool := MkLabTool {
  tool_name : string;
  tool_forms : list LabAgentSessionForm;
  tool_schema : json
}.

Definition offers (t : LabTool) (f : LabAgentSessionForm) : bool := f ∈b tool_forms t.

(** [schema.get("properties")] as a mapping. *)
Definition schema_properties (schema : json) : option (list (string * json)) :=
  match jget "properties" schema with Some (JObj m) => Some m | _ => None end.

Definition declared_argument_keys (schema : json) : list string :=
  match schema_properties schema with Some m => map fst m | None => [] end.

(** A catalog is a dict from names to tools. *)
Definition build_catalog (tools : list LabTool) : result (list (string * LabTool)) :=
  fold_res (λ catalog tool,
    raise_when (tool_name tool ∈b map fst catalog) (ValueError "tool name declared twice in the catalog");;
    Ok (catalog ++ [(tool_name tool, tool)])) [] tools.

Definition catalog_leb (a b : string * LabTool) : bool := String.leb a.1 b.1.

(** [{name: tool for name, tool in sorted(catalog.items()) if ...}]. *)
Definition offered_tools (catalog : list (string * LabTool)) (f : LabAgentSessionForm)
    : list (string * LabTool) :=
  List.filter (λ e, offers e.2 f) (sort_by catalog_leb catalog).

(** ** Argument checks of the turn *)

Class JsonLoads := json_loads : string → option json.

Definition FORBIDDEN_SCOPE_KEYS : list string :=
  ["workspace_id"; "project_id"; "scope"; "session_id"; "actor"; "authority"].

(** A JSON value as a number: Python's booleans are the integers 0 and 1. *)
Inductive number := NInt (z : Z) | NFloat (f : pyfloat).
Definition as_number (v : json) : result number :=
  match v with
  | JInt z => Ok (NInt z)
  | JBool b => Ok (NInt (if b then 1 else 0))
  | JFloat f => Ok (NFloat f)
  | _ => Raise (TypeError "unorderable")
  end.

(** The exact comparison of a float with an integer. *)
Definition float_compare_int (f : pyfloat) (z : Z) : option comparison :=
  match pf_value f with
  | S754_nan => None
  | S754_infinity negative => Some (if negative then Lt else Gt)
  | S754_zero _ => Some (Z.compare 0 z)
  | S754_finite negative m e =>
      let mantissa := if negative then (- Zpos m)%Z else Zpos m in
      Some (if (0 <=? e)%Z then Z.compare (mantissa * 2 ^ e) z
            else Z.compare mantissa (z * 2 ^ (- e)))
  end.

Definition number_ltb (a b : number) : bool :=
  match a, b with
  | NInt x, NInt y => (x <? y)%Z
  | NFloat f, NFloat g => float_ltb f g
  | NFloat f, NInt y => match float_compare_int f y with Some Lt => true | _ => false end
  | NInt x, NFloat g => match float_compare_int g x with Some Gt => true | _ => false end
  end.

(** [(bound := rule.get(name)) is not None and exceeds(bound)]. *)
Definition bound (name : string) (rule : json) (exceeds : number → bool) : result bool :=
  match jget name rule with
  | None | Some JNull => Ok false
  | Some v => n ← as_number v; Ok (exceeds n)
  end.

(** [value in choices]. *)
Definition chosen (value : string) (choices : json) : result bool :=
  match choices with
  | JArr l => Ok (JStr value ∈b l)
  | JObj m => Ok (value ∈b map fst m)
  | JStr s => Ok (contains value s)
  | _ => Raise (TypeError "not iterable")
  end.

Definition type_matches (expected : option json) (value : json) : result bool :=
  match expected with
  | Some (JArr _) | Some (JObj _) => Raise (TypeError "unhashable type")
  | Some (JStr name) => Ok (
      match value with
      | JStr _ => name ==b "string"
      | JInt _ => (name ==b "integer") || (name ==b "number")
      | JFloat _ => name ==b "number"
      | JBool _ => name ==b "boolean"
      | JArr _ => name ==b "array"
      | JObj _ => name ==b "object"
      | JNull => name ==b "null"
      end)
  | _ => Ok false
  end.

(** The first refusal of a list of checks. *)
Fixpoint first_refusal (checks : list (result (option LabAgentError))) : result (option LabAgentError) :=
  match checks with
  | [] => Ok None
  | c :: rest => e ← c; match e with Some e => Ok (Some e) | None => first_refusal rest end
  end.

Definition refuse_when (r : result bool) (code : LabAgentErrorCode) (tool_name : string) (path : list string)
    : result (option LabAgentError) :=
  r ≫= λ b : bool, if b then Some <$> refusal_error code tool_name path else Ok None.

(** The bounds of a scalar: [maxLength], [minLength], [enum], [maximum], [minimum]. *)
Definition scalar_checks (value rule : json) (tool_name : string) (path : list string)
    : list (result (option LabAgentError)) :=
  let limit r := refuse_when r SCHEMA_ARGUMENT_LIMIT_EXCEEDED tool_name path in
  match value with
  | JStr s =>
      let size := NInt (Z.of_nat (str_len s)) in
      [limit (bound "maxLength" rule (λ n, number_ltb n size));
       limit (bound "minLength" rule (λ n, number_ltb size n));
       refuse_when (match jget "enum" rule with
           | None | Some JNull => Ok false
           | Some choices => negb <$> chosen s choices
           end) SCHEMA_ARGUMENT_TYPE_INVALID tool_name path]
  | JInt z =>
      [limit (bound "maximum" rule (λ n, number_ltb n (NInt z)));
       limit (bound "minimum" rule (λ n, number_ltb (NInt z) n))]
  | JFloat f =>
      [limit (bound "maximum" rule (λ n, number_ltb n (NFloat f)));
       limit (bound "minimum" rule (λ n, number_ltb (NFloat f) n))]
  | JArr items =>
      [limit (bound "maxItems" rule (λ n, number_ltb n (NInt (Z.of_nat (length items)))))]
  | _ => []
  end.

Fixpoint validate_value (value rule : json) (tool_name : string) (path : list string)
    {struct value} : result (option LabAgentError) :=
  if (value ==b JNull) && (jget "nullable" rule ==b Some (JBool true)) then Ok None
  else
    valid ← type_matches (jget "type" rule) value;
    if negb valid then Some <$> refusal_error SCHEMA_ARGUMENT_TYPE_INVALID tool_name path
    else
      e ← first_refusal (scalar_checks value rule tool_name path);
      match e, value, jget "items" rule with
      | Some e, _, _ => Ok (Some e)
      | None, JArr items, Some (JObj item_rule) =>
          (fix validate_items (items : list json) (index : Z) : result (option LabAgentError) :=
             match items with
             | [] => Ok None
             | item :: rest =>
                 e ← validate_value item (JObj item_rule) tool_name (path ++ [pretty index]);
                 match e with Some e => Ok (Some e) | None => validate_items rest (index + 1)%Z end
             end) items 0%Z
      | None, _, _ => Ok None
      end.

Definition validate_schema (schema : json) (arguments : list (string * json)) (tool_name : string)
    : result (option LabAgentError) :=
  match sorted_strings (List.filter (λ k, k ∈b FORBIDDEN_SCOPE_KEYS) (map fst arguments)) with
  | field :: _ => Some <$> refusal_error SCHEMA_SCOPE_ARGUMENT_FORBIDDEN tool_name [field]
  | [] =>
      if negb (same_set (map fst arguments) (declared_argument_keys schema)) then
        Some <$> refusal_error SCHEMA_ARGUMENT_SET_INVALID tool_name []
      else match schema_properties schema with
      | None => Some <$> refusal_error SCHEMA_ARGUMENT_SET_INVALID tool_name []
      | Some properties =>
          first_refusal (map (λ kv,
            match obj_get kv.1 properties with
            | Some (JObj rule) => validate_value kv.2 (JObj rule) tool_name [kv.1]
            | _ => Some <$> refusal_error SCHEMA_ARGUMENT_TYPE_INVALID tool_name [kv.1]
            end) arguments)
      end
  end.

Definition parse_arguments `{JsonLoads} (raw tool_name : string)
    : result (list (string * json) * option LabAgentError) :=
  match json_loads raw with
  | None =>
      e ← refusal_error SCHEMA_ARGUMENT_TYPE_INVALID tool_name [];
      Ok ([("$raw", JStr raw)], Some e)
  | Some (JObj m) => Ok (m, None)
  | Some value =>
      e ← refusal_error SCHEMA_ARGUMENT_TYPE_INVALID tool_name [];
      Ok ([("$value", value)], Some e)
  end.

(** ** Argument checks of a reading tool *)

(** The four keys a strict schema has. *)
Definition strict_schema (properties : list (string * json)) (required : list string) : json := JObj [
  ("type", JStr "object");
  ("additionalProperties", JBool false);
  ("properties", JObj properties);
  ("required", jstrs required)].

Definition matches_type (value : json) (expected : option json) (nullable : bool) : bool :=
  match value, expected with
  | JNull, _ => nullable
  | JStr _, Some (JStr "string") => true
  | JInt _, Some (JStr "integer") => true
  | JArr _, Some (JStr "array") => true
  | _, _ => false
  end.

Definition tool_error (code : LabAgentErrorCode) (message remediation tool_name : string)
    (field : option string) : result LabAgentError :=
  lab_agent_error STAGE_SCHEMA code message remediation (option_list field) (Some tool_name).

(** [isinstance(bound, int) and exceeds(bound)]: a boolean is an integer. *)
Definition int_bound (name : string) (rule : json) (exceeds : Z → bool) : bool :=
  match jget name rule with
  | Some (JInt n) => exceeds n
  | Some (JBool b) => exceeds (if b then 1%Z else 0%Z)
  | _ => false
  end.

(** The checks of one argument, in order. *)
Definition argument_refusal (tool_name key : string) (value definition : json)
    : option (LabAgentErrorCode * string * string) :=
  if negb (matches_type value (jget "type" definition) (jget "nullable" definition ==b Some (JBool true)))
  then Some (SCHEMA_ARGUMENT_TYPE_INVALID, "Um argumento tem tipo divergente do schema.",
             "Use o tipo declarado para " +:+ key +:+ ".")
  else if match value with
       | JInt z => int_bound "minimum" definition (λ n, (z <? n)%Z)
                   || int_bound "maximum" definition (λ n, (n <? z)%Z)
       | _ => false
       end
  then Some (SCHEMA_ARGUMENT_LIMIT_EXCEEDED, "Um argumento excede os limites declarados.",
             "Use " +:+ key +:+ " dentro dos limites do schema.")
  else if match value with
       | JArr items => int_bound "maxItems" definition (λ n, (n <? Z.of_nat (length items))%Z)
       | _ => false
       end
  then Some (SCHEMA_ARGUMENT_LIMIT_EXCEEDED, "Um argumento excede os limites declarados.",
             "Reduza " +:+ key +:+ " ao máximo declarado.")
  else if match value, jget "items" definition with
       | JArr items, Some (JObj item) =>
           existsb (λ x, negb (matches_type x (jget "type" (JObj item)) false)) items
       | _, _ => false
       end
  then Some (SCHEMA_ARGUMENT_TYPE_INVALID, "Um item de lista tem tipo divergente do schema.",
             "Use itens do tipo declarado para " +:+ key +:+ ".")
  else if match jget "enum" definition with Some (JArr l) => negb (value ∈b l) | _ => false end
  then Some (SCHEMA_ARGUMENT_TYPE_INVALID, "Um argumento está fora da allowlist declarada.",
             "Use um valor declarado pelo schema para " +:+ key +:+ ".")
  else None.

(** [None] accepts; a refusal is raised as [LabToolRejected]. The properties of a strict
    schema are mappings. *)
Definition validate_arguments (tool_name : string) (schema : json) (arguments : list (string * json))
    : result (option LabAgentError) :=
  let declared := declared_argument_keys schema in
  match sorted_strings (List.filter (λ k, k ∈b FORBIDDEN_SCOPE_KEYS) (map fst arguments)) with
  | field :: _ =>
      Some <$> tool_error SCHEMA_SCOPE_ARGUMENT_FORBIDDEN
        "Argumentos não podem declarar scope, sessão, ator ou autoridade."
        "Remova campos de scope; eles vêm da sessão validada." tool_name (Some field)
  | [] =>
      if negb (same_set (map fst arguments) declared) then
        Some <$> tool_error SCHEMA_ARGUMENT_SET_INVALID
          "O conjunto de argumentos não corresponde ao schema da tool."
          ("Use exatamente estas chaves: "
             +:+ (if declared ==b [] then "(nenhuma)" else join ", " (sorted_strings declared)) +:+ ".")
          tool_name None
      else first_refusal (map (λ key,
        let value := default JNull (obj_get key arguments) in
        let definition := default JNull (obj_get key (default [] (schema_properties schema))) in
        match argument_refusal tool_name key value definition with
        | Some (code, message, remediation) =>
            Some <$> tool_error code message remediation tool_name (Some key)
        | None => Ok None
        end) (sorted_strings declared))
  end.
