(* ===== verification/LabLoop.v ===== *)
(** * The loop of the laboratory agent
    (src/src/evidrun/lab/loop.py, serving.py and trace.py).

    A turn talks to the provider, to its tools, to the store of traces, to a policy, to the
    clock, to the cancellation probe and to the sink of presentation events. [program] is the
    tree of these conversations, branching over every answer; [plays] says which logs a
    program can leave. [while True] takes fuel, [Diverged] marks its exhaustion, and
    [turn_settles] shows that as many rounds as the envelope allows suffice.

    Theorems: a turn ends within its budgets whatever it is answered; a tool runs only when it
    is offered, its arguments match its schema and the policy agreed, and the store is asked
    to record every run and every refusal at once. *)

From S2P Require Import Prelude PyText PyJson Base Authoring Runtime Events Triage Composer Subject.
From S2P Require Import LabStore LabTurn.

(** ** Turn state *)

Inductive LabTurnTerminalName :=
  | ANSWERED | PROPOSED | BUDGET_EXHAUSTED | REPEATED_REFUSAL | PROVIDER_FAILED | CANCELLED.
Definition LabTurnTerminalName_value (n : LabTurnTerminalName) : string :=
  match n with
  | ANSWERED => "answered" | PROPOSED => "proposed" | BUDGET_EXHAUSTED => "budget_exhausted"
  | REPEATED_REFUSAL => "repeated_refusal" | PROVIDER_FAILED => "provider_failed"
  | CANCELLED => "cancelled"
  end.

Inductive TurnBudget := TOOL_CALLS | ROUND_TRIPS | WALL_SECONDS | REFUSALS.

Record LabTurnState := MkTurnState {
  ts_transcript : list json;
  ts_provider_round_trips : Z;
  ts_tool_calls : Z;
  ts_refusals : Z;
  ts_proposed : bool;
  ts_returned_refs : list string;
  ts_refusal_digests : list string;
  ts_input_tokens : Z;
  ts_output_tokens : Z;
  ts_total_tokens : Z
}.

Definition initial_state (transcript : list json) : LabTurnState :=
  MkTurnState transcript 0 0 0 false [] [] 0 0 0.

Record LabTurnTerminal := MkTerminal {
  tt_name : LabTurnTerminalName;
  tt_content : string;
  tt_complete : bool;
  tt_error : option LabAgentError;
  tt_budget : option TurnBudget;
  tt_returned_refs : list string;
  tt_provider_round_trips : Z;
  tt_tool_calls : Z;
  tt_refusals : Z;
  tt_usage : list (string * Z)
}.

Definition usage (s : LabTurnState) : list (string * Z) :=
  [("input_tokens", ts_input_tokens s); ("output_tokens", ts_output_tokens s);
   ("total_tokens", ts_total_tokens s)].

(** [LabAgentLoop._terminal]. *)
Definition terminal (s : LabTurnState) (name : LabTurnTerminalName) (content : string) (complete : bool)
    (error : option LabAgentError) (budget : option TurnBudget) : LabTurnTerminal :=
  MkTerminal name content complete error budget (ts_returned_refs s) (ts_provider_round_trips s)
    (ts_tool_calls s) (ts_refusals s) (usage s).

Definition add_transcript (items : list json) (s : LabTurnState) : LabTurnState :=
  MkTurnState (ts_transcript s ++ items) (ts_provider_round_trips s) (ts_tool_calls s) (ts_refusals s)
    (ts_proposed s) (ts_returned_refs s) (ts_refusal_digests s) (ts_input_tokens s) (ts_output_tokens s)
    (ts_total_tokens s).
Definition count_round_trip (s : LabTurnState) : LabTurnState :=
  MkTurnState (ts_transcript s) (ts_provider_round_trips s + 1) (ts_tool_calls s) (ts_refusals s)
    (ts_proposed s) (ts_returned_refs s) (ts_refusal_digests s) (ts_input_tokens s) (ts_output_tokens s)
    (ts_total_tokens s).
Definition count_tool_call (s : LabTurnState) : LabTurnState :=
  MkTurnState (ts_transcript s) (ts_provider_round_trips s) (ts_tool_calls s + 1) (ts_refusals s)
    (ts_proposed s) (ts_returned_refs s) (ts_refusal_digests s) (ts_input_tokens s) (ts_output_tokens s)
    (ts_total_tokens s).
Definition count_refusal (digest : string) (s : LabTurnState) : LabTurnState :=
  MkTurnState (ts_transcript s) (ts_provider_round_trips s) (ts_tool_calls s) (ts_refusals s + 1)
    (ts_proposed s) (ts_returned_refs s) (digest :: ts_refusal_digests s) (ts_input_tokens s)
    (ts_output_tokens s) (ts_total_tokens s).
Definition record_usage (response : json) (s : LabTurnState) : LabTurnState :=
  MkTurnState (ts_transcript s) (ts_provider_round_trips s) (ts_tool_calls s) (ts_refusals s)
    (ts_proposed s) (ts_returned_refs s) (ts_refusal_digests s)
    (ts_input_tokens s + usage_of "input_tokens" response)
    (ts_output_tokens s + usage_of "output_tokens" response)
    (ts_total_tokens s + usage_of "total_tokens" response).
Definition add_returned (name : string) (refs : list string) (s : LabTurnState) : LabTurnState :=
  MkTurnState (ts_transcript s) (ts_provider_round_trips s) (ts_tool_calls s) (ts_refusals s)
    (ts_proposed s || (name ==b "propose_draft")) (ts_returned_refs s ++ refs) (ts_refusal_digests s)
    (ts_input_tokens s) (ts_output_tokens s) (ts_total_tokens s).

(** ** Programs *)

(** How a tool call ended: a result, [LabToolRejected], or another exception. *)
Inductive ToolOutcome :=
  | ToolReturned (r : LabToolResult)
  | ToolRejected (e : LabAgentError)
  | ToolRaised (e : exn).

(** The arguments of [append_tool_trace]. *)
Record TraceRequest := MkTraceRequest {
  tq_session_id : string;
  tq_workspace_id : string;
  tq_turn_sequence : Z;
  tq_tool_name : string;
  tq_arguments : list (string * json);
  tq_requested_refs : list string;
  tq_returned_refs : list string;
  tq_outcome : string;
  tq_refusal_code : option string
}.

Definition Arguments : Type := list (string * json).

Inductive program (A : Type) :=
  | Done (r : result A)
  | Clock (k : Z → program A)
  | Probe (k : bool → program A)
  | Invoke (request : json) (k : result json → program A)
  | RunTool (name : string) (arguments : Arguments) (k : ToolOutcome → program A)
  | Record_ (t : TraceRequest) (k : result unit → program A)
  | CheckScope (name : string) (arguments : Arguments) (k : result (option LabAgentError) → program A)
  | CheckClass (name : string) (arguments : Arguments) (k : result (option LabAgentError) → program A)
  | Emit (event : json) (k : program A)
  | Diverged.
Arguments Done {A} r.
Arguments Clock {A} k.
Arguments Probe {A} k.
Arguments Invoke {A} request k.
Arguments RunTool {A} name arguments k.
Arguments Record_ {A} t k.
Arguments CheckScope {A} name arguments k.
Arguments CheckClass {A} name arguments k.
Arguments Emit {A} event k.
Arguments Diverged {A}.

#[export] Instance program_ret : MRet program := λ A a, Done (Ok a).
Fixpoint program_bind_go {A B} (f : A → program B) (p : program A) : program B :=
  match p with
  | Done (Ok a) => f a
  | Done (Raise e) => Done (Raise e)
  | Clock k => Clock (λ r, program_bind_go f (k r))
  | Probe k => Probe (λ r, program_bind_go f (k r))
  | Invoke q k => Invoke q (λ r, program_bind_go f (k r))
  | RunTool n a k => RunTool n a (λ r, program_bind_go f (k r))
  | Record_ t k => Record_ t (λ r, program_bind_go f (k r))
  | CheckScope n a k => CheckScope n a (λ r, program_bind_go f (k r))
  | CheckClass n a k => CheckClass n a (λ r, program_bind_go f (k r))
  | Emit e k => Emit e (program_bind_go f k)
  | Diverged => Diverged
  end.
#[export] Instance program_bind : MBind program := @program_bind_go.

Definition attempt {A} (r : result A) : program A := Done r.
Definition read_clock : program Z := Clock (λ t, Done (Ok t)).
Definition cancelled : program bool := Probe (λ b, Done (Ok b)).
Definition emit (event : json) : program unit := Emit event (Done (Ok tt)).
Definition append_tool_trace (t : TraceRequest) : program unit := Record_ t Done.
Definition check_scope (name : string) (arguments : Arguments) : program (option LabAgentError) :=
  CheckScope name arguments Done.
Definition check_classification (name : string) (arguments : Arguments) : program (option LabAgentError) :=
  CheckClass name arguments Done.

(** ** Serving tool calls *)

Section loop.
Context `{PyRuntime} `{JsonLoads} `{ResponseModels}.

(** The turn's fixed parts. *)
Variables (catalog : list (string * LabTool)) (instructions : string) (envelope : LabAgentEnvelope).

Definition effective : list (string * LabTool) := offered_tools catalog (form (env_scope envelope)).
Definition turn_sequence : Z :=
  match map am_sequence (env_history envelope) with [] => 1 | n :: rest => foldl Z.max n rest end.
Definition limits : LabAgentTurnLimits := env_limits envelope.

Definition trace_request (name : string) (arguments : Arguments) (requested returned : list string)
    (outcome : string) (refusal_code : option string) : TraceRequest :=
  MkTraceRequest (env_session_id envelope) (scope_workspace_id (env_scope envelope)) turn_sequence name
    arguments requested returned outcome refusal_code.

Definition append_refusal_trace (name : string) (arguments : Arguments) (error : LabAgentError)
    : program unit :=
  append_tool_trace (trace_request name arguments [] [] "refused"
    (Some (LabAgentErrorCode_value (le_code error)))).

Definition call_item (call : ProviderFunctionCall) : json := JObj [
  ("type", JStr "function_call"); ("call_id", JStr (fc_call_id call)); ("name", JStr (fc_name call));
  ("arguments", JStr (fc_arguments call))].
Definition output_item (call : ProviderFunctionCall) (output : string) : json := JObj [
  ("type", JStr "function_call_output"); ("call_id", JStr (fc_call_id call)); ("output", JStr output)].

(** [_refuse]: the digest that identifies a repeated refusal. *)
Definition refusal_digest (call : ProviderFunctionCall) (arguments : Arguments) (error : LabAgentError)
    : string :=
  sha256_json (JObj [("tool_name", JStr (fc_name call)); ("arguments", JObj arguments);
    ("refusal_code", JStr (LabAgentErrorCode_value (le_code error)))]).

Definition refuse (call : ProviderFunctionCall) (arguments : Arguments) (error : LabAgentError)
    (s : LabTurnState) : program (option LabTurnTerminal * LabTurnState) :=
  let digest := refusal_digest call arguments error in
  let repeated := digest ∈b ts_refusal_digests s in
  append_refusal_trace (fc_name call) arguments error;;
  let output := canonical_json (JObj [("error", error_payload error)]) in
  let s := add_transcript [output_item call output] (count_refusal digest s) in
  mret (if repeated then Some (terminal s REPEATED_REFUSAL output false (Some error) None) else None, s).

Definition refuse_and_maybe_terminate (guard : TurnBudgetGuard) (call : ProviderFunctionCall)
    (arguments : Arguments) (error : LabAgentError) (s : LabTurnState)
    : program (option LabTurnTerminal * LabTurnState) :=
  '(ended, s) ← refuse call arguments error s;
  mret (match ended with
    | Some t => Some t
    | None => if refusal_exhausted guard (ts_refusals s)
              then Some (terminal s BUDGET_EXHAUSTED "" false (Some error) (Some REFUSALS)) else None
    end, s).

(** Both denials are computed before the first is considered. *)
Definition deny_budget (guard : TurnBudgetGuard) (call : ProviderFunctionCall) (arguments : Arguments)
    (s : LabTurnState) : program (option LabTurnTerminal) :=
  now ← read_clock;
  let denials := [
    (tool_call_denied guard (ts_tool_calls s), BUDGET_TOOL_CALLS_EXHAUSTED, TOOL_CALLS);
    (wall_exhausted guard now, BUDGET_WALL_TIME_EXHAUSTED, WALL_SECONDS)] in
  match find_first (λ d, d.1.1) denials with
  | None => mret None
  | Some (_, code, budget) =>
      error ← attempt (refusal_error code (fc_name call) []);
      append_refusal_trace (fc_name call) arguments error;;
      mret (Some (terminal s BUDGET_EXHAUSTED "" false (Some error) (Some budget)))
  end.

Definition tool_event (call : ProviderFunctionCall) (status : string) (rest : list (string * json)) : json :=
  JObj ([("type", JStr "tool"); ("source", JStr "live"); ("id", JStr (fc_call_id call));
         ("name", JStr (fc_name call)); ("status", JStr status)] ++ rest).

Definition execute_tool (guard : TurnBudgetGuard) (call : ProviderFunctionCall) (arguments : Arguments)
    (s : LabTurnState) : program (option LabTurnTerminal * LabTurnState) :=
  emit (tool_event call "running" [("argumentsSummary", JStr (canonical_json (JObj arguments)))]);;
  RunTool (fc_name call) arguments (λ outcome,
    match outcome with
    | ToolRejected error =>
        emit (tool_event call "failed" []);;
        refuse_and_maybe_terminate guard call arguments error s
    | ToolRaised _ =>
        append_tool_trace (trace_request (fc_name call) arguments [] [] "failed" None);;
        emit (tool_event call "failed" []);;
        mret (Some (terminal s PROVIDER_FAILED "A tool não devolveu um resultado utilizável." false None None), s)
    | ToolReturned r =>
        append_tool_trace (trace_request (fc_name call) arguments (tr_requested_refs r) (tr_returned_refs r)
                             "completed" None);;
        let output := canonical_json (tr_content r) in
        let s := add_transcript [output_item call output]
                   (add_returned (fc_name call) (tr_returned_refs r) s) in
        emit (tool_event call "completed" [("resultSummary", JStr output)]);;
        stop ← cancelled;
        mret (if stop : bool
              then Some (terminal s CANCELLED "Turno cancelado após registrar o trabalho parcial." false None None)
              else None, s)
    end).

Definition known_tool (call : ProviderFunctionCall) (tools : list (string * LabTool)) : option LabTool :=
  snd <$> find_first (λ e, e.1 ==b fc_name call) tools.

(** The five stages of one call: catalog, budget, schema, scope, classification. *)
Definition serve_call (guard : TurnBudgetGuard) (call : ProviderFunctionCall) (s : LabTurnState)
    : program (option LabTurnTerminal * LabTurnState) :=
  '(arguments, parse_error) ← attempt (parse_arguments (fc_arguments call) (fc_name call));
  let s := add_transcript [call_item call] s in
  match known_tool call effective with
  | None =>
      let code := if bool_decide (is_Some (known_tool call catalog))
                  then CATALOG_TOOL_NOT_OFFERED else CATALOG_TOOL_UNKNOWN in
      error ← attempt (refusal_error code (fc_name call) []);
      refuse_and_maybe_terminate guard call arguments error s
  | Some tool =>
      let s := count_tool_call s in
      denied ← deny_budget guard call arguments s;
      match denied with
      | Some t => mret (Some t, s)
      | None =>
          error ← match parse_error with
                  | Some e => mret (Some e)
                  | None => attempt (validate_schema (tool_schema tool) arguments (fc_name call))
                  end;
          error ← match error with Some e => mret (Some e) | None => check_scope (fc_name call) arguments end;
          error ← match error with Some e => mret (Some e) | None => check_classification (fc_name call) arguments end;
          match error with
          | Some e => refuse_and_maybe_terminate guard call arguments e s
          | None => execute_tool guard call arguments s
          end
      end
  end.

Fixpoint serve (guard : TurnBudgetGuard) (calls : list ProviderFunctionCall) (s : LabTurnState)
    : program (option LabTurnTerminal * LabTurnState) :=
  match calls with
  | [] => mret (None, s)
  | call :: rest =>
      '(ended, s) ← serve_call guard call s;
      match ended with
      | Some t => mret (Some t, s)
      | None => serve guard rest s
      end
  end.

(** ** The loop *)

Definition role_name (r : LabAgentMessageRole) : string :=
  match r with ROLE_HUMAN => "user" | ROLE_AGENT => "assistant" | ROLE_SYSTEM_NOTE => "developer" end.

Definition initial_transcript : list json :=
  map (λ m, JObj [("role", JStr (role_name (am_role m))); ("content", JStr (am_content m))])
    (env_history envelope).

Definition turn_request (s : LabTurnState) : json := JObj [
  ("input", JArr (ts_transcript s));
  ("instructions", JStr instructions);
  ("tools", jlist (λ e, JObj [("type", JStr "function"); ("name", JStr e.1);
     ("parameters", tool_schema e.2); ("strict", JBool true)]) effective);
  ("tool_choice", JStr "auto");
  ("max_output_tokens", JInt (max_output_tokens_per_round_trip limits))].

Definition boundary_terminal (guard : TurnBudgetGuard) (s : LabTurnState) : program (option LabTurnTerminal) :=
  stop ← cancelled;
  if stop : bool then
    mret (Some (terminal s CANCELLED "Turno cancelado; o trabalho exibido é parcial." false None None))
  else
    now ← read_clock;
    mret (if wall_exhausted guard now
          then Some (terminal s BUDGET_EXHAUSTED "" false None (Some WALL_SECONDS)) else None).

Definition status_event (label : string) : json :=
  JObj [("type", JStr "status"); ("source", JStr "live"); ("label", JStr label)].

Definition finish (t : LabTurnTerminal) : program LabTurnTerminal :=
  match tt_error t with
  | Some error =>
      emit (JObj [("type", JStr "error"); ("source", JStr "live"); ("message", JStr (le_message error));
        ("code", JStr (LabAgentErrorCode_value (le_code error)));
        ("remediation", JStr (le_remediation error))])
  | None =>
      match tt_name t with
      | PROVIDER_FAILED =>
          emit (JObj [("type", JStr "error"); ("source", JStr "live"); ("message", JStr (tt_content t))])
      | _ => mret tt
      end
  end;;
  emit (status_event (LabTurnTerminalName_value (tt_name t)));;
  emit (JObj [("type", JStr "done"); ("source", JStr "live")]);;
  mret t.

(** [except ProviderRequestError, ValueError, TypeError, KeyError]. *)
Definition is_unusable (e : exn) : bool :=
  match e with
  | ProviderRequestError _ | ValueError _ | ValidationError _ | TriageRejected _ | TypeError _ | KeyError _ => true
  | _ => false
  end.

Definition unusable (s : LabTurnState) : LabTurnTerminal :=
  terminal s PROVIDER_FAILED "O provider não devolveu uma resposta utilizável." false None None.

(** What the [try] block leaves: the counters it reached and the calls, or its exception. *)
Definition read_response (answer : result json) (s : LabTurnState)
    : LabTurnState * result (json * list ProviderFunctionCall) :=
  match answer with
  | Raise e => (s, Raise e)
  | Ok response =>
      let s := count_round_trip s in
      match extract_response_id response with
      | Raise e => (s, Raise e)
      | Ok _ =>
          let s := record_usage response s in
          (s, e ← read_envelope response; calls ← function_calls (rv_output e); Ok (response, calls))
      end
  end.

(** The final text of the turn. *)
Definition answer_turn (response : json) (s : LabTurnState) : program LabTurnTerminal :=
  e ← attempt (read_envelope response);
  let text := strip (extract_output_text e) in
  if text ==b "" then finish (unusable s)
  else
    emit (JObj [("type", JStr "message"); ("source", JStr "live"); ("content", JStr text)]);;
    finish (terminal s (if ts_proposed s then PROPOSED else ANSWERED) text true None None).

(** What follows the provider's answer; [continue] is the next iteration. *)
Definition handle_response (continue : LabTurnState → program LabTurnTerminal) (guard : TurnBudgetGuard)
    (answer : result json) (s : LabTurnState) : program LabTurnTerminal :=
  match read_response answer s with
  | (s, Raise e) => if is_unusable e then finish (unusable s) else Done (Raise e)
  | (s, Ok (response, [])) => answer_turn response s
  | (s, Ok (response, calls)) =>
      '(ended, s) ← serve guard calls s;
      match ended with
      | Some t => finish t
      | None => continue s
      end
  end.

Fixpoint turn_loop (fuel : nat) (guard : TurnBudgetGuard) (s : LabTurnState) : program LabTurnTerminal :=
  match fuel with
  | O => Diverged
  | S fuel =>
      ended ← boundary_terminal guard s;
      match ended with
      | Some t => finish t
      | None =>
          if round_trip_denied guard (ts_provider_round_trips s) then
            finish (terminal s BUDGET_EXHAUSTED "" false None (Some ROUND_TRIPS))
          else
            Invoke (turn_request s) (λ answer, handle_response (turn_loop fuel guard) guard answer s)
      end
  end.

(** One round more than the envelope allows. *)
Definition turn_fuel : nat := S (Z.to_nat (max_provider_round_trips_per_turn limits)).

Definition execute : program LabTurnTerminal :=
  attempt (raise_when (negb (same_set (env_offered_tools envelope) (map fst effective)))
    (ValueError "the envelope does not announce the effective catalog"));;
  started_at ← read_clock;
  emit (status_event "working");;
  turn_loop turn_fuel (MkGuard limits started_at) (initial_state initial_transcript).
End loop.
