(* ===== verification/LabLoopSpec.v ===== *)
(** * The loop of the laboratory agent: its guarantees

    [wp] is the weakest precondition of a program over the log it leaves; it is false of a
    diverging program, so it establishes termination with the postcondition. The loop keeps
    [turn_inv]: the counters of the state agree with the log, every run of a tool was
    authorised and recorded, and the transcript pairs every call with its output. *)

From S2P Require Import Prelude PyText PyJson Base Authoring Runtime Events Triage Composer Subject.
From S2P Require Import Samples LabStore LabTurn LabLoop.

(** ** Logs *)

Inductive lab_event :=
  | EvClock (t : Z)
  | EvProbe (b : bool)
  | EvInvoke (request : json) (answer : result json)
  | EvTool (name : string) (arguments : LabLoop.Arguments) (outcome : ToolOutcome)
  | EvRecord (t : TraceRequest) (r : result unit)
  | EvScope (name : string) (arguments : LabLoop.Arguments) (r : result (option LabAgentError))
  | EvClass (name : string) (arguments : LabLoop.Arguments) (r : result (option LabAgentError))
  | EvEmit (event : json).

(** A program leaves a log and ends with a result. *)
Inductive plays {A} : program A → list lab_event → result A → Prop :=
  | plays_done r : plays (Done r) [] r
  | plays_clock k t l r : plays (k t) l r → plays (Clock k) (EvClock t :: l) r
  | plays_probe k b l r : plays (k b) l r → plays (Probe k) (EvProbe b :: l) r
  | plays_invoke q k a l r : plays (k a) l r → plays (Invoke q k) (EvInvoke q a :: l) r
  | plays_tool n a k o l r : plays (k o) l r → plays (RunTool n a k) (EvTool n a o :: l) r
  | plays_record t k x l r : plays (k x) l r → plays (Record_ t k) (EvRecord t x :: l) r
  | plays_scope n a k x l r : plays (k x) l r → plays (CheckScope n a k) (EvScope n a x :: l) r
  | plays_class n a k x l r : plays (k x) l r → plays (CheckClass n a k) (EvClass n a x :: l) r
  | plays_emit e k l r : plays k l r → plays (Emit e k) (EvEmit e :: l) r.

(** Whatever it is answered, the program ends. *)
Inductive settles {A} : program A → Prop :=
  | settles_done r : settles (Done r)
  | settles_clock k : (∀ t, settles (k t)) → settles (Clock k)
  | settles_probe k : (∀ b, settles (k b)) → settles (Probe k)
  | settles_invoke q k : (∀ a, settles (k a)) → settles (Invoke q k)
  | settles_tool n a k : (∀ o, settles (k o)) → settles (RunTool n a k)
  | settles_record t k : (∀ x, settles (k x)) → settles (Record_ t k)
  | settles_scope n a k : (∀ x, settles (k x)) → settles (CheckScope n a k)
  | settles_class n a k : (∀ x, settles (k x)) → settles (CheckClass n a k)
  | settles_emit e k : settles k → settles (Emit e k).

(** ** Weakest preconditions *)

Fixpoint wp {A} (p : program A) (Q : list lab_event → result A → Prop) (l : list lab_event) : Prop :=
  match p with
  | Done r => Q l r
  | Clock k => ∀ t, wp (k t) Q (l ++ [EvClock t])
  | Probe k => ∀ b, wp (k b) Q (l ++ [EvProbe b])
  | Invoke q k => ∀ a, wp (k a) Q (l ++ [EvInvoke q a])
  | RunTool n a k => ∀ o, wp (k o) Q (l ++ [EvTool n a o])
  | Record_ t k => ∀ x, wp (k x) Q (l ++ [EvRecord t x])
  | CheckScope n a k => ∀ x, wp (k x) Q (l ++ [EvScope n a x])
  | CheckClass n a k => ∀ x, wp (k x) Q (l ++ [EvClass n a x])
  | Emit e k => wp k Q (l ++ [EvEmit e])
  | Diverged => False
  end.

Definition next {A B} (f : A → program B) (Q : list lab_event → result B → Prop)
    (l : list lab_event) (r : result A) : Prop :=
  match r with Ok a => wp (f a) Q l | Raise e => Q l (Raise e) end.

Lemma wp_bind {A B} (p : program A) (f : A → program B) Q l :
  wp p (next f Q) l → wp (p ≫= f) Q l.
Proof.
  unfold mbind, program_bind. revert l. induction p as [[a|e]| | | | | | | | |]; cbn; auto.
Qed.

Lemma wp_mono {A} (p : program A) (Q Q' : list lab_event → result A → Prop) l :
  (∀ l r, Q l r → Q' l r) → wp p Q l → wp p Q' l.
Proof. intros HQ. revert l. induction p; cbn; auto. Qed.

(** The log only grows. *)
Lemma wp_extends {A} (p : program A) Q l :
  wp p Q l → wp p (λ l' r, Q l' r ∧ l `prefix_of` l') l.
Proof.
  cut (∀ l0, l0 `prefix_of` l → wp p Q l → wp p (λ l' r, Q l' r ∧ l0 `prefix_of` l') l); [eauto|].
  revert l. induction p; cbn; intros l l0 Hl Hw; eauto using prefix_app_r; done.
Qed.

Lemma wp_plays {A} (p : program A) Q l log r : wp p Q l → plays p log r → Q (l ++ log) r.
Proof.
  intros Hw Hp. revert l Hw. induction Hp; cbn; intros l' Hw; [by rewrite app_nil_r|..];
    rewrite cons_middle, app_assoc; auto.
Qed.

Lemma wp_settles {A} (p : program A) Q l : wp p Q l → settles p.
Proof. revert l. induction p; cbn; intros l Hw; try constructor; eauto. done. Qed.

(** ** What a log must satisfy *)

Definition invokes (l : list lab_event) : nat :=
  length (List.filter (λ e, match e with EvInvoke _ _ => true | _ => false end) l).
Definition runs (l : list lab_event) : nat :=
  length (List.filter (λ e, match e with EvTool _ _ _ => true | _ => false end) l).
Definition records (l : list lab_event) : nat :=
  length (List.filter (λ e, match e with EvRecord _ _ => true | _ => false end) l).

Definition is_act (e : lab_event) : bool :=
  match e with EvTool _ _ _ | EvRecord _ _ => true | _ => false end.
Definition acts (l : list lab_event) : list lab_event := List.filter is_act l.

(** The record a run of a tool must be followed by. *)
Definition reports (t : TraceRequest) (o : ToolOutcome) : Prop :=
  match o with
  | ToolReturned r => tq_outcome t = "completed" ∧ tq_requested_refs t = tr_requested_refs r
      ∧ tq_returned_refs t = tr_returned_refs r ∧ tq_refusal_code t = None
  | ToolRejected e => tq_outcome t = "refused"
      ∧ tq_refusal_code t = Some (LabAgentErrorCode_value (le_code e))
  | ToolRaised _ => tq_outcome t = "failed" ∧ tq_refusal_code t = None
  end.

(** Runs and records alternate: nothing runs unrecorded. *)
Inductive audited : list lab_event → Prop :=
  | audited_nil : audited []
  | audited_refusal t r l : tq_outcome t = "refused" → is_Some (tq_refusal_code t) → audited l →
      audited (l ++ [EvRecord t r])
  | audited_run n a o t r l : tq_tool_name t = n → tq_arguments t = a → reports t o → audited l →
      audited (l ++ [EvTool n a o; EvRecord t r]).

Lemma filter_snoc {A} (p : A → bool) l x :
  List.filter p (l ++ [x]) = List.filter p l ++ (if p x then [x] else []).
Proof. by rewrite List.filter_app. Qed.

Section spec.
Context `{PyRuntime} `{JsonLoads} `{ResponseModels}.
Variables (catalog : list (string * LabTool)) (instructions : string) (envelope : LabAgentEnvelope).

(** Why a tool may run: it is offered, the arguments fit its schema exactly, and both checks
    of the policy agreed before. *)
Definition authorised (l : list lab_event) (n : string) (a : LabLoop.Arguments) : Prop :=
  (∃ tool, (n, tool) ∈ effective catalog envelope ∧ validate_schema (tool_schema tool) a n = Ok None)
  ∧ EvScope n a (Ok None) ∈ l ∧ EvClass n a (Ok None) ∈ l.

(** Every call is followed by its output. *)
Inductive paired : list json → Prop :=
  | paired_nil : paired []
  | paired_snoc call output items :
      paired items → paired (items ++ [call_item call; output_item call output]).

Definition whole_transcript (items : list json) : Prop :=
  ∃ tail, paired tail ∧ items = initial_transcript envelope ++ tail.

Definition step_ok (l : list lab_event) (e : lab_event) : Prop :=
  match e with
  | EvTool n a _ => authorised l n a
  | EvInvoke q _ => ∃ items, whole_transcript items ∧ jget "input" q = Some (JArr items)
  | _ => True
  end.

Definition all_ok (l : list lab_event) : Prop := ∀ l1 e l2, l = l1 ++ e :: l2 → step_ok l1 e.

Lemma all_ok_snoc l e : all_ok l → step_ok l e → all_ok (l ++ [e]).
Proof.
  intros Hl He l1 x l2 E. induction l2 as [|y l2 _] using rev_ind.
  - apply app_inj_tail in E as [-> ->]. done.
  - rewrite app_comm_cons, app_assoc in E. apply app_inj_tail in E as [E _]. by eapply Hl.
Qed.
(** ** Counting *)

(** The calls the provider's answers asked for. *)
Definition calls_of (response : json) : list ProviderFunctionCall :=
  match e ← read_envelope response; function_calls (rv_output e) with Ok calls => calls | Raise _ => [] end.

Fixpoint requested (l : list lab_event) : nat :=
  match l with
  | [] => 0
  | EvInvoke _ (Ok response) :: rest => length (calls_of response) + requested rest
  | _ :: rest => requested rest
  end.

Lemma requested_app l k : requested (l ++ k) = requested l + requested k.
Proof. induction l as [|[| |? [?|]| | | | |] l IH]; cbn; lia. Qed.

Lemma invokes_snoc l e :
  invokes (l ++ [e]) = invokes l + match e with EvInvoke _ _ => 1 | _ => 0 end.
Proof. unfold invokes. rewrite filter_snoc, length_app. by destruct e. Qed.
Lemma runs_snoc l e : runs (l ++ [e]) = runs l + match e with EvTool _ _ _ => 1 | _ => 0 end.
Proof. unfold runs. rewrite filter_snoc, length_app. by destruct e. Qed.
Lemma records_snoc l e : records (l ++ [e]) = records l + match e with EvRecord _ _ => 1 | _ => 0 end.
Proof. unfold records. rewrite filter_snoc, length_app. by destruct e. Qed.
Lemma acts_snoc l e : acts (l ++ [e]) = acts l ++ (if is_act e then [e] else []).
Proof. apply filter_snoc. Qed.

(** An event that is neither a round trip nor an act. *)
Definition quiet (e : lab_event) : bool :=
  match e with EvInvoke _ _ | EvTool _ _ _ | EvRecord _ _ => false | _ => true end.

Lemma quiet_facts l e : quiet e = true →
  (∀ k, step_ok k e) ∧ acts (l ++ [e]) = acts l ∧ invokes (l ++ [e]) = invokes l
  ∧ runs (l ++ [e]) = runs l ∧ records (l ++ [e]) = records l ∧ requested (l ++ [e]) = requested l.
Proof.
  intros He. rewrite acts_snoc, invokes_snoc, runs_snoc, records_snoc, requested_app.
  destruct e; try done; cbn; rewrite ?app_nil_r; split_and!; done || lia.
Qed.

(** ** Invariants *)

(** What holds of every log, however the turn ended. *)
Record sound (l : list lab_event) : Prop := {
  so_ok : all_ok l;
  so_audited : audited (acts l);
  so_invokes : (Z.of_nat (invokes l) <= max_provider_round_trips_per_turn (limits envelope))%Z;
  so_runs : (Z.of_nat (runs l) <= max_tool_calls_per_turn (limits envelope))%Z
}.

(** The turn may still refuse. *)
Definition may_refuse (s : LabTurnState) : Prop :=
  (ts_refusals s < max_refusals_per_turn (limits envelope))%Z.

(** What holds of a turn that ended with a terminal. *)
Record ended_ok (l : list lab_event) (t : LabTurnTerminal) : Prop := {
  eo_sound : sound l;
  eo_rounds : (tt_provider_round_trips t <= Z.of_nat (invokes l))%Z;
  eo_calls : (tt_tool_calls t <= max_tool_calls_per_turn (limits envelope) + 1)%Z;
  eo_refusals : (0 <= tt_refusals t <= max_refusals_per_turn (limits envelope))%Z;
  eo_records : tt_complete t = true → records l = requested l
}.

Definition ended (l : list lab_event) (r : result LabTurnTerminal) : Prop :=
  match r with Ok t => ended_ok l t | Raise _ => sound l end.

(** The counters in the middle of serving [call], [n] calls being left after it. *)
Record serving (n : nat) (l : list lab_event) (s : LabTurnState) (call : ProviderFunctionCall) : Prop := {
  sv_ok : all_ok l;
  sv_invokes : Z.of_nat (invokes l) = ts_provider_round_trips s;
  sv_rounds : (ts_provider_round_trips s <= max_provider_round_trips_per_turn (limits envelope))%Z;
  sv_runs : (Z.of_nat (runs l) <= ts_tool_calls s)%Z;
  sv_calls : (ts_tool_calls s <= max_tool_calls_per_turn (limits envelope))%Z;
  sv_refusals : (0 <= ts_refusals s <= max_refusals_per_turn (limits envelope))%Z;
  sv_records : records l + S n = requested l;
  sv_transcript : ∃ items, whole_transcript items ∧ ts_transcript s = items ++ [call_item call]
}.

(** Between two calls, [n] calls being left. *)
Record turn_inv (n : nat) (l : list lab_event) (s : LabTurnState) : Prop := {
  ti_ok : all_ok l;
  ti_audited : audited (acts l);
  ti_invokes : Z.of_nat (invokes l) = ts_provider_round_trips s;
  ti_rounds : (ts_provider_round_trips s <= max_provider_round_trips_per_turn (limits envelope))%Z;
  ti_runs : (Z.of_nat (runs l) <= ts_tool_calls s)%Z;
  ti_calls : (ts_tool_calls s <= max_tool_calls_per_turn (limits envelope))%Z;
  ti_refusals : (0 <= ts_refusals s <= max_refusals_per_turn (limits envelope))%Z;
  ti_records : records l + n = requested l;
  ti_transcript : whole_transcript (ts_transcript s)
}.

Definition served (n : nat) (l : list lab_event) (r : result (option LabTurnTerminal * LabTurnState)) : Prop :=
  match r with
  | Ok (None, s) => turn_inv n l s ∧ may_refuse s
  | Ok (Some t, _) => ended_ok l t ∧ tt_complete t = false
  | Raise _ => sound l
  end.

Lemma sound_quiet l e : quiet e = true → sound l → sound (l ++ [e]).
Proof.
  intros He [O A I R]. destruct (quiet_facts l e He) as (Hs & Ea & Ei & Er & _ & _).
  split; rewrite ?Ea, ?Ei, ?Er; try done. by apply all_ok_snoc.
Qed.

Lemma ended_quiet l e t : quiet e = true → ended_ok l t → ended_ok (l ++ [e]) t.
Proof.
  intros He [S O C R K]. destruct (quiet_facts l e He) as (Hs & Ea & Ei & Er & Ec & Eq).
  split; rewrite ?Ei, ?Ec, ?Eq; try done. by apply sound_quiet.
Qed.

Lemma turn_inv_quiet n l s e : quiet e = true → turn_inv n l s → turn_inv n (l ++ [e]) s.
Proof.
  intros He []. destruct (quiet_facts l e He) as (Hs & Ea & Ei & Er & Ec & Eq).
  split; rewrite ?Ea, ?Ei, ?Er, ?Ec, ?Eq; try done. by apply all_ok_snoc.
Qed.

Lemma serving_quiet n l s call e : quiet e = true → serving n l s call → serving n (l ++ [e]) s call.
Proof.
  intros He []. destruct (quiet_facts l e He) as (Hs & Ea & Ei & Er & Ec & Eq).
  split; rewrite ?Ei, ?Er, ?Ec, ?Eq; try done. by apply all_ok_snoc.
Qed.

(** After the record of the call, the counters and the log are those of a served call. *)
Lemma serving_recorded n l s call t r output :
  serving n l s call → audited (acts (l ++ [EvRecord t r])) →
  turn_inv n (l ++ [EvRecord t r]) (add_transcript [output_item call output] s).
Proof.
  intros [] Ha. split; cbn; try done.
  - by apply all_ok_snoc.
  - by rewrite invokes_snoc, Nat.add_0_r.
  - by rewrite runs_snoc, Nat.add_0_r.
  - rewrite records_snoc, requested_app. cbn. lia.
  - destruct sv_transcript0 as (items & (tail & Hp & ->) & ->).
    exists (tail ++ [call_item call; output_item call output]). split; [by constructor|].
    by rewrite <- !app_assoc.
Qed.

Lemma turn_inv_sound n l s : turn_inv n l s → sound l.
Proof. intros []. split; try done; lia. Qed.

(** A terminal built from the counters of a served call. *)
Lemma turn_inv_ended n l s name content error budget :
  turn_inv n l s → ended_ok l (terminal s name content false error budget).
Proof. intros Hi. pose proof (turn_inv_sound _ _ _ Hi). destruct Hi. split; cbn; try done; lia. Qed.

(** ** Serving a call *)

(** Compute the precondition up to the next operation. *)
Ltac wp_step := cbn [next wp served ended mret program_ret attempt].

Lemma serving_counted n l s call digest :
  serving n l s call → may_refuse s → serving n l (count_refusal digest s) call.
Proof. unfold may_refuse. intros [] Hm. split; cbn; try done; lia. Qed.

Definition refusal_request (call : ProviderFunctionCall) (arguments : LabLoop.Arguments)
    (error : LabAgentError) : TraceRequest :=
  trace_request envelope (fc_name call) arguments [] [] "refused"
    (Some (LabAgentErrorCode_value (le_code error))).

Lemma refuse_spec guard call arguments error s n l :
  guard_limits guard = limits envelope → serving n l s call → may_refuse s →
  (∀ r, audited (acts (l ++ [EvRecord (refusal_request call arguments error) r]))) →
  wp (refuse_and_maybe_terminate envelope guard call arguments error s) (served n) l.
Proof.
  intros Hg Hs Hm Ha. unfold refuse_and_maybe_terminate, refuse, append_refusal_trace, append_tool_trace.
  do 2 apply wp_bind. cbn [wp]. fold (refusal_request call arguments error). intros r.
  set (digest := refusal_digest call arguments error).
  set (output := canonical_json _).
  pose proof (serving_recorded n l _ call _ r output (serving_counted _ _ _ _ digest Hs Hm) (Ha r)) as Hi.
  destruct r as [[]|e]; wp_step; [|by eapply turn_inv_sound].
  case_bool_decide; wp_step.
  - split; [by eapply turn_inv_ended|done].
  - unfold refusal_exhausted. rewrite Hg. destruct (_ <=? _)%Z eqn:E; wp_step.
    + split; [by eapply turn_inv_ended|done].
    + split; [done|]. apply Z.leb_gt in E. exact E.
Qed.

Lemma audited_refused l t r :
  audited (acts l) → tq_outcome t = "refused" → is_Some (tq_refusal_code t) →
  audited (acts (l ++ [EvRecord t r])).
Proof. intros Ha Ho Hc. rewrite acts_snoc. by constructor. Qed.

Lemma audited_reported l n a o t r :
  audited (acts l) → tq_tool_name t = n → tq_arguments t = a → reports t o →
  audited (acts ((l ++ [EvTool n a o]) ++ [EvRecord t r])).
Proof. intros Ha Hn Hargs Ho. rewrite !acts_snoc, <- app_assoc. by constructor. Qed.

(** Serving with the log unchanged, in the state of the call being counted. *)
Lemma begin_call n l s call :
  turn_inv (S n) l s →
  serving n l (add_transcript [call_item call] s) call.
Proof. intros []. split; cbn; try done. exists (ts_transcript s). done. Qed.

Lemma ran_tool n l s call a o :
  serving n l s call → (Z.of_nat (runs l) < ts_tool_calls s)%Z → authorised l (fc_name call) a →
  serving n (l ++ [EvTool (fc_name call) a o]) s call.
Proof.
  intros [] Hr Ha. split; try done.
  - by apply all_ok_snoc.
  - by rewrite invokes_snoc, Nat.add_0_r.
  - rewrite runs_snoc. lia.
  - rewrite records_snoc, requested_app. cbn. lia.
Qed.

Lemma authorised_snoc l n a e : authorised l n a → authorised (l ++ [e]) n a.
Proof. intros (Ht & Hs & Hc). split_and!; [done|set_solver..]. Qed.

Lemma execute_tool_spec guard call arguments s n l :
  guard_limits guard = limits envelope → serving n l s call → may_refuse s → audited (acts l) →
  (Z.of_nat (runs l) < ts_tool_calls s)%Z → authorised l (fc_name call) arguments →
  wp (execute_tool envelope guard call arguments s) (served n) l.
Proof.
  intros Hg Hs Hm Ha Hr Hauth. unfold execute_tool, emit. apply wp_bind. wp_step.
  apply (serving_quiet _ _ _ _ (EvEmit (tool_event call "running"
    [("argumentsSummary", JStr (canonical_json (JObj arguments)))]))) in Hs; [|done].
  apply (authorised_snoc _ _ _ (EvEmit (tool_event call "running"
    [("argumentsSummary", JStr (canonical_json (JObj arguments)))]))) in Hauth.
  set (l0 := l ++ [EvEmit _]) in *.
  assert (Ha0 : audited (acts l0)) by (unfold l0; by rewrite acts_snoc, app_nil_r).
  assert (Hr0 : (Z.of_nat (runs l0) < ts_tool_calls s)%Z) by (unfold l0; by rewrite runs_snoc, Nat.add_0_r).
  intros o. pose proof (ran_tool n l0 s call arguments o Hs Hr0 Hauth) as Ho.
  destruct o as [r|error|e].
  - unfold append_tool_trace. apply wp_bind. wp_step. intros x.
    set (s1 := add_returned (fc_name call) (tr_returned_refs r) s).
    assert (Ho1 : serving n (l0 ++ [EvTool (fc_name call) arguments (ToolReturned r)]) s1 call)
      by (destruct Ho; by split).
    set (t := trace_request envelope (fc_name call) arguments (tr_requested_refs r) (tr_returned_refs r)
                "completed" None).
    assert (Hrec : audited (acts ((l0 ++ [EvTool (fc_name call) arguments (ToolReturned r)]) ++ [EvRecord t x])))
      by by apply audited_reported.
    apply (serving_recorded _ _ _ _ t x (canonical_json (tr_content r)) Ho1) in Hrec as Hi.
    clear Ho1. rename Hi into Ho1.
    destruct x as [[]|e]; wp_step; [|by eapply turn_inv_sound].
    apply wp_bind. wp_step. apply wp_bind. wp_step. intros b.
    apply (turn_inv_quiet _ _ _ (EvEmit (tool_event call "completed"
      [("resultSummary", JStr (canonical_json (tr_content r)))]))) in Ho1; [|done].
    apply (turn_inv_quiet _ _ _ (EvProbe b)) in Ho1; [|done].
    destruct b; wp_step; [|split; [exact Ho1|exact Hm]].
    split; [by eapply turn_inv_ended|done].
  - apply wp_bind. wp_step. apply refuse_spec; try done; [by apply serving_quiet|].
    intros x. rewrite !acts_snoc. cbn [is_act]. rewrite app_nil_r, <- app_assoc. by constructor.
  - unfold append_tool_trace. apply wp_bind. wp_step. intros x.
    set (t := trace_request envelope (fc_name call) arguments [] [] "failed" None).
    assert (Hrec : audited (acts ((l0 ++ [EvTool (fc_name call) arguments (ToolRaised e)]) ++ [EvRecord t x])))
      by by apply audited_reported.
    apply (serving_recorded _ _ _ _ t x "" Ho) in Hrec as Hi.
    clear Ho. rename Hi into Ho.
    destruct x as [[]|e']; wp_step; [|by eapply turn_inv_sound].
    apply wp_bind. wp_step. split; [|done]. apply ended_quiet; [done|].
    eapply (turn_inv_ended n _ _ PROVIDER_FAILED) in Ho. exact Ho.
Qed.

(** A call that was counted and has not run yet. *)
Record pending (n : nat) (l : list lab_event) (s : LabTurnState) (call : ProviderFunctionCall) : Prop := {
  pd_serving : serving n l s call;
  pd_audited : audited (acts l);
  pd_may : may_refuse s
}.

Lemma pending_quiet n l s call e : quiet e = true → pending n l s call → pending n (l ++ [e]) s call.
Proof.
  intros He [S A M]. split; [by apply serving_quiet| |done].
  by destruct (quiet_facts l e He) as (_ & -> & _).
Qed.

Lemma pending_sound n l s call : pending n l s call → sound l.
Proof. intros [[] A M]. split; try done; lia. Qed.

Lemma refuse_pending guard call arguments error s n l :
  guard_limits guard = limits envelope → pending n l s call →
  wp (refuse_and_maybe_terminate envelope guard call arguments error s) (served n) l.
Proof. intros Hg [S A M]. apply refuse_spec; try done. intros r. by apply audited_refused. Qed.

(** A denied call is recorded before the turn ends. *)
Lemma denied_ended n l s call t r name error budget :
  pending n l (add_transcript [call_item call] s) call →
  tq_outcome t = "refused" → is_Some (tq_refusal_code t) →
  ended_ok (l ++ [EvRecord t r])
    (terminal (count_tool_call (add_transcript [call_item call] s)) name "" false error budget).
Proof.
  intros Hp Ho Hc. pose proof (pending_sound _ _ _ _ Hp) as []. destruct Hp as [[] A M].
  cbn in *. unfold may_refuse in M; cbn in M.
  split; cbn; try done; try lia; [|by rewrite invokes_snoc; lia].
  split; rewrite ?invokes_snoc, ?runs_snoc, ?Nat.add_0_r; try done.
  - by apply all_ok_snoc.
  - by apply audited_refused.
Qed.

Lemma deny_budget_spec guard call arguments s n l (Q : list lab_event → result (option LabTurnTerminal) → Prop) :
  guard_limits guard = limits envelope → pending n l (add_transcript [call_item call] s) call →
  (∀ l', sound l' → ∀ e, Q l' (Raise e)) →
  (∀ l' t, ended_ok l' t → tt_complete t = false → Q l' (Ok (Some t))) →
  (∀ now, (ts_tool_calls s + 1 <= max_tool_calls_per_turn (limits envelope))%Z → Q (l ++ [EvClock now]) (Ok None)) →
  wp (deny_budget envelope guard call arguments (count_tool_call (add_transcript [call_item call] s))) Q l.
Proof.
  intros Hg Hp Hraise Hended Hgo. unfold deny_budget, read_clock. apply wp_bind. wp_step. intros now.
  apply (pending_quiet _ _ _ _ (EvClock now)) in Hp as Hp1; [|done].
  destruct (find_first _ _) as [[[b code] budget]|] eqn:Hf.
  - apply wp_bind. wp_step. destruct (refusal_error code (fc_name call) []) as [error|e]; wp_step.
    + unfold append_refusal_trace, append_tool_trace. apply wp_bind. wp_step. intros r.
      set (t := trace_request envelope _ _ _ _ _ _).
      assert (Ho : tq_outcome t = "refused") by done.
      assert (Hc : is_Some (tq_refusal_code t)) by by eexists.
      pose proof (λ name budget, denied_ended _ _ _ _ t r name (Some error) budget Hp1 Ho Hc) as He.
      destruct r as [[]|e]; wp_step; [by apply Hended|]. apply Hraise.
      by destruct (He BUDGET_EXHAUSTED None).
    + apply Hraise. by eapply pending_sound.
  - wp_step. apply Hgo. rewrite find_first_None in Hf.
    specialize (Hf _ (list_elem_of_here _ _)). cbn in Hf. unfold tool_call_denied in Hf. rewrite Hg in Hf.
    by apply Z.ltb_ge in Hf.
Qed.

Lemma counted_pending n l s call :
  pending n l (add_transcript [call_item call] s) call →
  (ts_tool_calls s + 1 <= max_tool_calls_per_turn (limits envelope))%Z →
  pending n l (count_tool_call (add_transcript [call_item call] s)) call.
Proof. intros [[] A M] Hc. split; [|done..]. split; cbn in *; try done; lia. Qed.

Lemma known_tool_offered call tool :
  known_tool call (effective catalog envelope) = Some tool →
  (fc_name call, tool) ∈ effective catalog envelope.
Proof.
  unfold known_tool. destruct (find_first _ _) as [[name t]|] eqn:E; [|done]. intros [= ->].
  apply find_first_Some in E as [Hin Hn]. cbn in *. bools. by subst.
Qed.

Lemma serve_call_spec guard call s n l :
  guard_limits guard = limits envelope → turn_inv (S n) l s → may_refuse s →
  wp (serve_call catalog envelope guard call s) (served n) l.
Proof.
  intros Hg Hi Hm. pose proof (turn_inv_sound _ _ _ Hi) as Hsound.
  assert (Hp : pending n l (add_transcript [call_item call] s) call)
    by (split; [by apply begin_call|by apply (ti_audited _ _ _ Hi)|done]).
  unfold serve_call. apply wp_bind. wp_step.
  destruct (parse_arguments (fc_arguments call) (fc_name call)) as [[arguments parse_error]|e]; wp_step; [|done].
  destruct (known_tool call (effective catalog envelope)) as [tool|] eqn:Ht.
  - apply wp_bind. apply (deny_budget_spec _ _ _ _ n); try done.
    intros now Hc. wp_step.
    apply (pending_quiet _ _ _ _ (EvClock now)) in Hp; [|done]. apply counted_pending in Hp; [|done].
    assert (Hr : (Z.of_nat (runs (l ++ [EvClock now])) < ts_tool_calls s + 1)%Z)
      by (rewrite runs_snoc, Nat.add_0_r; pose proof (ti_runs _ _ _ Hi); lia).
    set (l1 := l ++ [EvClock now]) in *. set (s1 := count_tool_call _) in *.
    destruct parse_error as [e|].
    { do 3 (apply wp_bind; wp_step). by apply refuse_pending. }
    apply wp_bind. wp_step.
    destruct (validate_schema (tool_schema tool) arguments (fc_name call)) as [[e|]|e] eqn:Hv; wp_step.
    + do 2 (apply wp_bind; wp_step). by apply refuse_pending.
    + apply wp_bind. unfold check_scope, check_classification. wp_step. intros x.
      apply (pending_quiet _ _ _ _ (EvScope (fc_name call) arguments x)) in Hp; [|done].
      destruct x as [[e|]|e]; wp_step; [apply wp_bind; wp_step; by apply refuse_pending| |by eapply pending_sound].
      apply wp_bind. wp_step. intros y.
      apply (pending_quiet _ _ _ _ (EvClass (fc_name call) arguments y)) in Hp; [|done].
      destruct y as [[e|]|e]; wp_step; [by apply refuse_pending| |by eapply pending_sound].
      destruct Hp. apply execute_tool_spec; try done.
      * rewrite !runs_snoc, !Nat.add_0_r. exact Hr.
      * split; [exists tool; split; [by apply known_tool_offered|done]|set_solver].
    + by eapply pending_sound.
  - apply wp_bind. wp_step.
    destruct (refusal_error _ (fc_name call) []) as [error|e]; wp_step; [by apply refuse_pending|done].
Qed.

Lemma serve_spec guard calls s n l :
  guard_limits guard = limits envelope → turn_inv (length calls + n) l s → may_refuse s →
  wp (serve catalog envelope guard calls s) (served n) l.
Proof.
  intros Hg. revert s l. induction calls as [|call calls IH]; intros s l Hi Hm; cbn [serve length] in *.
  - wp_step. done.
  - apply wp_bind. eapply wp_mono; [|by apply (serve_call_spec _ _ _ (length calls + n))].
    intros l' [[[t|] s']|e] Hs; wp_step; [done| |done]. destruct Hs. by apply IH.
Qed.

(** ** The loop *)

Lemma finish_spec t l : ended_ok l t → wp (finish t) ended l.
Proof.
  intros He. unfold finish, emit. apply wp_bind.
  destruct (tt_error t) as [e|]; [|destruct (tt_name t)]; wp_step;
    repeat (apply wp_bind; wp_step); repeat (apply ended_quiet; [done|]); done.
Qed.

Definition invoked (n : nat) (l : list lab_event) (s : LabTurnState)
    (r : result (json * list ProviderFunctionCall)) : Prop :=
  match r with
  | Ok (_, calls) => turn_inv (length calls) l s ∧ may_refuse s
  | Raise _ => ended_ok l (unusable s) ∧ sound l
  end.

Lemma round_trip_sound l s q a :
  turn_inv 0 l s → step_ok l (EvInvoke q a) →
  (ts_provider_round_trips s < max_provider_round_trips_per_turn (limits envelope))%Z →
  sound (l ++ [EvInvoke q a]).
Proof.
  intros [] Hq Hr. split; rewrite ?acts_snoc, ?runs_snoc; cbn; rewrite ?app_nil_r, ?Nat.add_0_r;
    try done; try lia.
  - by apply all_ok_snoc.
  - rewrite invokes_snoc. lia.
Qed.

Lemma read_response_spec l s q a s' r :
  turn_inv 0 l s → may_refuse s → step_ok l (EvInvoke q a) →
  (ts_provider_round_trips s < max_provider_round_trips_per_turn (limits envelope))%Z →
  read_response a s = (s', r) →
  invoked 0 (l ++ [EvInvoke q a]) s' r
  ∧ (is_ok r = true → ts_provider_round_trips s' = ts_provider_round_trips s + 1)%Z.
Proof.
  intros Hi Hm Hq Hr Hread. pose proof (round_trip_sound _ _ _ _ Hi Hq Hr) as Hs.
  assert (Hfail : ∀ s1, (ts_provider_round_trips s1 <= ts_provider_round_trips s + 1)%Z →
    ts_tool_calls s1 = ts_tool_calls s → ts_refusals s1 = ts_refusals s →
    ended_ok (l ++ [EvInvoke q a]) (unusable s1)).
  { intros s1 E1 E2 E3. destruct Hi. split; cbn; rewrite ?E2, ?E3; try done; try lia.
    rewrite invokes_snoc. lia. }
  unfold read_response in Hread. destruct a as [response|e].
  2: { injection Hread as <- <-. split; [split; [by apply Hfail; try lia|done]|done]. }
  destruct (extract_response_id response) as [id|e].
  2: { injection Hread as <- <-. split; [split; [by apply Hfail; cbn; lia|done]|done]. }
  destruct (e ← read_envelope response; calls ← function_calls (rv_output e); Ok (response, calls))
    as [[response' calls]|e] eqn:Hc; injection Hread as <- <-.
  2: { split; [split; [by apply Hfail; cbn; lia|done]|done]. }
  split; [|done]. inv_ok. split; [|exact Hm].
  destruct Hi. split; cbn; rewrite ?acts_snoc, ?runs_snoc, ?records_snoc, ?invokes_snoc; cbn;
    rewrite ?app_nil_r, ?Nat.add_0_r; try done; try lia.
  - by apply all_ok_snoc.
  - rewrite requested_app. cbn. unfold calls_of.
    repeat match goal with E : _ = Ok _ |- _ => rewrite E; cbn [mbind result_bind] end. lia.
Qed.

Lemma turn_loop_spec fuel guard s l :
  guard_limits guard = limits envelope → turn_inv 0 l s → may_refuse s →
  (Z.to_nat (max_provider_round_trips_per_turn (limits envelope) - ts_provider_round_trips s) < fuel)%nat →
  wp (turn_loop catalog instructions envelope fuel guard s) ended l.
Proof.
  intros Hg. revert s l. induction fuel as [|fuel IH]; intros s l Hi Hm Hf; [lia|]. cbn [turn_loop].
  apply wp_bind. unfold boundary_terminal, cancelled, read_clock. apply wp_bind. wp_step. intros b.
  apply (turn_inv_quiet _ _ _ (EvProbe b)) in Hi; [|done]. destruct b; wp_step.
  { apply finish_spec. by eapply turn_inv_ended. }
  apply wp_bind. wp_step. intros now. apply (turn_inv_quiet _ _ _ (EvClock now)) in Hi; [|done].
  destruct (wall_exhausted guard now); [apply finish_spec; by eapply turn_inv_ended|].
  destruct (round_trip_denied guard (ts_provider_round_trips s)) eqn:Hd;
    [apply finish_spec; by eapply turn_inv_ended|].
  unfold round_trip_denied in Hd. rewrite Hg in Hd. apply Z.leb_gt in Hd.
  set (l1 := (l ++ [_]) ++ [_]) in *. wp_step. intros a.
  assert (Hq : step_ok l1 (EvInvoke (turn_request catalog instructions envelope s) a)).
  { exists (ts_transcript s). split; [by apply (ti_transcript _ _ _ Hi)|done]. }
  unfold handle_response. destruct (read_response a s) as [s' r] eqn:Hr.
  destruct (read_response_spec _ _ _ _ _ _ Hi Hm Hq Hd Hr) as [Hinv Hrt].
  destruct r as [[response [|call calls]]|e]; cbn [invoked] in Hinv.
  - destruct Hinv as [Hinv Hm']. unfold answer_turn. apply wp_bind. wp_step.
    destruct (read_envelope response) as [e|e]; wp_step; [|by eapply turn_inv_sound].
    destruct (strip (extract_output_text e) ==b "");
      [apply finish_spec; by eapply turn_inv_ended|].
    unfold emit. apply wp_bind. wp_step. apply finish_spec, ended_quiet; [done|].
    pose proof (turn_inv_sound _ _ _ Hinv) as Hs. destruct Hinv.
    split; cbn; try done; try lia. intros _. rewrite <- ti_records0. cbn. lia.
  - destruct Hinv as [Hinv Hm']. apply wp_bind. eapply wp_mono.
    2: { apply wp_extends, (serve_spec guard (call :: calls) _ 0); [done|by rewrite Nat.add_0_r|done]. }
    intros l' [[[t|] s2]|e] [Hs Hpre]; wp_step; [apply finish_spec; by destruct Hs| |done].
    destruct Hs as [Hi2 Hm2]. apply IH; try done.
    pose proof (ti_invokes _ _ _ Hi2). pose proof (ti_invokes _ _ _ Hinv).
    specialize (Hrt eq_refl). destruct Hpre as [k ->]. unfold invokes in *. rewrite !List.filter_app, !length_app in *. lia.
  - destruct Hinv as [He Hs]. destruct (is_unusable e); [by apply finish_spec|done].
Qed.

Lemma execute_spec :
  validate_limits (env_limits envelope) = Ok tt →
  wp (execute catalog instructions envelope) ended [].
Proof.
  intros Hv. unfold validate_limits in Hv. inv_ok. cbn in Hv. bools.
  repeat match goal with E : (_ <=? 0)%Z = false |- _ => apply Z.leb_gt in E end.
  assert (Hi : turn_inv 0 [] (initial_state (initial_transcript envelope))).
  { split; cbn; try done; try (unfold limits; lia).
    - intros l1 e l2 E. by destruct l1.
    - constructor.
    - exists []. split; [constructor|by rewrite app_nil_r]. }
  unfold execute. apply wp_bind. wp_step. destruct (raise_when _ _) as [[]|e]; wp_step.
  - unfold read_clock, emit. apply wp_bind. wp_step. intros t. apply wp_bind. wp_step.
    apply turn_loop_spec; [done| |unfold may_refuse, limits; cbn; lia|].
    + apply (turn_inv_quiet _ [EvClock t]); [done|]. by apply (turn_inv_quiet _ []).
    + unfold turn_fuel. cbn. rewrite Z.sub_0_r. lia.
  - by eapply turn_inv_sound.
Qed.
End spec.

(** C24: Whatever the provider, the tools, the store, the policy and the clock answer, a turn ends;
    it makes at most the declared number of round trips and runs at most the declared number
    of tools, and a terminal reports counters within the budgets (the call that exceeded the
    tool budget is counted). *)
Theorem turn_within_budget `{PyRuntime} `{JsonLoads} `{ResponseModels} catalog instructions envelope :
  validate_limits (env_limits envelope) = Ok tt →
  settles (execute catalog instructions envelope)
  ∧ ∀ log r, plays (execute catalog instructions envelope) log r →
      (Z.of_nat (invokes log) <= max_provider_round_trips_per_turn (env_limits envelope))%Z
      ∧ (Z.of_nat (runs log) <= max_tool_calls_per_turn (env_limits envelope))%Z
      ∧ ∀ t, r = Ok t →
          (tt_provider_round_trips t <= Z.of_nat (invokes log))%Z
          ∧ (tt_tool_calls t <= max_tool_calls_per_turn (env_limits envelope) + 1)%Z
          ∧ (0 <= tt_refusals t <= max_refusals_per_turn (env_limits envelope))%Z.
Proof.
  intros Hv%(execute_spec catalog instructions). split; [by eapply wp_settles|].
  intros log r Hp. pose proof (wp_plays _ _ _ _ _ Hv Hp) as He. cbn in He.
  destruct r as [t|e]; cbn in He.
  - destruct He as [[O A I R] Hr Hc Hf _]. split_and!; [done..|]. by intros t' [= <-].
  - destruct He as [O A I R]. by split_and!.
Qed.


(** The refusals of the turn have a stage and texts that are not blank. *)
Lemma refusal_texts code m r :
  refusal_messages code = Some (m, r) →
  is_ok (non_empty m) = true ∧ is_ok (non_empty r) = true ∧ is_ok (code_stage code) = true.
Proof. destruct code; intros Hm; try discriminate Hm; injection Hm as <- <-; by vm_compute. Qed.

Lemma refusal_error_blank code name :
  is_Some (refusal_messages code) → trim name = "" →
  refusal_error code name [] = Raise (ValidationError "string_too_short").
Proof.
  intros [[m r] Hm] Hn. destruct (refusal_texts _ _ _ Hm) as (Em & Er & Es).
  unfold refusal_error, lab_agent_error. rewrite Hm. cbn [require mbind result_bind].
  destruct (code_stage code); [|done]. destruct (non_empty m); [|done]. destruct (non_empty r); [|done].
  cbn [mbind result_bind Catalog.map_res optional]. unfold non_empty. by rewrite Hn.
Qed.

(** A call whose name is blank text, which the reader of responses accepts, ends no turn: building
    its refusal raises out of the loop before anything is recorded or shown, whatever
    terminal the turn could have had. *)
Theorem blank_tool_name_escapes `{PyRuntime} `{JsonLoads} `{ResponseModels} catalog envelope
    guard continue response id call rest s :
  extract_response_id response = Ok id →
  (e ← read_envelope response; function_calls (rv_output e)) = Ok (call :: rest) →
  trim (fc_name call) = "" → known_tool call (effective catalog envelope) = None →
  handle_response catalog envelope continue guard (Ok response) s
  = Done (Raise (ValidationError "string_too_short")).
Proof.
  intros Hid Hcalls Hname Hknown. unfold handle_response, read_response. rewrite Hid.
  apply bind_ok in Hcalls as (e & -> & Hcalls). cbn [mbind result_bind]. rewrite Hcalls.
  cbn [mbind result_bind serve]. unfold serve_call.
  assert (Hp : parse_arguments (fc_arguments call) (fc_name call) = Raise (ValidationError "string_too_short")
    ∨ ∃ m, parse_arguments (fc_arguments call) (fc_name call) = Ok (m, None)).
  { unfold parse_arguments. destruct (json_loads _) as [[]|]; try (by right; eexists); left;
      by rewrite refusal_error_blank. }
  destruct Hp as [->|[m ->]]; [done|]. unfold mbind at 1 2, program_bind. cbn [attempt program_bind_go].
  rewrite Hknown. destruct (bool_decide _); by rewrite refusal_error_blank.
Qed.

(** ** A small turn *)

(** Answers as functions of the log so far. *)
Record Answers := MkAnswers {
  on_clock : list lab_event → Z;
  on_probe : list lab_event → bool;
  on_invoke : list lab_event → json → result json;
  on_tool : string → LabLoop.Arguments → ToolOutcome
}.

Fixpoint drive {A} (p : program A) (o : Answers) (l : list lab_event) : list lab_event * option (result A) :=
  match p with
  | Done r => (l, Some r)
  | Clock k => drive (k (on_clock o l)) o (l ++ [EvClock (on_clock o l)])
  | Probe k => drive (k (on_probe o l)) o (l ++ [EvProbe (on_probe o l)])
  | Invoke q k => drive (k (on_invoke o l q)) o (l ++ [EvInvoke q (on_invoke o l q)])
  | RunTool n a k => drive (k (on_tool o n a)) o (l ++ [EvTool n a (on_tool o n a)])
  | Record_ t k => drive (k (Ok tt)) o (l ++ [EvRecord t (Ok tt)])
  | CheckScope n a k => drive (k (Ok None)) o (l ++ [EvScope n a (Ok None)])
  | CheckClass n a k => drive (k (Ok None)) o (l ++ [EvClass n a (Ok None)])
  | Emit e k => drive k o (l ++ [EvEmit e])
  | Diverged => (l, None)
  end.

Lemma drive_plays {A} (p : program A) o l log r :
  drive p o l = (log, Some r) → ∃ k, log = l ++ k ∧ plays p k r.
Proof.
  revert l. induction p; cbn; intros l Hd;
    try (match goal with IH : _ |- _ => apply IH in Hd as (k' & -> & Hk) end;
         rewrite <- app_assoc; eexists; split; [done|by constructor]).
  - injection Hd as <- <-. exists []. rewrite app_nil_r. split; [done|constructor].
  - done.
Qed.

(** One tool, and the documents of the sample. *)
Definition list_runs : LabTool := MkLabTool "list_runs" default_forms (strict_schema [
  ("limit", JObj [("type", JStr "integer"); ("minimum", JInt 1); ("maximum", JInt 100)]);
  ("status", JObj [("type", JStr "string"); ("nullable", JBool true)])] ["limit"; "status"]).

#[local] Instance sample_loads : JsonLoads := λ raw,
  if raw ==b "few" then Some (JObj [("limit", JInt 3); ("status", JNull)])
  else if raw ==b "many" then Some (JObj [("limit", JInt 300); ("status", JNull)])
  else None.

(** A response is its text, or the name and arguments of one call. *)
#[local] Instance sample_responses : ResponseModels := λ response,
  match response with
  | JStr text => Ok (MkResponseEnvelope (Some "r") (Some text) [])
  | JArr [JStr name; JStr arguments] =>
      Ok (MkResponseEnvelope (Some "r") None
            [MkOutputItem (Some "function_call") (Some "call") (Some name) (Some arguments) []])
  | _ => Raise (ValidationError "missing")
  end.

Definition sample_limits : LabAgentTurnLimits := MkTurnLimits 12 8 120 4 2048.

Definition sample_envelope : LabAgentEnvelope :=
  MkEnvelope "chat_1" (MkScope "ws" (Some "project") None None) [MkAgentMessage ROLE_HUMAN 1 "which runs?"]
    [] [] [] ["list_runs"] sample_limits.

(** The provider first asks for too many, then for a few, and then answers. *)
Definition sample_answers : Answers := MkAnswers (λ _, 0%Z) (λ _, false)
  (λ l _, Ok (match invokes l with
    | O => JArr [JStr "list_runs"; JStr "many"]
    | S O => JArr [JStr "list_runs"; JStr "few"]
    | _ => JStr "run_1"
    end))
  (λ _ _, ToolReturned (MkToolResult (JObj [("runs", JArr [JStr "run_1"])]) [] ["run_1"])).

Definition sample_turn : program LabTurnTerminal :=
  execute (H := demo) [("list_runs", list_runs)] "" sample_envelope.

Definition sample_log : list lab_event := fst (drive sample_turn sample_answers []).
Definition sample_terminal : LabTurnTerminal :=
  MkTerminal ANSWERED "run_1" true None None ["run_1"] 3 2 1
    [("input_tokens", 0%Z); ("output_tokens", 0%Z); ("total_tokens", 0%Z)].

Lemma sample_plays : plays sample_turn sample_log (Ok sample_terminal).
Proof.
  destruct (drive_plays sample_turn sample_answers [] sample_log (Ok sample_terminal)) as (k & E & Hk);
    [vm_compute; reflexivity|]. by rewrite E.
Qed.

Lemma turn_within_budget_witness :
  settles sample_turn ∧ (Z.of_nat (invokes sample_log) <= 8)%Z ∧ (Z.of_nat (runs sample_log) <= 12)%Z
  ∧ runs sample_log = 1%nat ∧ records sample_log = 2%nat.
Proof.
  destruct (turn_within_budget (H := demo) [("list_runs", list_runs)] "" sample_envelope eq_refl) as [Hs Hb].
  destruct (Hb _ _ sample_plays) as (Hi & Hr & _).
  split; [exact Hs|]. split; [exact Hi|]. split; [exact Hr|]. split; vm_compute; reflexivity.
Defined.


Lemma blank_tool_name_escapes_witness :
  handle_response (H := demo) [("list_runs", list_runs)] sample_envelope (λ _, Diverged)
    (MkGuard sample_limits 0) (Ok (JArr [JStr " "; JStr "few"])) (initial_state [])
  = Done (Raise (ValidationError "string_too_short")).
Proof.
  apply (blank_tool_name_escapes (H := demo) [("list_runs", list_runs)] sample_envelope
    (MkGuard sample_limits 0) (λ _, Diverged) (JArr [JStr " "; JStr "few"]) "r"
    (MkFunctionCall "call" " " "few") [] (initial_state [])); vm_compute; reflexivity.
Defined.
