(* ===== verification/LabSession.v ===== *)
(** * A persisted turn of the laboratory agent
    (src/src/evidrun/lab/session.py, served by
    src/src/evidrun/entrypoints/api/routers/lab_turns.py).

    [run_turn] reads the session, stores the human message, prepares the envelope from the
    stored transcript, stores which instruction was sent, runs the loop against the store of
    traces, and stores the answer of a complete turn. [turn_run] is its relation over the
    laboratory tables: what it leaves, the log of the loop and how it ended. The composition
    of the instruction and the catalog of tools are parameters of the turn; the queue that
    carries presentation events to the consumer is not modelled, and a consumer that leaves
    is an exception of [Invoke].

    Theorems: what a turn leaves in the store is exactly the human message, the instruction,
    the records of its log and the answer of a complete turn; a blank message, which the
    route accepts, makes every later turn of its session fail before the provider is asked. *)

From S2P Require Import Prelude PyText PyJson Base Authoring Runtime Events Registry ContractStore Store.
From S2P Require Import LedgerInv EvalStore EvalInv System Catalog CatalogInv ReadModel Artifacts Subject.
From S2P Require Import Samples Provenance Scenario Offline LabStore LabChat LabTurn LabLoop LabLoopSpec.

(** [ComposedInstruction]. *)
Record ComposedInstruction := MkInstructionText {
  ci_text : string;
  ci_digest : string
}.

Section turn.
Context `{PyRuntime} `{HumanVerifier} `{RevisionModels} `{UnicodeTables} `{LegacyExperiments}
  `{ComparisonTable} `{JsonLoads} `{ResponseModels}.

(** [build_catalog(...)], and [compose_instruction] of the scope and the offered tools. *)
Variables (catalog : list (string * LabTool))
  (compose_instruction : LabAgentSessionScope → list (string * LabTool) → result ComposedInstruction)
  (turn_limits : LabAgentTurnLimits).

Definition agent_message (m : LabMessage) : result LabAgentMessage :=
  role ← LabAgentMessageRole_of (lm_role m);
  lab_agent_message role (lm_content m) (lm_sequence m).

(** [LabAgentEnvelope(...)]. *)
Definition lab_agent_envelope (session_id : string) (scope : LabAgentSessionScope)
    (history : list LabAgentMessage) (offered : list string) : result LabAgentEnvelope :=
  session_id ← non_empty session_id;
  offered ← map_res non_empty offered;
  validate_limits turn_limits;;
  let envelope := MkEnvelope session_id scope history [] [] [] offered turn_limits in
  validate_disclosure envelope;;
  Ok envelope.

Definition prepare_turn (session_id workspace_id : string) (session : LabSession) (w : World) (s : LabDB)
    : result (LabAgentEnvelope * ComposedInstruction) :=
  scope ← session_scope session;
  let offered := offered_tools catalog (form scope) in
  messages ← list_messages session_id workspace_id w s;
  history ← map_res agent_message messages;
  envelope ← lab_agent_envelope session_id scope history (map fst offered);
  instruction ← compose_instruction scope offered;
  Ok (envelope, instruction).

(** The store answers the records of a log in order. *)
Inductive stored (w : World) : LabDB → list lab_event → LabDB → Prop :=
  | stored_nil s : stored w s [] s
  | stored_record s s' t r log id now :
      r = (λ _, tt) <$> (LabStore.append_tool_trace (tq_session_id t) (tq_workspace_id t)
        (tq_turn_sequence t) (tq_tool_name t) (JObj (tq_arguments t)) (map JStr (tq_requested_refs t))
        (map JStr (tq_returned_refs t)) (tq_outcome t) (tq_refusal_code t) id now w s).2 →
      stored w (LabStore.append_tool_trace (tq_session_id t) (tq_workspace_id t)
        (tq_turn_sequence t) (tq_tool_name t) (JObj (tq_arguments t)) (map JStr (tq_requested_refs t))
        (map JStr (tq_returned_refs t)) (tq_outcome t) (tq_refusal_code t) id now w s).1 log s' →
      stored w s (EvRecord t r :: log) s'
  | stored_other s s' e log :
      (∀ t r, e ≠ EvRecord t r) → stored w s log s' → stored w s (e :: log) s'.

(** Everything before the loop; [at1] and [at2] are the identifiers and instants of the two
    rows it writes. *)
Definition begin_turn (sid ws content : string) (at1 at2 : string * instant) (w : World) (s : LabDB)
    : LabDB * result (LabAgentEnvelope * ComposedInstruction) :=
  match get_session sid ws w s with
  | Raise e => (s, Raise e)
  | Ok session =>
      match append_message sid ws "human" content at1.1 at1.2 w s with
      | (s1, Raise e) => (s1, Raise e)
      | (s1, Ok human) =>
          match prepare_turn sid ws session w s1 with
          | Raise e => (s1, Raise e)
          | Ok (envelope, instruction) =>
              match append_turn_instruction sid ws (lm_sequence human) (ci_digest instruction) at2.1 at2.2 w s1 with
              | (s2, Raise e) => (s2, Raise e)
              | (s2, Ok _) => (s2, Ok (envelope, instruction))
              end
          end
      end
  end.

(** [if terminal.complete and terminal.content]. *)
Definition speaks (t : LabTurnTerminal) : bool := tt_complete t && (tt_content t !=b "").

Definition finish_turn (sid ws : string) (t : LabTurnTerminal) (at3 : string * instant) (w : World)
    (s : LabDB) : LabDB * result LabTurnTerminal :=
  if speaks t then
    let '(s', r) := append_message sid ws "agent" (tt_content t) at3.1 at3.2 w s in (s', (λ _, t) <$> r)
  else (s, Ok t).

(** [run_turn]: the tables it leaves, the log of its loop and how it ended. *)
Inductive turn_run (w : World) (sid ws content : string) (s : LabDB)
    : LabDB → list lab_event → result LabTurnTerminal → Prop :=
  | turn_refused at1 at2 s1 e :
      begin_turn sid ws content at1 at2 w s = (s1, Raise e) →
      turn_run w sid ws content s s1 [] (Raise e)
  | turn_failed at1 at2 s1 envelope instruction log e s2 :
      begin_turn sid ws content at1 at2 w s = (s1, Ok (envelope, instruction)) →
      plays (execute catalog (ci_text instruction) envelope) log (Raise e) → stored w s1 log s2 →
      turn_run w sid ws content s s2 log (Raise e)
  | turn_ended at1 at2 s1 envelope instruction log t s2 at3 s3 r :
      begin_turn sid ws content at1 at2 w s = (s1, Ok (envelope, instruction)) →
      plays (execute catalog (ci_text instruction) envelope) log (Ok t) → stored w s1 log s2 →
      finish_turn sid ws t at3 w s2 = (s3, r) →
      turn_run w sid ws content s s3 log r.

(** ** What a turn leaves *)

Variable verify : HumanAttestationRecord → string → result unit.
Context `{!HexDigests}.

Lemma spoken_app sid h k : spoken sid (h ++ k) = spoken sid h ++ spoken sid k.
Proof. apply omap_app. Qed.
Lemma instructed_app sid h k : instructed sid (h ++ k) = instructed sid h ++ instructed sid k.
Proof. apply omap_app. Qed.
Lemma recorded_app sid h k : recorded sid (h ++ k) = recorded sid h ++ recorded sid k.
Proof. apply omap_app. Qed.

(** The records of a log the store accepted for a session. *)
Definition log_recorded (sid : string) (log : list lab_event)
    : list (Z * string * string * list json * list json * string * option string) :=
  omap (λ e, match e with
    | EvRecord t (Ok _) =>
        if tq_session_id t ==b sid
        then Some (tq_turn_sequence t, tq_tool_name t, sha256_json (JObj (tq_arguments t)),
                   map JStr (tq_requested_refs t), map JStr (tq_returned_refs t), tq_outcome t, tq_refusal_code t)
        else None
    | _ => None
    end) log.

(** The turn adds to the history what [own] says. *)
Definition extends (w : World) (s' : LabDB) (h : list lab_entry)
    (said : string → list (string * string)) (instr : string → list (Z * string))
    (traced : string → list (Z * string * string * list json * list json * string * option string)) : Prop :=
  ∃ k, lab_history verify w s' (h ++ k)
    ∧ (∀ sid, spoken sid k = said sid) ∧ (∀ sid, instructed sid k = instr sid)
    ∧ (∀ sid, recorded sid k = traced sid).

Lemma history_message w s h sid ws role content id now s' r :
  lab_history verify w s h → append_message sid ws role content id now w s = (s', r) →
  extends w s' h (λ i, if is_ok r && (sid ==b i) then [(role, content)] else []) (λ _, []) (λ _, []).
Proof.
  intros Hh He. pose proof (history_call verify _ _ _ ws (AppendMessage sid role content id now) Hh) as Hc.
  cbn [lab_exec] in Hc. rewrite He in Hc. cbn [replied fst snd] in Hc.
  eexists. split; [exact Hc|]. split_and!; intros i; try done. cbn.
  destruct r; cbn; [|done]. by destruct (sid ==b i).
Qed.

Lemma history_instruction w s h sid ws turn digest id now s' r :
  lab_history verify w s h → append_turn_instruction sid ws turn digest id now w s = (s', r) →
  extends w s' h (λ _, []) (λ i, if is_ok r && (sid ==b i) then [(turn, digest)] else []) (λ _, []).
Proof.
  intros Hh He. pose proof (history_call verify _ _ _ ws (AppendInstruction sid turn digest id now) Hh) as Hc.
  cbn [lab_exec] in Hc. rewrite He in Hc. cbn [replied fst snd] in Hc.
  eexists. split; [exact Hc|]. split_and!; intros i; try done. cbn.
  destruct r; cbn; [|done]. by destruct (sid ==b i).
Qed.

Lemma extends_trans w s1 s2 h said1 instr1 traced1 said2 instr2 traced2 :
  extends w s1 h said1 instr1 traced1 →
  (∀ h', lab_history verify w s1 h' → extends w s2 h' said2 instr2 traced2) →
  extends w s2 h (λ i, said1 i ++ said2 i) (λ i, instr1 i ++ instr2 i) (λ i, traced1 i ++ traced2 i).
Proof.
  intros (k1 & Hk1 & S1 & I1 & T1) Hn. destruct (Hn _ Hk1) as (k2 & Hk2 & S2 & I2 & T2).
  exists (k1 ++ k2). rewrite app_assoc. split; [done|].
  split_and!; intros i; rewrite ?spoken_app, ?instructed_app, ?recorded_app;
    by rewrite ?S1, ?S2, ?I1, ?I2, ?T1, ?T2.
Qed.

Lemma history_stored w s h log s' :
  lab_history verify w s h → stored w s log s' →
  extends w s' h (λ _, []) (λ _, []) (λ i, log_recorded i log).
Proof.
  intros Hh Hs. revert h Hh. induction Hs as [s|s s' t r log id now Hr Hs IH|s s' e log He Hs IH]; intros h Hh.
  - exists []. by rewrite app_nil_r.
  - pose proof (history_call verify _ _ _ (tq_workspace_id t) (AppendTrace (tq_session_id t) (tq_turn_sequence t)
      (tq_tool_name t) (JObj (tq_arguments t)) (map JStr (tq_requested_refs t)) (map JStr (tq_returned_refs t))
      (tq_outcome t) (tq_refusal_code t) id now) Hh) as Hc.
    cbn [lab_exec] in Hc. unfold replied in Hc. cbn [fst snd] in Hc.
    destruct (IH _ Hc) as (k & Hk & S & I & T). rewrite <- app_assoc in Hk. eexists. split; [exact Hk|].
    split_and!; intros i; [apply S|apply I|].
    cbn. fold (recorded i k). rewrite T, Hr.
    destruct (LabStore.append_tool_trace _ _ _ _ _ _ _ _ _ _ _ _ _) as [s1 [x|x]]; cbn; [|done].
    by destruct (tq_session_id t ==b i).
  - destruct (IH _ Hh) as (k & Hk & S & I & T). exists k. split; [done|]. split_and!; try done.
    intros i. rewrite T. destruct e as [| | | |t r| | |]; try done. by destruct (He t r).
Qed.

(** A message is numbered after those of its session. *)
Lemma appended_sequence w s h sid ws role content id now s' m :
  lab_history verify w s h → append_message sid ws role content id now w s = (s', Ok m) →
  lm_sequence m = Z.of_nat (S (length (spoken sid h))).
Proof.
  intros (_ & Hi & Hl)%(history_facts verify) He.
  pose proof (lab_exec_effect ws (AppendMessage sid role content id now) w s Hi) as Hx.
  cbn [lab_exec] in Hx. rewrite He in Hx. inversion Hx; subst.
  rewrite <- (lg_messages _ _ Hl), length_map. done.
Qed.

Definition said_by_turn (sid : string) (l : list (string * string)) (i : string) : list (string * string) :=
  if sid ==b i then l else [].

Lemma begin_turn_history w s h sid ws content at1 at2 s1 r :
  lab_history verify w s h → begin_turn sid ws content at1 at2 w s = (s1, r) →
  match r with
  | Ok (envelope, instruction) =>
      extends w s1 h (said_by_turn sid [("human", content)])
        (λ i, if sid ==b i then [(Z.of_nat (S (length (spoken sid h))), ci_digest instruction)] else [])
        (λ _, [])
  | Raise _ => ∃ l, extends w s1 h (said_by_turn sid l) (λ _, []) (λ _, [])
      ∧ l `prefix_of` [("human", content)]
  end.
Proof.
  intros Hh Hb. unfold begin_turn in Hb.
  assert (Hnil : extends w s h (said_by_turn sid []) (λ _, []) (λ _, [])).
  { exists []. rewrite app_nil_r. split; [done|]. split_and!; intros i; try done.
    unfold said_by_turn. by destruct (sid ==b i). }
  destruct (get_session sid ws w s) as [session|e].
  2: { injection Hb as <- <-. exists []. split; [exact Hnil|apply prefix_nil]. }
  destruct (append_message sid ws "human" content at1.1 at1.2 w s) as [s0 [human|e]] eqn:Ha.
  2: { injection Hb as <- <-. exists []. split; [|apply prefix_nil].
       destruct (history_message _ _ _ _ _ _ _ _ _ _ _ Hh Ha) as (k & Hk & S & I & T). exists k.
       split_and!; try done. intros i. rewrite S. cbn. unfold said_by_turn. by destruct (sid ==b i). }
  pose proof (appended_sequence _ _ _ _ _ _ _ _ _ _ _ Hh Ha) as Hseq.
  apply (history_message _ _ h) in Ha; [|done]. cbn [is_ok andb] in Ha.
  destruct (prepare_turn sid ws session w s0) as [[envelope instruction]|e].
  2: { injection Hb as <- <-. exists [("human", content)]. split; [exact Ha|done]. }
  destruct (append_turn_instruction _ _ _ _ _ _ w s0) as [s2 [i|e]] eqn:Hi; injection Hb as <- <-.
  - pose proof (extends_trans _ _ _ _ _ _ _ _ _ _ Ha (λ h' Hh', history_instruction _ _ h' _ _ _ _ _ _ _ _ Hh' Hi))
      as (k & Hk & S & I & T). exists k. split_and!; try done; intros j.
    + rewrite S, app_nil_r. done.
    + rewrite I. cbn [app is_ok andb]. by rewrite Hseq.
  - pose proof (extends_trans _ _ _ _ _ _ _ _ _ _ Ha (λ h' Hh', history_instruction _ _ h' _ _ _ _ _ _ _ _ Hh' Hi))
      as (k & Hk & S & I & T). exists [("human", content)]. split; [|done]. exists k.
    split_and!; try done; intros j; rewrite ?S, ?app_nil_r; done.
Qed.

Lemma finish_turn_history w s h sid ws t at3 s' r :
  lab_history verify w s h → finish_turn sid ws t at3 w s = (s', r) →
  (is_ok r = true → r = Ok t)
  ∧ extends w s' h (said_by_turn sid (if speaks t && is_ok r then [("agent", tt_content t)] else []))
      (λ _, []) (λ _, []).
Proof.
  intros Hh Hf. unfold finish_turn in Hf. destruct (speaks t).
  - destruct (append_message sid ws "agent" (tt_content t) at3.1 at3.2 w s) as [s0 x] eqn:Ha.
    injection Hf as <- <-. split; [by destruct x|].
    destruct (history_message _ _ _ _ _ _ _ _ _ _ _ Hh Ha) as (k & Hk & S & I & T). exists k.
    split_and!; try done. intros i. rewrite S. unfold said_by_turn. destruct x; cbn; by destruct (sid ==b i).
  - injection Hf as <- <-. split; [done|]. exists []. rewrite app_nil_r. split; [done|].
    split_and!; intros i; try done. unfold said_by_turn. by destruct (sid ==b i).
Qed.

Lemma said_here sid l : said_by_turn sid l sid = l.
Proof. unfold said_by_turn. by rewrite bool_decide_true. Qed.

Lemma said_elsewhere sid l h k i (f : string → list (Z * string)) :
  (∀ j, spoken j k = said_by_turn sid l j) → (∀ j, instructed j k = f j) → f i = [] → i ≠ sid →
  spoken i (h ++ k) = spoken i h ∧ instructed i (h ++ k) = instructed i h.
Proof.
  intros S I Hf Hi. rewrite spoken_app, instructed_app, S, I, Hf, !app_nil_r. split; [|done].
  unfold said_by_turn. by rewrite bool_decide_false, app_nil_r.
Qed.


(** C40: The route accepts a message of spaces. From then on every turn of its session raises before
    the provider is asked or any tool runs: preparing the envelope refuses the stored
    message, and no operation removes it. *)
Theorem blank_message_wedges_session w s h sid role blank ws content s' log out :
  lab_history verify w s h → (role, blank) ∈ spoken sid h → trim blank = "" →
  turn_run w sid ws content s s' log out →
  log = [] ∧ ∃ e, out = Raise e.
Proof.
  intros Hh Hin Hblank Hr.
  assert (Hno : ∀ at1 at2 s1 x, begin_turn sid ws content at1 at2 w s = (s1, Ok x) → False).
  { intros at1 at2 s1 x Hb. unfold begin_turn in Hb.
    destruct (get_session sid ws w s) as [session|]; [|done].
    destruct (append_message sid ws "human" content at1.1 at1.2 w s) as [s0 [human|]] eqn:Ha; [|done].
    destruct (prepare_turn sid ws session w s0) as [p|] eqn:Hp; [|done].
    destruct (history_message _ _ _ _ _ _ _ _ _ _ _ Hh Ha) as (k & Hk & _).
    apply (history_facts verify) in Hk as (_ & Hi & Hl).
    unfold prepare_turn in Hp. inv_ok.
    match goal with Hm : list_messages _ _ _ _ = Ok _, Ha : map_res agent_message _ = Ok _ |- _ =>
      rename Hm into Hlist, Ha into Hagent end.
    assert (Hg : ∃ chat, get_session sid ws w s0 = Ok chat).
    { unfold list_messages in Hlist. inv_ok. by eexists. }
    destruct Hg as [chat Hg]. rewrite (list_messages_rows _ _ _ _ _ Hi Hg) in Hlist. injection Hlist as <-.
    assert (Hs : (role, blank) ∈ map message_pair (messages_of sid s0)).
    { rewrite (lg_messages _ _ Hl), spoken_app. set_solver. }
    apply list_elem_of_fmap in Hs as (m & Em & Hm).
    apply (list_elem_of_fmap_2 message_of) in Hm.
    destruct (map_res_elem _ _ _ _ Hagent Hm) as (y & Hy & _).
    unfold agent_message, lab_agent_message, non_empty in Hy. unfold message_pair in Em.
    cbn [lm_role lm_content lm_sequence message_of] in Hy. injection Em as Er Eb.
    rewrite <- Eb, Hblank in Hy. inv_ok. done. }
  destruct Hr; [split; [done|by eexists]|exfalso; by eapply Hno..].
Qed.
End turn.

(** ** A turn over the small laboratory *)

#[local] Existing Instance literal_models.
#[local] Existing Instance ascii_tables.
#[local] Existing Instance no_comparisons.
#[local] Existing Instance sample_loads.
#[local] Existing Instance sample_responses.

Definition demo_compose (scope : LabAgentSessionScope) (offered : list (string * LabTool))
    : result ComposedInstruction := Ok (MkInstructionText "Answer." (digest_of "c")).

Definition demo_tools : list (string * LabTool) := [("list_runs", list_runs)].

Definition demo_begin (content : string) (s : LabDB) : LabDB * result (LabAgentEnvelope * ComposedInstruction) :=
  begin_turn demo_tools demo_compose sample_limits "chat_1" "ws" content ("msg_8", 20%Z) ("labinstruction_8", 21%Z)
    demo_world s.

(** The store's answers to a log whose records are numbered. *)
Fixpoint store_log (w : World) (s : LabDB) (log : list lab_event) (n : Z) : LabDB * bool :=
  match log with
  | [] => (s, true)
  | EvRecord t r :: rest =>
      let x := LabStore.append_tool_trace (tq_session_id t) (tq_workspace_id t) (tq_turn_sequence t)
        (tq_tool_name t) (JObj (tq_arguments t)) (map JStr (tq_requested_refs t))
        (map JStr (tq_returned_refs t)) (tq_outcome t) (tq_refusal_code t) ("labtrace_8" +:+ pretty n) n w s in
      let y := store_log w x.1 rest (n + 1) in
      (y.1, y.2 && bool_decide (r = (λ _, tt) <$> x.2))
  | _ :: rest => store_log w s rest n
  end.

Lemma store_log_stored w s log n : (store_log w s log n).2 = true → stored w s log (store_log w s log n).1.
Proof.
  revert s n. induction log as [|e log IH]; intros s n Hs; [constructor|].
  destruct e as [| | | |t r| | |]; cbn in *; try (apply stored_other; [done|by apply IH]).
  bools. eapply stored_record; [done|by apply IH].
Qed.

Definition demo_begun : LabDB := (demo_begin "which runs?" demo_lab.1).1.
Definition demo_envelope : LabAgentEnvelope := Eval vm_compute in
  match (demo_begin "which runs?" demo_lab.1).2 with Ok (e, _) => e | Raise _ => sample_envelope end.
Definition demo_turn : program LabTurnTerminal := execute demo_tools "Answer." demo_envelope.
Definition demo_log : list lab_event := Eval vm_compute in fst (drive demo_turn sample_answers []).
Definition demo_stored : LabDB := (store_log demo_world demo_begun demo_log 22).1.
Definition demo_after : LabDB :=
  (finish_turn "chat_1" "ws" sample_terminal ("msg_9", 30%Z) demo_world demo_stored).1.

Lemma demo_turn_run :
  turn_run demo_tools demo_compose sample_limits demo_world "chat_1" "ws" "which runs?" demo_lab.1 demo_after
    demo_log (Ok sample_terminal).
Proof.
  apply (turn_ended _ _ _ _ _ _ _ _ ("msg_8", 20%Z) ("labinstruction_8", 21%Z) demo_begun demo_envelope
    (MkInstructionText "Answer." (digest_of "c")) demo_log sample_terminal demo_stored ("msg_9", 30%Z)).
  - vm_compute. reflexivity.
  - destruct (drive_plays demo_turn sample_answers [] demo_log (Ok sample_terminal)) as (k & -> & Hk);
      [vm_compute; reflexivity|exact Hk].
  - apply store_log_stored. vm_compute. reflexivity.
  - vm_compute. reflexivity.
Qed.


(** The same laboratory after a message of one space. *)
Definition blank_commands : list (string * lab_command) :=
  demo_commands ++ [("ws", AppendMessage "chat_1" "human" " " "msg_7" 19)].

Definition blank_lab : LabDB * list lab_entry := Eval vm_compute in lab_run demo_world blank_commands.

Lemma blank_message_wedges_session_witness :
  (demo_begin "which runs?" blank_lab.1).2 = Raise (ValidationError "string_too_short")
  ∧ ∃ e, Raise (A := LabTurnTerminal) (ValidationError "string_too_short") = Raise e.
Proof.
  split; [vm_compute; reflexivity|].
  eapply (blank_message_wedges_session demo_tools demo_compose sample_limits no_verifier demo_world
    blank_lab.1 blank_lab.2 "chat_1" "human" " " "ws" "which runs?").
  - exact (lab_run_history demo_world blank_commands demo_world_reachable).
  - apply (bool_decide_eq_true (_ ∈ _)). vm_compute. reflexivity.
  - reflexivity.
  - apply (turn_refused _ _ _ _ _ _ _ _ ("msg_8", 20%Z) ("labinstruction_8", 21%Z)
      (demo_begin "which runs?" blank_lab.1).1). vm_compute. reflexivity.
Defined.
